(* ===== verification/_CoqProject ===== *)
-Q . S2P
Prelude.v
GoStrings.v
GoRegexp.v
GoJson.v
GoJsonFacts.v
GoNet.v
GoNetFacts.v
GoHash.v
GoTime.v
GoDuration.v
GoBase64.v
Ip4.v
Ip6.v
Lease.v
Watch.v
SubnetKey.v
Config.v
LocalManager.v
Registry.v
Kube.v
IpTables.v
IpTablesFacts.v
Packets.v
NfTables.v
Backend.v
BackendFacts.v
Iface.v
IpMatch.v
Vxlan.v
VxlanFacts.v
VxlanDevice.v
Wireguard.v
WireguardFacts.v
LeaseText.v
MeshApi.v
MeshConfig.v
MeshEnroll.v
MeshEnrollFacts.v
MeshRoutes.v
MeshRoutesFacts.v
MeshNetwork.v
MeshSetup.v
MeshTransport.v
MeshStart.v
Daemon.v
NodeHosts.v
Operator.v
OperatorFacts.v
OperatorMain.v
MeshStartFacts.v
Ipsec.v
IpsecFacts.v
Extension.v
ExtensionFacts.v
Udp.v
UdpFacts.v
Ipip.v
IpipFacts.v
Tencent.v
TencentFacts.v
Main.v
MainFacts.v
EtcdStart.v
KubeStart.v
KubeStartFacts.v
WinRoutes.v
WinRoutesFacts.v
WinHostgw.v
WinVxlan.v
WinVxlanFacts.v
InstallConf.v
