(* ===== verification/Prelude.v ===== *)
(** * A verification development for flannel

    flannel gives every node of a cluster a subnet of one network and carries the
    traffic between them.  This library translates the core of the daemon, in
    [src/pkg], into executable Rocq definitions and proves what makes it correct.

    ** The program's parts and where they are modelled

    - [pkg/ip]: addresses and networks.  [Ip4.v] ([ipnet.go]) on 32-bit integers
      with their wrap-around; [Ip6.v] ([ip6net.go]) on big integers behind pointers.
    - [pkg/lease/lease.go]: leases, events and the [LeaseWatcher] that turns what a
      subnet manager reports into events.  [Lease.v].
    - [pkg/subnet/subnet.go]: [WatchLeases] and [WatchLease], which connect a manager
      to a backend, in [Watch.v]; the keys of the store in [SubnetKey.v].
    - [pkg/subnet/config.go]: the network configuration, read from JSON and checked.
      [Config.v].
    - [pkg/subnet/etcd/local_manager.go]: the subnet manager on a registry: it
      chooses, acquires, renews and watches leases.  [LocalManager.v], against the
      interface [Registry] whose promises to the manager are [RegistryLaws].
    - [pkg/subnet/etcd/registry.go]: the registry in etcd.  [Registry.v], against the
      interface [EtcdClient] with [EtcdLaws]; the two watch loops are step functions
      on the state they carry between two receptions.  [EtcdStart.v] has how the client and
      the registry are made (over [EtcdDial]), and the registry of the tests ([mock_registry.go]).
    - [pkg/subnet/kube]: the subnet manager on Kubernetes nodes and their
      annotations.  [Kube.v]; [KubeStart.v] has how the manager is made (over [KubeStart]) and its
      queue of events as a step relation, [KubeStartFacts.v] what the start returns and the queue keeps.
    - [pkg/trafficmngr/iptables]: the NAT and forward rules.  [IpTables.v] is the code,
      over the interface [Netfilter]; [IpTablesFacts.v] states what the host does with
      a payload ([NetfilterLaws]) and proves what the manager does to its chains;
      [Packets.v] reads the rules as conditions on packets.
    - [pkg/trafficmngr/nftables]: the same through nftables.  [NfTables.v], over
      [Knftables] and [KnftablesLaws].
    - [pkg/backend]: the backend manager, the network of kernel routes, and the
      [hostgw] and [alloc] backends.  [Backend.v] is the code, over the interface
      [Netlink]; [BackendFacts.v] has [NetlinkLaws] and the theorems.
    - [pkg/ip/iface.go]: the addresses of interfaces and links.  [Iface.v], over
      [IfaceHost] with [IfaceLaws].
    - [pkg/backend/vxlan] with [pkg/mac]: the VXLAN device and the entries of remote
      hosts.  [Vxlan.v] is the code, over [VxlanHost], [NetworkSource] and [Retry];
      [VxlanFacts.v] has the laws of the entries ([NeighLaws]) and follows the lease
      events; [VxlanDevice.v] has those of the links ([DeviceLaws]) and the recreation
      of a lost device; [LeaseText.v] follows the backend's data through etcd.
    - [pkg/backend/wireguard]: the device or the two devices of a node, their keys and
      their peers.  [Wireguard.v] is the code, over [WgHost], [KeyFiles] and [WgTypes];
      [WireguardFacts.v] has [WgLaws], [WgKeyLaws] and [KeyFileLaws], and follows the leases.
    - [pkg/backend/cloudflaremesh]: [MeshConfig.v] ([config.go], [compat.go],
      [bootstrap.go], over [NodeEnv] and [BootstrapKube]); [MeshEnroll.v] (of
      [masque_linux.go] the registration of a node, its state file and the calls of the
      device API, over [DeviceHttp], [EcdsaKeys] and [StateFiles]) with [MeshEnrollFacts.v]
      ([StateLaws]); [MeshStart.v] (the rest of [masque_linux.go] and
      [cloudflaremesh_linux.go], over [TunHost], [Masque] and [Supervisor]) with
      [MeshStartFacts.v] ([TunLaws], and the agreement of a node and the operator);
      [MeshRoutes.v] ([routes_linux.go]: routes, rules and SNAT of remote subnets) with [MeshRoutesFacts.v] ([MeshLaws], reconciliation and
      clean-up) and [MeshSetup.v] (its constructor); [MeshNetwork.v]
      ([network_linux.go]: the network that drives any [localRouteManager], proved
      against [RouteManagerLaws], which the manager of [MeshRoutes.v] discharges);
      [MeshTransport.v] ([tunbuffer.go], and from [masque_linux.go] the goroutines that
      own the packet buffers, as a step relation, and the reconnect delays).
    - [pkg/ipmatch]: the interface and the addresses a node uses towards the others.
      [IpMatch.v], over the interface of [Iface.v].
    - [pkg/backend/ipsec]: the kernel policies and the connections of the charon daemon.
      [Ipsec.v] is the code, over [Xfrm] and [Charon]; [IpsecFacts.v] has [IpsecLaws] and
      follows the leases.
    - [pkg/backend/ipip]: the route network through a tunnel of IP in IP.  [Ipip.v] is the code,
      over [IpipHost]; [IpipFacts.v] has [IpipLaws], the tunnel and its routes.
    - [pkg/backend/tencentvpc]: a route of the cloud for the node's subnet.  [Tencent.v] is the
      code, over [TencentCloud]; [TencentFacts.v] has [VpcLaws] and what a registration leaves.
    - [pkg/backend/udp]: the backend with a proxy in C.  [Udp.v] is the code of both, over
      [UdpHost]; [UdpFacts.v] has [UdpLaws] and follows the leases into the proxy's table.
    - [pkg/backend/extension]: a backend of the administrator's commands.  [Extension.v] is the
      code, over [Commands]; [ExtensionFacts.v] has [CommandLaws] and what the commands get.
    - [main.go]: [Daemon.v] has how the daemon tries the interfaces it is given, the
      subnet file it writes and reads back, and the etcd manager made from it.  [Main.v]
      is [main] from its options to its exit code, over any [SubnetManager] and [Network]
      and the traffic managers of this library; [MainFacts.v] has the order of its steps,
      on a trace, and what holds on the node when it reports that it is ready
      ([NodeLaws]).
    - Windows: [WinRoutes.v] ([pkg/powershell], [pkg/routing], [iface_windows.go] and
      [route_network_windows.go], over [PowerShell] and [WinIfaces]; the network of routes is written
      against the interface [Router], which [RouterWindows] implements) with [WinRoutesFacts.v]
      ([RouterLaws]); [WinHostgw.v] ([hostgw_windows.go], over [HNS]); [WinVxlan.v] (the three Windows
      files of [pkg/backend/vxlan], over [HCN] and [HcnJson]) with [WinVxlanFacts.v] ([HcnLaws]).
    - [cmd/install_conf] with [pkg/utils]: [InstallConf.v], over [StateFiles] and [CopyFiles], with
      [CopyLaws].
    - [pkg/cloudflaremesh]: the names of the Mesh, the interface [MeshAPI] of an account
      and the client of the HTTP API.  [MeshApi.v], over an exchange [Http].
    - [pkg/cloudflaremeshoperator]: [NodeHosts.v] ([nodehosts.go]: the block of hosts in
      a file others write too), [Operator.v] ([operator.go], over [OperatorKube] and
      [MeshAPI]) and [OperatorFacts.v] ([AccountLaws] and the theorems).
    - [cmd/cloudflare-mesh-operator]: [OperatorMain.v], the flags, the preparation of a run and the run
      of the operator alone or as a leader, over [OperatorProcess] and [RestClient].

    What the code uses of Go's standard library is modelled too: [GoStrings.v]
    (strings, strconv), [GoRegexp.v] (a backtracking matcher), [GoJson.v]
    (encoding/json) with [GoJsonFacts.v], [GoNet.v] (net, netip) with its lemmas in [GoNetFacts.v],
    [GoHash.v] (crypto/sha256), [GoTime.v] and [GoDuration.v] (times in RFC 3339,
    durations), [GoBase64.v] (encoding/base64).

    The parts meet as in the program: a manager ([LocalManager], [Kube]) reports
    leases, [WatchLeases] turns the reports into batches of events, a backend
    ([handleSubnetEvents], [vxlan_handleSubnetEvents], [handleEvents]) turns the batches
    into entries of the kernel, and a traffic manager sets up the rules of the network
    and of the node's lease.

    ** How code becomes definitions

    A call that can fail returns an [outcome]: a value, an error or a panic.  A call
    with effects is a function [M S A] on an explicit store [S].  Code outside this
    repository (the etcd client, go-iptables and iptables-restore, knftables, netlink,
    the Kubernetes client) is a class of operations on an abstract store; the class of
    its laws says what is documented of it, and every such class has an instance in
    memory, on which the witnesses run.  Machine integers are in Z with [wrap]; a nil
    pointer is [None] and its use a panic; a Go map is a [gmap].  Log messages are left
    out, the arguments of an error's message too.  Definitions carry the names of the
    functions they translate, with the receiver's type where two would clash.

    ** What the theorems show

    The conditions of a theorem are in the comment that it has; the most frequent are here:
    the theorems on backends are for IPv4 leases, and those that follow the leases take
    hosts that do what the class of laws says.

    - Networks: [Overlaps] and [ContainsCIDR] decide what their names say on sets of
      addresses; texts and JSON are read back; where IPv6 comparison by text differs.
    - Configuration: what is accepted holds at least four subnets and bounds on subnet
      boundaries, from any text; the defaults.
    - Leases: the watcher refines a map from subnets to leases, whatever mix of
      snapshots and events of one address-family mode comes; replaying its batches gives the
      manager's state.  Leases of mixed families can make it panic.
    - Allocation and the registry: for IPv4-only configurations that end below the top of
      the address space the allocator ends, is exact and safe, and acquiring keeps the store
      free of overlaps under interference of other nodes; creation in etcd is all or nothing;
      the watch passes on every event of a response, in order, and resumes without a gap; the
      registry of the tests keeps its leases like a registry.
    - Kubernetes: what a node with one pod CIDR publishes is what the others see, in a node that is
      new or updated; the queue is bounded and loses no event before its context is done; the
      daemon never goes on without a manager.
    - Rules: the payload is read back; bootstrap, resync and set-up leave flannel's
      rules in order and the rest alone; which packets are masqueraded; the nftables
      transactions are atomic.
    - Routes: the list and the kernel's table are exactly what the leases make of them, for
      gateways on the link; the check brings back lost routes.
    - VXLAN, IPv4-only and without direct routing: the entries of the device are exactly those
      of the leases, as long as no hardware address stands for two subnets at a time; a remote
      host is connected entirely or not at all; what a node announces is what another decodes,
      through etcd; a lost device is recreated once the host allows, after bounded waits.
    - WireGuard: after any sequence of lease events the peers of the device are those of
      the leases; what a node announces is what the others make their peer; the devices
      of a node share one key.
    - Identity in the Mesh: a node keeps its key and its registration over restarts with the
      same connector, and replaces them only when it is told that they are gone; its state file is written
      whole or not at all; a failed start leaves no device; the account in a token is
      read in any of its encodings; the operator reads the lease of a node, and the node
      the Secret of the operator; the bounds of an accepted configuration, and its defaults.
    - Mesh: on a host that is ready, reconciliation leaves exactly the wanted networks and
      clean-up nothing; the network converges to the leases whatever others did to the host,
      prunes nothing before it knows them, and follows the subnet manager from end to end,
      leaving out the nodes of other backends; the transmit path never runs out of buffers; reconnects wait from one to thirty seconds.
    - IPsec: after any sequence of lease events the policies, the connections and the
      shared keys are those of the leases.
    - IP in IP: registration leaves one tunnel with one address, made again when it does not fit, and
      never touches a device of another kind; its routes follow the leases.
    - Tencent: after registration the node's route is there and enabled, no other is touched, and a
      restart changes nothing.
    - UDP: whatever packets the proxy forwards in between, a packet is sent to a host whose subnet
      its destination is in; forwarding keeps the checksum of a header valid.
    - Extension: the commands of the leases run in order with the variables of their host; what
      a node's start-up command prints, if it is ASCII text that fits in a pipe, reaches the other
      nodes; values are inserted literally.
    - Start: the interface chosen has the address chosen; a restarted daemon reads its
      subnet back from its file and keeps it; the daemon starts, reports and ends in
      order, whatever fails; when it is ready its rules and its file are in place; with etcd,
      losing its lease ends it.
    - Windows: the routes of the interface are exactly those of the leases after any batch of events,
      and the remote routes of the overlay too, one to a destination; what an earlier registration
      left is kept; the gateways are addresses of the subnet.
    - Installing a file: the destination is the old file or the new one, whole.
    - The command of the operator: its defaults are accepted as they are, a run that fails has started
      nothing, and its election is one that client-go takes.
    - Operator: a reconciliation that succeeds leaves exactly the connectors and routes
      that the nodes claim; it never removes what lacks the cluster's prefix, sweeps only
      old registrations that no node uses, and removes nothing while a node is in error;
      merging hosts can be repeated; the list of registrations is complete or an error.
    - Theorems on the behaviours listed as findings state where the code departs from
      its comments, its documentation or its other half.

    ** Fuel

    [allocateSubnet] scans candidates with fuel: [alloc_fuel] of a configuration counts
    the turns of the IPv4 scan, and [allocateSubnet_correct] shows that
    this is enough.  The JSON parser, the printer of numbers and the repeat of the
    regexp matcher take the length of their input, or its logarithm, as fuel, which
    every step decreases; the IPv6 parser has its eight groups.  No other definition has a bound: the loops of the daemon that
    never end by themselves are step functions or take the list of what they receive;
    [reCreateVxlan] takes the list of its sleeps, and its theorem says how many it needs;
    [transport_run], the supervisor of the Mesh sessions, takes the number of sessions,
    and the calls on charon take the number of their attempts; both say when they have not
    ended.  [getConfig] takes the list of what wakes it up, and
    [run_proxy] the list of its inputs.  [poll_until] makes one check and as many more as the clock
    ([PollClock]) has time for, and says when none of them held.

    ** What is not modelled

    The stubs of what a system lacks, of the mesh what the pumps of a session do with a packet, of [main.go] the
    parsing of flags and the HTTP server of the health checks.  Strings are bytes: JSON does not replace invalid
    UTF-8 (except in [Marshal_string] of the extension backend), white space is that of ASCII, and the elements of an array that is given twice are read from zero.  Concurrency is modelled as sequences of steps:
    between two calls of one goroutine others may change the store where the laws say so
    ([RegistryLaws]); data races inside one process are not.

    This file holds the vocabulary that all others share: outcomes and the state monad
    with its tactics, what calls preserve, Hoare triples, machine integers, blocks of addresses and lists
    with distinct keys. *)

From Stdlib Require Import ZArith Lia Ascii.
From stdpp Require Import base gmap strings list numbers.

Local Open Scope Z_scope.

(** ** Errors and outcomes

    A Go error value is either a package-level variable, which callers compare
    by identity ([Sentinel]), or one built on the spot by [errors.New] or
    [fmt.Errorf]: [Errorf], or [Wrapf] when a [%v]/[%w] verb prints a cause;
    [errors.Join] of several is [Joined].
    The arguments that only decorate the message are not kept. *)
Inductive error : Type :=
| Sentinel (name : string)
| Errorf (format : string)
| Wrapf (format : string) (cause : error)
| Joined (first rest : error).

(** A format that wraps its error, with [%w]; [%v] and [%s] only print it. *)
Fixpoint wraps (format : string) : bool :=
  match format with
  | String "%"%char (String "w"%char _) => true
  | String _ s => wraps s
  | EmptyString => false
  end.

(** [errors.Is(err, target)] for a package-level [target]. *)
Fixpoint errors_Is (e : error) (target : string) : bool :=
  match e with
  | Sentinel name => bool_decide (name = target)
  | Errorf _ => false
  | Wrapf format cause => wraps format && errors_Is cause target
  | Joined first rest => errors_Is first target || errors_Is rest target
  end.

(** What a Go call can do: return, return a non-nil error, or panic. *)
Inductive outcome (A : Type) : Type :=
| Ret (a : A)
| Err (e : error)
| Panic.
Arguments Ret {A} a.
Arguments Err {A} e.
Arguments Panic {A}.

#[global] Instance error_eq_dec : EqDecision error.
Proof. solve_decision. Defined.

#[global] Instance outcome_eq_dec A : EqDecision A → EqDecision (outcome A).
Proof. solve_decision. Defined.

#[global] Instance outcome_ret : MRet outcome := λ A a, Ret a.
#[global] Instance outcome_bind : MBind outcome := λ A B f m,
  match m with
  | Ret a => f a
  | Err e => Err e
  | Panic => Panic
  end.

Lemma bind_Ret {A B} (a : A) (f : A → outcome B) : (x ← Ret a; f x) = f a.
Proof. done. Qed.

Lemma bind_inv {A B} (m : outcome A) (f : A → outcome B) b :
  (x ← m; f x) = Ret b → ∃ a, m = Ret a ∧ f a = Ret b.
Proof. destruct m as [a|e|]; try done. by exists a. Qed.

(** [errors.Join]: nil unless there is an error. *)
Fixpoint errors_Join (errs : list error) : option error :=
  match errs with
  | [] => None
  | e :: errs => Some (match errors_Join errs with None => e | Some e' => Joined e e' end)
  end.

(** State passing: [M S A] is a Go call that reads and writes the store [S]. *)
Definition M (S A : Type) : Type := S → outcome A * S.

#[global] Instance M_ret S : MRet (M S) := λ A a s, (Ret a, s).
#[global] Instance M_bind S : MBind (M S) := λ A B f m s,
  match m s with
  | (Ret a, s') => f a s'
  | (Err e, s') => (Err e, s')
  | (Panic, s') => (Panic, s')
  end.

(** Run a call and hand its error to the continuation, the Go idiom
    [x, err := f(); if err != nil { ... }]. *)
Definition try {S A} (m : M S A) : M S (A + error) := λ s,
  match m s with
  | (Ret a, s') => (Ret (inl a), s')
  | (Err e, s') => (Ret (inr e), s')
  | (Panic, s') => (Panic, s')
  end.
Definition throw {S A} (e : error) : M S A := λ s, (Err e, s).
Definition panic {S A} : M S A := λ s, (Panic, s).
Definition lift {S A} (o : outcome A) : M S A := λ s, (o, s).

(** [x, err := m; if err != nil { return ..., fmt.Errorf(format, err) }]. *)
Definition wrapping {S A} (format : string) (m : M S A) : M S A :=
  r ← try m;
  match r with inl a => mret a | inr e => throw (Wrapf format e) end.

Definition get {S} : M S S := λ s, (Ret s, s).
Definition modify {S} (f : S → S) : M S unit := λ s, (Ret tt, f s).

(** Go's early return [if cond { return err }]. *)
Definition check {S} (cond : bool) (e : error) : M S unit := if cond then throw e else mret tt.

Lemma M_bind_inv {S A B} (m : M S A) (f : A → M S B) s b s' :
  (x ← m; f x) s = (Ret b, s') → ∃ a s1, m s = (Ret a, s1) ∧ f a s1 = (Ret b, s').
Proof. unfold mbind, M_bind. destruct (m s) as [[a|e|] s1]; try done. eauto. Qed.

Lemma M_bind_Ret {S A B} (m : M S A) (f : A → M S B) s a s1 :
  m s = (Ret a, s1) → (x ← m; f x) s = f a s1.
Proof. unfold mbind, M_bind. by intros ->. Qed.

Lemma M_bind_cong {S A B} (m m' : M S A) (f f' : A → M S B) s :
  m s = m' s → (∀ a s', f a s' = f' a s') → (x ← m; f x) s = (x ← m'; f' x) s.
Proof. unfold mbind, M_bind. intros ->. destruct (m' s) as [[a|e|] s1]; auto. Qed.

Lemma run_try_Ret {S A B} (m : M S A) (f : A + error → M S B) s a s1 :
  m s = (Ret a, s1) → (r ← try m; f r) s = f (inl a) s1.
Proof. intros Hm. unfold mbind, M_bind, try. by rewrite Hm. Qed.

Lemma wrapping_Ret {S A} f (m : M S A) s a s' : m s = (Ret a, s') → wrapping f m s = (Ret a, s').
Proof. intros Hm. unfold wrapping. by erewrite run_try_Ret by done. Qed.

Lemma check_inv {S} c e (s s' : S) u : check c e s = (Ret u, s') → c = false ∧ s' = s.
Proof. unfold check, throw, mret, M_ret. destruct c; [done|]. intros H. by simplify_eq. Qed.

Lemma lift_inv {S A} (o : outcome A) (s s' : S) a : lift o s = (Ret a, s') → o = Ret a ∧ s' = s.
Proof. unfold lift. intros H. by simplify_eq. Qed.

Lemma wrapping_inv {S A} f (m : M S A) s a s' : wrapping f m s = (Ret a, s') → m s = (Ret a, s').
Proof. unfold wrapping, mbind, M_bind, try. destruct (m s) as [[x|e|] s1]; unfold mret, M_ret, throw; intros Hw; by simplify_eq. Qed.

(** Equations that run a call forward. *)
Section run.
Context {S A B : Type}.
Implicit Types (s : S) (e : error).

Lemma run_get (f : S → M S B) s : (x ← get; f x) s = f s s.
Proof. done. Qed.
Lemma run_modify g (f : unit → M S B) s : (x ← modify g; f x) s = f tt (g s).
Proof. done. Qed.
Lemma run_ret a (f : A → M S B) s : (x ← mret a; f x) s = f a s.
Proof. done. Qed.
Lemma run_throw e (f : A → M S B) s : (x ← throw e; f x) s = (Err e, s).
Proof. done. Qed.
Lemma run_lift_Ret a (f : A → M S B) s : (x ← lift (Ret a); f x) s = f a s.
Proof. done. Qed.
Lemma run_check c e (f : unit → M S B) s :
  (x ← check c e; f x) s = if c then (Err e, s) else f tt s.
Proof. by destruct c. Qed.
Lemma run_check_last c e s : check c e s = if c then (Err e, s) else (Ret tt, s).
Proof. by destruct c. Qed.
Lemma run_bind {C} (m : M S A) (g : A → M S C) (f : C → M S B) s :
  (x ← (y ← m; g y); f x) s = (y ← m; x ← g y; f x) s.
Proof. unfold mbind, M_bind. by destruct (m s) as [[a|e|] s']. Qed.
Lemma run_if (b : bool) (m1 m2 : M S A) (f : A → M S B) s :
  (x ← (if b then m1 else m2); f x) s = if b then (x ← m1; f x) s else (x ← m2; f x) s.
Proof. by destruct b. Qed.
End run.

Create Rewrite HintDb run.
#[export] Hint Rewrite @run_get @run_modify @run_ret @run_throw @run_lift_Ret @run_check @run_check_last
  @run_bind @run_if : run.
Ltac run := autorewrite with run.

(** Take a successful run of a call apart, one statement at a time. *)
Ltac run_inv :=
  repeat match goal with
  | H : (mbind _ _) _ = (Ret _, _) |- _ => apply M_bind_inv in H as (? & ? & ? & ?)
  | H : check _ _ _ = (Ret _, _) |- _ => apply check_inv in H as [? ?]
  | H : lift _ _ = (Ret _, _) |- _ => apply lift_inv in H as [? ?]
  | H : get _ = (Ret _, _) |- _ => unfold get in H; simplify_eq
  | H : modify _ _ = (Ret _, _) |- _ => unfold modify in H; simplify_eq
  | H : mret _ _ = (Ret _, _) |- _ => unfold mret, M_ret in H; simplify_eq
  | H : throw _ _ = (Ret _, _) |- _ => discriminate H
  | H : panic _ = (Ret _, _) |- _ => discriminate H
  end; simplify_eq.

Definition is_ret {A} (o : outcome A) : bool :=
  match o with Ret _ => true | _ => false end.

(** ** Tactics *)

(** Settle every [x <=? y] of the goal that linear arithmetic decides. *)
Ltac decide_leb :=
  repeat match goal with |- context [?x <=? ?y] => destruct (Z.leb_spec x y); try lia end.

(** ** Machine integers *)

Definition wrap (w z : Z) : Z := z mod 2 ^ w.
Abbreviation u8 := (wrap 8).
Abbreviation u32 := (wrap 32).
Abbreviation u64 := (wrap 64).

(** Go's [x << s] on a [w]-bit unsigned value: a count of [w] or more gives 0. *)
Definition shl (w x s : Z) : Z := if s <? w then wrap w (Z.shiftl x s) else 0.

Lemma wrap_range w z : 0 <= w → 0 <= wrap w z < 2 ^ w.
Proof. intros. apply Z.mod_pos_bound. apply Z.pow_pos_nonneg; lia. Qed.

Lemma wrap_small w z : 0 <= z < 2 ^ w → wrap w z = z.
Proof. apply Z.mod_small. Qed.

Lemma shl_small w x s : 0 <= s < w → shl w x s = wrap w (x * 2 ^ s).
Proof.
  intros. unfold shl. rewrite (proj2 (Z.ltb_lt s w)) by lia.
  by rewrite Z.shiftl_mul_pow2 by lia.
Qed.

Lemma shl_big w x s : w <= s → shl w x s = 0.
Proof. intros. unfold shl. by rewrite (proj2 (Z.ltb_ge s w)) by lia. Qed.

(** The top [w - k] bits set, the shape of every network mask. *)
Definition high_ones (w k : Z) : Z := 2 ^ w - 2 ^ k.

Lemma high_ones_range w k : 0 <= k <= w → 0 <= high_ones w k < 2 ^ w.
Proof.
  intros. unfold high_ones.
  pose proof (Z.pow_le_mono_r 2 k w). pose proof (Z.pow_pos_nonneg 2 k). lia.
Qed.

Lemma high_ones_testbit w k i : 0 <= k <= w → 0 <= i →
  Z.testbit (high_ones w k) i = (k <=? i) && (i <? w).
Proof.
  intros Hk Hi.
  replace (high_ones w k) with (Z.shiftl (Z.ones (w - k)) k).
  - rewrite Z.shiftl_spec by lia.
    destruct (Z.leb_spec k i); simpl; [|by rewrite Z.testbit_neg_r by lia].
    destruct (Z.ltb_spec i w).
    + by rewrite Z.ones_spec_low by lia.
    + by rewrite Z.ones_spec_high by lia.
  - rewrite Z.shiftl_mul_pow2, Z.ones_equiv by lia. unfold high_ones.
    replace (2 ^ w) with (2 ^ (w - k) * 2 ^ k) by (rewrite <- Z.pow_add_r; f_equal; lia). lia.
Qed.

Lemma testbit_above w x i : 0 <= x < 2 ^ w → 0 <= w <= i → Z.testbit x i = false.
Proof.
  intros Hx Hi. rewrite <- (Z.mod_small x (2 ^ w)) by done.
  by apply Z.mod_pow2_bits_high.
Qed.

(** Masking clears the low [k] bits. *)
Lemma land_high_ones w k x : 0 <= k <= w → 0 <= x < 2 ^ w →
  Z.land x (high_ones w k) = x / 2 ^ k * 2 ^ k.
Proof.
  intros Hk Hx. rewrite <- Z.shiftr_div_pow2, <- Z.shiftl_mul_pow2 by lia.
  apply Z.bits_inj'. intros i Hi.
  rewrite Z.land_spec, high_ones_testbit by lia.
  rewrite Z.shiftl_spec by lia. destruct (Z.leb_spec k i); simpl.
  - rewrite Z.shiftr_spec by lia. replace (i - k + k) with i by lia.
    destruct (Z.ltb_spec i w); [by rewrite andb_true_r|].
    by rewrite (testbit_above w) by lia.
  - by rewrite andb_false_r, Z.testbit_neg_r by lia.
Qed.

Lemma land_high_ones_range w k x : 0 <= k <= w → 0 <= x < 2 ^ w →
  0 <= Z.land x (high_ones w k) <= x.
Proof.
  intros. rewrite land_high_ones by done.
  pose proof (Z.pow_pos_nonneg 2 k). pose proof (Z.div_pos x (2 ^ k)).
  pose proof (Z.mul_div_le x (2 ^ k)). nia.
Qed.

Lemma wrap_shl_ones w k : 0 <= k <= w → wrap w ((2 ^ w - 1) * 2 ^ k) = high_ones w k.
Proof.
  intros. unfold wrap. replace ((2 ^ w - 1) * 2 ^ k) with (high_ones w k + (2 ^ k - 1) * 2 ^ w)
    by (unfold high_ones; ring).
  rewrite Z.mod_add by (apply Z.pow_nonzero; lia).
  by apply Z.mod_small, high_ones_range.
Qed.

(** Two numbers agree above bit [k] when they fall in the same aligned block. *)
Lemma same_block k x y : 0 <= k →
  x / 2 ^ k * 2 ^ k = y / 2 ^ k * 2 ^ k ↔ x / 2 ^ k = y / 2 ^ k.
Proof. intros. pose proof (Z.pow_pos_nonneg 2 k). split; [nia|by intros ->]. Qed.

Lemma in_block k b x : 0 <= k →
  x / 2 ^ k = b ↔ b * 2 ^ k <= x < b * 2 ^ k + 2 ^ k.
Proof.
  intros. pose proof (Z.pow_pos_nonneg 2 k). split.
  - intros <-. pose proof (Z.mul_div_le x (2 ^ k)).
    pose proof (Z.mod_pos_bound x (2 ^ k)). pose proof (Z.div_mod x (2 ^ k)). lia.
  - intros. symmetry. apply (Z.div_unique x (2 ^ k) b (x - b * 2 ^ k)); lia.
Qed.

(** A coarser block is a function of a finer one. *)
Lemma block_coarsen k l x : 0 <= k <= l → x / 2 ^ l = (x / 2 ^ k) / 2 ^ (l - k).
Proof.
  intros. rewrite Z.div_div by (try apply Z.pow_nonzero; try apply Z.pow_pos_nonneg; lia).
  rewrite <- Z.pow_add_r by lia. do 2 f_equal. lia.
Qed.

Lemma land_bound k a b : 0 <= k → 0 <= a < 2 ^ k → 0 <= Z.land a b < 2 ^ k.
Proof.
  intros Hk Ha. rewrite <- (Z.mod_small a (2 ^ k)), <- Z.land_ones by done.
  rewrite <- Z.land_assoc, (Z.land_comm _ b), Z.land_assoc, Z.land_ones by done.
  apply Z.mod_pos_bound, Z.pow_pos_nonneg; lia.
Qed.

Lemma add_lor k u v : 0 <= k → 0 <= v < 2 ^ k → u * 2 ^ k + v = Z.lor (Z.shiftl u k) v.
Proof.
  intros Hk Hv. rewrite <- Z.shiftl_mul_pow2, <- Z.add_lor_land by lia.
  assert (Z.land (Z.shiftl u k) v = 0) as ->; [|lia].
  apply Z.bits_inj'. intros i Hi. rewrite Z.land_spec, Z.bits_0, Z.shiftl_spec by lia.
  destruct (Z.ltb_spec i k); [by rewrite Z.testbit_neg_r by lia|].
  by rewrite (testbit_above k v), andb_false_r by lia.
Qed.

(** Conjunction works digit by digit. *)
Lemma land_split k x y a b : 0 <= k → 0 <= a < 2 ^ k → 0 <= b < 2 ^ k →
  Z.land (x * 2 ^ k + a) (y * 2 ^ k + b) = Z.land x y * 2 ^ k + Z.land a b.
Proof.
  intros Hk Ha Hb. pose proof (land_bound k a b Hk Ha).
  rewrite !add_lor by lia. apply Z.bits_inj'. intros i Hi.
  rewrite !Z.land_spec, !Z.lor_spec, !Z.shiftl_spec, !Z.land_spec by lia.
  destruct (Z.ltb_spec i k).
  - rewrite !(Z.testbit_neg_r _ (i - k)) by lia. done.
  - rewrite (testbit_above k a), (testbit_above k b) by lia. simpl.
    by rewrite !orb_false_r.
Qed.

(** A number splits uniquely into a high and a low part. *)
Lemma digits_unique N b c x y : 0 <= x < N → 0 <= y < N →
  b * N + x = c * N + y → b = c ∧ x = y.
Proof. intros. destruct (Z.lt_trichotomy b c) as [|[->|]]; nia. Qed.

(** ** Lists with distinct keys *)

Lemma filter_all {A} P `{∀ x, Decision (P x)} (l : list A) : Forall P l → filter P l = l.
Proof. induction 1; [done|]. rewrite filter_cons_True by done. by f_equal. Qed.

Lemma filter_Forall {A} Q P `{∀ x, Decision (P x)} (l : list A) : Forall Q l → Forall Q (filter P l).
Proof.
  rewrite !list.Forall_forall. intros Hl x [_ Hx]%list_elem_of_filter. auto.
Qed.

Lemma filter_ext {A} P Q `{∀ x, Decision (P x), ∀ x, Decision (Q x)} (l : list A) :
  (∀ x, x ∈ l → P x ↔ Q x) → filter P l = filter Q l.
Proof.
  intros HPQ. induction l as [|x l IH]; [done|].
  rewrite !filter_cons, IH by (intros; apply HPQ; by right).
  pose proof (HPQ x (list_elem_of_here _ _)).
  by destruct (decide (P x)), (decide (Q x)); try tauto.
Qed.

(** Elements of related lists come in pairs. *)
Lemma Forall2_elem_l {A B} (P : A → B → Prop) l k x : Forall2 P l k → x ∈ l → ∃ y, y ∈ k ∧ P x y.
Proof.
  intros Hl (i & Hi)%list_elem_of_lookup. destruct (Forall2_lookup_l _ _ _ _ _ Hl Hi) as (y & Hy & Hp).
  exists y. split; [by eapply list_elem_of_lookup_2|done].
Qed.
Lemma Forall2_elem_r {A B} (P : A → B → Prop) l k y : Forall2 P l k → y ∈ k → ∃ x, x ∈ l ∧ P x y.
Proof.
  intros Hl (i & Hi)%list_elem_of_lookup. destruct (Forall2_lookup_r _ _ _ _ _ Hl Hi) as (x & Hx & Hp).
  exists x. split; [by eapply list_elem_of_lookup_2|done].
Qed.

Section keyed_lists.
Context {A B : Type} `{EqDecision B} (f : A → B).
Implicit Types (l : list A) (x y : A).

(** Cutting out one element is filtering out its key. *)
Lemma cut_filter l i y : NoDup (f <$> l) → l !! i = Some y →
  take i l ++ drop (S i) l = filter (λ x, f x ≠ f y) l.
Proof.
  revert i. induction l as [|x l IH]; intros [|i] Hnd Hi; try done; cbn in Hi.
  - simplify_eq. apply list.NoDup_cons in Hnd as [Hx _]. rewrite filter_cons_False by (intros H; by apply H).
    simpl. rewrite drop_0, filter_all; [done|]. apply list.Forall_forall. intros z Hz E.
    apply Hx. rewrite <- E. by apply list_elem_of_fmap_2.
  - apply list.NoDup_cons in Hnd as [Hx Hnd]. rewrite filter_cons_True.
    + simpl. f_equal. by apply IH.
    + intros E. apply Hx. rewrite E. apply list_elem_of_fmap_2. by eapply list_elem_of_lookup_2.
Qed.

Lemma filter_keys_NoDup P `{∀ x, Decision (P x)} l : NoDup (f <$> l) → NoDup (f <$> filter P l).
Proof.
  induction l as [|x l IH]; intros Hnd; [done|]. apply list.NoDup_cons in Hnd as [Hx Hnd].
  rewrite filter_cons. destruct (decide (P x)); [|by apply IH]. apply list.NoDup_cons. split; [|by apply IH].
  intros (z & E & Hz)%list_elem_of_fmap. apply list_elem_of_filter in Hz as [_ Hz].
  apply Hx. rewrite E. by apply list_elem_of_fmap_2.
Qed.

(** Replacing an element by one with its key changes no key. *)
Lemma insert_same_key l i x y : l !! i = Some y → f x = f y → f <$> <[i := x]> l = f <$> l.
Proof.
  intros Hi E. rewrite list_fmap_insert. apply list_insert_id.
  by rewrite list_lookup_fmap, Hi, E.
Qed.

(** The map from keys to elements. *)
Context `{Countable B}.
Definition key_map l : gmap B A := list_to_map ((λ x, (f x, x)) <$> l).

Lemma key_map_lookup l k x : NoDup (f <$> l) → key_map l !! k = Some x ↔ x ∈ l ∧ f x = k.
Proof.
  intros Hnd. unfold key_map. rewrite <- elem_of_list_to_map.
  - rewrite list_elem_of_fmap. split.
    + intros (y & E & Hy). by simplify_eq.
    + intros [Hx <-]. by exists x.
  - by rewrite <- list_fmap_compose.
Qed.

Lemma key_map_filter P `{∀ x, Decision (P x)} l k x : NoDup (f <$> l) →
  key_map (filter P l) !! k = Some x ↔ key_map l !! k = Some x ∧ P x.
Proof.
  intros Hnd. rewrite !key_map_lookup by (try apply filter_keys_NoDup; done).
  rewrite list_elem_of_filter. tauto.
Qed.

Lemma key_map_dom l : dom (key_map l) = list_to_set (f <$> l) :> gset B.
Proof.
  unfold key_map. rewrite dom_list_to_map_L. by rewrite <- list_fmap_compose.
Qed.

Lemma key_map_replace l i x y : NoDup (f <$> l) → l !! i = Some y → f x = f y →
  key_map (<[i := x]> l) = <[f x := x]> (key_map l).
Proof.
  revert i. unfold key_map. induction l as [|z l IH]; intros [|i] Hnd Hi E; try done; cbn in Hi.
  - simplify_eq. change (<[0%nat := x]> (y :: l)) with (x :: l).
    rewrite !fmap_cons, !list_to_map_cons, E. by rewrite insert_insert_eq.
  - apply list.NoDup_cons in Hnd as [Hz Hnd].
    change (<[S i := x]> (z :: l)) with (z :: <[i := x]> l).
    rewrite !fmap_cons, !list_to_map_cons, IH by done.
    apply insert_insert_ne. intros Ez. apply Hz. replace (f z) with (f y) by congruence.
    apply list_elem_of_fmap_2. by eapply list_elem_of_lookup_2.
Qed.

Lemma key_map_snoc l x : f x ∉ f <$> l → key_map (l ++ [x]) = <[f x := x]> (key_map l).
Proof.
  intros Hx. unfold key_map. rewrite fmap_app. cbn. rewrite list_to_map_snoc; [done|].
  by rewrite <- list_fmap_compose.
Qed.

Lemma key_map_remove l k : NoDup (f <$> l) →
  key_map (filter (λ x, f x ≠ k) l) = delete k (key_map l).
Proof.
  intros Hnd. apply map_eq. intros j. apply option_eq. intros x.
  rewrite key_map_filter, lookup_delete_Some, key_map_lookup by done.
  split; [intros [[? <-] ?]|intros (? & ? & <-)]; auto.
Qed.
End keyed_lists.

(** ** Maps used as sets

    The order in which [range] walks the keys of a map is not specified: a model
    of code that ranges takes any order. *)
Class MapOrder := {
  range_keys : gset string → list string;
  range_keys_perm s : range_keys s ≡ₚ elements s
}.
#[global] Instance elements_MapOrder : MapOrder | 10 := {
  range_keys := elements;
  range_keys_perm s := Permutation_refl (elements s)
}.

(** ** Calls that preserve something, whatever they return *)

(** [preserves P m]: the call [m] leads from [P] to [P], in whatever it ends. *)
Definition preserves {S A} (P : S → Prop) (m : M S A) : Prop := ∀ s, P s → P (m s).2.

Lemma run_try_cases {S A B} (m : M S A) (f : A + error → M S B) s :
  (r ← try m; f r) s =
  match m s with (Ret a, s1) => f (inl a) s1 | (Err e, s1) => f (inr e) s1 | (Panic, s1) => (Panic, s1) end.
Proof. unfold mbind, M_bind, try. by destruct (m s) as [[a|e|] s1]. Qed.

Section preserves.
Context {S : Type} (P : S → Prop).
Lemma preserves_ret {A} (a : A) : preserves P (mret a).
Proof. by intros s Hs. Qed.
Lemma preserves_throw {A} e : preserves P (throw e : M S A).
Proof. by intros s Hs. Qed.
Lemma preserves_panic {A} : preserves P (panic : M S A).
Proof. by intros s Hs. Qed.
Lemma preserves_lift {A} (o : outcome A) : preserves P (lift o).
Proof. by intros s Hs. Qed.
Lemma preserves_bind {A B} (m : M S A) (f : A → M S B) : preserves P m → (∀ a, preserves P (f a)) → preserves P (x ← m; f x).
Proof.
  intros Hm Hf s Hs. specialize (Hm s Hs). unfold mbind, M_bind. destruct (m s) as [[a|e|] s1]; cbn in *; [by apply Hf|done..].
Qed.
Lemma preserves_try {A} (m : M S A) : preserves P m → preserves P (try m).
Proof. intros Hm s Hs. specialize (Hm s Hs). unfold try. by destruct (m s) as [[a|e|] s1]. Qed.
Lemma preserves_wrapping {A} f (m : M S A) : preserves P m → preserves P (wrapping f m).
Proof. intros Hm. apply preserves_bind; [by apply preserves_try|]. intros [a|e]; [apply preserves_ret|apply preserves_throw]. Qed.
End preserves.

Create HintDb preserves.
#[export] Hint Resolve preserves_ret preserves_throw preserves_panic preserves_lift preserves_bind preserves_try preserves_wrapping : preserves.

(** ** Hoare triples for calls

    [triple P m Q E]: from a store in [P] the call [m] ends in [Q a] when it
    returns [a], and in [E] when it fails or panics. *)
Section triples.
Context {S : Type}.

Definition triple {A} (P : S → Prop) (m : M S A) (Q : A → S → Prop) (E : S → Prop) : Prop :=
  ∀ s, P s → match m s with
             | (Ret a, s') => Q a s'
             | (_, s') => E s'
             end.

Lemma triple_ret {A} P (a : A) Q E : (∀ s, P s → Q a s) → triple P (mret a) Q E.
Proof. intros H s Hs. by apply H. Qed.

Lemma triple_throw {A} P e (Q : A → S → Prop) E : (∀ s, P s → E s) → triple P (throw e) Q E.
Proof. intros H s Hs. by apply H. Qed.

Lemma triple_bind {A B} P (m : M S A) (f : A → M S B) R Q E :
  triple P m R E → (∀ a, triple (R a) (f a) Q E) → triple P (x ← m; f x) Q E.
Proof.
  intros Hm Hf s Hs. specialize (Hm s Hs). unfold mbind, M_bind.
  destruct (m s) as [[a|e|] s']; [by apply Hf|done..].
Qed.

Lemma triple_lift {A} P (o : outcome A) Q E :
  (∀ a s, o = Ret a → P s → Q a s) → (∀ s, P s → E s) → triple P (lift o) Q E.
Proof. intros HQ HE s Hs. cbn. destruct o; [by apply HQ|by apply HE..]. Qed.

Lemma triple_try {A} P (m : M S A) Q E :
  triple P m Q E →
  triple P (try m) (λ r s, match r with inl a => Q a s | inr _ => E s end) E.
Proof. intros Hm s Hs. specialize (Hm s Hs). unfold try. by destruct (m s) as [[a|e|] s']. Qed.

Lemma triple_weaken {A} P P' (m : M S A) Q Q' E E' :
  triple P m Q E → (∀ s, P' s → P s) → (∀ a s, Q a s → Q' a s) → (∀ s, E s → E' s) →
  triple P' m Q' E'.
Proof.
  intros Hm HP HQ HE s Hs. specialize (Hm s (HP s Hs)).
  destruct (m s) as [[a|e|] s']; auto.
Qed.

Lemma triple_pure {A} (φ : Prop) P (m : M S A) Q E :
  (φ → triple P m Q E) → triple (λ s, φ ∧ P s) m Q E.
Proof. intros H s [Hφ Hs]. by apply H. Qed.
End triples.
