(* ===== verification/GoStrings.v ===== *)
(** * Strings: the parts of Go's [strings], [strconv] and [fmt] flannel uses

    Strings are Stdlib [string]s, a character being one byte.  [fmt_uint] is the
    verb [%d] ([%x] in base 16) on a non-negative integer, [parse_uint] the digit
    loop of [strconv.ParseUint] without its width check ([ParseUint] adds it);
    [split_char]/[join] are [strings.Split]/[strings.Join] for a one-byte
    separator.  The round trips proved here carry the parsers of the other files. *)

From stdpp Require Import base strings list numbers sorting.
From Stdlib Require Import ZArith Lia Ascii.
From S2P Require Import Prelude.

Local Open Scope Z_scope.

(** ** Digits *)

Definition digit_char (d : Z) : ascii :=
  Ascii.ascii_of_N (Z.to_N (if d <? 10 then 48 + d else 87 + d)).

Definition char_code (c : ascii) : Z := Z.of_N (Ascii.N_of_ascii c).

(** The value of a digit character in base [b]; both letter cases count. *)
Definition digit_val (b : Z) (c : ascii) : option Z :=
  let n := char_code c in
  let d := if (48 <=? n) && (n <=? 57) then n - 48
           else if (97 <=? n) && (n <=? 122) then n - 87
           else if (65 <=? n) && (n <=? 90) then n - 55
           else b in
  if d <? b then Some d else None.

Definition is_digit (c : ascii) : bool := (48 <=? char_code c) && (char_code c <=? 57).
Definition is_lower_hex (c : ascii) : bool :=
  is_digit c || ((97 <=? char_code c) && (char_code c <=? 102)).

Fixpoint str_all (P : ascii → bool) (s : string) : bool :=
  match s with
  | EmptyString => true
  | String c s => P c && str_all P s
  end.

Fixpoint fmt_go (fuel : nat) (b n : Z) (acc : string) : string :=
  match fuel with
  | O => acc
  | S f => let acc := String (digit_char (n mod b)) acc in
           if n <? b then acc else fmt_go f b (n / b) acc
  end.

Definition fmt_uint (b n : Z) : string := fmt_go (S (Z.to_nat (Z.log2 n))) b n "".

Fixpoint parse_go (b : Z) (s : string) (acc : Z) : option Z :=
  match s with
  | EmptyString => Some acc
  | String c s => match digit_val b c with
                  | Some d => parse_go b s (acc * b + d)
                  | None => None
                  end
  end.

Definition parse_uint (b : Z) (s : string) : option Z :=
  match s with EmptyString => None | _ => parse_go b s 0 end.

(** [strconv.ParseUint(s, b, bits)]: an error on an empty or malformed string and
    on a value that does not fit in [bits] bits. *)
Definition ParseUint (s : string) (b bits : Z) : option Z :=
  match parse_uint b s with
  | Some n => if n <? 2 ^ bits then Some n else None
  | None => None
  end.

(** ** Splitting and joining *)

Fixpoint split_char (c : ascii) (s : string) : list string :=
  match s with
  | EmptyString => [EmptyString]
  | String a s =>
      if Ascii.eqb a c then EmptyString :: split_char c s
      else match split_char c s with
           | [] => [String a EmptyString]
           | w :: ws => String a w :: ws
           end
  end.

Fixpoint join (sep : string) (l : list string) : string :=
  match l with
  | [] => EmptyString
  | [w] => w
  | w :: ws => w +:+ sep +:+ join sep ws
  end.

(** The verb [%d]. *)
Definition fmt_int (z : Z) : string := if z <? 0 then "-" +:+ fmt_uint 10 (- z) else fmt_uint 10 z.

(** [strings.HasPrefix] and [strings.HasSuffix]. *)
Definition HasPrefix (s pre : string) : bool := String.prefix pre s.
Definition HasSuffix (s suf : string) : bool := String.prefix (String.rev suf) (String.rev s).

(** [strings.Contains]. *)
Fixpoint Contains (s sub : string) : bool :=
  String.prefix sub s || match s with EmptyString => false | String _ s => Contains s sub end.

(** [strings.Count] for a one-byte substring. *)
Fixpoint count_char (c : ascii) (s : string) : nat :=
  match s with
  | EmptyString => 0
  | String a s => (if Ascii.eqb a c then 1 else 0) + count_char c s
  end.

(** [strings.ToLower] on ASCII. *)
Definition lower_char (c : ascii) : ascii :=
  let n := char_code c in
  if (65 <=? n) && (n <=? 90) then Ascii.ascii_of_N (Z.to_N (n + 32)) else c.
Fixpoint ToLower (s : string) : string :=
  match s with EmptyString => EmptyString | String c s => String (lower_char c) (ToLower s) end.

(** [strings.Trim(s, cutset)]. *)
Fixpoint trim_left (cut : ascii → bool) (s : string) : string :=
  match s with
  | EmptyString => EmptyString
  | String c s' => if cut c then trim_left cut s' else s
  end.
Definition Trim (cut : ascii → bool) (s : string) : string :=
  String.rev (trim_left cut (String.rev (trim_left cut s))).

(** [strings.Fields], [strings.TrimSpace]: the ASCII white space. *)
Definition is_space (c : ascii) : bool :=
  let n := char_code c in (n =? 32) || ((9 <=? n) && (n <=? 13)).
Fixpoint fields_go (s : string) (cur : string) : list string :=
  match s with
  | EmptyString => if decide (cur = "") then [] else [cur]
  | String c s => if is_space c
                  then (if decide (cur = "") then [] else [cur]) ++ fields_go s ""
                  else fields_go s (cur +:+ String c "")
  end.
Definition Fields (s : string) : list string := fields_go s "".
Definition TrimSpace (s : string) : string := Trim is_space s.

(** [sort.Strings]: the order of the bytes. *)
Definition str_le (s t : string) : Prop := Is_true (String.leb s t).
#[global] Instance str_le_dec : RelDecision str_le.
Proof. intros s t. unfold str_le. apply _. Defined.
Definition sort_Strings (l : list string) : list string := merge_sort str_le l.

(** ** Lemmas on strings *)

Lemma str_app_nil_r s : s +:+ "" = s.
Proof. induction s as [|c s IH]; [done|]. unfold String.app in *. simpl. by f_equal. Qed.

Lemma str_app_cons c s t : String c s +:+ t = String c (s +:+ t).
Proof. done. Qed.

Lemma str_app_assoc s t u : (s +:+ t) +:+ u = s +:+ t +:+ u.
Proof. induction s as [|c s IH]; [done|]. rewrite !str_app_cons. by f_equal. Qed.

Lemma str_length_app s t : String.length (s +:+ t) = (String.length s + String.length t)%nat.
Proof. induction s as [|c s IH]; [done|]. rewrite str_app_cons. simpl. by f_equal. Qed.

Lemma str_all_app P s t : str_all P (s +:+ t) = str_all P s && str_all P t.
Proof.
  induction s as [|c s IH]; [done|]. rewrite str_app_cons. simpl.
  by rewrite IH, andb_assoc.
Qed.

Lemma str_all_impl (P Q : ascii → bool) s :
  (∀ c, P c = true → Q c = true) → str_all P s = true → str_all Q s = true.
Proof.
  intros HPQ. induction s as [|c s IH]; simpl; [done|].
  intros [? ?]%andb_prop. by rewrite HPQ, IH.
Qed.

Lemma char_code_range c : 0 <= char_code c < 256.
Proof. unfold char_code. pose proof (Ascii.N_ascii_bounded c). lia. Qed.

Lemma char_code_of z : 0 <= z < 256 → char_code (Ascii.ascii_of_N (Z.to_N z)) = z.
Proof. intros. unfold char_code. rewrite Ascii.N_ascii_embedding; lia. Qed.

Lemma char_code_inj c d : char_code c = char_code d → c = d.
Proof.
  unfold char_code. intros H%N2Z.inj.
  rewrite <- (Ascii.ascii_N_embedding c), <- (Ascii.ascii_N_embedding d). by f_equal.
Qed.

Lemma digit_char_code d : 0 <= d < 16 →
  char_code (digit_char d) = if d <? 10 then 48 + d else 87 + d.
Proof. intros. unfold digit_char. apply char_code_of. destruct (Z.ltb_spec d 10); lia. Qed.

Lemma digit_val_char b d : 0 <= d < b → b <= 16 → digit_val b (digit_char d) = Some d.
Proof.
  intros Hd Hb. unfold digit_val. rewrite digit_char_code by lia.
  destruct (Z.ltb_spec d 10); decide_leb; cbn [andb]; rewrite (proj2 (Z.ltb_lt _ b)) by lia; f_equal; lia.
Qed.

Lemma digit_char_lower_hex d : 0 <= d < 16 → is_lower_hex (digit_char d) = true.
Proof.
  intros Hd. unfold is_lower_hex, is_digit. rewrite digit_char_code by lia.
  destruct (Z.ltb_spec d 10); decide_leb; done.
Qed.

Lemma digit_char_digit d : 0 <= d < 10 → is_digit (digit_char d) = true.
Proof.
  intros Hd. unfold is_digit. rewrite digit_char_code by lia.
  destruct (Z.ltb_spec d 10); decide_leb; done.
Qed.

(** ** Numbers print and parse back *)

Lemma parse_fmt_go b fuel n acc : 2 <= b <= 16 → 0 <= n < 2 ^ Z.of_nat fuel →
  parse_go b (fmt_go fuel b n acc) 0 = parse_go b acc n.
Proof.
  intros Hb. revert n acc. induction fuel as [|f IH]; intros n acc Hn.
  { simpl. f_equal. change (2 ^ Z.of_nat 0) with 1 in Hn. lia. }
  pose proof (Z.mod_pos_bound n b). simpl.
  destruct (Z.ltb_spec n b) as [Hlt|Hge].
  - simpl. rewrite Z.mod_small, digit_val_char by lia. f_equal; lia.
  - rewrite IH.
    + simpl. rewrite digit_val_char by lia. f_equal. pose proof (Z.div_mod n b). lia.
    + rewrite Nat2Z.inj_succ, Z.pow_succ_r in Hn by lia. split; [apply Z.div_pos; lia|].
      apply Z.div_lt_upper_bound; nia.
Qed.

Lemma log2_fuel n : 0 <= n → n < 2 ^ Z.of_nat (S (Z.to_nat (Z.log2 n))).
Proof.
  intros Hn. rewrite Nat2Z.inj_succ, Z2Nat.id by apply Z.log2_nonneg.
  destruct (decide (n = 0)) as [->|]; [done|]. apply Z.log2_spec. lia.
Qed.

Lemma fmt_go_cons fuel b n acc : ∃ c s, fmt_go (S fuel) b n acc = String c s.
Proof.
  revert n acc. induction fuel as [|f IH]; intros n acc.
  - simpl. destruct (n <? b); eauto.
  - change (fmt_go (S (S f)) b n acc) with
      (let acc := String (digit_char (n mod b)) acc in
       if n <? b then acc else fmt_go (S f) b (n / b) acc).
    simpl. destruct (n <? b); [eauto|apply IH].
Qed.

Lemma fmt_uint_nonempty b n : fmt_uint b n ≠ "".
Proof. unfold fmt_uint. destruct (fmt_go_cons (Z.to_nat (Z.log2 n)) b n "") as (c & s & ->). done. Qed.

Lemma parse_fmt_uint b n : 2 <= b <= 16 → 0 <= n → parse_uint b (fmt_uint b n) = Some n.
Proof.
  intros Hb Hn. unfold parse_uint.
  destruct (fmt_uint b n) eqn:E; [by destruct (fmt_uint_nonempty b n)|].
  rewrite <- E. unfold fmt_uint. rewrite parse_fmt_go; [done|lia|].
  split; [lia|by apply log2_fuel].
Qed.

Lemma ParseUint_fmt b bits n : 2 <= b <= 16 → 0 <= n < 2 ^ bits →
  ParseUint (fmt_uint b n) b bits = Some n.
Proof.
  intros. unfold ParseUint. rewrite parse_fmt_uint by lia.
  by rewrite (proj2 (Z.ltb_lt n (2 ^ bits))) by lia.
Qed.

Lemma ParseUint_fmt_big b bits n : 2 <= b <= 16 → 0 <= n → 2 ^ bits <= n →
  ParseUint (fmt_uint b n) b bits = None.
Proof.
  intros. unfold ParseUint. rewrite parse_fmt_uint by lia.
  by rewrite (proj2 (Z.ltb_ge n (2 ^ bits))) by lia.
Qed.

Lemma fmt_go_all P fuel b n acc : 2 <= b → 0 <= n →
  (∀ d, 0 <= d < b → P (digit_char d) = true) →
  str_all P acc = true → str_all P (fmt_go fuel b n acc) = true.
Proof.
  intros Hb Hn HP. revert n acc Hn. induction fuel as [|f IH]; intros n acc Hn Hacc; [done|].
  simpl. pose proof (Z.mod_pos_bound n b). destruct (n <? b).
  - simpl. by rewrite HP, Hacc by lia.
  - apply IH; [apply Z.div_pos; lia|]. simpl. by rewrite HP, Hacc by lia.
Qed.

Lemma fmt_dec_digits n : 0 <= n → str_all is_digit (fmt_uint 10 n) = true.
Proof. intros. apply fmt_go_all; try lia; [apply digit_char_digit|done]. Qed.

Lemma fmt_hex_chars n : 0 <= n → str_all is_lower_hex (fmt_uint 16 n) = true.
Proof. intros. apply fmt_go_all; try lia; [apply digit_char_lower_hex|done]. Qed.

Lemma fmt_go_length fuel b n acc k : 2 <= b → 0 <= n < b ^ Z.of_nat k → (0 < k)%nat →
  (String.length (fmt_go fuel b n acc) <= k + String.length acc)%nat.
Proof.
  intros Hb. revert n acc k. induction fuel as [|f IH]; intros n acc k Hn Hk; [simpl; lia|].
  simpl. destruct (Z.ltb_spec n b); [simpl; lia|].
  destruct k as [|[|k]]; [lia|simpl in Hn; lia|].
  etrans; [apply (IH _ _ (S k)); [|lia]|simpl; lia].
  rewrite (Nat2Z.inj_succ (S k)), Z.pow_succ_r in Hn by lia.
  split; [apply Z.div_pos; lia|]. apply Z.div_lt_upper_bound; lia.
Qed.

Lemma fmt_uint_length b n k : 2 <= b → 0 <= n < b ^ Z.of_nat k → (0 < k)%nat →
  (String.length (fmt_uint b n) <= k)%nat.
Proof. intros. etrans; [by apply (fmt_go_length _ b n "" k)|]. simpl. lia. Qed.

(** The printed form of a positive number does not start with a zero. *)
Lemma fmt_go_head fuel b n acc : 2 <= b <= 16 → 0 < n < 2 ^ Z.of_nat fuel →
  ∃ d s, fmt_go fuel b n acc = String (digit_char d) s ∧ 0 < d < b.
Proof.
  intros Hb. revert n acc. induction fuel as [|f IH]; intros n acc Hn.
  { change (2 ^ Z.of_nat 0) with 1 in Hn. lia. }
  simpl. destruct (Z.ltb_spec n b).
  - rewrite Z.mod_small by lia. exists n, acc. split; [done|lia].
  - apply IH. rewrite Nat2Z.inj_succ, Z.pow_succ_r in Hn by lia.
    split; [apply Z.div_str_pos; lia|]. apply Z.div_lt_upper_bound; nia.
Qed.

Lemma fmt_uint_head b n : 2 <= b <= 16 → 0 < n →
  ∃ d s, fmt_uint b n = String (digit_char d) s ∧ 0 < d < b.
Proof. intros. apply fmt_go_head; [done|]. split; [lia|apply log2_fuel; lia]. Qed.

Lemma fmt_uint_inj b n m : 2 <= b <= 16 → 0 <= n → 0 <= m →
  fmt_uint b n = fmt_uint b m → n = m.
Proof.
  intros ??? E. apply (f_equal (parse_uint b)) in E.
  rewrite !parse_fmt_uint in E by lia. congruence.
Qed.

(** ** Splitting inverts joining *)

Definition lacks (c : ascii) (s : string) : Prop := str_all (λ a, negb (Ascii.eqb a c)) s = true.

Lemma split_lacks c s : lacks c s → split_char c s = [s].
Proof.
  unfold lacks. induction s as [|a s IH]; simpl; [done|].
  intros [Ha Hs]%andb_prop. destruct (Ascii.eqb a c); [done|]. by rewrite IH.
Qed.

Lemma split_app c s t : lacks c s → split_char c (s +:+ String c t) = s :: split_char c t.
Proof.
  unfold lacks. induction s as [|a s IH]; simpl.
  - intros _. change ("" +:+ String c t) with (String c t). simpl. by rewrite Ascii.eqb_refl.
  - intros [Ha Hs]%andb_prop. simpl.
    destruct (Ascii.eqb a c); [done|]. by rewrite IH.
Qed.

Lemma split_join c l : l ≠ [] → Forall (lacks c) l → split_char c (join (String c "") l) = l.
Proof.
  intros Hne Hl. induction l as [|w [|w' l] IH]; [done| |].
  - apply Forall_inv in Hl. by apply split_lacks.
  - inversion_clear Hl. change (join (String c "") (w :: w' :: l)) with
      (w +:+ String c (join (String c "") (w' :: l))).
    rewrite split_app by done. by rewrite IH.
Qed.

Lemma lacks_of_all P c s : P c = false → str_all P s = true → lacks c s.
Proof.
  intros Hc. unfold lacks. apply str_all_impl. intros a Ha.
  destruct (Ascii.eqb_spec a c) as [->|]; [congruence|done].
Qed.

Lemma lacks_app c s t : lacks c s → lacks c t → lacks c (s +:+ t).
Proof. unfold lacks. intros Hs Ht. by rewrite str_all_app, Hs, Ht. Qed.

(** ** Trimming *)

Lemma rev_app_spec s t : String.rev_app s t = String.rev s +:+ t.
Proof.
  unfold String.rev. revert t. induction s as [|c s IH]; intros t; [done|]. simpl.
  rewrite (IH (String c t)), (IH (String c "")), str_app_assoc. done.
Qed.

Lemma rev_cons c s : String.rev (String c s) = String.rev s +:+ String c "".
Proof. unfold String.rev at 1. simpl. apply rev_app_spec. Qed.

Lemma rev_snoc s c : String.rev (s +:+ String c "") = String c (String.rev s).
Proof.
  induction s as [|a s IH]; [done|]. rewrite str_app_cons, !rev_cons, IH. done.
Qed.

Lemma rev_rev s : String.rev (String.rev s) = s.
Proof. induction s as [|c s IH]; [done|]. by rewrite rev_cons, rev_snoc, IH. Qed.

Lemma str_all_rev P s : str_all P (String.rev s) = str_all P s.
Proof.
  induction s as [|c s IH]; [done|]. rewrite rev_cons, str_all_app, IH. simpl.
  by rewrite andb_true_r, andb_comm.
Qed.

Lemma trim_left_none cut s : str_all (λ c, negb (cut c)) s = true → trim_left cut s = s.
Proof. destruct s as [|c s]; simpl; [done|]. by destruct (cut c). Qed.

(** Trimming takes one pair of delimiters off a text that has none inside. *)
Lemma Trim_delim cut q s : cut q = true → str_all (λ c, negb (cut c)) s = true →
  Trim cut (String q (s +:+ String q "")) = s.
Proof.
  intros Hq Hs. unfold Trim. cbn [trim_left]. rewrite Hq.
  destruct s as [|c s].
  - simpl. by rewrite Hq.
  - assert (trim_left cut (String c s +:+ String q "") = String c s +:+ String q "") as ->.
    { rewrite str_app_cons. cbn [str_all] in Hs. cbn [trim_left]. by destruct (cut c). }
    rewrite rev_snoc. cbn [trim_left]. rewrite Hq, trim_left_none by (by rewrite str_all_rev).
    apply rev_rev.
Qed.

Lemma Trim_none cut s : str_all (λ c, negb (cut c)) s = true → Trim cut s = s.
Proof.
  intros Hs. unfold Trim. rewrite (trim_left_none cut s) by done.
  rewrite trim_left_none by (by rewrite str_all_rev). apply rev_rev.
Qed.
