(* ===== verification/GoRegexp.v ===== *)
(** * Go's [regexp], as far as the program uses it

    A backtracking matcher with captures that explores alternatives in the
    order of Perl, which is the order whose first success Go reports: repeats
    are greedy and the leftmost start wins.  [Star] bodies must consume a
    character; its fuel is the length of the text, one unit per character. *)

From Stdlib Require Import ZArith Lia Ascii.
From stdpp Require Import base strings list gmap numbers.
From S2P Require Import Prelude GoStrings.

(** ** Syntax and matching *)

Inductive regex : Type :=
| Class (p : ascii → bool)
| Seq (r1 r2 : regex)
| Alt (r1 r2 : regex)
| Star (r : regex)
| Opt (r : regex)
| Cap (i : nat) (r : regex)
| End.

Definition Plus (r : regex) : regex := Seq r (Star r).
Definition Chr (c : ascii) : regex := Class (Ascii.eqb c).
Definition Any : regex := Class (λ c, negb (Ascii.eqb c (Ascii.ascii_of_N 10))).
Definition Digits : regex := Plus (Class is_digit).

(** The text of each group that took part. *)
Abbreviation captures := (gmap nat string).

(** The text consumed between two suffixes of a string. *)
Fixpoint str_take (n : nat) (s : string) : string :=
  match n, s with
  | S n, String c s => String c (str_take n s)
  | _, _ => EmptyString
  end.
Definition consumed (s s' : string) : string := str_take (String.length s - String.length s') s.

Fixpoint rmatch (r : regex) (s : string) (caps : captures)
    (k : string → captures → option captures) : option captures :=
  match r with
  | Class p =>
      match s with
      | String c s' => if p c then k s' caps else None
      | EmptyString => None
      end
  | Seq r1 r2 => rmatch r1 s caps (λ s' caps', rmatch r2 s' caps' k)
  | Alt r1 r2 =>
      match rmatch r1 s caps k with
      | Some x => Some x
      | None => rmatch r2 s caps k
      end
  | Opt r =>
      match rmatch r s caps k with
      | Some x => Some x
      | None => k s caps
      end
  | Star r =>
      (fix star (n : nat) (s : string) (caps : captures) : option captures :=
         match n with
         | O => k s caps
         | S n =>
             match rmatch r s caps (λ s' caps', star n s' caps') with
             | Some x => Some x
             | None => k s caps
             end
         end) (String.length s) s caps
  | Cap i r => rmatch r s caps (λ s' caps', k s' (<[i := consumed s s']> caps'))
  | End => match s with EmptyString => k s caps | _ => None end
  end.

(** The leftmost match, with the groups of its first success. *)
Definition match_at (r : regex) (s : string) : option captures :=
  rmatch (Cap 0 r) s ∅ (λ _ caps, Some caps).

Fixpoint find (r : regex) (s : string) : option captures :=
  match match_at r s with
  | Some caps => Some caps
  | None => match s with EmptyString => None | String _ s' => find r s' end
  end.

(** [MatchString] and group [i] of [FindStringSubmatch], empty when it took no part. *)
Definition MatchString (r : regex) (s : string) : bool := bool_decide (is_Some (find r s)).
Definition group (caps : captures) (i : nat) : string := default EmptyString (caps !! i).

(** ** Greedy repeats *)

Definition starts_not (p : ascii → bool) (s : string) : Prop :=
  match s with EmptyString => True | String c _ => p c = false end.

(** The inner loop of [Star] over a class, named. *)
Fixpoint star_class (p : ascii → bool) (k : string → captures → option captures)
    (n : nat) (s : string) (caps : captures) : option captures :=
  match n with
  | O => k s caps
  | S n =>
      match match s with
            | String c s' => if p c then star_class p k n s' caps else None
            | EmptyString => None
            end with
      | Some x => Some x
      | None => k s caps
      end
  end.

Lemma rmatch_star_class p s caps k :
  rmatch (Star (Class p)) s caps k = star_class p k (String.length s) s caps.
Proof.
  cbn [rmatch]. generalize (String.length s) as n. intros n. revert s caps.
  induction n as [|n IH]; intros s caps; [done|]. cbn.
  destruct s as [|c s]; [done|]. by rewrite IH.
Qed.

Lemma length_app_str s t : String.length (s +:+ t) = (String.length s + String.length t)%nat.
Proof. induction s as [|c s IH]; [done|]. rewrite str_app_cons. cbn. by rewrite IH. Qed.

Lemma consumed_app u s : consumed (u +:+ s) s = u.
Proof.
  unfold consumed. rewrite length_app_str. rewrite Nat.add_sub.
  induction u as [|c u IH]; [by destruct s|]. rewrite str_app_cons. cbn. by rewrite IH.
Qed.

(** A greedy repeat over a class first takes the whole run. *)
Lemma star_class_run p k ds rest caps x n :
  str_all p ds = true → starts_not p rest → (String.length ds <= n)%nat →
  k rest caps = Some x → star_class p k n (ds +:+ rest) caps = Some x.
Proof.
  intros Hds Hrest. revert n. induction ds as [|c ds IH]; intros n Hn Hk.
  - change ("" +:+ rest) with rest. destruct n as [|n], rest as [|c rest]; try done.
    cbn in Hrest |- *. by rewrite Hrest.
  - destruct n as [|n]; [cbn in Hn; lia|]. rewrite str_app_cons. cbn in Hds |- *.
    apply andb_true_iff in Hds as [-> Hds]. rewrite IH; [done|done|cbn in Hn; lia|done].
Qed.

Lemma rmatch_plus_run p k ds rest caps x :
  str_all p ds = true → ds ≠ EmptyString → starts_not p rest → k rest caps = Some x →
  rmatch (Plus (Class p)) (ds +:+ rest) caps k = Some x.
Proof.
  intros Hds Hne Hrest Hk. destruct ds as [|c ds]; [done|]. rewrite str_app_cons.
  unfold Plus. cbn in Hds. apply andb_true_iff in Hds as [Hc Hds].
  change (rmatch (Seq (Class p) (Star (Class p))) (String c (ds +:+ rest)) caps k) with
    (if p c then rmatch (Star (Class p)) (ds +:+ rest) caps k else None).
  rewrite Hc, rmatch_star_class. apply star_class_run; [done..| |done].
  rewrite length_app_str. lia.
Qed.

(** ** How many characters of a kind a match can consume *)

Fixpoint count (p : ascii → bool) (s : string) : nat :=
  match s with
  | EmptyString => 0
  | String c s => (if p c then 1 else 0) + count p s
  end.

Lemma count_app p s t : count p (s +:+ t) = (count p s + count p t)%nat.
Proof. induction s as [|c s IH]; [done|]. rewrite str_app_cons. cbn. rewrite IH. lia. Qed.

Section counting.
Variable bad : ascii → bool.

(** [consumes_bad n r]: a match of [r] takes at most [n] bad characters. *)
Inductive consumes_bad : nat → regex → Prop :=
| bad_any n p : (1 <= n)%nat → consumes_bad n (Class p)
| bad_none n p : (∀ c, p c = true → bad c = false) → consumes_bad n (Class p)
| bad_seq n1 n2 n r1 r2 : consumes_bad n1 r1 → consumes_bad n2 r2 → (n1 + n2 <= n)%nat →
    consumes_bad n (Seq r1 r2)
| bad_alt n r1 r2 : consumes_bad n r1 → consumes_bad n r2 → consumes_bad n (Alt r1 r2)
| bad_star n r : consumes_bad 0 r → consumes_bad n (Star r)
| bad_opt n r : consumes_bad n r → consumes_bad n (Opt r)
| bad_cap n i r : consumes_bad n r → consumes_bad n (Cap i r)
| bad_end n : consumes_bad n End.

Lemma rmatch_consumes n r : consumes_bad n r → ∀ s caps k x, rmatch r s caps k = Some x →
  ∃ u s' caps', s = u +:+ s' ∧ (count bad u <= n)%nat ∧ k s' caps' = Some x.
Proof.
  induction 1 as [n p Hn|n p Hp|n1 n2 n r1 r2 _ IH1 _ IH2 Hn|n r1 r2 _ IH1 _ IH2
                 |n r _ IH|n r _ IH|n i r _ IH|n]; intros s caps k x Hm.
  - destruct s as [|c s]; [done|]. cbn in Hm. destruct (p c); [|done].
    exists (String c ""), s, caps. cbn. destruct (bad c); split_and!; (done || lia).
  - destruct s as [|c s]; [done|]. cbn in Hm. destruct (p c) eqn:E; [|done].
    exists (String c ""), s, caps. cbn. rewrite (Hp c E). split_and!; (done || lia).
  - apply IH1 in Hm as (u & s' & caps' & -> & Hu & Hm).
    apply IH2 in Hm as (v & s'' & caps'' & -> & Hv & Hm).
    exists (u +:+ v), s'', caps''. rewrite str_app_assoc, count_app. split_and!; (done || lia).
  - cbn in Hm. destruct (rmatch r1 s caps k) as [y|] eqn:E; [simplify_eq; by apply IH1 in E|by apply IH2 in Hm].
  - cbn in Hm. revert Hm. generalize (String.length s) as m. intros m. revert s caps.
    induction m as [|m IHm]; intros s caps Hm.
    + exists "", s, caps. cbn. split_and!; (done || lia).
    + destruct (rmatch r s caps _) as [y|] eqn:E.
      * apply IH in E as (u & s' & caps' & -> & Hu & E). simplify_eq.
        apply IHm in E as (v & s'' & caps'' & -> & Hv & E).
        exists (u +:+ v), s'', caps''. rewrite str_app_assoc, count_app. split_and!; (done || lia).
      * exists "", s, caps. cbn. split_and!; (done || lia).
  - cbn in Hm. destruct (rmatch r s caps k) as [y|] eqn:E; [simplify_eq; by apply IH in E|].
    exists "", s, caps. cbn. split_and!; (done || lia).
  - cbn in Hm. apply IH in Hm as (u & s' & caps' & -> & Hu & Hm). by eexists u, s', _.
  - destruct s as [|c s]; [|done]. exists "", "", caps. cbn. split_and!; (done || lia).
Qed.
End counting.

(** Starting positions that cannot match are skipped. *)
Lemma find_skip r u s : (∀ c v w, u = v +:+ String c w → match_at r (String c (w +:+ s)) = None) →
  find r (u +:+ s) = find r s.
Proof.
  induction u as [|c u IH]; intros H; [done|]. rewrite str_app_cons. cbn [find].
  rewrite (H c "" u eq_refl). apply IH. intros c' v w ->. by apply (H c' (String c v) w).
Qed.

Lemma find_here r s x : match_at r s = Some x → find r s = Some x.
Proof. intros H. destruct s; cbn [find]; by rewrite H. Qed.
