(* ===== verification/GoJson.v ===== *)
(** * [encoding/json], as far as the program uses it

    A recursive-descent reader of JSON texts that keeps, for every member of
    an object, the raw text of its value (what a [json.RawMessage] or an
    [UnmarshalJSON] method receives), and the writer of strings.  Every
    recursive call of the reader consumes a character, so the length of the
    text is fuel enough.  Texts are sequences of bytes; those above 127 are
    passed through unchanged. *)

From Stdlib Require Import ZArith Lia Ascii.
From stdpp Require Import base strings list numbers.
From S2P Require Import Prelude GoStrings GoRegexp.

Local Open Scope Z_scope.

(** ** Values *)

Inductive json : Type :=
| JNull
| JBool (b : bool)
| JNum (literal : string)
| JStr (s : string)
| JArr (elems : list json)
| JObj (members : list (string * string * json)).

(** ** Lexical level *)

Definition is_ws (c : ascii) : bool :=
  let n := char_code c in (n =? 32) || (n =? 9) || (n =? 10) || (n =? 13).

Fixpoint skip_ws (s : string) : string :=
  match s with
  | String c s' => if is_ws c then skip_ws s' else s
  | EmptyString => s
  end.

Definition ascii_of (n : Z) : ascii := Ascii.ascii_of_N (Z.to_N n).

(** UTF-8 encoding of a code point. *)
Definition utf8 (n : Z) : string :=
  if n <? 128 then String (ascii_of n) ""
  else if n <? 2048 then
    String (ascii_of (192 + n / 64)) (String (ascii_of (128 + n mod 64)) "")
  else if n <? 65536 then
    String (ascii_of (224 + n / 4096)) (String (ascii_of (128 + n / 64 mod 64))
      (String (ascii_of (128 + n mod 64)) ""))
  else
    String (ascii_of (240 + n / 262144)) (String (ascii_of (128 + n / 4096 mod 64))
      (String (ascii_of (128 + n / 64 mod 64)) (String (ascii_of (128 + n mod 64)) ""))).

Definition hex4 (a b c d : ascii) : option Z :=
  match digit_val 16 a, digit_val 16 b, digit_val 16 c, digit_val 16 d with
  | Some a, Some b, Some c, Some d => Some (((a * 16 + b) * 16 + c) * 16 + d)
  | _, _, _, _ => None
  end.

(** The text after [\u]: a code point, two escapes when they form a surrogate
    pair, the replacement character for a lone surrogate. *)
Definition unescape_u (s : string) : option (string * string) :=
  match s with
  | String a (String b (String c (String d s))) =>
      match hex4 a b c d with
      | None => None
      | Some n =>
          if (55296 <=? n) && (n <? 56320) then
            match s with
            | String bs (String u (String a (String b (String c (String d s'))))) =>
                match Ascii.eqb bs "092" && Ascii.eqb u "u", hex4 a b c d with
                | true, Some m =>
                    if (56320 <=? m) && (m <? 57344)
                    then Some (utf8 (65536 + (n - 55296) * 1024 + (m - 56320)), s')
                    else Some (utf8 65533, s)
                | _, _ => Some (utf8 65533, s)
                end
            | _ => Some (utf8 65533, s)
            end
          else if (56320 <=? n) && (n <? 57344) then Some (utf8 65533, s)
          else Some (utf8 n, s)
      end
  | _ => None
  end.

Definition unescape (c : ascii) : option ascii :=
  let n := char_code c in
  if (n =? 34) || (n =? 92) || (n =? 47) then Some c
  else if n =? 98 then Some (ascii_of 8)
  else if n =? 102 then Some (ascii_of 12)
  else if n =? 110 then Some (ascii_of 10)
  else if n =? 114 then Some (ascii_of 13)
  else if n =? 116 then Some (ascii_of 9)
  else None.

(** A string after its opening quote: its value and what follows the closing one. *)
Fixpoint parse_str (fuel : nat) (s : string) : option (string * string) :=
  match fuel, s with
  | S f, String c s =>
      let n := char_code c in
      if n =? 34 then Some ("", s)
      else if n =? 92 then
        match s with
        | String e s =>
            if Ascii.eqb e "u" then
              match unescape_u s with
              | Some (u, s) => match parse_str f s with Some (v, r) => Some (u +:+ v, r) | None => None end
              | None => None
              end
            else
              match unescape e with
              | Some u => match parse_str f s with Some (v, r) => Some (String u v, r) | None => None end
              | None => None
              end
        | EmptyString => None
        end
      else if n <? 32 then None
      else match parse_str f s with Some (v, r) => Some (String c v, r) | None => None end
  | _, _ => None
  end.

(** A number literal: an optional sign, an integer part without leading zero,
    an optional fraction and an optional exponent. *)
Fixpoint take_digits (s : string) : string * string :=
  match s with
  | String c s' => if is_digit c then let '(d, r) := take_digits s' in (String c d, r) else ("", s)
  | EmptyString => ("", s)
  end.

Definition scan_int (s : string) : option (string * string) :=
  match s with
  | String c s' =>
      if char_code c =? 48 then Some (String c "", s')
      else match take_digits s with ("", _) => None | r => Some r end
  | EmptyString => None
  end.

Definition scan_frac (s : string) : option (string * string) :=
  match s with
  | String c s' =>
      if char_code c =? 46 then
        match take_digits s' with ("", _) => None | (d, r) => Some (String c d, r) end
      else Some ("", s)
  | EmptyString => Some ("", s)
  end.

Definition scan_exp (s : string) : option (string * string) :=
  match s with
  | String c s' =>
      if (char_code c =? 101) || (char_code c =? 69) then
        let '(sign, s'') := match s' with
                            | String g r => if (char_code g =? 43) || (char_code g =? 45)
                                            then (String g "", r) else ("", s')
                            | EmptyString => ("", s')
                            end in
        match take_digits s'' with
        | ("", _) => None
        | (d, r) => Some (String c (sign +:+ d), r)
        end
      else Some ("", s)
  | EmptyString => Some ("", s)
  end.

Definition scan_num (s : string) : option (string * string) :=
  let '(sign, s) := match s with
                    | String c s' => if char_code c =? 45 then (String c "", s') else ("", s)
                    | EmptyString => ("", s)
                    end in
  match scan_int s with
  | None => None
  | Some (i, s) =>
      match scan_frac s with
      | None => None
      | Some (f, s) =>
          match scan_exp s with
          | None => None
          | Some (e, s) => Some (sign +:+ i +:+ f +:+ e, s)
          end
      end
  end.

(** ** Values *)

(** [strip pre s]: what follows [pre] in [s]. *)
Fixpoint strip (pre s : string) : option string :=
  match pre, s with
  | EmptyString, _ => Some s
  | String a pre, String b s => if Ascii.eqb a b then strip pre s else None
  | _, _ => None
  end.

Definition char_is (n : Z) (c : ascii) : bool := char_code c =? n.

Fixpoint parse_value (fuel : nat) (s : string) : option (json * string) :=
  match fuel with
  | O => None
  | S f =>
      match s with
      | EmptyString => None
      | String c s' =>
          if char_is 34 c then
            match parse_str f s' with Some (v, r) => Some (JStr v, r) | None => None end
          else if char_is 123 c then
            match skip_ws s' with
            | String d r => if char_is 125 d then Some (JObj [], r)
                            else match parse_members f (skip_ws s') with
                                 | Some (ms, r) => Some (JObj ms, r)
                                 | None => None
                                 end
            | EmptyString => None
            end
          else if char_is 91 c then
            match skip_ws s' with
            | String d r => if char_is 93 d then Some (JArr [], r)
                            else match parse_elems f (skip_ws s') with
                                 | Some (es, r) => Some (JArr es, r)
                                 | None => None
                                 end
            | EmptyString => None
            end
          else
            match strip "null" s, strip "true" s, strip "false" s with
            | Some r, _, _ => Some (JNull, r)
            | _, Some r, _ => Some (JBool true, r)
            | _, _, Some r => Some (JBool false, r)
            | _, _, _ => match scan_num s with Some (l, r) => Some (JNum l, r) | None => None end
            end
      end
  end
(** [key : value , ...  }], at a key. *)
with parse_members (fuel : nat) (s : string) : option (list (string * string * json) * string) :=
  match fuel, s with
  | S f, String q s =>
      if char_is 34 q then
        match parse_str f s with
        | None => None
        | Some (key, s) =>
            match skip_ws s with
            | String colon s =>
                if char_is 58 colon then
                  let start := skip_ws s in
                  match parse_value f start with
                  | None => None
                  | Some (v, rest) =>
                      let m := (key, consumed start rest, v) in
                      match skip_ws rest with
                      | String d r =>
                          if char_is 125 d then Some ([m], r)
                          else if char_is 44 d then
                            match parse_members f (skip_ws r) with
                            | Some (ms, r) => Some (m :: ms, r)
                            | None => None
                            end
                          else None
                      | EmptyString => None
                      end
                  end
                else None
            | EmptyString => None
            end
        end
      else None
  | _, _ => None
  end
(** [value , ... ]], at a value. *)
with parse_elems (fuel : nat) (s : string) : option (list json * string) :=
  match fuel with
  | S f =>
      match parse_value f s with
      | None => None
      | Some (v, rest) =>
          match skip_ws rest with
          | String d r =>
              if char_is 93 d then Some ([v], r)
              else if char_is 44 d then
                match parse_elems f (skip_ws r) with
                | Some (es, r) => Some (v :: es, r)
                | None => None
                end
              else None
          | EmptyString => None
          end
      end
  | O => None
  end.

(** A whole text: the value and its raw text. *)
Definition parse_json (s : string) : option (string * json) :=
  let start := skip_ws s in
  match parse_value (S (String.length s)) start with
  | Some (v, rest) =>
      match skip_ws rest with EmptyString => Some (consumed start rest, v) | _ => None end
  | None => None
  end.

(** ** Writing strings *)

Definition hex_digit (n : Z) : ascii := digit_char n.

Definition escape_char (c : ascii) : string :=
  let n := char_code c in
  if (n =? 34) || (n =? 92) then String "092" (String c "")
  else if n =? 8 then "\b" else if n =? 12 then "\f" else if n =? 10 then "\n"
  else if n =? 13 then "\r" else if n =? 9 then "\t"
  else if (n <? 32) || (n =? 60) || (n =? 62) || (n =? 38) then
    "\u00" +:+ String (hex_digit (n / 16)) (String (hex_digit (n mod 16)) "")
  else String c "".

Fixpoint escape (s : string) : string :=
  match s with
  | EmptyString => ""
  | String c s => escape_char c +:+ escape s
  end.

Definition dquote : ascii := Ascii.ascii_of_N 34.
Definition json_string (s : string) : string := String dquote (escape s +:+ String dquote "").

(** A valid text without insignificant space, as [json.Marshal] writes a [RawMessage]. *)
Fixpoint compact_go (in_str esc : bool) (s : string) : string :=
  match s with
  | EmptyString => ""
  | String c s =>
      let n := char_code c in
      if in_str then
        let out := if (n =? 60) || (n =? 62) || (n =? 38) then escape_char c else String c "" in
        out +:+ compact_go (esc || negb (n =? 34)) (negb esc && (n =? 92)) s
      else if is_ws c then compact_go false false s
      else String c (compact_go (n =? 34) false s)
  end.

Definition json_compact (s : string) : outcome string :=
  match parse_json s with
  | Some _ => Ret (compact_go false false s)
  | None => Err (Errorf "json: error calling MarshalJSON for type json.RawMessage")
  end.

Definition member (name value : string) : string := json_string name +:+ ":" +:+ value.
Definition json_object (members : list string) : string := "{" +:+ join "," members +:+ "}".
(** ** Decoding into Go values *)

Definition json_error : error := Errorf "json: cannot unmarshal".

(** A struct field takes the members whose key is its name up to letter case. *)
Definition field_name (field key : string) : bool := bool_decide (ToLower field = ToLower key).

(** The scalar kinds: a JSON null leaves the value alone. *)
Definition decode_bool (v : bool) (j : json) : outcome bool :=
  match j with JNull => Ret v | JBool b => Ret b | _ => Err json_error end.
Definition decode_string (v : string) (j : json) : outcome string :=
  match j with JNull => Ret v | JStr s => Ret s | _ => Err json_error end.
Definition decode_uint (bits : Z) (v : Z) (j : json) : outcome Z :=
  match j with
  | JNull => Ret v
  | JNum l => match ParseUint l 10 bits with Some n => Ret n | None => Err json_error end
  | _ => Err json_error
  end.

(** [strconv.ParseInt] to [bits] bits. *)
Definition ParseInt (s : string) (bits : Z) : option Z :=
  let '(neg, d) := match s with
                   | String c r => if char_is 45 c then (true, r)
                                   else if char_is 43 c then (false, r) else (false, s)
                   | EmptyString => (false, s)
                   end in
  match parse_uint 10 d with
  | Some n => if neg then if n <=? 2 ^ (bits - 1) then Some (- n) else None
              else if n <? 2 ^ (bits - 1) then Some n else None
  | None => None
  end.
Definition decode_int (bits : Z) (v : Z) (j : json) : outcome Z :=
  match j with
  | JNull => Ret v
  | JNum l => match ParseInt l bits with Some n => Ret n | None => Err json_error end
  | _ => Err json_error
  end.

(** [json.Unmarshal] into a struct: its members in order, each through [field],
    which gets the key, the raw text and the value; a null leaves the struct alone. *)
Fixpoint decode_members {A} (field : A → string → string → json → outcome A)
    (ms : list (string * string * json)) (a : A) : outcome A :=
  match ms with
  | [] => Ret a
  | (key, raw, v) :: ms => a ← field a key raw v; decode_members field ms a
  end.

Definition Unmarshal_struct {A} (field : A → string → string → json → outcome A)
    (s : string) (a : A) : outcome A :=
  match parse_json s with
  | None => Err (Errorf "json: syntax error")
  | Some (_, JNull) => Ret a
  | Some (_, JObj ms) => decode_members field ms a
  | Some _ => Err json_error
  end.

(** JSON texts written with apostrophes for quotes, for the examples. *)
Fixpoint unquote (s : string) : string :=
  match s with
  | EmptyString => ""
  | String c s => String (if Ascii.eqb c "'"%char then dquote else c) (unquote s)
  end.

Example parse_ex : parse_json (unquote " {'a': [1, -2.5e+3 ,null], 'b\u0041' : {'c':'x\ny'}} ") =
  Some (unquote "{'a': [1, -2.5e+3 ,null], 'b\u0041' : {'c':'x\ny'}}",
        JObj [("a", "[1, -2.5e+3 ,null]", JArr [JNum "1"; JNum "-2.5e+3"; JNull]);
              ("bA", unquote "{'c':'x\ny'}",
               JObj [("c", unquote "'x\ny'", JStr (String "x" (String (ascii_of 10) "y")))])]).
Proof. by vm_compute. Qed.
Example parse_bad : map (λ s, bool_decide (is_Some (parse_json (unquote s))))
  ["01"; "{'a' 1}"; "[1,]"; "'ab"; "nul"; "{} x"; "1."; "-"] = replicate 8 false.
Proof. by vm_compute. Qed.
