(* ===== verification/GoJsonFacts.v ===== *)
(** * JSON texts that are written and read back

    [json_text v j]: the text [v] reads as the value [j] wherever it stands, and is
    already compact.  The lemmas build such texts from strings, numbers and objects;
    they carry the round trips of lease attributes and backend data. *)

From Stdlib Require Import ZArith Lia Ascii.
From stdpp Require Import base strings list numbers.
From S2P Require Import Prelude GoStrings GoRegexp GoJson.

Local Open Scope Z_scope.

(** A character that a string literal holds as it is. *)
Definition plain (c : ascii) : bool :=
  let n := char_code c in
  (32 <=? n) && negb ((n =? 34) || (n =? 92)) && negb ((n =? 60) || (n =? 62) || (n =? 38)).

(** The end of the text, or what may follow a value. *)
Definition delim (r : string) : Prop :=
  match r with EmptyString => True | String c _ => c = ","%char ∨ c = "}"%char ∨ c = "]"%char ∨ c = ascii_of 10 end.

Definition json_text (v : string) (j : json) : Prop :=
  (∃ c v', v = String c v' ∧ is_ws c = false) ∧
  (∀ f r, (String.length v <= f)%nat → delim r → parse_value f (v +:+ r) = Some (j, r)) ∧
  (∀ r, compact_go false false (v +:+ r) = v +:+ compact_go false false r).

Lemma plain_code c : plain c = true →
  (char_code c =? 34) = false ∧ (char_code c =? 92) = false ∧ (char_code c <? 32) = false ∧ 
  (char_code c =? 60) = false ∧ (char_code c =? 62) = false ∧ (char_code c =? 38) = false.
Proof.
  unfold plain. rewrite !andb_true_iff, !negb_true_iff, !orb_false_iff, Z.leb_le. intros [[? [? ?]] [[? ?] ?]].
  split_and!; try done. apply Z.ltb_ge. lia.
Qed.

Lemma escape_char_plain c : plain c = true → escape_char c = String c "".
Proof.
  intros (H1 & H2 & H3 & H4 & H5 & H6)%plain_code. unfold escape_char. rewrite H1, H2. cbn [orb].
  rewrite Z.ltb_ge in H3. repeat (match goal with |- context [?x =? ?k] => destruct (Z.eqb_spec x k); [lia|] end).
  by rewrite (proj2 (Z.ltb_ge _ _) H3).
Qed.

Lemma escape_plain s : str_all plain s = true → escape s = s.
Proof.
  induction s as [|c s IH]; [done|]. cbn [str_all escape]. intros [Hc Hs]%andb_true_iff.
  by rewrite escape_char_plain, IH by done.
Qed.

Lemma parse_str_plain t r f : str_all plain t = true → (String.length t < f)%nat →
  parse_str f (t +:+ String dquote r) = Some (t, r).
Proof.
  revert f. induction t as [|c t IH]; intros [|f] Ht Hf; try (cbn in Hf; lia); [done|].
  cbn [str_all] in Ht. apply andb_true_iff in Ht as [(H1 & H2 & H3 & _)%plain_code Ht].
  rewrite str_app_cons. cbn [parse_str]. rewrite H1, H2, H3, IH; [done|done|]. cbn in Hf. lia.
Qed.

(** Inside a string nothing is compacted. *)
Lemma compact_str t r : str_all plain t = true →
  compact_go true false (t +:+ String dquote r) = t +:+ String dquote (compact_go false false r).
Proof.
  induction t as [|c t IH]; [done|]. cbn [str_all]. intros [(H1 & H2 & _ & H4 & H5 & H6)%plain_code Ht]%andb_true_iff.
  rewrite !str_app_cons. cbn [compact_go]. rewrite H1, H2, H4, H5, H6. cbn [orb negb andb]. by rewrite IH.
Qed.

Lemma json_string_text t : str_all plain t = true → json_text (json_string t) (JStr t).
Proof.
  intros Ht. unfold json_string. rewrite escape_plain by done. split; [|split].
  - by exists dquote, (t +:+ String dquote "").
  - intros [|f] r Hf _; [cbn in Hf; lia|]. rewrite str_app_cons, str_app_assoc, str_app_cons. cbn [parse_value].
    change (char_is 34 dquote) with true. cbn iota. rewrite parse_str_plain; [done|done|].
    cbn [String.length] in Hf. rewrite str_length_app in Hf. cbn in Hf. lia.
  - intros r. rewrite !str_app_cons, !str_app_assoc, !str_app_cons. cbn [compact_go]. change (is_ws dquote) with false.
    change (char_code dquote =? 34) with true. cbn iota. by rewrite compact_str.
Qed.

(** A string of any characters: what is escaped is read back. *)
Lemma parse_str_escape c f r :
  parse_str (S f) (escape_char c +:+ r) = match parse_str f r with Some (v, r') => Some (String c v, r') | None => None end.
Proof. destruct c as [[] [] [] [] [] [] [] []]; reflexivity. Qed.
Lemma escape_char_length c : (1 <= String.length (escape_char c))%nat.
Proof. apply Nat.leb_le. destruct c as [[] [] [] [] [] [] [] []]; reflexivity. Qed.
Lemma compact_escape c r : compact_go true false (escape_char c +:+ r) = escape_char c +:+ compact_go true false r.
Proof. destruct c as [[] [] [] [] [] [] [] []]; reflexivity. Qed.

Lemma json_any_string t : json_text (json_string t) (JStr t).
Proof.
  unfold json_string. split; [|split].
  - by exists dquote, (escape t +:+ String dquote "").
  - intros [|f] r Hf _; [cbn in Hf; lia|]. rewrite str_app_cons, str_app_assoc, str_app_cons. cbn [parse_value].
    change (char_is 34 dquote) with true. cbn iota. change ("" +:+ r) with r.
    assert ((String.length (escape t) < f)%nat) as Hl by (cbn [String.length] in Hf; rewrite str_length_app in Hf; cbn in Hf; lia).
    assert (parse_str f (escape t +:+ String dquote r) = Some (t, r)) as ->; [|done]. clear Hf. revert f Hl.
    induction t as [|c t IH]; intros [|f] Hl; [lia|done|lia|]. cbn [escape] in *. rewrite str_length_app in Hl.
    pose proof (escape_char_length c). rewrite str_app_assoc, parse_str_escape, IH; [done|lia].
  - intros r. rewrite !str_app_cons, !str_app_assoc, !str_app_cons. cbn [compact_go]. change (is_ws dquote) with false.
    change (char_code dquote =? 34) with true. cbn iota. change ("" +:+ ?x) with x. f_equal.
    induction t as [|c t IH]; [done|]. cbn [escape]. by rewrite !str_app_assoc, compact_escape, IH.
Qed.

(** ** Numbers *)

Lemma digit_code c : is_digit c = true → 48 <= char_code c <= 57.
Proof. unfold is_digit. rewrite andb_true_iff, !Z.leb_le. lia. Qed.

Lemma take_digits_app d r : str_all is_digit d = true → delim r → take_digits (d +:+ r) = (d, r).
Proof.
  intros Hd Hr. induction d as [|c d IH].
  - destruct r as [|c r]; [done|]. by destruct Hr as [-> |[-> |[-> | ->]]].
  - cbn [str_all] in Hd. apply andb_true_iff in Hd as [Hc Hd]. rewrite str_app_cons. cbn [take_digits]. by rewrite Hc, IH.
Qed.

(** A literal of digits, without a leading zero. *)
Definition digits (d : string) : Prop :=
  str_all is_digit d = true ∧ (d = "0" ∨ ∃ c d', d = String c d' ∧ char_code c ≠ 48).

(** The parts of a number that is all digits. *)
Lemma scan_parts d r : digits d → delim r →
  scan_int (d +:+ r) = Some (d, r) ∧ scan_frac r = Some ("", r) ∧ scan_exp r = Some ("", r).
Proof.
  intros [Hd Hz] Hr. split.
  - destruct Hz as [->|(c & d' & -> & Hc)]; [done|].
    pose proof (take_digits_app _ r Hd Hr) as Et. rewrite str_app_cons in *. unfold scan_int.
    apply Z.eqb_neq in Hc. by rewrite Hc, Et.
  - destruct r as [|c r]; [done|]. by destruct Hr as [-> |[-> |[-> | ->]]].
Qed.

Lemma scan_num_digits d r : digits d → delim r → scan_num (d +:+ r) = Some (d, r).
Proof.
  intros Hdd Hr. destruct (scan_parts d r Hdd Hr) as (Ei & Ef & Ee). destruct Hdd as [Hd Hz].
  assert (∃ c s', d +:+ r = String c s' ∧ (char_code c =? 45) = false) as (c & s' & E & Hc).
  { assert (∃ c d', d = String c d') as (c & d' & ->) by (destruct Hz as [->|(c & d' & -> & _)]; eauto).
    exists c, (d' +:+ r). split; [done|]. cbn [str_all] in Hd. apply andb_true_iff in Hd as [Hc%digit_code _]. apply Z.eqb_neq. lia. }
  unfold scan_num. rewrite E in *. rewrite Hc, Ei, Ef, Ee. by rewrite !str_app_nil_r.
Qed.
Lemma scan_num_neg d r : digits d → delim r → scan_num (String "-" (d +:+ r)) = Some (String "-" d, r).
Proof.
  intros Hd Hr. destruct (scan_parts d r Hd Hr) as (Ei & Ef & Ee). unfold scan_num. change (char_code "-" =? 45) with true.
  cbn iota. rewrite Ei, Ef, Ee. by rewrite !str_app_nil_r.
Qed.

Lemma digits_text d : digits d → json_text d (JNum d).
Proof.
  intros Hd. pose proof Hd as [Ha Hz]. assert (∃ c d', d = String c d') as (c & d' & E) by (destruct Hz as [->|(c & d' & -> & _)]; eauto).
  assert (48 <= char_code c <= 57) as Hc by (rewrite E in Ha; cbn in Ha; apply andb_true_iff in Ha as [Hc _]; by apply digit_code).
  assert (∀ k, (k < 48 ∨ 57 < k) → (char_code c =? k) = false) as Hk by (intros k ?; apply Z.eqb_neq; lia).
  split; [|split].
  - exists c, d'. split; [done|]. unfold is_ws. by rewrite !Hk by lia.
  - intros [|f] r Hf Hr; [rewrite E in Hf; cbn in Hf; lia|]. pose proof (scan_num_digits d r Hd Hr) as Es. rewrite E, str_app_cons in *.
    cbn [parse_value]. unfold char_is. rewrite !Hk by lia.
    assert (∀ a s, ¬ (48 <= char_code a <= 57) → strip (String a s) (String c (d' +:+ r)) = None) as Hs.
    { intros a s Hne. cbn [strip]. destruct (Ascii.eqb_spec a c); [by subst|done]. }
    rewrite !Hs by (vm_compute; intros [? ?]; done). by rewrite Es.
  - clear E c d' Hc Hk Hz Hd. intros r. induction d as [|c d IH]; [done|]. cbn [str_all] in Ha. apply andb_true_iff in Ha as [Hc%digit_code Ha].
    rewrite !str_app_cons. cbn [compact_go]. unfold is_ws.
    rewrite !(proj2 (Z.eqb_neq _ _)) by lia. cbn [orb]. by rewrite IH.
Qed.

Lemma fmt_uint_digits n : 0 <= n → digits (fmt_uint 10 n).
Proof.
  intros Hn. split; [by apply fmt_dec_digits|]. destruct (decide (n = 0)) as [->|]; [by left|]. right.
  destruct (fmt_uint_head 10 n) as (d & d' & E & Hd); [lia..|]. exists (digit_char d), d'. split; [done|].
  rewrite digit_char_code by lia. destruct (Z.ltb_spec d 10); lia.
Qed.

Lemma neg_text d : digits d → json_text (String "-" d) (JNum (String "-" d)).
Proof.
  intros Hd. split; [|split].
  - by exists "-"%char, d.
  - intros [|f] r Hf Hr; [cbn in Hf; lia|]. rewrite str_app_cons. cbn [parse_value]. change (char_is 34 "-") with false.
    change (char_is 123 "-") with false. change (char_is 91 "-") with false. cbn iota. cbn [strip Ascii.eqb Bool.eqb].
    by rewrite (scan_num_neg d r Hd Hr).
  - intros r. rewrite !str_app_cons. cbn [compact_go]. change (is_ws "-") with false. change (char_code "-" =? 34) with false. cbn iota.
    destruct (digits_text d Hd) as (_ & _ & Hc). by rewrite Hc.
Qed.

Lemma int_text z : json_text (fmt_int z) (JNum (fmt_int z)).
Proof.
  unfold fmt_int. destruct (Z.ltb_spec z 0); [apply neg_text|apply digits_text]; apply fmt_uint_digits; lia.
Qed.
Lemma ParseInt_fmt z : - 2 ^ 63 <= z < 2 ^ 63 → ParseInt (fmt_int z) 64 = Some z.
Proof.
  intros Hz. unfold fmt_int, ParseInt. destruct (Z.ltb_spec z 0).
  - change ("-" +:+ ?s) with (String "-" s). cbn iota beta. change (char_is 45 "-") with true. cbn iota beta. rewrite parse_fmt_uint by lia.
    rewrite (proj2 (Z.leb_le _ _)) by (change (64 - 1) with 63; lia). f_equal. lia.
  - assert (∃ c s, fmt_uint 10 z = String c s ∧ is_digit c = true) as (c & s & E & Hc).
    { pose proof (fmt_dec_digits z ltac:(lia)) as Hd. destruct (fmt_uint 10 z) as [|c s] eqn:E; [by destruct (fmt_uint_nonempty 10 z)|].
      exists c, s. split; [done|]. cbn in Hd. by apply andb_true_iff in Hd as [Hd _]. }
    pose proof (parse_fmt_uint 10 z ltac:(lia) ltac:(lia)) as Ep. rewrite E in *. apply digit_code in Hc. unfold char_is.
    rewrite !(proj2 (Z.eqb_neq _ _)) by lia. cbn iota. rewrite Ep. rewrite (proj2 (Z.ltb_lt _ _)) by (change (64 - 1) with 63; lia). done.
Qed.

Lemma null_text : json_text "null" JNull.
Proof.
  split; [by exists "n"%char, "ull"|]. split; [|done]. intros [|f] r Hf _; [cbn in Hf; lia|]. done.
Qed.

Definition bool_literal (b : bool) : string := if b then "true" else "false".
Lemma bool_text b : json_text (bool_literal b) (JBool b).
Proof.
  split; [destruct b; [by exists "t"%char, "rue"|by exists "f"%char, "alse"]|]. split; [|by destruct b].
  intros [|f] r Hf _; [destruct b; cbn in Hf; lia|]. by destruct b.
Qed.

(** ** Objects *)

Lemma skip_ws_text v j r : json_text v j → skip_ws (v +:+ r) = v +:+ r.
Proof. intros [(c & v' & -> & Hc) _]. rewrite str_app_cons. cbn [skip_ws]. by rewrite Hc. Qed.

Lemma member_cons k v R : member k v +:+ R = String dquote (escape k +:+ String dquote (String ":" (v +:+ R))).
Proof. unfold member, json_string. rewrite !str_app_cons, !str_app_assoc, !str_app_cons, !str_app_assoc. done. Qed.

Lemma parse_member_step k v j f R : str_all plain k = true → json_text v j →
  (String.length (member k v) <= S f)%nat → delim R →
  parse_members (S f) (member k v +:+ R) =
  match skip_ws R with
  | String d r =>
      if char_is 125 d then Some ([(k, v, j)], r)
      else if char_is 44 d then
        match parse_members f (skip_ws r) with Some (ms, r) => Some ((k, v, j) :: ms, r) | None => None end
      else None
  | EmptyString => None
  end.
Proof.
  intros Hk Hv Hf HR. pose proof Hv as (_ & Hp & _). rewrite <- (str_app_nil_r (member k v)), member_cons in Hf.
  rewrite member_cons, escape_plain in * by done. rewrite str_app_nil_r in Hf. cbn [String.length] in Hf. rewrite str_length_app in Hf. cbn [String.length] in Hf.
  cbn [parse_members]. change (char_is 34 dquote) with true. cbn iota. rewrite parse_str_plain by (done || lia).
  change (skip_ws (String ":" (v +:+ R))) with (String ":" (v +:+ R)). cbn iota. change (char_is 58 ":") with true. cbn iota.
  rewrite (skip_ws_text _ _ _ Hv). rewrite Hp by (done || lia). by rewrite consumed_app.
Qed.

(** The members of an object: a key, the text of its value and the value. *)
Definition members_ok (ms : list (string * string * json)) : Prop :=
  Forall (λ m, str_all plain m.1.1 = true ∧ json_text m.1.2 m.2) ms.
Definition member_text (m : string * string * json) : string := member m.1.1 m.1.2.

Lemma members_head ms R : ms ≠ [] → ∃ t, join "," (member_text <$> ms) +:+ R = String dquote t.
Proof.
  intros Hne. destruct ms as [|m [|m' ms]]; [done|..].
  - cbn [fmap list_fmap join]. unfold member_text. rewrite member_cons. eauto.
  - change (join "," (member_text <$> m :: m' :: ms)) with (member_text m +:+ "," +:+ join "," (member_text <$> m' :: ms)).
    rewrite str_app_assoc. unfold member_text at 1. rewrite member_cons. eauto.
Qed.

Lemma parse_members_text ms f r : members_ok ms → ms ≠ [] →
  (String.length (join "," (member_text <$> ms)) < f)%nat →
  parse_members f (join "," (member_text <$> ms) +:+ String "}" r) = Some (ms, r).
Proof.
  intros Hms. revert f. induction Hms as [|[[k v] j] ms [Hk Hv] Hms IH]; intros [|f] Hne Hf; try done; [cbn in Hf; lia|].
  cbn [fst snd] in *. destruct ms as [|m ms].
  - cbn [fmap list_fmap join] in *. unfold member_text in *. cbn [fst snd] in *. rewrite (parse_member_step _ _ j) by (auto || lia || by right; left). done.
  - change (join "," (member_text <$> (k, v, j) :: m :: ms)) with
      (member k v +:+ "," +:+ join "," (member_text <$> m :: ms)) in *.
    rewrite !str_length_app in Hf. cbn [String.length] in Hf. rewrite !str_app_assoc.
    rewrite (parse_member_step _ _ j); [|done|done|lia|by left]. rewrite str_app_cons.
    change (skip_ws (String "," ?t)) with (String "," t). cbn iota. change (char_is 125 ",") with false. change (char_is 44 ",") with true. cbn iota.
    change ("" +:+ ?t) with t. destruct (members_head (m :: ms) (String "}" r)) as [t Et]; [done|].
    pose proof (IH f) as IHf. rewrite Et in *. change (skip_ws (String dquote t)) with (String dquote t).
    by rewrite IHf by (done || lia).
Qed.

Lemma compact_member k v j r : str_all plain k = true → json_text v j →
  compact_go false false (member k v +:+ r) = member k v +:+ compact_go false false r.
Proof.
  intros Hk (_ & _ & Hc). rewrite !member_cons, escape_plain by done. cbn [compact_go]. change (is_ws dquote) with false.
  change (char_code dquote =? 34) with true. cbn iota. rewrite compact_str by done. cbn [compact_go].
  change (is_ws ":") with false. change (char_code ":" =? 34) with false. cbn iota. by rewrite Hc.
Qed.

Lemma compact_members ms r : members_ok ms →
  compact_go false false (join "," (member_text <$> ms) +:+ r) = join "," (member_text <$> ms) +:+ compact_go false false r.
Proof.
  intros Hms. induction Hms as [|[[k v] j] ms [Hk Hv] Hms IH]; [done|]. cbn [fst snd] in *. destruct ms as [|m ms].
  - cbn [fmap list_fmap join]. by apply (compact_member _ _ j).
  - change (join "," (member_text <$> (k, v, j) :: m :: ms)) with
      (member k v +:+ "," +:+ join "," (member_text <$> m :: ms)).
    rewrite !str_app_assoc, (compact_member _ _ j) by done. rewrite !str_app_cons. cbn [compact_go].
    change (is_ws ",") with false. change (char_code "," =? 34) with false. cbn iota. change ("" +:+ ?t) with t. by rewrite IH.
Qed.

Lemma object_text ms : members_ok ms → ms ≠ [] → json_text (json_object (member_text <$> ms)) (JObj ms).
Proof.
  intros Hms Hne. unfold json_object. split; [|split].
  - by eexists _, _.
  - intros [|f] r Hf Hr; [exfalso; rewrite !str_length_app in Hf; cbn in Hf; lia|]. rewrite !str_app_assoc, str_app_cons. change ("" +:+ ?t) with t.
    rewrite !str_length_app in Hf. cbn [String.length] in Hf. change ("}" +:+ r) with (String "}" r).
    pose proof (parse_members_text ms f r Hms Hne) as E. destruct (members_head ms (String "}" r) Hne) as [t Et].
    cbn [parse_value]. change (char_is 34 "{") with false. change (char_is 123 "{") with true. cbn iota. rewrite Et in *.
    change (skip_ws (String dquote t)) with (String dquote t). cbn iota. change (char_is 125 dquote) with false. cbn iota.
    rewrite E; [done|lia].
  - intros r. rewrite !str_app_assoc, !str_app_cons. cbn [compact_go]. change (is_ws "{") with false.
    change (char_code "{" =? 34) with false. cbn iota. change ("" +:+ ?t) with t. by rewrite compact_members.
Qed.

(** ** Arrays *)

Definition elems_ok (es : list (string * json)) : Prop := Forall (λ e, json_text e.1 e.2) es.
Definition json_array (es : list string) : string := "[" +:+ join "," es +:+ "]".

(** A value does not begin like the end of an array. *)
Lemma json_text_head v j : json_text v j → ∃ c v', v = String c v' ∧ is_ws c = false ∧ char_is 93 c = false.
Proof.
  intros [(c & v' & -> & Hc) [Hp _]]. exists c, v'. split; [done|]. split; [done|].
  specialize (Hp (S (String.length (String c v'))) "" ltac:(lia) I). rewrite str_app_nil_r in Hp. generalize dependent (String.length (String c v')).
  intros n Hp. destruct (char_is 93 c) eqn:F; [|done]. destruct c as [[] [] [] [] [] [] [] []]; first [by vm_compute in F|by vm_compute in Hp].
Qed.

Lemma elems_head es R : elems_ok es → es ≠ [] → ∃ c t, join "," (es.*1) +:+ R = String c t ∧ is_ws c = false ∧ char_is 93 c = false.
Proof.
  intros Hes Hne. destruct Hes as [|[v j] es Hv Hes]; [done|]. destruct (json_text_head _ _ Hv) as (c & v' & E & Hc). cbn [fst] in E. subst v.
  destruct es as [|e es].
  - cbn [fmap list_fmap join fst]. rewrite str_app_cons. eauto.
  - change (join "," ((String c v', j) :: e :: es).*1) with (String c v' +:+ "," +:+ join "," (e :: es).*1).
    rewrite str_app_assoc, str_app_cons. eauto.
Qed.

Lemma parse_elems_text es f r : elems_ok es → es ≠ [] →
  (String.length (join "," es.*1) < f)%nat →
  parse_elems f (join "," es.*1 +:+ String "]" r) = Some (es.*2, r).
Proof.
  intros Hes. revert f. induction Hes as [|[v j] es Hv Hes IH]; intros [|f] Hne Hf; try done; [cbn in Hf; lia|].
  cbn [fst snd] in *. pose proof Hv as (_ & Hp & _). destruct es as [|e es].
  - cbn [fmap list_fmap join fst snd] in *. cbn [parse_elems]. rewrite Hp; [done|lia|by right; right; left].
  - change (join "," ((v, j) :: e :: es).*1) with (v +:+ "," +:+ join "," (e :: es).*1) in *.
    rewrite !str_length_app in Hf. cbn [String.length] in Hf. rewrite !str_app_assoc. cbn [parse_elems].
    rewrite Hp; [|lia|by left]. rewrite str_app_cons. change (skip_ws (String "," ?t)) with (String "," t). cbn iota.
    change (char_is 93 ",") with false. change (char_is 44 ",") with true. cbn iota. change ("" +:+ ?t) with t.
    destruct (elems_head (e :: es) (String "]" r)) as (c & t & Et & Hc & _); [done|done|].
    pose proof (IH f) as IHf. rewrite Et in *. assert (skip_ws (String c t) = String c t) as -> by (cbn [skip_ws]; by rewrite Hc).
    rewrite IHf; [done|done|lia].
Qed.

Lemma compact_elems es r : elems_ok es →
  compact_go false false (join "," es.*1 +:+ r) = join "," es.*1 +:+ compact_go false false r.
Proof.
  intros Hes. induction Hes as [|[v j] es Hv Hes IH]; [done|]. cbn [fst snd] in *. pose proof Hv as (_ & _ & Hc). destruct es as [|e es].
  - cbn [fmap list_fmap join fst]. apply Hc.
  - change (join "," ((v, j) :: e :: es).*1) with (v +:+ "," +:+ join "," (e :: es).*1).
    rewrite !str_app_assoc, Hc. rewrite !str_app_cons. cbn [compact_go].
    change (is_ws ",") with false. change (char_code "," =? 34) with false. cbn iota. change ("" +:+ ?t) with t. by rewrite IH.
Qed.

Lemma array_text es : elems_ok es → json_text (json_array es.*1) (JArr es.*2).
Proof.
  intros Hes. unfold json_array. split; [|split].
  - by eexists _, _.
  - intros [|f] r Hf Hr; [exfalso; rewrite !str_length_app in Hf; cbn in Hf; lia|]. rewrite !str_app_assoc, str_app_cons. change ("" +:+ ?t) with t.
    rewrite !str_length_app in Hf. cbn [String.length] in Hf. change ("]" +:+ r) with (String "]" r). cbn [parse_value].
    change (char_is 34 "[") with false. change (char_is 123 "[") with false. change (char_is 91 "[") with true. cbn iota.
    destruct (decide (es = [])) as [->|Hne]; [done|]. pose proof (parse_elems_text es f r Hes Hne) as E.
    destruct (elems_head es (String "]" r) Hes Hne) as (c & t & Et & Hc & Hc'). rewrite Et in *.
    assert (skip_ws (String c t) = String c t) as -> by (cbn [skip_ws]; by rewrite Hc). rewrite Hc', E; [done|lia].
  - intros r. rewrite !str_app_assoc, !str_app_cons. cbn [compact_go]. change (is_ws "[") with false.
    change (char_code "[" =? 34) with false. cbn iota. change ("" +:+ ?t) with t. by rewrite compact_elems.
Qed.

(** ** Whole texts *)

Lemma parse_json_text v j : json_text v j → parse_json v = Some (v, j).
Proof.
  intros Hv. pose proof Hv as (_ & Hp & _). pose proof (Hp (S (String.length v)) "") as E.
  pose proof (skip_ws_text v j "" Hv) as Es. pose proof (consumed_app v "") as Ec. rewrite str_app_nil_r in E, Es, Ec.
  unfold parse_json. rewrite Es, E by (done || lia). cbn [skip_ws]. by rewrite Ec.
Qed.

Lemma json_compact_text v j : json_text v j → json_compact v = Ret v.
Proof.
  intros Hv. unfold json_compact. rewrite (parse_json_text _ _ Hv). pose proof Hv as (_ & _ & Hc).
  specialize (Hc ""). change (compact_go false false "") with "" in Hc. rewrite !str_app_nil_r in Hc. by rewrite Hc.
Qed.

Lemma Unmarshal_object {A} (field : A → string → string → json → outcome A) ms a : members_ok ms → ms ≠ [] →
  Unmarshal_struct field (json_object (member_text <$> ms)) a = decode_members field ms a.
Proof. intros Hms Hne. unfold Unmarshal_struct. by rewrite (parse_json_text _ _ (object_text ms Hms Hne)). Qed.

(** A text with a newline at its end, as an encoder writes it. *)
Lemma parse_json_line v j : json_text v j → parse_json (v +:+ String (ascii_of 10) "") = Some (v, j).
Proof.
  intros Hv. pose proof Hv as (_ & Hp & _). unfold parse_json. rewrite (skip_ws_text v j _ Hv), Hp.
  - cbn [skip_ws]. change (is_ws (ascii_of 10)) with true. cbn iota. by rewrite consumed_app.
  - rewrite str_length_app. lia.
  - right; right; right. done.
Qed.
