(* ===== verification/GoNet.v ===== *)
(** * Addresses: the parts of Go's [net] and [net/netip] flannel uses

    A [net.IP] or [net.IPMask] is a list of bytes, the nil slice being [[]].
    [ParseIP], [ParseCIDR], [IP.String], [IP.Mask], [IPNet.Contains] and the rest
    follow the standard library; the text forms of both families print and parse
    back, which is what the subnet keys, annotations and files of flannel rely on. *)

From stdpp Require Import base strings list numbers.
From Stdlib Require Import ZArith Lia Ascii.
From S2P Require Import Prelude GoStrings.

Local Open Scope Z_scope.

(** ** Bytes and big-endian numbers *)

Definition is_byte (b : Z) : Prop := 0 <= b < 256.

Fixpoint be_val (l : list Z) : Z :=
  match l with
  | [] => 0
  | b :: l => b * 256 ^ Z.of_nat (length l) + be_val l
  end.

Fixpoint be_bytes (n : nat) (v : Z) : list Z :=
  match n with
  | O => []
  | S n => be_bytes n (v / 256) ++ [v mod 256]
  end.

(** ** [net.IP] *)

Abbreviation IP := (list Z).

Definition v4InV6Prefix : list Z := replicate 10 0 ++ [255; 255].

Definition IPv4 (a b c d : Z) : IP := v4InV6Prefix ++ [a; b; c; d].

Definition To4 (ip : IP) : IP :=
  if decide (length ip = 4%nat) then ip
  else if decide (length ip = 16%nat ∧ take 12 ip = v4InV6Prefix) then drop 12 ip
  else [].

Definition To16 (ip : IP) : IP :=
  if decide (length ip = 4%nat) then v4InV6Prefix ++ ip
  else if decide (length ip = 16%nat) then ip
  else [].

Definition Equal (x y : IP) : bool :=
  if decide (length x = length y) then bool_decide (x = y)
  else if decide (length x = 4%nat ∧ length y = 16%nat) then
    bool_decide (take 12 y = v4InV6Prefix ∧ x = drop 12 y)
  else if decide (length x = 16%nat ∧ length y = 4%nat) then
    bool_decide (take 12 x = v4InV6Prefix ∧ drop 12 x = y)
  else false.

(** ** Masks *)

(** [net.CIDRMask]. *)
Definition mask_byte (ones i : Z) : Z :=
  if 8 * (i + 1) <=? ones then 255
  else if ones <=? 8 * i then 0
  else 256 - 2 ^ (8 - (ones - 8 * i)).
Definition CIDRMask (ones bits : Z) : list Z :=
  if negb ((bits =? 32) || (bits =? 128)) then []
  else if (ones <? 0) || (bits <? ones) then []
  else map (λ i, mask_byte ones (Z.of_nat i)) (seq 0 (Z.to_nat (bits / 8))).

(** [net.simpleMaskLength]: -1 unless the mask is ones followed by zeros. *)
Definition simpleMaskLength (m : list Z) : Z :=
  match list_find (λ ones, CIDRMask (Z.of_nat ones) (8 * Z.of_nat (length m)) = m)
          (seq 0 (S (8 * length m))) with
  | Some (_, ones) => Z.of_nat ones
  | None => -1
  end.

(** [IPMask.Size]. *)
Definition mask_Size (m : list Z) : Z * Z :=
  let ones := simpleMaskLength m in
  if ones =? -1 then (0, 0) else (ones, 8 * Z.of_nat (length m)).

(** [IP.Mask]. *)
Definition IP_Mask (ip mask : list Z) : IP :=
  let mask := if decide (length mask = 16%nat ∧ length ip = 4%nat ∧ take 12 mask = replicate 12 255)
              then drop 12 mask else mask in
  let ip := if decide (length mask = 4%nat ∧ length ip = 16%nat ∧ take 12 ip = v4InV6Prefix)
            then drop 12 ip else ip in
  if decide (length ip = length mask) then zip_with Z.land ip mask else [].

(** ** [net.IPNet] *)

Record IPNet := mkIPNet { IPNet_IP : IP; IPNet_Mask : list Z }.

#[global] Instance IPNet_eq_dec : EqDecision IPNet.
Proof. solve_decision. Defined.

Definition networkNumberAndMask (n : IPNet) : option (IP * list Z) :=
  let ip := if decide (To4 (IPNet_IP n) = []) then IPNet_IP n else To4 (IPNet_IP n) in
  let m := IPNet_Mask n in
  if decide (length ip = 4%nat ∧ length m = 4%nat) then Some (ip, m)
  else if decide (length ip = 4%nat ∧ length m = 16%nat) then Some (ip, drop 12 m)
  else if decide (length ip = 16%nat ∧ length m = 16%nat) then Some (ip, m)
  else None.

Definition IPNet_Contains (n : IPNet) (ip : IP) : bool :=
  let ip := if decide (To4 ip = []) then ip else To4 ip in
  match networkNumberAndMask n with
  | Some (nn, m) => bool_decide (length ip = length nn) &&
                    bool_decide (zip_with Z.land nn m = zip_with Z.land ip m)
  | None => bool_decide (ip = [])
  end.

(** ** Text form *)

Definition ip4_string (q : list Z) : string := join "." (map (fmt_uint 10) q).

(** The sixteen-bit groups of sixteen bytes. *)
Fixpoint groups (l : list Z) : list Z :=
  match l with
  | a :: b :: l => a * 256 + b :: groups l
  | _ => []
  end.
Fixpoint ungroup (gs : list Z) : list Z :=
  match gs with
  | [] => []
  | g :: gs => g / 256 :: g mod 256 :: ungroup gs
  end.

(** How many zero groups start at the head of a list. *)
Fixpoint zeros_at (gs : list Z) : nat :=
  match gs with
  | g :: gs => if g =? 0 then S (zeros_at gs) else O
  | [] => O
  end.

(** The run [netip.Addr.appendTo6] prints as [::]: the leftmost of the longest
    runs of at least two zero groups.  [best] is the run found so far. *)
Fixpoint zero_run (i : nat) (best : nat * nat) (gs : list Z) : nat * nat :=
  match gs with
  | [] => best
  | g :: gs' =>
      let l := zeros_at gs in
      let best := if decide (2 ≤ l ∧ best.2 - best.1 < l)%nat then (i, i + l)%nat else best in
      zero_run (S i) best gs'
  end.

Definition hex_groups (gs : list Z) : string := join ":" (map (fmt_uint 16) gs).

Definition ip6_string (gs : list Z) : string :=
  let r := zero_run 0 (255, 255)%nat gs in
  if decide (r = (255, 255)%nat) then hex_groups gs
  else hex_groups (take r.1 gs) +:+ "::" +:+ hex_groups (drop r.2 gs).

Definition hex_byte (b : Z) : string :=
  String (digit_char (b / 16)) (String (digit_char (b mod 16)) "").

(** [IP.String]. *)
Definition IP_String (ip : IP) : string :=
  if decide (ip = []) then "<nil>"
  else if decide (length (To4 ip) = 4%nat) then ip4_string (To4 ip)
  else if decide (length ip = 16%nat) then ip6_string (groups ip)
  else "?" +:+ join "" (map hex_byte ip).

(** [IPNet.String]. *)
Definition IPNet_String (n : IPNet) : string :=
  match networkNumberAndMask n with
  | None => "<nil>"
  | Some (nn, m) =>
      let l := simpleMaskLength m in
      if l =? -1 then IP_String nn +:+ "/" +:+ join "" (map hex_byte m)
      else IP_String nn +:+ "/" +:+ fmt_uint 10 l
  end.

(** ** Parsing *)

(** One decimal field of [netip.parseIPv4Fields]: no leading zero, at most 255. *)
Definition parse_octet (s : string) : option Z :=
  match s with
  | String "0"%char (String _ _) => None
  | _ => match parse_uint 10 s with
         | Some n => if n <=? 255 then Some n else None
         | None => None
         end
  end.

Definition parse_ipv4 (s : string) : option (list Z) :=
  match mapM parse_octet (split_char "." s) with
  | Some [a; b; c; d] => Some [a; b; c; d]
  | _ => None
  end.

Definition is_hex (c : ascii) : bool := bool_decide (is_Some (digit_val 16 c)).

Fixpoint span (P : ascii → bool) (s : string) : string * string :=
  match s with
  | EmptyString => (EmptyString, EmptyString)
  | String c s' => if P c then let '(a, b) := span P s' in (String c a, b) else (EmptyString, s)
  end.

(** The loop of [netip.parseIPv6]: [acc] holds the bytes written so far, [ell] the
    position of the ellipsis.  Every turn but the last writes two bytes, so the
    fuel 8 is the loop condition [i < 16]. *)
Fixpoint v6_loop (fuel : nat) (s : string) (acc : list Z) (ell : option nat)
  : option (string * list Z * option nat) :=
  match fuel with
  | O => Some (s, acc, ell)
  | S f =>
      let '(ds, rest) := span is_hex s in
      if decide (String.length ds = 0%nat ∨ (4 < String.length ds)%nat) then None
      else match rest with
      | String "."%char _ =>
          if decide (ell = None ∧ length acc ≠ 12%nat) then None
          else if decide (16 < length acc + 4)%nat then None
          else match parse_ipv4 s with
               | Some q => Some (EmptyString, acc ++ q, ell)
               | None => None
               end
      | _ =>
          match parse_uint 16 ds with
          | None => None
          | Some v =>
              let acc := acc ++ [v / 256; v mod 256] in
              match rest with
              | EmptyString => Some (EmptyString, acc, ell)
              | String c s' =>
                  if negb (Ascii.eqb c ":") then None
                  else match s' with
                  | EmptyString => None
                  | String d s'' =>
                      if Ascii.eqb d ":" then
                        match ell with
                        | Some _ => None
                        | None => match s'' with
                                  | EmptyString => Some (EmptyString, acc, Some (length acc))
                                  | _ => v6_loop f s'' acc (Some (length acc))
                                  end
                        end
                      else v6_loop f s' acc ell
                  end
              end
          end
      end
  end.

Definition v6_finish (r : option (string * list Z * option nat)) : option (list Z) :=
  match r with
  | Some (EmptyString, acc, ell) =>
      if decide (length acc < 16)%nat then
        match ell with
        | None => None
        | Some e => Some (take e acc ++ replicate (16 - length acc) 0 ++ drop e acc)
        end
      else match ell with None => Some acc | Some _ => None end
  | _ => None
  end.

Definition parse_ipv6 (s : string) : option (list Z) :=
  match s with
  | String ":" (String ":" EmptyString) => Some (replicate 16 0)
  | String ":" (String ":" s') => v6_finish (v6_loop 8 s' [] (Some 0%nat))
  | _ => v6_finish (v6_loop 8 s [] None)
  end.

(** [netip.ParseAddr] without zones: the first of [.], [:] and [%] decides. *)
Inductive Addr := Is4 (q : list Z) | Is16 (q : list Z).

Fixpoint addr_kind (s : string) : option ascii :=
  match s with
  | EmptyString => None
  | String c s => if Ascii.eqb c "." || Ascii.eqb c ":" || Ascii.eqb c "%" then Some c else addr_kind s
  end.

Definition ParseAddr (s : string) : option Addr :=
  match addr_kind s with
  | Some "."%char => Is4 <$> parse_ipv4 s
  | Some ":"%char => if decide (0 < count_char "%" s)%nat then None else Is16 <$> parse_ipv6 s
  | _ => None
  end.

Definition As16 (a : Addr) : IP :=
  match a with Is4 q => v4InV6Prefix ++ q | Is16 q => q end.
Definition BitLen (a : Addr) : Z := match a with Is4 _ => 32 | Is16 _ => 128 end.

(** [net.ParseIP]: nil on an error. *)
Definition ParseIP (s : string) : IP :=
  match ParseAddr s with Some a => As16 a | None => [] end.

Fixpoint cut_slash (s : string) : option (string * string) :=
  match s with
  | EmptyString => None
  | String c s => if Ascii.eqb c "/" then Some (EmptyString, s)
                  else match cut_slash s with
                       | Some (a, b) => Some (String c a, b)
                       | None => None
                       end
  end.

(** [net.ParseCIDR]: the address and the network it lies in. *)
Definition ParseCIDR (s : string) : option (IP * IPNet) :=
  match cut_slash s with
  | None => None
  | Some (addr, mask) =>
      match ParseAddr addr, parse_uint 10 mask with
      | Some a, Some n =>
          if n <=? BitLen a then
            let m := CIDRMask n (BitLen a) in
            Some (As16 a, mkIPNet (IP_Mask (As16 a) m) m)
          else None
      | _, _ => None
      end
  end.

Example ParseIP_ex1 : ParseIP "10.3.0.255" = IPv4 10 3 0 255.
Proof. vm_compute. reflexivity. Qed.
Example ParseIP_ex2 : IP_String (ParseIP "FC00:0:0:1:0:0:0:a") = "fc00:0:0:1::a".
Proof. vm_compute. reflexivity. Qed.
Example ParseIP_ex3 : map ParseIP ["1.2.3"; "1.2.3.04"; "::1::"; "1:2:3:4:5:6:7:"; ":1"; "1:2:3:4:5:6:7::8"; "fe80::1%eth0"]
  = [[]; []; []; []; []; []; []].
Proof. vm_compute. reflexivity. Qed.
Example ParseIP_ex4 : ParseIP "::ffff:1.2.3.4" = IPv4 1 2 3 4.
Proof. vm_compute. reflexivity. Qed.
Example ParseCIDR_ex : option_map (λ r, IPNet_String r.2) (ParseCIDR "10.3.77.9/16") = Some "10.3.0.0/16".
Proof. vm_compute. reflexivity. Qed.
