(* ===== verification/GoNetFacts.v ===== *)
(** * Facts about [net]: numbers, masks, and the round trips of the text forms *)

From stdpp Require Import base strings list numbers.
From Stdlib Require Import ZArith Lia Ascii.
From S2P Require Import Prelude GoStrings GoNet.

Local Open Scope Z_scope.

(** ** Big-endian numbers *)

Lemma pow256 n : 256 ^ Z.of_nat n = 2 ^ (8 * Z.of_nat n).
Proof. rewrite Z.pow_mul_r by lia. done. Qed.

Lemma pow256_pos n : 0 < 256 ^ Z.of_nat n.
Proof. apply Z.pow_pos_nonneg; lia. Qed.

Lemma pow256_S n : 256 ^ Z.of_nat (S n) = 256 * 256 ^ Z.of_nat n.
Proof. rewrite Nat2Z.inj_succ. apply Z.pow_succ_r. lia. Qed.

Lemma be_val_range l : Forall is_byte l → 0 <= be_val l < 256 ^ Z.of_nat (length l).
Proof.
  unfold is_byte. induction 1 as [|b l Hb Hl IH]; [done|].
  cbn [be_val length]. rewrite pow256_S. pose proof (pow256_pos (length l)). nia.
Qed.

Lemma be_val_app l1 l2 : be_val (l1 ++ l2) = be_val l1 * 256 ^ Z.of_nat (length l2) + be_val l2.
Proof.
  induction l1 as [|b l1 IH]; [done|]. cbn [be_val app]. rewrite IH, length_app.
  rewrite Nat2Z.inj_add, Z.pow_add_r by lia. ring.
Qed.

Lemma be_val_replicate0 n l : be_val (replicate n 0 ++ l) = be_val l.
Proof. induction n as [|n IH]; [done|]. simpl. rewrite IH. lia. Qed.

Lemma length_be_bytes n v : length (be_bytes n v) = n.
Proof. revert v. induction n as [|n IH]; intros v; [done|]. simpl. rewrite length_app, IH. simpl. lia. Qed.

Lemma be_bytes_byte n v : Forall is_byte (be_bytes n v).
Proof.
  revert v. induction n as [|n IH]; intros v; simpl; [constructor|].
  apply Forall_app. split; [done|]. repeat constructor; unfold is_byte; pose proof (Z.mod_pos_bound v 256); lia.
Qed.

Lemma be_val_bytes n v : be_val (be_bytes n v) = v mod 256 ^ Z.of_nat n.
Proof.
  revert v. induction n as [|n IH]; intros v.
  - simpl. by rewrite Z.mod_1_r.
  - cbn [be_bytes]. rewrite be_val_app, IH. cbn [be_val length].
    change (256 ^ Z.of_nat 1) with 256. change (256 ^ Z.of_nat 0) with 1.
    rewrite pow256_S, Z.rem_mul_r by (pose proof (pow256_pos n); lia). lia.
Qed.

Lemma be_val_bytes_small n v : 0 <= v < 256 ^ Z.of_nat n → be_val (be_bytes n v) = v.
Proof. intros. rewrite be_val_bytes. by apply Z.mod_small. Qed.

Lemma be_val_inj l1 l2 : Forall is_byte l1 → Forall is_byte l2 →
  length l1 = length l2 → be_val l1 = be_val l2 → l1 = l2.
Proof.
  intros H1. revert l2. induction H1 as [|b l1 Hb Hl1 IH]; intros [|c l2] H2 Hlen E; try done.
  inversion_clear H2 as [|?? Hc Hl2]. injection Hlen as Hlen. cbn [be_val] in E.
  rewrite <- Hlen in E. pose proof (be_val_range l1 Hl1). pose proof (be_val_range l2 Hl2).
  rewrite <- Hlen in *. unfold is_byte in *.
  apply digits_unique in E as [-> E]; [|done..]. by rewrite (IH l2).
Qed.

Lemma be_bytes_val n l : Forall is_byte l → length l = n → be_bytes n (be_val l) = l.
Proof.
  intros Hl Hlen. apply be_val_inj; [apply be_bytes_byte|done|by rewrite length_be_bytes|].
  apply be_val_bytes_small. rewrite <- Hlen. by apply be_val_range.
Qed.

(** ** Bytewise conjunction *)

Lemma be_val_land l m : Forall is_byte l → Forall is_byte m → length l = length m →
  be_val (zip_with Z.land l m) = Z.land (be_val l) (be_val m).
Proof.
  intros Hl. revert m. induction Hl as [|b l Hb Hl IH]; intros [|c m] Hm Hlen; try done.
  inversion_clear Hm as [|?? Hc Hm']. injection Hlen as Hlen.
  cbn [zip_with be_val]. rewrite length_zip_with, <- Hlen, Nat.min_id, IH by done.
  rewrite pow256. symmetry. apply land_split; [lia|..]; rewrite <- pow256.
  - by apply be_val_range.
  - rewrite Hlen. by apply be_val_range.
Qed.

Lemma land_bytes l m : Forall is_byte l → Forall is_byte m → length l = length m →
  Forall is_byte (zip_with Z.land l m).
Proof.
  intros Hl. revert m. induction Hl as [|b l Hb Hl IH]; intros [|c m] Hm Hlen; simpl; try constructor.
  - unfold is_byte in *. by apply (land_bound 8).
  - inversion_clear Hm. apply IH; [done|]. by injection Hlen.
Qed.

(** ** Masks *)

Definition mask_ok (bits p : Z) : bool :=
  (be_val (CIDRMask p bits) =? high_ones bits (bits - p)) &&
  bool_decide (mask_Size (CIDRMask p bits) = (p, bits)) &&
  bool_decide (simpleMaskLength (CIDRMask p bits) = p) &&
  bool_decide (length (CIDRMask p bits) = Z.to_nat (bits / 8)) &&
  forallb (λ b, (0 <=? b) && (b <? 256)) (CIDRMask p bits).

Lemma mask_ok_spec bits p : bits = 32 ∨ bits = 128 → 0 <= p <= bits → mask_ok bits p = true.
Proof.
  intros Hbits Hp.
  assert (forallb (mask_ok bits) (seqZ 0 (bits + 1)) = true) as H
    by (destruct Hbits as [->| ->]; vm_compute; reflexivity).
  rewrite forallb_forall in H. apply H. apply list_elem_of_In, elem_of_seqZ. lia.
Qed.

Lemma mask_facts bits p : bits = 32 ∨ bits = 128 → 0 <= p <= bits →
  be_val (CIDRMask p bits) = high_ones bits (bits - p) ∧
  mask_Size (CIDRMask p bits) = (p, bits) ∧
  simpleMaskLength (CIDRMask p bits) = p ∧
  length (CIDRMask p bits) = Z.to_nat (bits / 8) ∧
  Forall is_byte (CIDRMask p bits).
Proof.
  intros Hb Hp. pose proof (mask_ok_spec bits p Hb Hp) as H. unfold mask_ok in H.
  rewrite !andb_true_iff, !bool_decide_eq_true, Z.eqb_eq, forallb_forall in H.
  destruct H as [[[[? ?] ?] ?] H]. split_and!; try done.
  apply Forall_forall. intros b Hin%H. unfold is_byte. lia.
Qed.

Lemma CIDRMask_val bits p : bits = 32 ∨ bits = 128 → 0 <= p <= bits →
  be_val (CIDRMask p bits) = high_ones bits (bits - p).
Proof. intros. by apply mask_facts. Qed.
Lemma CIDRMask_Size bits p : bits = 32 ∨ bits = 128 → 0 <= p <= bits →
  mask_Size (CIDRMask p bits) = (p, bits).
Proof. intros. by apply mask_facts. Qed.
Lemma CIDRMask_simple bits p : bits = 32 ∨ bits = 128 → 0 <= p <= bits →
  simpleMaskLength (CIDRMask p bits) = p.
Proof. intros. by apply mask_facts. Qed.
Lemma CIDRMask_length bits p : bits = 32 ∨ bits = 128 → 0 <= p <= bits →
  length (CIDRMask p bits) = Z.to_nat (bits / 8).
Proof. intros. by apply mask_facts. Qed.
Lemma CIDRMask_bytes bits p : bits = 32 ∨ bits = 128 → 0 <= p <= bits →
  Forall is_byte (CIDRMask p bits).
Proof. intros. by apply mask_facts. Qed.

(** ** Groups *)

Definition is_u16 (g : Z) : Prop := 0 <= g < 65536.

Lemma length_ungroup gs : length (ungroup gs) = (2 * length gs)%nat.
Proof. induction gs as [|g gs IH]; simpl; lia. Qed.

Lemma ungroup_app gs hs : ungroup (gs ++ hs) = ungroup gs ++ ungroup hs.
Proof. induction gs as [|g gs IH]; simpl; [done|]. by rewrite IH. Qed.

Lemma ungroup_replicate n : ungroup (replicate n 0) = replicate (2 * n) 0.
Proof.
  induction n as [|n IH]; [done|]. replace (2 * S n)%nat with (S (S (2 * n))) by lia.
  cbn [replicate ungroup]. by rewrite IH.
Qed.

Lemma groups_ungroup n l : length l = (2 * n)%nat → Forall is_byte l →
  ungroup (groups l) = l ∧ Forall is_u16 (groups l) ∧ length (groups l) = n.
Proof.
  revert l. induction n as [|n IH]; intros l Hlen Hl.
  { destruct l; simpl in *; [|lia]. done. }
  destruct l as [|a [|b l]]; try (simpl in *; lia).
  inversion_clear Hl as [|?? Ha Hl']. inversion_clear Hl' as [|?? Hb Hl].
  destruct (IH l) as (E & Hg & Hn); [simpl in Hlen; lia|done|]. unfold is_byte in *.
  cbn [groups ungroup length].
  rewrite Z.div_add_l, (Z.div_small b), Z.add_0_r, (Z.add_comm (a * 256)), Z.mod_add, Z.mod_small by lia.
  rewrite E. split_and!; [done| |by rewrite Hn].
  constructor; [unfold is_u16; lia|done].
Qed.

(** ** The printed zero run *)

Lemma zeros_at_spec gs : gs = replicate (zeros_at gs) 0 ++ drop (zeros_at gs) gs.
Proof.
  induction gs as [|g gs IH]; [done|]. cbn [zeros_at].
  destruct (Z.eqb_spec g 0) as [->|]; [|done]. simpl. by f_equal.
Qed.

Lemma zeros_at_le gs : (zeros_at gs ≤ length gs)%nat.
Proof. induction gs as [|g gs IH]; simpl; [lia|]. destruct (g =? 0); lia. Qed.

Definition run_ok (gs : list Z) (r : nat * nat) : Prop :=
  r = (255, 255)%nat ∨
  ((r.1 + 2 ≤ r.2 ∧ r.2 ≤ length gs)%nat ∧
   gs = take r.1 gs ++ replicate (r.2 - r.1) 0 ++ drop r.2 gs).

Lemma zero_run_ok pre gs best :
  run_ok (pre ++ gs) best → run_ok (pre ++ gs) (zero_run (length pre) best gs).
Proof.
  revert pre best. induction gs as [|g gs IH]; intros pre best Hbest; [done|].
  cbn [zero_run].
  assert (S (length pre) = length (pre ++ [g])) as -> by (rewrite length_app; simpl; lia).
  rewrite (cons_middle g pre gs), app_assoc in *. apply IH.
  case_decide as Hl; [|done]. right. cbn [fst snd].
  pose proof (zeros_at_le (g :: gs)) as Hle. rewrite <- app_assoc. cbn [app].
  split; [rewrite length_app; simpl in *; lia|].
  replace (length pre + zeros_at (g :: gs) - length pre)%nat with (zeros_at (g :: gs)) by lia.
  rewrite take_app_length, drop_app_add'  by done.
  f_equal. apply zeros_at_spec.
Qed.

Lemma zero_run_spec gs : run_ok gs (zero_run 0 (255, 255)%nat gs).
Proof. apply (zero_run_ok [] gs). by left. Qed.

(** ** Hexadecimal fields *)

Definition stops (s : string) : Prop :=
  match s with EmptyString => True | String c _ => is_hex c = false end.

Lemma lower_hex_is_hex c : is_lower_hex c = true → is_hex c = true.
Proof. destruct c as [[][][][][][][][]]; vm_compute; done. Qed.

Lemma span_all P s rest : str_all P s = true →
  (match rest with EmptyString => True | String c _ => P c = false end) →
  span P (s +:+ rest) = (s, rest).
Proof.
  intros Hs Hr. induction s as [|c s IH].
  - change ("" +:+ rest) with rest. destruct rest; [done|]. simpl. by rewrite Hr.
  - cbn [str_all] in Hs. apply andb_prop in Hs as [Hc Hs]. rewrite str_app_cons. cbn [span].
    by rewrite Hc, IH.
Qed.

Lemma span_hex g rest : is_u16 g → stops rest →
  span is_hex (fmt_uint 16 g +:+ rest) = (fmt_uint 16 g, rest).
Proof.
  unfold is_u16. intros Hg Hr. apply span_all; [|done].
  apply (str_all_impl is_lower_hex); [apply lower_hex_is_hex|]. apply fmt_hex_chars. lia.
Qed.

Lemma hex_length g : is_u16 g →
  ¬ (String.length (fmt_uint 16 g) = 0%nat ∨ (4 < String.length (fmt_uint 16 g))%nat).
Proof.
  unfold is_u16. intros Hg. pose proof (fmt_uint_nonempty 16 g).
  pose proof (fmt_uint_length 16 g 4 ltac:(lia) ltac:(simpl; lia) ltac:(lia)).
  destruct (fmt_uint 16 g); [done|]. simpl in *. lia.
Qed.

(** One turn of the parser on a printed group. *)
Lemma v6_loop_last f g acc ell : is_u16 g →
  v6_loop (S f) (fmt_uint 16 g) acc ell = Some ("", acc ++ [g / 256; g mod 256], ell).
Proof.
  intros Hg. pose proof (span_hex g "" Hg I) as E. rewrite str_app_nil_r in E.
  cbn [v6_loop]. rewrite E. rewrite decide_False by by apply hex_length.
  rewrite parse_fmt_uint by (unfold is_u16 in Hg; lia). done.
Qed.

Lemma v6_loop_colon f g s acc ell : is_u16 g →
  v6_loop (S f) (fmt_uint 16 g +:+ String ":" s) acc ell =
  match s with
  | EmptyString => None
  | String d s'' =>
      if Ascii.eqb d ":" then
        match ell with
        | Some _ => None
        | None => match s'' with
                  | EmptyString => Some (EmptyString, acc ++ [g / 256; g mod 256],
                                         Some (length (acc ++ [g / 256; g mod 256])))
                  | _ => v6_loop f s'' (acc ++ [g / 256; g mod 256])
                           (Some (length (acc ++ [g / 256; g mod 256])))
                  end
        end
      else v6_loop f s (acc ++ [g / 256; g mod 256]) ell
  end.
Proof.
  intros Hg. cbn [v6_loop]. rewrite span_hex by done.
  rewrite decide_False by by apply hex_length.
  rewrite parse_fmt_uint by (unfold is_u16 in Hg; lia). done.
Qed.

Lemma fmt_hex_cons g : is_u16 g → ∃ c s, fmt_uint 16 g = String c s ∧ is_lower_hex c = true.
Proof.
  unfold is_u16. intros Hg. pose proof (fmt_hex_chars g ltac:(lia)) as H.
  pose proof (fmt_uint_nonempty 16 g). destruct (fmt_uint 16 g) as [|c s]; [done|].
  apply andb_prop in H as [? _]. eauto.
Qed.

Lemma hex_groups_cons g g' gs :
  hex_groups (g :: g' :: gs) = fmt_uint 16 g +:+ String ":" (hex_groups (g' :: gs)).
Proof. done. Qed.

Lemma hex_groups_head g gs : is_u16 g →
  ∃ c s, hex_groups (g :: gs) = String c s ∧ is_lower_hex c = true.
Proof.
  intros Hg. destruct (fmt_hex_cons g Hg) as (c & s & E & Hc).
  destruct gs as [|g' gs].
  - exists c, s. by rewrite <- E.
  - rewrite hex_groups_cons, E. eexists _, _. split; [done|done].
Qed.

Lemma lower_hex_not_colon c : is_lower_hex c = true → Ascii.eqb c ":" = false.
Proof. destruct c as [[][][][][][][][]]; vm_compute; done. Qed.

Lemma v6_loop_next f g d s s' acc ell : is_u16 g → s = String d s' → Ascii.eqb d ":" = false →
  v6_loop (S f) (fmt_uint 16 g +:+ String ":" s) acc ell =
  v6_loop f s (acc ++ [g / 256; g mod 256]) ell.
Proof. intros Hg -> Hd. rewrite v6_loop_colon by done. by rewrite Hd. Qed.

Lemma v6_loop_groups f g gs acc ell : (length (g :: gs) ≤ f)%nat → Forall is_u16 (g :: gs) →
  v6_loop f (hex_groups (g :: gs)) acc ell = Some ("", acc ++ ungroup (g :: gs), ell).
Proof.
  revert f g acc. induction gs as [|g' gs IH]; intros f g acc Hf Hg;
    (destruct f as [|f]; [simpl in Hf; lia|]).
  - inversion_clear Hg. by apply v6_loop_last.
  - inversion_clear Hg as [|?? Hg1 Hg2]. rewrite hex_groups_cons.
    destruct (hex_groups_head g' gs) as (c & s & E & Hc); [by inversion Hg2|].
    rewrite (v6_loop_next f g c _ s) by auto using lower_hex_not_colon.
    rewrite IH; [|simpl in *; lia|done]. cbn [ungroup]. by rewrite <- app_assoc.
Qed.

Lemma v6_loop_ellipsis f g gs s acc : (length (g :: gs) ≤ f)%nat → Forall is_u16 (g :: gs) →
  v6_loop f (hex_groups (g :: gs) +:+ String ":" (String ":" s)) acc None =
  let acc' := acc ++ ungroup (g :: gs) in
  match s with
  | EmptyString => Some ("", acc', Some (length acc'))
  | _ => v6_loop (f - length (g :: gs)) s acc' (Some (length acc'))
  end.
Proof.
  revert f g acc. induction gs as [|g' gs IH]; intros f g acc Hf Hg;
    (destruct f as [|f]; [simpl in Hf; lia|]).
  - inversion_clear Hg. cbn [hex_groups map join].
    change (hex_groups [g]) with (fmt_uint 16 g).
    rewrite v6_loop_colon by done. rewrite Ascii.eqb_refl. cbn [length].
    replace (S f - 1)%nat with f by lia. done.
  - inversion_clear Hg as [|?? Hg1 Hg2].
    rewrite hex_groups_cons, str_app_assoc, str_app_cons.
    destruct (hex_groups_head g' gs) as (c & t & E & Hc); [by inversion Hg2|].
    rewrite (v6_loop_next f g c _ (t +:+ String ":" (String ":" s)));
      [|done|by rewrite E|by apply lower_hex_not_colon].
    rewrite IH; [|simpl in *; lia|done].
    replace (acc ++ ungroup (g :: g' :: gs))
      with ((acc ++ [g / 256; g mod 256]) ++ ungroup (g' :: gs)) by (by rewrite <- app_assoc).
    replace (S f - length (g :: g' :: gs))%nat with (f - length (g' :: gs))%nat by (simpl; lia).
    done.
Qed.

(** ** Printed addresses parse back *)

Lemma parse_ipv6_default c s : Ascii.eqb c ":" = false →
  parse_ipv6 (String c s) = v6_finish (v6_loop 8 (String c s) [] None).
Proof. intros H. destruct c as [[][][][][][][][]]; first [done | vm_compute in H; discriminate]. Qed.

Lemma parse_ipv6_leading c s :
  parse_ipv6 (String ":" (String ":" (String c s))) = v6_finish (v6_loop 8 (String c s) [] (Some 0%nat)).
Proof. done. Qed.

Lemma v6_finish_ell l e : (length l < 16)%nat →
  v6_finish (Some ("", l, Some e)) = Some (take e l ++ replicate (16 - length l) 0 ++ drop e l).
Proof. intros. cbn [v6_finish]. by rewrite decide_True. Qed.

Lemma v6_finish_full l : length l = 16%nat → v6_finish (Some ("", l, None)) = Some l.
Proof. intros H. cbn [v6_finish]. by rewrite decide_False by lia. Qed.

Lemma run_bytes gs r : length gs = 8%nat → run_ok gs r → r ≠ (255, 255)%nat →
  (length (ungroup (take r.1 gs ++ drop r.2 gs)) < 16)%nat ∧
  ungroup (take r.1 gs) ++
    replicate (16 - length (ungroup (take r.1 gs ++ drop r.2 gs))) 0 ++ ungroup (drop r.2 gs)
  = ungroup gs.
Proof.
  intros Hlen [?|[[H1 H2] E]] Hr; [done|].
  rewrite length_ungroup, length_app, length_take, length_drop. split; [lia|].
  assert (ungroup gs = ungroup (take r.1 gs ++ replicate (r.2 - r.1) 0 ++ drop r.2 gs)) as ->
    by by rewrite <- E.
  rewrite !ungroup_app, ungroup_replicate. do 3 f_equal. lia.
Qed.

(** Groups, an ellipsis, groups. *)
Lemma parse_ipv6_ellipsis t d : (length t + length d ≤ 6)%nat → Forall is_u16 t → Forall is_u16 d →
  parse_ipv6 (hex_groups t +:+ "::" +:+ hex_groups d) =
  Some (ungroup t ++ replicate (16 - length (ungroup (t ++ d))) 0 ++ ungroup d).
Proof.
  intros Hlen Ht Hd.
  assert (length (ungroup t ++ ungroup d) < 16)%nat as Hlt
    by (rewrite length_app, !length_ungroup; lia).
  rewrite ungroup_app. change ("::" +:+ hex_groups d) with (String ":" (String ":" (hex_groups d))).
  destruct t as [|g t]; [destruct d as [|h d]|].
  - done.
  - destruct (hex_groups_head h d) as (c & s & E & Hc); [by inversion Hd|].
    change (hex_groups [] +:+ String ":" (String ":" (hex_groups (h :: d))))
      with (String ":" (String ":" (hex_groups (h :: d)))).
    rewrite E, parse_ipv6_leading, <- E, v6_loop_groups by (done || simpl in *; lia).
    by rewrite v6_finish_ell.
  - destruct (hex_groups_head g t) as (c & s & E & Hc); [by inversion Ht|].
    transitivity (v6_finish (v6_loop 8
      (hex_groups (g :: t) +:+ String ":" (String ":" (hex_groups d))) [] None)).
    { rewrite E. by apply parse_ipv6_default, lower_hex_not_colon. }
    rewrite v6_loop_ellipsis by (done || simpl in *; lia). cbn zeta.
    destruct d as [|h d].
    + change (hex_groups []) with "". change (ungroup []) with (@nil Z) in *. cbv iota.
      change ([] ++ ungroup (g :: t)) with (ungroup (g :: t)). rewrite !app_nil_r in *.
      rewrite v6_finish_ell by done. by rewrite take_ge, drop_ge, app_nil_r by done.
    + destruct (hex_groups_head h d) as (c' & s' & E' & Hc'); [by inversion Hd|].
      rewrite E'. cbv iota. rewrite <- E', v6_loop_groups by (done || cbn [length] in *; lia).
      rewrite v6_finish_ell by done. by rewrite take_app_length, drop_app_length.
Qed.

Lemma parse_ipv6_string gs : length gs = 8%nat → Forall is_u16 gs →
  parse_ipv6 (ip6_string gs) = Some (ungroup gs).
Proof.
  intros Hlen Hgs. unfold ip6_string. pose proof (zero_run_spec gs) as Hrun.
  set (r := zero_run 0 (255, 255)%nat gs) in *. case_decide as Hr.
  - destruct gs as [|g gs]; [done|].
    destruct (hex_groups_head g gs) as (c & s & E & Hc); [by inversion Hgs|].
    rewrite E, parse_ipv6_default, <- E by by apply lower_hex_not_colon.
    rewrite v6_loop_groups by (done || lia).
    apply v6_finish_full. cbn [app]. rewrite length_ungroup. lia.
  - destruct (run_bytes gs r Hlen Hrun Hr) as [_ Hbytes].
    destruct Hrun as [?|[[H1 H2] _]]; [done|]. rewrite parse_ipv6_ellipsis, Hbytes; [done|..].
    + rewrite length_take, length_drop. lia.
    + by apply Forall_take.
    + by apply Forall_drop.
Qed.

(** *** Telling the families apart *)

Lemma count_char_app c s t : count_char c (s +:+ t) = (count_char c s + count_char c t)%nat.
Proof. induction s as [|a s IH]; [done|]. rewrite str_app_cons. simpl. rewrite IH. lia. Qed.

Lemma count_char_none P c s : P c = false → str_all P s = true → count_char c s = 0%nat.
Proof.
  intros Hc. induction s as [|a s IH]; [done|]. simpl. intros [Ha Hs]%andb_prop.
  destruct (Ascii.eqb_spec a c) as [->|]; [congruence|]. by apply IH.
Qed.

Definition addr_sep (a : ascii) : bool := Ascii.eqb a "." || Ascii.eqb a ":" || Ascii.eqb a "%".

(** When [c] is the only separator a string can hold, and it holds one, [c] is found. *)
Lemma addr_kind_only P c s : addr_sep c = true →
  (∀ a, P a = true → addr_sep a = true → a = c) →
  str_all P s = true → (0 < count_char c s)%nat → addr_kind s = Some c.
Proof.
  intros Hc HP. induction s as [|a s IH]; simpl; [lia|].
  intros [Ha Hs]%andb_prop Hn. fold (addr_sep a).
  destruct (addr_sep a) eqn:E; [by rewrite (HP a)|].
  destruct (Ascii.eqb_spec a c) as [->|]; [congruence|]. by apply IH.
Qed.

Lemma join_all P sep l : str_all P sep = true → Forall (λ w, str_all P w = true) l →
  str_all P (join sep l) = true.
Proof.
  intros Hsep. induction 1 as [|w [|w' l] Hw Hl IH]; [done..|].
  change (join sep (w :: w' :: l)) with (w +:+ sep +:+ join sep (w' :: l)).
  by rewrite !str_all_app, Hw, Hsep, IH.
Qed.

Lemma Forall_fmt (P : string → Prop) b (l : list Z) (Q : Z → Prop) :
  (∀ n, Q n → P (fmt_uint b n)) → Forall Q l → Forall P (map (fmt_uint b) l).
Proof. intros HP. induction 1; simpl; constructor; auto. Qed.

Definition hex_colon (c : ascii) : bool := is_lower_hex c || Ascii.eqb c ":".
Definition digit_dot (c : ascii) : bool := is_digit c || Ascii.eqb c ".".

Lemma hex_groups_chars gs : Forall is_u16 gs → str_all hex_colon (hex_groups gs) = true.
Proof.
  intros Hgs. apply join_all; [done|]. apply (Forall_fmt _ 16 gs is_u16); [|done].
  intros n Hn. apply (str_all_impl is_lower_hex).
  - intros c Hc. unfold hex_colon. by rewrite Hc.
  - apply fmt_hex_chars. unfold is_u16 in Hn. lia.
Qed.

Lemma ip6_string_chars gs : Forall is_u16 gs → str_all hex_colon (ip6_string gs) = true.
Proof.
  intros Hgs. unfold ip6_string. case_decide; [by apply hex_groups_chars|].
  rewrite !str_all_app, !hex_groups_chars by (by apply Forall_take || by apply Forall_drop). done.
Qed.

Lemma ip6_string_colon gs : length gs = 8%nat → (0 < count_char ":" (ip6_string gs))%nat.
Proof.
  intros Hlen. unfold ip6_string. case_decide.
  - destruct gs as [|g [|g' gs]]; [done..|]. rewrite hex_groups_cons, count_char_app. simpl. lia.
  - rewrite !count_char_app. change (count_char ":" "::") with 2%nat. lia.
Qed.

Lemma ip4_string_chars q : Forall is_byte q → str_all digit_dot (ip4_string q) = true.
Proof.
  intros Hq. apply join_all; [done|]. apply (Forall_fmt _ 10 q is_byte); [|done].
  intros n Hn. apply (str_all_impl is_digit).
  - intros c Hc. unfold digit_dot. by rewrite Hc.
  - apply fmt_dec_digits. unfold is_byte in Hn. lia.
Qed.

Lemma digit_dot_sep a : digit_dot a = true → addr_sep a = true → a = "."%char.
Proof. destruct a as [[][][][][][][][]]; vm_compute; done. Qed.
Lemma hex_colon_sep a : hex_colon a = true → addr_sep a = true → a = ":"%char.
Proof. destruct a as [[][][][][][][][]]; vm_compute; done. Qed.

Lemma parse_octet_fmt n : is_byte n → parse_octet (fmt_uint 10 n) = Some n.
Proof.
  unfold is_byte. intros Hn. destruct (decide (n = 0)) as [->|]; [done|].
  destruct (fmt_uint_head 10 n ltac:(lia) ltac:(lia)) as (d & s & E & Hd).
  transitivity (match parse_uint 10 (fmt_uint 10 n) with
                | Some n => if n <=? 255 then Some n else None | None => None end).
  - rewrite E. assert (digit_char d ≠ "0"%char).
    { intros H%(f_equal char_code). rewrite digit_char_code in H by lia.
      change (char_code "0") with 48 in H. destruct (d <? 10); lia. }
    destruct (digit_char d) as [[][][][][][][][]]; done.
  - rewrite parse_fmt_uint by lia. by rewrite (proj2 (Z.leb_le n 255)) by lia.
Qed.

Lemma parse_ipv4_string q : length q = 4%nat → Forall is_byte q → parse_ipv4 (ip4_string q) = Some q.
Proof.
  intros Hlen Hq. unfold parse_ipv4, ip4_string. rewrite split_join.
  - destruct q as [|a [|b [|c [|d [|]]]]]; try done.
    decompose_Forall_hyps. cbn [map mapM]. by rewrite !parse_octet_fmt by done.
  - by destruct q.
  - apply (Forall_fmt _ 10 q is_byte); [|done]. intros n Hn.
    apply (lacks_of_all is_digit); [done|]. apply fmt_dec_digits. unfold is_byte in Hn. lia.
Qed.

Lemma ParseAddr_ip4 q : length q = 4%nat → Forall is_byte q → ParseAddr (ip4_string q) = Some (Is4 q).
Proof.
  intros Hlen Hq. unfold ParseAddr.
  rewrite (addr_kind_only digit_dot "."%char); [|done|apply digit_dot_sep|by apply ip4_string_chars|].
  - by rewrite parse_ipv4_string.
  - destruct q as [|a [|b q]]; [done..|]. unfold ip4_string. cbn [map join].
    rewrite !count_char_app. change (count_char "." ".") with 1%nat. lia.
Qed.

Lemma ParseAddr_ip6 gs : length gs = 8%nat → Forall is_u16 gs →
  ParseAddr (ip6_string gs) = Some (Is16 (ungroup gs)).
Proof.
  intros Hlen Hgs. pose proof (ip6_string_chars gs Hgs) as Hchars. unfold ParseAddr.
  rewrite (addr_kind_only hex_colon ":"%char) by (auto using hex_colon_sep, ip6_string_colon).
  rewrite decide_False by (rewrite (count_char_none hex_colon "%"%char) by done; lia).
  by rewrite parse_ipv6_string.
Qed.

(** *** The round trips used by the rest of the development *)

Lemma To4_4 q : length q = 4%nat → To4 q = q.
Proof. intros. unfold To4. by rewrite decide_True. Qed.

Lemma To4_mapped q : length q = 4%nat → To4 (v4InV6Prefix ++ q) = q.
Proof.
  intros H. unfold To4. rewrite decide_False by (rewrite length_app; simpl; lia).
  rewrite decide_True; [done|]. rewrite length_app. split; [simpl; lia|done].
Qed.

Lemma To4_16 ip : length ip = 16%nat → take 12 ip ≠ v4InV6Prefix → To4 ip = [].
Proof. intros H Hne. unfold To4. rewrite decide_False by lia. rewrite decide_False; [done|]. by intros [_ ?]. Qed.

Lemma To4_16_mapped ip : length ip = 16%nat → take 12 ip = v4InV6Prefix → To4 ip = drop 12 ip.
Proof. intros H Hp. unfold To4. rewrite decide_False by lia. by rewrite decide_True. Qed.

(** The address text parses to: four bytes come back in sixteen-byte form. *)
Definition addr_of (ip : IP) : Addr := if decide (length (To4 ip) = 4%nat) then Is4 (To4 ip) else Is16 ip.

Lemma ParseAddr_String ip : length ip = 4%nat ∨ length ip = 16%nat → Forall is_byte ip →
  ParseAddr (IP_String ip) = Some (addr_of ip).
Proof.
  intros Hlen Hip. unfold IP_String, addr_of.
  rewrite decide_False by (intros ->; simpl in Hlen; lia).
  assert (Forall is_byte (To4 ip)) as Hto.
  { unfold To4. repeat case_decide; [done|by apply Forall_drop|constructor]. }
  case_decide as H4; [by apply ParseAddr_ip4|].
  destruct Hlen as [Hlen|Hlen]; [by rewrite To4_4 in H4|].
  rewrite decide_True by done.
  destruct (groups_ungroup 8 ip) as (E & Hg & Hn); [lia|done|].
  rewrite ParseAddr_ip6 by done. by rewrite E.
Qed.

Lemma As16_addr_of ip : length ip = 4%nat ∨ length ip = 16%nat → As16 (addr_of ip) = To16 ip.
Proof.
  intros [Hlen|Hlen]; unfold addr_of, To16.
  - rewrite To4_4 by done. by rewrite !decide_True by done.
  - rewrite (decide_False (P := length ip = 4%nat)), (decide_True (P := length ip = 16%nat)) by lia.
    destruct (decide (take 12 ip = v4InV6Prefix)) as [H|H].
    + rewrite To4_16_mapped by done. rewrite decide_True by (rewrite length_drop; lia).
      cbn [As16]. rewrite <- H. apply take_drop.
    + by rewrite To4_16.
Qed.

Lemma ParseIP_String ip : length ip = 4%nat ∨ length ip = 16%nat → Forall is_byte ip →
  ParseIP (IP_String ip) = To16 ip.
Proof. intros. unfold ParseIP. rewrite ParseAddr_String by done. by apply As16_addr_of. Qed.

Lemma cut_slash_app s t : lacks "/" s → cut_slash (s +:+ String "/" t) = Some (s, t).
Proof.
  unfold lacks. induction s as [|c s IH]; [done|]. rewrite str_app_cons. cbn [str_all cut_slash].
  intros [Hc Hs]%andb_prop. destruct (Ascii.eqb c "/"); [done|]. by rewrite IH.
Qed.

Lemma IP_String_all P ip : (length ip = 4%nat ∨ length ip = 16%nat) → Forall is_byte ip →
  (∀ c, digit_dot c = true → P c = true) → (∀ c, hex_colon c = true → P c = true) → str_all P (IP_String ip) = true.
Proof.
  intros Hlen Hip H1 H2. unfold IP_String. rewrite decide_False by (intros ->; simpl in Hlen; lia).
  assert (Forall is_byte (To4 ip)) as Hto.
  { unfold To4. repeat case_decide; [done|by apply Forall_drop|constructor]. }
  case_decide as H4.
  - apply (str_all_impl digit_dot); [done|]. by apply ip4_string_chars.
  - destruct Hlen as [Hlen|Hlen]; [by rewrite To4_4 in H4|]. rewrite decide_True by done.
    destruct (groups_ungroup 8 ip) as (E & Hg & Hn); [lia|done|].
    apply (str_all_impl hex_colon); [done|]. by apply ip6_string_chars.
Qed.

Lemma IP_String_lacks c ip : (length ip = 4%nat ∨ length ip = 16%nat) → Forall is_byte ip →
  digit_dot c = false → hex_colon c = false → lacks c (IP_String ip).
Proof.
  intros Hlen Hip H1 H2. apply IP_String_all; [done..| |]; intros a Ha; apply negb_true_iff, Ascii.eqb_neq; congruence.
Qed.

Lemma ParseCIDR_String ip p : length ip = 4%nat ∨ length ip = 16%nat → Forall is_byte ip →
  0 <= p <= BitLen (addr_of ip) →
  ParseCIDR (IP_String ip +:+ "/" +:+ fmt_uint 10 p) =
  let m := CIDRMask p (BitLen (addr_of ip)) in
  Some (To16 ip, mkIPNet (IP_Mask (To16 ip) m) m).
Proof.
  intros Hlen Hip Hp. unfold ParseCIDR.
  change ("/" +:+ fmt_uint 10 p) with (String "/" (fmt_uint 10 p)).
  rewrite cut_slash_app by (by apply IP_String_lacks).
  rewrite ParseAddr_String, parse_fmt_uint by (done || lia).
  rewrite (proj2 (Z.leb_le _ _)) by lia. by rewrite As16_addr_of.
Qed.

(** ** What the parsers return *)

Lemma digit_val_range b c d : 0 < b → digit_val b c = Some d → 0 <= d < b.
Proof.
  intros Hb. unfold digit_val. set (n := char_code c).
  destruct (Z.leb_spec 48 n), (Z.leb_spec n 57), (Z.leb_spec 97 n), (Z.leb_spec n 122),
    (Z.leb_spec 65 n), (Z.leb_spec n 90); cbn [andb];
    match goal with |- context [if ?x <? b then _ else _] => destruct (Z.ltb_spec x b) end;
    intros E; simplify_eq; lia.
Qed.

Lemma parse_go_bound b s acc v : 0 < b → 0 <= acc → parse_go b s acc = Some v →
  0 <= v < (acc + 1) * b ^ Z.of_nat (String.length s).
Proof.
  intros Hb. revert acc. induction s as [|c s IH]; intros acc Hacc H; cbn in H.
  - simplify_eq. cbn [String.length]. rewrite Z.pow_0_r. lia.
  - destruct (digit_val b c) as [d|] eqn:E; [|done]. apply digit_val_range in E; [|done].
    apply IH in H; [|nia]. cbn [String.length]. rewrite Nat2Z.inj_succ, Z.pow_succ_r by lia.
    pose proof (Z.pow_pos_nonneg b (Z.of_nat (String.length s))). nia.
Qed.

Lemma parse_uint_bound b s v : 0 < b → parse_uint b s = Some v → 0 <= v < b ^ Z.of_nat (String.length s).
Proof.
  intros Hb H. assert (parse_go b s 0 = Some v) as H' by (by destruct s).
  apply parse_go_bound in H'; lia.
Qed.

Lemma parse_octet_byte s v : parse_octet s = Some v → is_byte v.
Proof.
  assert ((match parse_uint 10 s with Some n => if n <=? 255 then Some n else None | None => None end) = Some v →
    is_byte v) as H.
  { destruct (parse_uint 10 s) as [n|] eqn:E; [|done]. apply parse_uint_bound in E; [|lia].
    destruct (Z.leb_spec n 255); intros; simplify_eq. unfold is_byte. lia. }
  unfold parse_octet. destruct s as [|c [|d s]]; [done| |];
    destruct c as [[][][][][][][][]]; try exact H; done.
Qed.

Lemma parse_ipv4_wf s q : parse_ipv4 s = Some q → length q = 4%nat ∧ Forall is_byte q.
Proof.
  unfold parse_ipv4. destruct (mapM parse_octet (split_char "." s)) as [l|] eqn:E; [|done].
  intros H. assert (l = q ∧ length q = 4%nat) as [-> Hl].
  { destruct l as [|? [|? [|? [|? [|]]]]]; try done. by simplify_eq. }
  split; [done|]. apply mapM_Some in E. clear H Hl. induction E; constructor; eauto using parse_octet_byte.
Qed.

Lemma v6_loop_wf fuel s acc ell s' acc' ell' : (length acc + 2 * fuel <= 16)%nat → Forall is_byte acc →
  v6_loop fuel s acc ell = Some (s', acc', ell') → (length acc' <= 16)%nat ∧ Forall is_byte acc'.
Proof.
  revert s acc ell. induction fuel as [|f IH]; intros s acc ell Hlen Hacc H; cbn [v6_loop] in H.
  { simplify_eq. split; [lia|done]. }
  destruct (span is_hex s) as [ds rest]. case_decide as Hds; [done|].
  assert (∀ v, parse_uint 16 ds = Some v → Forall is_byte (acc ++ [v / 256; v mod 256])) as Hbytes.
  { intros v Hv. apply parse_uint_bound in Hv; [|lia].
    assert (16 ^ Z.of_nat (String.length ds) <= 16 ^ 4) by (apply Z.pow_le_mono_r; lia).
    change (16 ^ 4) with 65536 in *. pose proof (Z.mod_pos_bound v 256). pose proof (Z.div_pos v 256).
    assert (v / 256 < 256) by (apply Z.div_lt_upper_bound; lia).
    apply Forall_app. split; [done|]. repeat constructor; unfold is_byte; lia. }
  assert (∀ v, length (acc ++ [v / 256; v mod 256]) = (length acc + 2)%nat) as Hl2
    by (intros; by rewrite length_app).
  assert (∀ c r, rest = String c r → c ≠ "."%char →
    match parse_uint 16 ds with
    | None => None
    | Some v => if negb (Ascii.eqb c ":") then None else
        match r with
        | EmptyString => None
        | String d s'' => if Ascii.eqb d ":" then
            match ell with Some _ => None | None => match s'' with
              | EmptyString => Some (EmptyString, acc ++ [v / 256; v mod 256], Some (length (acc ++ [v / 256; v mod 256])))
              | _ => v6_loop f s'' (acc ++ [v / 256; v mod 256]) (Some (length (acc ++ [v / 256; v mod 256]))) end end
            else v6_loop f r (acc ++ [v / 256; v mod 256]) ell
        end
    end = Some (s', acc', ell') → (length acc' <= 16)%nat ∧ Forall is_byte acc') as Hgroup.
  { intros c r _ _ E. destruct (parse_uint 16 ds) as [v|] eqn:Ev; [|done]. specialize (Hbytes v eq_refl).
    destruct (negb _); [done|]. destruct r as [|d r]; [done|]. destruct (Ascii.eqb d ":").
    - destruct ell; [done|]. destruct r.
      + simplify_eq. rewrite Hl2. split; [lia|done].
      + apply IH in E; [done| |done]. rewrite Hl2. lia.
    - apply IH in E; [done| |done]. rewrite Hl2. lia. }
  destruct rest as [|c r].
  - destruct (parse_uint 16 ds) as [v|] eqn:Ev; [|done]. specialize (Hbytes v eq_refl). simplify_eq.
    rewrite Hl2. split; [lia|done].
  - destruct (decide (c = "."%char)) as [->|Hc].
    + repeat (case_decide; [done|]). destruct (parse_ipv4 s) as [q|] eqn:Eq; [|done]. simplify_eq.
      apply parse_ipv4_wf in Eq as [Hq Hb]. rewrite length_app, Hq. split; [lia|by apply Forall_app].
    + apply (Hgroup c r eq_refl Hc). rewrite <- H. clear -Hc.
      destruct c as [[][][][][][][][]]; try done; exfalso; by apply Hc.
Qed.

Lemma v6_finish_wf r q : (∀ s acc ell, r = Some (s, acc, ell) → (length acc <= 16)%nat ∧ Forall is_byte acc) →
  v6_finish r = Some q → length q = 16%nat ∧ Forall is_byte q.
Proof.
  intros Hr H. unfold v6_finish in H. destruct r as [[[s acc] ell]|]; [|done].
  destruct (Hr _ _ _ eq_refl) as [Hl Hb]. destruct s; [|done]. case_decide.
  - destruct ell as [e|]; [|done]. simplify_eq. split.
    + rewrite !length_app, length_replicate, length_take, length_drop. lia.
    + repeat apply Forall_app_2; [by apply Forall_take| |by apply Forall_drop].
      apply Forall_replicate. unfold is_byte. lia.
  - destruct ell; [done|]. simplify_eq. split; [lia|done].
Qed.

Lemma parse_ipv6_wf s q : parse_ipv6 s = Some q → length q = 16%nat ∧ Forall is_byte q.
Proof.
  assert (∀ s ell, v6_finish (v6_loop 8 s [] ell) = Some q → length q = 16%nat ∧ Forall is_byte q) as H.
  { intros t ell. apply v6_finish_wf. intros s' acc ell' E.
    eapply (v6_loop_wf 8 t []); [cbn; lia|constructor|exact E]. }
  unfold parse_ipv6. destruct s as [|a s]; [apply H|].
  destruct a as [[][][][][][][][]]; try apply H. destruct s as [|b s]; [apply H|].
  destruct b as [[][][][][][][][]]; try apply H. destruct s as [|c s]; [|apply H].
  intros [= <-]. split; [done|]. repeat constructor; unfold is_byte; lia.
Qed.

Definition addr_wf (a : Addr) : Prop :=
  match a with
  | Is4 q => length q = 4%nat ∧ Forall is_byte q
  | Is16 q => length q = 16%nat ∧ Forall is_byte q
  end.

Lemma ParseAddr_wf s a : ParseAddr s = Some a → addr_wf a.
Proof.
  unfold ParseAddr. destruct (addr_kind s) as [c|]; [|done]. intros H.
  assert (Is4 <$> parse_ipv4 s = Some a ∨ Is16 <$> parse_ipv6 s = Some a) as [E|E].
  { destruct c as [[][][][][][][][]]; try done; [by left|]. case_decide; [done|by right]. }
  - apply fmap_Some in E as (q & E & ->). by apply parse_ipv4_wf in E.
  - apply fmap_Some in E as (q & E & ->). by apply parse_ipv6_wf in E.
Qed.
