(* ===== verification/GoHash.v ===== *)
(** * SHA-256, as Go's [crypto/sha256] computes it

    [sha256_hex] is [fmt.Sprintf("%x", sha256.Sum256([]byte(s)))].  The model uses its
    length and its alphabet only; the test vectors tie it to the standard. *)

From Stdlib Require Import ZArith Lia Ascii.
From stdpp Require Import base strings list numbers.
From S2P Require Import Prelude GoStrings GoNet GoNetFacts.

Local Open Scope Z_scope.

(** ** Words *)

Definition rotr (x n : Z) : Z := Z.lor (Z.shiftr x n) (u32 (Z.shiftl x (32 - n))).
Definition small_sigma0 (x : Z) : Z := Z.lxor (Z.lxor (rotr x 7) (rotr x 18)) (Z.shiftr x 3).
Definition small_sigma1 (x : Z) : Z := Z.lxor (Z.lxor (rotr x 17) (rotr x 19)) (Z.shiftr x 10).
Definition big_sigma0 (x : Z) : Z := Z.lxor (Z.lxor (rotr x 2) (rotr x 13)) (rotr x 22).
Definition big_sigma1 (x : Z) : Z := Z.lxor (Z.lxor (rotr x 6) (rotr x 11)) (rotr x 25).

Definition sha_K : list Z :=
  [1116352408; 1899447441; 3049323471; 3921009573; 961987163; 1508970993; 2453635748; 2870763221;
   3624381080; 310598401; 607225278; 1426881987; 1925078388; 2162078206; 2614888103; 3248222580;
   3835390401; 4022224774; 264347078; 604807628; 770255983; 1249150122; 1555081692; 1996064986;
   2554220882; 2821834349; 2952996808; 3210313671; 3336571891; 3584528711; 113926993; 338241895;
   666307205; 773529912; 1294757372; 1396182291; 1695183700; 1986661051; 2177026350; 2456956037;
   2730485921; 2820302411; 3259730800; 3345764771; 3516065817; 3600352804; 4094571909; 275423344;
   430227734; 506948616; 659060556; 883997877; 958139571; 1322822218; 1537002063; 1747873779;
   1955562222; 2024104815; 2227730452; 2361852424; 2428436474; 2756734187; 3204031479; 3329325298].
Definition sha_H : list Z :=
  [1779033703; 3144134277; 1013904242; 2773480762; 1359893119; 2600822924; 528734635; 1541459225].

(** ** One block *)

(** The message schedule, the latest word first. *)
Fixpoint schedule (n : nat) (w : list Z) : list Z :=
  match n with
  | O => w
  | S n =>
      let at_ i := nth i w 0 in
      schedule n (u32 (small_sigma1 (at_ 1%nat) + at_ 6%nat + small_sigma0 (at_ 14%nat) + at_ 15%nat) :: w)
  end.

Record sha_state := mkSha { sa : Z; sb : Z; sc : Z; sd : Z; se : Z; sf : Z; sg : Z; sh : Z }.

Definition sha_round (s : sha_state) (kw : Z * Z) : sha_state :=
  let ch := Z.lxor (Z.land (se s) (sf s)) (Z.land (Z.lxor (se s) 4294967295) (sg s)) in
  let t1 := sh s + big_sigma1 (se s) + ch + kw.1 + kw.2 in
  let maj := Z.lxor (Z.lxor (Z.land (sa s) (sb s)) (Z.land (sa s) (sc s))) (Z.land (sb s) (sc s)) in
  mkSha (u32 (t1 + big_sigma0 (sa s) + maj)) (sa s) (sb s) (sc s) (u32 (sd s + t1)) (se s) (sf s) (sg s).

Definition sha_list (s : sha_state) : list Z := [sa s; sb s; sc s; sd s; se s; sf s; sg s; sh s].
Definition sha_of (l : list Z) : sha_state :=
  mkSha (nth 0 l 0) (nth 1 l 0) (nth 2 l 0) (nth 3 l 0) (nth 4 l 0) (nth 5 l 0) (nth 6 l 0) (nth 7 l 0).

Definition sha_block (h : list Z) (block : list Z) : list Z :=
  let w := rev (schedule 48 (rev block)) in
  zip_with (λ x y, u32 (x + y)) h (sha_list (foldl sha_round (sha_of h) (zip sha_K w))).

(** ** Messages *)

Fixpoint bytes_of (s : string) : list Z :=
  match s with
  | EmptyString => []
  | String c s => char_code c :: bytes_of s
  end.

Definition sha_pad (m : list Z) : list Z :=
  let n := Z.of_nat (length m) in
  m ++ [128] ++ replicate (Z.to_nat ((55 - n) mod 64)) 0 ++ be_bytes 8 (8 * n).

(** The words of the padded message and its blocks of sixteen. *)
Fixpoint words (l : list Z) : list Z :=
  match l with
  | a :: b :: c :: d :: l => be_val [a; b; c; d] :: words l
  | _ => []
  end.
Fixpoint sha_blocks (fuel : nat) (h : list Z) (ws : list Z) : list Z :=
  match fuel, ws with
  | S fuel, _ :: _ => sha_blocks fuel (sha_block h (take 16 ws)) (drop 16 ws)
  | _, _ => h
  end.

Definition sha256_sum (m : list Z) : list Z :=
  let ws := words (sha_pad m) in
  mbind (be_bytes 4) (sha_blocks (length ws) sha_H ws).

Definition hex_bytes (l : list Z) : string := foldr (λ b s, hex_byte b +:+ s) "" l.
Definition sha256_hex (s : string) : string := hex_bytes (sha256_sum (bytes_of s)).

Example sha256_empty : sha256_hex "" = "e3b0c44298fc1c149afbf4c8996fb92427ae41e4649b934ca495991b7852b855".
Proof. by vm_compute. Qed.
Example sha256_abc : sha256_hex "abc" = "ba7816bf8f01cfea414140de5dae2223b00361a396177a9cb410ff61f20015ad".
Proof. by vm_compute. Qed.
Example sha256_two_blocks : sha256_hex "abcdbcdecdefdefgefghfghighijhijkijkljklmklmnlmnomnopnopq" =
  "248d6a61d20638b8e5c026930c3e6039a33ce45964ff2167f6ecedd419db06c1".
Proof. by vm_compute. Qed.

(** ** The text of a digest *)

Lemma length_sha_block h b : length h = 8%nat → length (sha_block h b) = 8%nat.
Proof. intros Hh. unfold sha_block. rewrite length_zip_with, Hh. done. Qed.

Lemma length_sha_blocks n h ws : length h = 8%nat → length (sha_blocks n h ws) = 8%nat.
Proof.
  revert h ws. induction n as [|n IH]; intros h ws Hh; [done|]. destruct ws as [|w ws]; [done|]. cbn [sha_blocks].
  by apply IH, length_sha_block.
Qed.

Lemma hex_bytes_spec l : Forall is_byte l →
  str_all is_lower_hex (hex_bytes l) = true ∧ String.length (hex_bytes l) = (2 * length l)%nat.
Proof.
  induction 1 as [|b l Hb _ [IH1 IH2]]; [done|]. unfold hex_bytes in *. cbn [foldr]. rewrite str_all_app, str_length_app, IH1, IH2, andb_true_r.
  unfold is_byte in Hb. split; [|cbn; lia]. unfold hex_byte. cbn [str_all]. rewrite andb_true_r.
  apply andb_true_iff. split; apply digit_char_lower_hex.
  - split; [apply Z.div_pos; lia|apply Z.div_lt_upper_bound; lia].
  - apply Z.mod_pos_bound. lia.
Qed.

Lemma sha256_hex_spec s : str_all is_lower_hex (sha256_hex s) = true ∧ String.length (sha256_hex s) = 64%nat.
Proof.
  unfold sha256_hex, sha256_sum. set (l := sha_blocks _ _ _).
  assert (length l = 8%nat) as Hl by (by apply length_sha_blocks).
  assert (Forall is_byte (mbind (be_bytes 4) l) ∧ length (mbind (be_bytes 4) l) = (4 * length l)%nat) as [Hb Hlen].
  { clear Hl. induction l as [|x l [IH1 IH2]]; [done|]. cbn [mbind list_bind]. split.
    - apply Forall_app_2; [apply be_bytes_byte|done].
    - rewrite length_app, IH2, length_be_bytes. cbn [length]. lia. }
  apply hex_bytes_spec in Hb as [H1 H2]. rewrite Hlen, Hl in H2. done.
Qed.
