(* ===== verification/GoTime.v ===== *)
(** * Times in RFC 3339, as Go's [time.Time] reads them from JSON

    A time is its nanoseconds since the epoch. *)

From Stdlib Require Import ZArith Lia Ascii.
From stdpp Require Import base strings list numbers.
From S2P Require Import Prelude GoStrings GoJson.

Local Open Scope Z_scope.

Definition nanosecond_per_second : Z := 1000000000.

(** ** The calendar *)

Definition is_leap (y : Z) : bool := (y mod 4 =? 0) && (negb (y mod 100 =? 0) || (y mod 400 =? 0)).
Definition days_in (m y : Z) : Z :=
  if m =? 2 then if is_leap y then 29 else 28
  else if (m =? 4) || (m =? 6) || (m =? 9) || (m =? 11) then 30 else 31.

(** Days since 1 January 1970: years are counted from March, four hundred of them have
    146097 days. *)
Definition days_from_civil (y m d : Z) : Z :=
  let y := if m <=? 2 then y - 1 else y in
  let era := y / 400 in
  let yoe := y - era * 400 in
  let doy := (153 * (if m <=? 2 then m + 9 else m - 3) + 2) / 5 + d - 1 in
  era * 146097 + (yoe * 365 + yoe / 4 - yoe / 100 + doy) - 719468.

(** ** Reading *)

(** A number of exactly [n] digits between [lo] and [hi]. *)
Fixpoint take_num (n : nat) (acc : Z) (s : string) : option (Z * string) :=
  match n with
  | O => Some (acc, s)
  | S n =>
      match s with
      | String c s => if is_digit c then take_num n (10 * acc + (char_code c - 48)) s else None
      | EmptyString => None
      end
  end.
Definition take_range (n : nat) (lo hi : Z) (s : string) : option (Z * string) :=
  match take_num n 0 s with
  | Some (v, s) => if (lo <=? v) && (v <=? hi) then Some (v, s) else None
  | None => None
  end.

(** A fraction of a second, in nanoseconds; digits after the ninth are dropped. *)
Fixpoint take_fraction (scale : Z) (acc : Z) (s : string) : Z * string :=
  match s with
  | String c s' => if is_digit c then take_fraction (scale / 10) (acc + (char_code c - 48) * scale) s' else (acc, s)
  | EmptyString => (acc, s)
  end.
Definition take_optional_fraction (s : string) : option (Z * string) :=
  match s with
  | String "." (String c _ as d) => if is_digit c then Some (take_fraction 100000000 0 d) else None
  | String "." EmptyString => None
  | _ => Some (0, s)
  end.

(** The offset from UTC in seconds. *)
Definition take_zone (s : string) : option Z :=
  let hm sign s :=
    '(h, s) ← take_range 2 0 23 s;
    s ← strip ":" s;
    '(m, s) ← take_range 2 0 59 s;
    match s with EmptyString => Some (sign * (3600 * h + 60 * m)) | _ => None end in
  match s with
  | String "Z" EmptyString => Some 0
  | String "+" s => hm 1 s
  | String "-" s => hm (-1) s
  | _ => None
  end.

Definition parse_rfc3339 (s : string) : option Z :=
  '(y, s) ← take_range 4 0 9999 s;
  s ← strip "-" s;
  '(mo, s) ← take_range 2 1 12 s;
  s ← strip "-" s;
  '(d, s) ← take_range 2 1 (days_in mo y) s;
  s ← strip "T" s;
  '(h, s) ← take_range 2 0 23 s;
  s ← strip ":" s;
  '(mi, s) ← take_range 2 0 59 s;
  s ← strip ":" s;
  '(sec, s) ← take_range 2 0 59 s;
  '(ns, s) ← take_optional_fraction s;
  off ← take_zone s;
  Some ((days_from_civil y mo d * 86400 + 3600 * h + 60 * mi + sec - off) * nanosecond_per_second + ns).

(** [time.Time.UnmarshalJSON] on the raw text of a member. *)
Definition Time_UnmarshalJSON (t : Z) (raw : string) : outcome Z :=
  if decide (raw = "null") then Ret t
  else match raw with
       | String c r =>
           match (if Ascii.eqb c dquote then String.rev r else EmptyString) with
           | String c' r => if Ascii.eqb c' dquote
                            then match parse_rfc3339 (String.rev r) with
                                 | Some t => Ret t
                                 | None => Err (Errorf "parsing time")
                                 end
                            else Err (Errorf "Time.UnmarshalJSON: input is not a JSON string")
           | EmptyString => Err (Errorf "Time.UnmarshalJSON: input is not a JSON string")
           end
       | EmptyString => Err (Errorf "Time.UnmarshalJSON: input is not a JSON string")
       end.

Example time_epoch : parse_rfc3339 "1970-01-01T00:00:00Z" = Some 0.
Proof. by vm_compute. Qed.
Example time_offset : parse_rfc3339 "2024-02-29T01:30:00.25+02:00" = parse_rfc3339 "2024-02-28T23:30:00.250Z".
Proof. by vm_compute. Qed.
Example time_value : parse_rfc3339 "2026-01-02T03:04:05Z" = Some (1767323045 * nanosecond_per_second).
Proof. by vm_compute. Qed.
Example time_bad : map (λ s, bool_decide (is_Some (parse_rfc3339 s)))
  ["2023-02-29T00:00:00Z"; "2023-2-28T00:00:00Z"; "2023-02-28 00:00:00Z"; "2023-02-28T24:00:00Z"; "2023-02-28T00:00:00.Z"; "2023-02-28T00:00:00"] =
  replicate 6 false.
Proof. by vm_compute. Qed.
