(* ===== verification/GoDuration.v ===== *)
(** * Durations, as [time.ParseDuration] reads them, and times as RFC 3339 writes them

    A duration is its nanoseconds, as a 64-bit integer.  A fraction of a unit goes
    through binary64 floats, which are those of the Standard Library's [SpecFloat]. *)

From Stdlib Require Import ZArith Lia Ascii SpecFloat.
From stdpp Require Import base strings list numbers.
From S2P Require Import Prelude GoStrings GoJson GoTime.

Local Open Scope Z_scope.

(** ** Floats *)

Definition float_of (n : Z) : spec_float := binary_normalize 53 1024 n 0 false.
Definition float_mul : spec_float → spec_float → spec_float := SFmul 53 1024.
Definition float_div : spec_float → spec_float → spec_float := SFdiv 53 1024.
(** Towards zero, for a float that is not negative. *)
Definition float_trunc (f : spec_float) : Z :=
  match f with S754_finite false m e => Z.shiftl (Z.pos m) e | _ => 0 end.

(** ** [time.ParseDuration] *)

Definition duration_unit (u : string) : option Z :=
  if decide (u = "ns") then Some 1
  else if decide (u = "us") then Some 1000
  else if decide (u = String (ascii_of 194) (String (ascii_of 181) "s")) then Some 1000
  else if decide (u = String (ascii_of 206) (String (ascii_of 188) "s")) then Some 1000
  else if decide (u = "ms") then Some 1000000
  else if decide (u = "s") then Some 1000000000
  else if decide (u = "m") then Some 60000000000
  else if decide (u = "h") then Some 3600000000000
  else None.

Definition digit_of (c : ascii) : Z := char_code c - 48.

(** An overflow is an error. *)
Fixpoint leadingInt (x : Z) (s : string) : option (Z * string) :=
  match s with
  | String c s' =>
      if is_digit c then
        if 2 ^ 63 / 10 <? x then None
        else let x := x * 10 + digit_of c in if 2 ^ 63 <? x then None else leadingInt x s'
      else Some (x, s)
  | EmptyString => Some (x, s)
  end.
(** Digits after an overflow are dropped. *)
Fixpoint leadingFraction (x : Z) (scale : spec_float) (overflow : bool) (s : string) : Z * spec_float * string :=
  match s with
  | String c s' =>
      if is_digit c then
        if overflow || ((2 ^ 63 - 1) / 10 <? x) then leadingFraction x scale true s'
        else
          let y := x * 10 + digit_of c in
          if 2 ^ 63 <? y then leadingFraction x scale true s'
          else leadingFraction y (float_mul scale (float_of 10)) false s'
      else (x, scale, s)
  | EmptyString => (x, scale, s)
  end.
Fixpoint take_unit (s : string) : string * string :=
  match s with
  | String c s' => if Ascii.eqb c "." || is_digit c then ("", s) else let '(u, r) := take_unit s' in (String c u, r)
  | EmptyString => ("", s)
  end.

Definition duration_error : error := Errorf "time: invalid duration".

(** A number and its unit: the nanoseconds and what follows. *)
Definition duration_part (s : string) : outcome (Z * string) :=
  match s with
  | EmptyString => Err duration_error
  | String c _ =>
      if negb (Ascii.eqb c "." || is_digit c) then Err duration_error
      else
        match leadingInt 0 s with
        | None => Err duration_error
        | Some (v, s1) =>
            let pre := bool_decide (String.length s1 ≠ String.length s) in
            let '(f, scale, s2, post) :=
              match s1 with
              | String "." s' => let '(f, scale, s2) := leadingFraction 0 (float_of 1) false s' in
                                 (f, scale, s2, bool_decide (String.length s2 ≠ String.length s'))
              | _ => (0, float_of 1, s1, false)
              end in
            if negb pre && negb post then Err duration_error
            else
              let '(u, rest) := take_unit s2 in
              if decide (u = "") then Err (Errorf "time: missing unit in duration")
              else match duration_unit u with
                   | None => Err (Errorf "time: unknown unit in duration")
                   | Some unit =>
                       if 2 ^ 63 / unit <? v then Err duration_error
                       else
                         let v := v * unit in
                         let v := if 0 <? f then v + float_trunc (float_mul (float_of f) (float_div (float_of unit) scale)) else v in
                         if 2 ^ 63 <? v then Err duration_error else Ret (v, rest)
                   end
        end
  end.

(** Every part takes a character: the length of the text is fuel enough. *)
Fixpoint duration_parts (fuel : nat) (d : Z) (s : string) : outcome Z :=
  match s, fuel with
  | EmptyString, _ => Ret d
  | _, O => Err duration_error
  | _, S fuel =>
      '(v, s) ← duration_part s;
      if 2 ^ 63 <? d + v then Err duration_error else duration_parts fuel (d + v) s
  end.

Definition ParseDuration (s : string) : outcome Z :=
  let '(neg, s) :=
    match s with
    | String "-" s => (true, s)
    | String "+" s => (false, s)
    | _ => (false, s)
    end in
  if decide (s = "0") then Ret 0
  else if decide (s = "") then Err duration_error
  else
    d ← duration_parts (String.length s) 0 s;
    if (neg : bool) then Ret (- d)
    else if 2 ^ 63 - 1 <? d then Err duration_error else Ret d.

Example duration_ex : ParseDuration <$> ["1h15m30.918s"; "-1.5h"; "0.1ns"; "1.5ms"; "0"; "2562047h47m16.854775807s"] =
  Ret <$> [4530918000000; -5400000000000; 0; 1500000; 0; 2 ^ 63 - 1].
Proof. by vm_compute. Qed.
Example duration_bad : is_ret ∘ ParseDuration <$> [""; "3"; ".s"; "1x"; "s"; "1d"; "2562047h47m16.854775808s"; "9223372036854775809ns"; "1s-"; "--1s"] =
  replicate 10 false.
Proof. by vm_compute. Qed.

(** ** Times as text *)

(** The date of a day since 1 January 1970: the inverse of [days_from_civil]. *)
Definition civil_from_days (days : Z) : Z * Z * Z :=
  let z := days + 719468 in
  let era := z / 146097 in
  let doe := z - era * 146097 in
  let yoe := (doe - doe / 1460 + doe / 36524 - doe / 146096) / 365 in
  let doy := doe - (365 * yoe + yoe / 4 - yoe / 100) in
  let mp := (5 * doy + 2) / 153 in
  let m := if mp <? 10 then mp + 3 else mp - 9 in
  ((yoe + era * 400) + (if m <=? 2 then 1 else 0), m, doy - (153 * mp + 2) / 5 + 1).

(** [n] digits with leading zeros. *)
Fixpoint zero_padded (n : nat) (v : Z) : string :=
  match n with O => "" | S n => zero_padded n (v / 10) +:+ String (digit_char (v mod 10)) "" end.
(** The fraction of a second without trailing zeros, and without a point when it is 0. *)
Fixpoint trim_zeros (n : nat) (v : Z) : string :=
  match n with
  | O => ""
  | S n' => if v mod 10 =? 0 then trim_zeros n' (v / 10) else "." +:+ zero_padded n v
  end.

(** [t.UTC().Format(time.RFC3339Nano)], for the years from 0 to 9999. *)
Definition Format_RFC3339Nano (t : Z) : string :=
  let sec := t / nanosecond_per_second in
  let '(y, m, d) := civil_from_days (sec / 86400) in
  let s := sec mod 86400 in
  zero_padded 4 y +:+ "-" +:+ zero_padded 2 m +:+ "-" +:+ zero_padded 2 d +:+ "T" +:+
  zero_padded 2 (s / 3600) +:+ ":" +:+ zero_padded 2 (s / 60 mod 60) +:+ ":" +:+ zero_padded 2 (s mod 60) +:+
  trim_zeros 9 (t mod nanosecond_per_second) +:+ "Z".

Example format_ex : Format_RFC3339Nano (1767323045 * nanosecond_per_second + 120000000) = "2026-01-02T03:04:05.12Z" ∧
  parse_rfc3339 "2026-01-02T03:04:05.12Z" = Some (1767323045 * nanosecond_per_second + 120000000).
Proof. by vm_compute. Qed.
Example format_days : Forall (λ d, let '(y, m, dd) := civil_from_days d in days_from_civil y m dd = d) ((λ i, i * 97) <$> seqZ (-2000) 4000).
Proof. apply (bool_decide_unpack _). by vm_compute. Qed.
