(* ===== verification/GoBase64.v ===== *)
(** * [encoding/base64]: the standard and the URL alphabet, with and without padding *)

From Stdlib Require Import ZArith Lia Ascii.
From stdpp Require Import base strings list numbers.
From S2P Require Import Prelude GoStrings GoJson GoNet.

Local Open Scope Z_scope.

Definition b64_char (url : bool) (v : Z) : ascii :=
  if v <? 26 then ascii_of (65 + v)
  else if v <? 52 then ascii_of (71 + v)
  else if v <? 62 then ascii_of (v - 4)
  else if v =? 62 then (if url then "-" else "+")%char
  else (if url then "_" else "/")%char.
Definition b64_val (url : bool) (c : ascii) : option Z :=
  let n := char_code c in
  if (65 <=? n) && (n <=? 90) then Some (n - 65)
  else if (97 <=? n) && (n <=? 122) then Some (n - 71)
  else if is_digit c then Some (n + 4)
  else if Ascii.eqb c (if url then "-" else "+")%char then Some 62
  else if Ascii.eqb c (if url then "_" else "/")%char then Some 63
  else None.

Fixpoint b64_encode (url padded : bool) (l : list Z) : string :=
  let ch v := b64_char url v in
  match l with
  | [] => ""
  | [x] => String (ch (x / 4)) (String (ch (x mod 4 * 16)) (if padded then "==" else ""))
  | [x; y] => String (ch (x / 4)) (String (ch (x mod 4 * 16 + y / 16)) (String (ch (y mod 16 * 4)) (if padded then "=" else "")))
  | x :: y :: z :: l =>
      String (ch (x / 4)) (String (ch (x mod 4 * 16 + y / 16)) (String (ch (y mod 16 * 4 + z / 64)) (String (ch (z mod 64)) (b64_encode url padded l))))
  end.

(** Line breaks are skipped wherever they are. *)
Fixpoint without_breaks (s : string) : string :=
  match s with
  | String c s => if (char_code c =? 10) || (char_code c =? 13) then without_breaks s else String c (without_breaks s)
  | EmptyString => ""
  end.
Definition is_pad (c : ascii) : bool := Ascii.eqb c "=".

Fixpoint b64_decode (url padded : bool) (s : string) : option (list Z) :=
  let val c := b64_val url c in
  match s with
  | EmptyString => Some []
  | String a (String b (String c (String d rest))) =>
      x ← val a; y ← val b;
      if padded && is_pad c then if is_pad d && bool_decide (rest = "") then Some [x * 4 + y / 16] else None
      else
        z ← val c;
        if padded && is_pad d then if bool_decide (rest = "") then Some [x * 4 + y / 16; y mod 16 * 16 + z / 4] else None
        else
          v ← val d;
          l ← b64_decode url padded rest;
          Some (x * 4 + y / 16 :: y mod 16 * 16 + z / 4 :: z mod 4 * 64 + v :: l)
  | String a (String b (String c EmptyString)) =>
      if padded then None else x ← val a; y ← val b; z ← val c; Some [x * 4 + y / 16; y mod 16 * 16 + z / 4]
  | String a (String b EmptyString) =>
      if padded then None else x ← val a; y ← val b; Some [x * 4 + y / 16]
  | _ => None
  end.
Definition DecodeString (url padded : bool) (s : string) : option (list Z) := b64_decode url padded (without_breaks s).
(** [base64.StdEncoding.EncodeToString] *)
Definition EncodeToString : list Z → string := b64_encode false true.

Example b64_ex : EncodeToString [77; 97; 110; 105] = "TWFuaQ==" ∧ DecodeString false true "TWFuaQ==" = Some [77; 97; 110; 105] ∧
  DecodeString false false "TWFuaQ==" = None ∧ DecodeString true false "-_8" = Some [251; 255].
Proof. by vm_compute. Qed.

(** ** What is encoded is decoded *)

Definition b64_char_ok (url : bool) (v : Z) : bool :=
  match b64_val url (b64_char url v) with
  | Some w => (w =? v) && negb (is_pad (b64_char url v) || (char_code (b64_char url v) =? 10) || (char_code (b64_char url v) =? 13))
  | None => false
  end.

Lemma b64_char_spec url v : 0 <= v < 64 →
  b64_val url (b64_char url v) = Some v ∧ is_pad (b64_char url v) = false ∧
  (char_code (b64_char url v) =? 10) = false ∧ (char_code (b64_char url v) =? 13) = false.
Proof.
  intros Hv. assert (In v (seqZ 0 64)) as Hin by (apply list_elem_of_In, elem_of_seqZ; lia).
  assert (forallb (b64_char_ok url) (seqZ 0 64) = true) as Hall by (destruct url; vm_compute; reflexivity).
  pose proof (proj1 (List.forallb_forall _ _) Hall v Hin) as Hv'. unfold b64_char_ok in Hv'.
  destruct (b64_val url (b64_char url v)) as [w|]; [|done]. apply andb_true_iff in Hv' as [->%Z.eqb_eq Hv'].
  destruct (is_pad _), (_ =? 10), (_ =? 13); done.
Qed.

(** By groups of three. *)
Lemma three_ind {A} (P : list A → Prop) : P [] → (∀ x, P [x]) → (∀ x y, P [x; y]) → (∀ x y z l, P l → P (x :: y :: z :: l)) → ∀ l, P l.
Proof. intros P0 P1 P2 P3. fix IH 1. intros [|x [|y [|z l]]]; [done|done|done|]. apply P3, IH. Qed.

Lemma break_char url v s : 0 <= v < 64 → without_breaks (String (b64_char url v) s) = String (b64_char url v) (without_breaks s).
Proof. intros (_ & _ & E1 & E2)%(b64_char_spec url). cbn [without_breaks]. by rewrite E1, E2. Qed.

Lemma b64_breaks url padded l : Forall is_byte l → without_breaks (b64_encode url padded l) = b64_encode url padded l.
Proof.
  unfold is_byte. induction l as [|x|x y|x y z l IH] using three_ind; intros Hl; rewrite ?list.Forall_cons in Hl; cbn beta in Hl; destruct_and?; cbn [b64_encode]; [done|..].
  1,2: rewrite !break_char by (Z.div_mod_to_equations; lia); by destruct padded.
  rewrite !break_char by (Z.div_mod_to_equations; lia). by rewrite IH.
Qed.

Lemma b64_decodes url padded l : Forall is_byte l → DecodeString url padded (b64_encode url padded l) = Some l.
Proof.
  intros Hl. unfold DecodeString. rewrite b64_breaks by done. unfold is_byte in *.
  assert (∀ v, 0 <= v < 64 → b64_val url (b64_char url v) = Some v ∧ is_pad (b64_char url v) = false) as Hc.
  { intros v Hv. by destruct (b64_char_spec url v Hv) as (? & ? & _). }
  induction l as [|x|x y|x y z l IH] using three_ind; rewrite ?list.Forall_cons in Hl; cbn beta in Hl; destruct_and?; cbn [b64_encode]; [done|..].
  - destruct (Hc (x / 4)) as [E1 _]; [Z.div_mod_to_equations; lia|]. destruct (Hc (x mod 4 * 16)) as [E2 _]; [Z.div_mod_to_equations; lia|].
    destruct padded; cbn [b64_decode]; rewrite E1, E2; cbn; do 2 f_equal; Z.div_mod_to_equations; lia.
  - destruct (Hc (x / 4)) as [E1 _]; [Z.div_mod_to_equations; lia|]. destruct (Hc (x mod 4 * 16 + y / 16)) as [E2 _]; [Z.div_mod_to_equations; lia|].
    destruct (Hc (y mod 16 * 4)) as [E3 P3]; [Z.div_mod_to_equations; lia|].
    destruct padded; cbn [b64_decode]; rewrite E1, E2, E3, ?P3; cbn; repeat f_equal; Z.div_mod_to_equations; lia.
  - destruct (Hc (x / 4)) as [E1 _]; [Z.div_mod_to_equations; lia|]. destruct (Hc (x mod 4 * 16 + y / 16)) as [E2 _]; [Z.div_mod_to_equations; lia|].
    destruct (Hc (y mod 16 * 4 + z / 64)) as [E3 P3]; [Z.div_mod_to_equations; lia|]. destruct (Hc (z mod 64)) as [E4 P4]; [Z.div_mod_to_equations; lia|].
    cbn [b64_decode]. rewrite E1, E2, E3, P3, E4, P4, andb_false_r. cbn. rewrite IH by done. cbn.
    repeat f_equal; Z.div_mod_to_equations; lia.
Qed.


(** ** Two encodings never disagree *)

Lemma b64_val_agree u u' c x y : b64_val u c = Some x → b64_val u' c = Some y → x = y.
Proof.
  assert ((λ o o' : option Z, match o, o' with Some x, Some y => x =? y | _, _ => true end) (b64_val u c) (b64_val u' c) = true) as Hc
    by (destruct u, u', c as [[] [] [] [] [] [] [] []]; reflexivity).
  intros E E'. rewrite E, E' in Hc. by apply Z.eqb_eq.
Qed.
Lemma b64_val_pad u c : is_pad c = true → b64_val u c = None.
Proof. unfold is_pad. intros ->%Ascii.eqb_eq. by destruct u. Qed.
Lemma b64_val_range u c x : b64_val u c = Some x → 0 <= x < 64.
Proof.
  intros E. assert ((match b64_val u c with Some x => (0 <=? x) && (x <? 64) | None => true end) = true) as Hc
    by (destruct u, c as [[] [] [] [] [] [] [] []]; reflexivity).
  rewrite E in Hc. lia.
Qed.

(** By groups of four characters. *)
Lemma four_ind (P : string → Prop) : P "" → (∀ a, P (String a "")) → (∀ a b, P (String a (String b ""))) →
  (∀ a b c, P (String a (String b (String c "")))) → (∀ a b c d s, P s → P (String a (String b (String c (String d s))))) → ∀ s, P s.
Proof. intros P0 P1 P2 P3 P4. fix IH 1. intros [|a [|b [|c [|d s]]]]; [done|done|done|done|]. apply P4, IH. Qed.

(** Take the decoding of a group apart. *)
Ltac group E := cbn [b64_decode] in E; unfold mbind, option_bind in E; repeat (case_match; try discriminate E; simplify_eq); try discriminate E.

Lemma b64_bytes_agree u p u' p' s l l' : b64_decode u p s = Some l → b64_decode u' p' s = Some l' → l = l'.
Proof.
  revert l l'. induction s as [|a|a b|a b c|a b c d s IH] using four_ind; intros l l' E E'; [by simplify_eq/=|done|..].
  all: destruct p, p'; cbn [andb] in *; group E; group E'.
  all: cbn [andb] in *; repeat match goal with
    | K : b64_val ?u ?c = Some ?x, K' : b64_val ?u' ?c = Some ?y |- _ => pose proof (b64_val_agree _ _ _ _ _ K K') as <-; clear K'
    | K : is_pad ?c = true, K' : b64_val ?u ?c = Some _ |- _ => by rewrite (b64_val_pad u c K) in K'
    end; try done.
  all: by rewrite (IH _ _ eq_refl eq_refl).
Qed.

Lemma b64_decode_bytes u p s l : b64_decode u p s = Some l → Forall is_byte l.
Proof.
  revert l. induction s as [|a|a b|a b c|a b c d s IH] using four_ind; intros l E; [by simplify_eq/=|by simplify_eq/=|..].
  all: destruct p; cbn [andb] in *; group E; unfold is_byte;
    repeat match goal with K : b64_val _ _ = Some _ |- _ => apply b64_val_range in K end.
  all: repeat first [apply Forall_nil_2 | apply Forall_cons_2; [Z.div_mod_to_equations; lia|] | by apply (IH _ eq_refl)].
Qed.

Lemma DecodeString_agree u p u' p' s l l' : DecodeString u p s = Some l → DecodeString u' p' s = Some l' → l = l'.
Proof. apply b64_bytes_agree. Qed.

(** A property of all the characters of an encoding. *)
Lemma b64_encode_all (P : ascii → bool) url padded l : Forall is_byte l → (∀ v, 0 <= v < 64 → P (b64_char url v) = true) → P "="%char = true →
  str_all P (b64_encode url padded l) = true.
Proof.
  intros Hl Hv Hp. unfold is_byte in *. induction l as [|x|x y|x y z l IH] using three_ind; rewrite ?list.Forall_cons in Hl; cbn beta in Hl; destruct_and?;
    cbn [b64_encode str_all]; [done|..]; rewrite !Hv by (Z.div_mod_to_equations; lia); cbn [andb]; [..|by apply IH]; destruct padded; cbn [str_all]; by rewrite ?Hp.
Qed.
