(* ===== verification/Ip4.v ===== *)
(** * [pkg/ip/ipnet.go]: IPv4 addresses and networks

    An [IP4] is a [uint32], an [IP4Net] an address with a [uint] prefix length
    that nothing bounds: the shifts keep Go's behaviour beyond 32.  Methods are
    named [Type_Method].  The theorems give the set of addresses a network
    denotes, show that [Contains], [ContainsCIDR], [Overlaps] and [Next] decide
    and move between such sets, and that the text and JSON forms parse back. *)

From stdpp Require Import base strings list numbers.
From Stdlib Require Import ZArith Lia Ascii.
From S2P Require Import Prelude GoStrings GoNet GoNetFacts.

Local Open Scope Z_scope.

(** ** [IP4] *)

Abbreviation IP4 := Z.

Definition FromBytes (ip : list Z) : outcome IP4 :=
  match ip with
  | b0 :: b1 :: b2 :: b3 :: _ =>
      Ret (Z.lor (Z.lor (Z.lor b3 (shl 32 b2 8)) (shl 32 b1 16)) (shl 32 b0 24))
  | _ => Panic
  end.

Definition FromIP (ip : IP) : outcome IP4 :=
  let ipv4 := To4 ip in
  if decide (ipv4 = []) then Panic else FromBytes ipv4.

Definition ParseIP4 (s : string) : outcome IP4 :=
  let ip := ParseIP s in
  if decide (ip = []) then Err (Errorf "invalid IP address format")
  else if decide (To4 ip = []) then Err (Errorf "invalid IPv4 address format")
  else FromIP ip.

Definition MustParseIP4 (s : string) : outcome IP4 :=
  match ParseIP4 s with Ret ip => Ret ip | _ => Panic end.

Definition IP4_Octets (ip : IP4) : Z * Z * Z * Z :=
  (u8 (Z.shiftr ip 24), u8 (Z.shiftr ip 16), u8 (Z.shiftr ip 8), u8 ip).

Definition IP4_ToIP (ip : IP4) : IP :=
  let '(a, b, c, d) := IP4_Octets ip in IPv4 a b c d.

Definition IP4_NetworkOrder (natively_little : bool) (ip : IP4) : Z :=
  if natively_little then
    let '(a, b, c, d) := IP4_Octets ip in
    Z.lor (Z.lor (Z.lor a (shl 32 b 8)) (shl 32 c 16)) (shl 32 d 24)
  else ip.

Definition IP4_String (ip : IP4) : string := IP_String (IP4_ToIP ip).

Definition IP4_StringSep (ip : IP4) (sep : string) : string :=
  let '(a, b, c, d) := IP4_Octets ip in
  fmt_uint 10 a +:+ sep +:+ fmt_uint 10 b +:+ sep +:+ fmt_uint 10 c +:+ sep +:+ fmt_uint 10 d.

Definition quote : ascii := Ascii.ascii_of_N 34.
Definition quoted (s : string) : string := String quote (s +:+ String quote "").
Definition trim_quotes (s : string) : string := Trim (Ascii.eqb quote) s.

Definition IP4_MarshalJSON (ip : IP4) : string := quoted (IP4_String ip).
Definition IP4_UnmarshalJSON (j : string) : outcome IP4 := ParseIP4 (trim_quotes j).

Definition IP4_IsPrivate (ip : IP4) : bool :=
  let '(a, b, _, _) := IP4_Octets ip in
  (a =? 10) || ((a =? 172) && (Z.land b 240 =? 16)) || ((a =? 192) && (b =? 168)).

(** ** [IP4Net] *)

Record IP4Net := mkIP4Net { IP4Net_IP : IP4; IP4Net_PrefixLen : Z }.

#[global] Instance IP4Net_eq_dec : EqDecision IP4Net.
Proof. solve_decision. Defined.

Definition IP4Net_String (n : IP4Net) : string :=
  IP4_String (IP4Net_IP n) +:+ "/" +:+ fmt_uint 10 (IP4Net_PrefixLen n).

Definition IP4Net_StringSep (n : IP4Net) (octetSep prefixSep : string) : string :=
  IP4_StringSep (IP4Net_IP n) octetSep +:+ prefixSep +:+ fmt_uint 10 (IP4Net_PrefixLen n).

Definition MapIP4ToString (nws : list IP4Net) : list string := map IP4Net_String nws.

(** [32 - n.PrefixLen], a [uint]. *)
Definition IP4Net_host_bits (n : IP4Net) : Z := u64 (32 - IP4Net_PrefixLen n).

Definition IP4Net_Mask (n : IP4Net) : Z := shl 32 4294967295 (IP4Net_host_bits n).

Definition IP4Net_Network (n : IP4Net) : IP4Net :=
  mkIP4Net (Z.land (IP4Net_IP n) (IP4Net_Mask n)) (IP4Net_PrefixLen n).

Definition IP4Net_Next (n : IP4Net) : IP4Net :=
  mkIP4Net (u32 (IP4Net_IP n + shl 32 1 (IP4Net_host_bits n))) (IP4Net_PrefixLen n).

Definition IP4Net_IncrementIP (n : IP4Net) : IP4Net :=
  mkIP4Net (u32 (IP4Net_IP n + 1)) (IP4Net_PrefixLen n).

Definition FromIPNet (n : IPNet) : outcome IP4Net :=
  let '(prefixLen, _) := mask_Size (IPNet_Mask n) in
  ip ← FromIP (IPNet_IP n); Ret (mkIP4Net ip prefixLen).

Definition IP4Net_ToIPNet (n : IP4Net) : IPNet :=
  mkIPNet (IP4_ToIP (IP4Net_IP n)) (CIDRMask (IP4Net_PrefixLen n) 32).

Definition IP4Net_Overlaps (n other : IP4Net) : bool :=
  let mask := if IP4Net_PrefixLen n <? IP4Net_PrefixLen other
              then IP4Net_Mask n else IP4Net_Mask other in
  Z.land (IP4Net_IP n) mask =? Z.land (IP4Net_IP other) mask.

Definition IP4Net_Equal (n other : IP4Net) : bool :=
  (IP4Net_IP n =? IP4Net_IP other) && (IP4Net_PrefixLen n =? IP4Net_PrefixLen other).

Definition IP4Net_Contains (n : IP4Net) (ip : IP4) : bool :=
  Z.land (IP4Net_IP n) (IP4Net_Mask n) =? Z.land ip (IP4Net_Mask n).

Definition IP4Net_ContainsCIDR (n other : IP4Net) : bool :=
  let ones1 := IP4Net_Mask n in
  let ones2 := IP4Net_Mask other in
  (ones1 <=? ones2) && IP4Net_Contains n (IP4Net_IP other).

Definition IP4Net_Empty (n : IP4Net) : bool :=
  (IP4Net_IP n =? 0) && (IP4Net_PrefixLen n =? 0).

Definition IP4Net_MarshalJSON (n : IP4Net) : string := quoted (IP4Net_String n).

Definition IP4Net_UnmarshalJSON (j : string) : outcome IP4Net :=
  match ParseCIDR (trim_quotes j) with
  | None => Err (Errorf "invalid CIDR address")
  | Some (_, val) =>
      if decide (To4 (IPNet_IP val) = []) then Err (Errorf "invalid IPv4 CIDR format")
      else FromIPNet val
  end.

(** ** Well-formedness and meaning *)

Definition IP4_ok (ip : IP4) : Prop := 0 <= ip < 2 ^ 32.
Definition IP4Net_ok (n : IP4Net) : Prop := IP4_ok (IP4Net_IP n) ∧ 0 <= IP4Net_PrefixLen n <= 32.

(** The number of addresses of a network and its first address. *)
Definition IP4Net_size (n : IP4Net) : Z := 2 ^ (32 - IP4Net_PrefixLen n).
Definition IP4Net_first (n : IP4Net) : IP4 := IP4Net_IP n / IP4Net_size n * IP4Net_size n.

(** The addresses a network denotes. *)
Definition IP4Net_addr (n : IP4Net) (ip : IP4) : Prop :=
  IP4Net_first n <= ip < IP4Net_first n + IP4Net_size n.

(** Its address is the first of its block. *)
Definition IP4Net_aligned (n : IP4Net) : Prop := IP4Net_IP n mod IP4Net_size n = 0.

(** ** Octets *)

Lemma IP4_Octets_bytes ip : IP4_ok ip →
  IP4_Octets ip = (ip / 2 ^ 24, ip / 2 ^ 16 mod 256, ip / 2 ^ 8 mod 256, ip mod 256).
Proof.
  unfold IP4_ok. intros H. unfold IP4_Octets, wrap. rewrite !Z.shiftr_div_pow2 by lia.
  change (2 ^ 8) with 256. rewrite (Z.mod_small (ip / 2 ^ 24)); [done|].
  split; [apply Z.div_pos; lia|]. apply Z.div_lt_upper_bound; lia.
Qed.

Definition octet_list (ip : IP4) : list Z :=
  let '(a, b, c, d) := IP4_Octets ip in [a; b; c; d].

Lemma octet_list_be ip : IP4_ok ip → octet_list ip = be_bytes 4 ip.
Proof.
  intros H. unfold octet_list. rewrite IP4_Octets_bytes by done. unfold IP4_ok in H.
  simpl. rewrite !Z.div_div by lia. change (256 * 256) with (2 ^ 16).
  change (2 ^ 16 * 256) with (2 ^ 24). change (2 ^ 8) with 256.
  rewrite (Z.mod_small (ip / 2 ^ 24)); [done|].
  split; [apply Z.div_pos; lia|]. apply Z.div_lt_upper_bound; lia.
Qed.

Lemma IP4_ToIP_octets ip : IP4_ToIP ip = v4InV6Prefix ++ octet_list ip.
Proof. unfold IP4_ToIP, octet_list. by destruct (IP4_Octets ip) as [[[??]?]?]. Qed.

Lemma length_octet_list ip : length (octet_list ip) = 4%nat.
Proof. unfold octet_list. by destruct (IP4_Octets ip) as [[[??]?]?]. Qed.

Lemma octet_list_bytes ip : IP4_ok ip → Forall is_byte (octet_list ip).
Proof. intros. rewrite octet_list_be by done. apply be_bytes_byte. Qed.

Lemma To4_ToIP ip : To4 (IP4_ToIP ip) = octet_list ip.
Proof. rewrite IP4_ToIP_octets. apply To4_mapped, length_octet_list. Qed.

Lemma FromBytes_val l : length l = 4%nat → Forall is_byte l → FromBytes l = Ret (be_val l).
Proof.
  intros Hlen Hl. destruct l as [|b0 [|b1 [|b2 [|b3 [|]]]]]; try done.
  decompose_Forall_hyps. unfold is_byte in *. cbn [FromBytes be_val length].
  rewrite !shl_small, !wrap_small by lia. f_equal.
  rewrite (Z.lor_comm b3), <- !Z.shiftl_mul_pow2, <- (add_lor 8 b2 b3) by lia.
  rewrite (Z.lor_comm (b2 * 2 ^ 8 + b3)), <- (add_lor 16) by lia.
  rewrite (Z.lor_comm (b1 * 2 ^ 16 + _)), <- (add_lor 24) by lia.
  change (256 ^ Z.of_nat 3) with (2 ^ 24). change (256 ^ Z.of_nat 2) with (2 ^ 16).
  change (256 ^ Z.of_nat 1) with (2 ^ 8). change (256 ^ Z.of_nat 0) with 1. lia.
Qed.

Lemma FromIP_val ip : length (To4 ip) = 4%nat → Forall is_byte (To4 ip) →
  FromIP ip = Ret (be_val (To4 ip)).
Proof.
  intros H Hb. unfold FromIP. rewrite decide_False by (intros E; rewrite E in H; done).
  by apply FromBytes_val.
Qed.

Lemma FromIP_ToIP ip : IP4_ok ip → FromIP (IP4_ToIP ip) = Ret ip.
Proof.
  intros H. rewrite FromIP_val; rewrite To4_ToIP; auto using length_octet_list, octet_list_bytes.
  rewrite octet_list_be by done. by rewrite be_val_bytes_small.
Qed.

Lemma ToIP_bytes ip : IP4_ok ip → Forall is_byte (IP4_ToIP ip).
Proof.
  intros. rewrite IP4_ToIP_octets. apply Forall_app. split; [|by apply octet_list_bytes].
  repeat constructor; unfold is_byte; lia.
Qed.

Lemma length_ToIP ip : length (IP4_ToIP ip) = 16%nat.
Proof. rewrite IP4_ToIP_octets, length_app, length_octet_list. done. Qed.

(** ** Masks and blocks *)

Lemma IP4Net_host_bits_ok n : IP4Net_ok n → IP4Net_host_bits n = 32 - IP4Net_PrefixLen n.
Proof. intros [_ H]. apply wrap_small. lia. Qed.

Lemma IP4Net_Mask_ok n : IP4Net_ok n → IP4Net_Mask n = high_ones 32 (32 - IP4Net_PrefixLen n).
Proof.
  intros Hn. pose proof Hn as [_ H]. unfold IP4Net_Mask. rewrite IP4Net_host_bits_ok by done.
  destruct (decide (IP4Net_PrefixLen n = 0)) as [->|].
  - by rewrite shl_big.
  - rewrite shl_small by lia. apply wrap_shl_ones. lia.
Qed.

Lemma IP4Net_size_pos n : IP4Net_ok n → 0 < IP4Net_size n.
Proof. intros [_ ?]. apply Z.pow_pos_nonneg; lia. Qed.

Lemma IP4_land_Mask n ip : IP4Net_ok n → IP4_ok ip →
  Z.land ip (IP4Net_Mask n) = ip / IP4Net_size n * IP4Net_size n.
Proof.
  intros Hn Hip. rewrite IP4Net_Mask_ok by done. destruct Hn as [_ ?].
  apply land_high_ones; [lia|done].
Qed.

Lemma IP4Net_addr_block n ip : IP4Net_ok n →
  IP4Net_addr n ip ↔ ip / IP4Net_size n = IP4Net_IP n / IP4Net_size n.
Proof. intros [_ ?]. unfold IP4Net_addr, IP4Net_first, IP4Net_size. by rewrite in_block by lia. Qed.

Lemma IP4Net_addr_self n : IP4Net_ok n → IP4Net_addr n (IP4Net_IP n).
Proof. intros. by rewrite IP4Net_addr_block. Qed.

Lemma IP4Net_addr_ok n ip : IP4Net_ok n → IP4Net_addr n ip → IP4_ok ip.
Proof.
  unfold IP4Net_addr, IP4Net_first, IP4_ok. intros Hn Ha.
  pose proof (IP4Net_size_pos n Hn). destruct Hn as [H1 H2]. unfold IP4_ok in H1.
  pose proof (Z.div_pos (IP4Net_IP n) (IP4Net_size n)).
  assert (2 ^ 32 = 2 ^ IP4Net_PrefixLen n * IP4Net_size n) as E.
  { unfold IP4Net_size. rewrite <- Z.pow_add_r by lia. f_equal. lia. }
  assert (IP4Net_IP n / IP4Net_size n < 2 ^ IP4Net_PrefixLen n).
  { apply Z.div_lt_upper_bound; nia. }
  nia.
Qed.

Lemma IP4Net_Contains_addr n ip : IP4Net_ok n → IP4_ok ip →
  IP4Net_Contains n ip = true ↔ IP4Net_addr n ip.
Proof.
  intros Hn Hip. pose proof (IP4Net_size_pos n Hn). unfold IP4Net_Contains.
  rewrite Z.eqb_eq, IP4Net_addr_block, !IP4_land_Mask by (try done; apply Hn).
  split; [nia|by intros ->].
Qed.

(** Of two networks that share an address, the longer prefix is inside the shorter. *)
Lemma IP4Net_addr_nested n m x : IP4Net_ok n → IP4Net_ok m →
  IP4Net_PrefixLen n <= IP4Net_PrefixLen m → IP4Net_addr n x → IP4Net_addr m x →
  ∀ y, IP4Net_addr m y → IP4Net_addr n y.
Proof.
  intros Hn Hm Hle Hnx Hmx y. revert Hnx Hmx. rewrite !IP4Net_addr_block by done.
  unfold IP4Net_size. destruct Hn as [_ ?], Hm as [_ ?].
  rewrite !(block_coarsen (32 - IP4Net_PrefixLen m) (32 - IP4Net_PrefixLen n)) by lia.
  by intros <- -> ->.
Qed.

Lemma IP4Net_Overlaps_longer n m : IP4Net_ok n → IP4Net_ok m →
  IP4Net_PrefixLen n <= IP4Net_PrefixLen m →
  IP4Net_Overlaps n m = true ↔ IP4Net_addr n (IP4Net_IP m).
Proof.
  intros Hn Hm Hle. rewrite <- IP4Net_Contains_addr by (done || apply Hm).
  unfold IP4Net_Overlaps, IP4Net_Contains.
  destruct (Z.ltb_spec (IP4Net_PrefixLen n) (IP4Net_PrefixLen m)); [done|].
  assert (IP4Net_Mask m = IP4Net_Mask n) as ->; [|done].
  rewrite !IP4Net_Mask_ok by done. do 2 f_equal. lia.
Qed.

Lemma IP4Net_Overlaps_comm n m : IP4Net_ok n → IP4Net_ok m →
  IP4Net_Overlaps n m = IP4Net_Overlaps m n.
Proof.
  intros Hn Hm. unfold IP4Net_Overlaps. rewrite !IP4Net_Mask_ok by done.
  destruct (Z.ltb_spec (IP4Net_PrefixLen n) (IP4Net_PrefixLen m)),
    (Z.ltb_spec (IP4Net_PrefixLen m) (IP4Net_PrefixLen n)); try lia; try apply Z.eqb_sym.
  replace (IP4Net_PrefixLen m) with (IP4Net_PrefixLen n) by lia. apply Z.eqb_sym.
Qed.

Lemma IP4Net_Overlaps_share_le n m : IP4Net_ok n → IP4Net_ok m →
  IP4Net_PrefixLen n <= IP4Net_PrefixLen m →
  IP4Net_Overlaps n m = true ↔ ∃ x, IP4Net_addr n x ∧ IP4Net_addr m x.
Proof.
  intros Hn Hm Hle. rewrite IP4Net_Overlaps_longer by done. split.
  - intros H. exists (IP4Net_IP m). auto using IP4Net_addr_self.
  - intros (x & Hnx & Hmx). eauto using IP4Net_addr_nested, IP4Net_addr_self.
Qed.

Lemma IP4Net_Overlaps_share n m : IP4Net_ok n → IP4Net_ok m →
  IP4Net_Overlaps n m = true ↔ ∃ x, IP4Net_addr n x ∧ IP4Net_addr m x.
Proof.
  intros Hn Hm. destruct (decide (IP4Net_PrefixLen n <= IP4Net_PrefixLen m)).
  - by apply IP4Net_Overlaps_share_le.
  - rewrite IP4Net_Overlaps_comm, IP4Net_Overlaps_share_le by (done || lia).
    split; intros (x & ? & ?); by exists x.
Qed.

(** C39: [Overlaps] answers exactly whether some address is in both networks. *)
Theorem IP4Net_Overlaps_spec n m : IP4Net_ok n → IP4Net_ok m →
  IP4Net_Overlaps n m = true ↔ ∃ x, IP4Net_addr n x ∧ IP4Net_addr m x.
Proof. apply IP4Net_Overlaps_share. Qed.

Lemma IP4Net_Overlaps_spec_witness :
  let n := mkIP4Net 167772160 8 in let m := mkIP4Net 168427776 24 in
  IP4Net_Overlaps n m = true ↔ ∃ x, IP4Net_addr n x ∧ IP4Net_addr m x.
Proof. apply IP4Net_Overlaps_spec; repeat split; simpl; lia. Defined.

Lemma IP4Net_Mask_le n m : IP4Net_ok n → IP4Net_ok m →
  IP4Net_Mask n <= IP4Net_Mask m ↔ IP4Net_PrefixLen n <= IP4Net_PrefixLen m.
Proof.
  intros Hn Hm. rewrite !IP4Net_Mask_ok by done. unfold high_ones.
  destruct Hn as [_ ?], Hm as [_ ?].
  rewrite <- Z.sub_le_mono_l, <- Z.pow_le_mono_r_iff by lia. lia.
Qed.

Lemma IP4Net_addr_last n : IP4Net_ok n → IP4Net_addr n (IP4Net_first n + IP4Net_size n - 1).
Proof. intros H. pose proof (IP4Net_size_pos n H). unfold IP4Net_addr. lia. Qed.

Lemma IP4Net_ContainsCIDR_addr n m x : IP4Net_ok n → IP4Net_ok m → IP4Net_ContainsCIDR n m = true →
  IP4Net_addr m x → IP4Net_addr n x.
Proof.
  intros Hn Hm. unfold IP4Net_ContainsCIDR.
  rewrite andb_true_iff, Z.leb_le, IP4Net_Mask_le by done.
  rewrite IP4Net_Contains_addr by (done || apply Hm). intros [Hle H] Hx.
  eauto using IP4Net_addr_nested, IP4Net_addr_self.
Qed.

(** [ContainsCIDR] answers exactly whether every address of the other network is in this one. *)
Theorem IP4Net_ContainsCIDR_spec n m : IP4Net_ok n → IP4Net_ok m →
  IP4Net_ContainsCIDR n m = true ↔ ∀ x, IP4Net_addr m x → IP4Net_addr n x.
Proof.
  intros Hn Hm. split; [intros H x; by apply IP4Net_ContainsCIDR_addr|].
  unfold IP4Net_ContainsCIDR.
  rewrite andb_true_iff, Z.leb_le, IP4Net_Mask_le by done.
  rewrite IP4Net_Contains_addr by (done || apply Hm).
  - intros H. split; [|auto using IP4Net_addr_self].
    pose proof (H _ (IP4Net_addr_last m Hm)). pose proof (IP4Net_size_pos m Hm).
    assert (IP4Net_addr n (IP4Net_first m)) by (apply H; unfold IP4Net_addr; lia).
    destruct (decide (IP4Net_PrefixLen n <= IP4Net_PrefixLen m)) as [|Hlt]; [done|].
    assert (IP4Net_size n < IP4Net_size m).
    { unfold IP4Net_size. destruct Hn as [_ ?], Hm as [_ ?]. apply Z.pow_lt_mono_r; lia. }
    unfold IP4Net_addr in *. lia.
Qed.

Lemma IP4Net_ContainsCIDR_spec_witness :
  let n := mkIP4Net 167772160 8 in let m := mkIP4Net 168427776 24 in
  IP4Net_ContainsCIDR n m = true ↔ ∀ x, IP4Net_addr m x → IP4Net_addr n x.
Proof. apply IP4Net_ContainsCIDR_spec; repeat split; simpl; lia. Defined.

(** ** Moving between networks *)

Lemma IP4Net_Network_ok n : IP4Net_ok n →
  IP4Net_Network n = mkIP4Net (IP4Net_first n) (IP4Net_PrefixLen n).
Proof. intros H. unfold IP4Net_Network. by rewrite IP4_land_Mask by (done || apply H). Qed.

Lemma IP4Net_first_aligned n : IP4Net_ok n → IP4Net_aligned n → IP4Net_first n = IP4Net_IP n.
Proof.
  intros H Ha. pose proof (IP4Net_size_pos n H). unfold IP4Net_first.
  apply Z.div_exact in Ha; lia.
Qed.

Lemma IP4Net_Network_wf n : IP4Net_ok n →
  IP4Net_ok (IP4Net_Network n) ∧ IP4Net_aligned (IP4Net_Network n).
Proof.
  intros H. pose proof (IP4Net_size_pos n H) as Hs. rewrite IP4Net_Network_ok by done.
  split; [split; [|apply H]|].
  - simpl. apply (IP4Net_addr_ok n); [done|]. unfold IP4Net_addr. lia.
  - unfold IP4Net_aligned, IP4Net_first, IP4Net_size in *. simpl. apply Z.mod_mul. lia.
Qed.

(** The block of the next network starts where this one ends, unless the address wraps. *)
Lemma IP4Net_Next_ok n : IP4Net_ok n → IP4Net_IP n + IP4Net_size n < 2 ^ 32 →
  IP4Net_Next n = mkIP4Net (IP4Net_IP n + IP4Net_size n) (IP4Net_PrefixLen n).
Proof.
  intros Hn Hlt. pose proof (IP4Net_size_pos n Hn). unfold IP4Net_Next.
  rewrite IP4Net_host_bits_ok by done.
  destruct Hn as [Hip Hp]. unfold IP4_ok in Hip. unfold IP4Net_size in *.
  assert (IP4Net_PrefixLen n ≠ 0) by (intros E; rewrite E in *; simpl in *; lia).
  rewrite shl_small, Z.mul_1_l, (wrap_small _ (2 ^ _)) by lia. by rewrite wrap_small by lia.
Qed.

Lemma IP4Net_Next_aligned n : IP4Net_ok n → IP4Net_aligned n →
  IP4Net_IP n + IP4Net_size n < 2 ^ 32 →
  IP4Net_ok (IP4Net_Next n) ∧ IP4Net_aligned (IP4Net_Next n).
Proof.
  intros Hn Ha Hlt. pose proof (IP4Net_size_pos n Hn). rewrite IP4Net_Next_ok by done.
  split.
  - split; [|apply Hn]. destruct Hn as [Hip _]. unfold IP4_ok in *. simpl. lia.
  - unfold IP4Net_aligned, IP4Net_size in *. simpl.
    rewrite <- (Z.mul_1_l (2 ^ _)) at 1. rewrite Z.mod_add by lia. done.
Qed.

(** ** Text and JSON forms *)

Lemma ParseIP_IP4_String ip : IP4_ok ip → ParseIP (IP4_String ip) = IP4_ToIP ip.
Proof.
  intros H. unfold IP4_String. rewrite ParseIP_String by auto using ToIP_bytes, length_ToIP.
  unfold To16. rewrite length_ToIP. done.
Qed.

Lemma ParseIP4_of_String ip : IP4_ok ip → ParseIP4 (IP4_String ip) = Ret ip.
Proof.
  intros H. unfold ParseIP4. rewrite ParseIP_IP4_String, To4_ToIP by done.
  rewrite !decide_False.
  - by apply FromIP_ToIP.
  - intros E. pose proof (length_octet_list ip) as L. by rewrite E in L.
  - intros E. pose proof (length_ToIP ip) as L. by rewrite E in L.
Qed.

(** Every address printed by [String] is read back by [ParseIP4] as the same address. *)
Theorem ParseIP4_String ip : IP4_ok ip → ParseIP4 (IP4_String ip) = Ret ip.
Proof. apply ParseIP4_of_String. Qed.

Lemma ParseIP4_String_witness : ParseIP4 (IP4_String 3232235777) = Ret 3232235777.
Proof. apply ParseIP4_String. split; vm_compute; done. Defined.

Lemma IP4_String_lacks c ip : IP4_ok ip → digit_dot c = false → hex_colon c = false →
  lacks c (IP4_String ip).
Proof. intros. apply IP_String_lacks; auto using length_ToIP, ToIP_bytes. Qed.

Lemma fmt_dec_lacks c n : is_digit c = false → 0 <= n → lacks c (fmt_uint 10 n).
Proof. intros. eapply lacks_of_all; [done|]. by apply fmt_dec_digits. Qed.

Lemma IP4Net_String_lacks c n : IP4Net_ok n → c ≠ "/"%char → is_digit c = false →
  digit_dot c = false → hex_colon c = false → lacks c (IP4Net_String n).
Proof.
  intros [Hip Hp] Hc Hd H1 H2. unfold IP4Net_String. apply lacks_app; [by apply IP4_String_lacks|].
  apply lacks_app; [|apply fmt_dec_lacks; (done || lia)].
  unfold lacks. cbn [str_all]. rewrite andb_true_r. apply negb_true_iff, Ascii.eqb_neq. congruence.
Qed.

Lemma trim_quoted s : lacks quote s → trim_quotes (quoted s) = s.
Proof.
  intros H. apply Trim_delim; [apply Ascii.eqb_refl|].
  revert H. apply str_all_impl. intros c. by rewrite Ascii.eqb_sym.
Qed.

(** Masking the sixteen-byte form works on the four bytes. *)
Lemma IP_Mask_ToIP ip p : 0 <= p <= 32 →
  IP_Mask (IP4_ToIP ip) (CIDRMask p 32) = zip_with Z.land (octet_list ip) (CIDRMask p 32).
Proof.
  intros Hp. pose proof (CIDRMask_length 32 p (or_introl eq_refl) Hp) as Hl.
  unfold IP_Mask. rewrite (decide_False (P := length _ = 16%nat ∧ _)) by (rewrite Hl; intros []; done).
  rewrite IP4_ToIP_octets. rewrite (decide_True (P := length _ = 4%nat ∧ _)).
  - rewrite drop_app_length' by done. by rewrite decide_True by (by rewrite length_octet_list, Hl).
  - rewrite Hl, length_app, length_octet_list. by rewrite take_app_length'.
Qed.

(** Reading a printed network back gives the mask of its prefix and its first address. *)
Lemma ParseCIDR_IP4Net n : IP4Net_ok n →
  ParseCIDR (IP4Net_String n) =
  Some (IP4_ToIP (IP4Net_IP n),
        mkIPNet (zip_with Z.land (octet_list (IP4Net_IP n)) (CIDRMask (IP4Net_PrefixLen n) 32))
                (CIDRMask (IP4Net_PrefixLen n) 32)).
Proof.
  intros [Hip Hp]. unfold IP4Net_String, IP4_String.
  assert (addr_of (IP4_ToIP (IP4Net_IP n)) = Is4 (octet_list (IP4Net_IP n))) as Ha.
  { unfold addr_of. by rewrite To4_ToIP, decide_True by apply length_octet_list. }
  rewrite ParseCIDR_String by
    (rewrite ?Ha; auto using ToIP_bytes, length_ToIP). rewrite Ha. cbn [BitLen].
  assert (To16 (IP4_ToIP (IP4Net_IP n)) = IP4_ToIP (IP4Net_IP n)) as ->.
  { unfold To16. by rewrite length_ToIP. }
  by rewrite IP_Mask_ToIP.
Qed.

Lemma FromIPNet_masked n : IP4Net_ok n →
  let m := CIDRMask (IP4Net_PrefixLen n) 32 in
  FromIPNet (mkIPNet (zip_with Z.land (octet_list (IP4Net_IP n)) m) m) = Ret (IP4Net_Network n).
Proof.
  intros Hn m. pose proof Hn as [Hip Hp]. subst m.
  pose proof (CIDRMask_length 32 (IP4Net_PrefixLen n) (or_introl eq_refl) Hp) as Hl.
  pose proof (CIDRMask_bytes 32 (IP4Net_PrefixLen n) (or_introl eq_refl) Hp) as Hb.
  pose proof (octet_list_bytes _ Hip) as Ho. pose proof (length_octet_list (IP4Net_IP n)) as Hlo.
  unfold FromIPNet. cbn [IPNet_Mask IPNet_IP]. rewrite CIDRMask_Size by (auto || lia).
  set (l := zip_with _ _ _). assert (length l = 4%nat) as Hll.
  { unfold l. rewrite length_zip_with, Hl, Hlo. done. }
  assert (Forall is_byte l) by (apply land_bytes; [done..|by rewrite Hl, Hlo]).
  rewrite FromIP_val; rewrite (To4_4 l) by done; [|done..].
  change (Ret (mkIP4Net (be_val l) (IP4Net_PrefixLen n)) = Ret (IP4Net_Network n)).
  unfold IP4Net_Network. do 2 f_equal. unfold l. rewrite be_val_land, CIDRMask_val by (auto; by rewrite Hl, Hlo).
  rewrite octet_list_be, be_val_bytes_small, IP4Net_Mask_ok by done. done.
Qed.

(** A network sent as JSON comes back as the same network with its host
    bits cleared, so that an aligned network survives the round trip unchanged. *)
Theorem IP4Net_JSON_roundtrip n : IP4Net_ok n →
  IP4Net_UnmarshalJSON (IP4Net_MarshalJSON n) = Ret (IP4Net_Network n) ∧
  (IP4Net_aligned n → IP4Net_Network n = n).
Proof.
  intros Hn. split.
  - unfold IP4Net_UnmarshalJSON, IP4Net_MarshalJSON.
    rewrite trim_quoted by (by apply IP4Net_String_lacks). rewrite ParseCIDR_IP4Net by done.
    cbn [IPNet_IP]. rewrite decide_False; [by apply FromIPNet_masked|].
    pose proof (CIDRMask_length 32 (IP4Net_PrefixLen n) (or_introl eq_refl) (proj2 Hn)) as Hl.
    assert (length (zip_with Z.land (octet_list (IP4Net_IP n)) (CIDRMask (IP4Net_PrefixLen n) 32)) = 4%nat)
      as E by (by rewrite length_zip_with, Hl, length_octet_list).
    intros E'. rewrite To4_4 in E' by done. by rewrite E' in E.
  - intros Ha. rewrite IP4Net_Network_ok, IP4Net_first_aligned by done. by destruct n.
Qed.

Lemma IP4Net_JSON_roundtrip_witness :
  IP4Net_UnmarshalJSON (IP4Net_MarshalJSON (mkIP4Net 167837697 24)) = Ret (mkIP4Net 167837696 24).
Proof. apply (IP4Net_JSON_roundtrip (mkIP4Net 167837697 24)). repeat split; simpl; lia. Defined.

(** ** What decoding accepts *)

Lemma octets_of_bytes q : length q = 4%nat → Forall is_byte q →
  IP4_ok (be_val q) ∧ octet_list (be_val q) = q.
Proof.
  intros Hl Hb. pose proof (be_val_range q Hb) as Hr. rewrite Hl in Hr.
  assert (IP4_ok (be_val q)) by exact Hr. split; [done|].
  rewrite octet_list_be by done. by apply be_bytes_val.
Qed.

Lemma To4_bytes ip : Forall is_byte ip → Forall is_byte (To4 ip).
Proof. intros. unfold To4. repeat case_decide; [done|by apply Forall_drop|constructor]. Qed.

Lemma To4_nonempty ip : To4 ip ≠ [] → length (To4 ip) = 4%nat.
Proof. unfold To4. repeat case_decide; [done| |done]. rewrite length_drop. intros. lia. Qed.

Lemma FromIP_ok ip v : Forall is_byte ip → FromIP ip = Ret v → IP4_ok v.
Proof.
  intros Hb. destruct (decide (To4 ip = [])) as [E|E]; unfold FromIP; [by rewrite decide_True|].
  rewrite decide_False, FromBytes_val by (done || auto using To4_nonempty, To4_bytes).
  intros [= <-]. apply octets_of_bytes; auto using To4_nonempty, To4_bytes.
Qed.

(** An IPv4-mapped network has a prefix longer than 32. *)
Lemma mapped_prefix b p : length b = 16%nat → Forall is_byte b → 0 <= p <= 128 →
  To4 (zip_with Z.land b (CIDRMask p 128)) ≠ [] → 32 < p.
Proof.
  intros Hl Hb Hp Hne. set (v := zip_with Z.land b (CIDRMask p 128)) in *.
  pose proof (CIDRMask_length 128 p (or_intror eq_refl) Hp) as Hlm.
  pose proof (CIDRMask_bytes 128 p (or_intror eq_refl) Hp) as Hbm.
  change (Z.to_nat (128 / 8)) with 16%nat in Hlm.
  assert (length v = 16%nat) as Hlv by (unfold v; by rewrite length_zip_with, Hl, Hlm).
  assert (Forall is_byte v) as Hbv by (apply land_bytes; [done..|congruence]).
  assert (be_val v = be_val b / 2 ^ (128 - p) * 2 ^ (128 - p)) as Ev.
  { unfold v. rewrite be_val_land, CIDRMask_val by (auto; congruence).
    apply land_high_ones; [lia|]. pose proof (be_val_range b Hb) as H. by rewrite Hl in H. }
  destruct (decide (take 12 v = v4InV6Prefix)) as [Ht|Ht]; [|by rewrite To4_16 in Hne].
  pose proof (take_drop 12 v) as Htd. rewrite Ht in Htd.
  pose proof (be_val_range (drop 12 v) (Forall_drop _ _ _ Hbv)) as Hd.
  rewrite length_drop, Hlv in Hd. rewrite <- Htd, be_val_app, length_drop, Hlv in Ev.
  change (256 ^ Z.of_nat (16 - 12)) with (2 ^ 32) in *. change (be_val v4InV6Prefix) with 65535 in Ev.
  destruct (decide (p <= 32)) as [Hle|]; [|lia]. exfalso.
  assert (2 ^ 96 <= 2 ^ (128 - p)) by (apply Z.pow_le_mono_r; lia).
  set (k := be_val b / 2 ^ (128 - p)) in *. clearbody k.
  assert (65536 * 2 ^ 32 < 2 ^ 96) by (vm_compute; done). set (M := 2 ^ (128 - p)) in *. clearbody M.
  destruct (decide (k <= 0)).
  - assert (k * M <= 0) by (apply Z.mul_nonpos_nonneg; lia). lia.
  - assert (1 * M <= k * M) by (apply Z.mul_le_mono_nonneg_r; lia). lia.
Qed.

(** A decoded network is in range, and aligned when its prefix is an IPv4 one. *)
Lemma IP4Net_Unmarshal_wf j n : IP4Net_UnmarshalJSON j = Ret n →
  IP4_ok (IP4Net_IP n) ∧ 0 <= IP4Net_PrefixLen n <= 128 ∧
  (IP4Net_PrefixLen n <= 32 → IP4Net_aligned n).
Proof.
  unfold IP4Net_UnmarshalJSON, ParseCIDR. destruct (cut_slash _) as [[addr mask]|]; [|done].
  destruct (ParseAddr addr) as [a|] eqn:Ea; [|done]. destruct (parse_uint 10 mask) as [p|] eqn:Ep; [|done].
  apply ParseAddr_wf in Ea. apply parse_uint_bound in Ep; [|lia].
  destruct (Z.leb_spec p (BitLen a)) as [Hp|]; [|done]. cbn [IPNet_IP].
  case_decide as Hne; [done|]. destruct a as [q|b], Ea as [Hl Hb]; cbn [As16 BitLen] in *.
  - destruct (octets_of_bytes q Hl Hb) as [Hok Hq].
    assert (v4InV6Prefix ++ q = IP4_ToIP (be_val q)) as -> by (by rewrite IP4_ToIP_octets, Hq).
    rewrite IP_Mask_ToIP by lia. pose proof (FromIPNet_masked (mkIP4Net (be_val q) p)) as E.
    cbn [IP4Net_IP IP4Net_PrefixLen] in E. rewrite E by (split; [done|cbn; lia]). intros [= <-].
    destruct (IP4Net_Network_wf (mkIP4Net (be_val q) p)) as [[? ?] ?]; [split; [done|cbn; lia]|].
    split_and!; [done|cbn in *; lia..|done].
  - pose proof (CIDRMask_length 128 p (or_intror eq_refl) ltac:(lia)) as Hlm.
    pose proof (CIDRMask_bytes 128 p (or_intror eq_refl) ltac:(lia)) as Hbm.
    change (Z.to_nat (128 / 8)) with 16%nat in Hlm.
    assert (IP_Mask b (CIDRMask p 128) = zip_with Z.land b (CIDRMask p 128)) as E.
    { unfold IP_Mask. rewrite (decide_False (P := length _ = 16%nat ∧ _)) by (intros (_ & H4 & _); lia).
      rewrite (decide_False (P := length _ = 4%nat ∧ _)) by (intros (? & _); lia).
      by rewrite decide_True by congruence. }
    rewrite E in *. unfold FromIPNet. cbn [IPNet_Mask IPNet_IP]. rewrite CIDRMask_Size by (auto || lia).
    destruct (FromIP _) as [v| |] eqn:Ev; try done. intros [= <-]. cbn [IP4Net_IP IP4Net_PrefixLen].
    apply FromIP_ok in Ev; [|by apply land_bytes; [..|congruence]].
    apply mapped_prefix in Hne; [|done|done|lia]. split_and!; [done|lia..|lia].
Qed.

Lemma ParseIP_bytes s : Forall is_byte (ParseIP s).
Proof.
  unfold ParseIP. destruct (ParseAddr s) as [a|] eqn:E; [|constructor]. apply ParseAddr_wf in E.
  destruct a as [q|b], E as [_ Hb]; cbn [As16]; [|done]. apply Forall_app_2; [|done].
  repeat constructor; unfold is_byte; lia.
Qed.

Lemma ParseIP4_ok s v : ParseIP4 s = Ret v → IP4_ok v.
Proof.
  unfold ParseIP4. repeat (case_decide; [done|]). apply FromIP_ok, ParseIP_bytes.
Qed.
