(* ===== verification/Ip6.v ===== *)
(** * [pkg/ip/ip6net.go]: IPv6 addresses and networks

    An [*IP6] is a pointer to a [big.Int]: [option Z], [None] when nil, and a
    method that dereferences nil panics.  [Overlaps] and [Contains] compare the
    printed forms of the masked addresses; the theorems say when that is the
    same as comparing the addresses, and what the text and JSON forms keep. *)

From stdpp Require Import base strings list numbers.
From Stdlib Require Import ZArith Lia Ascii.
From S2P Require Import Prelude GoStrings GoNet GoNetFacts Ip4.

Local Open Scope Z_scope.

(** ** [math/big] *)

Definition deref {A} (p : option A) : outcome A :=
  match p with Some a => Ret a | None => Panic end.

(** [big.Int.Bytes]: the absolute value in base 256 without leading zeros. *)
Definition big_Bytes (v : Z) : list Z :=
  if v =? 0 then [] else be_bytes (Z.to_nat (Z.log2 (Z.abs v) / 8 + 1)) (Z.abs v).

(** [big.Int.FillBytes] on a buffer of [n] bytes. *)
Definition big_FillBytes (n : nat) (v : Z) : outcome (list Z) :=
  if Z.abs v <? 256 ^ Z.of_nat n then Ret (be_bytes n (Z.abs v)) else Panic.

(** [big.Int.Cmp]: equal pointers are not dereferenced. *)
Definition big_Cmp (x y : option Z) : outcome comparison :=
  match x, y with
  | None, None => Ret Eq
  | Some x, Some y => Ret (x ?= y)
  | _, _ => Panic
  end.

(** [big.Int.Lsh(1, s)]: a shift whose result cannot be allocated panics. *)
Definition big_Lsh1 (s : Z) : outcome Z := if s <? 2 ^ 51 then Ret (2 ^ s) else Panic.

(** [fmt.Sprintf("%s", x)] on a [Stringer]: a panic of [String] is printed. *)
Definition Sprintf_s (o : outcome string) : string :=
  match o with
  | Ret s => s
  | _ => "%!s(PANIC=String method: math/big: buffer too small to fit value)"
  end.

(** ** [IP6] *)

Abbreviation IP6 := Z.

Definition FromIP16Bytes (ip : list Z) : option IP6 := Some (be_val ip).

Definition FromIP6 (ip : IP) : outcome (option IP6) :=
  let ipv6 := To16 ip in
  if decide (ipv6 = []) then Panic else Ret (FromIP16Bytes ipv6).

Definition ParseIP6 (s : string) : outcome (option IP6) :=
  let ip := ParseIP s in
  if decide (ip = []) then Err (Errorf "invalid IP address format") else FromIP6 ip.

(** [Mask(prefixLen)]. *)
Definition Ip6_Mask (prefixLen : Z) : Z := be_val (CIDRMask prefixLen 128).

Definition IsEmpty (subnet : option IP6) : bool :=
  match subnet with None => true | Some v => v =? 0 end.

Definition GetIPv6SubnetMin (networkIP : option IP6) (subnetSize : Z) : outcome (option IP6) :=
  v ← deref networkIP; Ret (Some (v + subnetSize)).

Definition GetIPv6SubnetMax (networkIP : option IP6) (subnetSize : Z) : outcome (option IP6) :=
  v ← deref networkIP; Ret (Some (v - subnetSize)).

Definition CheckIPv6Subnet (subnetIP : option IP6) (mask : Z) : outcome bool :=
  v ← deref subnetIP; Ret (v =? Z.land v mask).

Definition MustParseIP6 (s : string) : outcome (option IP6) :=
  match ParseIP6 s with Ret ip => Ret ip | _ => Panic end.

Definition IP6_ToIP (ip6 : option IP6) : outcome IP :=
  v ← deref ip6;
  let ip := big_Bytes v in
  if decide (To4 ip = []) then big_FillBytes 16 v else Ret ip.

Definition IP6_String (ip6 : IP6) : outcome string :=
  ip ← IP6_ToIP (Some ip6); Ret (IP_String ip).

Definition IP6_MarshalJSON (ip6 : IP6) : string := quoted (Sprintf_s (IP6_String ip6)).

Definition IP6_UnmarshalJSON (j : string) : outcome (option IP6) := ParseIP6 (trim_quotes j).

Definition IP6_Cmp (ip6 other : option IP6) : outcome comparison := big_Cmp ip6 other.

Definition IP6_IsPrivate (ip6 : option IP6) : outcome bool :=
  v ← deref ip6;
  match big_Bytes v with
  | b :: _ => Ret (Z.land b 254 =? 252)
  | [] => Panic
  end.

(** ** [IP6Net] *)

Record IP6Net := mkIP6Net { IP6Net_IP : option IP6; IP6Net_PrefixLen : Z }.

#[global] Instance IP6Net_eq_dec : EqDecision IP6Net.
Proof. solve_decision. Defined.

Definition IP6_String_ptr (p : option IP6) : outcome string := v ← deref p; IP6_String v.

Definition IP6Net_String (n : IP6Net) : outcome string :=
  let ip := match IP6Net_IP n with None => Some 0 | p => p end in
  s ← IP6_String_ptr ip; Ret (s +:+ "/" +:+ fmt_uint 10 (IP6Net_PrefixLen n)).

Definition IP6Net_StringSep (n : IP6Net) (hexSep prefixSep : string) : outcome string :=
  s ← IP6_String_ptr (IP6Net_IP n); Ret (s +:+ prefixSep +:+ fmt_uint 10 (IP6Net_PrefixLen n)).

Fixpoint MapIP6ToString (nws : list IP6Net) : outcome (list string) :=
  match nws with
  | [] => Ret []
  | n :: nws => s ← IP6Net_String n; res ← MapIP6ToString nws; Ret (s :: res)
  end.

Definition IP6Net_Network (n : IP6Net) : outcome IP6Net :=
  let mask := CIDRMask (IP6Net_PrefixLen n) 128 in
  ip ← IP6_ToIP (IP6Net_IP n);
  ip ← FromIP6 (IP_Mask ip mask);
  Ret (mkIP6Net ip (IP6Net_PrefixLen n)).

Definition IP6Net_Next (n : IP6Net) : outcome IP6Net :=
  v ← deref (IP6Net_IP n);
  size ← big_Lsh1 (u64 (128 - IP6Net_PrefixLen n));
  Ret (mkIP6Net (Some (v + size)) (IP6Net_PrefixLen n)).

Definition IP6Net_IncrementIP (n : IP6Net) : outcome IP6Net :=
  v ← deref (IP6Net_IP n); Ret (mkIP6Net (Some (v + 1)) (IP6Net_PrefixLen n)).

Definition FromIP6Net (n : IPNet) : outcome IP6Net :=
  let '(prefixLen, _) := mask_Size (IPNet_Mask n) in
  ip ← FromIP6 (IPNet_IP n); Ret (mkIP6Net ip prefixLen).

Definition IP6Net_ToIPNet (n : IP6Net) : outcome IPNet :=
  ip ← IP6_ToIP (IP6Net_IP n); Ret (mkIPNet ip (CIDRMask (IP6Net_PrefixLen n) 128)).

Definition IP6Net_Mask (n : IP6Net) : Z := be_val (CIDRMask (IP6Net_PrefixLen n) 128).

Definition IP6Net_Overlaps (n other : IP6Net) : outcome bool :=
  let mask := if IP6Net_PrefixLen n <? IP6Net_PrefixLen other
              then IP6Net_Mask n else IP6Net_Mask other in
  v ← deref (IP6Net_IP n);
  s1 ← IP6_String (Z.land v mask);
  w ← deref (IP6Net_IP other);
  s2 ← IP6_String (Z.land w mask);
  Ret (bool_decide (s1 = s2)).

Definition IP6Net_Equal (n other : IP6Net) : outcome bool :=
  c ← big_Cmp (IP6Net_IP n) (IP6Net_IP other);
  Ret (bool_decide (c = Eq) && (IP6Net_PrefixLen n =? IP6Net_PrefixLen other)).

Definition IP6Net_Contains (n : IP6Net) (ip : option IP6) : outcome bool :=
  v ← deref (IP6Net_IP n);
  let network := Z.land v (IP6Net_Mask n) in
  w ← deref ip;
  let subnet := Z.land w (IP6Net_Mask n) in
  s1 ← IP6_String network;
  s2 ← IP6_String subnet;
  Ret (bool_decide (s1 = s2)).

Definition IP6Net_ContainsCIDR (n other : IP6Net) : outcome bool :=
  let ones1 := IP6Net_Mask n in
  let ones2 := IP6Net_Mask other in
  if ones1 <=? ones2 then IP6Net_Contains n (IP6Net_IP other) else Ret false.

Definition IP6Net_Empty (n : IP6Net) : bool :=
  IsEmpty (IP6Net_IP n) && (IP6Net_PrefixLen n =? 0).

Definition IP6Net_MarshalJSON (n : IP6Net) : string := quoted (Sprintf_s (IP6Net_String n)).

Definition IP6Net_UnmarshalJSON (j : string) : outcome IP6Net :=
  match ParseCIDR (trim_quotes j) with
  | None => Err (Errorf "invalid CIDR address")
  | Some (_, val) => FromIP6Net val
  end.

(** ** Well-formedness and meaning *)

Definition IP6_ok (ip : IP6) : Prop := 0 <= ip < 2 ^ 128.

(** An address whose text reads back: [Bytes] of the others has four bytes,
    which [net.IP] takes for an IPv4 address. *)
Definition IP6_plain (ip : IP6) : Prop := ip < 2 ^ 24 ∨ 2 ^ 32 <= ip.

(** The address the text of [ip] denotes. *)
Definition IP6_canon (ip : IP6) : IP6 :=
  if (2 ^ 24 <=? ip) && (ip <? 2 ^ 32) then 65535 * 2 ^ 32 + ip else ip.

(** [n] has the address [a], prefix [p] and both are in range. *)
Definition IP6Net_ok (n : IP6Net) : Prop :=
  ∃ a, IP6Net_IP n = Some a ∧ IP6_ok a ∧ 0 <= IP6Net_PrefixLen n <= 128.

Definition IP6Net_size (n : IP6Net) : Z := 2 ^ (128 - IP6Net_PrefixLen n).
Definition IP6Net_addr (n : IP6Net) (x : IP6) : Prop :=
  match IP6Net_IP n with
  | Some a => x / IP6Net_size n = a / IP6Net_size n
  | None => False
  end.

#[global] Instance IP6Net_addr_dec n x : Decision (IP6Net_addr n x).
Proof. unfold IP6Net_addr. destruct (IP6Net_IP n); apply _. Defined.

Example IP6_alias :
  IP6_String 16909060 = IP6_String (65535 * 2 ^ 32 + 16909060) ∧ IP6_String 16909060 = Ret "1.2.3.4".
Proof. by vm_compute. Qed.

(** ** The text of an address *)

Lemma big_Bytes_length v : 0 < v → ∀ k, 0 <= k →
  length (big_Bytes v) = Z.to_nat (k + 1) ↔ 256 ^ k <= v < 256 ^ (k + 1).
Proof.
  intros Hv k Hk. unfold big_Bytes. rewrite (proj2 (Z.eqb_neq v 0)), length_be_bytes by lia.
  rewrite Z.abs_eq by lia. pose proof (Z.log2_nonneg v).
  pose proof (Z.div_pos (Z.log2 v) 8).
  change 256 with (2 ^ 8). rewrite <- !Z.pow_mul_r by lia.
  rewrite Z.log2_le_pow2, Z.log2_lt_pow2 by lia.
  pose proof (Z.mod_pos_bound (Z.log2 v) 8). pose proof (Z.div_mod (Z.log2 v) 8). lia.
Qed.

Lemma To4_big_Bytes v : IP6_ok v →
  To4 (big_Bytes v) = if decide (2 ^ 24 <= v < 2 ^ 32) then be_bytes 4 v else [].
Proof.
  unfold IP6_ok. intros Hv. destruct (decide (v = 0)) as [->|]; [done|].
  assert (0 < v) as Hpos by lia. unfold To4.
  pose proof (big_Bytes_length v Hpos 3) as H4. pose proof (big_Bytes_length v Hpos 15) as H16.
  change (Z.to_nat (3 + 1)) with 4%nat in H4. change (Z.to_nat (15 + 1)) with 16%nat in H16.
  change (256 ^ 3) with (2 ^ 24) in H4. change (256 ^ (3 + 1)) with (2 ^ 32) in H4.
  change (256 ^ 15) with (2 ^ 120) in H16. change (256 ^ (15 + 1)) with (2 ^ 128) in H16.
  case_decide as Hl.
  - rewrite decide_True by (apply H4; [lia|done]).
    unfold big_Bytes in *. rewrite (proj2 (Z.eqb_neq v 0)), Z.abs_eq in * by lia.
    rewrite length_be_bytes in Hl. by rewrite Hl.
  - rewrite (decide_False (P := 2 ^ 24 <= _ < _)) by (intros ?; apply Hl, H4; lia).
    rewrite decide_False; [done|]. intros [Hl' Hpre].
    apply H16 in Hl' as Hr; [|lia]. unfold big_Bytes in *.
    rewrite (proj2 (Z.eqb_neq v 0)), Z.abs_eq in * by lia.
    rewrite length_be_bytes in Hl'. rewrite Hl' in Hpre.
    assert (be_val (be_bytes 16 v) = v) as E.
    { apply be_val_bytes_small. change (256 ^ Z.of_nat 16) with (2 ^ 128). lia. }
    rewrite <- (take_drop 12 (be_bytes 16 v)), Hpre, be_val_app in E.
    rewrite length_drop, length_be_bytes in E.
    pose proof (be_val_range (drop 12 (be_bytes 16 v))) as Hd.
    rewrite length_drop, length_be_bytes in Hd.
    change (Z.of_nat (16 - 12)) with 4 in *. change (be_val v4InV6Prefix) with 65535 in E.
    specialize (Hd (Forall_drop _ _ _ (be_bytes_byte _ _))). lia.
Qed.

(** The bytes [ToIP] hands to [net]: four or sixteen, and [To16] of them is the
    address [IP6_canon]. *)
Lemma IP6_ToIP_spec v : IP6_ok v →
  ∃ ip, IP6_ToIP (Some v) = Ret ip ∧ (length ip = 4%nat ∨ length ip = 16%nat) ∧
    Forall is_byte ip ∧ length (To16 ip) = 16%nat ∧ Forall is_byte (To16 ip) ∧
    be_val (To16 ip) = IP6_canon v ∧
    (IP6_plain v → ip = be_bytes 16 v).
Proof.
  unfold IP6_ToIP. intros Hv. change (mbind ?f (deref (Some v))) with (f v). cbv beta zeta.
  rewrite To4_big_Bytes by done. unfold IP6_canon, IP6_plain.
  destruct (decide (2 ^ 24 <= v < 2 ^ 32)) as [Hr|Hr].
  - rewrite decide_False by (intros E; apply (f_equal length) in E; done).
    assert (big_Bytes v = be_bytes 4 v) as Hb.
    { pose proof (To4_big_Bytes v Hv) as E. rewrite decide_True in E by done.
      unfold To4 in E. repeat case_decide; try done.
      apply (f_equal length) in E. rewrite length_drop, length_be_bytes in E.
      unfold big_Bytes in *. destruct (v =? 0); [done|].
      pose proof (big_Bytes_length v ltac:(lia) 3 ltac:(lia)) as [_ E'].
      change (256 ^ 3) with (2 ^ 24) in E'. change (256 ^ (3 + 1)) with (2 ^ 32) in E'.
      specialize (E' Hr). unfold big_Bytes in E'. rewrite (proj2 (Z.eqb_neq v 0)) in E' by lia. done. }
    rewrite Hb. exists (be_bytes 4 v). rewrite length_be_bytes.
    assert (To16 (be_bytes 4 v) = v4InV6Prefix ++ be_bytes 4 v) as ->.
    { unfold To16. by rewrite length_be_bytes. }
    rewrite length_app, length_be_bytes, be_val_app, length_be_bytes.
    rewrite be_val_bytes_small by (change (256 ^ Z.of_nat 4) with (2 ^ 32); lia).
    rewrite (proj2 (Z.leb_le _ _)), (proj2 (Z.ltb_lt _ _)) by lia.
    repeat split; auto using be_bytes_byte; [|intros; lia].
    apply Forall_app. split; [|apply be_bytes_byte]. repeat constructor; unfold is_byte; lia.
  - rewrite decide_True by done. unfold big_FillBytes. unfold IP6_ok in Hv.
    rewrite Z.abs_eq, (proj2 (Z.ltb_lt _ _)) by (try change (256 ^ Z.of_nat 16) with (2 ^ 128); lia).
    exists (be_bytes 16 v). rewrite length_be_bytes.
    assert (To16 (be_bytes 16 v) = be_bytes 16 v) as -> by (unfold To16; by rewrite length_be_bytes).
    rewrite length_be_bytes, be_val_bytes_small
      by (change (256 ^ Z.of_nat 16) with (2 ^ 128); lia).
    repeat split; auto using be_bytes_byte.
    destruct (Z.leb_spec (2 ^ 24) v), (Z.ltb_spec v (2 ^ 32)); simpl; try done; lia.
Qed.

Lemma IP_String_To16 ip : length ip = 4%nat ∨ length ip = 16%nat → IP_String (To16 ip) = IP_String ip.
Proof.
  intros [H|H]; unfold To16; [|by rewrite decide_False, decide_True by lia].
  rewrite decide_True by done. unfold IP_String at 2. rewrite decide_False by (intros ->; done).
  rewrite (To4_4 ip), decide_True by done.
  unfold IP_String. rewrite decide_False by done. by rewrite To4_mapped, decide_True.
Qed.

Lemma IP6_String_spec v : IP6_ok v →
  ∃ s, IP6_String v = Ret s ∧ ParseIP6 s = Ret (Some (IP6_canon v)).
Proof.
  intros Hv. destruct (IP6_ToIP_spec v Hv) as (ip & E & Hlen & Hb & Hlen' & _ & Hval & _).
  exists (IP_String ip). unfold IP6_String. rewrite E. split; [done|].
  unfold ParseIP6. rewrite ParseIP_String by done.
  assert (To16 (To16 ip) = To16 ip) as E2 by (unfold To16 at 1; by rewrite Hlen').
  rewrite decide_False by (intros E'; by rewrite E' in Hlen').
  unfold FromIP6. rewrite E2, decide_False by (intros E'; by rewrite E' in Hlen').
  unfold FromIP16Bytes. by rewrite Hval.
Qed.

Lemma IP6_String_canon v w : IP6_ok v → IP6_ok w →
  IP6_String v = IP6_String w ↔ IP6_canon v = IP6_canon w.
Proof.
  intros Hv Hw. split.
  - destruct (IP6_String_spec v Hv) as (s & E & P), (IP6_String_spec w Hw) as (t & F & Q).
    rewrite E, F. intros [= ->]. congruence.
  - destruct (IP6_ToIP_spec v Hv) as (ip & E & Hlen & _ & Hl & Hb & Hval & _).
    destruct (IP6_ToIP_spec w Hw) as (ip' & E' & Hlen' & _ & Hl' & Hb' & Hval' & _).
    intros C. unfold IP6_String. rewrite E, E'. simpl.
    rewrite <- (IP_String_To16 ip), <- (IP_String_To16 ip') by done.
    rewrite (be_val_inj (To16 ip) (To16 ip')) by (done || congruence). done.
Qed.

Lemma IP6_canon_plain v : IP6_plain v → IP6_canon v = v.
Proof.
  unfold IP6_plain, IP6_canon. intros.
  destruct (Z.leb_spec (2 ^ 24) v), (Z.ltb_spec v (2 ^ 32)); simpl; try done; lia.
Qed.

(** Printing an IPv6 address and parsing it back gives the same address,
    except for the values of exactly four significant bytes, whose text is an
    IPv4 one: those come back as the IPv4-mapped address. *)
Theorem ParseIP6_String v : IP6_ok v →
  ∃ s, IP6_String v = Ret s ∧
    ParseIP6 s = Ret (Some (if (2 ^ 24 <=? v) && (v <? 2 ^ 32) then 65535 * 2 ^ 32 + v else v)).
Proof. apply IP6_String_spec. Qed.

Lemma ParseIP6_String_witness : ∃ s, IP6_String (2 ^ 125 + 7) = Ret s ∧
  ParseIP6 s = Ret (Some (2 ^ 125 + 7)).
Proof. apply (ParseIP6_String (2 ^ 125 + 7)). split; vm_compute; done. Defined.

(** ** Networks as sets of addresses *)

Lemma IP6Net_Mask_ok n : 0 <= IP6Net_PrefixLen n <= 128 →
  IP6Net_Mask n = high_ones 128 (128 - IP6Net_PrefixLen n).
Proof. intros. apply CIDRMask_val; auto. Qed.

Lemma IP6_land_Mask n v : 0 <= IP6Net_PrefixLen n <= 128 → IP6_ok v →
  Z.land v (IP6Net_Mask n) = v / IP6Net_size n * IP6Net_size n.
Proof. intros. rewrite IP6Net_Mask_ok by done. apply land_high_ones; [lia|done]. Qed.

Lemma IP6_land_range n v : 0 <= IP6Net_PrefixLen n <= 128 → IP6_ok v →
  IP6_ok (Z.land v (IP6Net_Mask n)) ∧ Z.land v (IP6Net_Mask n) <= v.
Proof.
  intros Hn Hv. rewrite IP6Net_Mask_ok by done. unfold IP6_ok in *.
  pose proof (land_high_ones_range 128 (128 - IP6Net_PrefixLen n) v). lia.
Qed.

(** Masking never moves an address into the four-byte range. *)
Lemma IP6_land_plain n v : 0 <= IP6Net_PrefixLen n <= 128 → IP6_ok v → IP6_plain v →
  IP6_plain (Z.land v (IP6Net_Mask n)).
Proof.
  intros Hn Hv [Hp|Hp]; [left; pose proof (IP6_land_range n v Hn Hv); lia|].
  rewrite IP6_land_Mask by done. unfold IP6_plain, IP6Net_size.
  pose proof (Z.pow_pos_nonneg 2 (128 - IP6Net_PrefixLen n) ltac:(lia) ltac:(lia)) as Hs.
  destruct (decide (128 - IP6Net_PrefixLen n <= 32)).
  - right. assert (2 ^ 32 = 2 ^ (IP6Net_PrefixLen n - 96) * 2 ^ (128 - IP6Net_PrefixLen n)) as E.
    { rewrite <- Z.pow_add_r by lia. f_equal. lia. }
    assert (2 ^ (IP6Net_PrefixLen n - 96) <= v / 2 ^ (128 - IP6Net_PrefixLen n)).
    { apply Z.div_le_lower_bound; lia. } nia.
  - assert (2 ^ 32 <= 2 ^ (128 - IP6Net_PrefixLen n)) by (apply Z.pow_le_mono_r; lia).
    destruct (decide (v / 2 ^ (128 - IP6Net_PrefixLen n) = 0)) as [->|]; [left; lia|right].
    unfold IP6_ok in Hv. pose proof (Z.div_pos v (2 ^ (128 - IP6Net_PrefixLen n))). nia.
Qed.

(** Comparing the texts of masked addresses compares the blocks. *)
Lemma IP6_masked_text n v w : 0 <= IP6Net_PrefixLen n <= 128 →
  IP6_ok v → IP6_ok w → IP6_plain v → IP6_plain w →
  IP6_String (Z.land v (IP6Net_Mask n)) = IP6_String (Z.land w (IP6Net_Mask n)) ↔
  v / IP6Net_size n = w / IP6Net_size n.
Proof.
  intros Hn Hv Hw Pv Pw. rewrite IP6_String_canon by (by apply IP6_land_range).
  rewrite !IP6_canon_plain by (by apply IP6_land_plain). rewrite !IP6_land_Mask by done.
  apply same_block. lia.
Qed.

Lemma IP6_String_total v : IP6_ok v → ∃ s, IP6_String v = Ret s.
Proof. intros Hv. destruct (IP6_String_spec v Hv) as (s & ? & _). eauto. Qed.

(** Evaluate the comparison of two printed addresses. *)
Lemma IP6_String_eqb v w : IP6_ok v → IP6_ok w →
  (s1 ← IP6_String v; s2 ← IP6_String w; Ret (bool_decide (s1 = s2)) : outcome bool) =
  Ret (bool_decide (IP6_String v = IP6_String w)).
Proof.
  intros Hv Hw. destruct (IP6_String_total v Hv) as [s ->], (IP6_String_total w Hw) as [t ->].
  change (Ret (bool_decide (s = t)) = Ret (bool_decide (Ret s = Ret t))).
  f_equal. apply bool_decide_ext. split; [by intros ->|by intros [= ->]].
Qed.

Definition IP6Net_plain (n : IP6Net) : Prop := ∃ a, IP6Net_IP n = Some a ∧ IP6_plain a.

Lemma IP6Net_Contains_block n a w : IP6Net_IP n = Some a → IP6_ok a → IP6_plain a →
  0 <= IP6Net_PrefixLen n <= 128 → IP6_ok w → IP6_plain w →
  IP6Net_Contains n (Some w) = Ret (bool_decide (IP6Net_addr n w)).
Proof.
  intros E Ha Pa Hp Hw Pw. unfold IP6Net_Contains. rewrite E.
  etransitivity; [apply IP6_String_eqb; by apply IP6_land_range|].
  f_equal. apply bool_decide_ext. rewrite IP6_masked_text by done.
  unfold IP6Net_addr. rewrite E. split; congruence.
Qed.

Lemma IP6Net_size_pos n : 0 <= IP6Net_PrefixLen n <= 128 → 0 < IP6Net_size n.
Proof. intros. apply Z.pow_pos_nonneg; lia. Qed.

Lemma IP6Net_addr_nested n m x : IP6Net_ok n → IP6Net_ok m →
  IP6Net_PrefixLen n <= IP6Net_PrefixLen m → IP6Net_addr n x → IP6Net_addr m x →
  ∀ y, IP6Net_addr m y → IP6Net_addr n y.
Proof.
  intros (a & En & _ & ?) (b & Em & _ & ?) Hle. unfold IP6Net_addr, IP6Net_size. rewrite En, Em.
  intros Hn Hm y. revert Hn Hm.
  rewrite !(block_coarsen (128 - IP6Net_PrefixLen m) (128 - IP6Net_PrefixLen n)) by lia.
  by intros <- -> ->.
Qed.

Lemma IP6Net_addr_self n a : IP6Net_IP n = Some a → IP6Net_addr n a.
Proof. intros E. unfold IP6Net_addr. by rewrite E. Qed.

(** The comparison [Overlaps] makes, with the mask of the shorter prefix [p]. *)
Lemma IP6Net_Overlaps_block n m a b : IP6Net_IP n = Some a → IP6Net_IP m = Some b →
  IP6_ok a → IP6_ok b → IP6_plain a → IP6_plain b →
  0 <= IP6Net_PrefixLen n <= 128 → 0 <= IP6Net_PrefixLen m <= 128 →
  let s := 2 ^ (128 - Z.min (IP6Net_PrefixLen n) (IP6Net_PrefixLen m)) in
  IP6Net_Overlaps n m = Ret (bool_decide (a / s = b / s)).
Proof.
  intros En Em Ha Hb Pa Pb Hn Hm s. unfold IP6Net_Overlaps. rewrite En, Em.
  set (k := if IP6Net_PrefixLen n <? IP6Net_PrefixLen m then n else m).
  assert (0 <= IP6Net_PrefixLen k <= 128) by (unfold k; by destruct (Z.ltb_spec (IP6Net_PrefixLen n) (IP6Net_PrefixLen m))).
  assert (IP6Net_size k = s) as Hs.
  { unfold k, s, IP6Net_size.
    destruct (Z.ltb_spec (IP6Net_PrefixLen n) (IP6Net_PrefixLen m)); do 2 f_equal; lia. }
  replace (if IP6Net_PrefixLen n <? IP6Net_PrefixLen m then IP6Net_Mask n else IP6Net_Mask m)
    with (IP6Net_Mask k) by (unfold k; by destruct (IP6Net_PrefixLen n <? IP6Net_PrefixLen m)).
  etransitivity; [apply IP6_String_eqb; by apply IP6_land_range|].
  f_equal. apply bool_decide_ext. by rewrite IP6_masked_text, Hs by done.
Qed.

Lemma IP6Net_Overlaps_share_le n m a b : IP6Net_ok n → IP6Net_ok m →
  IP6Net_IP n = Some a → IP6Net_IP m = Some b →
  IP6Net_PrefixLen n <= IP6Net_PrefixLen m →
  a / IP6Net_size n = b / IP6Net_size n ↔ ∃ x, IP6Net_addr n x ∧ IP6Net_addr m x.
Proof.
  intros Hn Hm En Em Hle. split.
  - intros E. exists b. split; [|by apply IP6Net_addr_self]. unfold IP6Net_addr. by rewrite En.
  - intros (x & Hx & Hy).
    assert (IP6Net_addr n b) as Hb by eauto using IP6Net_addr_nested, IP6Net_addr_self.
    unfold IP6Net_addr in Hb. by rewrite En in Hb.
Qed.

(** On addresses outside the four-byte range [Overlaps] compares texts and
    still answers exactly whether the two networks share an address. *)
Theorem IP6Net_Overlaps_spec n m : IP6Net_ok n → IP6Net_ok m → IP6Net_plain n → IP6Net_plain m →
  ∃ b, IP6Net_Overlaps n m = Ret b ∧
    (b = true ↔ ∃ x, IP6Net_addr n x ∧ IP6Net_addr m x).
Proof.
  intros Hn Hm (a & En & Pa) (b & Em & Pb).
  pose proof Hn as (a' & En' & Ha & Hpn). pose proof Hm as (b' & Em' & Hb & Hpm).
  replace a' with a in * by congruence. replace b' with b in * by congruence.
  eexists. split; [by eapply (IP6Net_Overlaps_block n m)|]. rewrite bool_decide_eq_true.
  destruct (Z.min_spec (IP6Net_PrefixLen n) (IP6Net_PrefixLen m)) as [[Hle ->]|[Hle ->]].
  - apply (IP6Net_Overlaps_share_le n m a b); (done || lia).
  - pose proof (IP6Net_Overlaps_share_le m n b a Hm Hn Em En ltac:(lia)) as H.
    unfold IP6Net_size in H. split.
    + intros E. symmetry in E. apply H in E as (x & ? & ?). by exists x.
    + intros (x & ? & ?). symmetry. apply H. by exists x.
Qed.

Lemma IP6Net_Overlaps_spec_witness :
  let n := mkIP6Net (Some (2 ^ 125)) 32 in let m := mkIP6Net (Some (2 ^ 125 + 2 ^ 64)) 64 in
  ∃ b, IP6Net_Overlaps n m = Ret b ∧ (b = true ↔ ∃ x, IP6Net_addr n x ∧ IP6Net_addr m x).
Proof.
  apply IP6Net_Overlaps_spec;
    [exists (2 ^ 125)|exists (2 ^ 125 + 2 ^ 64)|exists (2 ^ 125)|exists (2 ^ 125 + 2 ^ 64)];
    (split; [done|]); unfold IP6_ok, IP6_plain; simpl; lia.
Defined.

(** Without that restriction [Overlaps] also reports networks that share no
    address: 1.2.3.4 as four bytes prints like its IPv4-mapped form. *)
Theorem IP6Net_Overlaps_alias : ∃ n m, IP6Net_ok n ∧ IP6Net_ok m ∧
  IP6Net_Overlaps n m = Ret true ∧ ∀ x, IP6Net_addr n x → IP6Net_addr m x → False.
Proof.
  exists (mkIP6Net (Some 16909060) 128), (mkIP6Net (Some (65535 * 2 ^ 32 + 16909060)) 128).
  repeat split.
  - exists 16909060. repeat split; by vm_compute.
  - eexists. split; [done|]. repeat split; by vm_compute.
  - unfold IP6Net_addr, IP6Net_size. simpl. intros x. rewrite !Z.div_1_r. lia.
Qed.
