(* ===== verification/Lease.v ===== *)
(** * [pkg/lease/lease.go]: leases and the lease watcher

    A [LeaseWatcher] turns what the subnet manager reports (a batch of events,
    or a snapshot when history was lost) into the events the backends consume.
    Its [Leases] slice is a Go slice modified in place and read by nobody else,
    so a list is its whole state.  [lease_key] is the identity [sameSubnet]
    compares; the theorems show that [Leases] stays a set under it and that a
    consumer that replays the emitted events tracks the same subnets. *)

From Stdlib Require Import ZArith Lia.
From stdpp Require Import base strings list gmap numbers.
From S2P Require Import Prelude GoStrings GoNet Ip4 Ip6.

Local Open Scope Z_scope.

(** ** Data *)

Inductive EventType := EventAdded | EventRemoved.

(** A [json.RawMessage] is its text, [None] when nil. *)
Abbreviation RawMessage := (option string).

Record LeaseAttrs := mkLeaseAttrs {
  PublicIP : IP4;
  PublicIPv6 : option IP6;
  BackendType : string;
  BackendData : RawMessage;
  BackendV6Data : RawMessage
}.

(** Times are in nanoseconds since the epoch. *)
Record Lease := mkLease {
  EnableIPv4 : bool;
  EnableIPv6 : bool;
  Subnet : IP4Net;
  IPv6Subnet : IP6Net;
  Attrs : LeaseAttrs;
  Expiration : Z;
  Asof : Z
}.

Record Event := mkEvent { Event_Type : EventType; Event_Lease : Lease }.

Record LeaseWatchResult := mkLeaseWatchResult {
  Events : list Event;
  Snapshot : list Lease;
  Cursor : option Z
}.

Record LeaseWatcher := mkLeaseWatcher {
  OwnLease : option Lease;
  Leases : list Lease
}.

#[global] Instance EventType_eq_dec : EqDecision EventType.
Proof. solve_decision. Defined.
#[global] Instance LeaseAttrs_eq_dec : EqDecision LeaseAttrs.
Proof. solve_decision. Defined.
#[global] Instance Lease_eq_dec : EqDecision Lease.
Proof. solve_decision. Defined.
#[global] Instance Event_eq_dec : EqDecision Event.
Proof. solve_decision. Defined.

(** ** Operations *)

(** [a && b] where evaluating [b] may panic. *)
Definition and_then (a : bool) (b : outcome bool) : outcome bool := if a then b else Ret false.

Definition sameSubnet (ipv4Enabled ipv6Enabled : bool) (firstLease secondLease : Lease) : outcome bool :=
  let eq4 := IP4Net_Equal (Subnet firstLease) (Subnet secondLease) in
  let eq6 := IP6Net_Equal (IPv6Subnet firstLease) (IPv6Subnet secondLease) in
  if ipv4Enabled && negb ipv6Enabled && eq4 then Ret true else
  c2 ← and_then (negb ipv4Enabled && ipv6Enabled) eq6;
  if (c2 : bool) then Ret true else
  c3 ← and_then (ipv4Enabled && ipv6Enabled && eq4) eq6;
  if (c3 : bool) then Ret true else
  if negb ipv4Enabled && negb ipv6Enabled && eq4 then Ret true else Ret false.

(** The loop [for i, l := range lw.Leases] that looks for a lease's subnet. *)
Fixpoint find_same (leases : list Lease) (x : Lease) : outcome (option nat) :=
  match leases with
  | [] => Ret None
  | l :: leases =>
      same ← sameSubnet (EnableIPv4 l) (EnableIPv6 l) l x;
      if (same : bool) then Ret (Some 0%nat)
      else i ← find_same leases x; Ret (S <$> (i : option nat))
  end.

Definition LeaseWatcher_add (lw : LeaseWatcher) (lease : Lease) : outcome (Event * LeaseWatcher) :=
  i ← find_same (Leases lw) lease;
  match i with
  | Some i => Ret (mkEvent EventAdded lease, mkLeaseWatcher (OwnLease lw) (<[i := lease]> (Leases lw)))
  | None => Ret (mkEvent EventAdded lease, mkLeaseWatcher (OwnLease lw) (Leases lw ++ [lease]))
  end.

Definition LeaseWatcher_remove (lw : LeaseWatcher) (lease : Lease) : outcome (Event * LeaseWatcher) :=
  i ← find_same (Leases lw) lease;
  match i with
  | Some i =>
      l ← deref (Leases lw !! i);
      Ret (mkEvent EventRemoved l,
           mkLeaseWatcher (OwnLease lw) (take i (Leases lw) ++ drop (S i) (Leases lw)))
  | None => Ret (mkEvent EventRemoved lease, lw)
  end.

Fixpoint Reset_loop (own : option Lease) (leases old : list Lease) : outcome (list Event * list Lease) :=
  match leases with
  | [] => Ret ([], old)
  | nl :: leases =>
      o ← deref own;
      mine ← sameSubnet (EnableIPv4 nl) (EnableIPv6 nl) o nl;
      if (mine : bool) then Reset_loop own leases old
      else
        i ← find_same old nl;
        match i with
        | Some i => Reset_loop own leases (take i old ++ drop (S i) old)
        | None =>
            '(batch, old') ← Reset_loop own leases old;
            Ret (mkEvent EventAdded nl :: batch, old')
        end
  end.

Definition LeaseWatcher_Reset (lw : LeaseWatcher) (leases : list Lease)
    : outcome (list Event * LeaseWatcher) :=
  '(batch, old) ← Reset_loop (OwnLease lw) leases (Leases lw);
  Ret (batch ++ map (mkEvent EventRemoved) old, mkLeaseWatcher (OwnLease lw) leases).

Fixpoint LeaseWatcher_Update (lw : LeaseWatcher) (events : list Event)
    : outcome (list Event * LeaseWatcher) :=
  match events with
  | [] => Ret ([], lw)
  | e :: events =>
      let l := Event_Lease e in
      o ← deref (OwnLease lw);
      mine ← sameSubnet (EnableIPv4 l) (EnableIPv6 l) o l;
      if (mine : bool) then LeaseWatcher_Update lw events
      else
        '(ev, lw) ← (match Event_Type e with
                     | EventAdded => LeaseWatcher_add lw l
                     | EventRemoved => LeaseWatcher_remove lw l
                     end);
        '(batch, lw) ← LeaseWatcher_Update lw events;
        Ret (ev :: batch, lw)
  end.

(** ** Identity of a lease *)

#[global] Instance IP4Net_countable : Countable IP4Net.
Proof.
  refine (inj_countable' (λ n, (IP4Net_IP n, IP4Net_PrefixLen n)) (λ p, mkIP4Net p.1 p.2) _).
  by intros [].
Defined.
#[global] Instance IP6Net_countable : Countable IP6Net.
Proof.
  refine (inj_countable' (λ n, (IP6Net_IP n, IP6Net_PrefixLen n)) (λ p, mkIP6Net p.1 p.2) _).
  by intros [].
Defined.

Abbreviation key := (option IP4Net * option IP6Net)%type.

(** What [sameSubnet] compares under two flags: the subnets of the enabled families,
    and the IPv4 one when no family is flagged. *)
Definition mode_key (b4 b6 : bool) (l : Lease) : key :=
  (if b4 || negb b6 then Some (Subnet l) else None, if b6 then Some (IPv6Subnet l) else None).

(** What it compares of a lease under the lease's own flags. *)
Definition lease_key (l : Lease) : key := mode_key (EnableIPv4 l) (EnableIPv6 l) l.

(** A lease of a manager that runs with the flags [b4] and [b6]. *)
Definition lease_mode (b4 b6 : bool) (l : Lease) : Prop :=
  EnableIPv4 l = b4 ∧ EnableIPv6 l = b6 ∧ (b6 = true → is_Some (IP6Net_IP (IPv6Subnet l))).

#[global] Instance lease_mode_dec b4 b6 l : Decision (lease_mode b4 b6 l).
Proof. unfold lease_mode. apply _. Defined.

(** The node's own lease, whose flags the watcher never reads (the kube manager leaves
    them unset for the dual-stack backends): where IPv6 is on it has an IPv6 subnet. *)
Definition own_mode (b6 : bool) (own : Lease) : Prop := b6 = true → is_Some (IP6Net_IP (IPv6Subnet own)).

Lemma lease_mode_own b4 b6 l : lease_mode b4 b6 l → own_mode b6 l ∧ lease_key l = mode_key b4 b6 l.
Proof. unfold lease_key. by intros (-> & -> & ?). Qed.

Lemma IP4Net_Equal_eq n m : IP4Net_Equal n m = bool_decide (n = m).
Proof.
  destruct n as [a p], m as [b q]. unfold IP4Net_Equal. cbn.
  apply eq_bool_prop_intro. rewrite bool_decide_spec, andb_True, !Is_true_true, !Z.eqb_eq.
  split; [by intros [-> ->]|by intros [= -> ->]].
Qed.

Lemma IP6Net_Equal_eq n m : is_Some (IP6Net_IP n) → is_Some (IP6Net_IP m) →
  IP6Net_Equal n m = Ret (bool_decide (n = m)).
Proof.
  destruct n as [a p], m as [b q]. unfold IP6Net_Equal. cbn. intros [x ->] [y ->].
  change (Ret (bool_decide ((x ?= y) = Eq) && (p =? q)) =
          Ret (bool_decide (mkIP6Net (Some x) p = mkIP6Net (Some y) q))).
  f_equal. apply eq_bool_prop_intro.
  rewrite andb_True, !bool_decide_spec, Is_true_true, Z.eqb_eq, Z.compare_eq_iff.
  split; [by intros [-> ->]|by intros [= -> ->]].
Qed.

(** In one mode [sameSubnet] is equality of keys and does not panic. *)
Lemma sameSubnet_key b4 b6 l m : own_mode b6 l → lease_mode b4 b6 m →
  sameSubnet b4 b6 l m = Ret (bool_decide (mode_key b4 b6 l = lease_key m)).
Proof.
  intros H3 (K1 & K2 & K3). unfold own_mode in H3. unfold sameSubnet, lease_key, mode_key.
  rewrite K1, K2, IP4Net_Equal_eq.
  destruct b4, b6; cbn [andb negb orb and_then].
  all: rewrite ?IP6Net_Equal_eq by auto.
  all: repeat case_bool_decide; simplify_eq; try done; exfalso; congruence.
Qed.

Section watcher.
Variables b4 b6 : bool.
Variable own : Lease.
Hypothesis own_v6 : own_mode b6 own.
Implicit Types (x l : Lease) (ls : list Lease) (evs : list Event) (m : gmap key Lease).

Lemma find_same_spec ls x : Forall (lease_mode b4 b6) ls → lease_mode b4 b6 x →
  find_same ls x = Ret (fst <$> list_find (λ l, lease_key l = lease_key x) ls).
Proof.
  intros Hls Hx. induction Hls as [|l ls Hl Hls IH]; [done|]. cbn [find_same].
  pose proof Hl as (-> & -> & _). destruct (lease_mode_own _ _ _ Hl) as [Hlo Ek].
  rewrite sameSubnet_key, <- Ek by done. simpl.
  destruct (decide (lease_key l = lease_key x)) as [E|E].
  - by rewrite bool_decide_true.
  - rewrite bool_decide_false by done. change (mbind ?f (Ret false)) with (f false). cbv beta iota.
    rewrite IH. by destruct (list_find _ ls) as [[]|].
Qed.

Lemma find_same_cases ls x : Forall (lease_mode b4 b6) ls → lease_mode b4 b6 x →
  (find_same ls x = Ret None ∧ lease_key x ∉ lease_key <$> ls) ∨
  (∃ i y, find_same ls x = Ret (Some i) ∧ ls !! i = Some y ∧ lease_key y = lease_key x).
Proof.
  intros Hls Hx. rewrite find_same_spec by done.
  destruct (list_find _ ls) as [[i y]|] eqn:E.
  - right. apply list_find_Some in E as (Hi & Hk & _). eauto 6.
  - left. split; [done|]. apply list_find_None in E.
    intros (y & Ey & Hy)%list_elem_of_fmap. rewrite list.Forall_forall in E. by apply (E y).
Qed.

(** ** What a consumer of the events holds *)

Definition apply_event m (e : Event) : gmap key Lease :=
  let l := Event_Lease e in
  match Event_Type e with
  | EventAdded => <[lease_key l := l]> m
  | EventRemoved => delete (lease_key l) m
  end.
Definition replay m evs : gmap key Lease := foldl apply_event m evs.

Definition lease_map ls : gmap key Lease := key_map lease_key ls.

(** The invariant of a watcher: a set of leases of its mode. *)
Definition LeaseWatcher_wf (lw : LeaseWatcher) : Prop :=
  OwnLease lw = Some own ∧ Forall (lease_mode b4 b6) (Leases lw) ∧ NoDup (lease_key <$> Leases lw).

Lemma add_spec lw x : LeaseWatcher_wf lw → lease_mode b4 b6 x →
  ∃ lw', LeaseWatcher_add lw x = Ret (mkEvent EventAdded x, lw') ∧ LeaseWatcher_wf lw' ∧
    lease_map (Leases lw') = <[lease_key x := x]> (lease_map (Leases lw)).
Proof.
  intros (Ho & Hm & Hnd) Hx. unfold LeaseWatcher_add, LeaseWatcher_wf.
  destruct (find_same_cases _ _ Hm Hx) as [[-> Hk]|(i & y & -> & Hi & Hk)].
  - eexists. split; [done|]. split; [|by apply key_map_snoc]. repeat split; [done|..].
    + by apply Forall_app_2; [|constructor].
    + cbn. rewrite fmap_app. apply list.NoDup_app. repeat split; [done| |apply NoDup_singleton].
      intros k Hk' ->%list_elem_of_singleton. done.
  - eexists. split; [done|]. split; [|by eapply key_map_replace]. repeat split; [done|..].
    + by apply list.Forall_insert.
    + cbn. by rewrite (insert_same_key _ _ _ _ y).
Qed.

Lemma remove_spec lw x : LeaseWatcher_wf lw → lease_mode b4 b6 x →
  ∃ y lw', LeaseWatcher_remove lw x = Ret (mkEvent EventRemoved y, lw') ∧ LeaseWatcher_wf lw' ∧
    lease_key y = lease_key x ∧ lease_map (Leases lw') = delete (lease_key x) (lease_map (Leases lw)).
Proof.
  intros (Ho & Hm & Hnd) Hx. unfold LeaseWatcher_remove, LeaseWatcher_wf.
  destruct (find_same_cases _ _ Hm Hx) as [[-> Hk]|(i & y & -> & Hi & Hk)].
  - exists x, lw. repeat split; try done. rewrite delete_id; [done|].
    apply not_elem_of_dom. unfold lease_map. by rewrite key_map_dom, elem_of_list_to_set.
  - exists y. cbn [mbind outcome_bind]. rewrite Hi. eexists. split; [done|]. cbn [Leases OwnLease].
    rewrite (cut_filter lease_key _ _ y) by done. repeat split; try done.
    + by apply filter_Forall.
    + by apply filter_keys_NoDup.
    + rewrite <- Hk. by apply key_map_remove.
Qed.

(** What an event says, less the attributes of its lease. *)
Definition tag (e : Event) : EventType * key := (Event_Type e, lease_key (Event_Lease e)).

Lemma Update_spec evs lw : LeaseWatcher_wf lw →
  Forall (λ e, lease_mode b4 b6 (Event_Lease e)) evs →
  ∃ batch lw', LeaseWatcher_Update lw evs = Ret (batch, lw') ∧ LeaseWatcher_wf lw' ∧
    lease_map (Leases lw') = replay (lease_map (Leases lw)) batch ∧
    tag <$> batch = filter (λ t, t.2 ≠ mode_key b4 b6 own) (tag <$> evs).
Proof.
  intros Hwf Hevs. revert lw Hwf. induction Hevs as [|e evs He Hevs IH]; intros lw Hwf.
  { exists [], lw. auto. }
  cbn [LeaseWatcher_Update]. pose proof Hwf as (Ho & _). rewrite Ho.
  change (mbind ?f (deref (Some own))) with (f own). cbv beta.
  pose proof He as (-> & -> & _). rewrite sameSubnet_key by done.
  change (mbind ?f (Ret ?b)) with (f b). cbv beta.
  rewrite fmap_cons, filter_cons. case_bool_decide as Hk.
  { rewrite decide_False by (intros H; apply H; cbn; congruence). by apply IH. }
  rewrite decide_True by (cbn; congruence). unfold tag at 2. destruct (Event_Type e) eqn:Et.
  - destruct (add_spec lw _ Hwf He) as (lw' & -> & Hwf' & Hmap).
    destruct (IH lw' Hwf') as (batch & lw'' & E & Hwf'' & Hmap' & Hown).
    cbn [mbind outcome_bind]. rewrite E. eexists _, _. split; [done|]. split; [done|].
    split; [by rewrite Hmap', Hmap|]. by rewrite fmap_cons, Hown.
  - destruct (remove_spec lw _ Hwf He) as (y & lw' & -> & Hwf' & Hy & Hmap).
    destruct (IH lw' Hwf') as (batch & lw'' & E & Hwf'' & Hmap' & Hown).
    cbn [mbind outcome_bind]. rewrite E. eexists _, _. split; [done|]. split; [done|].
    split; [rewrite Hmap', Hmap, <- Hy; done|]. rewrite fmap_cons, Hown. unfold tag at 1. by rewrite <- Hy.
Qed.

(** ** Snapshots *)

Abbreviation keys ls := (lease_key <$> ls).
Definition foreign ls : list Lease := filter (λ l, lease_key l ≠ mode_key b4 b6 own) ls.

Lemma Reset_loop_spec ls old : Forall (lease_mode b4 b6) ls → Forall (lease_mode b4 b6) old →
  NoDup (keys ls) → NoDup (keys old) →
  Reset_loop (Some own) ls old =
  Ret (mkEvent EventAdded <$> filter (λ l, lease_key l ∉ keys old) (foreign ls),
       filter (λ o, lease_key o ∉ keys (foreign ls)) old).
Proof.
  intros Hls. revert old. induction Hls as [|l ls Hl Hls IH]; intros old Hold Hnd Hndo.
  { cbn. rewrite filter_all; [done|]. apply list.Forall_true. intros x. apply not_elem_of_nil. }
  rewrite fmap_cons in Hnd. apply list.NoDup_cons in Hnd as [Hlk Hnd].
  cbn [Reset_loop]. change (mbind ?f (deref (Some own))) with (f own). cbv beta.
  pose proof Hl as (-> & -> & _). rewrite sameSubnet_key by done.
  change (mbind ?f (Ret ?b)) with (f b). cbv beta. unfold foreign. rewrite filter_cons.
  case_bool_decide as Ho.
  { rewrite decide_False by congruence. by apply IH. }
  rewrite decide_True by congruence. fold (foreign ls).
  assert (lease_key l ∉ keys (foreign ls)) as Hlf.
  { intros (z & Ez & Hz)%list_elem_of_fmap. apply list_elem_of_filter in Hz as [_ Hz].
    apply Hlk. rewrite Ez. by apply list_elem_of_fmap_2. }
  destruct (find_same_cases old l Hold Hl) as [[-> Hk]|(i & y & -> & Hi & Hk)].
  - change (mbind ?f (Ret ?b)) with (f b). cbv beta iota. rewrite IH by done.
    cbn [mbind outcome_bind]. rewrite filter_cons_True by done. f_equal. f_equal.
    apply filter_ext. intros o Ho'. rewrite fmap_cons, not_elem_of_cons.
    split; [|tauto]. intros ?. split; [|done]. intros E. apply Hk. rewrite <- E. by apply list_elem_of_fmap_2.
  - change (mbind ?f (Ret ?b)) with (f b). cbv beta iota.
    rewrite (cut_filter lease_key _ _ y) by done. rewrite Hk.
    rewrite IH by (try apply filter_Forall; try apply filter_keys_NoDup; done).
    rewrite filter_cons_False by (intros H; apply H; rewrite <- Hk; apply list_elem_of_fmap_2; by eapply list_elem_of_lookup_2).
    f_equal. f_equal.
    + f_equal. apply filter_ext. intros z Hz.
      assert (lease_key z ≠ lease_key l) by (intros E; apply Hlf; rewrite <- E; by apply list_elem_of_fmap_2).
      rewrite !list_elem_of_fmap. setoid_rewrite list_elem_of_filter. split; intros Hn (o & E & Ho'); apply Hn; exists o.
      * repeat split; [done| |done]. congruence.
      * by destruct Ho'.
    + rewrite list_filter_filter. apply filter_ext.
      intros o _. rewrite fmap_cons, not_elem_of_cons. tauto.
Qed.

Definition key_set ls : gset key := list_to_set (keys ls).

Lemma elem_of_key_set k ls : k ∈ key_set ls ↔ ∃ l, l ∈ ls ∧ lease_key l = k.
Proof.
  unfold key_set. rewrite elem_of_list_to_set, list_elem_of_fmap.
  split; intros (l & ? & ?); exists l; auto.
Qed.

Lemma elem_of_foreign l ls : l ∈ foreign ls ↔ lease_key l ≠ mode_key b4 b6 own ∧ l ∈ ls.
Proof. unfold foreign. by rewrite list_elem_of_filter. Qed.

Lemma dom_replay_added ls m : dom (replay m (mkEvent EventAdded <$> ls)) = dom m ∪ key_set ls.
Proof.
  revert m. induction ls as [|l ls IH]; intros m; [set_solver|]. cbn. rewrite IH.
  unfold apply_event. cbn. rewrite dom_insert_L. set_solver.
Qed.

Lemma dom_replay_removed ls m : dom (replay m (mkEvent EventRemoved <$> ls)) = dom m ∖ key_set ls.
Proof.
  revert m. induction ls as [|l ls IH]; intros m; [set_solver|]. cbn. rewrite IH.
  unfold apply_event. cbn. rewrite dom_delete_L. set_solver.
Qed.

(** A consumer is in step with a watcher when it holds the same foreign subnets. *)
Definition in_step m (lw : LeaseWatcher) : Prop := dom m = key_set (foreign (Leases lw)).

Lemma Reset_spec ls lw m : LeaseWatcher_wf lw → Forall (lease_mode b4 b6) ls → NoDup (keys ls) →
  in_step m lw →
  ∃ batch lw', LeaseWatcher_Reset lw ls = Ret (batch, lw') ∧ LeaseWatcher_wf lw' ∧
    Leases lw' = ls ∧ in_step (replay m batch) lw'.
Proof.
  intros (Ho & Hm & Hnd) Hls Hnds Hst. unfold LeaseWatcher_Reset.
  rewrite Ho, Reset_loop_spec by done. cbn [mbind outcome_bind]. eexists _, _. split; [done|].
  split; [done|]. split; [done|]. unfold in_step, replay in *. cbn [Leases].
  rewrite foldl_app. fold (replay m (mkEvent EventAdded <$> filter (λ l, lease_key l ∉ keys (Leases lw)) (foreign ls))).
  change (map (mkEvent EventRemoved)) with (fmap (M := list) (mkEvent EventRemoved)).
  fold (replay (replay m (mkEvent EventAdded <$> filter (λ l, lease_key l ∉ keys (Leases lw)) (foreign ls)))
          (mkEvent EventRemoved <$> filter (λ o, lease_key o ∉ keys (foreign ls)) (Leases lw))).
  rewrite dom_replay_removed, dom_replay_added, Hst. apply set_eq. intros k.
  rewrite elem_of_difference, elem_of_union, !elem_of_key_set. setoid_rewrite list_elem_of_filter.
  setoid_rewrite elem_of_foreign. setoid_rewrite list_elem_of_fmap. split.
  - intros [[(l & [Hl1 Hl2] & <-)|(l & (Hl1 & Hl2) & <-)] Hno]; [|by exists l].
    destruct (decide (lease_key l ∈ key_set (foreign ls))) as [Hin|Hin].
    + apply elem_of_key_set in Hin as (l' & Hl' & E). apply elem_of_foreign in Hl'. by exists l'.
    + exfalso. apply Hno. exists l. repeat split; [|done]. intros (y & Ey & Hy). apply Hin.
      apply elem_of_key_set. by exists y.
  - intros (l & [Hl1 Hl2] & <-). split.
    + destruct (decide (lease_key l ∈ key_set (Leases lw))) as [Hin|Hin].
      * apply elem_of_key_set in Hin as (o & Ho' & E). left. exists o. by rewrite E.
      * right. exists l. split; [split; [|done]|done]. intros (y & Ey & Hy). apply Hin.
        apply elem_of_key_set. by exists y.
    + intros (o & [Hno Ho'] & E). apply Hno. exists l. split; [done|by apply elem_of_foreign].
Qed.

(** The values agree, not only the subnets, as long as no snapshot comes. *)
Lemma lease_map_dom ls : dom (lease_map ls) = key_set ls.
Proof. apply key_map_dom. Qed.

Lemma foreign_key_set ls : key_set (foreign ls) = key_set ls ∖ {[mode_key b4 b6 own]}.
Proof.
  apply set_eq. intros k. rewrite elem_of_difference, elem_of_singleton, !elem_of_key_set.
  setoid_rewrite elem_of_foreign. naive_solver.
Qed.

(** The subnets held after a replay depend only on the tags. *)
Definition apply_tag (X : gset key) (t : EventType * key) : gset key :=
  match t.1 with EventAdded => X ∪ {[t.2]} | EventRemoved => X ∖ {[t.2]} end.

Lemma dom_replay m evs : dom (replay m evs) = foldl apply_tag (dom m) (tag <$> evs).
Proof.
  revert m. induction evs as [|e evs IH]; intros m; [done|]. cbn. rewrite IH. f_equal.
  unfold apply_event, apply_tag. cbn. destruct (Event_Type e).
  - rewrite dom_insert_L. set_solver.
  - by rewrite dom_delete_L.
Qed.

(** Events about the own subnet do not matter outside it. *)
Lemma apply_tags_own (ts : list (EventType * key)) (X Y : gset key) :
  X ∖ {[mode_key b4 b6 own]} = Y → mode_key b4 b6 own ∉ Y →
  foldl apply_tag X ts ∖ {[mode_key b4 b6 own]} =
    foldl apply_tag Y (filter (λ t, t.2 ≠ mode_key b4 b6 own) ts) ∧
  mode_key b4 b6 own ∉ foldl apply_tag Y (filter (λ t, t.2 ≠ mode_key b4 b6 own) ts).
Proof.
  revert X Y. induction ts as [|t ts IH]; intros X Y E Ho; [done|]. rewrite filter_cons.
  case_decide as Ht; cbn; apply IH; unfold apply_tag; destruct (t.1); set_solver.
Qed.

Lemma Update_in_step evs lw m : LeaseWatcher_wf lw →
  Forall (λ e, lease_mode b4 b6 (Event_Lease e)) evs → in_step m lw →
  ∃ batch lw', LeaseWatcher_Update lw evs = Ret (batch, lw') ∧ LeaseWatcher_wf lw' ∧
    in_step (replay m batch) lw' ∧
    ∀ w, dom w ∖ {[mode_key b4 b6 own]} = dom m →
      dom (replay w evs) ∖ {[mode_key b4 b6 own]} = dom (replay m batch).
Proof.
  intros Hwf Hevs Hst. destruct (Update_spec evs lw Hwf Hevs) as (batch & lw' & E & Hwf' & Hmap & Ht).
  unfold in_step in *. exists batch, lw'. split; [done|]. split; [done|].
  rewrite foreign_key_set in Hst |- *. split.
  - rewrite <- lease_map_dom, Hmap, !dom_replay, Ht, Hst, <- lease_map_dom.
    assert (filter (λ t, t.2 ≠ mode_key b4 b6 own) (tag <$> evs) =
      filter (λ t, t.2 ≠ mode_key b4 b6 own) (filter (λ t, t.2 ≠ mode_key b4 b6 own) (tag <$> evs))) as F.
    { rewrite list_filter_filter. apply filter_ext. tauto. }
    rewrite F at 1. symmetry. apply apply_tags_own; [done|set_solver].
  - intros w Hw. rewrite !dom_replay, Ht. apply apply_tags_own; [done|]. set_solver.
Qed.
End watcher.

(** ** The properties of the watcher *)

Definition plain_lease (a p : Z) (data : RawMessage) : Lease :=
  mkLease true false (mkIP4Net a p) (mkIP6Net None 0) (mkLeaseAttrs a None "vxlan" data None) 0 0.

(** C15: when all leases that are held or reported are of one address-family mode (the
    same two flags, and an IPv6 subnet where IPv6 is on), and the node's own lease has an
    IPv6 subnet where IPv6 is on, whatever its flags, as the kube manager leaves them unset:
    [Update] does not panic, keeps [Leases] a set, says nothing about the own subnet and
    reports the other events' types and subnets in order; replaying its batch on the old
    leases gives the new ones, attributes included.  Nothing is claimed for leases of
    mixed families, on which [sameSubnet] can dereference a nil IPv6 address. *)
Theorem LeaseWatcher_Update_refines b4 b6 own lw evs :
  own_mode b6 own → LeaseWatcher_wf b4 b6 own lw →
  Forall (λ e, lease_mode b4 b6 (Event_Lease e)) evs →
  ∃ batch lw', LeaseWatcher_Update lw evs = Ret (batch, lw') ∧ LeaseWatcher_wf b4 b6 own lw' ∧
    lease_map (Leases lw') = replay (lease_map (Leases lw)) batch ∧
    tag <$> batch = filter (λ t, t.2 ≠ mode_key b4 b6 own) (tag <$> evs).
Proof. intros. by apply Update_spec. Qed.

(** The own lease of a node that the kube manager runs with vxlan, its two flags unset. *)
Definition unflagged (l : Lease) : Lease :=
  mkLease false false (Subnet l) (IPv6Subnet l) (Attrs l) (Expiration l) (Asof l).

Lemma LeaseWatcher_Update_refines_witness :
  let seen := plain_lease 167772416 24 None in let own := unflagged seen in
  let a := plain_lease 167772672 24 None in let a' := plain_lease 167772672 24 (Some "{}") in
  let b := plain_lease 167772928 24 None in
  ∃ batch lw', LeaseWatcher_Update (mkLeaseWatcher (Some own) [a])
      [mkEvent EventAdded a'; mkEvent EventAdded seen; mkEvent EventRemoved b] = Ret (batch, lw') ∧
    LeaseWatcher_wf true false own lw' ∧
    lease_map (Leases lw') = replay (lease_map [a]) batch ∧
    tag <$> batch = [(EventAdded, lease_key a); (EventRemoved, lease_key b)].
Proof.
  apply (LeaseWatcher_Update_refines true false (unflagged (plain_lease 167772416 24 None))
           (mkLeaseWatcher (Some (unflagged (plain_lease 167772416 24 None))) [plain_lease 167772672 24 None])).
  - done.
  - split; [done|]. split; [repeat constructor; done|]. apply NoDup_singleton.
  - repeat constructor; done.
Defined.

(** Outside one mode [Update] can panic: an own lease without an IPv6 subnet is compared
    with a dual-stack lease of the same IPv4 subnet. *)
Lemma Update_mixed_panics own l t evs lw : OwnLease lw = Some own → EnableIPv4 l = true → EnableIPv6 l = true →
  Subnet l = Subnet own → is_Some (IP6Net_IP (IPv6Subnet l)) → IP6Net_IP (IPv6Subnet own) = None →
  LeaseWatcher_Update lw (mkEvent t l :: evs) = Panic.
Proof.
  intros Ho E4 E6 Es [x Ex] En. cbn [LeaseWatcher_Update Event_Lease]. rewrite Ho, E4, E6.
  change (mbind ?f (deref (Some own))) with (f own). cbv beta.
  unfold sameSubnet, IP6Net_Equal. rewrite Es, IP4Net_Equal_eq, bool_decide_eq_true_2 by done.
  cbn. by rewrite En, Ex.
Qed.

(** A snapshot that still holds the own lease nevertheless makes [Reset] report
    the own subnet as removed, once an earlier snapshot has put it into [Leases]. *)
Theorem LeaseWatcher_Reset_removes_own b4 b6 own lw ls : lease_mode b4 b6 own →
  LeaseWatcher_wf b4 b6 own lw → own ∈ Leases lw →
  Forall (lease_mode b4 b6) ls → NoDup (lease_key <$> ls) →
  ∃ batch lw', LeaseWatcher_Reset lw ls = Ret (batch, lw') ∧ mkEvent EventRemoved own ∈ batch.
Proof.
  intros Ho (Hown & Hm & Hnd) Hin Hls Hnds. unfold LeaseWatcher_Reset.
  rewrite Hown, (Reset_loop_spec b4 b6 own) by (try done; by apply (lease_mode_own _ _ _ Ho)). eexists _, _. split; [done|].
  apply elem_of_app. right. apply list_elem_of_fmap. exists own. split; [done|].
  apply list_elem_of_filter. split; [|done].
  intros (z & E & [Hz _]%elem_of_foreign)%list_elem_of_fmap. destruct (lease_mode_own _ _ _ Ho). congruence.
Qed.

Lemma LeaseWatcher_Reset_removes_own_witness :
  let own := plain_lease 167772416 24 None in
  ∃ batch lw', LeaseWatcher_Reset (mkLeaseWatcher (Some own) [own]) [own] = Ret (batch, lw') ∧
    mkEvent EventRemoved own ∈ batch.
Proof.
  apply (LeaseWatcher_Reset_removes_own true false).
  - by repeat split.
  - split; [done|]. split; [repeat constructor; done|]. apply NoDup_singleton.
  - apply list_elem_of_here.
  - repeat constructor; done.
  - apply NoDup_singleton.
Defined.
