(* ===== verification/Watch.v ===== *)
(** * [pkg/subnet/subnet.go]: following the leases of a manager

    [WatchLeases] and [WatchLease] read the slices a manager sends on a channel
    until it is closed and send events on.  The channel's content is the list
    of received slices, and the result the list of what is sent before the
    receiver is closed. *)

From Stdlib Require Import ZArith Lia.
From stdpp Require Import base strings list gmap numbers.
From S2P Require Import Prelude GoStrings GoNet Ip4 Ip6 Lease.

Local Open Scope Z_scope.

(** ** Operations *)

(** One watch result: the batch of events [LeaseWatcher] makes of it. *)
Definition WatchLeases_step (lw : LeaseWatcher) (wr : LeaseWatchResult)
    : outcome (list Event * LeaseWatcher) :=
  if decide (Events wr = []) then LeaseWatcher_Reset lw (Snapshot wr)
  else LeaseWatcher_Update lw (Events wr).

Fixpoint WatchLeases_loop (lw : LeaseWatcher) (results : list LeaseWatchResult)
    : outcome (list (list Event) * LeaseWatcher) :=
  match results with
  | [] => Ret ([], lw)
  | wr :: results =>
      '(batch, lw) ← WatchLeases_step lw wr;
      '(sent, lw) ← WatchLeases_loop lw results;
      Ret (if decide (batch = []) then sent else batch :: sent, lw)
  end.

Definition WatchLeases (ownLease : option Lease) (leaseWatchChan : list (list LeaseWatchResult))
    : outcome (list (list Event)) :=
  let lw := mkLeaseWatcher ownLease [] in
  '(sent, _) ← WatchLeases_loop lw (concat leaseWatchChan); Ret sent.

Definition WatchLease_step (wr : LeaseWatchResult) : list Event :=
  match Snapshot wr, Events wr with
  | l :: _, _ => [mkEvent EventAdded l]
  | [], e :: _ => [e]
  | [], [] => []
  end.

Definition WatchLease (leaseWatchChan : list (list LeaseWatchResult)) : list Event :=
  concat (map WatchLease_step (concat leaseWatchChan)).

(** ** What the manager reported *)

(** The leases in force after a watch result: a snapshot replaces what was
    known, events change it. *)
Definition report (w : gmap key Lease) (wr : LeaseWatchResult) : gmap key Lease :=
  if decide (Events wr = []) then lease_map (Snapshot wr) else replay w (Events wr).

(** A watch result of a manager in the given mode. *)
Definition result_ok (b4 b6 : bool) (wr : LeaseWatchResult) : Prop :=
  Forall (lease_mode b4 b6) (Snapshot wr) ∧ NoDup (lease_key <$> Snapshot wr) ∧
  Forall (λ e, lease_mode b4 b6 (Event_Lease e)) (Events wr).

Section watch.
Variables (b4 b6 : bool) (own : Lease).
Hypothesis own_v6 : own_mode b6 own.

Lemma WatchLeases_step_ok lw m w wr : LeaseWatcher_wf b4 b6 own lw → result_ok b4 b6 wr →
  in_step b4 b6 own m lw → dom w ∖ {[mode_key b4 b6 own]} = dom m →
  ∃ batch lw', WatchLeases_step lw wr = Ret (batch, lw') ∧ LeaseWatcher_wf b4 b6 own lw' ∧
    in_step b4 b6 own (replay m batch) lw' ∧
    dom (report w wr) ∖ {[mode_key b4 b6 own]} = dom (replay m batch).
Proof.
  intros Hwf (Hs & Hnd & He) Hst Hw. unfold WatchLeases_step, report. case_decide.
  - edestruct (Reset_spec b4 b6 own) as (batch & lw' & E & Hwf' & Hl & Hst'); try done.
    exists batch, lw'. repeat split; try done; try apply Hwf'.
    unfold in_step in Hst'. rewrite Hst', Hl. by rewrite foreign_key_set, lease_map_dom.
  - edestruct (Update_in_step b4 b6 own) as (batch & lw' & E & Hwf' & Hst' & Hd); try done.
    exists batch, lw'. repeat split; try done; try apply Hwf'. by apply Hd.
Qed.

Lemma WatchLeases_loop_ok results : Forall (result_ok b4 b6) results → ∀ lw m w,
  LeaseWatcher_wf b4 b6 own lw → in_step b4 b6 own m lw → dom w ∖ {[mode_key b4 b6 own]} = dom m →
  ∃ sent lw', WatchLeases_loop lw results = Ret (sent, lw') ∧ ([] ∉ sent) ∧
    dom (foldl report w results) ∖ {[mode_key b4 b6 own]} = dom (replay m (concat sent)).
Proof.
  induction 1 as [|wr results Hwr _ IH]; intros lw m w Hwf Hst Hw.
  { exists [], lw. repeat split; [apply not_elem_of_nil|done]. }
  destruct (WatchLeases_step_ok lw m w wr) as (batch & lw' & E & Hwf' & Hst' & Hw'); try done.
  destruct (IH lw' (replay m batch) (report w wr)) as (sent & lw'' & E' & Hne & Hd); try done.
  cbn [WatchLeases_loop]. rewrite E. cbn [mbind outcome_bind]. rewrite E'. cbn [mbind outcome_bind].
  eexists _, _. split; [done|]. cbn [foldl]. rewrite Hd. case_decide; [by subst|].
  split; [by apply not_elem_of_cons|]. cbn [concat]. unfold replay. by rewrite foldl_app.
Qed.
End watch.

(** ** Where the events come from

    Every lease in an event that is sent is one that the manager reported. *)
Section provenance.
Variable P : Lease → Prop.

Lemma Reset_loop_from own ls old evs old' : Reset_loop own ls old = Ret (evs, old') → Forall P ls → Forall P old →
  Forall (P ∘ Event_Lease) evs ∧ Forall P old'.
Proof.
  revert old evs. induction ls as [|l ls IH]; intros old evs Hr Hls Hold; [cbn in Hr; by simplify_eq|].
  apply list.Forall_cons in Hls as [Hl Hls]. cbn [Reset_loop] in Hr.
  apply bind_inv in Hr as (o & _ & Hr). apply bind_inv in Hr as ([] & _ & Hr); [by eapply IH|].
  apply bind_inv in Hr as ([i|] & _ & Hr).
  - eapply IH; [exact Hr|done|]. apply Forall_app. split; [by apply Forall_take|by apply Forall_drop].
  - apply bind_inv in Hr as ([batch old2] & E & Hr). simplify_eq. destruct (IH _ _ E Hls Hold). split; [by constructor|done].
Qed.

Lemma Update_from evs : ∀ lw batch lw', LeaseWatcher_Update lw evs = Ret (batch, lw') → Forall (P ∘ Event_Lease) evs →
  Forall P (Leases lw) → Forall (P ∘ Event_Lease) batch ∧ Forall P (Leases lw').
Proof.
  induction evs as [|e evs IH]; intros lw batch lw' Hr Hev Hlw; [cbn in Hr; by simplify_eq|].
  apply list.Forall_cons in Hev as [He Hev]. cbn [LeaseWatcher_Update] in Hr.
  apply bind_inv in Hr as (o & _ & Hr). apply bind_inv in Hr as ([] & _ & Hr); [by eapply IH|].
  apply bind_inv in Hr as ([ev lw1] & E & Hr). apply bind_inv in Hr as ([b lw2] & E2 & Hr). simplify_eq.
  assert ((P ∘ Event_Lease) ev ∧ Forall P (Leases lw1)) as [Hev1 Hlw1].
  { destruct (Event_Type e); unfold LeaseWatcher_add, LeaseWatcher_remove in E; apply bind_inv in E as ([i|] & _ & E).
    - simplify_eq. split; [done|]. by apply Forall_insert.
    - simplify_eq. split; [done|]. apply Forall_app. by repeat constructor.
    - apply bind_inv in E as (l & El & E). destruct (Leases lw !! i) as [l'|] eqn:Ei; cbn in El; simplify_eq.
      split; [cbn; by eapply Forall_lookup_1|]. apply Forall_app. split; [by apply Forall_take|by apply Forall_drop].
    - by simplify_eq. }
  destruct (IH _ _ _ E2 Hev Hlw1). split; [by constructor|done].
Qed.

Lemma WatchLeases_loop_from results : ∀ lw sent lw', WatchLeases_loop lw results = Ret (sent, lw') →
  Forall (λ wr, Forall P (Snapshot wr) ∧ Forall (P ∘ Event_Lease) (Events wr)) results → Forall P (Leases lw) →
  Forall (P ∘ Event_Lease) (concat sent).
Proof.
  induction results as [|wr results IH]; intros lw sent lw' Hr Hres Hlw; [cbn in Hr; simplify_eq; constructor|].
  apply list.Forall_cons in Hres as [[Hs He] Hres]. cbn [WatchLeases_loop] in Hr.
  apply bind_inv in Hr as ([batch lw1] & E & Hr). apply bind_inv in Hr as ([sent2 lw2] & E2 & Hr).
  assert (Forall (P ∘ Event_Lease) batch ∧ Forall P (Leases lw1)) as [Hb Hlw1].
  { clear Hr. unfold WatchLeases_step in E. case_decide; [|exact (Update_from (Events wr) lw batch lw1 E He Hlw)].
    unfold LeaseWatcher_Reset in E. apply bind_inv in E as ([b old] & E & Hr'). simplify_eq.
    destruct (Reset_loop_from _ _ _ _ _ E Hs Hlw) as [Hb Hold]. split; [|done]. apply Forall_app. split; [done|].
    by apply Forall_fmap. }
  specialize (IH _ _ _ E2 Hres Hlw1). simplify_eq. case_decide; [done|]. cbn. by apply Forall_app.
Qed.
End provenance.

(** C16: when all leases that the manager reports are of one address-family mode (the
    same two flags, an IPv6 subnet where IPv6 is on), no snapshot has a subnet twice and the
    node's own lease has an IPv6 subnet where IPv6 is on, whatever its flags: whatever mix of
    snapshots and event batches of such leases the manager sends, nothing panics, no
    batch that [WatchLeases] sends is empty, and a consumer that replays the batches holds
    exactly the subnets the manager last reported, except the node's own. *)
Theorem WatchLeases_tracks b4 b6 own chan : own_mode b6 own →
  Forall (result_ok b4 b6) (concat chan) →
  ∃ sent, WatchLeases (Some own) chan = Ret sent ∧ ([] ∉ sent) ∧
    dom (replay ∅ (concat sent)) = dom (foldl report ∅ (concat chan)) ∖ {[mode_key b4 b6 own]}.
Proof.
  intros Ho Hok.
  destruct (WatchLeases_loop_ok b4 b6 own Ho _ Hok (mkLeaseWatcher (Some own) []) ∅ ∅)
    as (sent & lw & E & Hne & Hd).
  - repeat constructor.
  - done.
  - set_solver.
  - exists sent. unfold WatchLeases. rewrite E. done.
Qed.

Lemma WatchLeases_tracks_witness :
  let seen := plain_lease 167772416 24 None in let own := unflagged seen in
  let a := plain_lease 167772672 24 None in let b := plain_lease 167772928 24 None in
  let chan := [[mkLeaseWatchResult [] [seen; a] (Some 7)];
               [mkLeaseWatchResult [mkEvent EventAdded b; mkEvent EventRemoved a] [] (Some 8)]] in
  ∃ sent, WatchLeases (Some own) chan = Ret sent ∧ ([] ∉ sent) ∧
    dom (replay ∅ (concat sent)) = dom (foldl report ∅ (concat chan)) ∖ {[mode_key true false own]}.
Proof.
  apply (WatchLeases_tracks true false); [done|].
  repeat constructor; try done; apply (bool_decide_unpack _); by vm_compute.
Defined.
