(* ===== verification/SubnetKey.v ===== *)
(** * [pkg/subnet/subnet.go]: the names of subnets in the store

    [MakeSubnetKey] prints the subnets of a lease as the last segment of an etcd
    key and [ParseSubnetKey] finds them again in a whole key with a regular
    expression that is not anchored on the left. *)

From Stdlib Require Import ZArith Lia Ascii.
From stdpp Require Import base strings list gmap numbers.
From S2P Require Import Prelude GoStrings GoRegexp GoNet GoNetFacts Ip4 Ip6.

Local Open Scope Z_scope.

(** ** Operations *)

Definition hex_class (c : ascii) : bool := is_lower_hex c || Ascii.eqb c ":".

Definition v4_regex : regex :=
  Seq Digits (Seq (Chr ".") (Seq Digits (Seq Any (Seq Digits (Seq Any Digits))))).
Definition v6_regex : regex :=
  Seq (Chr "&") (Seq (Cap 3 (Plus (Class hex_class))) (Seq (Chr "-") (Cap 4 Digits))).
Definition subnetRegex : regex :=
  Seq (Seq (Cap 1 v4_regex) (Seq (Chr "-") (Seq (Cap 2 Digits) (Opt v6_regex)))) End.

Definition ParseSubnetKey (s : string) : outcome (option (IP4Net * option IP6Net)) :=
  match find subnetRegex s with
  | None => Ret None
  | Some parts =>
      let snIp := To4 (ParseIP (group parts 1)) in
      match ParseUint (group parts 2) 10 5 with
      | None => Ret None
      | Some prefixLen =>
          if decide (snIp = []) then Ret None else
          ip ← FromIP snIp;
          let sn4 := mkIP4Net ip prefixLen in
          if decide (group parts 3 = "") then Ret (Some (sn4, None)) else
          let snIp6 := To16 (ParseIP (group parts 3)) in
          match ParseUint (group parts 4) 10 7 with
          | None => Ret None
          | Some prefixLen =>
              if decide (snIp6 = []) then Ret None else
              ip6 ← FromIP6 snIp6;
              Ret (Some (sn4, Some (mkIP6Net ip6 prefixLen)))
          end
      end
  end.

Definition MakeSubnetKey (sn : IP4Net) (sn6 : IP6Net) : outcome string :=
  if IP6Net_Empty sn6 then Ret (IP4Net_StringSep sn "." "-")
  else s6 ← IP6Net_StringSep sn6 ":" "-"; Ret (IP4Net_StringSep sn "." "-" +:+ "&" +:+ s6).

Example parse_key_1 :
  ParseSubnetKey "/coreos.com/network/subnets/10.12.13.0-24" = Ret (Some (mkIP4Net 168561920 24, None)).
Proof. by vm_compute. Qed.
Example parse_key_2 :
  ParseSubnetKey "10.12.13.0-24&fc00::-64" =
  Ret (Some (mkIP4Net 168561920 24, Some (mkIP6Net (Some (252 * 2 ^ 120)) 64))).
Proof. by vm_compute. Qed.

(** ** Finding the key *)

(** Characters that only the two unescaped dots of the expression can match. *)
Definition bad (c : ascii) : bool :=
  negb (hex_class c || Ascii.eqb c "." || Ascii.eqb c "-" || Ascii.eqb c "&").

Lemma subnetRegex_bad : consumes_bad bad 2 (Seq (Cap 1 v4_regex) (Seq (Chr "-") (Seq (Cap 2 Digits) (Opt v6_regex)))).
Proof.
  assert (∀ n, consumes_bad bad n Digits) as HD.
  { intros n. apply (bad_seq _ 0 n); [|apply bad_star|lia];
      apply bad_none; intros c; destruct c as [[][][][][][][][]]; by vm_compute. }
  assert (∀ n, consumes_bad bad n (Plus (Class hex_class))) as HX.
  { intros n. apply (bad_seq _ 0 n); [|apply bad_star|lia];
      apply bad_none; intros c; destruct c as [[][][][][][][][]]; by vm_compute. }
  assert (∀ n c, bad c = false → consumes_bad bad n (Chr c)) as HC.
  { intros n c Hc. apply bad_none. by intros a <-%Ascii.eqb_eq. }
  apply (bad_seq _ 2 0); [|apply (bad_seq _ 0 0); [by apply HC|apply (bad_seq _ 0 0)|lia]|lia].
  - apply bad_cap, (bad_seq _ 0 2); [done|apply (bad_seq _ 0 2)|lia]; [by apply HC|apply (bad_seq _ 0 2)|lia]; [done|apply (bad_seq _ 1 1)|lia];
      [by apply bad_any|apply (bad_seq _ 0 1)|lia]; [done|apply (bad_seq _ 1 0)|lia]; [by apply bad_any|done|lia].
  - by apply bad_cap.
  - apply bad_opt, (bad_seq _ 0 0); [by apply HC|apply (bad_seq _ 0 0)|lia];
      [by apply bad_cap|apply (bad_seq _ 0 0)|lia]; [by apply HC|by apply bad_cap|lia].
  - lia.
Qed.

(** A match runs to the end of the text, so it cannot start before more than two bad characters. *)
Lemma match_at_bad s : (2 < count bad s)%nat → match_at subnetRegex s = None.
Proof.
  intros Hs. unfold match_at, subnetRegex.
  destruct (rmatch _ s ∅ _) as [x|] eqn:E; [|done]. exfalso.
  change (rmatch (Seq (Cap 1 v4_regex) (Seq (Chr "-") (Seq (Cap 2 Digits) (Opt v6_regex)))) s ∅
    (λ s' caps', rmatch End s' caps' (λ s'' caps'', Some (<[0%nat := consumed s s'']> caps''))) = Some x) in E.
  apply (rmatch_consumes bad 2) in E as (u & s' & caps' & -> & Hu & E); [|apply subnetRegex_bad].
  destruct s' as [|c s']; [|done]. rewrite count_app in Hs. cbn in Hs. lia.
Qed.

Lemma find_in_path pre s : find subnetRegex (pre +:+ "/subnets/" +:+ s) = find subnetRegex s.
Proof.
  induction pre as [|c pre IH].
  - change ("" +:+ "/subnets/" +:+ s) with ("/subnets/" +:+ s). rewrite !str_app_cons.
    by cbn [find match_at].
  - rewrite str_app_cons. cbn [find]. rewrite match_at_bad; [done|]. cbn [count].
    rewrite !count_app. change (count bad "/subnets/") with 7%nat. lia.
Qed.

(** ** Reading a key back *)

Lemma digits_follow c s : is_digit c = false → starts_not is_digit (String c s).
Proof. done. Qed.

Definition dotted (a b c d : string) : string := a +:+ "." +:+ b +:+ "." +:+ c +:+ "." +:+ d.

Definition is_number (s : string) : Prop := str_all is_digit s = true ∧ s ≠ "".

(** The address part of the expression takes a dotted quad. *)
Lemma match_v4 a b c d rest caps k x : is_number a → is_number b → is_number c → is_number d →
  starts_not is_digit rest → k rest caps = Some x →
  rmatch v4_regex (dotted a b c d +:+ rest) caps k = Some x.
Proof.
  intros [Ha Ha'] [Hb Hb'] [Hc Hc'] [Hd Hd'] Hr Hk. unfold dotted. rewrite !str_app_assoc.
  apply rmatch_plus_run; [done..|]. cbn [rmatch Chr].
  change ("." +:+ b +:+ ?t) with (String "." (b +:+ t)). cbn [Ascii.eqb Bool.eqb].
  apply rmatch_plus_run; [done..|]. cbn [rmatch Any].
  change ("." +:+ c +:+ ?t) with (String "." (c +:+ t)). cbv iota beta.
  apply rmatch_plus_run; [done..|].
  change ("." +:+ d +:+ ?t) with (String "." (d +:+ t)). cbn [rmatch Any].
  apply rmatch_plus_run; done.
Qed.

Lemma starts_not_dash s : starts_not is_digit ("-" +:+ s).
Proof. done. Qed.

(** The groups of a matched key. *)
Definition key_groups (caps : captures) (g1 g2 g3 g4 : string) : Prop :=
  group caps 1 = g1 ∧ group caps 2 = g2 ∧ group caps 3 = g3 ∧ group caps 4 = g4.

Lemma find_key4 a b c d p : is_number a → is_number b → is_number c → is_number d → is_number p →
  ∃ caps, find subnetRegex (dotted a b c d +:+ "-" +:+ p) = Some caps ∧
    key_groups caps (dotted a b c d) p "" "".
Proof.
  intros Ha Hb Hc Hd [Hp Hp'].
  assert (dotted a b c d +:+ "-" +:+ p = dotted a b c d +:+ "-" +:+ p +:+ "") as ->
    by (by rewrite (str_app_nil_r p)).
  eexists. split.
  - apply find_here, match_v4; [done..|apply starts_not_dash|].
    change ("-" +:+ ?t) with (String "-" t). cbn [rmatch Chr]. cbn [Ascii.eqb Bool.eqb].
    apply rmatch_plus_run; [done..|]. by cbn.
  - unfold key_groups, group. change (String "-" ?t) with ("-" +:+ t). rewrite !consumed_app.
    repeat split; by simplify_map_eq.
Qed.

Lemma find_key6 a b c d p h q : is_number a → is_number b → is_number c → is_number d → is_number p →
  str_all hex_class h = true → h ≠ "" → is_number q →
  ∃ caps, find subnetRegex (dotted a b c d +:+ "-" +:+ p +:+ "&" +:+ h +:+ "-" +:+ q) = Some caps ∧
    key_groups caps (dotted a b c d) p h q.
Proof.
  intros Ha Hb Hc Hd [Hp Hp'] Hh Hh' [Hq Hq'].
  assert (q = q +:+ "") as -> by (by rewrite (str_app_nil_r q)).
  eexists. split.
  - apply find_here, match_v4; [done..|apply starts_not_dash|].
    change ("-" +:+ p +:+ ?t) with (String "-" (p +:+ t)). cbn [rmatch Chr]. cbn [Ascii.eqb Bool.eqb].
    apply rmatch_plus_run; [done..|]. cbn [rmatch]. unfold v6_regex. cbn [rmatch Chr].
    change ("&" +:+ h +:+ ?t) with (String "&" (h +:+ t)). cbn [Ascii.eqb Bool.eqb].
    erewrite rmatch_plus_run; [done|done..|].
    change ("-" +:+ q +:+ ?t) with (String "-" (q +:+ t)). cbn [Ascii.eqb Bool.eqb].
    apply rmatch_plus_run; [done..|]. by cbn.
  - unfold key_groups, group. change (String "-" ?t) with ("-" +:+ t).
    change (String "&" ?t) with ("&" +:+ t). rewrite !consumed_app, ?str_app_nil_r.
    repeat split; by simplify_map_eq.
Qed.

Lemma fmt_number n : 0 <= n → is_number (fmt_uint 10 n).
Proof. intros. split; [by apply fmt_dec_digits|apply fmt_uint_nonempty]. Qed.

Lemma IP4_StringSep_dotted ip : IP4_ok ip →
  ∃ a b c d, is_number a ∧ is_number b ∧ is_number c ∧ is_number d ∧
    IP4_StringSep ip "." = dotted a b c d ∧ IP4_String ip = dotted a b c d.
Proof.
  intros Hip. pose proof (octet_list_bytes ip Hip) as Hb. pose proof (To4_ToIP ip) as H4.
  unfold IP4_StringSep, IP4_String, octet_list in *. destruct (IP4_Octets ip) as [[[a b] c] d].
  decompose_Forall_hyps. unfold is_byte in *.
  exists (fmt_uint 10 a), (fmt_uint 10 b), (fmt_uint 10 c), (fmt_uint 10 d).
  repeat split; try apply fmt_dec_digits; try apply fmt_uint_nonempty; try lia.
  unfold IP_String. rewrite decide_False.
  - by rewrite H4, decide_True.
  - intros E. pose proof (length_ToIP ip) as L. by rewrite E in L.
Qed.

(** A colon-hexadecimal text: not the four-byte and not the IPv4-mapped ones. *)
Definition IP6_hex (v : IP6) : Prop := IP6_plain v ∧ (v < 65535 * 2 ^ 32 ∨ 65536 * 2 ^ 32 <= v).

Lemma IP6_hex_unmapped v : IP6_ok v → IP6_hex v → take 12 (be_bytes 16 v) ≠ v4InV6Prefix.
Proof.
  intros Hv [_ Hm] Ht. assert (be_val (be_bytes 16 v) = v) as Ev.
  { apply be_val_bytes_small. change (256 ^ Z.of_nat 16) with (2 ^ 128). done. }
  rewrite <- (take_drop 12 (be_bytes 16 v)), Ht, be_val_app in Ev.
  pose proof (be_val_range (drop 12 (be_bytes 16 v)) (Forall_drop _ _ _ (be_bytes_byte _ _))) as Hd.
  rewrite length_drop, length_be_bytes in Ev, Hd. change (256 ^ Z.of_nat (16 - 12)) with (2 ^ 32) in *.
  change (be_val v4InV6Prefix) with 65535 in Ev. lia.
Qed.

Lemma IP6_hex_text v : IP6_ok v → IP6_hex v →
  ∃ s, IP6_String v = Ret s ∧ str_all hex_class s = true ∧ s ≠ "" ∧ To16 (ParseIP s) = be_bytes 16 v.
Proof.
  intros Hv [Hp Hm]. destruct (IP6_ToIP_spec v Hv) as (ip & E & Hlen & Hb & Hl16 & _ & _ & Hip).
  rewrite Hip in E, Hb by done. exists (IP_String (be_bytes 16 v)). unfold IP6_String. rewrite E.
  assert (To16 (be_bytes 16 v) = be_bytes 16 v) as E16 by (unfold To16; by rewrite length_be_bytes).
  assert (str_all hex_class (IP_String (be_bytes 16 v)) = true ∧ IP_String (be_bytes 16 v) ≠ "") as [??].
  { unfold IP_String. rewrite decide_False by (intros F; apply (f_equal length) in F; done).
    rewrite To4_16; [|by rewrite length_be_bytes|].
    - rewrite decide_False, decide_True by (done || by rewrite length_be_bytes).
      destruct (groups_ungroup 8 (be_bytes 16 v)) as (_ & Hg & Hn);
        [by rewrite length_be_bytes|apply be_bytes_byte|]. split; [by apply ip6_string_chars|].
      pose proof (ip6_string_colon _ Hn) as Hc. intros F. rewrite F in Hc. cbn in Hc. lia.
    - by apply IP6_hex_unmapped. }
  split_and!; try done. rewrite ParseIP_String by (auto; right; apply length_be_bytes). by rewrite !E16.
Qed.

(** The subnet parsed back: of [sn6] only what [MakeSubnetKey] prints. *)
Definition key_subnet6 (sn6 : IP6Net) : option IP6Net :=
  if IP6Net_Empty sn6 then None else Some sn6.

Definition key_ok (sn : IP4Net) (sn6 : IP6Net) : Prop :=
  IP4Net_ok sn ∧ IP4Net_PrefixLen sn < 32 ∧
  (IP6Net_Empty sn6 = false →
   ∃ v, IP6Net_IP sn6 = Some v ∧ IP6_ok v ∧ IP6_hex v ∧ 0 <= IP6Net_PrefixLen sn6 < 128).

Lemma ParseIP4_group ip : IP4_ok ip →
  To4 (ParseIP (IP4_String ip)) ≠ [] ∧ FromIP (To4 (ParseIP (IP4_String ip))) = Ret ip.
Proof.
  intros Hip. rewrite ParseIP_IP4_String, To4_ToIP by done.
  pose proof (length_octet_list ip) as L. split; [by intros F; rewrite F in L|].
  assert (To4 (octet_list ip) = octet_list ip) as E by (by apply To4_4).
  rewrite FromIP_val; rewrite E; [|done|by apply octet_list_bytes].
  by rewrite octet_list_be, be_val_bytes_small.
Qed.

Lemma IP6Net_StringSep_eq n v h hs ps : IP6Net_IP n = Some v → IP6_String v = Ret h →
  IP6Net_StringSep n hs ps = Ret (h +:+ ps +:+ fmt_uint 10 (IP6Net_PrefixLen n)).
Proof.
  intros Ev Eh. unfold IP6Net_StringSep, IP6_String_ptr. rewrite Ev.
  change (mbind ?f (deref (Some v))) with (f v). cbv beta. by rewrite Eh.
Qed.

(** What [ParseSubnetKey] makes of a text, by where the expression finds its groups. *)
Lemma parse_of_find s sn sn6 : key_ok sn sn6 → ∀ k, MakeSubnetKey sn sn6 = Ret k →
  find subnetRegex s = find subnetRegex k → ParseSubnetKey s = Ret (Some (sn, key_subnet6 sn6)).
Proof.
  intros ([Hip Hp] & Hlt & H6) k Hk Hf. unfold ParseSubnetKey, key_subnet6. rewrite Hf. clear Hf s.
  destruct (IP4_StringSep_dotted _ Hip) as (a & b & c & d & Ha & Hb & Hc & Hd & E1 & E2).
  destruct (ParseIP4_group _ Hip) as [Hne Hfrom]. rewrite E2 in Hne, Hfrom.
  pose proof (ParseUint_fmt 10 5 (IP4Net_PrefixLen sn) ltac:(lia) ltac:(lia)) as Hpl.
  unfold MakeSubnetKey, IP4Net_StringSep in Hk. rewrite E1 in Hk.
  destruct (IP6Net_Empty sn6) eqn:Ee; [|destruct (H6 eq_refl) as (v & Ev & Hv & Hx & Hq)].
  - simplify_eq. destruct (find_key4 a b c d (fmt_uint 10 (IP4Net_PrefixLen sn)))
      as (caps & -> & -> & -> & -> & ->); auto; try (apply fmt_number; lia).
    rewrite Hpl, decide_False, Hfrom by done. by destruct sn.
  - destruct (IP6_hex_text v Hv Hx) as (h & Eh & Hh & Hh' & Eparse).
    rewrite (IP6Net_StringSep_eq _ _ _ _ _ Ev Eh) in Hk. injection Hk as <-.
    rewrite !str_app_assoc.
    destruct (find_key6 a b c d (fmt_uint 10 (IP4Net_PrefixLen sn)) h (fmt_uint 10 (IP6Net_PrefixLen sn6)))
      as (caps & -> & -> & -> & -> & ->); auto; try (apply fmt_number; lia).
    rewrite Hpl, decide_False, Hfrom, bind_Ret, decide_False by done.
    rewrite ParseUint_fmt, Eparse by lia.
    rewrite decide_False by (intros F; apply (f_equal length) in F; done).
    unfold FromIP6. assert (To16 (be_bytes 16 v) = be_bytes 16 v) as -> by (unfold To16; by rewrite length_be_bytes).
    rewrite decide_False by (intros F; apply (f_equal length) in F; done).
    rewrite bind_Ret. unfold FromIP16Bytes. rewrite be_val_bytes_small by (change (256 ^ Z.of_nat 16) with (2 ^ 128); done).
    destruct sn, sn6. cbn in *. by subst.
Qed.

(** C38: a subnet key read back from the store, alone or at the end of any path
    of the registry, names the subnets it was made from: for IPv4 prefixes below
    32 and, in dual stack, IPv6 prefixes below 128 of addresses printed in
    colon-hexadecimal form. *)
Theorem ParseSubnetKey_MakeSubnetKey sn sn6 prefix : key_ok sn sn6 →
  ∃ k, MakeSubnetKey sn sn6 = Ret k ∧
    ParseSubnetKey k = Ret (Some (sn, key_subnet6 sn6)) ∧
    ParseSubnetKey (prefix +:+ "/subnets/" +:+ k) = Ret (Some (sn, key_subnet6 sn6)).
Proof.
  intros Hok. assert (∃ k, MakeSubnetKey sn sn6 = Ret k) as [k Hk].
  { unfold MakeSubnetKey. destruct (IP6Net_Empty sn6) eqn:E; [eauto|].
    destruct Hok as (_ & _ & H6). destruct (H6 E) as (v & Ev & Hv & Hx & _).
    destruct (IP6_hex_text v Hv Hx) as (h & Eh & _). 
    rewrite (IP6Net_StringSep_eq _ _ _ _ _ Ev Eh). eauto. }
  exists k. split_and!; [done|..]; apply (parse_of_find _ _ _ Hok k Hk); [done|].
  apply find_in_path.
Qed.

Lemma ParseSubnetKey_MakeSubnetKey_witness :
  let sn := mkIP4Net 168561920 24 in let sn6 := mkIP6Net (Some (252 * 2 ^ 120)) 64 in
  ∃ k, MakeSubnetKey sn sn6 = Ret k ∧ ParseSubnetKey k = Ret (Some (sn, Some sn6)) ∧
    ParseSubnetKey ("/coreos.com/network" +:+ "/subnets/" +:+ k) = Ret (Some (sn, Some sn6)).
Proof.
  apply (ParseSubnetKey_MakeSubnetKey (mkIP4Net 168561920 24) (mkIP6Net (Some (252 * 2 ^ 120)) 64)).
  split_and!; [repeat split; simpl; lia|simpl; lia|]. intros _. exists (252 * 2 ^ 120).
  unfold IP6_ok, IP6_hex, IP6_plain. simpl. repeat split; lia.
Defined.

(** The key of a single-address IPv4 subnet is not recognised: its prefix
    length 32 does not fit the five bits [ParseSubnetKey] allows. *)
Theorem ParseSubnetKey_host_subnet ip : IP4_ok ip →
  ∃ k, MakeSubnetKey (mkIP4Net ip 32) (mkIP6Net None 0) = Ret k ∧ ParseSubnetKey k = Ret None.
Proof.
  intros Hip. eexists. split; [done|]. unfold IP4Net_StringSep. cbn [IP4Net_IP IP4Net_PrefixLen].
  destruct (IP4_StringSep_dotted _ Hip) as (a & b & c & d & Ha & Hb & Hc & Hd & -> & _).
  destruct (find_key4 a b c d (fmt_uint 10 32)) as (caps & E & _ & E2 & _); auto.
  { apply fmt_number. lia. }
  unfold ParseSubnetKey. rewrite E, E2. by rewrite ParseUint_fmt_big by lia.
Qed.

Lemma ParseSubnetKey_host_subnet_witness :
  ∃ k, MakeSubnetKey (mkIP4Net 168561920 32) (mkIP6Net None 0) = Ret k ∧ ParseSubnetKey k = Ret None.
Proof. apply ParseSubnetKey_host_subnet. split; vm_compute; done. Defined.
