(* ===== verification/Config.v ===== *)
(** * [pkg/subnet/config.go]: the network configuration

    [CheckNetworkConfig] validates a configuration and fills in the defaults
    in place: it is a call on a [Config] store, which keeps what was already
    written when a later check fails. *)

From Stdlib Require Import ZArith Lia.
From stdpp Require Import base strings list numbers.
From S2P Require Import Prelude GoStrings GoJson GoNet GoNetFacts Ip4 Ip6.

Local Open Scope Z_scope.

(** ** Data *)

Record Config := mkConfig {
  cfg_EnableIPv4 : bool;
  cfg_EnableIPv6 : bool;
  cfg_EnableNFTables : bool;
  cfg_Network : IP4Net;
  cfg_IPv6Network : IP6Net;
  cfg_SubnetMin : IP4;
  cfg_SubnetMax : IP4;
  cfg_IPv6SubnetMin : option IP6;
  cfg_IPv6SubnetMax : option IP6;
  cfg_SubnetLen : Z;
  cfg_IPv6SubnetLen : Z;
  cfg_BackendType : string;
  cfg_Backend : string
}.

#[global] Instance Config_eq_dec : EqDecision Config.
Proof. solve_decision. Defined.

Definition set_SubnetLen (v : Z) (c : Config) : Config :=
  mkConfig (cfg_EnableIPv4 c) (cfg_EnableIPv6 c) (cfg_EnableNFTables c) (cfg_Network c)
    (cfg_IPv6Network c) (cfg_SubnetMin c) (cfg_SubnetMax c) (cfg_IPv6SubnetMin c)
    (cfg_IPv6SubnetMax c) v (cfg_IPv6SubnetLen c) (cfg_BackendType c) (cfg_Backend c).
Definition set_SubnetMin (v : IP4) (c : Config) : Config :=
  mkConfig (cfg_EnableIPv4 c) (cfg_EnableIPv6 c) (cfg_EnableNFTables c) (cfg_Network c)
    (cfg_IPv6Network c) v (cfg_SubnetMax c) (cfg_IPv6SubnetMin c)
    (cfg_IPv6SubnetMax c) (cfg_SubnetLen c) (cfg_IPv6SubnetLen c) (cfg_BackendType c) (cfg_Backend c).
Definition set_SubnetMax (v : IP4) (c : Config) : Config :=
  mkConfig (cfg_EnableIPv4 c) (cfg_EnableIPv6 c) (cfg_EnableNFTables c) (cfg_Network c)
    (cfg_IPv6Network c) (cfg_SubnetMin c) v (cfg_IPv6SubnetMin c)
    (cfg_IPv6SubnetMax c) (cfg_SubnetLen c) (cfg_IPv6SubnetLen c) (cfg_BackendType c) (cfg_Backend c).
Definition set_IPv6SubnetLen (v : Z) (c : Config) : Config :=
  mkConfig (cfg_EnableIPv4 c) (cfg_EnableIPv6 c) (cfg_EnableNFTables c) (cfg_Network c)
    (cfg_IPv6Network c) (cfg_SubnetMin c) (cfg_SubnetMax c) (cfg_IPv6SubnetMin c)
    (cfg_IPv6SubnetMax c) (cfg_SubnetLen c) v (cfg_BackendType c) (cfg_Backend c).
Definition set_IPv6SubnetMin (v : option IP6) (c : Config) : Config :=
  mkConfig (cfg_EnableIPv4 c) (cfg_EnableIPv6 c) (cfg_EnableNFTables c) (cfg_Network c)
    (cfg_IPv6Network c) (cfg_SubnetMin c) (cfg_SubnetMax c) v
    (cfg_IPv6SubnetMax c) (cfg_SubnetLen c) (cfg_IPv6SubnetLen c) (cfg_BackendType c) (cfg_Backend c).
Definition set_IPv6SubnetMax (v : option IP6) (c : Config) : Config :=
  mkConfig (cfg_EnableIPv4 c) (cfg_EnableIPv6 c) (cfg_EnableNFTables c) (cfg_Network c)
    (cfg_IPv6Network c) (cfg_SubnetMin c) (cfg_SubnetMax c) (cfg_IPv6SubnetMin c)
    v (cfg_SubnetLen c) (cfg_IPv6SubnetLen c) (cfg_BackendType c) (cfg_Backend c).

Definition set_EnableIPv4 (v : bool) (c : Config) : Config :=
  mkConfig v (cfg_EnableIPv6 c) (cfg_EnableNFTables c) (cfg_Network c)
    (cfg_IPv6Network c) (cfg_SubnetMin c) (cfg_SubnetMax c) (cfg_IPv6SubnetMin c)
    (cfg_IPv6SubnetMax c) (cfg_SubnetLen c) (cfg_IPv6SubnetLen c) (cfg_BackendType c) (cfg_Backend c).
Definition set_EnableIPv6 (v : bool) (c : Config) : Config :=
  mkConfig (cfg_EnableIPv4 c) v (cfg_EnableNFTables c) (cfg_Network c)
    (cfg_IPv6Network c) (cfg_SubnetMin c) (cfg_SubnetMax c) (cfg_IPv6SubnetMin c)
    (cfg_IPv6SubnetMax c) (cfg_SubnetLen c) (cfg_IPv6SubnetLen c) (cfg_BackendType c) (cfg_Backend c).
Definition set_EnableNFTables (v : bool) (c : Config) : Config :=
  mkConfig (cfg_EnableIPv4 c) (cfg_EnableIPv6 c) v (cfg_Network c)
    (cfg_IPv6Network c) (cfg_SubnetMin c) (cfg_SubnetMax c) (cfg_IPv6SubnetMin c)
    (cfg_IPv6SubnetMax c) (cfg_SubnetLen c) (cfg_IPv6SubnetLen c) (cfg_BackendType c) (cfg_Backend c).
Definition set_Network (v : IP4Net) (c : Config) : Config :=
  mkConfig (cfg_EnableIPv4 c) (cfg_EnableIPv6 c) (cfg_EnableNFTables c) v
    (cfg_IPv6Network c) (cfg_SubnetMin c) (cfg_SubnetMax c) (cfg_IPv6SubnetMin c)
    (cfg_IPv6SubnetMax c) (cfg_SubnetLen c) (cfg_IPv6SubnetLen c) (cfg_BackendType c) (cfg_Backend c).
Definition set_IPv6Network (v : IP6Net) (c : Config) : Config :=
  mkConfig (cfg_EnableIPv4 c) (cfg_EnableIPv6 c) (cfg_EnableNFTables c) (cfg_Network c)
    v (cfg_SubnetMin c) (cfg_SubnetMax c) (cfg_IPv6SubnetMin c)
    (cfg_IPv6SubnetMax c) (cfg_SubnetLen c) (cfg_IPv6SubnetLen c) (cfg_BackendType c) (cfg_Backend c).
Definition set_BackendType (v : string) (c : Config) : Config :=
  mkConfig (cfg_EnableIPv4 c) (cfg_EnableIPv6 c) (cfg_EnableNFTables c) (cfg_Network c)
    (cfg_IPv6Network c) (cfg_SubnetMin c) (cfg_SubnetMax c) (cfg_IPv6SubnetMin c)
    (cfg_IPv6SubnetMax c) (cfg_SubnetLen c) (cfg_IPv6SubnetLen c) v (cfg_Backend c).
Definition set_Backend (v : string) (c : Config) : Config :=
  mkConfig (cfg_EnableIPv4 c) (cfg_EnableIPv6 c) (cfg_EnableNFTables c) (cfg_Network c)
    (cfg_IPv6Network c) (cfg_SubnetMin c) (cfg_SubnetMax c) (cfg_IPv6SubnetMin c)
    (cfg_IPv6SubnetMax c) (cfg_SubnetLen c) (cfg_IPv6SubnetLen c) (cfg_BackendType c) v.

(** ** [ParseConfig] *)

(** A pointer with an [UnmarshalJSON] method: null makes it nil. *)
Definition decode_IP6_ptr (raw : string) (v : json) : outcome (option IP6) :=
  match v with JNull => Ret None | _ => IP6_UnmarshalJSON raw end.

(** One member of the configuration object. *)
Definition Config_field (c : Config) (key raw : string) (v : json) : outcome Config :=
  if field_name "EnableIPv4" key then b ← decode_bool (cfg_EnableIPv4 c) v; Ret (set_EnableIPv4 b c)
  else if field_name "EnableIPv6" key then b ← decode_bool (cfg_EnableIPv6 c) v; Ret (set_EnableIPv6 b c)
  else if field_name "EnableNFTables" key then
    b ← decode_bool (cfg_EnableNFTables c) v; Ret (set_EnableNFTables b c)
  else if field_name "Network" key then n ← IP4Net_UnmarshalJSON raw; Ret (set_Network n c)
  else if field_name "IPv6Network" key then n ← IP6Net_UnmarshalJSON raw; Ret (set_IPv6Network n c)
  else if field_name "SubnetMin" key then a ← IP4_UnmarshalJSON raw; Ret (set_SubnetMin a c)
  else if field_name "SubnetMax" key then a ← IP4_UnmarshalJSON raw; Ret (set_SubnetMax a c)
  else if field_name "IPv6SubnetMin" key then a ← decode_IP6_ptr raw v; Ret (set_IPv6SubnetMin a c)
  else if field_name "IPv6SubnetMax" key then a ← decode_IP6_ptr raw v; Ret (set_IPv6SubnetMax a c)
  else if field_name "SubnetLen" key then n ← decode_uint 64 (cfg_SubnetLen c) v; Ret (set_SubnetLen n c)
  else if field_name "IPv6SubnetLen" key then
    n ← decode_uint 64 (cfg_IPv6SubnetLen c) v; Ret (set_IPv6SubnetLen n c)
  else if field_name "Backend" key then Ret (set_Backend raw c)
  else Ret c.

Definition backend_type_field (t : string) (key raw : string) (v : json) : outcome string :=
  if field_name "Type" key then decode_string t v else Ret t.

Definition parseBackendType (be : string) : outcome string :=
  if decide (be = "") then Ret "udp"
  else match Unmarshal_struct backend_type_field be "" with
       | Err e => Err (Wrapf "error decoding Backend property of config: %v" e)
       | r => r
       end.

Definition zero_config : Config :=
  mkConfig false false false (mkIP4Net 0 0) (mkIP6Net None 0) 0 0 None None 0 0 "" "".

Definition ParseConfig (s : string) : outcome Config :=
  let cfg := set_EnableIPv4 true zero_config in
  cfg ← Unmarshal_struct Config_field s cfg;
  bt ← parseBackendType (cfg_Backend cfg);
  Ret (set_BackendType bt cfg).

(** ** [CheckNetworkConfig] *)

(** The IPv4 subnet length: checked when given, chosen when zero. *)
Definition check_SubnetLen : M Config unit :=
  config ← get;
  if 0 <? cfg_SubnetLen config then
    check (30 <? cfg_SubnetLen config) (Errorf "SubnetLen must be less than /31");;
    check (cfg_SubnetLen config <? u64 (IP4Net_PrefixLen (cfg_Network config) + 2))
      (Errorf "network must be able to accommodate at least four subnets")
  else if 28 <? IP4Net_PrefixLen (cfg_Network config) then
    throw (Errorf "network is too small. Minimum useful network prefix is /28")
  else if IP4Net_PrefixLen (cfg_Network config) <=? 22 then modify (set_SubnetLen 24)
  else modify (set_SubnetLen (u64 (IP4Net_PrefixLen (cfg_Network config) + 2))).

Definition check_SubnetMin (subnetSize : Z) : M Config unit :=
  config ← get;
  if cfg_SubnetMin config =? 0
  then modify (set_SubnetMin (u32 (IP4Net_IP (cfg_Network config) + subnetSize)))
  else check (negb (IP4Net_Contains (cfg_Network config) (cfg_SubnetMin config)))
         (Errorf "SubnetMin is not in the range of the Network").

Definition check_SubnetMax (subnetSize : Z) : M Config unit :=
  config ← get;
  if cfg_SubnetMax config =? 0
  then modify (set_SubnetMax (u32 (IP4Net_IP (IP4Net_Next (cfg_Network config)) - subnetSize)))
  else check (negb (IP4Net_Contains (cfg_Network config) (cfg_SubnetMax config)))
         (Errorf "SubnetMax is not in the range of the Network").

Definition check_ipv4 : M Config unit :=
  config ← get;
  check (IP4Net_Empty (cfg_Network config))
    (Errorf "please define a correct Network parameter in the flannel config");;
  check_SubnetLen;;
  config ← get;
  let subnetSize := shl 32 1 (u64 (32 - cfg_SubnetLen config)) in
  check_SubnetMin subnetSize;;
  check_SubnetMax subnetSize;;
  config ← get;
  let mask := shl 32 4294967295 (u64 (32 - cfg_SubnetLen config)) in
  check (negb (cfg_SubnetMin config =? Z.land (cfg_SubnetMin config) mask))
    (Errorf "SubnetMin is not on a SubnetLen boundary: %v");;
  check (negb (cfg_SubnetMax config =? Z.land (cfg_SubnetMax config) mask))
    (Errorf "SubnetMax is not on a SubnetLen boundary: %v").

Definition check_IPv6SubnetLen : M Config unit :=
  config ← get;
  let p := IP6Net_PrefixLen (cfg_IPv6Network config) in
  if 0 <? cfg_IPv6SubnetLen config then
    check (126 <? cfg_IPv6SubnetLen config) (Errorf "SubnetLen must be less than /127");;
    check (cfg_IPv6SubnetLen config <? u64 (p + 2))
      (Errorf "network must be able to accommodate at least four subnets")
  else if 124 <? p then
    throw (Errorf "IPv6Network is too small. Minimum useful network prefix is /124")
  else if p <=? 62 then modify (set_IPv6SubnetLen 64)
  else modify (set_IPv6SubnetLen (u64 (p + 2))).

Definition check_IPv6SubnetMin (ipv6SubnetSize : Z) : M Config unit :=
  config ← get;
  if IsEmpty (cfg_IPv6SubnetMin config) then
    m ← lift (GetIPv6SubnetMin (IP6Net_IP (cfg_IPv6Network config)) ipv6SubnetSize);
    modify (set_IPv6SubnetMin m)
  else
    b ← lift (IP6Net_Contains (cfg_IPv6Network config) (cfg_IPv6SubnetMin config));
    check (negb b) (Errorf "IPv6SubnetMin is not in the range of the IPv6Network").

Definition check_IPv6SubnetMax (ipv6SubnetSize : Z) : M Config unit :=
  config ← get;
  if IsEmpty (cfg_IPv6SubnetMax config) then
    nxt ← lift (IP6Net_Next (cfg_IPv6Network config));
    m ← lift (GetIPv6SubnetMax (IP6Net_IP nxt) ipv6SubnetSize);
    modify (set_IPv6SubnetMax m)
  else
    b ← lift (IP6Net_Contains (cfg_IPv6Network config) (cfg_IPv6SubnetMax config));
    check (negb b) (Errorf "IPv6SubnetMax is not in the range of the IPv6Network").

Definition check_ipv6 : M Config unit :=
  config ← get;
  check (IP6Net_Empty (cfg_IPv6Network config))
    (Errorf "please define a correct IPv6Network parameter in the flannel config");;
  check_IPv6SubnetLen;;
  config ← get;
  ipv6SubnetSize ← lift (big_Lsh1 (u64 (128 - cfg_IPv6SubnetLen config)));
  check_IPv6SubnetMin ipv6SubnetSize;;
  check_IPv6SubnetMax ipv6SubnetSize;;
  config ← get;
  let mask := Ip6_Mask (cfg_IPv6SubnetLen config) in
  b ← lift (CheckIPv6Subnet (cfg_IPv6SubnetMin config) mask);
  check (negb b) (Errorf "IPv6SubnetMin is not on a SubnetLen boundary: %v");;
  b ← lift (CheckIPv6Subnet (cfg_IPv6SubnetMax config) mask);
  check (negb b) (Errorf "IPv6SubnetMax is not on a SubnetLen boundary: %v").

Definition CheckNetworkConfig : M Config unit :=
  config ← get;
  (if cfg_EnableIPv4 config then check_ipv4 else mret tt);;
  if cfg_EnableIPv6 config then check_ipv6 else mret tt.

(** A configuration with only an IPv4 network. *)
Definition net4_config (n : IP4Net) : Config :=
  mkConfig true false false n (mkIP6Net None 0) 0 0 None None 0 0 "" "".

Example check_10 : (CheckNetworkConfig (net4_config (mkIP4Net 167772160 16))) =
  (Ret tt, set_SubnetLen 24 (set_SubnetMin 167772416 (set_SubnetMax 167837440
    (net4_config (mkIP4Net 167772160 16))))).
Proof. by vm_compute. Qed.

(** ** IPv4 *)

(** Every field of [c'] but the IPv4 subnet bounds is that of [c]. *)
Definition same_but_ipv4 (c c' : Config) : Prop :=
  c' = set_SubnetLen (cfg_SubnetLen c') (set_SubnetMin (cfg_SubnetMin c')
         (set_SubnetMax (cfg_SubnetMax c') c)).

(** The subnets a validated configuration hands out: aligned blocks of
    [2 ^ (32 - SubnetLen)] addresses between bounds inside the network. *)
Record ipv4_valid (c : Config) : Prop := {
  valid_len : IP4Net_PrefixLen (cfg_Network c) + 2 <= cfg_SubnetLen c <= 30;
  valid_min : IP4Net_addr (cfg_Network c) (cfg_SubnetMin c);
  valid_max : IP4Net_addr (cfg_Network c) (cfg_SubnetMax c);
  valid_min_aligned : cfg_SubnetMin c mod 2 ^ (32 - cfg_SubnetLen c) = 0;
  valid_max_aligned : cfg_SubnetMax c mod 2 ^ (32 - cfg_SubnetLen c) = 0
}.

Lemma check_SubnetLen_inv c c' u : IP4Net_ok (cfg_Network c) →
  check_SubnetLen c = (Ret u, c') → ∃ len, c' = set_SubnetLen len c ∧
    IP4Net_PrefixLen (cfg_Network c) + 2 <= len <= 30.
Proof.
  intros [_ Hp] H. unfold check_SubnetLen in H. run_inv.
  rewrite (wrap_small 64 (_ + 2)) in * by lia.
  destruct (Z.ltb_spec 0 (cfg_SubnetLen x)); run_inv.
  - exists (cfg_SubnetLen x). split; [by destruct x|]. lia.
  - destruct (Z.ltb_spec 28 (IP4Net_PrefixLen (cfg_Network x))); run_inv.
    destruct (Z.leb_spec (IP4Net_PrefixLen (cfg_Network x)) 22); run_inv; eexists; (split; [done|]); lia.
Qed.

Lemma shl_subnet_size len : 2 <= len <= 30 → shl 32 1 (u64 (32 - len)) = 2 ^ (32 - len).
Proof.
  intros. rewrite (wrap_small 64) by lia. rewrite shl_small, Z.mul_1_l by lia.
  apply wrap_small. split; [apply Z.pow_nonneg; lia|]. apply Z.pow_lt_mono_r; lia.
Qed.

Lemma shl_subnet_mask len : 2 <= len <= 30 →
  shl 32 4294967295 (u64 (32 - len)) = high_ones 32 (32 - len).
Proof. intros. rewrite (wrap_small 64) by lia. rewrite shl_small by lia. apply wrap_shl_ones. lia. Qed.

(** The network as a whole number of subnets. *)
Lemma network_blocks n len : IP4Net_ok n → IP4Net_PrefixLen n + 2 <= len <= 32 →
  ∃ k, 4 <= k ∧ IP4Net_size n = k * 2 ^ (32 - len).
Proof.
  intros [_ Hp] Hl. exists (2 ^ (len - IP4Net_PrefixLen n)). split.
  - change 4 with (2 ^ 2). apply Z.pow_le_mono_r; lia.
  - unfold IP4Net_size. rewrite <- Z.pow_add_r by lia. f_equal. lia.
Qed.

Lemma IP4Net_aligned_end n : IP4Net_ok n → IP4Net_aligned n → IP4Net_IP n + IP4Net_size n <= 2 ^ 32.
Proof.
  intros Hn Ha. pose proof (IP4Net_addr_ok n _ Hn (IP4Net_addr_last n Hn)) as H.
  rewrite IP4Net_first_aligned in H by done. unfold IP4_ok in H. lia.
Qed.

(** The default bounds. *)
Lemma default_min n len : IP4Net_ok n → IP4Net_aligned n → IP4Net_PrefixLen n + 2 <= len <= 30 →
  u32 (IP4Net_IP n + 2 ^ (32 - len)) = IP4Net_IP n + 2 ^ (32 - len).
Proof.
  intros Hn Ha Hl. destruct (network_blocks n len Hn) as (k & Hk & Hs); [lia|].
  pose proof (IP4Net_aligned_end n Hn Ha). pose proof (Z.pow_pos_nonneg 2 (32 - len)).
  destruct Hn as [Hip _]. unfold IP4_ok in Hip. apply wrap_small. nia.
Qed.

Lemma default_max n len : IP4Net_ok n → IP4Net_aligned n → 0 < IP4Net_PrefixLen n →
  IP4Net_PrefixLen n + 2 <= len <= 30 →
  u32 (IP4Net_IP (IP4Net_Next n) - 2 ^ (32 - len)) = IP4Net_IP n + IP4Net_size n - 2 ^ (32 - len).
Proof.
  intros Hn Ha Hpos Hl. destruct (network_blocks n len Hn) as (k & Hk & Hs); [lia|].
  pose proof (IP4Net_aligned_end n Hn Ha). pose proof (Z.pow_pos_nonneg 2 (32 - len)).
  unfold IP4Net_Next. cbn [IP4Net_IP]. rewrite IP4Net_host_bits_ok by done.
  destruct Hn as [Hip Hp]. unfold IP4_ok in Hip. fold (IP4Net_size n).
  rewrite shl_small, Z.mul_1_l by lia. fold (IP4Net_size n).
  rewrite (wrap_small 32 (IP4Net_size n)).
  - unfold wrap. rewrite Zminus_mod_idemp_l. apply Z.mod_small. nia.
  - split; [nia|]. unfold IP4Net_size. apply Z.pow_lt_mono_r; lia.
Qed.

Lemma aligned_blocks n len : IP4Net_ok n → IP4Net_aligned n → IP4Net_PrefixLen n + 2 <= len <= 32 →
  IP4Net_IP n mod 2 ^ (32 - len) = 0.
Proof.
  intros Hn Ha Hl. destruct (network_blocks n len Hn Hl) as (k & Hk & Hs).
  pose proof (Z.pow_pos_nonneg 2 (32 - len)). unfold IP4Net_aligned in Ha. rewrite Hs in Ha.
  apply Z.mod_divide; [lia|]. apply Z.mod_divide in Ha; [|nia].
  destruct Ha as [j ->]. exists (j * k). ring.
Qed.

Lemma land_aligned x len : IP4_ok x → 0 <= len <= 32 →
  (x =? Z.land x (high_ones 32 (32 - len))) = bool_decide (x mod 2 ^ (32 - len) = 0).
Proof.
  intros Hx Hl. rewrite land_high_ones by (lia || done).
  pose proof (Z.pow_pos_nonneg 2 (32 - len)). pose proof (Z.div_mod x (2 ^ (32 - len))).
  case_bool_decide; [apply Z.eqb_eq|apply Z.eqb_neq]; lia.
Qed.

Lemma check_SubnetMin_inv size c c' u : check_SubnetMin size c = (Ret u, c') →
  ∃ v, c' = set_SubnetMin v c ∧
    (v = u32 (IP4Net_IP (cfg_Network c) + size) ∨
     v = cfg_SubnetMin c ∧ IP4Net_Contains (cfg_Network c) v = true).
Proof.
  intros H. unfold check_SubnetMin in H. run_inv. destruct (cfg_SubnetMin x =? 0); run_inv.
  - eexists. split; [done|]. by left.
  - exists (cfg_SubnetMin x). split; [by destruct x|]. right. split; [done|]. by apply negb_false_iff.
Qed.

Lemma check_SubnetMax_inv size c c' u : check_SubnetMax size c = (Ret u, c') →
  ∃ v, c' = set_SubnetMax v c ∧
    (v = u32 (IP4Net_IP (IP4Net_Next (cfg_Network c)) - size) ∨
     v = cfg_SubnetMax c ∧ IP4Net_Contains (cfg_Network c) v = true).
Proof.
  intros H. unfold check_SubnetMax in H. run_inv. destruct (cfg_SubnetMax x =? 0); run_inv.
  - eexists. split; [done|]. by left.
  - exists (cfg_SubnetMax x). split; [by destruct x|]. right. split; [done|]. by apply negb_false_iff.
Qed.

Lemma not_empty_prefix n : IP4Net_ok n → IP4Net_aligned n → IP4Net_Empty n = false →
  0 < IP4Net_PrefixLen n.
Proof.
  intros [Hip Hp] Ha He. destruct (decide (IP4Net_PrefixLen n = 0)) as [E|]; [|lia].
  exfalso. unfold IP4Net_aligned, IP4Net_size, IP4Net_Empty, IP4_ok in *. rewrite E in *.
  rewrite Z.mod_small in Ha by (simpl; lia). by rewrite Ha in He.
Qed.

(** The configurations the checks are meant for: [Network] as JSON gives it. *)
Definition ipv4_input (c : Config) : Prop :=
  IP4Net_ok (cfg_Network c) ∧ IP4Net_aligned (cfg_Network c) ∧
  IP4_ok (cfg_SubnetMin c) ∧ IP4_ok (cfg_SubnetMax c) ∧ 0 <= cfg_SubnetLen c.

Lemma check_ipv4_sound c c' u : ipv4_input c → check_ipv4 c = (Ret u, c') →
  same_but_ipv4 c c' ∧ ipv4_valid c'.
Proof.
  intros (Hn & Ha & Hmin & Hmax & _) H. unfold check_ipv4 in H. run_inv.
  match goal with H : check_SubnetLen _ = _ |- _ =>
    apply (check_SubnetLen_inv _ _ _ Hn) in H as (len & -> & Hlen) end.
  assert (2 <= len <= 30) as Hl by (destruct Hn; lia).
  cbn [cfg_SubnetLen set_SubnetLen] in *. rewrite shl_subnet_size in * by done.
  match goal with H : check_SubnetMin _ _ = _ |- _ => apply check_SubnetMin_inv in H as (mn & -> & Hmn) end.
  match goal with H : check_SubnetMax _ _ = _ |- _ => apply check_SubnetMax_inv in H as (mx & -> & Hmx) end.
  cbn [cfg_SubnetLen cfg_SubnetMin cfg_SubnetMax cfg_Network set_SubnetLen set_SubnetMin set_SubnetMax] in *.
  rewrite shl_subnet_mask in * by done.
  match goal with H : negb (mn =? _) = _ |- _ => rename H into Bmn end.
  match goal with H : negb (mx =? _) = _ |- _ => rename H into Bmx end.
  assert (0 < IP4Net_PrefixLen (cfg_Network x)) as Hpos by (by apply not_empty_prefix).
  rewrite default_min in Hmn by done. rewrite default_max in Hmx by done.
  destruct (network_blocks _ len Hn) as (k & Hk & Hs); [lia|].
  pose proof (Z.pow_pos_nonneg 2 (32 - len)) as Hsz.
  assert (IP4Net_addr (cfg_Network x) mn) as Amn.
  { destruct Hmn as [->|[-> Hc]]; [|by apply IP4Net_Contains_addr].
    unfold IP4Net_addr. rewrite IP4Net_first_aligned by done. nia. }
  assert (IP4Net_addr (cfg_Network x) mx) as Amx.
  { destruct Hmx as [->|[-> Hc]]; [|by apply IP4Net_Contains_addr].
    unfold IP4Net_addr. rewrite IP4Net_first_aligned by done. nia. }
  rewrite land_aligned in Bmn, Bmx by (try lia; by eapply IP4Net_addr_ok).
  apply negb_false_iff, bool_decide_eq_true in Bmn, Bmx.
  split; [done|]. constructor; cbn; done || lia.
Qed.

(** ** IPv6 *)

Definition same_but_ipv6 (c c' : Config) : Prop :=
  c' = set_IPv6SubnetLen (cfg_IPv6SubnetLen c') (set_IPv6SubnetMin (cfg_IPv6SubnetMin c')
         (set_IPv6SubnetMax (cfg_IPv6SubnetMax c') c)).

(** A bound: an aligned address of the network. *)
Definition ipv6_bound (c : Config) (b : option IP6) : Prop :=
  ∃ v, b = Some v ∧ IP6Net_addr (cfg_IPv6Network c) v ∧ v mod 2 ^ (128 - cfg_IPv6SubnetLen c) = 0.

Record ipv6_valid (c : Config) : Prop := {
  valid_len6 : IP6Net_PrefixLen (cfg_IPv6Network c) + 2 <= cfg_IPv6SubnetLen c <= 126;
  valid_min6 : ipv6_bound c (cfg_IPv6SubnetMin c);
  valid_max6 : ipv6_bound c (cfg_IPv6SubnetMax c)
}.

(** A bound as configured: absent, or an address whose text is its own. *)
Definition ipv6_given (b : option IP6) : Prop :=
  match b with None => True | Some v => IP6_ok v ∧ IP6_plain v end.

Definition ipv6_input (c : Config) : Prop :=
  (∃ a, IP6Net_IP (cfg_IPv6Network c) = Some a ∧ IP6_ok a ∧ IP6_plain a ∧
        a mod IP6Net_size (cfg_IPv6Network c) = 0) ∧
  0 <= IP6Net_PrefixLen (cfg_IPv6Network c) <= 128 ∧
  ipv6_given (cfg_IPv6SubnetMin c) ∧ ipv6_given (cfg_IPv6SubnetMax c) ∧ 0 <= cfg_IPv6SubnetLen c.

Lemma check_IPv6SubnetLen_inv c c' u : 0 <= IP6Net_PrefixLen (cfg_IPv6Network c) <= 128 →
  check_IPv6SubnetLen c = (Ret u, c') → ∃ len, c' = set_IPv6SubnetLen len c ∧
    IP6Net_PrefixLen (cfg_IPv6Network c) + 2 <= len <= 126.
Proof.
  intros Hp H. unfold check_IPv6SubnetLen in H. run_inv.
  rewrite (wrap_small 64 (_ + 2)) in * by lia.
  destruct (Z.ltb_spec 0 (cfg_IPv6SubnetLen x)); run_inv.
  - exists (cfg_IPv6SubnetLen x). split; [by destruct x|]. lia.
  - destruct (Z.ltb_spec 124 (IP6Net_PrefixLen (cfg_IPv6Network x))); run_inv.
    destruct (Z.leb_spec (IP6Net_PrefixLen (cfg_IPv6Network x)) 62); run_inv; eexists; (split; [done|]); lia.
Qed.

(** Where the IPv6 bounds of a successful check come from. *)
Lemma check_IPv6SubnetMin_inv size c c' u a : IP6Net_IP (cfg_IPv6Network c) = Some a →
  check_IPv6SubnetMin size c = (Ret u, c') → ∃ b, c' = set_IPv6SubnetMin (Some b) c ∧
    (b = a + size ∨ cfg_IPv6SubnetMin c = Some b ∧ IP6Net_Contains (cfg_IPv6Network c) (Some b) = Ret true).
Proof.
  intros Ea H. unfold check_IPv6SubnetMin, GetIPv6SubnetMin in H. run_inv.
  destruct (IsEmpty (cfg_IPv6SubnetMin x)) eqn:Ee; run_inv.
  - rewrite Ea in *. cbn in *. simplify_eq. eexists. split; [done|]. by left.
  - destruct (cfg_IPv6SubnetMin x) as [b|] eqn:Eb; [|done]. exists b. split; [by destruct x; cbn in *; subst|].
    right. split; [done|]. match goal with H : negb ?b = false |- _ => by destruct b end.
Qed.

Lemma check_IPv6SubnetMax_inv size c c' u a : IP6Net_IP (cfg_IPv6Network c) = Some a →
  0 <= IP6Net_PrefixLen (cfg_IPv6Network c) <= 128 →
  check_IPv6SubnetMax size c = (Ret u, c') → ∃ b, c' = set_IPv6SubnetMax (Some b) c ∧
    (b = a + IP6Net_size (cfg_IPv6Network c) - size ∨
     cfg_IPv6SubnetMax c = Some b ∧ IP6Net_Contains (cfg_IPv6Network c) (Some b) = Ret true).
Proof.
  intros Ea Hp H. unfold check_IPv6SubnetMax, GetIPv6SubnetMax, IP6Net_Next, big_Lsh1 in H. run_inv.
  destruct (IsEmpty (cfg_IPv6SubnetMax x)) eqn:Ee; run_inv.
  - rewrite Ea in *. rewrite wrap_small, (proj2 (Z.ltb_lt _ _)) in * by lia. cbn in *. simplify_eq.
    cbn in *. simplify_eq. eexists. split; [done|]. by left.
  - destruct (cfg_IPv6SubnetMax x) as [b|] eqn:Eb; [|done]. exists b. split; [by destruct x; cbn in *; subst|].
    right. split; [done|]. match goal with H : negb ?b = false |- _ => by destruct b end.
Qed.

(** An address of the IPv6 network, given by its offset. *)
Lemma IP6Net_addr_offset n a o : IP6Net_IP n = Some a → 0 <= IP6Net_PrefixLen n <= 128 →
  a mod IP6Net_size n = 0 → 0 <= o < IP6Net_size n → IP6Net_addr n (a + o).
Proof.
  intros E Hp Ha Ho. pose proof (IP6Net_size_pos n Hp). unfold IP6Net_addr. rewrite E.
  apply Z.div_exact in Ha; [|lia]. 
  replace (a + o) with (a / IP6Net_size n * IP6Net_size n + o) by lia.
  rewrite Z.div_add_l, (Z.div_small o) by lia. lia.
Qed.

Lemma network_blocks6 n len : 0 <= IP6Net_PrefixLen n <= 128 → IP6Net_PrefixLen n + 2 <= len <= 128 →
  ∃ k, 4 <= k ∧ IP6Net_size n = k * 2 ^ (128 - len).
Proof.
  intros Hp Hl. exists (2 ^ (len - IP6Net_PrefixLen n)). split.
  - change 4 with (2 ^ 2). apply Z.pow_le_mono_r; lia.
  - unfold IP6Net_size. rewrite <- Z.pow_add_r by lia. f_equal. lia.
Qed.

Lemma CheckIPv6Subnet_aligned v len : IP6_ok v → 0 <= len <= 128 →
  CheckIPv6Subnet (Some v) (Ip6_Mask len) = Ret (bool_decide (v mod 2 ^ (128 - len) = 0)).
Proof.
  intros Hv Hl. unfold CheckIPv6Subnet, Ip6_Mask. rewrite CIDRMask_val by auto.
  change (mbind ?f (deref (Some v))) with (f v). cbv beta. f_equal.
  rewrite land_high_ones by (lia || done). pose proof (Z.pow_pos_nonneg 2 (128 - len)).
  pose proof (Z.div_mod v (2 ^ (128 - len))). case_bool_decide; [apply Z.eqb_eq|apply Z.eqb_neq]; lia.
Qed.

(** An address of the network, whatever its origin, is in range. *)
Lemma IP6Net_addr_ok n a x : IP6Net_IP n = Some a → IP6_ok a → 0 <= IP6Net_PrefixLen n <= 128 →
  IP6Net_addr n x → IP6_ok x.
Proof.
  unfold IP6Net_addr. intros E Ha Hp. rewrite E. pose proof (IP6Net_size_pos n Hp) as Hs.
  unfold IP6Net_size in *. intros H. apply in_block in H; [|lia]. unfold IP6_ok in *.
  assert (2 ^ 128 = 2 ^ IP6Net_PrefixLen n * 2 ^ (128 - IP6Net_PrefixLen n)) as E2.
  { rewrite <- Z.pow_add_r by lia. f_equal. lia. }
  assert (a / 2 ^ (128 - IP6Net_PrefixLen n) < 2 ^ IP6Net_PrefixLen n) by (apply Z.div_lt_upper_bound; nia).
  pose proof (Z.div_pos a (2 ^ (128 - IP6Net_PrefixLen n))). nia.
Qed.

Lemma ipv6_bound_sound c len v : ipv6_input c →
  IP6Net_PrefixLen (cfg_IPv6Network c) + 2 <= len <= 126 → ∀ a, IP6Net_IP (cfg_IPv6Network c) = Some a →
  (∃ k, v = a + k * 2 ^ (128 - len) ∧ 0 <= k * 2 ^ (128 - len) < IP6Net_size (cfg_IPv6Network c)) ∨
  (ipv6_given (Some v) ∧ IP6Net_Contains (cfg_IPv6Network c) (Some v) = Ret true) →
  IP6Net_addr (cfg_IPv6Network c) v ∧ IP6_ok v.
Proof.
  intros ((a' & Ea' & Ha & Pa & Hal) & Hp & _) Hl a Ea Hv. replace a' with a in * by congruence.
  assert (IP6Net_addr (cfg_IPv6Network c) v) as A.
  { destruct Hv as [(k & -> & Hk)|[[Hv Pv] Hc]]; [by apply IP6Net_addr_offset|].
    rewrite (IP6Net_Contains_block _ a) in Hc by done. injection Hc as Hc.
    by apply bool_decide_eq_true in Hc. }
  split; [done|by eapply IP6Net_addr_ok].
Qed.

Lemma check_ipv6_sound c c' u : ipv6_input c → check_ipv6 c = (Ret u, c') →
  same_but_ipv6 c c' ∧ ipv6_valid c'.
Proof.
  intros Hin H. pose proof Hin as ((a & Ea & Ha & Pa & Hal) & Hp & Gmin & Gmax & _).
  unfold check_ipv6 in H. run_inv.
  match goal with H : check_IPv6SubnetLen _ = _ |- _ =>
    apply (check_IPv6SubnetLen_inv _ _ _ Hp) in H as (len & -> & Hlen) end.
  unfold big_Lsh1 in *. cbn [cfg_IPv6SubnetLen set_IPv6SubnetLen] in *.
  rewrite (wrap_small 64 (128 - len)), (proj2 (Z.ltb_lt (128 - len) _)) in * by lia. simplify_eq.
  match goal with H : check_IPv6SubnetMin _ _ = _ |- _ =>
    apply (check_IPv6SubnetMin_inv _ _ _ _ a) in H as (mn & -> & Hmn); [|done] end.
  match goal with H : check_IPv6SubnetMax _ _ = _ |- _ =>
    apply (check_IPv6SubnetMax_inv _ _ _ _ a) in H as (mx & -> & Hmx); [|done|done] end.
  cbn [cfg_IPv6SubnetLen cfg_IPv6SubnetMin cfg_IPv6SubnetMax cfg_IPv6Network
       set_IPv6SubnetLen set_IPv6SubnetMin set_IPv6SubnetMax] in *.
  destruct (network_blocks6 (cfg_IPv6Network x) len Hp) as (k & Hk & Hs); [lia|].
  pose proof (Z.pow_pos_nonneg 2 (128 - len)) as Hsz.
  destruct (ipv6_bound_sound x len mn Hin Hlen a Ea) as [Amn Omn].
  { destruct Hmn as [->|[E Hc]]; [|right; by rewrite E in Gmin].
    left. exists 1. split; nia. }
  destruct (ipv6_bound_sound x len mx Hin Hlen a Ea) as [Amx Omx].
  { destruct Hmx as [->|[E Hc]]; [|right; by rewrite E in Gmax].
    left. exists (k - 1). split; nia. }
  rewrite !CheckIPv6Subnet_aligned in * by (done || lia). simplify_eq.
  repeat match goal with H : negb (bool_decide _) = false |- _ =>
    apply negb_false_iff, bool_decide_eq_true in H end.
  split; [done|]. constructor; cbn; [lia|by exists mn|by exists mx].
Qed.

(** The two families write different fields. *)
Lemma same_but_ipv6_valid c c' : same_but_ipv6 c c' → ipv4_valid c → ipv4_valid c'.
Proof. intros S []. constructor; rewrite S; done. Qed.

Lemma same_but_ipv4_input c c' : same_but_ipv4 c c' → ipv6_input c → ipv6_input c'.
Proof. intros S H. rewrite S. exact H. Qed.

(** What neither family writes. *)
Definition same_rest (c c' : Config) : Prop :=
  cfg_Network c' = cfg_Network c ∧ cfg_IPv6Network c' = cfg_IPv6Network c ∧
  cfg_Backend c' = cfg_Backend c ∧ cfg_BackendType c' = cfg_BackendType c ∧
  cfg_EnableIPv4 c' = cfg_EnableIPv4 c ∧ cfg_EnableIPv6 c' = cfg_EnableIPv6 c ∧
  cfg_EnableNFTables c' = cfg_EnableNFTables c.

Lemma same_but_rest c c1 c' : same_but_ipv4 c c1 → same_but_ipv6 c1 c' → same_rest c c'.
Proof. intros S1 S2. unfold same_rest. rewrite S2, S1. by cbn. Qed.

(** C20: when [CheckNetworkConfig] accepts a configuration in which the network of each
    enabled family is there and aligned, as decoding from JSON makes it, and the IPv6
    network and bounds, if IPv6 is on, are outside ::100:0 to ::ffff:ffff, whose four
    bytes print as IPv4 addresses, it
    changes nothing but the subnet lengths and bounds, and for each enabled family the
    network holds at least four subnets and both bounds are addresses of the network on a
    subnet boundary; of a family that is off nothing is asked. *)
Theorem CheckNetworkConfig_sound c c' u :
  (cfg_EnableIPv4 c = true → ipv4_input c) → (cfg_EnableIPv6 c = true → ipv6_input c) →
  CheckNetworkConfig c = (Ret u, c') →
  (cfg_EnableIPv4 c = true → ipv4_valid c') ∧ (cfg_EnableIPv6 c = true → ipv6_valid c') ∧ same_rest c c'.
Proof.
  intros H4 H6 H. unfold CheckNetworkConfig in H. run_inv.
  assert (∃ c1, same_but_ipv4 x c1 ∧ (cfg_EnableIPv4 x = true → ipv4_valid c1) ∧
    (if cfg_EnableIPv6 x then check_ipv6 else mret tt) c1 = (Ret u, c')) as (c1 & S1 & V1 & Hc).
  { destruct (cfg_EnableIPv4 x) eqn:E; run_inv.
    - match goal with H : check_ipv4 _ = (_, ?c) |- _ => apply check_ipv4_sound in H as [S V]; [exists c; eauto|by apply H4] end.
    - eexists. split; [|by split]. match goal with |- same_but_ipv4 _ ?y => by destruct y end. }
  destruct (cfg_EnableIPv6 x) eqn:E; run_inv.
  - apply check_ipv6_sound in Hc as [S2 V2]; [|by eapply same_but_ipv4_input; [|apply H6]].
    split; [by eauto using same_but_ipv6_valid|]. split; [done|by eapply same_but_rest].
  - split; [done|]. split; [done|]. eapply same_but_rest; [done|]. by destruct c'.
Qed.

(** A dual-stack configuration. *)
Definition sample_config : Config :=
  mkConfig true true false (mkIP4Net 167772160 16) (mkIP6Net (Some (252 * 2 ^ 120)) 48) 0 0 None None 0 0 "vxlan" "".

Lemma CheckNetworkConfig_sound_witness :
  (∃ c', CheckNetworkConfig sample_config = (Ret tt, c') ∧ ipv4_valid c' ∧ ipv6_valid c' ∧ same_rest sample_config c') ∧
  (∃ c', CheckNetworkConfig (net4_config (mkIP4Net 167772160 16)) = (Ret tt, c') ∧ ipv4_valid c').
Proof.
  split.
  - assert (∃ c', CheckNetworkConfig sample_config = (Ret tt, c')) as [c' E] by (eexists; by vm_compute).
    destruct (CheckNetworkConfig_sound sample_config c' tt) as (V4 & V6 & S).
    + intros _. repeat split; simpl; lia.
    + intros _. split_and!; try done; simpl; try lia. exists (252 * 2 ^ 120). repeat split; try lia. right. lia.
    + exact E.
    + exists c'. split_and!; [exact E|by apply V4|by apply V6|exact S].
  - assert (∃ c', CheckNetworkConfig (net4_config (mkIP4Net 167772160 16)) = (Ret tt, c')) as [c' E] by (eexists; by vm_compute).
    destruct (CheckNetworkConfig_sound (net4_config (mkIP4Net 167772160 16)) c' tt) as (V4 & _).
    + intros _. repeat split; simpl; lia.
    + done.
    + exact E.
    + exists c'. split; [exact E|by apply V4].
Defined.

(** An aligned IPv4 network of prefix 1 to 28 given without lengths or bounds
    is accepted: the subnet length is 24, or the prefix plus two above 22, and the
    bounds are the second and the last subnet of the network. *)
Theorem CheckNetworkConfig_defaults n : IP4Net_ok n → IP4Net_aligned n →
  0 < IP4Net_PrefixLen n <= 28 →
  let len := if IP4Net_PrefixLen n <=? 22 then 24 else IP4Net_PrefixLen n + 2 in
  CheckNetworkConfig (net4_config n) =
    (Ret tt, set_SubnetLen len (set_SubnetMin (IP4Net_IP n + 2 ^ (32 - len))
      (set_SubnetMax (IP4Net_IP n + IP4Net_size n - 2 ^ (32 - len)) (net4_config n)))).
Proof.
  intros Hn Ha Hp len.
  assert (IP4Net_PrefixLen n + 2 <= len <= 30) as Hl.
  { unfold len. destruct (Z.leb_spec (IP4Net_PrefixLen n) 22); lia. }
  assert (check_SubnetLen (net4_config n) = (Ret tt, set_SubnetLen len (net4_config n))) as E1.
  { unfold check_SubnetLen, len. run. change (0 <? cfg_SubnetLen (net4_config n)) with false. cbv iota.
    change (cfg_Network (net4_config n)) with n. rewrite (proj2 (Z.ltb_ge 28 _)) by lia.
    rewrite wrap_small by lia. by destruct (Z.leb_spec (IP4Net_PrefixLen n) 22). }
  destruct (network_blocks n len Hn) as (k & Hk & Hs); [lia|].
  pose proof (Z.pow_pos_nonneg 2 (32 - len)) as Hsz. pose proof (IP4Net_aligned_end n Hn Ha).
  pose proof (aligned_blocks n len Hn Ha ltac:(lia)) as Hb. pose proof Hn as [Hip _]. unfold IP4_ok in Hip.
  unfold CheckNetworkConfig, check_ipv4.
  assert (IP4Net_Empty n = false) as Ee.
  { unfold IP4Net_Empty. rewrite (proj2 (Z.eqb_neq (IP4Net_PrefixLen n) 0)) by lia. apply andb_false_r. }
  run. change (cfg_EnableIPv4 (net4_config n)) with true. cbv iota. run.
  change (cfg_Network (net4_config n)) with n. rewrite Ee, (M_bind_Ret _ _ _ _ _ E1).
  unfold check_SubnetMin, check_SubnetMax. run.
  cbn [cfg_SubnetLen cfg_SubnetMin cfg_SubnetMax cfg_Network set_SubnetLen set_SubnetMin set_SubnetMax
       net4_config Z.eqb]. run.
  cbn [cfg_SubnetLen cfg_SubnetMin cfg_SubnetMax cfg_Network set_SubnetLen set_SubnetMin set_SubnetMax
       net4_config Z.eqb].
  rewrite shl_subnet_size, shl_subnet_mask, default_min, default_max by (done || lia).
  assert ((IP4Net_IP n + 2 ^ (32 - len)) mod 2 ^ (32 - len) = 0) as M1.
  { rewrite <- (Z.mul_1_l (2 ^ (32 - len))) at 1. by rewrite Z.mod_add by lia. }
  assert ((IP4Net_IP n + IP4Net_size n - 2 ^ (32 - len)) mod 2 ^ (32 - len) = 0) as M2.
  { replace (IP4Net_IP n + IP4Net_size n - 2 ^ (32 - len)) with (IP4Net_IP n + (k - 1) * 2 ^ (32 - len)) by lia.
    by rewrite Z.mod_add by lia. }
  rewrite !land_aligned by (unfold IP4_ok; nia). by rewrite !bool_decide_true by done.
Qed.

Lemma CheckNetworkConfig_defaults_witness :
  CheckNetworkConfig (net4_config (mkIP4Net 4294901760 16)) =
    (Ret tt, set_SubnetLen 24 (set_SubnetMin 4294902016 (set_SubnetMax 4294967040
      (net4_config (mkIP4Net 4294901760 16))))).
Proof. apply (CheckNetworkConfig_defaults (mkIP4Net 4294901760 16)); repeat split; simpl; lia. Defined.

(** ** From the text of a configuration *)

(** What decoding guarantees of the IPv4 part. *)
Definition decoded (c : Config) : Prop :=
  IP4_ok (IP4Net_IP (cfg_Network c)) ∧ 0 <= IP4Net_PrefixLen (cfg_Network c) <= 128 ∧
  (IP4Net_PrefixLen (cfg_Network c) <= 32 → IP4Net_aligned (cfg_Network c)) ∧
  IP4_ok (cfg_SubnetMin c) ∧ IP4_ok (cfg_SubnetMax c) ∧ 0 <= cfg_SubnetLen c < 2 ^ 64.

Lemma decode_uint_range v j n : 0 <= v < 2 ^ 64 → decode_uint 64 v j = Ret n → 0 <= n < 2 ^ 64.
Proof.
  intros Hv. destruct j; cbn [decode_uint]; try done; [by intros [= <-]|].
  unfold ParseUint. destruct (parse_uint 10 literal) as [x|] eqn:E; [|done].
  apply parse_uint_bound in E; [|lia]. destruct (Z.ltb_spec x (2 ^ 64)); intros; simplify_eq. lia.
Qed.

Lemma Config_field_decoded c key raw v c' : decoded c → Config_field c key raw v = Ret c' → decoded c'.
Proof.
  intros (Hip & Hp & Ha & Hmin & Hmax & Hlen) H. unfold Config_field in H.
  repeat match type of H with (if ?b then _ else _) = _ => destruct b end;
    try (apply bind_inv in H as (x & Hx & [= <-])); try (injection H as <-);
    try (by unfold decoded; cbn; eauto 10).
  - apply IP4Net_Unmarshal_wf in Hx as (? & ? & ?). by unfold decoded.
  - apply ParseIP4_ok in Hx. by unfold decoded.
  - apply ParseIP4_ok in Hx. by unfold decoded.
  - apply decode_uint_range in Hx; [|done]. by unfold decoded.
Qed.

Lemma ParseConfig_decoded s c : ParseConfig s = Ret c → decoded c.
Proof.
  unfold ParseConfig. intros H. apply bind_inv in H as (c1 & H1 & H).
  apply bind_inv in H as (bt & _ & [= <-]). change (decoded c1).
  assert (∀ ms c, decoded c → decode_members Config_field ms c = Ret c1 → decoded c1) as Hms.
  { induction ms as [|[[key raw] v] ms IH]; intros c Hc E; cbn in E; [by simplify_eq|].
    apply bind_inv in E as (c2 & E2 & E). eauto using Config_field_decoded. }
  assert (decoded (set_EnableIPv4 true zero_config)) as H0
    by (unfold decoded, IP4_ok, IP4Net_aligned; cbn; repeat split; lia || done).
  unfold Unmarshal_struct in H1. destruct (parse_json s) as [[raw []]|]; try done.
  - by simplify_eq.
  - by apply Hms in H1.
Qed.

Lemma check_ipv6_same c c' u : check_ipv6 c = (Ret u, c') → same_but_ipv6 c c'.
Proof.
  intros H. unfold check_ipv6 in H. run_inv.
  repeat match goal with
  | H : check_IPv6SubnetLen _ = _ |- _ => unfold check_IPv6SubnetLen in H
  | H : check_IPv6SubnetMin _ _ = _ |- _ => unfold check_IPv6SubnetMin in H
  | H : check_IPv6SubnetMax _ _ = _ |- _ => unfold check_IPv6SubnetMax in H
  end. run_inv.
  repeat match goal with
  | H : (if ?b then _ else _) _ = (Ret _, _) |- _ => destruct b; run_inv
  end; match goal with |- same_but_ipv6 ?y _ => destruct y; done end.
Qed.

(** A prefix beyond 32 never passes the length check. *)
Lemma check_SubnetLen_long c c' u : 32 < IP4Net_PrefixLen (cfg_Network c) <= 128 →
  check_SubnetLen c = (Ret u, c') → False.
Proof.
  intros Hp H. unfold check_SubnetLen in H. run_inv. rewrite (wrap_small 64 (_ + 2)) in * by lia.
  destruct (Z.ltb_spec 0 (cfg_SubnetLen x)); run_inv; [lia|].
  by rewrite (proj2 (Z.ltb_lt 28 _)) in * by lia.
Qed.

Lemma decoded_input c c' u : decoded c → check_ipv4 c = (Ret u, c') → ipv4_input c.
Proof.
  intros (Hip & Hp & Ha & Hmin & Hmax & Hlen) H.
  destruct (decide (IP4Net_PrefixLen (cfg_Network c) <= 32)) as [Hle|Hgt].
  - split_and!; try done; [split; [done|lia]|by apply Ha|lia].
  - exfalso. unfold check_ipv4 in H. run_inv.
    match goal with H : check_SubnetLen _ = _ |- _ => apply check_SubnetLen_long in H; [done|lia] end.
Qed.

Lemma config_text_ipv4 s c c' u : ParseConfig s = Ret c → CheckNetworkConfig c = (Ret u, c') →
  cfg_EnableIPv4 c = true → same_rest c c' ∧ ipv4_valid c'.
Proof.
  intros Hc H E4. apply ParseConfig_decoded in Hc. unfold CheckNetworkConfig in H. run_inv. rewrite E4 in *.
  match goal with H : check_ipv4 _ = _ |- _ => pose proof (decoded_input _ _ _ Hc H) as Hin;
    apply check_ipv4_sound in H as [S1 V1]; [|done] end.
  destruct (cfg_EnableIPv6 x); run_inv.
  - match goal with H : check_ipv6 _ = _ |- _ => apply check_ipv6_same in H end.
    eauto using same_but_ipv6_valid, same_but_rest.
  - split; [|done]. eapply same_but_rest; [done|]. by destruct c'.
Qed.

(** C40: whatever text the configuration is read from, if [ParseConfig] and then
    [CheckNetworkConfig] accept it with IPv4 enabled, the network holds at least
    four subnets of the chosen length, and both bounds lie in the network on a
    subnet boundary; the text's network itself is kept. *)
Theorem config_text_valid s c c' u : ParseConfig s = Ret c → CheckNetworkConfig c = (Ret u, c') →
  cfg_EnableIPv4 c = true → cfg_Network c' = cfg_Network c ∧ ipv4_valid c'.
Proof. intros H1 H2 H3. destruct (config_text_ipv4 s c c' u H1 H2 H3) as [[? _] ?]. done. Qed.

Lemma config_text_valid_witness : ∃ c c',
  ParseConfig (unquote "{'Network': '10.5.77.0/16', 'Backend': {'Type': 'vxlan'}}") = Ret c ∧
  CheckNetworkConfig c = (Ret tt, c') ∧ cfg_Network c' = cfg_Network c ∧ ipv4_valid c'.
Proof.
  eexists _, _. split; [by vm_compute|]. split; [by vm_compute|].
  eapply (config_text_valid (unquote "{'Network': '10.5.77.0/16', 'Backend': {'Type': 'vxlan'}}") _ _ tt);
    by vm_compute.
Defined.
