(* ===== verification/LocalManager.v ===== *)
(** * [pkg/subnet/etcd/local_manager.go]: acquiring and keeping a lease

    The manager works on a [Registry], the Go interface of the same name: a
    class of calls on a store [W] shared with the other nodes.  [pkg/subnet/etcd
    /rand.go] draws from a generator seeded with the time; the numbers drawn are
    arguments here.  The candidate loops of [allocateSubnet] take fuel and return
    [None] without it; the theorems give the fuel that is enough. *)

From Stdlib Require Import ZArith Lia.
From stdpp Require Import base strings list gmap numbers.
From S2P Require Import Prelude GoStrings GoJson GoNet GoNetFacts Ip4 Ip6 Lease Config.

Local Open Scope Z_scope.

(** ** The registry interface *)

Class Registry (W : Type) := {
  getNetworkConfig : M W string;
  getSubnets : M W (list Lease * Z);
  getSubnet : IP4Net → IP6Net → M W (Lease * Z);
  createSubnet : IP4Net → IP6Net → LeaseAttrs → Z → M W Z;
  updateSubnet : IP4Net → IP6Net → LeaseAttrs → Z → Z → M W Z;
  deleteSubnet : IP4Net → IP6Net → M W unit
}.

(** ** Data *)

Definition raceRetries : nat := 10.
Definition second : Z := 1000000000.
Definition subnetTTL : Z := 24 * 3600 * second.

Definition errInterrupted : error := Sentinel "interrupted".
Definition errCanceled : error := Sentinel "canceled".
Definition errTryAgain : error := Sentinel "try again".
Definition errSubnetAlreadyexists : error := Sentinel "subnet already exists".
Definition ErrDuplicateKey : error := Sentinel "etcdserver: duplicate key given in txn request".
Definition ErrGRPCCompacted : error := Sentinel "etcdserver: mvcc: required revision has been compacted".
Definition out_of_fuel : error := Errorf "the candidate loop is still running".

Record LocalManager := mkLocalManager {
  previousSubnet : IP4Net;
  previousIPv6Subnet : IP6Net;
  subnetLeaseRenewMargin : Z
}.

Definition isErrEtcdNodeExist (e : error) : bool := bool_decide (e = ErrDuplicateKey).
Definition isIndexTooSmall (e : error) : bool := bool_decide (e = ErrGRPCCompacted).

(** [randInt(lo, hi)] for the draw [r] of the generator; [Int31n] panics on an empty range. *)
Definition randInt (r : nat) (lo hi : Z) : outcome Z :=
  if hi - lo <=? 0 then Panic else Ret (lo + Z.of_nat r mod (hi - lo)).

(** ** Looking through leases *)

Definition findLeaseByIP (leases : list Lease) (pubIP : IP4) : option Lease :=
  snd <$> list_find (λ l, pubIP = PublicIP (Attrs l)) leases.

Definition findLeaseBySubnet (leases : list Lease) (subnet : IP4Net) : option Lease :=
  snd <$> list_find (λ l, IP4Net_Equal subnet (Subnet l) = true) leases.

Definition isSubnetConfigCompat (config : Config) (sn : IP4Net) : bool :=
  if (IP4Net_IP sn <? cfg_SubnetMin config) || (cfg_SubnetMax config <? IP4Net_IP sn) then false
  else IP4Net_PrefixLen sn =? cfg_SubnetLen config.

Definition isIPv6SubnetConfigCompat (config : Config) (sn6 : IP6Net) : outcome bool :=
  if negb (cfg_EnableIPv6 config) then Ret (IP6Net_Empty sn6)
  else if IP6Net_Empty sn6 then Ret false
  else
    c ← IP6_Cmp (IP6Net_IP sn6) (cfg_IPv6SubnetMin config);
    if decide (c = Lt) then Ret false else
    c ← IP6_Cmp (IP6Net_IP sn6) (cfg_IPv6SubnetMax config);
    if decide (c = Gt) then Ret false else
    Ret (IP6Net_PrefixLen sn6 =? cfg_IPv6SubnetLen config).

(** ** Allocation *)

Definition overlaps_lease (leases : list Lease) (sn : IP4Net) : bool :=
  existsb (λ l, IP4Net_Overlaps sn (Subnet l)) leases.

Fixpoint available4 (fuel : nat) (subnetMax : IP4) (leases : list Lease) (sn : IP4Net)
    (avail : list IP4) : option (list IP4) :=
  if (IP4Net_IP sn <=? subnetMax) && (length avail <? 100)%nat then
    match fuel with
    | O => None
    | S fuel =>
        available4 fuel subnetMax leases (IP4Net_Next sn)
          (if overlaps_lease leases sn then avail else avail ++ [IP4Net_IP sn])
    end
  else Some avail.

Fixpoint overlaps_lease6 (leases : list Lease) (sn6 : IP6Net) : outcome bool :=
  match leases with
  | [] => Ret false
  | l :: leases =>
      b ← IP6Net_Overlaps sn6 (IPv6Subnet l);
      if (b : bool) then Ret true else overlaps_lease6 leases sn6
  end.

(** [None] inside the outcome: out of fuel.  The loop variable is read afterwards. *)
Fixpoint available6 (fuel : nat) (subnetMax : option IP6) (leases : list Lease) (sn6 : IP6Net)
    (avail : list (option IP6)) : outcome (option (list (option IP6) * IP6Net)) :=
  c ← IP6_Cmp (IP6Net_IP sn6) subnetMax;
  if decide (c ≠ Gt ∧ (length avail < 100)%nat) then
    match fuel with
    | O => Ret None
    | S fuel =>
        b ← overlaps_lease6 leases sn6;
        next ← IP6Net_Next sn6;
        available6 fuel subnetMax leases next
          (if (b : bool) then avail else avail ++ [IP6Net_IP sn6])
    end
  else Ret (Some (avail, sn6)).

Definition allocateSubnet (fuel r4 r6 : nat) (config : Config) (leases : list Lease)
    : outcome (IP4Net * IP6Net) :=
  let sn := mkIP4Net (cfg_SubnetMin config) (cfg_SubnetLen config) in
  let sn6 := if cfg_EnableIPv6 config
             then mkIP6Net (cfg_IPv6SubnetMin config) (cfg_IPv6SubnetLen config)
             else mkIP6Net None 0 in
  match available4 fuel (cfg_SubnetMax config) leases sn [] with
  | None => Err out_of_fuel
  | Some availableIPs =>
      res6 ← (if IP6Net_Empty sn6 then Ret (Some ([], sn6))
              else available6 fuel (cfg_IPv6SubnetMax config) leases sn6 []);
      match res6 with
      | None => Err out_of_fuel
      | Some (availableIPv6s, sn6) =>
          if decide (length availableIPs = 0%nat ∨
                     (IP6Net_Empty sn6 = false ∧ length availableIPv6s = 0%nat))
          then Err (Errorf "out of subnets")
          else
            i ← randInt r4 0 (Z.of_nat (length availableIPs));
            ip ← deref (availableIPs !! Z.to_nat i);
            let ipnet := mkIP4Net ip (cfg_SubnetLen config) in
            if IP6Net_Empty sn6 then Ret (ipnet, mkIP6Net None 0)
            else
              i ← randInt r6 0 (Z.of_nat (length availableIPv6s));
              ip6 ← deref (availableIPv6s !! Z.to_nat i);
              Ret (ipnet, mkIP6Net ip6 (cfg_IPv6SubnetLen config))
      end
  end.

(** ** The manager *)

Definition set_Attrs (a : LeaseAttrs) (l : Lease) : Lease :=
  mkLease (EnableIPv4 l) (EnableIPv6 l) (Subnet l) (IPv6Subnet l) a (Expiration l) (Asof l).
Definition set_Expiration (e : Z) (l : Lease) : Lease :=
  mkLease (EnableIPv4 l) (EnableIPv6 l) (Subnet l) (IPv6Subnet l) (Attrs l) e (Asof l).

(** The zero [time.Time], January 1 of year 1, in nanoseconds since the epoch. *)
Definition zero_time : Z := -62135596800 * second.

Section manager.
Context {W : Type} `{Registry W}.

Definition GetNetworkConfig : M W Config :=
  cfg ← getNetworkConfig;
  config ← lift (ParseConfig cfg);
  match CheckNetworkConfig config with
  | (Ret _, config) => mret config
  | (Err e, _) => throw e
  | (Panic, _) => panic
  end.

(** The subnet to ask for when the node has no usable lease. *)
Definition choose_subnet (m : LocalManager) (fuel r4 r6 : nat) (config : Config) (leases : list Lease)
    : outcome (IP4Net * IP6Net) :=
  '(sn, sn6) ← (if IP4Net_Empty (previousSubnet m) then Ret (mkIP4Net 0 0, mkIP6Net None 0)
    else match findLeaseBySubnet leases (previousSubnet m) with
    | Some _ => Ret (mkIP4Net 0 0, mkIP6Net None 0)
    | None =>
        compat ← and_then (isSubnetConfigCompat config (previousSubnet m))
                   (isIPv6SubnetConfigCompat config (previousIPv6Subnet m));
        if (compat : bool) then Ret (previousSubnet m, previousIPv6Subnet m)
        else Ret (mkIP4Net 0 0, mkIP6Net None 0)
    end);
  if IP4Net_Empty sn then allocateSubnet fuel r4 r6 config leases else Ret (sn, sn6).

(** The part after a lease of this node was looked for and not reused. *)
Definition acquire_new (m : LocalManager) (fuel r4 r6 : nat) (config : Config) (leases : list Lease)
    (attrs : LeaseAttrs) : M W Lease :=
  '(sn, sn6) ← lift (choose_subnet m fuel r4 r6 config leases);
  r ← try (createSubnet sn sn6 attrs subnetTTL);
  match r with
  | inl exp => mret (mkLease true (negb (IP6Net_Empty sn6)) sn sn6 attrs exp 0)
  | inr e => if isErrEtcdNodeExist e then throw errTryAgain else throw e
  end.

Definition tryAcquireLease (m : LocalManager) (fuel r4 r6 : nat) (config : Config) (extIaddr : IP4)
    (attrs : LeaseAttrs) : M W Lease :=
  '(leases, _) ← getSubnets;
  match findLeaseByIP leases extIaddr with
  | Some l =>
      compat ← lift (and_then (isSubnetConfigCompat config (Subnet l))
                              (isIPv6SubnetConfigCompat config (IPv6Subnet l)));
      if (compat : bool) then
        let ttl := if Expiration l =? zero_time then 0 else subnetTTL in
        exp ← updateSubnet (Subnet l) (IPv6Subnet l) attrs ttl 0;
        mret (set_Expiration exp (set_Attrs attrs l))
      else
        deleteSubnet (Subnet l) (IPv6Subnet l);;
        acquire_new m fuel r4 r6 config leases attrs
  | None => acquire_new m fuel r4 r6 config leases attrs
  end.

(** The retry loop; [draws] are the generator's numbers, two per try. *)
Fixpoint acquire_loop (m : LocalManager) (fuel : nat) (draws : list (nat * nat)) (tries : nat)
    (config : Config) (attrs : LeaseAttrs) : M W Lease :=
  match tries with
  | O => throw (Errorf "max retries reached trying to acquire a subnet")
  | S tries =>
      let '(r4, r6) := default (0, 0)%nat (head draws) in
      r ← try (tryAcquireLease m fuel r4 r6 config (PublicIP attrs) attrs);
      match r with
      | inl l => mret l
      | inr e => if decide (e = errTryAgain)
                 then acquire_loop m fuel (tail draws) tries config attrs else throw e
      end
  end.

Definition AcquireLease (m : LocalManager) (fuel : nat) (draws : list (nat * nat))
    (attrs : LeaseAttrs) : M W Lease :=
  config ← GetNetworkConfig;
  acquire_loop m fuel draws raceRetries config attrs.

Definition RenewLease (l : Lease) : M W Lease :=
  exp ← updateSubnet (Subnet l) (IPv6Subnet l) (Attrs l) subnetTTL 0;
  mret (set_Expiration exp l).

(** [getNextIndex] of a [watchCursor]. *)
Definition getNextIndex (cursor : option Z) : outcome Z :=
  match cursor with
  | Some index => Ret (index + 1)
  | None => Err (Errorf "internal error: watch cursor is of unknown type")
  end.

(** [CompleteLease]: what its [select] can receive, with the time it is received. *)
Inductive complete_input :=
| TimerFires (now : Z)
| EvtsClosed
| EvtReceived (e : Event) (now : Z).

Record complete_state := mkComplete { myLease : Lease; dur : Z }.

Definition renewMargin (m : LocalManager) : Z := subnetLeaseRenewMargin m * (60 * second).

(** [time.Until(myLease.Expiration) - renewMargin]. *)
Definition until_renewal (m : LocalManager) (l : Lease) (now : Z) : Z :=
  Expiration l - now - renewMargin m.

(** One turn of the loop: the state to go on with, or the error returned. *)
Definition complete_step (m : LocalManager) (st : complete_state) (i : complete_input)
    : M W (complete_state + error) :=
  match i with
  | TimerFires now =>
      r ← try (RenewLease (myLease st));
      match r with
      | inr _ => mret (inl (mkComplete (myLease st) (60 * second)))
      | inl l => mret (inl (mkComplete l (until_renewal m l now)))
      end
  | EvtsClosed => mret (inr errCanceled)
  | EvtReceived e now =>
      match Event_Type e with
      | EventAdded =>
          let l := set_Expiration (Expiration (Event_Lease e)) (myLease st) in
          mret (inl (mkComplete l (until_renewal m l now)))
      | EventRemoved => mret (inr errInterrupted)
      end
  end.

Fixpoint complete_loop (m : LocalManager) (st : complete_state) (inputs : list complete_input)
    : M W (complete_state + error) :=
  match inputs with
  | [] => mret (inl st)
  | i :: inputs =>
      r ← complete_step m st i;
      match r with
      | inl st => complete_loop m st inputs
      | inr e => mret (inr e)
      end
  end.

Definition CompleteLease (m : LocalManager) (l : Lease) (now : Z) (inputs : list complete_input)
    : M W (complete_state + error) :=
  complete_loop m (mkComplete l (until_renewal m l now)) inputs.

Definition leaseWatchReset (sn : IP4Net) (sn6 : IP6Net) : M W LeaseWatchResult :=
  '(l, index) ← getSubnet sn sn6;
  mret (mkLeaseWatchResult [] [l] (Some index)).
End manager.

(** ** Keeping a lease *)

(** The time an input is received, and the state after the last one. *)
Definition input_time (i : complete_input) : Z :=
  match i with TimerFires now => now | EvtsClosed => 0 | EvtReceived _ now => now end.

(** A turn leaves the timer either set to the renewal margin before the
    expiration it knows, or to a minute after a failed renewal. *)
Definition scheduled (m : LocalManager) (st : complete_state) (now : Z) : Prop :=
  now + dur st = Expiration (myLease st) - renewMargin m ∨ dur st = 60 * second.

Section complete.
Context {W : Type} `{Registry W}.

Lemma complete_step_inv m st i s r s' : complete_step m st i s = (Ret r, s') →
  match r with
  | inl st' => scheduled m st' (input_time i) ∧ Subnet (myLease st') = Subnet (myLease st)
  | inr e => (i = EvtsClosed ∧ e = errCanceled) ∨
             (∃ ev now, i = EvtReceived ev now ∧ Event_Type ev = EventRemoved ∧ e = errInterrupted)
  end.
Proof.
  unfold complete_step. destruct i as [now| |ev now]; cbn [input_time].
  - intros E. apply M_bind_inv in E as (x & s1 & E1 & E2). destruct x as [l|e]; run_inv.
    + split; [left; unfold until_renewal; cbn; lia|].
      unfold try, RenewLease, mbind, M_bind in E1.
      destruct (updateSubnet _ _ _ _ _ s) as [[exp|e|] s2]; cbn in E1; by simplify_eq.
    + split; [by right|done].
  - intros E. run_inv. by left.
  - destruct (Event_Type ev) eqn:Et; intros E; run_inv.
    + split; [left; unfold until_renewal; cbn; lia|done].
    + right. by exists ev, now.
Qed.
End complete.

(** Keeping a lease never gives up because a renewal fails: it ends only when
    the event channel is closed or the lease was removed, and until then the
    subnet stays the same and the timer is set to the margin before the last known
    expiration, or to a minute after a failed renewal. *)
Theorem CompleteLease_ends W `{Registry W} m st inputs s r s' :
  complete_loop m st inputs s = (Ret r, s') →
  match r with
  | inl st' => Subnet (myLease st') = Subnet (myLease st) ∧
      ∀ pre i, inputs = pre ++ [i] → scheduled m st' (input_time i)
  | inr e => (EvtsClosed ∈ inputs ∧ e = errCanceled) ∨
      (∃ ev now, EvtReceived ev now ∈ inputs ∧ Event_Type ev = EventRemoved ∧ e = errInterrupted)
  end.
Proof.
  revert st s. induction inputs as [|i inputs IH]; intros st s E; cbn [complete_loop] in E; run_inv.
  { split; [done|]. by intros [|? [|]] i. }
  match goal with E : complete_step _ _ _ _ = (Ret ?x, _) |- _ =>
    apply complete_step_inv in E; destruct x as [st1|e] end; run_inv.
  - match goal with E : complete_loop _ _ _ _ = _, H1 : _ ∧ _ |- _ =>
      pose proof E as E0; apply IH in E; destruct H1 as [Hsch Hsub] end.
    destruct r as [st'|e].
    + match goal with H : _ ∧ _ |- _ => destruct H as [Hs Hl] end. split; [congruence|].
      intros pre j Hj. destruct pre as [|i' pre]; cbn in Hj; simplify_eq.
      * cbn [complete_loop] in E0. run_inv. done.
      * by eapply Hl.
    + match goal with H : _ ∨ _ |- _ => destruct H as [[? ?]|(ev & now & ? & ? & ?)] end.
      * left. split; [by right|done].
      * right. exists ev, now. split; [by right|done].
  - match goal with H : _ ∨ _ |- _ => destruct H as [[-> ->]|(ev & now & -> & ? & ->)] end.
    + left. split; [apply list_elem_of_here|done].
    + right. exists ev, now. split; [apply list_elem_of_here|done].
Qed.

Definition LocalManager_Name (m : LocalManager) : string :=
  let previous := if IP4Net_Empty (previousSubnet m) then "None" else IP4Net_String (previousSubnet m) in
  "Etcd Local Manager with Previous Subnet: " +:+ previous.

(** ** IPv4 allocation *)

(** A free candidate: a subnet between the bounds that overlaps no lease. *)
Definition candidate (start subnetMax : IP4) (len : Z) (leases : list Lease) (x : IP4) : Prop :=
  (∃ k, 0 <= k ∧ x = start + k * 2 ^ (32 - len)) ∧ x <= subnetMax ∧
  overlaps_lease leases (mkIP4Net x len) = false.

(** The turns the loop can take. *)
Definition turns (start subnetMax len : Z) : Z :=
  if start <=? subnetMax then (subnetMax - start) / 2 ^ (32 - len) + 1 else 0.

Lemma turns_step start mx len : 0 <= len <= 32 → start <= mx →
  turns start mx len = turns (start + 2 ^ (32 - len)) mx len + 1.
Proof.
  intros Hl Hle. unfold turns. rewrite (proj2 (Z.leb_le _ _)) by done.
  pose proof (Z.pow_pos_nonneg 2 (32 - len)) as Hs.
  destruct (Z.leb_spec (start + 2 ^ (32 - len)) mx).
  - replace (mx - start) with (mx - (start + 2 ^ (32 - len)) + 1 * 2 ^ (32 - len)) by lia.
    rewrite Z.div_add by lia. lia.
  - rewrite Z.div_small by lia. lia.
Qed.

Lemma candidate_next start mx len leases x : 0 <= len <= 32 →
  candidate (start + 2 ^ (32 - len)) mx len leases x → candidate start mx len leases x.
Proof.
  intros Hl ((k & Hk & ->) & H). split; [|done]. exists (k + 1). split; [lia|ring].
Qed.

Lemma candidate_first start mx len leases x : 0 <= len <= 32 → candidate start mx len leases x →
  x = start ∨ candidate (start + 2 ^ (32 - len)) mx len leases x.
Proof.
  intros Hl ((k & Hk & ->) & H). destruct (decide (k = 0)) as [->|]; [left; lia|].
  right. split; [|done]. exists (k - 1). split; [lia|ring].
Qed.

Lemma available4_spec fuel mx leases start len avail : 0 <= len <= 32 → 0 <= start →
  mx + 2 ^ (32 - len) < 2 ^ 32 → turns start mx len <= Z.of_nat fuel →
  ∃ res, available4 fuel mx leases (mkIP4Net start len) avail = Some res ∧
    (∀ x, x ∈ res → x ∈ avail ∨ candidate start mx len leases x) ∧
    (∀ x, x ∈ avail → x ∈ res) ∧
    ((length res < 100)%nat → ∀ x, candidate start mx len leases x → x ∈ res).
Proof.
  intros Hl. revert start avail. pose proof (Z.pow_pos_nonneg 2 (32 - len)) as Hs.
  assert (∀ fuel start avail, ((start <=? mx) && (length avail <? 100)%nat) = false →
    ∃ res, available4 fuel mx leases (mkIP4Net start len) avail = Some res ∧
    (∀ x, x ∈ res → x ∈ avail ∨ candidate start mx len leases x) ∧
    (∀ x, x ∈ avail → x ∈ res) ∧
    ((length res < 100)%nat → ∀ x, candidate start mx len leases x → x ∈ res)) as Hstop.
  { intros f start avail E. exists avail. assert (available4 f mx leases (mkIP4Net start len) avail = Some avail) as ->.
    { destruct f; cbn [available4 IP4Net_IP]; by rewrite E. }
    split_and!; auto. intros Hlen x ((k & Hk & ->) & Hle & _). exfalso.
    apply andb_false_iff in E as [E|E]; [apply Z.leb_gt in E; nia|apply Nat.ltb_ge in E; lia]. }
  induction fuel as [|fuel IH]; intros start avail H0 Hmx Hf.
  - apply Hstop. unfold turns in Hf. destruct (Z.leb_spec start mx); [|done].
    pose proof (Z.div_pos (mx - start) (2 ^ (32 - len))). lia.
  - destruct ((start <=? mx) && (length avail <? 100)%nat) eqn:E; [|by apply Hstop].
    cbn [available4 IP4Net_IP]. rewrite E. apply andb_true_iff in E as [E _]. apply Z.leb_le in E.
    assert (IP4Net_ok (mkIP4Net start len)) as Hok by (split; [|cbn; lia]; unfold IP4_ok; cbn; lia).
    rewrite IP4Net_Next_ok by (done || (unfold IP4Net_size; cbn; lia)).
    change (IP4Net_IP (mkIP4Net start len) + IP4Net_size (mkIP4Net start len)) with (start + 2 ^ (32 - len)).
    change (IP4Net_PrefixLen (mkIP4Net start len)) with len.
    set (avail' := if overlaps_lease leases (mkIP4Net start len) then avail else avail ++ [start]).
    destruct (IH (start + 2 ^ (32 - len)) avail') as (res & -> & H1 & H2 & H3);
      [lia|done|rewrite turns_step in Hf by done; lia|].
    exists res. split; [done|]. unfold avail' in *. split_and!.
    + intros x Hx. apply H1 in Hx as [Hx|Hx]; [|right; by apply candidate_next].
      destruct (overlaps_lease leases (mkIP4Net start len)) eqn:Eo; [by left|].
      apply elem_of_app in Hx as [Hx|Hx%list_elem_of_singleton]; [by left|]. right. subst x.
      split; [exists 0; lia|done].
    + intros x Hx. apply H2. destruct (overlaps_lease _ _); [done|]. apply elem_of_app. by left.
    + intros Hlen x Hx. pose proof Hx as (_ & _ & Hfree). apply candidate_first in Hx as [->|Hx]; [|by apply H3|done].
      destruct (overlaps_lease leases (mkIP4Net start len)) eqn:Eo.
      * congruence.
      * apply H2, elem_of_app. right. by apply list_elem_of_singleton.
Qed.

(** ** What allocation promises *)

(** A validated IPv4-only configuration whose last subnet is not the top of the
    address space. *)
Definition alloc4_config (c : Config) : Prop :=
  cfg_EnableIPv6 c = false ∧ 0 <= cfg_SubnetMin c ∧ 0 < cfg_SubnetLen c <= 32 ∧
  cfg_SubnetMax c + 2 ^ (32 - cfg_SubnetLen c) < 2 ^ 32.

Definition alloc_fuel (c : Config) : Z := turns (cfg_SubnetMin c) (cfg_SubnetMax c) (cfg_SubnetLen c).

Definition free_subnet (c : Config) (leases : list Lease) (sn : IP4Net) : Prop :=
  IP4Net_PrefixLen sn = cfg_SubnetLen c ∧
  candidate (cfg_SubnetMin c) (cfg_SubnetMax c) (cfg_SubnetLen c) leases (IP4Net_IP sn).

Lemma randInt_index r (n : nat) : (0 < n)%nat → ∃ i, randInt r 0 (Z.of_nat n) = Ret i ∧ (Z.to_nat i < n)%nat.
Proof.
  intros Hn. unfold randInt. rewrite (proj2 (Z.leb_gt _ _)) by lia. eexists. split; [done|].
  pose proof (Z.mod_pos_bound (Z.of_nat r) (Z.of_nat n - 0)). lia.
Qed.

Lemma allocateSubnet_v4 fuel r4 r6 c leases : alloc4_config c → alloc_fuel c <= Z.of_nat fuel →
  (∃ sn, allocateSubnet fuel r4 r6 c leases = Ret (sn, mkIP6Net None 0) ∧ free_subnet c leases sn) ∨
  (allocateSubnet fuel r4 r6 c leases = Err (Errorf "out of subnets") ∧ ∀ sn, ¬ free_subnet c leases sn).
Proof.
  intros (E6 & H0 & Hl & Hmx) Hf. unfold allocateSubnet. rewrite E6.
  destruct (available4_spec fuel (cfg_SubnetMax c) leases (cfg_SubnetMin c) (cfg_SubnetLen c) [])
    as (res & -> & H1 & _ & H3); [lia|done|done|done|].
  change (IP6Net_Empty (mkIP6Net None 0)) with true. cbv iota. rewrite bind_Ret.
  change (IP6Net_Empty (mkIP6Net None 0)) with true. cbv iota.
  destruct (decide (length res = 0%nat)) as [Hlen|Hlen].
  - right. rewrite decide_True by (by left). split; [done|]. intros sn [_ Hc].
    apply H3 in Hc; [|lia]. apply nil_length_inv in Hlen. subst res. by apply not_elem_of_nil in Hc.
  - left. rewrite decide_False by (intros [?|[? _]]; [lia|done]).
    destruct (randInt_index r4 (length res)) as (i & -> & Hi); [lia|]. rewrite bind_Ret.
    destruct (lookup_lt_is_Some_2 res (Z.to_nat i) Hi) as [x Hx]. rewrite Hx. cbn [deref]. rewrite bind_Ret.
    eexists. split; [done|]. split; [done|]. cbn [IP4Net_IP].
    destruct (H1 x) as [Hn|Hc]; [by eapply list_elem_of_lookup_2|by apply not_elem_of_nil in Hn|done].
Qed.

(** A subnet of the configured length between the bounds, on the grid that starts
    at the first one, that shares no address with a lease. *)
Definition unleased (c : Config) (leases : list Lease) (sn : IP4Net) : Prop :=
  IP4Net_PrefixLen sn = cfg_SubnetLen c ∧
  (∃ k, 0 <= k ∧ IP4Net_IP sn = cfg_SubnetMin c + k * 2 ^ (32 - cfg_SubnetLen c)) ∧
  IP4Net_IP sn <= cfg_SubnetMax c ∧
  ∀ l a, l ∈ leases → IP4Net_addr sn a → ¬ IP4Net_addr (Subnet l) a.

Lemma overlaps_lease_addr leases sn : IP4Net_ok sn → Forall (λ l, IP4Net_ok (Subnet l)) leases →
  overlaps_lease leases sn = false ↔ ∀ l a, l ∈ leases → IP4Net_addr sn a → ¬ IP4Net_addr (Subnet l) a.
Proof.
  intros Hsn Hok. unfold overlaps_lease. induction Hok as [|l leases Hl _ IH]; cbn [existsb].
  - split; [|done]. intros _ l a Hl. by apply not_elem_of_nil in Hl.
  - rewrite orb_false_iff, IH, <- not_true_iff_false, IP4Net_Overlaps_share by done. split.
    + intros [H1 H2] l' a [->|Hin]%elem_of_cons Ha; [|by eapply H2]. intros Ha'. apply H1. by exists a.
    + intros H1. split; [|intros l' a Hin; apply H1; by right].
      intros (a & Ha & Ha'). by apply (H1 l a (list_elem_of_here _ _)).
Qed.

Lemma free_subnet_unleased c leases sn : alloc4_config c → Forall (λ l, IP4Net_ok (Subnet l)) leases →
  free_subnet c leases sn ↔ unleased c leases sn.
Proof.
  intros (_ & H0 & Hl & Hmx) Hok. unfold free_subnet, candidate, unleased.
  assert (IP4Net_PrefixLen sn = cfg_SubnetLen c → (∃ k, 0 <= k ∧ IP4Net_IP sn = cfg_SubnetMin c + k * 2 ^ (32 - cfg_SubnetLen c)) →
    IP4Net_IP sn <= cfg_SubnetMax c → (overlaps_lease leases (mkIP4Net (IP4Net_IP sn) (cfg_SubnetLen c)) = false ↔
    ∀ l a, l ∈ leases → IP4Net_addr sn a → ¬ IP4Net_addr (Subnet l) a)) as Heq.
  { intros Elen (k & Hk & Ek) Hle. rewrite <- Elen. replace (mkIP4Net _ _) with sn by (by destruct sn).
    apply overlaps_lease_addr; [|done]. pose proof (Z.pow_pos_nonneg 2 (32 - cfg_SubnetLen c)).
    split; [|lia]. split; [nia|lia]. }
  split; [intros (? & ? & ? & ?)|intros (? & ? & ? & ?)]; split_and!; try done; by apply Heq.
Qed.

(** C2: with an IPv4-only configuration (subnets of 1 to 32 bits, the last of them ending below
    the top of the address space) and leases of well-formed subnets, allocation ends and is exact: it returns a subnet of the configured length
    between the bounds that shares no address with any lease if there is one, and
    reports that it is out of subnets only if there is none.  (With the very last subnet of
    the address space the enumeration wraps around: see [allocateSubnet_wraps].) *)
Theorem allocateSubnet_correct fuel r4 r6 c leases : alloc4_config c → alloc_fuel c <= Z.of_nat fuel →
  Forall (λ l, IP4Net_ok (Subnet l)) leases →
  (∃ sn, allocateSubnet fuel r4 r6 c leases = Ret (sn, mkIP6Net None 0) ∧ unleased c leases sn) ∨
  (allocateSubnet fuel r4 r6 c leases = Err (Errorf "out of subnets") ∧ ∀ sn, ¬ unleased c leases sn).
Proof.
  intros Hc Hf Hok. destruct (allocateSubnet_v4 fuel r4 r6 c leases Hc Hf) as [(sn & E & Hfree)|(E & Hnone)].
  - left. exists sn. split; [done|]. by apply free_subnet_unleased.
  - right. split; [done|]. intros sn Hsn. apply (Hnone sn). by apply free_subnet_unleased.
Qed.

Definition small_config : Config :=
  set_SubnetLen 30 (set_SubnetMin 167772164 (set_SubnetMax 167772172 (net4_config (mkIP4Net 167772160 28)))).

Lemma allocateSubnet_correct_witness :
  let leases := [plain_lease 167772168 30 None] in
  (∃ sn, allocateSubnet 3 7 0 small_config leases = Ret (sn, mkIP6Net None 0) ∧
         unleased small_config leases sn) ∨
  (allocateSubnet 3 7 0 small_config leases = Err (Errorf "out of subnets") ∧
   ∀ sn, ¬ unleased small_config leases sn).
Proof.
  apply allocateSubnet_correct; [repeat split; cbn; lia|vm_compute; done|].
  constructor; [|constructor]. repeat split; vm_compute; congruence.
Defined.

(** When the last subnet is the top of the address space the candidate loop
    wraps around instead of ending, and a full network yields a subnet outside it. *)
Theorem allocateSubnet_wraps : ∃ c leases fuel sn sn6,
  CheckNetworkConfig (net4_config (mkIP4Net 4294967280 28)) = (Ret tt, c) ∧
  allocateSubnet fuel 0 0 c leases = Ret (sn, sn6) ∧ IP4Net_Contains (cfg_Network c) (IP4Net_IP sn) = false.
Proof.
  exists (set_SubnetLen 30 (set_SubnetMin 4294967284 (set_SubnetMax 4294967292
            (net4_config (mkIP4Net 4294967280 28))))),
    [plain_lease 4294967280 28 None], 103%nat, (mkIP4Net 0 30), (mkIP6Net None 0).
  split; [vm_compute; reflexivity|]. split; vm_compute; reflexivity.
Qed.

(** ** Acquiring among other nodes

    [held] is the abstract content of the registry, [other] what the other
    nodes may do to it between two calls of this one.  The laws are what the
    store documents: a successful [createSubnet] found its key absent, and a
    failed call may or may not have taken effect.  Subnets are kept under one key, in
    which all empty IPv6 subnets are one. *)

Definition store_key (sn : IP4Net) (sn6 : IP6Net) : IP4Net * IP6Net :=
  (sn, if IP6Net_Empty sn6 then mkIP6Net None 0 else sn6).
Abbreviation subnets := (gmap (IP4Net * IP6Net) LeaseAttrs).

Class RegistryLaws (W : Type) `{Registry W} := {
  held : W → subnets;
  other : subnets → subnets → Prop;
  law_getNetworkConfig s : other (held s) (held (getNetworkConfig s).2);
  law_getSubnets s : ∃ m, other (held s) m ∧ held (getSubnets s).2 = m ∧
    ∀ ls rev, (getSubnets s).1 = Ret (ls, rev) →
      ∀ l, l ∈ ls → m !! store_key (Subnet l) (IPv6Subnet l) = Some (Attrs l);
  law_createSubnet sn sn6 a ttl s : ∃ m, other (held s) m ∧
    match createSubnet sn sn6 a ttl s with
    | (Ret _, s') => m !! store_key sn sn6 = None ∧ held s' = <[store_key sn sn6 := a]> m
    | (_, s') => held s' = m ∨ (m !! store_key sn sn6 = None ∧ held s' = <[store_key sn sn6 := a]> m)
    end;
  law_updateSubnet sn sn6 a ttl asof s : ∃ m, other (held s) m ∧
    match updateSubnet sn sn6 a ttl asof s with
    | (Ret _, s') => held s' = <[store_key sn sn6 := a]> m
    | (_, s') => held s' = m ∨ held s' = <[store_key sn sn6 := a]> m
    end;
  law_deleteSubnet sn sn6 s : ∃ m, other (held s) m ∧
    match deleteSubnet sn sn6 s with
    | (Ret _, s') => held s' = delete (store_key sn sn6) m
    | (_, s') => held s' = m ∨ held s' = delete (store_key sn sn6) m
    end
}.

(** Every subnet held is a whole block of the configured length. *)
Definition subnet_of (c : Config) (k : IP4Net * IP6Net) : Prop :=
  IP4Net_ok k.1 ∧ IP4Net_aligned k.1 ∧ IP4Net_PrefixLen k.1 = cfg_SubnetLen c ∧ k.2 = mkIP6Net None 0.
Definition good_store (c : Config) (m : subnets) : Prop := ∀ k, k ∈ dom m → subnet_of c k.

(** Whole blocks of one length are equal or share no address. *)
Lemma good_disjoint c k k' : subnet_of c k → subnet_of c k' → k ≠ k' →
  IP4Net_Overlaps k.1 k'.1 = false.
Proof.
  intros (Hok & Ha & Hp & H6) (Hok' & Ha' & Hp' & H6') Hne.
  apply not_true_is_false. intros Ho. apply Hne.
  apply IP4Net_Overlaps_longer in Ho; [|done|done|lia].
  unfold IP4Net_addr, IP4Net_size in Ho. rewrite IP4Net_first_aligned in Ho by done.
  destruct k as [[a p] k6], k' as [[b q] k6']. cbn in *. subst.
  unfold IP4Net_aligned, IP4Net_size in Ha, Ha'. cbn in Ha, Ha'. destruct Hok as [_ ?].
  cbn in *. pose proof (Z.pow_pos_nonneg 2 (32 - cfg_SubnetLen c)).
  apply Z.mod_divide in Ha as [i ->]; [|lia]. apply Z.mod_divide in Ha' as [j ->]; [|lia].
  assert (i = j) as -> by nia. done.
Qed.

Section acquire.
Context {W : Type} `{RegistryLaws W}.
Variables (m : LocalManager) (c : Config) (attrs : LeaseAttrs) (fuel : nat).
Hypothesis c_valid : ipv4_valid c.
Hypothesis c_alloc : alloc4_config c.
Hypothesis c_fuel : alloc_fuel c <= Z.of_nat fuel.
Hypothesis others_good : ∀ n n', other n n' → good_store c n → good_store c n'.
Hypothesis previous_good : IP4Net_ok (previousSubnet m) ∧ IP4Net_aligned (previousSubnet m).

Abbreviation good s := (good_store c (held s)).

(** A lease this configuration allows, held in the registry. *)
Definition acquired (l : Lease) (s : W) : Prop :=
  good s ∧ Attrs l = attrs ∧ held s !! store_key (Subnet l) (IPv6Subnet l) = Some attrs ∧
  cfg_SubnetMin c <= IP4Net_IP (Subnet l) <= cfg_SubnetMax c ∧
  IP4Net_PrefixLen (Subnet l) = cfg_SubnetLen c.

Lemma good_insert n k a : good_store c n → subnet_of c k → good_store c (<[k := a]> n).
Proof. intros Hn Hk j. rewrite dom_insert_L. set_solver. Qed.

Lemma good_delete n k : good_store c n → good_store c (delete k n).
Proof. intros Hn j. rewrite dom_delete_L. set_solver. Qed.

Lemma create_triple sn sn6 ttl : subnet_of c (store_key sn sn6) →
  triple (λ s, good s) (createSubnet sn sn6 attrs ttl)
    (λ _ s, good s ∧ held s !! store_key sn sn6 = Some attrs) (λ s, good s).
Proof.
  intros Hk s Hs. destruct (law_createSubnet sn sn6 attrs ttl s) as (n & Ho & Hr).
  apply others_good in Ho; [|done].
  destruct (createSubnet sn sn6 attrs ttl s) as [[exp|e|] s'].
  - destruct Hr as [_ ->]. split; [by apply good_insert|apply lookup_insert_eq].
  - destruct Hr as [->|[_ ->]]; [done|by apply good_insert].
  - destruct Hr as [->|[_ ->]]; [done|by apply good_insert].
Qed.

Lemma update_triple sn sn6 ttl asof : subnet_of c (store_key sn sn6) →
  triple (λ s, good s) (updateSubnet sn sn6 attrs ttl asof)
    (λ _ s, good s ∧ held s !! store_key sn sn6 = Some attrs) (λ s, good s).
Proof.
  intros Hk s Hs. destruct (law_updateSubnet sn sn6 attrs ttl asof s) as (n & Ho & Hr).
  apply others_good in Ho; [|done].
  destruct (updateSubnet sn sn6 attrs ttl asof s) as [[exp|e|] s'].
  - rewrite Hr. split; [by apply good_insert|apply lookup_insert_eq].
  - destruct Hr as [->| ->]; [done|by apply good_insert].
  - destruct Hr as [->| ->]; [done|by apply good_insert].
Qed.

Lemma delete_triple sn sn6 : triple (λ s, good s) (deleteSubnet sn sn6) (λ _ s, good s) (λ s, good s).
Proof.
  intros s Hs. destruct (law_deleteSubnet sn sn6 s) as (n & Ho & Hr). apply others_good in Ho; [|done].
  destruct (deleteSubnet sn sn6 s) as [[exp|e|] s']; [rewrite Hr|destruct Hr as [->| ->]..];
    try done; by apply good_delete.
Qed.

Lemma getSubnets_triple : triple (λ s, good s) getSubnets
  (λ r s, (∀ l, l ∈ r.1 → subnet_of c (store_key (Subnet l) (IPv6Subnet l))) ∧ good s) (λ s, good s).
Proof.
  intros s Hs. destruct (law_getSubnets s) as (n & Ho & Hn & Hl). apply others_good in Ho; [|done].
  destruct (getSubnets s) as [[[ls rev]|e|] s']; cbn in *; subst; [|done..].
  split; [|done]. intros l Hin. apply Ho, elem_of_dom. eauto.
Qed.

(** A subnet the configuration allows: within the bounds, of the right length. *)
Definition allowed (sn : IP4Net) : Prop :=
  cfg_SubnetMin c <= IP4Net_IP sn <= cfg_SubnetMax c ∧ IP4Net_PrefixLen sn = cfg_SubnetLen c.

Lemma free_subnet_of leases sn : free_subnet c leases sn →
  subnet_of c (sn, mkIP6Net None 0) ∧ allowed sn.
Proof.
  destruct sn as [x p]. intros [Hp ((k & Hk & Hx) & Hle & _)].
  cbn [IP4Net_IP IP4Net_PrefixLen] in *. subst p x.
  destruct c_valid as [Hlen _ _ Hal _], c_alloc as (_ & Hz & Hl & Hmx).
  pose proof (Z.pow_pos_nonneg 2 (32 - cfg_SubnetLen c)) as Hs.
  assert (0 <= k * 2 ^ (32 - cfg_SubnetLen c)) by (apply Z.mul_nonneg_nonneg; lia).
  unfold subnet_of, allowed, IP4Net_ok, IP4_ok, IP4Net_aligned, IP4Net_size.
  cbn [fst snd IP4Net_IP IP4Net_PrefixLen]. rewrite Z.mod_add by lia. by split_and!; lia || done.
Qed.

Lemma compat_allowed sn : isSubnetConfigCompat c sn = true → allowed sn.
Proof.
  unfold isSubnetConfigCompat. destruct (Z.ltb_spec (IP4Net_IP sn) (cfg_SubnetMin c)); [done|].
  destruct (Z.ltb_spec (cfg_SubnetMax c) (IP4Net_IP sn)); [done|]. cbn. rewrite Z.eqb_eq.
  intros ?. split; [lia|done].
Qed.

Lemma compat6_none sn6 : isIPv6SubnetConfigCompat c sn6 = Ret (IP6Net_Empty sn6).
Proof. unfold isIPv6SubnetConfigCompat. by destruct c_alloc as [-> _]. Qed.

Lemma choose_subnet_ok r4 r6 leases sn sn6 :
  choose_subnet m fuel r4 r6 c leases = Ret (sn, sn6) → subnet_of c (store_key sn sn6) ∧ allowed sn.
Proof.
  assert (allocateSubnet fuel r4 r6 c leases = Ret (sn, sn6) → subnet_of c (store_key sn sn6) ∧ allowed sn) as Halloc.
  { destruct (allocateSubnet_v4 fuel r4 r6 c leases c_alloc c_fuel) as [(sn' & -> & Hf)|[-> _]]; [|done].
    intros [= <- <-]. by eapply free_subnet_of. }
  unfold choose_subnet. destruct (IP4Net_Empty (previousSubnet m)) eqn:Ee; [exact Halloc|].
  destruct (findLeaseBySubnet leases (previousSubnet m)); [exact Halloc|].
  destruct (isSubnetConfigCompat c (previousSubnet m)) eqn:Ec; [|exact Halloc].
  cbn [and_then]. rewrite compat6_none, bind_Ret. destruct (IP6Net_Empty (previousIPv6Subnet m)) eqn:E6; [|exact Halloc].
  rewrite (bind_Ret (previousSubnet m, previousIPv6Subnet m)). cbv iota beta. rewrite Ee. intros [= <- <-].
  apply compat_allowed in Ec. split; [|done]. destruct previous_good. unfold store_key. rewrite E6. by split_and!; [..|apply Ec|].
Qed.

Lemma acquire_new_triple r4 r6 leases :
  triple (λ s, good s) (acquire_new m fuel r4 r6 c leases attrs) acquired (λ s, good s).
Proof.
  unfold acquire_new. eapply triple_bind.
  { apply (triple_lift _ _ (λ k s, choose_subnet m fuel r4 r6 c leases = Ret k ∧ good s)); auto. }
  intros [sn sn6]. apply triple_pure. intros [Hk Ha]%choose_subnet_ok. eapply triple_bind.
  { apply triple_try, (create_triple sn sn6 subnetTTL Hk). }
  intros [exp|e].
  - apply triple_ret. intros s [Hg Hh]. destruct Ha as [[??] ?]. by split_and!.
  - cbn beta iota. destruct (isErrEtcdNodeExist e); by apply triple_throw.
Qed.

Lemma tryAcquireLease_triple r4 r6 ext :
  triple (λ s, good s) (tryAcquireLease m fuel r4 r6 c ext attrs) acquired (λ s, good s).
Proof.
  unfold tryAcquireLease. eapply triple_bind; [apply getSubnets_triple|]. intros [leases rev].
  apply triple_pure. cbn. intros Hls.
  destruct (findLeaseByIP leases ext) as [l|] eqn:El; [|apply acquire_new_triple].
  assert (l ∈ leases) as Hl.
  { unfold findLeaseByIP in El. apply fmap_Some in El as ([i l'] & El & ->).
    apply list_find_Some in El as (El & _). by eapply list_elem_of_lookup_2. }
  eapply triple_bind.
  { apply (triple_lift _ _ (λ b s, (b = true → allowed (Subnet l)) ∧ good s)); [|auto].
    intros b s E Hg. split; [|done]. intros ->.
    destruct (isSubnetConfigCompat c (Subnet l)) eqn:Ec; [by apply compat_allowed|done]. }
  intros [|]; apply triple_pure; intros Ha.
  - specialize (Ha eq_refl). eapply triple_bind; [apply update_triple; by apply Hls|].
    intros exp. apply triple_ret. intros s [Hg Hh]. destruct Ha as [[??] ?]. by split_and!.
  - eapply triple_bind; [apply delete_triple|]. intros u. apply acquire_new_triple.
Qed.

Lemma acquire_loop_triple draws tries :
  triple (λ s, good s) (acquire_loop m fuel draws tries c attrs) acquired (λ s, good s).
Proof.
  revert draws. induction tries as [|tries IH]; intros draws; cbn [acquire_loop]; [by apply triple_throw|].
  destruct (default _ _) as [r4 r6]. eapply triple_bind; [apply triple_try, tryAcquireLease_triple|].
  intros [l|e]; cbn beta iota; [by apply triple_ret|]. case_decide; [apply IH|by apply triple_throw].
Qed.
End acquire.

(** C1: with a validated IPv4-only configuration whose last subnet ends below the top of the
    address space, no previous subnet or a well-formed aligned one, and a registry whose
    subnets are IPv4 blocks of the configured length: whatever the other nodes do between
    the calls, as long as they keep to the same configuration,
    acquiring a lease keeps the registry a set of subnets that share no address, even when it
    fails; a lease it returns lies within the configured bounds, has the configured
    length and is in the registry with the node's attributes.  With IPv6 on nothing is
    claimed: the registry's key is then the pair of subnets, and two nodes that race can get
    the same IPv4 subnet with different IPv6 ones. *)
Theorem acquire_safe W `{RegistryLaws W} m c attrs fuel draws tries :
  ipv4_valid c → alloc4_config c → alloc_fuel c <= Z.of_nat fuel →
  (∀ n n', other n n' → good_store c n → good_store c n') →
  IP4Net_ok (previousSubnet m) → IP4Net_aligned (previousSubnet m) →
  ∀ s r s', good_store c (held s) → acquire_loop m fuel draws tries c attrs s = (r, s') →
    (∀ k k', k ∈ dom (held s') → k' ∈ dom (held s') → k ≠ k' →
      ∀ a, IP4Net_addr k.1 a → ¬ IP4Net_addr k'.1 a) ∧
    ∀ l, r = Ret l → held s' !! store_key (Subnet l) (IPv6Subnet l) = Some attrs ∧ Attrs l = attrs ∧
      cfg_SubnetMin c <= IP4Net_IP (Subnet l) <= cfg_SubnetMax c ∧
      IP4Net_PrefixLen (Subnet l) = cfg_SubnetLen c.
Proof.
  intros Hv Ha Hf Hoth Hpo Hpa s r s' Hs E.
  pose proof (acquire_loop_triple m c attrs fuel Hv Ha Hf Hoth (conj Hpo Hpa) draws tries s Hs) as T.
  rewrite E in T. assert (good_store c (held s')) as Hg by (destruct r; [apply T|done..]).
  split; [|by intros l ->; destruct T as (_ & ? & ? & ? & ?)].
  intros k k' Hk Hk' Hne a Hx Hx'. pose proof (good_disjoint c k k' (Hg k Hk) (Hg k' Hk') Hne) as Hno.
  apply not_true_iff_false in Hno. apply Hno, IP4Net_Overlaps_share; [apply (Hg k Hk)|apply (Hg k' Hk')|by exists a].
Qed.

(** A registry kept in memory, with no other node: the laws can be met. *)
Record MemRegistry := mkMemRegistry { mem_config : string; mem_held : subnets; mem_now : Z }.

Definition mem_lease (now : Z) (p : IP4Net * IP6Net * LeaseAttrs) : Lease :=
  mkLease true (negb (IP6Net_Empty p.1.2)) p.1.1 p.1.2 p.2 (now + subnetTTL) 0.

Definition with_held (f : subnets → subnets) (s : MemRegistry) : MemRegistry :=
  mkMemRegistry (mem_config s) (f (mem_held s)) (mem_now s).

#[global] Instance mem_Registry : Registry MemRegistry := {
  getNetworkConfig := λ s, (Ret (mem_config s), s);
  getSubnets := λ s, (Ret (mem_lease (mem_now s) <$> filter (λ p, store_key p.1.1 p.1.2 = p.1) (map_to_list (mem_held s)), 0), s);
  getSubnet := λ sn sn6 s,
    match mem_held s !! store_key sn sn6 with
    | Some a => (Ret (mem_lease (mem_now s) (sn, sn6, a), 0), s)
    | None => (Err (Errorf "not found"), s)
    end;
  createSubnet := λ sn sn6 a ttl s,
    match mem_held s !! store_key sn sn6 with
    | Some _ => (Err errSubnetAlreadyexists, s)
    | None => (Ret (mem_now s + ttl), with_held <[store_key sn sn6 := a]> s)
    end;
  updateSubnet := λ sn sn6 a ttl _ s, (Ret (mem_now s + ttl), with_held <[store_key sn sn6 := a]> s);
  deleteSubnet := λ sn sn6 s, (Ret tt, with_held (delete (store_key sn sn6)) s)
}.

#[global] Instance mem_RegistryLaws : RegistryLaws MemRegistry.
Proof.
  refine {| held := mem_held; other := eq |}.
  - done.
  - intros s. eexists. split_and!; [done..|]. cbn. intros ls rev [= <- _] l Hl.
    apply list_elem_of_fmap in Hl as ([[sn sn6] a] & -> & Hin). apply list_elem_of_filter in Hin as [E Hin]. cbn in *. rewrite E.
    by apply elem_of_map_to_list.
  - intros sn sn6 a ttl s. exists (mem_held s). split; [done|]. cbn.
    destruct (mem_held s !! store_key sn sn6) eqn:E; [by left|done].
  - intros. eexists. split; [done|]. done.
  - intros. eexists. split; [done|]. done.
Defined.

Definition small_attrs : LeaseAttrs := mkLeaseAttrs 3232235777 None "vxlan" None None.
Definition small_manager : LocalManager := mkLocalManager (mkIP4Net 0 0) (mkIP6Net (Some 0) 0) 60.
Definition small_store : MemRegistry :=
  mkMemRegistry "" {[(mkIP4Net 167772164 30, mkIP6Net None 0) := mkLeaseAttrs 1 None "vxlan" None None]} 0.

Lemma acquire_safe_witness : ∃ r s',
  acquire_loop small_manager 3 [(5, 0)%nat] raceRetries small_config small_attrs small_store = (r, s') ∧
  (∀ k k', k ∈ dom (held s') → k' ∈ dom (held s') → k ≠ k' →
      ∀ a, IP4Net_addr k.1 a → ¬ IP4Net_addr k'.1 a) ∧
  ∀ l, r = Ret l → held s' !! store_key (Subnet l) (IPv6Subnet l) = Some small_attrs ∧ Attrs l = small_attrs ∧
    cfg_SubnetMin small_config <= IP4Net_IP (Subnet l) <= cfg_SubnetMax small_config ∧
    IP4Net_PrefixLen (Subnet l) = cfg_SubnetLen small_config.
Proof.
  destruct (acquire_loop small_manager 3 [(5, 0)%nat] raceRetries small_config small_attrs small_store)
    as [r s'] eqn:E. exists r, s'. split; [done|].
  apply (acquire_safe MemRegistry small_manager small_config small_attrs 3 [(5, 0)%nat] raceRetries)
    with (s := small_store).
  - constructor; [cbn; lia| | |reflexivity|reflexivity];
      (split; [vm_compute; discriminate|vm_compute; reflexivity]).
  - repeat split; cbn; lia.
  - vm_compute. discriminate.
  - by intros n n' ->.
  - repeat split; cbn; lia.
  - reflexivity.
  - intros k Hk. cbn in Hk. rewrite dom_singleton_L in Hk. apply elem_of_singleton in Hk as ->.
    repeat split; cbn; lia.
  - exact E.
Defined.

Lemma CompleteLease_ends_witness :
  match inl (mkComplete (set_Expiration 86400000000005 (plain_lease 167772164 30 None)) 82800000000000) with
  | inl st' => Subnet (myLease st') = mkIP4Net 167772164 30 ∧
      ∀ pre i, [TimerFires 5] = pre ++ [i] → scheduled small_manager st' (input_time i)
  | inr e => (EvtsClosed ∈ [TimerFires 5] ∧ e = errCanceled) ∨
      (∃ ev now, EvtReceived ev now ∈ [TimerFires 5] ∧ Event_Type ev = EventRemoved ∧ e = errInterrupted)
  end.
Proof.
  eapply (CompleteLease_ends MemRegistry small_manager (mkComplete (plain_lease 167772164 30 None) 5)
           [TimerFires 5] (mkMemRegistry "" ∅ 5)).
  vm_compute. reflexivity.
Defined.
