(* ===== verification/Registry.v ===== *)
(** * [pkg/subnet/etcd/registry.go]: leases in etcd

    The etcd client is an [EtcdClient]: a class of calls on a store [W], with
    what the server answers as records.  The registry's calls are translated on
    top of it, the two watch loops as steps of a state machine driven by what
    the [select] receives.  Lease attributes travel as JSON. *)

From Stdlib Require Import ZArith Lia Ascii.
From stdpp Require Import base strings list gmap numbers.
From S2P Require Import Prelude GoStrings GoRegexp GoJson GoNet GoNetFacts Ip4 Ip6 Lease Watch SubnetKey.
From S2P Require Import Config LocalManager.

Local Open Scope Z_scope.

(** ** [path.Join] *)

Definition clean_step (rooted : bool) (acc : list string) (c : string) : list string :=
  if decide (c = "" ∨ c = ".") then acc
  else if decide (c = "..") then
    match acc with
    | d :: acc' => if decide (d = "..") then c :: acc else acc'
    | [] => if rooted then [] else [c]
    end
  else c :: acc.

Definition path_Clean (p : string) : string :=
  let rooted := HasPrefix p "/" in
  let comps := rev (foldl (clean_step rooted) [] (split_char "/" p)) in
  let body := join "/" comps in
  if rooted then "/" +:+ body else if decide (body = "") then "." else body.

Definition path_Join (elems : list string) : string :=
  match filter (λ e, e ≠ "") elems with
  | [] => ""
  | es => path_Clean (join "/" es)
  end.

Example path_Join_ex : path_Join ["/coreos.com/network"; "subnets"; "10.5.1.0-24"] =
  "/coreos.com/network/subnets/10.5.1.0-24".
Proof. by vm_compute. Qed.

(** ** Lease attributes in JSON *)

(** A [RawMessage] member with [omitempty]. *)
Definition raw_member (name : string) (raw : RawMessage) : outcome (list string) :=
  match raw with
  | None | Some "" => Ret []
  | Some r => v ← json_compact r; Ret [member name v]
  end.

Definition LeaseAttrs_Marshal (a : LeaseAttrs) : outcome string :=
  data ← raw_member "BackendData" (BackendData a);
  data6 ← raw_member "BackendV6Data" (BackendV6Data a);
  let ms := [member "PublicIP" (IP4_MarshalJSON (PublicIP a));
             member "PublicIPv6" (match PublicIPv6 a with None => "null" | Some v => IP6_MarshalJSON v end)]
            ++ (if decide (BackendType a = "") then [] else [member "BackendType" (json_string (BackendType a))])
            ++ data ++ data6 in
  Ret (json_object ms).

Definition zero_attrs : LeaseAttrs := mkLeaseAttrs 0 None "" None None.

Definition LeaseAttrs_field (a : LeaseAttrs) (key raw : string) (v : json) : outcome LeaseAttrs :=
  if field_name "PublicIP" key then
    ip ← IP4_UnmarshalJSON raw;
    Ret (mkLeaseAttrs ip (PublicIPv6 a) (BackendType a) (BackendData a) (BackendV6Data a))
  else if field_name "PublicIPv6" key then
    ip ← decode_IP6_ptr raw v;
    Ret (mkLeaseAttrs (PublicIP a) ip (BackendType a) (BackendData a) (BackendV6Data a))
  else if field_name "BackendType" key then
    t ← decode_string (BackendType a) v;
    Ret (mkLeaseAttrs (PublicIP a) (PublicIPv6 a) t (BackendData a) (BackendV6Data a))
  else if field_name "BackendData" key then
    Ret (mkLeaseAttrs (PublicIP a) (PublicIPv6 a) (BackendType a) (Some raw) (BackendV6Data a))
  else if field_name "BackendV6Data" key then
    Ret (mkLeaseAttrs (PublicIP a) (PublicIPv6 a) (BackendType a) (BackendData a) (Some raw))
  else Ret a.

Definition LeaseAttrs_Unmarshal (s : string) : outcome LeaseAttrs :=
  Unmarshal_struct LeaseAttrs_field s zero_attrs.

Definition sample_attrs : LeaseAttrs :=
  mkLeaseAttrs 3232252931 None "vxlan" (Some (unquote "{'VNI':1,'VtepMAC':'c6:d2:32:6f:8f:44'}")) None.

Example attrs_text : LeaseAttrs_Marshal sample_attrs =
  Ret (unquote "{'PublicIP':'192.168.68.3','PublicIPv6':null,'BackendType':'vxlan','BackendData':{'VNI':1,'VtepMAC':'c6:d2:32:6f:8f:44'}}").
Proof. by vm_compute. Qed.
Example attrs_back : (LeaseAttrs_Marshal sample_attrs ≫= LeaseAttrs_Unmarshal) = Ret sample_attrs.
Proof. by vm_compute. Qed.

(** ** The etcd client *)

Record KeyValue := mkKeyValue { kv_Key : string; kv_Value : string; kv_Lease : Z; kv_ModRevision : Z }.
Record GetResponse := mkGetResponse { Kvs : list KeyValue; Get_Revision : Z }.
Inductive EtcdEventType := EventTypePut | EventTypeDelete.
Record EtcdEvent := mkEtcdEvent { ev_Type : EtcdEventType; ev_Kv : KeyValue }.
Record WatchResponse := mkWatchResponse {
  wr_Events : list EtcdEvent;
  wr_Revision : Z;
  wr_CompactRevision : Z;
  wr_Err : option error
}.

Definition ErrGRPCKeyNotFound : error := Sentinel "etcdserver: key not found".
Definition ErrCompacted : error := Sentinel "etcdserver: mvcc: required revision has been compacted (client)".
Definition errConfigNotFound : error :=
  Sentinel "flannel config not found in etcd store. Did you create your config using etcdv3 API?".

Class EtcdClient (W : Type) := {
  etcd_Get : string → M W GetResponse;
  etcd_GetPrefix : string → M W GetResponse;
  etcd_TimeToLive : Z → M W Z;
  etcd_Grant : Z → M W (Z * Z);
  etcd_Revoke : Z → M W unit;
  etcd_TxnPutIfAbsent : string → string → Z → M W bool;
  etcd_Put : string → string → Z → M W unit;
  etcd_Delete : string → M W unit;
  time_Now : M W Z
}.

Section registry.
Context {W : Type} `{EtcdClient W}.
Variable etcdPrefix : string.

Definition etcd_getNetworkConfig : M W string :=
  let key := path_Join [etcdPrefix; "config"] in
  resp ← etcd_Get key;
  match Kvs resp with
  | [] => throw errConfigNotFound
  | kv :: _ => mret (kv_Value kv)
  end.

Definition subnet_path (sn : IP4Net) (sn6 : IP6Net) : outcome string :=
  k ← MakeSubnetKey sn sn6; Ret (path_Join [etcdPrefix; "subnets"; k]).

Definition kvToIPLease (kv : KeyValue) (ttl : Z) : M W Lease :=
  k ← lift (ParseSubnetKey (kv_Key kv));
  match k with
  | None => throw (Errorf "failed to parse subnet key %s")
  | Some (sn, tsn6) =>
      let sn6 := default (mkIP6Net None 0) tsn6 in
      attrs ← lift (LeaseAttrs_Unmarshal (kv_Value kv));
      now ← time_Now;
      mret (mkLease true (negb (IP6Net_Empty sn6)) sn sn6 attrs (now + ttl * second) (kv_ModRevision kv))
  end.

(** The loop over the keys found: what cannot be read is skipped. *)
Fixpoint kvs_to_leases (kvs : list KeyValue) : M W (list Lease) :=
  match kvs with
  | [] => mret []
  | kv :: kvs =>
      r ← try (ttl ← etcd_TimeToLive (kv_Lease kv); kvToIPLease kv ttl);
      ls ← kvs_to_leases kvs;
      match r with
      | inl l => mret (l :: ls)
      | inr _ => mret ls
      end
  end.

Definition etcd_getSubnets : M W (list Lease * Z) :=
  let key := path_Join [etcdPrefix; "subnets"] in
  r ← try (etcd_GetPrefix key);
  match r with
  | inr e => if decide (e = ErrGRPCKeyNotFound) then mret ([], 0) else throw e
  | inl resp => leases ← kvs_to_leases (Kvs resp); mret (leases, Get_Revision resp)
  end.

Definition etcd_getSubnet (sn : IP4Net) (sn6 : IP6Net) : M W (Lease * Z) :=
  key ← lift (subnet_path sn sn6);
  resp ← etcd_Get key;
  match Kvs resp with
  | [] => throw ErrGRPCKeyNotFound
  | kv :: _ =>
      ttl ← etcd_TimeToLive (kv_Lease kv);
      l ← kvToIPLease kv ttl;
      mret (l, Get_Revision resp)
  end.

(** Revoke a lease; a failure is only logged. *)
Definition revoke (id : Z) : M W unit := r ← try (etcd_Revoke id); mret tt.

Definition etcd_createSubnet (sn : IP4Net) (sn6 : IP6Net) (attrs : LeaseAttrs) (ttl : Z) : M W Z :=
  key ← lift (subnet_path sn sn6);
  value ← lift (LeaseAttrs_Marshal attrs);
  '(id, granted) ← etcd_Grant (ttl / second);
  r ← try (etcd_TxnPutIfAbsent key value id);
  match r with
  | inr e => revoke id;; throw e
  | inl false => revoke id;; throw errSubnetAlreadyexists
  | inl true => now ← time_Now; mret (now + granted * second)
  end.

Definition etcd_updateSubnet (sn : IP4Net) (sn6 : IP6Net) (attrs : LeaseAttrs) (ttl asof : Z) : M W Z :=
  key ← lift (subnet_path sn sn6);
  value ← lift (LeaseAttrs_Marshal attrs);
  '(id, granted) ← etcd_Grant (ttl / second);
  r ← try (etcd_Put key value id);
  match r with
  | inr e => revoke id;; throw e
  | inl _ => now ← time_Now; mret (now + granted * second)
  end.

Definition etcd_deleteSubnet (sn : IP4Net) (sn6 : IP6Net) : M W unit :=
  key ← lift (subnet_path sn sn6);
  etcd_Delete key.

#[global] Instance etcd_Registry : Registry W := {
  getNetworkConfig := etcd_getNetworkConfig;
  getSubnets := etcd_getSubnets;
  getSubnet := etcd_getSubnet;
  createSubnet := etcd_createSubnet;
  updateSubnet := etcd_updateSubnet;
  deleteSubnet := etcd_deleteSubnet
}.

(** ** Watching *)

Definition parseSubnetWatchResponse (ev : EtcdEvent) : M W Event :=
  k ← lift (ParseSubnetKey (kv_Key (ev_Kv ev)));
  match k with
  | None => throw (Errorf "%v %q: not a subnet, skipping")
  | Some (sn, tsn6) =>
      let sn6 := default (mkIP6Net None 0) tsn6 in
      match ev_Type ev with
      | EventTypeDelete =>
          mret (mkEvent EventRemoved
                  (mkLease true (negb (IP6Net_Empty sn6)) sn sn6 zero_attrs zero_time 0))
      | EventTypePut =>
          attrs ← lift (LeaseAttrs_Unmarshal (kv_Value (ev_Kv ev)));
          ttl ← etcd_TimeToLive (kv_Lease (ev_Kv ev));
          now ← time_Now;
          mret (mkEvent EventAdded
                  (mkLease true (negb (IP6Net_Empty sn6)) sn sn6 attrs (now + ttl * second) 0))
      end
  end.

Definition leasesWatchReset : M W LeaseWatchResult :=
  r ← try etcd_getSubnets;
  match r with
  | inr e => throw (Wrapf "failed to retrieve subnet leases: %v" e)
  | inl (leases, index) => mret (mkLeaseWatchResult [] leases (Some index))
  end.

Definition isCompacted (wresp : WatchResponse) : bool :=
  negb (wr_CompactRevision wresp =? 0) || bool_decide (wr_Err wresp = Some ErrCompacted).

(** Re-list and send the snapshot; the revision to resume from. *)
Definition resyncWatch : M W (LeaseWatchResult * Z) :=
  wr ← leasesWatchReset;
  next ← lift (getNextIndex (Cursor wr));
  mret (wr, next).

Definition resyncWatchSubnet (sn : IP4Net) (sn6 : IP6Net) : M W (LeaseWatchResult * Z) :=
  key ← lift (subnet_path sn sn6);
  resp ← etcd_Get key;
  wr ← (match Kvs resp with
        | [] =>
            mret (mkLeaseWatchResult
              [mkEvent EventRemoved
                 (mkLease true (negb (IP6Net_Empty sn6)) sn sn6 zero_attrs zero_time 0)]
              [] (Some (Get_Revision resp)))
        | kv :: _ =>
            ttl ← etcd_TimeToLive (kv_Lease kv);
            l ← kvToIPLease kv ttl;
            mret (mkLeaseWatchResult [] [l] (Some (Get_Revision resp)))
        end);
  next ← lift (getNextIndex (Cursor wr));
  mret (wr, next).

Definition zero_result : LeaseWatchResult := mkLeaseWatchResult [] [] None.

(** The result of a snapshot taken in the middle of a batch; a failure is only logged. *)
Definition reset_result : M W LeaseWatchResult :=
  r ← try leasesWatchReset;
  mret (match r with inl wr => wr | inr _ => zero_result end).

Definition watchSubnets_event (revision : Z) (ev : EtcdEvent) : M W LeaseWatchResult :=
  r ← try (parseSubnetWatchResponse ev);
  match r with
  | inl e => mret (mkLeaseWatchResult [e] [] (Some revision))
  | inr e =>
      if isIndexTooSmall e then reset_result
      else if negb (revision =? 0) then mret (mkLeaseWatchResult [] [] (Some revision))
      else mret zero_result
  end.

Definition watchSubnet_event (revision : Z) (ev : EtcdEvent) : M W (list LeaseWatchResult) :=
  r ← try (parseSubnetWatchResponse ev);
  match r with
  | inl e => mret [mkLeaseWatchResult [e] [] (Some revision)]
  | inr e => if isIndexTooSmall e then wr ← reset_result; mret [wr] else mret []
  end.

Fixpoint mapM_events {A} (f : EtcdEvent → M W A) (evs : list EtcdEvent) : M W (list A) :=
  match evs with
  | [] => mret []
  | ev :: evs => a ← f ev; rest ← mapM_events f evs; mret (a :: rest)
  end.

(** What the loops wait for, the resume revision and the backoff.  While a
    re-list is retried the loop only waits for its timer and the context; the
    timer is not running while it watches. *)
Definition initialBackoff : Z := 100 * 1000000.
Definition maxBackoff : Z := 5 * second.
Definition next_backoff (b : Z) : Z := Z.min (b * 2) maxBackoff.

Inductive watch_mode := Watching | Resyncing.
Record watch_state := mkWatchState { since : Z; backoff : Z; mode : watch_mode }.
Definition watch_start (since : Z) : watch_state := mkWatchState since initialBackoff Watching.

Inductive watch_input :=
| NilChannel
| CtxDone (err : error)
| Response (ok : bool) (wresp : WatchResponse)
| TimerExpired.

(** A step: what is sent on the channel, and the next state or the error returned. *)
Abbreviation watch_result := (list (list LeaseWatchResult) * (watch_state + error))%type.

(** One attempt to re-list after a compaction. *)
Definition resync_attempt (st : watch_state) : M W watch_result :=
  r ← try resyncWatch;
  match r with
  | inl (wr, next) => mret ([[wr]], inl (mkWatchState next initialBackoff Watching))
  | inr _ => mret ([], inl (mkWatchState (since st) (backoff st) Resyncing))
  end.

Definition failed (ok : bool) (wresp : WatchResponse) : bool :=
  negb ok || bool_decide (is_Some (wr_Err wresp)).

(** The revision after a good response. *)
Definition advance (st : watch_state) (wresp : WatchResponse) : watch_state :=
  mkWatchState (if wr_Revision wresp =? 0 then since st else wr_Revision wresp + 1) initialBackoff Watching.

Definition watchSubnets_step (st : watch_state) (i : watch_input) : M W watch_result :=
  match i, mode st with
  | CtxDone err, _ => mret ([], inr err)
  | TimerExpired, Resyncing =>
      resync_attempt (mkWatchState (since st) (next_backoff (backoff st)) Resyncing)
  | _, Resyncing => mret ([], inl st)
  | TimerExpired, Watching => mret ([], inl st)
  | NilChannel, Watching => mret ([], inl (mkWatchState (since st) (next_backoff (backoff st)) Watching))
  | Response ok wresp, Watching =>
      if failed ok wresp then
        if isCompacted wresp then resync_attempt st
        else mret ([], inl (mkWatchState (since st) (next_backoff (backoff st)) Watching))
      else
        results ← mapM_events (watchSubnets_event (wr_Revision wresp)) (wr_Events wresp);
        mret (if decide (results = []) then [] else [results], inl (advance st wresp))
  end.

Definition watchSubnet_step (sn : IP4Net) (sn6 : IP6Net) (st : watch_state) (i : watch_input)
    : M W watch_result :=
  match i with
  | CtxDone err => mret ([], inr err)
  | NilChannel => mret ([], inl (mkWatchState (since st) (next_backoff (backoff st)) Watching))
  | TimerExpired => mret ([], inl st)
  | Response ok wresp =>
      if failed ok wresp then
        if isCompacted wresp then
          r ← try (resyncWatchSubnet sn sn6);
          match r with
          | inl (wr, next) => mret ([[wr]], inl (mkWatchState next initialBackoff Watching))
          | inr _ => mret ([], inl (mkWatchState (since st) (next_backoff (backoff st)) Watching))
          end
        else mret ([], inl (mkWatchState (since st) (next_backoff (backoff st)) Watching))
      else
        results ← mapM_events (watchSubnet_event (wr_Revision wresp)) (wr_Events wresp);
        let batch := concat results in
        mret (if decide (batch = []) then [] else [batch], inl (advance st wresp))
  end.

(** The loops, over what they receive. *)
Fixpoint watch_loop (step : watch_state → watch_input → M W watch_result) (st : watch_state)
    (inputs : list watch_input) : M W watch_result :=
  match inputs with
  | [] => mret ([], inl st)
  | i :: inputs =>
      '(sent, next) ← step st i;
      match next with
      | inr e => mret (sent, inr e)
      | inl st => '(sent', last) ← watch_loop step st inputs; mret (sent ++ sent', last)
      end
  end.

Definition watchSubnets (since : Z) (inputs : list watch_input) : M W watch_result :=
  watch_loop watchSubnets_step (watch_start since) inputs.
Definition watchSubnet (since : Z) (sn : IP4Net) (sn6 : IP6Net) (inputs : list watch_input)
    : M W watch_result :=
  watch_loop (watchSubnet_step sn sn6) (watch_start since) inputs.

(** [LocalManager.WatchLeases] and [LocalManager.WatchLease]: a snapshot, then the watch. *)
Definition LocalManager_WatchLeases (inputs : list watch_input) : M W watch_result :=
  wr ← leasesWatchReset;
  next ← lift (getNextIndex (Cursor wr));
  '(sent, last) ← watchSubnets next inputs;
  mret ([wr] :: sent, last).

Definition LocalManager_WatchLease (sn : IP4Net) (sn6 : IP6Net) (inputs : list watch_input)
    : M W watch_result :=
  wr ← leaseWatchReset sn sn6;
  next ← lift (getNextIndex (Cursor wr));
  '(sent, last) ← watchSubnet next sn sn6 inputs;
  mret ([wr] :: sent, last).
End registry.

(** ** The watch loops *)

Lemma next_backoff_range b : initialBackoff <= b <= maxBackoff → initialBackoff <= next_backoff b <= maxBackoff.
Proof. unfold next_backoff, initialBackoff, maxBackoff, second. lia. Qed.

Section watching.
Context {W : Type} `{EtcdClient W}.
Variable etcdPrefix : string.

Definition watch_ok (st : watch_state) : Prop := initialBackoff <= backoff st <= maxBackoff.

(** What an etcd event says: its key is a subnet, a deletion removes the subnet's lease
    and a put adds it with the attributes of the value. *)
Definition event_says (ev : EtcdEvent) (e : Event) : Prop :=
  ∃ sn tsn6, ParseSubnetKey (kv_Key (ev_Kv ev)) = Ret (Some (sn, tsn6)) ∧
    Subnet (Event_Lease e) = sn ∧ IPv6Subnet (Event_Lease e) = default (mkIP6Net None 0) tsn6 ∧
    match ev_Type ev with
    | EventTypeDelete => Event_Type e = EventRemoved
    | EventTypePut => Event_Type e = EventAdded ∧
        LeaseAttrs_Unmarshal (kv_Value (ev_Kv ev)) = Ret (Attrs (Event_Lease e))
    end.

(** What the watch passes on for an event of a response: the event with the revision of
    the response, or a result without events if the event cannot be read. *)
Definition passed_on (revision : Z) (ev : EtcdEvent) (wr : LeaseWatchResult) : Prop :=
  (∃ e, event_says ev e ∧ Events wr = [e] ∧ Cursor wr = Some revision) ∨
  (Events wr = [] ∧ ∃ e s s', parseSubnetWatchResponse ev s = (Err e, s')).

(** A response that the watch takes, from a live channel. *)
Definition good_response (st : watch_state) (i : watch_input) (wresp : WatchResponse) : Prop :=
  i = Response true wresp ∧ wr_Err wresp = None ∧ mode st = Watching.

(** What a step sends and how it moves the revision the watch resumes from: a good response
    is passed on, an event a result and in order, and the watch resumes past it; a re-list
    sends what the registry holds, and the watch resumes past that; anything else sends
    nothing and leaves the revision. *)
Definition resumes (st : watch_state) (i : watch_input) (s : W) (sent : list (list LeaseWatchResult))
    (st' : watch_state) (s' : W) : Prop :=
  (sent = [] ∧ since st' = since st ∧ ∀ wresp, ¬ good_response st i wresp) ∨
  (∃ wresp, good_response st i wresp ∧ Forall2 (passed_on (wr_Revision wresp)) (wr_Events wresp) (concat sent) ∧
     (length sent <= 1)%nat ∧ ([] ∉ sent) ∧
     since st' = if wr_Revision wresp =? 0 then since st else wr_Revision wresp + 1) ∨
  (∃ leases rev, sent = [[mkLeaseWatchResult [] leases (Some rev)]] ∧
     etcd_getSubnets etcdPrefix s = (Ret (leases, rev), s') ∧ since st' = rev + 1 ∧
     ∀ wresp, ¬ good_response st i wresp).

Lemma parsed_says ev s e s' : parseSubnetWatchResponse ev s = (Ret e, s') → event_says ev e.
Proof.
  unfold parseSubnetWatchResponse, event_says. intros E. apply M_bind_inv in E as (k & s1 & Ek & E). apply lift_inv in Ek as [Ek ->].
  destruct k as [[sn tsn6]|]; [|done]. exists sn, tsn6. split; [done|]. destruct (ev_Type ev).
  - apply M_bind_inv in E as (at' & s2 & Ea & E). apply lift_inv in Ea as [Ea ->]. by run_inv.
  - by run_inv.
Qed.

Lemma event_passed revision ev s wr s' : watchSubnets_event etcdPrefix revision ev s = (Ret wr, s') → passed_on revision ev wr.
Proof.
  unfold watchSubnets_event, passed_on. rewrite run_try_cases. destruct (parseSubnetWatchResponse ev s) as [[e|e|] s1] eqn:Ep; [| |done].
  - intros [= <- <-]. left. exists e. split; [by eapply parsed_says|done].
  - intros E. right. split; [|by eauto]. destruct (isIndexTooSmall e); [|by destruct (negb _); run_inv].
    unfold reset_result in E. rewrite run_try_cases in E. destruct (leasesWatchReset etcdPrefix s1) as [[r|e'|] s2] eqn:Er; [|by run_inv|done].
    unfold leasesWatchReset in Er. rewrite run_try_cases in Er. destruct (etcd_getSubnets etcdPrefix s1) as [[[ls i]|e'|] s3]; [|done..].
    by run_inv.
Qed.

Lemma events_passed revision evs s results s' :
  mapM_events (watchSubnets_event etcdPrefix revision) evs s = (Ret results, s') → Forall2 (passed_on revision) evs results.
Proof.
  revert s results. induction evs as [|ev evs IH]; intros s results E; cbn [mapM_events] in E; [by run_inv|].
  apply M_bind_inv in E as (wr & s1 & Ee & E). apply M_bind_inv in E as (rest & s2 & Er & E). run_inv.
  constructor; [by eapply event_passed|by eapply IH].
Qed.

Lemma resync_attempt_inv st i s sent st' s' : watch_ok st → (∀ wresp, ¬ good_response st i wresp) →
  resync_attempt etcdPrefix st s = (Ret (sent, inl st'), s') → watch_ok st' ∧ resumes st i s sent st' s'.
Proof.
  intros Hst Hi E. unfold resync_attempt, resyncWatch, leasesWatchReset in E. rewrite run_try_cases in E.
  match type of E with context [match ?m s with _ => _ end] => destruct (m s) as [[[wr next]|e|] s1] eqn:Er end;
    [|by run_inv; split; [|left]|done]. run_inv.
  split; [split; by vm_compute|]. right. right.
  match goal with Et : try _ s = _ |- _ => unfold try in Et end.
  destruct (etcd_getSubnets etcdPrefix s) as [[[ls rev]|e|] s3] eqn:El; [|by run_inv|done].
  run_inv. injection H3 as <- <-. cbn in H1. injection H1 as <-. by exists ls, rev.
Qed.

Lemma watchSubnets_step_inv st i s sent st' s' : watch_ok st →
  watchSubnets_step etcdPrefix st i s = (Ret (sent, inl st'), s') → watch_ok st' ∧ resumes st i s sent st' s'.
Proof.
  intros Hst E. unfold watchSubnets_step in E. pose proof (next_backoff_range _ Hst) as Hn.
  assert (mode st = Watching ∨ mode st = Resyncing) as [Hm|Hm] by (destruct (mode st); auto); rewrite Hm in E.
  - destruct i as [|err|ok wresp|]; [| done | |].
    + run_inv. split; [done|]. left. by split_and!; [..|intros ? []].
    + destruct (failed ok wresp) eqn:Ef.
      * assert (∀ wresp', ¬ good_response st (Response ok wresp) wresp') as Hno.
        { intros w' (E' & En & _). simplify_eq. unfold failed in Ef. by rewrite En in Ef. }
        destruct (isCompacted wresp); [by eapply resync_attempt_inv|]. run_inv. split; [done|by left].
      * apply M_bind_inv in E as (results & s1 & Er & E). apply events_passed in Er. run_inv.
        split; [split; by vm_compute|]. right. left. exists wresp.
        apply orb_false_iff in Ef as [Eo Ee]. apply negb_false_iff in Eo. apply bool_decide_eq_false in Ee.
        split; [split; [by rewrite Eo|split; [by apply eq_None_not_Some|done]]|].
        split; [by case_decide; [subst|cbn; rewrite app_nil_r]|]. split; [case_decide; cbn; lia|].
        split; [|done]. case_decide; [apply not_elem_of_nil|]. by intros ?%list_elem_of_singleton.
    + run_inv. split; [done|]. left. by split_and!; [..|intros ? []].
  - assert (∀ wresp, ¬ good_response st i wresp) as Hno by (intros wr (_ & _ & E'); congruence).
    destruct i; run_inv; try (split; [done|by left]).
    destruct (resync_attempt_inv (mkWatchState (since st) (next_backoff (backoff st)) Resyncing) TimerExpired s sent st' s') as [Hok Hr];
      [done|by intros ? []|done|]. split; [done|].
    destruct Hr as [(? & ? & _)|[(? & (E' & _) & _)|(ls & rev & ? & ? & ? & _)]]; [by left|done|right; right; by exists ls, rev].
Qed.
End watching.

(** C19: a step of the subnet watch that goes on keeps the delay between 100 ms and 5 s and
    skips nothing: of a good response every event is passed on, in order and in one message
    (a put as an added lease with the attributes of its value, a deletion as a removed one, an
    event that cannot be read as a result without events), and the watch then resumes
    one past the revision of the response (where it was, if that has none); after a re-list
    it has sent all leases of the registry and resumes one past their revision; in all
    other cases nothing is sent and the revision stays. *)
Theorem watchSubnets_resumes W `{EtcdClient W} prefix st i s sent st' s' : watch_ok st →
  watchSubnets_step prefix st i s = (Ret (sent, inl st'), s') →
  watch_ok st' ∧ resumes prefix st i s sent st' s'.
Proof. apply watchSubnets_step_inv. Qed.

(** When a watch response cannot be read (a key that is not a subnet, a value
    that is not JSON, a lease whose time to live is gone), [watchSubnets] passes on
    a result with neither events nor snapshot, and the lease watcher takes it for an
    empty snapshot: it reports every lease it holds as removed. *)
Theorem bad_event_drops_leases W `{EtcdClient W} prefix revision ev s e s' lw :
  parseSubnetWatchResponse ev s = (Err e, s') → isIndexTooSmall e = false →
  ∃ wr, watchSubnets_event prefix revision ev s = (Ret wr, s') ∧
    ∀ own b4 b6, own_mode b6 own → LeaseWatcher_wf b4 b6 own lw →
      WatchLeases_step lw wr =
        Ret (mkEvent EventRemoved <$> Leases lw, mkLeaseWatcher (OwnLease lw) []).
Proof.
  intros E Hi. unfold watchSubnets_event.
  exists (if negb (revision =? 0) then mkLeaseWatchResult [] [] (Some revision) else zero_result). split.
  - unfold try, mbind, M_bind. rewrite E, Hi. by destruct (revision =? 0).
  - intros own b4 b6 Ho (Hown & Hm & Hnd). unfold WatchLeases_step.
    assert (Events (if negb (revision =? 0) then mkLeaseWatchResult [] [] (Some revision) else zero_result) = [])
      as -> by (by destruct (revision =? 0)).
    assert (Snapshot (if negb (revision =? 0) then mkLeaseWatchResult [] [] (Some revision) else zero_result) = [])
      as -> by (by destruct (revision =? 0)).
    rewrite decide_True by done. unfold LeaseWatcher_Reset. by rewrite Hown.
Qed.

(** ** Creating a subnet is all or nothing

    What etcd documents of leases and transactions: a granted id is new, the
    transaction puts the key exactly when it was absent, revoking a lease deletes
    the keys attached to it, and a call that fails may have taken effect. *)

Abbreviation kv_store := (gmap string (string * Z)).

Definition drop_lease (id : Z) (m : kv_store) : kv_store := filter (λ p, p.2.2 ≠ id) m.

Class EtcdLaws (W : Type) `{EtcdClient W} := {
  kvs_of : W → kv_store;
  live : W → gset Z;
  law_Now s : ∃ now, time_Now s = (Ret now, s);
  law_Grant ttl s :
    match etcd_Grant ttl s with
    | (Ret (id, _), s') => id ≠ 0 ∧ (id ∉ live s) ∧ live s' = {[id]} ∪ live s ∧ kvs_of s' = kvs_of s
    | (_, s') => live s' = live s ∧ kvs_of s' = kvs_of s
    end;
  law_Revoke id s :
    match etcd_Revoke id s with
    | (Ret _, s') => live s' = live s ∖ {[id]} ∧ kvs_of s' = drop_lease id (kvs_of s)
    | (_, s') => True
    end;
  law_TxnPutIfAbsent k v id s :
    let s' := (etcd_TxnPutIfAbsent k v id s).2 in
    live s' = live s ∧
    match (etcd_TxnPutIfAbsent k v id s).1 with
    | Ret true => kvs_of s !! k = None ∧ kvs_of s' = <[k := (v, id)]> (kvs_of s)
    | Ret false => is_Some (kvs_of s !! k) ∧ kvs_of s' = kvs_of s
    | _ => kvs_of s' = kvs_of s ∨ (kvs_of s !! k = None ∧ kvs_of s' = <[k := (v, id)]> (kvs_of s))
    end
}.

(** Keys are attached to live leases or to none. *)
Definition attached `{EtcdLaws W} (s : W) : Prop :=
  ∀ k v id, kvs_of s !! k = Some (v, id) → id = 0 ∨ id ∈ live s.

Lemma drop_lease_new (m : kv_store) id : (∀ k v l, m !! k = Some (v, l) → l ≠ id) → drop_lease id m = m.
Proof.
  intros Hm. apply map_filter_id. intros k [v l] Hk. by eapply Hm.
Qed.

Section create.
Context {W : Type} `{EtcdLaws W}.
Variable etcdPrefix : string.
Hypothesis revoke_works : ∀ id (s : W), is_ret (etcd_Revoke id s).1 = true.

(** Revoking the lease just granted takes back what was written under it. *)
Lemma revoke_undoes (s s1 : W) k v id : attached s → id ≠ 0 → id ∉ live s →
  live s1 = {[id]} ∪ live s →
  (kvs_of s1 = kvs_of s ∨ (kvs_of s !! k = None ∧ kvs_of s1 = <[k := (v, id)]> (kvs_of s))) →
  ∃ s2, revoke id s1 = (Ret tt, s2) ∧ live s2 = live s ∧ kvs_of s2 = kvs_of s.
Proof.
  intros Hat Hid0 Hid Hl Hk. pose proof (law_Revoke id s1) as Hr. pose proof (revoke_works id s1) as Hw.
  unfold revoke, try, mbind, M_bind. destruct (etcd_Revoke id s1) as [[[]|e|] s2]; try done.
  exists s2. split; [done|]. destruct Hr as [-> ->]. split; [rewrite Hl; set_solver|].
  assert (∀ k v l, kvs_of s !! k = Some (v, l) → l ≠ id) as Hne.
  { intros j w l Hj ->. destruct (Hat j w id Hj); [done|set_solver]. }
  destruct Hk as [->|[Hnone ->]]; [by apply drop_lease_new|].
  unfold drop_lease. rewrite map_filter_insert_False by (intros E; by apply E).
  rewrite delete_id by done. by apply drop_lease_new.
Qed.

Lemma createSubnet_atomic sn sn6 attrs ttl (s : W) r s' : attached s →
  etcd_createSubnet etcdPrefix sn sn6 attrs ttl s = (r, s') →
  match r with
  | Ret _ => ∃ key value id, subnet_path etcdPrefix sn sn6 = Ret key ∧ LeaseAttrs_Marshal attrs = Ret value ∧
      (id ∉ live s) ∧ live s' = {[id]} ∪ live s ∧
      kvs_of s !! key = None ∧ kvs_of s' = <[key := (value, id)]> (kvs_of s)
  | Err _ => live s' = live s ∧ kvs_of s' = kvs_of s
  | Panic => True
  end.
Proof.
  intros Hat. unfold etcd_createSubnet, lift, mbind at 1, M_bind at 1.
  destruct (subnet_path etcdPrefix sn sn6) as [key|e|]; [|intros [= <- <-]; done..].
  unfold mbind at 1, M_bind at 1. destruct (LeaseAttrs_Marshal attrs) as [value|e|]; [|intros [= <- <-]; done..].
  unfold mbind at 1, M_bind at 1. pose proof (law_Grant (ttl / second) s) as Hg.
  destruct (etcd_Grant (ttl / second) s) as [[[id granted]|e|] s1]; [|intros [= <- <-]; done..].
  destruct Hg as (Hid0 & Hid & Hl & Hk). unfold mbind at 1, M_bind at 1, try at 1.
  pose proof (law_TxnPutIfAbsent key value id s1) as Ht. cbn zeta in Ht.
  destruct (etcd_TxnPutIfAbsent key value id s1) as [[ok|e|] s2]; cbn [fst snd] in Ht;
    destruct Ht as [Hl2 Ht]; rewrite Hl in Hl2; rewrite Hk in Ht.
  - destruct ok.
    + destruct Ht as [Hn Hs2]. unfold mbind, M_bind. destruct (law_Now s2) as [now ->].
      intros [= <- <-]. exists key, value, id. by split_and!.
    + destruct Ht as [_ Hs2].
      destruct (revoke_undoes s s2 key value id Hat Hid0 Hid Hl2 (or_introl Hs2)) as (s3 & Er & ? & ?).
      unfold mbind, M_bind. rewrite Er. intros [= <- <-]. done.
  - destruct (revoke_undoes s s2 key value id Hat Hid0 Hid Hl2 Ht) as (s3 & Er & ? & ?).
    unfold mbind, M_bind. rewrite Er. intros [= <- <-]. done.
  - by intros [= <- <-].
Qed.
End create.

(** C17: when revoking works, creating a subnet in etcd is all or nothing: on success
    the key was absent and is now there under one new lease; on any error the store
    and the live leases are what they were. *)
Theorem createSubnet_all_or_nothing W `{EtcdLaws W} prefix sn sn6 attrs ttl (s : W) r s' :
  (∀ id (s : W), is_ret (etcd_Revoke id s).1 = true) → attached s →
  etcd_createSubnet prefix sn sn6 attrs ttl s = (r, s') →
  match r with
  | Ret _ => ∃ key value id, subnet_path prefix sn sn6 = Ret key ∧ LeaseAttrs_Marshal attrs = Ret value ∧
      (id ∉ live s) ∧ live s' = {[id]} ∪ live s ∧
      kvs_of s !! key = None ∧ kvs_of s' = <[key := (value, id)]> (kvs_of s)
  | Err _ => live s' = live s ∧ kvs_of s' = kvs_of s
  | Panic => True
  end.
Proof. intros Hw. by apply createSubnet_atomic. Qed.

(** An etcd of one client, for the witnesses. *)
Record MemEtcd := mkMemEtcd { me_kvs : kv_store; me_live : gset Z; me_now : N }.

Definition fresh_id (X : gset Z) : Z := 1 + set_fold Z.max 0 X.

Lemma fresh_id_new X : fresh_id X ≠ 0 ∧ fresh_id X ∉ X.
Proof.
  assert (0 <= set_fold Z.max 0 X ∧ ∀ x, x ∈ X → x <= set_fold Z.max 0 X) as [H1 H2].
  { apply (set_fold_ind_L (λ b Y, 0 <= b ∧ ∀ x, x ∈ Y → x <= b)); [set_solver|].
    intros x Y b _ [Hb HY]. split; [lia|]. intros y [->%elem_of_singleton|Hy]%elem_of_union; [lia|].
    specialize (HY y Hy). lia. }
  unfold fresh_id. split; [lia|]. intros Hin. specialize (H2 _ Hin). lia.
Qed.

Definition me_entry (p : string * (string * Z)) : KeyValue := mkKeyValue p.1 p.2.1 p.2.2 1.

#[global] Instance mem_EtcdClient : EtcdClient MemEtcd := {
  etcd_Get := λ k s, (Ret (mkGetResponse (option_list ((λ v, me_entry (k, v)) <$> me_kvs s !! k)) 1), s);
  etcd_GetPrefix := λ p s,
    (Ret (mkGetResponse (me_entry <$> filter (λ q, HasPrefix q.1 p = true) (map_to_list (me_kvs s))) 1), s);
  etcd_TimeToLive := λ id s, (Ret (if decide (id ∈ me_live s) then 60 else -1), s);
  etcd_Grant := λ ttl s, (Ret (fresh_id (me_live s), ttl),
    mkMemEtcd (me_kvs s) ({[fresh_id (me_live s)]} ∪ me_live s) (me_now s));
  etcd_Revoke := λ id s, (Ret tt, mkMemEtcd (drop_lease id (me_kvs s)) (me_live s ∖ {[id]}) (me_now s));
  etcd_TxnPutIfAbsent := λ k v id s,
    match me_kvs s !! k with
    | Some _ => (Ret false, s)
    | None => (Ret true, mkMemEtcd (<[k := (v, id)]> (me_kvs s)) (me_live s) (me_now s))
    end;
  etcd_Put := λ k v id s, (Ret tt, mkMemEtcd (<[k := (v, id)]> (me_kvs s)) (me_live s) (me_now s));
  etcd_Delete := λ k s, (Ret tt, mkMemEtcd (delete k (me_kvs s)) (me_live s) (me_now s));
  time_Now := λ s, (Ret (Z.of_N (me_now s)), s)
}.

#[global] Instance mem_EtcdLaws : EtcdLaws MemEtcd.
Proof.
  refine {| kvs_of := me_kvs; live := me_live |}.
  - by eexists.
  - intros ttl s. cbn. destruct (fresh_id_new (me_live s)). by split_and!.
  - done.
  - intros k v id s. cbn. destruct (me_kvs s !! k) as [w|] eqn:E; cbn; by split_and!.
Defined.

Definition etcd_empty : MemEtcd := mkMemEtcd ∅ ∅ 0%N.

Lemma createSubnet_all_or_nothing_witness : ∃ s',
  etcd_createSubnet "/net" (mkIP4Net 167772416 24) (mkIP6Net None 0) sample_attrs subnetTTL etcd_empty
    = (Ret 86400000000000, s') ∧
  ∃ key value id, subnet_path "/net" (mkIP4Net 167772416 24) (mkIP6Net None 0) = Ret key ∧
    LeaseAttrs_Marshal sample_attrs = Ret value ∧ (id ∉ live etcd_empty) ∧
    live s' = {[id]} ∪ live etcd_empty ∧
    kvs_of etcd_empty !! key = None ∧ kvs_of s' = <[key := (value, id)]> (kvs_of etcd_empty).
Proof.
  eexists. split; [vm_compute; reflexivity|].
  eapply (createSubnet_all_or_nothing MemEtcd "/net" (mkIP4Net 167772416 24) (mkIP6Net None 0)
    sample_attrs subnetTTL etcd_empty (Ret 86400000000000)).
  - intros id s. reflexivity.
  - intros k v id E. change ((∅ : kv_store) !! k = Some (v, id)) in E. by rewrite lookup_empty in E.
  - vm_compute. reflexivity.
Defined.

Definition bad_event : EtcdEvent := mkEtcdEvent EventTypePut (mkKeyValue "/net/subnets/README" "" 0 5).

Lemma bad_event_drops_leases_witness :
  let own := plain_lease 167772416 24 None in let a := plain_lease 167772672 24 None in
  let lw := mkLeaseWatcher (Some own) [a] in
  ∃ wr, watchSubnets_event "/net" 5 bad_event etcd_empty = (Ret wr, etcd_empty) ∧
    ∀ own b4 b6, own_mode b6 own → LeaseWatcher_wf b4 b6 own lw →
      WatchLeases_step lw wr =
        Ret (mkEvent EventRemoved <$> Leases lw, mkLeaseWatcher (OwnLease lw) []).
Proof.
  eapply (bad_event_drops_leases MemEtcd "/net" 5 bad_event etcd_empty); [vm_compute|]; reflexivity.
Defined.

Definition gone_event : EtcdEvent := mkEtcdEvent EventTypeDelete (mkKeyValue "/net/subnets/10.5.1.0-24" "" 0 9).

Lemma watchSubnets_resumes_witness :
  let st := mkWatchState 7 (400 * 1000000) Watching in
  let i := Response true (mkWatchResponse [bad_event; gone_event] 9 0 None) in
  ∃ sent st', watch_ok st' ∧ resumes "/net" st i etcd_empty sent st' etcd_empty.
Proof.
  eexists _, _. eapply (watchSubnets_resumes MemEtcd "/net" (mkWatchState 7 (400 * 1000000) Watching)
    (Response true (mkWatchResponse [bad_event; gone_event] 9 0 None)) etcd_empty).
  - split; vm_compute; discriminate.
  - vm_compute. reflexivity.
Defined.

(** A node that loses the race for a subnet does not try another one: the registry
    reports [errSubnetAlreadyexists], the retry loop only recognises a duplicate-key
    error, and acquiring a lease fails at the first try. *)
Theorem lost_race_not_retried W `{EtcdClient W} prefix m fuel draws tries c attrs leases rev sn sn6 (s s1 s2 : W) :
  let '(r4, r6) := default (0, 0)%nat (head draws) in
  etcd_getSubnets prefix s = (Ret (leases, rev), s1) → findLeaseByIP leases (PublicIP attrs) = None →
  choose_subnet m fuel r4 r6 c leases = Ret (sn, sn6) →
  etcd_createSubnet prefix sn sn6 attrs subnetTTL s1 = (Err errSubnetAlreadyexists, s2) →
  acquire_loop (H := etcd_Registry prefix) m fuel draws (S tries) c attrs s = (Err errSubnetAlreadyexists, s2).
Proof.
  destruct (default _ _) as [r4 r6] eqn:Ed. intros E1 E2 E3 E4. cbn [acquire_loop]. rewrite Ed.
  unfold tryAcquireLease, try at 1, mbind at 1, M_bind at 1.
  change (getSubnets (W := W)) with (etcd_getSubnets prefix). unfold mbind at 1, M_bind at 1.
  rewrite E1, E2. unfold acquire_new, lift, mbind at 1, M_bind at 1. rewrite E3.
  unfold try at 1, mbind at 1, M_bind at 1.
  change (createSubnet (W := W)) with (etcd_createSubnet prefix). rewrite E4. done.
Qed.

(** A store in which the only subnet appeared after the leases were listed: its value
    is not readable yet, so the listing leaves it out. *)
Definition raced_store : MemEtcd := mkMemEtcd {["/net/subnets/10.0.0.4-30" := ("", 0)]} ∅ 0%N.
Definition one_subnet : Config := set_SubnetMax 167772164 small_config.

Lemma lost_race_not_retried_witness : ∃ s2,
  acquire_loop (H := etcd_Registry "/net") small_manager 2 [] raceRetries one_subnet small_attrs raced_store
    = (Err errSubnetAlreadyexists, s2).
Proof.
  eexists. eapply (lost_race_not_retried MemEtcd "/net" small_manager 2 [] 9 one_subnet small_attrs [] 1
    (mkIP4Net 167772164 30) (mkIP6Net None 0) raced_store raced_store); vm_compute; reflexivity.
Defined.

(** ** Reservations *)

(** No lease read from etcd has the zero expiration that marks a reservation, so
    a node that reuses its lease always renews it with the one-day TTL, also when the
    key carried no TTL. *)
Theorem etcd_leases_never_reserved W `{EtcdClient W} prefix (s s' : W) leases rev l :
  (∀ s : W, ∃ now, time_Now s = (Ret now, s) ∧ 0 <= now) →
  (∀ id (s : W) ttl s', etcd_TimeToLive id s = (Ret ttl, s') → -1 <= ttl) →
  etcd_getSubnets prefix s = (Ret (leases, rev), s') → l ∈ leases → Expiration l ≠ zero_time.
Proof.
  intros Hnow Httl E Hl. unfold etcd_getSubnets in E. run_inv.
  match goal with E : match ?x with inl _ => _ | inr _ => _ end _ = _ |- _ => destruct x as [resp|e] end; run_inv.
  2: { case_decide; run_inv. by apply not_elem_of_nil in Hl. }
  match goal with E : kvs_to_leases _ _ = _ |- _ => revert E end.
  match goal with |- kvs_to_leases _ ?s0 = (_, ?s1) → _ => generalize s0 as t, s1 as t' end.
  clear -Hnow Httl Hl. revert leases Hl. generalize (Kvs resp) as kvs.
  induction kvs as [|kv kvs IH]; intros leases Hl t t' E; cbn [kvs_to_leases] in E; run_inv.
  { by apply not_elem_of_nil in Hl. }
  match goal with E : try _ _ = (Ret ?x, _), E' : kvs_to_leases _ _ = _ |- _ => rename E into E1, E' into E2 end.
  match type of E1 with _ = (Ret ?x, _) => destruct x as [l0|e] end; run_inv; [|by eapply IH].
  apply elem_of_cons in Hl as [->|Hl]; [|by eapply IH].
  unfold try in E1. destruct ((ttl ← etcd_TimeToLive (kv_Lease kv); kvToIPLease kv ttl) t) as [[l1|?|] ?] eqn:E;
    simplify_eq. run_inv.
  match goal with E : etcd_TimeToLive _ _ = _ |- _ => apply Httl in E end.
  unfold kvToIPLease in *. run_inv.
  match goal with E : match ?k with Some _ => _ | None => _ end _ = _ |- _ => destruct k as [[sn tsn6]|] end; run_inv.
  match goal with E : time_Now ?u = _ |- _ => destruct (Hnow u) as (now & En & Hpos); rewrite En in E end.
  simplify_eq. cbn. unfold zero_time, second in *. lia.
Qed.

Definition reserved_store : MemEtcd :=
  mkMemEtcd {["/net/subnets/10.0.0.4-30" := (unquote "{'PublicIP':'192.168.1.1'}", 0)]} ∅ 0%N.

Lemma etcd_leases_never_reserved_witness :
  Expiration (mkLease true false (mkIP4Net 167772164 30) (mkIP6Net None 0)
    (mkLeaseAttrs 3232235777 None "" None None) (-1 * second) 1) ≠ zero_time.
Proof.
  eapply (etcd_leases_never_reserved MemEtcd "/net" reserved_store).
  - intros s. exists (Z.of_N (me_now s)). split; [reflexivity|lia].
  - intros id s ttl s'. cbn. destruct (decide _); intros [= <- _]; lia.
  - vm_compute. reflexivity.
  - apply list_elem_of_here.
Defined.
