(* ===== verification/Kube.v ===== *)
(** * [pkg/subnet/kube]: leases kept in node annotations

    The Kubernetes API is a [KubeClient]: reading the node (the polling loop
    around it included) and patching it, as calls on a store [W].  A node is its
    name, its annotations ([None] for a nil map, which Go cannot write to) and
    its pod CIDRs.  The informer's handlers return the event they enqueue. *)

From Stdlib Require Import ZArith Lia Ascii.
From stdpp Require Import base strings list gmap numbers.
From S2P Require Import Prelude GoStrings GoRegexp GoJson GoNet GoNetFacts Ip4 Ip6 Lease SubnetKey Config LocalManager.

Local Open Scope Z_scope.

(** ** [annotations.go] *)

Record annotations := mkAnnotations {
  SubnetKubeManaged : string;
  ann_BackendData : string;
  ann_BackendV6Data : string;
  ann_BackendType : string;
  BackendPublicIP : string;
  BackendPublicIPv6 : string;
  BackendNodePublicIP : string;
  BackendNodePublicIPv6 : string;
  BackendPublicIPOverwrite : string;
  BackendPublicIPv6Overwrite : string
}.

(** [[a-z0-9_-]]. *)
Definition label_char (c : ascii) : bool :=
  let n := char_code c in ((97 <=? n) && (n <=? 122)) || is_digit c || (n =? 95) || (n =? 45).
Definition label : regex := Plus (Class label_char).
Definition prefix_regex : regex :=
  Seq (Plus (Seq label (Chr "."))) (Seq label (Seq (Chr "/") (Seq (Opt (Seq label (Chr "-"))) End))).

(** The prefix with the separator it may lack. *)
Definition complete_prefix (prefix : string) : string :=
  let prefix := if (count_char "/" prefix =? 0)%nat then prefix +:+ "/" else prefix in
  if negb (HasSuffix prefix "/") && negb (HasSuffix prefix "-") then prefix +:+ "-" else prefix.

Definition annotations_of (prefix : string) : annotations :=
  mkAnnotations (prefix +:+ "kube-subnet-manager") (prefix +:+ "backend-data") (prefix +:+ "backend-v6-data")
    (prefix +:+ "backend-type") (prefix +:+ "public-ip") (prefix +:+ "public-ipv6")
    (prefix +:+ "node-public-ip") (prefix +:+ "node-public-ipv6")
    (prefix +:+ "public-ip-overwrite") (prefix +:+ "public-ipv6-overwrite").

Definition newAnnotations (prefix : string) : outcome annotations :=
  if (1 <? count_char "/" prefix)%nat
  then Err (Errorf "subnet/kube: prefix can contain at most single slash")
  else
    let prefix := complete_prefix prefix in
    if negb (MatchString prefix_regex prefix)
    then Err (Errorf "subnet/kube: prefix must be in a format: fqdn/[0-9a-z-_]*")
    else Ret (annotations_of prefix).

Example annotations_ex : newAnnotations "flannel.alpha.coreos.com" =
  Ret (annotations_of "flannel.alpha.coreos.com/").
Proof. by vm_compute. Qed.

(** ** [kube.go]: data *)

Record Node := mkNode {
  node_Name : string;
  node_Annotations : option (gmap string string);
  PodCIDR : string;
  PodCIDRs : list string
}.

(** Reading a Go map: the zero value for an absent key or a nil map. *)
Definition ann (n : Node) (key : string) : string :=
  default "" (m ← node_Annotations n; m !! key).

(** Writing one: a nil map panics. *)
Definition set_ann (key v : string) (n : Node) : outcome Node :=
  match node_Annotations n with
  | None => Panic
  | Some m => Ret (mkNode (node_Name n) (Some (<[key := v]> m)) (PodCIDR n) (PodCIDRs n))
  end.

Record kubeSubnetManager := mkKube {
  enableIPv4 : bool;
  enableIPv6 : bool;
  ksm_annotations : annotations;
  annotationPrefix : string;
  nodeName : string;
  subnetConf : Config;
  disableNodeInformer : bool;
  setNodeNetworkUnavailable : bool
}.

Definition newKubeSubnetManager (sc : Config) (name prefix : string) : outcome kubeSubnetManager :=
  a ← newAnnotations prefix;
  Ret (mkKube (cfg_EnableIPv4 sc) (cfg_EnableIPv6 sc) a prefix name sc
         (bool_decide (cfg_BackendType sc = "alloc")) false).

(** ** From a node to a lease *)

Definition parse_cidr (s : string) : outcome IPNet :=
  match ParseCIDR s with Some (_, n) => Ret n | None => Err (Errorf "invalid CIDR address") end.

(** The loop over the pod CIDRs that stops at the first of the wanted family. *)
Fixpoint first_cidr (want4 : bool) (cidrs : list string) : outcome (option IPNet) :=
  match cidrs with
  | [] => Ret None
  | s :: cidrs =>
      n ← parse_cidr s;
      if bool_decide (bool_decide (To4 (IPNet_IP n) ≠ []) = want4) then Ret (Some n) else first_cidr want4 cidrs
  end.

Definition node_cidr (want4 : bool) (n : Node) : outcome (option IPNet) :=
  match length (PodCIDRs n) with
  | O =>
      c ← parse_cidr (PodCIDR n);
      Ret (if bool_decide (bool_decide (To4 (IPNet_IP c) ≠ []) = want4) then Some c else None)
  | S (S (S _)) => Err (Errorf "node %q pod cidrs should be IPv4/IPv6 only or dualstack")
  | _ => first_cidr want4 (PodCIDRs n)
  end.

Definition zero_lease : Lease :=
  mkLease false false (mkIP4Net 0 0) (mkIP6Net None 0) (mkLeaseAttrs 0 None "" None None) zero_time 0.

Definition nodeToLease4 (ksm : kubeSubnetManager) (n : Node) (l : Lease) : outcome Lease :=
  let a := ksm_annotations ksm in
  ip ← ParseIP4 (ann n (BackendPublicIP a));
  let data := Some (ann n (ann_BackendData a)) in
  c ← node_cidr true n;
  match c with
  | None => Err (Errorf "missing IPv4 address on n.Spec.PodCIDRs")
  | Some cidr =>
      sn ← FromIPNet cidr;
      let la := Attrs l in
      Ret (mkLease (enableIPv4 ksm) (EnableIPv6 l) sn (IPv6Subnet l)
             (mkLeaseAttrs ip (PublicIPv6 la) (BackendType la) data (BackendV6Data la))
             (Expiration l) (Asof l))
  end.

Definition nodeToLease6 (ksm : kubeSubnetManager) (n : Node) (l : Lease) : outcome Lease :=
  let a := ksm_annotations ksm in
  ip6 ← ParseIP6 (ann n (BackendPublicIPv6 a));
  let data := Some (ann n (ann_BackendV6Data a)) in
  c ← node_cidr false n;
  match c with
  | None => Err (Errorf "missing IPv6 address on n.Spec.PodCIDRs")
  | Some cidr =>
      sn6 ← FromIP6Net cidr;
      let la := Attrs l in
      Ret (mkLease (EnableIPv4 l) (enableIPv6 ksm) (Subnet l) sn6
             (mkLeaseAttrs (PublicIP la) ip6 (BackendType la) (BackendData la) data)
             (Expiration l) (Asof l))
  end.

Definition set_BackendType_attr (t : string) (l : Lease) : Lease :=
  let la := Attrs l in
  set_Attrs (mkLeaseAttrs (PublicIP la) (PublicIPv6 la) t (BackendData la) (BackendV6Data la)) l.

Definition nodeToLease (ksm : kubeSubnetManager) (n : Node) : outcome Lease :=
  l ← (if enableIPv4 ksm then nodeToLease4 ksm n zero_lease else Ret zero_lease);
  l ← (if enableIPv6 ksm then nodeToLease6 ksm n l else Ret l);
  Ret (set_BackendType_attr (ann n (ann_BackendType (ksm_annotations ksm))) l).

(** ** The informer's handlers *)

Definition managed (ksm : kubeSubnetManager) (n : Node) : bool :=
  bool_decide ((m ← node_Annotations n; m !! SubnetKubeManaged (ksm_annotations ksm)) = Some "true").

(** The event handed to [enqueueLeaseEvent], if any. *)
Definition handleAddLeaseEvent (ksm : kubeSubnetManager) (et : EventType) (n : Node) : outcome (option Event) :=
  if negb (managed ksm n) then Ret None
  else match nodeToLease ksm n with
       | Ret l => Ret (Some (mkEvent et l))
       | Err _ => Ret None
       | Panic => Panic
       end.

Definition same_ann (o n : Node) (key : string) : bool := bool_decide (ann o key = ann n key).

Definition handleUpdateLeaseEvent (ksm : kubeSubnetManager) (o n : Node) : outcome (option Event) :=
  let a := ksm_annotations ksm in
  if negb (managed ksm n) then Ret None
  else
    let changed := negb (enableIPv4 ksm && same_ann o n (ann_BackendData a) &&
                         same_ann o n (ann_BackendType a) && same_ann o n (BackendPublicIP a)) in
    let changed := if enableIPv6 ksm && same_ann o n (ann_BackendV6Data a) &&
                      same_ann o n (ann_BackendType a) && same_ann o n (BackendPublicIPv6 a)
                   then false else changed in
    if negb changed then Ret None
    else match nodeToLease ksm n with
         | Ret l => Ret (Some (mkEvent EventAdded l))
         | Err _ => Ret None
         | Panic => Panic
         end.

(** The buffered channel, the events whose goroutines wait for room in it, whether the
    context of the handlers is done, and the events that were given up because it is. *)
Record event_queue := mkQueue { q_events : list Event; q_depth : nat; q_waiting : list Event; q_done : bool; q_dropped : list Event }.

(** The slots of [asyncSendSemaphore]. *)
Definition max_waiting : nat := 100.

(** What its [Acquire] returns: nil when a slot is free, an error when the context is done
    (also when a slot is free, if it looks at the context first); otherwise it waits. *)
Inductive acquire_result := Acquired | AcquireFails.
Definition acquire_can (q : event_queue) (r : acquire_result) : bool :=
  match r with Acquired => (length (q_waiting q) <? max_waiting)%nat | AcquireFails => q_done q end.

Definition has_room (q : event_queue) : bool := (length (q_events q) <? q_depth q)%nat.

(** The handler's part: [None] as long as it waits for a slot. *)
Definition enqueueLeaseEvent (q : event_queue) (r : acquire_result) (e : Event) : option event_queue :=
  if has_room q then Some (mkQueue (q_events q ++ [e]) (q_depth q) (q_waiting q) (q_done q) (q_dropped q))
  else if negb (acquire_can q r) then None
  else match r with
       | AcquireFails => Some (mkQueue (q_events q) (q_depth q) (q_waiting q) (q_done q) (q_dropped q ++ [e]))
       | Acquired => Some (mkQueue (q_events q) (q_depth q) (q_waiting q ++ [e]) (q_done q) (q_dropped q))
       end.

(** A turn of the loop of a goroutine that waits: the case its [select] takes, among those
    that are ready ([default] when none is). *)
Inductive select_case := CaseDone | CaseSend | CaseDefault.
Definition retryLeaseEvent (q : event_queue) (i : nat) (c : select_case) : option event_queue :=
  match q_waiting q !! i, c with
  | None, _ => None
  | Some e, CaseDone =>
      if q_done q then Some (mkQueue (q_events q) (q_depth q) (delete i (q_waiting q)) (q_done q) (q_dropped q ++ [e])) else None
  | Some e, CaseSend =>
      if has_room q then Some (mkQueue (q_events q ++ [e]) (q_depth q) (delete i (q_waiting q)) (q_done q) (q_dropped q)) else None
  | Some e, CaseDefault => if q_done q || has_room q then None else Some q
  end.

(** [WatchLeases] forwards each event of the channel in a batch of its own. *)
Definition kube_WatchLeases (events : list Event) : list (list LeaseWatchResult) :=
  map (λ e, [mkLeaseWatchResult [e] [] None]) events.

(** ** The Kubernetes API *)

Class KubeClient (W : Type) := {
  kube_get_node : kubeSubnetManager → M W Node;
  kube_read_node : string → M W Node;
  kube_patch_node : Node → Node → M W unit;
  kube_set_condition : string → M W unit;
  kube_now : M W Z
}.

Definition containsCIDR (ipnet1 ipnet2 : IPNet) : bool :=
  let '(ones1, _) := mask_Size (IPNet_Mask ipnet1) in
  let '(ones2, _) := mask_Size (IPNet_Mask ipnet2) in
  (ones1 <=? ones2) && IPNet_Contains ipnet1 (IPNet_IP ipnet2).

(** [RawMessage.MarshalJSON]. *)
Definition raw_text (r : RawMessage) : string := default "null" r.

(** The loop that keeps the last CIDR of each family. *)
Fixpoint last_cidrs (cidrs : list string) (acc : option IPNet * option IPNet)
    : outcome (option IPNet * option IPNet) :=
  match cidrs with
  | [] => Ret acc
  | s :: cidrs =>
      c ← parse_cidr s;
      last_cidrs cidrs
        (if decide (length (IPNet_IP c) = 4%nat) then (Some c, acc.2)
         else if decide (length (IPNet_IP c) = 16%nat) then (acc.1, Some c) else acc)
  end.

Definition acquire_cidrs (n : Node) : outcome (option IPNet * option IPNet) :=
  match length (PodCIDRs n) with
  | O => last_cidrs [PodCIDR n] (None, None)
  | S (S (S _)) => Err (Errorf "node %q pod cidrs should be IPv4/IPv6 only or dualstack")
  | _ => last_cidrs (PodCIDRs n) (None, None)
  end.

(** [PublicIPv6.String()] of a pointer that was checked not to be nil. *)
Definition text6 (p : option IP6) : outcome string :=
  match p with Some v => IP6_String v | None => Panic end.

(** Whether the annotations have to be written. *)
Definition needs_patch (a : annotations) (n : Node) (attrs : LeaseAttrs) : outcome bool :=
  let bd := raw_text (BackendData attrs) in
  let v6Bd := raw_text (BackendV6Data attrs) in
  let differs key v := negb (bool_decide (ann n key = v)) in
  let overwritten key v := negb (bool_decide (ann n key = "")) && differs key v in
  let ip := IP4_String (PublicIP attrs) in
  let v4 := differs (ann_BackendData a) bd || differs (ann_BackendType a) (BackendType attrs) ||
            differs (BackendPublicIP a) ip || differs (SubnetKubeManaged a) "true" ||
            overwritten (BackendPublicIPOverwrite a) ip in
  match v4, PublicIPv6 attrs with
  | true, _ => Ret true
  | false, None => Ret false
  | false, Some v =>
      ip6 ← IP6_String v;
      Ret (differs (ann_BackendV6Data a) v6Bd || differs (ann_BackendType a) (BackendType attrs) ||
           differs (BackendPublicIPv6 a) ip6 || differs (SubnetKubeManaged a) "true" ||
           overwritten (BackendPublicIPv6Overwrite a) ip6)
  end.

(** The public IP annotation: an overwrite annotation wins. *)
Definition write_public (key overwrite : string) (ip : outcome string) (n : Node) : outcome Node :=
  if decide (ann n overwrite = "") then t ← ip; set_ann key t n
  else if decide (ann n key = ann n overwrite) then Ret n
  else set_ann key (ann n overwrite) n.

Definition annotate (a : annotations) (n : Node) (attrs : LeaseAttrs) : outcome Node :=
  let bd := raw_text (BackendData attrs) in
  let v6Bd := raw_text (BackendV6Data attrs) in
  let bt := BackendType attrs in
  let type t := bool_decide (bt = t) in
  let has6 := bool_decide (is_Some (PublicIPv6 attrs)) in
  n ← set_ann (ann_BackendType a) bt n;
  n ← (if (type "vxlan" && negb (bool_decide (bd = "null"))) ||
          (type "wireguard" && negb (bool_decide (bd = "null"))) || negb (type "vxlan")
       then
         n ← set_ann (ann_BackendData a) bd n;
         write_public (BackendPublicIP a) (BackendPublicIPOverwrite a) (Ret (IP4_String (PublicIP attrs))) n
       else Ret n);
  n ← (if (type "vxlan" && negb (bool_decide (v6Bd = "null"))) ||
          (type "wireguard" && negb (bool_decide (v6Bd = "null")) && has6) ||
          (type "host-gw" && has6) || (type "extension" && has6)
       then
         n ← set_ann (ann_BackendV6Data a) v6Bd n;
         write_public (BackendPublicIPv6 a) (BackendPublicIPv6Overwrite a) (text6 (PublicIPv6 attrs)) n
       else Ret n);
  set_ann (SubnetKubeManaged a) "true" n.

(** The lease for the pod CIDRs of a node. *)
Definition lease_for (ksm : kubeSubnetManager) (cidrs : option IPNet * option IPNet) (attrs : LeaseAttrs)
    (expiration : Z) : outcome Lease :=
  let conf := subnetConf ksm in
  sn ← (match cidrs.1, enableIPv4 ksm with
        | Some cidr, true =>
            if IP4Net_Empty (cfg_Network conf) || negb (containsCIDR (IP4Net_ToIPNet (cfg_Network conf)) cidr)
            then Err (Errorf "subnet %q specified in the flannel net config doesn't contain %q PodCIDR of the %q node")
            else FromIPNet cidr
        | _, _ => Ret (mkIP4Net 0 0)
        end);
  sn6 ← (match cidrs.2, enableIPv6 ksm with
         | Some cidr, true =>
             if IP6Net_Empty (cfg_IPv6Network conf)
             then Err (Errorf "subnet %q specified in the flannel net config doesn't contain %q IPv6 PodCIDR of the %q node")
             else
               net ← IP6Net_ToIPNet (cfg_IPv6Network conf);
               if negb (containsCIDR net cidr)
               then Err (Errorf "subnet %q specified in the flannel net config doesn't contain %q IPv6 PodCIDR of the %q node")
               else FromIP6Net cidr
         | _, _ => Ret (mkIP6Net None 0)
         end);
  let dual := bool_decide (BackendType attrs ∈ ["vxlan"; "host-gw"; "wireguard"]) in
  Ret (mkLease (negb dual) false sn sn6 attrs expiration 0).

Section kube.
Context {W : Type} `{KubeClient W}.

Definition kube_AcquireLease (ksm : kubeSubnetManager) (attrs : LeaseAttrs) : M W Lease :=
  r ← try (kube_get_node ksm);
  match r with
  | inr e => throw (Wrapf "timeout contacting kube-api, failed to patch node %q. Error: %v" e)
  | inl cached =>
      check (bool_decide (PodCIDR cached = "")) (Errorf "node %q pod cidr not assigned");;
      cidrs ← lift (acquire_cidrs cached);
      patch ← lift (needs_patch (ksm_annotations ksm) cached attrs);
      (if (patch : bool) then
         n ← lift (annotate (ksm_annotations ksm) cached attrs);
         r ← try (kube_patch_node cached n);
         match r with
         | inr e => throw (Wrapf "timeout contacting kube-api, failed to patch node %q. Error: %v" e)
         | inl _ => mret tt
         end
       else mret tt);;
      now ← kube_now;
      lift (lease_for ksm cidrs attrs (now + 24 * 3600 * second))
  end.

Definition kube_RenewLease : M W unit := throw (Sentinel "unimplemented").

(** [CompleteLease] without a cluster CIDR controller, which nothing sets. *)
Definition kube_CompleteLease (ksm : kubeSubnetManager) : M W unit :=
  if negb (setNodeNetworkUnavailable ksm) then mret tt else kube_set_condition (nodeName ksm).

(** The MAC address in a text like [{VNI:1,VtepMAC:12:c6:...}] with its quotes:
    what follows the only colon before a quote, without the trailing quote and brace. *)
Definition split_colon_quote (s : string) : list string :=
  (fix go (s acc : string) : list string :=
     match s with
     | String ":" (String q s') =>
         if Ascii.eqb q dquote then String.rev acc :: go s' ""
         else match s with String c t => go t (String c acc) | EmptyString => [] end
     | String c t => go t (String c acc)
     | EmptyString => [String.rev acc]
     end) s "".

Definition stored_mac (data : option string) : string :=
  match data with
  | None => ""
  | Some d =>
      match split_colon_quote (Trim (λ c, Ascii.eqb c dquote || Ascii.eqb c "}") d) with
      | [_; mac] => mac
      | _ => ""
      end
  end.

Definition kube_GetStoredMacAddresses (ksm : kubeSubnetManager) : M W (string * string) :=
  r ← try (kube_read_node (nodeName ksm));
  match r with
  | inr _ => mret ("", "")
  | inl n =>
      match node_Annotations n with
      | None => mret ("", "")
      | Some m => mret (stored_mac (m !! (annotationPrefix ksm +:+ "/backend-data")),
                        stored_mac (m !! (annotationPrefix ksm +:+ "/backend-v6-data")))
      end
  end.

Definition kube_GetStoredPublicIP (ksm : kubeSubnetManager) : M W (string * string) :=
  r ← try (kube_read_node (nodeName ksm));
  match r with
  | inr _ => mret ("", "")
  | inl n => mret (ann n (BackendNodePublicIP (ksm_annotations ksm)),
                   ann n (BackendNodePublicIPv6 (ksm_annotations ksm)))
  end.
End kube.

Example stored_mac_ex : stored_mac (Some (unquote "{'VNI':1,'VtepMAC':'12:c6:65:89:b4:e3'}")) = "12:c6:65:89:b4:e3".
Proof. by vm_compute. Qed.

(** ** What a node publishes is what the others see *)

Lemma prefix_ne p s t : s ≠ t → p +:+ s ≠ p +:+ t.
Proof. intros Hne E. apply Hne. by apply (inj (String.app p)) in E. Qed.

Lemma ann_insert n m k v k' : node_Annotations n = Some m →
  ann (mkNode (node_Name n) (Some (<[k := v]> m)) (PodCIDR n) (PodCIDRs n)) k' =
  if decide (k = k') then v else ann n k'.
Proof.
  intros E. unfold ann. cbn. rewrite E. cbn. destruct (decide (k = k')) as [->|Hne].
  - by rewrite lookup_insert_eq.
  - by rewrite lookup_insert_ne.
Qed.

Lemma set_ann_spec k v n n' : set_ann k v n = Ret n' →
  (∀ k', ann n' k' = if decide (k = k') then v else ann n k') ∧ is_Some (node_Annotations n') ∧
  (∀ k', (m ← node_Annotations n'; m !! k') = if decide (k = k') then Some v else (m ← node_Annotations n; m !! k')) ∧
  PodCIDR n' = PodCIDR n ∧ PodCIDRs n' = PodCIDRs n.
Proof.
  unfold set_ann. destruct (node_Annotations n) as [m|] eqn:E; [|done]. intros [= <-].
  split_and!; try done; [by intros; apply ann_insert|]. intros k'. cbn.
  destruct (decide (k = k')) as [->|Hne]; [by rewrite lookup_insert_eq|by rewrite lookup_insert_ne].
Qed.

Section publish.
Variables (ksm : kubeSubnetManager) (p : string).
Hypothesis names : ksm_annotations ksm = annotations_of p.
Hypothesis v4_only : enableIPv4 ksm = true ∧ enableIPv6 ksm = false.

(** An IPv4 node that has something to publish. *)
Definition publishable (attrs : LeaseAttrs) : Prop :=
  IP4_ok (PublicIP attrs) ∧ PublicIPv6 attrs = None ∧ BackendV6Data attrs = None ∧
  (BackendType attrs = "vxlan" → raw_text (BackendData attrs) ≠ "null").

Lemma annotate_v4 n attrs n' : publishable attrs → ann n (p +:+ "public-ip-overwrite") = "" →
  annotate (annotations_of p) n attrs = Ret n' →
  ann n' (p +:+ "backend-type") = BackendType attrs ∧
  ann n' (p +:+ "backend-data") = raw_text (BackendData attrs) ∧
  ann n' (p +:+ "public-ip") = IP4_String (PublicIP attrs) ∧
  (m ← node_Annotations n'; m !! (p +:+ "kube-subnet-manager")) = Some "true" ∧
  PodCIDR n' = PodCIDR n ∧ PodCIDRs n' = PodCIDRs n.
Proof.
  intros (Hip & H6 & Hd6 & Hvx) Ho E. unfold annotate in E. rewrite H6, Hd6 in E.
  cbn [raw_text default annotations_of ann_BackendType ann_BackendData BackendPublicIP
       BackendPublicIPOverwrite SubnetKubeManaged] in E.
  assert ((bool_decide (BackendType attrs = "vxlan") && negb (bool_decide (raw_text (BackendData attrs) = "null"))
    || bool_decide (BackendType attrs = "wireguard") && negb (bool_decide (raw_text (BackendData attrs) = "null"))
    || negb (bool_decide (BackendType attrs = "vxlan"))) = true) as Hb.
  { destruct (decide (BackendType attrs = "vxlan")) as [Ev|Ev].
    - rewrite (bool_decide_true (BackendType attrs = "vxlan")), bool_decide_false by auto. done.
    - rewrite (bool_decide_false (BackendType attrs = "vxlan")) by done. by rewrite orb_true_r. }
  rewrite Hb in E. clear Hb.
  rewrite (bool_decide_true ("null" = "null")), (bool_decide_false (is_Some None)) in E by (done || by intros []).
  rewrite !andb_false_r in E. cbn [orb] in E.
  apply bind_inv in E as (n1 & E1 & E). apply bind_inv in E as (n2 & E2 & E).
  apply bind_inv in E2 as (n3 & E3 & E2). apply bind_inv in E as (n4 & [= <-] & E).
  apply set_ann_spec in E1 as (A1 & _ & _ & P1 & Q1). apply set_ann_spec in E3 as (A3 & _ & _ & P3 & Q3).
  unfold write_public in E2. rewrite decide_True in E2.
  2: { rewrite A3, A1. rewrite !decide_False by (by apply prefix_ne). done. }
  apply bind_inv in E2 as (t & [= <-] & E2). apply set_ann_spec in E2 as (A2 & _ & _ & P2 & Q2).
  apply set_ann_spec in E as (A & _ & B & P & Q).
  split_and!; try congruence; rewrite ?B, ?A, ?A2, ?A3, ?A1;
    repeat first [rewrite decide_True by done | rewrite decide_False by (by apply prefix_ne)]; done.
Qed.

(** A node with one pod CIDR, an IPv4 one. *)
Definition one_cidr (n : Node) (c : IPNet) : Prop :=
  ∃ s a, (PodCIDRs n = [s] ∨ PodCIDRs n = [] ∧ PodCIDR n = s) ∧ ParseCIDR s = Some (a, c) ∧
    length (IPNet_IP c) = 4%nat.

Lemma node_cidr_one n c : one_cidr n c → node_cidr true n = Ret (Some c) ∧
  acquire_cidrs n = Ret (Some c, None).
Proof.
  intros (s & a & Hs & Ep & Hl).
  assert (parse_cidr s = Ret c) as Ec by (unfold parse_cidr; by rewrite Ep).
  assert (To4 (IPNet_IP c) ≠ []) as H4 by (rewrite To4_4 by done; by intros E; rewrite E in Hl).
  unfold node_cidr, acquire_cidrs. destruct Hs as [->|[-> ->]]; cbn [length first_cidr last_cidrs];
    rewrite Ec, !bind_Ret; rewrite (bool_decide_true (To4 _ ≠ [])) by done;
    rewrite bool_decide_true, decide_True by done; done.
Qed.

Lemma nodeToLease_v4 n attrs n' c sn : publishable attrs → ann n (p +:+ "public-ip-overwrite") = "" →
  annotate (annotations_of p) n attrs = Ret n' → one_cidr n c → FromIPNet c = Ret sn →
  managed ksm n' = true ∧
  nodeToLease ksm n' = Ret (mkLease true false sn (mkIP6Net None 0)
    (mkLeaseAttrs (PublicIP attrs) None (BackendType attrs) (Some (raw_text (BackendData attrs))) None)
    zero_time 0).
Proof.
  intros Hpub Ho E Hc Esn. destruct (annotate_v4 n attrs n' Hpub Ho E) as (Et & Ed & Ei & Em & Ep & Eps).
  destruct v4_only as [E4 E6]. unfold managed, nodeToLease, nodeToLease4. rewrite names, E4, E6.
  cbn [annotations_of SubnetKubeManaged BackendPublicIP ann_BackendData ann_BackendType].
  rewrite Em, Ei, Ed, Et. destruct Hpub as [Hip _]. rewrite ParseIP4_of_String by done.
  destruct (node_cidr_one n' c) as [-> _].
  { destruct Hc as (s & a & Hs & Hr). exists s, a. by rewrite Ep, Eps. }
  rewrite !bind_Ret, Esn. split; [by apply bool_decide_eq_true|done].
Qed.
End publish.

(** What a node announces in its annotations on IPv4. *)
Definition announced (ksm : kubeSubnetManager) (n : Node) : string * string * string :=
  let a := ksm_annotations ksm in (ann n (ann_BackendData a), ann n (ann_BackendType a), ann n (BackendPublicIP a)).

(** C28: on IPv4, when a node with a single, IPv4, pod CIDR and without overwrite annotation
    publishes IPv4 attributes (with vxlan, some data) and acquires its lease, every other node's informer turns the
    annotated node into an added event for the same subnet with the same public IP, backend
    type and data: when it is new to the informer, and when it is an update of a node
    that announced something else; an update that announces the same makes no event. *)
Theorem published_lease_seen ksm p n attrs n' c own e :
  ksm_annotations ksm = annotations_of p → enableIPv4 ksm = true → enableIPv6 ksm = false →
  publishable attrs → ann n (p +:+ "public-ip-overwrite") = "" → one_cidr n c →
  annotate (annotations_of p) n attrs = Ret n' →
  (acquire_cidrs n ≫= λ cidrs, lease_for ksm cidrs attrs e) = Ret own →
  ∃ l, handleAddLeaseEvent ksm EventAdded n' = Ret (Some (mkEvent EventAdded l)) ∧
    (∀ o, handleUpdateLeaseEvent ksm o n' =
       Ret (if decide (announced ksm o = announced ksm n') then None else Some (mkEvent EventAdded l))) ∧
    Subnet l = Subnet own ∧ PublicIP (Attrs l) = PublicIP (Attrs own) ∧
    BackendType (Attrs l) = BackendType (Attrs own) ∧
    raw_text (BackendData (Attrs l)) = raw_text (BackendData (Attrs own)).
Proof.
  intros Hn E4 E6 Hpub Ho Hc Ea El. destruct (node_cidr_one n c Hc) as [_ Ec]. rewrite Ec in El.
  unfold lease_for in El. rewrite E4, E6 in El. cbn [mbind outcome_bind fst snd] in El.
  destruct (IP4Net_Empty _ || _); [done|].
  destruct (FromIPNet c) as [sn| |] eqn:Esn; [|done..]. cbn in El. injection El as <-.
  destruct (nodeToLease_v4 ksm p Hn (conj E4 E6) n attrs n' c sn) as [Hm Hl]; try done.
  unfold handleAddLeaseEvent, handleUpdateLeaseEvent. rewrite Hm, Hl, E4, E6. eexists. split; [done|]. split; [|done].
  intros o. cbn [negb andb]. unfold announced, same_ann.
  repeat case_bool_decide; cbn [andb negb]; case_decide; naive_solver congruence.
Qed.

Definition kube_conf : Config := net4_config (mkIP4Net 167772160 8).
Definition kube_sample : kubeSubnetManager :=
  mkKube true false (annotations_of "flannel.alpha.coreos.com/") "flannel.alpha.coreos.com" "n1" kube_conf false true.
Definition kube_node : Node := mkNode "n1" (Some ∅) "10.1.2.0/24" ["10.1.2.0/24"].
Definition kube_attrs : LeaseAttrs := mkLeaseAttrs 3232235777 None "host-gw" None None.

Lemma published_lease_seen_witness : ∃ n' own l,
  annotate (ksm_annotations kube_sample) kube_node kube_attrs = Ret n' ∧
  (acquire_cidrs kube_node ≫= λ cidrs, lease_for kube_sample cidrs kube_attrs 5) = Ret own ∧
  handleAddLeaseEvent kube_sample EventAdded n' = Ret (Some (mkEvent EventAdded l)) ∧
  handleUpdateLeaseEvent kube_sample kube_node n' = Ret (Some (mkEvent EventAdded l)) ∧
    Subnet l = Subnet own ∧ PublicIP (Attrs l) = PublicIP (Attrs own) ∧
    BackendType (Attrs l) = BackendType (Attrs own) ∧
    raw_text (BackendData (Attrs l)) = raw_text (BackendData (Attrs own)).
Proof.
  destruct (annotate (ksm_annotations kube_sample) kube_node kube_attrs) as [n'| |] eqn:En; [|by vm_compute in En..].
  destruct (acquire_cidrs kube_node ≫= λ cidrs, lease_for kube_sample cidrs kube_attrs 5)
    as [own| |] eqn:Eo; [|by vm_compute in Eo..].
  destruct (published_lease_seen kube_sample "flannel.alpha.coreos.com/" kube_node kube_attrs n'
    (mkIPNet [10; 1; 2; 0] [255; 255; 255; 0]) own 5) as (l & Ha & Hu & Hl); try reflexivity; try done.
  - exists "10.1.2.0/24", (IPv4 10 1 2 0). split; [by left|]. split; vm_compute; reflexivity.
  - exists n', own, l. split_and!; [done..| |apply Hl|apply Hl|apply Hl|apply Hl]. rewrite Hu, decide_False; [done|].
    vm_compute in En. injection En as <-. by vm_compute.
Defined.

(** With both families enabled, a change of the IPv4 backend data or public IP of a
    node is not reported when its IPv6 part and backend type stayed the same. *)
Theorem dual_stack_update_lost ksm o n : enableIPv6 ksm = true →
  ann o (ann_BackendV6Data (ksm_annotations ksm)) = ann n (ann_BackendV6Data (ksm_annotations ksm)) →
  ann o (ann_BackendType (ksm_annotations ksm)) = ann n (ann_BackendType (ksm_annotations ksm)) →
  ann o (BackendPublicIPv6 (ksm_annotations ksm)) = ann n (BackendPublicIPv6 (ksm_annotations ksm)) →
  handleUpdateLeaseEvent ksm o n = Ret None.
Proof.
  intros E6 H1 H2 H3. unfold handleUpdateLeaseEvent, same_ann. destruct (managed ksm n); [|done].
  cbn [negb]. rewrite E6, !(bool_decide_true (ann o _ = ann n _)) by done. done.
Qed.

Definition kube_dual : kubeSubnetManager :=
  mkKube true true (annotations_of "f.io/") "f.io" "n1" kube_conf false true.
Definition dual_node (ip : string) : Node :=
  mkNode "n2" (Some {["f.io/kube-subnet-manager" := "true"; "f.io/public-ip" := ip]}) "10.1.2.0/24" [].

Lemma dual_stack_update_lost_witness :
  handleUpdateLeaseEvent kube_dual (dual_node "192.168.0.1") (dual_node "192.168.0.2") = Ret None.
Proof. apply dual_stack_update_lost; vm_compute; reflexivity. Defined.

(** [newAnnotations] accepts prefixes that do not start with a domain name: the
    expression is only anchored at the end. *)
Theorem newAnnotations_unanchored : ∃ p a, newAnnotations p = Ret a ∧ HasPrefix p "!! NOT A DOMAIN " = true.
Proof. exists "!! NOT A DOMAIN a.b/", (annotations_of "!! NOT A DOMAIN a.b/"). split; vm_compute; reflexivity. Qed.

(** With an annotation prefix that contains a slash the stored MAC addresses are
    looked up under other names than those they are stored under. *)
Theorem stored_mac_name prefix a : newAnnotations prefix = Ret a → count_char "/" prefix = 1%nat →
  ann_BackendData a ≠ prefix +:+ "/backend-data" ∧ ann_BackendV6Data a ≠ prefix +:+ "/backend-v6-data".
Proof.
  unfold newAnnotations. intros E Hc. rewrite Hc in E. change (1 <? 1)%nat with false in E. cbv iota in E.
  destruct (negb _); [done|]. injection E as <-. cbn [annotations_of ann_BackendData ann_BackendV6Data].
  assert (count_char "/" (complete_prefix prefix) = 1%nat) as Hp.
  { unfold complete_prefix. rewrite Hc. cbn [Nat.eqb]. destruct (_ && _); [|done].
    rewrite count_char_app, Hc. done. }
  split; intros E; apply (f_equal (count_char "/")) in E; rewrite !count_char_app, Hp, Hc in E; done.
Qed.

Lemma stored_mac_name_witness :
  ann_BackendData (annotations_of "flannel.io/x-") ≠ "flannel.io/x" +:+ "/backend-data" ∧
  ann_BackendV6Data (annotations_of "flannel.io/x-") ≠ "flannel.io/x" +:+ "/backend-v6-data".
Proof. apply stored_mac_name; vm_compute; reflexivity. Defined.
