(* ===== verification/IpTables.v ===== *)
(** * [pkg/trafficmngr/iptables]: NAT and forward rules through iptables

    What the package calls outside this repository, the go-iptables library and
    the [iptables-restore] program, is the class [Netfilter] over a store [W];
    [NetfilterLaws] says what is documented of it in terms of the chains of the
    host.  The rule sets, the building of the restore transaction and its text,
    and the manager are translated on top of it. *)

From Stdlib Require Import ZArith Lia Ascii.
From stdpp Require Import base strings list gmap numbers.
From S2P Require Import Prelude GoStrings GoRegexp GoJson GoNet GoNetFacts Ip4 Ip6 Lease.

Local Open Scope Z_scope.

(** ** Rules *)

Record IPTablesRule := mkIPTablesRule {
  Rule_Table : string;
  Rule_Action : string;
  Rule_Chain : string;
  Rulespec : list string
}.

Definition KubeProxyMark : string := "0x4000/0x4000".

Inductive Protocol := ProtocolIPv4 | ProtocolIPv6.
#[global] Instance Protocol_eq_dec : EqDecision Protocol.
Proof. solve_decision. Defined.
#[global] Instance Protocol_countable : Countable Protocol.
Proof.
  refine (inj_countable' (λ p, match p with ProtocolIPv4 => true | ProtocolIPv6 => false end)
    (λ b : bool, if b then ProtocolIPv4 else ProtocolIPv6) _). by intros [].
Defined.

(** The rules of a cluster and a pod network, from the texts of the two. *)
Definition masq_spec (matches : list string) (target : list string) : list string :=
  matches ++ ["-m"; "comment"; "--comment"; "flanneld masq"; "-j"] ++ target.

Definition postrtg (spec : list string) : IPTablesRule := mkIPTablesRule "nat" "-A" "FLANNEL-POSTRTG" spec.

Definition masquerade (random_fully : bool) : list string :=
  if random_fully then ["MASQUERADE"; "--random-fully"] else ["MASQUERADE"].

Definition masq_rules (cluster_cidr pod_cidr multicast : string) (random_fully : bool) : list IPTablesRule :=
  [ mkIPTablesRule "nat" "-A" "POSTROUTING" (masq_spec [] ["FLANNEL-POSTRTG"]);
    postrtg (masq_spec ["-m"; "mark"; "--mark"; KubeProxyMark] ["RETURN"]);
    postrtg (masq_spec ["-s"; pod_cidr; "-d"; cluster_cidr] ["RETURN"]);
    postrtg (masq_spec ["-s"; cluster_cidr; "-d"; pod_cidr] ["RETURN"]);
    postrtg (masq_spec ["!"; "-s"; cluster_cidr; "-d"; pod_cidr] ["RETURN"]);
    postrtg (masq_spec ["-s"; cluster_cidr; "!"; "-d"; multicast] (masquerade random_fully));
    postrtg (masq_spec ["!"; "-s"; cluster_cidr; "-d"; cluster_cidr] (masquerade random_fully)) ].

Definition forwardRules (flannelNetwork : string) : list IPTablesRule :=
  let fwd spec := mkIPTablesRule "filter" "-A" "FLANNEL-FWD" (spec ++ ["-m"; "comment"; "--comment"; "flanneld forward"; "-j"; "ACCEPT"]) in
  [ mkIPTablesRule "filter" "-A" "FORWARD" ["-m"; "comment"; "--comment"; "flanneld forward"; "-j"; "FLANNEL-FWD"];
    fwd ["-s"; flannelNetwork];
    fwd ["-d"; flannelNetwork] ].

(** ** [iptables_restore.go] *)

Abbreviation IPTablesRestoreRuleSpec := (list string).
Abbreviation IPTablesRestoreRules := (gmap string (list IPTablesRestoreRuleSpec)).

Record ipTablesRestore := mkIpTablesRestore {
  restore_path : string;
  restore_proto : Protocol;
  hasWait : bool
}.

Definition getIptablesRestoreCommand (proto : Protocol) : string :=
  match proto with ProtocolIPv6 => "ip6tables-restore" | ProtocolIPv4 => "iptables-restore" end.

Definition getIptablesCommand (proto : Protocol) : string :=
  match proto with ProtocolIPv6 => "ip6tables" | ProtocolIPv4 => "iptables" end.

Definition newline : string := String (ascii_of_N 10) "".

(** One line of the payload: the argument after [--comment] is quoted. *)
Fixpoint payload_args (prev : option string) (args : IPTablesRestoreRuleSpec) : string :=
  match args with
  | [] => ""
  | a :: rest =>
      (if decide (prev = Some "--comment") then quoted a else a) +:+
      (match rest with [] => newline | _ => " " end) +:+
      payload_args (Some a) rest
  end.
Definition payload_line (lineRule : IPTablesRestoreRuleSpec) : string := payload_args None lineRule.

Definition payload_table (table : string) (rules : list IPTablesRestoreRuleSpec) : string :=
  "*" +:+ table +:+ newline +:+ foldr (λ r s, payload_line r +:+ s) "" rules +:+ "COMMIT" +:+ newline.

(** The tables come in the order in which [range] walks the map. *)
Definition buildIPTablesRestorePayload (tableRules : list (string * list IPTablesRestoreRuleSpec)) : string :=
  foldr (λ tr s, payload_table tr.1 tr.2 +:+ s) "" tableRules.

Definition ipTablesHasWaitSupport (v1 v2 v3 : Z) : bool :=
  if v1 >? 1 then true
  else if (v1 =? 1) && (v2 >? 6) then true
  else if (v1 =? 1) && (v2 =? 6) && (v3 >=? 2) then true
  else false.

Definition versionMatcher : regex :=
  Seq (Chr "v") (Seq (Cap 1 Digits) (Seq (Chr ".") (Seq (Cap 2 Digits) (Seq (Chr ".") (Cap 3 Digits))))).

Definition Atoi (s : string) : outcome Z :=
  match ParseInt s 64 with Some n => Ret n | None => Err (Errorf "strconv.Atoi: value out of range") end.

Definition extractIptablesRestoreVersion (str : string) : outcome (Z * Z * Z) :=
  match find versionMatcher str with
  | None => Err (Errorf "no iptables-restore version found in string: %s")
  | Some result =>
      v1 ← Atoi (group result 1);
      v2 ← Atoi (group result 2);
      v3 ← Atoi (group result 3);
      Ret (v1, v2, v3)
  end.

(** The go-iptables handle of a protocol. *)
Record IPT := mkIPT { ipt_proto : Protocol; HasRandomFully : bool }.

Class Netfilter (W : Type) := {
  iptables_New : Protocol → M W IPT;
  ChainExists : IPT → string → string → M W bool;
  ClearChain : IPT → string → string → M W unit;
  ClearAndDeleteChain : IPT → string → string → M W unit;
  Exists : IPT → string → string → list string → M W bool;
  LookPath : string → M W string;
  (** a command, its arguments and what it reads on its standard input *)
  cmd_Run : string → list string → string → M W string;
  (** the order in which a map is walked *)
  range_rules : IPTablesRestoreRules → list (string * list IPTablesRestoreRuleSpec)
}.

Section restore.
Context {W : Type} `{Netfilter W}.

Definition getIptablesRestoreVersionString (path : string) : M W string :=
  r ← try (cmd_Run path ["--version"] "");
  match r with
  | inl out => mret out
  | inr e => throw (Wrapf "unable to find iptables-restore version: %v" e)
  end.

Definition getIptablesRestoreSupport (path : string) : M W bool :=
  version ← getIptablesRestoreVersionString path;
  v ← lift (extractIptablesRestoreVersion version);
  let '(v1, v2, v3) := v in
  mret (ipTablesHasWaitSupport v1 v2 v3).

Definition NewIPTablesRestoreWithProtocol (protocol : Protocol) : M W ipTablesRestore :=
  path ← LookPath (getIptablesRestoreCommand protocol);
  pathIptables ← LookPath (getIptablesCommand protocol);
  hw ← getIptablesRestoreSupport pathIptables;
  mret (mkIpTablesRestore path protocol hw).

Definition runWithOutput (iptr : ipTablesRestore) (args : list string) (stdin : string) : M W string :=
  let args := if hasWait iptr then args ++ ["--wait"] else args in
  cmd_Run (restore_path iptr) args stdin.

Definition ApplyWithoutFlush (iptr : ipTablesRestore) (rules : IPTablesRestoreRules) : M W unit :=
  let payload := buildIPTablesRestorePayload (range_rules rules) in
  r ← try (runWithOutput iptr ["--noflush"] payload);
  match r with
  | inl _ => mret tt
  | inr e => throw (Wrapf "unable to run iptables-restore (%s, %s): %v" e)
  end.
End restore.

(** ** [iptables.go]: checking, building and applying rules *)

(** The chain of flannel a rule belongs to or jumps to; the jump is the last
    argument, whose index panics on a rule without arguments. *)
Definition refers_to (chain : string) (rule : IPTablesRule) : outcome bool :=
  if decide (Rule_Chain rule = chain) then Ret true
  else match list.last (Rulespec rule) with
       | Some a => Ret (bool_decide (a = chain))
       | None => Panic
       end.

Definition own_chain (rule : IPTablesRule) : outcome (option string) :=
  fwd ← refers_to "FLANNEL-FWD" rule;
  if (fwd : bool) then Ret (Some "FLANNEL-FWD")
  else post ← refers_to "FLANNEL-POSTRTG" rule;
       Ret (if (post : bool) then Some "FLANNEL-POSTRTG" else None).

(** [tablesRules[table] = append(tablesRules[table], line)]. *)
Definition add_line (table : string) (line : IPTablesRestoreRuleSpec) (m : IPTablesRestoreRules) : IPTablesRestoreRules :=
  <[table := default [] (m !! table) ++ [line]]> m.

Section rules.
Context {W : Type} `{Netfilter W}.

Fixpoint ipTablesRulesExist (ipt : IPT) (rules : list IPTablesRule) : M W bool :=
  match rules with
  | [] => mret true
  | rule :: rules =>
      oc ← lift (own_chain rule);
      chainExist ← (match oc with
                    | Some c => wrapping "failed to check rule existence: %v" (ChainExists ipt (Rule_Table rule) c)
                    | None => mret true
                    end);
      if negb chainExist then mret false
      else
        exist ← wrapping "failed to check rule existence: %v"
                   (Exists ipt (Rule_Table rule) (Rule_Chain rule) (Rulespec rule));
        if negb exist then mret false else ipTablesRulesExist ipt rules
  end.

(** Create the chain a rule needs when it is missing. *)
Definition ensure_chain (ipt : IPT) (rule : IPTablesRule) : M W unit :=
  oc ← lift (own_chain rule);
  match oc with
  | Some c =>
      chainExist ← wrapping "failed to check rule existence: %v" (ChainExists ipt (Rule_Table rule) c);
      if negb chainExist then wrapping "failed to create rule chain: %v" (ClearChain ipt (Rule_Table rule) c)
      else mret tt
  | None => mret tt
  end.

Fixpoint clean_and_build (ipt : IPT) (rules : list IPTablesRule) (tablesRules : IPTablesRestoreRules)
    : M W IPTablesRestoreRules :=
  match rules with
  | [] => mret tablesRules
  | rule :: rules =>
      _ ← ensure_chain ipt rule;
      exist ← wrapping "failed to check rule existence: %v"
                 (Exists ipt (Rule_Table rule) (Rule_Chain rule) (Rulespec rule));
      let tablesRules := if (exist : bool)
                         then add_line (Rule_Table rule) ("-D" :: Rule_Chain rule :: Rulespec rule) tablesRules
                         else tablesRules in
      clean_and_build ipt rules
        (add_line (Rule_Table rule) (Rule_Action rule :: Rule_Chain rule :: Rulespec rule) tablesRules)
  end.
Definition ipTablesCleanAndBuild (ipt : IPT) (rules : list IPTablesRule) : M W IPTablesRestoreRules :=
  clean_and_build ipt rules ∅.

Definition ipTablesBootstrap (ipt : IPT) (iptRestore : ipTablesRestore) (rules : list IPTablesRule) : M W unit :=
  tablesRules ← wrapping "failed to setup iptables-restore payload: %v" (ipTablesCleanAndBuild ipt rules);
  wrapping "failed to apply partial iptables-restore %v" (ApplyWithoutFlush iptRestore tablesRules).

Definition ensureIPTables (ipt : IPT) (iptRestore : ipTablesRestore) (rules : list IPTablesRule) : M W unit :=
  exist ← wrapping "error checking rule existence: %v" (ipTablesRulesExist ipt rules);
  if (exist : bool) then mret tt
  else wrapping "error setting up rules: %v" (ipTablesBootstrap ipt iptRestore rules).

Fixpoint teardown_build (ipt : IPT) (rules : list IPTablesRule) (tablesRules : IPTablesRestoreRules)
    : M W IPTablesRestoreRules :=
  match rules with
  | [] => mret tablesRules
  | rule :: rules =>
      oc ← lift (own_chain rule);
      chainExists ← (match oc with
                     | Some c => wrapping "failed to check rule existence: %v" (ChainExists ipt (Rule_Table rule) c)
                     | None => mret true
                     end);
      if negb chainExists then teardown_build ipt rules tablesRules
      else
        exist ← wrapping "failed to check rule existence: %v"
                   (Exists ipt (Rule_Table rule) (Rule_Chain rule) (Rulespec rule));
        teardown_build ipt rules
          (if (exist : bool)
           then add_line (Rule_Table rule) ("-D" :: Rule_Chain rule :: Rulespec rule) tablesRules
           else tablesRules)
  end.
Definition teardownIPTables (ipt : IPT) (iptr : ipTablesRestore) (rules : list IPTablesRule) : M W unit :=
  tablesRules ← teardown_build ipt rules ∅;
  wrapping "unable to teardown iptables: %v" (ApplyWithoutFlush iptr tablesRules).

(** The delete of both protocols: the error is logged and returned as it is. *)
Definition deleteTables (p : Protocol) (rules : list IPTablesRule) : M W unit :=
  ipt ← iptables_New p;
  iptRestore ← NewIPTablesRestoreWithProtocol p;
  teardownIPTables ipt iptRestore rules.
Definition deleteIP4Tables := deleteTables ProtocolIPv4.
Definition deleteIP6Tables := deleteTables ProtocolIPv6.

(** Errors of chain creation are only logged. *)
Definition createChain (p : Protocol) (table chain : string) : M W unit :=
  r ← try (ipt ← iptables_New p; ClearChain ipt table chain);
  mret tt.
Definition CreateIP4Chain := createChain ProtocolIPv4.
Definition CreateIP6Chain := createChain ProtocolIPv6.

Definition supports_random_fully (p : Protocol) : M W bool :=
  r ← try (iptables_New p);
  mret (match r with inl ipt => HasRandomFully ipt | inr _ => false end).

Definition masqRules (ccidr : IP4Net) (lease : Lease) (ipMasqRandomFullyDisable : bool) : M W (list IPTablesRule) :=
  supports ← supports_random_fully ProtocolIPv4;
  mret (masq_rules (IP4Net_String ccidr) (IP4Net_String (Subnet lease)) "224.0.0.0/4"
          (supports && negb ipMasqRandomFullyDisable)).

Definition masqIP6Rules (ccidr : IP6Net) (lease : Lease) (ipMasqRandomFullyDisable : bool) : M W (list IPTablesRule) :=
  cluster_cidr ← lift (IP6Net_String ccidr);
  pod_cidr ← lift (IP6Net_String (IPv6Subnet lease));
  supports ← supports_random_fully ProtocolIPv6;
  mret (masq_rules cluster_cidr pod_cidr "ff00::/8" (supports && negb ipMasqRandomFullyDisable)).
End rules.

(** ** The manager

    Its two rule lists, the host it works on, and the resync goroutines it has
    started, each with the rules it keeps. *)
Record resync := mkResync { resync_ipt : IPT; resync_restore : ipTablesRestore; resync_rules : list IPTablesRule }.

Record IPTablesManager (W : Type) := mkIPTablesManager {
  ipv4Rules : list IPTablesRule;
  ipv6Rules : list IPTablesRule;
  resyncs : list resync;
  host : W
}.
Arguments mkIPTablesManager {W}.
Arguments ipv4Rules {W}.
Arguments ipv6Rules {W}.
Arguments resyncs {W}.
Arguments host {W}.

Section manager.
Context {W : Type} `{Netfilter W}.
Abbreviation Mgr := (M (IPTablesManager W)).

(** A call on the host from the manager. *)
Definition on_host {A} (m : M W A) : Mgr A := λ s,
  let (r, w) := m (host s) in (r, mkIPTablesManager (ipv4Rules s) (ipv6Rules s) (resyncs s) w).

Definition IPTablesManager_Init : Mgr unit :=
  modify (λ s, mkIPTablesManager [] [] (resyncs s) (host s)).

Definition clean_family (p : Protocol) (format : string) : Mgr unit :=
  r ← try (on_host (iptables_New p));
  match r with
  | inr e => throw (Wrapf format e)
  | inl ipt =>
      _ ← try (on_host (ClearAndDeleteChain ipt "nat" "FLANNEL-POSTRTG"));
      _ ← try (on_host (ClearAndDeleteChain ipt "nat" "FLANNEL-FWD"));
      mret tt
  end.
Definition IPTablesManager_CleanUp : Mgr unit :=
  _ ← clean_family ProtocolIPv4 "failed to setup IPTables. iptables binary was not found: %v";
  clean_family ProtocolIPv6 "failed to setup IPTables. ip6tables binary was not found: %v".

Definition add_rules (p : Protocol) (r : resync) (s : IPTablesManager W) : IPTablesManager W :=
  match p with
  | ProtocolIPv4 => mkIPTablesManager (ipv4Rules s ++ resync_rules r) (ipv6Rules s) (resyncs s ++ [r]) (host s)
  | ProtocolIPv6 => mkIPTablesManager (ipv4Rules s) (ipv6Rules s ++ resync_rules r) (resyncs s ++ [r]) (host s)
  end.

(** Install the rules, remember them and start the goroutine that keeps them. *)
Definition setupAndEnsureTables (p : Protocol) (rules : list IPTablesRule) : Mgr unit :=
  r ← try (ipt ← on_host (iptables_New p);
           iptRestore ← on_host (NewIPTablesRestoreWithProtocol p);
           mret (ipt, iptRestore));
  match r with
  | inr _ => mret tt
  | inl (ipt, iptRestore) =>
      _ ← try (on_host (ipTablesBootstrap ipt iptRestore rules));
      modify (add_rules p (mkResync ipt iptRestore rules))
  end.
Definition setupAndEnsureIP4Tables := setupAndEnsureTables ProtocolIPv4.
Definition setupAndEnsureIP6Tables := setupAndEnsureTables ProtocolIPv6.

(** One tick of the [i]th goroutine. *)
Definition resync_tick (i : nat) : Mgr unit :=
  s ← get;
  match resyncs s !! i with
  | Some r => _ ← try (on_host (ensureIPTables (resync_ipt r) (resync_restore r) (resync_rules r))); mret tt
  | None => mret tt
  end.

Definition SetupAndEnsureForwardRules (flannelIPv4Network : IP4Net) (flannelIPv6Network : IP6Net) : Mgr unit :=
  _ ← (if negb (IP4Net_Empty flannelIPv4Network) then
         _ ← on_host (CreateIP4Chain "filter" "FLANNEL-FWD");
         setupAndEnsureIP4Tables (forwardRules (IP4Net_String flannelIPv4Network))
       else mret tt);
  if negb (IP6Net_Empty flannelIPv6Network) then
    _ ← on_host (CreateIP6Chain "filter" "FLANNEL-FWD");
    net ← lift (IP6Net_String flannelIPv6Network);
    setupAndEnsureIP6Tables (forwardRules net)
  else mret tt.

(** The lease whose old subnet the rules to recycle are about. *)
Definition no_attrs : LeaseAttrs := mkLeaseAttrs 0 None "" None None.
Definition old_lease (sn : IP4Net) (sn6 : IP6Net) : Lease := mkLease false false sn sn6 no_attrs 0 0.

(** The two halves of [SetupAndEnsureMasqRules]. *)
Definition setupMasq4 (flannelIPv4Net prevSubnet prevNetwork : IP4Net) (currentlease : Lease)
    (ipMasqRandomFullyDisable : bool) : Mgr unit :=
  _ ← (if negb (IP4Net_Equal flannelIPv4Net prevNetwork) || negb (IP4Net_Equal prevSubnet (Subnet currentlease)) then
         old ← on_host (masqRules prevNetwork (old_lease prevSubnet (mkIP6Net None 0)) ipMasqRandomFullyDisable);
         on_host (deleteIP4Tables old)
       else mret tt);
  _ ← on_host (CreateIP4Chain "nat" "FLANNEL-POSTRTG");
  rules ← on_host (masqRules flannelIPv4Net currentlease ipMasqRandomFullyDisable);
  setupAndEnsureIP4Tables rules.

Definition setupMasq6 (flannelIPv6Net prevIPv6Subnet prevIPv6Network : IP6Net) (currentlease : Lease)
    (ipMasqRandomFullyDisable : bool) : Mgr unit :=
  same ← lift (IP6Net_Equal flannelIPv6Net prevIPv6Network);
  recycle ← (if negb same then mret true
             else eq ← lift (IP6Net_Equal prevIPv6Subnet (IPv6Subnet currentlease)); mret (negb eq));
  _ ← (if (recycle : bool) then
         old ← on_host (masqIP6Rules prevIPv6Network (old_lease (mkIP4Net 0 0) prevIPv6Subnet) ipMasqRandomFullyDisable);
         on_host (deleteIP6Tables old)
       else mret tt);
  _ ← on_host (CreateIP6Chain "nat" "FLANNEL-POSTRTG");
  rules ← on_host (masqIP6Rules flannelIPv6Net currentlease ipMasqRandomFullyDisable);
  setupAndEnsureIP6Tables rules.

Definition SetupAndEnsureMasqRules (flannelIPv4Net prevSubnet prevNetwork : IP4Net)
    (flannelIPv6Net prevIPv6Subnet prevIPv6Network : IP6Net) (currentlease : Lease)
    (ipMasqRandomFullyDisable : bool) : Mgr unit :=
  _ ← (if negb (IP4Net_Empty flannelIPv4Net)
       then setupMasq4 flannelIPv4Net prevSubnet prevNetwork currentlease ipMasqRandomFullyDisable
       else mret tt);
  if negb (IP6Net_Empty flannelIPv6Net)
  then setupMasq6 flannelIPv6Net prevIPv6Subnet prevIPv6Network currentlease ipMasqRandomFullyDisable
  else mret tt.
End manager.

Example extract_ex : extractIptablesRestoreVersion "iptables v1.8.7 (nf_tables)" = Ret (1, 8, 7).
Proof. by vm_compute. Qed.
