(* ===== verification/IpTablesFacts.v ===== *)
(** * What the iptables manager does to a host

    The documented input of [iptables-restore] and the effect of the go-iptables
    calls, as laws of the class [NetfilterLaws]; then the theorems on the payload,
    on the installation, the resync and the teardown of rules, and on the manager. *)

From Stdlib Require Import ZArith Lia Ascii.
From stdpp Require Import base strings list gmap numbers.
From S2P Require Import Prelude GoStrings GoRegexp GoNet GoNetFacts Ip4 Ip6 Lease IpTables.

Local Open Scope Z_scope.

(** ** What [iptables-restore] reads

    The documented input: a line [*table], rule lines whose arguments are
    separated by blanks with double quotes around those that hold blanks, and
    [COMMIT]; empty lines and lines that start with [#] are skipped.  Texts with
    a backslash, which the program treats specially, are left out. *)
Definition backslash : ascii := ascii_of_N 92.
Definition nl : ascii := ascii_of_N 10.

Fixpoint tokens (inq : bool) (cur : option string) (s : string) : list string :=
  match s with
  | EmptyString => match cur with Some a => [a] | None => [] end
  | String c s =>
      if inq then
        if Ascii.eqb c quote then tokens false cur s
        else tokens true (Some (default "" cur +:+ String c "")) s
      else if Ascii.eqb c quote then tokens true (Some (default "" cur)) s
      else if Ascii.eqb c " " then
        match cur with Some a => a :: tokens false None s | None => tokens false None s end
      else tokens false (Some (default "" cur +:+ String c "")) s
  end.

Definition skipped (l : string) : bool :=
  match l with EmptyString => true | String c _ => Ascii.eqb c "#" end.

Fixpoint restore_tables (lines : list string) (cur : option (string * list (list string)))
    : option (list (string * list (list string))) :=
  match lines with
  | [] => match cur with None => Some [] | Some _ => None end
  | l :: lines =>
      if skipped l then restore_tables lines cur
      else match cur with
           | None => match l with
                     | String c t => if Ascii.eqb c "*" then restore_tables lines (Some (t, [])) else None
                     | EmptyString => None
                     end
           | Some (t, acc) =>
               if decide (l = "COMMIT") then trs ← restore_tables lines None; Some ((t, acc) :: trs)
               else restore_tables lines (Some (t, acc ++ [tokens false None l]))
           end
  end.

Definition restore_parse (payload : string) : option (list (string * list (list string))) :=
  if str_all (λ c, negb (Ascii.eqb c backslash)) payload
  then restore_tables (split_char nl payload) None else None.

(** Arguments the payload carries unchanged: words, and the texts of comments. *)
Definition word_char (c : ascii) : bool :=
  negb (Ascii.eqb c quote) && negb (Ascii.eqb c " ") && negb (Ascii.eqb c nl) && negb (Ascii.eqb c backslash).
Definition comment_char (c : ascii) : bool :=
  negb (Ascii.eqb c quote) && negb (Ascii.eqb c nl) && negb (Ascii.eqb c backslash).
Definition word (s : string) : bool := bool_decide (s ≠ "") && str_all word_char s.

Fixpoint args_ok (prev : option string) (args : list string) : bool :=
  match args with
  | [] => true
  | a :: rest =>
      (if decide (prev = Some "--comment") then str_all comment_char a else word a) && args_ok (Some a) rest
  end.

(** A rule line appends to or deletes from a chain. *)
Definition line_ok (line : list string) : bool :=
  match line with
  | a :: rest => bool_decide (a = "-A" ∨ a = "-D") && args_ok (Some a) rest
  | [] => false
  end.
Definition table_ok (t : string) : bool := str_all word_char t.

(** *** The payload is read back *)

Lemma eqb_comm (a b : ascii) : Ascii.eqb a b = Ascii.eqb b a.
Proof. apply Ascii.eqb_sym. Qed.

Lemma tokens_word a t cur : str_all word_char a = true → a ≠ "" →
  tokens false cur (a +:+ t) = tokens false (Some (default "" cur +:+ a)) t.
Proof.
  revert cur. induction a as [|c a IH]; intros cur Ha Hne; [done|].
  cbn [str_all] in Ha. apply andb_true_iff in Ha as [Hc Ha]. unfold word_char in Hc.
  apply andb_true_iff in Hc as [[[Hq Hs]%andb_true_iff _]%andb_true_iff _].
  apply negb_true_iff in Hq, Hs. rewrite str_app_cons. cbn [tokens]. rewrite Hq, Hs.
  destruct (decide (a = "")) as [->|Hne'].
  - done.
  - rewrite IH by done. cbn [default from_option id]. by rewrite str_app_assoc.
Qed.

Lemma tokens_quoted a t cur : str_all comment_char a = true →
  tokens true cur (a +:+ String quote t) =
  tokens false (match cur, a with None, EmptyString => None | _, _ => Some (default "" cur +:+ a) end) t.
Proof.
  revert cur. induction a as [|c a IH]; intros cur Ha.
  - cbn. destruct cur; [by rewrite str_app_nil_r|done].
  - cbn [str_all] in Ha. apply andb_true_iff in Ha as [Hc Ha]. unfold comment_char in Hc.
    apply andb_true_iff in Hc as [[Hq _]%andb_true_iff _]. apply negb_true_iff in Hq.
    rewrite str_app_cons. cbn [tokens]. rewrite Hq, IH by done.
    destruct cur; cbn; by rewrite ?str_app_assoc.
Qed.

(** The text of a line without its end. *)
Fixpoint args_text (prev : option string) (args : list string) : string :=
  match args with
  | [] => ""
  | a :: rest =>
      (if decide (prev = Some "--comment") then quoted a else a) +:+
      (match rest with [] => "" | _ => " " +:+ args_text (Some a) rest end)
  end.

Lemma payload_args_text prev args : args ≠ [] → payload_args prev args = args_text prev args +:+ newline.
Proof.
  revert prev. induction args as [|a rest IH]; intros prev Hne; [done|].
  cbn [payload_args args_text]. destruct rest as [|b rest].
  - cbn [payload_args]. by rewrite !str_app_nil_r.
  - rewrite (IH (Some a)) by done. by rewrite !str_app_assoc.
Qed.

Lemma tokens_args prev args : args_ok prev args = true → tokens false None (args_text prev args) = args.
Proof.
  revert prev. induction args as [|a rest IH]; intros prev Hok; [done|].
  cbn [args_ok] in Hok. apply andb_true_iff in Hok as [Ha Hrest]. specialize (IH _ Hrest).
  cbn [args_text].
  assert (∀ t, tokens false None ((if decide (prev = Some "--comment") then quoted a else a) +:+ t) =
    tokens false (Some a) t) as Htok.
  { intros t. destruct (decide _).
    - unfold quoted. rewrite str_app_cons, str_app_assoc. cbn [tokens].
      change (Ascii.eqb quote quote) with true. cbn iota.
      change (String quote "" +:+ t) with (String quote t). by rewrite tokens_quoted.
    - unfold word in Ha. apply andb_true_iff in Ha as [Hne%bool_decide_eq_true Ha].
      by rewrite tokens_word. }
  rewrite Htok. destruct rest as [|b rest]; [done|].
  change (" " +:+ ?t) with (String " " t). cbn [tokens]. by rewrite IH.
Qed.

Lemma args_text_all P prev args : args_ok prev args = true →
  (∀ c, comment_char c = true → P c = true) → P quote = true →
  str_all P (args_text prev args) = true.
Proof.
  intros Hok HP Hq. assert (P " "%char = true) as Hs by (by apply HP).
  assert (∀ c, word_char c = true → P c = true) as HW.
  { intros c Hc. apply HP. unfold word_char in Hc. unfold comment_char.
    destruct (Ascii.eqb c quote), (Ascii.eqb c " "), (Ascii.eqb c nl), (Ascii.eqb c backslash); done. }
  revert prev Hok. induction args as [|a rest IH]; intros prev Hok; [done|].
  cbn [args_ok] in Hok. apply andb_true_iff in Hok as [Ha Hrest]. cbn [args_text].
  rewrite str_all_app. apply andb_true_iff. split.
  - destruct (decide _).
    + unfold quoted. cbn [str_all]. rewrite str_all_app. cbn [str_all]. rewrite Hq, !andb_true_r, andb_true_l.
      by apply (str_all_impl comment_char).
    + unfold word in Ha. apply andb_true_iff in Ha as [_ Ha]. by apply (str_all_impl word_char).
  - destruct rest as [|b rest]; [done|]. rewrite str_all_app, (IH _ Hrest), andb_true_r.
    cbn [str_all]. by rewrite Hs.
Qed.

(** A good line, its text and what the reader makes of it. *)
Lemma line_text line : line_ok line = true →
  ∃ text, payload_line line = text +:+ newline ∧ lacks nl text ∧ lacks backslash text ∧
    skipped text = false ∧ text ≠ "COMMIT" ∧ tokens false None text = line.
Proof.
  destruct line as [|a rest]; [done|]. intros [Ha Hrest]%andb_true_iff.
  apply bool_decide_eq_true in Ha.
  assert (args_ok None (a :: rest) = true) as Hok.
  { cbn [args_ok]. rewrite Hrest. destruct Ha as [-> | ->]; done. }
  exists (args_text None (a :: rest)). split_and!.
  - by apply payload_args_text.
  - apply args_text_all; [done| |done]. intros c Hc. unfold comment_char in Hc.
    by apply andb_true_iff in Hc as [[_ ?]%andb_true_iff _].
  - apply args_text_all; [done| |done]. intros c Hc. unfold comment_char in Hc.
    by apply andb_true_iff in Hc as [_ ?].
  - destruct Ha as [-> | ->]; done.
  - destruct Ha as [-> | ->]; done.
  - by apply tokens_args.
Qed.

Lemma newline_app t u : (t +:+ newline) +:+ u = t +:+ String nl u.
Proof. by rewrite str_app_assoc. Qed.

Lemma read_lines t rules acc more : Forall (λ l, line_ok l = true) rules →
  restore_tables (split_char nl (foldr (λ r s, payload_line r +:+ s) "" rules +:+ more)) (Some (t, acc)) =
  restore_tables (split_char nl more) (Some (t, acc ++ rules)).
Proof.
  intros Hok. revert acc. induction Hok as [|line rules Hl _ IH]; intros acc.
  - cbn [foldr]. by rewrite app_nil_r.
  - cbn [foldr]. destruct (line_text line Hl) as (text & -> & Hnl & _ & Hsk & Hc & Htok).
    rewrite str_app_assoc, newline_app, split_app by done. cbn [restore_tables].
    rewrite Hsk, decide_False, Htok, IH by done. by rewrite <- app_assoc.
Qed.

Lemma read_table t rules more : table_ok t = true → Forall (λ l, line_ok l = true) rules →
  restore_tables (split_char nl (payload_table t rules +:+ more)) None =
  trs ← restore_tables (split_char nl more) None; Some ((t, rules) :: trs).
Proof.
  intros Ht Hok. unfold payload_table. rewrite !str_app_assoc.
  change ("*" +:+ ?s) with (String "*" s).
  assert (lacks nl (String "*" t)) as Hlacks.
  { unfold lacks. cbn [str_all]. apply andb_true_iff. split; [done|].
    revert Ht. apply str_all_impl. intros c Hc. unfold word_char in Hc.
    by apply andb_true_iff in Hc as [[_ ?]%andb_true_iff _]. }
  replace (String "*" (t +:+ newline +:+ foldr (λ r s, payload_line r +:+ s) "" rules +:+ "COMMIT" +:+ newline +:+ more))
    with (String "*" t +:+ String nl (foldr (λ r s, payload_line r +:+ s) "" rules +:+ "COMMIT" +:+ String nl more))
    by (by rewrite str_app_cons).
  rewrite split_app by done. cbn [restore_tables skipped]. cbn [Ascii.eqb Bool.eqb].
  rewrite read_lines by done. by rewrite split_app by done.
Qed.

Lemma payload_no_backslash trs :
  Forall (λ tr, table_ok tr.1 = true ∧ Forall (λ l, line_ok l = true) tr.2) trs →
  lacks backslash (buildIPTablesRestorePayload trs).
Proof.
  induction 1 as [|[t rules] trs [Ht Hl] _ IH]; [done|]. cbn in Ht, Hl.
  cbn [buildIPTablesRestorePayload foldr fst snd]. apply lacks_app; [|done].
  unfold payload_table. repeat apply lacks_app; try done.
  - revert Ht. apply str_all_impl. intros c Hc. unfold word_char in Hc.
    by apply andb_true_iff in Hc as [_ ?].
  - induction Hl as [|line rules Hline _ IHl]; [done|]. cbn [foldr]. apply lacks_app; [|done].
    destruct (line_text line Hline) as (text & -> & _ & Hb & _). by apply lacks_app.
Qed.

Lemma restore_parse_payload trs :
  Forall (λ tr, table_ok tr.1 = true ∧ Forall (λ l, line_ok l = true) tr.2) trs →
  restore_parse (buildIPTablesRestorePayload trs) = Some trs.
Proof.
  intros Hok. unfold restore_parse. pose proof (payload_no_backslash trs Hok) as Hb.
  unfold lacks in Hb. rewrite Hb. clear Hb.
  induction Hok as [|[t rules] trs [Ht Hl] _ IH]; [done|].
  cbn [buildIPTablesRestorePayload foldr fst snd]. rewrite read_table by done.
  unfold buildIPTablesRestorePayload in IH. by rewrite IH.
Qed.

(** ** What the host does

    The chains of the host with their rules in order, by protocol, table and name. *)
Abbreviation chain_key := (Protocol * string * string)%type.
Abbreviation chainmap := (gmap chain_key (list (list string))).

Fixpoint remove_first (spec : list string) (l : list (list string)) : option (list (list string)) :=
  match l with
  | [] => None
  | x :: l => if decide (x = spec) then Some l else cons x <$> remove_first spec l
  end.

(** The target of a rule: one of the standard ones, or a chain of its table. *)
Fixpoint jump (spec : list string) : option string :=
  match spec with
  | a :: rest => if decide (a = "-j") then head rest else jump rest
  | [] => None
  end.
Definition builtin (target : string) : bool :=
  bool_decide (target ∈ ["ACCEPT"; "DROP"; "RETURN"; "MASQUERADE"]).
Definition target_ok (p : Protocol) (t : string) (cs : chainmap) (spec : list string) : bool :=
  match jump spec with
  | None => true
  | Some x => builtin x || bool_decide (is_Some (cs !! (p, t, x)))
  end.

(** One line of a restore: append or delete in an existing chain. *)
Definition restore_line (p : Protocol) (t : string) (cs : chainmap) (line : list string) : option chainmap :=
  match line with
  | action :: c :: spec =>
      l ← cs !! (p, t, c);
      if negb (target_ok p t cs spec) then None
      else if decide (action = "-A") then Some (<[(p, t, c) := l ++ [spec]]> cs)
      else if decide (action = "-D") then l' ← remove_first spec l; Some (<[(p, t, c) := l']> cs)
      else None
  | _ => None
  end.

Fixpoint restore_lines (p : Protocol) (t : string) (cs : chainmap) (lines : list (list string)) : option chainmap :=
  match lines with
  | [] => Some cs
  | l :: lines => cs ← restore_line p t cs l; restore_lines p t cs lines
  end.

Fixpoint restore_apply (p : Protocol) (cs : chainmap) (trs : list (string * list (list string))) : option chainmap :=
  match trs with
  | [] => Some cs
  | (t, lines) :: trs => cs ← restore_lines p t cs lines; restore_apply p cs trs
  end.

Definition known_table (t : string) : Prop := t = "nat" ∨ t = "filter".

(** What is documented of go-iptables and [iptables-restore] on a host that has them. *)
Class NetfilterLaws (W : Type) `{Netfilter W} := {
  chains : W → chainmap;
  random_fully : Protocol → bool;
  cmd_path : string → string;
  version_text : Protocol → string;
  law_New p w : iptables_New p w = (Ret (mkIPT p (random_fully p)), w);
  law_LookPath p c w : c ∈ [getIptablesCommand p; getIptablesRestoreCommand p] →
    LookPath c w = (Ret (cmd_path c), w);
  law_version p w : cmd_Run (cmd_path (getIptablesCommand p)) ["--version"] "" w = (Ret (version_text p), w);
  law_version_ok p : is_ret (extractIptablesRestoreVersion (version_text p)) = true;
  law_ChainExists ipt t c w : known_table t →
    ChainExists ipt t c w = (Ret (bool_decide (is_Some (chains w !! (ipt_proto ipt, t, c)))), w);
  law_ClearChain ipt t c w : known_table t → ∃ w',
    ClearChain ipt t c w = (Ret tt, w') ∧ chains w' = <[(ipt_proto ipt, t, c) := []]> (chains w);
  (** a chain another one jumps to is emptied and not deleted *)
  law_ClearAndDeleteChain ipt t c w : known_table t → ∃ r w',
    ClearAndDeleteChain ipt t c w = (r, w') ∧ r ≠ Panic ∧
    (chains w' = delete (ipt_proto ipt, t, c) (chains w) ∨
     (is_Some (chains w !! (ipt_proto ipt, t, c)) ∧
      chains w' = <[(ipt_proto ipt, t, c) := []]> (chains w)));
  law_Exists ipt t c spec w l : known_table t → chains w !! (ipt_proto ipt, t, c) = Some l →
    target_ok (ipt_proto ipt) t (chains w) spec = true →
    Exists ipt t c spec w = (Ret (bool_decide (spec ∈ l)), w);
  law_restore p args payload w trs cs : args ∈ [["--noflush"]; ["--noflush"; "--wait"]] →
    restore_parse payload = Some trs → restore_apply p (chains w) trs = Some cs →
    ∃ out w', cmd_Run (cmd_path (getIptablesRestoreCommand p)) args payload w = (Ret out, w') ∧ chains w' = cs;
  law_range m : range_rules m ≡ₚ map_to_list m
}.

(** *** Removing one copy of each rule *)

Fixpoint drop_once (specs : list (list string)) (l : list (list string)) : list (list string) :=
  match specs with
  | [] => l
  | s :: specs => drop_once specs (default l (remove_first s l))
  end.

(** What installing rules makes of a chain: one copy of each is taken out, then
    all of them follow in order. *)
Definition rebuild (specs l : list (list string)) : list (list string) := drop_once specs l ++ specs.

Lemma remove_first_None s l : s ∉ l → remove_first s l = None.
Proof.
  induction l as [|x l IH]; [done|]. intros [Hx Hl]%not_elem_of_cons. cbn.
  by rewrite decide_False, IH by done.
Qed.

Lemma remove_first_Some s l : s ∈ l → ∃ l', remove_first s l = Some l' ∧
  ∀ more, remove_first s (l ++ more) = Some (l' ++ more).
Proof.
  induction l as [|x l IH]; [by intros ?%not_elem_of_nil|]. intros Hs. cbn.
  destruct (decide (x = s)); [by eexists|].
  apply elem_of_cons in Hs as [?|Hs]; [done|]. destruct (IH Hs) as (l' & -> & Hl).
  exists (x :: l'). split; [done|]. intros more. by rewrite Hl.
Qed.

Lemma remove_first_elem s l l' x : remove_first s l = Some l' → x ∈ l' → x ∈ l.
Proof.
  revert l'. induction l as [|y l IH]; intros l'; [done|]. cbn.
  destruct (decide _); intros H Hx; [simplify_eq; by right|].
  apply fmap_Some in H as (l1 & H1 & ->). apply elem_of_cons in Hx as [->|Hx]; [by left|].
  right. by eapply IH.
Qed.

Lemma remove_first_keep s l l' x : remove_first s l = Some l' → x ≠ s → x ∈ l → x ∈ l'.
Proof.
  revert l'. induction l as [|y l IH]; intros l'; [done|]. cbn.
  destruct (decide _); intros H Hne Hx; apply elem_of_cons in Hx.
  - simplify_eq. by destruct Hx.
  - apply fmap_Some in H as (l1 & H1 & ->). destruct Hx as [->|Hx]; [by left|].
    right. by eapply IH.
Qed.

Lemma drop_once_elem specs l x : x ∈ drop_once specs l → x ∈ l.
Proof.
  revert l. induction specs as [|s specs IH]; intros l Hx; [done|].
  apply IH in Hx. destruct (remove_first s l) eqn:E; [by eapply remove_first_elem|done].
Qed.

Lemma drop_once_keep specs l x : x ∉ specs → x ∈ l → x ∈ drop_once specs l.
Proof.
  revert l. induction specs as [|s specs IH]; intros l Hx Hl; [done|].
  apply not_elem_of_cons in Hx as [Hs Hx]. cbn. apply IH; [done|].
  destruct (remove_first s l) eqn:E; [by eapply remove_first_keep|done].
Qed.

Lemma drop_once_snoc specs s l :
  drop_once (specs ++ [s]) l = default (drop_once specs l) (remove_first s (drop_once specs l)).
Proof. revert l. induction specs as [|x specs IH]; intros l; [done|]. apply IH. Qed.

Lemma rebuild_nil l : rebuild [] l = l.
Proof. apply app_nil_r. Qed.

Lemma rebuild_empty specs : rebuild specs [] = specs.
Proof. unfold rebuild. assert (drop_once specs [] = []) as ->; [by induction specs|done]. Qed.

(** One more rule, deleted first when the chain already had it. *)
Lemma rebuild_snoc specs s l : s ∉ l ∨ s ∉ specs →
  (if bool_decide (s ∈ l) then remove_first s (rebuild specs l) else Some (rebuild specs l)) =
    Some (drop_once (specs ++ [s]) l ++ specs).
Proof.
  intros Hs. unfold rebuild. rewrite drop_once_snoc. case_bool_decide as Hl.
  - destruct Hs as [|Hs]; [done|].
    destruct (remove_first_Some s (drop_once specs l)) as (l' & E & E'); [by apply drop_once_keep|].
    by rewrite E, E'.
  - rewrite remove_first_None; [done|]. by intros ?%drop_once_elem.
Qed.

(** *** Rules that can be installed *)

Definition rule_key (p : Protocol) (r : IPTablesRule) : chain_key := (p, Rule_Table r, Rule_Chain r).

(** The rules of a list that belong to one chain. *)
Definition specs_of (p : Protocol) (rules : list IPTablesRule) (k : chain_key) : list (list string) :=
  Rulespec <$> filter (λ r, rule_key p r = k) rules.

(** A rule appends to a chain that exists or is flannel's own, jumps to a
    standard target or to its own chain, and its arguments can be written. *)
Definition rule_ok (p : Protocol) (t : string) (cs : chainmap) (r : IPTablesRule) : Prop :=
  Rule_Table r = t ∧ Rule_Action r = "-A" ∧ args_ok None (Rule_Chain r :: Rulespec r) = true ∧
  ∃ oc, own_chain r = Ret oc ∧
    (oc = Some (Rule_Chain r) ∨ is_Some (cs !! (p, t, Rule_Chain r))) ∧
    match jump (Rulespec r) with None => True | Some x => builtin x = true ∨ oc = Some x end.

(** The chain a rule needs, created empty when it is missing. *)
Definition touch (p : Protocol) (r : IPTablesRule) (cs : chainmap) : chainmap :=
  match own_chain r with
  | Ret (Some c) => match cs !! (p, Rule_Table r, c) with
                    | Some _ => cs
                    | None => <[(p, Rule_Table r, c) := []]> cs
                    end
  | _ => cs
  end.
Fixpoint created (p : Protocol) (rules : list IPTablesRule) (cs : chainmap) : chainmap :=
  match rules with
  | [] => cs
  | r :: rules => created p rules (touch p r cs)
  end.

(** The transaction of one rule. *)
Definition rule_lines (p : Protocol) (cs : chainmap) (r : IPTablesRule) : list (list string) :=
  (if bool_decide (Rulespec r ∈ default [] (cs !! rule_key p r))
   then [ "-D" :: Rule_Chain r :: Rulespec r ] else []) ++
  [ "-A" :: Rule_Chain r :: Rulespec r ].

Lemma touch_kept p r cs k l : cs !! k = Some l → touch p r cs !! k = Some l.
Proof.
  unfold touch. intros Hk. destruct (own_chain r) as [[c|]|e|]; try done.
  destruct (cs !! (p, Rule_Table r, c)) eqn:E; [done|]. by rewrite lookup_insert_ne by congruence.
Qed.

Lemma touch_default p r cs k : default [] (touch p r cs !! k) = default [] (cs !! k).
Proof.
  destruct (cs !! k) as [l|] eqn:Hk; [by erewrite touch_kept|].
  unfold touch. destruct (own_chain r) as [[c|]|e|]; try by rewrite Hk.
  destruct (cs !! (p, Rule_Table r, c)) eqn:E; [by rewrite Hk|].
  destruct (decide (k = (p, Rule_Table r, c))) as [->|]; [by rewrite lookup_insert_eq|].
  by rewrite lookup_insert_ne, Hk.
Qed.

Lemma created_kept p rules cs k l : cs !! k = Some l → created p rules cs !! k = Some l.
Proof.
  revert cs. induction rules as [|r rules IH]; intros cs Hk; [done|]. by apply IH, touch_kept.
Qed.

Lemma created_default p rules cs k : default [] (created p rules cs !! k) = default [] (cs !! k).
Proof.
  revert cs. induction rules as [|r rules IH]; intros cs; [done|].
  cbn [created]. by rewrite IH, touch_default.
Qed.

Lemma rule_ok_touch p t cs r r' : rule_ok p t cs r → rule_ok p t (touch p r' cs) r.
Proof.
  intros (? & ? & ? & oc & ? & [?|[l Hl]] & ?); split_and!; try done; exists oc; split_and!; auto.
  right. exists l. by apply touch_kept.
Qed.

Lemma touch_own p t cs r c : own_chain r = Ret (Some c) → Rule_Table r = t →
  is_Some (touch p r cs !! (p, t, c)).
Proof.
  intros Hc <-. unfold touch. rewrite Hc. destruct (cs !! _) eqn:E; [by rewrite E|].
  by rewrite lookup_insert_eq.
Qed.

(** Once its chain is there a rule can be checked and installed. *)
Lemma rule_ready p t cs r : rule_ok p t cs r →
  is_Some (touch p r cs !! rule_key p r) ∧ target_ok p t (touch p r cs) (Rulespec r) = true.
Proof.
  intros (Ht & _ & _ & oc & Hoc & Hc & Hj). unfold rule_key. rewrite Ht. split.
  - destruct Hc as [->|[l Hl]]; [by apply touch_own|]. exists l. by apply touch_kept.
  - unfold target_ok. destruct (jump (Rulespec r)) as [x|]; [|done].
    destruct Hj as [->| ->]; [done|]. apply orb_true_iff. right.
    apply bool_decide_eq_true. by apply touch_own.
Qed.

Lemma target_ok_mono p t cs cs' spec : (∀ k, is_Some (cs !! k) → is_Some (cs' !! k)) →
  target_ok p t cs spec = true → target_ok p t cs' spec = true.
Proof.
  intros Hdom. unfold target_ok. destruct (jump spec) as [x|]; [|done].
  rewrite !orb_true_iff, !bool_decide_eq_true. naive_solver.
Qed.

Lemma rules_ready p t cs rules : Forall (rule_ok p t cs) rules →
  Forall (λ r, Rule_Table r = t ∧ is_Some (created p rules cs !! rule_key p r) ∧
               target_ok p t (created p rules cs) (Rulespec r) = true) rules.
Proof.
  revert cs. induction rules as [|r rules IH]; intros cs Hok; [by constructor|].
  apply list.Forall_cons in Hok as [Hr Hok]. constructor.
  - destruct (rule_ready p t cs r Hr) as [[l Hl] Htar]. split_and!; [apply Hr| |].
    + exists l. cbn [created]. by apply created_kept.
    + revert Htar. apply target_ok_mono. intros k [l' Hl']. exists l'. cbn [created]. by apply created_kept.
  - apply IH. apply (list.Forall_impl (rule_ok p t cs)); [done|]. intros r'. apply rule_ok_touch.
Qed.

Lemma rule_lines_default p cs cs' r :
  default [] (cs !! rule_key p r) = default [] (cs' !! rule_key p r) → rule_lines p cs r = rule_lines p cs' r.
Proof. unfold rule_lines. by intros ->. Qed.

Lemma rule_lines_ok p t cs r : rule_ok p t cs r → Forall (λ l, line_ok l = true) (rule_lines p cs r).
Proof.
  intros (_ & _ & Ha & _). unfold rule_lines. apply Forall_app. split.
  - case_bool_decide; [|by constructor]. constructor; [|by constructor].
    unfold line_ok. by rewrite bool_decide_eq_true_2 by auto.
  - constructor; [|by constructor]. unfold line_ok. by rewrite bool_decide_eq_true_2 by auto.
Qed.

(** *** The transaction of a list of rules, applied *)

Lemma specs_of_snoc p rules r k : specs_of p (rules ++ [r]) k =
  specs_of p rules k ++ (if decide (rule_key p r = k) then [Rulespec r] else []).
Proof.
  unfold specs_of. rewrite list.filter_app, fmap_app. f_equal. rewrite filter_cons, filter_nil.
  by destruct (decide _).
Qed.

(** No rule that the chain already has is listed twice. *)
Definition distinct_specs (p : Protocol) (rules : list IPTablesRule) (cs : chainmap) : Prop :=
  ∀ k l, cs !! k = Some l → NoDup (filter (λ s, s ∈ l) (specs_of p rules k)).

Lemma distinct_step p done r todo cs l : distinct_specs p (done ++ r :: todo) cs →
  cs !! rule_key p r = Some l → Rulespec r ∉ l ∨ Rulespec r ∉ specs_of p done (rule_key p r).
Proof.
  intros Hd Hl. specialize (Hd _ _ Hl). unfold specs_of in *.
  rewrite list.filter_app, filter_cons_True in Hd by done. rewrite fmap_app, fmap_cons, list.filter_app in Hd.
  destruct (decide (Rulespec r ∈ l)) as [Hin|]; [|by left]. right. intros HS.
  apply list.NoDup_app in Hd as (_ & Hd & _). apply (Hd (Rulespec r)).
  - apply list_elem_of_filter. done.
  - apply list_elem_of_filter. split; [done|]. by left.
Qed.

Lemma restore_lines_app p t cs l1 l2 :
  restore_lines p t cs (l1 ++ l2) = cs' ← restore_lines p t cs l1; restore_lines p t cs' l2.
Proof.
  revert cs. induction l1 as [|l l1 IH]; intros cs; [done|]. cbn.
  destruct (restore_line p t cs l); [apply IH|done].
Qed.

Lemma restore_append p t cs c spec l : cs !! (p, t, c) = Some l → target_ok p t cs spec = true →
  restore_line p t cs ("-A" :: c :: spec) = Some (<[(p, t, c) := l ++ [spec]]> cs).
Proof. intros Hl Ht. unfold restore_line. rewrite Hl. cbn [mbind option_bind]. by rewrite Ht. Qed.

Lemma restore_delete p t cs c spec l l' : cs !! (p, t, c) = Some l → target_ok p t cs spec = true →
  remove_first spec l = Some l' →
  restore_line p t cs ("-D" :: c :: spec) = Some (<[(p, t, c) := l']> cs).
Proof. intros Hl Ht Hr. unfold restore_line. rewrite Hl. cbn [mbind option_bind]. rewrite Ht. cbn. by rewrite Hr. Qed.

Lemma insert_dom_mono (cs : chainmap) k l k' : is_Some (cs !! k') → is_Some (<[k := l]> cs !! k').
Proof. intros. destruct (decide (k = k')) as [->|]; [by rewrite lookup_insert_eq|by rewrite lookup_insert_ne]. Qed.

Lemma restore_one p t base cs S r l0 : Rule_Table r = t →
  base !! rule_key p r = Some l0 → cs !! rule_key p r = Some (rebuild S l0) →
  target_ok p t cs (Rulespec r) = true → (Rulespec r ∉ l0 ∨ Rulespec r ∉ S) →
  restore_lines p t cs (rule_lines p base r) = Some (<[rule_key p r := rebuild (S ++ [Rulespec r]) l0]> cs).
Proof.
  intros Ht Hb Hc Htar Hs. pose proof (rebuild_snoc S (Rulespec r) l0 Hs) as Hre.
  unfold rule_lines. rewrite Hb. cbn [default from_option id]. unfold rule_key in *. rewrite Ht in *.
  unfold rebuild. rewrite app_assoc. case_bool_decide; cbn [app restore_lines].
  - erewrite restore_delete by done. cbn [mbind option_bind].
    erewrite restore_append; [|by rewrite lookup_insert_eq|].
    + cbn [mbind option_bind]. by rewrite insert_insert_eq.
    + revert Htar. apply target_ok_mono. intros k. apply insert_dom_mono.
  - injection Hre as Hre. rewrite Hre in Hc. by erewrite restore_append by done.
Qed.

Lemma restore_rules p t base todo : ∀ done cs,
  (∀ k, cs !! k = rebuild (specs_of p done k) <$> base !! k) →
  Forall (λ r, Rule_Table r = t ∧ is_Some (base !! rule_key p r) ∧ target_ok p t base (Rulespec r) = true) todo →
  distinct_specs p (done ++ todo) base →
  ∃ cs', restore_lines p t cs (concat (rule_lines p base <$> todo)) = Some cs' ∧
    ∀ k, cs' !! k = rebuild (specs_of p (done ++ todo) k) <$> base !! k.
Proof.
  induction todo as [|r todo IH]; intros done cs Hcs Hok Hd.
  { exists cs. rewrite app_nil_r. by split. }
  apply list.Forall_cons in Hok as [(Ht & [l0 Hl0] & Htar) Hok].
  assert (cs !! rule_key p r = Some (rebuild (specs_of p done (rule_key p r)) l0)) as Hc
    by (by rewrite Hcs, Hl0).
  cbn [fmap list_fmap concat]. rewrite restore_lines_app.
  erewrite restore_one; [|done..| |by eapply distinct_step].
  2: { revert Htar. apply target_ok_mono. intros k [l Hl]. rewrite Hcs, Hl. by eexists. }
  cbn. replace (done ++ r :: todo) with ((done ++ [r]) ++ todo) in * by (by rewrite <- app_assoc).
  apply IH; [|done..]. intros k. rewrite specs_of_snoc. destruct (decide (rule_key p r = k)) as [<-|].
  - by rewrite lookup_insert_eq, Hl0.
  - by rewrite lookup_insert_ne, app_nil_r.
Qed.

(** *** The calls on a host that follows its laws *)

Section laws.
Context {W : Type} `{NetfilterLaws W}.
Implicit Types (w : W) (p : Protocol) (t : string).

(** The handle that [NewIPTablesRestoreWithProtocol] makes. *)
Definition restore_handle p (iptr : ipTablesRestore) : Prop :=
  restore_path iptr = cmd_path (getIptablesRestoreCommand p).

Lemma New_run p w : ∃ iptr, restore_handle p iptr ∧ restore_proto iptr = p ∧
  NewIPTablesRestoreWithProtocol p w = (Ret iptr, w).
Proof.
  pose proof (law_version_ok p) as Hv.
  destruct (extractIptablesRestoreVersion (version_text p)) as [[[v1 v2] v3]| |] eqn:E; [|done..].
  exists (mkIpTablesRestore (cmd_path (getIptablesRestoreCommand p)) p (ipTablesHasWaitSupport v1 v2 v3)).
  split_and!; [done..|]. unfold NewIPTablesRestoreWithProtocol.
  erewrite M_bind_Ret by (apply (law_LookPath p); set_solver).
  erewrite M_bind_Ret by (apply (law_LookPath p); set_solver).
  erewrite M_bind_Ret; [done|]. unfold getIptablesRestoreSupport, getIptablesRestoreVersionString.
  erewrite M_bind_Ret by (by erewrite run_try_Ret by apply law_version). by rewrite E.
Qed.

Lemma Apply_run p iptr m w cs : restore_handle p iptr →
  Forall (λ tr, table_ok tr.1 = true ∧ Forall (λ l, line_ok l = true) tr.2) (map_to_list m) →
  restore_apply p (chains w) (range_rules m) = Some cs →
  ∃ w', ApplyWithoutFlush iptr m w = (Ret tt, w') ∧ chains w' = cs.
Proof.
  intros Hh Hok Happ. unfold ApplyWithoutFlush, runWithOutput. rewrite Hh.
  assert (restore_parse (buildIPTablesRestorePayload (range_rules m)) = Some (range_rules m)) as Hp.
  { apply restore_parse_payload. by rewrite law_range. }
  edestruct (law_restore p (if hasWait iptr then ["--noflush"] ++ ["--wait"] else ["--noflush"]))
    as (out & w' & Hrun & Hcs); [destruct (hasWait iptr); cbn; set_solver|exact Hp|exact Happ|].
  exists w'. split; [|done]. by erewrite run_try_Ret.
Qed.

(** A transaction on one table. *)
Lemma Apply_one_table p t iptr lines w cs : restore_handle p iptr → table_ok t = true →
  Forall (λ l, line_ok l = true) lines → restore_lines p t (chains w) lines = Some cs →
  ∃ w', ApplyWithoutFlush iptr (foldl (λ m l, add_line t l m) ∅ lines) w = (Ret tt, w') ∧ chains w' = cs.
Proof.
  intros Hh Ht Hok Happ.
  assert (∀ lines l0, foldl (λ m l, add_line t l m) {[t := l0]} lines = {[t := l0 ++ lines]}) as Hfold.
  { clear. intros lines. induction lines as [|l lines IH]; intros l0; [by rewrite app_nil_r|].
    cbn. unfold add_line at 2. rewrite lookup_singleton_eq, insert_singleton_eq.
    cbn. rewrite IH. by rewrite <- app_assoc. }
  destruct lines as [|l lines].
  { cbn [foldl]. apply (Apply_run p); [done|by rewrite map_to_list_empty|].
    pose proof (law_range ∅) as Hr. rewrite map_to_list_empty in Hr.
    apply Permutation_nil_r in Hr. by rewrite Hr. }
  assert (foldl (λ m l, add_line t l m) ∅ (l :: lines) = {[t := l :: lines]}) as ->.
  { cbn [foldl]. unfold add_line at 2. rewrite lookup_empty. cbn.
    rewrite insert_empty. apply Hfold. }
  apply (Apply_run p); [done| |].
  - rewrite map_to_list_singleton. constructor; [|by constructor]. done.
  - pose proof (law_range {[t := l :: lines]}) as Hr. rewrite map_to_list_singleton in Hr.
    apply Permutation_singleton_r in Hr. rewrite Hr. cbn [restore_apply].
    by rewrite Happ.
Qed.

Lemma ensure_chain_run p t ipt r w : ipt_proto ipt = p → known_table t → rule_ok p t (chains w) r →
  ∃ w', ensure_chain ipt r w = (Ret tt, w') ∧ chains w' = touch p r (chains w).
Proof.
  intros Hp Hk (Ht & _ & _ & oc & Hoc & _). unfold ensure_chain, touch. rewrite Hoc, Ht. run.
  destruct oc as [c|]; [|by exists w].
  erewrite M_bind_Ret by (apply wrapping_Ret, law_ChainExists; done). rewrite Hp.
  destruct (chains w !! (p, t, c)) eqn:E; cbn; [by exists w|].
  destruct (law_ClearChain ipt t c w Hk) as (w' & Hw & Hc). exists w'. rewrite <- Hp. split; [|done].
  by apply wrapping_Ret.
Qed.

Lemma Exists_run p t ipt r w : ipt_proto ipt = p → known_table t → Rule_Table r = t →
  is_Some (chains w !! rule_key p r) → target_ok p t (chains w) (Rulespec r) = true →
  Exists ipt (Rule_Table r) (Rule_Chain r) (Rulespec r) w =
    (Ret (bool_decide (Rulespec r ∈ default [] (chains w !! rule_key p r))), w).
Proof.
  intros Hp Hk Ht [l Hl] Htar. unfold rule_key in *. rewrite Hl, Ht in *. cbn.
  apply law_Exists; by rewrite ?Hp.
Qed.

Lemma clean_and_build_run p t ipt rules : ipt_proto ipt = p → known_table t → ∀ w acc,
  Forall (rule_ok p t (chains w)) rules →
  ∃ w', clean_and_build ipt rules acc w =
      (Ret (foldl (λ m l, add_line t l m) acc (concat (rule_lines p (chains w) <$> rules))), w') ∧
    chains w' = created p rules (chains w).
Proof.
  intros Hp Hk. induction rules as [|r rules IH]; intros w acc Hok; [by exists w|].
  apply list.Forall_cons in Hok as [Hr Hok]. cbn [clean_and_build].
  destruct (ensure_chain_run p t ipt r w Hp Hk Hr) as (w1 & Hw1 & Hc1).
  erewrite M_bind_Ret by exact Hw1. destruct (rule_ready p t _ r Hr) as [Hkey Htar].
  erewrite M_bind_Ret by (apply wrapping_Ret, (Exists_run p t); rewrite ?Hc1; try done; apply Hr).
  destruct Hr as (Ht & Ha & _). rewrite Ha, Ht.
  assert (concat (rule_lines p (chains w) <$> rules) = concat (rule_lines p (chains w1) <$> rules)) as Hlines.
  { f_equal. apply list_fmap_ext. intros i x _. apply rule_lines_default. by rewrite Hc1, touch_default. }
  set (acc' := foldl (λ m l, add_line t l m) acc (rule_lines p (chains w) r)).
  destruct (IH w1 acc') as (w' & Hw' & Hc').
  { rewrite Hc1. apply (list.Forall_impl (rule_ok p t (chains w))); [done|]. intros r'. apply rule_ok_touch. }
  exists w'. cbn [created]. rewrite Hc', <- Hc1. split; [|done].
  change (rule_lines p (chains w) <$> r :: rules)
    with (rule_lines p (chains w) r :: (rule_lines p (chains w) <$> rules)).
  cbn [concat]. rewrite foldl_app, Hlines. fold acc'. rewrite <- Hw'. do 2 f_equal.
  unfold acc', rule_lines. rewrite Hc1, touch_default, foldl_app. by case_bool_decide.
Qed.

(** Installing rules: every chain they need exists and ends with them, in order. *)
Lemma Bootstrap_run p t ipt iptr rules w : ipt_proto ipt = p → restore_handle p iptr → known_table t →
  Forall (rule_ok p t (chains w)) rules → distinct_specs p rules (created p rules (chains w)) →
  ∃ w', ipTablesBootstrap ipt iptr rules w = (Ret tt, w') ∧
    ∀ k, chains w' !! k = rebuild (specs_of p rules k) <$> created p rules (chains w) !! k.
Proof.
  intros Hp Hh Hk Hok Hd. unfold ipTablesBootstrap, ipTablesCleanAndBuild.
  destruct (clean_and_build_run p t ipt rules Hp Hk w ∅ Hok) as (w1 & Hw1 & Hc1).
  erewrite M_bind_Ret by (apply wrapping_Ret; exact Hw1).
  set (base := created p rules (chains w)) in *.
  assert (concat (rule_lines p (chains w) <$> rules) = concat (rule_lines p base <$> rules)) as Hlines.
  { f_equal. apply list_fmap_ext. intros i x _. apply rule_lines_default.
    unfold base. by rewrite created_default. }
  destruct (restore_rules p t base rules [] base) as (cs & Hrun & Hcs).
  - intros k. rewrite <- (option_fmap_id (base !! k)) at 1. apply option_fmap_ext. intros l. by rewrite rebuild_nil.
  - by apply rules_ready.
  - done.
  - destruct (Apply_one_table p t iptr (concat (rule_lines p (chains w) <$> rules)) w1 cs)
      as (w' & Hw' & Hc'); [done|by destruct Hk as [-> | ->]| |by rewrite Hc1, Hlines|].
    + apply Forall_concat, Forall_fmap. eapply list.Forall_impl; [exact Hok|]. intros r. apply rule_lines_ok.
    + exists w'. rewrite Hc'. split; [by apply wrapping_Ret|done].
Qed.

(** A rule is in place: the chains it needs exist and its own holds it. *)
Definition present p (cs : chainmap) (r : IPTablesRule) : Prop :=
  touch p r cs = cs ∧ Rulespec r ∈ default [] (cs !! rule_key p r).
#[global] Instance present_dec p cs r : Decision (present p cs r).
Proof. apply _. Defined.

Lemma touch_missing p t cs r c : own_chain r = Ret (Some c) → Rule_Table r = t →
  cs !! (p, t, c) = None → touch p r cs ≠ cs.
Proof.
  intros Hc Ht Hn E. destruct (touch_own p t cs r c Hc Ht) as [l Hl]. congruence.
Qed.

Lemma touch_found p t cs r oc : own_chain r = Ret oc → Rule_Table r = t →
  match oc with Some c => is_Some (cs !! (p, t, c)) | None => True end → touch p r cs = cs.
Proof.
  intros Hc Ht Hs. unfold touch. rewrite Hc, Ht. destruct oc as [c|]; [|done]. by destruct Hs as [l ->].
Qed.

(** The checks that every rule starts with, in the existence test and in the teardown. *)
Lemma chain_test p t ipt r w oc : ipt_proto ipt = p → known_table t → Rule_Table r = t → own_chain r = Ret oc →
  (match oc with
   | Some c => wrapping "failed to check rule existence: %v" (ChainExists ipt (Rule_Table r) c)
   | None => mret true
   end) w = (Ret (bool_decide (touch p r (chains w) = chains w)), w).
Proof.
  intros Hp Hk Ht Hoc. destruct oc as [c|].
  - rewrite Ht. erewrite wrapping_Ret by (by apply law_ChainExists). rewrite Hp.
    do 2 f_equal. apply bool_decide_ext. split.
    + intros Hs. by apply (touch_found p t _ r (Some c)).
    + intros E. destruct (chains w !! (p, t, c)) eqn:En; [done|].
      by destruct (touch_missing p t (chains w) r c Hoc Ht En).
  - by rewrite bool_decide_eq_true_2 by (by apply (touch_found p t _ r None)).
Qed.

Lemma RulesExist_run p t ipt rules w : ipt_proto ipt = p → known_table t →
  Forall (rule_ok p t (chains w)) rules →
  ipTablesRulesExist ipt rules w = (Ret (bool_decide (Forall (present p (chains w)) rules)), w).
Proof.
  intros Hp Hk. induction 1 as [|r rules Hr _ IH]; [done|]. cbn [ipTablesRulesExist].
  pose proof Hr as (Ht & _ & _ & oc & Hoc & _). rewrite Hoc. run.
  erewrite M_bind_Ret by (by apply (chain_test p t)).
  destruct (decide (touch p r (chains w) = chains w)) as [Etouch|Etouch].
  2: { rewrite bool_decide_eq_false_2 by done. cbn. rewrite bool_decide_eq_false_2; [done|].
       intros Hf. apply list.Forall_cons in Hf as [[? _] _]. done. }
  rewrite bool_decide_eq_true_2 by done. cbn [negb].
  destruct (rule_ready p t _ r Hr) as [Hkey Htar]. rewrite Etouch in *.
  erewrite M_bind_Ret by (by apply wrapping_Ret, (Exists_run p t)).
  destruct (bool_decide_reflect (Rulespec r ∈ default [] (chains w !! rule_key p r))) as [Hin|Hin]; cbn [negb].
  - rewrite IH. do 2 f_equal. apply bool_decide_ext. rewrite list.Forall_cons. unfold present. tauto.
  - rewrite bool_decide_eq_false_2; [done|]. intros Hf. apply list.Forall_cons in Hf as [[_ ?] _]. done.
Qed.

Lemma specs_of_elem p rules r : r ∈ rules → Rulespec r ∈ specs_of p rules (rule_key p r).
Proof. intros Hr. unfold specs_of. apply list_elem_of_fmap_2. by apply list_elem_of_filter. Qed.

Lemma rebuilt_present p t rules cs cs' : Forall (rule_ok p t cs) rules →
  (∀ k, cs' !! k = rebuild (specs_of p rules k) <$> created p rules cs !! k) →
  Forall (present p cs') rules.
Proof.
  intros Hok Hcs. apply list.Forall_forall. intros r Hr.
  pose proof (rules_ready p t cs rules Hok) as Hready. rewrite list.Forall_forall in Hok, Hready.
  destruct (Hok r Hr) as (Ht & _ & _ & oc & Hoc & _). destruct (Hready r Hr) as (_ & [l Hl] & _). split.
  - apply (touch_found p t _ r oc); [done..|]. destruct oc as [c|]; [|done].
    rewrite Hcs. apply fmap_is_Some. clear -Hr Hoc Ht. revert cs.
    induction rules as [|r' rules IH]; [by apply not_elem_of_nil in Hr|]. intros cs.
    apply elem_of_cons in Hr as [->|Hr]; [|by apply IH].
    destruct (touch_own p t cs r' c Hoc Ht) as [l Hl]. exists l. cbn [created]. by apply created_kept.
  - rewrite Hcs, Hl. cbn. apply elem_of_app. right. by apply specs_of_elem.
Qed.

Lemma ensure_run p t ipt iptr rules w : ipt_proto ipt = p → restore_handle p iptr → known_table t →
  Forall (rule_ok p t (chains w)) rules → distinct_specs p rules (created p rules (chains w)) →
  ∃ w', ensureIPTables ipt iptr rules w = (Ret tt, w') ∧
    Forall (present p (chains w')) rules ∧
    if decide (Forall (present p (chains w)) rules) then w' = w
    else ∀ k, chains w' !! k = rebuild (specs_of p rules k) <$> created p rules (chains w) !! k.
Proof.
  intros Hp Hh Hk Hok Hd. unfold ensureIPTables.
  erewrite M_bind_Ret by (by apply wrapping_Ret, (RulesExist_run p t)).
  destruct (decide _) as [Hall|Hnot].
  - rewrite bool_decide_eq_true_2 by done. by exists w.
  - rewrite bool_decide_eq_false_2 by done.
    destruct (Bootstrap_run p t ipt iptr rules w Hp Hh Hk Hok Hd) as (w' & Hw' & Hc).
    exists w'. split_and!; [by apply wrapping_Ret| |done]. by eapply rebuilt_present.
Qed.

(** *** The teardown *)

Definition delete_line (r : IPTablesRule) : list string := "-D" :: Rule_Chain r :: Rulespec r.

Lemma teardown_build_run p t ipt rules w : ipt_proto ipt = p → known_table t →
  Forall (rule_ok p t (chains w)) rules → ∀ acc,
  teardown_build ipt rules acc w =
    (Ret (foldl (λ m l, add_line t l m) acc (delete_line <$> filter (present p (chains w)) rules)), w).
Proof.
  intros Hp Hk. induction 1 as [|r rules Hr _ IH]; intros acc; [done|]. cbn [teardown_build].
  pose proof Hr as (Ht & _ & _ & oc & Hoc & _). rewrite Hoc. run.
  erewrite M_bind_Ret by (by apply (chain_test p t)).
  destruct (decide (touch p r (chains w) = chains w)) as [Etouch|Etouch].
  2: { rewrite bool_decide_eq_false_2 by done. cbn [negb]. rewrite IH, filter_cons_False; [done|].
       by intros [? _]. }
  rewrite bool_decide_eq_true_2 by done. cbn [negb].
  destruct (rule_ready p t _ r Hr) as [Hkey Htar]. rewrite Etouch in *.
  erewrite M_bind_Ret by (by apply wrapping_Ret, (Exists_run p t)). rewrite IH.
  case_bool_decide as Hin.
  - rewrite filter_cons_True by done. by rewrite Ht.
  - rewrite filter_cons_False; [done|]. by intros [_ ?].
Qed.

Lemma restore_deletes p t base todo : ∀ done cs,
  (∀ k, cs !! k = drop_once (specs_of p done k) <$> base !! k) →
  Forall (λ r, Rule_Table r = t ∧ is_Some (base !! rule_key p r) ∧
    target_ok p t base (Rulespec r) = true ∧ Rulespec r ∈ default [] (base !! rule_key p r)) todo →
  distinct_specs p (done ++ todo) base →
  ∃ cs', restore_lines p t cs (delete_line <$> todo) = Some cs' ∧
    ∀ k, cs' !! k = drop_once (specs_of p (done ++ todo) k) <$> base !! k.
Proof.
  induction todo as [|r todo IH]; intros done cs Hcs Hok Hd.
  { exists cs. rewrite app_nil_r. by split. }
  apply list.Forall_cons in Hok as [(Ht & [l0 Hl0] & Htar & Hin) Hok]. rewrite Hl0 in Hin. cbn in Hin.
  destruct (distinct_step p done r todo base l0 Hd Hl0) as [|Hnot]; [done|].
  destruct (remove_first_Some (Rulespec r) (drop_once (specs_of p done (rule_key p r)) l0)) as (l' & Hl' & _);
    [by apply drop_once_keep|].
  rewrite fmap_cons. cbn [restore_lines]. change (delete_line r) with ("-D" :: Rule_Chain r :: Rulespec r).
  erewrite restore_delete; [| | |exact Hl'].
  - cbn [mbind option_bind]. replace (done ++ r :: todo) with ((done ++ [r]) ++ todo) in * by (by rewrite <- app_assoc).
    apply IH; [|done..]. intros k. rewrite specs_of_snoc, <- Ht. fold (rule_key p r).
    destruct (decide (rule_key p r = k)) as [<-|].
    + rewrite lookup_insert_eq, Hl0. cbn. rewrite drop_once_snoc, Hl'. done.
    + by rewrite lookup_insert_ne, app_nil_r.
  - rewrite <- Ht. fold (rule_key p r). by rewrite Hcs, Hl0.
  - revert Htar. apply target_ok_mono. intros k [l Hl]. rewrite Hcs, Hl. by eexists.
Qed.

Lemma filter_distinct p rules cs Q `{∀ r, Decision (Q r)} :
  distinct_specs p rules cs → distinct_specs p (filter Q rules) cs.
Proof.
  intros Hd k l Hl. specialize (Hd k l Hl). revert Hd. unfold specs_of. clear. intros Hd.
  apply (sublist_NoDup _ _ Hd). clear. induction rules as [|r rules IH]; [done|].
  rewrite (filter_cons _ r). destruct (decide (Q r)).
  - rewrite !filter_cons. destruct (decide (rule_key p r = k)); [|done].
    rewrite !fmap_cons, !filter_cons. destruct (decide _); [by constructor|done].
  - rewrite (filter_cons _ r). destruct (decide (rule_key p r = k)); [|done].
    rewrite fmap_cons, (filter_cons _ (Rulespec r)). destruct (decide _); [by constructor|done].
Qed.

Lemma teardown_run p t ipt iptr rules w : ipt_proto ipt = p → restore_handle p iptr → known_table t →
  Forall (rule_ok p t (chains w)) rules → distinct_specs p rules (chains w) →
  ∃ w', teardownIPTables ipt iptr rules w = (Ret tt, w') ∧
    ∀ k, chains w' !! k = drop_once (specs_of p (filter (present p (chains w)) rules) k) <$> chains w !! k.
Proof.
  intros Hp Hh Hk Hok Hd. unfold teardownIPTables.
  erewrite M_bind_Ret by (by apply (teardown_build_run p t)).
  destruct (restore_deletes p t (chains w) (filter (present p (chains w)) rules) [] (chains w)) as (cs & Hrun & Hcs).
  - intros k. by rewrite (option_fmap_id (chains w !! k)).
  - apply list.Forall_forall. intros r [[E Hin] Hr]%list_elem_of_filter.
    rewrite list.Forall_forall in Hok. pose proof (Hok r Hr) as Hrok.
    destruct (rule_ready p t _ r Hrok) as [Hkey Htar]. rewrite E in *. split_and!; try done. apply Hrok.
  - by apply filter_distinct.
  - destruct (Apply_one_table p t iptr (delete_line <$> filter (present p (chains w)) rules) w cs)
      as (w' & Hw' & Hc'); [done|by destruct Hk as [-> | ->]| |done|].
    + apply Forall_fmap, filter_Forall. eapply list.Forall_impl; [exact Hok|].
      intros r (_ & _ & Ha & _). cbn. by rewrite bool_decide_eq_true_2 by auto.
    + exists w'. rewrite Hc'. split; [by apply wrapping_Ret|done].
Qed.
End laws.

(** ** The masquerade rules of one family *)

(** The text of a network: a word without a dash, so no option. *)
Definition net_text (s : string) : Prop := word s = true ∧ lacks "-" s.

Lemma word_of_lacks s : s ≠ "" → lacks quote s → lacks " " s → lacks nl s → lacks backslash s → word s = true.
Proof.
  intros Hne H1 H2 H3 H4. unfold word. rewrite bool_decide_eq_true_2 by done. cbn [andb]. clear Hne.
  unfold lacks in *. induction s as [|c s IH]; [done|]. cbn [str_all] in *.
  apply andb_true_iff in H1 as [? ?], H2 as [? ?], H3 as [? ?], H4 as [? ?].
  apply andb_true_iff. split; [|by apply IH]. unfold word_char. by repeat (apply andb_true_iff; split).
Qed.

Lemma IP4Net_net_text n : IP4Net_ok n → net_text (IP4Net_String n).
Proof.
  intros Hn. split; [|by apply IP4Net_String_lacks].
  apply word_of_lacks; [|by apply IP4Net_String_lacks..].
  intros E. apply (f_equal String.length) in E. unfold IP4Net_String in E.
  rewrite !str_length_app in E. cbn in E. lia.
Qed.

Lemma IP6Net_String_lacks n : IP6Net_ok n → ∃ s, IP6Net_String n = Ret s ∧ s ≠ "" ∧
  ∀ c, c ≠ "/"%char → is_digit c = false → digit_dot c = false → hex_colon c = false → lacks c s.
Proof.
  intros (a & Ha & Hok & Hp). unfold IP6Net_String, IP6_String_ptr. rewrite Ha. cbn [deref mbind outcome_bind].
  destruct (IP6_ToIP_spec a Hok) as (ip & E & Hlen & Hb & _). unfold IP6_String. rewrite E.
  cbn [mbind outcome_bind]. eexists. split_and!; [done| |].
  - intros E'. apply (f_equal String.length) in E'. rewrite !str_length_app in E'. cbn in E'. lia.
  - intros c Hc Hd H1 H2. apply lacks_app; [by apply IP_String_lacks|].
    apply lacks_app; [|apply fmt_dec_lacks; (done || lia)].
    unfold lacks. cbn [str_all]. rewrite andb_true_r. apply negb_true_iff, Ascii.eqb_neq. congruence.
Qed.

Lemma IP6Net_net_text n : IP6Net_ok n → ∃ s, IP6Net_String n = Ret s ∧ net_text s.
Proof.
  intros Hn. destruct (IP6Net_String_lacks n Hn) as (s & E & Hne & Hl). exists s. split; [done|].
  split; [|by apply Hl]. by apply word_of_lacks; [|apply Hl..].
Qed.

Lemma net_text_ne s c t : net_text s → c = "-"%char → s ≠ String c t.
Proof. intros [_ Hl] -> ->. unfold lacks in Hl. by cbn in Hl. Qed.

Lemma net_text_word s : net_text s → word s = true.
Proof. by intros [? _]. Qed.

Definition masq_jump : list string := masq_spec [] ["FLANNEL-POSTRTG"].
(** What the chain [FLANNEL-POSTRTG] is to hold. *)
Definition masq_chain (c pod m : string) (rf : bool) : list (list string) := Rulespec <$> tail (masq_rules c pod m rf).

Lemma masq_specs p c pod m rf k : specs_of p (masq_rules c pod m rf) k =
  if decide (k = (p, "nat", "POSTROUTING")) then [masq_jump]
  else if decide (k = (p, "nat", "FLANNEL-POSTRTG")) then masq_chain c pod m rf else [].
Proof.
  unfold specs_of, masq_rules, masq_chain. cbn [tail].
  destruct (decide (k = _)) as [->|H1].
  - rewrite filter_cons_True by done. rewrite !filter_cons_False by (unfold rule_key; cbn; congruence). done.
  - rewrite filter_cons_False by (unfold rule_key; cbn; congruence).
    destruct (decide (k = _)) as [->|H2].
    + by rewrite !filter_cons_True by done.
    + by rewrite !filter_cons_False by (unfold rule_key; cbn; congruence).
Qed.

Lemma args_ok_word prev a rest : word a = true → prev ≠ Some "--comment" →
  args_ok prev (a :: rest) = args_ok (Some a) rest.
Proof. intros Ha Hp. cbn [args_ok]. by rewrite decide_False, Ha. Qed.

Lemma jump_skip a rest : a ≠ "-j" → jump (a :: rest) = jump rest.
Proof. intros. cbn [jump]. by rewrite decide_False. Qed.

Lemma jump_here t rest : jump ("-j" :: t :: rest) = Some t.
Proof. done. Qed.

(** A rule whose arguments are networks and literals. *)
Ltac solve_rule_ok :=
  unfold rule_ok; cbn [Rule_Table Rule_Action Rule_Chain Rulespec app]; split_and!; [done..| |];
  [ repeat (rewrite args_ok_word; [|first [assumption|reflexivity]|congruence]); reflexivity
  | eexists; split; [reflexivity|]; split; [auto|];
    repeat (rewrite jump_skip by congruence); rewrite jump_here; first [by left|by right] ].

Lemma masq_rules_ok p cs c pod m rf : net_text c → net_text pod → net_text m →
  is_Some (cs !! (p, "nat", "POSTROUTING")) → Forall (rule_ok p "nat" cs) (masq_rules c pod m rf).
Proof.
  intros Hc Hp Hm Hpost.
  assert (∀ s, net_text s → s ≠ "-j" ∧ s ≠ "--comment") as Hne
    by (intros s Hs; split; by eapply net_text_ne).
  pose proof (Hne c Hc) as [? ?]. pose proof (Hne pod Hp) as [? ?]. pose proof (Hne m Hm) as [? ?].
  apply net_text_word in Hc, Hp, Hm.
  unfold masq_rules, postrtg, masq_spec, masquerade, KubeProxyMark.
  repeat (apply list.Forall_cons; split); [| | | | | | |by constructor].
  all: destruct rf; solve_rule_ok.
Qed.

(** A rule that a chain holds at most once. *)
Definition at_most_once (s : list string) (l : list (list string)) : Prop :=
  (length (filter (λ x, x = s) l) <= 1)%nat.

Lemma filter_none s (l : list (list string)) : s ∉ l → filter (λ x, x ≠ s) l = l.
Proof. intros Hs. apply filter_all, list.Forall_forall. intros x Hx ->. done. Qed.

Lemma drop_once_one s l : at_most_once s l → drop_once [s] l = filter (λ x, x ≠ s) l.
Proof.
  unfold at_most_once. induction l as [|x l IH]; intros Hl; [done|]. cbn [drop_once remove_first].
  rewrite filter_cons in Hl. rewrite filter_cons. destruct (decide (x = s)) as [->|Hne].
  - destruct (decide (s ≠ s)) as [|_]; [done|]. cbn [default from_option id]. symmetry. apply filter_none.
    intros Hs. destruct (filter (λ x, x = s) l) as [|y f] eqn:E; [|cbn in Hl; lia].
    assert (s ∈ filter (λ x, x = s) l) as Hin by (by apply list_elem_of_filter).
    rewrite E in Hin. by apply not_elem_of_nil in Hin.
  - destruct (decide (x ≠ s)) as [_|]; [|done]. specialize (IH Hl). rewrite <- IH. cbn [drop_once].
    by destruct (remove_first s l).
Qed.

Lemma filter_drop_once s l S : (S = [] ∨ S = [s]) → at_most_once s l →
  drop_once [s] (drop_once S l) = filter (λ x, x ≠ s) l.
Proof.
  intros [-> | ->] Hl; [by apply drop_once_one|]. rewrite (drop_once_one s l) by done.
  cbn. rewrite remove_first_None; [done|]. by intros [? _]%list_elem_of_filter.
Qed.

Section masq_setup.
Context {W : Type} `{NetfilterLaws W}.
Implicit Types (w : W) (s : IPTablesManager W) (p : Protocol).

Definition with_host s w : IPTablesManager W :=
  mkIPTablesManager (ipv4Rules s) (ipv6Rules s) (resyncs s) w.

Lemma on_host_Ret {A} (m : M W A) s a w : m (host s) = (Ret a, w) → on_host m s = (Ret a, with_host s w).
Proof. intros Hm. unfold on_host. by rewrite Hm. Qed.

Lemma createChain_run p t c w : known_table t →
  ∃ w', createChain p t c w = (Ret tt, w') ∧ chains w' = <[(p, t, c) := []]> (chains w).
Proof.
  intros Hk. destruct (law_ClearChain (mkIPT p (random_fully p)) t c w Hk) as (w' & Hw & Hc).
  exists w'. split; [|done]. unfold createChain. erewrite run_try_Ret; [done|].
  by rewrite (M_bind_Ret _ _ _ _ _ (law_New p w)).
Qed.

Lemma deleteTables_run p t rules w : known_table t →
  Forall (rule_ok p t (chains w)) rules → distinct_specs p rules (chains w) →
  ∃ w', deleteTables p rules w = (Ret tt, w') ∧
    ∀ k, chains w' !! k = drop_once (specs_of p (filter (present p (chains w)) rules) k) <$> chains w !! k.
Proof.
  intros Hk Hok Hd. unfold deleteTables. rewrite (M_bind_Ret _ _ _ _ _ (law_New p w)).
  destruct (New_run p w) as (iptr & Hh & _ & Hn). rewrite (M_bind_Ret _ _ _ _ _ Hn).
  by apply (teardown_run p t).
Qed.

(** Installing the rules of a manager whose host can take them. *)
Lemma setupAndEnsure_run p t rules s : known_table t →
  Forall (rule_ok p t (chains (host s))) rules →
  distinct_specs p rules (created p rules (chains (host s))) →
  ∃ iptr w', setupAndEnsureTables p rules s =
      (Ret tt, add_rules p (mkResync (mkIPT p (random_fully p)) iptr rules) (with_host s w')) ∧
    restore_handle p iptr ∧
    ∀ k, chains w' !! k = rebuild (specs_of p rules k) <$> created p rules (chains (host s)) !! k.
Proof.
  intros Hk Hok Hd. unfold setupAndEnsureTables.
  destruct (New_run p (host s)) as (iptr & Hh & _ & Hn).
  assert (with_host s (host s) = s) as Eh by (by destruct s).
  erewrite run_try_Ret.
  2: { erewrite M_bind_Ret by (apply on_host_Ret, law_New). rewrite Eh.
       erewrite M_bind_Ret by (by apply on_host_Ret). rewrite Eh. reflexivity. }
  destruct (Bootstrap_run p t (mkIPT p (random_fully p)) iptr rules (host s)) as (w' & Hw & Hc); [done..|].
  exists iptr, w'. split_and!; [|done..]. erewrite run_try_Ret by (by apply on_host_Ret). done.
Qed.

(** The state of one family after the masquerade rules are set up: the chain of
    flannel holds its rules and nothing else, [POSTROUTING] ends with the one
    jump to it and keeps its other rules. *)
Definition masq_done p (specs : list (list string)) (cs cs' : chainmap) : Prop :=
  cs' !! (p, "nat", "FLANNEL-POSTRTG") = Some specs ∧
  ∃ l, cs !! (p, "nat", "POSTROUTING") = Some l ∧
    cs' !! (p, "nat", "POSTROUTING") = Some (filter (λ x, x ≠ masq_jump) l ++ [masq_jump]).

Definition masq_chains p : list chain_key := [(p, "nat", "POSTROUTING"); (p, "nat", "FLANNEL-POSTRTG")].

Definition masq_ready p (cs : chainmap) : Prop :=
  ∃ l, cs !! (p, "nat", "POSTROUTING") = Some l ∧ at_most_once masq_jump l.

Lemma masq_created p c pod m rf cs l : cs !! (p, "nat", "FLANNEL-POSTRTG") = Some l →
  created p (masq_rules c pod m rf) cs = cs.
Proof.
  intros Hl. unfold masq_rules. cbn [created].
  assert (∀ r oc, own_chain r = Ret oc → Rule_Table r = "nat" → oc = Some "FLANNEL-POSTRTG" → touch p r cs = cs) as Ht.
  { intros r oc Hoc Hr ->. apply (touch_found p "nat" _ r (Some "FLANNEL-POSTRTG")); [done..|]. by eexists. }
  destruct rf; by repeat erewrite Ht by reflexivity.
Qed.

Lemma specs_of_filter p rules Q `{∀ r, Decision (Q r)} k :
  specs_of p (filter Q rules) k `sublist_of` specs_of p rules k.
Proof.
  unfold specs_of. induction rules as [|r rules IH]; [done|].
  rewrite (filter_cons _ r). destruct (decide (Q r)).
  - rewrite !filter_cons. destruct (decide (rule_key p r = k)); [by constructor|done].
  - rewrite (filter_cons _ r). destruct (decide (rule_key p r = k)); [by constructor|done].
Qed.

Lemma recycle_run p (recycle : bool) oc opod om orf s :
  net_text oc → net_text opod → net_text om → masq_ready p (chains (host s)) →
  (recycle = true → distinct_specs p (masq_rules oc opod om orf) (chains (host s))) →
  ∃ w, (if recycle then on_host (deleteTables p (masq_rules oc opod om orf)) else mret tt) s = (Ret tt, with_host s w) ∧
    (∀ k, k ∉ masq_chains p → chains w !! k = chains (host s) !! k) ∧
    ∀ l, chains (host s) !! (p, "nat", "POSTROUTING") = Some l →
      ∃ S, (S = [] ∨ S = [masq_jump]) ∧ chains w !! (p, "nat", "POSTROUTING") = Some (drop_once S l).
Proof.
  intros Ho Hop Hom (l0 & Hl0 & _) Hd. destruct recycle.
  2: { exists (host s). split_and!; [by destruct s|done|]. intros l Hl. exists []. auto. }
  destruct (deleteTables_run p "nat" (masq_rules oc opod om orf) (host s)) as (w & Hw & Hc);
    [by left|by apply masq_rules_ok|by apply Hd|].
  exists w. split; [by apply on_host_Ret|].
  set (Q := present p (chains (host s))) in *.
  assert (∀ k, specs_of p (filter Q (masq_rules oc opod om orf)) k `sublist_of` specs_of p (masq_rules oc opod om orf) k) as Hsub
    by (intros; apply specs_of_filter).
  split.
  - intros k Hk. rewrite Hc. specialize (Hsub k). unfold masq_chains in Hk.
    rewrite masq_specs, !decide_False in Hsub by set_solver. apply sublist_nil_r in Hsub. rewrite Hsub.
    apply option_fmap_id.
  - intros l Hl. specialize (Hsub (p, "nat", "POSTROUTING")). rewrite masq_specs, decide_True in Hsub by done.
    eexists. split; [|by rewrite Hc, Hl].
    apply sublist_cons_r in Hsub as [Hn%sublist_nil_r|(l' & -> & ->%sublist_nil_r)]; auto.
Qed.

(** Recycle the old rules when asked to, clear the chain and install the new ones. *)
Lemma masq_family_run p (recycle : bool) oc opod om orf c pod m rf s :
  net_text oc → net_text opod → net_text om → net_text c → net_text pod → net_text m →
  masq_ready p (chains (host s)) →
  (recycle = true → distinct_specs p (masq_rules oc opod om orf) (chains (host s))) →
  ∃ s', (_ ← (if recycle then on_host (deleteTables p (masq_rules oc opod om orf)) else mret tt);
         _ ← on_host (createChain p "nat" "FLANNEL-POSTRTG");
         setupAndEnsureTables p (masq_rules c pod m rf)) s = (Ret tt, s') ∧
    masq_done p (masq_chain c pod m rf) (chains (host s)) (chains (host s')) ∧
    ∀ k, k ∉ masq_chains p → chains (host s') !! k = chains (host s) !! k.
Proof.
  intros Ho Hop Hom Hc Hp Hm Hr Hd. pose proof Hr as (l & Hl & Honce).
  destruct (recycle_run p recycle oc opod om orf s) as (w1 & Hw1 & Hother & Hpost); [done..|].
  destruct (Hpost l Hl) as (S & HS & Hl1).
  rewrite (M_bind_Ret _ _ _ _ _ Hw1).
  destruct (createChain_run p "nat" "FLANNEL-POSTRTG" w1) as (w2 & Hw2 & Hc2); [by left|].
  rewrite (M_bind_Ret _ _ _ _ _ (on_host_Ret _ (with_host s w1) _ _ Hw2)).
  assert (chains w2 !! (p, "nat", "FLANNEL-POSTRTG") = Some []) as Hown by (by rewrite Hc2, lookup_insert_eq).
  assert (chains w2 !! (p, "nat", "POSTROUTING") = Some (drop_once S l)) as Hl2 by (by rewrite Hc2, lookup_insert_ne).
  pose proof (masq_created p c pod m rf _ _ Hown) as Hcr.
  destruct (setupAndEnsure_run p "nat" (masq_rules c pod m rf) (with_host (with_host s w1) w2))
    as (iptr & w3 & Hrun & _ & Hc3); [by left| | |].
  - apply masq_rules_ok; [done..|]. cbn [host]. by eexists.
  - cbn [host with_host]. rewrite Hcr. intros k l' Hk. rewrite masq_specs.
    destruct (decide _) as [->|]; [|destruct (decide _) as [->|]].
    + apply (sublist_NoDup _ [masq_jump]); [apply NoDup_singleton|apply sublist_filter].
    + simplify_eq. rewrite (filter_ext _ (λ _, False)); [|set_solver].
      assert (∀ A (x : list A), filter (λ _, False) x = []) as ->; [|constructor].
      intros A x. induction x; [done|]. by rewrite filter_cons_False by auto.
    + constructor.
  - cbn [host with_host] in Hc3. rewrite Hcr in Hc3. eexists. split; [exact Hrun|].
    assert (∀ r s', host (add_rules p r s') = host s') as Eh by (intros r s'; by destruct p).
    rewrite Eh. cbn [host with_host]. split; [split|].
    + rewrite Hc3, masq_specs, decide_False, decide_True, Hown by done. cbn [fmap option_fmap option_map]. by rewrite rebuild_empty.
    + exists l. split; [done|]. rewrite Hc3, masq_specs, decide_True, Hl2 by done. cbn [fmap option_fmap option_map].
      unfold rebuild. by rewrite filter_drop_once.
    + intros k Hk. rewrite <- Hother by done. rewrite Hc3, masq_specs, !decide_False by set_solver.
      rewrite Hc2, lookup_insert_ne by set_solver.
      rewrite <- (option_fmap_id (chains w1 !! k)) at 2. apply option_fmap_ext. intros l'. apply rebuild_nil.
Qed.

Lemma masqRules_run n lease d w : masqRules n lease d w =
  (Ret (masq_rules (IP4Net_String n) (IP4Net_String (Subnet lease)) "224.0.0.0/4"
          (random_fully ProtocolIPv4 && negb d)), w).
Proof.
  unfold masqRules. erewrite M_bind_Ret; [done|]. unfold supports_random_fully.
  by erewrite run_try_Ret by apply law_New.
Qed.

Lemma masqIP6Rules_run n lease d w c pod : IP6Net_String n = Ret c → IP6Net_String (IPv6Subnet lease) = Ret pod →
  masqIP6Rules n lease d w = (Ret (masq_rules c pod "ff00::/8" (random_fully ProtocolIPv6 && negb d)), w).
Proof.
  intros Hc Hp. unfold masqIP6Rules. rewrite Hc, Hp. run. erewrite M_bind_Ret; [done|].
  unfold supports_random_fully. by erewrite run_try_Ret by apply law_New.
Qed.

(** What a family must look like before: [POSTROUTING] exists and jumps to
    flannel's chain at most once, and no chain holds a rule that the old rules
    list twice. *)
Definition family_ready p (old : list IPTablesRule) (cs : chainmap) : Prop :=
  masq_ready p cs ∧ distinct_specs p old cs.

(** The code of one family, with its rules already computed. *)
Lemma family_code p (recycle : bool) (mo mn : M W (list IPTablesRule)) Ro Rn s :
  (∀ w, mo w = (Ret Ro, w)) → (∀ w, mn w = (Ret Rn, w)) →
  (_ ← (if recycle then old ← on_host mo; on_host (deleteTables p old) else mret tt);
   _ ← on_host (createChain p "nat" "FLANNEL-POSTRTG");
   rules ← on_host mn;
   setupAndEnsureTables p rules) s =
  (_ ← (if recycle then on_host (deleteTables p Ro) else mret tt);
   _ ← on_host (createChain p "nat" "FLANNEL-POSTRTG");
   setupAndEnsureTables p Rn) s.
Proof.
  intros Ho Hn. assert (∀ s, with_host s (host s) = s) as Eh by (by intros []).
  assert (∀ A m R (f : list IPTablesRule → M (IPTablesManager W) A) s, (∀ w, m w = (Ret R, w)) →
    (x ← on_host m; f x) s = f R s) as Hrun.
  { intros A m R f s' Hm. erewrite M_bind_Ret by (by apply on_host_Ret). by rewrite Eh. }
  apply M_bind_cong; [destruct recycle; [exact (Hrun _ mo Ro (λ old, on_host (deleteTables p old)) s Ho)|done]|].
  intros _ s1. apply M_bind_cong; [done|]. intros _ s2.
  exact (Hrun _ mn Rn (λ rules, setupAndEnsureTables p rules) s2 Hn).
Qed.
End masq_setup.

(** ** The theorems *)

(** The text that [buildIPTablesRestorePayload] writes is read back by
    [iptables-restore] as exactly the tables and rule lines it was built from, in
    order, comments with blanks included. *)
Theorem payload_read_back trs :
  Forall (λ tr, table_ok tr.1 = true ∧ Forall (λ l, line_ok l = true) tr.2) trs →
  restore_parse (buildIPTablesRestorePayload trs) = Some trs.
Proof. apply restore_parse_payload. Qed.

Lemma payload_read_back_witness :
  restore_parse (buildIPTablesRestorePayload
    [("nat", [["-A"; "POSTROUTING"; "-m"; "comment"; "--comment"; "flanneld masq"; "-j"; "FLANNEL-POSTRTG"]])]) =
  Some [("nat", [["-A"; "POSTROUTING"; "-m"; "comment"; "--comment"; "flanneld masq"; "-j"; "FLANNEL-POSTRTG"]])].
Proof.
  apply payload_read_back. constructor; [|constructor]. split; [by vm_compute|].
  constructor; [by vm_compute|constructor].
Defined.

(** *** A host in memory *)

Definition mem_referenced (cs : chainmap) (k : chain_key) : bool :=
  existsb (λ e, bool_decide (e.1.1 = k.1) && existsb (λ spec, bool_decide (jump spec = Some k.2)) e.2)
    (map_to_list cs).

Definition mem_restore (p : Protocol) (payload : string) : M chainmap string := λ cs,
  match restore_parse payload with
  | Some trs => match restore_apply p cs trs with
                | Some cs' => (Ret "", cs')
                | None => (Err (Errorf "exit status 1"), cs)
                end
  | None => (Err (Errorf "exit status 2"), cs)
  end.

#[global] Instance mem_Netfilter : Netfilter chainmap := {
  iptables_New p := mret (mkIPT p true);
  ChainExists ipt t c cs := (Ret (bool_decide (is_Some (cs !! (ipt_proto ipt, t, c)))), cs);
  ClearChain ipt t c cs := (Ret tt, <[(ipt_proto ipt, t, c) := []]> cs);
  ClearAndDeleteChain ipt t c cs :=
    let k := (ipt_proto ipt, t, c) in
    match cs !! k with
    | None => (Ret tt, cs)
    | Some _ => if mem_referenced cs k then (Err (Errorf "Too many links"), <[k := []]> cs) else (Ret tt, delete k cs)
    end;
  Exists ipt t c spec cs := (Ret (bool_decide (spec ∈ default [] (cs !! (ipt_proto ipt, t, c)))), cs);
  LookPath c := mret ("/sbin/" +:+ c);
  cmd_Run path args stdin :=
    if decide (args = ["--version"]) then mret "iptables v1.8.7 (nf_tables)"
    else if decide (path = "/sbin/ip6tables-restore") then mem_restore ProtocolIPv6 stdin
    else mem_restore ProtocolIPv4 stdin;
  range_rules := map_to_list
}.

#[global, refine] Instance mem_NetfilterLaws : NetfilterLaws chainmap := {
  chains cs := cs;
  random_fully _ := true;
  cmd_path c := "/sbin/" +:+ c;
  version_text _ := "iptables v1.8.7 (nf_tables)"
}.
Proof.
  - done.
  - done.
  - done.
  - intros p. by vm_compute.
  - done.
  - intros ipt t c w _. by eexists.
  - intros ipt t c w _. cbn. destruct (w !! _) eqn:E.
    + destruct (mem_referenced _ _); eexists _, _; split_and!; try done; auto.
    + eexists _, _. split_and!; [done..|]. left. by rewrite delete_id.
  - intros ipt t c spec w l _ Hl _. cbn. by rewrite Hl.
  - intros p args payload w trs cs Hargs Hp Ha. exists "", cs. split; [|done].
    assert (args ≠ ["--version"]) by (intros ->; set_solver).
    cbn [cmd_Run mem_Netfilter]. rewrite decide_False by done. unfold mem_restore.
    destruct p; [rewrite decide_False by done|rewrite decide_True by done]; by rewrite Hp, Ha.
  - done.
Defined.

(** *** The resync *)

(** C33: a tick of the resync leaves every rule in place.  When they all were it
    changes nothing; otherwise the chains the rules need exist afterwards and each
    ends with its rules in the order of the list, after what else it held, and no
    other chain changes. *)
Theorem ensureIPTables_heals W `{NetfilterLaws W} p t ipt iptr rules (w : W) :
  ipt_proto ipt = p → restore_handle p iptr → known_table t →
  Forall (rule_ok p t (chains w)) rules → distinct_specs p rules (created p rules (chains w)) →
  ∃ w', ensureIPTables ipt iptr rules w = (Ret tt, w') ∧
    Forall (present p (chains w')) rules ∧
    if decide (Forall (present p (chains w)) rules) then w' = w
    else ∀ k, chains w' !! k = rebuild (specs_of p rules k) <$> created p rules (chains w) !! k.
Proof. apply ensure_run. Qed.

Definition forward_jump : list string := ["-m"; "comment"; "--comment"; "flanneld forward"; "-j"; "FLANNEL-FWD"].
Definition forward_chain (n : string) : list (list string) := Rulespec <$> tail (forwardRules n).

Lemma forward_rules_ok p cs n : net_text n → is_Some (cs !! (p, "filter", "FORWARD")) →
  Forall (rule_ok p "filter" cs) (forwardRules n).
Proof.
  intros Hn Hf. assert (n ≠ "-j" ∧ n ≠ "--comment") as [? ?] by (split; by eapply net_text_ne).
  apply net_text_word in Hn. unfold forwardRules.
  repeat (apply list.Forall_cons; split); [| | |by constructor].
  all: solve_rule_ok.
Qed.

Lemma forward_specs p n k : specs_of p (forwardRules n) k =
  if decide (k = (p, "filter", "FORWARD")) then [forward_jump]
  else if decide (k = (p, "filter", "FLANNEL-FWD")) then forward_chain n else [].
Proof.
  unfold specs_of, forwardRules, forward_chain. cbn [tail].
  destruct (decide (k = _)) as [->|H1].
  - rewrite filter_cons_True by done. by rewrite !filter_cons_False by (unfold rule_key; cbn; congruence).
  - rewrite filter_cons_False by (unfold rule_key; cbn; congruence).
    destruct (decide (k = _)) as [->|H2].
    + by rewrite !filter_cons_True by done.
    + by rewrite !filter_cons_False by (unfold rule_key; cbn; congruence).
Qed.

Lemma forward_distinct p n cs : distinct_specs p (forwardRules n) cs.
Proof.
  intros k l _. apply (sublist_NoDup _ (specs_of p (forwardRules n) k)); [|apply sublist_filter].
  rewrite forward_specs. destruct (decide _); [apply NoDup_singleton|]. destruct (decide _); [|constructor].
  constructor; [|apply NoDup_singleton]. unfold Rulespec. intros E%list_elem_of_singleton. by injection E.
Qed.

(** The forward rules on a host where someone deleted one of them. *)
Definition sample_chains : chainmap :=
  {[ (ProtocolIPv4, "filter", "FORWARD") := [["-j"; "DROP"]];
     (ProtocolIPv4, "filter", "FLANNEL-FWD") := take 1 (forward_chain "10.5.0.0/16") ]}.

Lemma ensureIPTables_heals_witness : ∃ w',
  ensureIPTables (mkIPT ProtocolIPv4 true) (mkIpTablesRestore "/sbin/iptables-restore" ProtocolIPv4 true)
    (forwardRules "10.5.0.0/16") sample_chains = (Ret tt, w') ∧
  Forall (present ProtocolIPv4 w') (forwardRules "10.5.0.0/16").
Proof.
  destruct (ensureIPTables_heals chainmap ProtocolIPv4 "filter" (mkIPT ProtocolIPv4 true)
    (mkIpTablesRestore "/sbin/iptables-restore" ProtocolIPv4 true) (forwardRules "10.5.0.0/16") sample_chains)
    as (w' & Hrun & Hall & _).
  - done.
  - done.
  - by right.
  - apply forward_rules_ok; [split; by vm_compute|]. eexists. by vm_compute.
  - apply forward_distinct.
  - eauto.
Defined.

(** *** The manager *)

Section setup.
Context {W : Type} `{NetfilterLaws W}.
Implicit Types (s : IPTablesManager W).

Abbreviation rf p d := (random_fully p && negb d).

(** The rules that the two families are to have. *)
Definition rules4 (net sub : IP4Net) (d : bool) : list IPTablesRule :=
  masq_rules (IP4Net_String net) (IP4Net_String sub) "224.0.0.0/4" (rf ProtocolIPv4 d).
Definition rules6 (c pod : string) (d : bool) : list IPTablesRule :=
  masq_rules c pod "ff00::/8" (rf ProtocolIPv6 d).

Lemma multicast_texts : net_text "224.0.0.0/4" ∧ net_text "ff00::/8".
Proof. split; split; by vm_compute. Qed.

Lemma setup4_run net psub pnet lease d s :
  IP4Net_ok net → IP4Net_ok psub → IP4Net_ok pnet → IP4Net_ok (Subnet lease) →
  family_ready ProtocolIPv4 (rules4 pnet psub d) (chains (host s)) →
  ∃ s', setupMasq4 net psub pnet lease d s = (Ret tt, s') ∧
    masq_done ProtocolIPv4 (Rulespec <$> tail (rules4 net (Subnet lease) d)) (chains (host s)) (chains (host s')) ∧
    ∀ k, k ∉ masq_chains ProtocolIPv4 → chains (host s') !! k = chains (host s) !! k.
Proof.
  intros Hn Hps Hpn Hl [Hr Hd]. destruct multicast_texts as [Hm _].
  unfold setupMasq4, deleteIP4Tables, CreateIP4Chain, setupAndEnsureIP4Tables.
  erewrite family_code by (intros; apply masqRules_run). cbn [Subnet old_lease].
  by apply masq_family_run; [by try apply IP4Net_net_text..|].
Qed.

Lemma setup6_run net psub pnet lease d s :
  IP6Net_ok net → IP6Net_ok psub → IP6Net_ok pnet → IP6Net_ok (IPv6Subnet lease) →
  (∀ c pod, IP6Net_String pnet = Ret c → IP6Net_String psub = Ret pod →
    family_ready ProtocolIPv6 (rules6 c pod d) (chains (host s))) →
  ∃ s', setupMasq6 net psub pnet lease d s = (Ret tt, s') ∧
    (∃ c pod, IP6Net_String net = Ret c ∧ IP6Net_String (IPv6Subnet lease) = Ret pod ∧
      masq_done ProtocolIPv6 (Rulespec <$> tail (rules6 c pod d)) (chains (host s)) (chains (host s'))) ∧
    ∀ k, k ∉ masq_chains ProtocolIPv6 → chains (host s') !! k = chains (host s) !! k.
Proof.
  intros Hn Hps Hpn Hl Hready. destruct multicast_texts as [_ Hm].
  destruct (IP6Net_net_text net Hn) as (c & Hc & Hct), (IP6Net_net_text _ Hl) as (pod & Hp & Hpt).
  destruct (IP6Net_net_text _ Hpn) as (oc & Hoc & Hoct), (IP6Net_net_text _ Hps) as (opod & Hop & Hopt).
  destruct (Hready oc opod Hoc Hop) as [Hr Hd].
  assert (∀ a b, IP6Net_ok a → IP6Net_ok b → ∃ e, IP6Net_Equal a b = Ret e) as Heq.
  { intros a b (x & Ex & _) (y & Ey & _). unfold IP6Net_Equal. rewrite Ex, Ey. cbn. by eexists. }
  destruct (Heq net pnet Hn Hpn) as [same E1], (Heq psub (IPv6Subnet lease) Hps Hl) as [eq E2].
  unfold setupMasq6, deleteIP6Tables, CreateIP6Chain, setupAndEnsureIP6Tables. rewrite E1, E2, run_lift_Ret.
  rewrite (M_bind_Ret _ _ s (negb same || negb eq) s) by (by destruct same).
  erewrite family_code by (intros; by apply masqIP6Rules_run).
  edestruct masq_family_run as (s' & Hrun & Hdone & Hoth);
    [exact Hoct|exact Hopt|exact Hm|exact Hct|exact Hpt|exact Hm|exact Hr|intros _; exact Hd|].
  exists s'. split; [exact Hrun|]. split; [by exists c, pod|done].
Qed.

(** A family only looks at its own two chains. *)
Lemma family_ready_other p c pod m r cs cs' : (∀ k, k ∈ masq_chains p → cs' !! k = cs !! k) →
  family_ready p (masq_rules c pod m r) cs → family_ready p (masq_rules c pod m r) cs'.
Proof.
  intros Hk [(l & Hl & Honce) Hd]. split.
  - exists l. split; [|done]. rewrite Hk; [done|]. by left.
  - intros k l' Hl'. destruct (decide (k ∈ masq_chains p)) as [Hin|Hnot].
    + apply (Hd k l'). by rewrite <- Hk.
    + rewrite masq_specs, !decide_False by (unfold masq_chains in Hnot; set_solver). constructor.
Qed.
End setup.

(** C3: setting up the masquerade rules, on a fresh start as when the network or
    the subnet has changed since the previous run, succeeds on a host whose
    [POSTROUTING] chains jump to flannel's chain at most once: afterwards, in
    each family that is configured, the chain [FLANNEL-POSTRTG] holds the rules
    of the current network and subnet and nothing else, [POSTROUTING] ends with
    exactly one jump to it and keeps its other rules in order, and no other chain
    of the host has changed. *)
Theorem SetupAndEnsureMasqRules_installs W `{NetfilterLaws W} net psub pnet net6 psub6 pnet6 lease d
    (s : IPTablesManager W) :
  IP4Net_ok net → IP4Net_ok psub → IP4Net_ok pnet → IP4Net_ok (Subnet lease) →
  family_ready ProtocolIPv4 (rules4 pnet psub d) (chains (host s)) →
  (IP6Net_Empty net6 = false →
    IP6Net_ok net6 ∧ IP6Net_ok psub6 ∧ IP6Net_ok pnet6 ∧ IP6Net_ok (IPv6Subnet lease) ∧
    ∀ c pod, IP6Net_String pnet6 = Ret c → IP6Net_String psub6 = Ret pod →
      family_ready ProtocolIPv6 (rules6 c pod d) (chains (host s))) →
  ∃ s', SetupAndEnsureMasqRules net psub pnet net6 psub6 pnet6 lease d s = (Ret tt, s') ∧
    (IP4Net_Empty net = false →
      masq_done ProtocolIPv4 (Rulespec <$> tail (rules4 net (Subnet lease) d)) (chains (host s)) (chains (host s'))) ∧
    (IP6Net_Empty net6 = false →
      ∃ c pod, IP6Net_String net6 = Ret c ∧ IP6Net_String (IPv6Subnet lease) = Ret pod ∧
        masq_done ProtocolIPv6 (Rulespec <$> tail (rules6 c pod d)) (chains (host s)) (chains (host s'))) ∧
    ∀ k, k ∉ masq_chains ProtocolIPv4 ++ masq_chains ProtocolIPv6 → chains (host s') !! k = chains (host s) !! k.
Proof.
  intros Hn Hps Hpn Hl Hready H6. unfold SetupAndEnsureMasqRules.
  assert (∃ s1, (if negb (IP4Net_Empty net) then setupMasq4 net psub pnet lease d else mret tt) s = (Ret tt, s1) ∧
    (IP4Net_Empty net = false → masq_done ProtocolIPv4 (Rulespec <$> tail (rules4 net (Subnet lease) d))
       (chains (host s)) (chains (host s1))) ∧
    ∀ k, k ∉ masq_chains ProtocolIPv4 → chains (host s1) !! k = chains (host s) !! k) as (s1 & Hrun & Hdone & Hoth).
  { destruct (IP4Net_Empty net); cbn [negb]; [by exists s|].
    destruct (setup4_run net psub pnet lease d s) as (s1 & ? & ? & ?); [done..|]. by exists s1. }
  rewrite (M_bind_Ret _ _ _ _ _ Hrun). destruct (IP6Net_Empty net6) eqn:E6; cbn [negb].
  { exists s1. split_and!; [done..|]. intros k Hk. apply Hoth. set_solver. }
  destruct (H6 eq_refl) as (? & ? & ? & ? & Hready6).
  assert (∀ k, k ∈ masq_chains ProtocolIPv6 → chains (host s1) !! k = chains (host s) !! k) as Hsame.
  { intros k Hk. apply Hoth. unfold masq_chains in *. set_solver. }
  destruct (setup6_run net6 psub6 pnet6 lease d s1) as (s2 & Hrun2 & (c & pod & Hc & Hp & Hdone2) & Hoth2); [done..| |].
  - intros c pod Hc Hp. by apply (family_ready_other ProtocolIPv6 _ _ _ _ (chains (host s))), Hready6.
  - exists s2. split_and!; [done|..].
    + intros E4. destruct (Hdone E4) as (Hown & l & Hl0 & Hl1). split; [|exists l; split; [done|]].
      * rewrite Hoth2; [done|]. unfold masq_chains. set_solver.
      * rewrite Hoth2; [done|]. unfold masq_chains. set_solver.
    + intros _. exists c, pod. split_and!; [done..|]. destruct Hdone2 as (Hown & l & Hl0 & Hl1).
      split; [done|]. exists l. split; [|done]. rewrite <- Hsame; [done|]. by left.
    + intros k Hk. rewrite Hoth2, Hoth by set_solver. done.
Qed.

(** A first start on a host with one foreign rule. *)
Definition fresh_chains : chainmap := {[ (ProtocolIPv4, "nat", "POSTROUTING") := [["-j"; "DOCKER"]] ]}.
Definition sample_net : IP4Net := mkIP4Net 168099840 16.
Definition sample_lease : Lease := plain_lease 168100096 24 None.

Lemma SetupAndEnsureMasqRules_installs_witness : ∃ s',
  SetupAndEnsureMasqRules sample_net (mkIP4Net 0 0) (mkIP4Net 0 0) (mkIP6Net None 0) (mkIP6Net None 0) (mkIP6Net None 0)
    sample_lease false (mkIPTablesManager [] [] [] fresh_chains) = (Ret tt, s') ∧
  host s' !! (ProtocolIPv4, "nat", "POSTROUTING") = Some [["-j"; "DOCKER"]; masq_jump] ∧
  host s' !! (ProtocolIPv4, "nat", "FLANNEL-POSTRTG") =
    Some (masq_chain "10.5.0.0/16" "10.5.1.0/24" "224.0.0.0/4" true).
Proof.
  destruct (SetupAndEnsureMasqRules_installs chainmap sample_net (mkIP4Net 0 0) (mkIP4Net 0 0)
    (mkIP6Net None 0) (mkIP6Net None 0) (mkIP6Net None 0) sample_lease false
    (mkIPTablesManager [] [] [] fresh_chains)) as (s' & Hrun & H4 & _).
  - repeat split; vm_compute; congruence.
  - repeat split; vm_compute; congruence.
  - repeat split; vm_compute; congruence.
  - repeat split; vm_compute; congruence.
  - split.
    + exists [["-j"; "DOCKER"]]. split; [done|]. unfold at_most_once. vm_compute. lia.
    + intros k l Hl. change (fresh_chains !! k = Some l) in Hl. unfold fresh_chains in Hl. apply lookup_singleton_Some in Hl as [<- <-].
      apply (bool_decide_unpack _). by vm_compute.
  - done.
  - exists s'. split; [done|]. destruct (H4 eq_refl) as (Hown & l & Hl & Hpost).
    change (fresh_chains !! (ProtocolIPv4, "nat", "POSTROUTING") = Some l) in Hl.
    unfold fresh_chains in Hl. apply lookup_singleton_Some in Hl as [_ <-]. split; [exact Hpost|exact Hown].
Defined.

(** *** Cleaning up *)

Section cleanup.
Context {W : Type} `{NetfilterLaws W}.

Definition emptied (cs : chainmap) (k : chain_key) : Prop := default [] (cs !! k) = [].

Lemma clean_chain p t c (s : IPTablesManager W) : known_table t →
  ∃ r w, try (on_host (ClearAndDeleteChain (mkIPT p (random_fully p)) t c)) s = (Ret r, with_host s w) ∧
    emptied (chains w) (p, t, c) ∧ ∀ k, k ≠ (p, t, c) → chains w !! k = chains (host s) !! k.
Proof.
  intros Hk. destruct (law_ClearAndDeleteChain (mkIPT p (random_fully p)) t c (host s) Hk)
    as (r & w & Hw & Hr & Hc).
  assert (emptied (chains w) (p, t, c) ∧ ∀ k, k ≠ (p, t, c) → chains w !! k = chains (host s) !! k) as Hres.
  { unfold emptied. destruct Hc as [->|[_ ->]]; cbn [ipt_proto]; split.
    - by rewrite lookup_delete_eq.
    - intros k ?. by rewrite lookup_delete_ne.
    - by rewrite lookup_insert_eq.
    - intros k ?. by rewrite lookup_insert_ne. }
  unfold try, on_host. rewrite Hw. destruct r as [u|e|]; [exists (inl u), w|exists (inr e), w|done]; done.
Qed.

Lemma clean_family_run p f (s : IPTablesManager W) :
  ∃ w, clean_family p f s = (Ret tt, with_host s w) ∧ emptied (chains w) (p, "nat", "FLANNEL-POSTRTG") ∧
    ∀ k, k ∉ [(p, "nat", "FLANNEL-POSTRTG"); (p, "nat", "FLANNEL-FWD")] → chains w !! k = chains (host s) !! k.
Proof.
  unfold clean_family. erewrite run_try_Ret by (apply on_host_Ret, law_New).
  destruct (clean_chain p "nat" "FLANNEL-POSTRTG" (with_host s (host s))) as (r1 & w1 & H1 & He & Ho); [by left|].
  rewrite (M_bind_Ret _ _ _ _ _ H1).
  destruct (clean_chain p "nat" "FLANNEL-FWD" (with_host s w1)) as (r2 & w2 & H2 & _ & Ho2); [by left|].
  exists w2. split; [by rewrite (M_bind_Ret _ _ _ _ _ H2)|]. split.
  - unfold emptied. by rewrite Ho2.
  - intros k Hk. rewrite Ho2 by set_solver. apply Ho. set_solver.
Qed.
End cleanup.

(** Cleaning up leaves no masquerade rule in [FLANNEL-POSTRTG] of either
    family, and it changes no chain outside [FLANNEL-POSTRTG] and [FLANNEL-FWD]
    of the table nat: the chain [FLANNEL-FWD] that the forward rules are
    installed in belongs to the table filter, so it and the rules of the chain
    FORWARD stay on the host. *)
Theorem CleanUp_leaves_forward W `{NetfilterLaws W} (s : IPTablesManager W) :
  ∃ w, IPTablesManager_CleanUp s = (Ret tt, with_host s w) ∧
    (∀ p, emptied (chains w) (p, "nat", "FLANNEL-POSTRTG")) ∧
    (∀ p t c, t ≠ "nat" → chains w !! (p, t, c) = chains (host s) !! (p, t, c)) ∧
    ∀ n r, r ∈ forwardRules n → Rule_Table r ≠ "nat".
Proof.
  unfold IPTablesManager_CleanUp.
  edestruct (clean_family_run ProtocolIPv4 "failed to setup IPTables. iptables binary was not found: %v" s) as (w1 & H1 & E1 & O1). rewrite (M_bind_Ret _ _ _ _ _ H1).
  edestruct (clean_family_run ProtocolIPv6 "failed to setup IPTables. ip6tables binary was not found: %v" (with_host s w1)) as (w2 & H2 & E2 & O2).
  exists w2. split_and!; [exact H2|..].
  - intros []; [|done]. unfold emptied. rewrite O2; [done|]. set_solver.
  - intros p t c Ht. rewrite O2 by set_solver. cbn [host with_host]. apply O1. set_solver.
  - intros n r Hr. unfold forwardRules in Hr.
    repeat (apply elem_of_cons in Hr as [->|Hr]; [done|]). by apply not_elem_of_nil in Hr.
Qed.

Lemma CleanUp_leaves_forward_witness :
  ∃ w, IPTablesManager_CleanUp (mkIPTablesManager [] [] [] sample_chains) =
      (Ret tt, mkIPTablesManager [] [] [] w) ∧
    w !! (ProtocolIPv4, "filter", "FLANNEL-FWD") = Some (take 1 (forward_chain "10.5.0.0/16")).
Proof.
  destruct (CleanUp_leaves_forward chainmap (mkIPTablesManager [] [] [] sample_chains)) as (w & Hrun & _ & Hk & _).
  exists w. split; [exact Hrun|]. change (chains w !! (ProtocolIPv4, "filter", "FLANNEL-FWD") = Some (take 1 (forward_chain "10.5.0.0/16"))).
  rewrite Hk by done. by vm_compute.
Defined.
