(* ===== verification/Packets.v ===== *)
(** * What the masquerade rules do to IPv4 packets

    A reading of rule arguments as conditions on a packet, after the manual of
    iptables, and the fate of a packet in a chain: the target of the first rule
    that matches.  The theorem says which packets the rules of [masqRules] send to
    MASQUERADE, in terms of the cluster network, the subnet of the node and the
    mark of kube-proxy. *)

From Stdlib Require Import ZArith Lia Ascii.
From stdpp Require Import base strings list gmap numbers.
From S2P Require Import Prelude GoStrings GoNet GoNetFacts Ip4 Ip6 Lease IpTables IpTablesFacts.

Local Open Scope Z_scope.

Record packet := mkPacket { pkt_src : IP4; pkt_dst : IP4; pkt_mark : Z }.

Definition packet_ok (k : packet) : Prop := IP4_ok (pkt_src k) ∧ IP4_ok (pkt_dst k) ∧ 0 <= pkt_mark k < 2 ^ 32.

(** A network written [address/length]. *)
Definition cidr_of_text (s : string) : option IP4Net :=
  match split_char "/" s with
  | [a; l] => match ParseIP4 a, parse_uint 10 l with
              | Ret ip, Some p => Some (mkIP4Net ip p)
              | _, _ => None
              end
  | _ => None
  end.

Definition in_net (s : string) (ip : IP4) : bool :=
  match cidr_of_text s with Some n => IP4Net_Contains n ip | None => false end.

(** A mark written [0xvalue/0xmask]. *)
Definition hex_of_text (s : string) : option Z :=
  match s with String _ (String _ d) => parse_uint 16 d | _ => None end.
Definition mark_matches (s : string) (mark : Z) : bool :=
  match split_char "/" s with
  | [v; m] => match hex_of_text v, hex_of_text m with
              | Some v, Some m => Z.land mark m =? v
              | _, _ => false
              end
  | _ => false
  end.

(** The conditions of a rule, up to its target; [!] negates the next one. *)
Fixpoint spec_matches (neg : bool) (args : list string) (k : packet) {struct args} : bool :=
  match args with
  | a :: rest =>
      if decide (a = "-j") then true
      else if decide (a = "!") then spec_matches true rest k
      else match rest with
           | v :: rest =>
               if decide (a = "-s") then xorb neg (in_net v (pkt_src k)) && spec_matches false rest k
               else if decide (a = "-d") then xorb neg (in_net v (pkt_dst k)) && spec_matches false rest k
               else if decide (a = "--mark") then xorb neg (mark_matches v (pkt_mark k)) && spec_matches false rest k
               else if decide (a = "-m" ∨ a = "--comment") then spec_matches false rest k
               else false
           | [] => false
           end
  | [] => false
  end.

(** The target of the first rule that matches. *)
Fixpoint chain_target (rules : list (list string)) (k : packet) : option string :=
  match rules with
  | [] => None
  | r :: rules => if spec_matches false r k then jump r else chain_target rules k
  end.

(** ** Reading back what the rules say *)

Lemma cidr_of_IP4Net n : IP4Net_ok n → cidr_of_text (IP4Net_String n) = Some n.
Proof.
  intros [Hip Hp]. unfold cidr_of_text, IP4Net_String.
  change ("/" +:+ ?s) with (String "/" s). rewrite split_app by (by apply IP4_String_lacks).
  rewrite split_lacks by (apply fmt_dec_lacks; [done|lia]).
  rewrite ParseIP4_of_String, parse_fmt_uint by (done || lia). by destruct n.
Qed.

Lemma in_net_addr n ip : IP4Net_ok n → IP4_ok ip → in_net (IP4Net_String n) ip = bool_decide (IP4Net_addr n ip).
Proof.
  intros Hn Hip. unfold in_net. rewrite cidr_of_IP4Net by done.
  apply Bool.eq_iff_eq_true. rewrite bool_decide_eq_true. by apply IP4Net_Contains_addr.
Qed.

Definition multicast4 : IP4Net := mkIP4Net 3758096384 4.

Lemma multicast4_text : IP4Net_String multicast4 = "224.0.0.0/4" ∧ IP4Net_ok multicast4.
Proof. split; [by vm_compute|]. repeat split; vm_compute; congruence. Qed.

(** Bit 14 of the mark is kube-proxy's. *)
Definition kube_marked (k : packet) : bool := Z.testbit (pkt_mark k) 14.

Lemma mark_matches_kube k : mark_matches KubeProxyMark (pkt_mark k) = kube_marked k.
Proof.
  unfold kube_marked. change (mark_matches KubeProxyMark (pkt_mark k)) with (Z.land (pkt_mark k) (2 ^ 14) =? 2 ^ 14).
  apply Bool.eq_iff_eq_true. rewrite Z.eqb_eq. split.
  - intros E. apply (f_equal (λ z, Z.testbit z 14)) in E. rewrite Z.land_spec in E.
    change (Z.testbit (2 ^ 14) 14) with true in E. by rewrite andb_true_r in E.
  - intros Hb. apply Z.bits_inj'. intros i Hi. rewrite Z.land_spec, Z.pow2_bits_eqb by lia.
    destruct (Z.eqb_spec 14 i) as [<-|]; [by rewrite Hb|by rewrite andb_false_r].
Qed.

Section masq_specs.
Variables (c d : string) (t : list string) (k : packet).

Lemma match_mark : spec_matches false (masq_spec ["-m"; "mark"; "--mark"; c] t) k = mark_matches c (pkt_mark k) && true.
Proof. reflexivity. Qed.
Lemma match_sd : spec_matches false (masq_spec ["-s"; c; "-d"; d] t) k =
  in_net c (pkt_src k) && (in_net d (pkt_dst k) && true).
Proof. reflexivity. Qed.
Lemma match_nsd : spec_matches false (masq_spec ["!"; "-s"; c; "-d"; d] t) k =
  negb (in_net c (pkt_src k)) && (in_net d (pkt_dst k) && true).
Proof. reflexivity. Qed.
Lemma match_snd : spec_matches false (masq_spec ["-s"; c; "!"; "-d"; d] t) k =
  in_net c (pkt_src k) && (negb (in_net d (pkt_dst k)) && true).
Proof. reflexivity. Qed.
End masq_specs.

Lemma jump_masq ms x t : Forall (λ a, a ≠ "-j") ms → jump (masq_spec ms (x :: t)) = Some x.
Proof.
  unfold masq_spec. induction 1 as [|a ms Ha _ IH]; [done|].
  cbn [app]. by rewrite jump_skip.
Qed.

(** What each rule of the chain does, in order. *)
Lemma masq_chain_target c pod k rf : IP4Net_ok c → IP4Net_ok pod → packet_ok k →
  let src n := bool_decide (IP4Net_addr n (pkt_src k)) in
  let dst n := bool_decide (IP4Net_addr n (pkt_dst k)) in
  chain_target (masq_chain (IP4Net_String c) (IP4Net_String pod) "224.0.0.0/4" rf) k =
    if kube_marked k then Some "RETURN"
    else if src pod && dst c then Some "RETURN"
    else if src c && dst pod then Some "RETURN"
    else if negb (src c) && dst pod then Some "RETURN"
    else if src c && negb (dst multicast4) then Some "MASQUERADE"
    else if negb (src c) && dst c then Some "MASQUERADE"
    else None.
Proof.
  intros Hc Hp (Hs & Hd & _) src dst. destruct multicast4_text as [<- Hm].
  unfold masq_chain, masq_rules. cbn [tail fmap list_fmap Rulespec postrtg chain_target].
  assert (∀ n, IP4Net_ok n → IP4Net_String n ≠ "-j") as Hj.
  { intros n Hn. eapply net_text_ne; [by apply IP4Net_net_text|done]. }
  rewrite match_mark, !match_sd, !match_nsd, match_snd, mark_matches_kube, !in_net_addr, !andb_true_r by done.
  fold (src pod) (src c) (dst pod) (dst c) (dst multicast4).
  unfold masquerade. destruct rf; by rewrite !jump_masq by (repeat constructor; auto; done).
Qed.

(** C21: the chain [FLANNEL-POSTRTG] that the manager installs masquerades a packet
    exactly when kube-proxy has not marked it, it does not go to a pod of this
    node, and either it leaves the cluster network for an address that is not
    multicast, unless it goes from a pod of this node to the cluster, or it enters
    the cluster network from outside.  So traffic between the pods of this node
    and the cluster keeps its addresses in both directions. *)
Theorem masq_rules_masquerade c pod k rf :
  IP4Net_ok c → IP4Net_ok pod → IP4Net_ContainsCIDR c pod = true → packet_ok k →
  chain_target (masq_chain (IP4Net_String c) (IP4Net_String pod) "224.0.0.0/4" rf) k = Some "MASQUERADE" ↔
    kube_marked k = false ∧ ¬ IP4Net_addr pod (pkt_dst k) ∧
    ((IP4Net_addr c (pkt_src k) ∧ ¬ IP4Net_addr multicast4 (pkt_dst k) ∧
      ¬ (IP4Net_addr pod (pkt_src k) ∧ IP4Net_addr c (pkt_dst k))) ∨
     (¬ IP4Net_addr c (pkt_src k) ∧ IP4Net_addr c (pkt_dst k))).
Proof.
  intros Hc Hp Hsub Hk. rewrite masq_chain_target by done.
  assert (IP4Net_addr pod (pkt_src k) → IP4Net_addr c (pkt_src k)) as Hin.
  { intros Hs. by apply (IP4Net_ContainsCIDR_addr c pod). }
  destruct (kube_marked k); [naive_solver|].
  repeat case_bool_decide; cbn [andb negb]; naive_solver.
Qed.

Lemma masq_rules_masquerade_witness :
  let c := mkIP4Net 168099840 16 in let pod := mkIP4Net 168100096 24 in
  let k := mkPacket 168100098 134744072 0 in
  chain_target (masq_chain (IP4Net_String c) (IP4Net_String pod) "224.0.0.0/4" true) k = Some "MASQUERADE".
Proof.
  apply masq_rules_masquerade.
  - repeat split; vm_compute; congruence.
  - repeat split; vm_compute; congruence.
  - by vm_compute.
  - repeat split; vm_compute; congruence.
  - split; [by vm_compute|]. split; [unfold IP4Net_addr; vm_compute; intuition congruence|].
    left. unfold IP4Net_addr. vm_compute. intuition congruence.
Defined.
