(* ===== verification/NfTables.v ===== *)
(** * [pkg/trafficmngr/nftables]: the same rules through nftables

    The knftables library is the class [Knftables] over a store [W]: it runs or
    checks a transaction on the table of an interface.  [KnftablesLaws] says what
    is documented of it.  The manager is translated on top, and its masquerade
    chain is read as conditions on a packet and compared with that of iptables. *)

From Stdlib Require Import ZArith Lia Ascii.
From stdpp Require Import base strings list gmap numbers.
From S2P Require Import Prelude GoStrings GoNet GoNetFacts Ip4 Ip6 Lease IpTables IpTablesFacts Packets.

Local Open Scope Z_scope.

(** ** Transactions *)

Inductive Family := IPv4Family | IPv6Family.
#[global] Instance Family_eq_dec : EqDecision Family.
Proof. solve_decision. Defined.
#[global] Instance Family_countable : Countable Family.
Proof.
  refine (inj_countable' (λ p, match p with IPv4Family => true | IPv6Family => false end)
    (λ b : bool, if b then IPv4Family else IPv6Family) _). by intros [].
Defined.
Definition family_text (f : Family) : string := match f with IPv4Family => "ip" | IPv6Family => "ip6" end.

Record nft_Chain := mkChain {
  Chain_Name : string;
  Chain_Comment : string;
  Chain_Type : string;
  Chain_Hook : string;
  Chain_Priority : string
}.

Inductive tx_op :=
| AddTable (comment : string)
| DeleteTable
| AddChain (c : nft_Chain)
| FlushChain (name : string)
| AddRule (chain rule : string).

(** The interface of a table. *)
Record nft_Interface := mkNft { nft_family : Family; nft_table : string }.

Class Knftables (W : Type) := {
  knftables_New : Family → string → M W nft_Interface;
  nft_Run : nft_Interface → list tx_op → M W unit;
  nft_Check : nft_Interface → list tx_op → M W unit
}.

Definition knftables_Concat (args : list string) : string := join " " args.

Definition ipv4Table : string := "flannel-ipv4".
Definition ipv6Table : string := "flannel-ipv6".
Definition forwardChain : string := "forward".
Definition postrtgChain : string := "postrtg".
Definition masqueradeTestTable : string := "masqueradeTest".

(** ** The manager *)

Record NFTablesManager (W : Type) := mkNFTablesManager {
  nftv4 : option nft_Interface;
  nftv6 : option nft_Interface;
  nft_host : W
}.
Arguments mkNFTablesManager {W}.
Arguments nftv4 {W}.
Arguments nftv6 {W}.
Arguments nft_host {W}.

(** The transactions that the set-up calls build. *)
Definition forward_tx (fam net : string) : list tx_op :=
  [ AddChain (mkChain forwardChain "chain to accept flannel traffic" "filter" "forward" "filter");
    FlushChain forwardChain;
    AddRule forwardChain (knftables_Concat [fam +:+ " saddr"; net; "accept"]);
    AddRule forwardChain (knftables_Concat [fam +:+ " daddr"; net; "accept"]) ].

Definition masquerade_tx : list tx_op :=
  [ AddChain (mkChain postrtgChain "chain to manage traffic masquerading by flannel" "nat" "postrouting" "srcnat");
    FlushChain postrtgChain ].

Definition random_test_tx : list tx_op :=
  [ AddChain (mkChain masqueradeTestTable "chain to test if masquerade random fully is supported" "nat" "postrouting" "srcnat");
    FlushChain masqueradeTestTable;
    AddRule masqueradeTestTable (knftables_Concat ["ip saddr"; "!="; "127.0.0.1"; "masquerade fully-random"]) ].

(** The rules that [addMasqRules] adds. *)
Definition nft_masq_rules (masquerade clusterCidr podCidr : string) (family : Family) : list string :=
  let multicastCidr := match family with IPv6Family => "ff00::/8" | IPv4Family => "224.0.0.0/4" end in
  let f := family_text family in
  [ knftables_Concat ["meta mark"; "0x4000"; "return"];
    knftables_Concat [f; "saddr"; podCidr; f; "daddr"; clusterCidr; "return"];
    knftables_Concat [f; "saddr"; clusterCidr; f; "daddr"; podCidr; "return"];
    knftables_Concat [f; "saddr"; "!="; podCidr; f; "daddr"; clusterCidr; "return"];
    knftables_Concat [f; "saddr"; clusterCidr; f; "daddr"; "!="; multicastCidr; masquerade];
    knftables_Concat [f; "saddr"; "!="; clusterCidr; f; "daddr"; clusterCidr; masquerade] ].

Section manager.
Context {W : Type} `{Knftables W}.
Abbreviation Mgr := (M (NFTablesManager W)).

Definition nft_on_host {A} (m : M W A) : Mgr A := λ s,
  let (r, w) := m (nft_host s) in (r, mkNFTablesManager (nftv4 s) (nftv6 s) w).

(** A method call on an interface that [Init] has not set panics. *)
Definition iface_of (f : Family) : Mgr nft_Interface :=
  s ← get; lift (deref (match f with IPv4Family => nftv4 s | IPv6Family => nftv6 s end)).

Definition nft_wrapping {A} (format : string) (m : Mgr A) : Mgr A :=
  r ← try m;
  match r with inl a => mret a | inr e => throw (Wrapf format e) end.

Definition initTable (ipFamily : Family) (name : string) : Mgr nft_Interface :=
  nft ← nft_wrapping "no nftables support: %v" (nft_on_host (knftables_New ipFamily name));
  _ ← nft_wrapping "nftables: couldn't initialise table %s: %v"
        (nft_on_host (nft_Run nft [AddTable ("rules for " +:+ name)]));
  mret nft.

(** The field is assigned before the error is looked at. *)
Definition set_iface (f : Family) (i : option nft_Interface) (s : NFTablesManager W) : NFTablesManager W :=
  match f with
  | IPv4Family => mkNFTablesManager i (nftv6 s) (nft_host s)
  | IPv6Family => mkNFTablesManager (nftv4 s) i (nft_host s)
  end.
Definition init_family (f : Family) (name : string) : Mgr unit :=
  r ← try (initTable f name);
  match r with
  | inl nft => modify (set_iface f (Some nft))
  | inr e => _ ← modify (set_iface f None); throw e
  end.
Definition NFTablesManager_Init : Mgr unit :=
  _ ← init_family IPv4Family ipv4Table;
  init_family IPv6Family ipv6Table.

Definition checkRandomfully : Mgr bool :=
  nft ← iface_of IPv4Family;
  r ← try (nft_on_host (nft_Check nft random_test_tx));
  mret (match r with inl _ => true | inr _ => false end).

Definition forward_family (f : Family) (net : string) : Mgr unit :=
  nft ← iface_of f;
  _ ← try (nft_on_host (nft_Run nft (forward_tx (family_text f) net)));
  mret tt.
Definition nft_SetupAndEnsureForwardRules (flannelIPv4Network : IP4Net) (flannelIPv6Network : IP6Net) : Mgr unit :=
  _ ← (if negb (IP4Net_Empty flannelIPv4Network)
       then forward_family IPv4Family (IP4Net_String flannelIPv4Network) else mret tt);
  if negb (IP6Net_Empty flannelIPv6Network)
  then net ← lift (IP6Net_String flannelIPv6Network); forward_family IPv6Family net
  else mret tt.

Definition addMasqRules (tx : list tx_op) (clusterCidr podCidr : string) (family : Family)
    (ipMasqRandomFullyDisable : bool) : Mgr (list tx_op) :=
  supported ← checkRandomfully;
  let masquerade := if negb supported || ipMasqRandomFullyDisable then "masquerade" else "masquerade fully-random" in
  mret (tx ++ map (AddRule postrtgChain) (nft_masq_rules masquerade clusterCidr podCidr family)).

Definition masq_family (f : Family) (cluster pod : string) (ipMasqRandomFullyDisable : bool) : Mgr unit :=
  nft ← iface_of f;
  tx ← nft_wrapping "nftables: couldn't setup masq rules: %v"
         (addMasqRules masquerade_tx cluster pod f ipMasqRandomFullyDisable);
  nft_wrapping "nftables: couldn't setup masq rules: %v" (nft_on_host (nft_Run nft tx)).
Definition nft_SetupAndEnsureMasqRules (flannelIPv4Net : IP4Net) (flannelIPv6Net : IP6Net) (currentlease : Lease)
    (ipMasqRandomFullyDisable : bool) : Mgr unit :=
  _ ← (if negb (IP4Net_Empty flannelIPv4Net)
       then masq_family IPv4Family (IP4Net_String flannelIPv4Net) (IP4Net_String (Subnet currentlease))
              ipMasqRandomFullyDisable
       else mret tt);
  if negb (IP6Net_Empty flannelIPv6Net)
  then cluster ← lift (IP6Net_String flannelIPv6Net);
       pod ← lift (IP6Net_String (IPv6Subnet currentlease));
       masq_family IPv6Family cluster pod ipMasqRandomFullyDisable
  else mret tt.

Definition cleanup_table (f : Family) (name : string) : Mgr unit :=
  _ ← try (nft ← nft_on_host (knftables_New f name); nft_on_host (nft_Run nft [DeleteTable]));
  mret tt.
Definition NFTablesManager_CleanUp : Mgr unit :=
  _ ← cleanup_table IPv4Family ipv4Table;
  cleanup_table IPv6Family ipv6Table.
End manager.

(** ** What a transaction does

    A table is its chains with their rules; a transaction applies as a whole. *)
Abbreviation nft_table_state := (gmap string (list string)).

Definition tx_step (op : tx_op) (t : option nft_table_state) : option (option nft_table_state) :=
  match op, t with
  | AddTable _, Some t => Some (Some t)
  | AddTable _, None => Some (Some ∅)
  | DeleteTable, Some _ => Some None
  | AddChain c, Some t => Some (Some (if decide (is_Some (t !! Chain_Name c)) then t else <[Chain_Name c := []]> t))
  | FlushChain c, Some t => match t !! c with Some _ => Some (Some (<[c := []]> t)) | None => None end
  | AddRule c r, Some t => match t !! c with Some l => Some (Some (<[c := l ++ [r]]> t)) | None => None end
  | _, None => None
  end.
Fixpoint tx_apply (ops : list tx_op) (t : option nft_table_state) : option (option nft_table_state) :=
  match ops with
  | [] => Some t
  | op :: ops => t ← tx_step op t; tx_apply ops t
  end.

Abbreviation nft_tables := (gmap (Family * string) nft_table_state).
Definition iface_key (i : nft_Interface) : Family * string := (nft_family i, nft_table i).
Definition set_table (k : Family * string) (t : option nft_table_state) (ts : nft_tables) : nft_tables :=
  match t with Some t => <[k := t]> ts | None => delete k ts end.

(** A transaction runs as a whole or not at all; the kernel may refuse one, and
    refuses every one that cannot be applied.  A check changes nothing. *)
Class KnftablesLaws (W : Type) `{Knftables W} := {
  tables : W → nft_tables;
  law_nft_New f n w : knftables_New f n w = (Ret (mkNft f n), w) ∨ ∃ e, knftables_New f n w = (Err e, w);
  law_Run i ops w :
    (∃ t w', tx_apply ops (tables w !! iface_key i) = Some t ∧ nft_Run i ops w = (Ret tt, w') ∧
       tables w' = set_table (iface_key i) t (tables w)) ∨
    (∃ e w', nft_Run i ops w = (Err e, w') ∧ tables w' = tables w);
  law_Check i ops w : nft_Check i ops w = (Ret tt, w) ∨ ∃ e, nft_Check i ops w = (Err e, w)
}.

Lemma tx_apply_rules c rules t l : t !! c = Some l →
  tx_apply (map (AddRule c) rules) (Some t) = Some (Some (<[c := l ++ rules]> t)).
Proof.
  revert t l. induction rules as [|r rules IH]; intros t l Hl.
  - cbn. by rewrite app_nil_r, insert_id.
  - cbn [map tx_apply tx_step]. rewrite Hl. cbn [mbind option_bind].
    rewrite (IH _ (l ++ [r])) by (by rewrite lookup_insert_eq). by rewrite insert_insert_eq, <- app_assoc.
Qed.

(** The masquerade transaction replaces what the chain held. *)
Lemma masq_tx_apply rules t : tx_apply (masquerade_tx ++ map (AddRule postrtgChain) rules) (Some t) =
  Some (Some (<[postrtgChain := rules]> t)).
Proof.
  unfold masquerade_tx. cbn [app tx_apply tx_step mbind option_bind Chain_Name].
  set (t1 := if decide _ then t else _).
  assert (∃ l, t1 !! postrtgChain = Some l ∧ ∀ x, <[postrtgChain := x]> t1 = <[postrtgChain := x]> t) as (l & Hl & Hi).
  { unfold t1. destruct (decide _) as [[l Hl]|]; [by exists l|]. exists [].
    split; [by rewrite lookup_insert_eq|]. intros x. by rewrite insert_insert_eq. }
  rewrite Hl. cbn [mbind option_bind]. rewrite (tx_apply_rules _ _ _ []) by (by rewrite lookup_insert_eq).
  by rewrite insert_insert_eq, Hi.
Qed.

Section laws.
Context {W : Type} `{KnftablesLaws W}.
Implicit Types (s : NFTablesManager W).

Definition iface_in s (f : Family) : option nft_Interface :=
  match f with IPv4Family => nftv4 s | IPv6Family => nftv6 s end.
Definition nft_with s (w : W) : NFTablesManager W := mkNFTablesManager (nftv4 s) (nftv6 s) w.

(** A text of the masquerade statement that the options allow. *)
Definition masq_text (d : bool) (m : string) : Prop :=
  m = "masquerade" ∨ (d = false ∧ m = "masquerade fully-random").

Lemma addMasqRules_run tx c pod f d s i4 : nftv4 s = Some i4 → ∃ m, masq_text d m ∧
  addMasqRules tx c pod f d s = (Ret (tx ++ map (AddRule postrtgChain) (nft_masq_rules m c pod f)), s).
Proof.
  intros H4. assert (nft_with s (nft_host s) = s) as Es by (by destruct s).
  assert (∃ b, checkRandomfully s = (Ret b, s)) as [b Hb].
  { unfold checkRandomfully, iface_of. run. rewrite H4. cbn [deref]. run. unfold mbind, M_bind, try, nft_on_host.
    destruct (law_Check i4 random_test_tx (nft_host s)) as [-> | [e ->]]; cbn;
      fold (nft_with s (nft_host s)); rewrite Es; by eexists. }
  unfold addMasqRules. rewrite (M_bind_Ret _ _ _ _ _ Hb).
  exists (if negb b || d then "masquerade" else "masquerade fully-random"). split; [|done].
  unfold masq_text. destruct b, d; auto.
Qed.

(** One family: done as a whole, or an error and nothing changed. *)
Lemma nft_family_run f c pod d s i4 i : nftv4 s = Some i4 → iface_in s f = Some i →
  ∃ r w, masq_family f c pod d s = (r, nft_with s w) ∧
    ((r = Ret tt ∧ ∃ m t, masq_text d m ∧ tables (nft_host s) !! iface_key i = Some t ∧
        tables w = <[iface_key i := <[postrtgChain := nft_masq_rules m c pod f]> t]> (tables (nft_host s))) ∨
     (∃ e, r = Err e ∧ tables w = tables (nft_host s))).
Proof.
  intros H4 Hi. unfold masq_family, iface_of. run.
  replace (match f with IPv4Family => nftv4 s | IPv6Family => nftv6 s end) with (Some i) by (by rewrite <- Hi).
  cbn [deref]. run. destruct (addMasqRules_run masquerade_tx c pod f d s i4 H4) as (m & Hm & Hadd).
  unfold nft_wrapping. run. erewrite run_try_Ret by exact Hadd. run.
  unfold mbind, M_bind, try, nft_on_host.
  destruct (law_Run i (masquerade_tx ++ map (AddRule postrtgChain) (nft_masq_rules m c pod f)) (nft_host s))
    as [(t & w & Ht & -> & Hw)|(e & w & -> & Hw)].
  - exists (Ret tt), w. split; [done|]. left. split; [done|]. exists m.
    destruct (tables (nft_host s) !! iface_key i) as [t0|] eqn:E.
    + rewrite masq_tx_apply in Ht. simplify_eq. by exists t0.
    + by unfold masquerade_tx in Ht.
  - exists (Err (Wrapf "nftables: couldn't setup masq rules: %v" e)), w. split; [done|]. right. by eexists.
Qed.
End laws.

(** The rules of flannel's masquerade chain in the table of an interface. *)
Definition nft_chain `{KnftablesLaws W} (w : W) (i : nft_Interface) : option (list string) :=
  t ← tables w !! iface_key i; t !! postrtgChain.

(** Every chain but flannel's masquerade chain of the interfaces in [ifaces] is as before. *)
Definition nft_untouched `{KnftablesLaws W} (ifaces : list nft_Interface) (w w' : W) : Prop :=
  ∀ k c, c ≠ postrtgChain ∨ k ∉ (iface_key <$> ifaces) →
    (t ← tables w' !! k; t !! c) = (t ← tables w !! k; t !! c).

Lemma nft_family_effect `{KnftablesLaws W} f c pod d (s : NFTablesManager W) i4 i :
  nftv4 s = Some i4 → iface_in s f = Some i →
  ∃ r w, masq_family f c pod d s = (r, nft_with s w) ∧ r ≠ Panic ∧ nft_untouched [i] (nft_host s) w ∧
    if is_ret r then ∃ m, masq_text d m ∧ nft_chain w i = Some (nft_masq_rules m c pod f)
    else tables w = tables (nft_host s).
Proof.
  intros H4 Hi. destruct (nft_family_run f c pod d s i4 i H4 Hi)
    as (r & w & Hrun & [(-> & m & t & Hm & Ht & Hw)|(e & -> & Hw)]).
  - exists (Ret tt), w. split_and!; [done..| |].
    + intros k ch Hk. rewrite Hw. destruct (decide (k = iface_key i)) as [->|Hne].
      * rewrite lookup_insert_eq, Ht. cbn. destruct Hk as [Hc|Hk]; [by rewrite lookup_insert_ne|set_solver].
      * by rewrite lookup_insert_ne.
    + exists m. split; [done|]. unfold nft_chain. rewrite Hw, lookup_insert_eq. cbn. by rewrite lookup_insert_eq.
  - exists (Err e), w. split_and!; [done..| |done]. intros k ch _. by rewrite Hw.
Qed.

(** C34: setting up the masquerade rules through nftables, whatever the two
    transactions do, never panics once [Init] has run and touches no other chain;
    when it returns without error the chain of each configured family holds
    exactly the rules of the current network and subnet, whatever it held before;
    when it fails, each chain is as before or holds exactly those rules. *)
Theorem nft_SetupAndEnsureMasqRules_atomic W `{KnftablesLaws W} net net6 lease d c6 p6 (s : NFTablesManager W) i4 i6 :
  nftv4 s = Some i4 → nftv6 s = Some i6 → iface_key i4 ≠ iface_key i6 →
  IP6Net_String net6 = Ret c6 → IP6Net_String (IPv6Subnet lease) = Ret p6 →
  let done4 w := ∃ m, masq_text d m ∧
    nft_chain w i4 = Some (nft_masq_rules m (IP4Net_String net) (IP4Net_String (Subnet lease)) IPv4Family) in
  let done6 w := ∃ m, masq_text d m ∧ nft_chain w i6 = Some (nft_masq_rules m c6 p6 IPv6Family) in
  ∃ r w, nft_SetupAndEnsureMasqRules net net6 lease d s = (r, nft_with s w) ∧ r ≠ Panic ∧
    nft_untouched [i4; i6] (nft_host s) w ∧
    (nft_chain w i4 = nft_chain (nft_host s) i4 ∨ done4 w) ∧
    (nft_chain w i6 = nft_chain (nft_host s) i6 ∨ done6 w) ∧
    (r = Ret tt → (IP4Net_Empty net = false → done4 w) ∧ (IP6Net_Empty net6 = false → done6 w)).
Proof.
  intros H4 H6 Hne Hc6 Hp6 done4 done6. unfold nft_SetupAndEnsureMasqRules.
  assert (∃ r w, (if negb (IP4Net_Empty net)
    then masq_family IPv4Family (IP4Net_String net) (IP4Net_String (Subnet lease)) d else mret tt) s = (r, nft_with s w) ∧
    r ≠ Panic ∧ nft_untouched [i4] (nft_host s) w ∧
    (nft_chain w i4 = nft_chain (nft_host s) i4 ∨ done4 w) ∧
    (r = Ret tt → IP4Net_Empty net = false → done4 w)) as (r & w & Hrun & Hr & Hu & Hd & Hret).
  { destruct (IP4Net_Empty net); cbn [negb].
    - exists (Ret tt), (nft_host s). split_and!; [by destruct s|done..|by left|done].
    - destruct (nft_family_effect IPv4Family (IP4Net_String net) (IP4Net_String (Subnet lease)) d s i4 i4)
        as (r & w & ? & ? & ? & Hres); [done..|].
      exists r, w. split_and!; [done..| |].
      + destruct r; cbn in Hres; [by right|left|done]. unfold nft_chain. by rewrite Hres.
      + intros -> _. done. }
  unfold mbind, M_bind. rewrite Hrun.
  assert (∀ w', nft_untouched [i4] (nft_host s) w' → nft_chain w' i6 = nft_chain (nft_host s) i6) as Hother.
  { intros w' Hw'. apply Hw'. right. set_solver. }
  assert (∀ w', nft_untouched [i4] (nft_host s) w' → nft_untouched [i4; i6] (nft_host s) w') as Hweak.
  { intros w' Hw' k c Hk. apply Hw'. set_solver. }
  destruct r as [[]|e|]; [| |done].
  2: { exists (Err e), w. split_and!; [done..|by apply Hweak|done|left; by apply Hother|done]. }
  destruct (IP6Net_Empty net6) eqn:E6; cbn [negb].
  { exists (Ret tt), w. split_and!; [done..|by apply Hweak|done|left; by apply Hother|]. intros _. split; [by apply Hret|done]. }
  rewrite Hc6, Hp6. cbn.
  destruct (nft_family_effect IPv6Family c6 p6 d (nft_with s w) i4 i6) as (r & w2 & Hrun2 & Hr2 & Hu2 & Hres); [done..|].
  rewrite Hrun2. exists r, w2. cbn [nft_with nft_host] in *.
  assert (nft_chain w2 i4 = nft_chain w i4) as E4 by (apply Hu2; right; set_solver).
  split_and!; [done..| | | |].
  - intros k c Hk. rewrite Hu2 by set_solver. apply Hu. set_solver.
  - rewrite E4. destruct Hd as [|(m & Hm & ?)]; [by left|]. right. exists m. by rewrite E4.
  - destruct r; cbn in Hres; [by right|left|done]. rewrite <- (Hother w) by done. unfold nft_chain. by rewrite Hres.
  - intros ->. split; [|done]. intros E. destruct (Hret eq_refl E) as (m & Hm & ?). exists m. by rewrite E4.
Qed.

(** A host in memory. *)
#[global] Instance mem_Knftables : Knftables nft_tables := {
  knftables_New f n := mret (mkNft f n);
  nft_Run i ops ts :=
    match tx_apply ops (ts !! iface_key i) with
    | Some t => (Ret tt, set_table (iface_key i) t ts)
    | None => (Err (Errorf "exit status 1"), ts)
    end;
  nft_Check i ops := mret tt
}.
#[global, refine] Instance mem_KnftablesLaws : KnftablesLaws nft_tables := { tables ts := ts }.
Proof.
  - intros. by left.
  - intros i ops w. cbn. destruct (tx_apply ops _) as [t|]; [left; by eexists _, _|right; by eexists _, _].
  - intros. by left.
Defined.

Definition sample_manager : NFTablesManager nft_tables :=
  mkNFTablesManager (Some (mkNft IPv4Family ipv4Table)) (Some (mkNft IPv6Family ipv6Table))
    {[ (IPv4Family, ipv4Table) := {[ postrtgChain := ["counter"] ]}; (IPv6Family, ipv6Table) := ∅ ]}.

Lemma nft_SetupAndEnsureMasqRules_atomic_witness :
  ∃ r w, nft_SetupAndEnsureMasqRules sample_net (mkIP6Net None 0) sample_lease false sample_manager =
    (r, nft_with sample_manager w) ∧ r ≠ Panic ∧
    nft_untouched [mkNft IPv4Family ipv4Table; mkNft IPv6Family ipv6Table] (nft_host sample_manager) w.
Proof.
  destruct (nft_SetupAndEnsureMasqRules_atomic nft_tables sample_net (mkIP6Net None 0) sample_lease false "::/0" "::/0"
    sample_manager (mkNft IPv4Family ipv4Table) (mkNft IPv6Family ipv6Table)) as (r & w & ? & ? & ? & _).
  - done.
  - done.
  - done.
  - by vm_compute.
  - by vm_compute.
  - by exists r, w.
Defined.

(** ** What the rules do to packets *)

(** The conditions of a rule on an IPv4 packet and its verdict, after the manual
    of nft: [None] when a condition fails. *)
Definition nft_addr (dir : string) (k : packet) : IP4 :=
  if decide (dir = "saddr") then pkt_src k else pkt_dst k.

Fixpoint nft_eval (args : list string) (k : packet) {struct args} : option string :=
  match args with
  | [] => None
  | a :: rest =>
      if decide (a = "ip") then
        match rest with
        | dir :: v :: rest' =>
            if decide (v = "!=") then
              match rest' with
              | n :: rest'' => if in_net n (nft_addr dir k) then None else nft_eval rest'' k
              | [] => None
              end
            else if in_net v (nft_addr dir k) then nft_eval rest' k else None
        | _ => None
        end
      else if decide (a = "meta") then
        match rest with
        | _ :: v :: rest' => match hex_of_text v with
                             | Some m => if pkt_mark k =? m then nft_eval rest' k else None
                             | None => None
                             end
        | _ => None
        end
      else Some a
  end.

(** The verdict of the first rule that matches. *)
Fixpoint nft_verdict (rules : list string) (k : packet) : option string :=
  match rules with
  | [] => None
  | r :: rules => match nft_eval (split_char " " r) k with Some v => Some v | None => nft_verdict rules k end
  end.

Lemma nft_eval_ip dir v rest k : v ≠ "!=" →
  nft_eval ("ip" :: dir :: v :: rest) k = if in_net v (nft_addr dir k) then nft_eval rest k else None.
Proof. intros. cbn [nft_eval]. by rewrite decide_True, decide_False. Qed.
Lemma nft_eval_not dir n rest k :
  nft_eval ("ip" :: dir :: "!=" :: n :: rest) k = if in_net n (nft_addr dir k) then None else nft_eval rest k.
Proof. done. Qed.

Section nft_packets.
Variables (c pod : IP4Net) (k : packet).
Hypotheses (Hc : IP4Net_ok c) (Hp : IP4Net_ok pod) (Hk : packet_ok k).
Let src n := bool_decide (IP4Net_addr n (pkt_src k)).
Let dst n := bool_decide (IP4Net_addr n (pkt_dst k)).

Lemma nft_net_text n : IP4Net_ok n → lacks " " (IP4Net_String n) ∧ IP4Net_String n ≠ "!=".
Proof.
  intros Hn. split; [by apply IP4Net_String_lacks|]. intros E.
  assert (lacks "!" (IP4Net_String n)) as Hl by (by apply IP4Net_String_lacks). by rewrite E in Hl.
Qed.

(** A rule on the two addresses, whatever follows the conditions. *)
Lemma nft_rule_sd n n' v vs : IP4Net_ok n → IP4Net_ok n' → Forall (lacks " ") (v :: vs) → v ≠ "ip" → v ≠ "meta" →
  let tail := ["ip"; "daddr"; IP4Net_String n'] ++ v :: vs in
  let tail' := ["ip"; "daddr"; "!="; IP4Net_String n'] ++ v :: vs in
  nft_eval (split_char " " (join " " (["ip"; "saddr"; IP4Net_String n] ++ tail))) k =
    (if src n then if dst n' then Some v else None else None) ∧
  nft_eval (split_char " " (join " " (["ip"; "saddr"; "!="; IP4Net_String n] ++ tail))) k =
    (if src n then None else if dst n' then Some v else None) ∧
  nft_eval (split_char " " (join " " (["ip"; "saddr"; IP4Net_String n] ++ tail'))) k =
    (if src n then if dst n' then None else Some v else None).
Proof.
  intros Hn Hn' Hv Hi Hm tail tail'. destruct (nft_net_text n Hn), (nft_net_text n' Hn'), Hk as (Hs & Hd & _).
  assert (nft_eval (v :: vs) k = Some v) as Ev by (cbn [nft_eval]; by rewrite !decide_False).
  assert (∀ l, Forall (lacks " ") l → Forall (lacks " ") (l ++ v :: vs)) as Hall.
  { intros l Hl. apply Forall_app. by split. }
  unfold tail, tail', src, dst. rewrite !app_assoc.
  rewrite !split_join by (first [discriminate|apply Hall; repeat constructor; done]).
  cbn [app]. rewrite !nft_eval_not, !nft_eval_ip by done. rewrite nft_eval_not, !Ev.
  change (nft_addr "saddr" k) with (pkt_src k). change (nft_addr "daddr" k) with (pkt_dst k).
  rewrite !in_net_addr by done. done.
Qed.

Lemma nft_masq_verdict m d : masq_text d m →
  nft_verdict (nft_masq_rules m (IP4Net_String c) (IP4Net_String pod) IPv4Family) k =
    if pkt_mark k =? 16384 then Some "return"
    else if src pod && dst c then Some "return"
    else if src c && dst pod then Some "return"
    else if negb (src pod) && dst c then Some "return"
    else if src c && negb (dst multicast4) then Some "masquerade"
    else if negb (src c) && dst c then Some "masquerade"
    else None.
Proof.
  intros Hm. destruct multicast4_text as [Em Hmc].
  assert (∃ vs, Forall (lacks " ") ("masquerade" :: vs) ∧ ∀ a b c' d' e f : string,
    knftables_Concat [a; b; c'; d'; e; f; m] = join " " ([a; b; c'; d'; e; f] ++ "masquerade" :: vs) ∧
    ∀ g, knftables_Concat [a; b; c'; d'; e; f; g; m] = join " " ([a; b; c'; d'; e; f; g] ++ "masquerade" :: vs)) as (vs & Hvs & Hcat).
  { destruct Hm as [->|[_ ->]]; [exists []|exists ["fully-random"]]; (split; [by repeat constructor|done]). }
  pose proof (λ n n' Hn Hn', nft_rule_sd n n' "return" [] Hn Hn' ltac:(by repeat constructor) ltac:(done) ltac:(done)) as Hr.
  pose proof (λ n n' Hn Hn', nft_rule_sd n n' "masquerade" vs Hn Hn' Hvs ltac:(done) ltac:(done)) as Hmq.
  unfold nft_masq_rules. cbn [family_text nft_verdict].
  change (nft_eval (split_char " " (knftables_Concat ["meta mark"; "0x4000"; "return"])) k)
    with (if pkt_mark k =? 16384 then Some "return" else None).
  destruct (Hr pod c Hp Hc) as (E1 & E2 & _), (Hr c pod Hc Hp) as (E3 & _).
  destruct (Hmq c multicast4 Hc Hmc) as (_ & _ & E4), (Hmq c c Hc Hc) as (_ & E5 & _).
  rewrite (proj2 (Hcat _ _ _ _ _ _) _), (proj2 (Hcat _ _ _ _ _ _) _).
  unfold knftables_Concat. rewrite <- Em.
  cbn [app] in *. rewrite E1, E2, E3, E4, E5.
  destruct (pkt_mark k =? 16384); [done|]. by destruct (src pod), (src c), (dst pod), (dst c), (dst multicast4).
Qed.
End nft_packets.

(** In the chain that the nftables manager installs, the rule before the
    masquerade rules returns every packet that goes to the cluster network from
    outside the subnet of the node, so a packet is masqueraded only when it leaves
    the cluster network.  A packet that enters the cluster network from outside
    towards another node, which the last rule is there to masquerade ("Masquerade
    anything headed towards flannel from the host") and which the iptables
    manager does masquerade, keeps its source address. *)
Theorem nft_host_traffic_unmasqueraded c pod m d rf k :
  IP4Net_ok c → IP4Net_ok pod → IP4Net_ContainsCIDR c pod = true → packet_ok k → masq_text d m →
  (nft_verdict (nft_masq_rules m (IP4Net_String c) (IP4Net_String pod) IPv4Family) k = Some "masquerade" ↔
    pkt_mark k ≠ 16384 ∧ IP4Net_addr c (pkt_src k) ∧ ¬ IP4Net_addr c (pkt_dst k) ∧
    ¬ IP4Net_addr multicast4 (pkt_dst k)) ∧
  (kube_marked k = false → ¬ IP4Net_addr c (pkt_src k) → IP4Net_addr c (pkt_dst k) → ¬ IP4Net_addr pod (pkt_dst k) →
    chain_target (masq_chain (IP4Net_String c) (IP4Net_String pod) "224.0.0.0/4" rf) k = Some "MASQUERADE" ∧
    nft_verdict (nft_masq_rules m (IP4Net_String c) (IP4Net_String pod) IPv4Family) k ≠ Some "masquerade").
Proof.
  intros Hc Hp Hsub Hk Hm. erewrite nft_masq_verdict by done. rewrite masq_chain_target by done.
  assert (∀ x, IP4Net_addr pod x → IP4Net_addr c x) as Hin by (intros x; by apply IP4Net_ContainsCIDR_addr).
  pose proof (Hin (pkt_src k)). pose proof (Hin (pkt_dst k)).
  destruct (Z.eqb_spec (pkt_mark k) 16384) as [E|E], (kube_marked k);
    repeat case_bool_decide; cbn [andb negb]; naive_solver.
Qed.

(** A packet from the host to a pod of another node. *)
Lemma nft_host_traffic_unmasqueraded_witness :
  let c := mkIP4Net 168099840 16 in let pod := mkIP4Net 168100096 24 in
  let k := mkPacket 3232235777 168100354 0 in
  chain_target (masq_chain (IP4Net_String c) (IP4Net_String pod) "224.0.0.0/4" true) k = Some "MASQUERADE" ∧
  nft_verdict (nft_masq_rules "masquerade" (IP4Net_String c) (IP4Net_String pod) IPv4Family) k ≠ Some "masquerade".
Proof.
  cbv zeta. apply (nft_host_traffic_unmasqueraded _ _ _ false).
  - repeat split; vm_compute; congruence.
  - repeat split; vm_compute; congruence.
  - by vm_compute.
  - repeat split; vm_compute; congruence.
  - by left.
  - by vm_compute.
  - unfold IP4Net_addr. vm_compute. intuition congruence.
  - unfold IP4Net_addr. vm_compute. intuition congruence.
  - unfold IP4Net_addr. vm_compute. intuition congruence.
Defined.
