(* ===== verification/Backend.v ===== *)
(** * [pkg/backend]: backends, and networks made of kernel routes

    The backend manager ([manager.go]), the network of routes that the host-gw
    backend runs ([route_network.go]), and the registration of the [hostgw] and
    [alloc] backends.  The kernel's routing table, which the code reaches through
    the netlink library, is the class [Netlink] over a store [W]; the subnet
    manager is the class [LeaseSource]. *)

From Stdlib Require Import ZArith Lia Ascii.
From stdpp Require Import base strings list gmap numbers.
From S2P Require Import Prelude GoStrings GoNet GoNetFacts Ip4 Ip6 Lease Config.

Local Open Scope Z_scope.

(** ** [manager.go] *)

Section backend_manager.
(** A store, a type of backends and the registered constructors. *)
Context {S B : Type} (constructors : gmap string (M S B)).

Record manager := mkManager { active : gmap string B; manager_store : S }.

Definition GetBackend (backendType : string) : M manager B := λ bm,
  let betype := ToLower backendType in
  match active bm !! betype with
  | Some be => (Ret be, bm)
  | None =>
      match constructors !! betype with
      | None => (Err (Errorf "unknown backend type: %v"), bm)
      | Some befunc =>
          match befunc (manager_store bm) with
          | (Ret be, s) => (Ret be, mkManager (<[betype := be]> (active bm)) s)
          | (Err e, s) => (Err e, mkManager (active bm) s)
          | (Panic, s) => (Panic, mkManager (active bm) s)
          end
      end
  end.

(** The goroutine of a backend, once the context is done. *)
Definition backend_done (betype : string) : M manager unit :=
  modify (λ bm, mkManager (delete betype (active bm)) (manager_store bm)).
End backend_manager.
Arguments mkManager {S B}.
Arguments active {S B}.
Arguments manager_store {S B}.

(** ** [common.go], [simple_network.go] *)

Record ExternalInterface := mkExternalInterface {
  Iface_MTU : Z;
  Iface_Index : Z;
  IfaceName : string;
  IfaceAddr : IP;
  IfaceV6Addr : IP;
  ExtAddr : IP;
  ExtV6Addr : IP
}.

Record SimpleNetwork := mkSimpleNetwork { SubnetLease : option Lease; ExtIface : ExternalInterface }.

Definition SimpleNetwork_Lease (n : SimpleNetwork) : option Lease := SubnetLease n.
Definition SimpleNetwork_MTU (n : SimpleNetwork) : Z := Iface_MTU (ExtIface n).

(** ** [route_network.go] *)

(** The fields of a [netlink.Route] that this code sets or compares. *)
Record Route := mkRoute {
  Route_Dst : option IPNet;
  Route_Gw : IP;
  Route_LinkIndex : Z
}.

Inductive IpFamily := FAMILY_V4 | FAMILY_V6.

Class Netlink (W : Type) := {
  (** what is listed may come with an error *)
  RouteListFiltered : IpFamily → option IPNet → M W (list Route * option error);
  RouteList : IpFamily → M W (list Route);
  RouteDel : Route → M W unit;
  RouteAdd : Route → M W unit
}.

Definition routeEqual (x y : Route) : outcome bool :=
  xd ← deref (Route_Dst x);
  yd ← deref (Route_Dst y);
  Ret (Equal (IPNet_IP xd) (IPNet_IP yd) && Equal (Route_Gw x) (Route_Gw y) &&
       bool_decide (IPNet_Mask xd = IPNet_Mask yd) && (Route_LinkIndex x =? Route_LinkIndex y)).

(** The index of the first listed route equal to [route]. *)
Fixpoint find_route (route : Route) (routes : list Route) : outcome (option nat) :=
  match routes with
  | [] => Ret None
  | r :: routes =>
      eq ← routeEqual r route;
      if (eq : bool) then Ret (Some 0%nat)
      else i ← find_route route routes; Ret (S <$> (i : option nat))
  end.

Definition addToRouteList (route : Route) (routes : list Route) : outcome (list Route) :=
  i ← find_route route routes;
  Ret (match i with Some _ => routes | None => routes ++ [route] end).

Definition removeFromRouteList (route : Route) (routes : list Route) : outcome (list Route) :=
  i ← find_route route routes;
  Ret (match i with Some i => take i routes ++ drop (S i) routes | None => routes end).

(** What stays fixed while the network runs; the route functions of a family that
    is not enabled are nil. *)
Record RouteConfig := mkRouteConfig {
  rn_BackendType : string;
  GetRoute : option (Lease → outcome Route);
  GetV6Route : option (Lease → outcome Route);
  rn_Mtu : Z;
  rn_LinkIndex : Z
}.

Record RouteNetwork (W : Type) := mkRouteNetwork {
  rn_routes : list Route;
  rn_v6Routes : list Route;
  rn_host : W
}.
Arguments mkRouteNetwork {W}.
Arguments rn_routes {W}.
Arguments rn_v6Routes {W}.
Arguments rn_host {W}.

Definition RouteNetwork_MTU (c : RouteConfig) : Z := rn_Mtu c.

Section route_network.
Context {W : Type} `{Netlink W}.
Abbreviation Net := (M (RouteNetwork W)).

Definition rn_on_host {A} (m : M W A) : Net A := λ s,
  let (r, w) := m (rn_host s) in (r, mkRouteNetwork (rn_routes s) (rn_v6Routes s) w).

Definition update_routes (fam : IpFamily) (f : list Route → outcome (list Route)) : Net unit :=
  s ← get;
  match fam with
  | FAMILY_V4 => l ← lift (f (rn_routes s)); modify (λ s, mkRouteNetwork l (rn_v6Routes s) (rn_host s))
  | FAMILY_V6 => l ← lift (f (rn_v6Routes s)); modify (λ s, mkRouteNetwork (rn_routes s) l (rn_host s))
  end.
Definition RouteNetwork_addToRouteList (fam : IpFamily) (route : Route) : Net unit :=
  update_routes fam (addToRouteList route).
Definition RouteNetwork_removeFromRouteList (fam : IpFamily) (route : Route) : Net unit :=
  update_routes fam (removeFromRouteList route).

(** Whether the first listed route is [route]. *)
Definition first_is (routeList : list Route) (route : Route) : outcome (option (Route * bool)) :=
  match routeList with
  | [] => Ret None
  | r :: _ => eq ← routeEqual r route; Ret (Some (r, eq))
  end.

Definition routeAdd (fam : IpFamily) (route : Route) : Net unit :=
  _ ← RouteNetwork_addToRouteList fam route;
  l ← rn_on_host (RouteListFiltered fam (Route_Dst route));
  first ← lift (first_is l.1 route);
  replaced ← (match first with
              | Some (r, false) =>
                  d ← try (rn_on_host (RouteDel r));
                  match d with
                  | inr _ => mret false
                  | inl _ => _ ← RouteNetwork_removeFromRouteList fam r; mret true
                  end
              | _ => mret true
              end);
  if negb replaced then mret tt
  else
    l ← rn_on_host (RouteListFiltered fam (Route_Dst route));
    first ← lift (first_is l.1 route);
    added ← (match first with
             | Some (_, true) => mret true
             | _ => a ← try (rn_on_host (RouteAdd route));
                    mret (match a with inl _ => true | inr _ => false end)
             end);
    if negb added then mret tt
    else _ ← rn_on_host (RouteListFiltered fam (Route_Dst route)); mret tt.

Definition handle_family (fam : IpFamily) (getRoute : option (Lease → outcome Route)) (evt : Event) : Net unit :=
  f ← lift (deref getRoute);
  route ← lift (f (Event_Lease evt));
  match Event_Type evt with
  | EventAdded => routeAdd fam route
  | EventRemoved =>
      _ ← RouteNetwork_removeFromRouteList fam route;
      _ ← try (rn_on_host (RouteDel route));
      mret tt
  end.

Definition handle_event (c : RouteConfig) (evt : Event) : Net unit :=
  let l := Event_Lease evt in
  if negb (bool_decide (BackendType (Attrs l) = rn_BackendType c)) then mret tt
  else
    _ ← (if EnableIPv4 l then handle_family FAMILY_V4 (GetRoute c) evt else mret tt);
    if EnableIPv6 l then handle_family FAMILY_V6 (GetV6Route c) evt else mret tt.

Fixpoint handleSubnetEvents (c : RouteConfig) (batch : list Event) : Net unit :=
  match batch with
  | [] => mret tt
  | evt :: batch => _ ← handle_event c evt; handleSubnetEvents c batch
  end.

(** Whether the kernel lists a route; those without destination are skipped. *)
Fixpoint route_exists (routeList : list Route) (route : Route) : outcome bool :=
  match routeList with
  | [] => Ret false
  | r :: routeList =>
      match Route_Dst r with
      | None => route_exists routeList route
      | Some _ => eq ← routeEqual r route; if (eq : bool) then Ret true else route_exists routeList route
      end
  end.

Fixpoint recover_routes (routeList routes : list Route) : Net unit :=
  match routes with
  | [] => mret tt
  | route :: routes =>
      exist ← lift (route_exists routeList route);
      _ ← (if (exist : bool) then mret tt
           else _ ← try (rn_on_host (RouteAdd route)); mret tt);
      recover_routes routeList routes
  end.

Definition checkSubnetExistInRoutes (routes : list Route) (fam : IpFamily) : Net unit :=
  l ← try (rn_on_host (RouteList fam));
  match l with
  | inl routeList => recover_routes routeList routes
  | inr _ => mret tt
  end.
Definition checkSubnetExistInV4Routes : Net unit := s ← get; checkSubnetExistInRoutes (rn_routes s) FAMILY_V4.
Definition checkSubnetExistInV6Routes : Net unit := s ← get; checkSubnetExistInRoutes (rn_v6Routes s) FAMILY_V6.

(** One tick of [routeCheck]. *)
Definition routeCheck_tick : Net unit :=
  _ ← checkSubnetExistInV4Routes;
  checkSubnetExistInV6Routes.

(** What [Run] receives: a batch of events, or the timer of [routeCheck]. *)
Inductive rn_input := Batch (evts : list Event) | CheckRoutes.
Fixpoint run_inputs (c : RouteConfig) (inputs : list rn_input) : Net unit :=
  match inputs with
  | [] => mret tt
  | Batch evts :: inputs => _ ← handleSubnetEvents c evts; run_inputs c inputs
  | CheckRoutes :: inputs => _ ← routeCheck_tick; run_inputs c inputs
  end.
Definition RouteNetwork_Run (c : RouteConfig) (inputs : list rn_input) : Net unit :=
  _ ← modify (λ s, mkRouteNetwork [] (rn_v6Routes s) (rn_host s));
  run_inputs c inputs.
End route_network.

(** ** [hostgw], [alloc] *)

(** [context.Canceled] and [context.DeadlineExceeded] are passed on as they are. *)
Definition context_error (e : error) : bool :=
  bool_decide (e = Sentinel "context.Canceled" ∨ e = Sentinel "context.DeadlineExceeded").

Class LeaseSource (S : Type) := { sm_AcquireLease : LeaseAttrs → M S Lease }.

Section backends.
Context {S : Type} `{LeaseSource S}.

Definition acquire (attrs : LeaseAttrs) : M S Lease :=
  r ← try (sm_AcquireLease attrs);
  match r with
  | inl l => mret l
  | inr e => throw (if context_error e then e else Wrapf "failed to acquire lease: %v" e)
  end.

Definition hostgw_New (extIface : ExternalInterface) : outcome ExternalInterface :=
  if negb (Equal (ExtAddr extIface) (IfaceAddr extIface))
  then Err (Errorf "your PublicIP differs from interface IP, meaning that probably you're on a NAT, which is not supported by host-gw backend")
  else Ret extIface.

Definition hostgw_route (linkIndex : Z) (l : Lease) : outcome Route :=
  Ret (mkRoute (Some (IP4Net_ToIPNet (Subnet l))) (IP4_ToIP (PublicIP (Attrs l))) linkIndex).
Definition hostgw_route6 (linkIndex : Z) (l : Lease) : outcome Route :=
  dst ← IP6Net_ToIPNet (IPv6Subnet l);
  gw ← IP6_ToIP (PublicIPv6 (Attrs l));
  Ret (mkRoute (Some dst) gw linkIndex).

Definition hostgw_RegisterNetwork (be : ExternalInterface) (config : Config) : M S (RouteConfig * SimpleNetwork) :=
  pub ← (if cfg_EnableIPv4 config then lift (FromIP (ExtAddr be)) else mret 0);
  pub6 ← (if cfg_EnableIPv6 config then lift (FromIP6 (ExtV6Addr be)) else mret None);
  let n := mkRouteConfig "host-gw"
             (if cfg_EnableIPv4 config then Some (hostgw_route (Iface_Index be)) else None)
             (if cfg_EnableIPv6 config then Some (hostgw_route6 (Iface_Index be)) else None)
             (Iface_MTU be) (Iface_Index be) in
  l ← acquire (mkLeaseAttrs pub pub6 "host-gw" None None);
  mret (n, mkSimpleNetwork (Some l) be).

Definition alloc_New (extIface : ExternalInterface) : outcome ExternalInterface := Ret extIface.

Definition alloc_RegisterNetwork (be : ExternalInterface) (config : Config) : M S SimpleNetwork :=
  pub ← lift (FromIP (ExtAddr be));
  l ← acquire (mkLeaseAttrs pub None "" None None);
  mret (mkSimpleNetwork (Some l) be).
End backends.

(** ** One backend of each type *)

(** A backend is created once: whatever capitals the type is asked for in, a
    later request gets the backend of the first and runs no constructor. *)
Theorem GetBackend_once S B (constructors : gmap string (M S B)) t t' bm bm' be :
  GetBackend constructors t bm = (Ret be, bm') → ToLower t' = ToLower t →
  GetBackend constructors t' bm' = (Ret be, bm').
Proof.
  intros Hget E. unfold GetBackend in *. rewrite E. destruct (active bm !! ToLower t) as [b|] eqn:Ea.
  - simplify_eq. by rewrite Ea.
  - destruct (constructors !! ToLower t) as [f|]; [|done]. destruct (f (manager_store bm)) as [[b|e|] s']; simplify_eq.
    cbn [active]. by rewrite lookup_insert_eq.
Qed.

Lemma GetBackend_once_witness :
  let ctors : gmap string (M nat string) := {[ "host-gw" := λ s, (Ret "backend", S s) ]} in
  ∃ bm', GetBackend ctors "Host-GW" (mkManager ∅ 0%nat) = (Ret "backend", bm') ∧
    GetBackend ctors "HOST-gw" bm' = (Ret "backend", bm').
Proof.
  cbv zeta. eexists. split; [by vm_compute|].
  eapply (GetBackend_once _ _ _ "Host-GW" "HOST-gw" (mkManager ∅ 0%nat)); by vm_compute.
Defined.
