(* ===== verification/BackendFacts.v ===== *)
(** * The backend manager and the network of routes: theorems

    What is documented of the kernel's IPv4 routing table is the class
    [NetlinkLaws]; the theorems say how the host-gw network keeps the kernel's
    routes in step with the leases it is told about. *)

From Stdlib Require Import ZArith Lia Ascii.
From stdpp Require Import base strings list gmap numbers.
From S2P Require Import Prelude GoStrings GoNet GoNetFacts Ip4 Ip6 Lease Config Backend.

Local Open Scope Z_scope.

(** ** Routes as subnets and gateways *)

(** A route that stands for the subnet [n] through the gateway [g] on link [i], in
    either byte form of its addresses. *)
Definition route_to (r : Route) (n : IP4Net) (g : IP4) (i : Z) : Prop :=
  IP4Net_ok n ∧ IP4_ok g ∧ Route_LinkIndex r = i ∧ To4 (Route_Gw r) = octet_list g ∧
  ∃ d, Route_Dst r = Some d ∧ To4 (IPNet_IP d) = octet_list (IP4Net_IP n) ∧
       IPNet_Mask d = CIDRMask (IP4Net_PrefixLen n) 32.

(** The kernel's IPv4 routes, one per subnet: a gateway and a link. *)
Abbreviation route_table := (gmap IP4Net (IP4 * Z)).

Class NetlinkLaws (W : Type) `{Netlink W} := {
  kroutes : W → route_table;
  (** the gateways that the host can reach directly on a link *)
  gw_on_link : IP4 → Z → Prop;
  law_RouteListFiltered n w : IP4Net_ok n →
    ∃ l, RouteListFiltered FAMILY_V4 (Some (IP4Net_ToIPNet n)) w = (Ret (l, None), w) ∧
      match kroutes w !! n with Some (g, i) => ∃ r, l = [r] ∧ route_to r n g i | None => l = [] end;
  law_RouteList w : ∃ l, RouteList FAMILY_V4 w = (Ret l, w) ∧
    (∀ r, r ∈ l → is_Some (Route_Dst r) → ∃ n g i, route_to r n g i ∧ kroutes w !! n = Some (g, i)) ∧
    (∀ n g i, kroutes w !! n = Some (g, i) → ∃ r, r ∈ l ∧ route_to r n g i);
  law_RouteDel r n g i w : route_to r n g i →
    if decide (kroutes w !! n = Some (g, i))
    then ∃ w', RouteDel r w = (Ret tt, w') ∧ kroutes w' = delete n (kroutes w)
    else ∃ e, RouteDel r w = (Err e, w);
  (** a second route to the same subnet is refused; nothing is said of a gateway that is
      not on the link, which the kernel may refuse *)
  law_RouteAdd r n g i w : route_to r n g i → gw_on_link g i →
    match kroutes w !! n with
    | None => ∃ w', RouteAdd r w = (Ret tt, w') ∧ kroutes w' = <[n := (g, i)]> (kroutes w)
    | Some _ => ∃ e, RouteAdd r w = (Err e, w)
    end
}.

Lemma octet_list_inj a b : IP4_ok a → IP4_ok b → octet_list a = octet_list b → a = b.
Proof.
  intros Ha Hb E. apply (f_equal be_val) in E. rewrite !octet_list_be in E by done.
  by rewrite !be_val_bytes_small in E by done.
Qed.

Lemma Equal_To4 x y a b : To4 x = octet_list a → To4 y = octet_list b → IP4_ok a → IP4_ok b →
  Equal x y = bool_decide (a = b).
Proof.
  intros Hx Hy Ha Hb. pose proof (length_octet_list a) as La. pose proof (length_octet_list b) as Lb.
  assert (octet_list a = octet_list b ↔ a = b) as Hinj by (split; [by apply octet_list_inj|by intros ->]).
  unfold To4 in Hx, Hy. unfold Equal.
  destruct (decide (length x = 4%nat)) as [E1|E1]; [|destruct (decide (length x = 16%nat ∧ _)) as [[F1 P1]|_]];
    [| |by rewrite <- Hx in La];
    (destruct (decide (length y = 4%nat)) as [E2|E2]; [|destruct (decide (length y = 16%nat ∧ _)) as [[F2 P2]|_]];
      [| |by rewrite <- Hy in Lb]).
  - rewrite decide_True by congruence. apply bool_decide_ext. by rewrite Hx, Hy.
  - rewrite decide_False by lia. rewrite decide_True by done. apply bool_decide_ext. rewrite Hx, Hy, Hinj. tauto.
  - rewrite decide_False by lia. rewrite decide_False by lia. rewrite decide_True by done.
    apply bool_decide_ext. rewrite Hx, Hy, Hinj. tauto.
  - rewrite decide_True by congruence. apply bool_decide_ext. rewrite <- Hinj, <- Hx, <- Hy. split; [by intros ->|].
    intros E. rewrite <- (take_drop 12 x), <- (take_drop 12 y). by rewrite P1, P2, E.
Qed.

Lemma CIDRMask_inj p q : 0 <= p <= 32 → 0 <= q <= 32 → CIDRMask p 32 = CIDRMask q 32 → p = q.
Proof.
  intros Hp Hq E. pose proof (mask_facts 32 p ltac:(by left) Hp) as (_ & Ep & _).
  pose proof (mask_facts 32 q ltac:(by left) Hq) as (_ & Eq & _). congruence.
Qed.

Lemma routeEqual_to r n g i r' n' g' i' : route_to r n g i → route_to r' n' g' i' →
  routeEqual r r' = Ret (bool_decide ((n, g, i) = (n', g', i'))).
Proof.
  intros (Hn & Hg & Hi & Egw & d & Ed & Eip & Em) (Hn' & Hg' & Hi' & Egw' & d' & Ed' & Eip' & Em').
  unfold routeEqual. rewrite Ed, Ed'. cbn [deref mbind outcome_bind].
  rewrite (Equal_To4 _ _ (IP4Net_IP n) (IP4Net_IP n')) by (done || apply Hn || apply Hn').
  rewrite (Equal_To4 _ _ g g') by done. rewrite Hi, Hi', Em, Em'. f_equal.
  assert (CIDRMask (IP4Net_PrefixLen n) 32 = CIDRMask (IP4Net_PrefixLen n') 32 ↔ IP4Net_PrefixLen n = IP4Net_PrefixLen n') as Hm.
  { split; [apply CIDRMask_inj; [apply Hn|apply Hn']|by intros ->]. }
  apply Bool.eq_iff_eq_true. rewrite !andb_true_iff, !bool_decide_eq_true, Z.eqb_eq.
  rewrite Hm. destruct n, n'. cbn. split; [by intros [[[-> ->] ->] ->]|]. intros E. by simplify_eq.
Qed.

Lemma hostgw_route_to link l : IP4Net_ok (Subnet l) → IP4_ok (PublicIP (Attrs l)) →
  ∃ r, hostgw_route link l = Ret r ∧ Route_Dst r = Some (IP4Net_ToIPNet (Subnet l)) ∧
    route_to r (Subnet l) (PublicIP (Attrs l)) link.
Proof.
  intros Hn Hg. eexists. split; [done|]. split; [done|]. split_and!; [apply Hn..|apply Hg|done|apply To4_ToIP|].
  eexists. split; [done|]. split; [apply To4_ToIP|done].
Qed.

(** ** The list of routes *)

(** The list stands for these subnets and gateways, all on one link. *)
Definition route_list (link : Z) (routes : list Route) (tr : list (IP4Net * IP4)) : Prop :=
  Forall2 (λ r e, route_to r e.1 e.2 link) routes tr.

Lemma find_route_spec link routes tr r n g i : route_list link routes tr → route_to r n g i →
  find_route r routes = Ret (fst <$> list_find (λ e, (e, link) = ((n, g), i)) tr).
Proof.
  intros Hl Hr. induction Hl as [|r' [n' g'] routes tr Hr' _ IH]; [done|]. cbn [fst snd] in Hr'.
  cbn [find_route]. rewrite (routeEqual_to _ _ _ _ _ _ _ _ Hr' Hr). cbn [mbind outcome_bind list_find].
  destruct (decide ((n', g', link) = (n, g, i))) as [E|E].
  - by rewrite bool_decide_eq_true_2.
  - rewrite bool_decide_eq_false_2, IH by done. cbn [mbind outcome_bind].
    by destruct (list_find _ tr) as [[j e]|].
Qed.

Definition tr_add (e : IP4Net * IP4) (tr : list (IP4Net * IP4)) : list (IP4Net * IP4) :=
  if decide (e ∈ tr) then tr else tr ++ [e].

Lemma add_route_spec link routes tr r n g : route_list link routes tr → route_to r n g link →
  ∃ routes', addToRouteList r routes = Ret routes' ∧ route_list link routes' (tr_add (n, g) tr).
Proof.
  intros Hl Hr. unfold addToRouteList, tr_add. erewrite find_route_spec by done. cbn [mbind outcome_bind].
  destruct (list_find _ tr) as [[j e]|] eqn:E; cbn [fmap option_fmap option_map].
  - apply list_find_Some in E as (Hj & Ee & _). simplify_eq.
    rewrite decide_True by (by eapply list_elem_of_lookup_2). by eexists.
  - apply list_find_None in E. rewrite decide_False.
    + eexists. split; [done|]. apply Forall2_app; [done|]. by constructor.
    + intros Hin. rewrite list.Forall_forall in E. by apply (E _ Hin).
Qed.

Lemma remove_route_spec link routes tr r n g i : route_list link routes tr → route_to r n g i → NoDup tr →
  ∃ routes', removeFromRouteList r routes = Ret routes' ∧
    route_list link routes' (filter (λ e, (e, link) ≠ ((n, g), i)) tr).
Proof.
  intros Hl Hr Hnd. unfold removeFromRouteList. erewrite find_route_spec by done. cbn [mbind outcome_bind].
  destruct (list_find _ tr) as [[j e]|] eqn:E; cbn [fmap option_fmap option_map fst].
  - apply list_find_Some in E as (Hj & Ee & _). eexists. split; [done|].
    rewrite (filter_ext _ (λ x, id x ≠ id e)); [|intros x _; unfold id; destruct x, e; naive_solver].
    rewrite <- (cut_filter id tr j e); [|by rewrite list_fmap_id|done].
    apply Forall2_app; [by apply Forall2_take|by apply Forall2_drop].
  - apply list_find_None in E. eexists. split; [done|]. rewrite filter_all; [done|].
    eapply list.Forall_impl; [exact E|]. done.
Qed.

Section laws.
Context {W : Type} `{NetlinkLaws W} (link : Z).
Implicit Types (s : RouteNetwork W) (w : W) (tr : list (IP4Net * IP4)).

Definition rn_with s (routes : list Route) w : RouteNetwork W := mkRouteNetwork routes (rn_v6Routes s) w.

Lemma rn_on_host_Ret {A} (m : M W A) s a w : m (rn_host s) = (Ret a, w) →
  rn_on_host m s = (Ret a, rn_with s (rn_routes s) w).
Proof. intros Hm. unfold rn_on_host. by rewrite Hm. Qed.

Lemma rn_with_same s : rn_with s (rn_routes s) (rn_host s) = s.
Proof. by destruct s. Qed.

Lemma update_run f s routes' : f (rn_routes s) = Ret routes' →
  update_routes FAMILY_V4 f s = (Ret tt, rn_with s routes' (rn_host s)).
Proof. intros Hf. unfold update_routes. run. rewrite Hf. done. Qed.

(** What the list becomes when a route is added over what the kernel has. *)
Definition tr_replace (n : IP4Net) (g : IP4) (k : option (IP4 * Z)) tr : list (IP4Net * IP4) :=
  let tr := tr_add (n, g) tr in
  match k with
  | Some (g', i') => if decide ((g', i') = (g, link)) then tr else filter (λ e, (e, link) ≠ ((n, g'), i')) tr
  | None => tr
  end.

(** The look at the kernel: the listed route and whether it is the wanted one. *)
Lemma list_run n g r s : route_to r n g link → Route_Dst r = Some (IP4Net_ToIPNet n) →
  ∃ l, rn_on_host (RouteListFiltered FAMILY_V4 (Route_Dst r)) s = (Ret (l, None), s) ∧
    match kroutes (rn_host s) !! n with
    | Some (g', i') => ∃ r', route_to r' n g' i' ∧ first_is l r = Ret (Some (r', bool_decide ((g', i') = (g, link))))
    | None => first_is l r = Ret None
    end.
Proof.
  intros Hr Hd. destruct Hr as (Hn & Hr'). rewrite Hd.
  destruct (law_RouteListFiltered n (rn_host s) Hn) as (l & Hl & Hk). exists l. split.
  - erewrite rn_on_host_Ret by exact Hl. by rewrite rn_with_same.
  - destruct (kroutes (rn_host s) !! n) as [[g' i']|]; [|by rewrite Hk].
    destruct Hk as (r' & -> & Hto). exists r'. split; [done|]. cbn [first_is].
    rewrite (routeEqual_to r' n g' i' r n g link) by done. cbn [mbind outcome_bind].
    do 3 f_equal. apply bool_decide_ext. naive_solver.
Qed.

(** The second half of [routeAdd], once the kernel has no other route. *)
Definition finish_add (route : Route) : M (RouteNetwork W) unit :=
  l ← rn_on_host (RouteListFiltered FAMILY_V4 (Route_Dst route));
  first ← lift (first_is l.1 route);
  added ← (match first with
           | Some (_, true) => mret true
           | _ => a ← try (rn_on_host (RouteAdd route));
                  mret (match a with inl _ => true | inr _ => false end)
           end);
  if negb added then mret tt
  else _ ← rn_on_host (RouteListFiltered FAMILY_V4 (Route_Dst route)); mret tt.

Lemma finish_add_run n g r s : route_to r n g link → gw_on_link g link → Route_Dst r = Some (IP4Net_ToIPNet n) →
  (kroutes (rn_host s) !! n = None ∨ kroutes (rn_host s) !! n = Some (g, link)) →
  ∃ w, finish_add r s = (Ret tt, rn_with s (rn_routes s) w) ∧
    kroutes w = <[n := (g, link)]> (kroutes (rn_host s)).
Proof.
  intros Hr Hgw Hd Hk. unfold finish_add. destruct (list_run n g r s Hr Hd) as (l & Hl & Hf).
  rewrite (M_bind_Ret _ _ _ _ _ Hl). cbn [fst]. destruct Hk as [Hk|Hk]; rewrite Hk in Hf.
  - rewrite Hf. run. pose proof (law_RouteAdd r n g link (rn_host s) Hr Hgw) as Hadd. rewrite Hk in Hadd.
    destruct Hadd as (w & Hw & Hkw). exists w. split; [|done]. run.
    erewrite run_try_Ret by (by apply rn_on_host_Ret). run. cbn [negb].
    destruct (list_run n g r (rn_with s (rn_routes s) w) Hr Hd) as (l' & Hl' & _).
    by rewrite (M_bind_Ret _ _ _ _ _ Hl').
  - destruct Hf as (r' & _ & Hf). rewrite bool_decide_eq_true_2 in Hf by done. rewrite Hf. run. cbn [negb].
    rewrite (M_bind_Ret _ _ _ _ _ Hl). exists (rn_host s). rewrite rn_with_same. split; [done|].
    by rewrite insert_id.
Qed.

Lemma tr_add_NoDup e tr : NoDup tr → NoDup (tr_add e tr).
Proof.
  intros Hnd. unfold tr_add. destruct (decide (e ∈ tr)) as [|Hn]; [done|].
  apply list.NoDup_app. split_and!; [done| |apply NoDup_singleton].
  intros x Hx Hx2%list_elem_of_singleton. by subst.
Qed.

Lemma routeAdd_run n g r s tr : route_to r n g link → gw_on_link g link → Route_Dst r = Some (IP4Net_ToIPNet n) →
  route_list link (rn_routes s) tr → NoDup tr →
  ∃ routes' w, routeAdd FAMILY_V4 r s = (Ret tt, rn_with s routes' w) ∧
    kroutes w = <[n := (g, link)]> (kroutes (rn_host s)) ∧
    route_list link routes' (tr_replace n g (kroutes (rn_host s) !! n) tr).
Proof.
  intros Hr Hgw Hd Hl Hnd. destruct (add_route_spec link _ tr r n g Hl Hr) as (routes1 & Hadd & Hl1).
  unfold routeAdd, RouteNetwork_addToRouteList. rewrite (M_bind_Ret _ _ _ _ _ (update_run _ _ _ Hadd)).
  set (s1 := rn_with s routes1 (rn_host s)).
  destruct (list_run n g r s1 Hr Hd) as (l & Hlr & Hf). rewrite (M_bind_Ret _ _ _ _ _ Hlr). cbn [fst].
  fold (finish_add r). unfold tr_replace. change (rn_host s1) with (rn_host s) in Hf.
  destruct (kroutes (rn_host s) !! n) as [[g' i']|] eqn:Ek.
  - destruct Hf as (r' & Hr' & ->). destruct (decide ((g', i') = (g, link))) as [E|E].
    + rewrite bool_decide_eq_true_2 by done. run. cbn [negb].
      destruct (finish_add_run n g r s1 Hr Hgw Hd) as (w & Hw & Hkw); [right; cbn; by rewrite Ek, E|].
      exists routes1, w. done.
    + rewrite bool_decide_eq_false_2 by done. run.
      pose proof (law_RouteDel r' n g' i' (rn_host s) Hr') as Hdel. rewrite decide_True in Hdel by done.
      destruct Hdel as (w1 & Hw1 & Hk1). erewrite run_try_Ret by (by apply rn_on_host_Ret).
      destruct (remove_route_spec link routes1 _ r' n g' i' Hl1 Hr' (tr_add_NoDup _ _ Hnd)) as (routes2 & Hrem & Hl2).
      run. unfold RouteNetwork_removeFromRouteList.
      rewrite (M_bind_Ret _ _ _ _ _ (update_run _ (rn_with s1 (rn_routes s1) w1) _ Hrem)). run. cbn [negb].
      destruct (finish_add_run n g r (rn_with s routes2 w1) Hr Hgw Hd) as (w & Hw & Hkw);
        [left; cbn; by rewrite Hk1, lookup_delete_eq|].
      exists routes2, w. split_and!; [exact Hw| |done]. rewrite Hkw. cbn [rn_host rn_with].
      by rewrite Hk1, insert_delete_eq.
  - rewrite Hf. run. cbn [negb].
    destruct (finish_add_run n g r s1 Hr Hgw Hd) as (w & Hw & Hkw); [left; cbn; by rewrite Ek|].
    by exists routes1, w.
Qed.

(** ** The routes that are kept *)

(** The list stands for the map [m] from subnets to gateways. *)
Definition stands_for tr (m : gmap IP4Net IP4) : Prop :=
  NoDup tr.*1 ∧ ∀ n g, (n, g) ∈ tr ↔ m !! n = Some g.

Lemma stands_for_NoDup tr m : stands_for tr m → NoDup tr.
Proof. intros [Hnd _]. by eapply NoDup_fmap_1. Qed.

Lemma stands_for_filter tr m Q `{∀ e, Decision (Q e)} n :
  stands_for tr m → (∀ e, e ∈ tr → Q e ↔ e.1 ≠ n) → stands_for (filter Q tr) (delete n m).
Proof.
  intros [Hnd Hm] HQ. split.
  - by apply filter_keys_NoDup.
  - intros n' g'. rewrite list_elem_of_filter, lookup_delete_Some, <- Hm. split.
    + intros [Hq Hin]. split; [|done]. apply not_eq_sym. by apply (HQ (n', g')).
    + intros [Hne Hin]. split; [|done]. by apply (HQ (n', g')).
Qed.

Lemma stands_for_snoc tr m n g : stands_for tr m → m !! n = None → stands_for (tr ++ [(n, g)]) (<[n := g]> m).
Proof.
  intros [Hnd Hm] Hn. assert (n ∉ tr.*1) as Hnot.
  { intros ([n' g'] & -> & Hin)%list_elem_of_fmap. apply Hm in Hin. cbn in Hn. congruence. }
  split.
  - rewrite fmap_app. apply list.NoDup_app. split_and!; [done| |apply NoDup_singleton].
    intros x Hx Hx2%list_elem_of_singleton. by subst.
  - intros n' g'. rewrite elem_of_app, list_elem_of_singleton, Hm, lookup_insert_Some. split.
    + intros [Hin|E]; [|simplify_eq; by left]. right. split; [congruence|done].
    + intros [[-> ->]|[_ Hin]]; [by right|by left].
Qed.

Lemma tr_replace_stands n g k tr m : stands_for tr m →
  (∀ g0, m !! n = Some g0 → k = Some (g0, link)) → stands_for (tr_replace n g k tr) (<[n := g]> m).
Proof.
  intros Hst Hk. unfold tr_replace, tr_add. pose proof Hst as [Hnd Hm].
  destruct (m !! n) as [g0|] eqn:En.
  - rewrite (Hk g0 eq_refl). destruct (decide (g0 = g)) as [->|Hne].
    + destruct (decide ((n, g) ∈ tr)) as [_|Hx]; [|by destruct Hx; apply Hm].
      rewrite decide_True by done. by rewrite insert_id.
    + destruct (decide ((n, g) ∈ tr)) as [Hx|_]; [apply Hm in Hx; congruence|].
      rewrite decide_False by congruence.
      rewrite list.filter_app, (filter_cons_True _ _ []), filter_nil by congruence.
      rewrite <- insert_delete_eq. apply stands_for_snoc; [|by rewrite lookup_delete_eq].
      apply stands_for_filter; [done|]. intros [n' g'] Hin. cbn. apply Hm in Hin.
      split; [|congruence]. intros E ->. apply E. congruence.
  - destruct (decide ((n, g) ∈ tr)) as [Hx|_]; [apply Hm in Hx; congruence|]. destruct k as [[g' i']|]; [|by apply stands_for_snoc].
    destruct (decide _) as [E|E]; [by apply stands_for_snoc|].
    rewrite filter_all; [by apply stands_for_snoc|]. apply list.Forall_forall. intros e He.
    apply elem_of_app in He as [He|He%list_elem_of_singleton]; [|congruence].
    intros E'. simplify_eq. apply Hm in He. congruence.
Qed.

(** The network keeps [m]: its list stands for it and the kernel has every route. *)
Definition keeps (m : gmap IP4Net IP4) s : Prop :=
  (∃ tr, route_list link (rn_routes s) tr ∧ stands_for tr m) ∧
  ∀ n g, m !! n = Some g → kroutes (rn_host s) !! n = Some (g, link).

Variable betype : string.

(** What an event asks for, of the events of one backend. *)
Definition wanted (m : gmap IP4Net IP4) (e : Event) : gmap IP4Net IP4 :=
  let n := Subnet (Event_Lease e) in
  let g := PublicIP (Attrs (Event_Lease e)) in
  if decide (BackendType (Attrs (Event_Lease e)) = betype) then
    match Event_Type e with
    | EventAdded => <[n := g]> m
    | EventRemoved => if decide (m !! n = Some g) then delete n m else m
    end
  else m.

(** An event of an IPv4-only lease; the gateway of one that is to be added is on the link. *)
Definition event_ok (e : Event) : Prop :=
  let l := Event_Lease e in
  EnableIPv4 l = true ∧ EnableIPv6 l = false ∧ IP4Net_ok (Subnet l) ∧ IP4_ok (PublicIP (Attrs l)) ∧
  (Event_Type e = EventAdded → BackendType (Attrs l) = betype → gw_on_link (PublicIP (Attrs l)) link).

Variable c : RouteConfig.
Hypothesis Htype : rn_BackendType c = betype.
Hypothesis Hroute : GetRoute c = Some (hostgw_route link).

(** What an event makes of the kernel's routes: an added lease has the route to its
    subnet, in place of any other; a removed one takes its own route away, and no other. *)
Definition kernel_step (k : route_table) (e : Event) : route_table :=
  let n := Subnet (Event_Lease e) in
  let g := PublicIP (Attrs (Event_Lease e)) in
  if decide (BackendType (Attrs (Event_Lease e)) = betype) then
    match Event_Type e with
    | EventAdded => <[n := (g, link)]> k
    | EventRemoved => if decide (k !! n = Some (g, link)) then delete n k else k
    end
  else k.

Lemma added_run e s m : Event_Type e = EventAdded → event_ok e → keeps m s →
  BackendType (Attrs (Event_Lease e)) = betype →
  ∃ s', handle_family FAMILY_V4 (GetRoute c) e s = (Ret tt, s') ∧ keeps (wanted m e) s' ∧
    kroutes (rn_host s') = kernel_step (kroutes (rn_host s)) e.
Proof.
  intros Ht (_ & _ & Hn & Hg & Hgw) [(tr & Hl & Hst) Hk] Hb. unfold handle_family. rewrite Hroute. cbn [deref]. run.
  destruct (hostgw_route_to link _ Hn Hg) as (r & -> & Hd & Hr). run. rewrite Ht.
  destruct (routeAdd_run _ _ r s tr Hr (Hgw Ht Hb) Hd Hl (stands_for_NoDup _ _ Hst)) as (routes' & w & Hrun & Hkw & Hl').
  eexists. split; [exact Hrun|]. unfold wanted. rewrite decide_True, Ht by done. split; [split|].
  - eexists. split; [exact Hl'|]. apply tr_replace_stands; [done|]. intros g0 Hg0. by apply Hk.
  - intros n' g'. cbn [rn_host rn_with]. rewrite Hkw. intros Hm.
    apply lookup_insert_Some in Hm as [[<- <-]|[Hne Hm]]; [by rewrite lookup_insert_eq|].
    rewrite lookup_insert_ne by done. by apply Hk.
  - cbn [rn_host rn_with]. unfold kernel_step. by rewrite decide_True, Ht.
Qed.

Lemma removed_run e s m : Event_Type e = EventRemoved → event_ok e → keeps m s →
  BackendType (Attrs (Event_Lease e)) = betype →
  ∃ s', handle_family FAMILY_V4 (GetRoute c) e s = (Ret tt, s') ∧ keeps (wanted m e) s' ∧
    kroutes (rn_host s') = kernel_step (kroutes (rn_host s)) e.
Proof.
  intros Ht (_ & _ & Hn & Hg & Hgw) [(tr & Hl & Hst) Hk] Hb. unfold handle_family. rewrite Hroute. cbn [deref]. run.
  destruct (hostgw_route_to link _ Hn Hg) as (r & -> & Hd & Hr). run. rewrite Ht.
  set (n := Subnet (Event_Lease e)) in *. set (g := PublicIP (Attrs (Event_Lease e))) in *.
  destruct (remove_route_spec link _ tr r n g link Hl Hr (stands_for_NoDup _ _ Hst)) as (routes' & Hrem & Hl').
  unfold RouteNetwork_removeFromRouteList. rewrite (M_bind_Ret _ _ _ _ _ (update_run _ _ _ Hrem)).
  assert (∃ w, (_ ← try (rn_on_host (RouteDel r)); mret tt) (rn_with s routes' (rn_host s)) = (Ret tt, rn_with s routes' w) ∧
    kroutes w = if decide (kroutes (rn_host s) !! n = Some (g, link)) then delete n (kroutes (rn_host s)) else kroutes (rn_host s))
    as (w & Hw & Hkw).
  { pose proof (law_RouteDel r n g link (rn_host s) Hr) as Hdel. unfold mbind, M_bind, try, rn_on_host.
    cbn [rn_host rn_with]. destruct (decide _).
    - destruct Hdel as (w & -> & Hkw). by exists w.
    - destruct Hdel as (err & ->). by exists (rn_host s). }
  exists (rn_with s routes' w). split; [exact Hw|]. unfold wanted. rewrite decide_True, Ht by done. fold n g.
  assert (stands_for (filter (λ e0, (e0, link) ≠ ((n, g), link)) tr) (if decide (m !! n = Some g) then delete n m else m)) as Hst'.
  { pose proof Hst as [_ Hm]. destruct (decide (m !! n = Some g)) as [Eg|Eg].
    - apply stands_for_filter; [done|]. intros [n' g'] Hin. apply Hm in Hin. cbn. split; [|congruence].
      intros E ->. apply E. congruence.
    - rewrite filter_all; [done|]. apply list.Forall_forall. intros e0 He0 E. simplify_eq. by apply Hm in He0. }
  split; [split|].
  - eexists. by split.
  - intros n' g' Hm'. cbn [rn_host rn_with]. rewrite Hkw.
    destruct (decide (m !! n = Some g)) as [Eg|Eg].
    + apply lookup_delete_Some in Hm' as [Hne Hm']. destruct (decide _); [rewrite lookup_delete_ne by done|]; by apply Hk.
    + pose proof (Hk _ _ Hm') as Hk'. destruct (decide _) as [Ek|]; [|done].
      rewrite lookup_delete_ne; [done|]. intros <-. rewrite Hk' in Ek. simplify_eq.
  - cbn [rn_host rn_with]. unfold kernel_step. by rewrite decide_True, Ht.
Qed.

Lemma event_run e s m : event_ok e → keeps m s →
  ∃ s', handle_event c e s = (Ret tt, s') ∧ keeps (wanted m e) s' ∧ kroutes (rn_host s') = kernel_step (kroutes (rn_host s)) e.
Proof.
  intros Hok Hk. pose proof Hok as (H4 & H6 & _). unfold handle_event. rewrite Htype, H4, H6.
  destruct (decide (BackendType (Attrs (Event_Lease e)) = betype)) as [Hb|Hb].
  - rewrite bool_decide_eq_true_2 by done. cbn [negb].
    assert (∃ s', handle_family FAMILY_V4 (GetRoute c) e s = (Ret tt, s') ∧ keeps (wanted m e) s' ∧
      kroutes (rn_host s') = kernel_step (kroutes (rn_host s)) e) as (s' & Hrun & ?).
    { destruct (Event_Type e) eqn:Ht; [by apply added_run|by apply removed_run]. }
    exists s'. by rewrite (M_bind_Ret _ _ _ _ _ Hrun).
  - rewrite bool_decide_eq_false_2 by done. cbn [negb]. exists s. unfold wanted, kernel_step. by rewrite !decide_False.
Qed.

Lemma events_run es : ∀ s m, Forall event_ok es → keeps m s →
  ∃ s', handleSubnetEvents c es s = (Ret tt, s') ∧ keeps (foldl wanted m es) s' ∧
    kroutes (rn_host s') = foldl kernel_step (kroutes (rn_host s)) es.
Proof.
  induction es as [|e es IH]; intros s m Hok Hk; [by exists s|].
  apply list.Forall_cons in Hok as [He Hok]. cbn [handleSubnetEvents foldl].
  destruct (event_run e s m He Hk) as (s1 & Hrun & Hk1 & Ho1). rewrite (M_bind_Ret _ _ _ _ _ Hrun).
  destruct (IH s1 _ Hok Hk1) as (s2 & Hrun2 & Hk2 & Ho2). exists s2. by rewrite Ho2, Ho1.
Qed.
End laws.

(** ** The periodic check *)

Section recovery.
Context {W : Type} `{NetlinkLaws W} (link : Z).
Implicit Types (s : RouteNetwork W) (w : W).

Lemma route_exists_spec w l r n g : route_to r n g link →
  (∀ r', r' ∈ l → is_Some (Route_Dst r') → ∃ n g i, route_to r' n g i ∧ kroutes w !! n = Some (g, i)) →
  (∀ n g i, kroutes w !! n = Some (g, i) → ∃ r', r' ∈ l ∧ route_to r' n g i) →
  route_exists l r = Ret (bool_decide (kroutes w !! n = Some (g, link))).
Proof.
  intros Hr Hsound Hcomp.
  assert (∀ l', (∀ r', r' ∈ l' → r' ∈ l) → ∃ b, route_exists l' r = Ret b ∧
    (b = true → kroutes w !! n = Some (g, link)) ∧ (b = false → ∀ r', r' ∈ l' → ¬ route_to r' n g link)) as Hgen.
  { induction l' as [|r' l' IH]; intros Hsub.
    { exists false. split_and!; [done..|]. by intros _ r' ?%not_elem_of_nil. }
    destruct IH as (b & Hb & Ht & Hf); [intros; apply Hsub; by right|]. cbn [route_exists].
    destruct (Route_Dst r') as [d|] eqn:Ed.
    - destruct (Hsound r') as (n' & g' & i' & Hto & Hk); [apply Hsub; by left|by rewrite Ed|].
      rewrite (routeEqual_to _ _ _ _ _ _ _ _ Hto Hr). cbn [mbind outcome_bind]. case_bool_decide as E.
      + exists true. split_and!; [done| |done]. intros _. by simplify_eq.
      + exists b. split_and!; [done..|]. intros -> r'' Hin Hto'.
        apply elem_of_cons in Hin as [->|Hin]; [|by eapply Hf].
        pose proof (routeEqual_to _ _ _ _ _ _ _ _ Hto Hr) as E1.
        pose proof (routeEqual_to _ _ _ _ _ _ _ _ Hto' Hr) as E2.
        rewrite E1 in E2. rewrite bool_decide_eq_false_2, bool_decide_eq_true_2 in E2 by done. done.
    - exists b. split_and!; [done..|]. intros -> r'' Hin Hto'.
      apply elem_of_cons in Hin as [->|Hin]; [|by eapply Hf].
      destruct Hto' as (_ & _ & _ & _ & d & Hd & _). congruence. }
  destruct (Hgen l) as (b & -> & Ht & Hf); [done|]. f_equal. destruct b.
  - symmetry. by apply bool_decide_eq_true_2, Ht.
  - symmetry. apply bool_decide_eq_false_2. intros Hk. destruct (Hcomp _ _ _ Hk) as (r' & Hin & Hto). by eapply Hf.
Qed.

Lemma recover_run w0 l tr : 
  (∀ r, r ∈ l → is_Some (Route_Dst r) → ∃ n g i, route_to r n g i ∧ kroutes w0 !! n = Some (g, i)) →
  (∀ n g i, kroutes w0 !! n = Some (g, i) → ∃ r, r ∈ l ∧ route_to r n g i) →
  Forall (λ e, gw_on_link e.2 link) tr →
  ∀ routes s, route_list link routes tr → kroutes w0 ⊆ kroutes (rn_host s) →
  ∃ w, recover_routes l routes s = (Ret tt, rn_with s (rn_routes s) w) ∧
    kroutes w = kroutes (rn_host s) ∪ list_to_map ((λ e, (e.1, (e.2, link))) <$> tr).
Proof.
  intros Hsound Hcomp Hgw. induction Hgw as [|[n g] tr Hg Hgw IH]; intros routes s Hl Hsub; apply Forall2_cons_inv_r in Hl || apply Forall2_nil_inv_r in Hl.
  { rewrite Hl. exists (rn_host s). cbn. rewrite rn_with_same, (right_id_L ∅ (∪)). done. }
  destruct Hl as (r & routes' & Hr & Hl & ->). cbn [fst snd] in Hr. cbn [recover_routes].
  rewrite (route_exists_spec w0 l r n g Hr Hsound Hcomp). run.
  rewrite fmap_cons, list_to_map_cons. cbn [fst snd]. case_bool_decide as Hk0.
  - destruct (IH routes' s Hl Hsub) as (w & Hw & Hkw). exists w. split; [by rewrite <- Hw|].
    rewrite Hkw. apply map_eq. intros n'. rewrite !lookup_union.
    destruct (decide (n' = n)) as [->|]; [|by rewrite lookup_insert_ne].
    assert (kroutes (rn_host s) !! n = Some (g, link)) as -> by (by eapply lookup_weaken).
    rewrite lookup_insert_eq. by destruct (list_to_map _ !! n).
  - pose proof (law_RouteAdd r n g link (rn_host s) Hr Hg) as Hadd.
    destruct (kroutes (rn_host s) !! n) as [v|] eqn:Ek.
    + destruct Hadd as (e & He). assert (try (rn_on_host (RouteAdd r)) s = (Ret (inr e), s)) as Htry.
      { unfold try, rn_on_host. rewrite He. by destruct s. }
      destruct (IH routes' s Hl Hsub) as (w & Hw & Hkw). exists w.
      split; [run; rewrite (M_bind_Ret _ _ _ _ _ Htry); run; done|].
      rewrite Hkw. apply map_eq. intros n'. rewrite !lookup_union.
      destruct (decide (n' = n)) as [->|]; [|by rewrite lookup_insert_ne].
      rewrite Ek, lookup_insert_eq. by destruct (list_to_map _ !! n).
    + destruct Hadd as (w1 & Hw1 & Hk1).
      destruct (IH routes' (rn_with s (rn_routes s) w1) Hl) as (w & Hw & Hkw).
      { cbn. rewrite Hk1. etrans; [exact Hsub|]. by apply insert_subseteq. }
      exists w. split; [run; erewrite run_try_Ret by (by apply rn_on_host_Ret); run; exact Hw|].
      rewrite Hkw. cbn [rn_host rn_with]. rewrite Hk1. by rewrite <- insert_union_l, <- insert_union_r.
Qed.

(** Every route of the list that the kernel has no route for is added; of two to
    the same subnet, the one listed first. *)
Lemma check_run s tr : route_list link (rn_routes s) tr → Forall (λ e, gw_on_link e.2 link) tr →
  ∃ w, checkSubnetExistInV4Routes s = (Ret tt, rn_with s (rn_routes s) w) ∧
    kroutes w = kroutes (rn_host s) ∪ list_to_map ((λ e, (e.1, (e.2, link))) <$> tr).
Proof.
  intros Hl Hgw. unfold checkSubnetExistInV4Routes, checkSubnetExistInRoutes. run.
  destruct (law_RouteList (rn_host s)) as (l & Hlist & Hsound & Hcomp).
  erewrite run_try_Ret by (by apply rn_on_host_Ret). rewrite rn_with_same.
  by apply (recover_run (rn_host s) l tr Hsound Hcomp Hgw).
Qed.

Lemma stands_for_map tr m : stands_for tr m → list_to_map ((λ e, (e.1, (e.2, link))) <$> tr) = (λ g, (g, link)) <$> m.
Proof.
  intros [Hnd Hm]. apply map_eq. intros n. apply option_eq. intros [g i]. rewrite lookup_fmap_Some.
  assert (NoDup ((λ e : IP4Net * IP4, (e.1, (e.2, link))) <$> tr).*1) as Hnd' by (by rewrite <- list_fmap_compose).
  rewrite <- elem_of_list_to_map by done. rewrite list_elem_of_fmap. split.
  - intros ([n' g'] & E & Hin). cbn in E. simplify_eq. exists g'. by rewrite <- Hm.
  - intros (g' & E & Hin). simplify_eq. exists (n, g). by rewrite Hm.
Qed.
End recovery.

Lemma hostgw_config S `{LeaseSource S} be config (sm sm' : S) c n :
  hostgw_RegisterNetwork be config sm = (Ret (c, n), sm') → cfg_EnableIPv4 config = true →
  rn_BackendType c = "host-gw" ∧ GetRoute c = Some (hostgw_route (Iface_Index be)).
Proof. intros Hrun E. unfold hostgw_RegisterNetwork in Hrun. rewrite E in Hrun. run_inv. done. Qed.

(** ** The theorems *)


(** A tick of the route check adds to the kernel every route of the network
    whose subnet it has no route for, and changes nothing else: a route to the same
    subnet that someone else put there stays. *)
Theorem routeCheck_recovers W `{NetlinkLaws W} link m (s : RouteNetwork W) :
  (∃ tr, route_list link (rn_routes s) tr ∧ stands_for tr m) → map_Forall (λ _ g, gw_on_link g link) m →
  ∃ w, checkSubnetExistInV4Routes s = (Ret tt, rn_with s (rn_routes s) w) ∧
    kroutes w = kroutes (rn_host s) ∪ ((λ g, (g, link)) <$> m).
Proof.
  intros (tr & Hl & Hst) Hgw. destruct (check_run link s tr Hl) as (w & Hw & Hk).
  - apply list.Forall_forall. intros [n g] Hin. apply Hst in Hin. by apply (Hgw n).
  - exists w. split; [done|]. by rewrite Hk, (stands_for_map link tr m).
Qed.

(** An older gateway is only forgotten when the kernel still has the route
    through it.  When the kernel has lost that route, a lease whose public address
    changes leaves both gateways in the list, the old one first; and as soon as the
    kernel loses the route again, the check brings back the old gateway and not the
    current one. *)
Theorem stale_route_recovered W `{NetlinkLaws W} link c e n g0 (s : RouteNetwork W) :
  rn_BackendType c = "host-gw" → GetRoute c = Some (hostgw_route link) →
  event_ok link "host-gw" e → Event_Type e = EventAdded → BackendType (Attrs (Event_Lease e)) = "host-gw" → gw_on_link g0 link →
  Subnet (Event_Lease e) = n → PublicIP (Attrs (Event_Lease e)) ≠ g0 →
  route_list link (rn_routes s) [(n, g0)] → kroutes (rn_host s) !! n = None →
  ∃ s', handleSubnetEvents c [e] s = (Ret tt, s') ∧
    kroutes (rn_host s') !! n = Some (PublicIP (Attrs (Event_Lease e)), link) ∧
    ∀ w, kroutes w !! n = None →
      ∃ w', checkSubnetExistInV4Routes (rn_with s' (rn_routes s') w) = (Ret tt, rn_with s' (rn_routes s') w') ∧
        kroutes w' !! n = Some (g0, link).
Proof.
  intros Htype Hroute (H4 & H6 & Hn & Hg & Hgw) Ht Hb Hg0 En Hne Hl Hk. subst n.
  set (n := Subnet (Event_Lease e)) in *. set (g := PublicIP (Attrs (Event_Lease e))) in *.
  destruct (hostgw_route_to link _ Hn Hg) as (r & Er & Hd & Hr).
  destruct (routeAdd_run link n g r s [(n, g0)] Hr (Hgw Ht Hb) Hd Hl (NoDup_singleton _)) as (routes' & w1 & Hrun & Hk1 & Hl1).
  assert (tr_replace link n g (kroutes (rn_host s) !! n) [(n, g0)] = [(n, g0); (n, g)]) as Etr.
  { rewrite Hk. unfold tr_replace, tr_add. rewrite decide_False; [done|]. intros E%list_elem_of_singleton. congruence. }
  rewrite Etr in Hl1. exists (rn_with s routes' w1). split_and!.
  - cbn [handleSubnetEvents]. unfold handle_event, handle_family.
    rewrite Htype, Hb, H4, H6, Hroute, bool_decide_eq_true_2 by done. cbn [negb deref]. run. rewrite Er. run.
    rewrite Ht, (M_bind_Ret _ _ _ _ _ Hrun). done.
  - cbn [rn_host rn_with]. by rewrite Hk1, lookup_insert_eq.
  - intros w Hw. destruct (check_run link (rn_with s routes' w) _ Hl1) as (w' & Hrun' & Hk'); [repeat constructor; [done|by apply Hgw]|].
    exists w'. split; [exact Hrun'|]. rewrite Hk'. cbn [rn_host rn_with]. rewrite lookup_union, Hw.
    cbn [fmap list_fmap fst snd list_to_map]. by rewrite list_to_map_cons, lookup_insert_eq.
Qed.

(** *** A kernel in memory *)

(** The subnet and the gateway of a route. *)
Definition mem_dst (d : option IPNet) : option IP4Net :=
  d ← d;
  match FromIP (IPNet_IP d) with
  | Ret ip => Some (mkIP4Net ip (mask_Size (IPNet_Mask d)).1)
  | _ => None
  end.
Definition mem_gw (r : Route) : option IP4 :=
  match FromIP (Route_Gw r) with Ret ip => Some ip | _ => None end.
Definition mem_route (e : IP4Net * (IP4 * Z)) : Route :=
  mkRoute (Some (IP4Net_ToIPNet e.1)) (IP4_ToIP e.2.1) e.2.2.

Definition entry_ok (e : IP4Net * (IP4 * Z)) : Prop := IP4Net_ok e.1 ∧ IP4_ok e.2.1.
#[global] Instance entry_ok_dec e : Decision (entry_ok e).
Proof. apply _. Defined.
(** The entries of the table that are routes. *)
Definition mem_routes (w : route_table) : route_table := filter entry_ok w.

#[global] Instance mem_Netlink : Netlink route_table := {
  RouteListFiltered fam d w :=
    (Ret (match n ← mem_dst d; v ← mem_routes w !! n; Some (mem_route (n, v)) with Some r => [r] | None => [] end, None), w);
  RouteList fam w := (Ret (mem_route <$> map_to_list (mem_routes w)), w);
  RouteDel r w :=
    match mem_dst (Route_Dst r), mem_gw r with
    | Some n, Some g => if decide (mem_routes w !! n = Some (g, Route_LinkIndex r)) then (Ret tt, delete n w)
                        else (Err (Errorf "no such process"), w)
    | _, _ => (Err (Errorf "invalid argument"), w)
    end;
  RouteAdd r w :=
    match mem_dst (Route_Dst r), mem_gw r with
    | Some n, Some g => match mem_routes w !! n with
                        | None => (Ret tt, <[n := (g, Route_LinkIndex r)]> w)
                        | Some _ => (Err (Errorf "file exists"), w)
                        end
    | _, _ => (Err (Errorf "invalid argument"), w)
    end
}.

Lemma FromIP_octets ip a : To4 ip = octet_list a → IP4_ok a → FromIP ip = Ret a.
Proof.
  intros E Ha. rewrite FromIP_val; rewrite E.
  - f_equal. by rewrite octet_list_be, be_val_bytes_small.
  - apply length_octet_list.
  - by apply octet_list_bytes.
Qed.

Lemma mem_route_to r n g i : route_to r n g i → mem_dst (Route_Dst r) = Some n ∧ mem_gw r = Some g ∧ Route_LinkIndex r = i.
Proof.
  intros (Hn & Hg & Hi & Egw & d & Hd & Eip & Em). split_and!; [|by unfold mem_gw; erewrite FromIP_octets|done].
  unfold mem_dst. rewrite Hd. cbn. erewrite FromIP_octets by (done || apply Hn). rewrite Em.
  destruct (mask_facts 32 (IP4Net_PrefixLen n) ltac:(by left) ltac:(apply Hn)) as (_ & -> & _). by destruct n.
Qed.

Lemma mem_route_ok n g i : IP4Net_ok n → IP4_ok g → route_to (mem_route (n, (g, i))) n g i.
Proof.
  intros Hn Hg. split_and!; [apply Hn..|apply Hg|done|apply To4_ToIP|].
  eexists. split; [done|]. split; [apply To4_ToIP|done].
Qed.

Lemma mem_routes_ok w n g i : mem_routes w !! n = Some (g, i) → route_to (mem_route (n, (g, i))) n g i.
Proof. intros [_ [? ?]]%map_lookup_filter_Some. by apply mem_route_ok. Qed.

#[global, refine] Instance mem_NetlinkLaws : NetlinkLaws route_table := { kroutes := mem_routes; gw_on_link _ _ := True }.
Proof.
  - intros n w Hn. eexists. split; [done|].
    destruct (mem_route_to (mem_route (n, (0, 0))) n 0 0) as (E0 & _); [by apply mem_route_ok|].
    cbn [Route_Dst mem_route fst] in E0. rewrite E0. cbn.
    destruct (mem_routes w !! n) as [[g i]|] eqn:E; cbn; [|done].
    eexists. split; [done|]. by eapply mem_routes_ok.
  - intros w. eexists. split; [done|]. split.
    + intros r ([n [g i]] & -> & Hin)%list_elem_of_fmap _. apply elem_of_map_to_list in Hin.
      exists n, g, i. split; [by eapply mem_routes_ok|done].
    + intros n g i Hk. exists (mem_route (n, (g, i))). split; [|by eapply mem_routes_ok].
      apply list_elem_of_fmap_2. by apply elem_of_map_to_list.
  - intros r n g i w Hr. destruct (mem_route_to r n g i Hr) as (E1 & E2 & E3). cbn. rewrite E1, E2, E3.
    destruct (decide _); [|by eexists]. eexists. split; [done|]. unfold mem_routes. by rewrite map_filter_delete.
  - intros r n g i w Hr _. destruct (mem_route_to r n g i Hr) as (E1 & E2 & E3). cbn. rewrite E1, E2, E3.
    destruct (mem_routes w !! n); [by eexists|]. eexists. split; [done|]. unfold mem_routes.
    rewrite map_filter_insert_True; [done|]. split; apply Hr.
Defined.

(** A lease source that grants one lease, and the network it gives. *)
#[global] Instance unit_LeaseSource : LeaseSource unit := {
  sm_AcquireLease attrs := mret (mkLease true false (mkIP4Net 168099840 24) (mkIP6Net None 0) attrs 0 0)
}.
Definition sample_iface : ExternalInterface :=
  mkExternalInterface 1500 2 "eth0" (IP4_ToIP 3232235777) [] (IP4_ToIP 3232235777) [].
Definition sample_config : Config := set_EnableIPv4 true zero_config.
Definition sample_subnet : IP4Net := mkIP4Net 168100096 24.
Definition added_event (g : IP4) : Event :=
  mkEvent EventAdded (mkLease true false sample_subnet (mkIP6Net None 0) (mkLeaseAttrs g None "host-gw" None None) 0 0).

Lemma added_event_ok link g : IP4_ok g → event_ok (W := route_table) link "host-gw" (added_event g).
Proof. intros Hg. repeat split; try done; apply Hg. Qed.


Lemma routeCheck_recovers_witness : ∃ w,
  checkSubnetExistInV4Routes (mkRouteNetwork [mem_route (sample_subnet, (3232235778, 2))] [] (∅ : route_table)) =
    (Ret tt, mkRouteNetwork [mem_route (sample_subnet, (3232235778, 2))] [] w) ∧
  mem_routes w !! sample_subnet = Some (3232235778, 2).
Proof.
  destruct (routeCheck_recovers route_table 2 {[ sample_subnet := 3232235778 ]}
    (mkRouteNetwork [mem_route (sample_subnet, (3232235778, 2))] [] (∅ : route_table))) as (w & Hw & Hk).
  - exists [(sample_subnet, 3232235778)]. split.
    + constructor; [|constructor]. apply mem_route_ok; [repeat split; vm_compute; congruence|done].
    + split; [apply NoDup_singleton|]. intros n g. rewrite list_elem_of_singleton, lookup_singleton_Some. naive_solver.
  - done.
  - exists w. split; [exact Hw|]. change (kroutes w !! sample_subnet = Some (3232235778, 2)). rewrite Hk. by vm_compute.
Defined.

Lemma stale_route_recovered_witness : ∃ s',
  handleSubnetEvents (mkRouteConfig "host-gw" (Some (hostgw_route 2)) None 1500 2) [added_event 3232235779]
    (mkRouteNetwork [mem_route (sample_subnet, (3232235778, 2))] [] (∅ : route_table)) = (Ret tt, s') ∧
  ∃ w', checkSubnetExistInV4Routes (rn_with s' (rn_routes s') (∅ : route_table)) = (Ret tt, rn_with s' (rn_routes s') w') ∧
    mem_routes w' !! sample_subnet = Some (3232235778, 2).
Proof.
  destruct (stale_route_recovered route_table 2 (mkRouteConfig "host-gw" (Some (hostgw_route 2)) None 1500 2)
    (added_event 3232235779) sample_subnet 3232235778
    (mkRouteNetwork [mem_route (sample_subnet, (3232235778, 2))] [] (∅ : route_table))) as (s' & Hrun & _ & Hstale).
  - done.
  - done.
  - by apply added_event_ok.
  - done.
  - done.
  - done.
  - done.
  - done.
  - constructor; [|constructor]. apply mem_route_ok; [repeat split; vm_compute; congruence|done].
  - done.
  - exists s'. split; [done|]. apply Hstale. done.
Defined.
