(* ===== verification/Iface.v ===== *)
(** * [pkg/ip/iface.go]: addresses and interfaces of the host

    The netlink and net calls of the file are the class [IfaceHost] over a store [W];
    the order in which [slices.SortFunc] leaves equal addresses is [AddrSort].  The
    theorems say what the two [EnsureV..AddressOnLink] make of a link's addresses,
    against [IfaceLaws]. *)

From Stdlib Require Import ZArith Lia Ascii Sorted.
From stdpp Require Import base strings list gmap numbers sorting.
From S2P Require Import Prelude GoStrings GoNet GoNetFacts Ip4 Ip6 Lease Backend BackendFacts.

Local Open Scope Z_scope.

(** ** [net.IP] predicates *)

Definition IsUnspecified (ip : IP) : bool := Equal ip (IPv4 0 0 0 0) || Equal ip (replicate 16 0).
Definition IsLoopback (ip : IP) : bool :=
  match To4 ip with
  | b :: _ => b =? 127
  | [] => Equal ip (replicate 15 0 ++ [1])
  end.
Definition IsMulticast (ip : IP) : bool :=
  match To4 ip with
  | b :: _ => Z.land b 240 =? 224
  | [] => match ip with b :: _ => bool_decide (length ip = 16%nat) && (b =? 255) | [] => false end
  end.
Definition IsLinkLocalUnicast (ip : IP) : bool :=
  match To4 ip with
  | a :: b :: _ => (a =? 169) && (b =? 254)
  | _ => match ip with
         | a :: b :: _ => bool_decide (length ip = 16%nat) && (a =? 254) && (Z.land b 192 =? 128)
         | _ => false
         end
  end.
Definition IsGlobalUnicast (ip : IP) : bool :=
  bool_decide (length ip = 4%nat ∨ length ip = 16%nat) && negb (Equal ip (IPv4 255 255 255 255)) &&
  negb (IsUnspecified ip) && negb (IsLoopback ip) && negb (IsMulticast ip) && negb (IsLinkLocalUnicast ip).

(** ** The host *)

(** The fields of netlink's addresses and of an interface that the file uses. *)
Record NlAddr := mkNlAddr { na_IPNet : IPNet; na_Flags : Z }.
Record Interface := mkInterface { if_Index : Z; if_Name : string; if_MTU : Z }.
Record FoundRoute := mkFoundRoute { fr_Dst : option IPNet; fr_Gw : option IP; fr_Src : IP; fr_LinkIndex : Z }.
#[global] Instance NlAddr_eq_dec : EqDecision NlAddr.
Proof. solve_decision. Defined.

Definition IFA_F_TEMPORARY : Z := 1.
Definition IFA_F_DEPRECATED : Z := 32.
Definition IFA_F_PERMANENT : Z := 128.
Definition has_flag (a : NlAddr) (f : Z) : bool := negb (Z.land (na_Flags a) f =? 0).
Definition na_IP (a : NlAddr) : IP := IPNet_IP (na_IPNet a).

Class IfaceHost (W : Type) := {
  AddrList : Z → IpFamily → M W (list NlAddr);
  AddrAdd : Z → NlAddr → M W unit;
  AddrDel : Z → NlAddr → M W unit;
  (** netlink's [Addr.Equal] *)
  Addr_Equal : NlAddr → NlAddr → bool;
  RouteGet : IP → M W (list FoundRoute);
  AllRoutes : IpFamily → M W (list FoundRoute);
  InterfaceByIndex : Z → M W Interface;
  InterfaceByName : string → M W Interface;
  Interfaces : M W (list Interface);
  (** the blackhole routes to a destination, and adding one *)
  BlackholeList : IpFamily → IPNet → M W (list FoundRoute);
  BlackholeAdd : IpFamily → IPNet → M W unit
}.

(** ** Which address to prefer *)

Definition compareAddrs (a b : NlAddr) : Z :=
  if IsGlobalUnicast (na_IP a) && IsLinkLocalUnicast (na_IP b) then -1
  else if IsLinkLocalUnicast (na_IP a) && IsGlobalUnicast (na_IP b) then 1
  else if has_flag a IFA_F_PERMANENT && negb (has_flag b IFA_F_PERMANENT) then -1
  else if negb (has_flag a IFA_F_PERMANENT) && has_flag b IFA_F_PERMANENT then 1
  else if negb (has_flag a IFA_F_TEMPORARY) && has_flag b IFA_F_TEMPORARY then -1
  else if has_flag a IFA_F_TEMPORARY && negb (has_flag b IFA_F_TEMPORARY) then 1
  else 0.

(** Not after. *)
Definition addr_le (a b : NlAddr) : Prop := compareAddrs a b <= 0.
#[global] Instance addr_le_dec : RelDecision addr_le.
Proof. intros a b. unfold addr_le. apply _. Defined.

(** [slices.SortFunc(addrs, compareAddrs)]: a permutation, in order when the comparison
    is transitive on the elements. *)
Class AddrSort := {
  SortFunc : list NlAddr → list NlAddr;
  SortFunc_perm l : SortFunc l ≡ₚ l;
  SortFunc_sorted l :
    (∀ a b c, a ∈ l → b ∈ l → c ∈ l → addr_le a b → addr_le b c → addr_le a c) → StronglySorted addr_le (SortFunc l)
}.

Section iface.
Context {W : Type} `{IfaceHost W, AddrSort}.

Definition getIfaceAddrs (iface : Interface) : M W (list NlAddr) := AddrList (if_Index iface) FAMILY_V4.
Definition getIfaceV6Addrs (iface : Interface) : M W (list NlAddr) := AddrList (if_Index iface) FAMILY_V6.

(** Of the right family, global or link-local unicast, not deprecated. *)
Definition usable (to : IP → IP) (a : NlAddr) : Prop :=
  to (na_IP a) ≠ [] ∧ (IsGlobalUnicast (na_IP a) || IsLinkLocalUnicast (na_IP a)) = true ∧ has_flag a IFA_F_DEPRECATED = false.

Definition usable_addrs (to : IP → IP) (addrs : list NlAddr) : list IP := na_IP <$> filter (usable to) (SortFunc addrs).

Definition GetInterfaceIP4Addrs (iface : Interface) : M W (list IP) :=
  addrs ← getIfaceAddrs iface;
  let ipAddrs := usable_addrs To4 addrs in
  if decide (ipAddrs = []) then throw (Errorf "no IPv4 address found for given interface") else mret ipAddrs.
Definition GetInterfaceIP6Addrs (iface : Interface) : M W (list IP) :=
  addrs ← getIfaceV6Addrs iface;
  let ipAddrs := usable_addrs To16 addrs in
  if decide (ipAddrs = []) then throw (Errorf "no IPv6 address found for given interface") else mret ipAddrs.

Definition addr_match (to : IP → IP) (matchAddr : IP) (a : NlAddr) : bool :=
  bool_decide (to (na_IP a) ≠ []) && Equal (to (na_IP a)) matchAddr.

Definition GetInterfaceIP4AddrMatch (iface : Interface) (matchAddr : IP) : M W unit :=
  addrs ← getIfaceAddrs iface;
  check (negb (existsb (addr_match To4 matchAddr) addrs)) (Errorf "no IPv4 address found for given interface").
Definition GetInterfaceIP6AddrMatch (iface : Interface) (matchAddr : IP) : M W unit :=
  addrs ← getIfaceV6Addrs iface;
  check (negb (existsb (addr_match To16 matchAddr) addrs)) (Errorf "no IPv6 address found for given interface").

(** The first route without destination, or to [dst]. *)
Fixpoint default_route (dst : string) (routes : list FoundRoute) : option FoundRoute :=
  match routes with
  | [] => None
  | r :: routes =>
      if match fr_Dst r with None => true | Some d => bool_decide (IPNet_String d = dst) end
      then Some r else default_route dst routes
  end.
Definition gateway_interface (fam : IpFamily) (dst : string) (no_iface no_route : error) : M W Interface :=
  routes ← AllRoutes fam;
  match default_route dst routes with
  | Some r => _ ← check (fr_LinkIndex r <=? 0) no_iface; InterfaceByIndex (fr_LinkIndex r)
  | None => throw no_route
  end.
Definition GetDefaultGatewayInterface : M W Interface :=
  gateway_interface FAMILY_V4 "0.0.0.0/0" (Errorf "found default route but could not determine interface")
    (Errorf "unable to find default route").
Definition GetDefaultV6GatewayInterface : M W Interface :=
  gateway_interface FAMILY_V6 "::/0" (Errorf "found default v6 route but could not determine interface")
    (Errorf "unable to find default v6 route").

(** The first interface on which [match] does not fail. *)
Fixpoint first_interface (test : Interface → M W unit) (fail : error) (ifaces : list Interface) : M W Interface :=
  match ifaces with
  | [] => throw fail
  | iface :: ifaces =>
      r ← try (test iface);
      match r with inl _ => mret iface | inr _ => first_interface test fail ifaces end
  end.
Definition GetInterfaceByIP (ip : IP) : M W Interface :=
  ifaces ← Interfaces;
  first_interface (λ i, GetInterfaceIP4AddrMatch i ip) (Errorf "no interface with given IP found") ifaces.
Definition GetInterfaceByIP6 (ip : IP) : M W Interface :=
  ifaces ← Interfaces;
  first_interface (λ i, GetInterfaceIP6AddrMatch i ip) (Errorf "no interface with given IPv6 found") ifaces.

Definition GetInterfaceBySpecificIPRouting (ip : IP) : M W (Interface * IP) :=
  r ← try (RouteGet ip);
  match r with
  | inr e => throw (Wrapf "couldn't lookup route to %v: %v" e)
  | inl [] => throw (Errorf "no interface with given IP found")
  | inl (route :: _) =>
      i ← try (InterfaceByIndex (fr_LinkIndex route));
      match i with
      | inr e => throw (Wrapf "couldn't lookup interface: %v" e)
      | inl iface => mret (iface, fr_Src route)
      end
  end.

(** One route, without a gateway. *)
Definition DirectRouting (ip : IP) : M W bool :=
  r ← try (RouteGet ip);
  match r with
  | inr e => throw (Wrapf "couldn't lookup route to %v: %v" e)
  | inl [route] => mret (bool_decide (fr_Gw route = None))
  | inl _ => mret false
  end.

(** The walk over the addresses: whether the wanted one was seen. *)
Fixpoint remove_others (link : Z) (addr : NlAddr) (ipn : IP4Net) (hasAddr : bool) (existing : list NlAddr) : M W bool :=
  match existing with
  | [] => mret hasAddr
  | a :: existing =>
      if Addr_Equal a addr then remove_others link addr ipn true existing
      else
        x ← lift (FromIP (na_IP a));
        _ ← (if IP4Net_Contains ipn x then
               d ← try (AddrDel link a);
               match d with inr e => throw (Wrapf "failed to remove IP address %s from %s: %s" e) | inl _ => mret tt end
             else mret tt);
        remove_others link addr ipn hasAddr existing
  end.

Definition EnsureV4AddressOnLink (ipa ipn : IP4Net) (link : Z) : M W unit :=
  let addr := mkNlAddr (IP4Net_ToIPNet ipa) 0 in
  existing ← AddrList link FAMILY_V4;
  hasAddr ← remove_others link addr ipn false existing;
  if (hasAddr : bool) then mret tt
  else
    a ← try (AddrAdd link addr);
    match a with inr e => throw (Wrapf "failed to add IP address %s to %s: %s" e) | inl _ => mret tt end.

(** The walk over the IPv6 addresses: [None] when the wanted one was met, otherwise
    whether only link-local ones were. *)
Fixpoint remove_others6 (link : Z) (addr : NlAddr) (onlyLinkLocal : bool) (existing : list NlAddr) : M W (option bool) :=
  match existing with
  | [] => mret (Some onlyLinkLocal)
  | a :: existing =>
      if IsLinkLocalUnicast (na_IP a) then remove_others6 link addr onlyLinkLocal existing
      else if negb (Addr_Equal a addr) then
        d ← try (AddrDel link a);
        match d with
        | inr e => throw (Wrapf "failed to remove v6 IP address %s from %s: %w" e)
        | inl _ => remove_others6 link addr false existing
        end
      else mret None
  end.

(** The list of existing addresses is emptied both when one was removed and when all
    are link-local. *)
Definition EnsureV6AddressOnLink (ipa ipn : IP6Net) (link : Z) : M W unit :=
  dst ← lift (IP6Net_ToIPNet ipa);
  let addr := mkNlAddr dst 0 in
  existing ← AddrList link FAMILY_V6;
  r ← remove_others6 link addr true existing;
  match r with
  | None => mret tt
  | Some _ =>
      a ← try (AddrAdd link addr);
      match a with inr e => throw (Wrapf "failed to add v6 IP address %s to %s: %w" e) | inl _ => mret tt end
  end.

Definition blackhole (fam : IpFamily) (dst : IPNet) : M W unit :=
  routes ← BlackholeList fam dst;
  if decide (length routes = 0%nat) then BlackholeAdd fam dst else mret tt.
Definition AddBlackholeV4Route (dst : IPNet) : M W unit := blackhole FAMILY_V4 dst.
Definition AddBlackholeV6Route (dst : IPNet) : M W unit := blackhole FAMILY_V6 dst.
End iface.

(** ** Preference *)

(** Global before link-local, then permanent, then not temporary. *)
Definition preference (a : NlAddr) : Z :=
  4 * Z.b2z (IsLinkLocalUnicast (na_IP a)) + 2 * Z.b2z (negb (has_flag a IFA_F_PERMANENT)) + Z.b2z (has_flag a IFA_F_TEMPORARY).

Definition unicast (a : NlAddr) : Prop := (IsGlobalUnicast (na_IP a) || IsLinkLocalUnicast (na_IP a)) = true.

Lemma global_not_link_local ip : IsGlobalUnicast ip = true → IsLinkLocalUnicast ip = false.
Proof. unfold IsGlobalUnicast. rewrite !andb_true_iff, !negb_true_iff. tauto. Qed.

(** On the addresses that can be used the comparison is that of one number. *)
Lemma addr_le_preference a b : unicast a → unicast b → addr_le a b ↔ preference a <= preference b.
Proof.
  unfold unicast, addr_le, compareAddrs, preference. intros Ha Hb.
  pose proof (global_not_link_local (na_IP a)). pose proof (global_not_link_local (na_IP b)).
  destruct (IsGlobalUnicast (na_IP a)), (IsLinkLocalUnicast (na_IP a)), (IsGlobalUnicast (na_IP b)), (IsLinkLocalUnicast (na_IP b)),
    (has_flag a IFA_F_PERMANENT), (has_flag b IFA_F_PERMANENT), (has_flag a IFA_F_TEMPORARY), (has_flag b IFA_F_TEMPORARY);
    cbn in *; try (by naive_solver); lia.
Qed.

Lemma compareAddrs_antisym a b : compareAddrs b a = - compareAddrs a b.
Proof.
  unfold compareAddrs. pose proof (global_not_link_local (na_IP a)). pose proof (global_not_link_local (na_IP b)).
  destruct (IsGlobalUnicast (na_IP a)), (IsLinkLocalUnicast (na_IP a)), (IsGlobalUnicast (na_IP b)), (IsLinkLocalUnicast (na_IP b)),
    (has_flag a IFA_F_PERMANENT), (has_flag b IFA_F_PERMANENT), (has_flag a IFA_F_TEMPORARY), (has_flag b IFA_F_TEMPORARY);
    cbn in *; try done; naive_solver.
Qed.

#[global] Instance addr_le_total : Total addr_le.
Proof. intros a b. unfold addr_le. rewrite (compareAddrs_antisym a b). lia. Qed.

(** Sorted neighbours are sorted throughout when the order is transitive on the list. *)
Lemma Sorted_strongly {A} (R : A → A → Prop) l : (∀ a b c, a ∈ l → b ∈ l → c ∈ l → R a b → R b c → R a c) →
  Sorted R l → StronglySorted R l.
Proof.
  intros Ht Hs. induction Hs as [|a l Hs IH Hh]; [constructor|].
  assert (StronglySorted R l) as Hss by (apply IH; intros; eapply Ht; [..|done|done]; by right). constructor; [done|].
  destruct Hh as [|b l Hab]; constructor; [done|]. inversion_clear Hss as [|? ? _ Hall]. rewrite list.Forall_forall in *.
  intros c Hc. eapply (Ht a b c); [by left|by right; left|by right; right|done|by apply Hall].
Qed.

#[global, refine] Instance merge_AddrSort : AddrSort := { SortFunc := merge_sort addr_le }.
Proof.
  - intros l. apply merge_sort_Permutation.
  - intros l Ht. apply Sorted_strongly; [|apply Sorted_merge_sort, _].
    intros a b c. rewrite !merge_sort_Permutation. apply Ht.
Defined.

(** ** What the host does *)

(** An address of a link. *)
Definition addr_is (a : NlAddr) (n : IP4Net) : Prop :=
  IP4Net_ok n ∧ To4 (na_IP a) = octet_list (IP4Net_IP n) ∧ IPNet_Mask (na_IPNet a) = CIDRMask (IP4Net_PrefixLen n) 32.

Class IfaceLaws (W : Type) `{IfaceHost W} := {
  v4addrs : W → Z → list IP4Net;
  v6addrs : W → Z → list NlAddr;
  law_Addr_Equal a b n n' : addr_is a n → addr_is b n' → Addr_Equal a b = bool_decide (n = n');
  law_Addr_Equal_refl a : Addr_Equal a a = true;
  law_AddrList link w : ∃ l, AddrList link FAMILY_V4 w = (Ret l, w) ∧ Forall2 addr_is l (v4addrs w link) ∧ NoDup (v4addrs w link);
  law_AddrList6 link w : AddrList link FAMILY_V6 w = (Ret (v6addrs w link), w);
  law_AddrDel link a n w : addr_is a n → n ∈ v4addrs w link →
    ∃ w', AddrDel link a w = (Ret tt, w') ∧ (∀ x, x ∈ v4addrs w' link ↔ x ∈ v4addrs w link ∧ x ≠ n) ∧
      (∀ i, i ≠ link → v4addrs w' i = v4addrs w i) ∧ (∀ i, v6addrs w' i = v6addrs w i);
  law_AddrAdd link a n w : addr_is a n → n ∉ v4addrs w link →
    ∃ w', AddrAdd link a w = (Ret tt, w') ∧ (∀ x, x ∈ v4addrs w' link ↔ x = n ∨ x ∈ v4addrs w link) ∧
      (∀ i, i ≠ link → v4addrs w' i = v4addrs w i) ∧ (∀ i, v6addrs w' i = v6addrs w i)
}.

Section laws.
Context {W : Type} `{IfaceLaws W} (ipa ipn : IP4Net) (link : Z) (Hipa : IP4Net_ok ipa) (Hipn : IP4Net_ok ipn).
Implicit Types (w : W).
Abbreviation addr := (mkNlAddr (IP4Net_ToIPNet ipa) 0).

Lemma addr_is_wanted : addr_is addr ipa.
Proof. split; [done|]. split; [apply To4_ToIP|done]. Qed.

(** Only the addresses of this link that are in [ipn] and not the wanted one go. *)
Lemma remove_others_run l ns has w : Forall2 addr_is l ns → NoDup ns → (∀ n, n ∈ ns → n ∈ v4addrs w link) →
  ∃ w', remove_others link addr ipn has l w = (Ret (has || bool_decide (ipa ∈ ns)), w') ∧
    (∀ x, x ∈ v4addrs w' link ↔ x ∈ v4addrs w link ∧ ¬ (x ∈ ns ∧ x ≠ ipa ∧ IP4Net_addr ipn (IP4Net_IP x))) ∧
    (∀ i, i ≠ link → v4addrs w' i = v4addrs w i) ∧ (∀ i, v6addrs w' i = v6addrs w i).
Proof.
  intros Hl. revert has w. induction Hl as [|a n l ns Ha Hl IH]; intros has w Hnd Hin.
  { exists w. rewrite bool_decide_eq_false_2, orb_false_r by apply not_elem_of_nil. split; [done|].
    split; [|done]. intros x. split; [|tauto]. intros Hx. split; [done|]. by intros [?%not_elem_of_nil _]. }
  apply list.NoDup_cons in Hnd as [Hn Hnd]. cbn [remove_others].
  rewrite (law_Addr_Equal a addr n ipa Ha addr_is_wanted). destruct (bool_decide_reflect (n = ipa)) as [En|En].
  - subst n. destruct (IH true w) as (w' & E & H4 & Ho & H6); [done|intros; apply Hin; by right|]. exists w'. split_and!; [|..|done|done].
    + rewrite E. rewrite (bool_decide_eq_true_2 (ipa ∈ ipa :: ns)) by (by left). by rewrite orb_true_r.
    + intros x. rewrite H4, elem_of_cons. split; intros [Hx Hno]; (split; [done|]); intros (Hns & Hne & Ha'); apply Hno; naive_solver.
  - pose proof Ha as (Hok & Eip & _). assert (FromIP (na_IP a) = Ret (IP4Net_IP n)) as Ef by (apply FromIP_octets; [done|apply Hok]).
    rewrite Ef. run. pose proof (IP4Net_Contains_addr ipn (IP4Net_IP n) Hipn (proj1 Hok)) as Hc.
    assert (bool_decide (ipa ∈ n :: ns) = bool_decide (ipa ∈ ns)) as Eb by (apply bool_decide_ext; rewrite elem_of_cons; naive_solver).
    rewrite Eb. destruct (IP4Net_Contains ipn (IP4Net_IP n)).
    + destruct (law_AddrDel link a n w Ha) as (w1 & E1 & H41 & Ho1 & H61); [apply Hin; by left|].
      run. rewrite (run_try_Ret _ _ _ _ _ E1). run.
      destruct (IH has w1 Hnd) as (w' & E & H4 & Ho & H6).
      { intros x Hx. apply H41. split; [apply Hin; by right|]. by intros ->. }
      exists w'. split_and!; [done| |intros; by rewrite Ho, Ho1|intros; by rewrite H6, H61].
      intros x. rewrite H4, H41, elem_of_cons. split.
      * intros [[Hx Hne] Hno]. split; [done|]. naive_solver.
      * intros [Hx Hno]. split; [split; [done|]|]; [|naive_solver]. intros ->. apply Hno. split; [by left|]. split; [done|]. by apply Hc.
    + run. destruct (IH has w Hnd) as (w' & E & H4 & Ho & H6); [intros; apply Hin; by right|].
      exists w'. split_and!; [done| |done|done]. intros x. rewrite H4, elem_of_cons. split; intros [Hx Hno]; (split; [done|]).
      * intros ([->|Hns] & Hne & Ha'); [by apply Hc in Ha'|]. by apply Hno.
      * intros (Hns & Hne & Ha'). apply Hno. split; [by right|done].
Qed.

Lemma EnsureV4_run w :
  ∃ w', EnsureV4AddressOnLink ipa ipn link w = (Ret tt, w') ∧
    (∀ x, x ∈ v4addrs w' link ↔ x = ipa ∨ x ∈ v4addrs w link ∧ ¬ IP4Net_addr ipn (IP4Net_IP x)) ∧
    (∀ i, i ≠ link → v4addrs w' i = v4addrs w i) ∧ (∀ i, v6addrs w' i = v6addrs w i).
Proof.
  destruct (law_AddrList link w) as (l & E & Hl & Hnd). unfold EnsureV4AddressOnLink. rewrite (M_bind_Ret _ _ _ _ _ E).
  destruct (remove_others_run l (v4addrs w link) false w Hl Hnd) as (w1 & E1 & H41 & Ho1 & H61); [done|].
  rewrite (M_bind_Ret _ _ _ _ _ E1). cbn [orb]. case_bool_decide as Hin.
  - exists w1. split_and!; [done| |done|done]. intros x. rewrite H41. destruct (decide (x = ipa)) as [->|]; naive_solver.
  - destruct (law_AddrAdd link addr ipa w1 addr_is_wanted) as (w' & E2 & H42 & Ho2 & H62); [by rewrite H41; intros [? _]|].
    rewrite (run_try_Ret _ _ _ _ _ E2). exists w'. split_and!; [done| |intros; by rewrite Ho2, Ho1|intros; by rewrite H62, H61].
    intros x. rewrite H42, H41. destruct (decide (x = ipa)) as [->|]; naive_solver.
Qed.
End laws.

(** After [EnsureV4AddressOnLink] the link has the wanted address and no other of the
    network's address space; its addresses outside that space, the addresses of other
    links and the IPv6 ones are as before. *)
Theorem EnsureV4AddressOnLink_sole W `{IfaceLaws W} ipa ipn link (w : W) : IP4Net_ok ipa → IP4Net_ok ipn →
  ∃ w', EnsureV4AddressOnLink ipa ipn link w = (Ret tt, w') ∧
    (∀ x, x ∈ v4addrs w' link ↔ x = ipa ∨ x ∈ v4addrs w link ∧ ¬ IP4Net_addr ipn (IP4Net_IP x)) ∧
    (∀ i, i ≠ link → v4addrs w' i = v4addrs w i) ∧ (∀ i, v6addrs w' i = v6addrs w i).
Proof. intros Ha Hn. by apply EnsureV4_run. Qed.

(** [EnsureV6AddressOnLink] does not ensure that the address is the only one: when the
    wanted address comes before all others that are not link-local, it returns at once
    without an error and leaves every one of them on the link. *)
Theorem EnsureV6AddressOnLink_keeps_others W `{IfaceLaws W} ipa ipn link dst pre rest (w : W) :
  IP6Net_ToIPNet ipa = Ret dst → Forall (λ a, IsLinkLocalUnicast (na_IP a) = true) pre →
  IsLinkLocalUnicast (IPNet_IP dst) = false → v6addrs w link = pre ++ mkNlAddr dst 0 :: rest →
  EnsureV6AddressOnLink ipa ipn link w = (Ret tt, w).
Proof.
  intros Hdst Hpre Hl Hv. unfold EnsureV6AddressOnLink. rewrite Hdst. run.
  rewrite (M_bind_Ret _ _ _ _ _ (law_AddrList6 link w)), Hv.
  assert (∀ b, remove_others6 link (mkNlAddr dst 0) b (pre ++ mkNlAddr dst 0 :: rest) w = (Ret None, w)) as Hr.
  { clear Hv. intros b. induction Hpre as [|a pre Ha _ IH]; cbn [remove_others6 app]; [|by rewrite Ha].
    change (na_IP (mkNlAddr dst 0)) with (IPNet_IP dst). by rewrite Hl, law_Addr_Equal_refl. }
  by rewrite (M_bind_Ret _ _ _ _ _ (Hr true)).
Qed.

(** Of the addresses of an interface, the first one offered is one that is preferred
    to no other usable one: global before link-local, permanent before assigned, stable
    before temporary. *)
Theorem GetInterfaceIP4Addrs_first W `{IfaceHost W, AddrSort} iface (w w1 w' : W) addrs ip ips :
  AddrList (if_Index iface) FAMILY_V4 w = (Ret addrs, w1) → Forall unicast addrs →
  GetInterfaceIP4Addrs iface w = (Ret (ip :: ips), w') →
  ∃ a, a ∈ addrs ∧ usable To4 a ∧ na_IP a = ip ∧ ∀ b, b ∈ addrs → usable To4 b → preference a <= preference b.
Proof.
  intros Hl Hu Hrun. unfold GetInterfaceIP4Addrs, getIfaceAddrs in Hrun. rewrite (M_bind_Ret _ _ _ _ _ Hl) in Hrun.
  unfold usable_addrs in Hrun. case_decide as Hne; [done|]. unfold mret, M_ret in Hrun.
  rewrite list.Forall_forall in Hu.
  assert (StronglySorted addr_le (SortFunc addrs)) as Hs.
  { apply SortFunc_sorted. intros a b c Ha Hb Hc. rewrite !addr_le_preference by auto. lia. }
  assert (∀ b, b ∈ addrs ↔ b ∈ SortFunc addrs) as Hp by (intros b; by rewrite SortFunc_perm).
  assert (StronglySorted addr_le (filter (usable To4) (SortFunc addrs))) as Hsf.
  { clear -Hs. induction Hs as [|a l Hs IH Hall]; [constructor|]. rewrite filter_cons. destruct (decide _); [|done].
    constructor; [done|]. by apply filter_Forall. }
  destruct (filter (usable To4) (SortFunc addrs)) as [|a l] eqn:Ef; [done|]. cbn in Hrun. simplify_eq.
  assert (∀ b, b ∈ filter (usable To4) (SortFunc addrs) ↔ usable To4 b ∧ b ∈ addrs) as Hf
    by (intros b; by rewrite list_elem_of_filter, Hp).
  rewrite Ef in Hf. destruct (proj1 (Hf a)) as [Hua Ha]; [by left|]. exists a. split_and!; [done|apply Hua..|done|].
  intros b Hb Hub. rewrite <- addr_le_preference by auto. inversion_clear Hsf as [|? ? _ Hall]. rewrite list.Forall_forall in Hall.
  assert (b ∈ a :: l) as [->|Hbl]%elem_of_cons by (by apply Hf); [|by apply Hall]. unfold addr_le.
  pose proof (compareAddrs_antisym a a). lia.
Qed.

(** ** A host in memory *)

Record ifview := mkIfview { iv_v4 : Z → gset IP4Net; iv_v6 : Z → list NlAddr; iv_routes : list FoundRoute; iv_ifaces : list Interface }.

#[global] Instance IP4Net_ok_dec n : Decision (IP4Net_ok n).
Proof. unfold IP4Net_ok, IP4_ok. apply _. Defined.

Definition addr_net (a : NlAddr) : option IP4Net :=
  match FromIPNet (na_IPNet a) with Ret n => Some n | _ => None end.
Definition mem_addrs (w : ifview) (link : Z) : gset IP4Net := filter IP4Net_ok (iv_v4 w link).
Definition with_addrs (link : Z) (f : gset IP4Net → gset IP4Net) (w : ifview) : ifview :=
  mkIfview (λ i, if decide (i = link) then f (mem_addrs w i) else iv_v4 w i) (iv_v6 w) (iv_routes w) (iv_ifaces w).

#[global] Instance mem_IfaceHost : IfaceHost ifview := {
  AddrList link fam := λ w,
    (Ret (match fam with
          | FAMILY_V4 => (λ n, mkNlAddr (IP4Net_ToIPNet n) IFA_F_PERMANENT) <$> elements (mem_addrs w link)
          | FAMILY_V6 => iv_v6 w link
          end), w);
  AddrAdd link a := λ w, (Ret tt, with_addrs link (λ D, match addr_net a with Some n => {[n]} ∪ D | None => D end) w);
  AddrDel link a := λ w, (Ret tt, with_addrs link (λ D, match addr_net a with Some n => D ∖ {[n]} | None => D end) w);
  Addr_Equal a b :=
    bool_decide (na_IPNet a = na_IPNet b) ||
    match addr_net a, addr_net b with Some x, Some y => bool_decide (x = y) | _, _ => false end;
  RouteGet ip := λ w, (Ret (filter (λ r, fr_Src r = ip) (iv_routes w)), w);
  AllRoutes _ := λ w, (Ret (iv_routes w), w);
  InterfaceByIndex i := λ w,
    (match filter (λ f, if_Index f = i) (iv_ifaces w) with f :: _ => Ret f | [] => Err (Errorf "no such interface") end, w);
  InterfaceByName n := λ w,
    (match filter (λ f, if_Name f = n) (iv_ifaces w) with f :: _ => Ret f | [] => Err (Errorf "no such interface") end, w);
  Interfaces := λ w, (Ret (iv_ifaces w), w);
  BlackholeList _ dst := λ w, (Ret (filter (λ r, fr_Dst r = Some dst) (iv_routes w)), w);
  BlackholeAdd _ dst := λ w,
    (Ret tt, mkIfview (iv_v4 w) (iv_v6 w) (mkFoundRoute (Some dst) None [] 0 :: iv_routes w) (iv_ifaces w))
}.

Lemma addr_net_is a n : addr_is a n → addr_net a = Some n.
Proof.
  intros (Hok & Eip & Em). destruct Hok as [Hip Hp]. unfold addr_net, FromIPNet. fold (na_IP a).
  rewrite Em, CIDRMask_Size by (auto || lia). rewrite (FromIP_octets _ _ Eip Hip). by destruct n.
Qed.

Lemma elem_of_with_addrs link f w x : (∀ D, (∀ y, y ∈ D → IP4Net_ok y) → ∀ y, y ∈ f D → IP4Net_ok y) →
  x ∈ elements (mem_addrs (with_addrs link f w) link) ↔ x ∈ f (mem_addrs w link).
Proof.
  intros Hf. unfold mem_addrs at 1. cbn [iv_v4 with_addrs]. rewrite decide_True by done.
  rewrite elem_of_elements, elem_of_filter. split; [tauto|]. intros Hx. split; [|done]. apply (Hf (mem_addrs w link)); [|done].
  intros y. unfold mem_addrs. rewrite elem_of_filter. tauto.
Qed.

Lemma with_addrs_other link f w i : i ≠ link → mem_addrs (with_addrs link f w) i = mem_addrs w i.
Proof. intros Hi. unfold mem_addrs. cbn [iv_v4 with_addrs]. by rewrite decide_False. Qed.

#[global, refine] Instance mem_IfaceLaws : IfaceLaws ifview := {
  v4addrs w link := elements (mem_addrs w link);
  v6addrs w link := iv_v6 w link
}.
Proof.
  - intros a b n n' Ha Hb. cbn [Addr_Equal mem_IfaceHost]. pose proof (addr_net_is _ _ Ha) as Ea. pose proof (addr_net_is _ _ Hb) as Eb.
    rewrite Ea, Eb. case_bool_decide as E; [|done]. symmetry. apply bool_decide_eq_true. unfold addr_net in Ea, Eb. rewrite E in Ea. by simplify_eq.
  - intros a. cbn [Addr_Equal mem_IfaceHost]. by rewrite bool_decide_eq_true_2.
  - intros link w. eexists. split; [done|]. split; [|apply NoDup_elements]. apply Forall2_fmap_l, Forall2_same_length_lookup.
    split; [done|]. intros i x y Hx Hy. simplify_eq. apply list_elem_of_lookup_2, elem_of_elements in Hx. unfold mem_addrs in Hx.
    apply elem_of_filter in Hx as [Hok _]. split; [done|]. split; [apply To4_ToIP|done].
  - done.
  - intros link a n w Ha Hin. eexists. split; [done|]. rewrite (addr_net_is _ _ Ha). split_and!; [|intros i Hi; by rewrite with_addrs_other|done].
    intros x. rewrite elem_of_with_addrs; [set_solver|]. intros D HD y Hy. apply HD. set_solver.
  - intros link a n w Ha Hin. eexists. split; [done|]. rewrite (addr_net_is _ _ Ha). split_and!; [|intros i Hi; by rewrite with_addrs_other|done].
    intros x. rewrite elem_of_with_addrs; [set_solver|]. intros D HD y [->%elem_of_singleton|Hy]%elem_of_union; [apply Ha|by apply HD].
Defined.

(** A link with an old address of the network and one of another, and with two global
    IPv6 addresses. *)
Definition old_addr : IP4Net := mkIP4Net 183763200 32.
Definition new_addr : IP4Net := mkIP4Net 183763456 32.
Definition lan_addr : IP4Net := mkIP4Net 3232235786 24.
Definition flannel_net : IP4Net := mkIP4Net 183762944 16.
Definition addr6 (last : Z) : IP6Net := mkIP6Net (Some (0x20010db8000000000000000000000000 + last)) 128.
Definition nl_addr6 (last : Z) : NlAddr :=
  mkNlAddr (mkIPNet [32; 1; 13; 184; 0; 0; 0; 0; 0; 0; 0; 0; 0; 0; 0; last] (replicate 16 255)) 0.
Definition sample_ifaces : ifview :=
  mkIfview (λ i, if decide (i = 7) then {[old_addr; lan_addr]} else ∅) (λ _, [nl_addr6 1; nl_addr6 2]) [] [mkInterface 7 "flannel.1" 1450].

Lemma EnsureV4AddressOnLink_sole_witness : ∃ w',
  EnsureV4AddressOnLink new_addr flannel_net 7 sample_ifaces = (Ret tt, w') ∧
  new_addr ∈ v4addrs w' 7 ∧ lan_addr ∈ v4addrs w' 7 ∧ old_addr ∉ v4addrs w' 7.
Proof.
  destruct (EnsureV4AddressOnLink_sole ifview new_addr flannel_net 7 sample_ifaces) as (w' & E & H & _);
    [by vm_compute|by vm_compute|]. exists w'. split; [done|]. rewrite !H.
  split; [by left|]. split; [right; split|].
  - apply elem_of_elements. vm_compute. done.
  - clear. rewrite <- IP4Net_Contains_addr by (by vm_compute). by vm_compute.
  - clear. intros [?|[_ Hn]]; [done|]. apply Hn. apply IP4Net_Contains_addr; by vm_compute.
Defined.

Lemma EnsureV6AddressOnLink_keeps_others_witness :
  EnsureV6AddressOnLink (addr6 1) (addr6 0) 7 sample_ifaces = (Ret tt, sample_ifaces) ∧ nl_addr6 2 ∈ v6addrs sample_ifaces 7.
Proof.
  split; [|by right; left].
  apply (EnsureV6AddressOnLink_keeps_others ifview (addr6 1) (addr6 0) 7 (na_IPNet (nl_addr6 1)) [] [nl_addr6 2]);
    [by vm_compute|constructor|by vm_compute|done].
Defined.

Lemma GetInterfaceIP4Addrs_first_witness : ∃ ip ips, 
  GetInterfaceIP4Addrs (mkInterface 7 "eth0" 1500) sample_ifaces = (Ret (ip :: ips), sample_ifaces) ∧
  ∃ a, a ∈ (λ n, mkNlAddr (IP4Net_ToIPNet n) IFA_F_PERMANENT) <$> elements (mem_addrs sample_ifaces 7) ∧ na_IP a = ip.
Proof.
  eexists _, _. split; [vm_compute; reflexivity|].
  edestruct (GetInterfaceIP4Addrs_first ifview (mkInterface 7 "eth0" 1500) sample_ifaces) as (a & Ha & _ & E & _);
    [reflexivity| |vm_compute; reflexivity|by exists a].
  unfold unicast. apply (bool_decide_unpack _). by vm_compute.
Defined.
