(* ===== verification/IpMatch.v ===== *)
(** * [pkg/ipmatch]: the external interface of the node

    [LookupExtIface] on Linux, over the calls of [IfaceHost].  A compiled pattern is
    what it matches; [Compile] is [regexp.Compile].  The theorems say that the addresses
    it returns are addresses of the interface it returns, where that is so, against
    [IfaceReads]: the calls it makes only look at the host. *)

From Stdlib Require Import ZArith Lia Ascii.
From stdpp Require Import base strings list gmap numbers.
From S2P Require Import Prelude GoStrings GoRegexp GoNet GoNetFacts Ip4 Ip6 Backend BackendFacts Iface.

Local Open Scope Z_scope.

(** ** The lookup *)

Inductive IpStack := ipv4Stack | ipv6Stack | dualStack | noneStack.
#[global] Instance IpStack_eq_dec : EqDecision IpStack.
Proof. solve_decision. Defined.

Record PublicIPOpts := mkPublicIPOpts { opt_PublicIP : string; opt_PublicIPv6 : string }.

Definition GetIPFamily (autoDetectIPv4 autoDetectIPv6 : bool) : outcome IpStack :=
  if autoDetectIPv4 && negb autoDetectIPv6 then Ret ipv4Stack
  else if negb autoDetectIPv4 && autoDetectIPv6 then Ret ipv6Stack
  else if autoDetectIPv4 && autoDetectIPv6 then Ret dualStack
  else Err (Errorf "none defined stack").

(** The first address whose text matches, nil when none does. *)
Fixpoint matchIP (ifregex : string → bool) (ifaceIPs : list IP) : IP :=
  match ifaceIPs with
  | [] => []
  | ifaceIP :: ifaceIPs => if ifregex (IP_String ifaceIP) then ifaceIP else matchIP ifregex ifaceIPs
  end.

(** The variables [iface], [ifaceAddr] and [ifaceV6Addr]; a nil address is empty. *)
Record selection := mkSelection { s_iface : option Interface; s_addr : IP; s_v6addr : IP }.

Section lookup.
Context {W : Type} `{IfaceHost W, AddrSort} (Compile : string → outcome (string → bool)).

(** A field of the interface is read: a panic when there is none. *)
Definition deref_iface (iface : option Interface) : M W Interface :=
  match iface with Some i => mret i | None => panic end.

(** [--iface] with an address. *)
Definition select_by_ip (stack : IpStack) (opts : PublicIPOpts) (ifaceAddr : IP) : M W selection :=
  match stack with
  | ipv4Stack =>
      iface ← wrapping "error looking up interface %s: %s" (GetInterfaceByIP ifaceAddr);
      mret (mkSelection (Some iface) ifaceAddr [])
  | ipv6Stack =>
      iface ← wrapping "error looking up v6 interface %s: %s" (GetInterfaceByIP6 ifaceAddr);
      mret (mkSelection (Some iface) ifaceAddr ifaceAddr)
  | dualStack =>
      iface ← (if decide (To4 ifaceAddr = []) then mret None
               else i ← wrapping "error looking up interface %s: %s" (GetInterfaceByIP ifaceAddr); mret (Some i));
      if decide (opt_PublicIPv6 opts = "") then mret (mkSelection iface ifaceAddr [])
      else
        let ifaceV6Addr := ParseIP (opt_PublicIPv6 opts) in
        if decide (ifaceV6Addr = []) then mret (mkSelection iface ifaceAddr [])
        else
          v6Iface ← wrapping "error looking up v6 interface %s: %s" (GetInterfaceByIP6 ifaceV6Addr);
          if decide (To4 ifaceAddr = []) then mret (mkSelection (Some v6Iface) [] ifaceV6Addr)
          else
            i ← deref_iface iface;
            _ ← check (bool_decide (if_Name i ≠ if_Name v6Iface)) (Errorf "v6 interface %s must be the same with v4 interface %s");
            mret (mkSelection iface ifaceAddr ifaceV6Addr)
  | noneStack => mret (mkSelection None ifaceAddr [])
  end.

Definition select_by_name (stack : IpStack) (opts : PublicIPOpts) (ifname : string) : M W selection :=
  let ifaceAddr := ParseIP ifname in
  if decide (ifaceAddr = []) then
    iface ← wrapping "error looking up interface %s: %s" (InterfaceByName ifname);
    mret (mkSelection (Some iface) [] [])
  else select_by_ip stack opts ifaceAddr.

(** The loop [ifaceLoop] over the addresses of the interfaces; [ifaceAddr] is carried
    along. *)
Fixpoint match_addresses (stack : IpStack) (ifregex : string → bool) (ifaceAddr : IP) (ifaces : list Interface) : M W selection :=
  match ifaces with
  | [] => mret (mkSelection None ifaceAddr [])
  | iface :: ifaces =>
      match stack with
      | ipv4Stack =>
          r ← try (GetInterfaceIP4Addrs iface);
          match r with
          | inr _ => match_addresses stack ifregex ifaceAddr ifaces
          | inl ifaceIPs =>
              let matched := matchIP ifregex ifaceIPs in
              if decide (matched = []) then match_addresses stack ifregex ifaceAddr ifaces
              else mret (mkSelection (Some iface) matched [])
          end
      | ipv6Stack =>
          r ← try (GetInterfaceIP6Addrs iface);
          match r with
          | inr _ => match_addresses stack ifregex ifaceAddr ifaces
          | inl ifaceIPs =>
              let matched := matchIP ifregex ifaceIPs in
              if decide (matched = []) then match_addresses stack ifregex ifaceAddr ifaces
              else mret (mkSelection (Some iface) ifaceAddr matched)
          end
      | dualStack =>
          r ← try (GetInterfaceIP4Addrs iface);
          match r with
          | inr _ => match_addresses stack ifregex ifaceAddr ifaces
          | inl ifaceIPs =>
              r6 ← try (GetInterfaceIP6Addrs iface);
              match r6 with
              | inr _ => match_addresses stack ifregex ifaceAddr ifaces
              | inl ifaceV6IPs =>
                  let matched := matchIP ifregex ifaceIPs in
                  if decide (matched = []) then match_addresses stack ifregex ifaceAddr ifaces
                  else
                    let matched6 := matchIP ifregex ifaceV6IPs in
                    if decide (matched6 = []) then match_addresses stack ifregex matched ifaces
                    else mret (mkSelection (Some iface) matched matched6)
              end
          end
      | noneStack => match_addresses stack ifregex ifaceAddr ifaces
      end
  end.

Fixpoint match_name (ifregex : string → bool) (ifaces : list Interface) : option Interface :=
  match ifaces with
  | [] => None
  | iface :: ifaces => if ifregex (if_Name iface) then Some iface else match_name ifregex ifaces
  end.

(** The addresses of every interface, for the message of the error. *)
Fixpoint available (stack : IpStack) (ifaces : list Interface) : M W unit :=
  match ifaces with
  | [] => mret tt
  | f :: ifaces =>
      _ ← match stack with
          | ipv4Stack | dualStack => _ ← try (GetInterfaceIP4Addrs f); mret tt
          | ipv6Stack => _ ← try (GetInterfaceIP6Addrs f); mret tt
          | noneStack => mret tt
          end;
      available stack ifaces
  end.

(** [--iface-regex] *)
Definition select_by_regex (stack : IpStack) (ifregex : string → bool) : M W selection :=
  ifaces ← wrapping "error listing all interfaces: %s" Interfaces;
  s ← match_addresses stack ifregex [] ifaces;
  let iface :=
    match s_iface s with
    | Some i => Some i
    | None => if decide (s_addr s = [] ∨ s_v6addr s = []) then match_name ifregex ifaces else None
    end in
  match iface with
  | Some _ => mret (mkSelection iface (s_addr s) (s_v6addr s))
  | None =>
      _ ← available stack ifaces;
      throw (Errorf "could not match pattern %s to any of the available network interfaces (%s)")
  end.

(** [--iface-can-reach] *)
Definition select_by_reach (ifcanreach : string) : M W selection :=
  r ← wrapping "failed to get ifcanreach based interface: %s" (GetInterfaceBySpecificIPRouting (ParseIP ifcanreach));
  mret (mkSelection (Some r.1) r.2 []).

(** The interface of the default route. *)
Definition select_default (stack : IpStack) : M W selection :=
  match stack with
  | ipv4Stack =>
      iface ← wrapping "failed to get default interface: %w" GetDefaultGatewayInterface;
      mret (mkSelection (Some iface) [] [])
  | ipv6Stack =>
      iface ← wrapping "failed to get default v6 interface: %w" GetDefaultV6GatewayInterface;
      mret (mkSelection (Some iface) [] [])
  | dualStack =>
      iface ← wrapping "failed to get default interface: %w" GetDefaultGatewayInterface;
      v6Iface ← wrapping "failed to get default v6 interface: %w" GetDefaultV6GatewayInterface;
      _ ← check (bool_decide (if_Name iface ≠ if_Name v6Iface))
            (Errorf "v6 default route interface %s must be the same with v4 default route interface %s");
      mret (mkSelection (Some iface) [] [])
  | noneStack => mret (mkSelection None [] [])
  end.

(** An address that is still nil becomes the first one of the interface. *)
Definition or_first (addrs : Interface → M W (list IP)) (fail : string) (iface : option Interface) (addr : IP) : M W IP :=
  if decide (addr = []) then
    i ← deref_iface iface;
    r ← try (addrs i);
    match r with
    | inl (a :: _) => mret a
    | _ => throw (Errorf fail)
    end
  else mret addr.
Definition or_first4 := or_first GetInterfaceIP4Addrs "failed to find IPv4 address for interface %s".
Definition or_first6 := or_first GetInterfaceIP6Addrs "failed to find IPv6 address for interface %s".

Definition complete (stack : IpStack) (s : selection) : M W selection :=
  ifaceAddr ← match stack with
              | ipv4Stack | dualStack => or_first4 (s_iface s) (s_addr s)
              | _ => mret (s_addr s)
              end;
  ifaceV6Addr ← match stack with
                | ipv6Stack | dualStack => or_first6 (s_iface s) (s_v6addr s)
                | _ => mret (s_v6addr s)
                end;
  mret (mkSelection (s_iface s) ifaceAddr ifaceV6Addr).

(** The public address of the options, or [default]. *)
Definition public_addr (opt : string) (invalid : string) (default : IP) : M W IP :=
  if decide (opt = "") then mret default
  else let ext := ParseIP opt in if decide (ext = []) then throw (Errorf invalid) else mret ext.

Definition finish (stack : IpStack) (opts : PublicIPOpts) (s : selection) : M W ExternalInterface :=
  iface ← deref_iface (s_iface s);
  _ ← check (if_MTU iface =? 0) (Errorf "failed to determine MTU for %s interface");
  extAddr ← public_addr (opt_PublicIP opts) "invalid public IP address: %s"
              (if decide (stack = ipv6Stack) then [] else s_addr s);
  extV6Addr ← public_addr (opt_PublicIPv6 opts) "invalid public IPv6 address: %s"
                (if decide (stack = ipv4Stack) then [] else s_v6addr s);
  mret (mkExternalInterface (if_MTU iface) (if_Index iface) (if_Name iface) (s_addr s) (s_v6addr s) extAddr extV6Addr).

Definition select (ifname : string) (ifregex : option (string → bool)) (ifcanreach : string)
    (stack : IpStack) (opts : PublicIPOpts) : M W selection :=
  if decide (ifname ≠ "") then select_by_name stack opts ifname
  else match ifregex with
       | Some re => select_by_regex stack re
       | None => if decide (ifcanreach ≠ "") then select_by_reach ifcanreach else select_default stack
       end.

Definition LookupExtIface (ifname ifregexS ifcanreach : string) (stack : IpStack) (opts : PublicIPOpts) : M W ExternalInterface :=
  ifregex ← (if decide (ifregexS = "") then mret None
             else re ← wrapping "could not compile the IP address regex '%s': %w" (lift (Compile ifregexS)); mret (Some re));
  _ ← check (bool_decide (stack = noneStack)) (Errorf "none matched ip stack");
  s ← select ifname ifregex ifcanreach stack opts;
  s ← complete stack s;
  finish stack opts s.
End lookup.

(** ** Addresses *)

Lemma Equal_refl ip : Equal ip ip = true.
Proof. unfold Equal. rewrite decide_True by done. by apply bool_decide_eq_true. Qed.

Lemma Equal_of_To4 x y : To4 x ≠ [] → Equal (To4 x) y = true → Equal x y = true.
Proof.
  unfold To4. case_decide as H4; [done|]. case_decide as H16; [|done]. destruct H16 as [Hx Hp]. intros _. unfold Equal.
  assert (length (drop 12 x) = 4%nat) as Hd by (rewrite length_drop; lia). rewrite Hd, Hx.
  destruct (decide (4%nat = length y)) as [E|E].
  - rewrite bool_decide_eq_true. intros <-. rewrite Hd, decide_False, decide_False, decide_True by (done || lia).
    by apply bool_decide_eq_true.
  - destruct (decide (4%nat = 4%nat ∧ length y = 16%nat)) as [[_ Ey]|]; [|done]. rewrite bool_decide_eq_true, Ey. intros [Hy Hxy].
    rewrite decide_True by done. apply bool_decide_eq_true. by rewrite <- (take_drop 12 x), <- (take_drop 12 y), Hy, Hp, Hxy.
Qed.

Lemma Equal_of_To16 x y : To16 x ≠ [] → Equal (To16 x) y = true → Equal x y = true.
Proof.
  unfold To16. case_decide as H4; [|by case_decide]. intros _. unfold Equal.
  assert (length (v4InV6Prefix ++ x) = 16%nat) as Hl by (rewrite length_app, H4; done). rewrite Hl, H4.
  destruct (decide (16%nat = length y)) as [E|E].
  - rewrite bool_decide_eq_true. intros <-. rewrite Hl, decide_False, decide_True by done.
    apply bool_decide_eq_true. by rewrite take_app_length', drop_app_length' by done.
  - rewrite decide_False by lia. destruct (decide (16%nat = 16%nat ∧ length y = 4%nat)) as [[_ Ey]|]; [|done].
    rewrite bool_decide_eq_true, Ey, drop_app_length' by done. intros [_ <-]. rewrite decide_True by done. by apply bool_decide_eq_true.
Qed.

(** ** Calls that only look *)

Class IfaceReads (W : Type) `{IfaceHost W} := {
  reads_AddrList link fam w : (AddrList link fam w).2 = w;
  reads_RouteGet ip w : (RouteGet ip w).2 = w;
  reads_AllRoutes fam w : (AllRoutes fam w).2 = w;
  reads_InterfaceByIndex i w : (InterfaceByIndex i w).2 = w;
  reads_InterfaceByName n w : (InterfaceByName n w).2 = w;
  reads_Interfaces w : (Interfaces w).2 = w
}.

(** The call leaves the host as it is, and what it returns is in [Q]. *)
Definition looks {W A} (w : W) (m : M W A) (Q : A → Prop) : Prop :=
  (m w).2 = w ∧ ∀ a, (m w).1 = Ret a → Q a.

Section looks.
Context {W : Type} (w : W).

Lemma looks_any {A} (m : M W A) : (m w).2 = w → looks w m (λ a, m w = (Ret a, w)).
Proof. intros E. split; [done|]. intros a Ha. destruct (m w); cbn in *. by subst. Qed.

Lemma looks_ret {A} (a : A) (Q : A → Prop) : Q a → looks w (mret a) Q.
Proof. intros HQ. split; [done|]. intros b [= <-]. done. Qed.

Lemma looks_throw {A} e (Q : A → Prop) : looks w (throw e) Q.
Proof. done. Qed.

Lemma looks_panic {A} (Q : A → Prop) : looks w panic Q.
Proof. done. Qed.

Lemma looks_lift {A} (o : outcome A) : looks w (lift o) (λ a, o = Ret a).
Proof. done. Qed.

Lemma looks_check c e : looks w (check c e) (λ _, c = false).
Proof. by destruct c. Qed.

Lemma looks_bind {A B} (m : M W A) (f : A → M W B) R Q : looks w m R → (∀ a, R a → looks w (f a) Q) → looks w (x ← m; f x) Q.
Proof.
  intros [Hs HR] Hf. unfold looks, mbind, M_bind. destruct (m w) as [[a|e|] s]; cbn in *; subst s; [|done..].
  by apply Hf, HR.
Qed.

Lemma looks_try {A} (m : M W A) Q : looks w m Q → looks w (try m) (λ r, match r with inl a => Q a | inr _ => True end).
Proof.
  intros [Hs HQ]. unfold looks, try. destruct (m w) as [[a|e|] s]; cbn in *; subst s; (split; [done|]); [|by intros ? [= <-]..|done].
  intros r [= <-]. by apply HQ.
Qed.

Lemma looks_wrapping {A} f (m : M W A) Q : looks w m Q → looks w (wrapping f m) Q.
Proof.
  intros Hm. eapply looks_bind; [by apply looks_try|]. intros [a|e] Ha; [by apply looks_ret|by apply looks_throw].
Qed.

Lemma looks_weaken {A} (m : M W A) (Q Q' : A → Prop) : looks w m Q → (∀ a, Q a → Q' a) → looks w m Q'.
Proof. intros [Hs HQ] Hi. split; [done|]. intros a Ha. by apply Hi, HQ. Qed.
End looks.

Create HintDb looks.
#[export] Hint Resolve looks_ret looks_throw looks_panic looks_lift looks_check looks_wrapping looks_try : looks.

(** ** Whose the addresses are *)

Section owns.
Context {W : Type} `{IfaceReads W, AddrSort} (w : W).
Implicit Types (iface : Interface) (stack : IpStack).

(** An interface with this index has the address. *)
Definition has_addr (fam : IpFamily) (link : Z) (ip : IP) : Prop :=
  ∃ l a, AddrList link fam w = (Ret l, w) ∧ a ∈ l ∧ Equal (na_IP a) ip = true.
Definition listed (iface : Interface) : Prop := ∃ l, Interfaces w = (Ret l, w) ∧ iface ∈ l.

Lemma looks_usable fam to (fail : error) iface :
  looks w (addrs ← AddrList (if_Index iface) fam;
           let ipAddrs := usable_addrs to addrs in if decide (ipAddrs = []) then throw fail else mret ipAddrs)
    (λ ips, ∀ ip, ip ∈ ips → has_addr fam (if_Index iface) ip).
Proof.
  eapply looks_bind; [apply looks_any, reads_AddrList|]. intros l Hl. cbn zeta. case_decide; [apply looks_throw|].
  apply looks_ret. intros ip (a & -> & Ha)%list_elem_of_fmap. apply list_elem_of_filter in Ha as [_ Ha].
  rewrite SortFunc_perm in Ha. exists l, a. by rewrite Equal_refl.
Qed.

Lemma looks_IP4Addrs iface : looks w (GetInterfaceIP4Addrs iface) (λ ips, ∀ ip, ip ∈ ips → has_addr FAMILY_V4 (if_Index iface) ip).
Proof. apply looks_usable. Qed.
Lemma looks_IP6Addrs iface : looks w (GetInterfaceIP6Addrs iface) (λ ips, ∀ ip, ip ∈ ips → has_addr FAMILY_V6 (if_Index iface) ip).
Proof. apply looks_usable. Qed.

Lemma looks_match fam to (fail : error) iface ip :
  (∀ x y, to x ≠ [] → Equal (to x) y = true → Equal x y = true) →
  looks w (addrs ← AddrList (if_Index iface) fam; check (negb (existsb (addr_match to ip) addrs)) fail)
    (λ _, has_addr fam (if_Index iface) ip).
Proof.
  intros Hto. eapply looks_bind; [apply looks_any, reads_AddrList|]. intros l Hl.
  eapply looks_weaken; [apply looks_check|]. cbn. intros _ (a & Ha & Hm)%negb_false_iff%existsb_exists.
  apply andb_true_iff in Hm as [Hne Hm]. apply bool_decide_eq_true in Hne. exists l, a.
  split; [done|]. split; [by apply list_elem_of_In|]. by apply Hto.
Qed.

Lemma looks_first_interface test fail l (Q : Interface → Prop) :
  (∀ i, looks w (test i) (λ _, Q i)) → looks w (first_interface test fail l) (λ i, i ∈ l ∧ Q i).
Proof.
  intros Ht. induction l as [|i l IH]; cbn [first_interface]; [apply looks_throw|].
  eapply looks_bind; [apply looks_try, Ht|]. intros [_|_] Hi; [apply looks_ret; split; [by left|done]|].
  eapply looks_weaken; [apply IH|]. cbn. intros j [Hj HQ]. split; [by right|done].
Qed.

Lemma looks_ByIP ip : looks w (GetInterfaceByIP ip) (λ i, listed i ∧ has_addr FAMILY_V4 (if_Index i) ip).
Proof.
  eapply looks_bind; [apply looks_any, reads_Interfaces|]. intros l Hl.
  eapply looks_weaken; [apply looks_first_interface; intros i; apply looks_match, Equal_of_To4|]. cbn. intros i [Hi Ho].
  split; [by exists l|done].
Qed.
Lemma looks_ByIP6 ip : looks w (GetInterfaceByIP6 ip) (λ i, listed i ∧ has_addr FAMILY_V6 (if_Index i) ip).
Proof.
  eapply looks_bind; [apply looks_any, reads_Interfaces|]. intros l Hl.
  eapply looks_weaken; [apply looks_first_interface; intros i; apply looks_match, Equal_of_To16|]. cbn. intros i [Hi Ho].
  split; [by exists l|done].
Qed.

Lemma looks_gateway fam dst e1 e2 : looks w (gateway_interface fam dst e1 e2) (λ _, True).
Proof.
  eapply looks_bind; [apply looks_any, reads_AllRoutes|]. intros l _. destruct (default_route dst l); [|apply looks_throw].
  eapply looks_bind; [apply looks_check|]. intros _ _. by eapply looks_weaken; [apply looks_any, reads_InterfaceByIndex|].
Qed.

Lemma looks_reach ip : looks w (GetInterfaceBySpecificIPRouting ip) (λ _, True).
Proof.
  eapply looks_bind; [apply looks_try, looks_any, reads_RouteGet|]. intros [[|r l]|e] _; [apply looks_throw| |apply looks_throw].
  eapply looks_bind; [apply looks_try, looks_any, reads_InterfaceByIndex|]. intros [i|e] _; [by apply looks_ret|apply looks_throw].
Qed.

Lemma matchIP_elem re ips : matchIP re ips ≠ [] → matchIP re ips ∈ ips.
Proof.
  induction ips as [|ip ips IH]; cbn [matchIP]; [done|]. destruct (re (IP_String ip)); [by left|]. right. auto.
Qed.

(** The addresses selected so far are the interface's, as far as there is one; the
    IPv4 address when [v4]. *)
Definition owned (v4 : Prop) (s : selection) : Prop :=
  ∀ iface, s_iface s = Some iface →
    (v4 → s_addr s ≠ [] → has_addr FAMILY_V4 (if_Index iface) (s_addr s)) ∧
    (s_v6addr s ≠ [] → has_addr FAMILY_V6 (if_Index iface) (s_v6addr s)).

(** Two interfaces of the host with one name are one interface. *)
Hypothesis names_unique : ∀ l, Interfaces w = (Ret l, w) → NoDup (if_Name <$> l).

Lemma listed_unique i j : listed i → listed j → if_Name i = if_Name j → i = j.
Proof.
  intros (l & El & Hi) (l' & El' & Hj) En. assert (l' = l) as -> by congruence. pose proof (names_unique l El) as Hnd.
  apply list_elem_of_lookup in Hi as [n Hi], Hj as [m Hj].
  assert (n = m) as ->; [|congruence]. eapply NoDup_lookup; [done| |]; rewrite list_lookup_fmap; [by rewrite Hi|]. rewrite Hj. cbn. congruence.
Qed.

Lemma owned_none v4 a b : owned v4 (mkSelection None a b).
Proof. intros i [=]. Qed.

Lemma looks_by_ip stack opts ip : looks w (select_by_ip stack opts ip) (owned (stack ≠ ipv6Stack)).
Proof.
  destruct stack; cbn [select_by_ip].
  - eapply looks_bind; [apply looks_wrapping, looks_ByIP|]. intros i [_ Hi]. apply looks_ret. intros ? [= <-]. by split.
  - eapply looks_bind; [apply looks_wrapping, looks_ByIP6|]. intros i [_ Hi]. apply looks_ret. intros ? [= <-]. by split.
  - apply looks_bind with (λ o, match o with Some i => listed i ∧ has_addr FAMILY_V4 (if_Index i) ip | None => To4 ip = [] end).
    { case_decide; [by apply looks_ret|]. eapply looks_bind; [apply looks_wrapping, looks_ByIP|]. intros i Hi. by apply looks_ret. }
    intros o Ho. assert (owned (dualStack ≠ ipv6Stack) (mkSelection o ip [])) as Hown.
    { intros i Ei. cbn in *. subst o. destruct Ho. by split. }
    case_decide; [by apply looks_ret|]. cbn zeta. case_decide; [by apply looks_ret|].
    eapply looks_bind; [apply looks_wrapping, looks_ByIP6|]. intros j [Hj Hv6]. case_decide.
    + apply looks_ret. intros ? [= <-]. by split.
    + destruct o as [i|]; cbn [deref_iface]; [|done]. apply looks_bind with (λ k, k = i); [by apply looks_ret|]. intros ? ->.
      eapply looks_bind; [apply looks_check|]. intros ? En. apply bool_decide_eq_false, dec_stable in En. apply looks_ret.
      destruct Ho as [Hi Ho]. rewrite (listed_unique i j) in Ho |- * by done. intros ? [= <-]. by split.
  - apply looks_ret, owned_none.
Qed.

Lemma looks_by_name stack opts ifname : looks w (select_by_name stack opts ifname) (owned (stack ≠ ipv6Stack)).
Proof.
  unfold select_by_name. case_decide; [|apply looks_by_ip].
  eapply looks_bind; [apply looks_wrapping, looks_any, reads_InterfaceByName|]. intros i _. apply looks_ret. by intros ? [= <-].
Qed.

(** Nothing is kept of the interfaces passed over, except in the dual stack their IPv4
    address. *)
Lemma looks_match_addresses stack re addr l :
  looks w (match_addresses stack re addr l)
    (λ s, owned (stack ≠ ipv6Stack) s ∧ (s_iface s = None → s_v6addr s = [] ∧ (stack ≠ dualStack → s_addr s = addr))).
Proof.
  revert addr. induction l as [|i l IH]; intros addr; cbn [match_addresses]; [apply looks_ret; split; [apply owned_none|done]|].
  destruct stack.
  - eapply looks_bind; [apply looks_try, looks_IP4Addrs|]. intros [ips|e] Hips; [|done]. cbn zeta. case_decide as Hm; [done|].
    apply looks_ret. split; [|done]. intros ? [= <-]. split; [|done]. intros _ _. by apply Hips, matchIP_elem.
  - eapply looks_bind; [apply looks_try, looks_IP6Addrs|]. intros [ips|e] Hips; [|done]. cbn zeta. case_decide as Hm; [done|].
    apply looks_ret. split; [|done]. intros ? [= <-]. split; [done|]. intros _. by apply Hips, matchIP_elem.
  - eapply looks_bind; [apply looks_try, looks_IP4Addrs|]. intros [ips|e] Hips; [|done].
    eapply looks_bind; [apply looks_try, looks_IP6Addrs|]. intros [ips6|e] Hips6; [|done]. cbn zeta.
    case_decide as Hm; [done|]. case_decide as Hm6; [eapply looks_weaken; [apply IH|naive_solver]|].
    apply looks_ret. split; [|done]. intros ? [= <-]. by split; intros; [apply Hips, matchIP_elem|apply Hips6, matchIP_elem].
  - apply IH.
Qed.

Lemma looks_available stack l : looks w (available stack l) (λ _, True).
Proof.
  induction l as [|i l IH]; cbn [available]; [by apply looks_ret|]. eapply (looks_bind _ _ _ (λ _, True)); [|done].
  destruct stack; [| | |by apply looks_ret]; (eapply looks_bind; [apply looks_try; first [apply looks_IP4Addrs|apply looks_IP6Addrs]|]);
    intros; by apply looks_ret.
Qed.

Lemma looks_by_regex stack re : looks w (select_by_regex stack re) (owned (stack = ipv4Stack)).
Proof.
  eapply looks_bind; [apply looks_wrapping, looks_any, reads_Interfaces|]. intros l _.
  eapply looks_bind; [apply looks_match_addresses|]. intros [o a b] [Hs Hn]. cbn -[match_name] in *.
  destruct o as [i|].
  - apply looks_ret. intros ? [= <-]. destruct (Hs i eq_refl) as [Ha Hb]. split; [|done]. intros ->. by apply Ha.
  - destruct (Hn eq_refl) as [-> Ha]. destruct (if decide _ then _ else None) as [i|].
    + apply looks_ret. intros ? [= <-]. split; [|done]. intros -> Hne. by destruct Hne; apply Ha.
    + eapply looks_bind; [apply looks_available|]. intros; apply looks_throw.
Qed.

Lemma looks_default stack : looks w (select_default stack) (owned True).
Proof.
  assert (∀ i, owned True (mkSelection (Some i) [] [])) as Ho by (by intros i ? [= <-]).
  destruct stack; cbn [select_default]; [| | |apply looks_ret, owned_none];
    (eapply looks_bind; [apply looks_wrapping, looks_gateway|]); intros i _; [by apply looks_ret..|].
  eapply looks_bind; [apply looks_wrapping, looks_gateway|]. intros j _. eapply looks_bind; [apply looks_check|]. intros. by apply looks_ret.
Qed.

(** What the options leave of the IPv4 address to the interface itself. *)
Definition v4_checked (ifname ifregexS ifcanreach : string) (stack : IpStack) : Prop :=
  stack ≠ ipv6Stack ∧ (ifname ≠ "" ∨ (ifregexS ≠ "" ∧ stack = ipv4Stack) ∨ (ifregexS = "" ∧ ifcanreach = "")).

Lemma owned_mono (v4 v4' : Prop) s : (v4' → v4) → owned v4 s → owned v4' s.
Proof. intros Hi Hs i Ei. destruct (Hs i Ei). split; [|done]. intros. auto. Qed.

Lemma looks_select ifname ifregexS re ifcanreach stack opts : (re = None ↔ ifregexS = "") →
  looks w (select ifname re ifcanreach stack opts) (owned (v4_checked ifname ifregexS ifcanreach stack)).
Proof.
  intros Hre. unfold select, v4_checked. case_decide as Hn.
  { eapply looks_weaken; [apply looks_by_name|]. intros s. apply owned_mono. tauto. }
  destruct re as [re|].
  { eapply looks_weaken; [apply looks_by_regex|]. intros s. apply owned_mono. intros [_ [?|[[_ ?]|[?%Hre _]]]]; done. }
  case_decide as Hc.
  - eapply looks_bind; [apply looks_wrapping, looks_reach|]. intros [i ip] _. apply looks_ret. intros ? [= <-]. split; [|done].
    intros [_ [?|[[Hr _]|[_ ?]]]]; try done. by destruct Hr; apply Hre.
  - eapply looks_weaken; [apply looks_default|]. intros s. by apply owned_mono.
Qed.

Lemma looks_or_first addrs fail fam o (ip : IP) :
  (∀ i, looks w (addrs i) (λ ips, ∀ ip, ip ∈ ips → has_addr fam (if_Index i) ip)) →
  looks w (or_first addrs fail o ip) (λ ip', ip' = ip ∧ ip ≠ [] ∨ ∃ i, o = Some i ∧ has_addr fam (if_Index i) ip').
Proof.
  intros Ha. unfold or_first. case_decide; [|by apply looks_ret; left]. destruct o as [i|]; [|by apply looks_panic].
  eapply (looks_bind _ _ _ (λ j, j = i)); [by apply looks_ret|]. intros ? ->.
  eapply looks_bind; [apply looks_try, Ha|]. intros [[|a l]|e] Hl; [apply looks_throw| |apply looks_throw].
  apply looks_ret. right. exists i. split; [done|]. apply Hl. by left.
Qed.

(** Then both addresses are the interface's. *)
Lemma looks_complete v4 stack s : stack ≠ noneStack → owned v4 s →
  looks w (complete stack s) (λ s', s_iface s' = s_iface s ∧ ∀ iface, s_iface s = Some iface →
    (v4 → stack ≠ ipv6Stack → has_addr FAMILY_V4 (if_Index iface) (s_addr s')) ∧
    (stack ≠ ipv4Stack → has_addr FAMILY_V6 (if_Index iface) (s_v6addr s'))).
Proof.
  intros Hst Hs.
  eapply (looks_bind _ _ _ (λ a, ∀ iface, s_iface s = Some iface → v4 → stack ≠ ipv6Stack → has_addr FAMILY_V4 (if_Index iface) a)).
  { assert (looks w (or_first4 (s_iface s) (s_addr s))
      (λ a, ∀ iface, s_iface s = Some iface → v4 → has_addr FAMILY_V4 (if_Index iface) a)) as Hl.
    { eapply looks_weaken; [apply looks_or_first, looks_IP4Addrs|]. cbn. intros a [[-> Hne]|(i & Ei & Ha)] iface Hi Hv4.
      - by apply (Hs iface Hi).
      - congruence. }
    destruct stack; try done; try (by apply looks_ret); (eapply looks_weaken; [apply Hl|auto]). }
  intros a Ha.
  eapply (looks_bind _ _ _ (λ b, ∀ iface, s_iface s = Some iface → stack ≠ ipv4Stack → has_addr FAMILY_V6 (if_Index iface) b)).
  { assert (looks w (or_first6 (s_iface s) (s_v6addr s)) (λ b, ∀ iface, s_iface s = Some iface → has_addr FAMILY_V6 (if_Index iface) b)) as Hl.
    { eapply looks_weaken; [apply looks_or_first, looks_IP6Addrs|]. cbn. intros b [[-> Hne]|(i & Ei & Hb)] iface Hi.
      - by apply (Hs iface Hi).
      - congruence. }
    destruct stack; try done; try (by apply looks_ret); (eapply looks_weaken; [apply Hl|auto]). }
  intros b Hb. apply looks_ret. split; [done|]. cbn. intros iface Hi. split; intros; [by apply Ha|by apply Hb].
Qed.

Lemma looks_public opt invalid default :
  looks w (public_addr opt invalid default) (λ ip, ip = if decide (opt = "") then default else ParseIP opt).
Proof.
  unfold public_addr. case_decide; [by apply looks_ret|]. cbn zeta. case_decide; [apply looks_throw|by apply looks_ret].
Qed.

(** What the lookup promises of the interface it returns. *)
Definition ext_ok (v4 : Prop) stack (opts : PublicIPOpts) (ei : ExternalInterface) : Prop :=
  Iface_MTU ei ≠ 0 ∧
  (v4 → has_addr FAMILY_V4 (Iface_Index ei) (IfaceAddr ei)) ∧
  (stack ≠ ipv4Stack → has_addr FAMILY_V6 (Iface_Index ei) (IfaceV6Addr ei)) ∧
  ExtAddr ei = (if decide (opt_PublicIP opts = "") then if decide (stack = ipv6Stack) then [] else IfaceAddr ei
                else ParseIP (opt_PublicIP opts)) ∧
  ExtV6Addr ei = (if decide (opt_PublicIPv6 opts = "") then if decide (stack = ipv4Stack) then [] else IfaceV6Addr ei
                  else ParseIP (opt_PublicIPv6 opts)).

Lemma looks_Lookup Compile ifname ifregexS ifcanreach stack opts :
  looks w (LookupExtIface Compile ifname ifregexS ifcanreach stack opts)
    (ext_ok (v4_checked ifname ifregexS ifcanreach stack) stack opts).
Proof.
  unfold LookupExtIface. apply looks_bind with (λ re, re = None ↔ ifregexS = "").
  { case_decide; [by apply looks_ret|]. eapply looks_bind; [apply looks_wrapping, looks_lift|]. intros. by apply looks_ret. }
  intros re Hre. eapply looks_bind; [apply looks_check|]. intros ? Hst. apply bool_decide_eq_false in Hst.
  eapply looks_bind; [by apply looks_select|]. intros s Hs.
  eapply looks_bind; [by apply looks_complete|]. intros s' [Ei Hs']. rewrite <- Ei in Hs'.
  eapply looks_bind with (λ i, s_iface s' = Some i); [destruct (s_iface s'); [by apply looks_ret|apply looks_panic]|].
  intros i Hi. destruct (Hs' i Hi) as [H4 H6].
  eapply looks_bind; [apply looks_check|]. intros ? Hmtu. apply Z.eqb_neq in Hmtu.
  eapply looks_bind; [apply looks_public|]. intros ext4 He4. eapply looks_bind; [apply looks_public|]. intros ext6 He6.
  apply looks_ret. split; [done|]. cbn. split; [|done]. intros Hv4. apply H4; [done|]. apply Hv4.
Qed.
End owns.

(** C37: the lookup changes nothing, and the interface it returns has a nonzero MTU and owns
    its IPv6 address unless only IPv4 is asked for; it owns its IPv4 address when the
    interface is named, when a pattern is given in an IPv4-only stack or when the default
    route decides.  The external addresses are the public addresses of the options, or
    else the interface's. *)
Theorem LookupExtIface_owns W `{IfaceReads W, AddrSort} Compile ifname ifregexS ifcanreach stack opts (w w' : W) ei :
  (∀ l, Interfaces w = (Ret l, w) → NoDup (if_Name <$> l)) →
  LookupExtIface Compile ifname ifregexS ifcanreach stack opts w = (Ret ei, w') →
  w' = w ∧ ext_ok w (v4_checked ifname ifregexS ifcanreach stack) stack opts ei.
Proof.
  intros Hn Hrun. destruct (looks_Lookup w Hn Compile ifname ifregexS ifcanreach stack opts) as [Hs Hok].
  rewrite Hrun in Hs, Hok. split; [done|]. by apply Hok.
Qed.

(** In the dual stack an IPv6 address as [--iface] without a usable [--public-ipv6] is
    not looked up at all: there is no interface and the daemon panics. *)
Theorem LookupExtIface_dual_v6_panics W `{IfaceHost W, AddrSort} Compile ifname ifcanreach opts (w : W) :
  ParseIP ifname ≠ [] → To4 (ParseIP ifname) = [] → opt_PublicIPv6 opts = "" →
  LookupExtIface Compile ifname "" ifcanreach dualStack opts w = (Panic, w).
Proof.
  intros Hip H4 Hp. assert (ifname ≠ "") as Hne by (by intros ->). unfold LookupExtIface, select, select_by_name.
  rewrite (decide_True (P := "" = "")) by done. run. rewrite bool_decide_eq_false_2 by done.
  rewrite (decide_True (P := ifname ≠ "")), (decide_False (P := ParseIP ifname = [])) by done. unfold select_by_ip.
  rewrite (decide_True (P := To4 (ParseIP ifname) = [])) by done. run.
  rewrite (decide_True (P := opt_PublicIPv6 opts = "")) by done. run. unfold complete, or_first4, or_first6, or_first. cbn [s_iface s_addr s_v6addr].
  rewrite (decide_False (P := ParseIP ifname = [])) by done. run. by rewrite decide_True.
Qed.

(** ** A host with two interfaces *)

#[global, refine] Instance mem_IfaceReads : IfaceReads ifview := {}.
Proof. all: done. Defined.

(** [regexp.Compile] on patterns of hexadecimal digits only. *)
Fixpoint literal (s : string) : option regex :=
  match s with
  | EmptyString => None
  | String c EmptyString => if is_hex c then Some (Chr c) else None
  | String c s => if is_hex c then Seq (Chr c) <$> literal s else None
  end.
Definition compile_literal (s : string) : outcome (string → bool) :=
  match literal s with Some r => Ret (MatchString r) | None => Err (Errorf "error parsing regexp") end.

Definition v4_host (x : Z) : IP4Net := mkIP4Net x 24.
Definition two_ifaces : ifview :=
  mkIfview (λ i, if decide (i = 2) then {[v4_host 167772165]} else if decide (i = 3) then {[v4_host 3232235785]} else ∅)
    (λ i, if decide (i = 2) then [nl_addr6 5] else [nl_addr6 9]) [] [mkInterface 2 "eth0" 1500; mkInterface 3 "eth10" 9000].

(** In the dual stack a pattern can give one interface the address of another: "10"
    matches the IPv4 address 10.0.0.5 of eth0 but not its IPv6 address, and then the name
    of eth10, which is returned with the address of eth0. *)
Theorem LookupExtIface_dual_regex_mixes :
  LookupExtIface compile_literal "" "10" "" dualStack (mkPublicIPOpts "" "") two_ifaces =
    (Ret (mkExternalInterface 9000 3 "eth10" (IP4_ToIP 167772165) (na_IP (nl_addr6 9)) (IP4_ToIP 167772165) (na_IP (nl_addr6 9))),
     two_ifaces) ∧
  ¬ has_addr two_ifaces FAMILY_V4 3 (IP4_ToIP 167772165).
Proof.
  split; [by vm_compute|]. intros (l & a & E & Ha & Heq).
  assert (match (AddrList 3 FAMILY_V4 two_ifaces).1 with
          | Ret l => forallb (λ a, negb (Equal (na_IP a) (IP4_ToIP 167772165))) l
          | _ => false
          end = true) as Hall by (by vm_compute).
  rewrite E in Hall. cbn [fst] in Hall. rewrite forallb_forall in Hall. specialize (Hall a). rewrite Heq in Hall.
  by discriminate Hall; apply list_elem_of_In.
Qed.

Lemma LookupExtIface_owns_witness : ∃ ei,
  LookupExtIface compile_literal "" "192" "" ipv4Stack (mkPublicIPOpts "8.8.8.8" "") two_ifaces = (Ret ei, two_ifaces) ∧
  IfaceName ei = "eth10" ∧ ExtAddr ei = ParseIP "8.8.8.8" ∧ has_addr two_ifaces FAMILY_V4 3 (IfaceAddr ei).
Proof.
  eexists. split; [vm_compute; reflexivity|].
  edestruct (LookupExtIface_owns ifview compile_literal "" "192" "" ipv4Stack (mkPublicIPOpts "8.8.8.8" "") two_ifaces two_ifaces)
    as (_ & _ & H4 & _ & He & _); [|vm_compute; reflexivity|].
  - intros l [= <-]. apply (bool_decide_unpack _). by vm_compute.
  - split; [done|]. split; [exact He|]. apply H4. split; [done|]. right; left. done.
Defined.

Lemma LookupExtIface_dual_v6_panics_witness :
  LookupExtIface compile_literal "2001:db8::5" "" "" dualStack (mkPublicIPOpts "" "") two_ifaces = (Panic, two_ifaces).
Proof. by apply LookupExtIface_dual_v6_panics; vm_compute. Defined.
