(* ===== verification/Vxlan.v ===== *)
(** * [pkg/backend/vxlan]: the VXLAN backend

    The backend keeps a VXLAN device and, for every remote lease, a neighbour entry
    for the gateway of its subnet, a forwarding entry for the remote VTEP and a route.
    [device.go], [vxlan.go] and [vxlan_network.go], with [pkg/mac] and [pkg/retry].
    The netlink calls are the class [VxlanHost] over a store [W], beside [IfaceHost];
    the subnet manager is [LeaseSource] and [NetworkSource]; the retry library is
    [Retry]. *)

From Stdlib Require Import ZArith Lia Ascii.
From stdpp Require Import base strings list gmap numbers.
From S2P Require Import Prelude GoStrings GoJson GoNet Ip4 Ip6 Lease Config Backend Iface.

Local Open Scope Z_scope.

(** ** Hardware addresses *)

(** A [net.HardwareAddr]: its bytes, none when nil. *)
Abbreviation HardwareAddr := (list Z).

Definition HardwareAddr_String (hw : HardwareAddr) : string := join ":" (hex_byte <$> hw).

(** Two hexadecimal digits. *)
Definition xtoi2 (a b : ascii) : option Z :=
  x ← digit_val 16 a; y ← digit_val 16 b; Some (16 * x + y).

(** Pairs of digits between separators, as in 00:11:22. *)
Fixpoint hex_pairs (sep : ascii) (s : string) : option (list Z) :=
  match s with
  | String a (String b rest) =>
      v ← xtoi2 a b;
      match rest with
      | EmptyString => Some [v]
      | String c rest => if Ascii.eqb c sep then vs ← hex_pairs sep rest; Some (v :: vs) else None
      end
  | _ => None
  end.
(** Two pairs between dots, as in 0011.2233. *)
Fixpoint hex_quads (s : string) : option (list Z) :=
  match s with
  | String a (String b (String c (String d rest))) =>
      v ← xtoi2 a b; v' ← xtoi2 c d;
      match rest with
      | EmptyString => Some [v; v']
      | String c rest => if Ascii.eqb c "."%char then vs ← hex_quads rest; Some (v :: v' :: vs) else None
      end
  | _ => None
  end.

Definition mac_length (hw : list Z) : bool := bool_decide (length hw ∈ [6; 8; 20]%nat).

Definition ParseMAC (s : string) : option HardwareAddr :=
  if (String.length s <? 14)%nat then None
  else
    hw ← (if String.get 2 s is Some c then
            if Ascii.eqb c ":"%char || Ascii.eqb c "-"%char then hex_pairs c s
            else if String.get 4 s is Some c then if Ascii.eqb c "."%char then hex_quads s else None else None
          else None);
    if mac_length hw then Some hw else None.

(** [hardwareAddr], the JSON form. *)
Definition hardwareAddr_MarshalJSON (hw : HardwareAddr) : string :=
  String dquote (HardwareAddr_String hw +:+ String dquote "").

Definition hardwareAddr_UnmarshalJSON (bytes : string) : outcome HardwareAddr :=
  let n := String.length bytes in
  if (n <? 2)%nat || negb (bool_decide (String.get 0 bytes = Some dquote)) ||
     negb (bool_decide (String.get (n - 1) bytes = Some dquote))
  then Err (Errorf "error parsing hardware addr")
  else match ParseMAC (String.substring 1 (n - 2) bytes) with
       | Some mac => Ret mac
       | None => Err (Errorf "invalid MAC address")
       end.

(** ** Configuration and attributes *)

Record VXLANConfig := mkVXLANConfig {
  vc_VNI : Z; vc_Port : Z; vc_MTU : Z; vc_GBP : bool; vc_Learning : bool; vc_DirectRouting : bool
}.

Definition defaultVNI : Z := 1.

(** An [int] is a 64-bit integer. *)
Definition VXLANConfig_field (c : VXLANConfig) (key raw : string) (v : json) : outcome VXLANConfig :=
  let '(mkVXLANConfig vni port mtu gbp learning direct) := c in
  if field_name "vni" key then n ← decode_int 64 vni v; Ret (mkVXLANConfig n port mtu gbp learning direct)
  else if field_name "port" key then n ← decode_int 64 port v; Ret (mkVXLANConfig vni n mtu gbp learning direct)
  else if field_name "mtu" key then n ← decode_int 64 mtu v; Ret (mkVXLANConfig vni port n gbp learning direct)
  else if field_name "gbp" key then b ← decode_bool gbp v; Ret (mkVXLANConfig vni port mtu b learning direct)
  else if field_name "learning" key then b ← decode_bool learning v; Ret (mkVXLANConfig vni port mtu gbp b direct)
  else if field_name "directRouting" key then b ← decode_bool direct v; Ret (mkVXLANConfig vni port mtu gbp learning b)
  else Ret c.

Definition parseVXLANConfig (config : string) (defaultMTU : Z) : outcome VXLANConfig :=
  let cfg := mkVXLANConfig defaultVNI 0 defaultMTU false false false in
  if (0 <? String.length config)%nat then Unmarshal_struct VXLANConfig_field config cfg else Ret cfg.

Record vxlanLeaseAttrs := mkVxlanAttrs { va_VNI : Z; va_VtepMAC : HardwareAddr }.

Definition vxlanLeaseAttrs_Marshal (a : vxlanLeaseAttrs) : string :=
  json_object [member "VNI" (fmt_uint 10 (va_VNI a)); member "VtepMAC" (hardwareAddr_MarshalJSON (va_VtepMAC a))].

Definition vxlanLeaseAttrs_field (a : vxlanLeaseAttrs) (key raw : string) (v : json) : outcome vxlanLeaseAttrs :=
  if field_name "VNI" key then n ← decode_uint 32 (va_VNI a) v; Ret (mkVxlanAttrs n (va_VtepMAC a))
  else if field_name "VtepMAC" key then hw ← hardwareAddr_UnmarshalJSON raw; Ret (mkVxlanAttrs (va_VNI a) hw)
  else Ret a.

Definition zero_vxlan_attrs : vxlanLeaseAttrs := mkVxlanAttrs 0 [].
(** A nil message is an empty text. *)
Definition vxlanLeaseAttrs_Unmarshal (data : RawMessage) : outcome vxlanLeaseAttrs :=
  Unmarshal_struct vxlanLeaseAttrs_field (default "" data) zero_vxlan_attrs.

(** ** The host *)

(** The fields of a [netlink.Vxlan] that the code sets or compares. *)
Record Vxlan := mkVxlan {
  vx_Name : string;
  vx_HardwareAddr : HardwareAddr;
  vx_MTU : Z;
  vx_Index : Z;
  vx_VxlanId : Z;
  vx_VtepDevIndex : Z;
  vx_SrcAddr : IP;
  vx_Group : IP;
  vx_L2miss : bool;
  vx_Port : Z;
  vx_Learning : bool;
  vx_GBP : bool
}.

Inductive AnyLink := VxlanLink (v : Vxlan) | OtherLink (type name : string) (index : Z).
Definition Link_Type (l : AnyLink) : string := match l with VxlanLink _ => "vxlan" | OtherLink t _ _ => t end.
Definition AnyLink_Index (l : AnyLink) : Z := match l with VxlanLink v => vx_Index v | OtherLink _ _ i => i end.

(** An entry of the neighbour table (the family zero) or of the forwarding table of a
    device ([AF_BRIDGE]). *)
Inductive NeighFamily := AF_UNSPEC | AF_BRIDGE.
Record Neigh := mkNeigh {
  ne_LinkIndex : Z; ne_Family : NeighFamily; ne_Permanent : bool; ne_Unicast : bool; ne_Self : bool; ne_IP : IP;
  ne_HardwareAddr : HardwareAddr
}.

(** A route; [vr_OnLink] is the flag [RTNH_F_ONLINK]. *)
Record VRoute := mkVRoute { vr_LinkIndex : Z; vr_Dst : option IPNet; vr_Gw : IP; vr_OnLink : bool }.
Definition zero_route : VRoute := mkVRoute 0 None [] false.

Definition EEXIST : error := Sentinel "syscall.EEXIST".

Class VxlanHost (W : Type) := {
  (** the index that [LinkAdd] leaves in its argument *)
  VLinkAdd : Vxlan → M W Z;
  VLinkDel : AnyLink → M W unit;
  VLinkByName : string → M W AnyLink;
  VLinkByIndex : Z → M W AnyLink;
  VLinkSetUp : Z → M W unit;
  NeighSet : Neigh → M W unit;
  NeighDel : Neigh → M W unit;
  VRouteReplace : VRoute → M W unit;
  VRouteDel : VRoute → M W unit;
  Sysctl : string → string → M W unit;
  (** [rand.Read] into six bytes *)
  rand_Read6 : M W (list Z)
}.

Class NetworkSource (W : Type) := {
  sm_GetNetworkConfig : M W Config;
  sm_GetStoredMacAddresses : M W (string * string)
}.

(** [retry.Do]: the library tries again until there is no error, at most ten times. *)
Class Retry (W : Type) := { retry_Do : M W unit → M W unit }.

(** ** [device.go] *)

Record vxlanDeviceAttrs := mkDeviceAttrs {
  da_vni : Z; da_name : string; da_MTU : Z; da_vtepIndex : Z; da_vtepAddr : IP; da_vtepPort : Z; da_gbp : bool;
  da_learning : bool; da_hwAddr : HardwareAddr
}.
Record vxlanDevice := mkDevice { vd_link : Vxlan; vd_directRouting : bool }.

Definition MACAddr (dev : vxlanDevice) : HardwareAddr := vx_HardwareAddr (vd_link dev).

(** What differs between two links, nothing when they are compatible. *)
Definition vxlanLinksIncompat (l1 l2 : AnyLink) : outcome string :=
  if negb (bool_decide (Link_Type l1 = Link_Type l2)) then Ret "link type: %v vs %v"
  else match l1, l2 with
  | VxlanLink v1, VxlanLink v2 =>
      Ret (if negb (vx_VxlanId v1 =? vx_VxlanId v2) then "vni: %v vs %v"
           else if (0 <? vx_VtepDevIndex v1) && (0 <? vx_VtepDevIndex v2) && negb (vx_VtepDevIndex v1 =? vx_VtepDevIndex v2)
           then "vtep (external) interface: %v vs %v"
           else if bool_decide (vx_SrcAddr v1 ≠ []) && bool_decide (vx_SrcAddr v2 ≠ []) && negb (Equal (vx_SrcAddr v1) (vx_SrcAddr v2))
           then "vtep (external) IP: %v vs %v"
           else if bool_decide (vx_Group v1 ≠ []) && bool_decide (vx_Group v2 ≠ []) && negb (Equal (vx_Group v1) (vx_Group v2))
           then "group address: %v vs %v"
           else if negb (eqb (vx_L2miss v1) (vx_L2miss v2)) then "l2miss: %v vs %v"
           else if (0 <? vx_Port v1) && (0 <? vx_Port v2) && negb (vx_Port v1 =? vx_Port v2) then "port: %v vs %v"
           else if negb (eqb (vx_GBP v1) (vx_GBP v2)) then "gbp: %v vs %v"
           else "")
  | _, _ => Panic
  end.

Record neighbor := mkNeighbor { nb_MAC : HardwareAddr; nb_IP : IP4; nb_IP6 : option IP6 }.

Section device.
Context {W : Type} `{IfaceHost W, AddrSort, VxlanHost W, Retry W}.
Abbreviation dev_ptr := (option vxlanDevice).

(** [mac.NewHardwareAddr]: local and unicast. *)
Definition NewHardwareAddr : M W HardwareAddr :=
  bytes ← wrapping "could not generate random MAC address: %w" rand_Read6;
  match bytes with
  | b :: rest => mret (Z.lor (Z.land b 254) 2 :: rest)
  | [] => panic
  end.

(** Read back the link with the index that adding it gave. *)
Definition locate_link (ifindex : Z) : M W Vxlan :=
  r ← try (VLinkByIndex ifindex);
  match r with
  | inr _ => throw (Errorf "can't locate created vxlan device with index %v")
  | inl (OtherLink _ _ _) => throw (Errorf "created vxlan device with index %v is not vxlan")
  | inl (VxlanLink vxlan) => mret vxlan
  end.

Definition ensureLink (vxlan : Vxlan) : M W Vxlan :=
  r ← try (VLinkAdd vxlan);
  match r with
  | inl ifindex => locate_link ifindex
  | inr e =>
      if decide (e = EEXIST) then
        existing ← VLinkByName (vx_Name vxlan);
        incompat ← lift (vxlanLinksIncompat (VxlanLink vxlan) existing);
        if decide (incompat = "") then
          match existing with VxlanLink v => mret v | OtherLink _ _ _ => panic end
        else
          _ ← wrapping "failed to delete interface: %v" (VLinkDel existing);
          ifindex ← wrapping "failed to create vxlan interface: %v" (VLinkAdd vxlan);
          locate_link ifindex
      else throw e
  end.

Definition newVXLANDevice (devAttrs : vxlanDeviceAttrs) : M W vxlanDevice :=
  hardwareAddr ← (if decide (da_hwAddr devAttrs = []) then NewHardwareAddr else mret (da_hwAddr devAttrs));
  link ← ensureLink (mkVxlan (da_name devAttrs) hardwareAddr (da_MTU devAttrs - 50) 0 (da_vni devAttrs) (da_vtepIndex devAttrs)
           (da_vtepAddr devAttrs) [] false (da_vtepPort devAttrs) (da_learning devAttrs) (da_gbp devAttrs));
  _ ← try (Sysctl ("net/ipv6/conf/" +:+ da_name devAttrs +:+ "/accept_ra") "0");
  mret (mkDevice link false).

(** The check of the hardware address against what the host has. *)
Definition check_mac (dev : vxlanDevice) (format : string) : M W unit :=
  nLink ← try (VLinkByName (vx_Name (vd_link dev)));
  match nLink with
  | inl (VxlanLink vxlan) =>
      check (negb (bool_decide (HardwareAddr_String (vx_HardwareAddr vxlan) = HardwareAddr_String (MACAddr dev)))) (Errorf format)
  | _ => mret tt
  end.

Definition Configure (dev : vxlanDevice) (ipa flannelnet : IP4Net) : M W unit :=
  _ ← wrapping "failed to ensure address of interface %s: %s" (EnsureV4AddressOnLink ipa flannelnet (vx_Index (vd_link dev)));
  _ ← wrapping "failed to set interface %s to UP state: %s" (VLinkSetUp (vx_Index (vd_link dev)));
  check_mac dev "%s's mac address wanted: %s, but got: %v".

Definition ConfigureIPv6 (dev : vxlanDevice) (ipn flannelnet : IP6Net) : M W unit :=
  _ ← wrapping "failed to ensure v6 address of interface %s: %w" (EnsureV6AddressOnLink ipn flannelnet (vx_Index (vd_link dev)));
  _ ← wrapping "failed to set v6 interface %s to UP state: %w" (VLinkSetUp (vx_Index (vd_link dev)));
  check_mac dev "%s's v6 mac address wanted: %s, but got: %v".

(** The methods of a device are called through a pointer. *)
Definition AddFDB (dev : dev_ptr) (n : neighbor) : M W unit :=
  d ← lift (deref dev);
  NeighSet (mkNeigh (vx_Index (vd_link d)) AF_BRIDGE true false true (IP4_ToIP (nb_IP n)) (nb_MAC n)).
Definition AddV6FDB (dev : dev_ptr) (n : neighbor) : M W unit :=
  d ← lift (deref dev); ip ← lift (IP6_ToIP (nb_IP6 n));
  NeighSet (mkNeigh (vx_Index (vd_link d)) AF_BRIDGE true false true ip (nb_MAC n)).
Definition DelFDB (dev : dev_ptr) (n : neighbor) : M W unit :=
  d ← lift (deref dev);
  NeighDel (mkNeigh (vx_Index (vd_link d)) AF_BRIDGE false false true (IP4_ToIP (nb_IP n)) (nb_MAC n)).
Definition DelV6FDB (dev : dev_ptr) (n : neighbor) : M W unit :=
  d ← lift (deref dev); ip ← lift (IP6_ToIP (nb_IP6 n));
  NeighDel (mkNeigh (vx_Index (vd_link d)) AF_BRIDGE false false true ip (nb_MAC n)).
Definition AddARP (dev : dev_ptr) (n : neighbor) : M W unit :=
  d ← lift (deref dev);
  NeighSet (mkNeigh (vx_Index (vd_link d)) AF_UNSPEC true true false (IP4_ToIP (nb_IP n)) (nb_MAC n)).
Definition AddV6ARP (dev : dev_ptr) (n : neighbor) : M W unit :=
  d ← lift (deref dev); ip ← lift (IP6_ToIP (nb_IP6 n));
  NeighSet (mkNeigh (vx_Index (vd_link d)) AF_UNSPEC true true false ip (nb_MAC n)).
Definition DelARP (dev : dev_ptr) (n : neighbor) : M W unit :=
  d ← lift (deref dev);
  NeighDel (mkNeigh (vx_Index (vd_link d)) AF_UNSPEC true true false (IP4_ToIP (nb_IP n)) (nb_MAC n)).
Definition DelV6ARP (dev : dev_ptr) (n : neighbor) : M W unit :=
  d ← lift (deref dev); ip ← lift (IP6_ToIP (nb_IP6 n));
  NeighDel (mkNeigh (vx_Index (vd_link d)) AF_UNSPEC true true false ip (nb_MAC n)).
End device.

(** ** [vxlan.go] *)

(** A stored address that does not parse is only logged. *)
Definition stored_mac (macStr : string) : HardwareAddr :=
  if decide (macStr = "") then [] else default [] (ParseMAC macStr).

Definition device_attrs (cfg : VXLANConfig) (name : string) (extIfaceID : Z) (extIfaceIP : IP) (hwAddr : HardwareAddr) : vxlanDeviceAttrs :=
  mkDeviceAttrs (u32 (vc_VNI cfg)) (name +:+ fmt_int (vc_VNI cfg)) (vc_MTU cfg) extIfaceID extIfaceIP (vc_Port cfg)
    (vc_GBP cfg) (vc_Learning cfg) hwAddr.

Definition lease_data (vnid : Z) (dev : vxlanDevice) : RawMessage := Some (vxlanLeaseAttrs_Marshal (mkVxlanAttrs vnid (MACAddr dev))).

Definition newSubnetAttrs (publicIP publicIPv6 : IP) (vnid : Z) (dev v6Dev : option vxlanDevice) : outcome LeaseAttrs :=
  '(pub, data) ← (match dev with
                  | Some d => if decide (publicIP = []) then Ret (0, None)
                              else pub ← FromIP publicIP; Ret (pub, lease_data vnid d)
                  | None => Ret (0, None)
                  end);
  '(pub6, data6) ← (match v6Dev with
                    | Some d => if decide (publicIPv6 = []) then Ret (None, None)
                                else pub ← FromIP6 publicIPv6; Ret (pub, lease_data vnid d)
                    | None => Ret (None, None)
                    end);
  Ret (mkLeaseAttrs pub pub6 "vxlan" data data6).

(** The network and what the backend keeps fixed. *)
Record vxlan_network := mkVxlanNetwork { nw_dev : option vxlanDevice; nw_v6Dev : option vxlanDevice; nw_mtu : Z }.

Definition encapOverhead : Z := 50.
Definition vxlan_MTU (nw : vxlan_network) : Z := nw_mtu nw - encapOverhead.
Definition newNetwork (dev v6Dev : option vxlanDevice) (mtu : Z) : vxlan_network := mkVxlanNetwork dev v6Dev mtu.

Section backend.
Context {W : Type} `{IfaceHost W, AddrSort, VxlanHost W, Retry W, LeaseSource W, NetworkSource W}.

Definition create_family (cfg : VXLANConfig) (attrs : vxlanDeviceAttrs) : M W vxlanDevice :=
  dev ← newVXLANDevice attrs;
  mret (mkDevice (vd_link dev) (vc_DirectRouting cfg)).

Definition createVXLANDevice (config : Config) (cfg : VXLANConfig) (extIfaceID : Z) (extIfaceIP extIfaceV6IP : IP)
    : M W (option vxlanDevice * option vxlanDevice) :=
  '(macStr, macStrv6) ← sm_GetStoredMacAddresses;
  dev ← (if cfg_EnableIPv4 config
         then d ← create_family cfg (device_attrs cfg "flannel." extIfaceID extIfaceIP (stored_mac macStr)); mret (Some d)
         else mret None);
  v6Dev ← (if cfg_EnableIPv6 config
           then d ← create_family cfg (device_attrs cfg "flannel-v6." extIfaceID extIfaceV6IP (stored_mac macStrv6)); mret (Some d)
           else mret None);
  mret (dev, v6Dev).

Definition configureDeviceIPv4IPv6 (dev v6Dev : option vxlanDevice) (l : Lease) (config : Config) : M W unit :=
  _ ← (if cfg_EnableIPv4 config then
         d ← lift (deref dev);
         _ ← check (IP4Net_Empty (Subnet l)) (Errorf "failed to configure interface %s: IPv4 is enabled but the lease has no IPv4");
         wrapping "failed to configure interface %s: %w" (Configure d (mkIP4Net (IP4Net_IP (Subnet l)) 32) (cfg_Network config))
       else mret tt);
  if cfg_EnableIPv6 config then
    d ← lift (deref v6Dev);
    _ ← check (IP6Net_Empty (IPv6Subnet l)) (Errorf "failed to configure interface %s: IPv6 is enabled but the lease has no IPv6");
    wrapping "failed to configure interface %s: %w" (ConfigureIPv6 d (mkIP6Net (IP6Net_IP (IPv6Subnet l)) 128) (cfg_IPv6Network config))
  else mret tt.

Definition vxlan_RegisterNetwork (extIface : ExternalInterface) (config : Config) : M W (vxlan_network * Lease) :=
  cfg ← wrapping "error decoding VXLAN backend config: %w" (lift (parseVXLANConfig (cfg_Backend config) (Iface_MTU extIface)));
  '(dev, v6Dev) ← wrapping "failed to create vxlan device: %w"
                    (createVXLANDevice config cfg (Iface_Index extIface) (ExtAddr extIface) (ExtV6Addr extIface));
  subnetAttrs ← lift (newSubnetAttrs (ExtAddr extIface) (ExtV6Addr extIface) (u32 (vc_VNI cfg)) dev v6Dev);
  l ← acquire subnetAttrs;
  _ ← configureDeviceIPv4IPv6 dev v6Dev l config;
  mret (newNetwork dev v6Dev (vc_MTU cfg), l).

(** ** [vxlan_network.go]: a device that vanished *)

(** The first usable address of an interface. *)
Definition first_addr (addrs : M W (list IP)) : M W IP :=
  l ← addrs;
  match l with [] => throw (Errorf "no addresses found for interface %s, retrying") | a :: _ => mret a end.

(** One turn of the loop of [reCreateVxlan]: an error leads to another turn. *)
Definition recreate_attempt (ifaceName : string) (l : Lease) : M W vxlan_network :=
  i ← try (InterfaceByName ifaceName);
  match i with
  | inr _ => throw (Errorf "external interface %s not found")
  | inl extIface =>
      config ← sm_GetNetworkConfig;
      cfg ← lift (parseVXLANConfig (cfg_Backend config) (if_MTU extIface));
      ifaceAddr ← (if cfg_EnableIPv4 config then first_addr (GetInterfaceIP4Addrs extIface) else mret []);
      ifaceAddrV6 ← (if cfg_EnableIPv6 config then first_addr (GetInterfaceIP6Addrs extIface) else mret []);
      '(dev, v6Dev) ← createVXLANDevice config cfg (if_Index extIface) ifaceAddr ifaceAddrV6;
      _ ← configureDeviceIPv4IPv6 dev v6Dev l config;
      d ← lift (deref dev);
      mret (mkVxlanNetwork dev v6Dev (vx_MTU (vd_link d)))
  end.

(** Durations are in nanoseconds. *)
Definition minDuration (a b : Z) : Z := if a <? b then a else b.
Definition maxBackoff : Z := 30 * 1000000000.
Definition retryAfterBackoff (backoff : Z) : Z := minDuration (backoff * 2) maxBackoff.

(** What a sleep brings: the host as others leave it, and whether the context is done. *)
Record nap := mkNap { nap_host : W → W; nap_done : bool }.

(** [reCreateVxlan] for the given sleeps: the network, [None] when it is still trying
    after the last of them, and how long it slept. *)
Fixpoint recreate_loop (ifaceName : string) (l : Lease) (backoff : Z) (done : bool) (naps : list nap)
    : M W (option vxlan_network * list Z) :=
  if done then throw (Errorf "context canceled, stopping vxlan recreate")
  else
    r ← try (recreate_attempt ifaceName l);
    match r, naps with
    | inl nw, _ => mret (Some nw, [])
    | inr _, [] => mret (None, [])
    | inr _, n :: naps =>
        _ ← modify (nap_host n);
        '(nw, waits) ← recreate_loop ifaceName l (retryAfterBackoff backoff) (nap_done n) naps;
        mret (nw, backoff :: waits)
    end.
Definition reCreateVxlan (ifaceName : string) (l : Lease) (naps : list nap) : M W (option vxlan_network * list Z) :=
  recreate_loop ifaceName l 1000000000 false naps.
End backend.

(** ** [vxlan_network.go]: lease events *)

(** What an event needs for one family: the decoded data and the two routes. *)
Record family_plan := mkPlan { fp_mac : HardwareAddr; fp_direct : bool; fp_directRoute : VRoute; fp_vxlanRoute : VRoute }.
Definition no_plan : family_plan := mkPlan [] false zero_route zero_route.

Section events.
Context {W : Type} `{IfaceHost W, VxlanHost W, Retry W}.
Abbreviation dev_ptr := (option vxlanDevice).

(** Whether a call succeeds; its error is logged. *)
Definition succeeds (c : M W unit) : M W bool :=
  r ← try c; mret (match r with inl _ => true | inr _ => false end).

(** Whether the remote host can be reached directly, where that is wanted. *)
Definition direct_ok (wanted : bool) (ip : IP) : M W bool :=
  if wanted then r ← try (DirectRouting ip); mret (match r with inl dr => dr | inr _ => false end) else mret false.

(** [None] when the data does not decode: the event is skipped. *)
Definition plan4 (dev : dev_ptr) (l : Lease) : M W (option family_plan) :=
  match dev with
  | Some d =>
      if EnableIPv4 l then
        match vxlanLeaseAttrs_Unmarshal (BackendData (Attrs l)) with
        | Ret a =>
            let dst := Some (IP4Net_ToIPNet (Subnet l)) in
            let public := IP4_ToIP (PublicIP (Attrs l)) in
            dr ← direct_ok (vd_directRouting d) public;
            mret (Some (mkPlan (va_VtepMAC a) dr (mkVRoute 0 dst public false)
                         (mkVRoute (vx_Index (vd_link d)) dst (IP4_ToIP (IP4Net_IP (Subnet l))) true)))
        | Err _ => mret None
        | Panic => panic
        end
      else mret (Some no_plan)
  | None => mret (Some no_plan)
  end.

Definition plan6 (v6Dev : dev_ptr) (l : Lease) : M W (option family_plan) :=
  match v6Dev with
  | Some d =>
      if EnableIPv6 l then
        match vxlanLeaseAttrs_Unmarshal (BackendV6Data (Attrs l)) with
        | Ret a =>
            match IP6Net_IP (IPv6Subnet l) with
            | None => mret (Some (mkPlan (va_VtepMAC a) false zero_route zero_route))
            | Some _ =>
                dst ← lift (IP6Net_ToIPNet (IPv6Subnet l));
                gw ← lift (IP6_ToIP (IP6Net_IP (IPv6Subnet l)));
                public ← lift (IP6_ToIP (PublicIPv6 (Attrs l)));
                dr ← direct_ok (vd_directRouting d) public;
                mret (Some (mkPlan (va_VtepMAC a) dr (mkVRoute 0 (Some dst) public false)
                             (mkVRoute (vx_Index (vd_link d)) (Some dst) gw true)))
            end
        | Err _ => mret None
        | Panic => panic
        end
      else mret (Some no_plan)
  | None => mret (Some no_plan)
  end.

(** Adding a lease: whether the event goes on to the other family.  What was added is
    taken back when a later step fails. *)
Definition add4 (dev : dev_ptr) (l : Lease) (p : family_plan) : M W bool :=
  let gateway := mkNeighbor (fp_mac p) (IP4Net_IP (Subnet l)) None in
  let remote := mkNeighbor (fp_mac p) (PublicIP (Attrs l)) None in
  if fp_direct p then succeeds (retry_Do (VRouteReplace (fp_directRoute p)))
  else
    arp ← succeeds (retry_Do (AddARP dev gateway));
    if negb arp then mret false
    else
      fdb ← succeeds (retry_Do (AddFDB dev remote));
      if negb fdb then _ ← succeeds (retry_Do (DelARP dev gateway)); mret false
      else
        route ← succeeds (retry_Do (VRouteReplace (fp_vxlanRoute p)));
        if negb route then
          _ ← succeeds (DelARP dev gateway);
          _ ← succeeds (DelFDB dev remote);
          mret false
        else mret true.

Definition add6 (v6Dev : dev_ptr) (l : Lease) (p : family_plan) : M W bool :=
  let gateway := mkNeighbor (fp_mac p) 0 (IP6Net_IP (IPv6Subnet l)) in
  let remote := mkNeighbor (fp_mac p) 0 (PublicIPv6 (Attrs l)) in
  if fp_direct p then succeeds (retry_Do (VRouteReplace (fp_directRoute p)))
  else
    arp ← succeeds (retry_Do (AddV6ARP v6Dev gateway));
    if negb arp then mret false
    else
      fdb ← succeeds (retry_Do (AddV6FDB v6Dev remote));
      if negb fdb then _ ← succeeds (DelV6ARP v6Dev gateway); mret false
      else
        route ← succeeds (retry_Do (VRouteReplace (fp_vxlanRoute p)));
        if negb route then
          _ ← succeeds (retry_Do (DelV6ARP v6Dev gateway));
          _ ← succeeds (retry_Do (DelV6FDB v6Dev remote));
          mret false
        else mret true.

(** Removing a lease: every entry is tried. *)
Definition remove4 (dev : dev_ptr) (l : Lease) (p : family_plan) : M W unit :=
  if fp_direct p then _ ← succeeds (retry_Do (VRouteDel (fp_directRoute p))); mret tt
  else
    _ ← succeeds (retry_Do (DelARP dev (mkNeighbor (fp_mac p) (IP4Net_IP (Subnet l)) None)));
    _ ← succeeds (retry_Do (DelFDB dev (mkNeighbor (fp_mac p) (PublicIP (Attrs l)) None)));
    _ ← succeeds (retry_Do (VRouteDel (fp_vxlanRoute p)));
    mret tt.

Definition remove6 (v6Dev : dev_ptr) (l : Lease) (p : family_plan) : M W unit :=
  if fp_direct p then _ ← succeeds (retry_Do (VRouteDel (fp_directRoute p))); mret tt
  else
    _ ← succeeds (retry_Do (DelV6ARP v6Dev (mkNeighbor (fp_mac p) 0 (IP6Net_IP (IPv6Subnet l)))));
    _ ← succeeds (retry_Do (DelV6FDB v6Dev (mkNeighbor (fp_mac p) 0 (PublicIPv6 (Attrs l)))));
    _ ← succeeds (retry_Do (VRouteDel (fp_vxlanRoute p)));
    mret tt.

Definition vxlan_event (nw : vxlan_network) (event : Event) : M W unit :=
  let l := Event_Lease event in
  if negb (bool_decide (BackendType (Attrs l) = "vxlan")) then mret tt
  else
    p4 ← plan4 (nw_dev nw) l;
    match p4 with
    | None => mret tt
    | Some p4 =>
        p6 ← plan6 (nw_v6Dev nw) l;
        match p6 with
        | None => mret tt
        | Some p6 =>
            match Event_Type event with
            | EventAdded =>
                go ← (if EnableIPv4 l then add4 (nw_dev nw) l p4 else mret true);
                if (go : bool) && EnableIPv6 l then _ ← add6 (nw_v6Dev nw) l p6; mret tt else mret tt
            | EventRemoved =>
                _ ← (if EnableIPv4 l then remove4 (nw_dev nw) l p4 else mret tt);
                if EnableIPv6 l then remove6 (nw_v6Dev nw) l p6 else mret tt
            end
        end
    end.

Fixpoint vxlan_handleSubnetEvents (nw : vxlan_network) (batch : list Event) : M W unit :=
  match batch with
  | [] => mret tt
  | event :: batch => _ ← vxlan_event nw event; vxlan_handleSubnetEvents nw batch
  end.
End events.

(** ** [Run] *)

(** An update of a link: its name, nothing when it has no attributes, and whether the
    link is deleted. *)
Record LinkUpdate := mkLinkUpdate { lu_Name : option string; lu_Deleted : bool }.

(** [watchVXLANDevice] on an update: whether the channel of one place holds a signal. *)
Definition watch_update (name : string) (queued : bool) (update : LinkUpdate) : bool :=
  match lu_Name update with
  | None => queued
  | Some n => queued || (bool_decide (n = name) && lu_Deleted update)
  end.

(** What happens around [Run]: a batch of events, an update of a link, the signal taken
    by the loop, one turn of a goroutine that recreates the device. *)
Inductive vx_input := VxEvents (batch : list Event) | VxUpdate (update : LinkUpdate) | VxMissing | VxRecreate.

Record vx_state (W : Type) := mkVxState { vs_nw : vxlan_network; vs_queued : bool; vs_recreating : nat; vs_host : W }.
Arguments mkVxState {W}.
Arguments vs_nw {W}.
Arguments vs_queued {W}.
Arguments vs_recreating {W}.
Arguments vs_host {W}.

Section run_loop.
Context {W : Type} `{IfaceHost W, AddrSort, VxlanHost W, Retry W, LeaseSource W, NetworkSource W}.

(** [name] is the device that [Run] watches, the one it starts with. *)
Definition vx_step (ifaceName name : string) (l : Lease) (i : vx_input) : M (vx_state W) unit := λ s,
  match i with
  | VxEvents batch =>
      let (r, w) := vxlan_handleSubnetEvents (vs_nw s) batch (vs_host s) in
      (r, mkVxState (vs_nw s) (vs_queued s) (vs_recreating s) w)
  | VxUpdate update => (Ret tt, mkVxState (vs_nw s) (watch_update name (vs_queued s) update) (vs_recreating s) (vs_host s))
  | VxMissing =>
      if vs_queued s then (Ret tt, mkVxState (vs_nw s) false (S (vs_recreating s)) (vs_host s)) else (Ret tt, s)
  | VxRecreate =>
      match vs_recreating s with
      | O => (Ret tt, s)
      | S n =>
          match recreate_attempt ifaceName l (vs_host s) with
          | (Ret nw, w) => (Ret tt, mkVxState nw (vs_queued s) n w)
          | (Err _, w) => (Ret tt, mkVxState (vs_nw s) (vs_queued s) (S n) w)
          | (Panic, w) => (Panic, mkVxState (vs_nw s) (vs_queued s) (S n) w)
          end
      end
  end.
Fixpoint vxlan_Run (ifaceName name : string) (l : Lease) (inputs : list vx_input) : M (vx_state W) unit :=
  match inputs with
  | [] => mret tt
  | i :: inputs => _ ← vx_step ifaceName name l i; vxlan_Run ifaceName name l inputs
  end.
End run_loop.
