(* ===== verification/VxlanFacts.v ===== *)
(** * The VXLAN backend: what its entries are

    Backend data round trips; against [VxlanLaws], the neighbour, forwarding and route
    entries after a sequence of lease events are those of the leases. *)

From Stdlib Require Import ZArith Lia Ascii.
From stdpp Require Import base strings list gmap numbers.
From S2P Require Import Prelude GoStrings GoRegexp GoJson GoJsonFacts GoNet GoNetFacts Ip4 Ip6 Lease Config Backend BackendFacts Iface Vxlan.

Local Open Scope Z_scope.

(** ** Hardware addresses as text *)

(** What [ParseMAC] accepts: 6, 8 or 20 bytes. *)
Definition mac_ok (hw : HardwareAddr) : Prop := Forall is_byte hw ∧ mac_length hw = true.

Lemma xtoi2_byte b : is_byte b → xtoi2 (digit_char (b / 16)) (digit_char (b mod 16)) = Some b.
Proof.
  unfold is_byte. intros Hb. unfold xtoi2. pose proof (Z.mod_pos_bound b 16). pose proof (Z.div_mod b 16).
  assert (0 <= b / 16 < 16) by (split; [apply Z.div_pos; lia|apply Z.div_lt_upper_bound; lia]).
  rewrite !digit_val_char by lia. cbn. f_equal. lia.
Qed.

Lemma hex_pairs_join hw : Forall is_byte hw → hw ≠ [] → hex_pairs ":" (HardwareAddr_String hw) = Some hw.
Proof.
  unfold HardwareAddr_String. intros Hb Hne. induction Hb as [|b hw Hb Hhw IH]; [done|]. destruct hw as [|b' hw].
  - cbn [fmap list_fmap join hex_byte hex_pairs]. by rewrite xtoi2_byte.
  - change (join ":" (hex_byte <$> b :: b' :: hw)) with
      (String (digit_char (b / 16)) (String (digit_char (b mod 16)) (String ":" (join ":" (hex_byte <$> b' :: hw))))).
    cbn [hex_pairs]. rewrite xtoi2_byte by done. cbn [mbind option_bind Ascii.eqb]. by rewrite IH.
Qed.

Lemma mac_text_length hw : hw ≠ [] → (String.length (HardwareAddr_String hw) + 1 = 3 * length hw)%nat.
Proof.
  unfold HardwareAddr_String. induction hw as [|b hw IH]; [done|]. intros _. destruct hw as [|b' hw]; [done|].
  change (join ":" (hex_byte <$> b :: b' :: hw)) with
    (String (digit_char (b / 16)) (String (digit_char (b mod 16)) (String ":" (join ":" (hex_byte <$> b' :: hw))))).
  cbn [String.length length]. specialize (IH ltac:(done)). cbn [length] in IH. lia.
Qed.

Lemma mac_length_ge hw : mac_length hw = true → (6 <= length hw)%nat.
Proof.
  unfold mac_length. rewrite bool_decide_eq_true. rewrite !elem_of_cons. intros [-> | [-> | [-> | ?%elem_of_nil]]]; [lia..|done].
Qed.

Lemma ParseMAC_String hw : mac_ok hw → ParseMAC (HardwareAddr_String hw) = Some hw.
Proof.
  intros [Hb Hl]. pose proof (mac_length_ge hw Hl) as H6. assert (hw ≠ []) as Hne by (by destruct hw).
  pose proof (mac_text_length hw Hne) as Ht. unfold ParseMAC. rewrite (proj2 (Nat.ltb_ge _ _)) by lia.
  assert (String.get 2 (HardwareAddr_String hw) = Some ":"%char) as ->.
  { destruct hw as [|b [|b' hw]]; [done|cbn in H6; lia|]. done. }
  change (Ascii.eqb ":" ":") with true. cbn iota. cbn [orb]. rewrite (hex_pairs_join hw) by done. unfold mbind, option_bind. by rewrite Hl.
Qed.

Lemma str_get_last t c r : String.get (String.length t) (t +:+ String c r) = Some c.
Proof. by induction t as [|a t IH]. Qed.

Lemma str_substring_prefix t r : String.substring 0 (String.length t) (t +:+ r) = t.
Proof. induction t as [|a t IH]; [by destruct r|]. rewrite str_app_cons. cbn [String.length String.substring]. by rewrite IH. Qed.

Lemma mac_text_plain hw : Forall is_byte hw → str_all plain (HardwareAddr_String hw) = true.
Proof.
  assert (∀ d, 0 <= d < 16 → plain (digit_char d) = true) as Hd.
  { intros d Hd. unfold plain. rewrite digit_char_code by done. destruct (Z.ltb_spec d 10).
    - rewrite !(proj2 (Z.eqb_neq _ _)) by lia. by rewrite (proj2 (Z.leb_le _ _)) by lia.
    - rewrite (proj2 (Z.leb_le 32 _)) by lia. cbn [andb]. rewrite !(proj2 (Z.eqb_neq _ _)) by lia. done. }
  unfold HardwareAddr_String. intros Hb. induction Hb as [|b hw Hb Hhw IH]; [done|]. unfold is_byte in Hb.
  assert (plain (digit_char (b / 16)) = true ∧ plain (digit_char (b mod 16)) = true) as [H1 H2].
  { split; apply Hd; [split; [apply Z.div_pos; lia|apply Z.div_lt_upper_bound; lia]|apply Z.mod_pos_bound; lia]. }
  destruct hw as [|b' hw].
  - cbn [fmap list_fmap join hex_byte str_all]. by rewrite H1, H2.
  - change (join ":" (hex_byte <$> b :: b' :: hw)) with
      (String (digit_char (b / 16)) (String (digit_char (b mod 16)) (String ":" (join ":" (hex_byte <$> b' :: hw))))).
    cbn [str_all]. rewrite H1, H2. by rewrite IH.
Qed.

Lemma hardwareAddr_JSON hw : mac_ok hw → hardwareAddr_UnmarshalJSON (hardwareAddr_MarshalJSON hw) = Ret hw.
Proof.
  intros Hm. unfold hardwareAddr_MarshalJSON, hardwareAddr_UnmarshalJSON. cbn [String.length]. rewrite str_length_app. cbn [String.length].
  rewrite (proj2 (Nat.ltb_ge _ _)) by lia. cbn [orb]. rewrite bool_decide_eq_true_2 by done. cbn [negb orb].
  replace (S (String.length (HardwareAddr_String hw) + 1) - 1)%nat with (S (String.length (HardwareAddr_String hw))) by lia.
  cbn [String.get]. rewrite str_get_last, bool_decide_eq_true_2 by done. cbn [negb].
  replace (S (String.length (HardwareAddr_String hw) + 1) - 2)%nat with (String.length (HardwareAddr_String hw)) by lia.
  cbn [String.substring]. by rewrite str_substring_prefix, ParseMAC_String.
Qed.

(** ** Backend data *)

Definition attrs_ok (a : vxlanLeaseAttrs) : Prop := 0 <= va_VNI a < 2 ^ 32 ∧ mac_ok (va_VtepMAC a).

Definition attrs_members (a : vxlanLeaseAttrs) : list (string * string * json) :=
  [("VNI", fmt_uint 10 (va_VNI a), JNum (fmt_uint 10 (va_VNI a)));
   ("VtepMAC", hardwareAddr_MarshalJSON (va_VtepMAC a), JStr (HardwareAddr_String (va_VtepMAC a)))].

Lemma attrs_members_ok a : attrs_ok a → members_ok (attrs_members a).
Proof.
  intros [Hv [Hb _]]. pose proof (mac_text_plain _ Hb) as Hp. unfold members_ok, attrs_members.
  apply list.Forall_cons; split; [split; [done|]|apply list.Forall_cons; split; [split; [done|]|by apply list.Forall_nil]]; cbn [fst snd].
  - apply digits_text, fmt_uint_digits. lia.
  - pose proof (json_string_text _ Hp) as Ht. unfold json_string in Ht. by rewrite escape_plain in Ht.
Qed.

Lemma vxlan_attrs_text a : vxlanLeaseAttrs_Marshal a = json_object (member_text <$> attrs_members a).
Proof. done. Qed.

Lemma vxlan_attrs_decode a : attrs_ok a → vxlanLeaseAttrs_Unmarshal (Some (vxlanLeaseAttrs_Marshal a)) = Ret a.
Proof.
  intros Ha. change (vxlanLeaseAttrs_Unmarshal (Some ?t)) with (Unmarshal_struct vxlanLeaseAttrs_field t zero_vxlan_attrs).
  rewrite vxlan_attrs_text, Unmarshal_object; [|by apply attrs_members_ok|done]. destruct Ha as [Hv Hm].
  unfold attrs_members. cbn [decode_members]. unfold vxlanLeaseAttrs_field.
  change (field_name "VNI" "VNI") with true. change (field_name "VNI" "VtepMAC") with false.
  change (field_name "VtepMAC" "VtepMAC") with true. cbn iota. unfold decode_uint. rewrite ParseUint_fmt by lia. cbn [mbind outcome_bind].
  rewrite hardwareAddr_JSON by done. by destruct a.
Qed.

(** ** The entries of a host *)

(** The permanent neighbours of a link, the forwarding entries of a VXLAN device and the
    IPv4 routes: destination to link, gateway and on-link flag. *)
Record kview := mkKview {
  k_arp : gmap (Z * IP4) HardwareAddr;
  k_fdb : gmap (Z * HardwareAddr) IP4;
  k_routes : gmap IP4Net (Z * IP4 * bool)
}.
Definition on_arp f (v : kview) : kview := mkKview (f (k_arp v)) (k_fdb v) (k_routes v).
Definition on_fdb f (v : kview) : kview := mkKview (k_arp v) (f (k_fdb v)) (k_routes v).
Definition on_routes f (v : kview) : kview := mkKview (k_arp v) (k_fdb v) (f (k_routes v)).

(** A network with no host bits, which a route can have for destination. *)
Definition subnet_ok (n : IP4Net) : Prop := IP4Net_ok n ∧ IP4Net_aligned n.

(** [host_op c f P G]: the call [c] either has the effect [f], from a view in [P], or
    fails without one; it does not fail on a host in [G] whose view is in [P]. *)
Definition host_op {W} (view : W → kview) (keeps : W → W → Prop) (c : M W unit) (f : kview → kview) (P : kview → Prop) (G : W → Prop) : Prop :=
  ∀ w, ∃ r w', c w = (r, w') ∧ keeps w w' ∧
    (r = Ret tt ∧ P (view w) ∧ view w' = f (view w) ∨ (∃ e, r = Err e) ∧ view w' = view w ∧ ¬ (G w ∧ P (view w))).

Class NeighLaws (W : Type) `{VxlanHost W} := {
  kview_of : W → kview;
  (** the host accepts new entries; it deletes entries that are there *)
  k_accepts : W → Prop;
  k_deletes : W → Prop;
  k_keeps (w w' : W) : Prop := (k_accepts w → k_accepts w') ∧ (k_deletes w → k_deletes w');
  law_arp_set link ip mac : IP4_ok ip →
    host_op kview_of k_keeps (NeighSet (mkNeigh link AF_UNSPEC true true false (IP4_ToIP ip) mac))
      (on_arp (<[(link, ip) := mac]>)) (λ _, True) k_accepts;
  law_arp_del link ip mac : IP4_ok ip →
    host_op kview_of k_keeps (NeighDel (mkNeigh link AF_UNSPEC true true false (IP4_ToIP ip) mac))
      (on_arp (delete (link, ip))) (λ v, is_Some (k_arp v !! (link, ip))) k_deletes;
  law_fdb_set link ip mac : IP4_ok ip →
    host_op kview_of k_keeps (NeighSet (mkNeigh link AF_BRIDGE true false true (IP4_ToIP ip) mac))
      (on_fdb (<[(link, mac) := ip]>)) (λ _, True) k_accepts;
  law_fdb_del link ip mac : IP4_ok ip →
    host_op kview_of k_keeps (NeighDel (mkNeigh link AF_BRIDGE false false true (IP4_ToIP ip) mac))
      (on_fdb (delete (link, mac))) (λ v, k_fdb v !! (link, mac) = Some ip) k_deletes;
  law_route_set link dst gw : subnet_ok dst → IP4_ok gw →
    host_op kview_of k_keeps (VRouteReplace (mkVRoute link (Some (IP4Net_ToIPNet dst)) (IP4_ToIP gw) true))
      (on_routes (<[dst := (link, gw, true)]>)) (λ _, True) k_accepts;
  law_route_del link dst gw : subnet_ok dst → IP4_ok gw →
    host_op kview_of k_keeps (VRouteDel (mkVRoute link (Some (IP4Net_ToIPNet dst)) (IP4_ToIP gw) true))
      (on_routes (delete dst)) (λ v, k_routes v !! dst = Some (link, gw, true)) k_deletes
}.

(** The retry library: the first attempt without an error, or the error of the last one. *)
Fixpoint attempts {W} (n : nat) (c : M W unit) : M W unit :=
  match n with
  | O => throw (Errorf "All attempts fail")
  | S n => r ← try c; match r with inl _ => mret tt | inr _ => attempts n c end
  end.
Class RetryLaws (W : Type) `{Retry W} := {
  law_retry (c : M W unit) (w : W) : ∃ e, retry_Do c w =
    match attempts 10 c w with
    | (Ret _, w') => (Ret tt, w')
    | (Err _, w') => (Err e, w')
    | (Panic, w') => (Panic, w')
    end
}.

Section entries.
Context {W : Type} `{IfaceHost W, VxlanHost W, !NeighLaws W, Retry W, !RetryLaws W}.
Implicit Types (w : W) (c : M W unit) (v : kview).
Abbreviation op := (host_op kview_of k_keeps).

Lemma k_keeps_refl w : k_keeps w w.
Proof. by split. Qed.
Lemma k_keeps_trans w w1 w2 : k_keeps w w1 → k_keeps w1 w2 → k_keeps w w2.
Proof. intros [] []. split; auto. Qed.

Lemma op_attempts n c f P G : op c f P G → op (attempts (S n) c) f P G.
Proof.
  intros Hop. induction n as [|n IH]; intros w; destruct (Hop w) as (r & w1 & E & Hk & Hr).
  - destruct Hr as [(-> & Hp & Hv)|[[e ->] [Hv Hn]]].
    + exists (Ret tt), w1. split_and!; [|done|by left]. cbn [attempts]. by rewrite (run_try_Ret _ _ _ _ _ E).
    + exists (Err (Errorf "All attempts fail")), w1. split_and!; [|done|right; eauto].
      cbn [attempts]. unfold mbind, M_bind, try. by rewrite E.
  - destruct Hr as [(-> & Hp & Hv)|[[e ->] [Hv Hn]]].
    + exists (Ret tt), w1. split_and!; [|done|by left]. change (attempts (S (S n)) c) with (r ← try c; match r with inl _ => mret tt | inr _ => attempts (S n) c end).
      by rewrite (run_try_Ret _ _ _ _ _ E).
    + destruct (IH w1) as (r & w2 & E2 & Hk2 & Hr2). exists r, w2. split_and!; [|by eapply k_keeps_trans|].
      * change (attempts (S (S n)) c) with (r ← try c; match r with inl _ => mret tt | inr _ => attempts (S n) c end).
        unfold mbind, M_bind, try. by rewrite E.
      * rewrite Hv in Hr2. destruct Hr2 as [(-> & ? & ?)|(? & ? & Hn2)]; [by left|]. right. split_and!; [done..|].
        intros [Hg Hp]. apply Hn. done.
Qed.

Lemma op_retry c f P G : op c f P G → op (retry_Do c) f P G.
Proof.
  intros Hop w. destruct (op_attempts 9 c f P G Hop w) as (r & w' & E & Hk & Hr).
  destruct (law_retry c w) as [e Er]. rewrite E in Er. destruct Hr as [(-> & Hp & Hv)|[[e' ->] Hr]].
  - exists (Ret tt), w'. split_and!; [done|done|by left].
  - exists (Err e), w'. split_and!; [done|done|right]. split; [by eexists|done].
Qed.

(** A call whose error is logged. *)
Lemma op_succeeds c f P G w : op c f P G →
  ∃ b w', succeeds c w = (Ret b, w') ∧ k_keeps w w' ∧ kview_of w' = (if b : bool then f else id) (kview_of w) ∧
    (b = true → P (kview_of w)) ∧ (G w → P (kview_of w) → b = true).
Proof.
  intros Hop. destruct (Hop w) as (r & w' & E & Hk & Hr). unfold succeeds. destruct Hr as [(-> & Hp & Hv)|[[e ->] [Hv Hn]]].
  - exists true, w'. rewrite (run_try_Ret _ _ _ _ _ E). done.
  - exists false, w'. split_and!; [|done|done|done|]; [unfold mbind, M_bind, try; by rewrite E|]. intros Hg Hp. by destruct Hn.
Qed.

(** ** One event *)

Section event.
Context (nw : vxlan_network) (d : vxlanDevice) (Hdev : nw_dev nw = Some d) (Hdirect : vd_directRouting d = false).
Abbreviation link := (vx_Index (vd_link d)).

(** An IPv4 lease of a node that runs this backend. *)
Definition vx_lease (l : Lease) (a : vxlanLeaseAttrs) : Prop :=
  BackendType (Attrs l) = "vxlan" ∧ EnableIPv4 l = true ∧ EnableIPv6 l = false ∧ subnet_ok (Subnet l) ∧
  IP4_ok (PublicIP (Attrs l)) ∧ vxlanLeaseAttrs_Unmarshal (BackendData (Attrs l)) = Ret a.

Definition vx_route (sn : IP4Net) : Z * IP4 * bool := (link, IP4Net_IP sn, true).
(** The three entries of a lease. *)
Definition connect (sn : IP4Net) (pub : IP4) (mac : HardwareAddr) v : kview :=
  on_routes (<[sn := vx_route sn]>) (on_fdb (<[(link, mac) := pub]>) (on_arp (<[(link, IP4Net_IP sn) := mac]>) v)).
Definition unconnected (sn : IP4Net) (mac : HardwareAddr) v : Prop :=
  k_arp v !! (link, IP4Net_IP sn) = None ∧ k_fdb v !! (link, mac) = None.

Definition plan_of (l : Lease) (a : vxlanLeaseAttrs) : family_plan :=
  mkPlan (va_VtepMAC a) false (mkVRoute 0 (Some (IP4Net_ToIPNet (Subnet l))) (IP4_ToIP (PublicIP (Attrs l))) false)
    (mkVRoute link (Some (IP4Net_ToIPNet (Subnet l))) (IP4_ToIP (IP4Net_IP (Subnet l))) true).

Lemma vxlan_event_run t l a w : vx_lease l a →
  vxlan_event nw (mkEvent t l) w =
  match t with
  | EventAdded => (_ ← add4 (Some d) l (plan_of l a); mret tt) w
  | EventRemoved => (_ ← remove4 (Some d) l (plan_of l a); mret tt) w
  end.
Proof.
  intros (Ht & H4 & H6 & _ & _ & Hd). unfold vxlan_event. cbn [Event_Lease Event_Type]. rewrite bool_decide_eq_true_2 by done. cbn [negb].
  assert (plan4 (nw_dev nw) l w = (Ret (Some (plan_of l a)), w)) as E4.
  { unfold plan4. rewrite Hdev, H4, Hd. unfold direct_ok. rewrite Hdirect. done. }
  assert (plan6 (nw_v6Dev nw) l w = (Ret (Some no_plan), w)) as E6.
  { unfold plan6. rewrite H6. by destruct (nw_v6Dev nw). }
  rewrite (M_bind_Ret _ _ _ _ _ E4), (M_bind_Ret _ _ _ _ _ E6), H4, H6, Hdev. destruct t; [|done].
  apply M_bind_cong; [done|]. intros b s. by rewrite andb_false_r.
Qed.

Section steps.
Context (l : Lease) (a : vxlanLeaseAttrs) (Hl : vx_lease l a).
Abbreviation sn := (Subnet l).
Abbreviation mac := (va_VtepMAC a).
Abbreviation pub := (PublicIP (Attrs l)).

Lemma lease_ip_ok : IP4_ok (IP4Net_IP sn).
Proof. destruct Hl as (_ & _ & _ & [[? _] _] & _). done. Qed.

Lemma add4_run w : ∃ b w', add4 (Some d) l (plan_of l a) w = (Ret b, w') ∧ k_keeps w w' ∧
  (kview_of w' = connect sn pub mac (kview_of w) ∨
   ¬ k_accepts w ∧ k_routes (kview_of w') = k_routes (kview_of w) ∧
   (k_deletes w → unconnected sn mac (kview_of w) → kview_of w' = kview_of w)).
Proof.
  destruct Hl as (_ & _ & _ & Hsn & Hpub & _). pose proof lease_ip_ok as Hip. unfold add4, plan_of. cbn [fp_direct fp_mac fp_vxlanRoute].
  destruct (op_succeeds _ _ _ _ w (op_retry _ _ _ _ (law_arp_set link (IP4Net_IP sn) mac Hip))) as (b1 & w1 & E1 & K1 & V1 & _ & T1).
  change (NeighSet _) with (AddARP (Some d) (mkNeighbor mac (IP4Net_IP sn) None)) in E1. rewrite (M_bind_Ret _ _ _ _ _ E1).
  destruct b1; cbn [negb].
  2:{ exists false, w1. split; [done|]. split; [done|right]. rewrite V1. split; [|done]. intros Ha. by specialize (T1 Ha I). }
  destruct (op_succeeds _ _ _ _ w1 (op_retry _ _ _ _ (law_fdb_set link pub mac Hpub))) as (b2 & w2 & E2 & K2 & V2 & _ & T2).
  change (NeighSet _) with (AddFDB (Some d) (mkNeighbor mac pub None)) in E2. rewrite (M_bind_Ret _ _ _ _ _ E2).
  destruct b2; cbn [negb].
  2:{ destruct (op_succeeds _ _ _ _ w2 (op_retry _ _ _ _ (law_arp_del link (IP4Net_IP sn) mac Hip))) as (b3 & w3 & E3 & K3 & V3 & _ & T3).
      change (NeighDel _) with (DelARP (Some d) (mkNeighbor mac (IP4Net_IP sn) None)) in E3. rewrite (M_bind_Ret _ _ _ _ _ E3).
      exists false, w3. split; [done|]. split; [eauto using k_keeps_trans|right]. split; [|split].
      - intros Ha. destruct K1 as [K1 _]. by specialize (T2 (K1 Ha) I).
      - rewrite V3, V2, V1. by destruct b3.
      - intros Hdel [Hu _].
        assert (b3 = true) as ->. { apply T3; [by apply K2, K1|]. rewrite V2, V1. cbn. rewrite lookup_insert_eq. eauto. }
        rewrite V3, V2, V1. destruct (kview_of w) as [ka kf kr]. unfold on_arp. cbn in *. f_equal. by rewrite delete_insert_id. }
  destruct (op_succeeds _ _ _ _ w2 (op_retry _ _ _ _ (law_route_set link sn (IP4Net_IP sn) Hsn Hip))) as (b3 & w3 & E3 & K3 & V3 & _ & T3).
  rewrite (M_bind_Ret _ _ _ _ _ E3). destruct b3; cbn [negb].
  { exists true, w3. split; [done|]. split; [eauto using k_keeps_trans|left]. by rewrite V3, V2, V1. }
  destruct (op_succeeds _ _ _ _ w3 (law_arp_del link (IP4Net_IP sn) mac Hip)) as (b4 & w4 & E4 & K4 & V4 & _ & T4).
  change (NeighDel _) with (DelARP (Some d) (mkNeighbor mac (IP4Net_IP sn) None)) in E4. rewrite (M_bind_Ret _ _ _ _ _ E4).
  destruct (op_succeeds _ _ _ _ w4 (law_fdb_del link pub mac Hpub)) as (b5 & w5 & E5 & K5 & V5 & _ & T5).
  change (NeighDel _) with (DelFDB (Some d) (mkNeighbor mac pub None)) in E5. rewrite (M_bind_Ret _ _ _ _ _ E5).
  exists false, w5. split; [done|]. split; [eauto using k_keeps_trans|right]. split; [|split].
  - intros Ha. destruct K1 as [K1 _], K2 as [K2 _]. by specialize (T3 (K2 (K1 Ha)) I).
  - rewrite V5, V4, V3, V2, V1. by destruct b4, b5.
  - intros Hdel [Hu1 Hu2].
    assert (b4 = true) as ->. { apply T4; [by apply K3, K2, K1|]. rewrite V3, V2, V1. cbn. rewrite lookup_insert_eq. eauto. }
    assert (b5 = true) as ->. { apply T5; [by apply K4, K3, K2, K1|]. rewrite V4, V3, V2, V1. cbn. by rewrite lookup_insert_eq. }
    rewrite V5, V4, V3, V2, V1. destruct (kview_of w) as [ka kf kr]. unfold on_arp, on_fdb. cbn in *. f_equal; by rewrite delete_insert_id.
Qed.

Definition disconnect v : kview :=
  on_routes (λ R, if decide (R !! sn = Some (vx_route sn)) then delete sn R else R)
    (on_fdb (λ F, if decide (F !! (link, mac) = Some pub) then delete (link, mac) F else F) (on_arp (delete (link, IP4Net_IP sn)) v)).

Lemma remove4_run w : k_deletes w → ∃ w', remove4 (Some d) l (plan_of l a) w = (Ret tt, w') ∧ k_keeps w w' ∧
  kview_of w' = disconnect (kview_of w).
Proof.
  intros Hdel. destruct Hl as (_ & _ & _ & Hsn & Hpub & _). pose proof lease_ip_ok as Hip. unfold remove4, plan_of. cbn [fp_direct fp_mac fp_vxlanRoute].
  destruct (op_succeeds _ _ _ _ w (op_retry _ _ _ _ (law_arp_del link (IP4Net_IP sn) mac Hip))) as (b1 & w1 & E1 & K1 & V1 & S1 & T1).
  change (NeighDel _) with (DelARP (Some d) (mkNeighbor mac (IP4Net_IP sn) None)) in E1. rewrite (M_bind_Ret _ _ _ _ _ E1).
  destruct (op_succeeds _ _ _ _ w1 (op_retry _ _ _ _ (law_fdb_del link pub mac Hpub))) as (b2 & w2 & E2 & K2 & V2 & S2 & T2).
  change (NeighDel _) with (DelFDB (Some d) (mkNeighbor mac pub None)) in E2. rewrite (M_bind_Ret _ _ _ _ _ E2).
  destruct (op_succeeds _ _ _ _ w2 (op_retry _ _ _ _ (law_route_del link sn (IP4Net_IP sn) Hsn Hip))) as (b3 & w3 & E3 & K3 & V3 & S3 & T3).
  rewrite (M_bind_Ret _ _ _ _ _ E3). exists w3. split; [done|]. split; [eauto using k_keeps_trans|].
  pose proof (proj2 K1 Hdel) as Hd1. pose proof (proj2 K2 Hd1) as Hd2.
  assert (kview_of w1 = on_arp (delete (link, IP4Net_IP sn)) (kview_of w)) as V1'.
  { rewrite V1. destruct b1; [done|]. destruct (kview_of w) as [ka kf kr]. unfold on_arp. cbn in *. f_equal. symmetry. apply delete_id, eq_None_not_Some.
    intros Hs. by specialize (T1 Hdel Hs). }
  unfold disconnect. rewrite <- V1'.
  assert (kview_of w2 = on_fdb (λ F, if decide (F !! (link, mac) = Some pub) then delete (link, mac) F else F) (kview_of w1)) as V2'.
  { rewrite V2. unfold on_fdb. case_decide as Hd; [by rewrite (T2 Hd1 Hd)|]. destruct b2; [by specialize (S2 eq_refl)|]. by destruct (kview_of w1). }
  rewrite <- V2', V3. unfold on_routes. case_decide as Hd; [by rewrite (T3 Hd2 Hd)|]. destruct b3; [by specialize (S3 eq_refl)|]. by destruct (kview_of w2).
Qed.
End steps.
End event.
End entries.

(** ** Sequences of events *)

(** The hardware address that a lease announces. *)
Definition vx_mac (l : Lease) : HardwareAddr :=
  match vxlanLeaseAttrs_Unmarshal (BackendData (Attrs l)) with Ret a => va_VtepMAC a | _ => [] end.

(** The remote hosts after events: public address and hardware address of every subnet. *)
Abbreviation vx_hosts := (gmap IP4Net (IP4 * HardwareAddr)).
Definition vx_apply (D : vx_hosts) (e : Event) : vx_hosts :=
  let l := Event_Lease e in
  match Event_Type e with
  | EventAdded => <[Subnet l := (PublicIP (Attrs l), vx_mac l)]> D
  | EventRemoved => delete (Subnet l) D
  end.

(** The entries of a device are those of the remote hosts: exactly their gateways and
    routes, and the forwarding entry of each. *)
Record reflects (d : vxlanDevice) (D : vx_hosts) (v : kview) : Prop := {
  reflects_arp ip mac : k_arp v !! (vx_Index (vd_link d), ip) = Some mac ↔
    ∃ sn pub, D !! sn = Some (pub, mac) ∧ IP4Net_IP sn = ip;
  reflects_fdb sn pub mac : D !! sn = Some (pub, mac) → k_fdb v !! (vx_Index (vd_link d), mac) = Some pub;
  reflects_routes sn gw b : k_routes v !! sn = Some (vx_Index (vd_link d), gw, b) ↔
    is_Some (D !! sn) ∧ gw = IP4Net_IP sn ∧ b = true
}.

(** Different subnets have different gateways and different hardware addresses. *)
Definition apart (x y : IP4Net * HardwareAddr) : Prop := x.1 ≠ y.1 → IP4Net_IP x.1 ≠ IP4Net_IP y.1 ∧ x.2 ≠ y.2.
Definition apart_from (D : vx_hosts) (l : Lease) : Prop :=
  ∀ sn pub mac, D !! sn = Some (pub, mac) → apart (sn, mac) (Subnet l, vx_mac l).

Lemma connect_reflects d D l v : reflects d D v → apart_from D l →
  reflects d (<[Subnet l := (PublicIP (Attrs l), vx_mac l)]> D) (connect d (Subnet l) (PublicIP (Attrs l)) (vx_mac l) v).
Proof.
  intros [Ha Hf Hr] Hap. split; cbn [k_arp k_fdb k_routes connect on_arp on_fdb on_routes].
  - intros ip mac. destruct (decide (ip = IP4Net_IP (Subnet l))) as [->|Hne].
    + rewrite lookup_insert_eq. split.
      * intros [= <-]. exists (Subnet l), (PublicIP (Attrs l)). by rewrite lookup_insert_eq.
      * intros (sn & pub & Hs & E). destruct (decide (sn = Subnet l)) as [->|Hsn]; [rewrite lookup_insert_eq in Hs; by simplify_eq|].
        rewrite lookup_insert_ne in Hs by done. by destruct (Hap _ _ _ Hs Hsn).
    + rewrite lookup_insert_ne, Ha by naive_solver. split; intros (sn & pub & Hs & E); exists sn, pub; (split; [|done]).
      * rewrite lookup_insert_ne; [done|]. by intros <-.
      * rewrite lookup_insert_ne in Hs; [done|]. by intros <-.
  - intros sn pub mac. destruct (decide (sn = Subnet l)) as [->|Hsn].
    + rewrite lookup_insert_eq. intros [= <- <-]. by rewrite lookup_insert_eq.
    + rewrite lookup_insert_ne by done. intros Hs. destruct (Hap _ _ _ Hs Hsn) as [_ Hm]. cbn in Hm.
      rewrite lookup_insert_ne by (intros [= ?]; done). by eapply Hf.
  - intros sn gw b. destruct (decide (sn = Subnet l)) as [->|Hsn].
    + rewrite !lookup_insert_eq. unfold vx_route. split; [intros [= <- <-]; eauto|]. by intros (_ & -> & ->).
    + by rewrite !lookup_insert_ne by done.
Qed.

Lemma disconnect_reflects d D l a v : reflects d D v → apart_from D l → vx_lease l a →
  reflects d (delete (Subnet l) D) (disconnect d l a v).
Proof.
  intros [Ha Hf Hr] Hap Hl. assert (vx_mac l = va_VtepMAC a) as Em by (destruct Hl as (_ & _ & _ & _ & _ & Hd); unfold vx_mac; by rewrite Hd).
  unfold apart_from in Hap. rewrite Em in Hap. split; cbn [k_arp k_fdb k_routes disconnect on_arp on_fdb on_routes].
  - intros ip mac. destruct (decide (ip = IP4Net_IP (Subnet l))) as [->|Hne].
    + rewrite lookup_delete_eq. split; [done|]. intros (sn & pub & Hs & E). destruct (decide (sn = Subnet l)) as [->|Hsn]; [by rewrite lookup_delete_eq in Hs|].
      rewrite lookup_delete_ne in Hs by done. by destruct (Hap _ _ _ Hs Hsn).
    + rewrite lookup_delete_ne, Ha by naive_solver. split; intros (sn & pub & Hs & E); exists sn, pub; (split; [|done]).
      * rewrite lookup_delete_ne; [done|]. by intros <-.
      * rewrite lookup_delete_ne in Hs; [done|]. by intros <-.
  - intros sn pub mac. rewrite lookup_delete_Some. intros [Hsn Hs]. destruct (Hap _ _ _ Hs) as [_ Hm]; [done|]. cbn in Hm.
    case_decide; [rewrite lookup_delete_ne by (intros [= ?]; done)|]; by eapply Hf.
  - intros sn gw b. destruct (decide (sn = Subnet l)) as [->|Hsn].
    + rewrite lookup_delete_eq. split; [|by intros [[? ?] _]]. case_decide as Hd; [by rewrite lookup_delete_eq|]. intros Hs. exfalso. apply Hd.
      rewrite Hs. apply Hr in Hs as (_ & -> & ->). done.
    + rewrite lookup_delete_ne by done. rewrite <- Hr. case_decide; [by rewrite lookup_delete_ne|done].
Qed.

Section tracking.
Context {W : Type} `{IfaceHost W, VxlanHost W, !NeighLaws W, Retry W, !RetryLaws W}.
Context (nw : vxlan_network) (d : vxlanDevice) (Hdev : nw_dev nw = Some d) (Hdirect : vd_directRouting d = false).

Lemma vxlan_event_step e D (w : W) : (∃ a, vx_lease (Event_Lease e) a) → apart_from D (Event_Lease e) →
  k_accepts w → k_deletes w → reflects d D (kview_of w) →
  ∃ w', vxlan_event nw e w = (Ret tt, w') ∧ k_accepts w' ∧ k_deletes w' ∧ reflects d (vx_apply D e) (kview_of w').
Proof.
  destruct e as [t l]. cbn [Event_Lease]. intros [a Hl] Hap Hacc Hdel Hr.
  assert (vx_mac l = va_VtepMAC a) as Em by (destruct Hl as (_ & _ & _ & _ & _ & Hd); unfold vx_mac; by rewrite Hd).
  rewrite (vxlan_event_run nw d Hdev Hdirect t l a w Hl). unfold vx_apply. cbn [Event_Type Event_Lease]. destruct t.
  - destruct (add4_run d l a Hl w) as (b & w' & E & [K1 K2] & [V|[? _]]); [|done]. rewrite (M_bind_Ret _ _ _ _ _ E).
    exists w'. split; [done|]. split; [auto|]. split; [auto|]. rewrite V, <- Em. by apply connect_reflects.
  - destruct (remove4_run d l a Hl w Hdel) as (w' & E & [K1 K2] & V). rewrite (M_bind_Ret _ _ _ _ _ E).
    exists w'. split; [done|]. split; [auto|]. split; [auto|]. rewrite V. by apply disconnect_reflects.
Qed.

(** At every event, its lease is apart from those of the other subnets that are then held. *)
Fixpoint each_apart (D : vx_hosts) (evts : list Event) : Prop :=
  match evts with
  | [] => True
  | e :: evts => apart_from D (Event_Lease e) ∧ each_apart (vx_apply D e) evts
  end.

Lemma vxlan_handle_run evts D (w : W) : Forall (λ e, ∃ a, vx_lease (Event_Lease e) a) evts → each_apart D evts →
  k_accepts w → k_deletes w → reflects d D (kview_of w) →
  ∃ w', vxlan_handleSubnetEvents nw evts w = (Ret tt, w') ∧ k_accepts w' ∧ k_deletes w' ∧ reflects d (foldl vx_apply D evts) (kview_of w').
Proof.
  intros Hev. revert D w. induction Hev as [|e evts He Hev IH]; intros D w Hap Hacc Hdel Hr; [by exists w|].
  destruct Hap as [Hap1 Hap2]. destruct (vxlan_event_step e D w He) as (w1 & E & Hacc1 & Hdel1 & Hr1); [done..|].
  cbn [vxlan_handleSubnetEvents foldl]. rewrite (M_bind_Ret _ _ _ _ _ E). by apply IH.
Qed.

(** Two subnets with one hardware address, as when a node came back with its address and a
    new subnet before its old lease was removed: the removal takes away the forwarding
    entry that the subnet that stays needs. *)
Lemma shared_mac_lost l a D pub (w : W) : vx_lease l a → k_deletes w → reflects d D (kview_of w) →
  D !! Subnet l = Some (PublicIP (Attrs l), va_VtepMAC a) →
  ∃ w', vxlan_event nw (mkEvent EventRemoved l) w = (Ret tt, w') ∧
    k_fdb (kview_of w') !! (vx_Index (vd_link d), va_VtepMAC a) = None ∧
    ∀ sn, sn ≠ Subnet l → D !! sn = Some (pub, va_VtepMAC a) →
      k_routes (kview_of w') !! sn = Some (vx_Index (vd_link d), IP4Net_IP sn, true).
Proof.
  intros Hl Hdel [_ Hf Hr] HD. destruct (remove4_run d l a Hl w Hdel) as (w' & E & _ & V).
  exists w'. rewrite (vxlan_event_run nw d Hdev Hdirect EventRemoved l a w Hl), (M_bind_Ret _ _ _ _ _ E), V. split; [done|].
  split; cbn [k_fdb k_routes disconnect on_arp on_fdb on_routes].
  - rewrite decide_True by (by eapply Hf). by rewrite lookup_delete_eq.
  - intros sn Hne Hs. case_decide; [rewrite lookup_delete_ne by done|]; apply Hr; by rewrite Hs.
Qed.
End tracking.

(** C4: for IPv4-only leases of VXLAN nodes, with data that can be read and subnets at whose
    first address the gateway can be, without direct routing, with the VXLAN device free of entries
    and a host that takes and deletes them: when each event's lease has a gateway and a
    hardware address other than those of the leases then held for other subnets, the
    entries of the device after the sequence of events are those of the leases that are
    left: a permanent neighbour for every gateway and no other, a route on the device for
    every subnet and no other, and a forwarding entry to the public address of every
    remote host.  Nothing is claimed while a hardware address stands for two subnets, as when
    a node comes back with a new subnet before its old lease is removed: the removal then
    deletes the forwarding entry of both. *)
Theorem vxlan_tracks_leases W `{IfaceHost W, VxlanHost W, !NeighLaws W, Retry W, !RetryLaws W} nw d evts (w : W) :
  nw_dev nw = Some d → vd_directRouting d = false → Forall (λ e, ∃ a, vx_lease (Event_Lease e) a) evts →
  each_apart ∅ evts → k_accepts w → k_deletes w → reflects d ∅ (kview_of w) →
  ∃ w', vxlan_handleSubnetEvents nw evts w = (Ret tt, w') ∧ reflects d (foldl vx_apply ∅ evts) (kview_of w').
Proof.
  intros Hd Hdr Hev Hap Hacc Hdel Hr. destruct (vxlan_handle_run nw d Hd Hdr evts ∅ w) as (w' & E & _ & _ & Hr'); [done..|].
  by exists w'.
Qed.

(** C18: an IPv4-only remote host with data that can be read that is added without direct routing, when the device has no
    neighbour and no forwarding entry for it yet, is connected entirely or not at all: when
    the host takes only some of the new entries, those taken are taken back, on a host
    that lets entries be deleted, and the tables are as before. *)
Theorem vxlan_add_all_or_nothing W `{IfaceHost W, VxlanHost W, !NeighLaws W, Retry W, !RetryLaws W} nw d l a (w : W) :
  nw_dev nw = Some d → vd_directRouting d = false → vx_lease l a → k_deletes w →
  unconnected d (Subnet l) (va_VtepMAC a) (kview_of w) →
  ∃ w', vxlan_event nw (mkEvent EventAdded l) w = (Ret tt, w') ∧
    (kview_of w' = connect d (Subnet l) (PublicIP (Attrs l)) (va_VtepMAC a) (kview_of w) ∨ kview_of w' = kview_of w).
Proof.
  intros Hd Hdr Hl Hdel Hu. rewrite (vxlan_event_run nw d Hd Hdr EventAdded l a w Hl).
  destruct (add4_run d l a Hl w) as (b & w' & E & _ & Hv). rewrite (M_bind_Ret _ _ _ _ _ E).
  exists w'. split; [done|]. destruct Hv as [?|(_ & _ & Hv)]; [by left|right; auto].
Qed.

(** The data that a node registers with its lease is what the other nodes decode from
    it: network identifier and hardware address survive the JSON text. *)
Theorem vxlan_data_roundtrip publicIP publicIPv6 vnid d v6Dev attrs : publicIP ≠ [] → 0 <= vnid < 2 ^ 32 → mac_ok (MACAddr d) →
  newSubnetAttrs publicIP publicIPv6 vnid (Some d) v6Dev = Ret attrs →
  vxlanLeaseAttrs_Unmarshal (BackendData attrs) = Ret (mkVxlanAttrs vnid (MACAddr d)) ∧ FromIP publicIP = Ret (PublicIP attrs).
Proof.
  intros Hp Hv Hm E. unfold newSubnetAttrs in E. rewrite decide_False in E by done.
  apply bind_inv in E as ([pub data] & E1 & E). apply bind_inv in E1 as (p & Hpub & [= <- <-]).
  apply bind_inv in E as ([pub6 data6] & _ & [= <-]). cbn [BackendData PublicIP]. split; [|done].
  by apply vxlan_attrs_decode.
Qed.

(** ** A host in memory *)

(** [vm_full]: the forwarding table takes no more entries. *)
Record vxmem := mkVxmem {
  vm_if : ifview;
  vm_links : gmap string AnyLink;
  vm_k : kview;
  vm_full : bool;
  vm_iface : option Interface;
  vm_config : option Config
}.
Definition vm_on_k (f : kview → kview) (w : vxmem) : vxmem :=
  mkVxmem (vm_if w) (vm_links w) (f (vm_k w)) (vm_full w) (vm_iface w) (vm_config w).
Definition vm_on_if {A} (c : M ifview A) : M vxmem A := λ w,
  let (r, i) := c (vm_if w) in (r, mkVxmem i (vm_links w) (vm_k w) (vm_full w) (vm_iface w) (vm_config w)).
Definition vm_on_links (f : gmap string AnyLink → gmap string AnyLink) (w : vxmem) : vxmem :=
  mkVxmem (vm_if w) (f (vm_links w)) (vm_k w) (vm_full w) (vm_iface w) (vm_config w).

(** The index of a link is a number for its name. *)
Definition link_index (n : string) : Z := Z.pos (encode n).
Definition place (n : string) (v : Vxlan) : Vxlan :=
  mkVxlan n (vx_HardwareAddr v) (vx_MTU v) (link_index n) (vx_VxlanId v) (vx_VtepDevIndex v) (vx_SrcAddr v)
    (vx_Group v) (vx_L2miss v) (vx_Port v) (vx_Learning v) (vx_GBP v).
Definition link_at (n : string) (l : AnyLink) : option AnyLink :=
  match l with
  | VxlanLink v => Some (VxlanLink (place n v))
  | OtherLink t _ _ => if decide (t = "vxlan") then None else Some (OtherLink t n (link_index n))
  end.
Definition links_of (w : vxmem) : gmap string AnyLink := map_imap link_at (vm_links w).

(** What the kernel accepts for a VXLAN device: a 24-bit identifier, an MTU that IPv4
    allows, an Ethernet address. *)
Definition vxlan_valid (v : Vxlan) : Prop := 0 <= vx_VxlanId v < 2 ^ 24 ∧ 68 <= vx_MTU v ∧ length (vx_HardwareAddr v) = 6%nat.
#[global] Instance vxlan_valid_dec v : Decision (vxlan_valid v).
Proof. unfold vxlan_valid. apply _. Defined.

#[global] Instance vxmem_IfaceHost : IfaceHost vxmem := {
  AddrList link fam := vm_on_if (AddrList link fam);
  AddrAdd link a := vm_on_if (AddrAdd link a);
  AddrDel link a := vm_on_if (AddrDel link a);
  Addr_Equal := @Addr_Equal ifview _;
  RouteGet ip := vm_on_if (RouteGet ip);
  AllRoutes fam := vm_on_if (AllRoutes fam);
  InterfaceByIndex i := vm_on_if (InterfaceByIndex i);
  InterfaceByName _ := λ w, (match vm_iface w with Some i => Ret i | None => Err (Errorf "no such network interface") end, w);
  Interfaces := vm_on_if Interfaces;
  BlackholeList fam dst := vm_on_if (BlackholeList fam dst);
  BlackholeAdd fam dst := vm_on_if (BlackholeAdd fam dst)
}.

Definition refuse {A} : M vxmem A := throw (Errorf "netlink: invalid request").
Definition when (P : vxmem → bool) (f : kview → kview) : M vxmem unit := λ w,
  if P w then (Ret tt, vm_on_k f w) else refuse w.
Definition AnyLink_Name (l : AnyLink) : string := match l with VxlanLink v => vx_Name v | OtherLink _ n _ => n end.

#[global] Instance vxmem_VxlanHost : VxlanHost vxmem := {
  VLinkAdd v := λ w,
    match links_of w !! vx_Name v with
    | Some _ => (Err EEXIST, w)
    | None => if decide (vxlan_valid v) then (Ret (link_index (vx_Name v)), vm_on_links (<[vx_Name v := VxlanLink v]>) w) else refuse w
    end;
  VLinkDel l := λ w, (Ret tt, vm_on_links (delete (AnyLink_Name l)) w);
  VLinkByName n := λ w, (match links_of w !! n with Some l => Ret l | None => Err (Errorf "Link not found") end, w);
  VLinkByIndex i := λ w,
    (match decode (Z.to_pos i) ≫= λ n, links_of w !! n with Some l => Ret l | None => Err (Errorf "Link not found") end, w);
  VLinkSetUp _ := mret tt;
  NeighSet n :=
    match FromIP (ne_IP n), ne_Family n with
    | Ret ip, AF_UNSPEC => when (λ _, true) (on_arp (<[(ne_LinkIndex n, ip) := ne_HardwareAddr n]>))
    | Ret ip, AF_BRIDGE => when (λ w, negb (vm_full w)) (on_fdb (<[(ne_LinkIndex n, ne_HardwareAddr n) := ip]>))
    | _, _ => refuse
    end;
  NeighDel n :=
    match FromIP (ne_IP n), ne_Family n with
    | Ret ip, AF_UNSPEC =>
        when (λ w, bool_decide (is_Some (k_arp (vm_k w) !! (ne_LinkIndex n, ip)))) (on_arp (delete (ne_LinkIndex n, ip)))
    | Ret ip, AF_BRIDGE =>
        when (λ w, bool_decide (k_fdb (vm_k w) !! (ne_LinkIndex n, ne_HardwareAddr n) = Some ip))
          (on_fdb (delete (ne_LinkIndex n, ne_HardwareAddr n)))
    | _, _ => refuse
    end;
  VRouteReplace r :=
    match vr_Dst r ≫= λ dst, addr_net (mkNlAddr dst 0), FromIP (vr_Gw r) with
    | Some dst, Ret gw => when (λ _, true) (on_routes (<[dst := (vr_LinkIndex r, gw, vr_OnLink r)]>))
    | _, _ => refuse
    end;
  VRouteDel r :=
    match vr_Dst r ≫= λ dst, addr_net (mkNlAddr dst 0), FromIP (vr_Gw r) with
    | Some dst, Ret gw =>
        when (λ w, bool_decide (k_routes (vm_k w) !! dst = Some (vr_LinkIndex r, gw, vr_OnLink r))) (on_routes (delete dst))
    | _, _ => refuse
    end;
  Sysctl _ _ := mret tt;
  rand_Read6 := mret [171; 2; 3; 4; 5; 6]
}.
#[global] Instance vxmem_Retry : Retry vxmem := { retry_Do c := attempts 10 c }.
#[global] Instance vxmem_RetryLaws : RetryLaws vxmem.
Proof. split. intros c w. destruct (attempts 10 c w) as [[[]|e|] w'] eqn:E; [exists (Errorf "")|exists e|exists (Errorf "")]; done. Qed.

Lemma when_op P Q f G (keeps : vxmem → vxmem → Prop) : (∀ w, P w = true → Q (vm_k w)) → (∀ w, G w → Q (vm_k w) → P w = true) →
  (∀ w, keeps w w) → (∀ w, keeps w (vm_on_k f w)) → host_op vm_k keeps (when P f) f Q G.
Proof.
  intros HPQ HQP Hr Hk w. unfold when. destruct (P w) eqn:E.
  - exists (Ret tt), (vm_on_k f w). split_and!; [done|apply Hk|left; auto].
  - eexists (Err _), w. split_and!; [done|apply Hr|right]. split_and!; [by eexists|done|]. intros [Hg Hq]. by rewrite (HQP w Hg Hq) in E.
Qed.

Lemma addr_net_ToIPNet n : IP4Net_ok n → addr_net (mkNlAddr (IP4Net_ToIPNet n) 0) = Some n.
Proof. intros Hn. apply addr_net_is. split; [done|]. split; [apply To4_ToIP|done]. Qed.

#[global, refine] Instance vxmem_NeighLaws : NeighLaws vxmem := {
  kview_of := vm_k;
  k_accepts w := vm_full w = false;
  k_deletes w := True
}.
Proof.
  all: intros link; intros; cbn [NeighSet NeighDel VRouteReplace VRouteDel vxmem_VxlanHost ne_IP ne_Family vr_Dst vr_Gw mbind option_bind].
  all: rewrite ?addr_net_ToIPNet by (match goal with Hs : subnet_ok _ |- _ => apply Hs end).
  all: rewrite FromIP_ToIP by done; apply when_op; cbn; intros w; rewrite ?negb_true_iff, ?bool_decide_eq_true; tauto.
Defined.

Definition sample_vtep (k : Z) : HardwareAddr := [2; 66; 10; 0; 0; k].
Definition vx_sample (k : Z) : Lease :=
  mkLease true false (mkIP4Net (183762944 + 256 * k) 24) (mkIP6Net None 0)
    (mkLeaseAttrs (3232235776 + k) None "vxlan" (Some (vxlanLeaseAttrs_Marshal (mkVxlanAttrs 1 (sample_vtep k)))) None) 0 0.
Definition sample_device : vxlanDevice :=
  mkDevice (mkVxlan "flannel.1" (sample_vtep 0) 1450 7 1 2 (IP4_ToIP 3232235776) [] false 8472 false false) false.
Definition sample_vxnetwork : vxlan_network := mkVxlanNetwork (Some sample_device) None 1500.
Definition empty_vxmem (full : bool) : vxmem :=
  mkVxmem sample_ifaces ∅ (mkKview ∅ ∅ {[ lan_addr := (2, 3232235777, false) ]}) full (Some (mkInterface 2 "eth0" 1500)) None.

Lemma vx_sample_lease k : 0 <= k < 256 → vx_lease (vx_sample k) (mkVxlanAttrs 1 (sample_vtep k)).
Proof.
  intros Hk. assert (is_byte k) by done. split_and!; try done; cbn.
  - split; [split; [split; cbn; lia|cbn; lia]|]. unfold IP4Net_aligned. cbn. change (IP4Net_size _) with 256.
    replace (183762944 + 256 * k) with (256 * (717824 + k)) by lia. rewrite Z.mul_comm. apply Z.mod_mul. lia.
  - split; lia.
  - apply vxlan_attrs_decode. split; [done|]. split; [|done]. repeat constructor; try (by vm_compute). all: lia.
Qed.

Lemma vx_sample_mac k : 0 <= k < 256 → vx_mac (vx_sample k) = sample_vtep k.
Proof. intros Hk. destruct (vx_sample_lease k Hk) as (_ & _ & _ & _ & _ & E). unfold vx_mac. by rewrite E. Qed.

Lemma vx_sample_apart i j : 0 <= i < 256 → 0 <= j < 256 →
  apart (Subnet (vx_sample i), vx_mac (vx_sample i)) (Subnet (vx_sample j), vx_mac (vx_sample j)).
Proof.
  intros Hi Hj. rewrite !vx_sample_mac by done. unfold apart. cbn. intros Hne. assert (i ≠ j) by (by intros ->). split; [lia|].
  unfold sample_vtep. congruence.
Qed.

Definition sample_vx_events : list Event :=
  [mkEvent EventAdded (vx_sample 1); mkEvent EventAdded (vx_sample 2); mkEvent EventRemoved (vx_sample 1)].

Lemma vxlan_tracks_leases_witness : ∃ w',
  vxlan_handleSubnetEvents sample_vxnetwork sample_vx_events (empty_vxmem false) = (Ret tt, w') ∧
  k_routes (kview_of w') !! mkIP4Net 183763456 24 = Some (7, 183763456, true) ∧
  k_arp (kview_of w') !! (7, 183763200) = None.
Proof.
  destruct (vxlan_tracks_leases vxmem sample_vxnetwork sample_device sample_vx_events (empty_vxmem false)) as (w' & E & Hr);
    [done|done| | |done|done| |].
  - repeat (apply list.Forall_cons; split; [eexists; by apply vx_sample_lease|]). by apply list.Forall_nil.
  - assert (∀ D i, 0 <= i < 256 → map_Forall (λ sn v, ∃ j, 0 <= j < 256 ∧ sn = Subnet (vx_sample j) ∧ v.2 = vx_mac (vx_sample j)) D →
      apart_from D (vx_sample i)) as Hap.
    { intros D i Hi HD sn pub mac Hs. destruct (HD _ _ Hs) as (j & Hj & -> & E). cbn in E. subst mac. by apply vx_sample_apart. }
    unfold sample_vx_events. cbn [each_apart Event_Lease]. unfold vx_apply. cbn [Event_Type Event_Lease].
    split_and!; [..|done]; (apply Hap; [lia|]); repeat (apply map_Forall_insert_2; [eexists; (split; [|split; reflexivity]); lia|]);
      apply map_Forall_empty.
  - split; [|done|].
    + intros ip mac. split; [by vm_compute|]. intros (sn & pub & Hs & _). by rewrite lookup_empty in Hs.
    + intros sn gw b. rewrite lookup_empty. split; [|by intros [[? ?] _]].
      change (k_routes (kview_of (empty_vxmem false))) with ({[ lan_addr := (2, 3232235777, false) ]} : gmap IP4Net (Z * IP4 * bool)).
      rewrite lookup_singleton_Some. by intros [_ ?].
  - exists w'. split; [done|]. split.
    + apply (reflects_routes _ _ _ Hr). split; [|split; reflexivity]. eexists. vm_compute. reflexivity.
    + destruct (k_arp (kview_of w') !! (7, 183763200)) as [mac|] eqn:Ea; [|done].
      apply (reflects_arp _ _ _ Hr) in Ea as (sn & pub & Hs & Ei). unfold sample_vx_events in Hs. cbn [foldl] in Hs.
      unfold vx_apply in Hs. cbn [Event_Type Event_Lease] in Hs. rewrite lookup_delete_Some, !lookup_insert_Some, lookup_empty in Hs.
      destruct Hs as [Hne [[<- _]|[_ [[<- _]|[_ ?]]]]]; [by vm_compute in Ei|by destruct Hne|done].
Defined.

Lemma vxlan_add_all_or_nothing_witness : ∃ w',
  vxlan_event sample_vxnetwork (mkEvent EventAdded (vx_sample 1)) (empty_vxmem true) = (Ret tt, w') ∧ kview_of w' = kview_of (empty_vxmem true).
Proof.
  destruct (vxlan_add_all_or_nothing vxmem sample_vxnetwork sample_device (vx_sample 1) (mkVxlanAttrs 1 (sample_vtep 1)) (empty_vxmem true))
    as (w' & E & Hv); [done|done|by apply vx_sample_lease|done|split; by vm_compute|]. exists w'. split; [exact E|].
  assert (k_routes (kview_of (vxlan_event sample_vxnetwork (mkEvent EventAdded (vx_sample 1)) (empty_vxmem true)).2)
            !! Subnet (vx_sample 1) = None) as Hn by (by vm_compute). rewrite E in Hn.
  destruct Hv as [Hv|Hv]; [|exact Hv]. cbn [snd] in Hn. rewrite Hv in Hn. unfold connect in Hn. cbn [k_routes on_routes] in Hn.
  by rewrite lookup_insert_eq in Hn.
Defined.

Lemma vxlan_data_roundtrip_witness : ∃ attrs,
  newSubnetAttrs (IP4_ToIP 3232235777) [] 1 (Some sample_device) None = Ret attrs ∧
  vxlanLeaseAttrs_Unmarshal (BackendData attrs) = Ret (mkVxlanAttrs 1 (sample_vtep 0)).
Proof.
  eexists. split; [reflexivity|].
  apply (vxlan_data_roundtrip (IP4_ToIP 3232235777) [] 1 sample_device None); [done|lia| |reflexivity].
  split; [|done]. repeat constructor; by vm_compute.
Defined.
