(* ===== verification/VxlanDevice.v ===== *)
(** * The VXLAN device: created, reused, recreated

    What links the host has is in [DeviceLaws].  The theorems: [reCreateVxlan] ends as
    soon as the host lets it, with bounded waits between its attempts; the device it
    leaves; the MTU that the network reports before and after. *)

From Stdlib Require Import ZArith Lia Ascii.
From stdpp Require Import base strings list gmap numbers.
From S2P Require Import Prelude GoStrings GoJson GoNet GoNetFacts Ip4 Ip6 Lease Config Backend BackendFacts Iface Vxlan VxlanFacts.

Local Open Scope Z_scope.

(** A link that was made from a description. *)
Definition made_from (v v' : Vxlan) : Prop :=
  vx_Name v' = vx_Name v ∧ vx_HardwareAddr v' = vx_HardwareAddr v ∧ vx_MTU v' = vx_MTU v ∧ vx_VxlanId v' = vx_VxlanId v.

Class DeviceLaws (W : Type) `{IfaceLaws W, VxlanHost W, NetworkSource W} := {
  dv_links : W → gmap string AnyLink;
  dv_ext : W → string → option Interface;
  dv_config : W → option Config;
  (** whether the host lets links be added, deleted and set up *)
  dv_works : W → bool;
  dv_same (w w' : W) : Prop :=
    dv_ext w' = dv_ext w ∧ dv_config w' = dv_config w ∧ dv_works w' = dv_works w ∧ (∀ i, v4addrs w' i = v4addrs w i);
  law_VLinkAdd v w :
    match dv_links w !! vx_Name v with
    | None =>
        (vxlan_valid v ∧ ∃ v' w', VLinkAdd v w = (Ret (vx_Index v'), w') ∧ made_from v v' ∧ dv_same w w' ∧
            dv_links w' = <[vx_Name v := VxlanLink v']> (dv_links w)) ∨
        ((vxlan_valid v → dv_works w = false) ∧ ∃ e, VLinkAdd v w = (Err e, w) ∧ e ≠ EEXIST)
    | Some _ => VLinkAdd v w = (Err EEXIST, w)
    end;
  law_VLinkDel n l w : dv_links w !! n = Some l →
    (∃ w', VLinkDel l w = (Ret tt, w') ∧ dv_same w w' ∧ dv_links w' = delete n (dv_links w)) ∨
    (dv_works w = false ∧ ∃ e, VLinkDel l w = (Err e, w));
  law_VLinkByName n w :
    match dv_links w !! n with Some l => VLinkByName n w = (Ret l, w) | None => ∃ e, VLinkByName n w = (Err e, w) end;
  law_VLinkByIndex n l w : dv_links w !! n = Some l → VLinkByIndex (AnyLink_Index l) w = (Ret l, w);
  law_link_type n t n' i w : dv_links w !! n = Some (OtherLink t n' i) → t ≠ "vxlan";
  law_link_name n v w : dv_links w !! n = Some (VxlanLink v) → vx_Name v = n;
  law_VLinkSetUp n l w : dv_links w !! n = Some l →
    (∃ w', VLinkSetUp (AnyLink_Index l) w = (Ret tt, w') ∧ dv_same w w' ∧ dv_links w' = dv_links w) ∨
    (dv_works w = false ∧ ∃ e, VLinkSetUp (AnyLink_Index l) w = (Err e, w));
  law_Sysctl k x w : ∃ r w', Sysctl k x w = (r, w') ∧ r ≠ Panic ∧ dv_same w w' ∧ dv_links w' = dv_links w;
  law_rand w : ∃ b w', rand_Read6 w = (Ret b, w') ∧ length b = 6%nat ∧ dv_same w w' ∧ dv_links w' = dv_links w;
  law_InterfaceByName n w :
    match dv_ext w n with Some i => InterfaceByName n w = (Ret i, w) | None => ∃ e, InterfaceByName n w = (Err e, w) end;
  law_GetNetworkConfig w :
    match dv_config w with Some c => sm_GetNetworkConfig w = (Ret c, w) | None => ∃ e, sm_GetNetworkConfig w = (Err e, w) end;
  law_GetStoredMac w : ∃ m m6, sm_GetStoredMacAddresses w = (Ret (m, m6), w) ∧
    (stored_mac m = [] ∨ length (stored_mac m) = 6%nat);
  law_AddrDel_frame link a w : let w' := (AddrDel link a w).2 in
    dv_links w' = dv_links w ∧ dv_ext w' = dv_ext w ∧ dv_config w' = dv_config w ∧ dv_works w' = dv_works w;
  law_AddrAdd_frame link a w : let w' := (AddrAdd link a w).2 in
    dv_links w' = dv_links w ∧ dv_ext w' = dv_ext w ∧ dv_config w' = dv_config w ∧ dv_works w' = dv_works w
}.

Section device.
Context {W : Type} `{DeviceLaws W, AddrSort, Retry W}.
Implicit Types (w : W).

Lemma dv_same_refl w : dv_same w w.
Proof. done. Qed.
Lemma dv_same_trans w w1 w2 : dv_same w w1 → dv_same w1 w2 → dv_same w w2.
Proof. intros (E1 & E2 & E4 & E3) (F1 & F2 & F4 & F3). split_and!; [congruence..|]. intros i. by rewrite F3. Qed.

(** ** [ensureLink] *)

(** The link is there under the wanted name with the wanted identifier; it is the wanted
    one unless one was there already. *)
Definition ensured_link (v v' : Vxlan) (w w' : W) : Prop :=
  dv_links w' !! vx_Name v = Some (VxlanLink v') ∧ vx_VxlanId v' = vx_VxlanId v ∧
  (made_from v v' ∨ dv_links w !! vx_Name v = Some (VxlanLink v')).

Lemma locate_run n v w : dv_links w !! n = Some (VxlanLink v) → locate_link (vx_Index v) w = (Ret v, w).
Proof. intros E. unfold locate_link. by rewrite (run_try_Ret _ _ _ _ _ (law_VLinkByIndex _ _ _ E)). Qed.

(** Adding a link where none of that name is. *)
Lemma add_locate v w : dv_links w !! vx_Name v = None → vxlan_valid v → dv_works w = true →
  ∃ v' w', VLinkAdd v w = (Ret (vx_Index v'), w') ∧ locate_link (vx_Index v') w' = (Ret v', w') ∧ dv_same w w' ∧ made_from v v' ∧
    dv_links w' !! vx_Name v = Some (VxlanLink v').
Proof.
  intros En Hv Hwk. pose proof (law_VLinkAdd v w) as E. rewrite En in E.
  destruct E as [(_ & v' & w' & E & Hm & Hs & El)|[Hf _]]; [|rewrite Hf in Hwk by done; done].
  assert (dv_links w' !! vx_Name v = Some (VxlanLink v')) as El' by (by rewrite El, lookup_insert_eq).
  exists v', w'. split; [done|]. split; [by eapply locate_run|done].
Qed.

Lemma incompat_ok v w n l : dv_links w !! n = Some l → ∃ s, vxlanLinksIncompat (VxlanLink v) l = Ret s ∧
  (s = "" → ∃ v', l = VxlanLink v' ∧ vx_VxlanId v' = vx_VxlanId v).
Proof.
  intros El. unfold vxlanLinksIncompat. destruct l as [v'|t n' i]; cbn [Link_Type].
  - rewrite bool_decide_eq_true_2 by done. cbn [negb]. eexists. split; [done|]. destruct (Z.eqb_spec (vx_VxlanId v) (vx_VxlanId v')); cbn [negb]; [|done].
    intros _. eauto.
  - rewrite bool_decide_eq_false_2 by (intros Et; symmetry in Et; by apply (law_link_type _ _ _ _ _ El)). cbn [negb]. eexists. split; [done|done].
Qed.

Lemma ensureLink_run v w : vxlan_valid v → dv_works w = true →
  ∃ v' w', ensureLink v w = (Ret v', w') ∧ dv_same w w' ∧ ensured_link v v' w w'.
Proof.
  intros Hv Hwk. unfold ensureLink. destruct (dv_links w !! vx_Name v) as [l|] eqn:El.
  - pose proof (law_VLinkAdd v w) as E. rewrite El in E. unfold mbind at 1, M_bind at 1, try. rewrite E. rewrite decide_True by done.
    pose proof (law_VLinkByName (vx_Name v) w) as En. rewrite El in En. rewrite (M_bind_Ret _ _ _ _ _ En).
    destruct (incompat_ok v w _ _ El) as (s & Es & Hs). rewrite Es. run. destruct (decide (s = "")) as [->|Hne].
    + destruct Hs as (v' & -> & Hid); [done|]. exists v', w. split; [done|]. split; [apply dv_same_refl|]. split_and!; [done|done|by right].
    + destruct (law_VLinkDel _ _ _ El) as [(w1 & E1 & Hs1 & El1)|[Hf _]]; [|congruence]. rewrite (M_bind_Ret _ _ _ _ _ (wrapping_Ret _ _ _ _ _ E1)).
      destruct (add_locate v w1) as (v' & w2 & E2 & E3 & Hs2 & Hm & El2); [by rewrite El1, lookup_delete_eq|done|by destruct Hs1 as (_ & _ & -> & _)|].
      rewrite (M_bind_Ret _ _ _ _ _ (wrapping_Ret _ _ _ _ _ E2)). exists v', w2. split; [done|]. split; [by eapply dv_same_trans|].
      split_and!; [done|apply Hm|by left].
  - destruct (add_locate v w El Hv Hwk) as (v' & w' & E & E2 & Hs & Hm & El'). rewrite (run_try_Ret _ _ _ _ _ E).
    exists v', w'. split; [done|]. split; [done|]. split_and!; [done|apply Hm|by left].
Qed.

(** ** [createVXLANDevice] and [configureDeviceIPv4IPv6] for IPv4 *)

(** The device stands on the host under its name, with its identifier, and with the MTU
    asked for less the encapsulation unless an older link of that name was kept. *)
Definition device_made (name : string) (vni mtu : Z) (d : vxlanDevice) (w w' : W) : Prop :=
  dv_links w' !! name = Some (VxlanLink (vd_link d)) ∧ vx_VxlanId (vd_link d) = vni ∧
  (dv_links w !! name = None → vx_MTU (vd_link d) = mtu - 50).

Definition attrs_valid (a : vxlanDeviceAttrs) : Prop :=
  0 <= da_vni a < 2 ^ 24 ∧ 118 <= da_MTU a ∧ (da_hwAddr a = [] ∨ length (da_hwAddr a) = 6%nat).

Lemma NewHardwareAddr_run w : ∃ hw w', NewHardwareAddr w = (Ret hw, w') ∧ length hw = 6%nat ∧ dv_same w w' ∧ dv_links w' = dv_links w.
Proof.
  destruct (law_rand w) as (b & w' & E & Hb & Hs & Hl). unfold NewHardwareAddr. rewrite (M_bind_Ret _ _ _ _ _ (wrapping_Ret _ _ _ _ _ E)).
  destruct b as [|b0 b]; [done|]. by eexists _, w'.
Qed.

Lemma newVXLANDevice_run a w : attrs_valid a → dv_works w = true →
  ∃ d w', newVXLANDevice a w = (Ret d, w') ∧ dv_same w w' ∧ device_made (da_name a) (da_vni a) (da_MTU a) d w w'.
Proof.
  intros (Hid & Hmtu & Hhw) Hwk. unfold newVXLANDevice.
  assert (∃ hw w1, (if decide (da_hwAddr a = []) then NewHardwareAddr else mret (da_hwAddr a)) w = (Ret hw, w1) ∧ length hw = 6%nat ∧
    dv_same w w1 ∧ dv_links w1 = dv_links w) as (hw & w1 & E & Hl & Hs & El).
  { case_decide; [apply NewHardwareAddr_run|]. destruct Hhw; [done|]. by eexists _, w. }
  rewrite (M_bind_Ret _ _ _ _ _ E).
  match goal with |- context [ensureLink ?v] => destruct (ensureLink_run v w1) as (v' & w2 & E2 & Hs2 & Hl2 & Hi2 & Hm2) end.
  { unfold vxlan_valid. cbn [vx_VxlanId vx_MTU vx_HardwareAddr]. split_and!; lia || done. }
  { by destruct Hs as (_ & _ & -> & _). }
  rewrite (M_bind_Ret _ _ _ _ _ E2). cbn [vx_Name vx_VxlanId] in *.
  match goal with |- context [Sysctl ?k ?x] => destruct (law_Sysctl k x w2) as (r & w3 & E3 & Hr & Hs3 & El3) end.
  exists (mkDevice v' false), w3. split; [unfold mbind, M_bind, try; rewrite E3; by destruct r|].
  split; [by eapply dv_same_trans; [eapply dv_same_trans|]|]. split; [by rewrite El3|]. split; [done|]. intros Hn. destruct Hm2 as [(_ & _ & Hm & _)|Hm]; [done|]. rewrite El in Hm. by rewrite Hn in Hm.
Qed.

(** A configuration for IPv4 alone, with what the kernel accepts. *)
Definition v4_config (c : Config) : Prop := cfg_EnableIPv4 c = true ∧ cfg_EnableIPv6 c = false ∧ IP4Net_ok (cfg_Network c).
Definition vxlan_config_ok (cfg : VXLANConfig) : Prop := 0 <= vc_VNI cfg < 2 ^ 24 ∧ 118 <= vc_MTU cfg.
Definition device_name (cfg : VXLANConfig) : string := "flannel." +:+ fmt_int (vc_VNI cfg).

Lemma createVXLANDevice_run c cfg i ip ip6 w : v4_config c → vxlan_config_ok cfg → dv_works w = true →
  ∃ d w', createVXLANDevice c cfg i ip ip6 w = (Ret (Some d, None), w') ∧ dv_same w w' ∧
    vd_directRouting d = vc_DirectRouting cfg ∧ device_made (device_name cfg) (vc_VNI cfg) (vc_MTU cfg) d w w'.
Proof.
  intros (Hv4 & Hv6 & _) [Hv Hm] Hwk. unfold createVXLANDevice. destruct (law_GetStoredMac w) as (m & m6 & E & Hmac).
  rewrite (M_bind_Ret _ _ _ _ _ E), Hv4, Hv6.
  destruct (newVXLANDevice_run (device_attrs cfg "flannel." i ip (stored_mac m)) w) as (d & w' & E1 & Hs & Hd).
  { unfold attrs_valid. cbn [device_attrs da_vni da_MTU da_hwAddr]. rewrite wrap_small by lia. split_and!; lia || done. }
  { done. }
  cbn [device_attrs da_vni da_MTU da_name] in Hd. rewrite wrap_small in Hd by lia.
  exists (mkDevice (vd_link d) (vc_DirectRouting cfg)), w'. split; [|done].
  unfold create_family. run. rewrite (M_bind_Ret _ _ _ _ _ E1). done.
Qed.

(** Only the addresses of the host change. *)
Definition only_addrs (w w' : W) : Prop :=
  dv_links w' = dv_links w ∧ dv_ext w' = dv_ext w ∧ dv_config w' = dv_config w ∧ dv_works w' = dv_works w.
Lemma only_addrs_trans w w1 w2 : only_addrs w w1 → only_addrs w1 w2 → only_addrs w w2.
Proof. intros (? & ? & ? & ?) (? & ? & ? & ?). split_and!; congruence. Qed.

Lemma remove_others_frame link addr ipn l has w : only_addrs w (remove_others link addr ipn has l w).2.
Proof.
  revert has w. induction l as [|a l IH]; intros has w; [done|]. cbn [remove_others]. destruct (Addr_Equal a addr); [apply IH|].
  unfold mbind at 1, M_bind at 1, lift. destruct (FromIP (na_IP a)) as [x|e|]; [|done..]. destruct (IP4Net_Contains ipn x); [|run; apply IH].
  run. unfold mbind at 1, M_bind at 1, try. pose proof (law_AddrDel_frame link a w) as Hf. cbv zeta in Hf. fold (only_addrs w (AddrDel link a w).2) in Hf.
  destruct (AddrDel link a w) as [[[]|e|] w1]; cbn [snd] in *; [|done..]. run. by eapply only_addrs_trans.
Qed.

Lemma EnsureV4_frame ipa ipn link w : only_addrs w (EnsureV4AddressOnLink ipa ipn link w).2.
Proof.
  unfold EnsureV4AddressOnLink. destruct (law_AddrList link w) as (l & E & _ & _). rewrite (M_bind_Ret _ _ _ _ _ E). clear E.
  set (addr := mkNlAddr (IP4Net_ToIPNet ipa) 0). pose proof (remove_others_frame link addr ipn l false w) as Hr. unfold mbind at 1, M_bind at 1.
  destruct (remove_others link addr ipn false l w) as [[[]|e|] w1]; cbn [snd] in *; [done| |done..].
  unfold mbind at 1, M_bind at 1, try. pose proof (law_AddrAdd_frame link addr w1) as Hf. cbv zeta in Hf. fold (only_addrs w1 (AddrAdd link addr w1).2) in Hf.
  destruct (AddrAdd link addr w1) as [[[]|e|] w2]; cbn [snd] in *; by eapply only_addrs_trans.
Qed.

(** The device gets the first address of the lease's subnet. *)
Definition device_addr (l : Lease) : IP4Net := mkIP4Net (IP4Net_IP (Subnet l)) 32.

(** Setting the device up gives it the address, or fails when the host does not work. *)
Lemma configure_run d l c w : v4_config c → IP4Net_ok (Subnet l) → IP4Net_Empty (Subnet l) = false →
  dv_links w !! vx_Name (vd_link d) = Some (VxlanLink (vd_link d)) →
  ∃ r w', configureDeviceIPv4IPv6 (Some d) None l c w = (r, w') ∧ dv_links w' = dv_links w ∧
    dv_config w' = dv_config w ∧ device_addr l ∈ v4addrs w' (vx_Index (vd_link d)) ∧
    (r = Ret tt ∨ (∃ e, r = Err e) ∧ dv_works w = false).
Proof.
  intros (Hv4 & Hv6 & Hn) Hsn Hne El. unfold configureDeviceIPv4IPv6. rewrite Hv4, Hv6, Hne.
  destruct (EnsureV4_run (device_addr l) (cfg_Network c) (vx_Index (vd_link d))) with (w := w) as (w1 & E1 & H41 & _ & _); [split; [apply Hsn|cbn; lia]|done|].
  pose proof (EnsureV4_frame (device_addr l) (cfg_Network c) (vx_Index (vd_link d)) w) as Hf. rewrite E1 in Hf. cbn [snd] in Hf.
  destruct Hf as (Fl & Fe & Fc & Fw). pose proof El as El1. rewrite <- Fl in El1.
  cbn [deref]. run. change (mkIP4Net (IP4Net_IP (Subnet l)) 32) with (device_addr l).
  assert (device_addr l ∈ v4addrs w1 (vx_Index (vd_link d))) as Hin by (rewrite H41; by left).
  destruct (law_VLinkSetUp _ _ w1 El1) as [(w2 & E2 & (Ge & Gc & _ & Ga) & Gl)|[Hf (e & E2)]]; cbn [AnyLink_Index] in E2.
  - assert (Configure d (device_addr l) (cfg_Network c) w = (Ret tt, w2)) as Ec.
    { unfold Configure. rewrite (M_bind_Ret _ _ _ _ _ (wrapping_Ret _ _ _ _ _ E1)), (M_bind_Ret _ _ _ _ _ (wrapping_Ret _ _ _ _ _ E2)).
      unfold check_mac. pose proof (law_VLinkByName (vx_Name (vd_link d)) w2) as En. rewrite Gl, El1 in En.
      rewrite (run_try_Ret _ _ _ _ _ En). unfold MACAddr. by rewrite bool_decide_eq_true_2. }
    exists (Ret tt), w2. split; [by rewrite (M_bind_Ret _ _ _ _ _ (wrapping_Ret _ _ _ _ _ Ec))|].
    split_and!; [congruence..|by rewrite Ga|by left].
  - assert (∃ e', Configure d (device_addr l) (cfg_Network c) w = (Err e', w1)) as [e' Ec].
    { unfold Configure. rewrite (M_bind_Ret _ _ _ _ _ (wrapping_Ret _ _ _ _ _ E1)). eexists.
      unfold mbind, M_bind, wrapping, mbind, M_bind, try. by rewrite E2. }
    eexists (Err _), w1. split; [unfold mbind, M_bind, wrapping, mbind, M_bind, try; rewrite Ec; reflexivity|].
    split_and!; [done..|]. right. split; [by eexists|congruence].
Qed.

(** ** One attempt *)

(** The host has what a new device needs. *)
Definition recreate_ready (name : string) (cfg : VXLANConfig) (w : W) : Prop :=
  dv_works w = true ∧ ∃ iface c, dv_ext w name = Some iface ∧ dv_config w = Some c ∧ v4_config c ∧
    parseVXLANConfig (cfg_Backend c) (if_MTU iface) = Ret cfg ∧ vxlan_config_ok cfg ∧
    ∃ addrs, AddrList (if_Index iface) FAMILY_V4 w = (Ret addrs, w) ∧ usable_addrs To4 addrs ≠ [].

(** The device and its network after a successful attempt. *)
Definition recreated (cfg : VXLANConfig) (l : Lease) (nw : vxlan_network) (w w' : W) : Prop :=
  ∃ d, nw = mkVxlanNetwork (Some d) None (vx_MTU (vd_link d)) ∧
    device_made (device_name cfg) (vc_VNI cfg) (vc_MTU cfg) d w w' ∧ device_addr l ∈ v4addrs w' (vx_Index (vd_link d)).

Context (name : string) (l : Lease) (Hsn : IP4Net_ok (Subnet l)) (Hne : IP4Net_Empty (Subnet l) = false).

Lemma recreate_attempt_ready cfg w : recreate_ready name cfg w →
  ∃ nw w', recreate_attempt name l w = (Ret nw, w') ∧ dv_config w' = dv_config w ∧ recreated cfg l nw w w'.
Proof.
  intros (Hwk & iface & c & Ei & Ec & Hc & Hp & Hcfg & addrs & Ea & Hu). unfold recreate_attempt.
  pose proof (law_InterfaceByName name w) as Li. rewrite Ei in Li. rewrite (run_try_Ret _ _ _ _ _ Li).
  pose proof (law_GetNetworkConfig w) as Lc. rewrite Ec in Lc. rewrite (M_bind_Ret _ _ _ _ _ Lc), Hp. run.
  pose proof Hc as (Hv4 & Hv6 & _). rewrite Hv4, Hv6.
  assert (∃ a, first_addr (GetInterfaceIP4Addrs iface) w = (Ret a, w)) as [a Efa].
  { unfold first_addr, GetInterfaceIP4Addrs, getIfaceAddrs. run. rewrite (M_bind_Ret _ _ _ _ _ Ea).
    rewrite decide_False by done. run. destruct (usable_addrs To4 addrs); [done|]. by eexists. }
  rewrite (M_bind_Ret _ _ _ _ _ Efa). run.
  destruct (createVXLANDevice_run c cfg (if_Index iface) a [] w Hc Hcfg Hwk) as (d & w1 & E1 & (_ & Sc & Sw & _) & Hdr & (El & Hid & Hm)).
  rewrite (M_bind_Ret _ _ _ _ _ E1).
  assert (vx_Name (vd_link d) = device_name cfg) as En by (by eapply law_link_name).
  destruct (configure_run d l c w1 Hc Hsn Hne) as (r & w2 & E2 & Fl & Fc & Hin & [-> |[_ Hf]]); [by rewrite En| |congruence].
  rewrite (M_bind_Ret _ _ _ _ _ E2). cbn [deref]. run. eexists _, w2. split; [done|]. split; [congruence|].
  exists d. split; [done|]. split; [|done]. split; [by rewrite Fl|done].
Qed.

(** *** An attempt on any host ends, with an error or not *)

Lemma decode_members_no_panic {A} (field : A → string → string → json → outcome A) ms a :
  (∀ a k raw v, field a k raw v ≠ Panic) → decode_members field ms a ≠ Panic.
Proof.
  intros Hf. revert a. induction ms as [|[[k raw] v] ms IH]; intros a; [done|]. cbn [decode_members].
  specialize (Hf a k raw v). destruct (field a k raw v); [apply IH|done..].
Qed.

Lemma parseVXLANConfig_no_panic s mtu : parseVXLANConfig s mtu ≠ Panic.
Proof.
  unfold parseVXLANConfig. destruct (0 <? String.length s)%nat; [|done]. unfold Unmarshal_struct. destruct (parse_json s) as [[? []]|]; try done.
  apply decode_members_no_panic. intros [] k raw v. unfold VXLANConfig_field.
  repeat (match goal with |- (if ?b then _ else _) ≠ _ => destruct b end);
    try (by unfold decode_int; destruct v; try done; destruct (ParseInt _ _)); try (by destruct v); done.
Qed.

Lemma ensureLink_safe v w : ∃ r w', ensureLink v w = (r, w') ∧ r ≠ Panic ∧ dv_same w w' ∧
  ∀ v', r = Ret v' → dv_links w' !! vx_Name v = Some (VxlanLink v').
Proof.
  unfold ensureLink. pose proof (law_VLinkAdd v w) as E. destruct (dv_links w !! vx_Name v) as [lk|] eqn:El.
  - unfold mbind at 1, M_bind at 1, try. rewrite E. rewrite decide_True by done.
    pose proof (law_VLinkByName (vx_Name v) w) as En. rewrite El in En. rewrite (M_bind_Ret _ _ _ _ _ En).
    destruct (incompat_ok v w _ _ El) as (s & Es & Hs). rewrite Es. run. destruct (decide (s = "")) as [->|Hnes].
    + destruct Hs as (v' & -> & Hid); [done|]. exists (Ret v'), w. split; [done|]. split; [done|]. split; [apply dv_same_refl|]. by intros ? [= <-].
    + destruct (law_VLinkDel _ _ _ El) as [(w1 & E1 & Hs1 & El1)|[_ (e & E1)]].
      2: { eexists (Err _), w. split; [unfold mbind, M_bind, wrapping, mbind, M_bind, try; rewrite E1; reflexivity|done]. }
      rewrite (M_bind_Ret _ _ _ _ _ (wrapping_Ret _ _ _ _ _ E1)). pose proof (law_VLinkAdd v w1) as E2.
      rewrite El1, lookup_delete_eq in E2. destruct E2 as [(_ & v' & w2 & E2 & _ & Hs2 & El2)|(_ & e & E2 & _)].
      * rewrite (M_bind_Ret _ _ _ _ _ (wrapping_Ret _ _ _ _ _ E2)).
        assert (dv_links w2 !! vx_Name v = Some (VxlanLink v')) as Hl by (by rewrite El2, lookup_insert_eq).
        exists (Ret v'), w2. split; [by eapply locate_run|]. split; [done|]. split; [by eapply dv_same_trans|]. by intros ? [= <-].
      * eexists (Err _), w1. split; [unfold mbind, M_bind, wrapping, mbind, M_bind, try; rewrite E2; reflexivity|done].
  - destruct E as [(_ & v' & w' & E & _ & Hs & El')|(_ & e & E & Hn)].
    + assert (dv_links w' !! vx_Name v = Some (VxlanLink v')) as Hl by (by rewrite El', lookup_insert_eq).
      rewrite (run_try_Ret _ _ _ _ _ E). exists (Ret v'), w'. split; [by eapply locate_run|]. split; [done|]. split; [done|]. by intros ? [= <-].
    + exists (Err e), w. split; [|done]. unfold mbind, M_bind, try. rewrite E. by rewrite decide_False.
Qed.

(** The configuration, where there is one, is for IPv4. *)
Definition v4_only (w : W) : Prop := ∀ c, dv_config w = Some c → v4_config c.

Lemma create_safe c cfg i ip ip6 w : v4_config c →
  ∃ r w', createVXLANDevice c cfg i ip ip6 w = (r, w') ∧ r ≠ Panic ∧ dv_same w w' ∧
    ∀ p, r = Ret p → ∃ d, p = (Some d, None) ∧ dv_links w' !! vx_Name (vd_link d) = Some (VxlanLink (vd_link d)).
Proof.
  intros (Hv4 & Hv6 & _). unfold createVXLANDevice. destruct (law_GetStoredMac w) as (m & m6 & E & _).
  rewrite (M_bind_Ret _ _ _ _ _ E), Hv4, Hv6. unfold create_family, newVXLANDevice. run.
  set (a := device_attrs cfg "flannel." i ip (stored_mac m)).
  assert (∃ hw w1, (if decide (da_hwAddr a = []) then NewHardwareAddr else mret (da_hwAddr a)) w = (Ret hw, w1) ∧ dv_same w w1) as (hw & w1 & Eh & Hs).
  { case_decide; [|by eexists _, w]. destruct (NewHardwareAddr_run w) as (hw & w1 & ? & _ & ? & _). by exists hw, w1. }
  rewrite (M_bind_Ret _ _ _ _ _ Eh). run.
  match goal with |- context [ensureLink ?v] => destruct (ensureLink_safe v w1) as (r & w2 & E2 & Hr & Hs2 & Hl2) end.
  destruct r as [v'|e|]; [|exists (Err e), w2|done].
  - rewrite (M_bind_Ret _ _ _ _ _ E2). specialize (Hl2 v' eq_refl). run.
    match goal with |- context [Sysctl ?k ?x] => destruct (law_Sysctl k x w2) as (r & w3 & E3 & Hr3 & Hs3 & El3) end.
    eexists (Ret _), w3. split; [unfold mbind, M_bind, try; rewrite E3; destruct r; [reflexivity|reflexivity|done]|]. split; [done|].
    split; [by eapply dv_same_trans; [eapply dv_same_trans|]|]. intros ? [= <-]. eexists. split; [done|]. cbn [vd_link].
    rewrite El3. pose proof (law_link_name _ _ _ Hl2) as En. by rewrite En.
  - split; [unfold mbind, M_bind; by rewrite E2|]. split; [done|]. split; [by eapply dv_same_trans|done].
Qed.

(** The network's device stands on the host, with the address of the lease. *)
Definition device_up (nw : vxlan_network) (w : W) : Prop :=
  ∃ d, nw_dev nw = Some d ∧ dv_links w !! vx_Name (vd_link d) = Some (VxlanLink (vd_link d)) ∧
    device_addr l ∈ v4addrs w (vx_Index (vd_link d)).

Lemma recreate_attempt_safe w : v4_only w →
  ∃ r w', recreate_attempt name l w = (r, w') ∧ r ≠ Panic ∧ dv_config w' = dv_config w ∧ ∀ nw, r = Ret nw → device_up nw w'.
Proof.
  intros Hv. unfold recreate_attempt. pose proof (law_InterfaceByName name w) as Li.
  destruct (dv_ext w name) as [iface|]; [|destruct Li as [e Li]; eexists (Err _), w; split; [unfold mbind, M_bind, try; rewrite Li; reflexivity|done]].
  rewrite (run_try_Ret _ _ _ _ _ Li). pose proof (law_GetNetworkConfig w) as Lc.
  destruct (dv_config w) as [c|] eqn:Ec; [|destruct Lc as [e Lc]; exists (Err e), w; split; [unfold mbind, M_bind; by rewrite Lc|done]].
  rewrite (M_bind_Ret _ _ _ _ _ Lc). pose proof (Hv c Ec) as Hc. pose proof Hc as (Hv4 & Hv6 & _).
  pose proof (parseVXLANConfig_no_panic (cfg_Backend c) (if_MTU iface)) as Hp.
  destruct (parseVXLANConfig (cfg_Backend c) (if_MTU iface)) as [cfg|e|]; [|exists (Err e), w; done|done]. run. rewrite Hv4, Hv6.
  assert (∃ r, first_addr (GetInterfaceIP4Addrs iface) w = (r, w) ∧ r ≠ Panic) as (r & Efa & Hr).
  { unfold first_addr, GetInterfaceIP4Addrs, getIfaceAddrs. run. destruct (law_AddrList (if_Index iface) w) as (addrs & Ea & _).
    rewrite (M_bind_Ret _ _ _ _ _ Ea). case_decide; [by eexists (Err _)|]. run. destruct (usable_addrs To4 addrs); [done|by eexists]. }
  destruct r as [a|e|]; [|exists (Err e), w; split; [unfold mbind, M_bind; by rewrite Efa|done]|done].
  rewrite (M_bind_Ret _ _ _ _ _ Efa). run.
  destruct (create_safe c cfg (if_Index iface) a [] w Hc) as (r & w1 & E1 & Hr1 & (_ & Sc & _) & Hd).
  destruct r as [p|e|]; [|exists (Err e), w1; split; [unfold mbind, M_bind; by rewrite E1|split; [done|split; [congruence|done]]]|done].
  destruct (Hd p eq_refl) as (d & -> & El). rewrite (M_bind_Ret _ _ _ _ _ E1).
  destruct (configure_run d l c w1 Hc Hsn Hne El) as (rc & w2 & E2 & Fl & Fc & Hin & [-> |[[e ->] _]]).
  2: { exists (Err e), w2. split; [unfold mbind, M_bind; by rewrite E2|]. split; [done|]. split; [congruence|done]. }
  rewrite (M_bind_Ret _ _ _ _ _ E2). cbn [deref]. run.
  eexists (Ret _), w2. split; [done|]. split; [done|]. split; [congruence|]. intros nw [= <-]. exists d. by rewrite Fl.
Qed.

(** ** The loop *)

Definition backoff (k : nat) : Z := Z.min (2 ^ Z.of_nat k) 30 * 1000000000.

Lemma backoff_next k : retryAfterBackoff (backoff k) = backoff (S k).
Proof.
  unfold retryAfterBackoff, minDuration, maxBackoff, backoff. rewrite Nat2Z.inj_succ, Z.pow_succ_r by lia.
  pose proof (Z.pow_pos_nonneg 2 (Z.of_nat k)). destruct (Z.ltb_spec (Z.min (2 ^ Z.of_nat k) 30 * 1000000000 * 2) (30 * 1000000000)); lia.
Qed.

(** A sleep after which the host is ready, and before which the context was not done. *)
Definition wakes_ready (cfg : VXLANConfig) (k : nat) (naps : list nap) : Prop :=
  (∃ n, naps !! k = Some n ∧ ∀ w, v4_only w → recreate_ready name cfg (nap_host n w)) ∧
  (∀ i m, (i <= k)%nat → naps !! i = Some m → nap_done m = false) ∧
  Forall (λ n, ∀ w, v4_only w → v4_only (nap_host n w)) naps.

Lemma recreate_loop_ends cfg k naps j w : v4_only w → wakes_ready cfg k naps →
  ∃ nw waits w', recreate_loop name l (backoff j) false naps w = (Ret (Some nw, waits), w') ∧ device_up nw w' ∧
    (length waits <= S k)%nat ∧ ∀ i x, waits !! i = Some x → x = backoff (j + i).
Proof.
  revert naps j w. induction k as [|k IH]; intros naps j w Hv ((n & Hn & Hready) & Hdone & Hkeep); (destruct naps as [|n0 naps]; [done|]);
    destruct (recreate_attempt_safe w Hv) as (r & w1 & E & Hr & Ec & Hup); cbn [recreate_loop];
    apply list.Forall_cons in Hkeep as [Hk0 Hkeep]; pose proof (Hdone 0%nat n0 ltac:(lia) eq_refl) as Hd0;
    (destruct r as [nw|e|]; [exists nw, [], w1; rewrite (run_try_Ret _ _ _ _ _ E); split; [done|]; split; [by apply Hup|]; split; [cbn; lia|done]| |done]).
  - cbn in Hn. simplify_eq.
    assert (v4_only w1) as Hv1 by (intros c Hc; apply Hv; congruence). pose proof (Hready w1 Hv1) as Hr1.
    destruct (recreate_attempt_ready cfg _ Hr1) as (nw & w2 & E2 & _ & _).
    destruct (recreate_attempt_safe (nap_host n w1)) as (r2 & w2' & E2' & _ & _ & Hup2); [by apply Hk0|]. rewrite E2 in E2'. simplify_eq.
    exists nw, [backoff j], w2'. split; [|split; [by apply Hup2|split; [done|]]].
    + unfold mbind at 1, M_bind at 1, try. rewrite E. run. rewrite Hd0. destruct naps; cbn [recreate_loop]; run; rewrite (run_try_Ret _ _ _ _ _ E2); done.
    + intros [|i] x; [|done]. intros [= <-]. by rewrite Nat.add_0_r.
  - assert (v4_only (nap_host n0 w1)) as Hv1 by (apply Hk0; intros c Hc; apply Hv; congruence).
    destruct (IH naps (S j) (nap_host n0 w1) Hv1) as (nw & waits & w' & E2 & Hup2 & Hlen & Hw).
    { split; [by exists n|]. split; [|done]. intros i m Hi Hm. apply (Hdone (S i)); [lia|done]. }
    exists nw, (backoff j :: waits), w'. split; [|split; [done|split; [cbn; lia|]]].
    + unfold mbind at 1, M_bind at 1, try. rewrite E. run. rewrite Hd0, backoff_next. by rewrite (M_bind_Ret _ _ _ _ _ E2).
    + intros [|i] x; [intros [= <-]; by rewrite Nat.add_0_r|]. cbn. intros Hx. rewrite (Hw i x Hx). f_equal. lia.
Qed.
End device.

(** C14: for a lease with an IPv4 subnet [reCreateVxlan] ends, as long as the network configuration, when there is one, is for
    IPv4 alone (with IPv4 off the code reads the MTU of a nil device) and the context is not done: when the
    host is ready after the k-th sleep (the external interface with an IPv4 address and a
    configuration whose VNI and MTU the kernel takes are there, and links can be added, deleted and set up), whatever links
    there are and whatever failed before, at most k + 1 sleeps are taken, of 1, 2, 4, 8, 16
    and then 30 seconds, and the network that is returned has its device on the host, with
    the address of the lease.  The addresses of a link are listed, added and deleted as
    [IfaceLaws] say. *)
Theorem reCreateVxlan_terminates W `{DeviceLaws W, AddrSort, Retry W} name l cfg k naps (w : W) :
  IP4Net_ok (Subnet l) → IP4Net_Empty (Subnet l) = false → v4_only w → wakes_ready name cfg k naps →
  ∃ nw waits w', reCreateVxlan name l naps w = (Ret (Some nw, waits), w') ∧ device_up l nw w' ∧
    (length waits <= S k)%nat ∧ ∀ i x, waits !! i = Some x → x = backoff i.
Proof. intros Hsn Hne Hv Hw. apply (recreate_loop_ends name l Hsn Hne cfg k naps 0 w Hv Hw). Qed.

(** A recreated network reports too small an MTU: [reCreateVxlan] stores the MTU of
    the device, from which the encapsulation is already taken, where the backend stores
    that of the external interface, so that the overhead is subtracted twice. *)
Theorem recreated_MTU_short W `{DeviceLaws W, AddrSort, Retry W} name l cfg (w : W) :
  IP4Net_ok (Subnet l) → IP4Net_Empty (Subnet l) = false → recreate_ready name cfg w → dv_links w !! device_name cfg = None →
  ∃ nw w', recreate_attempt name l w = (Ret nw, w') ∧ vxlan_MTU nw = vc_MTU cfg - 100 ∧
    ∀ dev v6Dev, vxlan_MTU (newNetwork dev v6Dev (vc_MTU cfg)) = vc_MTU cfg - 50.
Proof.
  intros Hsn Hne Hr Hn. destruct (recreate_attempt_ready name l Hsn Hne cfg w Hr) as (nw & w' & E & _ & d & -> & (_ & _ & Hm) & _).
  eexists _, w'. split; [done|]. unfold vxlan_MTU. cbn [nw_mtu newNetwork]. rewrite (Hm Hn). unfold encapOverhead. split; [lia|done].
Qed.

(** ** A host in memory *)

#[global] Instance vxmem_NetworkSource : NetworkSource vxmem := {
  sm_GetNetworkConfig := λ w, (match vm_config w with Some c => Ret c | None => Err (Errorf "no configuration") end, w);
  sm_GetStoredMacAddresses := mret ("", "")
}.

Lemma vm_on_if_run {A} (c : M ifview A) w r i : c (vm_if w) = (r, i) →
  vm_on_if c w = (r, mkVxmem i (vm_links w) (vm_k w) (vm_full w) (vm_iface w) (vm_config w)).
Proof. intros E. unfold vm_on_if. by rewrite E. Qed.

#[global, refine] Instance vxmem_IfaceLaws : IfaceLaws vxmem := {
  v4addrs w := v4addrs (vm_if w);
  v6addrs w := v6addrs (vm_if w)
}.
Proof.
  - apply (law_Addr_Equal (W := ifview)).
  - apply (law_Addr_Equal_refl (W := ifview)).
  - intros link w. destruct (law_AddrList link (vm_if w)) as (l & E & Hl). exists l. split; [|done].
    cbn [AddrList vxmem_IfaceHost]. rewrite (vm_on_if_run _ _ _ _ E). by destruct w.
  - intros link w. cbn [AddrList vxmem_IfaceHost]. rewrite (vm_on_if_run _ _ _ _ (law_AddrList6 link (vm_if w))). by destruct w.
  - intros link a n w Ha Hn. destruct (law_AddrDel link a n (vm_if w) Ha Hn) as (i & E & Hi). eexists. split; [by apply vm_on_if_run|done].
  - intros link a n w Ha Hn. destruct (law_AddrAdd link a n (vm_if w) Ha Hn) as (i & E & Hi). eexists. split; [by apply vm_on_if_run|done].
Defined.

Lemma links_of_lookup w n l : links_of w !! n = Some l → AnyLink_Name l = n ∧ AnyLink_Index l = link_index n ∧ Link_Type l = match l with VxlanLink _ => "vxlan" | OtherLink t _ _ => t end ∧
  ∀ t n' i, l = OtherLink t n' i → t ≠ "vxlan".
Proof.
  unfold links_of. rewrite map_lookup_imap. destruct (vm_links w !! n) as [[v|t n' i]|]; cbn [mbind option_bind link_at]; [|case_decide; [done|]|done].
  - by intros [= <-].
  - intros [= <-]. split_and!; [done..|]. intros ? ? ? [= <- <- <-]. done.
Qed.

#[global, refine] Instance vxmem_DeviceLaws : DeviceLaws vxmem := {
  dv_links := links_of;
  dv_ext w _ := vm_iface w;
  dv_config := vm_config;
  dv_works _ := true
}.
Proof.
  - intros v w. cbn [VLinkAdd vxmem_VxlanHost]. destruct (links_of w !! vx_Name v) eqn:El; [done|]. case_decide; [left; split; [done|]|right; split; [done|by eexists]].
    exists (place (vx_Name v) v), (vm_on_links (<[vx_Name v := VxlanLink v]>) w). split; [done|]. split; [done|]. split; [done|].
    unfold links_of. cbn [vm_links vm_on_links]. by rewrite (map_imap_insert_Some _ _ _ _ (VxlanLink (place (vx_Name v) v))).
  - intros n l w El. destruct (links_of_lookup w n l El) as (En & _). left. eexists. split; [done|]. split; [done|]. rewrite En.
    unfold links_of. cbn [vm_links vm_on_links]. by rewrite map_imap_delete.
  - intros n w. cbn [VLinkByName vxmem_VxlanHost]. destruct (links_of w !! n); [done|by eexists].
  - intros n l w El. destruct (links_of_lookup w n l El) as (_ & Ei & _). cbn [VLinkByIndex vxmem_VxlanHost]. rewrite Ei. unfold link_index.
    cbn [Z.to_pos]. rewrite decode_encode. cbn [mbind option_bind]. by rewrite El.
  - intros n t n' i w El. destruct (links_of_lookup w n _ El) as (_ & _ & _ & Ht). by eapply Ht.
  - intros n v w El. by destruct (links_of_lookup w n _ El).
  - intros n l w El. left. by exists w.
  - intros k x w. by eexists _, w.
  - intros w. by eexists _, w.
  - intros n w. cbn [InterfaceByName vxmem_IfaceHost]. destruct (vm_iface w); [done|by eexists].
  - intros w. cbn [sm_GetNetworkConfig vxmem_NetworkSource]. destruct (vm_config w); [done|by eexists].
  - intros w. exists "", "". split; [done|by left].
  - intros link a w. cbn [AddrDel vxmem_IfaceHost]. unfold vm_on_if. by destruct (AddrDel link a (vm_if w)).
  - intros link a w. cbn [AddrAdd vxmem_IfaceHost]. unfold vm_on_if. by destruct (AddrAdd link a (vm_if w)).
Defined.

(** Others bring the external interface back and provide a configuration. *)
Definition sample_vx_config : Config := set_Network flannel_net (set_EnableIPv4 true zero_config).
Definition plug_in (w : vxmem) : vxmem :=
  mkVxmem sample_ifaces (vm_links w) (vm_k w) (vm_full w) (Some (mkInterface 7 "eth0" 1500)) (Some sample_vx_config).
Definition sample_vxlan_cfg : VXLANConfig := mkVXLANConfig 1 0 1500 false false false.
Definition unplugged : vxmem :=
  mkVxmem sample_ifaces ∅ (mkKview ∅ ∅ ∅) false None (Some sample_vx_config).

Lemma sample_v4_config : v4_config sample_vx_config.
Proof. split_and!; [done..|]. by vm_compute. Qed.

Lemma plug_in_ready name w : recreate_ready name sample_vxlan_cfg (plug_in w).
Proof.
  split; [done|]. exists (mkInterface 7 "eth0" 1500), sample_vx_config. split; [done|]. split; [done|]. split; [apply sample_v4_config|].
  split; [by vm_compute|]. split; [by vm_compute|].
  exists ((λ n, mkNlAddr (IP4Net_ToIPNet n) IFA_F_PERMANENT) <$> elements (mem_addrs sample_ifaces 7)). split; [done|]. by vm_compute.
Qed.

Lemma reCreateVxlan_terminates_witness : ∃ nw waits w',
  reCreateVxlan "eth0" (vx_sample 1) [mkNap id false; mkNap plug_in false] unplugged = (Ret (Some nw, waits), w') ∧
  device_up (vx_sample 1) nw w' ∧ (length waits <= 2)%nat.
Proof.
  destruct (reCreateVxlan_terminates vxmem "eth0" (vx_sample 1) sample_vxlan_cfg 1 [mkNap id false; mkNap plug_in false] unplugged)
    as (nw & waits & w' & E & Hup & Hlen & _); [apply (vx_sample_lease 1); lia|reflexivity| | |].
  - intros c [= <-]. apply sample_v4_config.
  - split; [|split].
    + exists (mkNap plug_in false). split; [done|]. intros w _. apply plug_in_ready.
    + intros [|[|i]] m Hi; cbn; try (by intros [= <-]); lia.
    + apply list.Forall_cons. split; [done|]. apply list.Forall_cons. split; [|by apply list.Forall_nil].
      intros w _ c [= <-]. apply sample_v4_config.
  - exists nw, waits, w'. exact (conj E (conj Hup Hlen)).
Defined.

Lemma recreated_MTU_short_witness : ∃ nw w',
  recreate_attempt "eth0" (vx_sample 1) (plug_in unplugged) = (Ret nw, w') ∧ vxlan_MTU nw = 1400 ∧
  vxlan_MTU (newNetwork (nw_dev nw) None 1500) = 1450.
Proof.
  destruct (recreated_MTU_short vxmem "eth0" (vx_sample 1) sample_vxlan_cfg (plug_in unplugged)) as (nw & w' & E & Hm & Hn);
    [apply (vx_sample_lease 1); lia|reflexivity|apply plug_in_ready|reflexivity|].
  exists nw, w'. exact (conj E (conj Hm (Hn (nw_dev nw) None))).
Defined.
