(* ===== verification/Wireguard.v ===== *)
(** * [pkg/backend/wireguard]: the WireGuard backend

    The backend keeps a WireGuard device, or one per family, and makes every remote lease
    a peer of it.  [device.go], [wireguard.go] and [wireguard_network.go].  The netlink
    and wgctrl calls are the class [WgHost] over a store [W], beside [IfaceHost]; the
    files of the key are [KeyFiles], the functions on keys of wgtypes [WgTypes]. *)

From Stdlib Require Import ZArith Lia Ascii.
From stdpp Require Import base strings list gmap numbers.
From S2P Require Import Prelude GoStrings GoJson GoNet Ip4 Ip6 Lease Config Backend Iface Vxlan.

Local Open Scope Z_scope.

(** ** [net.ResolveUDPAddr] *)

(** A [net.UDPAddr]; the IP is empty when nil. *)
Record UDPAddr := mkUDPAddr { ua_IP : IP; ua_Port : Z }.
#[global] Instance UDPAddr_eq_dec : EqDecision UDPAddr.
Proof. solve_decision. Defined.

(** A text around the first, or the last, occurrence of a byte. *)
Fixpoint cut_first (c : ascii) (s : string) : option (string * string) :=
  match s with
  | EmptyString => None
  | String d s =>
      if Ascii.eqb d c then Some ("", s)
      else match cut_first c s with Some (a, b) => Some (String d a, b) | None => None end
  end.
Fixpoint cut_last (c : ascii) (s : string) : option (string * string) :=
  match s with
  | EmptyString => None
  | String d s =>
      match cut_last c s with
      | Some (a, b) => Some (String d a, b)
      | None => if Ascii.eqb d c then Some ("", s) else None
      end
  end.
Definition has_byte (c : ascii) (s : string) : bool := negb (str_all (λ d, negb (Ascii.eqb d c)) s).

Definition SplitHostPort (hostport : string) : outcome (string * string) :=
  match cut_last ":" hostport with
  | None => Err (Errorf "missing port in address")
  | Some (before, after) =>
      match hostport with
      | String "[" rest =>
          match cut_first "]" rest with
          | None => Err (Errorf "missing ']' in address")
          | Some (host, String ":" port) =>
              if has_byte ":" port then Err (Errorf "too many colons in address")
              else if has_byte "[" host || has_byte "[" port then Err (Errorf "unexpected '[' in address")
              else if has_byte "]" port then Err (Errorf "unexpected ']' in address")
              else Ret (host, port)
          | Some _ => Err (Errorf "missing port in address")
          end
      | _ =>
          if has_byte ":" before then Err (Errorf "too many colons in address")
          else if has_byte "[" hostport then Err (Errorf "unexpected '[' in address")
          else if has_byte "]" hostport then Err (Errorf "unexpected ']' in address")
          else Ret (before, after)
      end
  end.

(** A port that is not a number would be the name of a service: an error here. *)
Definition parse_port (service : string) : outcome Z :=
  if decide (service = "") then Ret 0
  else
    match ParseUint service 10 16 with
    | Some n => Ret n
    | None => Err (Errorf "unknown port")
    end.

(** ** Keys *)

(** A [wgtypes.Key] is 32 bytes. *)
Abbreviation Key := (list Z).
Class WgTypes := {
  ParseKey : string → outcome Key;
  PublicKey : Key → Key;
  Key_String : Key → string
}.

(** ** The host *)

Record PeerConfig := mkPeerConfig {
  pc_PublicKey : Key;
  pc_Remove : bool;
  pc_PresharedKey : option Key;
  pc_PersistentKeepaliveInterval : option Z;
  pc_Endpoint : option UDPAddr;
  pc_ReplaceAllowedIPs : bool;
  pc_AllowedIPs : list IPNet
}.
Record WgConfig := mkWgConfig {
  wc_PrivateKey : option Key; wc_ListenPort : option Z; wc_ReplacePeers : bool; wc_Peers : list PeerConfig
}.

(** The fields of a [netlink.GenericLink] that the code sets. *)
Record GenericLink := mkGenericLink { gl_Name : string; gl_MTU : Z; gl_LinkType : string; gl_Index : Z }.

Class WgHost (W : Type) := {
  (** the index that [LinkAdd] leaves in its argument; links are given by their index *)
  WgLinkAdd : GenericLink → M W Z;
  WgLinkByName : string → M W Z;
  WgLinkByIndex : Z → M W unit;
  WgLinkDel : Z → M W unit;
  WgLinkSetUp : Z → M W unit;
  (** a route of the scope of the link *)
  WgRouteReplace : Z → IPNet → M W unit;
  wgctrl_New : M W unit;
  wgctrl_Close : M W unit;
  ConfigureDevice : string → WgConfig → M W unit;
  GeneratePrivateKey : M W Key;
  (** the resolver, for a host that is not an address *)
  LookupIP : string → M W IP
}.

(** Files, by their paths: an open file is known by its own. *)
Class KeyFiles (W : Type) := {
  LookupEnv : string → M W (option string);
  key_Stat : string → M W unit;
  os_ReadFile : string → M W string;
  os_MkdirAll : string → M W unit;
  os_Create : string → M W unit;
  os_Chmod : string → Z → M W unit;
  os_WriteString : string → string → M W unit;
  os_Close : string → M W unit
}.

(** ** [device.go] *)

Record wgDeviceAttrs := mkWgAttrs {
  wa_listenPort : Z;
  wa_privateKey : option Key;
  wa_publicKey : option Key;
  wa_psk : option Key;
  wa_keepalive : option Z;
  wa_name : string;
  wa_MTU : Z
}.
Record wgDevice := mkWgDevice { wd_link : GenericLink; wd_attrs : wgDeviceAttrs }.

Definition wg_overhead : Z := 80.

(** The directory part of [filepath.Split]: up to the last slash. *)
Definition split_dir (path : string) : string := match cut_last "/" path with Some (dir, _) => dir +:+ "/" | None => "" end.

Definition set_keys (private : Key) (public : Key) (a : wgDeviceAttrs) : wgDeviceAttrs :=
  mkWgAttrs (wa_listenPort a) (Some private) (Some public) (wa_psk a) (wa_keepalive a) (wa_name a) (wa_MTU a).
Definition set_psk (psk : Key) (a : wgDeviceAttrs) : wgDeviceAttrs :=
  mkWgAttrs (wa_listenPort a) (wa_privateKey a) (wa_publicKey a) (Some psk) (wa_keepalive a) (wa_name a) (wa_MTU a).

Section device.
Context {W : Type} `{IfaceHost W, WgTypes, WgHost W, KeyFiles W}.
Abbreviation dev_ptr := (option wgDevice).

Definition ResolveUDPAddr (address : string) : M W UDPAddr :=
  if decide (address = "") then mret (mkUDPAddr [] 0)
  else
    '(host, service) ← lift (SplitHostPort address);
    port ← lift (parse_port service);
    if decide (host = "") then mret (mkUDPAddr [] port)
    else
      let ip := ParseIP host in
      ip ← (if decide (ip = []) then LookupIP host else mret ip);
      mret (mkUDPAddr ip port).

Definition writePrivateKey (path content : string) : M W unit :=
  _ ← os_MkdirAll (split_dir path);
  _ ← os_Create path;
  _ ← os_Chmod path 256;
  _ ← os_WriteString path content;
  os_Close path.

Definition setupKeys (psk : string) (devAttrs : wgDeviceAttrs) : M W wgDeviceAttrs :=
  env ← LookupEnv "WIREGUARD_KEY_FILE";
  let keyFile := default "/run/flannel/wgkey" env in
  st ← try (key_Stat keyFile);
  devAttrs ←
    (if (match st with inr e => errors_Is e "os.ErrNotExist" | inl _ => false end) then
       privateKey ← wrapping "could not generate private key: %w" GeneratePrivateKey;
       _ ← wrapping "could not write key file: %w" (writePrivateKey keyFile (Key_String privateKey));
       mret (set_keys privateKey (PublicKey privateKey) devAttrs)
     else
       data ← os_ReadFile keyFile;
       privateKey ← wrapping "could not parse private key from file: %w" (lift (ParseKey data));
       mret (set_keys privateKey (PublicKey privateKey) devAttrs));
  if decide (psk = "") then mret devAttrs
  else
    presharedKey ← wrapping "could not parse psk: %w" (lift (ParseKey psk));
    mret (set_psk presharedKey devAttrs).

Definition wg_ensureLink (wglan : GenericLink) : M W GenericLink :=
  r ← try (WgLinkAdd wglan);
  index ←
    (match r with
     | inl index => mret index
     | inr e =>
         if decide (e = EEXIST) then
           existing ← WgLinkByName (gl_Name wglan);
           _ ← WgLinkDel existing;
           wrapping "could not create wireguard interface: %w" (WgLinkAdd wglan)
         else throw (Wrapf "could not create wireguard interface: %w" e)
     end);
  _ ← wrapping "can't locate created wireguard device with index %v: %w" (WgLinkByIndex index);
  mret (mkGenericLink (gl_Name wglan) (gl_MTU wglan) (gl_LinkType wglan) index).

(** A client of wgctrl, closed in any case; an error of closing is logged. *)
Definition with_client {A} (m : M W A) : M W A :=
  _ ← wrapping "failed to open wgctrl: %w" wgctrl_New;
  r ← try m;
  _ ← try wgctrl_Close;
  match r with inl a => mret a | inr e => throw e end.

Definition newWGDevice (devAttrs : wgDeviceAttrs) : M W wgDevice :=
  link ← wg_ensureLink (mkGenericLink (wa_name devAttrs) (wa_MTU devAttrs - wg_overhead) "wireguard" 0);
  let wgcfg := mkWgConfig (wa_privateKey devAttrs) (Some (wa_listenPort devAttrs)) true [] in
  _ ← with_client (wrapping "failed to configure device %w" (ConfigureDevice (wa_name devAttrs) wgcfg));
  mret (mkWgDevice link devAttrs).

(** What the goroutine of a device does when the context ends. *)
Definition wg_remove (dev : wgDevice) : M W unit :=
  wrapping "could not remove wireguard device: %w" (WgLinkDel (gl_Index (wd_link dev))).

(** The methods of a device are called through a pointer. *)
Definition wg_addRoute (dev : dev_ptr) (dst : IPNet) : M W unit :=
  d ← lift (deref dev);
  wrapping "failed to add route %s: %w" (WgRouteReplace (gl_Index (wd_link d)) dst).

Definition upAndAddRoute (dev : dev_ptr) (dst : IPNet) : M W unit :=
  d ← lift (deref dev);
  _ ← wrapping "failed to set interface %s to UP state: %w" (WgLinkSetUp (gl_Index (wd_link d)));
  wrapping "failed to add route to destination (%s) to interface (%s): %w" (wg_addRoute dev dst).

Definition wg_Configure (dev : dev_ptr) (devIP : IP4) (flannelnet : IP4Net) : M W unit :=
  d ← lift (deref dev);
  _ ← wrapping "failed to ensure address of interface %s: %w"
        (EnsureV4AddressOnLink (mkIP4Net devIP 32) flannelnet (gl_Index (wd_link d)));
  wrapping "failed to set up the route: %w" (upAndAddRoute dev (IP4Net_ToIPNet flannelnet)).

Definition ConfigureV6 (dev : dev_ptr) (devIP : option IP6) (flannelnet : IP6Net) : M W unit :=
  d ← lift (deref dev);
  _ ← wrapping "failed to ensure address of interface %s: %w"
        (EnsureV6AddressOnLink (mkIP6Net devIP 128) flannelnet (gl_Index (wd_link d)));
  dst ← lift (IP6Net_ToIPNet flannelnet);
  wrapping "failed to set up the route: %w" (upAndAddRoute dev dst).

Definition addPeer (dev : dev_ptr) (publicEndpoint peerPublicKeyRaw : string) (peerSubnets : list IPNet) : M W unit :=
  udpEndpoint ← wrapping "failed to resolve UDP address: %w" (ResolveUDPAddr publicEndpoint);
  peerPublicKey ← wrapping "failed to parse publicKey: %w" (lift (ParseKey peerPublicKeyRaw));
  d ← lift (deref dev);
  let a := wd_attrs d in
  let wgcfg := mkWgConfig (wa_privateKey a) (Some (wa_listenPort a)) false
                 [mkPeerConfig peerPublicKey false (wa_psk a) (wa_keepalive a) (Some udpEndpoint) true peerSubnets] in
  with_client (wrapping "failed to configure device %w" (ConfigureDevice (wa_name a) wgcfg)).

Definition removePeer (dev : dev_ptr) (peerPublicKeyRaw : string) : M W unit :=
  peerPublicKey ← wrapping "failed to parse publicKey: %w" (lift (ParseKey peerPublicKeyRaw));
  let wgcfg := mkWgConfig None None false [mkPeerConfig peerPublicKey true None None None false []] in
  with_client (d ← lift (deref dev); wrapping "failed to remove peer %w" (ConfigureDevice (wa_name (wd_attrs d)) wgcfg)).
End device.

(** ** [wireguard.go] *)

Abbreviation Mode := string.
Definition Separate : Mode := "separate".
Definition Auto : Mode := "auto".
Definition Ipv4 : Mode := "ipv4".
Definition Ipv6 : Mode := "ipv6".

Record wireguardLeaseAttrs := mkWgLeaseAttrs { wl_PublicKey : string; wl_Port : Z }.
Definition zero_wg_attrs : wireguardLeaseAttrs := mkWgLeaseAttrs "" 0.

Definition wireguardLeaseAttrs_Marshal (a : wireguardLeaseAttrs) : string :=
  json_object [member "PublicKey" (json_string (wl_PublicKey a)); member "Port" (fmt_uint 10 (wl_Port a))].
Definition wireguardLeaseAttrs_field (a : wireguardLeaseAttrs) (key raw : string) (v : json) : outcome wireguardLeaseAttrs :=
  if field_name "PublicKey" key then s ← decode_string (wl_PublicKey a) v; Ret (mkWgLeaseAttrs s (wl_Port a))
  else if field_name "Port" key then n ← decode_uint 16 (wl_Port a) v; Ret (mkWgLeaseAttrs (wl_PublicKey a) n)
  else Ret a.

Definition wg_newSubnetAttrs (publicIP publicIPv6 : IP) (enableIPv4 enableIPv6 : bool) (publicKey : string) (v4Port v6Port : Z)
    : outcome LeaseAttrs :=
  let v4Data := wireguardLeaseAttrs_Marshal (mkWgLeaseAttrs publicKey v4Port) in
  let v6Data := wireguardLeaseAttrs_Marshal (mkWgLeaseAttrs publicKey v6Port) in
  pub ← (if decide (publicIP = []) then Ret 0 else FromIP publicIP);
  pub6 ← (if decide (publicIPv6 = []) then Ret None else FromIP6 publicIPv6);
  Ret (mkLeaseAttrs pub pub6 "wireguard" (if enableIPv4 then Some v4Data else None) (if enableIPv6 then Some v6Data else None)).

(** The configuration of the backend; an interval is a [time.Duration]. *)
Record wgConfigJSON := mkWgConfigJSON {
  wj_ListenPort : Z; wj_ListenPortV6 : Z; wj_MTU : Z; wj_PSK : string; wj_PersistentKeepaliveInterval : Z; wj_Mode : Mode
}.
Definition wgConfigJSON_field (c : wgConfigJSON) (key raw : string) (v : json) : outcome wgConfigJSON :=
  let '(mkWgConfigJSON port port6 mtu psk keepalive mode) := c in
  if field_name "ListenPort" key then n ← decode_int 64 port v; Ret (mkWgConfigJSON n port6 mtu psk keepalive mode)
  else if field_name "ListenPortV6" key then n ← decode_int 64 port6 v; Ret (mkWgConfigJSON port n mtu psk keepalive mode)
  else if field_name "MTU" key then n ← decode_int 64 mtu v; Ret (mkWgConfigJSON port port6 n psk keepalive mode)
  else if field_name "PSK" key then s ← decode_string psk v; Ret (mkWgConfigJSON port port6 mtu s keepalive mode)
  else if field_name "PersistentKeepaliveInterval" key then
    n ← decode_int 64 keepalive v; Ret (mkWgConfigJSON port port6 mtu psk n mode)
  else if field_name "Mode" key then s ← decode_string mode v; Ret (mkWgConfigJSON port port6 mtu psk keepalive s)
  else Ret c.
Definition parse_wgConfig (text : string) (mtu : Z) : outcome wgConfigJSON :=
  let cfg := mkWgConfigJSON 51820 51821 mtu "" 0 Separate in
  if (0 <? String.length text)%nat then Unmarshal_struct wgConfigJSON_field text cfg else Ret cfg.

(** A product of 64-bit integers. *)
Definition i64 (z : Z) : Z := wrap 64 (z + 2 ^ 63) - 2 ^ 63.

(** The network; [wn_ext] is the external interface. *)
Record wg_network := mkWgNetwork {
  wn_dev : option wgDevice;
  wn_v6Dev : option wgDevice;
  wn_ext : ExternalInterface;
  wn_mode : Mode;
  wn_mtu : Z
}.
Definition wg_newNetwork (extIface : ExternalInterface) (dev v6Dev : option wgDevice) (mode : Mode) (mtu : Z) : wg_network :=
  mkWgNetwork dev v6Dev extIface mode mtu.
Definition wg_MTU (n : wg_network) : Z := wn_mtu n - wg_overhead.

Section backend.
Context {W : Type} `{IfaceHost W, WgTypes, WgHost W, KeyFiles W, LeaseSource W}.

Definition createWGDev (name psk : string) (keepalive : Z) (listenPort mtu : Z) : M W wgDevice :=
  devAttrs ← setupKeys psk (mkWgAttrs listenPort None None None (Some keepalive) name mtu);
  newWGDevice devAttrs.

(** [dev.attrs.publicKey.String()] *)
Definition public_key (dev : wgDevice) : outcome string := k ← deref (wa_publicKey (wd_attrs dev)); Ret (Key_String k).

(** The devices that a mode asks for, and the key to announce. *)
Definition create_devices (config : Config) (cfg : wgConfigJSON) (keepalive : Z)
    : M W (option wgDevice * option wgDevice * string) :=
  if decide (wj_Mode cfg = Separate) then
    '(dev, publicKey) ←
      (if cfg_EnableIPv4 config then
         d ← createWGDev "flannel-wg" (wj_PSK cfg) keepalive (wj_ListenPort cfg) (wj_MTU cfg);
         k ← lift (public_key d); mret (Some d, k)
       else mret (None, ""));
    if cfg_EnableIPv6 config then
      d ← createWGDev "flannel-wg-v6" (wj_PSK cfg) keepalive (wj_ListenPortV6 cfg) (wj_MTU cfg);
      k ← lift (public_key d); mret (dev, Some d, k)
    else mret (dev, None, publicKey)
  else if decide (wj_Mode cfg = Auto ∨ wj_Mode cfg = Ipv4 ∨ wj_Mode cfg = Ipv6) then
    d ← createWGDev "flannel-wg" (wj_PSK cfg) keepalive (wj_ListenPort cfg) (wj_MTU cfg);
    k ← lift (public_key d); mret (Some d, None, k)
  else throw (Errorf "no valid Mode configured").

Definition wg_RegisterNetwork (extIface : ExternalInterface) (config : Config) : M W (wg_network * Lease) :=
  cfg ← wrapping "error decoding backend config: %w" (lift (parse_wgConfig (cfg_Backend config) (Iface_MTU extIface)));
  let keepalive := i64 (wj_PersistentKeepaliveInterval cfg * 1000000000) in
  '(dev, v6Dev, publicKey) ← create_devices config cfg keepalive;
  subnetAttrs ← lift (wg_newSubnetAttrs (ExtAddr extIface) (ExtV6Addr extIface) (cfg_EnableIPv4 config) (cfg_EnableIPv6 config) publicKey
                        (wrap 16 (wj_ListenPort cfg)) (wrap 16 (wj_ListenPortV6 cfg)));
  r ← try (sm_AcquireLease subnetAttrs);
  l ← (match r with
       | inl l => mret l
       | inr e => throw (if context_error e then e else Wrapf "failed to acquire lease: %w" e)
       end);
  _ ← (if cfg_EnableIPv4 config then
         _ ← check (IP4Net_Empty (Subnet l)) (Errorf "failed to configure wg interface: IPv4 is enabled but the lease has no IPv4");
         wg_Configure dev (IP4Net_IP (Subnet l)) (cfg_Network config)
       else mret tt);
  _ ← (if cfg_EnableIPv6 config then
         _ ← check (IP6Net_Empty (IPv6Subnet l)) (Errorf "failed to configure wg interface: IPv6 is enabled but the lease has no IPv6");
         ConfigureV6 (if decide (wj_Mode cfg = Separate) then v6Dev else dev) (IP6Net_IP (IPv6Subnet l)) (cfg_IPv6Network config)
       else mret tt);
  mret (wg_newNetwork extIface dev v6Dev (wj_Mode cfg) (wj_MTU cfg), l).
End backend.

(** ** [wireguard_network.go] *)

(** The mode most likely to connect. *)
Definition selectMode (n : wg_network) (ip4 : IP4) (ip6 : option IP6) : outcome Mode :=
  match ip6 with
  | None => Ret Ipv4
  | Some _ =>
      if negb (IP4_IsPrivate ip4) && bool_decide (ExtAddr (wn_ext n) ≠ []) then Ret Ipv4
      else
        private ← IP6_IsPrivate ip6;
        if (private : bool) then Ret Ipv4
        else if decide (ExtV6Addr (wn_ext n) = []) then Ret Ipv4
        else
          own ← FromIP6 (ExtV6Addr (wn_ext n));
          private ← IP6_IsPrivate own;
          Ret (if (private : bool) then Ipv4 else Ipv6)
  end.

(** The backend data of a family, over what is already decoded; a nil message is empty. *)
Definition wg_decode (enabled : bool) (data : RawMessage) (a : wireguardLeaseAttrs) : outcome wireguardLeaseAttrs :=
  if enabled && (0 <? String.length (default "" data))%nat
  then Unmarshal_struct wireguardLeaseAttrs_field (default "" data) a else Ret a.

(** The port of a peer: the device's own when none is announced. *)
Definition peer_port (a : wireguardLeaseAttrs) (dev : option wgDevice) : Z :=
  match dev with
  | Some d => if wl_Port a =? 0 then wrap 16 (wa_listenPort (wd_attrs d)) else wl_Port a
  | None => wl_Port a
  end.
Definition v4_endpoint (ip : IP4) (port : Z) : string := IP4_String ip +:+ ":" +:+ fmt_uint 10 port.
Definition v6_endpoint (ip : option IP6) (port : Z) : outcome string :=
  match ip with
  | None => Ret ""
  | Some ip6 => s ← IP6_String ip6; Ret ("[" +:+ s +:+ "]:" +:+ fmt_uint 10 port)
  end.

Section events.
Context {W : Type} `{WgTypes, WgHost W, NetworkSource W}.
Abbreviation dev_ptr := (option wgDevice).

(** The configuration is nil after an error, which is logged. *)
Definition network_config : M W Config :=
  r ← try sm_GetNetworkConfig;
  match r with inl netconf => mret netconf | inr _ => panic end.

Definition add_separate4 (dev : dev_ptr) (l : Lease) (endpoint : string) (a : wireguardLeaseAttrs) : M W unit :=
  _ ← try (addPeer dev endpoint (wl_PublicKey a) [IP4Net_ToIPNet (Subnet l)]);
  netconf ← network_config;
  _ ← try (wg_addRoute dev (IP4Net_ToIPNet (cfg_Network netconf)));
  mret tt.
Definition add_separate6 (dev : dev_ptr) (l : Lease) (endpoint : string) (a : wireguardLeaseAttrs) : M W unit :=
  sn ← lift (IP6Net_ToIPNet (IPv6Subnet l));
  _ ← try (addPeer dev endpoint (wl_PublicKey a) [sn]);
  netconf ← network_config;
  dst ← lift (IP6Net_ToIPNet (cfg_IPv6Network netconf));
  _ ← try (wg_addRoute dev dst);
  mret tt.

(** One peer for both families. *)
Definition add_shared (n : wg_network) (l : Lease) (v4PeerEndpoint v6PeerEndpoint : string) (a : wireguardLeaseAttrs) (subnets : list IPNet)
    : M W unit :=
  mode ← (if decide (wn_mode n ≠ Ipv4 ∧ wn_mode n ≠ Ipv6)
          then lift (selectMode n (PublicIP (Attrs l)) (PublicIPv6 (Attrs l))) else mret (wn_mode n));
  let publicEndpoint := if decide (mode = Ipv4) then v4PeerEndpoint else if decide (mode = Ipv6) then v6PeerEndpoint else "" in
  _ ← try (addPeer (wn_dev n) publicEndpoint (wl_PublicKey a) subnets);
  netconf ← network_config;
  _ ← try (wg_addRoute (wn_dev n) (IP4Net_ToIPNet (cfg_Network netconf)));
  dst ← lift (IP6Net_ToIPNet (cfg_IPv6Network netconf));
  _ ← try (wg_addRoute (wn_dev n) dst);
  mret tt.

Definition wg_added (n : wg_network) (l : Lease) : M W unit :=
  match wg_decode (EnableIPv4 l) (BackendData (Attrs l)) zero_wg_attrs with
  | Err _ => mret tt
  | Panic => panic
  | Ret v4 =>
      match wg_decode (EnableIPv6 l) (BackendV6Data (Attrs l)) zero_wg_attrs with
      | Err _ => mret tt
      | Panic => panic
      | Ret v6 =>
          subnets6 ← lift (if EnableIPv6 l then sn ← IP6Net_ToIPNet (IPv6Subnet l); Ret [sn] else Ret []);
          let subnets := (if EnableIPv4 l then [IP4Net_ToIPNet (Subnet l)] else []) ++ subnets6 in
          let attrs := if EnableIPv6 l then v6 else v4 in
          let v4PeerEndpoint := v4_endpoint (PublicIP (Attrs l)) (peer_port v4 (wn_dev n)) in
          v6PeerEndpoint ← lift (v6_endpoint (PublicIPv6 (Attrs l)) (peer_port v6 (wn_v6Dev n)));
          if decide (wn_mode n = Separate) then
            _ ← (if EnableIPv4 l then add_separate4 (wn_dev n) l v4PeerEndpoint v4 else mret tt);
            if EnableIPv6 l then add_separate6 (wn_v6Dev n) l v6PeerEndpoint v6 else mret tt
          else add_shared n l v4PeerEndpoint v6PeerEndpoint attrs subnets
      end
  end.

(** The data of IPv6 is decoded over that of IPv4. *)
Definition wg_removed (n : wg_network) (l : Lease) : M W unit :=
  let on4 := EnableIPv4 l && bool_decide (wn_dev n ≠ None) in
  match wg_decode on4 (BackendData (Attrs l)) zero_wg_attrs with
  | Err _ => mret tt
  | Panic => panic
  | Ret a =>
      _ ← (if on4 then _ ← try (removePeer (wn_dev n) (wl_PublicKey a)); mret tt else mret tt);
      if EnableIPv6 l then
        match wg_decode true (BackendV6Data (Attrs l)) a with
        | Err _ => mret tt
        | Panic => panic
        | Ret a =>
            let dev := if decide (wn_mode n = Separate ∧ wn_v6Dev n ≠ None) then wn_v6Dev n else wn_dev n in
            _ ← try (removePeer dev (wl_PublicKey a)); mret tt
        end
      else mret tt
  end.

Definition wg_event (n : wg_network) (event : Event) : M W unit :=
  let l := Event_Lease event in
  if negb (bool_decide (BackendType (Attrs l) = "wireguard")) then mret tt
  else match Event_Type event with EventAdded => wg_added n l | EventRemoved => wg_removed n l end.

Fixpoint wg_handleSubnetEvents (n : wg_network) (batch : list Event) : M W unit :=
  match batch with
  | [] => mret tt
  | event :: batch => _ ← wg_event n event; wg_handleSubnetEvents n batch
  end.

(** [Run]: the batches received until the context ends. *)
Fixpoint wg_Run (n : wg_network) (batches : list (list Event)) : M W unit :=
  match batches with
  | [] => mret tt
  | batch :: batches => _ ← wg_handleSubnetEvents n batch; wg_Run n batches
  end.
End events.
