(* ===== verification/WireguardFacts.v ===== *)
(** * The WireGuard backend: what the peers of a device are

    Against [WgLaws]: a device maps the keys of its peers to their endpoints, and networks
    to the peer they are sent to, as WireGuard's cryptokey routing has it. *)

From Stdlib Require Import ZArith Lia Ascii.
From stdpp Require Import base strings list gmap numbers.
From S2P Require Import Prelude GoStrings GoJson GoJsonFacts GoNet GoNetFacts Ip4 Ip6 Lease Config Backend Iface Vxlan VxlanFacts Wireguard.

Local Open Scope Z_scope.

#[global] Instance IPNet_countable : Countable IPNet.
Proof. by refine (inj_countable' (λ n, (IPNet_IP n, IPNet_Mask n)) (λ p, mkIPNet p.1 p.2) _); intros []. Qed.

(** ** The texts of endpoints *)

Lemma has_byte_false c s : lacks c s → has_byte c s = false.
Proof. unfold lacks, has_byte. by intros ->. Qed.

Lemma cut_last_lacks c s : lacks c s → cut_last c s = None.
Proof.
  unfold lacks. induction s as [|d s IH]; [done|]. cbn [str_all cut_last]. intros [Hd Hs]%andb_prop.
  rewrite (IH Hs). by apply negb_true_iff in Hd as ->.
Qed.
Lemma cut_last_app c a b : lacks c b → cut_last c (a +:+ String c b) = Some (a, b).
Proof.
  intros Hb. induction a as [|d a IH]; [|rewrite str_app_cons; cbn [cut_last]; by rewrite IH].
  change ("" +:+ String c b) with (String c b). cbn [cut_last]. rewrite cut_last_lacks by done. by rewrite Ascii.eqb_refl.
Qed.

(** A host and a port without special bytes. *)
Lemma SplitHostPort_plain host port : (∀ c, c ∈ [":"; "["; "]"]%char → lacks c host ∧ lacks c port) →
  SplitHostPort (host +:+ ":" +:+ port) = Ret (host, port).
Proof.
  intros Hl. assert (lacks ":" host ∧ lacks ":" port) as [H1 H2] by (apply Hl; set_solver).
  assert (∀ c, c = "["%char ∨ c = "]"%char → has_byte c (host +:+ ":" +:+ port) = false) as Hb.
  { intros c Hc. apply has_byte_false. assert (lacks c host ∧ lacks c port) as [? ?] by (apply Hl; destruct Hc as [->| ->]; set_solver).
    apply lacks_app; [done|]. apply lacks_app; [by destruct Hc as [->| ->]|done]. }
  unfold SplitHostPort. change (host +:+ ":" +:+ port) with (host +:+ String ":" port) in *. rewrite cut_last_app by done.
  rewrite (has_byte_false _ _ H1), (Hb "["%char), (Hb "]"%char) by auto.
  destruct host as [|c host]; [done|]. rewrite str_app_cons. destruct (decide (c = "["%char)) as [->|Hc].
  - assert (lacks "[" (String "[" host)) as F by (apply Hl; set_solver). by vm_compute in F.
  - destruct c as [[] [] [] [] [] [] [] []]; done.
Qed.

Lemma parse_port_fmt port : 0 <= port < 2 ^ 16 → parse_port (fmt_uint 10 port) = Ret port.
Proof.
  intros Hp. unfold parse_port. rewrite ParseUint_fmt by lia. rewrite decide_False; [done|]. apply fmt_uint_nonempty.
Qed.

Lemma IP4_String_digits ip : IP4_ok ip → str_all digit_dot (IP4_String ip) = true.
Proof.
  intros Hip. pose proof (length_octet_list ip). pose proof (length_ToIP ip).
  unfold IP4_String, IP_String. rewrite To4_ToIP. rewrite !(decide_False (P := _ = [])) by (intros E; by rewrite E in *).
  by apply ip4_string_chars, octet_list_bytes.
Qed.

(** ** The device *)

Definition key_ok (k : Key) : Prop := Forall is_byte k ∧ length k = 32%nat.

(** The endpoints of the peers of the devices, and the peer each network is sent to. *)
Record wgview := mkWgView {
  wv_peers : gmap (string * Key) UDPAddr;
  wv_allowed : gmap (string * IPNet) Key
}.
Definition other_peers (dev : string) (k : Key) (m : gmap (string * IPNet) Key) : gmap (string * IPNet) Key :=
  filter (λ p, ¬ (p.1.1 = dev ∧ p.2 = k)) m.
(** A network belongs to one peer: giving it to another takes it away. *)
Definition set_peer (dev : string) (k : Key) (ep : UDPAddr) (nets : list IPNet) (v : wgview) : wgview :=
  mkWgView (<[(dev, k) := ep]> (wv_peers v))
           (foldr (λ net m, <[(dev, net) := k]> m) (other_peers dev k (wv_allowed v)) nets).
Definition unset_peer (dev : string) (k : Key) (v : wgview) : wgview :=
  mkWgView (delete (dev, k) (wv_peers v)) (other_peers dev k (wv_allowed v)).

Class WgKeyLaws `{WgTypes} := {
  law_ParseKey k : key_ok k → ParseKey (Key_String k) = Ret k;
  law_PublicKey k : key_ok k → key_ok (PublicKey k);
  (** base64 *)
  law_Key_String k : key_ok k → str_all plain (Key_String k) = true ∧ Key_String k ≠ ""
}.

Class WgLaws (W : Type) `{WgTypes, WgHost W, NetworkSource W} := {
  wgview_of : W → wgview;
  (** the device is there and wgctrl works *)
  wg_ready : string → W → Prop;
  wg_same (c : W → W) : Prop := ∀ w, wgview_of (c w) = wgview_of w ∧ ∀ dev, wg_ready dev w → wg_ready dev (c w);
  law_New dev w : wg_ready dev w → (wgctrl_New w).1 = Ret tt;
  law_New_same : wg_same (λ w, (wgctrl_New w).2);
  law_Close w : (wgctrl_Close w).1 ≠ Panic;
  law_Close_same : wg_same (λ w, (wgctrl_Close w).2);
  law_RouteReplace link dst w : (WgRouteReplace link dst w).1 ≠ Panic;
  law_RouteReplace_same link dst : wg_same (λ w, (WgRouteReplace link dst w).2);
  law_NetworkConfig dev w : wg_ready dev w → ∃ c, (sm_GetNetworkConfig w).1 = Ret c;
  law_NetworkConfig_same : wg_same (λ w, (sm_GetNetworkConfig w).2);
  law_set_peer dev private port k psk keepalive ep nets w : wg_ready dev w → key_ok k → ua_IP ep ≠ [] →
    ∃ w', ConfigureDevice dev (mkWgConfig private port false [mkPeerConfig k false psk keepalive (Some ep) true nets]) w = (Ret tt, w') ∧
      wgview_of w' = set_peer dev k ep nets (wgview_of w) ∧ ∀ dev', wg_ready dev' w → wg_ready dev' w';
  law_unset_peer dev k w : wg_ready dev w → key_ok k →
    ∃ w', ConfigureDevice dev (mkWgConfig None None false [mkPeerConfig k true None None None false []]) w = (Ret tt, w') ∧
      wgview_of w' = unset_peer dev k (wgview_of w) ∧ ∀ dev', wg_ready dev' w → wg_ready dev' w'
}.

(** ** One event *)

(** A lease of the backend with IPv4 alone: its peer has this key and listens there. *)
Record wg_lease `{WgTypes} (l : Lease) (k : Key) (port : Z) : Prop := mkWgLease {
  wl_type : BackendType (Attrs l) = "wireguard";
  wl_v4 : EnableIPv4 l = true;
  wl_v6 : EnableIPv6 l = false;
  wl_public : IP4_ok (PublicIP (Attrs l));
  wl_public6 : PublicIPv6 (Attrs l) = None;
  wl_key : key_ok k;
  wl_port : 0 < port < 2 ^ 16;
  wl_data : wg_decode true (BackendData (Attrs l)) zero_wg_attrs = Ret (mkWgLeaseAttrs (Key_String k) port)
}.
Definition lease_endpoint (l : Lease) (port : Z) : UDPAddr := mkUDPAddr (IP4_ToIP (PublicIP (Attrs l))) port.

Section peers.
Context {W : Type} `{WgTypes, !WgKeyLaws, WgHost W, NetworkSource W, !WgLaws W}.
Implicit Types (w : W) (d : wgDevice) (l : Lease).

Lemma ResolveUDPAddr_v4 ip port w : IP4_ok ip → 0 <= port < 2 ^ 16 →
  ResolveUDPAddr (v4_endpoint ip port) w = (Ret (mkUDPAddr (IP4_ToIP ip) port), w).
Proof.
  intros Hip Hp. unfold ResolveUDPAddr, v4_endpoint.
  assert (∀ c, c ∈ [":"; "["; "]"]%char → lacks c (IP4_String ip) ∧ lacks c (fmt_uint 10 port)) as Hl.
  { intros c Hc. rewrite !elem_of_cons, elem_of_nil in Hc. destruct Hc as [->|[->|[->|[]]]]; split.
    all: first [apply (lacks_of_all digit_dot); [done|by apply IP4_String_digits]|apply fmt_dec_lacks; [done|lia]]. }
  assert (IP4_String ip ≠ "") as Hne.
  { intros E. pose proof (ParseIP_IP4_String ip Hip) as F. rewrite E in F. by vm_compute in F. }
  rewrite decide_False by (destruct (IP4_String ip); [done|by rewrite str_app_cons]).
  rewrite SplitHostPort_plain by done. run. rewrite parse_port_fmt by done. run. rewrite decide_False by done.
  rewrite ParseIP_IP4_String by done. rewrite decide_False by (pose proof (length_ToIP ip); intros F; rewrite F in *; done). by run.
Qed.

(** A call that succeeds on a ready device with an effect on the peers. *)
Definition does {A} (dev : string) (c : M W A) (f : wgview → wgview) : Prop :=
  ∀ w, wg_ready dev w → ∃ a w', c w = (Ret a, w') ∧ wgview_of w' = f (wgview_of w) ∧ wg_ready dev w'.

Lemma does_ret {A} dev (a : A) : does dev (mret a) id.
Proof. intros w Hw. by exists a, w. Qed.
Lemma does_bind {A B} dev (c : M W A) (k : A → M W B) f g : does dev c f → (∀ a, does dev (k a) g) → does dev (a ← c; k a) (g ∘ f).
Proof.
  intros Hc Hk w Hw. destruct (Hc w Hw) as (a & w1 & E & V & Hw1). destruct (Hk a w1 Hw1) as (b & w2 & E2 & V2 & Hw2).
  exists b, w2. rewrite (M_bind_Ret _ _ _ _ _ E). split; [done|]. split; [|done]. cbn. congruence.
Qed.
Lemma does_wrapping {A} dev fmt (c : M W A) f : does dev c f → does dev (wrapping fmt c) f.
Proof. intros Hc w Hw. destruct (Hc w Hw) as (a & w' & E & ?). exists a, w'. split; [by apply wrapping_Ret|done]. Qed.
(** A logged call that leaves the peers alone. *)
Lemma does_try {A} dev (c : M W A) : (∀ w, (c w).1 ≠ Panic) → wg_same (λ w, (c w).2) → does dev (try c) id.
Proof.
  intros Hp Hs w Hw. destruct (Hs w) as [V R]. specialize (Hp w). unfold try. destruct (c w) as [[a|e|] w']; [| |done]; cbn in *;
    eexists _, w'; (split; [done|]); split; auto.
Qed.
Lemma does_same {A} dev (c : M W A) : (∀ w, wg_ready dev w → ∃ a, (c w).1 = Ret a) → wg_same (λ w, (c w).2) → does dev c id.
Proof.
  intros Hr Hs w Hw. destruct (Hr w Hw) as (a & Ha). destruct (Hs w) as [V R]. exists a, (c w).2. split; [|split; auto].
  destruct (c w). cbn in *. congruence.
Qed.

Lemma does_try_ok {A} dev (c : M W A) f : does dev c f → does dev (try c) f.
Proof. intros Hc w Hw. destruct (Hc w Hw) as (a & w' & E & ?). exists (inl a), w'. split; [unfold try; by rewrite E|done]. Qed.

Lemma does_client dev (c : M W unit) f : does dev c f → does dev (with_client c) f.
Proof.
  intros Hc w Hw.
  assert (does dev (wrapping "failed to open wgctrl: %w" wgctrl_New) id) as Hnew.
  { apply does_wrapping, does_same; [|apply law_New_same]. intros w1 Hw1. eexists. by apply (law_New dev). }
  destruct (Hnew w Hw) as (u & w1 & E1 & V1 & Hw1). destruct (Hc w1 Hw1) as ([] & w2 & E2 & V2 & Hw2).
  destruct (does_try dev wgctrl_Close law_Close law_Close_same w2 Hw2) as (r & w3 & E3 & V3 & Hw3).
  exists tt, w3. unfold with_client. rewrite (M_bind_Ret _ _ _ _ _ E1), (run_try_Ret _ _ _ _ _ E2), (M_bind_Ret _ _ _ _ _ E3).
  split; [done|]. split; [|done]. rewrite V3. cbn. rewrite V2, V1. done.
Qed.

Lemma addPeer_does d ip port k nets : IP4_ok ip → 0 <= port < 2 ^ 16 → key_ok k →
  does (wa_name (wd_attrs d)) (addPeer (Some d) (v4_endpoint ip port) (Key_String k) nets)
    (set_peer (wa_name (wd_attrs d)) k (mkUDPAddr (IP4_ToIP ip) port) nets).
Proof.
  intros Hip Hport Hk w Hw. unfold addPeer.
  rewrite (M_bind_Ret _ _ _ _ _ (wrapping_Ret _ _ _ _ _ (ResolveUDPAddr_v4 ip port w Hip Hport))).
  rewrite law_ParseKey by done. rewrite (M_bind_Ret _ _ _ _ _ (wrapping_Ret _ (lift (Ret k)) w k w eq_refl)).
  change (deref (Some d)) with (Ret d). rewrite (M_bind_Ret (lift (Ret d)) _ w d w eq_refl). cbn zeta.
  apply does_client; [|done]. apply does_wrapping. intros w1 Hw1.
  destruct (law_set_peer (wa_name (wd_attrs d)) (wa_privateKey (wd_attrs d)) (Some (wa_listenPort (wd_attrs d))) k (wa_psk (wd_attrs d))
    (wa_keepalive (wd_attrs d)) (mkUDPAddr (IP4_ToIP ip) port) nets w1 Hw1 Hk) as (w2 & E & V & R).
  { change (IP4_ToIP ip ≠ []). pose proof (length_ToIP ip) as Hl. intros F. by rewrite F in Hl. }
  exists tt, w2. auto.
Qed.

Lemma removePeer_does d k : key_ok k →
  does (wa_name (wd_attrs d)) (removePeer (Some d) (Key_String k)) (unset_peer (wa_name (wd_attrs d)) k).
Proof.
  intros Hk w Hw. unfold removePeer. rewrite law_ParseKey by done.
  rewrite (M_bind_Ret _ _ _ _ _ (wrapping_Ret _ (lift (Ret k)) w k w eq_refl)).
  apply does_client; [|done]. intros w1 Hw1. change (deref (Some d)) with (Ret d). rewrite (M_bind_Ret (lift (Ret d)) _ w1 d w1 eq_refl).
  apply does_wrapping; [|done]. intros w2 Hw2. destruct (law_unset_peer (wa_name (wd_attrs d)) k w2 Hw2 Hk) as (w3 & E & V & R).
  exists tt, w3. auto.
Qed.

Lemma addRoute_does dev d dst : does dev (try (wg_addRoute (Some d) dst)) id.
Proof.
  unfold wg_addRoute. change (deref (Some d)) with (Ret d).
  assert (∀ w, (x ← lift (Ret d); wrapping "failed to add route %s: %w" (WgRouteReplace (gl_Index (wd_link x)) dst)) w =
    wrapping "failed to add route %s: %w" (WgRouteReplace (gl_Index (wd_link d)) dst) w) as E by done.
  assert (∀ w, wrapping "failed to add route %s: %w" (WgRouteReplace (gl_Index (wd_link d)) dst) w =
    match WgRouteReplace (gl_Index (wd_link d)) dst w with
    | (Ret a, w') => (Ret a, w') | (Err e, w') => (Err (Wrapf "failed to add route %s: %w" e), w') | (Panic, w') => (Panic, w') end) as E2.
  { intros w. unfold wrapping, mbind, M_bind, try. by destruct (WgRouteReplace _ _ w) as [[a|e|] w']. }
  apply does_try.
  - intros w. rewrite E, E2. pose proof (law_RouteReplace (gl_Index (wd_link d)) dst w). destruct (WgRouteReplace _ _ w) as [[a|e|] w']; cbn in *; congruence.
  - intros w. pose proof (law_RouteReplace_same (gl_Index (wd_link d)) dst w) as Hs. cbn beta in *. rewrite E, E2.
    by destruct (WgRouteReplace _ _ w) as [[a|e|] w'].
Qed.

Lemma network_config_does dev : does dev network_config id.
Proof.
  intros w Hw. destruct (law_NetworkConfig dev w Hw) as (c & Hc). destruct (law_NetworkConfig_same w) as [V R].
  exists c, (sm_GetNetworkConfig w).2. split; [|split; auto]. unfold network_config, mbind, M_bind, try.
  destruct (sm_GetNetworkConfig w) as [r w']. cbn in *. by subst r.
Qed.

(** ** Sequences of events *)

Section network.
Context (n : wg_network) (d : wgDevice) (Hmode : wn_mode n = Separate) (Hdev : wn_dev n = Some d).
Abbreviation name := (wa_name (wd_attrs d)).

Lemma added_does l k port : wg_lease l k port →
  does name (wg_event n (mkEvent EventAdded l)) (set_peer name k (lease_endpoint l port) [IP4Net_ToIPNet (Subnet l)]).
Proof.
  intros [Ht H4 H6 Hp Hp6 Hk Hport Hd] w Hw. unfold wg_event. cbn [Event_Lease Event_Type]. rewrite bool_decide_true by done.
  cbn [negb]. unfold wg_added. rewrite H4, H6, Hd, Hp6, Hdev. cbn [wg_decode andb v6_endpoint peer_port wl_Port].
  rewrite (proj2 (Z.eqb_neq port 0)) by lia.
  rewrite (M_bind_Ret (lift (Ret [])) _ w [] w eq_refl), (M_bind_Ret (lift (Ret "")) _ w "" w eq_refl). cbn zeta.
  rewrite (decide_True (P := wn_mode n = Separate)) by done.
  assert (does name (add_separate4 (Some d) l (v4_endpoint (PublicIP (Attrs l)) port) (mkWgLeaseAttrs (Key_String k) port))
    (id ∘ (id ∘ (id ∘ set_peer name k (lease_endpoint l port) [IP4Net_ToIPNet (Subnet l)])))) as Hadd.
  { unfold add_separate4. apply (does_bind _ _ _ (set_peer _ _ _ _) (id ∘ (id ∘ id))).
    - apply does_try_ok, addPeer_does; [done|lia|done].
    - intros _. apply (does_bind _ _ _ id (id ∘ id)); [apply network_config_does|]. intros c.
      apply (does_bind _ _ _ id id); [apply addRoute_does|]. intros _. apply does_ret. }
  destruct (Hadd w Hw) as ([] & w' & E & V & R). exists tt, w'. by rewrite (M_bind_Ret _ _ _ _ _ E).
Qed.

Lemma removed_does l k port : wg_lease l k port →
  does name (wg_event n (mkEvent EventRemoved l)) (unset_peer name k).
Proof.
  intros [Ht H4 H6 Hp Hp6 Hk Hport Hd] w Hw. unfold wg_event. cbn [Event_Lease Event_Type]. rewrite bool_decide_true by done.
  cbn [negb]. unfold wg_removed. rewrite H4, H6, Hdev. rewrite (bool_decide_true (Some d ≠ None)) by done. cbn [andb]. rewrite Hd.
  destruct (does_try_ok _ _ _ (removePeer_does d k Hk) w Hw) as (u & w' & E & V & R). exists tt, w'. cbn [wl_PublicKey].
  rewrite (M_bind_Ret (x ← _; _) _ w tt w'); [done|]. by rewrite (M_bind_Ret _ _ _ _ _ E).
Qed.
End network.
End peers.

(** The key and the endpoint that a lease announces. *)
Definition lease_peer `{WgTypes} (l : Lease) : Key * UDPAddr :=
  match wg_decode true (BackendData (Attrs l)) zero_wg_attrs with
  | Ret a => (match ParseKey (wl_PublicKey a) with Ret k => k | _ => [] end, lease_endpoint l (wl_Port a))
  | _ => ([], mkUDPAddr [] 0)
  end.

(** The remote hosts after events. *)
Abbreviation wg_hosts := (gmap IP4Net (Key * UDPAddr)).
Definition wg_apply `{WgTypes} (D : wg_hosts) (e : Event) : wg_hosts :=
  let l := Event_Lease e in
  match Event_Type e with
  | EventAdded => <[Subnet l := lease_peer l]> D
  | EventRemoved => delete (Subnet l) D
  end.

(** The device sends the subnet of every remote host to its peer, nothing else, and knows
    the endpoints of these peers. *)
Record wg_reflects (dev : string) (D : wg_hosts) (v : wgview) : Prop := mkWgReflects {
  wr_peers sn k ep : D !! sn = Some (k, ep) → wv_peers v !! (dev, k) = Some ep;
  wr_allowed net k : wv_allowed v !! (dev, net) = Some k ↔ ∃ sn ep, D !! sn = Some (k, ep) ∧ net = IP4Net_ToIPNet sn;
  wr_subnets sn : is_Some (D !! sn) → IP4Net_ok sn
}.

(** An event that the backend can follow: no two subnets share a key, and what is removed
    has the key it was added with. *)
Definition wg_follows_event `{WgTypes} (D : wg_hosts) (e : Event) : Prop :=
  let l := Event_Lease e in
  (∃ k port, wg_lease l k port) ∧ IP4Net_ok (Subnet l) ∧
  ∀ sn k ep, D !! sn = Some (k, ep) →
    (sn ≠ Subnet l → k ≠ (lease_peer l).1) ∧ (sn = Subnet l → Event_Type e = EventRemoved → k = (lease_peer l).1).
Fixpoint wg_follows `{WgTypes} (D : wg_hosts) (evts : list Event) : Prop :=
  match evts with
  | [] => True
  | e :: evts => wg_follows_event D e ∧ wg_follows (wg_apply D e) evts
  end.

Lemma ToIPNet_inj a b : IP4Net_ok a → IP4Net_ok b → IP4Net_ToIPNet a = IP4Net_ToIPNet b → a = b.
Proof.
  intros Ha Hb E. pose proof (addr_net_ToIPNet a Ha) as F. rewrite E, (addr_net_ToIPNet b Hb) in F. by injection F.
Qed.

Lemma other_peers_lookup dev k m net k' : other_peers dev k m !! (dev, net) = Some k' ↔ m !! (dev, net) = Some k' ∧ k' ≠ k.
Proof. unfold other_peers. rewrite map_lookup_filter_Some. cbn. naive_solver. Qed.

Lemma set_peer_reflects dev D v sn k ep : wg_reflects dev D v → IP4Net_ok sn →
  (∀ sn' k' ep', D !! sn' = Some (k', ep') → sn' ≠ sn → k' ≠ k) →
  wg_reflects dev (<[sn := (k, ep)]> D) (set_peer dev k ep [IP4Net_ToIPNet sn] v).
Proof.
  intros [Rp Ra Rs] Hok Hap. split; cbn [set_peer wv_peers wv_allowed foldr].
  - intros sn' k' ep' [[<- [= <- <-]]|[Hne Hs]]%lookup_insert_Some; [by rewrite lookup_insert_eq|].
    rewrite lookup_insert_ne; [by eapply Rp|]. intros [= <-]. by eapply Hap.
  - intros net k'. destruct (decide (net = IP4Net_ToIPNet sn)) as [->|Hne].
    + rewrite lookup_insert_eq. split; [intros [= <-]; exists sn, ep; by rewrite lookup_insert_eq|].
      intros (sn' & ep' & [[<- [= <- <-]]|[Hne Hs]]%lookup_insert_Some & E); [done|]. destruct Hne.
      apply ToIPNet_inj; [done|by apply Rs|done].
    + rewrite lookup_insert_ne by congruence. rewrite other_peers_lookup, Ra. split.
      * intros [(sn' & ep' & Hs & ->) Hk]. exists sn', ep'. split; [|done]. rewrite lookup_insert_ne; [done|]. by intros ->.
      * intros (sn' & ep' & [[<- [= <- <-]]|[Hsn Hs]]%lookup_insert_Some & ->); [done|]. split; [by eauto|]. eapply Hap; [done|by intros ->].
  - intros sn' [x [[<- _]|[_ Hs]]%lookup_insert_Some]; [done|by apply Rs].
Qed.

Lemma unset_peer_reflects dev D v sn k : wg_reflects dev D v →
  (∀ sn' k' ep', D !! sn' = Some (k', ep') → (sn' ≠ sn → k' ≠ k) ∧ (sn' = sn → k' = k)) →
  wg_reflects dev (delete sn D) (unset_peer dev k v).
Proof.
  intros [Rp Ra Rs] Hap. split; cbn [unset_peer wv_peers wv_allowed].
  - intros sn' k' ep' [Hne Hs]%lookup_delete_Some. rewrite lookup_delete_ne; [by eapply Rp|]. intros [= <-]. by eapply Hap.
  - intros net k'. rewrite other_peers_lookup, Ra. split.
    + intros [(sn' & ep' & Hs & ->) Hk]. exists sn', ep'. split; [|done]. rewrite lookup_delete_ne; [done|]. intros <-. by destruct Hk; eapply Hap.
    + intros (sn' & ep' & [Hsn Hs]%lookup_delete_Some & ->). split; [by eauto|]. eapply Hap; [done|by intros ->].
  - intros sn' [x [_ Hs]%lookup_delete_Some]. by apply Rs.
Qed.

Section tracking.
Context {W : Type} `{WgTypes, !WgKeyLaws, WgHost W, NetworkSource W, !WgLaws W}.
Context (n : wg_network) (d : wgDevice) (Hmode : wn_mode n = Separate) (Hdev : wn_dev n = Some d).
Abbreviation name := (wa_name (wd_attrs d)).

Lemma lease_peer_eq l k port : wg_lease l k port → lease_peer l = (k, lease_endpoint l port).
Proof. intros [_ _ _ _ _ Hk _ Hd]. unfold lease_peer. rewrite Hd. cbn [wl_PublicKey wl_Port]. by rewrite law_ParseKey. Qed.

Lemma wg_event_reflects D e (w : W) : wg_follows_event D e → wg_ready name w → wg_reflects name D (wgview_of w) →
  ∃ w', wg_event n e w = (Ret tt, w') ∧ wg_ready name w' ∧ wg_reflects name (wg_apply D e) (wgview_of w').
Proof.
  destruct e as [t l]. unfold wg_follows_event, wg_apply. cbn [Event_Lease Event_Type].
  intros ((k & port & Hl) & Hok & Hap) Hw Hr. pose proof (lease_peer_eq l k port Hl) as El. rewrite El in *. cbn [fst] in Hap. destruct t.
  - destruct (added_does n d Hmode Hdev l k port Hl w Hw) as ([] & w' & E & V & Hw'). exists w'. split; [done|]. split; [done|].
    rewrite V. apply set_peer_reflects; [done|done|]. intros sn' k' ep' Hs Hne. by eapply Hap.
  - destruct (removed_does n d Hdev l k port Hl w Hw) as ([] & w' & E & V & Hw'). exists w'. split; [done|]. split; [done|].
    rewrite V. apply unset_peer_reflects; [done|]. intros sn' k' ep' Hs. split; [by eapply Hap|]. intros Hsn. by eapply Hap.
Qed.
End tracking.

(** C6: With a ready device for IPv4 alone, after any sequence of events of leases of which no
    two share a key, and none is removed with another key than it was added with, the
    device sends the subnets of the leases that are left, and nothing else, to the peer
    of their key, whose endpoint is the one announced. *)
Theorem wg_tracks_leases W `{WgTypes, !WgKeyLaws, WgHost W, NetworkSource W, !WgLaws W} n d evts (w : W) :
  wn_mode n = Separate → wn_dev n = Some d → wg_ready (wa_name (wd_attrs d)) w →
  wg_follows ∅ evts → wg_reflects (wa_name (wd_attrs d)) ∅ (wgview_of w) →
  ∃ w', wg_handleSubnetEvents n evts w = (Ret tt, w') ∧
    wg_reflects (wa_name (wd_attrs d)) (foldl wg_apply ∅ evts) (wgview_of w').
Proof.
  intros Hmode Hdev. generalize (∅ : wg_hosts). revert w. induction evts as [|e evts IH]; intros w D Hw Hf Hr; [by exists w|].
  destruct Hf as [He Hf]. destruct (wg_event_reflects n d Hmode Hdev D e w He Hw Hr) as (w1 & E & Hw1 & Hr1).
  cbn [wg_handleSubnetEvents foldl]. rewrite (M_bind_Ret _ _ _ _ _ E). by apply IH.
Qed.

(** ** The announcement *)

Definition wg_attrs_members (a : wireguardLeaseAttrs) : list (string * string * json) :=
  [("PublicKey", json_string (wl_PublicKey a), JStr (wl_PublicKey a));
   ("Port", fmt_uint 10 (wl_Port a), JNum (fmt_uint 10 (wl_Port a)))].

Lemma wg_attrs_decode a : str_all plain (wl_PublicKey a) = true → 0 <= wl_Port a < 2 ^ 16 →
  wg_decode true (Some (wireguardLeaseAttrs_Marshal a)) zero_wg_attrs = Ret a.
Proof.
  intros Hk Hp. change (wg_decode true (Some ?t) zero_wg_attrs) with (Unmarshal_struct wireguardLeaseAttrs_field t zero_wg_attrs).
  change (wireguardLeaseAttrs_Marshal a) with (json_object (member_text <$> wg_attrs_members a)). rewrite Unmarshal_object.
  - unfold wg_attrs_members. cbn [decode_members]. unfold wireguardLeaseAttrs_field.
    change (field_name "PublicKey" "PublicKey") with true. change (field_name "PublicKey" "Port") with false.
    change (field_name "Port" "Port") with true. cbn iota. unfold decode_uint. cbn [decode_string mbind outcome_bind].
    rewrite ParseUint_fmt by lia. by destruct a.
  - unfold members_ok, wg_attrs_members. apply list.Forall_cons; split; [split; [done|]|apply list.Forall_cons; split; [split; [done|]|by apply list.Forall_nil]]; cbn [fst snd].
    + by apply json_string_text.
    + apply digits_text, fmt_uint_digits. lia.
  - done.
Qed.

(** A lease with the attributes that a node registers is one that the others follow, to the
    key of the node, at its public address and port. *)
Theorem announced_peer `{WgTypes, !WgKeyLaws} ip k port v6Port attrs l : IP4_ok ip → key_ok k → 0 < port < 2 ^ 16 →
  wg_newSubnetAttrs (IP4_ToIP ip) [] true false (Key_String k) port v6Port = Ret attrs →
  Attrs l = attrs → EnableIPv4 l = true → EnableIPv6 l = false →
  wg_lease l k port ∧ lease_peer l = (k, mkUDPAddr (IP4_ToIP ip) port).
Proof.
  intros Hip Hk Hport Hn Ha H4 H6. assert (IP4_ToIP ip ≠ []) as Hne by (pose proof (length_ToIP ip) as Hl; intros F; by rewrite F in Hl).
  unfold wg_newSubnetAttrs in Hn. rewrite (decide_False (P := IP4_ToIP ip = [])) in Hn by done. rewrite FromIP_ToIP in Hn by done.
  cbn [mbind outcome_bind] in Hn. rewrite decide_True in Hn by done. injection Hn as <-.
  assert (wg_lease l k port) as Hl.
  { split; rewrite ?Ha; cbn [BackendType PublicIP PublicIPv6 BackendData]; try done. apply wg_attrs_decode; [by apply law_Key_String|cbn; lia]. }
  split; [done|]. rewrite (lease_peer_eq l k port Hl). unfold lease_endpoint. by rewrite Ha.
Qed.

(** ** The key *)

(** Files and the environment, when the calls succeed. *)
Class KeyFileLaws (W : Type) `{WgTypes, WgHost W, KeyFiles W} := {
  kf_file : W → string → option string;
  kf_env : W → string → option string;
  kf_same (w w' : W) : Prop := kf_file w' = kf_file w ∧ kf_env w' = kf_env w;
  law_LookupEnv v w : LookupEnv v w = (Ret (kf_env w v), w);
  law_key_Stat path w : key_Stat path w = (match kf_file w path with Some _ => Ret tt | None => (key_Stat path w).1 end, w);
  law_os_ReadFile path w t w' : os_ReadFile path w = (Ret t, w') → kf_file w path = Some t ∧ w' = w;
  law_os_MkdirAll dir w w' : os_MkdirAll dir w = (Ret tt, w') → kf_same w w';
  law_os_Create path w w' : os_Create path w = (Ret tt, w') → kf_file w' path = Some "" ∧ kf_env w' = kf_env w;
  law_os_Chmod path mode w w' : os_Chmod path mode w = (Ret tt, w') → kf_same w w';
  law_os_WriteString path s w w' : os_WriteString path s w = (Ret tt, w') →
    kf_file w' path = (λ t, t +:+ s) <$> kf_file w path ∧ kf_env w' = kf_env w;
  law_os_Close path w w' : os_Close path w = (Ret tt, w') → kf_same w w';
  (** the calls on links and devices concern no file *)
  law_kf_GeneratePrivateKey w : kf_same w (GeneratePrivateKey w).2 ∧ ∀ k, (GeneratePrivateKey w).1 = Ret k → key_ok k;
  law_kf_LinkAdd l w : kf_same w (WgLinkAdd l w).2;
  law_kf_LinkByName s w : kf_same w (WgLinkByName s w).2;
  law_kf_LinkByIndex i w : kf_same w (WgLinkByIndex i w).2;
  law_kf_LinkDel i w : kf_same w (WgLinkDel i w).2;
  law_kf_New w : kf_same w (wgctrl_New w).2;
  law_kf_Close w : kf_same w (wgctrl_Close w).2;
  law_kf_ConfigureDevice dev cfg w : kf_same w (ConfigureDevice dev cfg w).2
}.

Section keys.
Context {W : Type} `{WgTypes, !WgKeyLaws, WgHost W, KeyFiles W, !KeyFileLaws W}.
Implicit Types (w : W).

Definition key_file w : string := default "/run/flannel/wgkey" (kf_env w "WIREGUARD_KEY_FILE").
(** The key file holds this private key. *)
Definition stored (p : Key) w : Prop := ∃ t, kf_file w (key_file w) = Some t ∧ ParseKey t = Ret p.

Lemma stored_same p w w' : kf_same w w' → stored p w → stored p w'.
Proof. intros [Ef Ee] (t & Ht & Hp). exists t. unfold key_file. by rewrite Ef, Ee. Qed.
Lemma stored_call {A} p (c : M W A) : (∀ w, kf_same w (c w).2) → preserves (stored p) c.
Proof. intros Hc w Hw. by eapply stored_same. Qed.

Lemma wrapping_Ret_inv {A} fmt (c : M W A) w a w' : wrapping fmt c w = (Ret a, w') → c w = (Ret a, w').
Proof. unfold wrapping. rewrite run_try_cases. destruct (c w) as [[x|e|] w1]; [|done|done]. by intros [= <- <-]. Qed.

(** The key file, written and closed. *)
Lemma writePrivateKey_stores k w w' : key_ok k → writePrivateKey (key_file w) (Key_String k) w = (Ret tt, w') → stored k w'.
Proof.
  intros Hk Hw. unfold writePrivateKey in Hw. run_inv.
  repeat match goal with x : unit |- _ => destruct x end.
  match goal with
  | H1 : os_MkdirAll _ _ = (_, ?w1), H2 : os_Create _ _ = (_, ?w2), H3 : os_Chmod _ _ _ = (_, ?w3), H4 : os_WriteString _ _ _ = (_, ?w4),
    H5 : os_Close _ _ = _ |- _ =>
      apply law_os_MkdirAll in H1 as [F1 E1]; apply law_os_Create in H2 as [F2 E2]; apply law_os_Chmod in H3 as [F3 E3];
      apply law_os_WriteString in H4 as [F4 E4]; apply law_os_Close in H5 as [F5 E5]
  end.
  exists (Key_String k). split; [|by apply law_ParseKey].
  assert (key_file w' = key_file w) as -> by (unfold key_file; by rewrite E5, E4, E3, E2, E1). by rewrite F5, F4, F3, F2.
Qed.

(** After [setupKeys] the key in use is the one in the file, and one already there stays. *)
Lemma setupKeys_stores psk a w a' w' : setupKeys psk a w = (Ret a', w') →
  ∃ p, wa_privateKey a' = Some p ∧ wa_publicKey a' = Some (PublicKey p) ∧ stored p w' ∧ ∀ p0, stored p0 w → p = p0.
Proof.
  set (good p (a' : wgDeviceAttrs) w' := wa_privateKey a' = Some p ∧ wa_publicKey a' = Some (PublicKey p) ∧ stored p w' ∧ ∀ p0, stored p0 w → p = p0).
  change (setupKeys psk a w = (Ret a', w') → ∃ p, good p a' w').
  assert (∀ a1 w1, (∃ p, good p a1 w1) →
    (if decide (psk = "") then mret a1
     else presharedKey ← wrapping "could not parse psk: %w" (lift (ParseKey psk)); mret (set_psk presharedKey a1)) w1 = (Ret a', w') →
    ∃ p, good p a' w') as Hpsk.
  { intros a1 w1 (p & Hp). case_decide; [intros [= <- <-]; by exists p|]. intros Hrun. apply M_bind_inv in Hrun as (k & w2 & E & E2).
    apply wrapping_Ret_inv in E. apply lift_inv in E as [_ ->]. injection E2 as <- <-. by exists p. }
  unfold setupKeys. rewrite (M_bind_Ret _ _ _ _ _ (law_LookupEnv "WIREGUARD_KEY_FILE" w)). fold (key_file w). cbn zeta.
  rewrite run_try_cases, (law_key_Stat (key_file w) w). intros Hrun.
  destruct (match kf_file w (key_file w) with Some _ => Ret tt | None => (key_Stat (key_file w) w).1 end) as [u|e|] eqn:Est; [| |done].
  - cbn iota in Hrun. apply M_bind_inv in Hrun as (a1 & w1 & Ha1 & Hrun). apply (Hpsk a1 w1); [|done].
    apply M_bind_inv in Ha1 as (t & w2 & Er & Ha1). apply law_os_ReadFile in Er as [Hf ->].
    apply M_bind_inv in Ha1 as (k & w3 & Ek & Ha1). apply wrapping_Ret_inv, lift_inv in Ek as [Ek ->]. injection Ha1 as <- <-.
    exists k. split; [done|]. split; [done|]. split; [by exists t|]. intros p0 (t' & Ht' & Hp0). congruence.
  - assert (kf_file w (key_file w) = None) as Hnone by (by destruct (kf_file w (key_file w))).
    assert (∀ p0, ¬ stored p0 w) as Hno by (intros p0 (t & Ht & _); congruence).
    apply M_bind_inv in Hrun as (a1 & w1 & Ha1 & Hrun). apply (Hpsk a1 w1); [|done]. destruct (errors_Is e "os.ErrNotExist").
    + apply M_bind_inv in Ha1 as (k & w2 & Ek & Ha1). apply wrapping_Ret_inv in Ek. destruct (law_kf_GeneratePrivateKey w) as [[_ Ee] Hk].
      rewrite Ek in Ee, Hk. cbn in Ee, Hk. specialize (Hk k eq_refl).
      apply M_bind_inv in Ha1 as ([] & w3 & Ewr & Ha1). apply wrapping_Ret_inv in Ewr. injection Ha1 as <- <-.
      assert (key_file w = key_file w2) as Ekf by (unfold key_file; by rewrite Ee). rewrite Ekf in Ewr. apply writePrivateKey_stores in Ewr; [|done].
      exists k. split; [done|]. split; [done|]. split; [done|]. intros p0 Hp0. by destruct (Hno p0).
    + apply M_bind_inv in Ha1 as (t & w2 & Er & Ha1). apply law_os_ReadFile in Er as [Hf _]. congruence.
Qed.

Lemma newWGDevice_preserves p a : preserves (stored p) (newWGDevice a).
Proof.
  unfold newWGDevice, wg_ensureLink, with_client. apply preserves_bind.
  - apply preserves_bind; [apply preserves_try, stored_call, law_kf_LinkAdd|]. intros r.
    apply preserves_bind; [|intros i; apply preserves_bind; [apply preserves_wrapping, stored_call, law_kf_LinkByIndex|intros _; apply preserves_ret]].
    destruct r as [i|e]; [apply preserves_ret|]. case_decide; [|apply preserves_throw].
    apply preserves_bind; [apply stored_call, law_kf_LinkByName|]. intros i.
    apply preserves_bind; [apply stored_call, law_kf_LinkDel|]. intros _. apply preserves_wrapping, stored_call, law_kf_LinkAdd.
  - intros link. apply preserves_bind; [|intros _; apply preserves_ret].
    apply preserves_bind; [apply preserves_wrapping, stored_call, law_kf_New|]. intros _.
    apply preserves_bind; [apply preserves_try, preserves_wrapping, stored_call, law_kf_ConfigureDevice|]. intros r.
    apply preserves_bind; [apply preserves_try, stored_call, law_kf_Close|]. intros _. destruct r; [apply preserves_ret|apply preserves_throw].
Qed.

Lemma newWGDevice_attrs a w d w' : newWGDevice a w = (Ret d, w') → wd_attrs d = a.
Proof.
  unfold newWGDevice. intros (link & w1 & _ & Hrun)%M_bind_inv. apply M_bind_inv in Hrun as (u & w2 & _ & Hrun). by injection Hrun as <- <-.
Qed.

Lemma createWGDev_key s psk ka port mtu w d w' : createWGDev s psk ka port mtu w = (Ret d, w') →
  ∃ p, public_key d = Ret (Key_String (PublicKey p)) ∧ stored p w' ∧ ∀ p0, stored p0 w → p = p0.
Proof.
  unfold createWGDev. intros (a & w1 & Ea & Ed)%M_bind_inv. apply setupKeys_stores in Ea as (p & Hp & Hpub & Hs & Hold).
  exists p. split; [|split; [|done]].
  - unfold public_key. by rewrite (newWGDevice_attrs _ _ _ _ Ed), Hpub.
  - pose proof (newWGDevice_preserves p a w1 Hs) as Hs'. by rewrite Ed in Hs'.
Qed.
End keys.

(** The key that a node announces is the key of each of its devices, also when it has one
    for each family, and it is the key of its key file, so that a daemon that starts
    again announces it again. *)
Theorem devices_share_key W `{WgTypes, !WgKeyLaws, WgHost W, KeyFiles W, !KeyFileLaws W} config cfg ka (w : W) dev v6Dev key w' :
  create_devices config cfg ka w = (Ret (dev, v6Dev, key), w') →
  (dev ≠ None ∨ v6Dev ≠ None → ∃ p, stored p w' ∧ key = Key_String (PublicKey p) ∧ ∀ p0, stored p0 w → p0 = p) ∧
  ∀ d, dev = Some d ∨ v6Dev = Some d → public_key d = Ret key.
Proof.
  unfold create_devices. case_decide as Hm.
  - intros ([o k1] & w1 & E1 & Hrun)%M_bind_inv.
    assert (match o with Some d => ∃ p, public_key d = Ret k1 ∧ k1 = Key_String (PublicKey p) ∧ stored p w1 ∧ ∀ p0, stored p0 w → p = p0
                       | None => w1 = w end) as Ho.
    { destruct (cfg_EnableIPv4 config); [|by injection E1 as <- <- <-]. apply M_bind_inv in E1 as (d & w2 & Ed & E1).
      apply M_bind_inv in E1 as (k & w3 & Ek & E1). apply lift_inv in Ek as [Ek ->]. injection E1 as <- <- <-.
      apply createWGDev_key in Ed as (p & Hp & Hs & Hold). exists p. split; [done|]. split; [congruence|done]. }
    destruct (cfg_EnableIPv6 config).
    + apply M_bind_inv in Hrun as (d6 & w2 & Ed & Hrun). apply M_bind_inv in Hrun as (k & w3 & Ek & Hrun). apply lift_inv in Ek as [Ek ->].
      injection Hrun as <- <- <- <-. apply createWGDev_key in Ed as (p & Hp & Hs & Hold). assert (k = Key_String (PublicKey p)) as -> by congruence.
      destruct o as [d|]; [|subst w1].
      * destruct Ho as (p1 & Hd & -> & Hs1 & Hold1). assert (p = p1) as -> by (by apply Hold). split.
        { intros _. exists p1. split; [done|]. split; [done|]. intros p0 Hp0. symmetry. by apply Hold1. }
        intros x [[= <-]|[= <-]]; done.
      * split; [|by intros x [|[= <-]]]. intros _. exists p. split; [done|]. split; [done|]. intros p0 Hp0. symmetry. by apply Hold.
    + injection Hrun as <- <- <- <-. destruct o as [d|]; [|by split; [intros [[]|[]]|intros x [|]]].
      destruct Ho as (p & Hd & -> & Hs & Hold). split; [|by intros x [[= <-]|]]. intros _. exists p. split; [done|]. split; [done|].
      intros p0 Hp0. symmetry. by apply Hold.
  - case_decide; [|done]. intros (d & w1 & Ed & Hrun)%M_bind_inv. apply M_bind_inv in Hrun as (k & w2 & Ek & Hrun).
    apply lift_inv in Ek as [Ek ->]. injection Hrun as <- <- <- <-. apply createWGDev_key in Ed as (p & Hp & Hs & Hold).
    assert (k = Key_String (PublicKey p)) as -> by congruence. split; [|by intros x [[= <-]|]].
    intros _. exists p. split; [done|]. split; [done|]. intros p0 Hp0. symmetry. by apply Hold.
Qed.

(** ** A host in memory *)

Record wgmem := mkWgmem {
  wm_view : wgview;
  wm_links : gmap string Z;
  wm_files : gmap string string;
  wm_config : option Config
}.
Definition wm_set_view (f : wgview → wgview) (w : wgmem) : wgmem := mkWgmem (f (wm_view w)) (wm_links w) (wm_files w) (wm_config w).
Definition wm_set_file (path text : string) (w : wgmem) : wgmem := mkWgmem (wm_view w) (wm_links w) (<[path := text]> (wm_files w)) (wm_config w).

(** Keys are written as pairs of digits. *)
#[export] Instance mem_wgtypes : WgTypes := {|
  ParseKey s := match hex_pairs ":" s with Some k => if decide (length k = 32%nat) then Ret k else Err (Errorf "wgtypes: incorrect key size") | None => Err (Errorf "wgtypes: failed to parse") end;
  PublicKey k := rev k;
  Key_String := HardwareAddr_String
|}.

#[export] Instance mem_wgkeylaws : WgKeyLaws.
Proof.
  split; cbn.
  - intros k [Hb Hl]. rewrite hex_pairs_join by (done || by intros ->). by rewrite decide_True.
  - intros k [Hb Hl]. split; [by apply List.Forall_rev|by rewrite length_rev].
  - intros k [Hb Hl]. split; [by apply mac_text_plain|]. destruct k as [|b [|c k]]; [done..|]. cbn. unfold hex_byte. by destruct (digit_char _).
Qed.

Definition apply_peer (dev : string) (p : PeerConfig) (v : wgview) : wgview :=
  if pc_Remove p then unset_peer dev (pc_PublicKey p) v
  else match pc_Endpoint p with Some ep => set_peer dev (pc_PublicKey p) ep (pc_AllowedIPs p) v | None => v end.

#[export] Instance mem_wghost : WgHost wgmem := {|
  WgLinkAdd l w := match wm_links w !! gl_Name l with
                   | Some _ => (Err EEXIST, w)
                   | None => (Ret (Z.pos (encode (gl_Name l))), mkWgmem (wm_view w) (<[gl_Name l := Z.pos (encode (gl_Name l))]> (wm_links w)) (wm_files w) (wm_config w))
                   end;
  WgLinkByName s w := (match wm_links w !! s with Some i => Ret i | None => Err (Errorf "Link not found") end, w);
  WgLinkByIndex i w := (Ret tt, w);
  WgLinkDel i w := (Ret tt, mkWgmem (wm_view w) (filter (λ p, p.2 ≠ i) (wm_links w)) (wm_files w) (wm_config w));
  WgLinkSetUp i w := (Ret tt, w);
  WgRouteReplace i dst w := (Ret tt, w);
  wgctrl_New w := (Ret tt, w);
  wgctrl_Close w := (Ret tt, w);
  ConfigureDevice dev cfg w := (Ret tt, wm_set_view (λ v, foldl (λ v p, apply_peer dev p v) v (wc_Peers cfg)) w);
  GeneratePrivateKey w := (Ret (replicate 32 7), w);
  LookupIP s w := (Err (Errorf "no such host"), w)
|}.
#[export] Instance mem_wgfiles : KeyFiles wgmem := {|
  LookupEnv v w := (Ret None, w);
  key_Stat path w := (match wm_files w !! path with Some _ => Ret tt | None => Err (Sentinel "os.ErrNotExist") end, w);
  os_ReadFile path w := (match wm_files w !! path with Some t => Ret t | None => Err (Sentinel "os.ErrNotExist") end, w);
  os_MkdirAll dir w := (Ret tt, w);
  os_Create path w := (Ret tt, wm_set_file path "" w);
  os_Chmod path mode w := (Ret tt, w);
  os_WriteString path s w := match wm_files w !! path with
                             | Some t => (Ret tt, wm_set_file path (t +:+ s) w)
                             | None => (Err (Errorf "file already closed"), w)
                             end;
  os_Close path w := (Ret tt, w)
|}.
#[export] Instance mem_wgnetwork : NetworkSource wgmem := {|
  sm_GetNetworkConfig w := (match wm_config w with Some c => Ret c | None => Err (Errorf "etcdserver: request timed out") end, w);
  sm_GetStoredMacAddresses w := (Ret ("", ""), w)
|}.

#[export] Instance mem_wglaws : WgLaws wgmem.
Proof.
  unshelve econstructor; [exact wm_view|exact (λ _ w, wm_config w ≠ None)|..]; try done.
  - intros dev [v li fs [c|]] Hw; [by exists c|by destruct Hw].
  - intros dev private port k psk ka ep nets w Hw Hk Hep. eexists. split; [reflexivity|]. split; [reflexivity|done].
  - intros dev k w Hw Hk. eexists. split; [reflexivity|]. split; [reflexivity|done].
Defined.

#[export] Instance mem_wgfilelaws : KeyFileLaws wgmem.
Proof.
  unshelve econstructor; [exact (λ w p, wm_files w !! p)|exact (λ _ _, None)|..]; try done.
  - intros path w. cbn. by destruct (wm_files w !! path).
  - intros path w t w'. cbn. destruct (wm_files w !! path); [|done]. by intros [= -> ->].
  - intros dir w w' [= <-]. done.
  - intros path w w' [= <-]. cbn. by rewrite lookup_insert_eq.
  - intros path mode w w' [= <-]. done.
  - intros path s w w'. cbn. destruct (wm_files w !! path) as [t|] eqn:E; [|done]. intros [= <-]. cbn. by rewrite lookup_insert_eq.
  - intros path w w' [= <-]. done.
  - intros w. cbn. split; [done|]. intros k [= <-]. split; [|done]. by repeat constructor; vm_compute.
  - intros l w. cbn. by destruct (wm_links w !! gl_Name l).
Defined.

Definition wg_sample_key (k : Z) : Key := replicate 32 k.
(** The subnet 10.244.i.0/24 of the node 192.168.0.i with the key k. *)
Definition wg_sample (i k : Z) : Lease :=
  mkLease true false (mkIP4Net (183762944 + 256 * i) 24) (mkIP6Net None 0)
    (mkLeaseAttrs (3232235520 + i) None "wireguard" (Some (wireguardLeaseAttrs_Marshal (mkWgLeaseAttrs (Key_String (wg_sample_key k)) 51820))) None) 0 0.
Definition wg_sample_device : wgDevice :=
  mkWgDevice (mkGenericLink "flannel-wg" 1420 "wireguard" 9) (mkWgAttrs 51820 (Some (wg_sample_key 9)) (Some (wg_sample_key 9)) None (Some 0) "flannel-wg" 1500).
Definition wg_sample_network (mode : Mode) : wg_network :=
  mkWgNetwork (Some wg_sample_device) None (mkExternalInterface 1500 2 "eth0" [192; 168; 0; 9] [] [192; 168; 0; 9] []) mode 1500.
Definition wg_sample_config : Config :=
  mkConfig true false false flannel_net (mkIP6Net None 0) 0 0 (Some 0) (Some 0) 24 0 "wireguard" "".
Definition empty_wgmem : wgmem := mkWgmem (mkWgView ∅ ∅) ∅ ∅ (Some wg_sample_config).

Lemma wg_sample_key_ok k : 0 <= k < 256 → key_ok (wg_sample_key k).
Proof. intros Hk. split; [by apply list.Forall_forall; intros x ->%elem_of_replicate_inv|done]. Qed.
Lemma wg_sample_lease i k : 0 <= i < 256 → 0 <= k < 256 → wg_lease (wg_sample i k) (wg_sample_key k) 51820.
Proof.
  intros Hi Hk. pose proof (wg_sample_key_ok k Hk) as Hok. split; try done.
  - split; cbn; lia.
  - apply wg_attrs_decode; [|cbn; lia]. by apply law_Key_String.
Qed.
Lemma wg_sample_peer i k : 0 <= i < 256 → 0 <= k < 256 →
  lease_peer (wg_sample i k) = (wg_sample_key k, lease_endpoint (wg_sample i k) 51820).
Proof. intros Hi Hk. by apply lease_peer_eq, wg_sample_lease. Qed.

Definition wg_sample_events : list Event :=
  [mkEvent EventAdded (wg_sample 1 1); mkEvent EventAdded (wg_sample 2 2); mkEvent EventRemoved (wg_sample 1 1)].

Lemma wg_sample_follows : wg_follows ∅ wg_sample_events.
Proof.
  assert (∀ i, 0 <= i < 256 → IP4Net_ok (Subnet (wg_sample i i))) as Hok by (intros i Hi; split; [split; cbn; lia|cbn; lia]).
  unfold wg_sample_events. cbn [wg_follows]. unfold wg_follows_event, wg_apply. cbn [Event_Lease Event_Type].
  rewrite !wg_sample_peer by lia. cbn [fst]. split; [|split; [|split; [|done]]].
  all: split; [eexists _, _; apply wg_sample_lease; lia|]; split; [apply Hok; lia|]; intros sn k ep.
  - by rewrite lookup_empty.
  - rewrite lookup_insert_Some, lookup_empty. intros [[<- [= <- <-]]|[_ ?]]; [|done]. split; [intros _; by vm_compute|intros F; by vm_compute in F].
  - rewrite !lookup_insert_Some, lookup_empty. intros [[<- [= <- <-]]|[_ [[<- [= <- <-]]|[_ ?]]]]; [..|done];
      (split; [intros F; try (by destruct F); by vm_compute|intros F; try done; by vm_compute in F]).
Qed.

Lemma wg_tracks_leases_witness : ∃ w', wg_handleSubnetEvents (wg_sample_network Separate) wg_sample_events empty_wgmem = (Ret tt, w') ∧
  wv_allowed (wgview_of w') !! ("flannel-wg", IP4Net_ToIPNet (mkIP4Net 183763456 24)) = Some (wg_sample_key 2).
Proof.
  destruct (wg_tracks_leases wgmem (wg_sample_network Separate) wg_sample_device wg_sample_events empty_wgmem) as (w' & E & Hr);
    [reflexivity|reflexivity|discriminate|exact wg_sample_follows| |].
  - split; [by intros ??? F; rewrite lookup_empty in F| |intros sn [x F]; by rewrite lookup_empty in F].
    intros net k. split; [by vm_compute|]. intros (sn & ep & F & _). by rewrite lookup_empty in F.
  - exists w'. split; [exact E|]. apply (wr_allowed _ _ _ Hr). exists (mkIP4Net 183763456 24), (lease_endpoint (wg_sample 2 2) 51820).
    split; [|reflexivity]. unfold wg_sample_events. cbn [foldl]. unfold wg_apply. cbn [Event_Type Event_Lease].
    rewrite !wg_sample_peer by lia. rewrite lookup_delete_ne by discriminate. apply lookup_insert_eq.
Defined.

Lemma announced_peer_witness : ∃ attrs, wg_newSubnetAttrs (IP4_ToIP 3232235521) [] true false (Key_String (wg_sample_key 1)) 51820 51821 = Ret attrs ∧
  (lease_peer (mkLease true false (mkIP4Net 183763200 24) (mkIP6Net None 0) attrs 0 0)).1 = wg_sample_key 1.
Proof.
  eexists. split; [reflexivity|].
  refine (f_equal fst (proj2 (announced_peer 3232235521 (wg_sample_key 1) 51820 51821 _ (mkLease true false (mkIP4Net 183763200 24) (mkIP6Net None 0) _ 0 0)
    _ _ _ eq_refl eq_refl eq_refl eq_refl))); [split; lia|apply wg_sample_key_ok; lia|lia].
Defined.

Definition dual_config : Config :=
  mkConfig true true false flannel_net (mkIP6Net (Some 1) 48) 0 0 (Some 0) (Some 0) 24 64 "wireguard" "".
Definition wg_default_json : wgConfigJSON := mkWgConfigJSON 51820 51821 1500 "" 0 Separate.
Lemma devices_share_key_witness :
  ∃ d d6, public_key d = Ret (Key_String (PublicKey (replicate 32 7))) ∧ public_key d6 = public_key d ∧ wa_name (wd_attrs d) ≠ wa_name (wd_attrs d6).
Proof.
  destruct (create_devices dual_config wg_default_json 0 empty_wgmem) as [r w'] eqn:E.
  assert (∃ d d6, r = Ret (Some d, Some d6, Key_String (PublicKey (replicate 32 7))) ∧ wa_name (wd_attrs d) ≠ wa_name (wd_attrs d6)) as (d & d6 & -> & Hne).
  { assert (r = (create_devices dual_config wg_default_json 0 empty_wgmem).1) as -> by (by rewrite E). eexists _, _. split; [vm_compute; reflexivity|discriminate]. }
  destruct (devices_share_key wgmem dual_config wg_default_json 0 empty_wgmem _ _ _ w' E) as [_ Hk].
  exists d, d6. split; [apply Hk; by left|]. split; [|exact Hne]. rewrite (Hk d), (Hk d6); [done|by right|by left].
Defined.

(** A node keeps its key when it gets another subnet; the removal of its old lease then
    removes the peer, while the lease of the new subnet is still there. *)
Theorem reused_key_loses_peer :
  let evts := [mkEvent EventAdded (wg_sample 1 1); mkEvent EventAdded (wg_sample 2 1); mkEvent EventRemoved (wg_sample 1 1)] in
  let '(r, w') := wg_handleSubnetEvents (wg_sample_network Separate) evts empty_wgmem in
  r = Ret tt ∧ is_Some (foldl wg_apply ∅ evts !! Subnet (wg_sample 2 1)) ∧ wv_peers (wm_view w') !! ("flannel-wg", wg_sample_key 1) = None.
Proof.
  intros evts. destruct (wg_handleSubnetEvents _ evts empty_wgmem) as [r w'] eqn:E.
  assert (r = (wg_handleSubnetEvents (wg_sample_network Separate) evts empty_wgmem).1) as -> by (by rewrite E).
  assert (w' = (wg_handleSubnetEvents (wg_sample_network Separate) evts empty_wgmem).2) as -> by (by rewrite E).
  split; [vm_compute; reflexivity|]. split; [|vm_compute; reflexivity].
  destruct (foldl wg_apply ∅ evts !! Subnet (wg_sample 2 1)) eqn:F; [by eexists|]. by vm_compute in F.
Qed.

(** The network configuration cannot be read for a moment: the daemon panics. *)
Theorem config_error_panics :
  (wg_handleSubnetEvents (wg_sample_network Separate) [mkEvent EventAdded (wg_sample 1 1)]
     (mkWgmem (mkWgView ∅ ∅) ∅ ∅ None)).1 = Panic.
Proof. by vm_compute. Qed.

(** With one device for both families and a network of IPv4 alone, the daemon panics when
    it hears of another node. *)
Theorem shared_device_needs_ipv6 mode : mode ∈ [Auto; Ipv4] →
  (wg_handleSubnetEvents (wg_sample_network mode) [mkEvent EventAdded (wg_sample 1 1)] empty_wgmem).1 = Panic.
Proof. rewrite !elem_of_cons, elem_of_nil. intros [-> |[-> |[]]]; by vm_compute. Qed.
