(* ===== verification/LeaseText.v ===== *)
(** * Lease attributes as text: from a backend through etcd to another node

    [LeaseAttrs] marshalled into the value of an etcd key and read back, with the data
    that the VXLAN backend puts in. *)

From Stdlib Require Import ZArith Lia Ascii.
From stdpp Require Import base strings list gmap numbers.
From S2P Require Import Prelude GoStrings GoJson GoJsonFacts GoNet GoNetFacts Ip4 Ip6 Lease Config Registry Backend Vxlan VxlanFacts.

Local Open Scope Z_scope.

(** Attributes that the text keeps: addresses in range, the IPv6 one not of the four bytes
    that print as IPv4, a type without characters to escape, data that is compact JSON. *)
Record attrs_printable (a : LeaseAttrs) : Prop := {
  printable_ip : IP4_ok (PublicIP a);
  printable_ip6 v : PublicIPv6 a = Some v → IP6_ok v ∧ IP6_plain v;
  printable_type : str_all plain (BackendType a) = true;
  printable_data d : BackendData a = Some d → ∃ j, json_text d j;
  printable_data6 d : BackendV6Data a = Some d → ∃ j, json_text d j
}.

Lemma addr_chars_plain c : digit_dot c = true ∨ hex_colon c = true → plain c = true.
Proof.
  unfold digit_dot, hex_colon, is_lower_hex, is_digit, plain. destruct (Ascii.eqb_spec c "."); [by subst|]. destruct (Ascii.eqb_spec c ":"); [by subst|].
  intros H. rewrite !orb_false_r, !orb_true_iff, !andb_true_iff, !Z.leb_le in H.
  rewrite !(proj2 (Z.eqb_neq (char_code c) _)) by lia. rewrite (proj2 (Z.leb_le 32 _)) by lia. done.
Qed.

Lemma quoted_text s : str_all plain s = true → json_text (quoted s) (JStr s).
Proof. intros Hs. pose proof (json_string_text s Hs) as Ht. unfold json_string in Ht. by rewrite escape_plain in Ht. Qed.

Lemma IP4_String_plain ip : IP4_ok ip → str_all plain (IP4_String ip) = true.
Proof. intros Hip. apply IP_String_all; auto using length_ToIP, ToIP_bytes, addr_chars_plain. Qed.

(** The text of the IPv6 address and its value. *)
Lemma IP6_text o : (∀ v, o = Some v → IP6_ok v ∧ IP6_plain v) →
  ∃ j, json_text (match o with None => "null" | Some v => IP6_MarshalJSON v end) j ∧
    decode_IP6_ptr (match o with None => "null" | Some v => IP6_MarshalJSON v end) j = Ret o.
Proof.
  destruct o as [v|]; intros Ho; [|exists JNull; split; [apply null_text|done]]. destruct (Ho v eq_refl) as [Hv Hp].
  destruct (IP6_String_spec v Hv) as (s & E & Es). rewrite IP6_canon_plain in Es by done.
  assert (str_all plain s = true) as Hs.
  { destruct (IP6_ToIP_spec v Hv) as (ip & Ei & Hlen & Hb & _). unfold IP6_String in E. rewrite Ei in E. injection E as <-.
    apply IP_String_all; auto using addr_chars_plain. }
  exists (JStr s). unfold IP6_MarshalJSON. rewrite E. cbn [Sprintf_s]. split; [by apply quoted_text|].
  unfold decode_IP6_ptr, IP6_UnmarshalJSON. rewrite trim_quoted; [done|]. apply (lacks_of_all plain); [done|done].
Qed.

(** A raw member: its text and how it reads. *)
Lemma raw_member_text name raw : (∀ d, raw = Some d → ∃ j, json_text d j) →
  ∃ ms, raw_member name raw = Ret (member_text <$> ms) ∧
    (raw = None ∧ ms = [] ∨ ∃ d j, raw = Some d ∧ json_text d j ∧ ms = [(name, d, j)]).
Proof.
  destruct raw as [d|]; intros Hr; [|by exists []; split; [|left]]. destruct (Hr d eq_refl) as [j Hj]. exists [(name, d, j)].
  split; [|right; by exists d, j]. pose proof Hj as [(c & d' & -> & _) _]. cbn [raw_member]. by rewrite (json_compact_text _ _ Hj).
Qed.

Lemma decode_step {A} (field : A → string → string → json → outcome A) k raw v ms a a' : field a k raw v = Ret a' →
  decode_members field ((k, raw, v) :: ms) a = decode_members field ms a'.
Proof. intros E. cbn [decode_members]. by rewrite E. Qed.

Lemma attrs_roundtrip a : attrs_printable a → ∃ s, LeaseAttrs_Marshal a = Ret s ∧ LeaseAttrs_Unmarshal s = Ret a.
Proof.
  intros [Hip Hip6 Ht Hd Hd6]. destruct a as [ip ip6 ty data data6]. cbn [PublicIP PublicIPv6 BackendType BackendData BackendV6Data] in *.
  destruct (IP6_text ip6 Hip6) as (j6 & Hj6 & E6). pose proof (IP4_String_plain ip Hip) as H4.
  destruct (raw_member_text "BackendData" data Hd) as (ms & Em & Hms). destruct (raw_member_text "BackendV6Data" data6 Hd6) as (ms6 & Em6 & Hms6).
  set (t6 := match ip6 with None => "null" | Some v => IP6_MarshalJSON v end) in *.
  set (mt := if decide (ty = "") then [] else [("BackendType", json_string ty, JStr ty)]).
  set (all := [("PublicIP", IP4_MarshalJSON ip, JStr (IP4_String ip)); ("PublicIPv6", t6, j6)] ++ mt ++ ms ++ ms6).
  exists (json_object (member_text <$> all)). split.
  - unfold LeaseAttrs_Marshal. cbn [PublicIP PublicIPv6 BackendType BackendData BackendV6Data]. rewrite Em, Em6. cbn [mbind outcome_bind].
    do 2 f_equal. unfold all, mt. rewrite !fmap_app. by destruct (decide (ty = "")).
  - unfold LeaseAttrs_Unmarshal. rewrite Unmarshal_object; [| |done].
    2:{ unfold all, mt, members_ok. repeat (apply Forall_app; split); cbn [fst snd].
        - repeat (apply list.Forall_cons; split; [split; [done|]|]); cbn [fst snd]; [by apply quoted_text|done|by apply list.Forall_nil].
        - destruct (decide (ty = "")); [by apply list.Forall_nil|]. apply list.Forall_cons. split; [split; [done|]|by apply list.Forall_nil].
          by apply json_string_text.
        - destruct Hms as [[_ ->]|(d & j & _ & Hj & ->)]; [by apply list.Forall_nil|]. apply list.Forall_cons. split; [by split|by apply list.Forall_nil].
        - destruct Hms6 as [[_ ->]|(d & j & _ & Hj & ->)]; [by apply list.Forall_nil|]. apply list.Forall_cons. split; [by split|by apply list.Forall_nil]. }
    assert (IP4_UnmarshalJSON (IP4_MarshalJSON ip) = Ret ip) as E4.
    { unfold IP4_UnmarshalJSON, IP4_MarshalJSON. rewrite trim_quoted; [by apply ParseIP4_of_String|]. apply (lacks_of_all plain); [done|done]. }
    unfold all. cbn [app].
    rewrite (decode_step _ _ _ _ _ _ (mkLeaseAttrs ip None "" None None))
      by (unfold LeaseAttrs_field; change (field_name "PublicIP" "PublicIP") with true; cbn iota; by rewrite E4).
    rewrite (decode_step _ _ _ _ _ _ (mkLeaseAttrs ip ip6 "" None None))
      by (unfold LeaseAttrs_field; change (field_name "PublicIP" "PublicIPv6") with false;
          change (field_name "PublicIPv6" "PublicIPv6") with true; cbn iota; by rewrite E6).
    unfold mt. destruct (decide (ty = "")) as [->|_]; destruct Hms as [[-> ->]|(d & j & -> & _ & ->)], Hms6 as [[-> ->]|(d6 & j6' & -> & _ & ->)]; reflexivity.
Qed.

(** Attributes of a lease written to etcd are read back as they were. *)
Theorem LeaseAttrs_roundtrip a : attrs_printable a →
  ∃ s, LeaseAttrs_Marshal a = Ret s ∧ LeaseAttrs_Unmarshal s = Ret a.
Proof. apply attrs_roundtrip. Qed.

(** What a VXLAN node announces arrives: the attributes it registers, stored in etcd and
    read by another node, decode there to its public address, network identifier and
    hardware address. *)
Theorem vxlan_attrs_through_etcd publicIP vnid d attrs : publicIP ≠ [] → Forall is_byte publicIP → 0 <= vnid < 2 ^ 32 → mac_ok (MACAddr d) →
  newSubnetAttrs publicIP [] vnid (Some d) None = Ret attrs →
  attrs_printable attrs ∧ ∃ s attrs', LeaseAttrs_Marshal attrs = Ret s ∧ LeaseAttrs_Unmarshal s = Ret attrs' ∧
    FromIP publicIP = Ret (PublicIP attrs') ∧
    vxlanLeaseAttrs_Unmarshal (BackendData attrs') = Ret (mkVxlanAttrs vnid (MACAddr d)).
Proof.
  intros Hp Hb Hv Hm E. unfold newSubnetAttrs in E. rewrite decide_False in E by done.
  apply bind_inv in E as ([pub data] & E1 & E). apply bind_inv in E1 as (p & Hpub & [= <- <-]). injection E as <-.
  set (a := mkVxlanAttrs vnid (MACAddr d)).
  assert (attrs_printable (mkLeaseAttrs p None "vxlan" (Some (vxlanLeaseAttrs_Marshal a)) None)) as Hpr.
  { split; cbn; [|done|done| |done].
    - by eapply FromIP_ok.
    - intros ? [= <-]. eexists. rewrite vxlan_attrs_text. apply object_text; [|done]. by apply attrs_members_ok. }
  split; [exact Hpr|]. destruct (attrs_roundtrip _ Hpr) as (s & E1 & E2).
  eexists s, _. split; [exact E1|]. split; [exact E2|]. cbn [PublicIP BackendData]. split; [done|]. by apply (vxlan_attrs_decode a).
Qed.

Lemma LeaseAttrs_roundtrip_witness : ∃ s,
  LeaseAttrs_Marshal (mkLeaseAttrs 3232235777 None "host-gw" None None) = Ret s ∧
  LeaseAttrs_Unmarshal s = Ret (mkLeaseAttrs 3232235777 None "host-gw" None None).
Proof. apply LeaseAttrs_roundtrip. split; [by vm_compute|done|done|done|done]. Defined.

Lemma vxlan_attrs_through_etcd_witness : ∃ attrs s attrs',
  newSubnetAttrs (IP4_ToIP 3232235777) [] 1 (Some sample_device) None = Ret attrs ∧
  LeaseAttrs_Marshal attrs = Ret s ∧ LeaseAttrs_Unmarshal s = Ret attrs' ∧ PublicIP attrs' = 3232235777.
Proof.
  destruct (vxlan_attrs_through_etcd (IP4_ToIP 3232235777) 1 sample_device
    (mkLeaseAttrs 3232235777 None "vxlan" (lease_data 1 sample_device) None)) as (_ & s & attrs' & E1 & E2 & E3 & _);
    [done|by apply (bool_decide_unpack _); vm_compute|lia| |reflexivity|].
  - split; [|done]. by apply (bool_decide_unpack _); vm_compute.
  - eexists _, s, attrs'. split; [reflexivity|]. split; [exact E1|]. split; [exact E2|].
    rewrite FromIP_ToIP in E3 by (by vm_compute). by injection E3.
Defined.
