(* ===== verification/MeshApi.v ===== *)
(** * [pkg/cloudflaremesh]: names of the Mesh and the client of its API

    [model.go] and [api.go].  The operations on an account are the class [MeshAPI], the
    Go interface [API]; the client implements it over [http_Do], an HTTP exchange. *)

From Stdlib Require Import ZArith Lia Ascii.
From stdpp Require Import base strings list gmap numbers.
From S2P Require Import Prelude GoStrings GoRegexp GoJson GoTime GoHash.

Local Open Scope Z_scope.

(** ** [model.go] *)

Definition BackendName : string := "cloudflare-mesh".
Definition DefaultAnnotationPrefix : string := "flannel.alpha.coreos.com".
Definition SecretConnectorIDKey : string := "connector-id".
Definition SecretConnectorNameKey : string := "connector-name".
Definition SecretConnectorTokenKey : string := "connector-token".
Definition ManagedByLabel : string := "app.kubernetes.io/managed-by".
Definition ManagedByOperator : string := "cloudflare-mesh-operator".

Record LeaseData := mkLeaseData { ld_ConnectorID : string; ld_MeshIP : string }.

Definition boundedName (value : string) (limit : nat) : string :=
  if decide (String.length value <= limit)%nat then value
  else
    let digest := str_take 12 (sha256_hex value) in
    str_take (limit - String.length digest - 1) value +:+ "-" +:+ digest.

Definition NodeSecretName (prefix nodeName : string) : string := boundedName (prefix +:+ nodeName) 253.
Definition ConnectorNamePrefix (prefix clusterName : string) : string := prefix +:+ clusterName +:+ "-".
Definition ConnectorName (prefix clusterName nodeName : string) : string :=
  boundedName (ConnectorNamePrefix prefix clusterName +:+ nodeName) 64.
Definition RouteCommentPrefix (clusterName : string) : string := "flannel:" +:+ clusterName +:+ ":".
Definition RouteComment (clusterName nodeName network : string) : string :=
  boundedName ("flannel:" +:+ clusterName +:+ ":" +:+ nodeName +:+ ":" +:+ network) 100.

(** ** The interface [API] *)

Record ConnectorCredentials := mkConnector { cc_ID : string; cc_Name : string; cc_Token : string }.
(** A [RawMessage] that is nil is empty. *)
Record ApiRoute := mkApiRoute {
  rt_ID : string;
  rt_Network : string;
  rt_TunnelID : string;
  rt_Comment : string;
  rt_DeletedAt : string
}.
Record DeviceRegistration := mkRegistration {
  dr_ID : string;
  dr_VirtualIPv4 : string;
  dr_CreatedAt : Z;
  dr_DeletedAt : string;
  dr_DeviceID : string;
  dr_DeviceName : string
}.
Definition dr_Name (r : DeviceRegistration) : string := dr_DeviceName r.

#[global] Instance ConnectorCredentials_eq_dec : EqDecision ConnectorCredentials.
Proof. solve_decision. Defined.
#[global] Instance ApiRoute_eq_dec : EqDecision ApiRoute.
Proof. solve_decision. Defined.
#[global] Instance DeviceRegistration_eq_dec : EqDecision DeviceRegistration.
Proof. solve_decision. Defined.

Class MeshAPI (W : Type) := {
  EnsureConnector : string → string → bool → M W ConnectorCredentials;
  ListConnectors : M W (list ConnectorCredentials);
  DeleteConnector : string → M W unit;
  EnsureRoute : string → string → string → M W ApiRoute;
  ListRoutes : string → M W (list ApiRoute);
  DeleteRoute : string → M W unit;
  ListDeviceRegistrations : M W (list DeviceRegistration);
  DeleteDeviceRegistration : string → M W unit
}.

(** ** Decoding *)

Definition decode_struct {A} (field : A → string → string → json → outcome A) (a : A) (j : json) : outcome A :=
  match j with JNull => Ret a | JObj ms => decode_members field ms a | _ => Err json_error end.
Fixpoint decode_elems {A} (elem : json → outcome A) (js : list json) : outcome (list A) :=
  match js with
  | [] => Ret []
  | j :: js => a ← elem j; l ← decode_elems elem js; Ret (a :: l)
  end.
Definition decode_slice {A} (elem : json → outcome A) (j : json) : outcome (list A) :=
  match j with JNull => Ret [] | JArr js => decode_elems elem js | _ => Err json_error end.
Definition Unmarshal {A} (decode : json → outcome A) (text : string) : outcome A :=
  match parse_json text with Some (_, j) => decode j | None => Err (Errorf "json: syntax error") end.

Definition Connector_field (c : ConnectorCredentials) (key raw : string) (v : json) : outcome ConnectorCredentials :=
  if field_name "id" key then s ← decode_string (cc_ID c) v; Ret (mkConnector s (cc_Name c) (cc_Token c))
  else if field_name "name" key then s ← decode_string (cc_Name c) v; Ret (mkConnector (cc_ID c) s (cc_Token c))
  else if field_name "token" key then s ← decode_string (cc_Token c) v; Ret (mkConnector (cc_ID c) (cc_Name c) s)
  else Ret c.
Definition zero_connector : ConnectorCredentials := mkConnector "" "" "".
Definition decode_connector (j : json) : outcome ConnectorCredentials := decode_struct Connector_field zero_connector j.

Definition Route_field (r : ApiRoute) (key raw : string) (v : json) : outcome ApiRoute :=
  let '(mkApiRoute id network tunnel comment deleted) := r in
  if field_name "id" key then s ← decode_string id v; Ret (mkApiRoute s network tunnel comment deleted)
  else if field_name "network" key then s ← decode_string network v; Ret (mkApiRoute id s tunnel comment deleted)
  else if field_name "tunnel_id" key then s ← decode_string tunnel v; Ret (mkApiRoute id network s comment deleted)
  else if field_name "comment" key then s ← decode_string comment v; Ret (mkApiRoute id network tunnel s deleted)
  else if field_name "deleted_at" key then Ret (mkApiRoute id network tunnel comment raw)
  else Ret r.
Definition decode_route (j : json) : outcome ApiRoute := decode_struct Route_field (mkApiRoute "" "" "" "" "") j.

Definition Device_field (d : string * string) (key raw : string) (v : json) : outcome (string * string) :=
  if field_name "id" key then s ← decode_string d.1 v; Ret (s, d.2)
  else if field_name "name" key then s ← decode_string d.2 v; Ret (d.1, s)
  else Ret d.
Definition Registration_field (r : DeviceRegistration) (key raw : string) (v : json) : outcome DeviceRegistration :=
  let '(mkRegistration id ip created deleted dev name) := r in
  if field_name "id" key then s ← decode_string id v; Ret (mkRegistration s ip created deleted dev name)
  else if field_name "virtual_ipv4" key then s ← decode_string ip v; Ret (mkRegistration id s created deleted dev name)
  else if field_name "created_at" key then t ← Time_UnmarshalJSON created raw; Ret (mkRegistration id ip t deleted dev name)
  else if field_name "deleted_at" key then Ret (mkRegistration id ip created raw dev name)
  else if field_name "device" key then d ← decode_struct Device_field (dev, name) v; Ret (mkRegistration id ip created deleted d.1 d.2)
  else Ret r.
(** January 1 of year 1, the zero [time.Time]. *)
Definition zero_created : Z := -62135596800 * nanosecond_per_second.
Definition decode_registration (j : json) : outcome DeviceRegistration :=
  decode_struct Registration_field (mkRegistration "" "" zero_created "" "" "") j.

Record apiError := mkApiError { ae_Code : Z; ae_Message : string }.
Record apiEnvelope := mkEnvelope {
  env_Success : bool;
  env_Result : string;
  env_Errors : list apiError;
  env_Cursor : string;
  env_After : string
}.

Definition apiError_field (e : apiError) (key raw : string) (v : json) : outcome apiError :=
  if field_name "code" key then n ← decode_int 64 (ae_Code e) v; Ret (mkApiError n (ae_Message e))
  else if field_name "message" key then s ← decode_string (ae_Message e) v; Ret (mkApiError (ae_Code e) s)
  else Ret e.
Definition cursors_field (after key raw : string) (v : json) : outcome string :=
  if field_name "after" key then decode_string after v else Ret after.
Definition result_info_field (c : string * string) (key raw : string) (v : json) : outcome (string * string) :=
  if field_name "cursor" key then s ← decode_string c.1 v; Ret (s, c.2)
  else if field_name "cursors" key then s ← decode_struct cursors_field c.2 v; Ret (c.1, s)
  else Ret c.
Definition apiEnvelope_field (e : apiEnvelope) (key raw : string) (v : json) : outcome apiEnvelope :=
  let '(mkEnvelope ok result errs cursor after) := e in
  if field_name "success" key then b ← decode_bool ok v; Ret (mkEnvelope b result errs cursor after)
  else if field_name "result" key then Ret (mkEnvelope ok raw errs cursor after)
  else if field_name "errors" key then
    l ← decode_slice (decode_struct apiError_field (mkApiError 0 "")) v; Ret (mkEnvelope ok result l cursor after)
  else if field_name "result_info" key then
    c ← decode_struct result_info_field (cursor, after) v; Ret (mkEnvelope ok result errs c.1 c.2)
  else Ret e.
Definition decode_envelope (j : json) : outcome apiEnvelope := decode_struct apiEnvelope_field (mkEnvelope false "" [] "" "") j.

Definition nextCursor (e : apiEnvelope) : string := if decide (env_Cursor e ≠ "") then env_Cursor e else env_After e.

Definition isDeleted (value : string) : bool :=
  let trimmed := TrimSpace value in bool_decide (trimmed ≠ "" ∧ trimmed ≠ "null").

(** ** The client *)

Definition maxAPIResponseSize : Z := 2097152.
Definition registrationPageSize : Z := 100.
Definition maxRegistrationPages : nat := 200.

(** [url.PathEscape]: what is not a letter, a digit or one of these is a percent escape. *)
Definition path_safe (c : ascii) : bool :=
  let n := char_code c in
  is_digit c || ((65 <=? n) && (n <=? 90)) || ((97 <=? n) && (n <=? 122)) ||
  existsb (Ascii.eqb c) ["-"; "_"; "."; "~"; "$"; "&"; "+"; ":"; "="; "@"]%char.
Definition upper_hex (n : Z) : ascii := Ascii.ascii_of_N (Z.to_N (if n <? 10 then 48 + n else 55 + n)).
Fixpoint PathEscape (s : string) : string :=
  match s with
  | EmptyString => ""
  | String c s =>
      (if path_safe c then String c ""
       else String "%" (String (upper_hex (char_code c / 16)) (String (upper_hex (char_code c mod 16)) ""))) +:+ PathEscape s
  end.
Definition TrimLeft_slash : string → string := trim_left (λ c, Ascii.eqb c "/").
Definition TrimRight_slash (s : string) : string := String.rev (TrimLeft_slash (String.rev s)).

Record HttpRequest := mkHttpRequest {
  rq_Method : string;
  rq_Path : string;
  rq_Query : list (string * string);
  rq_Body : option string;
  rq_Token : string
}.
(** The status, and the body or the error that reading it gives. *)
Class Http (W : Type) := { http_Do : HttpRequest → M W (Z * (string + error)) }.

(** What [url.Parse] gives. *)
Record URL := mkURL { url_Scheme : string; url_Host : string; url_Path : string }.
Record Client := mkClient { cl_baseURL : URL; cl_accountID : string; cl_token : string }.

Definition NewClient (url_Parse : string → outcome URL) (baseURL accountID token : string) : outcome Client :=
  match url_Parse baseURL with
  | Err e => Err (Wrapf "parse Cloudflare API base URL: %w" e)
  | Panic => Panic
  | Ret parsed =>
      if decide (url_Scheme parsed ≠ "https" ∧ url_Scheme parsed ≠ "http") then Err (Errorf "unsupported Cloudflare API URL scheme %q")
      else if decide (url_Host parsed = "") then Err (Errorf "Cloudflare API base URL must include a host")
      else Ret (mkClient parsed accountID token)
  end.

(** [io.LimitReader]. *)
Fixpoint limit_read (n : Z) (s : string) : string :=
  match s with
  | String c s => if n <=? 0 then "" else String c (limit_read (n - 1) s)
  | EmptyString => ""
  end.

Definition accountPath (c : Client) (resource : string) : string :=
  "accounts/" +:+ PathEscape (cl_accountID c) +:+ "/" +:+ TrimLeft_slash resource.

(** A body made of members. *)
Definition body_of (ms : list (string * string)) : string := json_object ((λ m, member m.1 m.2) <$> ms).

Section client.
Context {W : Type} `{Http W} (c : Client).

Definition do {A} (method path : string) (query : list (string * string)) (body : option string) (result : string → outcome A)
    : M W (apiEnvelope * A) :=
  let url := TrimRight_slash (url_Path (cl_baseURL c)) +:+ "/" +:+ TrimLeft_slash path in
  '(status, read) ← http_Do (mkHttpRequest method url query body (cl_token c));
  match read with
  | inr e => throw (Wrapf "read response: %w" e)
  | inl payload =>
      envelope ← wrapping "decode HTTP %d response: %w" (lift (Unmarshal decode_envelope (limit_read maxAPIResponseSize payload)));
      _ ← check ((status <? 200) || (300 <=? status) || negb (env_Success envelope)) (Errorf "Cloudflare API HTTP %d: %s");
      a ← wrapping "decode Cloudflare API result: %w" (lift (result (env_Result envelope)));
      mret (envelope, a)
  end.

(** The decoders of a result: none, the text itself, a value. *)
Definition no_result (text : string) : outcome unit := Ret tt.
Definition raw_result (text : string) : outcome string := Ret text.

Definition getConnectorToken (connectorID : string) : M W string :=
  r ← wrapping "get token for Cloudflare Mesh node %s: %w"
        (do "GET" (accountPath c ("warp_connector/" +:+ PathEscape connectorID +:+ "/token")) [] None raw_result);
  let as_object :=
    match Unmarshal (decode_struct (λ t key _ v, if field_name "token" key then decode_string t v else Ret t) "") r.2 with
    | Ret t => if decide (t = "") then throw (Errorf "Cloudflare returned an empty token for Mesh node %s") else mret t
    | _ => throw (Errorf "Cloudflare returned an empty token for Mesh node %s")
    end in
  match Unmarshal (decode_string "") r.2 with
  | Ret token => if decide (token ≠ "") then mret token else as_object
  | _ => as_object
  end.

Definition createConnector (name : string) (ha : bool) : M W ConnectorCredentials :=
  r ← wrapping "create Cloudflare Mesh node %q: %w"
        (do "POST" (accountPath c "warp_connector") []
           (Some (body_of [("name", json_string name); ("ha", if ha then "true" else "false")])) (Unmarshal decode_connector));
  let connector := r.2 in
  _ ← check (bool_decide (cc_ID connector = "")) (Errorf "Cloudflare created Mesh node %q without an ID");
  if decide (cc_Token connector = "") then
    token ← getConnectorToken (cc_ID connector);
    mret (mkConnector (cc_ID connector) (cc_Name connector) token)
  else mret connector.

Definition Client_ListConnectors : M W (list ConnectorCredentials) :=
  r ← wrapping "list Cloudflare Mesh nodes: %w"
        (do "GET" (accountPath c "warp_connector") [("per_page", "1000")] None (Unmarshal (decode_slice decode_connector)));
  mret r.2.

(** The only connector of the list with the name: an error when there are two. *)
Fixpoint find_connector (name : string) (found : option ConnectorCredentials) (l : list ConnectorCredentials)
    : outcome (option ConnectorCredentials) :=
  match l with
  | [] => Ret found
  | x :: l =>
      if decide (cc_Name x ≠ name) then find_connector name found l
      else match found with
           | Some _ => Err (Errorf "multiple Cloudflare Mesh nodes are named %q")
           | None => find_connector name (Some x) l
           end
  end.

Definition Client_EnsureConnector (connectorID name : string) (ha : bool) : M W ConnectorCredentials :=
  if decide (connectorID ≠ "") then
    token ← getConnectorToken connectorID;
    mret (mkConnector connectorID name token)
  else
    connectors ← Client_ListConnectors;
    found ← lift (find_connector name None connectors);
    match found with
    | None => createConnector name ha
    | Some found =>
        token ← getConnectorToken (cc_ID found);
        mret (mkConnector (cc_ID found) (cc_Name found) token)
    end.

Definition Client_DeleteConnector (connectorID : string) : M W unit :=
  _ ← wrapping "delete Cloudflare Mesh node %s: %w"
        (do "DELETE" (accountPath c ("warp_connector/" +:+ PathEscape connectorID)) [] None no_result);
  mret tt.

Definition Client_ListRoutes (connectorID : string) : M W (list ApiRoute) :=
  let query := [("is_deleted", "false"); ("per_page", "1000"); ("tun_types", "warp_connector")] in
  let query := if decide (connectorID ≠ "") then query ++ [("tunnel_id", connectorID)] else query in
  r ← wrapping "list Cloudflare routes for connector %s: %w"
        (do "GET" (accountPath c "teamnet/routes") query None (Unmarshal (decode_slice decode_route)));
  mret r.2.

Definition updateRouteComment (route : ApiRoute) (comment : string) : M W ApiRoute :=
  r ← wrapping "update ownership comment for Cloudflare route %s: %w"
        (do "PATCH" (accountPath c ("teamnet/routes/" +:+ PathEscape (rt_ID route))) []
           (Some (body_of [("network", json_string (rt_Network route)); ("comment", json_string comment)])) (Unmarshal decode_route));
  mret r.2.

(** The first route of the list that is already the wanted one, up to its comment. *)
Fixpoint find_mesh_route (connectorID network : string) (routes : list ApiRoute) : option ApiRoute :=
  match routes with
  | [] => None
  | r :: routes =>
      if decide (rt_Network r = network ∧ rt_TunnelID r = connectorID ∧ isDeleted (rt_DeletedAt r) = false) then Some r
      else find_mesh_route connectorID network routes
  end.

Definition Client_EnsureRoute (connectorID network comment : string) : M W ApiRoute :=
  routes ← Client_ListRoutes connectorID;
  match find_mesh_route connectorID network routes with
  | Some r => if decide (rt_Comment r ≠ comment) then updateRouteComment r comment else mret r
  | None =>
      let body := [("network", json_string network); ("tunnel_id", json_string connectorID)] ++
                  (if decide (comment = "") then [] else [("comment", json_string comment)]) in
      r ← wrapping "create Cloudflare route %s for connector %s: %w"
            (do "POST" (accountPath c "teamnet/routes") [] (Some (body_of body)) (Unmarshal decode_route));
      mret r.2
  end.

Definition Client_DeleteRoute (routeID : string) : M W unit :=
  _ ← wrapping "delete Cloudflare route %s: %w"
        (do "DELETE" (accountPath c ("teamnet/routes/" +:+ PathEscape routeID)) [] None no_result);
  mret tt.

(** One page of registrations. *)
Definition registrations_page (cursor : string) : M W (apiEnvelope * list DeviceRegistration) :=
  wrapping "list Cloudflare device registrations: %w"
    (do "GET" (accountPath c "devices/registrations")
       ((if decide (cursor ≠ "") then [("cursor", cursor)] else []) ++ [("per_page", fmt_uint 10 registrationPageSize)]) None
       (Unmarshal (decode_slice decode_registration))).
Fixpoint list_pages (pages : nat) (all : list DeviceRegistration) (cursor : string) : M W (list DeviceRegistration) :=
  match pages with
  | O => throw (Errorf "list Cloudflare device registrations: more than %d pages")
  | S pages =>
      r ← registrations_page cursor;
      let all := all ++ r.2 in
      let cursor := nextCursor r.1 in
      if decide (cursor = "" ∨ r.2 = []) then mret all else list_pages pages all cursor
  end.
Definition Client_ListDeviceRegistrations : M W (list DeviceRegistration) := list_pages maxRegistrationPages [] "".

Definition Client_DeleteDeviceRegistration (registrationID : string) : M W unit :=
  _ ← wrapping "delete Cloudflare device registration %s: %w"
        (do "DELETE" (accountPath c ("devices/registrations/" +:+ PathEscape registrationID)) [] None no_result);
  mret tt.

(** The client is an [API]. *)
Definition Client_API : MeshAPI W := {|
  EnsureConnector := Client_EnsureConnector;
  ListConnectors := Client_ListConnectors;
  DeleteConnector := Client_DeleteConnector;
  EnsureRoute := Client_EnsureRoute;
  ListRoutes := Client_ListRoutes;
  DeleteRoute := Client_DeleteRoute;
  ListDeviceRegistrations := Client_ListDeviceRegistrations;
  DeleteDeviceRegistration := Client_DeleteDeviceRegistration
|}.
End client.

(** ** Bounded names *)

Lemma HasPrefix_app p s : HasPrefix (p +:+ s) p = true.
Proof. unfold HasPrefix. induction p as [|c p IH]; [by destruct s|]. rewrite str_app_cons. cbn. by destruct (ascii_dec c c). Qed.
Lemma HasPrefix_exists s p : HasPrefix s p = true ↔ ∃ t, s = p +:+ t.
Proof.
  split; [|intros (t & ->); apply HasPrefix_app]. unfold HasPrefix. revert s. induction p as [|c p IH]; intros s; [by exists s|].
  destruct s as [|d s]; [done|]. cbn. destruct (ascii_dec c d) as [->|]; [|done]. intros (t & ->)%IH. by exists t.
Qed.
Lemma str_take_length n s : (n <= String.length s)%nat → String.length (str_take n s) = n.
Proof. revert s. induction n as [|n IH]; intros [|c s] Hn; cbn in *; [done..|lia|]. f_equal. apply IH. lia. Qed.
Lemma str_take_app n p s : (String.length p <= n)%nat → ∃ t, str_take n (p +:+ s) = p +:+ t.
Proof.
  revert n. induction p as [|c p IH]; intros n Hn; [by eexists|]. destruct n as [|n]; cbn in Hn; [lia|].
  destruct (IH n) as (t & Ht); [lia|]. exists t. rewrite !str_app_cons. cbn [str_take]. by f_equal.
Qed.

Lemma digest_length s : String.length (str_take 12 (sha256_hex s)) = 12%nat.
Proof. apply str_take_length. destruct (sha256_hex_spec s) as [_ ->]. lia. Qed.

(** A bounded name is never longer than its bound, and still begins as the name did. *)
Lemma boundedName_spec p s limit : (String.length p + 13 <= limit)%nat →
  (String.length (boundedName (p +:+ s) limit) <= limit)%nat ∧ HasPrefix (boundedName (p +:+ s) limit) p = true.
Proof.
  intros Hp. unfold boundedName. case_decide as Hlen; [by split; [|apply HasPrefix_app]|]. rewrite digest_length. split.
  - rewrite !str_length_app, digest_length, str_take_length by lia. cbn. lia.
  - apply HasPrefix_exists. destruct (str_take_app (limit - 12 - 1) p s) as (t & ->); [lia|].
    exists (t +:+ "-" +:+ str_take 12 (sha256_hex (p +:+ s))). by rewrite str_app_assoc.
Qed.

(** The connector of a node fits the 64 characters Cloudflare allows and still carries the
    prefix by which the operator knows it for the cluster's, when that prefix is at most
    51 characters long; likewise for the comment of its route, of 100 characters. *)
Theorem names_carry_prefix prefix clusterName nodeName network :
  (String.length (ConnectorNamePrefix prefix clusterName) <= 51)%nat →
  let name := ConnectorName prefix clusterName nodeName in
  let comment := RouteComment clusterName nodeName network in
  (String.length name <= 64)%nat ∧ HasPrefix name (ConnectorNamePrefix prefix clusterName) = true ∧
  (String.length comment <= 100)%nat ∧ HasPrefix comment (RouteCommentPrefix clusterName) = true.
Proof.
  intros Hlen. cbn zeta. destruct (boundedName_spec (ConnectorNamePrefix prefix clusterName) nodeName 64) as [Hl Hp]; [lia|].
  assert (String.length (RouteCommentPrefix clusterName) + 13 <= 100)%nat as Hr.
  { unfold ConnectorNamePrefix in Hlen. unfold RouteCommentPrefix. rewrite !str_length_app in *. cbn in *. lia. }
  destruct (boundedName_spec (RouteCommentPrefix clusterName) (nodeName +:+ ":" +:+ network) 100 Hr) as [Hl2 Hp2].
  assert (RouteComment clusterName nodeName network =
          boundedName (RouteCommentPrefix clusterName +:+ (nodeName +:+ ":" +:+ network)) 100) as ->.
  { unfold RouteComment, RouteCommentPrefix. by rewrite !str_app_assoc. }
  done.
Qed.

Lemma names_carry_prefix_witness :
  HasPrefix (ConnectorName "flannel-" "prod" "a-node-with-a-name-so-long-that-it-does-not-fit-in-a-connector") "flannel-prod-" = true.
Proof.
  exact (proj1 (proj2 (names_carry_prefix "flannel-" "prod" "a-node-with-a-name-so-long-that-it-does-not-fit-in-a-connector" "10.0.0.0/24"
    ltac:(vm_compute; lia)))).
Defined.

(** ** Pages *)

Section pages.
Context {W : Type} `{Http W} (c : Client).

(** The server has the pages, each with the cursor of the next one but for the last. *)
Inductive paged : W → string → list (list DeviceRegistration) → W → Prop :=
| paged_last w cursor env l w' : registrations_page c cursor w = (Ret (env, l), w') → nextCursor env = "" ∨ l = [] →
    paged w cursor [l] w'
| paged_more w cursor env l w' pages w'' : registrations_page c cursor w = (Ret (env, l), w') → nextCursor env ≠ "" → l ≠ [] →
    paged w' (nextCursor env) pages w'' → paged w cursor (l :: pages) w''.

Lemma list_pages_spec n w cursor pages w' all : paged w cursor pages w' →
  if decide (length pages <= n)%nat then list_pages c n all cursor w = (Ret (all ++ concat pages), w')
  else ∃ e, (list_pages c n all cursor w).1 = Err e.
Proof.
  intros Hp. revert n all. induction Hp as [w cursor env l w' Hpage Hend|w cursor env l w' pages w'' Hpage Hc Hl _ IH]; intros n all.
  - destruct n as [|n]; [by eexists|]. cbn [length concat]. rewrite decide_True by lia. cbn [list_pages].
    unfold mbind, M_bind. rewrite Hpage. cbn [fst snd]. rewrite decide_True by done. by rewrite app_nil_r.
  - destruct n as [|n]; [by eexists|]. cbn [length concat list_pages]. unfold mbind, M_bind. rewrite Hpage. cbn [fst snd].
    rewrite (decide_False (P := nextCursor env = "" ∨ l = [])) by tauto. rewrite app_assoc. specialize (IH n (all ++ l)).
    repeat case_decide; first [done|lia].
Qed.

(** The registrations are those of all pages, in order, up to 200 pages; beyond them
    listing is an error, never a part of the registrations. *)
Theorem ListDeviceRegistrations_complete w pages w' : paged w "" pages w' →
  ((length pages <= maxRegistrationPages)%nat → Client_ListDeviceRegistrations c w = (Ret (concat pages), w')) ∧
  ((maxRegistrationPages < length pages)%nat → ∃ e, (Client_ListDeviceRegistrations c w).1 = Err e).
Proof.
  intros Hp. apply (list_pages_spec maxRegistrationPages _ _ _ _ []) in Hp. unfold Client_ListDeviceRegistrations.
  split; intros Hn; [by rewrite decide_True in Hp by lia|by rewrite decide_False in Hp by lia].
Qed.
End pages.

(** A server that hands out one registration per page. *)
Definition registration_json (id : string) : string :=
  body_of [("id", json_string id); ("virtual_ipv4", json_string "100.96.0.1"); ("created_at", json_string "2026-01-02T03:04:05Z")].
Definition page_json (id cursor : string) : string :=
  body_of [("success", "true"); ("result", "[" +:+ registration_json id +:+ "]"); ("result_info", body_of [("cursor", json_string cursor)])].
#[local] Instance mem_http : Http (list HttpRequest) := {|
  http_Do rq log :=
    (Ret (200, inl (if decide (("cursor", "next") ∈ rq_Query rq) then page_json "d2" "" else page_json "d1" "next")), log ++ [rq])
|}.
Definition mem_client : Client := mkClient (mkURL "https" "api.cloudflare.com" "/client/v4") "acc" "token".
Definition mem_page (cursor : string) (log : list HttpRequest) := registrations_page mem_client cursor log.

Lemma ListDeviceRegistrations_complete_witness :
  dr_ID <$> default [] (match (Client_ListDeviceRegistrations mem_client []).1 with Ret l => Some l | _ => None end) = ["d1"; "d2"].
Proof.
  set (created := 1767323045 * nanosecond_per_second).
  set (pages := [[mkRegistration "d1" "100.96.0.1" created "" "" ""]; [mkRegistration "d2" "100.96.0.1" created "" "" ""]]).
  destruct (ListDeviceRegistrations_complete mem_client [] pages (mem_page "next" (mem_page "" []).2).2) as [Hok _].
  - eapply paged_more; [vm_compute; reflexivity|done|done|]. eapply paged_last; [vm_compute; reflexivity|by left].
  - rewrite Hok by (vm_compute; lia). reflexivity.
Defined.
