(* ===== verification/MeshConfig.v ===== *)
(** * [pkg/backend/cloudflaremesh]: configuration, fingerprint and bootstrap

    [config.go], [compat.go] and [bootstrap.go]: what [loadConfig] accepts, the values a
    node presents to Cloudflare, and how it waits for the operator's Secret.  The
    environment is the class [NodeEnv], Kubernetes as the bootstrap uses it
    [BootstrapKube]. *)

From Stdlib Require Import ZArith Lia Ascii.
From stdpp Require Import base strings list gmap numbers.
From S2P Require Import Prelude GoStrings GoJson GoTime GoDuration MeshApi.

Local Open Scope Z_scope.

(** ** [config.go] *)

Definition defaultOperatorNS : string := "kube-flannel".
Definition defaultSecretPrefix : string := "cloudflare-mesh-node-".
Definition defaultStateFile : string := "/var/lib/flannel/cloudflare-mesh/state.json".
Definition defaultInterfaceName : string := "flannel.mesh".
Definition defaultMeshCIDR : string := "100.96.0.0/12".
Definition defaultRouteTable : Z := 51820.
Definition defaultMTU : Z := 1280.
Definition defaultKeepalive : Z := 30 * nanosecond_per_second.
Definition defaultConnectTimeout : Z := 45 * nanosecond_per_second.
Definition defaultBootstrapWait : Z := 120 * nanosecond_per_second.
Definition defaultReconcilePeriod : Z := 30 * nanosecond_per_second.
Definition cloudflareNodeNameEnv : string := "NODE_NAME".
Definition quicDatagramOverhead : Z := 45.
Definition maxQUICPacketSize : Z := 1452.

Definition quicInitialPacketSize (mtu : Z) : Z := wrap 16 (Z.min (mtu + quicDatagramOverhead) maxQUICPacketSize).

Record config := mkMeshConfig {
  mc_NodeName : string;
  mc_OperatorNamespace : string;
  mc_OperatorSecretPrefix : string;
  mc_Kubeconfig : string;
  mc_BootstrapTimeout : string;
  mc_StateFile : string;
  mc_InterfaceName : string;
  mc_MeshCIDR : string;
  mc_RouteTable : Z;
  mc_MTU : Z;
  mc_ConnectTimeout : string;
  mc_KeepalivePeriod : string;
  mc_ReconcilePeriod : string
}.
Record runtimeConfig := mkRuntimeConfig {
  rc_config : config;
  rc_ConnectWait : Z;
  rc_BootstrapWait : Z;
  rc_ReconcileEvery : Z;
  rc_KeepaliveEvery : Z
}.

Definition config_field (c : config) (key raw : string) (v : json) : outcome config :=
  let '(mkMeshConfig node ns prefix kube boot state iface cidr table mtu connect keepalive period) := c in
  if field_name "NodeName" key then
    s ← decode_string node v; Ret (mkMeshConfig s ns prefix kube boot state iface cidr table mtu connect keepalive period)
  else if field_name "OperatorNamespace" key then
    s ← decode_string ns v; Ret (mkMeshConfig node s prefix kube boot state iface cidr table mtu connect keepalive period)
  else if field_name "OperatorSecretPrefix" key then
    s ← decode_string prefix v; Ret (mkMeshConfig node ns s kube boot state iface cidr table mtu connect keepalive period)
  else if field_name "Kubeconfig" key then
    s ← decode_string kube v; Ret (mkMeshConfig node ns prefix s boot state iface cidr table mtu connect keepalive period)
  else if field_name "BootstrapTimeout" key then
    s ← decode_string boot v; Ret (mkMeshConfig node ns prefix kube s state iface cidr table mtu connect keepalive period)
  else if field_name "StateFile" key then
    s ← decode_string state v; Ret (mkMeshConfig node ns prefix kube boot s iface cidr table mtu connect keepalive period)
  else if field_name "InterfaceName" key then
    s ← decode_string iface v; Ret (mkMeshConfig node ns prefix kube boot state s cidr table mtu connect keepalive period)
  else if field_name "MeshCIDR" key then
    s ← decode_string cidr v; Ret (mkMeshConfig node ns prefix kube boot state iface s table mtu connect keepalive period)
  else if field_name "RouteTable" key then
    n ← decode_int 64 table v; Ret (mkMeshConfig node ns prefix kube boot state iface cidr n mtu connect keepalive period)
  else if field_name "MTU" key then
    n ← decode_int 64 mtu v; Ret (mkMeshConfig node ns prefix kube boot state iface cidr table n connect keepalive period)
  else if field_name "ConnectTimeout" key then
    s ← decode_string connect v; Ret (mkMeshConfig node ns prefix kube boot state iface cidr table mtu s keepalive period)
  else if field_name "KeepalivePeriod" key then
    s ← decode_string keepalive v; Ret (mkMeshConfig node ns prefix kube boot state iface cidr table mtu connect s period)
  else if field_name "ReconcilePeriod" key then
    s ← decode_string period v; Ret (mkMeshConfig node ns prefix kube boot state iface cidr table mtu connect keepalive s)
  else Ret c.

Definition default_config : config :=
  mkMeshConfig "" defaultOperatorNS defaultSecretPrefix "" "" defaultStateFile defaultInterfaceName defaultMeshCIDR
    defaultRouteTable defaultMTU "" "" "".
Definition set_NodeName (name : string) (c : config) : config :=
  mkMeshConfig name (mc_OperatorNamespace c) (mc_OperatorSecretPrefix c) (mc_Kubeconfig c) (mc_BootstrapTimeout c) (mc_StateFile c)
    (mc_InterfaceName c) (mc_MeshCIDR c) (mc_RouteTable c) (mc_MTU c) (mc_ConnectTimeout c) (mc_KeepalivePeriod c) (mc_ReconcilePeriod c).

Definition parseDuration (value : string) (fallback : Z) : outcome Z :=
  if decide (value = "") then Ret fallback
  else match ParseDuration value with
       | Err e => Err (Wrapf "parse %s: %w" e)
       | Panic => Panic
       | Ret d => if d <=? 0 then Err (Errorf "%s must be greater than zero") else Ret d
       end.

(** The checks of the fields that are numbers or names. *)
Definition check_config (cfg : config) : option error :=
  if bool_decide (mc_InterfaceName cfg = "") || (15 <? String.length (mc_InterfaceName cfg))%nat
  then Some (Errorf "InterfaceName must be 1-15 bytes")
  else if mc_RouteTable cfg <=? 0 then Some (Errorf "RouteTable must be greater than zero")
  else if mc_MTU cfg <? 1280 then Some (Errorf "MTU must be at least 1280")
  else if maxQUICPacketSize - quicDatagramOverhead <? mc_MTU cfg
  then Some (Errorf "MTU must be at most %d, the largest packet a CONNECT-IP datagram can carry")
  else None.

Class NodeEnv (W : Type) := { Getenv : string → M W string; os_Hostname : M W string }.

Section config.
Context {W : Type} `{NodeEnv W}.

(** The configured name, that of the environment or that of the host. *)
Definition node_name (configured : string) : M W string :=
  name ← (if decide (configured = "") then Getenv cloudflareNodeNameEnv else mret configured);
  name ← (if decide (name = "") then wrapping "determine node name: %w" os_Hostname else mret name);
  _ ← check (bool_decide (TrimSpace name = "")) (Errorf "cloudflare Mesh node name must not be empty");
  mret name.

Definition loadConfig (raw : string) : M W runtimeConfig :=
  cfg ← (if (0 <? String.length raw)%nat
         then wrapping "decode cloudflare-mesh backend config: %w" (lift (Unmarshal_struct config_field raw default_config))
         else mret default_config);
  _ ← (match check_config cfg with Some e => throw e | None => mret tt end);
  name ← node_name (mc_NodeName cfg);
  let cfg := set_NodeName name cfg in
  connectWait ← lift (parseDuration (mc_ConnectTimeout cfg) defaultConnectTimeout);
  bootstrapWait ← lift (parseDuration (mc_BootstrapTimeout cfg) defaultBootstrapWait);
  reconcileEvery ← lift (parseDuration (mc_ReconcilePeriod cfg) defaultReconcilePeriod);
  keepaliveEvery ← lift (parseDuration (mc_KeepalivePeriod cfg) defaultKeepalive);
  mret (mkRuntimeConfig cfg connectWait bootstrapWait reconcileEvery keepaliveEvery).
End config.

(** ** [compat.go] *)

Definition defaultClientVersion : string := "l-2026.7.974.2".
Definition defaultDeviceVersion : string := "2026.7.974.2".
Definition defaultRegistrationAPI : string := "v0a974".
Definition clientVersionEnv : string := "CLOUDFLARE_MESH_CLIENT_VERSION".
Definition deviceVersionEnv : string := "CLOUDFLARE_MESH_DEVICE_VERSION".
Definition registrationAPIEnv : string := "CLOUDFLARE_MESH_REGISTRATION_API".

Record compatFingerprint := mkFingerprint { fp_ClientVersion : string; fp_DeviceVersion : string; fp_RegistrationAPI : string }.

Definition compatHint (c : compatFingerprint) : string :=
  "this is usually a stale native client fingerprint rather than a problem with the cluster" +:+
  " (client version " +:+ fp_ClientVersion c +:+ ", device version " +:+ fp_DeviceVersion c +:+
  ", registration API " +:+ fp_RegistrationAPI c +:+ "); override with " +:+
  clientVersionEnv +:+ ", " +:+ deviceVersionEnv +:+ " or " +:+ registrationAPIEnv.

Section compat.
Context {W : Type} `{NodeEnv W}.

Definition envOrDefault (name fallback : string) : M W string :=
  v ← Getenv name;
  let value := TrimSpace v in
  mret (if decide (value ≠ "") then value else fallback).

Definition compat : M W compatFingerprint :=
  client ← envOrDefault clientVersionEnv defaultClientVersion;
  device ← envOrDefault deviceVersionEnv defaultDeviceVersion;
  api ← envOrDefault registrationAPIEnv defaultRegistrationAPI;
  mret (mkFingerprint client device api).

(** The overrides that are logged: the variable and its value. *)
Definition logCompatOverrides : M W (list (string * string)) :=
  client ← envOrDefault clientVersionEnv defaultClientVersion;
  device ← envOrDefault deviceVersionEnv defaultDeviceVersion;
  api ← envOrDefault registrationAPIEnv defaultRegistrationAPI;
  let all := [(clientVersionEnv, client, defaultClientVersion); (deviceVersionEnv, device, defaultDeviceVersion);
              (registrationAPIEnv, api, defaultRegistrationAPI)] in
  mret ((λ o, (o.1.1, o.1.2)) <$> filter (λ o, o.1.2 ≠ o.2) all).
End compat.

(** ** [bootstrap.go] *)

(** [PollUntil timeout f]: [wait.PollUntilContextTimeout], which tries at once and then
    every second or so; [f] gives nothing as long as it has to be tried again. *)
Class BootstrapKube (W : Type) := {
  RestConfig : Type;
  Clientset : Type;
  BuildConfigFromFlags : string → M W RestConfig;
  InClusterConfig : M W RestConfig;
  NewForConfig : RestConfig → M W Clientset;
  (** the data of a Secret, by its namespace and its name *)
  Secrets_Get : Clientset → string → string → M W (gmap string string);
  PollUntil {A} : Z → M W (option A) → M W A
}.

Section bootstrap.
Context {W : Type} `{BootstrapKube W}.

Definition operatorRESTConfig (kubeconfig : string) : M W RestConfig :=
  if decide (kubeconfig ≠ "") then wrapping "load bootstrap kubeconfig: %w" (BuildConfigFromFlags kubeconfig)
  else wrapping "load in-cluster bootstrap config: %w" InClusterConfig.

(** One try: nothing until the Secret is there with all of its keys. *)
Definition poll_credentials (client : Clientset) (namespace name : string) : M W (option ConnectorCredentials) :=
  r ← try (Secrets_Get client namespace name);
  match r with
  | inr _ => mret None
  | inl data =>
      let value key := default "" (data !! key) in
      let id := value SecretConnectorIDKey in
      let name := value SecretConnectorNameKey in
      let token := value SecretConnectorTokenKey in
      if decide (id = "" ∨ name = "" ∨ token = "") then mret None else mret (Some (mkConnector id name token))
  end.

Definition waitForOperatorCredentials (cfg : runtimeConfig) : M W ConnectorCredentials :=
  restConfig ← operatorRESTConfig (mc_Kubeconfig (rc_config cfg));
  client ← wrapping "create Kubernetes client for cloudflare-mesh bootstrap: %w" (NewForConfig restConfig);
  let secretName := NodeSecretName (mc_OperatorSecretPrefix (rc_config cfg)) (mc_NodeName (rc_config cfg)) in
  wrapping "wait for operator bootstrap Secret %s/%s: %w"
    (PollUntil (rc_BootstrapWait cfg) (poll_credentials client (mc_OperatorNamespace (rc_config cfg)) secretName)).
End bootstrap.

(** ** What a configuration guarantees *)

Lemma parseDuration_positive value fallback d : 0 < fallback → parseDuration value fallback = Ret d → 0 < d.
Proof.
  unfold parseDuration. intros Hf. case_decide; [by intros [= <-]|]. destruct (ParseDuration value) as [x|e|]; [|done..].
  destruct (Z.leb_spec x 0); [done|]. by intros [= <-].
Qed.

Section facts.
Context {W : Type} `{NodeEnv W}.

Lemma node_name_ok configured w name w' : node_name configured w = (Ret name, w') →
  TrimSpace name ≠ "" ∧ (configured ≠ "" → name = configured ∧ w' = w).
Proof.
  unfold node_name. intros E. apply M_bind_inv in E as (n1 & w1 & E1 & E). apply M_bind_inv in E as (n2 & w2 & E2 & E).
  run_inv. apply bool_decide_eq_false in H0. split; [done|]. intros Hne. rewrite decide_False in E1 by done. run_inv.
  rewrite decide_False in E2 by done. run_inv. done.
Qed.

(** *** The values that are not given *)

(** The text gives no value for a field: it is empty, or no key of its object is the field's. *)
Definition omits (raw name : string) : Prop :=
  raw = "" ∨ ∃ t j, parse_json raw = Some (t, j) ∧
    match j with JObj ms => Forall (λ m, field_name name m.1.1 = false) ms | _ => True end.

(** A value of the configuration that only the members of one name set. *)
Definition set_by {X} (name : string) (P : config → X) : Prop :=
  ∀ c key raw v c', config_field c key raw v = Ret c' → field_name name key = false → P c' = P c.

Ltac set_by_tac :=
  intros [] key raw v c' E Hn; unfold config_field in E; rewrite ?Hn in E;
  repeat (destruct (field_name _ key) in E; [apply bind_inv in E as (? & _ & [= <-]); reflexivity|]);
  by injection E as <-.

Lemma set_by_NodeName : set_by "NodeName" mc_NodeName. Proof. set_by_tac. Qed.
Lemma set_by_OperatorNamespace : set_by "OperatorNamespace" mc_OperatorNamespace. Proof. set_by_tac. Qed.
Lemma set_by_OperatorSecretPrefix : set_by "OperatorSecretPrefix" mc_OperatorSecretPrefix. Proof. set_by_tac. Qed.
Lemma set_by_Kubeconfig : set_by "Kubeconfig" mc_Kubeconfig. Proof. set_by_tac. Qed.
Lemma set_by_BootstrapTimeout : set_by "BootstrapTimeout" mc_BootstrapTimeout. Proof. set_by_tac. Qed.
Lemma set_by_StateFile : set_by "StateFile" mc_StateFile. Proof. set_by_tac. Qed.
Lemma set_by_InterfaceName : set_by "InterfaceName" mc_InterfaceName. Proof. set_by_tac. Qed.
Lemma set_by_MeshCIDR : set_by "MeshCIDR" mc_MeshCIDR. Proof. set_by_tac. Qed.
Lemma set_by_RouteTable : set_by "RouteTable" mc_RouteTable. Proof. set_by_tac. Qed.
Lemma set_by_MTU : set_by "MTU" mc_MTU. Proof. set_by_tac. Qed.
Lemma set_by_ConnectTimeout : set_by "ConnectTimeout" mc_ConnectTimeout. Proof. set_by_tac. Qed.
Lemma set_by_KeepalivePeriod : set_by "KeepalivePeriod" mc_KeepalivePeriod. Proof. set_by_tac. Qed.
Lemma set_by_ReconcilePeriod : set_by "ReconcilePeriod" mc_ReconcilePeriod. Proof. set_by_tac. Qed.

(** The configuration that the text is decoded into. *)
Definition decoded_from (raw : string) (cfg : config) : Prop :=
  if (0 <? String.length raw)%nat then Unmarshal_struct config_field raw default_config = Ret cfg else cfg = default_config.

Lemma decode_members_keeps {X} name (P : config → X) ms c c' : set_by name P →
  Forall (λ m, field_name name m.1.1 = false) ms → decode_members config_field ms c = Ret c' → P c' = P c.
Proof.
  intros HP Hms. revert c. induction Hms as [|[[key raw] v] ms Hk _ IH]; intros c E; [by injection E as <-|].
  cbn [decode_members] in E. apply bind_inv in E as (c1 & E1 & E). rewrite (IH c1 E). by apply (HP _ _ _ _ _ E1).
Qed.

Lemma omitted_default {X} name (P : config → X) raw cfg : set_by name P → omits raw name → decoded_from raw cfg → P cfg = P default_config.
Proof.
  unfold decoded_from. intros HP [-> |(t & j & Ej & Hj)]; [by intros ->|]. destruct (0 <? _)%nat; [|by intros ->].
  unfold Unmarshal_struct. rewrite Ej. destruct j as [| | | | |ms]; try done; [by intros [= <-]|]. by apply (decode_members_keeps name).
Qed.

(** What the checks leave. *)
Lemma checked_bounds cfg name d1 d2 d3 d4 : check_config cfg = None → TrimSpace name ≠ "" →
  parseDuration (mc_ConnectTimeout cfg) defaultConnectTimeout = Ret d1 → parseDuration (mc_BootstrapTimeout cfg) defaultBootstrapWait = Ret d2 →
  parseDuration (mc_ReconcilePeriod cfg) defaultReconcilePeriod = Ret d3 → parseDuration (mc_KeepalivePeriod cfg) defaultKeepalive = Ret d4 →
  (1 <= String.length (mc_InterfaceName cfg) <= 15)%nat ∧ 0 < mc_RouteTable cfg ∧ 1280 <= mc_MTU cfg <= 1407 ∧ TrimSpace name ≠ "" ∧
  0 < d1 ∧ 0 < d2 ∧ 0 < d3 ∧ 0 < d4 ∧
  mc_MTU cfg + quicDatagramOverhead <= quicInitialPacketSize (mc_MTU cfg) <= maxQUICPacketSize.
Proof.
  intros Ek Hn H1 H2 H3 H4. unfold check_config in Ek. destruct (bool_decide (mc_InterfaceName cfg = "")) eqn:Hi; [done|]. apply bool_decide_eq_false in Hi.
  cbn [orb] in Ek. destruct (Nat.ltb_spec 15 (String.length (mc_InterfaceName cfg))); [done|].
  destruct (Z.leb_spec (mc_RouteTable cfg) 0); [done|]. destruct (Z.ltb_spec (mc_MTU cfg) 1280); [done|].
  destruct (Z.ltb_spec (maxQUICPacketSize - quicDatagramOverhead) (mc_MTU cfg)); [done|].
  unfold maxQUICPacketSize, quicDatagramOverhead in *.
  apply parseDuration_positive in H1, H2, H3, H4; [|by vm_compute..].
  assert (String.length (mc_InterfaceName cfg) ≠ 0)%nat by (intros F; by destruct (mc_InterfaceName cfg)).
  assert (quicInitialPacketSize (mc_MTU cfg) = mc_MTU cfg + 45) as -> by (unfold quicInitialPacketSize, quicDatagramOverhead, maxQUICPacketSize; rewrite wrap_small; lia).
  split_and!; lia || done.
Qed.

Lemma omitted_duration name (P : config → string) fallback raw cfg d : set_by name P → P default_config = "" →
  omits raw name → decoded_from raw cfg → parseDuration (P cfg) fallback = Ret d → d = fallback.
Proof.
  intros HP H0 Ho Hd E. rewrite (omitted_default name P raw cfg HP Ho Hd), H0 in E. unfold parseDuration in E.
  rewrite decide_True in E by done. by injection E as <-.
Qed.

(** C32: a configuration that is accepted: every bound that the rest of the backend needs
    holds, a packet of the interface's MTU fits in the first QUIC packet of a session,
    and every field that the JSON object of the backend has no member for, whatever
    else it has, is the documented default (the name of the node, which has none, apart:
    it is that of the environment or the host's). *)
Theorem loadConfig_sound raw w rc w' : loadConfig raw w = (Ret rc, w') →
  let c := rc_config rc in
  ((1 <= String.length (mc_InterfaceName c) <= 15)%nat ∧ 0 < mc_RouteTable c ∧ 1280 <= mc_MTU c <= 1407 ∧
   TrimSpace (mc_NodeName c) ≠ "" ∧
   0 < rc_ConnectWait rc ∧ 0 < rc_BootstrapWait rc ∧ 0 < rc_ReconcileEvery rc ∧ 0 < rc_KeepaliveEvery rc ∧
   mc_MTU c + quicDatagramOverhead <= quicInitialPacketSize (mc_MTU c) <= maxQUICPacketSize) ∧
  (omits raw "OperatorNamespace" → mc_OperatorNamespace c = "kube-flannel") ∧
  (omits raw "OperatorSecretPrefix" → mc_OperatorSecretPrefix c = "cloudflare-mesh-node-") ∧
  (omits raw "Kubeconfig" → mc_Kubeconfig c = "") ∧
  (omits raw "StateFile" → mc_StateFile c = "/var/lib/flannel/cloudflare-mesh/state.json") ∧
  (omits raw "InterfaceName" → mc_InterfaceName c = "flannel.mesh") ∧
  (omits raw "MeshCIDR" → mc_MeshCIDR c = "100.96.0.0/12") ∧
  (omits raw "RouteTable" → mc_RouteTable c = 51820) ∧
  (omits raw "MTU" → mc_MTU c = 1280) ∧
  (omits raw "ConnectTimeout" → rc_ConnectWait rc = 45000000000) ∧
  (omits raw "BootstrapTimeout" → rc_BootstrapWait rc = 120000000000) ∧
  (omits raw "ReconcilePeriod" → rc_ReconcileEvery rc = 30000000000) ∧
  (omits raw "KeepalivePeriod" → rc_KeepaliveEvery rc = 30000000000).
Proof.
  unfold loadConfig. intros E. apply M_bind_inv in E as (cfg & w1 & Ecfg & E). apply M_bind_inv in E as ([] & w2 & Ec & E).
  destruct (check_config cfg) as [e|] eqn:Ek; [done|]. apply M_bind_inv in E as (name & w3 & En & E). apply node_name_ok in En as [Hn _].
  assert (decoded_from raw cfg) as Hdec.
  { unfold decoded_from. destruct (0 <? _)%nat; [|by run_inv]. apply wrapping_inv in Ecfg. by apply lift_inv in Ecfg as [? _]. }
  clear Ecfg Ec. cbn zeta in E. run_inv. cbn [rc_config rc_ConnectWait rc_BootstrapWait rc_ReconcileEvery rc_KeepaliveEvery set_NodeName
    mc_NodeName mc_InterfaceName mc_RouteTable mc_MTU mc_OperatorNamespace mc_OperatorSecretPrefix mc_Kubeconfig mc_StateFile mc_MeshCIDR
    mc_ConnectTimeout mc_BootstrapTimeout mc_ReconcilePeriod mc_KeepalivePeriod] in *.
  split.
  - by apply checked_bounds with (1 := Ek).
  - split_and!; intros Ho; try (by refine (omitted_default _ _ raw cfg _ Ho Hdec); first
      [apply set_by_OperatorNamespace|apply set_by_OperatorSecretPrefix|apply set_by_Kubeconfig|apply set_by_StateFile|apply set_by_InterfaceName
      |apply set_by_MeshCIDR|apply set_by_RouteTable|apply set_by_MTU]).
    all: by (eapply omitted_duration; [..|exact Ho|exact Hdec|eassumption]; [first
      [apply set_by_ConnectTimeout|apply set_by_BootstrapTimeout|apply set_by_ReconcilePeriod|apply set_by_KeepalivePeriod]|reflexivity]).
Qed.
End facts.

(** An environment that is a map of variables. *)
#[global] Instance map_env : NodeEnv (gmap string string) := {
  Getenv k := m ← get; mret (default "" (m !! k));
  os_Hostname := mret "host-1"
}.

Lemma loadConfig_sound_witness :
  let raw := body_of [("MTU", "1400"); ("ConnectTimeout", json_string "1m30s"); ("Type", json_string "cloudflare-mesh")] in
  ∃ rc w, loadConfig raw ({["NODE_NAME" := "node-1"]} : gmap string string) = (Ret rc, w) ∧
    mc_NodeName (rc_config rc) = "node-1" ∧ rc_ConnectWait rc = 90000000000 ∧ quicInitialPacketSize (mc_MTU (rc_config rc)) = 1445 ∧
    1280 <= mc_MTU (rc_config rc) <= 1407 ∧ mc_RouteTable (rc_config rc) = 51820.
Proof.
  set (raw := body_of _). assert (∃ rc w, loadConfig raw ({["NODE_NAME" := "node-1"]} : gmap string string) = (Ret rc, w) ∧
    mc_NodeName (rc_config rc) = "node-1" ∧ rc_ConnectWait rc = 90000000000 ∧ quicInitialPacketSize (mc_MTU (rc_config rc)) = 1445) as (rc & w & E & H1 & H2 & H3).
  { eexists _, _. split; [vm_compute; reflexivity|]. split; [reflexivity|]. split; reflexivity. }
  destruct (loadConfig_sound raw _ rc w E) as ((_ & _ & Hm & _) & _ & _ & _ & _ & _ & _ & Ht & _).
  exists rc, w. split; [exact E|]. split; [exact H1|]. split; [exact H2|]. split; [exact H3|]. split; [exact Hm|].
  apply Ht. right. eexists _, _. split; [vm_compute; reflexivity|]. repeat (constructor; [reflexivity|]). constructor.
Defined.

Example loadConfig_bad : (λ raw, is_ret (loadConfig raw (∅ : gmap string string)).1) <$>
  [body_of [("MTU", "1279")]; body_of [("MTU", "1408")]; body_of [("RouteTable", "0")]; body_of [("InterfaceName", json_string "")];
   body_of [("InterfaceName", json_string "interface-name-")]; body_of [("InterfaceName", json_string "interface-name-x")];
   body_of [("ConnectTimeout", json_string "0s")]; body_of [("KeepalivePeriod", json_string "30")]; body_of [("NodeName", json_string " ")]; ""] =
  [false; false; false; false; true; false; false; false; false; true].
Proof. by vm_compute. Qed.
