(* ===== verification/MeshEnroll.v ===== *)
(** * [pkg/backend/cloudflaremesh/masque_linux.go]: the identity of a node

    The registration a node has at Cloudflare, the state file that keeps it, and the calls
    of the device API that make, refresh and delete it.  An exchange with the API is
    [DeviceHttp], the keys are [EcdsaKeys], the state file [StateFiles]. *)

From Stdlib Require Import ZArith Lia Ascii.
From stdpp Require Import base strings list gmap numbers.
From S2P Require Import Prelude GoStrings GoJson GoJsonFacts GoTime GoDuration GoBase64 GoNet GoHash Wireguard MeshApi MeshConfig.

Local Open Scope Z_scope.

(** ** Data *)

Record cloudflareError := mkCfError { ce_Code : Z; ce_Message : string }.

(** A nil slice is [None]. *)
Record Peer := mkPeer {
  peer_PublicKey : string;
  peer_V4 : string;
  peer_V6 : string;
  peer_Host : string;
  peer_Ports : option (list Z)
}.
Record AccountInfo := mkAccount { ac_ID : string; ac_AccountType : string; ac_Organization : string }.
Record meshRegistration := mkMeshRegistration {
  reg_ID : string;
  reg_Token : string;
  reg_IsConnector : bool;
  reg_Account : AccountInfo;
  reg_V4 : string;
  reg_V6 : string;
  reg_Peers : option (list Peer);
  reg_PolicyID : string
}.
Record registrationEnvelope := mkRegEnvelope { re_Success : bool; re_Result : meshRegistration; re_Errors : list cloudflareError }.
Record persistedRegistration := mkPersisted { ps_ConnectorID : string; ps_PrivateKey : string; ps_Registration : meshRegistration }.

Definition zero_registration : meshRegistration := mkMeshRegistration "" "" false (mkAccount "" "" "") "" "" None "".
Definition set_Token (token : string) (r : meshRegistration) : meshRegistration :=
  mkMeshRegistration (reg_ID r) token (reg_IsConnector r) (reg_Account r) (reg_V4 r) (reg_V6 r) (reg_Peers r) (reg_PolicyID r).

(** *** Writing *)

Definition omitempty (key value : string) : list (string * string) := if decide (value = "") then [] else [(key, json_string value)].
Definition slice_text {A} (elem : A → string) (l : option (list A)) : string :=
  match l with None => "null" | Some l => json_array (elem <$> l) end.
Definition Peer_text (p : Peer) : string :=
  body_of [("public_key", json_string (peer_PublicKey p));
           ("endpoint", body_of [("v4", json_string (peer_V4 p)); ("v6", json_string (peer_V6 p)); ("host", json_string (peer_Host p));
                                 ("ports", slice_text fmt_int (peer_Ports p))])].
Definition registration_members (r : meshRegistration) : list (string * string) :=
  [("id", json_string (reg_ID r))] ++ omitempty "token" (reg_Token r) ++
  [("is_connector", bool_literal (reg_IsConnector r));
   ("account", body_of [("id", json_string (ac_ID (reg_Account r))); ("account_type", json_string (ac_AccountType (reg_Account r)));
                        ("organization", json_string (ac_Organization (reg_Account r)))]);
   ("config", body_of [("interface", body_of [("addresses", body_of [("v4", json_string (reg_V4 r)); ("v6", json_string (reg_V6 r))])]);
                       ("peers", slice_text Peer_text (reg_Peers r))]);
   ("policy", body_of [("policy_id", json_string (reg_PolicyID r))])].
Definition registration_text (r : meshRegistration) : string := body_of (registration_members r).
Definition persisted_text (s : persistedRegistration) : string :=
  body_of [("connector_id", json_string (ps_ConnectorID s)); ("private_key", json_string (ps_PrivateKey s));
           ("registration", registration_text (ps_Registration s))].

(** *** Reading; the elements of an array are read from zero *)

Definition decode_nil_slice {A} (elem : json → outcome A) (j : json) : outcome (option (list A)) :=
  match j with JNull => Ret None | JArr js => l ← decode_elems elem js; Ret (Some l) | _ => Err json_error end.

Definition endpoint_field (p : Peer) (key raw : string) (v : json) : outcome Peer :=
  let '(mkPeer k v4 v6 host ports) := p in
  if field_name "v4" key then s ← decode_string v4 v; Ret (mkPeer k s v6 host ports)
  else if field_name "v6" key then s ← decode_string v6 v; Ret (mkPeer k v4 s host ports)
  else if field_name "host" key then s ← decode_string host v; Ret (mkPeer k v4 v6 s ports)
  else if field_name "ports" key then l ← decode_nil_slice (decode_int 64 0) v; Ret (mkPeer k v4 v6 host l)
  else Ret p.
Definition Peer_field (p : Peer) (key raw : string) (v : json) : outcome Peer :=
  if field_name "public_key" key then
    s ← decode_string (peer_PublicKey p) v; Ret (mkPeer s (peer_V4 p) (peer_V6 p) (peer_Host p) (peer_Ports p))
  else if field_name "endpoint" key then decode_struct endpoint_field p v
  else Ret p.
Definition decode_peer (j : json) : outcome Peer := decode_struct Peer_field (mkPeer "" "" "" "" None) j.

Definition account_field (a : AccountInfo) (key raw : string) (v : json) : outcome AccountInfo :=
  if field_name "id" key then s ← decode_string (ac_ID a) v; Ret (mkAccount s (ac_AccountType a) (ac_Organization a))
  else if field_name "account_type" key then s ← decode_string (ac_AccountType a) v; Ret (mkAccount (ac_ID a) s (ac_Organization a))
  else if field_name "organization" key then s ← decode_string (ac_Organization a) v; Ret (mkAccount (ac_ID a) (ac_AccountType a) s)
  else Ret a.
(** The addresses, under [addresses] of [interface]. *)
Definition addresses_field (a : string * string) (key raw : string) (v : json) : outcome (string * string) :=
  if field_name "v4" key then s ← decode_string a.1 v; Ret (s, a.2)
  else if field_name "v6" key then s ← decode_string a.2 v; Ret (a.1, s)
  else Ret a.
Definition interface_field (a : string * string) (key raw : string) (v : json) : outcome (string * string) :=
  if field_name "addresses" key then decode_struct addresses_field a v else Ret a.
Definition regconfig_field (c : (string * string) * option (list Peer)) (key raw : string) (v : json)
    : outcome ((string * string) * option (list Peer)) :=
  if field_name "interface" key then a ← decode_struct interface_field c.1 v; Ret (a, c.2)
  else if field_name "peers" key then l ← decode_nil_slice decode_peer v; Ret (c.1, l)
  else Ret c.
Definition policy_field (id key raw : string) (v : json) : outcome string :=
  if field_name "policy_id" key then decode_string id v else Ret id.
Definition registration_field (r : meshRegistration) (key raw : string) (v : json) : outcome meshRegistration :=
  let '(mkMeshRegistration id token conn acc v4 v6 peers policy) := r in
  if field_name "id" key then s ← decode_string id v; Ret (mkMeshRegistration s token conn acc v4 v6 peers policy)
  else if field_name "token" key then s ← decode_string token v; Ret (mkMeshRegistration id s conn acc v4 v6 peers policy)
  else if field_name "is_connector" key then b ← decode_bool conn v; Ret (mkMeshRegistration id token b acc v4 v6 peers policy)
  else if field_name "account" key then a ← decode_struct account_field acc v; Ret (mkMeshRegistration id token conn a v4 v6 peers policy)
  else if field_name "config" key then
    c ← decode_struct regconfig_field ((v4, v6), peers) v; Ret (mkMeshRegistration id token conn acc c.1.1 c.1.2 c.2 policy)
  else if field_name "policy" key then s ← decode_struct policy_field policy v; Ret (mkMeshRegistration id token conn acc v4 v6 peers s)
  else Ret r.
Definition cfError_field (e : cloudflareError) (key raw : string) (v : json) : outcome cloudflareError :=
  if field_name "code" key then n ← decode_int 64 (ce_Code e) v; Ret (mkCfError n (ce_Message e))
  else if field_name "message" key then s ← decode_string (ce_Message e) v; Ret (mkCfError (ce_Code e) s)
  else Ret e.
Definition decode_cfErrors (j : json) : outcome (list cloudflareError) := decode_slice (decode_struct cfError_field (mkCfError 0 "")) j.
Definition regEnvelope_field (e : registrationEnvelope) (key raw : string) (v : json) : outcome registrationEnvelope :=
  if field_name "success" key then b ← decode_bool (re_Success e) v; Ret (mkRegEnvelope b (re_Result e) (re_Errors e))
  else if field_name "result" key then r ← decode_struct registration_field (re_Result e) v; Ret (mkRegEnvelope (re_Success e) r (re_Errors e))
  else if field_name "errors" key then l ← decode_cfErrors v; Ret (mkRegEnvelope (re_Success e) (re_Result e) l)
  else Ret e.
Definition persisted_field (s : persistedRegistration) (key raw : string) (v : json) : outcome persistedRegistration :=
  if field_name "connector_id" key then t ← decode_string (ps_ConnectorID s) v; Ret (mkPersisted t (ps_PrivateKey s) (ps_Registration s))
  else if field_name "private_key" key then t ← decode_string (ps_PrivateKey s) v; Ret (mkPersisted (ps_ConnectorID s) t (ps_Registration s))
  else if field_name "registration" key then
    r ← decode_struct registration_field (ps_Registration s) v; Ret (mkPersisted (ps_ConnectorID s) (ps_PrivateKey s) r)
  else Ret s.

Definition Unmarshal_registration (text : string) : outcome meshRegistration := Unmarshal (decode_struct registration_field zero_registration) text.
Definition Unmarshal_persisted (text : string) : outcome persistedRegistration :=
  Unmarshal (decode_struct persisted_field (mkPersisted "" "" zero_registration)) text.
Definition Unmarshal_regEnvelope (text : string) : outcome registrationEnvelope :=
  Unmarshal (decode_struct regEnvelope_field (mkRegEnvelope false zero_registration [])) text.

(** ** Errors of the API *)

Definition errRegistrationGone : error := Sentinel "registration no longer exists at Cloudflare".

Definition cfError_text (e : cloudflareError) : string :=
  if decide (ce_Message e = "") then "code " +:+ fmt_int (ce_Code e)
  else if ce_Code e =? 0 then ce_Message e
  else fmt_int (ce_Code e) +:+ ": " +:+ ce_Message e.
Definition formatCloudflareErrors (l : list cloudflareError) : string :=
  match l with [] => "" | _ => ": " +:+ join "; " (cfError_text <$> l) end.
Definition cloudflareErrorDetail (body : string) : string :=
  match Unmarshal (decode_struct (λ l key _ v, if field_name "errors" key then decode_cfErrors v else Ret l) []) body with
  | Ret l => formatCloudflareErrors l
  | _ => ""
  end.
Definition registrationRefreshError (status : Z) (body : string) : option error :=
  if status =? 200 then None
  else if (status =? 404) || (status =? 410) || (status =? 401) || (status =? 403)
  then Some (Wrapf ("%w (HTTP %d)" +:+ cloudflareErrorDetail body) errRegistrationGone)
  else Some (Errorf ("refresh native Mesh registration: HTTP %d" +:+ cloudflareErrorDetail body)).

(** ** The account in a connector's token *)

Definition of_bytes (l : list Z) : string := foldr (λ b s, String (ascii_of b) s) "" l.
Definition is_hex_digit (c : ascii) : bool := is_digit (lower_char c) || is_lower_hex (lower_char c).
(** Whether [hex.DecodeString] succeeds. *)
Definition hex_decodes (s : string) : bool := Nat.even (String.length s) && str_all is_hex_digit s.

(** The first of the encodings that decodes: their alphabet and whether they pad. *)
Fixpoint decode_any (encodings : list (bool * bool)) (value : string) : option (list Z) :=
  match encodings with
  | [] => None
  | (url, padded) :: encodings =>
      match DecodeString url padded value with Some l => Some l | None => decode_any encodings value end
  end.
Definition token_decode (value : string) : option (list Z) :=
  decode_any [(false, false); (false, true); (true, false); (true, true)] value.

Definition connectorAccountID (token : string) : outcome string :=
  match token_decode (TrimSpace token) with
  | None => Err (Wrapf "decode connector token: %w" (Errorf "invalid base64"))
  | Some raw =>
      match Unmarshal (decode_struct (λ a key _ v, if field_name "a" key then decode_string a v else Ret a) "") (of_bytes raw) with
      | Ret a =>
          if decide (a = "") then Err (Errorf "connector token has no account")
          else if (String.length a =? 32)%nat && hex_decodes a then Ret a
          else
            match token_decode a with
            | None => Err (Wrapf "decode connector account: %w" (Errorf "invalid base64"))
            | Some account =>
                if (length account =? 16)%nat then Ret (hex_bytes account)
                else
                  let value := of_bytes account in
                  if (String.length value =? 32)%nat && hex_decodes value then Ret (ToLower value)
                  else Err (Errorf "connector token account has invalid encoding (decoded length %d)")
            end
      | _ => Err (Errorf "connector token has no account")
      end
  end.

Definition registrationName (cfg : runtimeConfig) (connector : option ConnectorCredentials) : string :=
  match connector with
  | Some c => if decide (TrimSpace (cc_Name c) ≠ "") then cc_Name c else mc_NodeName (rc_config cfg)
  | None => mc_NodeName (rc_config cfg)
  end.
Definition deviceRegistrationID (value : string) : string :=
  let value := TrimSpace value in match strip "t." value with Some s => s | None => value end.

(** ** Paths *)

(** [filepath.Clean]: the elements of a cleaned path, the last first; [".."] takes the
    element before it away, and at the root itself. *)
Fixpoint clean_elems (rooted : bool) (done : list string) (l : list string) : list string :=
  match l with
  | [] => done
  | e :: l =>
      if decide (e = "" ∨ e = ".") then clean_elems rooted done l
      else if decide (e = "..") then
        match done with
        | d :: done' => if decide (d = "..") then clean_elems rooted (e :: done) l else clean_elems rooted done' l
        | [] => if rooted then clean_elems rooted [] l else clean_elems rooted [e] l
        end
      else clean_elems rooted (e :: done) l
  end.
Definition Clean (path : string) : string :=
  let rooted := String.prefix "/" path in
  let s := join "/" (rev (clean_elems rooted [] (split_char "/" path))) in
  if rooted then "/" +:+ s else if decide (s = "") then "." else s.
(** [filepath.Dir]: what is before the last slash, with it, cleaned. *)
Definition Dir (path : string) : string := Clean (split_dir path).

Example Dir_ex : Dir <$> [defaultStateFile; "/state.json"; "state.json"; "a/../b/state.json"; "/x//y/"; "../a/.././../s"; ""] =
  ["/var/lib/flannel/cloudflare-mesh"; "/"; "."; "b"; "/x/y"; "../.."; "."].
Proof. by vm_compute. Qed.

(** ** Outside *)

Record DeviceRequest := mkDeviceRequest {
  dq_Method : string;
  dq_URL : string;
  dq_Header : list (string * string);
  dq_Body : option string;
  (** the client's timeout, when it has one *)
  dq_Timeout : Z
}.
(** What [http.NewRequestWithContext] says of a URL, and an exchange: the status, and the
    body or the error that reading it gives. *)
Class DeviceHttp (W : Type) := {
  NewRequest : string → outcome unit;
  device_Do : DeviceRequest → M W (Z * (string + error))
}.

(** Keys of the curve P-256, and their forms in DER. *)
Class EcdsaKeys (W : Type) := {
  PrivateKey : Type;
  GenerateKey : M W PrivateKey;
  MarshalPKIXPublicKey : PrivateKey → outcome (list Z);
  MarshalECPrivateKey : PrivateKey → outcome (list Z);
  ParseECPrivateKey : list Z → outcome PrivateKey
}.

(** Files by their paths; a temporary file is known by its name. *)
Class StateFiles (W : Type) := {
  ReadFile : string → M W string;
  MkdirAll : string → Z → M W unit;
  CreateTemp : string → string → M W string;
  file_Chmod : string → Z → M W unit;
  file_Write : string → string → M W unit;
  file_Close : string → M W unit;
  file_Rename : string → string → M W unit;
  file_Remove : string → M W unit
}.

Class Clock (W : Type) := { time_Now : M W Z }.

Definition deviceAPIBase : string := "https://api.devices.cloudflare.com".
Definition zeroTrustAPIBase : string := "https://zero-trust-client.cloudflareclient.com".
Definition gatewayID : string := "03000200-0400-0500-0006-000700080009".

(** A deferred call, of which nothing is used. *)
Definition deferring {W A} (d : M W unit) (m : M W A) : M W A :=
  r ← try m;
  _ ← try d;
  match r with inl a => mret a | inr e => throw e end.

Section enroll.
Context {W : Type} `{NodeEnv W, DeviceHttp W, EcdsaKeys W, StateFiles W, Clock W}.

(** ** The state file *)

(** What is between the creation of the temporary file and its renaming. *)
Definition closing_on_error {A} (name : string) (m : M W A) : M W A :=
  r ← try m;
  match r with inl a => mret a | inr e => _ ← try (file_Close name); throw e end.
Definition write_and_rename (name path value : string) : M W unit :=
  _ ← closing_on_error name (file_Chmod name 384);
  _ ← closing_on_error name (file_Write name (value +:+ String (ascii_of 10) ""));
  _ ← file_Close name;
  file_Rename name path.
Definition writePrivateJSON (path value : string) : M W unit :=
  _ ← MkdirAll (Dir path) 448;
  name ← CreateTemp (Dir path) ".mesh-state-*";
  deferring (file_Remove name) (write_and_rename name path value).

(** ** The calls of the device API *)

Definition deviceAPIHeaders (token : string) : M W (list (string * string)) :=
  c ← compat;
  mret [("Authorization", "Bearer " +:+ token); ("CF-Client-Version", fp_ClientVersion c);
        ("Content-Type", "application/json; charset=UTF-8"); ("Accept", "*/*"); ("User-Agent", "WARP for Linux")].
Definition reg_endpoint (id : string) : M W string :=
  c ← compat;
  mret (zeroTrustAPIBase +:+ "/" +:+ fp_RegistrationAPI c +:+ "/reg/" +:+ id).
(** A request with the headers of the API. *)
Definition device_request (method url : string) (token : string) (body : option string) (timeout : Z) : M W (Z * (string + error)) :=
  _ ← lift (NewRequest url);
  headers ← deviceAPIHeaders token;
  device_Do (mkDeviceRequest method url headers body timeout).

Definition update_text (publicDER : list Z) (nodeName : string) : string :=
  body_of ([("key", json_string (EncodeToString publicDER)); ("key_type", json_string "secp256r1");
            ("tunnel_type", json_string "masque")] ++ omitempty "name" nodeName).

Definition maxDeviceResponse : Z := 8388608.

(** What the response to the PATCH says. *)
Definition read_refreshed (registration : meshRegistration) (resp : Z * (string + error)) : outcome meshRegistration :=
  match resp.2 with
  | inr e => Err e
  | inl payload =>
      let raw := limit_read maxDeviceResponse payload in
      match registrationRefreshError resp.1 raw with
      | Some e => Err e
      | None =>
          match Unmarshal_registration raw with
          | Err e => Err (Wrapf "decode refreshed native Mesh registration: %w" e)
          | Panic => Panic
          | Ret refreshed =>
              if decide (reg_ID refreshed = "" ∨ default [] (reg_Peers refreshed) = [] ∨ reg_PolicyID refreshed = "")
              then Err (Errorf "refreshed native Mesh registration is incomplete")
              else Ret (set_Token (reg_Token registration) refreshed)
          end
      end
  end.

Definition refreshRegistration (timeout : Z) (registration : meshRegistration) (publicDER : list Z) (nodeName : string) : M W meshRegistration :=
  endpoint ← reg_endpoint (reg_ID registration);
  _ ← lift (NewRequest endpoint);
  headers ← deviceAPIHeaders (reg_Token registration);
  resp ← wrapping "refresh native Mesh registration: %w"
           (device_Do (mkDeviceRequest "PATCH" endpoint headers (Some (update_text publicDER nodeName)) timeout));
  lift (read_refreshed registration resp).

Definition success_status (status : Z) : bool := (200 <=? status) && (status <? 300).

Definition deleteRegistration (timeout : Z) (registration : meshRegistration) : M W unit :=
  if decide (reg_ID registration = "" ∨ TrimSpace (reg_Token registration) = "") then throw (Errorf "registration is incomplete")
  else
    endpoint ← reg_endpoint (reg_ID registration);
    resp ← device_request "DELETE" endpoint (reg_Token registration) None timeout;
    let status := resp.1 in
    if (status =? 404) || (status =? 410) then mret tt
    else check (negb (success_status status)) (Errorf "HTTP %d").

Definition enrollmentRejected {A} (status : Z) (envelope : registrationEnvelope) : M W A :=
  let message := "Cloudflare rejected native connector enrollment: HTTP %d connector=%t account=%q" +:+ formatCloudflareErrors (re_Errors envelope) in
  if (400 <=? status) && (status <? 500) then c ← compat; throw (Errorf (message +:+ "; " +:+ compatHint c))
  else throw (Errorf message).

Definition payload_text (name : string) (publicDER : list Z) (now : Z) (token : string) : string :=
  body_of [("type", json_string "linux"); ("model", json_string "WO4 Default string"); ("name", json_string name);
           ("key", json_string (EncodeToString publicDER)); ("tos", json_string (Format_RFC3339Nano now));
           ("gateway_device_id", json_string gatewayID); ("os_version", json_string "6.12.74");
           ("serial_number", json_string "Default string"); ("warp_connector_token", json_string token);
           ("key_type", json_string "secp256r1"); ("tunnel_type", json_string "masque")].

(** The POST that enrols a connector with a new key. *)
Definition post_enrollment (timeout : Z) (accountID name token : string) (publicDER : list Z) : M W registrationEnvelope :=
  now ← time_Now;
  let endpoint := deviceAPIBase +:+ "/v1/accounts/" +:+ accountID +:+ "/warp_connector" in
  _ ← lift (NewRequest endpoint);
  c ← compat;
  '(status, read) ← wrapping "enroll native Mesh connector: %w"
    (device_Do (mkDeviceRequest "POST" endpoint
       [("CF-Client-Version", fp_ClientVersion c); ("Content-Type", "application/json"); ("Accept", "*/*"); ("User-Agent", "WARP for Linux")]
       (Some (payload_text name publicDER now token)) timeout));
  match (read : string + error) with
  | inr e => throw e
  | inl payload =>
      envelope ← wrapping "decode connector enrollment HTTP %d: %w" (lift (Unmarshal_regEnvelope (limit_read maxDeviceResponse payload)));
      if negb (status =? 200) || negb (re_Success envelope) || negb (reg_IsConnector (re_Result envelope)) ||
         negb (bool_decide (ac_AccountType (reg_Account (re_Result envelope)) = "team"))
      then enrollmentRejected status envelope
      else
        _ ← check (bool_decide (TrimSpace (reg_Token (re_Result envelope)) = "")) (Errorf "Cloudflare connector enrollment returned no device token");
        mret envelope
  end.

(** ** [loadOrEnroll] *)

Definition enroll (cfg : runtimeConfig) (connector : ConnectorCredentials) (name : string) : M W (meshRegistration * PrivateKey) :=
  key ← GenerateKey;
  publicDER ← lift (MarshalPKIXPublicKey key);
  accountID ← lift (connectorAccountID (cc_Token connector));
  envelope ← post_enrollment (rc_ConnectWait cfg) accountID name (cc_Token connector) publicDER;
  refreshed ← refreshRegistration (rc_ConnectWait cfg) (re_Result envelope) publicDER name;
  privateDER ← lift (MarshalECPrivateKey key);
  _ ← writePrivateJSON (mc_StateFile (rc_config cfg)) (persisted_text (mkPersisted (cc_ID connector) (EncodeToString privateDER) refreshed));
  mret (refreshed, key).

(** What is to be done about a state: nothing more, or an enrolment, before which a
    registration is deleted when there is one to give up. *)
Inductive start := Resumed (r : meshRegistration) (key : PrivateKey) | Replace (superseded : option meshRegistration).

(** The key that is saved in a state of the connector, when it can still be used. *)
Definition saved_key (connector : ConnectorCredentials) (state : persistedRegistration) : option PrivateKey :=
  if decide (ps_ConnectorID state ≠ cc_ID connector) then None
  else if decide (ps_PrivateKey state = "" ∨ reg_ID (ps_Registration state) = "" ∨ reg_Token (ps_Registration state) = "") then None
  else match DecodeString false true (ps_PrivateKey state) with
       | None => None
       | Some der => match ParseECPrivateKey der with Ret key => Some key | _ => None end
       end.

Definition resume (cfg : runtimeConfig) (connector : ConnectorCredentials) (name contents : string) : M W start :=
  state ← wrapping "decode native Mesh state: %w" (lift (Unmarshal_persisted contents));
  match saved_key connector state with
  | None => mret (Replace (Some (ps_Registration state)))
  | Some key =>
      publicDER ← lift (MarshalPKIXPublicKey key);
      r ← try (refreshRegistration (rc_ConnectWait cfg) (ps_Registration state) publicDER name);
      match r with
      | inl refreshed =>
          _ ← writePrivateJSON (mc_StateFile (rc_config cfg)) (persisted_text (mkPersisted (ps_ConnectorID state) (ps_PrivateKey state) refreshed));
          mret (Resumed refreshed key)
      | inr e => if errors_Is e "registration no longer exists at Cloudflare" then mret (Replace None) else throw e
      end
  end.

Definition loadOrEnroll (cfg : runtimeConfig) (connector : option ConnectorCredentials) : M W (meshRegistration * PrivateKey) :=
  match connector with
  | None => throw (Errorf "native Mesh connector credentials are incomplete")
  | Some c =>
      if decide (cc_ID c = "" ∨ TrimSpace (cc_Token c) = "") then throw (Errorf "native Mesh connector credentials are incomplete")
      else
        let name := registrationName cfg connector in
        contents ← try (ReadFile (mc_StateFile (rc_config cfg)));
        s ← (match contents with
             | inl contents => resume cfg c name contents
             | inr e => if errors_Is e "os.ErrNotExist" then mret (Replace None) else throw (Wrapf "read native Mesh state: %w" e)
             end);
        match s with
        | Resumed r key => mret (r, key)
        | Replace superseded =>
            _ ← (match superseded with
                 | Some r => _ ← try (deleteRegistration (rc_ConnectWait cfg) r); mret tt
                 | None => mret tt
                 end);
            enroll cfg c name
        end
  end.
End enroll.
