(* ===== verification/MeshEnrollFacts.v ===== *)
(** * The identity of a node: what is kept, when it is replaced

    [StateLaws] says what the files, the keys and the exchanges with the API promise;
    from it, a registration survives the restarts of a node. *)

From Stdlib Require Import ZArith Lia Ascii.
From stdpp Require Import base strings list gmap numbers.
From S2P Require Import Prelude GoStrings GoJson GoJsonFacts GoTime GoDuration GoBase64 GoNet GoNetFacts GoHash Wireguard MeshApi MeshConfig MeshEnroll.

Local Open Scope Z_scope.

(** ** The text of a registration is read back *)

Definition str_member (key s : string) : string * string * json := (key, json_string s, JStr s).
Definition obj_member (key : string) (ms : list (string * string * json)) : string * string * json := (key, body_of (fst <$> ms), JObj ms).

Lemma obj_text ms : members_ok ms → ms ≠ [] → json_text (body_of (fst <$> ms)) (JObj ms).
Proof.
  intros Hms Hne. unfold body_of. rewrite <- list_fmap_compose. by apply object_text.
Qed.
Lemma str_member_ok key s : str_all plain key = true → str_all plain (str_member key s).1.1 = true ∧ json_text (str_member key s).1.2 (str_member key s).2.
Proof. split; [done|apply json_any_string]. Qed.

Definition int64 (z : Z) : Prop := - 2 ^ 63 <= z < 2 ^ 63.
Definition slice_json {A} (elem : A → json) (l : option (list A)) : json :=
  match l with None => JNull | Some l => JArr (elem <$> l) end.

Lemma slice_is_text {A} (text : A → string) (elem : A → json) l : (∀ a, json_text (text a) (elem a)) →
  json_text (slice_text text l) (slice_json elem l).
Proof.
  intros Ht. destruct l as [l|]; [|apply null_text]. cbn [slice_text slice_json].
  pose proof (array_text ((λ a, (text a, elem a)) <$> l)) as E. rewrite <- !list_fmap_compose in E. apply E.
  apply Forall_fmap, list.Forall_true. intros a. apply Ht.
Qed.
Lemma decode_slice_json {A} (dec : json → outcome A) (elem : A → json) l :
  (∀ xs, l = Some xs → Forall (λ a, dec (elem a) = Ret a) xs) → decode_nil_slice dec (slice_json elem l) = Ret l.
Proof.
  destruct l as [l|]; [|done]. intros Hl. specialize (Hl l eq_refl). cbn [slice_json decode_nil_slice].
  assert (decode_elems dec (elem <$> l) = Ret l) as ->; [|done]. induction Hl as [|a l Ha Hl IH]; [done|].
  cbn [fmap list_fmap decode_elems]. rewrite Ha. cbn. by rewrite IH.
Qed.

Definition Peer_members (p : Peer) : list (string * string * json) :=
  [str_member "public_key" (peer_PublicKey p);
   obj_member "endpoint" [str_member "v4" (peer_V4 p); str_member "v6" (peer_V6 p); str_member "host" (peer_Host p);
                          ("ports", slice_text fmt_int (peer_Ports p), slice_json (λ z, JNum (fmt_int z)) (peer_Ports p))]].
Definition peer_ok (p : Peer) : Prop := ∀ l, peer_Ports p = Some l → Forall int64 l.
Definition reg_ok (r : meshRegistration) : Prop := ∀ l, reg_Peers r = Some l → Forall peer_ok l.

Definition token_members (token : string) : list (string * string * json) := if decide (token = "") then [] else [str_member "token" token].
Definition config_members (r : meshRegistration) : list (string * string * json) :=
  [obj_member "interface" [obj_member "addresses" [str_member "v4" (reg_V4 r); str_member "v6" (reg_V6 r)]];
   ("peers", slice_text Peer_text (reg_Peers r), slice_json (λ p, JObj (Peer_members p)) (reg_Peers r))].
Definition reg_members (r : meshRegistration) : list (string * string * json) :=
  [str_member "id" (reg_ID r)] ++ token_members (reg_Token r) ++
  [("is_connector", bool_literal (reg_IsConnector r), JBool (reg_IsConnector r));
   obj_member "account" [str_member "id" (ac_ID (reg_Account r)); str_member "account_type" (ac_AccountType (reg_Account r));
                         str_member "organization" (ac_Organization (reg_Account r))];
   obj_member "config" (config_members r);
   obj_member "policy" [str_member "policy_id" (reg_PolicyID r)]].
Definition persisted_members (s : persistedRegistration) : list (string * string * json) :=
  [str_member "connector_id" (ps_ConnectorID s); str_member "private_key" (ps_PrivateKey s);
   obj_member "registration" (reg_members (ps_Registration s))].

(** A text of members whose values are read back. *)
Create HintDb json_texts.
Ltac text_of :=
  lazymatch goal with
  | |- json_text _ (JStr _) => apply json_any_string
  | |- json_text _ (JBool _) => apply bool_text
  | |- json_text _ (JNum _) => apply int_text
  | |- json_text (slice_text _ _) _ => apply slice_is_text; intros; text_of
  | |- json_text (Peer_text _) _ => solve [auto 1 with json_texts]
  | |- json_text (body_of (fst <$> reg_members _)) _ => apply obj_text; [solve [auto 1 with json_texts]|discriminate]
  | |- json_text (body_of (fst <$> config_members _)) _ => apply obj_text; [solve [auto 1 with json_texts]|discriminate]
  | |- json_text _ (JObj _) => apply obj_text; [members_of|discriminate]
  end
with members_of :=
  unfold members_ok; repeat (apply Forall_cons_2 || apply Forall_nil_2); (split; [reflexivity|]); unfold str_member, obj_member; cbn [fst snd]; text_of.

Lemma Peer_is_text p : json_text (Peer_text p) (JObj (Peer_members p)).
Proof. change (Peer_text p) with (body_of (fst <$> Peer_members p)). text_of. Qed.
#[export] Hint Resolve Peer_is_text : json_texts.
Lemma token_members_ok token : members_ok (token_members token).
Proof. unfold token_members. case_decide; members_of. Qed.
Lemma config_members_ok r : members_ok (config_members r).
Proof. unfold config_members. members_of. Qed.
#[export] Hint Resolve config_members_ok : json_texts.
Lemma reg_members_ok r : members_ok (reg_members r).
Proof.
  unfold reg_members. apply Forall_app_2; [members_of|]. apply Forall_app_2; [apply token_members_ok|].
  members_of.
Qed.
#[export] Hint Resolve reg_members_ok : json_texts.
Lemma registration_text_eq r : registration_text r = body_of (fst <$> reg_members r).
Proof. unfold registration_text, registration_members, reg_members, omitempty, token_members. by case_decide. Qed.
Lemma registration_is_text r : json_text (registration_text r) (JObj (reg_members r)).
Proof. rewrite registration_text_eq. apply obj_text; [apply reg_members_ok|done]. Qed.

Lemma persisted_is_text s : json_text (persisted_text s) (JObj (persisted_members s)).
Proof.
  unfold persisted_text. rewrite registration_text_eq. change (json_text (body_of (fst <$> persisted_members s)) (JObj (persisted_members s))).
  text_of.
Qed.

(** Which member is which. *)
Ltac fields := repeat (match goal with
  |- context [field_name ?a ?b] => let v := eval vm_compute in (field_name a b) in change (field_name a b) with v end; cbn beta iota).

Lemma decode_peer_text p : peer_ok p → decode_peer (JObj (Peer_members p)) = Ret p.
Proof.
  intros Hp. unfold decode_peer, Peer_members, str_member, obj_member. cbn [decode_struct decode_members]. unfold Peer_field. fields.
  cbn [decode_string mbind outcome_bind decode_struct decode_members peer_PublicKey peer_V4 peer_V6 peer_Host peer_Ports]. unfold endpoint_field. fields.
  cbn [decode_string mbind outcome_bind].
  rewrite (decode_slice_json (decode_int 64 0) (λ z, JNum (fmt_int z))); [by destruct p|].
  intros l Hl. apply (list.Forall_impl _ _ _ (Hp l Hl)). intros z Hz. cbn [decode_int]. by rewrite ParseInt_fmt.
Qed.

Lemma decode_config r : reg_ok r →
  decode_members regconfig_field (config_members r) (("", ""), None) = Ret ((reg_V4 r, reg_V6 r), reg_Peers r).
Proof.
  intros Hr. unfold config_members, str_member, obj_member. cbn [decode_members]. unfold regconfig_field. fields. cbn [decode_struct decode_members fst snd].
  unfold interface_field. fields. cbn [decode_struct decode_members]. unfold addresses_field. fields.
  cbn [decode_string mbind outcome_bind fst snd].
  rewrite (decode_slice_json decode_peer (λ p, JObj (Peer_members p))); [done|].
  intros l Hl. apply (list.Forall_impl _ _ _ (Hr l Hl)). intros p. apply decode_peer_text.
Qed.

Lemma decode_account a : decode_members account_field
  [("id", json_string (ac_ID a), JStr (ac_ID a)); ("account_type", json_string (ac_AccountType a), JStr (ac_AccountType a));
   ("organization", json_string (ac_Organization a), JStr (ac_Organization a))] (mkAccount "" "" "") = Ret a.
Proof. cbn [decode_members]. unfold account_field. fields. by destruct a. Qed.

Lemma decode_registration_text r : reg_ok r → decode_struct registration_field zero_registration (JObj (reg_members r)) = Ret r.
Proof.
  intros Hr. pose proof (decode_config r Hr) as Hc. unfold reg_members, token_members, zero_registration.
  case_decide as Ht; unfold str_member, obj_member; cbn [app decode_struct decode_members];
    unfold registration_field; fields; cbn [decode_string decode_bool mbind outcome_bind decode_struct];
    rewrite decode_account; cbn [mbind outcome_bind]; rewrite Hc; cbn [mbind outcome_bind fst snd decode_members];
    unfold policy_field; fields; cbn [decode_string mbind outcome_bind]; destruct r; cbn in *; by subst.
Qed.

Lemma read_persisted s : reg_ok (ps_Registration s) → Unmarshal_persisted (persisted_text s +:+ String (ascii_of 10) "") = Ret s.
Proof.
  intros Hr. unfold Unmarshal_persisted, Unmarshal. rewrite (parse_json_line _ _ (persisted_is_text s)).
  unfold persisted_members, str_member. unfold obj_member. cbn [decode_struct decode_members]. unfold persisted_field. fields.
  cbn [decode_string mbind outcome_bind ps_ConnectorID ps_PrivateKey ps_Registration]. rewrite decode_registration_text by done.
  by destruct s.
Qed.

(** ** What the decoders guarantee *)

Definition gone (e : error) : bool := errors_Is e "registration no longer exists at Cloudflare".
(** A result in [P], or an error that does not say that the registration is gone. *)
Definition decodes_in {A} (P : A → Prop) (o : outcome A) : Prop :=
  match o with Ret a => P a | Err e => gone e = false | Panic => False end.

Lemma good_bind {A B} (P : A → Prop) (Q : B → Prop) o (f : A → outcome B) : decodes_in P o → (∀ a, P a → decodes_in Q (f a)) → decodes_in Q (a ← o; f a).
Proof. destruct o; cbn; auto. Qed.
Lemma good_string s j : decodes_in (λ _, True) (decode_string s j).
Proof. by destruct j. Qed.
Lemma good_bool b j : decodes_in (λ _, True) (decode_bool b j).
Proof. by destruct j. Qed.
Lemma parse_go_nonneg d acc n : 0 <= acc → parse_go 10 d acc = Some n → 0 <= n.
Proof.
  revert acc. induction d as [|c d IH]; intros acc Ha; cbn [parse_go]; [by intros [= <-]|].
  destruct (digit_val 10 c) as [v|] eqn:E; [|done]. apply IH. unfold digit_val in E. repeat case_match; simplify_eq; lia.
Qed.
Lemma good_int z j : int64 z → decodes_in int64 (decode_int 64 z j).
Proof.
  intros Hz. destruct j as [| |l| | |]; cbn [decode_int]; try done. destruct (ParseInt l 64) as [n|] eqn:E; [|done]. cbn.
  assert (∀ d m, parse_uint 10 d = Some m → 0 <= m) as Hp.
  { intros d m. unfold parse_uint. destruct d; [done|]. apply parse_go_nonneg. lia. }
  unfold ParseInt in E. unfold int64. destruct (match l with String _ _ => _ | EmptyString => _ end) as [neg d].
  destruct (parse_uint 10 d) as [m|] eqn:Em; [|done]. apply Hp in Em. change (64 - 1) with 63 in E. destruct neg.
  - destruct (Z.leb_spec m (2 ^ 63)); simplify_eq. lia.
  - destruct (Z.ltb_spec m (2 ^ 63)); simplify_eq. lia.
Qed.
Lemma good_struct {A} (P : A → Prop) field a j : (∀ a key raw v, P a → decodes_in P (field a key raw v)) → P a → decodes_in P (decode_struct field a j).
Proof.
  intros Hf Ha. destruct j as [| | | | |ms]; cbn [decode_struct]; try done. revert a Ha.
  induction ms as [|[[key raw] v] ms IH]; intros a Ha; [done|]. cbn [decode_members]. apply (good_bind P); auto.
Qed.
Lemma good_elems {A} (P : A → Prop) (elem : json → outcome A) js : (∀ j, decodes_in P (elem j)) → decodes_in (Forall P) (decode_elems elem js).
Proof.
  intros He. induction js as [|j js IH]; [apply Forall_nil_2|]. cbn [decode_elems]. apply (good_bind P); [done|]. intros a Ha.
  apply (good_bind (Forall P)); [done|]. intros l Hl. by apply Forall_cons_2.
Qed.
Lemma good_nil_slice {A} (P : A → Prop) (elem : json → outcome A) j : (∀ j, decodes_in P (elem j)) →
  decodes_in (λ o, ∀ l, o = Some l → Forall P l) (decode_nil_slice elem j).
Proof.
  intros He. destruct j; cbn [decode_nil_slice]; try done. apply (good_bind (Forall P)); [by apply good_elems|].
  intros l Hl. cbn. by intros ? [= <-].
Qed.
Lemma good_weaken {A} (P Q : A → Prop) o : decodes_in P o → (∀ a, P a → Q a) → decodes_in Q o.
Proof. destruct o; cbn; auto. Qed.

Ltac by_field := repeat match goal with |- decodes_in _ (if field_name ?a ?b then _ else _) => destruct (field_name a b) end.

Lemma good_peer j : decodes_in peer_ok (decode_peer j).
Proof.
  apply good_struct; [|done]. intros p key raw v Hp. unfold Peer_field. by_field; [|apply good_struct; [|done]|done].
  - apply (good_bind _ _ _ _ (good_string _ _)). intros s _. apply Hp.
  - clear. intros [k v4 v6 host ports] key raw v Hp. unfold endpoint_field. by_field; try done;
      [apply (good_bind _ _ _ _ (good_string _ _)); intros s _; apply Hp..|].
    apply (good_bind _ _ _ _ (good_nil_slice int64 _ _ (λ j, good_int 0 j ltac:(unfold int64; lia)))). intros l Hl. exact Hl.
Qed.
Lemma good_registration r j : reg_ok r → decodes_in reg_ok (decode_struct registration_field r j).
Proof.
  apply good_struct. clear. intros [id token conn acc v4 v6 peers policy] key raw v Hr. unfold registration_field. by_field.
  - apply (good_bind _ _ _ _ (good_string _ _)). intros s _. apply Hr.
  - apply (good_bind _ _ _ _ (good_string _ _)). intros s _. apply Hr.
  - apply (good_bind _ _ _ _ (good_bool _ _)). intros s _. apply Hr.
  - apply (good_bind (λ _, True)); [|intros a _; apply Hr]. apply good_struct; [|done]. intros a k rw w _. unfold account_field. by_field; [..|done];
      apply (good_bind _ _ _ _ (good_string _ _)); done.
  - apply (good_bind (λ c : _ * option (list Peer), ∀ l, c.2 = Some l → Forall peer_ok l)); [|intros c Hc; exact Hc].
    apply good_struct; [|apply Hr]. clear. intros c key raw v Hc. unfold regconfig_field. by_field; [| |done].
    + apply (good_bind (λ _, True)); [|intros a _; exact Hc]. apply good_struct; [|done]. intros a k rw w _. unfold interface_field. by_field; [|done].
      apply good_struct; [|done]. clear. intros a k rw w _. unfold addresses_field. by_field; [..|done]; apply (good_bind _ _ _ _ (good_string _ _)); done.
    + apply (good_bind _ _ _ _ (good_nil_slice peer_ok _ _ good_peer)). intros l Hl. exact Hl.
  - apply (good_bind (λ _, True)); [|intros s _; apply Hr]. apply good_struct; [|done]. intros a k rw w _. unfold policy_field. by_field; [apply good_string|done].
  - done.
Qed.
Lemma good_Unmarshal {A} (P : A → Prop) decode text : (∀ j, decodes_in P (decode j)) → decodes_in P (Unmarshal decode text).
Proof. intros Hd. unfold Unmarshal. by destruct (parse_json text) as [[? j]|]. Qed.
Lemma zero_registration_ok : reg_ok zero_registration.
Proof. done. Qed.

(** The response to the PATCH: a registration that keeps its token, or an error, which
    says that the registration is gone exactly for these statuses. *)
Definition gone_status (status : Z) : bool := (status =? 404) || (status =? 410) || (status =? 401) || (status =? 403).
Lemma read_refreshed_spec r status read : (∀ e, read = inr e → gone e = false) →
  match read_refreshed r (status, read) with
  | Ret r' => reg_ok r' ∧ reg_ID r' ≠ "" ∧ reg_Token r' = reg_Token r ∧ status = 200
  | Err e => gone e = gone_status status && match read with inl _ => true | inr _ => false end
  | Panic => False
  end.
Proof.
  intros Hread. unfold read_refreshed. cbn [fst snd]. destruct read as [body|e]; [|rewrite andb_false_r; by apply Hread].
  rewrite andb_true_r. unfold registrationRefreshError, gone_status. destruct (Z.eqb_spec status 200) as [->|].
  - cbn. pose proof (good_Unmarshal reg_ok _ (limit_read maxDeviceResponse body) (λ j, good_registration _ j zero_registration_ok)) as Hg.
    unfold Unmarshal_registration. destruct (Unmarshal _ _) as [r'|e|]; [|exact Hg|done]. case_decide as Hd; [done|].
    cbn. split; [|split; [tauto|done]]. intros l. apply Hg.
  - destruct (_ || _ || _ || _) eqn:E; cbn; [|done]. done.
Qed.

(** ** What is outside *)

(** The names that [os.CreateTemp] makes up in a directory begin like this. *)
Definition temp_prefix (dir pattern : string) : string :=
  (if HasSuffix dir "/" then dir else dir +:+ "/") +:+ match cut_last "*" pattern with Some (before, _) => before | None => pattern end.

(** [files]: the contents of files, by their paths. *)
Class StateLaws (W : Type) `{NodeEnv W, DeviceHttp W, EcdsaKeys W, StateFiles W} := {
  files : W → gmap string string;
  law_Getenv k w : (∃ v, (Getenv k w).1 = Ret v) ∧ files (Getenv k w).2 = files w;
  law_NewRequest url : match NewRequest url with Ret _ => True | Err e => gone e = false | Panic => False end;
  law_Do req w : files (device_Do req w).2 = files w ∧
    match (device_Do req w).1 with Ret (_, inl _) => True | Ret (_, inr e) | Err e => gone e = false | Panic => False end;
  law_MarshalEC key der : MarshalECPrivateKey key = Ret der → Forall is_byte der ∧ der ≠ [] ∧ ParseECPrivateKey der = Ret key;
  law_ReadFile p w : files (ReadFile p w).2 = files w ∧ ∀ c, files w !! p = Some c → (ReadFile p w).1 = Ret c;
  law_MkdirAll p mode w : files (MkdirAll p mode w).2 = files w;
  law_CreateTemp dir pattern w :
    match CreateTemp dir pattern w with
    | (Ret name, w') => HasPrefix name (temp_prefix dir pattern) = true ∧ files w' = <[name := ""]> (files w)
    | (_, w') => files w' = files w
    end;
  law_Chmod p mode w : files (file_Chmod p mode w).2 = files w;
  (** a file that is written from its start; a failed write can leave anything *)
  law_Write p s w c : files w !! p = Some c →
    match file_Write p s w with
    | (Ret _, w') => files w' = <[p := c +:+ s]> (files w)
    | (_, w') => ∀ q, q ≠ p → files w' !! q = files w !! q
    end;
  law_file_Close p w : files (file_Close p w).2 = files w;
  law_Rename p q w c : files w !! p = Some c →
    match file_Rename p q w with
    | (Ret _, w') => files w' = <[q := c]> (delete p (files w))
    | (_, w') => files w' = files w
    end;
  law_Remove p w : (file_Remove p w).1 ≠ Panic ∧ ∀ q, q ≠ p → files (file_Remove p w).2 !! q = files w !! q
}.

Section state.
Context {W : Type} `{NodeEnv W, DeviceHttp W, EcdsaKeys W, StateFiles W, Clock W, !StateLaws W}.
Implicit Types (w : W).

(** ** The state file is written whole or not at all *)

Definition with_newline (s : string) : string := s +:+ String (ascii_of 10) "".
(** A path that is not a temporary one of its directory. *)
Definition state_path (path : string) : Prop := HasPrefix path (temp_prefix (Dir path) ".mesh-state-*") = false.

Lemma run_deferring {A} (d : M W unit) (m : M W A) w :
  deferring d m w =
  match m w with
  | (Ret a, w1) => match d w1 with (Panic, w2) => (Panic, w2) | (_, w2) => (Ret a, w2) end
  | (Err e, w1) => match d w1 with (Panic, w2) => (Panic, w2) | (_, w2) => (Err e, w2) end
  | (Panic, w1) => (Panic, w1)
  end.
Proof.
  unfold deferring. rewrite run_try_cases. destruct (m w) as [[a|e|] w1]; [..|done]; rewrite run_try_cases; by destruct (d w1) as [[[]|?|] w2].
Qed.

Lemma closing_run {A} name (m : M W A) w :
  match closing_on_error name m w with
  | (Ret a, w') => m w = (Ret a, w')
  | (_, w') => files w' = files (m w).2
  end.
Proof.
  unfold closing_on_error. rewrite run_try_cases. destruct (m w) as [[a|e|] w1] eqn:E; [done| |done].
  rewrite run_try_cases. pose proof (law_file_Close name w1) as Hc. by destruct (file_Close name w1) as [[?|?|] w2].
Qed.

(** [name] is the new temporary file. *)
Lemma write_and_rename_spec name path value w : files w !! name = Some "" → name ≠ path →
  match write_and_rename name path value w with
  | (Ret _, w') => files w' !! path = Some (with_newline value) ∧ ∀ q, q ≠ name → q ≠ path → files w' !! q = files w !! q
  | (_, w') => ∀ q, q ≠ name → files w' !! q = files w !! q
  end.
Proof.
  intros Hn Hne. unfold write_and_rename, with_newline. set (text := value +:+ _). unfold mbind, M_bind.
  pose proof (closing_run name (file_Chmod name 384) w) as K1. pose proof (law_Chmod name 384 w) as F1.
  destruct (closing_on_error name (file_Chmod name 384) w) as [[[]|e|] w1]; [rewrite K1 in F1; cbn in F1|by intros q _; rewrite K1, F1..]. clear K1.
  pose proof (closing_run name (file_Write name text) w1) as K2.
  pose proof (law_Write name text w1 "" ltac:(by rewrite F1)) as F2. rewrite F1 in F2.
  destruct (closing_on_error name (file_Write name text) w1) as [[[]|e|] w2].
  2,3: intros q Hq; rewrite K2; destruct (file_Write name text w1) as [[?|?|] w2']; cbn; [by rewrite F2, lookup_insert_ne by done|by apply F2..].
  rewrite K2 in F2. clear K2. pose proof (law_file_Close name w2) as F3. destruct (file_Close name w2) as [[[]|e|] w3]; cbn in F3.
  2,3: by intros q Hq; rewrite F3, F2, lookup_insert_ne by done.
  pose proof (law_Rename name path w3 text) as F4. rewrite F3, F2, lookup_insert_eq in F4. specialize (F4 eq_refl).
  destruct (file_Rename name path w3) as [[[]|e|] w4]; rewrite F4.
  - rewrite lookup_insert_eq. split; [done|]. intros q Hq1 Hq2. by rewrite lookup_insert_ne, lookup_delete_ne, lookup_insert_ne by done.
  - intros q Hq. by rewrite lookup_insert_ne.
  - intros q Hq. by rewrite lookup_insert_ne.
Qed.

Lemma writePrivateJSON_spec path value w : state_path path →
  match writePrivateJSON path value w with
  | (Ret _, w') => files w' !! path = Some (with_newline value)
  | (_, w') => files w' !! path = files w !! path
  end ∧
  ∀ q, q ≠ path → HasPrefix q (temp_prefix (Dir path) ".mesh-state-*") = false → files (writePrivateJSON path value w).2 !! q = files w !! q.
Proof.
  intros Hp. unfold writePrivateJSON, mbind, M_bind. pose proof (law_MkdirAll (Dir path) 448 w) as F1.
  destruct (MkdirAll (Dir path) 448 w) as [[[]|e|] w1]; cbn in F1 |- *; [|by rewrite F1..].
  pose proof (law_CreateTemp (Dir path) ".mesh-state-*" w1) as F2. destruct (CreateTemp (Dir path) ".mesh-state-*" w1) as [[name|e|] w2];
    [|by cbn; rewrite F2, F1..]. destruct F2 as [Hname F2]. rewrite F1 in F2.
  assert (∀ q, HasPrefix q (temp_prefix (Dir path) ".mesh-state-*") = false → q ≠ name) as Hq by (intros q Hq ->; congruence).
  pose proof (write_and_rename_spec name path value w2 ltac:(by rewrite F2, lookup_insert_eq) (not_eq_sym (Hq path Hp))) as Hw.
  rewrite run_deferring. destruct (write_and_rename name path value w2) as [[[]|e|] w3]; [destruct Hw as [Ew Hw]| |].
  - destruct (law_Remove name w3) as [Hnp Er]. destruct (file_Remove name w3) as [[[]|?|] w4]; [..|done]; cbn in Er |- *.
    all: split; [rewrite Er by auto; done|]; intros q Hne Hpre; rewrite Er, Hw, F2, lookup_insert_ne by auto using not_eq_sym; done.
  - destruct (law_Remove name w3) as [Hnp Er]. destruct (file_Remove name w3) as [[[]|?|] w4]; [..|done]; cbn in Er |- *.
    all: split; [rewrite Er, Hw, F2, lookup_insert_ne by auto using not_eq_sym; done|]; intros q Hne Hpre;
      rewrite Er, Hw, F2, lookup_insert_ne by auto using not_eq_sym; done.
  - cbn. split; [rewrite Hw, F2, lookup_insert_ne by auto using not_eq_sym; done|]. intros q Hne Hpre.
    rewrite Hw, F2, lookup_insert_ne by auto using not_eq_sym; done.
Qed.
(** ** The calls of the API leave the files alone *)

(** A call that returns and changes no file. *)
Definition quiet {A} (m : M W A) : Prop := ∀ w, ∃ a w', m w = (Ret a, w') ∧ files w' = files w.
Lemma quiet_ret {A} (a : A) : quiet (mret a).
Proof. intros w. by exists a, w. Qed.
Lemma quiet_bind {A B} (m : M W A) (f : A → M W B) : quiet m → (∀ a, quiet (f a)) → quiet (a ← m; f a).
Proof.
  intros Hm Hf w. destruct (Hm w) as (a & w1 & E1 & F1). destruct (Hf a w1) as (b & w2 & E2 & F2). exists b, w2.
  rewrite (M_bind_Ret _ _ _ _ _ E1). split; [done|congruence].
Qed.
Lemma quiet_Getenv k : quiet (Getenv k).
Proof. intros w. destruct (law_Getenv k w) as [(v & E) F]. exists v, (Getenv k w).2. split; [|done]. destruct (Getenv k w). cbn in *. congruence. Qed.
Lemma quiet_compat : quiet compat.
Proof.
  repeat (apply quiet_bind; [apply quiet_bind; [apply quiet_Getenv|intros; apply quiet_ret]|intros]). apply quiet_ret.
Qed.
Lemma quiet_headers token : quiet (deviceAPIHeaders token).
Proof. apply quiet_bind; [apply quiet_compat|intros; apply quiet_ret]. Qed.
Lemma quiet_endpoint id : quiet (reg_endpoint id).
Proof. apply quiet_bind; [apply quiet_compat|intros; apply quiet_ret]. Qed.

(** Refreshing is one exchange, or none when the URL is refused. *)
Lemma refresh_spec wait r publicDER name w : ∃ res w', refreshRegistration wait r publicDER name w = (res, w') ∧ files w' = files w ∧
  ((∃ e, res = Err e ∧ gone e = false) ∨
   ∃ req w1 status body, dq_Method req = "PATCH" ∧ device_Do req w1 = (Ret (status, inl body), w') ∧
     match res with
     | Ret r' => status = 200 ∧ reg_ok r' ∧ reg_ID r' ≠ "" ∧ reg_Token r' = reg_Token r
     | Err e => gone e = gone_status status
     | Panic => False
     end).
Proof.
  unfold refreshRegistration. destruct (quiet_endpoint (reg_ID r) w) as (url & w1 & E1 & F1). rewrite (M_bind_Ret _ _ _ _ _ E1).
  pose proof (law_NewRequest url) as Hu. destruct (NewRequest url) as [[]|e|]; [|exists (Err e), w1; split; [done|]; split; [done|]; left; eauto|done].
  rewrite run_lift_Ret. destruct (quiet_headers (reg_Token r) w1) as (hs & w2 & E2 & F2). rewrite (M_bind_Ret _ _ _ _ _ E2).
  set (req := mkDeviceRequest _ _ _ _ _). destruct (law_Do req w2) as [F3 Hd]. unfold wrapping. rewrite run_bind, run_try_cases.
  destruct (device_Do req w2) as [[[status read]|e|] w3] eqn:E3; cbn in F3, Hd; [| |done].
  - rewrite run_ret. eexists _, w3. split; [reflexivity|]. split; [congruence|].
    assert (∀ e, read = inr e → gone e = false) as Hread by (intros e ->; exact Hd).
    pose proof (read_refreshed_spec r status read Hread) as Hs. destruct read as [body|e].
    + right. exists req, w2, status, body. split; [done|]. split; [done|]. destruct (read_refreshed _ _); [tauto| |done].
      by rewrite andb_true_r in Hs.
    + left. destruct (read_refreshed r (status, inr e)) as [?|e'|] eqn:E; [done| |done]. exists e'. split; [done|]. by rewrite andb_false_r in Hs.
  - rewrite run_throw. eexists _, w3. split; [reflexivity|]. split; [congruence|]. left. by eexists.
Qed.

(** ** A registration survives restarts *)

Definition credentials_complete (c : ConnectorCredentials) : Prop := cc_ID c ≠ "" ∧ TrimSpace (cc_Token c) ≠ "".
(** A state file from which the connector [c] can go on, with this state and key. *)
Definition usable_state (c : ConnectorCredentials) (contents : string) (state : persistedRegistration) (key : PrivateKey) : Prop :=
  Unmarshal_persisted contents = Ret state ∧ saved_key c state = Some key.

(** What a node does that has an identity: refresh it and save it; only when it is gone
    it enrols again. *)
Definition resume_with (cfg : runtimeConfig) (c : ConnectorCredentials) (state : persistedRegistration) (key : PrivateKey)
    : M W (meshRegistration * PrivateKey) :=
  let name := registrationName cfg (Some c) in
  publicDER ← lift (MarshalPKIXPublicKey key);
  r ← try (refreshRegistration (rc_ConnectWait cfg) (ps_Registration state) publicDER name);
  match r with
  | inl refreshed =>
      _ ← writePrivateJSON (mc_StateFile (rc_config cfg)) (persisted_text (mkPersisted (cc_ID c) (ps_PrivateKey state) refreshed));
      mret (refreshed, key)
  | inr e => if gone e then enroll cfg c name else throw e
  end.

Lemma saved_key_connector c state key : saved_key c state = Some key → ps_ConnectorID state = cc_ID c.
Proof. intros E. destruct (decide (ps_ConnectorID state = cc_ID c)) as [|Hne]; [done|]. unfold saved_key in E. by rewrite decide_True in E. Qed.

Lemma ReadFile_run p w c : files w !! p = Some c → ReadFile p w = (Ret c, (ReadFile p w).2).
Proof. intros Hc. destruct (law_ReadFile p w) as [_ E]. specialize (E c Hc). destruct (ReadFile p w). cbn in *. by subst. Qed.

Lemma loadOrEnroll_resumes cfg c w contents state key : credentials_complete c → files w !! mc_StateFile (rc_config cfg) = Some contents →
  usable_state c contents state key →
  loadOrEnroll cfg (Some c) w = resume_with cfg c state key (ReadFile (mc_StateFile (rc_config cfg)) w).2.
Proof.
  intros [Hid Htok] Hf [Hu Hk]. unfold loadOrEnroll. rewrite decide_False by tauto. cbn zeta.
  rewrite (run_try_Ret _ _ _ _ _ (ReadFile_run _ _ _ Hf)). generalize (ReadFile (mc_StateFile (rc_config cfg)) w).2. clear w Hf. intros w.
  unfold resume, resume_with. rewrite Hu, run_bind. rewrite (M_bind_Ret _ _ _ _ _ (wrapping_Ret _ (lift (Ret state)) w state w eq_refl)). rewrite Hk, run_bind.
  destruct (MarshalPKIXPublicKey key) as [pub|e|]; [|done..]. rewrite !run_lift_Ret, run_bind, !run_try_cases, (saved_key_connector _ _ _ Hk). destruct (refreshRegistration _ _ _ _ w) as [[r|e|] w1]; [| |done].
  - rewrite run_bind. unfold mbind, M_bind. by destruct (writePrivateJSON _ _ w1) as [[[]|?|] w2].
  - unfold gone. by destruct (errors_Is e _).
Qed.

(** What is saved with a key can be used again. *)
Lemma saved_usable c key der pk r : DecodeString false true pk = Some der → ParseECPrivateKey der = Ret key → pk ≠ "" →
  reg_ok r → reg_ID r ≠ "" → reg_Token r ≠ "" →
  let state := mkPersisted (cc_ID c) pk r in usable_state c (with_newline (persisted_text state)) state key.
Proof.
  intros Hd Hp Hpk Hr Hid Ht. split; [by apply read_persisted|]. unfold saved_key. cbn [ps_ConnectorID ps_PrivateKey ps_Registration].
  rewrite decide_False by auto. rewrite decide_False by tauto. by rewrite Hd, Hp.
Qed.
Lemma saved_key_inv c state key : saved_key c state = Some key →
  ps_PrivateKey state ≠ "" ∧ reg_Token (ps_Registration state) ≠ "" ∧
  ∃ der, DecodeString false true (ps_PrivateKey state) = Some der ∧ ParseECPrivateKey der = Ret key.
Proof.
  unfold saved_key. case_decide; [done|]. case_decide as Hn; [done|]. destruct (DecodeString false true _) as [der|]; [|done].
  destruct (ParseECPrivateKey der) as [k|e|] eqn:E; [|done..]. intros [= ->]. split; [tauto|]. split; [tauto|]. by exists der.
Qed.
Lemma EncodeToString_nonempty l : l ≠ [] → EncodeToString l ≠ "".
Proof. destruct l as [|x [|y [|z l]]]; done. Qed.

(** The last thing that a successful call does is to save what it returns. *)
Lemma refresh_Ret wait r pub name w r' w' : refreshRegistration wait r pub name w = (Ret r', w') →
  reg_ok r' ∧ reg_ID r' ≠ "" ∧ reg_Token r' = reg_Token r.
Proof.
  intros E. destruct (refresh_spec wait r pub name w) as (res & w1 & E1 & _ & [(e & -> & _)|(req & w0 & st & body & _ & _ & Hr)]); [congruence|].
  rewrite E in E1. simplify_eq. tauto.
Qed.
Lemma write_saved path value w w' : state_path path → writePrivateJSON path value w = (Ret tt, w') → files w' !! path = Some (with_newline value).
Proof. intros Hp E. pose proof (proj1 (writePrivateJSON_spec path value w Hp)) as F. by rewrite E in F. Qed.

Lemma post_token wait account name token pub w envelope w' : post_enrollment wait account name token pub w = (Ret envelope, w') →
  reg_Token (re_Result envelope) ≠ "".
Proof.
  unfold post_enrollment. intros E. run_inv.
  match goal with E : (let '(_, _) := ?x in _) _ = _ |- _ => destruct x as [status [body|e]] end; [|done].
  match goal with E : (mbind _ _) _ = _ |- _ => apply M_bind_inv in E as (env & w1 & _ & E) end.
  destruct (_ || _ || _ || _); [unfold enrollmentRejected in *; destruct (_ && _); by run_inv|].
  run_inv. match goal with E : bool_decide _ = false |- _ => apply bool_decide_eq_false in E; intros F; by rewrite F in E end.
Qed.

Lemma enroll_saves cfg c name w r key w' : state_path (mc_StateFile (rc_config cfg)) → enroll cfg c name w = (Ret (r, key), w') →
  ∃ contents pk, files w' !! mc_StateFile (rc_config cfg) = Some contents ∧ usable_state c contents (mkPersisted (cc_ID c) pk r) key.
Proof.
  intros Hp E. unfold enroll in E. run_inv.
  match goal with E : post_enrollment _ _ _ _ _ _ = _ |- _ => apply post_token in E as Htok end.
  match goal with E : refreshRegistration _ _ _ _ _ = (Ret _, _) |- _ => apply refresh_Ret in E as (Hok & Hid & Ht) end.
  match goal with E : MarshalECPrivateKey _ = Ret _ |- _ => destruct (law_MarshalEC _ _ E) as (Hb & Hne & Hparse) end.
  match goal with E : writePrivateJSON _ _ _ = (Ret ?u, _) |- _ => destruct u; apply (write_saved _ _ _ _ Hp) in E end.
  eexists _, _. split; [eassumption|].
  eapply saved_usable; [by apply b64_decodes|done|by apply EncodeToString_nonempty|done|done|congruence].
Qed.

Lemma loadOrEnroll_saves cfg c w r key w' : state_path (mc_StateFile (rc_config cfg)) → loadOrEnroll cfg (Some c) w = (Ret (r, key), w') →
  credentials_complete c ∧ ∃ contents pk, files w' !! mc_StateFile (rc_config cfg) = Some contents ∧ usable_state c contents (mkPersisted (cc_ID c) pk r) key.
Proof.
  intros Hp E. unfold loadOrEnroll in E. case_decide as Hc; [done|]. split; [unfold credentials_complete; tauto|].
  apply M_bind_inv in E as (contents & w1 & _ & E). apply M_bind_inv in E as (s & w2 & Es & E).
  destruct s as [r0 key0|superseded]; [|apply M_bind_inv in E as (u & w3 & _ & E); by eapply enroll_saves]. run_inv.
  destruct contents as [contents|e]; [|destruct (errors_Is e _); by run_inv]. unfold resume in Es.
  apply M_bind_inv in Es as (state & w3 & _ & Es). destruct (saved_key c state) as [key1|] eqn:Ek; [|by run_inv].
  apply M_bind_inv in Es as (pub & w4 & _ & Es). apply M_bind_inv in Es as (ref & w5 & Er & Es).
  destruct ref as [refreshed|e]; [|destruct (errors_Is e _); by run_inv]. run_inv.
  match goal with E : writePrivateJSON _ _ _ = (Ret ?u, _) |- _ => destruct u; apply (write_saved _ _ _ _ Hp) in E end.
  assert (refreshRegistration (rc_ConnectWait cfg) (ps_Registration state) pub (registrationName cfg (Some c)) w4 = (Ret r, w5)) as Er'.
  { unfold try in Er. destruct (refreshRegistration _ _ _ _ w4) as [[?|?|] ?]; by simplify_eq. }
  apply refresh_Ret in Er' as (Hok & Hid & Ht). pose proof (saved_key_connector _ _ _ Ek) as Hcid. apply saved_key_inv in Ek as (Hpk & Htok & der & Hd & Hparse).
  eexists _, (ps_PrivateKey state). split; [eassumption|]. rewrite Hcid. eapply saved_usable; [done|done|done|done|done|congruence].
Qed.

(** C25: Once a node has an identity it keeps it as long as it is given the same connector:
    whatever happened after a call that succeeded with a connector, as long as the state
    file is what that call left, the next call with that connector goes on with the same key
    and the registration that was returned.  All it does is to refresh that registration and
    save it; it enrols again only when it is told that the registration is gone.  (With
    another connector the state file is not used and the node enrols anew.) *)
Theorem identity_survives_restart cfg c w r key w1 : state_path (mc_StateFile (rc_config cfg)) →
  loadOrEnroll cfg (Some c) w = (Ret (r, key), w1) →
  ∃ contents pk, files w1 !! mc_StateFile (rc_config cfg) = Some contents ∧
    ∀ w2, files w2 !! mc_StateFile (rc_config cfg) = Some contents →
      loadOrEnroll cfg (Some c) w2 =
      resume_with cfg c (mkPersisted (cc_ID c) pk r) key (ReadFile (mc_StateFile (rc_config cfg)) w2).2.
Proof.
  intros Hp E. destruct (loadOrEnroll_saves _ _ _ _ _ _ Hp E) as (Hc & contents & pk & Hf & Hu).
  exists contents, pk. split; [done|]. intros w2 Hw2. by apply loadOrEnroll_resumes with contents.
Qed.

(** A node with an identity that cannot be refreshed: unless Cloudflare answers that the
    registration is gone, with 401, 403, 404 or 410, the error is returned and no file
    has changed, so that the identity is still there to be tried again. *)
Theorem only_gone_replaces cfg c contents state key w r w' : credentials_complete c → files w !! mc_StateFile (rc_config cfg) = Some contents →
  usable_state c contents state key → loadOrEnroll cfg (Some c) w = (r, w') →
  ∀ publicDER, MarshalPKIXPublicKey key = Ret publicDER →
  ∃ ref w1, refreshRegistration (rc_ConnectWait cfg) (ps_Registration state) publicDER (registrationName cfg (Some c))
              (ReadFile (mc_StateFile (rc_config cfg)) w).2 = (ref, w1) ∧ files w1 = files w ∧
    ∀ e, ref = Err e →
      (r = Err e ∧ w' = w1) ∨
      ∃ req w0 status body, dq_Method req = "PATCH" ∧ device_Do req w0 = (Ret (status, inl body), w1) ∧
        (status = 401 ∨ status = 403 ∨ status = 404 ∨ status = 410) ∧ enroll cfg c (registrationName cfg (Some c)) w1 = (r, w').
Proof.
  intros Hc Hf Hu E pub Hpub. rewrite (loadOrEnroll_resumes _ _ _ _ _ _ Hc Hf Hu) in E. set (w0 := (ReadFile _ w).2) in *.
  assert (files w0 = files w) as F0 by apply law_ReadFile.
  destruct (refresh_spec (rc_ConnectWait cfg) (ps_Registration state) pub (registrationName cfg (Some c)) w0) as (ref & w1 & Er & F1 & Hcase).
  exists ref, w1. split; [done|]. split; [congruence|]. intros e ->. unfold resume_with in E. rewrite Hpub, run_lift_Ret, run_try_cases, Er in E.
  destruct (gone e) eqn:Eg; [right|left; unfold throw in E; by simplify_eq].
  destruct Hcase as [(e' & ? & ?)|(req & w2 & status & body & Hm & Hd & Hg)]; [congruence|]. exists req, w2, status, body.
  split; [done|]. split; [done|]. split; [|done]. unfold gone_status in Hg. symmetry in Hg.
  rewrite !orb_true_iff, !Z.eqb_eq in Hg. tauto.
Qed.

(** The state file is replaced whole or not at all: when the write succeeds the file is
    the new text, and when any step of it fails the file is what it was; no other file
    is touched but temporary ones. *)
Theorem writePrivateJSON_atomic path value w r w' : state_path path → writePrivateJSON path value w = (r, w') →
  (if is_ret r then files w' !! path = Some (value +:+ String (ascii_of 10) "") else files w' !! path = files w !! path) ∧
  ∀ q, q ≠ path → HasPrefix q (temp_prefix (Dir path) ".mesh-state-*") = false → files w' !! q = files w !! q.
Proof.
  intros Hp E. destruct (writePrivateJSON_spec path value w Hp) as [Hs Ho]. rewrite E in *. cbn in Ho. split; [|done].
  destruct r as [[]|e|]; exact Hs.
Qed.
End state.

(** ** The account of a connector *)

Lemma of_bytes_of s : of_bytes (bytes_of s) = s.
Proof.
  induction s as [|c s IH]; [done|]. cbn [bytes_of]. unfold of_bytes in *. cbn [foldr]. rewrite IH. f_equal.
  unfold ascii_of, char_code. rewrite N2Z.id. apply Ascii.ascii_N_embedding.
Qed.
Lemma bytes_of_bytes s : Forall is_byte (bytes_of s).
Proof. induction s as [|c s IH]; [apply Forall_nil_2|]. cbn [bytes_of]. apply Forall_cons_2; [apply char_code_range|done]. Qed.

(** Whatever the encoding of a text is, the first that decodes it gives what was encoded. *)
Lemma token_decode_encode url padded l : Forall is_byte l → token_decode (b64_encode url padded l) = Some l.
Proof.
  intros Hl. pose proof (b64_decodes url padded l Hl) as E. unfold token_decode, decode_any.
  destruct (DecodeString false false _) as [m|] eqn:E0; [f_equal; exact (DecodeString_agree _ _ _ _ _ _ _ E0 E)|].
  destruct (DecodeString false true _) as [m|] eqn:E1; [f_equal; exact (DecodeString_agree _ _ _ _ _ _ _ E1 E)|].
  destruct (DecodeString true false _) as [m|] eqn:E2; [f_equal; exact (DecodeString_agree _ _ _ _ _ _ _ E2 E)|].
  destruct (DecodeString true true _) as [m|] eqn:E3; [f_equal; exact (DecodeString_agree _ _ _ _ _ _ _ E3 E)|].
  destruct url, padded; congruence.
Qed.
Lemma TrimSpace_b64 url padded l : Forall is_byte l → TrimSpace (b64_encode url padded l) = b64_encode url padded l.
Proof.
  intros Hl. apply Trim_none, b64_encode_all; [done| |done]. intros v Hv.
  assert (forallb (λ v, negb (is_space (b64_char url v))) (seqZ 0 64) = true) as Hall by (destruct url; vm_compute; reflexivity).
  apply (proj1 (List.forallb_forall _ _) Hall). apply list_elem_of_In, elem_of_seqZ. lia.
Qed.
Lemma token_decode_bytes s l : token_decode s = Some l → Forall is_byte l.
Proof.
  assert (∀ u p l, DecodeString u p s = Some l → Forall is_byte l) as Hd by (intros u p m; apply b64_decode_bytes).
  unfold token_decode, decode_any. intros E. repeat (case_match; [simplify_eq; by eapply Hd|]). done.
Qed.

(** The text in a token: the account, the tunnel and the secret. *)
Definition token_text (account tunnel secret : string) : string :=
  body_of (fst <$> [str_member "a" account; str_member "t" tunnel; str_member "s" secret]).
Lemma token_account account tunnel secret :
  Unmarshal (decode_struct (λ a key _ v, if field_name "a" key then decode_string a v else Ret a) "") (token_text account tunnel secret) = Ret account.
Proof.
  assert (json_text (token_text account tunnel secret) (JObj [str_member "a" account; str_member "t" tunnel; str_member "s" secret])) as Ht
    by (unfold token_text; text_of; repeat (apply Forall_cons_2 || apply Forall_nil_2); (split; [reflexivity|]); apply json_any_string).
  unfold Unmarshal. by rewrite (parse_json_text _ _ Ht).
Qed.

Definition account_ok (a : string) : Prop := String.length a = 32%nat ∧ str_all is_hex_digit a = true.
Lemma hex_decodes_32 a : (String.length a =? 32)%nat && hex_decodes a = true ↔ account_ok a.
Proof.
  unfold hex_decodes, account_ok. rewrite !andb_true_iff, Nat.eqb_eq. split; [tauto|]. intros [-> ?]. done.
Qed.
Lemma lower_hex_digit c : is_lower_hex c = true → is_hex_digit c = true.
Proof. destruct c as [[] [] [] [] [] [] [] []]; vm_compute; done. Qed.
Lemma ToLower_account a : account_ok a → account_ok (ToLower a).
Proof.
  intros [Hl Hh]. unfold account_ok. rewrite <- Hl. clear Hl. split.
  - induction a as [|c a IH]; [done|]. cbn [ToLower String.length]. f_equal. apply IH. cbn in Hh. by apply andb_true_iff in Hh as [_ Hh].
  - induction a as [|c a IH]; [done|]. cbn [ToLower str_all] in *. apply andb_true_iff in Hh as [Hc Hh]. rewrite IH by done. rewrite andb_true_r.
    revert Hc. destruct c as [[] [] [] [] [] [] [] []]; vm_compute; done.
Qed.

(** The account in a connector's token.  It is always 32 hexadecimal digits, so that it
    cannot change the URL it is put into; and it is the account the token was made with,
    in whichever base64 encoding the token is, and whether the account is written in
    hexadecimal or as base64 of its sixteen bytes. *)
Theorem connectorAccountID_spec :
  (∀ token a, connectorAccountID token = Ret a → account_ok a) ∧
  (∀ url padded account tunnel secret, account_ok account →
     connectorAccountID (b64_encode url padded (bytes_of (token_text account tunnel secret))) = Ret account) ∧
  (∀ url padded url' padded' bytes tunnel secret, Forall is_byte bytes → length bytes = 16%nat →
     connectorAccountID (b64_encode url padded (bytes_of (token_text (b64_encode url' padded' bytes) tunnel secret))) = Ret (hex_bytes bytes)).
Proof.
  split; [|split].
  - intros token a. unfold connectorAccountID. destruct (token_decode _) as [raw|]; [|done]. destruct (Unmarshal _ _) as [b|e|]; [|done..].
    case_decide; [done|]. destruct (_ && _) eqn:Eb; [intros [= <-]; by apply hex_decodes_32|].
    destruct (token_decode b) as [account|] eqn:Ea; [|done]. apply token_decode_bytes in Ea. destruct (Nat.eqb_spec (length account) 16) as [El|].
    + intros [= <-]. destruct (hex_bytes_spec account Ea) as [Hh Hl]. rewrite El in Hl. split; [done|]. by apply (str_all_impl _ _ _ lower_hex_digit).
    + cbn zeta. destruct ((String.length (of_bytes account) =? 32)%nat && hex_decodes (of_bytes account)) eqn:Ev; [|done]. intros [= <-]. apply ToLower_account. by apply hex_decodes_32.
  - intros url padded account tunnel secret Ha. unfold connectorAccountID. rewrite TrimSpace_b64, token_decode_encode, of_bytes_of, token_account by apply bytes_of_bytes.
    rewrite decide_False by (intros ->; by destruct Ha). by rewrite (proj2 (hex_decodes_32 account) Ha).
  - intros url padded url' padded' bytes tunnel secret Hb Hl. unfold connectorAccountID.
    rewrite TrimSpace_b64, token_decode_encode, of_bytes_of, token_account by apply bytes_of_bytes.
    assert (String.length (b64_encode url' padded' bytes) ≠ 32%nat ∧ b64_encode url' padded' bytes ≠ "") as [Hlen Hne].
    { do 16 (destruct bytes as [|? bytes]; [done|]). destruct bytes; [|done]. by destruct padded'. }
    rewrite decide_False by done. rewrite (proj2 (Nat.eqb_neq _ _)) by done. cbn [andb].
    by rewrite token_decode_encode, Hl by done.
Qed.

(** ** A host with files, and an API that answers *)

Definition sample_registration : meshRegistration :=
  mkMeshRegistration "reg-1" "" true (mkAccount "acc" "team" "org") "100.96.0.7" ""
    (Some [mkPeer "key" "162.159.198.1:0" "" "host:443" (Some [443; 500])]) "policy-1".
Definition sample_response (req : DeviceRequest) : Z * (string + error) :=
  (200, inl (if decide (dq_Method req = "POST")
             then body_of [("success", "true"); ("result", registration_text (set_Token "device-token" sample_registration)); ("errors", "[]")]
             else registration_text sample_registration)).
#[global] Instance sample_http : DeviceHttp (gmap string string) := { NewRequest _ := Ret tt; device_Do req := mret (sample_response req) }.
(** A key is its bytes. *)
Definition sample_key_ok (key : list Z) : bool := negb (bool_decide (key = [])) && forallb (λ b, (0 <=? b) && (b <? 256)) key.
Definition byte_keys (W : Type) : EcdsaKeys W := {|
  PrivateKey := list Z;
  GenerateKey := mret [48; 119; 2; 1; 1];
  MarshalPKIXPublicKey key := Ret (rev key);
  MarshalECPrivateKey key := if sample_key_ok key then Ret key else Err (Errorf "x509: invalid key");
  ParseECPrivateKey der := if sample_key_ok der then Ret der else Err (Errorf "x509: failed to parse EC private key")
|}.
#[global] Instance sample_keys : EcdsaKeys (gmap string string) := byte_keys _.
#[global] Instance sample_clock : Clock (gmap string string) := { time_Now := mret 0 }.
Definition no_file : error := Sentinel "os.ErrNotExist".
#[global] Instance sample_files : StateFiles (gmap string string) := {
  ReadFile p := m ← get; match (m : gmap string string) !! p with Some c => mret c | None => throw no_file end;
  MkdirAll _ _ := mret tt;
  CreateTemp dir pattern := let name := temp_prefix dir pattern +:+ "1" in _ ← modify <[name := ""]>; mret name;
  file_Chmod _ _ := mret tt;
  file_Write p s := modify (λ m, <[p := default "" (m !! p) +:+ s]> m);
  file_Close _ := mret tt;
  file_Rename p q := m ← get; match (m : gmap string string) !! p with Some c => modify (λ m, <[q := c]> (delete p m)) | None => throw no_file end;
  file_Remove p := m ← get; match (m : gmap string string) !! p with Some _ => modify (delete p) | None => throw no_file end
}.
#[global, program] Instance sample_laws : StateLaws (gmap string string) := { files := id }.
Next Obligation. intros k w. split; [by eexists|done]. Qed.
Next Obligation. done. Qed.
Next Obligation. done. Qed.
Next Obligation.
  intros key der. cbn. destruct (sample_key_ok key) eqn:E; [|done]. intros [= <-]. rewrite E. apply andb_true_iff in E as [Hne Hb].
  apply negb_true_iff, bool_decide_eq_false in Hne. split; [|done]. apply list.Forall_forall. intros b Hin%list_elem_of_In.
  pose proof (proj1 (List.forallb_forall _ _) Hb b Hin) as Hr. cbn beta in Hr. apply andb_true_iff in Hr. rewrite Z.leb_le, Z.ltb_lt in Hr. done.
Qed.
Next Obligation. intros p w. cbn. unfold mbind, M_bind, get. split; [by destruct (w !! p)|]. intros c Hc. change (w !! p = Some c) in Hc. by rewrite Hc. Qed.
Next Obligation. done. Qed.
Next Obligation. intros dir pattern w. cbn. split; [apply HasPrefix_app|done]. Qed.
Next Obligation. done. Qed.
Next Obligation. intros p s w c Hc. cbn in *. by rewrite Hc. Qed.
Next Obligation. done. Qed.
Next Obligation. intros p q w c Hc. cbn in *. unfold mbind, M_bind, get. by rewrite Hc. Qed.
Next Obligation.
  intros p w. cbn. unfold mbind, M_bind, get. destruct (w !! p); (split; [done|]); intros q Hq; [|done]. by apply lookup_delete_ne.
Qed.

Definition sample_token : string := b64_encode true false (bytes_of (token_text "0123456789abcdef0123456789ABCDEF" "tunnel" "secret")).
Definition sample_connector : ConnectorCredentials := mkConnector "conn-1" "flannel-prod-node-1" sample_token.
Definition sample_cfg : runtimeConfig := mkRuntimeConfig (set_NodeName "node-1" default_config) 1 1 1 1.
Definition sample_key : @PrivateKey (gmap string string) sample_keys := [48; 119; 2; 1; 1].
Definition sample_result : meshRegistration * @PrivateKey (gmap string string) sample_keys := (set_Token "device-token" sample_registration, sample_key).
Definition sample_enrolled : gmap string string := (loadOrEnroll sample_cfg (Some sample_connector) ∅).2.

Example sample_enrolls : (loadOrEnroll sample_cfg (Some sample_connector) (∅ : gmap string string)).1 = Ret sample_result.
Proof. by vm_compute. Qed.

Lemma identity_survives_restart_witness : ∃ contents pk, sample_enrolled !! defaultStateFile = Some contents ∧
  loadOrEnroll sample_cfg (Some sample_connector) ({[defaultStateFile := contents]} : gmap string string) =
  resume_with sample_cfg sample_connector (mkPersisted "conn-1" pk sample_result.1) sample_result.2
    (ReadFile defaultStateFile ({[defaultStateFile := contents]} : gmap string string)).2.
Proof.
  destruct (identity_survives_restart sample_cfg sample_connector (∅ : gmap string string) sample_result.1 sample_result.2 sample_enrolled)
    as (contents & pk & Hf & Hall); [by vm_compute|by vm_compute|].
  exists contents, pk. split; [exact Hf|]. apply Hall. apply lookup_singleton_eq.
Defined.

Definition sample_contents : string :=
  with_newline (persisted_text (mkPersisted "conn-1" (EncodeToString [48; 119; 2; 1; 1]) (set_Token "device-token" sample_registration))).
Definition sample_state : persistedRegistration := mkPersisted "conn-1" (EncodeToString [48; 119; 2; 1; 1]) (set_Token "device-token" sample_registration).

Lemma only_gone_replaces_witness : ∃ ref w1,
  refreshRegistration 1 (set_Token "device-token" sample_registration) [1; 1; 2; 119; 48] "flannel-prod-node-1"
    ({[defaultStateFile := sample_contents]} : gmap string string) = (ref, w1) ∧ w1 = ({[defaultStateFile := sample_contents]} : gmap string string).
Proof.
  destruct (only_gone_replaces sample_cfg sample_connector sample_contents sample_state sample_key ({[defaultStateFile := sample_contents]} : gmap string string)
    (loadOrEnroll sample_cfg (Some sample_connector) ({[defaultStateFile := sample_contents]} : gmap string string)).1
    (loadOrEnroll sample_cfg (Some sample_connector) ({[defaultStateFile := sample_contents]} : gmap string string)).2) with [1; 1; 2; 119; 48]
    as (ref & w1 & E & F & _).
  - split; [done|by vm_compute].
  - apply lookup_singleton_eq.
  - split; by vm_compute.
  - apply surjective_pairing.
  - done.
  - exists ref, w1. split; [exact E|exact F].
Defined.

Lemma writePrivateJSON_atomic_witness :
  ((writePrivateJSON "/var/lib/state.json" "{}" ({["/etc/x" := "y"]} : gmap string string)).2 : gmap string string) !! "/etc/x" = Some "y".
Proof.
  pose proof (proj2 (writePrivateJSON_atomic "/var/lib/state.json" "{}" ({["/etc/x" := "y"]} : gmap string string) _ _ ltac:(by vm_compute) (surjective_pairing _))
    "/etc/x" ltac:(done) ltac:(by vm_compute)) as E.
  etransitivity; [exact E|]. apply lookup_singleton_eq.
Defined.

Lemma connectorAccountID_spec_witness : connectorAccountID sample_token = Ret "0123456789abcdef0123456789ABCDEF".
Proof. apply (proj1 (proj2 connectorAccountID_spec)). split; by vm_compute. Defined.
