(* ===== verification/MeshRoutes.v ===== *)
(** * [pkg/backend/cloudflaremesh/routes_linux.go]: routes, rules and SNAT of the mesh

    The route manager of the Cloudflare mesh backend: for every remote pod network a
    route in a table of its own, a policy rule that sends traffic there, and a SNAT
    rule for traffic of the host.  The slices of the netlink and go-iptables packages
    the file declares as interfaces are the classes [netlinkOps] and [iptablesClient]
    over a store [W]. *)

From Stdlib Require Import ZArith Lia Ascii.
From stdpp Require Import base strings list gmap numbers.
From S2P Require Import Prelude GoStrings GoNet GoNetFacts Ip4.

Local Open Scope Z_scope.

Definition hostSNATComment : string := "cloudflare-mesh hostNetwork SNAT".
Definition meshRulePriority : Z := 109.
Definition remoteRulePriority : Z := 110.
Definition snatChain : string := "FLANNEL-POSTRTG".

(** ** The host *)

(** The fields of netlink's links, routes and rules that this code reads or sets.
    Every route it adds has link scope. *)
Record Link := mkLink { Link_Name : string; Link_Index : Z; Link_MTU : Z }.
Record MeshRoute := mkMeshRoute { mr_Dst : option IPNet; mr_LinkIndex : Z; mr_Table : Z }.
Record MeshRule := mkMeshRule { rule_Priority : Z; rule_Table : Z; rule_Dst : option IPNet }.

(** Listings may come with an error. *)
Class netlinkOps (W : Type) := {
  LinkByName : string → M W Link;
  RouteReplace : MeshRoute → M W unit;
  (** the IPv4 routes of a table, of one destination when it is given *)
  MeshRouteList : option IPNet → Z → M W (list MeshRoute * option error);
  MeshRouteDel : MeshRoute → M W unit;
  RuleAdd : MeshRule → M W unit;
  RuleList : M W (list MeshRule * option error);
  RuleDel : MeshRule → M W unit
}.

Class iptablesClient (W : Type) := {
  ipt_NewWithProtocol : M W unit;
  ipt_Exists : string → string → list string → M W bool;
  ipt_Insert : string → string → Z → list string → M W unit;
  ipt_Delete : string → string → list string → M W unit;
  ipt_List : string → string → M W (list string);
  (** the library's own error whose [IsNotExist] holds *)
  ipt_IsNotExist : error → bool
}.

(** ** Networks *)

Definition parseCIDR (value : string) : outcome IPNet :=
  match ParseCIDR value with
  | None => Err (Wrapf "parse CIDR %q: %w" (Errorf "invalid CIDR address"))
  | Some (ipAddress, network) =>
      if decide (To4 ipAddress = []) then Err (Errorf "CIDR %q is not IPv4")
      else Ret (mkIPNet (To4 ipAddress) (IPNet_Mask network))
  end.

Definition cidrsOverlap (first second : IPNet) : bool :=
  IPNet_Contains first (IPNet_IP second) || IPNet_Contains second (IPNet_IP first).

(** [ip[i] |= ^mask[i]] for every [i] of [ip]. *)
Fixpoint or_not (ip mask : list Z) : outcome IP :=
  match ip, mask with
  | [], _ => Ret []
  | _ :: _, [] => Panic
  | b :: ip, m :: mask => rest ← or_not ip mask; Ret (Z.lor b (Z.lxor m 255) :: rest)
  end.
Definition lastIPv4 (network : IPNet) : outcome IP := or_not (To4 (IPNet_IP network)) (IPNet_Mask network).

(** The loop from the last byte: [first[i]++] until a byte does not wrap to 0. *)
Fixpoint incr_from (bytes : list Z) : list Z :=
  match bytes with
  | [] => []
  | b :: rest => let b := u8 (b + 1) in
                 if b =? 0 then b :: incr_from rest else b :: rest
  end.
Definition incr (ip : IP) : IP := rev (incr_from (rev ip)).

Definition firstUsableIPv4 (network : IPNet) : outcome IP :=
  if decide (To4 (IPNet_IP network) = []) then Err (Errorf "local PodCIDR is not IPv4")
  else
    let first := incr (To4 (IPNet_IP network)) in
    if negb (IPNet_Contains network first) then Err (Errorf "local PodCIDR %s has no usable gateway address")
    else
      last ← lastIPv4 network;
      if Equal first last then Err (Errorf "local PodCIDR %s has no usable gateway address")
      else Ret first.

(** ** The manager *)

Record netlinkRouteManager := mkRouteManager {
  rm_linkName : string;
  rm_meshIP : IP;
  rm_mtu : Z;
  rm_table : Z;
  rm_meshCIDR : string;
  rm_clusterCIDR : string;
  rm_localCIDR : string;
  rm_localSNATIP : string
}.

Definition MeshIP (m : netlinkRouteManager) : IP := rm_meshIP m.
Definition rm_MTU (m : netlinkRouteManager) : Z := rm_mtu m.
Definition rm_Table (m : netlinkRouteManager) : Z := rm_table m.

Definition hostSNATRule (m : netlinkRouteManager) (dst : IPNet) : list string :=
  [ "!"; "-s"; rm_clusterCIDR m;
    "-d"; IPNet_String dst;
    "-m"; "addrtype"; "--src-type"; "LOCAL";
    "-o"; rm_linkName m;
    "-m"; "comment"; "--comment"; hostSNATComment;
    "-j"; "SNAT"; "--to-source"; rm_localSNATIP m ].

(** The argument of the first [-d], if there is one. *)
Fixpoint dest_arg (fields : list string) : option string :=
  match fields with
  | [] => None
  | f :: rest =>
      match rest with
      | [] => None
      | arg :: _ => if decide (f = "-d") then Some arg else dest_arg rest
      end
  end.

Definition snat_destination (rule : string) : list string :=
  if negb (Contains rule hostSNATComment) then []
  else match dest_arg (Fields rule) with
       | Some arg => match ParseCIDR arg with Some (_, network) => [IPNet_String network] | None => [] end
       | None => []
       end.
Definition snatDestinations (rules : list string) : list string := mbind snat_destination rules.

Section route_manager.
Context {W : Type} `{netlinkOps W, iptablesClient W, MapOrder}.

(** Do something for every element and collect the errors. *)
Fixpoint collect {A} (f : A → M W (list error)) (l : list A) : M W (list error) :=
  match l with
  | [] => mret []
  | a :: l => errs ← f a; rest ← collect f l; mret (errs ++ rest)
  end.
(** A call whose error is collected, unless [ignored]. *)
Definition collecting {A} (m : M W A) (ignored : error → bool) (wrap : error → error) : M W (list error) :=
  r ← try m;
  mret (match r with inl _ => [] | inr e => if ignored e then [] else [wrap e] end).
(** The errors of a listing. *)
Definition listing (e : option error) (wrap : error → error) : list error :=
  match e with Some e => [wrap e] | None => [] end.
Definition nothing (e : error) : bool := false.
Definition joined (errs : list error) : M W unit :=
  match errors_Join errs with None => mret tt | Some e => throw e end.

(** A call whose error is returned with a message, unless [ignored]. *)
Definition returning {A} (m : M W A) (ignored : error → bool) (wrap : error → error) : M W unit :=
  r ← try m;
  match r with inl _ => mret tt | inr e => if ignored e then mret tt else throw (wrap e) end.

Definition exists_already (e : error) : bool := errors_Is e "EEXIST".
Definition no_route (e : error) : bool := errors_Is e "ESRCH".
Definition no_rule (e : error) : bool := errors_Is e "ENOENT".

Definition ensureHostSNAT (m : netlinkRouteManager) (dst : IPNet) : M W unit :=
  let rule := hostSNATRule m dst in
  r ← try (ipt_Exists "nat" "FLANNEL-POSTRTG" rule);
  match r with
  | inr e => throw (Wrapf "check hostNetwork SNAT for %s: %w" e)
  | inl true => mret tt
  | inl false => returning (ipt_Insert "nat" "FLANNEL-POSTRTG" 2 rule) nothing (Wrapf "ensure hostNetwork SNAT for %s: %w")
  end.

Definition removeHostSNAT (m : netlinkRouteManager) (dst : IPNet) : M W unit :=
  let rule := hostSNATRule m dst in
  r ← try (ipt_Exists "nat" "FLANNEL-POSTRTG" rule);
  match r with
  | inr e => throw (Wrapf "check hostNetwork SNAT for %s: %w" e)
  | inl false => mret tt
  | inl true => returning (ipt_Delete "nat" "FLANNEL-POSTRTG" rule) nothing (Wrapf "remove hostNetwork SNAT for %s: %w")
  end.

Definition ensureMeshRoute (m : netlinkRouteManager) (link : Link) (meshNetwork : IPNet) : M W unit :=
  _ ← returning (RouteReplace (mkMeshRoute (Some meshNetwork) (Link_Index link) (rm_table m))) nothing
        (Wrapf "ensure Mesh CIDR route %s in table %d: %w");
  returning (RuleAdd (mkMeshRule meshRulePriority (rm_table m) (Some meshNetwork))) exists_already
    (Wrapf "ensure Mesh CIDR policy rule for %s: %w").

Definition Ensure (m : netlinkRouteManager) (network : string) : M W unit :=
  link ← try (LinkByName (rm_linkName m));
  match link with
  | inr e => throw (Wrapf "refresh native Mesh interface %q: %w" e)
  | inl link =>
      dst ← lift (parseCIDR network);
      _ ← returning (RouteReplace (mkMeshRoute (Some dst) (Link_Index link) (rm_table m))) nothing
            (Wrapf "ensure native Mesh route %s in table %d: %w");
      _ ← returning (RuleAdd (mkMeshRule remoteRulePriority (rm_table m) (Some dst))) exists_already
            (Wrapf "ensure native Mesh policy rule for %s: %w");
      ensureHostSNAT m dst
  end.

(** The policy rule that [Ensure] adds for [dst]. *)
Definition is_remote_rule (m : netlinkRouteManager) (r : MeshRule) (dst : IPNet) : bool :=
  (rule_Table r =? rm_table m) && (rule_Priority r =? remoteRulePriority) &&
  match rule_Dst r with Some d => bool_decide (IPNet_String d = IPNet_String dst) | None => false end.

Definition Remove (m : netlinkRouteManager) (network : string) : M W unit :=
  dst ← lift (parseCIDR network);
  routes ← MeshRouteList (Some dst) (rm_table m);
  errs ← collect (λ r, collecting (MeshRouteDel r) no_route (Wrapf "remove native Mesh route %s from table %d: %w")) routes.1;
  rules ← RuleList;
  errs' ← collect (λ r, if is_remote_rule m r dst
                        then collecting (RuleDel r) no_rule (Wrapf "remove native Mesh policy rule for %s: %w")
                        else mret []) rules.1;
  errs'' ← collecting (removeHostSNAT m dst) nothing id;
  joined (listing routes.2 (Wrapf "list native Mesh route %s in table %d: %w") ++ errs ++
          listing rules.2 (Wrapf "list native Mesh policy rules: %w") ++ errs' ++ errs'').

Definition managedSNATDestinations : M W (list string) :=
  r ← try (ipt_List "nat" snatChain);
  match r with
  | inl rules => mret (snatDestinations rules)
  | inr e => if ipt_IsNotExist e then mret [] else throw (Wrapf "list hostNetwork SNAT rules: %w" e)
  end.

(** The texts of the destinations that are there. *)
Definition dst_texts (dsts : list (option IPNet)) : list string := mbind (λ d, match d with Some d => [IPNet_String d] | None => [] end) dsts.

Definition staleDestinations (m : netlinkRouteManager) (desired : gset string) : M W (list string) :=
  routes ← MeshRouteList None (rm_table m);
  match routes.2 with
  | Some e => throw (Wrapf "list native Mesh routes in table %d: %w" e)
  | None =>
      rules ← RuleList;
      match rules.2 with
      | Some e => throw (Wrapf "list native Mesh policy rules: %w" e)
      | None =>
          snat ← managedSNATDestinations;
          let found : gset string := list_to_set (
            dst_texts (mr_Dst <$> routes.1) ++
            dst_texts (rule_Dst <$> filter (λ r, rule_Table r = rm_table m ∧ rule_Priority r = remoteRulePriority) rules.1) ++
            snat) in
          let stale := filter (λ network, network ≠ rm_meshCIDR m ∧ network ∉ desired) (range_keys found) in
          mret (sort_Strings stale)
      end
  end.

Definition Reconcile (m : netlinkRouteManager) (desired : gset string) : M W unit :=
  errs ← collect (λ network, collecting (Ensure m network) nothing id) (range_keys desired);
  stale ← try (staleDestinations m desired);
  match stale with
  | inr e => joined (errs ++ [e])
  | inl stale =>
      errs' ← collect (λ network, collecting (Remove m network) nothing id) stale;
      joined (errs ++ errs')
  end.

Definition Cleanup (m : netlinkRouteManager) : M W unit :=
  snat ← try managedSNATDestinations;
  let '(snat, errs) := match snat with inl l => (l, []) | inr e => ([], [e]) end in
  errs1 ← collect (λ network, match parseCIDR network with
                              | Ret dst => collecting (removeHostSNAT m dst) nothing id
                              | Err e => mret [e]
                              | Panic => panic
                              end) snat;
  routes ← MeshRouteList None (rm_table m);
  errs2 ← collect (λ r, collecting (MeshRouteDel r) no_route (Wrapf "remove native Mesh route from table %d: %w")) routes.1;
  rules ← RuleList;
  errs3 ← collect (λ r, if negb (rule_Table r =? rm_table m) then mret []
                        else if negb (rule_Priority r =? meshRulePriority) && negb (rule_Priority r =? remoteRulePriority)
                        then mret []
                        else collecting (RuleDel r) no_rule (Wrapf "remove native Mesh policy rule: %w")) rules.1;
  joined (errs ++ errs1 ++ listing routes.2 (Wrapf "list native Mesh routes in table %d: %w") ++ errs2 ++
          listing rules.2 (Wrapf "list native Mesh policy rules: %w") ++ errs3).

(** The fields of the backend's configuration that the constructor reads. *)
Record route_config := mkRouteCfg { cfg_InterfaceName : string; cfg_MeshCIDR : string; cfg_RouteTable : Z }.

Definition parsing {A} (o : outcome A) (format : string) : M W A :=
  match o with Err e => throw (Wrapf format e) | _ => lift o end.

Definition newLocalRouteManager (cfg : route_config) (meshIP : IP) (clusterCIDR localCIDR : string)
    : M W netlinkRouteManager :=
  link ← try (LinkByName (cfg_InterfaceName cfg));
  match link with
  | inr e => throw (Wrapf "find native Mesh interface %q: %w" e)
  | inl link =>
      meshNetwork ← parsing (parseCIDR (cfg_MeshCIDR cfg)) "parse MeshCIDR: %w";
      _ ← check (bool_decide (meshIP = []) || negb (IPNet_Contains meshNetwork meshIP))
            (Errorf "native Mesh address %v outside %s");
      clusterNetwork ← parsing (parseCIDR clusterCIDR) "parse cluster network: %w";
      _ ← check (cidrsOverlap meshNetwork clusterNetwork) (Errorf "MeshCIDR %s overlaps cluster network %s");
      localNetwork ← parsing (parseCIDR localCIDR) "parse local PodCIDR: %w";
      _ ← check (negb (IPNet_Contains clusterNetwork (IPNet_IP localNetwork)))
            (Errorf "local PodCIDR %s is outside cluster network %s");
      last ← lift (lastIPv4 localNetwork);
      _ ← check (negb (IPNet_Contains clusterNetwork last)) (Errorf "local PodCIDR %s is outside cluster network %s");
      localSNATIP ← lift (firstUsableIPv4 localNetwork);
      ipt ← try ipt_NewWithProtocol;
      _ ← (match ipt with inr e => throw (Wrapf "initialize hostNetwork SNAT: %w" e) | inl _ => mret tt end);
      let manager := mkRouteManager (Link_Name link) meshIP (Link_MTU link) (cfg_RouteTable cfg)
                       (IPNet_String meshNetwork) (IPNet_String clusterNetwork) (IPNet_String localNetwork)
                       (IP_String localSNATIP) in
      _ ← ensureMeshRoute manager link meshNetwork;
      mret manager
  end.
End route_manager.
