(* ===== verification/MeshRoutesFacts.v ===== *)
(** * The route manager of the mesh: theorems

    What is documented of the kernel's policy tables, its policy rules and the chain
    of SNAT rules is the class [MeshLaws], in terms of a [hostview]; the theorems say
    what the manager makes of a host, whatever it finds there. *)

From Stdlib Require Import ZArith Lia Ascii.
From stdpp Require Import base strings list gmap numbers sorting.
From S2P Require Import Prelude GoStrings GoNet GoNetFacts Ip4 Lease Backend BackendFacts MeshRoutes.

Local Open Scope Z_scope.

(** ** Networks on the host *)

(** A network as the kernel has it: its address is the first of its block. *)
Definition wf_net (n : IP4Net) : Prop := IP4Net_ok n ∧ IP4Net_aligned n.
Definition net_is (d : IPNet) (n : IP4Net) : Prop :=
  wf_net n ∧ To4 (IPNet_IP d) = octet_list (IP4Net_IP n) ∧ IPNet_Mask d = CIDRMask (IP4Net_PrefixLen n) 32.
Definition dst_is (d : option IPNet) (n : option IP4Net) : Prop :=
  match d, n with Some d, Some n => net_is d n | None, None => True | _, _ => False end.

Lemma octet_list_masked n : wf_net n →
  zip_with Z.land (octet_list (IP4Net_IP n)) (CIDRMask (IP4Net_PrefixLen n) 32) = octet_list (IP4Net_IP n).
Proof.
  intros [Hn Ha]. pose proof (FromIPNet_masked n Hn) as E. cbv zeta in E. destruct Hn as [Hip Hp].
  pose proof (CIDRMask_length 32 _ (or_introl eq_refl) Hp) as Hl.
  pose proof (CIDRMask_bytes 32 _ (or_introl eq_refl) Hp) as Hb.
  pose proof (octet_list_bytes _ Hip) as Ho. pose proof (length_octet_list (IP4Net_IP n)) as Hlo.
  assert (Forall is_byte (zip_with Z.land (octet_list (IP4Net_IP n)) (CIDRMask (IP4Net_PrefixLen n) 32)))
    by (apply land_bytes; [done..|by rewrite Hl, Hlo]).
  apply be_val_inj; [done..|by rewrite length_zip_with, Hl, Hlo|].
  rewrite be_val_land, CIDRMask_val by (auto; by rewrite Hl, Hlo).
  rewrite octet_list_be, be_val_bytes_small, land_high_ones by (done || lia).
  unfold IP4Net_aligned, IP4Net_size in Ha. pose proof (Z.div_mod (IP4Net_IP n) (2 ^ (32 - IP4Net_PrefixLen n))). lia.
Qed.

Lemma networkNumber_is d n : net_is d n →
  networkNumberAndMask d = Some (octet_list (IP4Net_IP n), CIDRMask (IP4Net_PrefixLen n) 32).
Proof.
  intros ([[_ Hp] _] & Eip & Em). pose proof (length_octet_list (IP4Net_IP n)) as Hlo.
  unfold networkNumberAndMask. rewrite Eip, Em.
  rewrite !(decide_False (P := octet_list _ = [])) by (intros E; by rewrite E in Hlo).
  rewrite decide_True; [done|]. by rewrite Hlo, (CIDRMask_length 32 _ (or_introl eq_refl) Hp).
Qed.

Lemma IPNet_String_is d n : net_is d n → IPNet_String d = IP4Net_String n.
Proof.
  intros Hd. unfold IPNet_String. rewrite (networkNumber_is d n Hd). destruct Hd as ([[Hip Hp] _] & _ & _).
  rewrite CIDRMask_simple by auto. replace (IP4Net_PrefixLen n =? -1) with false by (symmetry; apply Z.eqb_neq; lia).
  unfold IP4Net_String, IP4_String, IP_String. rewrite To4_ToIP, (To4_4 (octet_list _)) by apply length_octet_list.
  pose proof (length_octet_list (IP4Net_IP n)) as Hlo. pose proof (length_ToIP (IP4Net_IP n)) as Hl16.
  rewrite !(decide_False (P := _ = [])) by (intros E; by rewrite E in *). done.
Qed.

Lemma parseCIDR_net n : wf_net n →
  ∃ d, parseCIDR (IP4Net_String n) = Ret d ∧ net_is d n.
Proof.
  intros Hn. pose proof Hn as [Hok _]. unfold parseCIDR. rewrite ParseCIDR_IP4Net, To4_ToIP by done.
  pose proof (length_octet_list (IP4Net_IP n)) as Hlo. rewrite decide_False by (intros E; by rewrite E in Hlo).
  eexists. split; [done|]. split; [done|]. split; [by apply To4_4|done].
Qed.

(** A printed network is read back, so that equal texts mean equal networks. *)
Lemma ParseCIDR_text n : wf_net n → ∃ a d, ParseCIDR (IP4Net_String n) = Some (a, d) ∧ net_is d n.
Proof.
  intros Hn. pose proof Hn as [Hok _]. rewrite ParseCIDR_IP4Net, octet_list_masked by done. eexists _, _.
  split; [done|]. split; [done|]. split; [apply To4_4, length_octet_list|done].
Qed.

Lemma IP4Net_String_inj n n' : IP4Net_ok n → IP4Net_ok n' → IP4Net_String n = IP4Net_String n' → n = n'.
Proof.
  intros Hn Hn' E. pose proof (ParseCIDR_IP4Net n Hn) as P. rewrite E, (ParseCIDR_IP4Net n' Hn') in P.
  assert (IP4_ToIP (IP4Net_IP n) = IP4_ToIP (IP4Net_IP n')) as Ei by congruence.
  assert (CIDRMask (IP4Net_PrefixLen n) 32 = CIDRMask (IP4Net_PrefixLen n') 32) as Em by congruence.
  destruct n as [a p], n' as [a' p']; cbn [IP4Net_IP IP4Net_PrefixLen] in *. f_equal.
  - apply (f_equal FromIP) in Ei. rewrite !FromIP_ToIP in Ei by (apply Hn || apply Hn'). congruence.
  - pose proof (CIDRMask_simple 32 p (or_introl eq_refl) (proj2 Hn)) as S1.
    pose proof (CIDRMask_simple 32 p' (or_introl eq_refl) (proj2 Hn')) as S2. congruence.
Qed.

(** ** What the host does *)

(** The policy tables map a table and a destination to the link of the route; a rule
    is its priority, its table and its destination; the chain is [FLANNEL-POSTRTG] of
    the table [nat], if it was created. *)
Record hostview := mkView {
  v_links : gmap string Link;
  v_routes : gmap (Z * option IP4Net) Z;
  v_rules : gset (Z * Z * option IP4Net);
  v_chain : option (list (list string))
}.
Definition set_routes f v := mkView (v_links v) (f (v_routes v)) (v_rules v) (v_chain v).
Definition set_rules f v := mkView (v_links v) (v_routes v) (f (v_rules v)) (v_chain v).
Definition set_chain f v := mkView (v_links v) (v_routes v) (v_rules v) (f (v_chain v)).

Definition mroute_is (r : MeshRoute) (t : Z) (k : option IP4Net * Z) : Prop :=
  mr_Table r = t ∧ mr_LinkIndex r = k.2 ∧ dst_is (mr_Dst r) k.1.
Definition mrule_is (r : MeshRule) (k : Z * Z * option IP4Net) : Prop :=
  rule_Priority r = k.1.1 ∧ rule_Table r = k.1.2 ∧ dst_is (rule_Dst r) k.2.

(** The list without the first occurrence of [x]. *)
Fixpoint remove_one {A} `{EqDecision A} (x : A) (l : list A) : list A :=
  match l with
  | [] => []
  | y :: l => if decide (x = y) then l else y :: remove_one x l
  end.

(** How [iptables -S] prints a rule that carries the comment of this backend: the
    comment is in the line, and a destination follows the first [-d], whatever the
    order of the other options; other rules are printed without that text. *)
Definition printed (spec : list string) (line : string) : Prop :=
  if decide (hostSNATComment ∈ spec)
  then Contains line hostSNATComment = true ∧
       ∀ n, wf_net n → dest_arg spec = Some (IP4Net_String n) → dest_arg (Fields line) = Some (IP4Net_String n)
  else Contains line hostSNATComment = false.

Class MeshLaws (W : Type) `{netlinkOps W, iptablesClient W} := {
  view : W → hostview;
  law_LinkByName name w :
    match v_links (view w) !! name with
    | Some l => LinkByName name w = (Ret l, w) ∧ Link_Name l = name
    | None => ∃ e, LinkByName name w = (Err e, w)
    end;
  (** a route to a destination replaces an older one in its table *)
  law_RouteReplace d n name l t w : net_is d n → v_links (view w) !! name = Some l →
    ∃ w', RouteReplace (mkMeshRoute (Some d) (Link_Index l) t) w = (Ret tt, w') ∧
      view w' = set_routes (<[(t, Some n) := Link_Index l]>) (view w);
  law_MeshRouteList d f t w : dst_is d f →
    ∃ l ks, MeshRouteList d t w = (Ret (l, None), w) ∧ Forall2 (λ r k, mroute_is r t k) l ks ∧ NoDup ks ∧
      ∀ k, k ∈ ks ↔ v_routes (view w) !! (t, k.1) = Some k.2 ∧ (f = None ∨ k.1 = f);
  law_MeshRouteDel r t k w : mroute_is r t k →
    if decide (v_routes (view w) !! (t, k.1) = Some k.2)
    then ∃ w', MeshRouteDel r w = (Ret tt, w') ∧ view w' = set_routes (delete (t, k.1)) (view w)
    else ∃ e, MeshRouteDel r w = (Err e, w) ∧ no_route e = true;
  law_RuleAdd r k w : mrule_is r k →
    if decide (k ∈ v_rules (view w))
    then ∃ e, RuleAdd r w = (Err e, w) ∧ exists_already e = true
    else ∃ w', RuleAdd r w = (Ret tt, w') ∧ view w' = set_rules (union {[k]}) (view w);
  law_RuleList w :
    ∃ l ks, RuleList w = (Ret (l, None), w) ∧ Forall2 mrule_is l ks ∧ NoDup ks ∧
      ∀ k, k ∈ ks ↔ k ∈ v_rules (view w);
  law_RuleDel r k w : mrule_is r k →
    if decide (k ∈ v_rules (view w))
    then ∃ w', RuleDel r w = (Ret tt, w') ∧ view w' = set_rules (λ R, R ∖ {[k]}) (view w)
    else ∃ e, RuleDel r w = (Err e, w) ∧ no_rule e = true;
  law_ipt_New w : ipt_NewWithProtocol w = (Ret tt, w);
  law_ipt_Exists spec w :
    ipt_Exists "nat" "FLANNEL-POSTRTG" spec w = (Ret (bool_decide (spec ∈ default [] (v_chain (view w)))), w);
  (** a position after the end of the chain is refused *)
  law_ipt_Insert spec w :
    match v_chain (view w) with
    | Some (r :: c) => ∃ w', ipt_Insert "nat" "FLANNEL-POSTRTG" 2 spec w = (Ret tt, w') ∧
                         view w' = set_chain (λ _, Some (r :: spec :: c)) (view w)
    | _ => ∃ e, ipt_Insert "nat" "FLANNEL-POSTRTG" 2 spec w = (Err e, w)
    end;
  law_ipt_Delete spec c w : v_chain (view w) = Some c → spec ∈ c →
    ∃ w', ipt_Delete "nat" "FLANNEL-POSTRTG" spec w = (Ret tt, w') ∧
      view w' = set_chain (λ _, Some (remove_one spec c)) (view w);
  law_ipt_List w :
    match v_chain (view w) with
    | Some c => ∃ lines, ipt_List "nat" "FLANNEL-POSTRTG" w = (Ret ("-N FLANNEL-POSTRTG" :: lines), w) ∧ Forall2 printed c lines
    | None => ∃ e, ipt_List "nat" "FLANNEL-POSTRTG" w = (Err e, w) ∧ ipt_IsNotExist e = true
    end
}.

(** ** The rules of one network *)

Definition snat_rule (m : netlinkRouteManager) (n : IP4Net) : list string := hostSNATRule m (IP4Net_ToIPNet n).

Lemma ToIPNet_is n : wf_net n → net_is (IP4Net_ToIPNet n) n.
Proof. intros Hn. split; [done|]. split; [apply To4_ToIP|done]. Qed.

Lemma hostSNATRule_is m d n : net_is d n → hostSNATRule m d = snat_rule m n.
Proof.
  intros Hd. unfold snat_rule, hostSNATRule. rewrite (IPNet_String_is d n Hd).
  by rewrite (IPNet_String_is _ n (ToIPNet_is n (proj1 Hd))).
Qed.

Lemma dest_arg_snat m n : wf_net n → rm_clusterCIDR m ≠ "-d" → dest_arg (snat_rule m n) = Some (IP4Net_String n).
Proof.
  intros Hn Hc. unfold snat_rule, hostSNATRule. cbn [dest_arg]. rewrite !decide_False by done.
  by rewrite decide_True, (IPNet_String_is _ n (ToIPNet_is n Hn)).
Qed.

Lemma snat_rule_comment m n : hostSNATComment ∈ snat_rule m n.
Proof. unfold snat_rule, hostSNATRule. set_solver. Qed.

Lemma snat_rule_inj m n n' : wf_net n → wf_net n' → snat_rule m n = snat_rule m n' → n = n'.
Proof.
  intros Hn Hn' E. apply IP4Net_String_inj; [apply Hn|apply Hn'|]. unfold snat_rule, hostSNATRule in E.
  rewrite <- (IPNet_String_is _ n (ToIPNet_is n Hn)), <- (IPNet_String_is _ n' (ToIPNet_is n' Hn')). congruence.
Qed.

(** The chain with the rule of [n] in its second place, unless it is there. *)
Definition ensure_rule (r : list string) (c : list (list string)) : list (list string) :=
  if decide (r ∈ c) then c else match c with r0 :: c => r0 :: r :: c | [] => [] end.

Definition ensured (m : netlinkRouteManager) (link : Z) (v : hostview) (n : IP4Net) : hostview :=
  mkView (v_links v) (<[(rm_table m, Some n) := link]> (v_routes v))
    ({[(remoteRulePriority, rm_table m, Some n)]} ∪ v_rules v) (ensure_rule (snat_rule m n) <$> v_chain v).
Definition removed (m : netlinkRouteManager) (v : hostview) (n : IP4Net) : hostview :=
  mkView (v_links v) (delete (rm_table m, Some n) (v_routes v))
    (v_rules v ∖ {[(remoteRulePriority, rm_table m, Some n)]}) (remove_one (snat_rule m n) <$> v_chain v).

Lemma remove_one_none {A} `{EqDecision A} (x : A) l : x ∉ l → remove_one x l = l.
Proof.
  induction l as [|y l IH]; intros Hx; [done|]. apply not_elem_of_cons in Hx as [Hne Hx]. cbn.
  rewrite decide_False by done. by rewrite IH.
Qed.

(** *** Chains *)

(** A rule that the manager, as it is now configured, installs for some network. *)
Definition mine (m : netlinkRouteManager) (spec : list string) : bool :=
  match dest_arg spec with
  | Some a => match parseCIDR a with Ret d => bool_decide (spec = hostSNATRule m d) | _ => false end
  | None => false
  end.
(** The rules of others, in their order, and those of the manager. *)
Definition others (m : netlinkRouteManager) (c : list (list string)) : list (list string) := filter (λ s, mine m s = false) c.
Definition own (m : netlinkRouteManager) (c : list (list string)) : list (list string) := filter (λ s, mine m s = true) c.

Lemma mine_snat m n : rm_clusterCIDR m ≠ "-d" → wf_net n → mine m (snat_rule m n) = true.
Proof.
  intros Hm Hn. unfold mine. rewrite dest_arg_snat by done. destruct (parseCIDR_net n Hn) as (d & -> & Hd).
  apply bool_decide_eq_true_2. symmetry. by apply hostSNATRule_is.
Qed.

Lemma remove_one_filter {A} `{EqDecision A} (P : A → Prop) `{∀ x, Decision (P x)} x l :
  filter P (remove_one x l) = if decide (P x) then remove_one x (filter P l) else filter P l.
Proof.
  induction l as [|y l IH]; [by destruct (decide _)|]. cbn [remove_one]. rewrite filter_cons.
  destruct (decide (x = y)) as [<-|Hne].
  - destruct (decide (P x)); [|done]. cbn [remove_one]. by rewrite decide_True.
  - rewrite filter_cons, IH. destruct (decide (P x)), (decide (P y)); try done. cbn [remove_one]. by rewrite decide_False.
Qed.

Lemma remove_one_elem {A} `{EqDecision A} (x y : A) l : NoDup l → y ∈ remove_one x l ↔ y ∈ l ∧ y ≠ x.
Proof.
  induction 1 as [|z l Hz Hl IH]; cbn.
  - split; [by intros ?%not_elem_of_nil|by intros [?%not_elem_of_nil _]].
  - destruct (decide (x = z)) as [->|Hne]; rewrite ?elem_of_cons, ?IH; [|naive_solver].
    split; [|naive_solver]. intros Hy. split; [by right|]. by intros ->.
Qed.

Lemma remove_one_NoDup {A} `{EqDecision A} (x : A) l : NoDup l → NoDup (remove_one x l).
Proof.
  induction 1 as [|z l Hz Hl IH]; cbn; [constructor|]. destruct (decide (x = z)); [done|]. constructor; [|done].
  rewrite remove_one_elem by done. naive_solver.
Qed.

(** One step on a chain: which rules of the manager are there, and that each is there once. *)
Lemma ensure_rule_steps m r c : mine m r = true → c ≠ [] → NoDup (own m c) →
  ensure_rule r c ≠ [] ∧ others m (ensure_rule r c) = others m c ∧ NoDup (own m (ensure_rule r c)) ∧
  ∀ s, s ∈ ensure_rule r c ↔ s ∈ c ∨ s = r.
Proof.
  intros Hr Hne Hnd. unfold ensure_rule. destruct (decide (r ∈ c)) as [Hin|Hin]; [naive_solver|].
  destruct c as [|r0 c]; [done|]. split_and!; [done| | |set_solver].
  - unfold others. rewrite !filter_cons. destruct (decide (mine m r = false)); [congruence|done].
  - unfold own in *. assert (r ∉ filter (λ s, mine m s = true) (r0 :: c)) as Hn by (rewrite list_elem_of_filter; tauto).
    rewrite !filter_cons in *. destruct (decide (mine m r = true)); [|done]. destruct (decide (mine m r0 = true)).
    + apply not_elem_of_cons in Hn as [Hne' Hn]. apply list.NoDup_cons in Hnd as [Hn0 Hnd].
      constructor; [|by constructor]. apply not_elem_of_cons. split; [congruence|done].
    + by constructor.
Qed.

Lemma remove_one_steps m r c : mine m r = true → NoDup (own m c) →
  others m (remove_one r c) = others m c ∧ NoDup (own m (remove_one r c)) ∧
  ∀ s, mine m s = true → s ∈ remove_one r c ↔ s ∈ c ∧ s ≠ r.
Proof.
  intros Hr Hnd. unfold others, own. rewrite !remove_one_filter.
  rewrite decide_False by congruence. rewrite decide_True by done. split_and!; [done|by apply remove_one_NoDup|].
  intros s Hs. assert (∀ c, s ∈ c ↔ s ∈ filter (λ s, mine m s = true) c) as Hf by (intros; rewrite list_elem_of_filter; tauto).
  rewrite (Hf (remove_one r c)), (Hf c), remove_one_filter, decide_True by done. by apply remove_one_elem.
Qed.

Section laws.
Context {W : Type} `{MeshLaws W, MapOrder} (m : netlinkRouteManager).
Implicit Types (w : W) (v : hostview) (n : IP4Net).
Abbreviation t := (rm_table m).

Lemma try_Ret {A} (c : M W A) w a w' : c w = (Ret a, w') → try c w = (Ret (inl a), w').
Proof. intros E. unfold try. by rewrite E. Qed.
Lemma try_Err {A} (c : M W A) w e w' : c w = (Err e, w') → try c w = (Ret (inr e), w').
Proof. intros E. unfold try. by rewrite E. Qed.
Lemma returning_Ret {A} (c : M W A) ign wr w a w' : c w = (Ret a, w') → returning c ign wr w = (Ret tt, w').
Proof. intros E. unfold returning. by rewrite (M_bind_Ret _ _ _ _ _ (try_Ret _ _ _ _ E)). Qed.
Lemma returning_ign {A} (c : M W A) ign wr w e w' : c w = (Err e, w') → ign e = true →
  returning c ign wr w = (Ret tt, w').
Proof. intros E Ee. unfold returning. rewrite (M_bind_Ret _ _ _ _ _ (try_Err _ _ _ _ E)). by rewrite Ee. Qed.
Lemma returning_Err {A} (c : M W A) ign wr w e w' : c w = (Err e, w') → ign e = false →
  returning c ign wr w = (Err (wr e), w').
Proof. intros E Ee. unfold returning. rewrite (M_bind_Ret _ _ _ _ _ (try_Err _ _ _ _ E)). by rewrite Ee. Qed.
Lemma collecting_Ret {A} (c : M W A) ign wr w a w' : c w = (Ret a, w') → collecting c ign wr w = (Ret [], w').
Proof. intros E. unfold collecting. by rewrite (M_bind_Ret _ _ _ _ _ (try_Ret _ _ _ _ E)). Qed.

(** A walk in which no call fails, with what it does to the view. *)
Lemma collect_run {A K} (R : A → K → Prop) (f : A → M W (list error)) (step : hostview → K → hostview)
    (P : hostview → Prop) l ks w :
  Forall2 R l ks → P (view w) →
  (∀ a k w, k ∈ ks → R a k → P (view w) →
     P (step (view w) k) ∧ ∃ w', f a w = (Ret [], w') ∧ view w' = step (view w) k) →
  ∃ w', collect f l w = (Ret [], w') ∧ view w' = foldl step (view w) ks ∧ P (view w').
Proof.
  intros Hl. revert w. induction Hl as [|a k l ks Hr Hl IH]; intros w HP Hf; [by exists w|].
  destruct (Hf a k w) as (HP' & w1 & E1 & V1); [by left|done..|].
  destruct (IH w1) as (w' & E & V & HP''); [by rewrite V1|intros; apply Hf; [by right|done..]|].
  exists w'. split_and!; [|by rewrite V, V1|done]. cbn [collect].
  rewrite (M_bind_Ret _ _ _ _ _ E1). by rewrite (M_bind_Ret _ _ _ _ _ E).
Qed.

Lemma collect_ext {A} (f g : A → M W (list error)) l w : (∀ a w, f a w = g a w) → collect f l w = collect g l w.
Proof.
  intros E. revert w. induction l as [|a l IH]; intros w; [done|]. cbn [collect].
  apply M_bind_cong; [done|]. intros x w'. by apply M_bind_cong.
Qed.

Lemma collecting_ign {A} (c : M W A) ign wr w e w' : c w = (Err e, w') → ign e = true →
  collecting c ign wr w = (Ret [], w').
Proof. intros E Ee. unfold collecting. rewrite (M_bind_Ret _ _ _ _ _ (try_Err _ _ _ _ E)). by rewrite Ee. Qed.

(** Deleting the listed routes leaves none with their destinations. *)
Definition without_routes (ks : list (option IP4Net * Z)) v : hostview :=
  foldl (λ v k, set_routes (delete (t, k.1)) v) v ks.

Lemma without_routes_eq ks v : without_routes ks v =
  set_routes (filter (λ e : (Z * option IP4Net) * Z, e.1 ∉ (λ k, (t, k.1)) <$> ks)) v.
Proof.
  revert v. induction ks as [|k ks IH]; intros v.
  - unfold set_routes. cbn. rewrite map_filter_id; [by destruct v|]. intros ? ? _. by apply not_elem_of_nil.
  - change (without_routes (k :: ks) v) with (without_routes ks (set_routes (delete (t, k.1)) v)).
    rewrite IH. unfold set_routes. cbn. f_equal. apply map_eq. intros x. apply option_eq. intros i.
    rewrite !map_lookup_filter_Some, lookup_delete_Some. cbn. rewrite not_elem_of_cons. naive_solver.
Qed.

Lemma del_routes_run wr l ks w : Forall2 (λ r k, mroute_is r t k) l ks →
  (∀ k, k ∈ ks → v_routes (view w) !! (t, k.1) = Some k.2) →
  ∃ w', collect (λ r, collecting (MeshRouteDel r) no_route wr) l w = (Ret [], w') ∧ view w' = without_routes ks (view w).
Proof.
  intros Hl Hks. destruct (collect_run _ (λ r, collecting (MeshRouteDel r) no_route wr)
    (λ v k, set_routes (delete (t, k.1)) v)
    (λ v, ∀ k, k ∈ ks → v_routes v !! (t, k.1) = None ∨ v_routes v !! (t, k.1) = Some k.2) l ks w Hl)
    as (w' & E & V & _); [intros; right; by apply Hks| |by exists w'].
  intros r k w1 Hk Hr HP. split.
  - intros k' Hk'. cbn. destruct (decide (k'.1 = k.1)) as [->|]; [left; by rewrite lookup_delete_eq|].
    rewrite lookup_delete_ne by congruence. by apply HP.
  - pose proof (law_MeshRouteDel r t k w1 Hr) as Hdel. destruct (decide _) as [Hin|Hin].
    + destruct Hdel as (w' & E & V). exists w'. split; [by eapply collecting_Ret|done].
    + destruct Hdel as (e & E & Ee). exists w1. split; [by eapply collecting_ign|].
      destruct (HP k Hk) as [Hno|]; [|done]. unfold set_routes. rewrite delete_id by done. by destruct (view w1).
Qed.

(** Deleting the listed rules that are selected leaves the others. *)
Lemma del_rules_run wr (selr : MeshRule → bool) (sel : Z * Z * option IP4Net → Prop) `{∀ k, Decision (sel k)} l ks w :
  Forall2 mrule_is l ks → (∀ k, k ∈ ks ↔ k ∈ v_rules (view w)) →
  (∀ r k, mrule_is r k → selr r = bool_decide (sel k)) →
  ∃ w', collect (λ r, if selr r then collecting (RuleDel r) no_rule wr else mret []) l w = (Ret [], w') ∧
    view w' = set_rules (filter (λ k, ¬ sel k)) (view w).
Proof.
  intros Hl Hks Hsel. destruct (collect_run _ (λ r, if selr r then collecting (RuleDel r) no_rule wr else mret [])
    (λ v k, if decide (sel k) then set_rules (λ R, R ∖ {[k]}) v else v) (λ _, True) l ks w Hl)
    as (w' & E & V & _); [done| |].
  - intros r k w1 Hk Hr _. split; [done|]. rewrite (Hsel r k Hr). destruct (decide (sel k)).
    + rewrite bool_decide_eq_true_2 by done. pose proof (law_RuleDel r k w1 Hr) as Hdel. destruct (decide _) as [Hin|Hin].
      * destruct Hdel as (w' & E & V). exists w'. split; [by eapply collecting_Ret|done].
      * destruct Hdel as (e & E & Ee). exists w1. split; [by eapply collecting_ign|].
        unfold set_rules. rewrite difference_disjoint_L by set_solver. by destruct (view w1).
    + rewrite bool_decide_eq_false_2 by done. by exists w1.
  - exists w'. split; [done|]. rewrite V. clear -Hks.
    assert (∀ v, foldl (λ v k, if decide (sel k) then set_rules (λ R, R ∖ {[k]}) v else v) v ks =
      set_rules (λ R, R ∖ list_to_set (filter sel ks)) v) as Hfold.
    { clear Hks. induction ks as [|k ks IH]; intros v.
      - unfold set_rules. cbn. rewrite difference_empty_L. by destruct v.
      - cbn [foldl]. rewrite IH, filter_cons. destruct (decide (sel k)); [|done]. unfold set_rules. cbn. f_equal. set_solver. }
    rewrite Hfold. unfold set_rules. f_equal. apply set_eq. intros k.
    rewrite elem_of_filter, elem_of_difference, elem_of_list_to_set, list_elem_of_filter, Hks. tauto.
Qed.

Lemma ensureHostSNAT_run d n w : net_is d n → v_chain (view w) ≠ Some [] → v_chain (view w) ≠ None →
  ∃ w', ensureHostSNAT m d w = (Ret tt, w') ∧ view w' = set_chain (fmap (ensure_rule (snat_rule m n))) (view w).
Proof.
  intros Hd Hne Hsome. unfold ensureHostSNAT. rewrite (hostSNATRule_is m d n Hd).
  rewrite (M_bind_Ret _ _ _ _ _ (try_Ret _ _ _ _ (law_ipt_Exists _ w))).
  destruct (v_chain (view w)) as [[|r c]|] eqn:Ec; [done| |done]. cbn [default id from_option].
  case_bool_decide as Hin.
  - exists w. split; [done|]. unfold set_chain. rewrite Ec. cbn [fmap option_fmap option_map]. unfold ensure_rule.
    rewrite decide_True by done. rewrite <- Ec. by destruct (view w).
  - pose proof (law_ipt_Insert (snat_rule m n) w) as Hins. rewrite Ec in Hins. destruct Hins as (w' & E & V).
    exists w'. split; [by eapply returning_Ret|]. rewrite V. unfold set_chain. rewrite Ec.
    cbn [fmap option_fmap option_map]. unfold ensure_rule. by rewrite decide_False.
Qed.

Lemma removeHostSNAT_run d n w : net_is d n →
  ∃ w', removeHostSNAT m d w = (Ret tt, w') ∧ view w' = set_chain (fmap (remove_one (snat_rule m n))) (view w).
Proof.
  intros Hd. unfold removeHostSNAT. rewrite (hostSNATRule_is m d n Hd).
  rewrite (M_bind_Ret _ _ _ _ _ (try_Ret _ _ _ _ (law_ipt_Exists _ w))). case_bool_decide as Hin.
  - destruct (v_chain (view w)) as [c|] eqn:Ec; [|by apply not_elem_of_nil in Hin].
    destruct (law_ipt_Delete _ c w Ec Hin) as (w' & E & V). exists w'. split; [by eapply returning_Ret|].
    rewrite V. unfold set_chain. by rewrite Ec.
  - exists w. split; [done|]. unfold set_chain. destruct (v_chain (view w)) as [c|] eqn:Ec; cbn.
    + rewrite remove_one_none, <- Ec by done. by destruct (view w).
    + rewrite <- Ec. by destruct (view w).
Qed.

Lemma RuleAdd_run p d n w : net_is d n →
  ∃ w', returning (RuleAdd (mkMeshRule p t (Some d))) exists_already (Wrapf "ensure native Mesh policy rule for %s: %w") w = (Ret tt, w') ∧
    view w' = set_rules (union {[(p, t, Some n)]}) (view w).
Proof.
  intros Hd. pose proof (law_RuleAdd (mkMeshRule p t (Some d)) (p, t, Some n) w ltac:(done)) as Hadd.
  destruct (decide _) as [Hin|Hin].
  - destruct Hadd as (e & E & Ee). exists w. split; [by eapply returning_ign|].
    unfold set_rules. rewrite subseteq_union_1_L by set_solver. by destruct (view w).
  - destruct Hadd as (w' & E & V). exists w'. split; [by eapply returning_Ret|done].
Qed.

Lemma Ensure_run n l w : wf_net n → v_links (view w) !! rm_linkName m = Some l →
  v_chain (view w) ≠ Some [] → v_chain (view w) ≠ None →
  ∃ w', Ensure m (IP4Net_String n) w = (Ret tt, w') ∧ view w' = ensured m (Link_Index l) (view w) n.
Proof.
  intros Hn Hl Hc Hc'. unfold Ensure. pose proof (law_LinkByName (rm_linkName m) w) as Hlink. rewrite Hl in Hlink.
  destruct Hlink as [Hlink _]. rewrite (M_bind_Ret _ _ _ _ _ (try_Ret _ _ _ _ Hlink)).
  destruct (parseCIDR_net n Hn) as (d & -> & Hd). run.
  destruct (law_RouteReplace d n _ l t w Hd Hl) as (w1 & E1 & V1).
  rewrite (M_bind_Ret _ _ _ _ _ (returning_Ret _ _ _ _ _ _ E1)).
  destruct (RuleAdd_run remoteRulePriority d n w1 Hd) as (w2 & E2 & V2).
  rewrite (M_bind_Ret _ _ _ _ _ E2).
  destruct (ensureHostSNAT_run d n w2 Hd) as (w3 & E3 & V3); [by rewrite V2, V1..|].
  exists w3. split; [done|]. by rewrite V3, V2, V1.
Qed.
Lemma is_remote_rule_is r k d n : mrule_is r k → net_is d n →
  is_remote_rule m r d = bool_decide (k = (remoteRulePriority, t, Some n)).
Proof.
  intros (Hp & Ht & Hk) Hd. unfold is_remote_rule. rewrite Hp, Ht. destruct k as [[p t'] o]. cbn [fst snd] in *.
  apply Bool.eq_iff_eq_true. rewrite !andb_true_iff, !Z.eqb_eq, bool_decide_eq_true.
  destruct (rule_Dst r) as [d'|], o as [n'|]; try done; [|split; [by intros [_ ?]|by intros [=]]].
  cbn in Hk. rewrite bool_decide_eq_true, (IPNet_String_is d n Hd), (IPNet_String_is d' n' Hk). split.
  - intros [[-> ->] E%IP4Net_String_inj]; [by rewrite E|apply Hk|apply Hd].
  - intros E. simplify_eq. done.
Qed.

Lemma Remove_run n w : wf_net n →
  ∃ w', Remove m (IP4Net_String n) w = (Ret tt, w') ∧ view w' = removed m (view w) n.
Proof.
  intros Hn. unfold Remove. destruct (parseCIDR_net n Hn) as (d & -> & Hd). run.
  destruct (law_MeshRouteList (Some d) (Some n) t w Hd) as (l & ks & E & Hl & _ & Hks).
  rewrite (M_bind_Ret _ _ _ _ _ E). cbn [fst snd].
  destruct (del_routes_run (Wrapf "remove native Mesh route %s from table %d: %w") l ks w Hl) as (w1 & E1 & V1);
    [intros k Hk; by apply Hks|]. rewrite (M_bind_Ret _ _ _ _ _ E1).
  destruct (law_RuleList w1) as (lr & kr & Er & Hlr & _ & Hkr). rewrite (M_bind_Ret _ _ _ _ _ Er). cbn [fst snd].
  destruct (del_rules_run (Wrapf "remove native Mesh policy rule for %s: %w") (λ r, is_remote_rule m r d)
    (λ k, k = (remoteRulePriority, t, Some n)) lr kr w1 Hlr Hkr) as (w2 & E2 & V2);
    [intros r k Hr; by apply is_remote_rule_is|]. rewrite (M_bind_Ret _ _ _ _ _ E2).
  destruct (removeHostSNAT_run d n w2 Hd) as (w3 & E3 & V3).
  rewrite (M_bind_Ret _ _ _ _ _ (collecting_Ret _ _ _ _ _ _ E3)). exists w3. split; [done|].
  rewrite V3, V2, V1, without_routes_eq. unfold removed, set_chain, set_rules, set_routes. cbn. f_equal.
  - apply map_eq. intros x. apply option_eq. intros i. rewrite map_lookup_filter_Some, lookup_delete_Some. cbn.
    split.
    + intros [Hx Hne]. split; [|done]. intros <-. apply Hne. apply list_elem_of_fmap. exists (Some n, i).
      split; [done|]. apply Hks. by split; [|right].
    + intros [Hne Hx]. split; [done|]. intros (k & -> & Hk)%list_elem_of_fmap. apply Hks in Hk as [_ [|Ek]]; [done|].
      by rewrite Ek in Hne.
  - set_solver.
Qed.

(** ** What is on the host *)

(** A rule that carries the comment of the backend is for some network. *)
Definition marked_ok (c : list (list string)) : Prop :=
  ∀ spec, spec ∈ c → hostSNATComment ∈ spec → ∃ n, wf_net n ∧ dest_arg spec = Some (IP4Net_String n).

(** A network some rule with the comment is for. *)
Definition marked_for (c : list (list string)) n : Prop :=
  ∃ spec, spec ∈ c ∧ hostSNATComment ∈ spec ∧ dest_arg spec = Some (IP4Net_String n).

Lemma snat_destination_printed spec line n : printed spec line → hostSNATComment ∈ spec → wf_net n →
  dest_arg spec = Some (IP4Net_String n) → snat_destination line = [IP4Net_String n].
Proof.
  unfold printed, snat_destination. intros Hp Hc Hn Ed. rewrite decide_True in Hp by done.
  destruct Hp as [-> Hd']. rewrite (Hd' n Hn Ed). cbn [negb]. destruct (ParseCIDR_text n Hn) as (a & d & -> & Hd).
  by rewrite (IPNet_String_is d n Hd).
Qed.

Lemma snatDestinations_printed c lines : Forall2 printed c lines → marked_ok c →
  ∃ ns, snatDestinations lines = IP4Net_String <$> ns ∧ Forall wf_net ns ∧ ∀ n, wf_net n → n ∈ ns ↔ marked_for c n.
Proof.
  induction 1 as [|spec line c lines Hp Hl IH]; intros Hok.
  - exists []. split_and!; [done|constructor|]. intros n _. split; [by intros ?%not_elem_of_nil|].
    by intros (spec & ?%not_elem_of_nil & _).
  - destruct IH as (ns & E & Hwf & Hns); [intros s Hs; apply Hok; by right|].
    unfold snatDestinations in *. cbn [mbind list_bind]. rewrite E.
    destruct (decide (hostSNATComment ∈ spec)) as [Hc|Hc].
    + destruct (Hok spec) as (n & Hn & Ed); [by left|done|]. rewrite (snat_destination_printed spec line n) by done.
      exists (n :: ns). split_and!; [done|by constructor|]. intros n' Hn'. rewrite elem_of_cons, Hns by done. split.
      * intros [->|(s & Hs & ?)]; [by exists spec; repeat split; [left|..]|exists s]. split; [by right|done].
      * intros (s & Hs & Hcs & Es). apply elem_of_cons in Hs as [->|Hs]; [|right; by exists s]. left.
        apply IP4Net_String_inj; [apply Hn'|apply Hn|congruence].
    + exists ns. unfold printed in Hp. rewrite decide_False in Hp by done. split_and!; [|done|].
      * unfold snat_destination at 1. by rewrite Hp.
      * intros n' Hn'. rewrite Hns by done. split; intros (s & Hs & Hcs & Es); exists s; (split; [|done]); [by right|].
        by apply elem_of_cons in Hs as [->|Hs].
Qed.

Definition chain_of v : list (list string) := default [] (v_chain v).

Lemma managedSNAT_run w : marked_ok (chain_of (view w)) →
  ∃ ns, managedSNATDestinations w = (Ret (IP4Net_String <$> ns), w) ∧ Forall wf_net ns ∧
    ∀ n, wf_net n → n ∈ ns ↔ marked_for (chain_of (view w)) n.
Proof.
  intros Hok. unfold managedSNATDestinations, chain_of in *. pose proof (law_ipt_List w) as Hlist.
  destruct (v_chain (view w)) as [c|] eqn:Ec; cbn [default id from_option] in *.
  - destruct Hlist as (lines & E & Hp). rewrite (M_bind_Ret _ _ _ _ _ (try_Ret _ _ _ _ E)).
    destruct (snatDestinations_printed c lines Hp Hok) as (ns & En & Hwf & Hns). exists ns. split; [|done].
    by rewrite <- En.
  - destruct Hlist as (e & E & Ee). rewrite (M_bind_Ret _ _ _ _ _ (try_Err _ _ _ _ E)). rewrite Ee.
    exists []. split_and!; [done|constructor|]. intros n _. split; [by intros ?%not_elem_of_nil|].
    by intros (spec & ?%not_elem_of_nil & _).
Qed.

Lemma texts_of_networks (l : list string) : Forall (λ s, ∃ n, wf_net n ∧ s = IP4Net_String n) l →
  ∃ ns, l = IP4Net_String <$> ns ∧ Forall wf_net ns.
Proof.
  induction 1 as [|s l (n & Hn & ->) _ (ns & -> & Hns)]; [by exists []|].
  exists (n :: ns). split; [done|by constructor].
Qed.

(** What [staleDestinations] finds of a network. *)
Definition on_host v n : Prop :=
  is_Some (v_routes v !! (t, Some n)) ∨ (remoteRulePriority, t, Some n) ∈ v_rules v ∨ marked_for (chain_of v) n.

Lemma elem_of_dst_texts dsts s : s ∈ dst_texts dsts ↔ ∃ d, Some d ∈ dsts ∧ s = IPNet_String d.
Proof.
  unfold dst_texts. rewrite list_elem_of_bind. split.
  - intros ([d|] & Hs & Hd); [|by apply not_elem_of_nil in Hs]. apply list_elem_of_singleton in Hs. by exists d.
  - intros (d & Hd & ->). exists (Some d). by split; [apply list_elem_of_singleton|].
Qed.

Lemma listed_routes l ks s : Forall2 (λ r k, mroute_is r t k) l ks →
  s ∈ dst_texts (mr_Dst <$> l) ↔ ∃ n i, wf_net n ∧ (Some n, i) ∈ ks ∧ s = IP4Net_String n.
Proof.
  intros Hl. rewrite elem_of_dst_texts. split.
  - intros (d & (r & Ed & Hr)%list_elem_of_fmap & ->). destruct (Forall2_elem_l _ _ _ _ Hl Hr) as ([k i] & Hk & Hmr).
    destruct Hmr as (_ & _ & Hd). rewrite <- Ed in Hd. destruct k as [n|]; [|done]. cbn in Hd.
    exists n, i. split_and!; [apply Hd..|done|by apply IPNet_String_is].
  - intros (n & i & Hn & Hk & ->). destruct (Forall2_elem_r _ _ _ _ Hl Hk) as (r & Hr & _ & _ & Hd). cbn in Hd.
    destruct (mr_Dst r) as [d|] eqn:Ed; [|done]. exists d. split; [|symmetry; by apply IPNet_String_is].
    apply list_elem_of_fmap. by exists r.
Qed.

Lemma listed_rules l ks s : Forall2 mrule_is l ks →
  s ∈ dst_texts (rule_Dst <$> filter (λ r, rule_Table r = t ∧ rule_Priority r = remoteRulePriority) l) ↔
  ∃ n, wf_net n ∧ (remoteRulePriority, t, Some n) ∈ ks ∧ s = IP4Net_String n.
Proof.
  intros Hl. rewrite elem_of_dst_texts. split.
  - intros (d & (r & Ed & [[Ht Hp] Hr]%list_elem_of_filter)%list_elem_of_fmap & ->).
    destruct (Forall2_elem_l _ _ _ _ Hl Hr) as ([[p t'] k] & Hk & Hp' & Ht' & Hd). cbn in *. rewrite <- Ed in Hd.
    destruct k as [n|]; [|done]. cbn in Hd. exists n. subst. rewrite Ht, Hp in Hk.
    split_and!; [apply Hd..|done|by apply IPNet_String_is].
  - intros (n & Hn & Hk & ->). destruct (Forall2_elem_r _ _ _ _ Hl Hk) as (r & Hr & Hp & Ht & Hd). cbn in *.
    destruct (rule_Dst r) as [d|] eqn:Ed; [|done]. exists d. split; [|symmetry; by apply IPNet_String_is].
    apply list_elem_of_fmap. exists r. by rewrite list_elem_of_filter.
Qed.

Lemma staleDestinations_run (D : gset IP4Net) w : marked_ok (chain_of (view w)) → set_Forall IP4Net_ok D →
  ∃ ns, staleDestinations m (set_map IP4Net_String D) w = (Ret (IP4Net_String <$> ns), w) ∧ Forall wf_net ns ∧
    (∀ n, wf_net n → n ∈ ns ↔ on_host (view w) n ∧ IP4Net_String n ≠ rm_meshCIDR m ∧ n ∉ D).
Proof.
  intros Hok HD. unfold staleDestinations. destruct (law_MeshRouteList None None t w I) as (l & ks & E & Hl & _ & Hks).
  rewrite (M_bind_Ret _ _ _ _ _ E). cbn [fst snd].
  destruct (law_RuleList w) as (lr & kr & Er & Hlr & _ & Hkr). rewrite (M_bind_Ret _ _ _ _ _ Er). cbn [fst snd].
  destruct (managedSNAT_run w Hok) as (nsnat & Es & Hwfs & Hsnat). rewrite (M_bind_Ret _ _ _ _ _ Es).
  set (found := list_to_set _). set (stale := filter _ _).
  assert (∀ s, s ∈ found ↔ ∃ n, wf_net n ∧ s = IP4Net_String n ∧ on_host (view w) n) as Hfound.
  { intros s. unfold found. rewrite elem_of_list_to_set, !elem_of_app, (listed_routes l ks), (listed_rules lr kr) by done.
    rewrite list_elem_of_fmap. unfold on_host. split.
    - intros [(n & i & Hn & Hk & ->)|[(n & Hn & Hk & ->)|(n & -> & Hk)]]; exists n.
      + split_and!; [done..|]. left. exists i. by apply (Hks (Some n, i)).
      + split_and!; [done..|]. right; left. by apply Hkr.
      + assert (wf_net n) as Hn by (by rewrite list.Forall_forall in Hwfs; apply Hwfs). split_and!; [done..|].
        right; right. by apply Hsnat.
    - intros (n & Hn & -> & [[i Hi]|[Hr|Hm]]).
      + left. exists n, i. split_and!; [done| |done]. apply Hks. by split; [|left].
      + right; left. exists n. by rewrite Hkr.
      + right; right. exists n. by rewrite Hsnat. }
  assert (∀ s, s ∈ sort_Strings stale ↔ (s ≠ rm_meshCIDR m ∧ s ∉ (set_map IP4Net_String D : gset string)) ∧ s ∈ found) as Hstale.
  { intros s. unfold sort_Strings. rewrite merge_sort_Permutation. unfold stale. rewrite list_elem_of_filter.
    by rewrite range_keys_perm, elem_of_elements. }
  destruct (texts_of_networks (sort_Strings stale)) as (ns & En & Hwf).
  { apply list.Forall_forall. intros s [_ (n & Hn & -> & _)%Hfound]%Hstale. by exists n. }
  exists ns. split_and!; [by rewrite <- En|done|]. intros n Hn.
  assert (n ∈ ns ↔ IP4Net_String n ∈ sort_Strings stale) as ->.
  { rewrite En. split; [by apply list_elem_of_fmap_2|]. intros (n' & E' & Hn')%list_elem_of_fmap.
    apply IP4Net_String_inj in E' as ->; [done|apply Hn|]. rewrite list.Forall_forall in Hwf. by apply Hwf. }
  rewrite Hstale, Hfound, elem_of_map. split.
  - intros [[Hm HnD] (n' & Hn' & E' & Hon)]. apply IP4Net_String_inj in E' as <-; [|apply Hn|apply Hn'].
    split_and!; [done..|]. intros Hin. apply HnD. by exists n.
  - intros (Hon & Hm & HnD). split; [split; [done|]|by exists n]. intros (n' & E' & Hin).
    apply IP4Net_String_inj in E' as <-; [done|apply Hn|by apply HD].
Qed.

(** *** Many networks *)

Context (Hm : rm_clusterCIDR m ≠ "-d").
Abbreviation rkey := (λ n, (t, Some n)).
Abbreviation pkey := (λ n, (remoteRulePriority, t, Some n)).

Lemma ensured_fold link ds v c : v_chain v = Some c → c ≠ [] → NoDup (own m c) → Forall wf_net ds →
  let v' := foldl (ensured m link) v ds in
  v_links v' = v_links v ∧
  (∀ k, v_routes v' !! k = if decide (k ∈ rkey <$> ds) then Some link else v_routes v !! k) ∧
  (∀ k, k ∈ v_rules v' ↔ k ∈ pkey <$> ds ∨ k ∈ v_rules v) ∧
  ∃ c', v_chain v' = Some c' ∧ c' ≠ [] ∧ others m c' = others m c ∧ NoDup (own m c') ∧
    ∀ s, s ∈ c' ↔ s ∈ c ∨ s ∈ snat_rule m <$> ds.
Proof.
  revert v c. induction ds as [|n ds IH]; intros v c Ec Hne Hnd Hwf; cbv zeta.
  - cbn. split_and!; [done|done|set_solver|]. exists c. split_and!; [done..|]. set_solver.
  - apply list.Forall_cons in Hwf as [Hn Hwf]. cbn [foldl].
    destruct (ensure_rule_steps m (snat_rule m n) c) as (Hne1 & Ho1 & Hnd1 & Hs1); [by apply mine_snat|done..|].
    destruct (IH (ensured m link v n) (ensure_rule (snat_rule m n) c)) as (El & Hr & Hp & c' & Ec' & Hne' & Ho & Hnd' & Hs);
      [cbn; by rewrite Ec|done..|].
    split_and!; [done| | |].
    + intros k. rewrite Hr. cbn [ensured v_routes]. rewrite fmap_cons.
      destruct (decide (k ∈ rkey <$> ds)); [by rewrite decide_True by (by right)|].
      destruct (decide (k = rkey n)) as [->|Hk].
      * rewrite lookup_insert_eq, decide_True; [done|by left].
      * rewrite lookup_insert_ne, decide_False by (try apply not_elem_of_cons; naive_solver). done.
    + intros k. rewrite Hp. cbn [ensured v_rules]. rewrite fmap_cons. set_solver.
    + exists c'. split_and!; [done..|by rewrite Ho|done|]. intros s. rewrite Hs, Hs1, fmap_cons. set_solver.
Qed.

(** Taking the rules of networks out of a chain. *)
Definition unsnat (c : list (list string)) (ns : list IP4Net) : list (list string) :=
  foldl (λ c n, remove_one (snat_rule m n) c) c ns.

Lemma unsnat_steps ns c : NoDup (own m c) → Forall wf_net ns →
  others m (unsnat c ns) = others m c ∧ NoDup (own m (unsnat c ns)) ∧
  ∀ s, mine m s = true → s ∈ unsnat c ns ↔ s ∈ c ∧ s ∉ snat_rule m <$> ns.
Proof.
  revert c. induction ns as [|n ns IH]; intros c Hnd Hwf; [cbn; split_and!; [done..|set_solver]|].
  apply list.Forall_cons in Hwf as [Hn Hwf].
  destruct (remove_one_steps m (snat_rule m n) c) as (Ho1 & Hnd1 & Hs1); [by apply mine_snat|done|].
  destruct (IH (remove_one (snat_rule m n) c)) as (Ho & Hnd' & Hs); [done..|].
  change (unsnat c (n :: ns)) with (unsnat (remove_one (snat_rule m n) c) ns).
  split_and!; [by rewrite Ho|done|]. intros s Ms. rewrite Hs, Hs1, fmap_cons, not_elem_of_cons by done. naive_solver.
Qed.

Lemma removed_fold ns v : NoDup (own m (chain_of v)) → Forall wf_net ns →
  let v' := foldl (removed m) v ns in
  v_links v' = v_links v ∧
  (∀ k, v_routes v' !! k = if decide (k ∈ rkey <$> ns) then None else v_routes v !! k) ∧
  (∀ k, k ∈ v_rules v' ↔ ¬ (k ∈ pkey <$> ns) ∧ k ∈ v_rules v) ∧
  chain_of v' = unsnat (chain_of v) ns.
Proof.
  revert v. induction ns as [|n ns IH]; intros v Hnd Hwf; cbv zeta.
  - cbn. split_and!; try done; set_solver.
  - apply list.Forall_cons in Hwf as [Hn Hwf]. cbn [foldl].
    assert (chain_of (removed m v n) = remove_one (snat_rule m n) (chain_of v)) as Ech
      by (unfold chain_of; cbn; by destruct (v_chain v)).
    destruct (IH (removed m v n)) as (El & Hr & Hp & Hc);
      [rewrite Ech; apply remove_one_steps; [by apply mine_snat|done]|done|].
    split_and!; [done| | |by rewrite Hc, Ech].
    + intros k. rewrite Hr. cbn [removed v_routes]. rewrite fmap_cons.
      destruct (decide (k ∈ rkey <$> ns)); [by rewrite decide_True by (by right)|].
      destruct (decide (k = rkey n)) as [->|Hk].
      * rewrite lookup_delete_eq, decide_True; [done|by left].
      * rewrite lookup_delete_ne, decide_False by (try apply not_elem_of_cons; naive_solver). done.
    + intros k. rewrite Hp. cbn [removed v_rules]. rewrite fmap_cons. set_solver.
Qed.

(** *** Teardown *)

(** The priorities of this backend's rules. *)
Definition backend_rule (k : Z * Z * option IP4Net) : Prop :=
  k.1.2 = t ∧ (k.1.1 = meshRulePriority ∨ k.1.1 = remoteRulePriority).

Lemma mine_for spec c : marked_ok c → spec ∈ c → mine m spec = true →
  ∃ n, wf_net n ∧ spec = snat_rule m n ∧ marked_for c n.
Proof.
  intros Hok Hin Hmine. unfold mine in Hmine. destruct (dest_arg spec) as [a|] eqn:Ea; [|done].
  destruct (parseCIDR a) as [d|e|] eqn:Ed; try done. apply bool_decide_eq_true in Hmine as E.
  assert (hostSNATComment ∈ spec) as Hc by (rewrite E; unfold hostSNATRule; set_solver).
  destruct (Hok spec Hin Hc) as (n & Hn & En). exists n. rewrite Ea in En. simplify_eq.
  destruct (parseCIDR_net n Hn) as (d' & Ed' & Hd). rewrite Ed' in Ed. simplify_eq.
  split_and!; [apply Hn..|by apply hostSNATRule_is|]. exists (hostSNATRule m d). by rewrite Ea.
Qed.

Lemma Cleanup_run w : marked_ok (chain_of (view w)) → NoDup (own m (chain_of (view w))) →
  ∃ w', Cleanup m w = (Ret tt, w') ∧
    v_links (view w') = v_links (view w) ∧
    (∀ k, v_routes (view w') !! k = if decide (k.1 = t) then None else v_routes (view w) !! k) ∧
    (∀ k, k ∈ v_rules (view w') ↔ k ∈ v_rules (view w) ∧ ¬ backend_rule k) ∧
    own m (chain_of (view w')) = [] ∧ others m (chain_of (view w')) = others m (chain_of (view w)).
Proof.
  intros Hok Hnd. unfold Cleanup. destruct (managedSNAT_run w Hok) as (ns & E0 & Hwf & Hns).
  rewrite (M_bind_Ret _ _ _ _ _ (try_Ret _ _ _ _ E0)). cbn iota beta.
  destruct (collect_run (λ s n, s = IP4Net_String n ∧ wf_net n)
    (λ network, match parseCIDR network with Ret dst => collecting (removeHostSNAT m dst) nothing id | Err e => mret [e] | Panic => panic end)
    (λ v n, set_chain (fmap (remove_one (snat_rule m n))) v) (λ _, True) (IP4Net_String <$> ns) ns w) as (w1 & E1 & V1 & _);
    [by clear -Hwf; induction Hwf; constructor|done| |].
  { intros s n w1 _ [-> Hn] _. split; [done|]. destruct (parseCIDR_net n Hn) as (d & -> & Hd).
    destruct (removeHostSNAT_run d n w1 Hd) as (w' & E & V). exists w'. by split; [eapply collecting_Ret|]. }
  rewrite (M_bind_Ret _ _ _ _ _ E1).
  assert (∀ v, foldl (λ v n, set_chain (fmap (remove_one (snat_rule m n))) v) v ns = set_chain (fmap (λ c, unsnat c ns)) v) as Hf.
  { clear. induction ns as [|n ns IH]; intros v; [unfold set_chain; cbn; rewrite option_fmap_id; by destruct v|].
    cbn [foldl]. rewrite IH. unfold set_chain. cbn. f_equal. by destruct (v_chain v). }
  rewrite Hf in V1. destruct (law_MeshRouteList None None t w1 I) as (l & ks & E2 & Hl & _ & Hks).
  rewrite (M_bind_Ret _ _ _ _ _ E2). cbn [fst snd].
  destruct (del_routes_run (Wrapf "remove native Mesh route from table %d: %w") l ks w1 Hl) as (w2 & E3 & V2);
    [intros k Hk; by apply Hks|]. rewrite (M_bind_Ret _ _ _ _ _ E3).
  destruct (law_RuleList w2) as (lr & kr & E4 & Hlr & _ & Hkr). rewrite (M_bind_Ret _ _ _ _ _ E4). cbn [fst snd].
  destruct (del_rules_run (Wrapf "remove native Mesh policy rule: %w")
    (λ r, (rule_Table r =? t) && ((rule_Priority r =? meshRulePriority) || (rule_Priority r =? remoteRulePriority)))
    backend_rule lr kr w2 Hlr Hkr) as (w3 & E5 & V3).
  { intros r k (Hp & Ht & _). unfold backend_rule. rewrite Hp, Ht. apply Bool.eq_iff_eq_true.
    by rewrite andb_true_iff, orb_true_iff, !Z.eqb_eq, bool_decide_eq_true. }
  erewrite M_bind_Ret; [|rewrite <- E5; apply collect_ext; intros r w'; destruct (rule_Table r =? t); [|done];
    by destruct (rule_Priority r =? meshRulePriority), (rule_Priority r =? remoteRulePriority)].
  exists w3. split; [done|]. rewrite V3, V2, without_routes_eq, V1.
  unfold set_rules, set_routes, set_chain, chain_of. cbn [v_links v_routes v_rules v_chain].
  destruct (unsnat_steps ns (chain_of (view w)) Hnd Hwf) as (Ho & _ & Hs).
  assert (default [] ((λ c, unsnat c ns) <$> v_chain (view w)) = unsnat (chain_of (view w)) ns) as ->.
  { unfold chain_of. destruct (v_chain (view w)); [done|]. cbn. clear. by induction ns. }
  split_and!; [done| | | |done].
  - intros k. apply option_eq. intros i. rewrite map_lookup_filter_Some. cbn.
    assert (∀ k i, v_routes (view w1) !! k = Some i ↔ v_routes (view w) !! k = Some i) as Hsame by (intros; by rewrite V1).
    destruct (decide (k.1 = t)) as [Ek|Ek].
    + split; [|done]. intros [Hi Hno]. exfalso. apply Hno. apply list_elem_of_fmap. exists (k.2, i).
      destruct k as [tb d]. cbn in *. subst tb. split; [done|]. apply Hks. cbn. rewrite Hsame. by split; [|left].
    + split; [by intros [? _]|]. intros Hi. split; [done|]. intros (k' & -> & _)%list_elem_of_fmap. done.
  - intros k. rewrite elem_of_filter. tauto.
  - unfold own. destruct (filter _ _) as [|spec rest] eqn:Ef; [done|]. exfalso.
    assert (spec ∈ filter (λ s, mine m s = true) (unsnat (chain_of (view w)) ns)) as [Hmine Hin]%list_elem_of_filter
      by (rewrite Ef; by left).
    apply Hs in Hin as [Hin Hout]; [|done]. destruct (mine_for spec _ Hok Hin Hmine) as (n & Hn & -> & Hmf).
    apply Hout, list_elem_of_fmap_2. by apply Hns.
Qed.
End laws.

(** ** Exactly the wanted networks *)

(** [v] is [v0] with exactly the networks [D] routed through [link]: apart from the
    mesh network itself, the table has no other route to a network, no other policy
    rule of the table has the priority of remote networks, and no other SNAT rule of the
    manager is in the chain; other routes, rules and the other lines of the chain,
    in their order, are as before. *)
Record exactly (m : netlinkRouteManager) (link : Z) (D : gset IP4Net) (v0 v : hostview) : Prop := {
  is_links : v_links v = v_links v0;
  is_routes n : IP4Net_String n ≠ rm_meshCIDR m →
    v_routes v !! (rm_table m, Some n) = if decide (n ∈ D) then Some link else None;
  is_other_routes tb d : tb ≠ rm_table m ∨ d = None ∨ (∃ n, d = Some n ∧ IP4Net_String n = rm_meshCIDR m) →
    v_routes v !! (tb, d) = v_routes v0 !! (tb, d);
  is_rules n : IP4Net_String n ≠ rm_meshCIDR m →
    (remoteRulePriority, rm_table m, Some n) ∈ v_rules v ↔ n ∈ D;
  is_other_rules p tb d : p ≠ remoteRulePriority ∨ tb ≠ rm_table m ∨ d = None ∨
    (∃ n, d = Some n ∧ IP4Net_String n = rm_meshCIDR m) → (p, tb, d) ∈ v_rules v ↔ (p, tb, d) ∈ v_rules v0;
  is_snat n : wf_net n → IP4Net_String n ≠ rm_meshCIDR m → snat_rule m n ∈ chain_of v ↔ n ∈ D;
  is_once : NoDup (own m (chain_of v));
  is_others : others m (chain_of v) = others m (chain_of v0)
}.

(** A host on which the manager can work: its link is there, the chain was created and
    has a rule of another's, as those of the traffic manager, and it has each of the
    manager's rules at most once. *)
Record ready (m : netlinkRouteManager) (l : Link) (v : hostview) : Prop := {
  rd_cidr : rm_clusterCIDR m ≠ "-d";
  rd_link : v_links v !! rm_linkName m = Some l;
  rd_chain : others m (chain_of v) ≠ [];
  rd_marked : marked_ok (chain_of v);
  rd_once : NoDup (own m (chain_of v))
}.

Lemma ready_chain m l v : ready m l v → chain_of v ≠ [].
Proof. intros [_ _ Hc _ _] E. by rewrite E in Hc. Qed.

Definition remote_nets (m : netlinkRouteManager) (D : gset IP4Net) : Prop :=
  set_Forall (λ n, wf_net n ∧ IP4Net_String n ≠ rm_meshCIDR m) D.

Section reconcile.
Context {W : Type} `{MeshLaws W, MapOrder} (m : netlinkRouteManager).
Implicit Types (w : W).

Lemma view_routes_wf w n i : v_routes (view w) !! (rm_table m, Some n) = Some i → wf_net n.
Proof.
  intros Hi. destruct (law_MeshRouteList None None (rm_table m) w I) as (l & ks & _ & Hl & _ & Hks).
  destruct (Forall2_elem_r _ _ _ (Some n, i) Hl) as (r & _ & _ & _ & Hd); [apply Hks; by split; [|left]|].
  cbn in Hd. destruct (mr_Dst r); [|done]. apply Hd.
Qed.

Lemma view_rules_wf w p tb n : (p, tb, Some n) ∈ v_rules (view w) → wf_net n.
Proof.
  intros Hi. destruct (law_RuleList w) as (l & ks & _ & Hl & _ & Hks).
  destruct (Forall2_elem_r _ _ _ (p, tb, Some n) Hl) as (r & _ & _ & _ & Hd); [by apply Hks|].
  cbn in Hd. destruct (rule_Dst r); [|done]. apply Hd.
Qed.

Lemma range_texts (D : gset IP4Net) : set_Forall wf_net D →
  ∃ ds, range_keys (set_map IP4Net_String D) = IP4Net_String <$> ds ∧ Forall wf_net ds ∧ ∀ n, n ∈ ds ↔ n ∈ D.
Proof.
  intros HD. destruct (texts_of_networks (range_keys (set_map IP4Net_String D))) as (ds & E & Hwf).
  { apply list.Forall_forall. intros s. rewrite range_keys_perm, elem_of_elements, elem_of_map.
    intros (n & -> & Hn). exists n. split; [by apply HD|done]. }
  exists ds. split_and!; [done..|]. intros n.
  assert (IP4Net_String n ∈ range_keys (set_map IP4Net_String D) ↔ ∃ n', IP4Net_String n = IP4Net_String n' ∧ n' ∈ D) as Hr
    by (by rewrite range_keys_perm, elem_of_elements, elem_of_map).
  rewrite list.Forall_forall in Hwf. split.
  - intros Hn. destruct (proj1 Hr) as (n' & E' & Hn'); [rewrite E; by apply list_elem_of_fmap_2|].
    apply IP4Net_String_inj in E' as ->; [done|by apply Hwf|by apply HD].
  - intros Hn. assert (IP4Net_String n ∈ IP4Net_String <$> ds) as (n' & E' & Hn')%list_elem_of_fmap by (rewrite <- E; apply Hr; by exists n).
    apply IP4Net_String_inj in E' as ->; [done|by apply HD|by apply Hwf].
Qed.

Lemma Forall2_fmap_eq (ns : list IP4Net) : Forall wf_net ns → Forall2 (λ s n, s = IP4Net_String n ∧ wf_net n) (IP4Net_String <$> ns) ns.
Proof. induction 1; constructor; auto. Qed.

(** Making sure of a list of networks. *)
Lemma ensure_all_run l ds w : ready m l (view w) → Forall wf_net ds →
  ∃ w', collect (λ network, collecting (Ensure m network) nothing id) (IP4Net_String <$> ds) w = (Ret [], w') ∧
    view w' = foldl (ensured m (Link_Index l)) (view w) ds.
Proof.
  intros Hr Hwf. destruct (collect_run _ (λ network, collecting (Ensure m network) nothing id) (ensured m (Link_Index l))
    (λ v, v_links v !! rm_linkName m = Some l ∧ chain_of v ≠ []) _ ds w (Forall2_fmap_eq ds Hwf)) as (w' & E & V & _);
    [by split; [destruct Hr|eapply ready_chain]| |by exists w'].
  intros s n w1 Hn [-> Hnwf] [Hl Hc]. split.
  - split; [done|]. unfold chain_of in *. cbn. destruct (v_chain (view w1)) as [c|]; [|done]. cbn in *.
    unfold ensure_rule. destruct (decide _); [done|]. by destruct c.
  - destruct (Ensure_run m n l w1) as (w' & E & V); [done..| | |exists w'; by split; [eapply collecting_Ret|]];
      unfold chain_of in Hc; intros Ec; by rewrite Ec in Hc.
Qed.

Lemma remove_all_run ns w : Forall wf_net ns →
  ∃ w', collect (λ network, collecting (Remove m network) nothing id) (IP4Net_String <$> ns) w = (Ret [], w') ∧
    view w' = foldl (removed m) (view w) ns.
Proof.
  intros Hwf. destruct (collect_run _ (λ network, collecting (Remove m network) nothing id) (removed m)
    (λ _, True) _ ns w (Forall2_fmap_eq ns Hwf)) as (w' & E & V & _); [done| |by exists w'].
  intros s n w1 Hn [-> Hnwf] _. split; [done|]. destruct (Remove_run m n w1 Hnwf) as (w' & E & V).
  exists w'. by split; [eapply collecting_Ret|].
Qed.

Lemma marked_ok_more c c' ds : rm_clusterCIDR m ≠ "-d" → Forall wf_net ds → marked_ok c →
  (∀ s, s ∈ c' ↔ s ∈ c ∨ s ∈ snat_rule m <$> ds) → marked_ok c'.
Proof.
  intros Hm Hwf Hok Hc' s [Hs|(n & -> & Hn)%list_elem_of_fmap]%Hc' Hmark; [by apply Hok|].
  rewrite list.Forall_forall in Hwf. exists n. split; [by apply Hwf|]. apply dest_arg_snat; [by apply Hwf|done].
Qed.

Lemma rkey_elem (n : IP4Net) (ns : list IP4Net) : (rm_table m, Some n) ∈ (λ n, (rm_table m, Some n)) <$> ns ↔ n ∈ ns.
Proof. rewrite list_elem_of_fmap. naive_solver. Qed.
Lemma pkey_elem (n : IP4Net) (ns : list IP4Net) : (remoteRulePriority, rm_table m, Some n) ∈ (λ n, (remoteRulePriority, rm_table m, Some n)) <$> ns ↔ n ∈ ns.
Proof. rewrite list_elem_of_fmap. naive_solver. Qed.
Lemma snat_elem (n : IP4Net) (ns : list IP4Net) : wf_net n → Forall wf_net ns → snat_rule m n ∈ snat_rule m <$> ns ↔ n ∈ ns.
Proof.
  intros Hn Hns. rewrite list_elem_of_fmap. rewrite list.Forall_forall in Hns. split.
  - intros (n' & E & Hn'). apply snat_rule_inj in E as ->; auto.
  - by exists n.
Qed.

(** Making sure of the networks [D] and then removing what else is found. *)
Lemma settled l D ds ns (w w1 : W) v2 :
  ready m l (view w) → remote_nets m D → Forall wf_net ds → (∀ n, n ∈ ds ↔ n ∈ D) →
  view w1 = foldl (ensured m (Link_Index l)) (view w) ds →
  Forall wf_net ns →
  (∀ n, wf_net n → n ∈ ns ↔ on_host m (view w1) n ∧ IP4Net_String n ≠ rm_meshCIDR m ∧ n ∉ D) →
  v2 = foldl (removed m) (view w1) ns →
  exactly m (Link_Index l) D (view w) v2 ∧ ready m l v2.
Proof.
  intros Hrd HD Hwf Hds V1 Hns Hin V2. pose proof (ready_chain _ _ _ Hrd) as Hne. pose proof Hrd as [Hm Hl Hc Hmark Hnd].
  destruct (v_chain (view w)) as [c|] eqn:Ec; [|by unfold chain_of in Hne; rewrite Ec in Hne].
  assert (chain_of (view w) = c) as Ech by (unfold chain_of; by rewrite Ec). rewrite Ech in *.
  destruct (ensured_fold m Hm (Link_Index l) ds (view w) c Ec Hne Hnd Hwf) as (L1 & R1 & P1 & c1 & C1 & N1 & O1 & D1 & S1).
  rewrite <- V1 in *. assert (chain_of (view w1) = c1) as Ech1 by (unfold chain_of; by rewrite C1).
  destruct (removed_fold m Hm ns (view w1)) as (L2 & R2 & P2 & U2); [by rewrite Ech1|done|].
  rewrite <- V2 in *. rewrite Ech1 in *.
  destruct (unsnat_steps m Hm ns c1 D1 Hns) as (O2 & D2 & S2). rewrite <- U2 in *.
  assert (∀ n, n ∈ D → n ∉ ns) as Hdisj by (intros n Hn Hn'; apply Hin in Hn'; [tauto|by apply HD]).
  assert (∀ n, n ∈ ns → IP4Net_String n ≠ rm_meshCIDR m) as Hnomesh
    by (intros n Hn; apply Hin; [|done]; rewrite list.Forall_forall in Hns; by apply Hns).
  split; [split|split]; rewrite ?Ech.
  - congruence.
  - intros n Hmesh. rewrite R2. rewrite (decide_ext _ _ _ _ (rkey_elem n ns)), R1, (decide_ext _ _ _ _ (rkey_elem n ds)).
    rewrite (decide_ext _ _ _ _ (Hds n)). destruct (decide (n ∈ D)) as [HnD|HnD].
    + by rewrite decide_False by (by apply Hdisj).
    + destruct (decide (n ∈ ns)) as [|Hnns]; [done|]. destruct (v_routes (view w) !! _) as [i|] eqn:E; [|done].
      exfalso. apply Hnns, Hin; [by eapply view_routes_wf|]. split_and!; [|done..]. left.
      rewrite R1, decide_False by (by rewrite rkey_elem, Hds). by exists i.
  - intros tb d Hk. rewrite R2, decide_False, R1, decide_False; [done|..];
      intros (n & E & Hn)%list_elem_of_fmap; simplify_eq; destruct Hk as [|[|(n' & E & Hn')]]; simplify_eq.
    + apply (HD n'); [by apply Hds|done].
    + by apply (Hnomesh n').
  - intros n Hmesh. rewrite P2, P1, !pkey_elem, Hds. split; [|intros HnD; split; [by apply Hdisj|by left]].
    intros [Hnns [|Hp]]; [done|]. destruct (decide (n ∈ D)) as [|HnD]; [done|]. exfalso.
    apply Hnns, Hin; [by eapply view_rules_wf|]. split_and!; [|done..]. right; left. apply P1. by right.
  - intros p tb d Hk. rewrite P2, P1. split; [intros [_ [(n & E & Hn)%list_elem_of_fmap|]]; [|done]|intros Hr; split; [|by right]].
    + simplify_eq. destruct Hk as [|[|[|(n' & E & Hn')]]]; simplify_eq. exfalso. apply (HD n'); [by apply Hds|done].
    + intros (n & E & Hn)%list_elem_of_fmap. simplify_eq. destruct Hk as [|[|[|(n' & E & Hn')]]]; simplify_eq.
      by apply (Hnomesh n').
  - intros n Hn Hmesh. rewrite S2, S1, !snat_elem, Hds by (done || by apply mine_snat). split; [|intros HnD; split; [by right|by apply Hdisj]].
    intros [[Hin1|] Hnns]; [|done]. destruct (decide (n ∈ D)) as [|HnD]; [done|]. exfalso. apply Hnns, Hin; [done|].
    split_and!; [|done..]. right; right. exists (snat_rule m n). rewrite Ech1. split_and!; [|apply snat_rule_comment|by apply dest_arg_snat].
    apply S1. by left.
  - done.
  - congruence.
  - done.
  - congruence.
  - by rewrite O2, O1.
  - assert (marked_ok c1) as Hmark1 by (by apply (marked_ok_more c c1 ds)). intros s Hs. apply Hmark1.
    destruct (mine m s) eqn:Ms; [by destruct (proj1 (S2 s Ms) Hs)|].
    assert (s ∈ others m (chain_of v2)) as Hs' by (by apply list_elem_of_filter). rewrite O2 in Hs'.
    by apply list_elem_of_filter in Hs' as [_ ?].
  - done.
Qed.

Lemma Reconcile_run l D w : ready m l (view w) → remote_nets m D →
  ∃ w', Reconcile m (set_map IP4Net_String D) w = (Ret tt, w') ∧ exactly m (Link_Index l) D (view w) (view w') ∧
    ready m l (view w').
Proof.
  intros Hrd HD. pose proof (ready_chain _ _ _ Hrd) as Hne. pose proof Hrd as [Hm Hl Hc Hmark Hnd].
  assert (set_Forall wf_net D) as HDwf by (intros n Hn; by apply HD).
  destruct (range_texts D HDwf) as (ds & Eds & Hwf & Hds).
  destruct (ensure_all_run l ds w Hrd Hwf) as (w1 & E1 & V1).
  assert (marked_ok (chain_of (view w1))) as Hmark1.
  { destruct (v_chain (view w)) as [c|] eqn:Ec; [|by unfold chain_of in Hne; rewrite Ec in Hne].
    assert (chain_of (view w) = c) as Ech by (unfold chain_of; by rewrite Ec). rewrite Ech in *.
    destruct (ensured_fold m Hm (Link_Index l) ds (view w) c Ec Hne Hnd Hwf) as (_ & _ & _ & c1 & C1 & _ & _ & _ & S1).
    rewrite <- V1 in C1. unfold chain_of. rewrite C1. by apply (marked_ok_more c c1 ds). }
  destruct (staleDestinations_run m D w1 Hmark1) as (ns & E2 & Hns & Hin); [intros n Hn; by apply HDwf|].
  destruct (remove_all_run ns w1 Hns) as (w2 & E3 & V2).
  exists w2. split; [|by apply (settled l D ds ns w w1)].
  unfold Reconcile. rewrite Eds, (M_bind_Ret _ _ _ _ _ E1), (M_bind_Ret _ _ _ _ _ (try_Ret _ _ _ _ E2)).
  by rewrite (M_bind_Ret _ _ _ _ _ E3).
Qed.
End reconcile.

(** ** A host in memory *)

Definition key_of (d : option IPNet) : option (option IP4Net) :=
  match d with None => Some None | Some _ => Some <$> mem_dst d end.
Definition dst_of (k : option IP4Net) : option IPNet := IP4Net_ToIPNet <$> k.
Definition wf_dst (k : option IP4Net) : Prop := match k with Some n => wf_net n | None => True end.
#[global] Instance wf_net_dec n : Decision (wf_net n).
Proof. apply _. Defined.
#[global] Instance wf_dst_dec k : Decision (wf_dst k).
Proof. destruct k; apply _. Defined.

(** The part of the store that is a host. *)
Definition mem_view (w : hostview) : hostview :=
  mkView (filter (λ e, Link_Name e.2 = e.1) (v_links w)) (filter (λ e, wf_dst e.1.2) (v_routes w))
    (filter (λ k, wf_dst k.2) (v_rules w)) (v_chain w).

Definition mem_line (spec : list string) : string :=
  if decide (hostSNATComment ∈ spec)
  then match dest_arg spec with Some a => "-d " +:+ a +:+ " " | None => "" end +:+ hostSNATComment
  else "-A FLANNEL-POSTRTG".

Definition in_table (t : Z) (f : option (option IP4Net)) (e : (Z * option IP4Net) * Z) : Prop :=
  e.1.1 = t ∧ wf_dst e.1.2 ∧ match f with Some (Some n) => e.1.2 = Some n | _ => True end.
#[global] Instance in_table_dec t f e : Decision (in_table t f e).
Proof. unfold in_table. destruct f as [[|]|]; apply _. Defined.

#[global] Instance mem_netlinkOps : netlinkOps hostview := {
  LinkByName name w := match v_links (mem_view w) !! name with
                       | Some l => (Ret l, w) | None => (Err (Errorf "Link not found"), w) end;
  RouteReplace r w := match key_of (mr_Dst r) with
                      | Some k => (Ret tt, set_routes (<[(mr_Table r, k) := mr_LinkIndex r]>) w)
                      | None => (Err (Errorf "invalid argument"), w) end;
  MeshRouteList d t w :=
    (Ret ((λ e, mkMeshRoute (dst_of e.1.2) e.2 e.1.1) <$> filter (in_table t (d ← d; key_of (Some d))) (map_to_list (v_routes w)), None), w);
  MeshRouteDel r w :=
    match key_of (mr_Dst r) with
    | Some k => if decide (v_routes (mem_view w) !! (mr_Table r, k) = Some (mr_LinkIndex r))
                then (Ret tt, set_routes (delete (mr_Table r, k)) w) else (Err (Sentinel "ESRCH"), w)
    | None => (Err (Errorf "invalid argument"), w)
    end;
  RuleAdd r w :=
    match key_of (rule_Dst r) with
    | Some k => if decide ((rule_Priority r, rule_Table r, k) ∈ v_rules w) then (Err (Sentinel "EEXIST"), w)
                else (Ret tt, set_rules (union {[(rule_Priority r, rule_Table r, k)]}) w)
    | None => (Err (Errorf "invalid argument"), w)
    end;
  RuleList w := (Ret ((λ k, mkMeshRule k.1.1 k.1.2 (dst_of k.2)) <$> elements (v_rules (mem_view w)), None), w);
  RuleDel r w :=
    match key_of (rule_Dst r) with
    | Some k => if decide ((rule_Priority r, rule_Table r, k) ∈ v_rules w)
                then (Ret tt, set_rules (λ R, R ∖ {[(rule_Priority r, rule_Table r, k)]}) w) else (Err (Sentinel "ENOENT"), w)
    | None => (Err (Errorf "invalid argument"), w)
    end
}.

#[global] Instance mem_iptablesClient : iptablesClient hostview := {
  ipt_NewWithProtocol := mret tt;
  ipt_Exists _ _ spec w := (Ret (bool_decide (spec ∈ chain_of w)), w);
  ipt_Insert _ _ pos spec w :=
    match v_chain w with
    | Some c => if decide (Z.to_nat (pos - 1) ≤ length c)%nat
                then (Ret tt, set_chain (λ _, Some (take (Z.to_nat (pos - 1)) c ++ spec :: drop (Z.to_nat (pos - 1)) c)) w)
                else (Err (Errorf "index of insertion too big"), w)
    | None => (Err (Errorf "no chain"), w)
    end;
  ipt_Delete _ _ spec w :=
    if decide (spec ∈ chain_of w) then (Ret tt, set_chain (fmap (remove_one spec)) w) else (Err (Errorf "bad rule"), w);
  ipt_List _ _ w := match v_chain w with
                    | Some c => (Ret ("-N FLANNEL-POSTRTG" :: (mem_line <$> c)), w)
                    | None => (Err (Sentinel "no chain"), w) end;
  ipt_IsNotExist e := errors_Is e "no chain"
}.

Lemma key_of_is d k : dst_is d k → key_of d = Some k ∧ wf_dst k.
Proof.
  destruct d as [d|], k as [n|]; try done. intros (Hn & Eip & Em). split; [|done]. unfold key_of, mem_dst. cbn.
  rewrite (FromIP_octets _ (IP4Net_IP n)) by (done || apply Hn). rewrite Em, CIDRMask_Size by (auto || apply Hn).
  cbn. by destruct n.
Qed.
Lemma dst_of_is k : wf_dst k → dst_is (dst_of k) k.
Proof. destruct k as [n|]; [|done]. apply ToIPNet_is. Qed.

Lemma fields_word s rest cur : str_all (λ c, negb (is_space c)) s = true →
  fields_go (s +:+ rest) cur = fields_go rest (cur +:+ s).
Proof.
  revert cur. induction s as [|c s IH]; intros cur Hs; [by rewrite str_app_nil_r|].
  cbn [str_all] in Hs. apply andb_true_iff in Hs as [Hc%negb_true_iff Hs]. rewrite str_app_cons. cbn [fields_go].
  by rewrite Hc, IH, str_app_assoc.
Qed.

Lemma IP4Net_String_word n : IP4Net_ok n → str_all (λ c, negb (is_space c)) (IP4Net_String n) = true.
Proof.
  intros [Hip Hp]. unfold IP4Net_String. rewrite !str_all_app. cbn [str_all].
  assert (∀ c, digit_dot c = true → negb (is_space c) = true) as Hc.
  { intros c. unfold digit_dot, is_digit, is_space. destruct (Ascii.eqb_spec c "."); [by subst|].
    rewrite orb_false_r, andb_true_iff, !Z.leb_le. intros. apply negb_true_iff, orb_false_iff.
    split; [apply Z.eqb_neq|apply andb_false_iff; right; apply Z.leb_gt]; lia. }
  rewrite andb_true_iff. split.
  - eapply str_all_impl; [exact Hc|]. unfold IP4_String, IP_String. rewrite To4_ToIP.
    pose proof (length_ToIP (IP4Net_IP n)). rewrite decide_False by (intros E; by rewrite E in *).
    rewrite decide_True by apply length_octet_list. apply ip4_string_chars. by apply octet_list_bytes.
  - eapply str_all_impl; [exact Hc|]. eapply str_all_impl; [|apply fmt_dec_digits; lia].
    intros c Hd. unfold digit_dot. by rewrite Hd.
Qed.

Lemma prefix_refl s : String.prefix s s = true.
Proof. induction s as [|c s IH]; [done|]. cbn. by destruct (ascii_dec c c). Qed.
Lemma Contains_suffix s t : Contains (s +:+ t) t = true.
Proof.
  induction s as [|c s IH]; [|rewrite str_app_cons; cbn; by rewrite IH, orb_true_r].
  change ("" +:+ t) with t. destruct t as [|c t]; [done|]. unfold Contains. by rewrite prefix_refl.
Qed.

Lemma mem_line_printed spec : printed spec (mem_line spec).
Proof.
  unfold printed, mem_line. destruct (decide _); [|done]. split; [apply Contains_suffix|].
  intros n [Hn _] ->. unfold Fields. rewrite !str_app_assoc. cbn [String.app fields_go is_space].
  change ("-d " +:+ IP4Net_String n +:+ " " +:+ hostSNATComment)
    with (String "-" (String "d" (String " " (IP4Net_String n +:+ " " +:+ hostSNATComment)))).
  cbn [fields_go]. change (is_space "-") with false. change (is_space "d") with false. change (is_space " ") with true.
  cbn iota. rewrite fields_word by (by apply IP4Net_String_word).
  change (" " +:+ hostSNATComment) with (String " " hostSNATComment). cbn [fields_go]. change (is_space " ") with true.
  cbn iota. change ("" +:+ IP4Net_String n) with (IP4Net_String n). rewrite (decide_False (P := IP4Net_String n = "")).
  - done.
  - unfold IP4Net_String. intros E. apply (f_equal String.length) in E. rewrite !str_length_app in E. cbn in E. lia.
Qed.

Lemma Forall2_fmap_self {A B} (P : B → A → Prop) (f : A → B) l : (∀ x, x ∈ l → P (f x) x) → Forall2 P (f <$> l) l.
Proof. induction l as [|x l IH]; intros Hl; constructor; [apply Hl; by left|]. apply IH. intros y Hy. apply Hl. by right. Qed.

#[global, refine] Instance mem_MeshLaws : MeshLaws hostview := { view := mem_view }.
Proof.
  - intros name w. cbn [LinkByName mem_netlinkOps]. destruct (v_links (mem_view w) !! name) as [l|] eqn:E; [|by eexists].
    split; [done|]. cbn in E. by apply map_lookup_filter_Some in E as [_ ?].
  - intros d n name l t w Hd Hl. destruct (key_of_is (Some d) (Some n) Hd) as [Hk Hwf]. cbn [RouteReplace mem_netlinkOps mr_Dst].
    rewrite Hk. eexists. split; [done|]. unfold mem_view, set_routes. cbn. f_equal. by rewrite map_filter_insert_True.
  - intros d f t w Hd. cbn [MeshRouteList mem_netlinkOps].
    set (es := filter _ (map_to_list (v_routes w))). exists ((λ e, mkMeshRoute (dst_of e.1.2) e.2 e.1.1) <$> es), ((λ e, (e.1.2, e.2)) <$> es).
    split; [done|]. assert (∀ e, e ∈ es ↔ in_table t (Some f) e ∧ v_routes w !! e.1 = Some e.2) as Hes.
    { intros [k i]. unfold es. rewrite list_elem_of_filter, elem_of_map_to_list. cbn [fst snd].
      destruct d as [d|], f as [n|]; cbn [mbind option_bind]; try done.
      by destruct (key_of_is (Some d) (Some n) Hd) as [-> _]. }
    split_and!.
    + rewrite Forall2_fmap_l, Forall2_fmap_r. apply Forall_Forall2_diag, list.Forall_forall. intros [[tb k] i] He.
      apply Hes in He as [(Ht & Hwf & _) _]. split_and!; [done..|by apply dst_of_is].
    + apply (NoDup_fmap_2_strong (λ e : Z * option IP4Net * Z, (e.1.2, e.2))).
      * intros [[t1 k1] i1] [[t2 k2] i2] H1%Hes H2%Hes E. destruct H1 as [[E1 _] _], H2 as [[E2 _] _]. cbn in *. congruence.
      * apply NoDup_filter, NoDup_map_to_list.
    + intros [k i]. rewrite list_elem_of_fmap. cbn [mem_view v_routes]. rewrite map_lookup_filter_Some. cbn. split.
      * intros ([[tb k'] i'] & E & ((Ht & Hwf & Hf) & Hi)%Hes). cbn in *. simplify_eq. split; [done|].
        destruct f; [by right|by left].
      * intros [[Hi Hwf] Hf]. exists ((t, k), i). split; [done|]. apply Hes. split; [|done]. split_and!; [done..|].
        destruct f; [|done]. by destruct Hf.
  - intros [d i tb] t [k i'] w (Ht & Hi & Hd). cbn in *. subst. destruct (key_of_is d k Hd) as [-> Hwf]. cbn.
    destruct (decide _) as [E|E]; [|by eexists]. eexists. split; [done|]. unfold mem_view, set_routes. cbn. f_equal.
    by rewrite map_filter_delete.
  - intros [p tb d] [[p' t'] k] w (Hp & Ht & Hd). cbn in *. subst. destruct (key_of_is d k Hd) as [-> Hwf]. cbn.
    assert ((p', t', k) ∈ v_rules w ↔ (p', t', k) ∈ filter (λ k : Z * Z * option IP4Net, wf_dst k.2) (v_rules w)) as Hin
      by (rewrite elem_of_filter; tauto).
    destruct (decide ((p', t', k) ∈ v_rules w)) as [E|E], (decide (_ ∈ filter _ _)) as [E'|E']; try tauto.
    + by eexists.
    + eexists. split; [done|]. unfold mem_view, set_rules. cbn. f_equal. apply set_eq. intros x.
      rewrite elem_of_union, !elem_of_filter, elem_of_union, elem_of_singleton. naive_solver.
  - intros w. cbn [RuleList mem_netlinkOps]. eexists _, _. split; [done|]. split_and!.
    + apply Forall2_fmap_self. intros [[p tb] k]. rewrite elem_of_elements. cbn [mem_view v_rules]. rewrite elem_of_filter.
      intros [Hwf _]. split_and!; [done..|by apply dst_of_is].
    + apply NoDup_elements.
    + intros k. apply elem_of_elements.
  - intros [p tb d] [[p' t'] k] w (Hp & Ht & Hd). cbn in *. subst. destruct (key_of_is d k Hd) as [-> Hwf]. cbn.
    assert ((p', t', k) ∈ v_rules w ↔ (p', t', k) ∈ filter (λ k : Z * Z * option IP4Net, wf_dst k.2) (v_rules w)) as Hin
      by (rewrite elem_of_filter; tauto).
    destruct (decide ((p', t', k) ∈ v_rules w)) as [E|E], (decide (_ ∈ filter _ _)) as [E'|E']; try tauto.
    + eexists. split; [done|]. unfold mem_view, set_rules. cbn. f_equal. apply set_eq. intros x.
      rewrite elem_of_difference, !elem_of_filter, elem_of_difference. tauto.
    + by eexists.
  - done.
  - done.
  - intros spec w. cbn. destruct (v_chain w) as [[|r c]|]; cbn; [by eexists|by eexists|by eexists].
  - intros spec c w Ec Hin. cbn in *. unfold chain_of. rewrite Ec. cbn. rewrite decide_True by done. eexists.
    split; [done|]. unfold mem_view, set_chain. cbn. by rewrite Ec.
  - intros w. cbn. destruct (v_chain w) as [c|]; [|by eexists]. eexists. split; [done|].
    induction c; constructor; auto using mem_line_printed.
Defined.

(** ** The theorems *)

(** C12: on a host that is ready (the mesh link is there, the cluster network is not the text "-d",
    the chain exists and has a rule that is not
    the manager's, each of the manager's rules is in it at most once, every rule with the
    comment of the backend is for some network), and for desired networks that are aligned
    and are not the mesh's own: whatever routes and policy rules there are, and whatever
    SNAT rules of other networks the manager left in the chain (of leases that went away
    while the daemon was down, halves of what a crash interrupted), a reconciliation ends
    without error with exactly the desired networks routed through the mesh interface,
    selected by a policy rule and translated by one SNAT rule each, with no route, policy
    rule or SNAT rule of the manager left of any other network; the route of the mesh
    itself, other tables, other policy rules and the other rules of the chain in their
    order are untouched.  (A rule that was left with another source address counts as
    another's: see [orphan_snat_survives].) *)
Theorem Reconcile_exact W `{MeshLaws W, MapOrder} m l D (w : W) :
  ready m l (view w) → remote_nets m D →
  ∃ w', Reconcile m (set_map IP4Net_String D) w = (Ret tt, w') ∧
    exactly m (Link_Index l) D (view w) (view w').
Proof. intros Hrd HD. destruct (Reconcile_run m l D w Hrd HD) as (w' & E & Hs & _). by exists w'. Qed.

(** The teardown needs no interface: it removes every route of the policy table, every
    policy rule of the backend's priorities for that table and every SNAT rule of the
    manager, and leaves all else as it was. *)
Theorem Cleanup_leaves_nothing W `{MeshLaws W, MapOrder} m (w : W) :
  rm_clusterCIDR m ≠ "-d" → marked_ok (chain_of (view w)) → NoDup (own m (chain_of (view w))) →
  ∃ w', Cleanup m w = (Ret tt, w') ∧
    v_links (view w') = v_links (view w) ∧
    (∀ k, v_routes (view w') !! k = if decide (k.1 = rm_table m) then None else v_routes (view w) !! k) ∧
    (∀ k, k ∈ v_rules (view w') ↔ k ∈ v_rules (view w) ∧ ¬ backend_rule m k) ∧
    own m (chain_of (view w')) = [] ∧ others m (chain_of (view w')) = others m (chain_of (view w)).
Proof. intros Hm. by apply Cleanup_run. Qed.

(** A SNAT rule that the backend left with another source address, as after the node
    got another pod network, is found by its comment at every reconciliation and every
    teardown, and is removed by none: both succeed and it is still in the chain. *)
Theorem orphan_snat_survives W `{MeshLaws W, MapOrder} m l D spec (w : W) :
  ready m l (view w) → remote_nets m D →
  spec ∈ chain_of (view w) → hostSNATComment ∈ spec → mine m spec = false →
  (∃ w', Reconcile m (set_map IP4Net_String D) w = (Ret tt, w') ∧ spec ∈ chain_of (view w')) ∧
  (∃ w', Cleanup m w = (Ret tt, w') ∧ spec ∈ chain_of (view w')).
Proof.
  intros Hrd HD Hin _ Hm. assert (spec ∈ others m (chain_of (view w))) as Ho by (by apply list_elem_of_filter). split.
  - destruct (Reconcile_run m l D w Hrd HD) as (w' & E & Hs & _). exists w'. split; [done|].
    rewrite <- (is_others _ _ _ _ _ Hs) in Ho. by apply list_elem_of_filter in Ho as [_ ?].
  - destruct (Cleanup_run m (rd_cidr _ _ _ Hrd) w) as (w' & E & _ & _ & _ & _ & Eo); [apply Hrd..|].
    exists w'. split; [done|]. rewrite <- Eo in Ho. by apply list_elem_of_filter in Ho as [_ ?].
Qed.

(** A host with what a lost lease left behind. *)
Definition sample_manager (snat : string) : netlinkRouteManager :=
  mkRouteManager "flannel.mesh" (IP4_ToIP 1684013057) 1280 51820 "100.96.0.0/12" "10.244.0.0/16" "10.244.1.0/24" snat.
Definition sample_net (i : Z) : IP4Net := mkIP4Net (183762944 + 256 * i) 24.
Definition sample_link : Link := mkLink "flannel.mesh" 7 1280.
Definition sample_host (specs : list (list string)) : hostview :=
  mkView {[ "flannel.mesh" := sample_link ]} {[ (51820, Some (sample_net 9)) := 7 ]}
    {[ (110, 51820, Some (sample_net 8)) ]} (Some (["-j"; "RETURN"] :: specs)).

Lemma sample_net_wf i : 0 <= i < 256 → wf_net (sample_net i).
Proof.
  intros Hi. unfold wf_net, IP4Net_ok, IP4_ok, IP4Net_aligned, IP4Net_size, sample_net. cbn [IP4Net_IP IP4Net_PrefixLen].
  split; [lia|]. change (2 ^ (32 - 24)) with 256. rewrite Z.add_mod, (Z.mul_comm 256 i), Z.mod_mul by lia. by vm_compute.
Qed.

Lemma sample_host_ready snat snat' : Forall (λ s, s ≠ "-d") [snat; snat'] →
  ready (sample_manager snat) sample_link (view (sample_host [snat_rule (sample_manager snat') (sample_net 6)])).
Proof.
  intros Hs. set (m' := sample_manager snat').
  assert (mine (sample_manager snat) ["-j"; "RETURN"] = false) as Hmine by done.
  assert (chain_of (view (sample_host [snat_rule m' (sample_net 6)])) = [["-j"; "RETURN"]; snat_rule m' (sample_net 6)])
    as Ech by done.
  split; [done|done| | |]; rewrite Ech.
  - unfold others. by rewrite filter_cons_True.
  - intros spec Hin. apply elem_of_cons in Hin as [->|Hin]; [intros Hc; exfalso; revert Hc; rewrite !elem_of_cons, elem_of_nil; by intros [|[|]]|].
    apply list_elem_of_singleton in Hin as ->. intros _. exists (sample_net 6). split; [by apply sample_net_wf|].
    apply dest_arg_snat; [by apply sample_net_wf|done].
  - unfold own. rewrite filter_cons_False by (by rewrite Hmine). rewrite filter_cons.
    destruct (decide _); [apply NoDup_singleton|constructor].
Qed.

Lemma sample_remote snat : remote_nets (sample_manager snat) {[ sample_net 2; sample_net 3 ]}.
Proof. intros n [->%elem_of_singleton| ->%elem_of_singleton]%elem_of_union; (split; [by apply sample_net_wf|by vm_compute]). Qed.

Lemma Reconcile_exact_witness : ∃ w',
  Reconcile (sample_manager "10.244.1.1") (set_map IP4Net_String ({[ sample_net 2; sample_net 3 ]} : gset IP4Net))
    (sample_host [snat_rule (sample_manager "10.244.1.1") (sample_net 6)]) = (Ret tt, w') ∧
  v_routes (view w') !! (51820, Some (sample_net 2)) = Some 7 ∧ v_routes (view w') !! (51820, Some (sample_net 9)) = None.
Proof.
  destruct (Reconcile_exact hostview (sample_manager "10.244.1.1") sample_link {[ sample_net 2; sample_net 3 ]}
    (sample_host [snat_rule (sample_manager "10.244.1.1") (sample_net 6)])) as (w' & E & Hs).
  - apply sample_host_ready. repeat constructor; done.
  - apply sample_remote.
  - exists w'. split; [exact E|]. split.
    + etransitivity; [apply (is_routes _ _ _ _ _ Hs (sample_net 2)); by vm_compute|by vm_compute].
    + etransitivity; [apply (is_routes _ _ _ _ _ Hs (sample_net 9)); by vm_compute|by vm_compute].
Defined.

Lemma Cleanup_leaves_nothing_witness : ∃ w',
  Cleanup (sample_manager "10.244.1.1") (sample_host [snat_rule (sample_manager "10.244.1.1") (sample_net 6)]) = (Ret tt, w') ∧
  v_routes (view w') !! (51820, Some (sample_net 9)) = None ∧ own (sample_manager "10.244.1.1") (chain_of (view w')) = [].
Proof.
  destruct (sample_host_ready "10.244.1.1" "10.244.1.1") as [Hm _ _ Hok Hnd]; [repeat constructor; done|].
  destruct (Cleanup_leaves_nothing hostview (sample_manager "10.244.1.1")
    (sample_host [snat_rule (sample_manager "10.244.1.1") (sample_net 6)]) Hm Hok Hnd) as (w' & E & _ & Hr & _ & Ho & _).
  exists w'. split; [exact E|]. split; [by rewrite Hr|exact Ho].
Defined.

Lemma orphan_snat_survives_witness : ∃ w',
  Cleanup (sample_manager "10.244.1.1") (sample_host [snat_rule (sample_manager "10.244.77.1") (sample_net 6)]) = (Ret tt, w') ∧
  snat_rule (sample_manager "10.244.77.1") (sample_net 6) ∈ chain_of (view w').
Proof.
  apply (orphan_snat_survives hostview (sample_manager "10.244.1.1") sample_link {[ sample_net 2; sample_net 3 ]}).
  - apply sample_host_ready. repeat constructor; done.
  - apply sample_remote.
  - right. left.
  - apply snat_rule_comment.
  - by vm_compute.
Defined.
