(* ===== verification/MeshNetwork.v ===== *)
(** * [pkg/backend/cloudflaremesh/network_linux.go]: the network of the mesh backend

    The network turns batches of lease events and the ticks of a timer into calls of
    its route manager, and tears down at the end.  The interfaces of the file are the
    classes [localRouteManager], with the promises the network relies on in
    [RouteManagerLaws], and [meshTransport].  The manager of [MeshRoutes] discharges
    the promises.  What [Run] receives is a list of inputs, among them the changes
    that others make to the host between two of them. *)

From Stdlib Require Import ZArith Lia.
From stdpp Require Import base strings list gmap numbers.
From S2P Require Import Prelude GoStrings GoNet GoNetFacts Ip4 Ip6 Lease Watch MeshRoutes MeshRoutesFacts MeshApi.

Local Open Scope Z_scope.


(** Durations are in nanoseconds. *)
Definition pruneGrace : Z := 60 * 1000000000.

Class localRouteManager (W : Type) := {
  lrm_Ensure : string → M W unit;
  lrm_Remove : string → M W unit;
  lrm_Reconcile : gset string → M W unit;
  lrm_Cleanup : M W unit;
  lrm_MTU : Z
}.

Class meshTransport (W : Type) := { transport_Close : M W unit }.

Record meshNetwork (W : Type) := mkMeshNetwork {
  mn_desired : gset string;
  mn_synced : bool;
  mn_prunableAt : Z;
  mn_host : W
}.
Arguments mkMeshNetwork {W}.
Arguments mn_desired {W}.
Arguments mn_synced {W}.
Arguments mn_prunableAt {W}.
Arguments mn_host {W}.

(** What [Run] receives, with the time of a tick; [HostChange] is what others did. *)
Inductive mn_input (W : Type) := LeaseEvents (batch : list Event) | Tick (now : Z) | HostChange (w : W).
Arguments LeaseEvents {W}.
Arguments Tick {W}.
Arguments HostChange {W}.

Section network.
Context {W : Type} `{localRouteManager W, MapOrder, meshTransport W}.
Abbreviation Net := (M (meshNetwork W)).

Definition meshNetwork_MTU : Z := lrm_MTU.

(** A call of the route manager or the transport whose error is only logged. *)
Definition logged {A} (c : M W A) : Net unit := λ n,
  match c (mn_host n) with
  | (Panic, w) => (Panic, mkMeshNetwork (mn_desired n) (mn_synced n) (mn_prunableAt n) w)
  | (_, w) => (Ret tt, mkMeshNetwork (mn_desired n) (mn_synced n) (mn_prunableAt n) w)
  end.
Definition set_desired (f : gset string → gset string) : Net unit :=
  modify (λ n, mkMeshNetwork (f (mn_desired n)) (mn_synced n) (mn_prunableAt n) (mn_host n)).

Definition mesh_event (evt : Event) : Net unit :=
  let l := Event_Lease evt in
  if negb (bool_decide (BackendType (Attrs l) = BackendName)) then mret tt
  else
    let network := IP4Net_String (Subnet l) in
    match Event_Type evt with
    | EventAdded => _ ← set_desired (union {[network]}); logged (lrm_Ensure network)
    | EventRemoved => _ ← set_desired (λ d, d ∖ {[network]}); logged (lrm_Remove network)
    end.

Fixpoint mesh_events (batch : list Event) : Net unit :=
  match batch with
  | [] => mret tt
  | evt :: batch => _ ← mesh_event evt; mesh_events batch
  end.
Definition handleEvents (batch : list Event) : Net unit :=
  _ ← mesh_events batch;
  modify (λ n, mkMeshNetwork (mn_desired n) true (mn_prunableAt n) (mn_host n)).

Fixpoint ensure_each (networks : list string) : Net unit :=
  match networks with
  | [] => mret tt
  | network :: networks => _ ← logged (lrm_Ensure network); ensure_each networks
  end.
Definition reconcile (now : Z) : Net unit :=
  n ← get;
  if negb (mn_synced n) && (now <? mn_prunableAt n)
  then ensure_each (range_keys (mn_desired n))
  else logged (lrm_Reconcile (mn_desired n)).

(** [has_transport]: whether there is a transport to close. *)
Definition shutdown (has_transport : bool) : Net unit :=
  _ ← logged lrm_Cleanup;
  if has_transport then logged transport_Close else mret tt.

Definition mn_step (i : mn_input W) : Net unit :=
  match i with
  | LeaseEvents batch => handleEvents batch
  | Tick now => reconcile now
  | HostChange w => modify (λ n, mkMeshNetwork (mn_desired n) (mn_synced n) (mn_prunableAt n) w)
  end.
Fixpoint mn_loop (inputs : list (mn_input W)) : Net unit :=
  match inputs with
  | [] => mret tt
  | i :: inputs => _ ← mn_step i; mn_loop inputs
  end.

(** [Run] from the time [now] until the context is done or the events end. *)
Definition meshNetwork_Run (has_transport : bool) (now : Z) (inputs : list (mn_input W)) : Net unit :=
  _ ← modify (λ n, mkMeshNetwork (mn_desired n) (mn_synced n) (now + pruneGrace) (mn_host n));
  _ ← mn_loop inputs;
  shutdown has_transport.
End network.

Lemma mn_loop_app {W} `{localRouteManager W, MapOrder} (l l' : list (mn_input W)) s s1 :
  mn_loop l s = (Ret tt, s1) → mn_loop (l ++ l') s = mn_loop l' s1.
Proof.
  revert s. induction l as [|i l IH]; intros s E; [cbn [mn_loop] in E; by run_inv|]. cbn [mn_loop app] in *.
  apply M_bind_inv in E as ([] & s2 & E1 & E2). rewrite (M_bind_Ret _ _ _ _ _ E1). by apply IH.
Qed.

(** ** What the network relies on *)

(** [lrm_ok]: nothing on the host confuses the manager; [lrm_ready]: it can work;
    [lrm_net]: a network that can be routed; [lrm_routes D]: exactly the networks [D]
    are routed. *)
Class RouteManagerLaws (W : Type) `{localRouteManager W} := {
  lrm_ok : W → Prop;
  lrm_ready : W → Prop;
  lrm_net : IP4Net → Prop;
  lrm_routes : gset IP4Net → W → Prop;
  lrm_net_ok n : lrm_net n → IP4Net_ok n;
  lrm_ready_ok w : lrm_ready w → lrm_ok w;
  (** whatever the host is like, calls end without a panic *)
  safe_Ensure n w : lrm_ok w → lrm_net n →
    ∃ r w', lrm_Ensure (IP4Net_String n) w = (r, w') ∧ r ≠ Panic ∧ lrm_ok w';
  safe_Remove n w : lrm_ok w → lrm_net n →
    ∃ r w', lrm_Remove (IP4Net_String n) w = (r, w') ∧ r ≠ Panic ∧ lrm_ok w';
  safe_Reconcile (D : gset IP4Net) w : lrm_ok w → set_Forall lrm_net D →
    ∃ r w', lrm_Reconcile (set_map IP4Net_String D) w = (r, w') ∧ r ≠ Panic ∧ lrm_ok w';
  (** on a host that is ready, they do what they are called for *)
  law_Ensure n D w : lrm_ready w → lrm_routes D w → lrm_net n →
    ∃ w', lrm_Ensure (IP4Net_String n) w = (Ret tt, w') ∧ lrm_ready w' ∧ lrm_routes ({[n]} ∪ D) w';
  law_Remove n D w : lrm_ready w → lrm_routes D w → lrm_net n →
    ∃ w', lrm_Remove (IP4Net_String n) w = (Ret tt, w') ∧ lrm_ready w' ∧ lrm_routes (D ∖ {[n]}) w';
  law_Reconcile (D : gset IP4Net) w : lrm_ready w → set_Forall lrm_net D →
    ∃ w', lrm_Reconcile (set_map IP4Net_String D) w = (Ret tt, w') ∧ lrm_ready w' ∧ lrm_routes D w'
}.

(** The networks that the mesh leases of a list of events leave. *)
Definition wanted_net (D : gset IP4Net) (e : Event) : gset IP4Net :=
  if bool_decide (BackendType (Attrs (Event_Lease e)) = BackendName) then
    match Event_Type e with
    | EventAdded => {[Subnet (Event_Lease e)]} ∪ D
    | EventRemoved => D ∖ {[Subnet (Event_Lease e)]}
    end
  else D.
Definition input_events {W} (i : mn_input W) : list Event := match i with LeaseEvents batch => batch | _ => [] end.
Definition is_batch {W} (i : mn_input W) : bool := match i with LeaseEvents _ => true | _ => false end.
Definition wanted_nets {W} (inputs : list (mn_input W)) : gset IP4Net := foldl wanted_net ∅ (mbind input_events inputs).

Section laws.
Context {W : Type} `{RouteManagerLaws W, MapOrder}.
Implicit Types (s : meshNetwork W) (D : gset IP4Net).

Definition mesh_event_ok (e : Event) : Prop :=
  BackendType (Attrs (Event_Lease e)) = BackendName → lrm_net (Subnet (Event_Lease e)).
Definition input_ok (i : mn_input W) : Prop :=
  match i with
  | LeaseEvents batch => Forall mesh_event_ok batch
  | Tick _ => True
  | HostChange w => lrm_ok w
  end.

(** The invariant of the network. *)
Definition holds D s : Prop := mn_desired s = set_map IP4Net_String D ∧ set_Forall lrm_net D ∧ lrm_ok (mn_host s).

Definition with_host s (w : W) : meshNetwork W := mkMeshNetwork (mn_desired s) (mn_synced s) (mn_prunableAt s) w.

Lemma logged_run {A} (c : M W A) s r w : c (mn_host s) = (r, w) → r ≠ Panic → logged c s = (Ret tt, with_host s w).
Proof. intros E Hr. unfold logged. rewrite E. by destruct r. Qed.

Lemma set_map_union D n : lrm_net n → set_map IP4Net_String ({[n]} ∪ D) = ({[IP4Net_String n]} ∪ set_map IP4Net_String D : gset string).
Proof. intros _. by rewrite set_map_union_L, set_map_singleton_L. Qed.

Lemma set_map_remove D n : lrm_net n → set_Forall lrm_net D →
  set_map IP4Net_String (D ∖ {[n]}) = (set_map IP4Net_String D ∖ {[IP4Net_String n]} : gset string).
Proof.
  intros Hn HD. apply set_eq. intros t. rewrite elem_of_difference, !elem_of_map, elem_of_singleton. split.
  - intros (n' & -> & [Hin Hne]%elem_of_difference). split; [by exists n'|]. intros E.
    apply IP4Net_String_inj in E; [|by apply lrm_net_ok, HD|by apply lrm_net_ok]. set_solver.
  - intros [(n' & -> & Hin) Hne]. exists n'. split; [done|]. set_solver.
Qed.

(** Every step keeps the desired set equal to what the events say, and never panics. *)
Lemma mesh_event_run e D s : holds D s → mesh_event_ok e →
  ∃ s', mesh_event e s = (Ret tt, s') ∧ holds (wanted_net D e) s' ∧
    mn_synced s' = mn_synced s ∧ mn_prunableAt s' = mn_prunableAt s.
Proof.
  intros (Hd & HD & Hok) He. unfold mesh_event, wanted_net.
  case_bool_decide as Hb; cbn [negb]; [|by exists s]. specialize (He Hb). destruct (Event_Type e); unfold set_desired; run.
  - set (s1 := mkMeshNetwork _ _ _ _). destruct (safe_Ensure _ (mn_host s1) Hok He) as (r & w' & E & Hr & Hok').
    exists (with_host s1 w'). split; [by eapply logged_run|]. split; [|done]. split_and!; [|by apply set_Forall_union; [apply set_Forall_singleton|]|done].
    cbn. by rewrite Hd, set_map_union.
  - set (s1 := mkMeshNetwork _ _ _ _). destruct (safe_Remove _ (mn_host s1) Hok He) as (r & w' & E & Hr & Hok').
    exists (with_host s1 w'). split; [by eapply logged_run|]. split; [|done]. split_and!; [| |done].
    + cbn. by rewrite Hd, set_map_remove.
    + intros n [Hn _]%elem_of_difference. by apply HD.
Qed.

Lemma mesh_events_run batch D s : holds D s → Forall mesh_event_ok batch →
  ∃ s', mesh_events batch s = (Ret tt, s') ∧ holds (foldl wanted_net D batch) s' ∧
    mn_synced s' = mn_synced s ∧ mn_prunableAt s' = mn_prunableAt s.
Proof.
  revert D s. induction batch as [|e batch IH]; intros D s Hh Hok; [by exists s|].
  apply list.Forall_cons in Hok as [He Hok]. destruct (mesh_event_run e D s Hh He) as (s1 & E1 & Hh1 & Hs1 & Hp1).
  destruct (IH _ _ Hh1 Hok) as (s' & E & Hh' & Hs & Hp). exists s'. cbn [mesh_events foldl].
  rewrite (M_bind_Ret _ _ _ _ _ E1). split_and!; [done..|congruence|congruence].
Qed.

Lemma ensure_each_run ns D s : holds D s → Forall lrm_net ns →
  ∃ s', ensure_each (IP4Net_String <$> ns) s = (Ret tt, s') ∧ holds D s' ∧
    mn_synced s' = mn_synced s ∧ mn_prunableAt s' = mn_prunableAt s.
Proof.
  revert s. induction ns as [|n ns IH]; intros s Hh Hok; [by exists s|]. apply list.Forall_cons in Hok as [Hn Hok].
  destruct Hh as (Hd & HD & Hwok). destruct (safe_Ensure n (mn_host s) Hwok Hn) as (r & w' & E & Hr & Hok').
  destruct (IH (with_host s w')) as (s' & E' & Hh' & ?); [done..|]. exists s'. split; [|done].
  cbn [ensure_each fmap list_fmap]. by rewrite (M_bind_Ret _ _ _ _ _ (logged_run _ _ _ _ E Hr)).
Qed.

Lemma range_nets D : set_Forall lrm_net D → ∃ ns, range_keys (set_map IP4Net_String D) = IP4Net_String <$> ns ∧ Forall lrm_net ns.
Proof.
  intros HD. assert (Forall (λ t, ∃ n, lrm_net n ∧ t = IP4Net_String n) (range_keys (set_map IP4Net_String D))) as Hall.
  { apply list.Forall_forall. intros t. rewrite range_keys_perm, elem_of_elements, elem_of_map.
    intros (n & -> & Hn). exists n. split; [by apply HD|done]. }
  induction Hall as [|t l (n & Hn & ->) _ (ns & -> & Hns)]; [by exists []|].
  exists (n :: ns). split; [done|by constructor].
Qed.

Lemma reconcile_run now D s : holds D s →
  ∃ s', reconcile now s = (Ret tt, s') ∧ holds D s' ∧ mn_synced s' = mn_synced s ∧ mn_prunableAt s' = mn_prunableAt s.
Proof.
  intros Hh. pose proof Hh as (Hd & HD & Hok). unfold reconcile. run. rewrite Hd. destruct (negb _ && _).
  - destruct (range_nets D HD) as (ns & -> & Hns). by apply ensure_each_run.
  - destruct (safe_Reconcile D (mn_host s) Hok HD) as (r & w' & E & Hr & Hok'). exists (with_host s w').
    split; [by eapply logged_run|]. done.
Qed.

Lemma mn_step_run i D s : holds D s → input_ok i →
  ∃ s', mn_step i s = (Ret tt, s') ∧ holds (foldl wanted_net D (input_events i)) s' ∧
    mn_synced s' = is_batch i || mn_synced s ∧ mn_prunableAt s' = mn_prunableAt s.
Proof.
  intros Hh Hi. destruct i as [batch|now|w]; cbn [mn_step input_events is_batch foldl].
  - destruct (mesh_events_run batch D s Hh Hi) as (s' & E & Hh' & Hs & Hp). unfold handleEvents.
    rewrite (M_bind_Ret _ _ _ _ _ E). by eexists.
  - by apply reconcile_run.
  - eexists. split; [done|]. destruct Hh as (? & ? & _). done.
Qed.

Lemma mn_loop_run inputs D s : holds D s → Forall input_ok inputs →
  ∃ s', mn_loop inputs s = (Ret tt, s') ∧ holds (foldl wanted_net D (mbind input_events inputs)) s' ∧
    mn_synced s' = existsb is_batch inputs || mn_synced s ∧ mn_prunableAt s' = mn_prunableAt s.
Proof.
  revert D s. induction inputs as [|i inputs IH]; intros D s Hh Hok; [by exists s|].
  apply list.Forall_cons in Hok as [Hi Hok]. destruct (mn_step_run i D s Hh Hi) as (s1 & E1 & Hh1 & Hs1 & Hp1).
  destruct (IH _ _ Hh1 Hok) as (s' & E & Hh' & Hs & Hp). exists s'. cbn [mn_loop mbind list_bind existsb].
  rewrite (M_bind_Ret _ _ _ _ _ E1), foldl_app. split_and!; [done..| |congruence].
  rewrite Hs, Hs1. by destruct (is_batch i), (existsb is_batch inputs).
Qed.

(** A tick that may prune brings a host that is ready exactly to the desired set. *)
Lemma reconcile_prunes now D s : holds D s → lrm_ready (mn_host s) →
  mn_synced s = true ∨ mn_prunableAt s <= now →
  ∃ s', reconcile now s = (Ret tt, s') ∧ holds D s' ∧ lrm_ready (mn_host s') ∧ lrm_routes D (mn_host s').
Proof.
  intros (Hd & HD & Hok) Hr Hp. unfold reconcile. run.
  assert (negb (mn_synced s) && (now <? mn_prunableAt s) = false) as ->.
  { destruct Hp as [-> | Hp]; [done|]. apply andb_false_iff. right. by apply Z.ltb_ge. }
  rewrite Hd. destruct (law_Reconcile D (mn_host s) Hr HD) as (w' & E & Hr' & Hw). exists (with_host s w').
  split; [by eapply logged_run|]. split; [|done]. split_and!; [done..|]. by apply lrm_ready_ok.
Qed.
End laws.

Definition initial {W} (w : W) : meshNetwork W := mkMeshNetwork ∅ false 0 w.

(** C13: whatever happens before (batches of events, ticks, calls that fail because the
    interface or the chain is missing, any change that others make to the host), once
    events have come a single tick on a host that is ready routes exactly the networks
    that the leases of all events so far leave, and the loop never panics or stops. *)
Theorem mesh_converges W `{RouteManagerLaws W, MapOrder} start inputs now (w0 w : W) :
  lrm_ok w0 → Forall input_ok inputs → lrm_ready w →
  existsb is_batch inputs = true ∨ start + pruneGrace <= now →
  ∃ s, mn_loop (inputs ++ [HostChange w; Tick now]) (mkMeshNetwork ∅ false (start + pruneGrace) w0) = (Ret tt, s) ∧
    lrm_routes (wanted_nets inputs) (mn_host s) ∧ lrm_ready (mn_host s).
Proof.
  intros Hok Hin Hr Hp. set (s0 := mkMeshNetwork ∅ false (start + pruneGrace) w0).
  assert (holds ∅ s0) as Hh0 by (split_and!; [cbn; by rewrite set_map_empty|by apply set_Forall_empty|done]).
  destruct (mn_loop_run inputs ∅ s0 Hh0 Hin) as (s1 & E1 & Hh1 & Hs1 & Hp1).
  destruct (reconcile_prunes now (wanted_nets inputs) (with_host s1 w)) as (s2 & E2 & Hh2 & Hr2 & Hw2).
  - destruct Hh1 as (Hd & HD & _). split_and!; [done..|]. by apply lrm_ready_ok.
  - done.
  - cbn. rewrite Hs1, Hp1. cbn. destruct Hp as [-> | Hp]; [by left|by right].
  - exists s2. split; [|done]. rewrite (mn_loop_app _ _ _ _ E1). cbn [mn_loop mn_step]. run.
    change (mkMeshNetwork (mn_desired s1) (mn_synced s1) (mn_prunableAt s1) w) with (with_host s1 w).
    by rewrite (M_bind_Ret _ _ _ _ _ E2).
Qed.

(** C22: until the first batch of events or the end of the grace period, no tick touches
    the host: routes that an earlier run of the daemon left are not pruned against a
    set of leases that is not known yet. *)
Theorem no_prune_before_sync W `{localRouteManager W, !MapOrder} start inputs (w : W) :
  Forall (λ i, match i with Tick now => now < start + pruneGrace | LeaseEvents _ => False | HostChange _ => True end) inputs →
  ∃ s, mn_loop inputs (mkMeshNetwork ∅ false (start + pruneGrace) w) = (Ret tt, s) ∧
    mn_desired s = ∅ ∧ mn_host s = foldl (λ w i, match i with HostChange w' => w' | _ => w end) w inputs.
Proof.
  intros Hin. revert w. induction Hin as [|i inputs Hi _ IH]; intros w; [by eexists|].
  destruct i as [batch|now|w']; [done| |].
  - destruct (IH w) as (s & E & Hd & Hh). exists s. split; [|done]. cbn [mn_loop mn_step]. unfold reconcile. run.
    cbn [mn_synced mn_prunableAt mn_desired negb andb]. rewrite (proj2 (Z.ltb_lt _ _) Hi).
    assert (range_keys ∅ = []) as -> by (apply Permutation_nil_r; by rewrite range_keys_perm, elements_empty).
    cbn [ensure_each]. run. done.
  - destruct (IH w') as (s & E & Hd & Hh). exists s. cbn [mn_loop mn_step]. run. done.
Qed.

(** Following events on a host that stays ready needs no tick. *)
Lemma handleEvents_run W `{RouteManagerLaws W, MapOrder} batch D (s : meshNetwork W) :
  holds D s → lrm_ready (mn_host s) → lrm_routes D (mn_host s) → Forall mesh_event_ok batch →
  ∃ s', handleEvents batch s = (Ret tt, s') ∧ holds (foldl wanted_net D batch) s' ∧
    lrm_ready (mn_host s') ∧ lrm_routes (foldl wanted_net D batch) (mn_host s').
Proof.
  intros Hh Hr Hw Hok. assert (∃ s', mesh_events batch s = (Ret tt, s') ∧ holds (foldl wanted_net D batch) s' ∧
    lrm_ready (mn_host s') ∧ lrm_routes (foldl wanted_net D batch) (mn_host s')) as (s' & E & Hh' & ?).
  { revert D s Hh Hr Hw. induction Hok as [|e batch He Hok IH]; intros D s Hh Hr Hw; [by exists s|].
    assert (∃ s1, mesh_event e s = (Ret tt, s1) ∧ lrm_ready (mn_host s1) ∧ lrm_routes (wanted_net D e) (mn_host s1))
      as (s1 & E1 & Hr1 & Hw1).
    { unfold mesh_event, wanted_net. case_bool_decide as Hb; cbn [negb]; [|by exists s]. specialize (He Hb).
      destruct (Event_Type e); unfold set_desired; run; set (s1 := mkMeshNetwork _ _ _ _).
      - destruct (law_Ensure _ D (mn_host s1) Hr Hw He) as (w' & E & ?). exists (with_host s1 w').
        split; [by eapply logged_run|done].
      - destruct (law_Remove _ D (mn_host s1) Hr Hw He) as (w' & E & ?). exists (with_host s1 w').
        split; [by eapply logged_run|done]. }
    destruct (mesh_event_run e D s Hh He) as (s2 & E2 & Hh2 & _). rewrite E1 in E2. simplify_eq.
    destruct (IH _ _ Hh2 Hr1 Hw1) as (s' & E & ?). exists s'. split; [|done]. cbn [mesh_events].
    by rewrite (M_bind_Ret _ _ _ _ _ E1). }
  unfold handleEvents. rewrite (M_bind_Ret _ _ _ _ _ E). eexists. split; [done|]. done.
Qed.

(** ** The route manager keeps the promises *)

Section manager.
Context {W : Type} `{MeshLaws W, MapOrder} (m : netlinkRouteManager).
Implicit Types (w : W) (v : hostview).

#[local] Instance mesh_manager : localRouteManager W := {
  lrm_Ensure := Ensure m; lrm_Remove := Remove m; lrm_Reconcile := Reconcile m; lrm_Cleanup := Cleanup m;
  lrm_MTU := rm_MTU m
}.

(** Exactly the networks [D] are routed, selected and translated. *)
Record routed (link : Z) (D : gset IP4Net) v : Prop := {
  rt_routes n : IP4Net_String n ≠ rm_meshCIDR m →
    v_routes v !! (rm_table m, Some n) = if decide (n ∈ D) then Some link else None;
  rt_rules n : IP4Net_String n ≠ rm_meshCIDR m → (remoteRulePriority, rm_table m, Some n) ∈ v_rules v ↔ n ∈ D;
  rt_snat n : wf_net n → IP4Net_String n ≠ rm_meshCIDR m → snat_rule m n ∈ chain_of v ↔ n ∈ D
}.

Definition mesh_ok w : Prop := rm_clusterCIDR m ≠ "-d" ∧ marked_ok (chain_of (view w)).

Lemma remove_one_sub {A} `{EqDecision A} (x y : A) l : y ∈ remove_one x l → y ∈ l.
Proof. induction l as [|z l IH]; cbn; [done|]. destruct (decide (x = z)); [by right|]. rewrite !elem_of_cons. tauto. Qed.

Lemma marked_ok_sub c c' : marked_ok c → (∀ s, s ∈ c' → s ∈ c) → marked_ok c'.
Proof. intros Hok Hsub s Hs. by apply Hok, Hsub. Qed.

Lemma ensure_rule_elem r c s : s ∈ ensure_rule r c → s ∈ c ∨ s = r.
Proof. unfold ensure_rule. destruct (decide _); [by left|]. destruct c; set_solver. Qed.

Lemma chain_ensured link v n : chain_of (ensured m link v n) = ensure_rule (snat_rule m n) (chain_of v).
Proof. unfold chain_of. cbn. destruct (v_chain v); [done|]. unfold ensure_rule. by case_decide. Qed.
Lemma chain_removed v n : chain_of (removed m v n) = remove_one (snat_rule m n) (chain_of v).
Proof. unfold chain_of. cbn. by destruct (v_chain v). Qed.

Lemma marked_ok_ensured link v n : rm_clusterCIDR m ≠ "-d" → wf_net n → marked_ok (chain_of v) →
  marked_ok (chain_of (ensured m link v n)).
Proof.
  intros Hm Hn Hok s. rewrite chain_ensured. intros [Hs | ->]%ensure_rule_elem Hc; [by apply Hok|].
  exists n. split; [done|]. by apply dest_arg_snat.
Qed.

(** On any host, making sure of a network ends, with an error when something is missing. *)
Lemma Ensure_safe n w : mesh_ok w → wf_net n →
  ∃ r w', Ensure m (IP4Net_String n) w = (r, w') ∧ r ≠ Panic ∧ mesh_ok w'.
Proof.
  intros [Hm Hok] Hn. pose proof (law_LinkByName (rm_linkName m) w) as Hlink.
  destruct (v_links (view w) !! rm_linkName m) as [l|] eqn:El.
  2:{ destruct Hlink as (e & E). unfold Ensure. eexists _, _. split; [by rewrite (M_bind_Ret _ _ _ _ _ (try_Err _ _ _ _ E))|done]. }
  destruct (chain_of (view w)) as [|r0 c] eqn:Ec.
  - destruct Hlink as [E _]. unfold Ensure. rewrite (M_bind_Ret _ _ _ _ _ (try_Ret _ _ _ _ E)).
    destruct (parseCIDR_net n Hn) as (d & -> & Hd). run.
    destruct (law_RouteReplace d n _ l (rm_table m) w Hd El) as (w1 & E1 & V1).
    rewrite (M_bind_Ret _ _ _ _ _ (returning_Ret _ _ _ _ _ _ E1)).
    destruct (RuleAdd_run m remoteRulePriority d n w1 Hd) as (w2 & E2 & V2). rewrite (M_bind_Ret _ _ _ _ _ E2).
    assert (v_chain (view w2) = v_chain (view w)) as Ev by (by rewrite V2, V1).
    assert (chain_of (view w2) = []) as Ec2 by (unfold chain_of in *; by rewrite Ev).
    unfold ensureHostSNAT. rewrite (M_bind_Ret _ _ _ _ _ (try_Ret _ _ _ _ (law_ipt_Exists _ w2))).
    fold (chain_of (view w2)). rewrite Ec2, bool_decide_eq_false_2 by apply not_elem_of_nil.
    pose proof (law_ipt_Insert (hostSNATRule m d) w2) as Hins. unfold chain_of in Ec2.
    assert (∃ e, ipt_Insert "nat" "FLANNEL-POSTRTG" 2 (hostSNATRule m d) w2 = (Err e, w2)) as (e & E3)
      by (destruct (v_chain (view w2)) as [[|]|]; [done|done|done]).
    eexists _, _. split; [by eapply returning_Err|]. split; [done|]. split; [done|]. unfold chain_of at 1. rewrite Ec2. intros s ?%not_elem_of_nil. done.
  - destruct (Ensure_run m n l w Hn El) as (w' & E & V);
      [by intros Ev; unfold chain_of in Ec; rewrite Ev in Ec..|].
    exists (Ret tt), w'. split_and!; [done..|]. split; [done|]. rewrite V. apply marked_ok_ensured; [done..|by rewrite Ec].
Qed.

Lemma Remove_safe n w : mesh_ok w → wf_net n →
  ∃ w', Remove m (IP4Net_String n) w = (Ret tt, w') ∧ mesh_ok w'.
Proof.
  intros [Hm Hok] Hn. destruct (Remove_run m n w Hn) as (w' & E & V). exists w'. split; [done|]. split; [done|].
  rewrite V, chain_removed. eapply marked_ok_sub; [exact Hok|]. intros s. apply remove_one_sub.
Qed.

Lemma collect_safe {A K} (R : A → K → Prop) (f : A → M W (list error)) l ks w :
  Forall2 R l ks → mesh_ok w →
  (∀ a k w, R a k → mesh_ok w → ∃ errs w', f a w = (Ret errs, w') ∧ mesh_ok w') →
  ∃ errs w', collect f l w = (Ret errs, w') ∧ mesh_ok w'.
Proof.
  intros Hl. revert w. induction Hl as [|a k l ks Hr Hl IH]; intros w Hw Hf; [by eexists _, w|].
  destruct (Hf a k w Hr Hw) as (errs1 & w1 & E1 & Hw1). destruct (IH w1 Hw1 Hf) as (errs & w' & E & Hw').
  eexists _, w'. split; [|done]. cbn [collect]. rewrite (M_bind_Ret _ _ _ _ _ E1). by rewrite (M_bind_Ret _ _ _ _ _ E).
Qed.

Lemma collecting_safe {A} (c : M W A) ign wr w r w' : c w = (r, w') → r ≠ Panic →
  ∃ errs, collecting c ign wr w = (Ret errs, w').
Proof. intros E Hr. unfold collecting, try, mbind, M_bind. rewrite E. destruct r; [..|done]; by eexists. Qed.

Lemma joined_safe errs (w : W) : ∃ r, joined errs w = (r, w) ∧ r ≠ Panic.
Proof. unfold joined. destruct (errors_Join errs); by eexists. Qed.

Lemma Reconcile_safe (D : gset IP4Net) w : mesh_ok w → set_Forall wf_net D →
  ∃ r w', Reconcile m (set_map IP4Net_String D) w = (r, w') ∧ r ≠ Panic ∧ mesh_ok w'.
Proof.
  intros Hw HD. destruct (range_texts D HD) as (ds & Eds & Hwf & Hds). unfold Reconcile. rewrite Eds.
  destruct (collect_safe _ (λ network, collecting (Ensure m network) nothing id) _ ds w (Forall2_fmap_eq ds Hwf) Hw)
    as (errs & w1 & E1 & Hw1).
  { intros s n w0 [-> Hn] Hw0. destruct (Ensure_safe n w0 Hw0 Hn) as (r & w' & E & Hr & Hw').
    destruct (collecting_safe _ nothing id _ _ _ E Hr) as (errs & E'). by exists errs, w'. }
  rewrite (M_bind_Ret _ _ _ _ _ E1).
  destruct (staleDestinations_run m D w1) as (ns & E2 & Hns & _); [apply Hw1|intros n Hn; by apply HD|].
  rewrite (M_bind_Ret _ _ _ _ _ (try_Ret _ _ _ _ E2)).
  destruct (collect_safe _ (λ network, collecting (Remove m network) nothing id) _ ns w1 (Forall2_fmap_eq ns Hns) Hw1)
    as (errs' & w2 & E3 & Hw2).
  { intros s n w0 [-> Hn] Hw0. destruct (Remove_safe n w0 Hw0 Hn) as (w' & E & Hw').
    exists [], w'. by split; [eapply collecting_Ret|]. }
  rewrite (M_bind_Ret _ _ _ _ _ E3). destruct (joined_safe (errs ++ errs') w2) as (r & E & Hr). by exists r, w2.
Qed.

Lemma Ensure_routed n D w : (∃ l, ready m l (view w)) → (∃ l, v_links (view w) !! rm_linkName m = Some l ∧ routed (Link_Index l) D (view w)) →
  wf_net n →
  ∃ w', Ensure m (IP4Net_String n) w = (Ret tt, w') ∧ (∃ l, ready m l (view w')) ∧
    ∃ l, v_links (view w') !! rm_linkName m = Some l ∧ routed (Link_Index l) ({[n]} ∪ D) (view w').
Proof.
  intros (l & Hrd) (l' & Hl' & Hrt) Hn. pose proof (ready_chain _ _ _ Hrd) as Hne. pose proof Hrd as [Hm Hl Hc Hmark Hnd].
  rewrite Hl in Hl'. simplify_eq. destruct (Ensure_run m n l' w Hn Hl) as (w' & E & V);
    [by intros Ev; unfold chain_of in Hne; rewrite Ev in Hne..|].
  destruct (ensure_rule_steps m (snat_rule m n) (chain_of (view w))) as (_ & Ho & Hnd' & Hs); [by apply mine_snat|done..|].
  exists w'. split; [done|]. rewrite V. split; [exists l'; split; rewrite ?chain_ensured; try done|exists l'; split; [done|]].
  - by rewrite Ho.
  - rewrite <- (chain_ensured (Link_Index l')). by apply marked_ok_ensured.
  - split.
    + intros n' Hn'. cbn. destruct (decide (n' = n)) as [->|Hd].
      * rewrite lookup_insert_eq, decide_True by set_solver. done.
      * rewrite lookup_insert_ne by congruence. rewrite (rt_routes _ _ _ Hrt n' Hn'). apply decide_ext. set_solver.
    + intros n' Hn'. cbn. rewrite elem_of_union, elem_of_singleton, (rt_rules _ _ _ Hrt n' Hn'). set_solver.
    + intros n' Hw' Hn'. rewrite chain_ensured, Hs, (rt_snat _ _ _ Hrt n' Hw' Hn'). split; [|set_solver].
      intros [|E'%snat_rule_inj]; set_solver.
Qed.

Lemma Remove_routed n D w : (∃ l, ready m l (view w)) → (∃ l, v_links (view w) !! rm_linkName m = Some l ∧ routed (Link_Index l) D (view w)) →
  wf_net n →
  ∃ w', Remove m (IP4Net_String n) w = (Ret tt, w') ∧ (∃ l, ready m l (view w')) ∧
    ∃ l, v_links (view w') !! rm_linkName m = Some l ∧ routed (Link_Index l) (D ∖ {[n]}) (view w').
Proof.
  intros (l & Hrd) (l' & Hl' & Hrt) Hn. pose proof Hrd as [Hm Hl Hc Hmark Hnd]. rewrite Hl in Hl'. simplify_eq.
  destruct (Remove_run m n w Hn) as (w' & E & V).
  destruct (remove_one_steps m (snat_rule m n) (chain_of (view w))) as (Ho & Hnd' & Hs); [by apply mine_snat|done..|].
  exists w'. split; [done|]. rewrite V. split; [exists l'; split; rewrite ?chain_removed; try done|exists l'; split; [done|]].
  - by rewrite Ho.
  - eapply marked_ok_sub; [exact Hmark|]. intros s. apply remove_one_sub.
  - split.
    + intros n' Hn'. cbn. destruct (decide (n' = n)) as [->|Hd].
      * rewrite lookup_delete_eq, decide_False by set_solver. done.
      * rewrite lookup_delete_ne by congruence. rewrite (rt_routes _ _ _ Hrt n' Hn'). apply decide_ext. set_solver.
    + intros n' Hn'. cbn. rewrite elem_of_difference, elem_of_singleton, (rt_rules _ _ _ Hrt n' Hn'). set_solver.
    + intros n' Hw' Hn'. rewrite chain_removed, Hs by (by apply mine_snat). rewrite (rt_snat _ _ _ Hrt n' Hw' Hn').
      rewrite elem_of_difference, elem_of_singleton. split; intros [? Hd]; (split; [done|]); intros E'; apply Hd;
        [by rewrite E'|by apply snat_rule_inj in E'].
Qed.

#[refine, local] Instance mesh_manager_laws : RouteManagerLaws W := {
  lrm_ok := mesh_ok;
  lrm_ready w := ∃ l, ready m l (view w);
  lrm_net n := wf_net n ∧ IP4Net_String n ≠ rm_meshCIDR m;
  lrm_routes D w := ∃ l, v_links (view w) !! rm_linkName m = Some l ∧ routed (Link_Index l) D (view w)
}.
Proof.
  - by intros n [[? _] _].
  - intros w (l & [? _ _ ? _]). done.
  - intros n w Hw [Hn _]. by apply Ensure_safe.
  - intros n w Hw [Hn _]. destruct (Remove_safe n w Hw Hn) as (w' & E & ?). by exists (Ret tt), w'.
  - intros D w Hw HD. apply Reconcile_safe; [done|]. intros n Hn. by apply HD.
  - intros n D w Hrd Hrt [Hn _]. by apply Ensure_routed.
  - intros n D w Hrd Hrt [Hn _]. by apply Remove_routed.
  - intros D w (l & Hrd) HD. destruct (Reconcile_run m l D w Hrd HD) as (w' & E & Hex & Hrd').
    exists w'. split_and!; [done|by exists l|]. exists l. split; [apply Hrd'|]. split; apply Hex.
Defined.
End manager.

(** ** From the subnet manager to the host *)

(** A lease that the manager reports, where [kind] tells of which subnets the nodes are in
    the mesh: its backend is the mesh's exactly for those, and they can be routed. *)
Definition mesh_lease (m : netlinkRouteManager) (kind : IP4Net → bool) (l : Lease) : Prop :=
  bool_decide (BackendType (Attrs l) = BackendName) = kind (Subnet l) ∧
  (kind (Subnet l) = true → wf_net (Subnet l) ∧ IP4Net_String (Subnet l) ≠ rm_meshCIDR m).

(** The subnets of the mesh in a set of keys of IPv4 leases. *)
Definition v4_nets (kind : IP4Net → bool) (K : gset key) : gset IP4Net := filter (λ n, kind n = true) (set_omap fst K).

Lemma elem_of_v4_nets (kind : IP4Net → bool) (K : gset key) (n : IP4Net) : (∀ k, k ∈ K → ∃ n', k = (Some n', None)) →
  n ∈ v4_nets kind K ↔ (Some n, None) ∈ K ∧ kind n = true.
Proof.
  intros HK. unfold v4_nets. rewrite elem_of_filter, elem_of_set_omap. split; [|by intros [? ?]; split; [|exists (Some n, None)]].
  intros (Hn & [a b] & Hk & E). cbn in E. destruct (HK _ Hk) as (n' & E'). by simplify_eq.
Qed.

Lemma wanted_tag (m : netlinkRouteManager) (kind : IP4Net → bool) (e : Event) (K : gset key) : lease_mode true false (Event_Lease e) → mesh_lease m kind (Event_Lease e) →
  (∀ k, k ∈ K → ∃ n, k = (Some n, None)) →
  wanted_net (v4_nets kind K) e = v4_nets kind (apply_tag K (tag e)) ∧ ∀ k, k ∈ apply_tag K (tag e) → ∃ n, k = (Some n, None).
Proof.
  intros (H4 & H6 & _) [Hb _] HK. assert (lease_key (Event_Lease e) = (Some (Subnet (Event_Lease e)), None)) as Ek
    by (unfold lease_key; by rewrite H4, H6).
  assert (∀ k, k ∈ apply_tag K (tag e) → ∃ n, k = (Some n, None)) as HK'.
  { intros k. unfold apply_tag, tag. cbn. rewrite Ek. destruct (Event_Type e); [|set_solver].
    intros [Hk|Hk]%elem_of_union; [by apply HK|]. apply elem_of_singleton in Hk. by exists (Subnet (Event_Lease e)). }
  split; [|done]. apply set_eq. intros n. rewrite elem_of_v4_nets by done. unfold wanted_net. rewrite Hb.
  unfold apply_tag, tag. cbn [fst snd]. rewrite Ek. destruct (kind (Subnet (Event_Lease e))) eqn:Ekd, (Event_Type e).
  all: rewrite ?elem_of_union, ?elem_of_difference, ?elem_of_singleton, elem_of_v4_nets by done.
  all: assert ((Some n, @None IP6Net) = (Some (Subnet (Event_Lease e)), None) ↔ n = Subnet (Event_Lease e)) as -> by naive_solver.
  all: destruct (decide (n = Subnet (Event_Lease e))) as [->|Hn]; [rewrite !Ekd|]; intuition congruence.
Qed.

Lemma wanted_replay (m : netlinkRouteManager) (kind : IP4Net → bool) (evs : list Event) (K : gset key) : Forall (λ e, lease_mode true false (Event_Lease e) ∧ mesh_lease m kind (Event_Lease e)) evs →
  (∀ k, k ∈ K → ∃ n, k = (Some n, None)) →
  foldl wanted_net (v4_nets kind K) evs = v4_nets kind (foldl apply_tag K (tag <$> evs)) ∧
  ∀ k, k ∈ foldl apply_tag K (tag <$> evs) → ∃ n, k = (Some n, None).
Proof.
  intros Hev. revert K. induction Hev as [|e evs [Hm Hl] _ IH]; intros K HK; [done|].
  cbn [foldl fmap list_fmap]. destruct (wanted_tag m kind e K Hm Hl HK) as [-> HK']. by apply IH.
Qed.

Definition batches {W} (inputs : list (mn_input W)) : list (list Event) :=
  mbind (λ i, match i with LeaseEvents b => [b] | _ => [] end) inputs.

Lemma batches_events {W} (inputs : list (mn_input W)) : mbind input_events inputs = concat (batches inputs).
Proof. induction inputs as [|[b| |] inputs IH]; [done|..]; cbn; by rewrite IH. Qed.

Lemma batches_synced {W} (inputs : list (mn_input W)) : batches inputs ≠ [] → existsb is_batch inputs = true.
Proof. induction inputs as [|[b| |] inputs IH]; [done|done|..]; cbn; intros; by apply IH. Qed.

(** C11: from the subnet manager to the kernel, for a manager that reports IPv4-only leases, no
    subnet twice in a snapshot and each subnet always with the same backend (with removals
    too, as the kube manager reports them), those of the mesh aligned and not the mesh's own
    network: whatever snapshots and events of such leases
    it reports, when the network has received the batches that [WatchLeases] makes of them,
    between them any ticks and any changes to the host that leave the manager's rules in its
    chain well-formed, the next tick on a host that is ready (link there, chain created and
    not empty, each rule of the manager at most once) leaves routes, policy rules and SNAT
    rules for exactly the subnets that were last reported with the mesh backend, other
    than the node's own.  The tick must come after a batch, or after the grace period. *)
Theorem mesh_follows_manager W `{MeshLaws W, MapOrder} m kind own chan sent start inputs now (w0 w : W) :
  Forall (result_ok true false) (concat chan) →
  Forall (λ wr, Forall (mesh_lease m kind) (Snapshot wr) ∧ Forall (mesh_lease m kind ∘ Event_Lease) (Events wr)) (concat chan) →
  WatchLeases (Some own) chan = Ret sent → batches inputs = sent →
  mesh_ok m w0 → Forall (λ i, match i with HostChange w => mesh_ok m w | _ => True end) inputs →
  (∃ l, ready m l (view w)) → sent ≠ [] ∨ start + pruneGrace <= now →
  ∃ D s, @mn_loop W (mesh_manager m) _ (inputs ++ [HostChange w; Tick now])
           (mkMeshNetwork ∅ false (start + pruneGrace) w0) = (Ret tt, s) ∧
    (∀ n, n ∈ D ↔ (Some n, None) ∈ dom (foldl report ∅ (concat chan)) ∧ kind n = true ∧ n ≠ Subnet own) ∧
    ∃ l, v_links (view (mn_host s)) !! rm_linkName m = Some l ∧ routed m (Link_Index l) D (view (mn_host s)).
Proof.
  intros Hok Hmesh Hsent Hb Hok0 Hin Hrd Hp. assert (own_mode false own) as Ho by done.
  destruct (WatchLeases_loop_ok true false own Ho _ Hok (mkLeaseWatcher (Some own) []) ∅ ∅)
    as (sent' & lw & E & Hne & Hd); [repeat constructor|done|set_solver|].
  unfold WatchLeases in Hsent. rewrite E in Hsent. cbn in Hsent. simplify_eq.
  assert (Forall (λ e, lease_mode true false (Event_Lease e) ∧ mesh_lease m kind (Event_Lease e)) (concat (batches inputs))) as Hev.
  { apply (WatchLeases_loop_from (λ l, lease_mode true false l ∧ mesh_lease m kind l) _ _ _ _ E); [|constructor].
    apply list.Forall_forall. intros wr Hwr. rewrite list.Forall_forall in Hok, Hmesh.
    destruct (Hok wr Hwr) as (Hs & _ & He), (Hmesh wr Hwr) as [Hs' He']. split; by apply Forall_and. }
  destruct (wanted_replay m kind (concat (batches inputs)) ∅ Hev) as [Ew HK]; [set_solver|].
  destruct (@mesh_converges W (mesh_manager m) (mesh_manager_laws m) _ start inputs now w0 w) as (s & Es & Hrt & _).
  - done.
  - apply list.Forall_forall. intros i Hi. rewrite list.Forall_forall in Hin. rewrite list.Forall_forall in Hev. specialize (Hin i Hi).
    destruct i as [b| |w']; [|done|done]. apply list.Forall_forall. intros e He Hbk. destruct (Hev e) as [_ [Hk Hnet]].
    { apply list_elem_of_In, in_concat. exists b. split; [|by apply list_elem_of_In]. apply list_elem_of_In, list_elem_of_bind.
      exists (LeaseEvents b). by split; [apply list_elem_of_singleton|]. }
    apply Hnet. by rewrite <- Hk, bool_decide_eq_true_2.
  - done.
  - destruct Hp as [Hp|Hp]; [left; by apply batches_synced|by right].
  - exists (wanted_nets inputs), s. split_and!; [done| |exact Hrt]. intros n. unfold wanted_nets.
    assert (v4_nets kind ∅ = ∅) as E0 by (apply set_eq; intros x; rewrite elem_of_v4_nets; set_solver).
    rewrite E0 in Ew. rewrite batches_events, Ew, elem_of_v4_nets by done. rewrite (dom_replay false own Ho), dom_empty_L in Hd. rewrite <- Hd.
    change (mode_key true false own) with (Some (Subnet own), @None IP6Net).
    rewrite elem_of_difference, elem_of_singleton.
    assert ((Some n, @None IP6Net) = (Some (Subnet own), None) ↔ n = Subnet own) as -> by naive_solver. tauto.
Qed.

(** A cluster of two other nodes, and a host that a lost lease left its state on. *)
Definition node_lease (i : Z) : Lease :=
  mkLease true false (sample_net i) (mkIP6Net None 0) (mkLeaseAttrs 1684013058 None BackendName None None) 0 0.
Definition left_host : hostview := sample_host [snat_rule (sample_manager "10.244.1.1") (sample_net 6)].

Lemma left_host_ready : ready (sample_manager "10.244.1.1") sample_link (view left_host).
Proof. apply sample_host_ready. repeat constructor; done. Qed.

(** Node 4 runs another backend. *)
Definition sample_kind (n : IP4Net) : bool := negb (bool_decide (n = sample_net 4)).
Definition foreign_lease : Lease :=
  mkLease true false (sample_net 4) (mkIP6Net None 0) (mkLeaseAttrs 1684013058 None "vxlan" None None) 0 0.

Lemma mesh_converges_witness : ∃ s,
  @mn_loop hostview (mesh_manager (sample_manager "10.244.1.1")) _
    ([LeaseEvents [mkEvent EventAdded (node_lease 2); mkEvent EventAdded (node_lease 3); mkEvent EventRemoved (node_lease 2)]]
     ++ [HostChange left_host; Tick 5]) (mkMeshNetwork ∅ false (0 + pruneGrace) (mkView ∅ ∅ ∅ None)) = (Ret tt, s) ∧
  is_Some (v_routes (view (mn_host s)) !! (51820, Some (sample_net 3))) ∧
  v_routes (view (mn_host s)) !! (51820, Some (sample_net 9)) = None.
Proof.
  destruct (@mesh_converges hostview (mesh_manager (sample_manager "10.244.1.1")) (mesh_manager_laws _) _ 0
    [LeaseEvents [mkEvent EventAdded (node_lease 2); mkEvent EventAdded (node_lease 3); mkEvent EventRemoved (node_lease 2)]]
    5 (mkView ∅ ∅ ∅ None) left_host) as (s & E & (l & Hl & Hrt) & _).
  - split; [done|]. intros spec Hs. by apply not_elem_of_nil in Hs.
  - constructor; [|constructor]. cbn [input_ok].
    do 3 (constructor; [intros _; split; [by apply sample_net_wf|by vm_compute]|]). constructor.
  - exists sample_link. apply left_host_ready.
  - by left.
  - exists s. split; [exact E|].
    split.
    + exists (Link_Index l). etransitivity; [apply (rt_routes _ _ _ _ Hrt (sample_net 3)); by vm_compute|].
      by rewrite decide_True by (by vm_compute).
    + etransitivity; [apply (rt_routes _ _ _ _ Hrt (sample_net 9)); by vm_compute|by vm_compute].
Defined.

Lemma no_prune_before_sync_witness : ∃ s,
  @mn_loop hostview (mesh_manager (sample_manager "10.244.1.1")) _ [Tick 30; Tick 59000000000]
    (mkMeshNetwork ∅ false (0 + pruneGrace) left_host) = (Ret tt, s) ∧ mn_desired s = ∅ ∧ mn_host s = left_host.
Proof.
  apply (@no_prune_before_sync hostview (mesh_manager (sample_manager "10.244.1.1")) _ 0 [Tick 30; Tick 59000000000] left_host).
  repeat constructor; by vm_compute.
Defined.

Lemma mesh_follows_manager_witness : ∃ sent D s,
  WatchLeases (Some (node_lease 1)) [[mkLeaseWatchResult [] [node_lease 1; node_lease 2; foreign_lease] (Some 1)]] = Ret sent ∧
  @mn_loop hostview (mesh_manager (sample_manager "10.244.1.1")) _ ((LeaseEvents <$> sent) ++ [HostChange left_host; Tick 5])
    (mkMeshNetwork ∅ false (0 + pruneGrace) left_host) = (Ret tt, s) ∧ sample_net 2 ∈ D ∧ (sample_net 1 ∉ D) ∧ (sample_net 4 ∉ D) ∧
  ∃ link, routed (sample_manager "10.244.1.1") link D (view (mn_host s)).
Proof.
  set (chan := [[mkLeaseWatchResult [] [node_lease 1; node_lease 2; foreign_lease] (Some 1)]]).
  assert (∃ sent, WatchLeases (Some (node_lease 1)) chan = Ret sent ∧ sent ≠ []) as (sent & Hsent & Hne)
    by (eexists; by vm_compute).
  assert (mesh_ok (sample_manager "10.244.1.1") left_host) as Hok by (split; [done|apply left_host_ready]).
  destruct (mesh_follows_manager hostview (sample_manager "10.244.1.1") sample_kind (node_lease 1) chan sent 0 (LeaseEvents <$> sent) 5
    left_host left_host) as (D & s & E & HD & l & Hl & Hrt).
  - repeat constructor; try done; apply (bool_decide_unpack _); by vm_compute.
  - repeat constructor; try done; try (by apply sample_net_wf); by vm_compute.
  - done.
  - clear. induction sent as [|b sent IH]; [done|]. cbn. by rewrite <- IH at 2.
  - done.
  - apply list.Forall_forall. intros i (b & -> & _)%list_elem_of_fmap. done.
  - exists sample_link. apply left_host_ready.
  - by left.
  - exists sent, D, s. split_and!; [done|exact E|apply HD; by vm_compute|intros (_ & _ & F)%HD; by destruct F|intros (_ & F & _)%HD; by vm_compute in F|].
    by exists (Link_Index l).
Defined.
