(* ===== verification/MeshSetup.v ===== *)
(** * Setting up the route manager of the mesh

    What [newLocalRouteManager] of [routes_linux.go] accepts: from any text of the
    mesh network, whatever it is written like, a manager is only made when the mesh
    is apart from the cluster network and the node's pods are inside it. *)

From Stdlib Require Import ZArith Lia Ascii.
From stdpp Require Import base strings list gmap numbers.
From S2P Require Import Prelude GoStrings GoNet GoNetFacts Ip4 Lease MeshRoutes MeshRoutesFacts.

Local Open Scope Z_scope.

(** ** Networks that were read *)

(** [d] denotes the network [n]; its mask may be an IPv6 one. *)
Definition denotes (d : IPNet) (n : IP4Net) : Prop :=
  IP4Net_ok n ∧ IPNet_IP d = octet_list (IP4Net_IP n) ∧
  networkNumberAndMask d = Some (octet_list (IP4Net_IP n), CIDRMask (IP4Net_PrefixLen n) 32).

Lemma mask_tail p : 0 <= p <= 128 → drop 12 (CIDRMask p 128) = CIDRMask (Z.max 0 (p - 96)) 32.
Proof.
  intros Hp. assert (forallb (λ p, bool_decide (drop 12 (CIDRMask p 128) = CIDRMask (Z.max 0 (p - 96)) 32)) (seqZ 0 129) = true) as Hall
    by (vm_compute; reflexivity).
  rewrite forallb_forall in Hall. eapply bool_decide_eq_true, Hall. apply list_elem_of_In, elem_of_seqZ. lia.
Qed.

Lemma parseCIDR_denotes s d : parseCIDR s = Ret d → ∃ n, denotes d n.
Proof.
  unfold parseCIDR, ParseCIDR. destruct (cut_slash s) as [[addr mask]|]; [|done].
  destruct (ParseAddr addr) as [a|] eqn:Ea; [|done]. destruct (parse_uint 10 mask) as [p|] eqn:Ep; [|done].
  apply ParseAddr_wf in Ea. apply parse_uint_bound in Ep; [|lia].
  destruct (Z.leb_spec p (BitLen a)) as [Hp|]; [|done]. case_decide as Hne; [done|]. intros [= <-]. cbn [IPNet_Mask].
  set (q := To4 (As16 a)) in *.
  assert (length q = 4%nat) as Hl by (by apply To4_nonempty).
  assert (Forall is_byte q) as Hb.
  { apply To4_bytes. destruct a as [x|x], Ea as [_ Hx]; cbn [As16]; [|done]. apply Forall_app_2; [|done].
    repeat constructor; unfold is_byte; lia. }
  destruct (octets_of_bytes q Hl Hb) as [Hok Hq].
  assert (∃ pl, 0 <= pl <= 32 ∧ networkNumberAndMask (mkIPNet q (CIDRMask p (BitLen a))) = Some (q, CIDRMask pl 32)) as (pl & Hpl & En).
  { unfold networkNumberAndMask. cbn [IPNet_IP IPNet_Mask]. rewrite (To4_4 q Hl).
    rewrite !(decide_False (P := q = [])) by (intros E; by rewrite E in Hl). destruct a as [x|x]; cbn [BitLen] in *.
    - exists p. split; [lia|]. rewrite decide_True; [done|].
      split; [done|]. rewrite (CIDRMask_length 32 p (or_introl eq_refl)) by lia. done.
    - exists (Z.max 0 (p - 96)). split; [lia|].
      pose proof (CIDRMask_length 128 p (or_intror eq_refl) ltac:(lia)) as Hlm. change (Z.to_nat (128 / 8)) with 16%nat in Hlm.
      rewrite decide_False by (rewrite Hlm; intros []; done). rewrite decide_True by done. by rewrite mask_tail by lia. }
  exists (mkIP4Net (be_val q) pl). split; [split; [done|cbn; lia]|]. cbn [IP4Net_IP IP4Net_PrefixLen IPNet_IP]. by rewrite Hq.
Qed.

Lemma octets_land n x : IP4Net_ok n → IP4_ok x →
  be_val (zip_with Z.land (octet_list x) (CIDRMask (IP4Net_PrefixLen n) 32)) = Z.land x (IP4Net_Mask n) ∧
  Forall is_byte (zip_with Z.land (octet_list x) (CIDRMask (IP4Net_PrefixLen n) 32)) ∧
  length (zip_with Z.land (octet_list x) (CIDRMask (IP4Net_PrefixLen n) 32)) = 4%nat.
Proof.
  intros [Hip Hp] Hx. pose proof (CIDRMask_length 32 _ (or_introl eq_refl) Hp) as Hl.
  pose proof (CIDRMask_bytes 32 _ (or_introl eq_refl) Hp) as Hb.
  pose proof (octet_list_bytes _ Hx) as Ho. pose proof (length_octet_list x) as Hlo. split_and!.
  - rewrite be_val_land, CIDRMask_val by (auto; by rewrite Hl, Hlo).
    by rewrite octet_list_be, be_val_bytes_small, IP4Net_Mask_ok.
  - apply land_bytes; [done..|by rewrite Hl, Hlo].
  - by rewrite length_zip_with, Hl, Hlo.
Qed.

(** [Contains] decides membership in the network that is denoted. *)
Lemma Contains_denotes d n x : denotes d n → IP4_ok x →
  IPNet_Contains d (octet_list x) = true ↔ IP4Net_addr n x.
Proof.
  intros (Hn & _ & En) Hx. unfold IPNet_Contains. rewrite En, (To4_4 (octet_list x)) by apply length_octet_list.
  pose proof (length_octet_list x) as Hl. rewrite decide_False by (intros E; by rewrite E in Hl).
  rewrite !length_octet_list, bool_decide_eq_true_2 by done. cbn [andb]. rewrite bool_decide_eq_true.
  rewrite <- IP4Net_Contains_addr by done. unfold IP4Net_Contains. rewrite Z.eqb_eq.
  destruct (octets_land n x Hn Hx) as (Ex & Hbx & Hlx), (octets_land n (IP4Net_IP n) Hn (proj1 Hn)) as (Ei & Hbi & Hli).
  rewrite <- Ex, <- Ei. split; [by intros ->|]. intros E. apply be_val_inj; [done..|congruence|done].
Qed.

Lemma cidrsOverlap_denotes d d' n n' : denotes d n → denotes d' n' →
  cidrsOverlap d d' = true ↔ ∃ x, IP4Net_addr n x ∧ IP4Net_addr n' x.
Proof.
  intros Hd Hd'. pose proof Hd as (Hn & Ei & _). pose proof Hd' as (Hn' & Ei' & _). unfold cidrsOverlap.
  rewrite Ei, Ei', orb_true_iff, !Contains_denotes by (done || apply Hn || apply Hn'). split.
  - intros [Ha|Ha]; [exists (IP4Net_IP n')|exists (IP4Net_IP n)]; auto using IP4Net_addr_self.
  - intros (x & Hx & Hx'). destruct (Z.le_ge_cases (IP4Net_PrefixLen n) (IP4Net_PrefixLen n')).
    + left. apply (IP4Net_addr_nested n n' x); auto using IP4Net_addr_self.
    + right. apply (IP4Net_addr_nested n' n x); auto using IP4Net_addr_self.
Qed.

(** ** The first and the last address *)

Lemma not_byte m : is_byte m → Z.lxor m 255 = 255 - m.
Proof.
  intros Hm. assert (forallb (λ m, Z.lxor m 255 =? 255 - m) (seqZ 0 256) = true) as Hall by (vm_compute; reflexivity).
  rewrite forallb_forall in Hall. apply Z.eqb_eq, Hall, list_elem_of_In, elem_of_seqZ. unfold is_byte in Hm. lia.
Qed.

Lemma or_not_byte b m : is_byte b → is_byte m → Z.land b m = b → Z.lor b (Z.lxor m 255) = b + 255 - m.
Proof.
  intros Hb Hm E. assert (Z.land b (Z.lxor m 255) = 0) as E0.
  { rewrite <- E. rewrite <- Z.land_assoc. apply Z.bits_inj'. intros i Hi. rewrite !Z.land_spec, Z.lxor_spec, Z.bits_0.
    change 255 with (Z.ones 8). destruct (Z.ltb_spec i 8).
    - rewrite Z.ones_spec_low by lia. by destruct (Z.testbit b i), (Z.testbit m i).
    - rewrite (testbit_above 8 b) by (unfold is_byte in Hb; lia). done. }
  pose proof (Z.add_lor_land b (Z.lxor m 255)) as Ea. rewrite E0, not_byte in * by done. lia.
Qed.

Lemma land_le b m : 0 <= b → 0 <= m → Z.land b m <= m.
Proof.
  intros Hb Hm. rewrite <- (Z2N.id b), <- (Z2N.id m), <- N2Z.inj_land by done. apply N2Z.inj_le, N.land_le_r.
Qed.

Lemma or_not_spec ip mask : Forall is_byte ip → Forall is_byte mask → length ip = length mask →
  zip_with Z.land ip mask = ip →
  ∃ r, or_not ip mask = Ret r ∧ Forall is_byte r ∧ length r = length ip ∧
    be_val r = be_val ip + 256 ^ Z.of_nat (length ip) - 1 - be_val mask.
Proof.
  revert mask. induction ip as [|b ip IH]; intros [|m mask] Hb Hm Hl E; try done; [by exists []|].
  apply list.Forall_cons in Hb as [Hb0 Hb]. apply list.Forall_cons in Hm as [Hm0 Hm]. cbn in Hl. injection Hl as Hl.
  cbn in E. injection E as E0 E. destruct (IH mask Hb Hm Hl E) as (r & Er & Hr & Hlr & Ev).
  exists (Z.lor b (Z.lxor m 255) :: r). cbn [or_not]. rewrite Er. rewrite or_not_byte by done. split_and!; [done| |cbn; congruence|].
  - constructor; [|done]. unfold is_byte in *. pose proof (land_le b m) as Hle. rewrite E0 in Hle. lia.
  - cbn [be_val length]. rewrite Hlr, Ev, <- Hl, pow256_S. ring.
Qed.

(** A network as [parseCIDR] gives it: four bytes and a mask of four. *)
Definition parsed (d : IPNet) (n : IP4Net) : Prop :=
  wf_net n ∧ IPNet_IP d = octet_list (IP4Net_IP n) ∧ IPNet_Mask d = CIDRMask (IP4Net_PrefixLen n) 32.

Lemma parsed_denotes d n : parsed d n → denotes d n.
Proof.
  intros (Hn & Ei & Em). split; [apply Hn|]. split; [done|]. apply networkNumber_is. split; [done|]. split; [|done].
  rewrite Ei. apply To4_4, length_octet_list.
Qed.

Lemma parseCIDR_parsed n : wf_net n → ∃ d, parseCIDR (IP4Net_String n) = Ret d ∧ parsed d n.
Proof.
  intros Hn. pose proof Hn as [Hok _]. unfold parseCIDR. rewrite ParseCIDR_IP4Net, To4_ToIP by done.
  pose proof (length_octet_list (IP4Net_IP n)) as Hlo. rewrite decide_False by (intros E; by rewrite E in Hlo).
  by eexists.
Qed.

Lemma lastIPv4_spec d n : parsed d n → lastIPv4 d = Ret (octet_list (IP4Net_IP n + IP4Net_size n - 1)).
Proof.
  intros (Hn & Ei & Em). pose proof Hn as [[Hip Hp] _]. unfold lastIPv4. rewrite Ei, Em, To4_4 by apply length_octet_list.
  pose proof (CIDRMask_length 32 _ (or_introl eq_refl) Hp) as Hl. pose proof (length_octet_list (IP4Net_IP n)) as Hlo.
  destruct (or_not_spec (octet_list (IP4Net_IP n)) (CIDRMask (IP4Net_PrefixLen n) 32)) as (r & -> & Hb & Hlr & Ev);
    [by apply octet_list_bytes|by apply CIDRMask_bytes; [left|]|by rewrite Hl, Hlo|by apply octet_list_masked|].
  rewrite Hlo in *. destruct (octets_of_bytes r Hlr Hb) as [_ <-]. do 2 f_equal. rewrite Ev, CIDRMask_val by auto.
  rewrite octet_list_be, be_val_bytes_small by done. unfold high_ones, IP4Net_size.
  change (256 ^ Z.of_nat 4) with (2 ^ 32). lia.
Qed.

Lemma incr_from_bytes l : Forall is_byte l → Forall is_byte (incr_from l) ∧ length (incr_from l) = length l.
Proof.
  induction 1 as [|b l Hb Hl [IH IHl]]; [done|]. cbn [incr_from].
  assert (is_byte (u8 (b + 1))) by (apply Z.mod_pos_bound; lia). destruct (u8 (b + 1) =? 0); split; cbn; try constructor; auto.
Qed.

Lemma incr_octets x : IP4_ok x →
  ∃ y, IP4_ok y ∧ incr (octet_list x) = octet_list y ∧ y ≠ x ∧ (x mod 256 < 255 → y = x + 1).
Proof.
  intros Hx. pose proof (octet_list_bytes x Hx) as Hb. pose proof (length_octet_list x) as Hl.
  assert (be_val (octet_list x) = x) as Ex by (by rewrite octet_list_be, be_val_bytes_small).
  destruct (octet_list x) as [|a [|b [|c [|d [|]]]]]; try done.
  assert (Forall is_byte (incr [a; b; c; d]) ∧ length (incr [a; b; c; d]) = 4%nat) as [Hbi Hli].
  { unfold incr. destruct (incr_from_bytes (rev [a; b; c; d])) as [Hr E]; [by apply Forall_rev|].
    split; [by apply Forall_rev|by rewrite length_rev, E]. }
  destruct (octets_of_bytes _ Hli Hbi) as [Hy Ey]. exists (be_val (incr [a; b; c; d])). split; [done|]. split; [done|].
  rewrite !list.Forall_cons in Hb. destruct Hb as (Ha & Hb & Hc & Hd & _). unfold is_byte in *. cbn in Ex.
  assert (x = d + (a * 65536 + b * 256 + c) * 256) as Ex' by lia.
  assert (x mod 256 = d) as Em by (rewrite Ex', Z.mod_add by lia; apply Z.mod_small; lia).
  assert (∃ k, be_val (incr [a; b; c; d]) = k * 256 + u8 (d + 1)) as (k & Ek).
  { unfold incr. cbn [rev app incr_from]. destruct (u8 (d + 1) =? 0); [destruct (u8 (c + 1) =? 0); [destruct (u8 (b + 1) =? 0);
      [destruct (u8 (a + 1) =? 0)|]|]|]; cbn [rev app];
      match goal with |- ∃ k, be_val [?p; ?q; ?r; _] = _ => exists (p * 65536 + q * 256 + r) end; cbn; lia. }
  split.
  - intros E. rewrite E in Ek. apply (f_equal (λ z, z mod 256)) in Ek. rewrite Em, Z.add_comm, Z.mod_add in Ek by lia.
    unfold wrap in Ek. change (2 ^ 8) with 256 in Ek. rewrite Z.mod_mod in Ek by lia.
    destruct (decide (d = 255)) as [->|]; [done|]. rewrite Z.mod_small in Ek by lia. lia.
  - intros Hlt. unfold incr. cbn [rev app incr_from]. unfold wrap. change (2 ^ 8) with 256.
    rewrite Em in Hlt. rewrite (Z.mod_small (d + 1)) by lia. rewrite (proj2 (Z.eqb_neq (d + 1) 0)) by lia.
    cbn [rev app be_val length]. rewrite <- Ex. cbn. lia.
Qed.

Lemma Equal_octets x y : IP4_ok x → IP4_ok y → Equal (octet_list x) (octet_list y) = bool_decide (x = y).
Proof.
  intros Hx Hy. unfold Equal. rewrite !length_octet_list, decide_True by done. apply bool_decide_ext.
  split; [|by intros ->]. rewrite !octet_list_be by done. intros E. apply (f_equal be_val) in E.
  by rewrite !be_val_bytes_small in E.
Qed.

(** A node's network has a gateway address when it has at least four addresses. *)
Lemma firstUsableIPv4_spec d n : parsed d n →
  if decide (IP4Net_PrefixLen n <= 30)
  then firstUsableIPv4 d = Ret (octet_list (IP4Net_IP n + 1)) ∧ IP4Net_addr n (IP4Net_IP n + 1)
  else ∃ e, firstUsableIPv4 d = Err e.
Proof.
  intros Hd. pose proof (parsed_denotes d n Hd) as Hden. pose proof Hd as ([Hn Hal] & Ei & Em). pose proof Hn as [Hip Hp].
  pose proof (IP4Net_first_aligned n Hn Hal) as Ef. pose proof (length_octet_list (IP4Net_IP n)) as Hl.
  unfold firstUsableIPv4. rewrite Ei, To4_4 by done.
  rewrite (decide_False (P := octet_list _ = [])) by (intros E; by rewrite E in Hl).
  destruct (incr_octets (IP4Net_IP n) Hip) as (y & Hy & -> & Hne & Hinc).
  assert (IP4Net_addr n y ↔ IP4Net_IP n <= y < IP4Net_IP n + IP4Net_size n) as Ha by (unfold IP4Net_addr; by rewrite Ef).
  assert (IP4Net_PrefixLen n <= 31 → y = IP4Net_IP n + 1) as Hy1.
  { intros Hle. apply Hinc. clear -Hle Hal Hp. unfold IP4Net_aligned, IP4Net_size in Hal.
    assert (2 ^ (32 - IP4Net_PrefixLen n) = 2 * 2 ^ (31 - IP4Net_PrefixLen n)) as E2
      by (rewrite <- Z.pow_succ_r by lia; f_equal; lia).
    assert (2 ^ (32 - IP4Net_PrefixLen n) ≠ 0) as Hnz by (apply Z.pow_nonzero; lia).
    apply Z.mod_divide in Hal as [q Hq]; [|done]. rewrite E2 in Hq. assert (Z.even (IP4Net_IP n) = true) as Hev.
    { rewrite Hq. replace (q * (2 * 2 ^ (31 - IP4Net_PrefixLen n))) with (2 * (q * 2 ^ (31 - IP4Net_PrefixLen n))) by ring.
      by rewrite Z.even_mul. }
    pose proof (Z.mod_pos_bound (IP4Net_IP n) 256 ltac:(lia)). destruct (decide (IP4Net_IP n mod 256 = 255)) as [E|]; [|lia].
    pose proof (Z.div_mod (IP4Net_IP n) 256 ltac:(lia)) as Hdm. rewrite E in Hdm. rewrite Hdm in Hev.
    rewrite Z.even_add, Z.even_mul in Hev. done. }
  rewrite (lastIPv4_spec d n Hd). destruct (decide (IP4Net_PrefixLen n <= 30)) as [Hle|Hgt].
  - assert (4 <= IP4Net_size n) by (unfold IP4Net_size; change 4 with (2 ^ 2); apply Z.pow_le_mono_r; lia).
    rewrite Hy1 in * by lia. assert (IP4Net_addr n (IP4Net_IP n + 1)) as Hin by (apply Ha; lia).
    split; [|done]. rewrite (proj2 (Contains_denotes d n _ Hden Hy) Hin). cbn [negb mbind outcome_bind].
    assert (IP4_ok (IP4Net_IP n + IP4Net_size n - 1)) by (rewrite <- Ef; apply (IP4Net_addr_ok n); [done|by apply IP4Net_addr_last]).
    rewrite Equal_octets by done. by rewrite bool_decide_eq_false_2 by lia.
  - destruct (IPNet_Contains d (octet_list y)) eqn:Ec; cbn [negb]; [|by eexists].
    apply (Contains_denotes d n y Hden Hy) in Ec. apply Ha in Ec. cbn [mbind outcome_bind].
    assert (IP4_ok (IP4Net_IP n + IP4Net_size n - 1)) by (rewrite <- Ef; apply (IP4Net_addr_ok n); [done|by apply IP4Net_addr_last]).
    rewrite Equal_octets by done.
    assert (y = IP4Net_IP n + IP4Net_size n - 1) as ->; [|rewrite bool_decide_eq_true_2 by done; by eexists].
    destruct (decide (IP4Net_PrefixLen n = 31)) as [E|].
    + rewrite Hy1 by lia. unfold IP4Net_size. rewrite E. lia.
    + unfold IP4Net_size in *. replace (IP4Net_PrefixLen n) with 32 in * by lia. cbn in Ec. lia.
Qed.

(** ** What the constructor accepts *)

Lemma IPNet_String_denotes d n : denotes d n → IPNet_String d = IP4Net_String n.
Proof.
  intros ([Hip Hp] & _ & En). unfold IPNet_String. rewrite En, CIDRMask_simple by auto.
  replace (IP4Net_PrefixLen n =? -1) with false by (symmetry; apply Z.eqb_neq; lia).
  unfold IP4Net_String, IP4_String, IP_String. rewrite To4_ToIP, (To4_4 (octet_list _)) by apply length_octet_list.
  pose proof (length_octet_list (IP4Net_IP n)) as Hlo. pose proof (length_ToIP (IP4Net_IP n)) as Hl16.
  rewrite !(decide_False (P := _ = [])) by (intros E; by rewrite E in *). done.
Qed.

Lemma IP4Net_String_not_flag n : IP4Net_ok n → IP4Net_String n ≠ "-d".
Proof. intros Hn E. pose proof (ParseCIDR_IP4Net n Hn) as P. by rewrite E in P. Qed.

Lemma IP_String_octets x : IP_String (octet_list x) = IP4_String x.
Proof.
  unfold IP4_String, IP_String. rewrite To4_ToIP, (To4_4 (octet_list _)) by apply length_octet_list.
  pose proof (length_octet_list x) as Hlo. pose proof (length_ToIP x) as Hl16.
  by rewrite !(decide_False (P := _ = [])) by (intros E; by rewrite E in *).
Qed.

Section setup.
Context {W : Type} `{MeshLaws W, MapOrder}.
Implicit Types (w : W).

Lemma parsing_inv {A} (o : outcome A) f (w w' : W) a : parsing o f w = (Ret a, w') → o = Ret a ∧ w' = w.
Proof. unfold parsing. destruct o; cbn; [|done|done]. intros E. unfold lift in E. by simplify_eq. Qed.

Lemma try_ok {A} (c : M W A) w x w' : try c w = (Ret x, w') →
  (∃ a, x = inl a ∧ c w = (Ret a, w')) ∨ (∃ e, x = inr e ∧ c w = (Err e, w')).
Proof. unfold try. destruct (c w) as [[a|e|] w1]; intros [= <- <-]; [left|right]; eauto. Qed.

Lemma ensureMeshRoute_run m l d g w name : net_is d g → v_links (view w) !! name = Some l →
  ∃ w', ensureMeshRoute m l d w = (Ret tt, w') ∧
    view w' = set_rules (union {[(meshRulePriority, rm_table m, Some g)]})
                (set_routes (<[(rm_table m, Some g) := Link_Index l]>) (view w)).
Proof.
  intros Hd Hl. unfold ensureMeshRoute. destruct (law_RouteReplace d g name l (rm_table m) w Hd Hl) as (w1 & E1 & V1).
  rewrite (M_bind_Ret _ _ _ _ _ (returning_Ret _ _ _ _ _ _ E1)).
  pose proof (law_RuleAdd (mkMeshRule meshRulePriority (rm_table m) (Some d)) (meshRulePriority, rm_table m, Some g) w1 ltac:(done)) as Hadd.
  destruct (decide _) as [Hin|Hin].
  - destruct Hadd as (e & E & Ee). exists w1. split; [by eapply returning_ign|].
    rewrite V1 in *. unfold set_rules. cbn in *. by rewrite subseteq_union_1_L by set_solver.
  - destruct Hadd as (w' & E & V). exists w'. split; [by eapply returning_Ret|]. by rewrite V, V1.
Qed.
End setup.

(** When a route manager is made, the mesh network shares no address with the cluster
    network, every address of the node's pod network lies in the cluster network, the
    SNAT address is the first of the pod network after its own, which has at least four
    addresses, and, the mesh network being written as the first address of its block,
    the table routes it through the interface and a policy rule selects it. *)
Theorem newLocalRouteManager_sound W `{MeshLaws W, MapOrder} cfg meshIP clusterCIDR n m (w w' : W) :
  wf_net n → newLocalRouteManager cfg meshIP clusterCIDR (IP4Net_String n) w = (Ret m, w') →
  ∃ dg g dc c, parseCIDR (cfg_MeshCIDR cfg) = Ret dg ∧ denotes dg g ∧ parseCIDR clusterCIDR = Ret dc ∧ denotes dc c ∧
    (¬ ∃ x, IP4Net_addr g x ∧ IP4Net_addr c x) ∧ (∀ x, IP4Net_addr n x → IP4Net_addr c x) ∧
    IP4Net_PrefixLen n <= 30 ∧ rm_localSNATIP m = IP4_String (IP4Net_IP n + 1) ∧ IP4Net_addr n (IP4Net_IP n + 1) ∧
    rm_clusterCIDR m ≠ "-d" ∧
    (net_is dg g → ∃ l, v_links (view w) !! cfg_InterfaceName cfg = Some l ∧
       v_routes (view w') !! (cfg_RouteTable cfg, Some g) = Some (Link_Index l) ∧
       (meshRulePriority, cfg_RouteTable cfg, Some g) ∈ v_rules (view w')).
Proof.
  intros Hn Hrun. unfold newLocalRouteManager in Hrun. apply M_bind_inv in Hrun as (rl & w1 & Hlink & Hrun).
  pose proof (law_LinkByName (cfg_InterfaceName cfg) w) as Hlaw.
  apply try_ok in Hlink as [(l & -> & El)|(e & -> & _)]; [|done].
  destruct (v_links (view w) !! cfg_InterfaceName cfg) as [l'|] eqn:Ev; [|destruct Hlaw as (e & E); congruence].
  destruct Hlaw as [E _]. rewrite E in El. injection El as -> <-.
  apply M_bind_inv in Hrun as (dg & w2 & [Eg ->]%parsing_inv & Hrun).
  apply M_bind_inv in Hrun as ([] & w3 & [_ ->]%check_inv & Hrun).
  apply M_bind_inv in Hrun as (dc & w4 & [Ec ->]%parsing_inv & Hrun).
  apply M_bind_inv in Hrun as ([] & w5 & [Hov ->]%check_inv & Hrun).
  apply M_bind_inv in Hrun as (dl & w6 & [Edl ->]%parsing_inv & Hrun).
  destruct (parseCIDR_parsed n Hn) as (dl' & Edl' & Hdl). rewrite Edl in Edl'. injection Edl' as <-.
  apply M_bind_inv in Hrun as ([] & w7 & [Hin1%negb_false_iff ->]%check_inv & Hrun).
  apply M_bind_inv in Hrun as (last & w8 & [Elast ->]%lift_inv & Hrun).
  apply M_bind_inv in Hrun as ([] & w9 & [Hin2%negb_false_iff ->]%check_inv & Hrun).
  apply M_bind_inv in Hrun as (snat & w10 & [Esnat ->]%lift_inv & Hrun).
  rewrite (M_bind_Ret _ _ _ _ _ (try_Ret _ _ _ _ (law_ipt_New w))) in Hrun. rewrite run_ret in Hrun. cbv zeta in Hrun.
  apply M_bind_inv in Hrun as ([] & w11 & Hroute & [= <- <-]).
  destruct (parseCIDR_denotes _ _ Eg) as (g & Hg), (parseCIDR_denotes _ _ Ec) as (c & Hc).
  pose proof (firstUsableIPv4_spec dl n Hdl) as Hfirst. destruct (decide _) as [Hp|]; [|destruct Hfirst as (e & E'); congruence].
  destruct Hfirst as [E1 Hin]. rewrite Esnat in E1. rewrite (lastIPv4_spec dl n Hdl) in Elast. simplify_eq.
  pose proof Hdl as ([Hok Hal] & Eil & _). pose proof (IP4Net_first_aligned n Hok Hal) as Ef. pose proof (IP4Net_addr_last n Hok) as Hlast.
  exists dg, g, dc, c. split_and!; [done|done|done|done| | |done|apply IP_String_octets|done| |].
  - rewrite <- (cidrsOverlap_denotes dg dc) by done. by rewrite Hov.
  - rewrite Eil in Hin1. apply (Contains_denotes dc c) in Hin1; [|done|apply Hok].
    apply (Contains_denotes dc c) in Hin2; [|done|rewrite <- Ef; by apply (IP4Net_addr_ok n)].
    intros x. unfold IP4Net_addr in *. rewrite Ef. lia.
  - cbn. rewrite (IPNet_String_denotes dc c Hc). apply IP4Net_String_not_flag. apply Hc.
  - intros Hgn. exists l. split; [done|].
    match type of Hroute with ensureMeshRoute ?mg _ _ _ = _ =>
      destruct (ensureMeshRoute_run mg l dg g w (cfg_InterfaceName cfg) Hgn Ev) as (w'' & E2 & V) end.
    rewrite E2 in Hroute. simplify_eq. rewrite V. cbn. split; [by rewrite lookup_insert_eq|set_solver].
Qed.

Lemma newLocalRouteManager_sound_witness : ∃ m w',
  newLocalRouteManager (mkRouteCfg "flannel.mesh" "100.96.0.0/12" 51820) (IP4_ToIP 1684013057) "10.244.0.0/16"
    (IP4Net_String (sample_net 1)) (sample_host []) = (Ret m, w') ∧ rm_localSNATIP m = "10.244.1.1".
Proof.
  assert (∃ m w', newLocalRouteManager (mkRouteCfg "flannel.mesh" "100.96.0.0/12" 51820) (IP4_ToIP 1684013057) "10.244.0.0/16"
    (IP4Net_String (sample_net 1)) (sample_host []) = (Ret m, w')) as (m & w' & E) by (eexists _, _; vm_compute; reflexivity).
  exists m, w'. split; [exact E|].
  destruct (newLocalRouteManager_sound hostview _ _ _ (sample_net 1) m _ w' (sample_net_wf 1 ltac:(lia)) E)
    as (dg & g & dc & c & _ & _ & _ & _ & _ & _ & _ & Hs & _). rewrite Hs. by vm_compute.
Defined.
