(* ===== verification/MeshTransport.v ===== *)
(** * [tunbuffer.go] and the supervisor of [masque_linux.go]: buffers and reconnects

    The transmit path of the mesh moves buffers from a bounded pool to the TUN reader,
    to the outbound queue, to the writer of a session and back.  The goroutines are a
    step relation on who owns which buffer; [get] and [put] of the pool are functions.
    The reconnect supervisor's delays are a function of how long the sessions lasted. *)

From Stdlib Require Import ZArith Lia.
From stdpp Require Import base list numbers relations.
From S2P Require Import Prelude.

Local Open Scope Z_scope.

Definition tunHeadroom : Z := 1.
Definition outboundQueueDepth : nat := 256.
Definition tunBufferPoolSize : nat := (outboundQueueDepth + 32)%nat.

(** A byte slice that starts at the front of its array: which array, its capacity and
    its length. *)
Record buffer := mkBuffer { buf_array : nat; buf_cap : Z; buf_len : Z }.
#[global] Instance buffer_eq_dec : EqDecision buffer.
Proof. solve_decision. Defined.

(** [buf[:n]]. *)
Definition reslice (b : buffer) (n : Z) : outcome buffer :=
  if (0 <=? n) && (n <=? buf_cap b) then Ret (mkBuffer (buf_array b) (buf_cap b) n) else Panic.

(** ** The pool *)

(** The freelist is a channel of a capacity. *)
Record tunBufferPool := mkPool { pool_free : list buffer; pool_count : nat; pool_size : Z }.

Definition newTUNBufferPool (count : nat) (mtu : Z) : tunBufferPool :=
  let size := mtu + tunHeadroom in
  mkPool ((λ i, mkBuffer i size size) <$> seq 0 count) count size.

(** [get] when a buffer is free; it blocks otherwise. *)
Definition pool_get (p : tunBufferPool) : option (outcome (buffer * tunBufferPool)) :=
  match pool_free p with
  | [] => None
  | b :: free => Some (b ← reslice b (pool_size p); Ret (b, mkPool free (pool_count p) (pool_size p)))
  end.

Definition pool_put (p : tunBufferPool) (b : buffer) : outcome tunBufferPool :=
  if buf_cap b <? pool_size p then Ret p
  else
    b ← reslice b (pool_size p);
    Ret (if decide (length (pool_free p) < pool_count p)%nat
         then mkPool (pool_free p ++ [b]) (pool_count p) (pool_size p) else p).

(** ** Who owns the buffers *)

(** The reader between [get] and the queue, the queue, and the writer between the queue
    and [put]; the reader stops for good when the device or the context ends. *)
Record pump := mkPump {
  pu_pool : tunBufferPool;
  pu_reader : option buffer;
  pu_stopped : bool;
  pu_queue : list buffer;
  pu_closed : bool;
  pu_writer : option buffer
}.

Inductive pump_step : pump → pump → Prop :=
(** the reader takes a buffer *)
| step_get p p' b q c w : pool_get p = Some (Ret (b, p')) →
    pump_step (mkPump p None false q c w) (mkPump p' (Some b) false q c w)
(** the context ends while the reader waits for a buffer *)
| step_get_done p q c w : pump_step (mkPump p None false q c w) (mkPump p None true q c w)
(** the device fails: the buffer goes back and the queue is closed *)
| step_read_fail p p' b q w : pool_put p b = Ret p' →
    pump_step (mkPump p (Some b) false q false w) (mkPump p' None true q true w)
(** [n] bytes were read and the queue has room *)
| step_send p b b' n q w : 0 <= n <= pool_size p - tunHeadroom → reslice b (tunHeadroom + n) = Ret b' →
    (length q < outboundQueueDepth)%nat →
    pump_step (mkPump p (Some b) false q false w) (mkPump p None false (q ++ [b']) false w)
(** the context ends while the reader waits for the queue *)
| step_send_done p p' b q c w : pool_put p b = Ret p' →
    pump_step (mkPump p (Some b) false q c w) (mkPump p' None true q c w)
(** the writer of the current session takes a packet *)
| step_receive p r s b q c : pump_step (mkPump p r s (b :: q) c None) (mkPump p r s q c (Some b))
(** the packet was sent, or sending it failed: either way the buffer goes back *)
| step_sent p p' r s q c b : pool_put p b = Ret p' →
    pump_step (mkPump p r s q c (Some b)) (mkPump p' r s q c None).

Definition pump_init (mtu : Z) : pump := mkPump (newTUNBufferPool tunBufferPoolSize mtu) None false [] false None.

(** Every buffer with its owner. *)
Definition owned (s : pump) : list buffer :=
  pool_free (pu_pool s) ++ option_list (pu_reader s) ++ pu_queue s ++ option_list (pu_writer s).

Definition pump_inv (mtu : Z) (s : pump) : Prop :=
  (buf_array <$> owned s) ≡ₚ seq 0 tunBufferPoolSize ∧
  Forall (λ b, buf_cap b = mtu + tunHeadroom) (owned s) ∧
  (length (pu_queue s) <= outboundQueueDepth)%nat ∧
  pool_count (pu_pool s) = tunBufferPoolSize ∧ pool_size (pu_pool s) = mtu + tunHeadroom.

Section pump.
Context (mtu : Z) (Hmtu : 0 <= mtu).

Lemma reslice_ok b n : 0 <= n <= buf_cap b → reslice b n = Ret (mkBuffer (buf_array b) (buf_cap b) n).
Proof.
  intros Hn. unfold reslice. by rewrite (proj2 (Z.leb_le 0 n)), (proj2 (Z.leb_le n (buf_cap b))) by lia.
Qed.

Lemma reslice_inv b n b' : reslice b n = Ret b' → buf_array b' = buf_array b ∧ buf_cap b' = buf_cap b ∧ buf_len b' = n.
Proof. unfold reslice. destruct (_ && _); [|done]. by intros [= <-]. Qed.

Lemma length_owned s : pump_inv mtu s → length (owned s) = tunBufferPoolSize.
Proof. intros (Hp & _). apply Permutation_length in Hp. by rewrite length_fmap, length_seq in Hp. Qed.

(** A pool that has room for what comes back takes it. *)
Lemma put_ok p b : pool_size p = mtu + tunHeadroom → buf_cap b = mtu + tunHeadroom →
  (length (pool_free p) < pool_count p)%nat →
  pool_put p b = Ret (mkPool (pool_free p ++ [mkBuffer (buf_array b) (mtu + tunHeadroom) (mtu + tunHeadroom)]) (pool_count p) (pool_size p)).
Proof.
  intros Hs Hb Hl. unfold pool_put. rewrite Hs, Hb, Z.ltb_irrefl. rewrite reslice_ok by (rewrite Hb; unfold tunHeadroom; lia).
  cbn [mbind outcome_bind]. by rewrite decide_True, Hb by done.
Qed.

(** Moving a buffer between owners keeps every array owned once. *)
Lemma inv_move s s' : pump_inv mtu s → buf_array <$> owned s' ≡ₚ buf_array <$> owned s →
  Forall (λ b, buf_cap b = mtu + tunHeadroom) (owned s') → (length (pu_queue s') <= outboundQueueDepth)%nat →
  pool_count (pu_pool s') = pool_count (pu_pool s) → pool_size (pu_pool s') = pool_size (pu_pool s) → pump_inv mtu s'.
Proof.
  intros (Hp & Hc & Hq & Hn & Hs) Hp' Hc' Hq' Hn' Hs'. split_and!; [by rewrite Hp'|done|done|congruence|congruence].
Qed.

Lemma pump_init_inv : pump_inv mtu (pump_init mtu).
Proof.
  unfold pump_inv, owned, pump_init. cbn [pu_pool pu_reader pu_queue pu_writer option_list].
  change (pool_free (newTUNBufferPool tunBufferPoolSize mtu)) with
    ((λ i, mkBuffer i (mtu + tunHeadroom) (mtu + tunHeadroom)) <$> seq 0 tunBufferPoolSize).
  rewrite !app_nil_r, <- list_fmap_compose. split_and!; [|by apply Forall_fmap, list.Forall_forall|cbn; lia|done|done].
  rewrite (list_fmap_ext _ id); [by rewrite list_fmap_id|done].
Qed.

(** The buffer of the reader or of the writer can always be put back. *)
Lemma put_reader p b st q c w : pump_inv mtu (mkPump p (Some b) st q c w) →
  ∃ p', pool_put p b = Ret p' ∧ (∀ st' c', pump_inv mtu (mkPump p' None st' q c' w)) ∧
    length (pool_free p') = S (length (pool_free p)).
Proof.
  intros Hinv. pose proof (length_owned _ Hinv) as Hl. pose proof Hinv as (Hp & Hc & Hq & Hn & Hs).
  unfold owned in *. cbn [pu_pool pu_reader pu_queue pu_writer option_list] in *.
  rewrite !Forall_app in Hc. destruct Hc as (Hcf & Hcb & Hcq & Hcw). apply list.Forall_cons in Hcb as [Hcb _].
  rewrite !length_app in Hl. change (length (option_list (Some b))) with 1%nat in Hl. eexists. split; [apply put_ok; [done..|rewrite Hn; lia]|].
  cbn [pool_free]. split.
  - intros st' c'. eapply inv_move; [exact Hinv| | |done|done|done]; unfold owned; cbn [pu_pool pu_reader pu_queue pu_writer option_list pool_free].
    + rewrite !fmap_app. cbn. by rewrite <- !app_assoc.
    + rewrite !Forall_app. split_and!; [done| |constructor|done|done]. by repeat constructor.
  - rewrite length_app. cbn. lia.
Qed.

Lemma put_writer p b r st q c : pump_inv mtu (mkPump p r st q c (Some b)) →
  ∃ p', pool_put p b = Ret p' ∧ pump_inv mtu (mkPump p' r st q c None) ∧ length (pool_free p') = S (length (pool_free p)).
Proof.
  intros Hinv. pose proof (length_owned _ Hinv) as Hl. pose proof Hinv as (Hp & Hc & Hq & Hn & Hs).
  unfold owned in *. cbn [pu_pool pu_reader pu_queue pu_writer option_list] in *.
  rewrite !Forall_app in Hc. destruct Hc as (Hcf & Hcr & Hcq & Hcw). apply list.Forall_cons in Hcw as [Hcw _].
  rewrite !length_app in Hl. change (length (option_list (Some b))) with 1%nat in Hl. eexists. split; [apply put_ok; [done..|rewrite Hn; lia]|].
  cbn [pool_free]. split.
  - eapply inv_move; [exact Hinv| | |done|done|done]; unfold owned; cbn [pu_pool pu_reader pu_queue pu_writer option_list pool_free].
    + rewrite !fmap_app. cbn. rewrite app_nil_r, <- !app_assoc. apply Permutation_app_head.
      rewrite Permutation_app_comm, <- app_assoc. done.
    + rewrite !Forall_app. split_and!; [done| |done|done|constructor]. by repeat constructor.
  - rewrite length_app. cbn. lia.
Qed.

Lemma pump_step_inv s s' : pump_inv mtu s → pump_step s s' → pump_inv mtu s'.
Proof.
  intros Hinv Hstep. pose proof Hinv as (Hp & Hc & Hq & Hn & Hs). destruct Hstep; unfold owned in Hp, Hc;
    cbn [pu_pool pu_reader pu_queue pu_writer option_list] in *.
  - unfold pool_get in H. destruct (pool_free p) as [|b0 free] eqn:Ef; [done|]. injection H as H.
    apply bind_inv in H as (b1 & (Ea & Ecap & _)%reslice_inv & [= <- <-]).
    eapply inv_move; [exact Hinv| | |done|done|done]; unfold owned; cbn [pu_pool pu_reader pu_queue pu_writer option_list pool_free]; rewrite ?Ef.
    + rewrite !fmap_app, fmap_cons. cbn. rewrite Ea. by rewrite <- Permutation_middle.
    + rewrite !Forall_app, list.Forall_cons in Hc. destruct Hc as ((Hb0 & Hf) & _ & Hcq & Hcw). rewrite !Forall_app.
      split_and!; [done|by repeat constructor; congruence|done|done].
  - by eapply inv_move.
  - destruct (put_reader _ _ _ _ _ _ Hinv) as (p1 & E & Hi & _). rewrite E in H. simplify_eq. apply Hi.
  - apply reslice_inv in H0 as (Ea & Ecap & _).
    eapply inv_move; [exact Hinv| | | |done|done]; unfold owned; cbn [pu_pool pu_reader pu_queue pu_writer option_list pool_free].
    + rewrite !fmap_app. cbn. rewrite Ea. apply Permutation_app_head. rewrite <- app_assoc. cbn. by rewrite <- Permutation_middle.
    + rewrite !Forall_app in *. destruct Hc as (Hf & Hcb & Hcq & Hcw). apply list.Forall_cons in Hcb as [Hcb _].
      split_and!; [done|constructor|done| |done]. repeat constructor. congruence.
    + rewrite length_app. cbn. lia.
  - destruct (put_reader _ _ _ _ _ _ Hinv) as (p1 & E & Hi & _). rewrite E in H. simplify_eq. apply Hi.
  - eapply inv_move; [exact Hinv| | | |done|done]; unfold owned; cbn [pu_pool pu_reader pu_queue pu_writer option_list pool_free].
    + rewrite !fmap_app, !fmap_cons. cbn. apply Permutation_app_head, Permutation_app_head. by rewrite app_nil_r, Permutation_app_comm.
    + rewrite !Forall_app, list.Forall_cons in Hc. destruct Hc as (Hf & Hcr & (Hcb & Hcq) & _). rewrite !Forall_app.
      split_and!; [done..|by repeat constructor].
    + cbn in Hq. lia.
  - destruct (put_writer _ _ _ _ _ _ Hinv) as (p1 & E & Hi & _). rewrite E in H. by simplify_eq.
Qed.

Lemma pump_reachable s : rtc pump_step (pump_init mtu) s → pump_inv mtu s.
Proof.
  assert (∀ a b, rtc pump_step a b → pump_inv mtu a → pump_inv mtu b) as Hrtc
    by (induction 1; [done|]; eauto using pump_step_inv).
  intros Hr. eapply Hrtc; [exact Hr|]. apply pump_init_inv.
Qed.
End pump.

(** C27: at every point of every interleaving of the reader, the writer and cancellation,
    each of the pool's buffers has exactly one owner; a reader without a buffer gets one
    at once, of full length, however full the queue is and whether or not a session is
    up; and a buffer that the reader or the writer returns is never dropped. *)
Theorem pump_never_starves mtu s : 0 <= mtu → rtc pump_step (pump_init mtu) s →
  (buf_array <$> owned s) ≡ₚ seq 0 tunBufferPoolSize ∧
  (pu_reader s = None → ∃ b p', pool_get (pu_pool s) = Some (Ret (b, p')) ∧ buf_len b = mtu + tunHeadroom) ∧
  (∀ b, pu_reader s = Some b ∨ pu_writer s = Some b →
     ∃ p', pool_put (pu_pool s) b = Ret p' ∧ length (pool_free p') = S (length (pool_free (pu_pool s)))).
Proof.
  intros Hmtu Hr. pose proof (pump_reachable mtu Hmtu s Hr) as Hinv. pose proof Hinv as (Hp & Hc & Hq & Hn & Hs).
  pose proof (length_owned _ _ Hinv) as Hl. destruct s as [p r st q c w].
  unfold owned in *. cbn [pu_pool pu_reader pu_queue pu_writer] in *. split_and!; [done| |].
  - intros ->. rewrite !length_app in Hl. unfold pool_get. destruct (pool_free p) as [|b free].
    { cbn [length option_list] in Hl. unfold tunBufferPoolSize, outboundQueueDepth in *.
      destruct w; cbn [option_list length option_to_set] in Hl; simpl length in Hl; lia. }
    rewrite !Forall_app, list.Forall_cons in Hc. destruct Hc as ((Hb & _) & _).
    rewrite reslice_ok by (rewrite Hb, Hs; unfold tunHeadroom; lia). cbn [mbind outcome_bind]. eexists _, _. split; [done|]. done.
  - intros b [-> | ->].
    + destruct (put_reader mtu Hmtu _ _ _ _ _ _ Hinv) as (p' & E & _ & Hlen). by exists p'.
    + destruct (put_writer mtu Hmtu _ _ _ _ _ _ Hinv) as (p' & E & _ & Hlen). by exists p'.
Qed.

(** ** Reconnecting *)

Definition Second : Z := 1000000000.
Definition sessionHealthyAfter : Z := 120 * Second.

(** After a session that lasted [lasted]: how long to wait, and the delay that the next
    turn starts from. *)
Definition session_wait (delay lasted : Z) : Z := if sessionHealthyAfter <=? lasted then Second else delay.
Definition next_delay (delay : Z) : Z :=
  if delay <? 30 * Second then
    let delay := delay * 2 in if 30 * Second <? delay then 30 * Second else delay
  else delay.

(** The waits of [run] for sessions of these lengths. *)
Fixpoint session_waits (delay : Z) (lengths : list Z) : list Z :=
  match lengths with
  | [] => []
  | lasted :: lengths => let w := session_wait delay lasted in w :: session_waits (next_delay w) lengths
  end.
Definition run_waits (lengths : list Z) : list Z := session_waits Second lengths.

Lemma next_delay_range d : Second <= d <= 30 * Second → Second <= next_delay d <= 30 * Second.
Proof. unfold next_delay, Second. intros. destruct (Z.ltb_spec d (30 * 1000000000)); [|lia]. destruct (Z.ltb_spec (30 * 1000000000) (d * 2)); lia. Qed.

Lemma session_waits_pow k lengths j : Forall (λ x, x < sessionHealthyAfter) lengths → (j < length lengths)%nat →
  session_waits (Z.min (2 ^ Z.of_nat k) 30 * Second) lengths !! j = Some (Z.min (2 ^ Z.of_nat (k + j)) 30 * Second).
Proof.
  intros Hl. revert k j. induction Hl as [|x lengths Hx _ IH]; intros k j Hj; [cbn in Hj; lia|].
  cbn [session_waits]. unfold session_wait. rewrite (proj2 (Z.leb_gt _ _) Hx). destruct j as [|j].
  - cbn. by rewrite Nat.add_0_r.
  - cbn [lookup list_lookup]. assert (next_delay (Z.min (2 ^ Z.of_nat k) 30 * Second) = Z.min (2 ^ Z.of_nat (S k)) 30 * Second) as ->.
    { unfold next_delay, Second. rewrite Nat2Z.inj_succ, Z.pow_succ_r by lia. pose proof (Z.pow_pos_nonneg 2 (Z.of_nat k)).
      destruct (Z.ltb_spec (Z.min (2 ^ Z.of_nat k) 30 * 1000000000) (30 * 1000000000)); [|lia].
      destruct (Z.ltb_spec (30 * 1000000000) (Z.min (2 ^ Z.of_nat k) 30 * 1000000000 * 2)); lia. }
    rewrite IH by (cbn in Hj; lia). do 4 f_equal. lia.
Qed.

(** The supervisor waits between one second and half a minute before it reconnects;
    after sessions that all failed early, the wait before attempt [j] is [2^j] seconds,
    capped at thirty; after a session that held for two minutes it is one second. *)
Theorem run_waits_bounds lengths j w : run_waits lengths !! j = Some w →
  Second <= w <= 30 * Second ∧
  (Forall (λ x, x < sessionHealthyAfter) lengths → w = Z.min (2 ^ Z.of_nat j) 30 * Second) ∧
  (∀ x, lengths !! j = Some x → sessionHealthyAfter <= x → w = Second).
Proof.
  intros Hw. split; [|split].
  - assert (∀ d, Second <= d <= 30 * Second → ∀ lengths j w, session_waits d lengths !! j = Some w → Second <= w <= 30 * Second) as Hgen.
    { clear. intros d Hd lengths. revert d Hd. induction lengths as [|x lengths IH]; intros d Hd j w Hw; [done|].
      cbn [session_waits] in Hw. assert (Second <= session_wait d x <= 30 * Second) as Hs
        by (unfold session_wait; destruct (_ <=? _); unfold Second in *; lia).
      destruct j as [|j]; cbn in Hw; [by simplify_eq|]. by eapply (IH (next_delay (session_wait d x))); [apply next_delay_range|]. }
    eapply (Hgen Second); [unfold Second; lia|exact Hw].
  - intros Hl. assert (j < length lengths)%nat as Hj.
    { apply lookup_lt_Some in Hw. revert Hw. unfold run_waits. generalize Second. clear. revert j.
      induction lengths as [|x lengths IH]; intros j d Hw; cbn in *; [lia|]. destruct j as [|j]; [lia|].
      assert (j < length lengths)%nat by (eapply IH; apply Nat.succ_lt_mono; exact Hw). lia. }
    pose proof (session_waits_pow 0 lengths j Hl Hj) as E. change (Z.min (2 ^ Z.of_nat 0) 30 * Second) with Second in E.
    unfold run_waits in Hw. rewrite Hw in E. by simplify_eq.
  - intros x. revert Hw. unfold run_waits. generalize Second at 1. revert j. induction lengths as [|y lengths IH]; intros j d Hw Hx Hle; [done|].
    cbn [session_waits] in Hw. destruct j as [|j]; cbn in Hw, Hx.
    + simplify_eq. unfold session_wait. by rewrite (proj2 (Z.leb_le _ _) Hle).
    + by eapply IH.
Qed.

Lemma pump_never_starves_witness : ∃ b p', pool_get (pu_pool (pump_init 1280)) = Some (Ret (b, p')) ∧ buf_len b = 1281.
Proof. apply (pump_never_starves 1280 (pump_init 1280)); [lia|apply rtc_refl|done]. Defined.

Lemma run_waits_bounds_witness : run_waits [5; 5; 5; 5; 5; 5] !! 5%nat = Some (30 * Second) ∧ 30 * Second = Z.min (2 ^ 5) 30 * Second.
Proof.
  split; [by vm_compute|].
  apply (run_waits_bounds [5; 5; 5; 5; 5; 5] 5%nat (30 * Second)); [by vm_compute|].
  repeat constructor; by vm_compute.
Defined.
