(* ===== verification/MeshStart.v ===== *)
(** * [pkg/backend/cloudflaremesh]: the tunnel of a node, and joining the network

    The rest of [masque_linux.go], where the TUN device is made and a supervisor keeps a
    MASQUE session on it, and [cloudflaremesh_linux.go].  The device is [TunHost], what
    quic-go and connect-ip do is [Masque], the goroutine of the supervisor [Supervisor].
    The pumps of a session are in [MeshTransport]. *)

From Stdlib Require Import ZArith Lia Ascii.
From stdpp Require Import base strings list gmap numbers.
From S2P Require Import Prelude GoStrings GoJson GoJsonFacts GoTime GoDuration GoBase64 GoNet Ip4 Lease Config Backend Wireguard MeshApi MeshConfig MeshEnroll MeshRoutes MeshTransport.

Local Open Scope Z_scope.

(** ** Outside *)

(** An open TUN device is known by its name. *)
Class TunHost (W : Type) := {
  water_New : string → M W string;
  tun_Close : string → M W unit;
  LinkSetMTU : Link → Z → M W unit;
  AddrReplace : Link → IPNet → M W unit;
  tun_LinkSetUp : Link → M W unit
}.

(** Sockets, transports, connections and sessions are handles. *)
Record tlsConfig (K C : Type) := mkTlsConfig {
  tls_Certificate : list Z;
  tls_PrivateKey : K;
  tls_ServerName : string;
  (** [VerifyPeerCertificate] *)
  tls_Verify : list (list Z) → outcome unit
}.
Arguments mkTlsConfig {K C}.

Class Masque (W : Type) `{EcdsaKeys W} := {
  (** public keys of ECDSA, and whether two are the same *)
  PeerKey : Type;
  PeerKey_Equal : PeerKey → PeerKey → bool;
  pem_Decode : string → option (list Z);
  (** [None]: the key is not one of ECDSA *)
  ParsePKIXPublicKey : list Z → outcome (option PeerKey);
  ParseCertificate : list Z → outcome (option PeerKey);
  (** a certificate that the key signs itself *)
  CreateCertificate : PrivateKey → M W (list Z);
  ListenUDP : M W Z;
  (** over a socket: the endpoint, the keep-alive period and the initial packet size *)
  qtr_Dial : Z → UDPAddr → tlsConfig PrivateKey PeerKey → Z → Z → M W Z;
  (** the session on a connection and the status of the response *)
  connectip_Dial : Z → M W (Z * Z);
  ip_Close : Z → M W unit;
  h3_Close : Z → M W unit;
  qconn_Close : Z → M W unit;
  qtr_Close : Z → M W unit;
  udp_Close : Z → M W unit;
  (** the two pumps of a session on a device, until the first error of either *)
  run_pumps : Z → string → M W error
}.

(** What the constructor of the transport waits for; a session may have got ready since. *)
Inductive session_event := SessionReady | ContextDone (ready : bool) (e : error) | TimerFired (ready : bool).
Class Supervisor (W : Type) := {
  (** the first of the three, within a time *)
  await_ready : Z → M W session_event;
  sup_cancel : M W unit;
  (** the goroutine has returned *)
  sup_done : M W unit;
  (** whether the context has ended; whether it ends within a time *)
  ctx_Err : M W bool;
  ctx_wait : Z → M W bool
}.

(** ** [nativeTransport] *)

Record nativeTransport (K : Type) := mkTransport {
  nt_iface : string;
  nt_registration : meshRegistration;
  nt_privateKey : K;
  nt_cfg : runtimeConfig;
  nt_ready : bool;
  nt_closed : bool
}.
Arguments mkTransport {K}.
Arguments nt_iface {K}.
Arguments nt_registration {K}.
Arguments nt_privateKey {K}.
Arguments nt_cfg {K}.
Arguments nt_ready {K}.
Arguments nt_closed {K}.

Definition nt_meshIP {K} (t : nativeTransport K) : IP := To4 (ParseIP (reg_V4 (nt_registration t))).

Definition devicestate_text (now : Z) (r : meshRegistration) (status tunnelType version : string) : string :=
  let accountID := ac_ID (reg_Account r) in
  body_of ([("timestamp", json_string (Format_RFC3339Nano now)); ("account_id", json_string accountID); ("status", json_string status);
            ("mode", json_string "warp+doh"); ("always_on", "true"); ("reg_id", json_string (deviceRegistrationID (reg_ID r)));
            ("doh_subdomain", json_string (accountID +:+ ".cloudflare-gateway.com")); ("switch_locked", "false");
            ("client_version", json_string version); ("client_platform", json_string "linux"); ("warp_metal", json_string "none");
            ("warp_colo", json_string "none"); ("handshake_latency_ms", "null"); ("estimated_loss", "null");
            ("tunnel_type", json_string tunnelType); ("interfaces", "[]"); ("firewalls", "{}")] ++ omitempty "profile_id" (reg_PolicyID r)).

Section transport.
Context {W : Type} `{NodeEnv W, DeviceHttp W, EcdsaKeys W, Clock W, TunHost W, Supervisor W}.
Abbreviation Transport := (nativeTransport PrivateKey).

Definition reportDeviceState (t : Transport) (status tunnelType : string) : M W unit :=
  let r := nt_registration t in
  let accountID := ac_ID (reg_Account r) in
  if decide (accountID = "" ∨ reg_ID r = "" ∨ reg_Token r = "") then throw (Errorf "native Mesh registration cannot report device state")
  else
    now ← time_Now;
    c ← compat;
    let endpoint := zeroTrustAPIBase +:+ "/v0/accounts/" +:+ accountID +:+ "/reg/" +:+ deviceRegistrationID (reg_ID r) +:+ "/devicestate" in
    _ ← lift (NewRequest endpoint);
    headers ← deviceAPIHeaders (reg_Token r);
    resp ← wrapping "report native Mesh device state %s: %w"
      (device_Do (mkDeviceRequest "POST" endpoint headers (Some (devicestate_text now r status tunnelType (fp_DeviceVersion c)))
         (rc_ConnectWait (nt_cfg t))));
    check (negb (success_status resp.1)) (Errorf "report native Mesh device state %s: HTTP %d").

(** The supervisor is stopped, the device is closed to wake its reader, and the
    supervisor is waited for, which closes the device again. *)
Definition Close (t : Transport) : M W Transport :=
  _ ← (if nt_closed t then mret tt
       else
         _ ← (if nt_ready t then _ ← try (reportDeviceState t "Disconnected" "masque"); mret tt else mret tt);
         _ ← sup_cancel;
         _ ← try (tun_Close (nt_iface t));
         mret tt);
  _ ← sup_done;
  _ ← try (tun_Close (nt_iface t));
  mret (mkTransport (nt_iface t) (nt_registration t) (nt_privateKey t) (nt_cfg t) (nt_ready t) true).
End transport.

(** ** Sessions *)

Section session.
Context {W : Type} `{NodeEnv W, DeviceHttp W, EcdsaKeys W, Clock W, TunHost W, Supervisor W, !Masque W}.
Abbreviation Transport := (nativeTransport PrivateKey).

Definition parseEndpointKey (value : string) : outcome PeerKey :=
  let der := match pem_Decode value with
             | Some bytes => bytes
             | None => default [] (DecodeString false true value)
             end in
  if decide (der = []) then Err (Errorf "decode MASQUE peer public key")
  else
    parsed ← ParsePKIXPublicKey der;
    match (parsed : option PeerKey) with Some key => Ret key | None => Err (Errorf "MASQUE peer key is not ECDSA") end.

Definition verifyPeer (peerKey : PeerKey) (rawCerts : list (list Z)) : outcome unit :=
  match rawCerts with
  | [] => Err (Errorf "MASQUE peer sent no certificate")
  | raw :: _ =>
      key ← ParseCertificate raw;
      match (key : option PeerKey) with
      | Some key => if PeerKey_Equal key peerKey then Ret tt else Err (Errorf "MASQUE peer public key mismatch")
      | None => Err (Errorf "MASQUE peer public key mismatch")
      end
  end.

(** Calls whose errors are dropped. *)
Fixpoint best_effort (l : list (M W unit)) : M W unit :=
  match l with [] => mret tt | m :: l => _ ← try m; best_effort l end.

(** A session: its handle, the status and what closes it. *)
Definition dialHTTP3 (tls : tlsConfig PrivateKey PeerKey) (endpoint : UDPAddr) (keepalive mtu : Z) : M W (Z * Z * list (M W unit)) :=
  udpConn ← ListenUDP;
  q ← try (qtr_Dial udpConn endpoint tls keepalive (quicInitialPacketSize mtu));
  match q with
  | inr e => _ ← best_effort [qtr_Close udpConn; udp_Close udpConn]; throw e
  | inl qconn =>
      r ← try (connectip_Dial qconn);
      match r with
      | inr e => _ ← best_effort [h3_Close qconn; qconn_Close qconn; qtr_Close udpConn; udp_Close udpConn]; throw e
      | inl (ipConn, status) =>
          mret (ipConn, status, [ip_Close ipConn; h3_Close qconn; qconn_Close qconn; qtr_Close udpConn; udp_Close udpConn])
      end
  end.

Definition connectSNI : string := "zt-masque.cloudflareclient.com".

(** A session until it ends: whether it was ever ready, and the error it ended with. *)
Definition session_body (t : Transport) (ipConn status : Z) : M W (bool * error) :=
  if negb (status =? 200) then mret (false, Errorf "CONNECT-IP returned %s")
  else
    r ← try (reportDeviceState t "Connected" "masque");
    match r with
    | inr e => mret (false, e)
    | inl _ =>
        sessionErr ← run_pumps ipConn (nt_iface t);
        _ ← try (ip_Close ipConn);
        mret (true, sessionErr)
    end.

Definition open_session (t : Transport) : M W (bool * error) :=
  match default [] (reg_Peers (nt_registration t)) with
  | [] => throw (Errorf "registration has no MASQUE peer")
  | peer :: _ =>
      peerKey ← lift (parseEndpointKey (peer_PublicKey peer));
      certDER ← CreateCertificate (nt_privateKey t);
      let tls := mkTlsConfig certDER (nt_privateKey t) connectSNI (verifyPeer peerKey) in
      let host := match SplitHostPort (peer_V4 peer) with Ret (host, _) => host | _ => peer_V4 peer end in
      let endpointIP := ParseIP host in
      _ ← check (bool_decide (endpointIP = [])) (Errorf "invalid MASQUE endpoint %q");
      '(ipConn, status, closeSession) ← dialHTTP3 tls (mkUDPAddr endpointIP 443) (rc_KeepaliveEvery (nt_cfg t)) (mc_MTU (rc_config (nt_cfg t)));
      r ← try (session_body t ipConn status);
      _ ← best_effort closeSession;
      match r with inl a => mret a | inr e => throw e end
  end.
Definition runSession (t : Transport) : M W (bool * error) :=
  r ← try (open_session t);
  mret (match r with inl a => a | inr e => (false, e) end).

(** The sessions of a supervisor, at most [fuel] of them: nothing when it goes on. *)
Fixpoint run_sessions (fuel : nat) (t : Transport) (delay : Z) : M W (option unit) :=
  match fuel with
  | O => mret None
  | S fuel =>
      ended ← ctx_Err;
      if (ended : bool) then mret (Some tt)
      else
        started ← time_Now;
        _ ← runSession t;
        ended ← ctx_Err;
        if (ended : bool) then mret (Some tt)
        else
          now ← time_Now;
          let delay := session_wait delay (now - started) in
          ended ← ctx_wait delay;
          if (ended : bool) then mret (Some tt) else run_sessions fuel t (next_delay delay)
  end.
Definition transport_run (fuel : nat) (t : Transport) : M W (option unit) :=
  _ ← try (reportDeviceState t "Connecting" "masque");
  r ← run_sessions fuel t Second;
  match r with
  | Some _ => _ ← try (tun_Close (nt_iface t)); mret (Some tt)
  | None => mret None
  end.
End session.

(** ** Joining the network *)

Definition LeaseData_text (d : LeaseData) : string :=
  body_of [("connectorID", json_string (ld_ConnectorID d)); ("meshIP", json_string (ld_MeshIP d))].

Record joined_network (K : Type) := mkJoined {
  jn_lease : Lease;
  jn_routes : netlinkRouteManager;
  jn_transport : nativeTransport K;
  jn_reconcileEvery : Z
}.
Arguments mkJoined {K}.
Arguments jn_lease {K}.
Arguments jn_routes {K}.
Arguments jn_transport {K}.
Arguments jn_reconcileEvery {K}.

Definition pprofAddrEnv : string := "CLOUDFLARE_MESH_PPROF_ADDR".

Class PprofServer (W : Type) := { serve_pprof : string → M W unit }.

Section start.
Context {W : Type} `{NodeEnv W, DeviceHttp W, EcdsaKeys W, StateFiles W, Clock W, TunHost W, Supervisor W,
  BootstrapKube W, netlinkOps W, iptablesClient W, LeaseSource W, PprofServer W}.
Abbreviation Transport := (nativeTransport PrivateKey).

(** A step of the setup of the device, which is closed when it fails. *)
Definition or_close {A} (dev : string) (format : string) (m : M W A) : M W A :=
  r ← try m;
  match r with
  | inl a => mret a
  | inr e => _ ← try (tun_Close dev); throw (Wrapf format e)
  end.

Definition startNativeTransport (cfg : runtimeConfig) (connector : option ConnectorCredentials) : M W Transport :=
  '(state, key) ← loadOrEnroll cfg connector;
  meshNetwork ← lift (parseCIDR (mc_MeshCIDR (rc_config cfg)));
  let meshIP := ParseIP (reg_V4 state) in
  _ ← check (bool_decide (meshIP = []) || negb (IPNet_Contains meshNetwork meshIP))
        (Errorf "Cloudflare returned connector IPv4 %q outside MeshCIDR %s");
  dev ← wrapping "create %s TUN: %w" (water_New (mc_InterfaceName (rc_config cfg)));
  link ← or_close dev "find native Mesh TUN: %w" (LinkByName dev);
  _ ← or_close dev "set native Mesh MTU: %w" (LinkSetMTU link (mc_MTU (rc_config cfg)));
  _ ← or_close dev "set native Mesh address: %w" (AddrReplace link (mkIPNet (To4 meshIP) (CIDRMask 32 32)));
  _ ← or_close dev "bring native Mesh TUN up: %w" (tun_LinkSetUp link);
  let t ready := mkTransport dev state key cfg ready false in
  event ← await_ready (rc_ConnectWait cfg);
  match event with
  | SessionReady => mret (t true)
  | ContextDone ready e => _ ← Close (t ready); throw e
  | TimerFired ready => _ ← Close (t ready); throw (Errorf "connect native MASQUE tunnel: timed out after %s")
  end.

(** A step after which a live transport is closed when it fails. *)
Definition or_teardown {A} (t : Transport) (wrap : error → error) (m : M W A) : M W A :=
  r ← try m;
  match r with
  | inl a => mret a
  | inr e => _ ← Close t; throw (wrap e)
  end.

Definition startPprofIfRequested : M W unit :=
  addr ← envOrDefault pprofAddrEnv "";
  if decide (addr = "") then mret tt else (_ ← try (serve_pprof addr); mret tt).

Definition mesh_RegisterNetwork (networkConfig : Config) : M W (joined_network PrivateKey) :=
  _ ← check (cfg_EnableIPv6 networkConfig) (Errorf "%s backend does not support IPv6 yet");
  cfg ← loadConfig (cfg_Backend networkConfig);
  _ ← logCompatOverrides;
  _ ← startPprofIfRequested;
  connector ← waitForOperatorCredentials cfg;
  transport ← startNativeTransport cfg (Some connector);
  let meshIP := nt_meshIP transport in
  let backendData := LeaseData_text (mkLeaseData (cc_ID connector) (IP_String meshIP)) in
  publicIP ← lift (FromIP meshIP);
  let attrs := mkLeaseAttrs publicIP None BackendName (Some backendData) None in
  localLease ← or_teardown transport (Wrapf "acquire cloudflare-mesh subnet lease: %w") (sm_AcquireLease attrs);
  routes ← or_teardown transport id
    (newLocalRouteManager (mkRouteCfg (mc_InterfaceName (rc_config cfg)) (mc_MeshCIDR (rc_config cfg)) (mc_RouteTable (rc_config cfg)))
       meshIP (IP4Net_String (cfg_Network networkConfig)) (IP4Net_String (Subnet localLease)));
  mret (mkJoined localLease routes transport (rc_ReconcileEvery cfg)).
End start.
