(* ===== verification/Daemon.v ===== *)
(** * [main.go] and the subnet file

    The choice of the external interface, the file in which the daemon leaves its subnet
    ([WriteSubnetFile] of [pkg/subnet]) and from which it reads it after a restart, and the
    etcd manager made from it.  The file system and godotenv are the class [EnvFiles]
    with [EnvFileLaws]. *)

From Stdlib Require Import ZArith Lia Ascii.
From stdpp Require Import base strings list gmap numbers.
From S2P Require Import Prelude GoStrings GoRegexp GoNet GoNetFacts Ip4 Ip6 Lease SubnetKey Config LocalManager IpTables Backend Iface IpMatch.

Local Open Scope Z_scope.

(** ** The external interface *)

(** The options of the command line that choose it. *)
Record IfaceOpts := mkIfaceOpts {
  o_iface : list string;
  o_ifaceRegex : list string;
  o_ifaceCanReach : string;
  o_publicIP : string;
  o_publicIPv6 : string
}.

Section interface.
Context {W : Type} `{IfaceHost W, AddrSort} (Compile : string → outcome (string → bool)).

(** The first call that does not fail; failures are logged. *)
Fixpoint first_found (lookups : list (M W ExternalInterface)) : M W (option ExternalInterface) :=
  match lookups with
  | [] => mret None
  | m :: lookups =>
      r ← try m;
      match r with
      | inl extIface => mret (Some extIface)
      | inr _ => first_found lookups
      end
  end.

(** The part of [main] that works out which interface to use; where the process exits,
    it fails.  [annotated] are the addresses of [GetStoredPublicIP]. *)
Definition external_interface (opts : IfaceOpts) (annotated : string * string) (ipStack : IpStack) : M W ExternalInterface :=
  let publicIP := if decide (annotated.1 ≠ "") then annotated.1 else o_publicIP opts in
  let publicIPv6 := if decide (annotated.2 ≠ "") then annotated.2 else o_publicIPv6 opts in
  let optsPublicIP := mkPublicIPOpts publicIP publicIPv6 in
  if decide (o_iface opts = [] ∧ o_ifaceRegex opts = [] ∧ o_ifaceCanReach opts = "") then
    if decide (publicIP ≠ "") then LookupExtIface Compile publicIP "" "" ipStack optsPublicIP
    else LookupExtIface Compile publicIPv6 "" "" ipStack optsPublicIP
  else
    extIface ← first_found ((λ iface, LookupExtIface Compile iface "" "" ipStack optsPublicIP) <$> o_iface opts);
    extIface ← match extIface with
               | Some _ => mret extIface
               | None => first_found ((λ ifaceRegex, LookupExtIface Compile "" ifaceRegex "" ipStack optsPublicIP) <$> o_ifaceRegex opts)
               end;
    extIface ← match extIface with
               | Some _ => mret extIface
               | None =>
                   if decide (o_ifaceCanReach opts ≠ "")
                   then first_found [LookupExtIface Compile "" "" (o_ifaceCanReach opts) ipStack optsPublicIP]
                   else mret None
               end;
    match extIface with
    | Some extIface => mret extIface
    | None => throw (Errorf "Failed to find interface to use that matches the interfaces and/or regexes provided")
    end.
End interface.

(** ** The subnet file *)

Definition fmt_bool (b : bool) : string := if b then "true" else "false".

Definition ErrNotExist : error := Sentinel "file does not exist".

Class EnvFiles (W : Type) := {
  (** [os.MkdirAll(filepath.Dir(path), 0755)] *)
  MkdirAll_Dir : string → M W unit;
  writeFile : string → string → M W unit;
  Stat : string → M W unit;
  (** [godotenv.Read] *)
  env_Read : string → M W (gmap string string)
}.

Section subnet_file.
Context {W : Type} `{EnvFiles W}.

Definition WriteSubnetFile (path : string) (config : Config) (ipMasq : bool) (sn : IP4Net) (ipv6sn : IP6Net) (mtu : Z) : M W unit :=
  _ ← MkdirAll_Dir path;
  let b := "" in
  let b := if cfg_EnableIPv4 config then
             let sn := IP4Net_IncrementIP sn in
             b +:+ "FLANNEL_NETWORK=" +:+ IP4Net_String (cfg_Network config) +:+ newline +:+
                   "FLANNEL_SUBNET=" +:+ IP4Net_String sn +:+ newline
           else b in
  b ← (if cfg_EnableIPv6 config then
         ipv6sn ← lift (IP6Net_IncrementIP ipv6sn);
         mret (b +:+ "FLANNEL_IPV6_NETWORK=" +:+ Sprintf_s (IP6Net_String (cfg_IPv6Network config)) +:+ newline +:+
                     "FLANNEL_IPV6_SUBNET=" +:+ Sprintf_s (IP6Net_String ipv6sn) +:+ newline)
       else mret b);
  let b := b +:+ "FLANNEL_MTU=" +:+ fmt_int mtu +:+ newline +:+ "FLANNEL_IPMASQ=" +:+ fmt_bool ipMasq +:+ newline in
  writeFile path b.

(** The networks of a list that parse; the others are logged. *)
Fixpoint parse_CIDRs {A} (from : IPNet → outcome A) (cidrs : list string) : outcome (list A) :=
  match cidrs with
  | [] => Ret []
  | s :: cidrs =>
      match ParseCIDR s with
      | None => parse_CIDRs from cidrs
      | Some (_, cidr) => n ← from cidr; ns ← parse_CIDRs from cidrs; Ret (n :: ns)
      end
  end.

(** The file's value of a key, as a list of networks. *)
Definition read_CIDRs {A} (from : IPNet → outcome A) (path CIDRKey : string) : M W (list A) :=
  r ← try (Stat path);
  if decide (r = inr ErrNotExist) then mret []
  else
    v ← try (env_Read path);
    match v with
    | inr _ => mret []
    | inl prevSubnetVals =>
        match prevSubnetVals !! CIDRKey with
        | None => mret []
        | Some prevCIDRString => lift (parse_CIDRs from (split_char "," prevCIDRString))
        end
    end.
Definition ReadCIDRsFromSubnetFile (path CIDRKey : string) : M W (list IP4Net) := read_CIDRs FromIPNet path CIDRKey.
Definition ReadIP6CIDRsFromSubnetFile (path CIDRKey : string) : M W (list IP6Net) := read_CIDRs FromIP6Net path CIDRKey.

Definition only_one {A} (zero : A) (l : list A) : A := match l with [n] => n | _ => zero end.
Definition ReadCIDRFromSubnetFile (path CIDRKey : string) : M W IP4Net :=
  prevCIDRs ← ReadCIDRsFromSubnetFile path CIDRKey; mret (only_one (mkIP4Net 0 0) prevCIDRs).
Definition ReadIP6CIDRFromSubnetFile (path CIDRKey : string) : M W IP6Net :=
  prevCIDRs ← ReadIP6CIDRsFromSubnetFile path CIDRKey; mret (only_one (mkIP6Net (Some 0) 0) prevCIDRs).

(** The etcd manager, with what the file says of the previous subnets. *)
Definition etcd_newSubnetManager (subnetFile : string) (margin : Z) : M W LocalManager :=
  prevSubnet ← ReadCIDRFromSubnetFile subnetFile "FLANNEL_SUBNET";
  prevIPv6Subnet ← ReadIP6CIDRFromSubnetFile subnetFile "FLANNEL_IPV6_SUBNET";
  mret (mkLocalManager prevSubnet prevIPv6Subnet margin).

(** [HandleSubnetFile] of the etcd manager, and of the Kubernetes manager, which
    remembers its arguments. *)
Definition etcd_HandleSubnetFile := WriteSubnetFile.

Record subnetFileInfo := mkSubnetFileInfo { sf_path : string; sf_ipMask : bool; sf_sn : IP4Net; sf_IPv6sn : IP6Net; sf_mtu : Z }.
Definition kube_HandleSubnetFile (path : string) (config : Config) (ipMasq : bool) (sn : IP4Net) (ipv6sn : IP6Net) (mtu : Z)
    : M (option subnetFileInfo * W) unit := λ s,
  let '(r, w) := WriteSubnetFile path config ipMasq sn ipv6sn mtu s.2 in
  (r, (Some (mkSubnetFileInfo path ipMasq sn ipv6sn mtu), w)).
End subnet_file.

(** ** Files of variables *)

(** Names of capitals and underscores with digits, values without blanks, quotes or comments. *)
Definition key_char (c : ascii) : bool :=
  is_digit c || ((65 <=? char_code c) && (char_code c <=? 90)) || Ascii.eqb c "_".
Definition value_char (c : ascii) : bool :=
  is_digit c || ((97 <=? char_code c) && (char_code c <=? 122)) || Ascii.eqb c "." || Ascii.eqb c ":" || Ascii.eqb c "/" || Ascii.eqb c "-".
Definition env_line (kv : string * string) : string := kv.1 +:+ "=" +:+ kv.2 +:+ newline.
Definition env_text (kvs : list (string * string)) : string := foldr (λ kv s, env_line kv +:+ s) "" kvs.
Definition env_ok (kv : string * string) : Prop :=
  kv.1 ≠ "" ∧ str_all key_char kv.1 = true ∧ kv.2 ≠ "" ∧ str_all value_char kv.2 = true.

(** Files are replaced as a whole or not at all; a file of lines [key=value] reads as
    those variables. *)
Class EnvFileLaws (W : Type) `{EnvFiles W} := {
  file : W → string → option string;
  law_Mkdir path w p : file (MkdirAll_Dir path w).2 p = file w p;
  law_writeFile path data w :
    match writeFile path data w with
    | (Ret _, w') => file w' path = Some data
    | (_, w') => file w' path = file w path
    end;
  law_Stat path w : Stat path w = (match file w path with Some _ => Ret tt | None => Err ErrNotExist end, w);
  law_env_Read path kvs w : file w path = Some (env_text kvs) → Forall env_ok kvs → NoDup kvs.*1 →
    env_Read path w = (Ret (list_to_map kvs), w)
}.

(** ** Texts of networks *)

Lemma Network_aligned n : IP4Net_ok n → IP4Net_aligned n → IP4Net_Network n = n.
Proof. intros Hn Ha. rewrite IP4Net_Network_ok, IP4Net_first_aligned by done. by destruct n. Qed.

(** The first usable address is in the subnet. *)
Lemma Network_Increment n : IP4Net_ok n → IP4Net_aligned n → IP4Net_PrefixLen n <= 31 →
  IP4Net_ok (IP4Net_IncrementIP n) ∧ IP4Net_Network (IP4Net_IncrementIP n) = n.
Proof.
  intros Hn Ha Hp. pose proof (IP4Net_aligned_end n Hn Ha) as He. destruct n as [a p], Hn as [Hip Hr]. unfold IP4_ok in Hip. cbn in Hip, Hr, Hp.
  unfold IP4Net_aligned, IP4Net_size in Ha, He. cbn in Ha, He.
  assert (2 <= 2 ^ (32 - p)) as H2 by (change 2 with (2 ^ 1) at 1; apply Z.pow_le_mono_r; lia).
  unfold IP4Net_IncrementIP. cbn [IP4Net_IP IP4Net_PrefixLen]. rewrite wrap_small by lia.
  assert (IP4Net_ok (mkIP4Net (a + 1) p)) as Hok by (split; cbn; [unfold IP4_ok; lia|lia]). split; [done|].
  rewrite IP4Net_Network_ok by done. unfold IP4Net_first, IP4Net_size. cbn. f_equal.
  apply Z.mod_divide in Ha as [k ->]; [|lia]. rewrite Z.div_add_l, (Z.div_small 1) by lia. lia.
Qed.

Lemma fmt_value n : 0 <= n → str_all value_char (fmt_uint 10 n) = true.
Proof. intros Hn. apply (str_all_impl is_digit); [|by apply fmt_dec_digits]. intros c Hc. unfold value_char. by rewrite Hc. Qed.

Lemma IP_String_value ip : length ip = 4%nat ∨ length ip = 16%nat → Forall is_byte ip → str_all value_char (IP_String ip) = true.
Proof.
  intros Hl Hb. apply IP_String_all; [done..| |]; intros c; unfold digit_dot, hex_colon, is_lower_hex, value_char.
  - intros [->| ->]%orb_true_iff; by rewrite ?orb_true_r.
  - intros [[->|Hh]%orb_true_iff| ->]%orb_true_iff; rewrite ?orb_true_r; try done.
    apply andb_true_iff in Hh as [H1 H2]. apply Z.leb_le in H1, H2.
    rewrite (proj2 (Z.leb_le 97 _) H1), (proj2 (Z.leb_le _ 122)) by lia. by rewrite ?orb_true_r.
Qed.

Lemma read_IP4Net n : IP4Net_ok n → parse_CIDRs FromIPNet (split_char "," (IP4Net_String n)) = Ret [IP4Net_Network n].
Proof.
  intros Hn. rewrite split_lacks by (by apply IP4Net_String_lacks). cbn [parse_CIDRs]. rewrite ParseCIDR_IP4Net by done.
  by rewrite FromIPNet_masked.
Qed.

(** An aligned IPv6 network printed in colon-hexadecimal form. *)
Definition net6_ok (n : IP6Net) : Prop :=
  ∃ v, IP6Net_IP n = Some v ∧ IP6_ok v ∧ IP6_hex v ∧ v mod IP6Net_size n = 0 ∧ 0 <= IP6Net_PrefixLen n <= 128.

Lemma hex_String v : IP6_ok v → IP6_hex v →
  IP6_String v = Ret (IP_String (be_bytes 16 v)) ∧ addr_of (be_bytes 16 v) = Is16 (be_bytes 16 v).
Proof.
  intros Hv Hx. destruct (IP6_ToIP_spec v Hv) as (ip & E & _ & _ & _ & _ & _ & Hip). rewrite Hip in E by apply Hx.
  unfold IP6_String. rewrite E. split; [done|]. unfold addr_of. by rewrite To4_16 by (apply length_be_bytes || by apply IP6_hex_unmapped).
Qed.

Lemma FromIP6Net_masked v p : IP6_ok v → 0 <= p <= 128 →
  FromIP6Net (mkIPNet (IP_Mask (To16 (be_bytes 16 v)) (CIDRMask p 128)) (CIDRMask p 128)) =
  Ret (mkIP6Net (Some (v / 2 ^ (128 - p) * 2 ^ (128 - p))) p).
Proof.
  intros Hv Hp. pose proof (CIDRMask_length 128 p (or_intror eq_refl) Hp) as Hl. change (Z.to_nat (128 / 8)) with 16%nat in Hl.
  pose proof (length_be_bytes 16 v) as Hb. assert (To16 (be_bytes 16 v) = be_bytes 16 v) as -> by (unfold To16; by rewrite Hb).
  assert (IP_Mask (be_bytes 16 v) (CIDRMask p 128) = zip_with Z.land (be_bytes 16 v) (CIDRMask p 128)) as ->.
  { unfold IP_Mask. rewrite (decide_False (P := length (CIDRMask p 128) = 16%nat ∧ _)) by (rewrite Hb; intros (_ & F & _); done).
    rewrite (decide_False (P := length (CIDRMask p 128) = 4%nat ∧ _)) by (rewrite Hl; intros [F _]; done).
    by rewrite decide_True by (by rewrite Hb, Hl). }
  set (l := zip_with _ _ _). assert (length l = 16%nat) as Hll by (unfold l; by rewrite length_zip_with, Hl, Hb).
  unfold FromIP6Net. cbn [IPNet_Mask IPNet_IP]. rewrite CIDRMask_Size by (auto || lia). unfold FromIP6.
  assert (To16 l = l) as -> by (unfold To16; by rewrite Hll). rewrite decide_False by (intros F; by rewrite F in Hll).
  change (Ret (mkIP6Net (Some (be_val l)) p) = Ret (mkIP6Net (Some (v / 2 ^ (128 - p) * 2 ^ (128 - p))) p)). do 3 f_equal. unfold l.
  rewrite be_val_land by (auto using be_bytes_byte, CIDRMask_bytes; by rewrite Hb, Hl).
  rewrite CIDRMask_val by auto. rewrite be_val_bytes_small by (change (256 ^ Z.of_nat 16) with (2 ^ 128); done).
  apply land_high_ones; [lia|done].
Qed.

Lemma read_IP6Net v p : IP6_ok v → IP6_hex v → 0 <= p <= 128 →
  ∃ s, IP6Net_String (mkIP6Net (Some v) p) = Ret s ∧ s ≠ "" ∧ str_all value_char s = true ∧
    parse_CIDRs FromIP6Net (split_char "," s) = Ret [mkIP6Net (Some (v / 2 ^ (128 - p) * 2 ^ (128 - p))) p].
Proof.
  intros Hv Hx Hp. destruct (hex_String v Hv Hx) as [Es Ea].
  set (t := IP_String (be_bytes 16 v) +:+ "/" +:+ fmt_uint 10 p). exists t.
  assert (str_all value_char t = true) as Hch.
  { unfold t. rewrite !str_all_app, andb_true_iff. split; [by apply IP_String_value; [right; apply length_be_bytes|apply be_bytes_byte]|].
    cbn [str_all]. rewrite andb_true_r. apply andb_true_iff. split; [done|]. apply fmt_value. lia. }
  split_and!; [| |done|].
  - unfold IP6Net_String, IP6_String_ptr. cbn [IP6Net_IP IP6Net_PrefixLen]. change (mbind ?f (deref (Some v))) with (f v). cbv beta. by rewrite Es.
  - unfold t. destruct (IP_String (be_bytes 16 v)); done.
  - rewrite split_lacks by (by eapply lacks_of_all; [|exact Hch]). cbn [parse_CIDRs]. unfold t.
    rewrite ParseCIDR_String by (rewrite ?Ea; cbn [BitLen]; auto using be_bytes_byte; right; apply length_be_bytes). rewrite Ea. cbn [BitLen].
    by rewrite FromIP6Net_masked.
Qed.

(** ** The file after a restart *)

(** What the file needs to be read back: aligned networks, with room for the first
    address of the subnet after its own. *)
Record file_ok (c : Config) (sn : IP4Net) (sn6 : IP6Net) : Prop := mkFileOk {
  fo_net : cfg_EnableIPv4 c = true → IP4Net_ok (cfg_Network c) ∧ IP4Net_aligned (cfg_Network c);
  fo_sn : cfg_EnableIPv4 c = true → IP4Net_ok sn ∧ IP4Net_aligned sn ∧ IP4Net_PrefixLen sn <= 31;
  fo_net6 : cfg_EnableIPv6 c = true → net6_ok (cfg_IPv6Network c);
  fo_sn6 : cfg_EnableIPv6 c = true → net6_ok sn6 ∧ IP6Net_PrefixLen sn6 <= 127
}.

Section read_back.
Context {W : Type} `{EnvFileLaws W}.

(** A text that reads as one network. *)
Definition reads_as {A} (from : IPNet → outcome A) (s : string) (n : A) : Prop :=
  s ≠ "" ∧ str_all value_char s = true ∧ parse_CIDRs from (split_char "," s) = Ret [n].

Lemma String_reads n : IP4Net_ok n → reads_as FromIPNet (IP4Net_String n) (IP4Net_Network n).
Proof.
  intros Hn. split_and!; [| |by apply read_IP4Net].
  - unfold IP4Net_String. by destruct (IP4_String (IP4Net_IP n)).
  - destruct Hn as [Hip Hp]. unfold IP4Net_String, IP4_String. rewrite !str_all_app, andb_true_iff.
    split; [|cbn [str_all]; rewrite andb_true_r; apply andb_true_iff; split; [done|]].
    + apply IP_String_value; [right; apply length_ToIP|by apply ToIP_bytes].
    + apply fmt_value. lia.
Qed.

Lemma String6_reads n : net6_ok n → ∃ s, IP6Net_String n = Ret s ∧ reads_as FromIP6Net s n.
Proof.
  destruct n as [o p]. intros (v & Eo & Hv & Hx & Ha & Hp). cbn in *. subst o.
  destruct (read_IP6Net v p Hv Hx Hp) as (s & Es & Hne & Hch & Hr). exists s. split; [done|]. split_and!; [done..|].
  rewrite Hr. do 4 f_equal. unfold IP6Net_size in Ha. cbn in Ha. pose proof (Z.pow_pos_nonneg 2 (128 - p)).
  apply Z.mod_divide in Ha as [k ->]; [|lia]. by rewrite Z.div_mul by lia.
Qed.

(** The first address of a subnet reads as the subnet. *)
Lemma Increment6_reads n : net6_ok n → IP6Net_PrefixLen n <= 127 →
  ∃ n' s, IP6Net_IncrementIP n = Ret n' ∧ IP6Net_String n' = Ret s ∧ reads_as FromIP6Net s n.
Proof.
  destruct n as [o p]. intros (v & Eo & Hv & Hx & Ha & Hp) H127. cbn in *. subst o. unfold IP6Net_size in Ha. cbn in Ha.
  assert (2 ^ (128 - p) = 2 * 2 ^ (127 - p)) as Epow by (rewrite <- Z.pow_succ_r by lia; f_equal; lia).
  pose proof (Z.pow_pos_nonneg 2 (127 - p) ltac:(lia) ltac:(lia)) as Hpos.
  apply Z.mod_divide in Ha as [k Ek]; [|lia]. assert (v = 2 * (k * 2 ^ (127 - p))) as Eev by (rewrite Ek, Epow; ring).
  assert (IP6_ok (v + 1)) as Hv1 by (unfold IP6_ok in *; lia).
  assert (IP6_hex (v + 1)) as Hx1 by (unfold IP6_hex, IP6_plain in *; lia).
  destruct (read_IP6Net (v + 1) p Hv1 Hx1 Hp) as (s & Es & Hne & Hch & Hr).
  exists (mkIP6Net (Some (v + 1)) p), s. split; [done|]. split; [done|]. split_and!; [done..|]. rewrite Hr. do 4 f_equal.
  rewrite Ek at 1. rewrite Z.div_add_l, (Z.div_small 1) by lia. lia.
Qed.

(** The variables of the file. *)
Definition file_vars (c : Config) (ipMasq : bool) (sn : IP4Net) (mtu : Z) (s6 t6 : string) : list (string * string) :=
  (if cfg_EnableIPv4 c then [("FLANNEL_NETWORK", IP4Net_String (cfg_Network c)); ("FLANNEL_SUBNET", IP4Net_String (IP4Net_IncrementIP sn))]
   else []) ++
  (if cfg_EnableIPv6 c then [("FLANNEL_IPV6_NETWORK", s6); ("FLANNEL_IPV6_SUBNET", t6)] else []) ++
  [("FLANNEL_MTU", fmt_int mtu); ("FLANNEL_IPMASQ", fmt_bool ipMasq)].

Lemma fmt_int_value z : fmt_int z ≠ "" ∧ str_all value_char (fmt_int z) = true.
Proof.
  unfold fmt_int. destruct (Z.ltb_spec z 0).
  - split; [done|]. rewrite str_all_app. cbn [str_all]. apply andb_true_iff. split; [done|]. apply fmt_value. lia.
  - split; [apply fmt_uint_nonempty|]. by apply fmt_value.
Qed.

Lemma file_vars_ok c ipMasq sn sn6 mtu s6 t6 : file_ok c sn sn6 →
  (cfg_EnableIPv6 c = true → reads_as FromIP6Net s6 (cfg_IPv6Network c) ∧ reads_as FromIP6Net t6 sn6) →
  Forall env_ok (file_vars c ipMasq sn mtu s6 t6) ∧ NoDup (file_vars c ipMasq sn mtu s6 t6).*1.
Proof.
  intros [Hn Hs _ _] H6. unfold file_vars. split.
  - apply Forall_app_2; [|apply Forall_app_2; [|repeat constructor; cbn; try apply fmt_int_value; by destruct ipMasq]].
    + destruct (cfg_EnableIPv4 c); [|done]. destruct (Hn eq_refl) as [Ho _], (Hs eq_refl) as (Hso & Hsa & Hsl).
      destruct (Network_Increment sn Hso Hsa Hsl) as [Hio _].
      destruct (String_reads _ Ho) as (? & ? & _), (String_reads _ Hio) as (? & ? & _). by repeat constructor.
    + destruct (cfg_EnableIPv6 c); [|done]. destruct (H6 eq_refl) as [(? & ? & _) (? & ? & _)]. by repeat constructor.
  - apply (bool_decide_unpack _). by destruct (cfg_EnableIPv4 c), (cfg_EnableIPv6 c); vm_compute.
Qed.

Lemma WriteSubnetFile_run path c ipMasq sn sn6 mtu : file_ok c sn sn6 → ∃ s6 t6,
  (cfg_EnableIPv6 c = true → reads_as FromIP6Net s6 (cfg_IPv6Network c) ∧ reads_as FromIP6Net t6 sn6) ∧
  ∀ w w', WriteSubnetFile path c ipMasq sn sn6 mtu w = (Ret tt, w') → file w' path = Some (env_text (file_vars c ipMasq sn mtu s6 t6)).
Proof.
  intros [_ _ Hn6 Hs6].
  assert (∃ sn6' s6 t6, cfg_EnableIPv6 c = true → IP6Net_IncrementIP sn6 = Ret sn6' ∧ IP6Net_String (cfg_IPv6Network c) = Ret s6 ∧
    IP6Net_String sn6' = Ret t6 ∧ reads_as FromIP6Net s6 (cfg_IPv6Network c) ∧ reads_as FromIP6Net t6 sn6) as (sn6' & s6 & t6 & H6).
  { destruct (cfg_EnableIPv6 c); [|by exists sn6, "", ""]. destruct (String6_reads _ (Hn6 eq_refl)) as (s6 & ? & ?).
    destruct (Hs6 eq_refl) as [Ho Hl]. destruct (Increment6_reads _ Ho Hl) as (sn6' & t6 & ? & ? & ?). by exists sn6', s6, t6. }
  exists s6, t6. split; [by intros E; apply H6 in E as (_ & _ & _ & ?)|]. intros w w' Hrun. unfold WriteSubnetFile in Hrun.
  apply M_bind_inv in Hrun as (u & w1 & _ & Hrun). pose proof (law_writeFile path (env_text (file_vars c ipMasq sn mtu s6 t6)) w1) as Hw.
  assert (writeFile path (env_text (file_vars c ipMasq sn mtu s6 t6)) w1 = (Ret tt, w')) as E; [|by rewrite E in Hw].
  rewrite <- Hrun. unfold env_text, file_vars, env_line. destruct (cfg_EnableIPv6 c).
  - destruct (H6 eq_refl) as (-> & -> & Et & _). run. rewrite Et. cbn [Sprintf_s]. f_equal.
    destruct (cfg_EnableIPv4 c); cbn [app foldr fst snd]; by rewrite ?str_app_assoc, ?str_app_nil_r.
  - run. f_equal. destruct (cfg_EnableIPv4 c); cbn [app foldr fst snd]; by rewrite ?str_app_assoc, ?str_app_nil_r.
Qed.

Lemma read_CIDRs_run {A} (from : IPNet → outcome A) path key kvs w : file w path = Some (env_text kvs) → Forall env_ok kvs → NoDup kvs.*1 →
  read_CIDRs from path key w =
  (match (list_to_map kvs : gmap string string) !! key with None => Ret [] | Some v => parse_CIDRs from (split_char "," v) end, w).
Proof.
  intros Hf Hok Hnd. unfold read_CIDRs. pose proof (law_Stat path w) as Hs. rewrite Hf in Hs. rewrite (run_try_Ret _ _ _ _ _ Hs).
  rewrite decide_False by done. rewrite (run_try_Ret _ _ _ _ _ (law_env_Read path kvs w Hf Hok Hnd)).
  by destruct (list_to_map kvs !! key).
Qed.

(** Reading the four networks of a file that was written. *)
Lemma read_back path c ipMasq sn sn6 mtu w w' : file_ok c sn sn6 → WriteSubnetFile path c ipMasq sn sn6 mtu w = (Ret tt, w') →
  ReadCIDRFromSubnetFile path "FLANNEL_NETWORK" w' = (Ret (if cfg_EnableIPv4 c then cfg_Network c else mkIP4Net 0 0), w') ∧
  ReadCIDRFromSubnetFile path "FLANNEL_SUBNET" w' = (Ret (if cfg_EnableIPv4 c then sn else mkIP4Net 0 0), w') ∧
  ReadIP6CIDRFromSubnetFile path "FLANNEL_IPV6_NETWORK" w' = (Ret (if cfg_EnableIPv6 c then cfg_IPv6Network c else mkIP6Net (Some 0) 0), w') ∧
  ReadIP6CIDRFromSubnetFile path "FLANNEL_IPV6_SUBNET" w' = (Ret (if cfg_EnableIPv6 c then sn6 else mkIP6Net (Some 0) 0), w').
Proof.
  intros Hok Hrun. destruct (WriteSubnetFile_run path c ipMasq sn sn6 mtu Hok) as (s6 & t6 & H6 & Hf). apply Hf in Hrun.
  destruct (file_vars_ok c ipMasq sn sn6 mtu s6 t6 Hok H6) as [Hkv Hnd].
  assert (∀ A (from : IPNet → outcome A) key v n, (key, v) ∈ file_vars c ipMasq sn mtu s6 t6 → reads_as from v n →
    read_CIDRs from path key w' = (Ret [n], w')) as Hin.
  { intros A from key v n Hv (_ & _ & Hp). rewrite (read_CIDRs_run from path key _ w' Hrun Hkv Hnd).
    by rewrite (proj1 (elem_of_list_to_map (M := gmap string) _ _ _ Hnd) Hv), Hp. }
  assert (∀ A (from : IPNet → outcome A) key, key ∉ (file_vars c ipMasq sn mtu s6 t6).*1 →
    read_CIDRs from path key w' = (Ret [], w')) as Hout.
  { intros A from key Hk. rewrite (read_CIDRs_run from path key _ w' Hrun Hkv Hnd).
    by rewrite (not_elem_of_list_to_map_1 (M := gmap string) _ _ Hk). }
  destruct Hok as [Hn Hs _ _].
  unfold ReadCIDRFromSubnetFile, ReadIP6CIDRFromSubnetFile, ReadCIDRsFromSubnetFile, ReadIP6CIDRsFromSubnetFile.
  unfold file_vars in Hin, Hout. split; [|split; [|split]].
  - destruct (cfg_EnableIPv4 c).
    + destruct (Hn eq_refl) as [Ho Ha]. pose proof (String_reads _ Ho) as Hr. rewrite Network_aligned in Hr by done.
      by rewrite (M_bind_Ret _ _ _ _ _ (Hin _ FromIPNet "FLANNEL_NETWORK" _ _ (list_elem_of_here _ _) Hr)).
    + rewrite (M_bind_Ret _ _ _ _ _ (Hout _ FromIPNet "FLANNEL_NETWORK" ltac:(destruct (cfg_EnableIPv6 c); set_solver))). done.
  - destruct (cfg_EnableIPv4 c).
    + destruct (Hs eq_refl) as (Ho & Ha & Hl). destruct (Network_Increment sn Ho Ha Hl) as [Hio En].
      pose proof (String_reads _ Hio) as Hr. rewrite En in Hr.
      by rewrite (M_bind_Ret _ _ _ _ _ (Hin _ FromIPNet "FLANNEL_SUBNET" _ _ (list_elem_of_further _ _ _ (list_elem_of_here _ _)) Hr)).
    + rewrite (M_bind_Ret _ _ _ _ _ (Hout _ FromIPNet "FLANNEL_SUBNET" ltac:(destruct (cfg_EnableIPv6 c); set_solver))). done.
  - destruct (cfg_EnableIPv6 c).
    + destruct (H6 eq_refl) as [Hr _]. erewrite M_bind_Ret; [|eapply (Hin _ FromIP6Net "FLANNEL_IPV6_NETWORK"); [|exact Hr]; set_solver]. done.
    + rewrite (M_bind_Ret _ _ _ _ _ (Hout _ FromIP6Net "FLANNEL_IPV6_NETWORK" ltac:(destruct (cfg_EnableIPv4 c); set_solver))). done.
  - destruct (cfg_EnableIPv6 c).
    + destruct (H6 eq_refl) as [_ Hr]. erewrite M_bind_Ret; [|eapply (Hin _ FromIP6Net "FLANNEL_IPV6_SUBNET"); [|exact Hr]; set_solver]. done.
    + rewrite (M_bind_Ret _ _ _ _ _ (Hout _ FromIP6Net "FLANNEL_IPV6_SUBNET" ltac:(destruct (cfg_EnableIPv4 c); set_solver))). done.
Qed.
End read_back.

(** The networks and subnets written to the subnet file are read back from it: those of
    a family that is enabled unchanged, although the file holds the first address of the
    subnet and not the subnet, those of a family that is not as the empty network. *)
Theorem subnet_file_roundtrip W `{EnvFileLaws W} path c ipMasq sn sn6 mtu (w w' : W) :
  file_ok c sn sn6 → WriteSubnetFile path c ipMasq sn sn6 mtu w = (Ret tt, w') →
  ReadCIDRFromSubnetFile path "FLANNEL_NETWORK" w' = (Ret (if cfg_EnableIPv4 c then cfg_Network c else mkIP4Net 0 0), w') ∧
  ReadCIDRFromSubnetFile path "FLANNEL_SUBNET" w' = (Ret (if cfg_EnableIPv4 c then sn else mkIP4Net 0 0), w') ∧
  ReadIP6CIDRFromSubnetFile path "FLANNEL_IPV6_NETWORK" w' = (Ret (if cfg_EnableIPv6 c then cfg_IPv6Network c else mkIP6Net (Some 0) 0), w') ∧
  ReadIP6CIDRFromSubnetFile path "FLANNEL_IPV6_SUBNET" w' = (Ret (if cfg_EnableIPv6 c then sn6 else mkIP6Net (Some 0) 0), w').
Proof. apply read_back. Qed.

(** The subnet to ask for is the previous one when it still fits and nobody has it. *)
Lemma choose_previous m fuel r4 r6 c leases : IP4Net_Empty (previousSubnet m) = false →
  isSubnetConfigCompat c (previousSubnet m) = true → isIPv6SubnetConfigCompat c (previousIPv6Subnet m) = Ret true →
  (∀ l, l ∈ leases → Subnet l ≠ previousSubnet m) →
  choose_subnet m fuel r4 r6 c leases = Ret (previousSubnet m, previousIPv6Subnet m).
Proof.
  intros He Hc Hc6 Hl. unfold choose_subnet. rewrite He.
  assert (findLeaseBySubnet leases (previousSubnet m) = None) as ->.
  { unfold findLeaseBySubnet. apply fmap_None, list_find_None, list.Forall_forall. intros l Hin E.
    apply (Hl l Hin). unfold IP4Net_Equal in E. apply andb_true_iff in E as [E1 E2]. apply Z.eqb_eq in E1, E2.
    destruct (Subnet l), (previousSubnet m). cbn in *. by subst. }
  rewrite Hc. cbn [and_then]. rewrite Hc6, bind_Ret. rewrite (bind_Ret (previousSubnet m, previousIPv6Subnet m)). by rewrite He.
Qed.

(** C35: a daemon with IPv4 enabled that has left its subnet in the subnet file asks for it again after a
    restart: when its lease has run out, no other node has the subnet and the subnets
    still fit the configuration, the lease it tries to acquire is for that subnet. *)
Theorem restart_keeps_subnet W R `{EnvFileLaws W, Registry R} path c ipMasq sn sn6 mtu margin (w w' : W)
    fuel r4 r6 c' ext attrs leases rev exp (s s1 s2 : R) :
  file_ok c sn sn6 → cfg_EnableIPv4 c = true → IP4Net_Empty sn = false → WriteSubnetFile path c ipMasq sn sn6 mtu w = (Ret tt, w') →
  let prev6 := if cfg_EnableIPv6 c then sn6 else mkIP6Net (Some 0) 0 in
  isSubnetConfigCompat c' sn = true → isIPv6SubnetConfigCompat c' prev6 = Ret true →
  getSubnets s = (Ret (leases, rev), s1) → findLeaseByIP leases ext = None → (∀ l, l ∈ leases → Subnet l ≠ sn) →
  createSubnet sn prev6 attrs subnetTTL s1 = (Ret exp, s2) →
  ∃ m, etcd_newSubnetManager path margin w' = (Ret m, w') ∧
    tryAcquireLease m fuel r4 r6 c' ext attrs s = (Ret (mkLease true (negb (IP6Net_Empty prev6)) sn prev6 attrs exp 0), s2).
Proof.
  intros Hok H4 He Hrun prev6 Hc Hc6 Hget Hno Hl Hcr. destruct (read_back path c ipMasq sn sn6 mtu w w' Hok Hrun) as (_ & E4 & _ & E6).
  rewrite H4 in E4. exists (mkLocalManager sn prev6 margin). split.
  - unfold etcd_newSubnetManager. by rewrite (M_bind_Ret _ _ _ _ _ E4), (M_bind_Ret _ _ _ _ _ E6).
  - unfold tryAcquireLease. rewrite (M_bind_Ret _ _ _ _ _ Hget), Hno. unfold acquire_new.
    rewrite (choose_previous (mkLocalManager sn prev6 margin) fuel r4 r6 c' leases) by done. run. by rewrite (run_try_Ret _ _ _ _ _ Hcr).
Qed.

(** ** The order of the options *)

Lemma first_found_app {W} (l k : list (M W ExternalInterface)) w :
  first_found (l ++ k) w = (e ← first_found l; match e with Some _ => mret e | None => first_found k end) w.
Proof.
  revert w. induction l as [|m l IH]; intros w; cbn [first_found app]; run; [done|].
  apply M_bind_cong; [done|]. intros [e|e] w'; run; [done|]. apply IH.
Qed.

(** The interface used is the first one found when the named interfaces, then the
    patterns, then the reachable address are tried in the order given; the public
    addresses stored on the node replace those of the command line throughout. *)
Theorem external_interface_order W `{IfaceHost W, AddrSort} Compile opts annotated stack (w : W) :
  ¬ (o_iface opts = [] ∧ o_ifaceRegex opts = [] ∧ o_ifaceCanReach opts = "") →
  let pub := mkPublicIPOpts (if decide (annotated.1 ≠ "") then annotated.1 else o_publicIP opts)
                            (if decide (annotated.2 ≠ "") then annotated.2 else o_publicIPv6 opts) in
  external_interface Compile opts annotated stack w =
  (e ← first_found (
     ((λ i, LookupExtIface Compile i "" "" stack pub) <$> o_iface opts) ++
     ((λ re, LookupExtIface Compile "" re "" stack pub) <$> o_ifaceRegex opts) ++
     ((λ a, LookupExtIface Compile "" "" a stack pub) <$> if decide (o_ifaceCanReach opts = "") then [] else [o_ifaceCanReach opts]));
   match e with
   | Some e => mret e
   | None => throw (Errorf "Failed to find interface to use that matches the interfaces and/or regexes provided")
   end) w.
Proof.
  intros Hne pub. unfold external_interface. rewrite decide_False by done. fold pub.
  erewrite (M_bind_cong (first_found (_ ++ _))); [|apply first_found_app|done]. run. apply M_bind_cong; [done|].
  intros [e|] w1; [done|]. erewrite (M_bind_cong (first_found (_ ++ _))); [|apply first_found_app|done]. run.
  apply M_bind_cong; [done|]. intros [e|] w2; [done|]. by destruct (decide (o_ifaceCanReach opts = "")); [rewrite decide_False by auto|rewrite decide_True by done].
Qed.

(** ** Files in memory *)

Abbreviation envfs := (gmap string string).

Fixpoint cut_equals (s : string) : option (string * string) :=
  match s with
  | EmptyString => None
  | String c s => if Ascii.eqb c "=" then Some (EmptyString, s) else prod_map (String c) id <$> cut_equals s
  end.
Definition env_parse (data : string) : gmap string string :=
  list_to_map (omap cut_equals (split_char (ascii_of_N 10) data)).

#[global] Instance mem_EnvFiles : EnvFiles envfs := {
  MkdirAll_Dir _ := mret tt;
  writeFile path data := modify <[path := data]>;
  Stat path := λ w, (match w !! path with Some _ => Ret tt | None => Err ErrNotExist end, w);
  env_Read path := λ w, (match w !! path with Some data => Ret (env_parse data) | None => Err ErrNotExist end, w)
}.

Lemma cut_equals_app k v : lacks "=" k → cut_equals (k +:+ String "=" v) = Some (k, v).
Proof.
  unfold lacks. induction k as [|c k IH]; [done|]. rewrite str_app_cons. cbn [str_all cut_equals].
  intros [Hc Hk]%andb_prop. destruct (Ascii.eqb c "="); [done|]. by rewrite IH.
Qed.

Lemma env_parse_text kvs : Forall env_ok kvs → env_parse (env_text kvs) = list_to_map kvs.
Proof.
  intros Hok. unfold env_parse. f_equal. induction Hok as [|[k v] kvs (_ & Hk & _ & Hv) _ IH]; [done|].
  unfold env_text. cbn [foldr fst snd]. fold (env_text kvs). unfold env_line. cbn [fst snd] in *.
  assert (((k +:+ "=" +:+ v +:+ newline) +:+ env_text kvs) = (k +:+ String "=" v) +:+ String (ascii_of_N 10) (env_text kvs)) as ->.
  { rewrite !str_app_assoc. done. }
  rewrite split_app.
  - cbn [omap list_omap]. rewrite cut_equals_app by (by eapply lacks_of_all; [|exact Hk]). by rewrite IH.
  - apply lacks_app; [by eapply lacks_of_all; [|exact Hk]|]. change (String "=" v) with ("=" +:+ v). apply lacks_app; [done|].
    by eapply lacks_of_all; [|exact Hv].
Qed.

#[global, refine] Instance mem_EnvFileLaws : EnvFileLaws envfs := { file w path := w !! path }.
Proof.
  - done.
  - intros path data w. apply lookup_insert_eq.
  - done.
  - intros path kvs w Hf Hok _. cbn [env_Read mem_EnvFiles]. rewrite Hf. by rewrite env_parse_text.
Defined.

Definition ds_conf : Config :=
  mkConfig true true false (mkIP4Net 167772160 8) (mkIP6Net (Some (252 * 2 ^ 120)) 48) 0 0 None None 24 64 "vxlan" "".
Definition ds_sn : IP4Net := mkIP4Net 168561920 24.
Definition ds_sn6 : IP6Net := mkIP6Net (Some (252 * 2 ^ 120 + 7 * 2 ^ 64)) 64.
Definition env_path : string := "/run/flannel/subnet.env".

Lemma ds_file_ok : file_ok ds_conf ds_sn ds_sn6.
Proof.
  constructor; intros _; [repeat split; cbn; lia|repeat split; cbn; lia| |split; [|cbn; lia]];
    (eexists; split; [reflexivity|]; unfold IP6_ok, IP6_hex, IP6_plain; cbn; repeat split; try lia; by vm_compute).
Qed.

Lemma run_to {S A} (m : M S A) s a : (m s).1 = Ret a → m s = (Ret a, (m s).2).
Proof. destruct (m s). by intros [= ->]. Qed.

Definition ds_written : envfs := (WriteSubnetFile env_path ds_conf true ds_sn ds_sn6 1450 (∅ : envfs)).2.

Lemma subnet_file_roundtrip_witness :
  WriteSubnetFile env_path ds_conf true ds_sn ds_sn6 1450 ∅ = (Ret tt, ds_written) ∧
  ReadCIDRFromSubnetFile env_path "FLANNEL_SUBNET" ds_written = (Ret ds_sn, ds_written) ∧
  ReadIP6CIDRFromSubnetFile env_path "FLANNEL_IPV6_SUBNET" ds_written = (Ret ds_sn6, ds_written).
Proof.
  destruct (subnet_file_roundtrip envfs env_path ds_conf true ds_sn ds_sn6 1450 ∅ ds_written) as (_ & E4 & _ & E6);
    [apply ds_file_ok|apply run_to; by vm_compute|]. split; [apply run_to; by vm_compute|]. split; [exact E4|exact E6].
Defined.

(** The subnet 10.0.0.4/30 of the small configuration, after it has run out. *)
Definition small_left : IP4Net := mkIP4Net 167772164 30.
Definition small_written : Config := net4_config (mkIP4Net 167772160 28).

Definition small_file : envfs := (WriteSubnetFile env_path small_written true small_left (mkIP6Net None 0) 1450 (∅ : envfs)).2.

Lemma restart_keeps_subnet_witness : ∃ m s2,
  WriteSubnetFile env_path small_written true small_left (mkIP6Net None 0) 1450 ∅ = (Ret tt, small_file) ∧
  etcd_newSubnetManager env_path 60 small_file = (Ret m, small_file) ∧
  tryAcquireLease m 3 0 0 small_config 3232235777 small_attrs (mkMemRegistry "" ∅ 0) =
    (Ret (mkLease true false small_left (mkIP6Net (Some 0) 0) small_attrs subnetTTL 0), s2).
Proof.
  destruct (restart_keeps_subnet envfs MemRegistry env_path small_written true small_left (mkIP6Net None 0) 1450 60
    ∅ small_file 3 0 0 small_config 3232235777 small_attrs [] 0
    subnetTTL (mkMemRegistry "" ∅ 0) (mkMemRegistry "" ∅ 0)
    (mkMemRegistry "" {[(small_left, mkIP6Net None 0) := small_attrs]} 0)) as (m & Em & Et).
  - constructor; try done; intros _; repeat split; cbn; lia.
  - done.
  - done.
  - apply run_to. by vm_compute.
  - by vm_compute.
  - by vm_compute.
  - by vm_compute.
  - done.
  - intros l Hl. by apply not_elem_of_nil in Hl.
  - by vm_compute.
  - exists m, (mkMemRegistry "" {[(small_left, mkIP6Net None 0) := small_attrs]} 0).
    split; [apply run_to; by vm_compute|]. split; [exact Em|exact Et].
Defined.

Lemma external_interface_order_witness :
  (external_interface compile_literal (mkIfaceOpts ["eth7"; "eth10"] ["10"] "" "" "") ("", "") ipv4Stack two_ifaces).1 =
  Ret (mkExternalInterface 9000 3 "eth10" (IP4_ToIP 3232235785) [] (IP4_ToIP 3232235785) []).
Proof. rewrite external_interface_order; [by vm_compute|]. by intros [? _]. Defined.
