(* ===== verification/NodeHosts.v ===== *)
(** * [pkg/cloudflaremeshoperator/nodehosts.go]: the managed block of the NodeHosts

    [mergeManagedNodeHosts]: the lines of the file that the operator does not manage are
    kept, and its own block is written anew after them. *)

From Stdlib Require Import ZArith Lia Ascii.
From stdpp Require Import base strings list gmap numbers sorting.
From S2P Require Import Prelude GoStrings.

Local Open Scope Z_scope.

Definition nodeHostsBeginMarker : string := "# BEGIN cloudflare-mesh-operator".
Definition nodeHostsEndMarker : string := "# END cloudflare-mesh-operator".
Definition nodeHostsHashAnnotation : string := "cloudflare-mesh.flannel.io/node-hosts-hash".

Definition lf : ascii := Ascii.ascii_of_N 10.
Definition cr : ascii := Ascii.ascii_of_N 13.

(** [strings.ReplaceAll(s, "\r\n", "\n")] *)
Fixpoint replace_crlf (s : string) : string :=
  match s with
  | EmptyString => ""
  | String a s' =>
      match s' with
      | String b s'' => if Ascii.eqb a cr && Ascii.eqb b lf then String lf (replace_crlf s'') else String a (replace_crlf s')
      | EmptyString => String a ""
      end
  end.

(** [strings.TrimSuffix(s, "\n")] *)
Fixpoint trim_suffix_lf (s : string) : string :=
  match s with
  | EmptyString => ""
  | String c s => if decide (s = "" ∧ c = lf) then "" else String c (trim_suffix_lf s)
  end.

Inductive block := Outside (seen : bool) | Inside.

(** The lines outside the managed block. *)
Fixpoint unmanaged (b : block) (lines : list string) : outcome (list string) :=
  match lines with
  | [] => match b with
          | Inside => Err (Errorf "managed block begin marker has no matching end marker")
          | Outside _ => Ret []
          end
  | line :: lines =>
      let t := TrimSpace line in
      if decide (t = nodeHostsBeginMarker) then
        match b with
        | Outside false => unmanaged Inside lines
        | _ => Err (Errorf "duplicate managed block begin marker")
        end
      else if decide (t = nodeHostsEndMarker) then
        match b with
        | Inside => unmanaged (Outside true) lines
        | Outside _ => Err (Errorf "managed block end marker has no matching begin marker")
        end
      else match b with
           | Inside => unmanaged b lines
           | Outside _ => rest ← unmanaged b lines; Ret (line :: rest)
           end
  end.

(** Without the blank lines at the end. *)
Definition drop_blank_end (base : list string) : list string :=
  foldr (λ line rest, if decide (rest = [] ∧ TrimSpace line = "") then [] else line :: rest) [] base.

(** The block: the hosts in the order of their names. *)
Definition managed_block (desiredHosts : gmap string string) : list string :=
  let hostnames := sort_Strings ((map_to_list desiredHosts).*1) in
  if decide (hostnames = []) then []
  else [nodeHostsBeginMarker] ++ ((λ h, default "" (desiredHosts !! h) +:+ " " +:+ h) <$> hostnames) ++ [nodeHostsEndMarker].

(** [strings.Join(base, "\n") + "\n"] *)
Definition lines_text (base : list string) : string := if decide (base = []) then "" else join (String lf "") base +:+ String lf "".

Definition mergeManagedNodeHosts (current : string) (desiredHosts : gmap string string) : outcome string :=
  base ← unmanaged (Outside false) (split_char lf (trim_suffix_lf (replace_crlf current)));
  Ret (lines_text (drop_blank_end base ++ managed_block desiredHosts)).

Example merge_ex : mergeManagedNodeHosts (join (String lf "") ["10.0.0.1 a"; ""; nodeHostsBeginMarker; "x"; nodeHostsEndMarker; ""])
    {["n2-mesh" := "100.96.0.2"; "n1-mesh" := "100.96.0.1"]} =
  Ret (join (String lf "") ["10.0.0.1 a"; nodeHostsBeginMarker; "100.96.0.1 n1-mesh"; "100.96.0.2 n2-mesh"; nodeHostsEndMarker; ""]).
Proof. by vm_compute. Qed.

(** ** Merging again *)

Definition host_line (d : gmap string string) (h : string) : string := default "" (d !! h) +:+ " " +:+ h.
Definition plain_line (line : string) : Prop := TrimSpace line ≠ nodeHostsBeginMarker ∧ TrimSpace line ≠ nodeHostsEndMarker.
(** Addresses and names of one line, which is not a marker. *)
Definition hosts_ok (d : gmap string string) : Prop :=
  ∀ h, h ∈ dom d → lacks lf (host_line d h) ∧ lacks cr (host_line d h) ∧ plain_line (host_line d h).

Lemma replace_crlf_id s : lacks cr s → replace_crlf s = s.
Proof.
  unfold lacks. revert s. assert (∀ n s, (String.length s < n)%nat → str_all (λ a, negb (Ascii.eqb a cr)) s = true → replace_crlf s = s) as H.
  { induction n as [|n IH]; intros s Hl Hs; [lia|]. destruct s as [|a [|b s]]; [done..|].
    cbn [str_all] in Hs. apply andb_prop in Hs as [Ha Hs]. apply negb_true_iff in Ha.
    change (replace_crlf (String a (String b s))) with
      (if Ascii.eqb a cr && Ascii.eqb b lf then String lf (replace_crlf s) else String a (replace_crlf (String b s))).
    rewrite Ha. cbn [andb]. f_equal. apply IH; [cbn in *; lia|exact Hs]. }
  intros s. apply (H (S (String.length s))). lia.
Qed.

Lemma trim_suffix_app s : trim_suffix_lf (s +:+ String lf "") = s.
Proof.
  induction s as [|c s IH]; [done|]. rewrite str_app_cons. cbn [trim_suffix_lf]. rewrite IH, decide_False; [done|].
  intros [F _]. by destruct s.
Qed.

Lemma trim_suffix_subset s c : lacks c s → lacks c (trim_suffix_lf s).
Proof.
  unfold lacks. induction s as [|a s IH]; [done|]. cbn [str_all trim_suffix_lf]. intros [Ha Hs]%andb_prop.
  case_decide; [done|]. cbn [str_all]. rewrite Ha. by apply IH.
Qed.

Lemma split_char_lacks c d s : lacks c s → Forall (lacks c) (split_char d s).
Proof.
  unfold lacks. induction s as [|a s IH]; cbn [split_char]; [by repeat constructor|]. cbn [str_all]. intros [Ha Hs]%andb_prop.
  specialize (IH Hs). destruct (Ascii.eqb a d); [by constructor|]. destruct (split_char d s) as [|x l]; [by repeat constructor; cbn; rewrite Ha|].
  inversion_clear IH. constructor; [|done]. cbn [str_all]. by rewrite Ha.
Qed.
Lemma split_char_sep d s : Forall (lacks d) (split_char d s).
Proof.
  unfold lacks. induction s as [|a s IH]; cbn [split_char]; [by repeat constructor|]. destruct (Ascii.eqb a d) eqn:E; [by constructor|].
  destruct (split_char d s) as [|x l]; [by repeat constructor; cbn; rewrite E|]. inversion_clear IH. constructor; [|done]. cbn [str_all]. by rewrite E.
Qed.

Lemma lacks_join c sep l : lacks c sep → Forall (lacks c) l → lacks c (join sep l).
Proof.
  intros Hs. induction 1 as [|x l Hx Hl IH]; [done|]. destruct l as [|y l]; [done|].
  change (join sep (x :: y :: l)) with (x +:+ sep +:+ join sep (y :: l)). by repeat apply lacks_app.
Qed.

Lemma unmanaged_lines b lines base : unmanaged b lines = Ret base → Forall plain_line base ∧ ∀ l, l ∈ base → l ∈ lines.
Proof.
  revert b base. induction lines as [|line lines IH]; intros b base; cbn [unmanaged].
  - destruct b; [|done]. intros [= <-]. by split; [|intros ? ?%not_elem_of_nil].
  - assert (∀ b base, unmanaged b lines = Ret base → Forall plain_line base ∧ ∀ l, l ∈ base → l ∈ line :: lines) as Hnext.
    { intros b' base' E. apply IH in E as [Hp Hin]. split; [done|]. intros l Hl. right. by apply Hin. }
    case_decide as Hb; [destruct b as [[]|]; try done; apply Hnext|]. case_decide as He; [destruct b; try done; apply Hnext|].
    destruct b; [|apply Hnext]. intros (rest & E & [= <-])%bind_inv. apply IH in E as [Hp Hin]. split; [by constructor|].
    intros l [->|Hl]%elem_of_cons; [by left|]. right. by apply Hin.
Qed.

Lemma unmanaged_plain seen base rest : Forall plain_line base →
  unmanaged (Outside seen) (base ++ rest) = (r ← unmanaged (Outside seen) rest; Ret (base ++ r)).
Proof.
  induction 1 as [|line base [H1 H2] _ IH]; cbn [unmanaged app]; [by destruct (unmanaged (Outside seen) rest)|].
  rewrite decide_False, decide_False, IH by done. by destruct (unmanaged (Outside seen) rest).
Qed.

Lemma unmanaged_inside lines rest : Forall plain_line lines → unmanaged Inside (lines ++ rest) = unmanaged Inside rest.
Proof. induction 1 as [|line lines [H1 H2] _ IH]; cbn [unmanaged app]; [done|]. by rewrite decide_False, decide_False, IH. Qed.

Lemma host_lines_ok d (P : string → Prop) : (∀ h, h ∈ dom d → P (host_line d h)) →
  Forall P ((λ h, default "" (d !! h) +:+ " " +:+ h) <$> sort_Strings (map_to_list d).*1).
Proof.
  intros HP. apply Forall_fmap, list.Forall_forall. intros h Hh. apply HP. unfold sort_Strings in Hh. rewrite merge_sort_Permutation in Hh.
  apply list_elem_of_fmap in Hh as ([k v] & -> & Hin). apply elem_of_map_to_list in Hin. by apply elem_of_dom_2 in Hin.
Qed.

Lemma unmanaged_block d : hosts_ok d → unmanaged (Outside false) (managed_block d) = Ret [].
Proof.
  intros Hd. unfold managed_block. case_decide; [done|]. cbn [app unmanaged]. rewrite decide_True by (by vm_compute).
  rewrite unmanaged_inside by (apply host_lines_ok; apply Hd). by vm_compute.
Qed.

Lemma drop_blank_end_lines base l : l ∈ drop_blank_end base → l ∈ base.
Proof.
  induction base as [|x base IH]; [done|]. cbn [drop_blank_end foldr]. case_decide; [by intros ?%not_elem_of_nil|].
  intros [->|Hl]%elem_of_cons; [by left|right; by apply IH].
Qed.
Lemma drop_blank_end_idem base : drop_blank_end (drop_blank_end base) = drop_blank_end base.
Proof.
  induction base as [|x base IH]; [done|]. change (drop_blank_end (x :: base)) with
    (if decide (drop_blank_end base = [] ∧ TrimSpace x = "") then [] else x :: drop_blank_end base).
  case_decide as H; [done|]. change (drop_blank_end (x :: drop_blank_end base)) with
    (if decide (drop_blank_end (drop_blank_end base) = [] ∧ TrimSpace x = "") then [] else x :: drop_blank_end (drop_blank_end base)).
  by rewrite IH, decide_False.
Qed.

(** Merging keeps what the operator does not manage: merging new hosts into a file that
    was already merged gives what merging them into the original file gives, so that a
    merge can be repeated and hosts come and go without a trace; a merge that succeeded
    never fails the next time. *)
Theorem merge_again current d d' t : hosts_ok d → lacks cr (replace_crlf current) →
  mergeManagedNodeHosts current d = Ret t → mergeManagedNodeHosts t d' = mergeManagedNodeHosts current d'.
Proof.
  intros Hd Hcr. unfold mergeManagedNodeHosts. intros (base & E & [= <-])%bind_inv. rewrite E, bind_Ret.
  destruct (unmanaged_lines _ _ _ E) as [Hp Hin]. set (b := drop_blank_end base).
  assert (∀ l, l ∈ b → plain_line l ∧ lacks lf l ∧ lacks cr l) as Hb.
  { intros l Hl%drop_blank_end_lines. split; [by eapply list.Forall_forall in Hp|]. apply Hin in Hl. split.
    - pose proof (split_char_sep lf (trim_suffix_lf (replace_crlf current))) as Hs. by eapply list.Forall_forall in Hs.
    - pose proof (split_char_lacks cr lf _ (trim_suffix_subset _ cr Hcr)) as Hs. by eapply list.Forall_forall in Hs. }
  assert (∀ c, c = lf ∨ c = cr → Forall (lacks c) (b ++ managed_block d)) as Hl.
  { intros c Hc. apply Forall_app_2; [apply list.Forall_forall; intros l Hl; destruct Hc as [->| ->]; by apply Hb|].
    unfold managed_block. case_decide; [constructor|]. apply Forall_app_2; [by repeat constructor; destruct Hc as [->| ->]; vm_compute|].
    apply Forall_app_2; [|by repeat constructor; destruct Hc as [->| ->]; vm_compute].
    apply host_lines_ok. intros h Hh. destruct Hc as [->| ->]; by apply Hd. }
  assert (unmanaged (Outside false) (split_char lf (trim_suffix_lf (replace_crlf (lines_text (b ++ managed_block d)))))
    = Ret (if decide (b ++ managed_block d = []) then [""] else b)) as ->.
  { unfold lines_text. case_decide as Hne; [by vm_compute|].
    rewrite replace_crlf_id by (apply lacks_app; [apply lacks_join; [done|]; by apply Hl; right|done]).
    rewrite trim_suffix_app, split_join by (done || (apply Hl; by left)).
    rewrite unmanaged_plain, unmanaged_block by (try done; apply list.Forall_forall; intros l Hl'; by apply Hb).
    cbn. by rewrite app_nil_r. }
  rewrite bind_Ret. do 2 f_equal. case_decide as Hne; [|by unfold b; rewrite drop_blank_end_idem].
  apply app_eq_nil in Hne as [Hb0 _]. fold b. rewrite Hb0. done.
Qed.

(** The file of [merge_ex], its hosts replaced by those of one node. *)
Definition ex_hosts : gmap string string := {["n1-mesh" := "100.96.0.1"]}.
Definition ex_file : string := join (String lf "") ["10.0.0.1 a"; ""; nodeHostsBeginMarker; "x"; nodeHostsEndMarker; ""].
Definition ex_merged : string := join (String lf "") ["10.0.0.1 a"; nodeHostsBeginMarker; "100.96.0.1 n1-mesh"; nodeHostsEndMarker; ""].

Lemma ex_hosts_ok : hosts_ok ex_hosts.
Proof.
  intros h Hh. unfold ex_hosts in Hh. rewrite dom_singleton in Hh. apply elem_of_singleton in Hh as ->.
  split_and!; [by vm_compute..|]. split; vm_compute; discriminate.
Qed.

Lemma merge_again_witness :
  mergeManagedNodeHosts ex_file ex_hosts = Ret ex_merged ∧ mergeManagedNodeHosts ex_merged ∅ = mergeManagedNodeHosts ex_file ∅.
Proof.
  assert (mergeManagedNodeHosts ex_file ex_hosts = Ret ex_merged) as E by (vm_compute; reflexivity).
  split; [exact E|]. exact (merge_again ex_file ex_hosts ∅ ex_merged ex_hosts_ok ltac:(vm_compute; reflexivity) E).
Defined.
