(* ===== verification/Operator.v ===== *)
(** * [pkg/cloudflaremeshoperator/operator.go]: the operator of the Mesh

    One reconciliation: connectors, bootstrap Secrets and routes of the nodes, then the
    removal of what no node claims.  Kubernetes is the class [OperatorKube], the account
    the class [MeshAPI], both over one store. *)

From Stdlib Require Import ZArith Lia Ascii.
From stdpp Require Import base strings list gmap numbers.
From S2P Require Import Prelude GoStrings GoJson GoTime GoNet GoHash Kube MeshApi NodeHosts.

Local Open Scope Z_scope.

(** ** Data *)

Definition minute : Z := 60 * nanosecond_per_second.
Definition registrationGCGrace : Z := 30 * minute.
Definition defaultRegistrationGCPeriod : Z := 10 * minute.

Inductive GCMode := RegistrationGCDryRun | RegistrationGCOn | RegistrationGCOff.
#[global] Instance GCMode_eq_dec : EqDecision GCMode.
Proof. solve_decision. Defined.
(** The text of a mode, [None] when it is none of the three. *)
Definition gc_mode (s : string) : option GCMode :=
  if decide (s = "dryrun") then Some RegistrationGCDryRun
  else if decide (s = "on") then Some RegistrationGCOn
  else if decide (s = "off") then Some RegistrationGCOff
  else None.

Record OpConfig := mkOpConfig {
  op_Namespace : string;
  op_SecretPrefix : string;
  op_ClusterName : string;
  op_ConnectorPrefix : string;
  op_AnnotationPrefix : string;
  op_NodeSelector : string;
  op_SyncPeriod : Z;
  op_RegistrationGC : string;
  op_RegistrationGCPeriod : Z;
  op_ConnectorHA : bool;
  op_CoreDNSNodeHostsEnabled : bool;
  op_CoreDNSNamespace : string;
  op_CoreDNSConfigMapName : string;
  op_CoreDNSNodeHostsKey : string;
  op_CoreDNSHostnameSuffix : string;
  op_CoreDNSRolloutKind : string;
  op_CoreDNSRolloutName : string
}.

(** The defaults that [New] fills in, and what it refuses. *)
Definition set_defaults (cfg : OpConfig) : OpConfig :=
  mkOpConfig (op_Namespace cfg) (op_SecretPrefix cfg) (op_ClusterName cfg) (op_ConnectorPrefix cfg)
    (if decide (op_AnnotationPrefix cfg = "") then DefaultAnnotationPrefix else op_AnnotationPrefix cfg)
    (op_NodeSelector cfg)
    (if op_SyncPeriod cfg <=? 0 then 15 * nanosecond_per_second else op_SyncPeriod cfg)
    (if decide (op_RegistrationGC cfg = "") then "dryrun" else op_RegistrationGC cfg)
    (if op_RegistrationGCPeriod cfg <=? 0 then defaultRegistrationGCPeriod else op_RegistrationGCPeriod cfg)
    (op_ConnectorHA cfg) (op_CoreDNSNodeHostsEnabled cfg) (op_CoreDNSNamespace cfg) (op_CoreDNSConfigMapName cfg)
    (op_CoreDNSNodeHostsKey cfg)
    (if op_CoreDNSNodeHostsEnabled cfg && bool_decide (op_CoreDNSHostnameSuffix cfg = "") then "-mesh" else op_CoreDNSHostnameSuffix cfg)
    (if op_CoreDNSNodeHostsEnabled cfg then ToLower (op_CoreDNSRolloutKind cfg) else op_CoreDNSRolloutKind cfg)
    (op_CoreDNSRolloutName cfg).

Definition op_New (cfg : OpConfig) : outcome OpConfig :=
  if decide (op_Namespace cfg = "" ∨ op_SecretPrefix cfg = "" ∨ op_ClusterName cfg = "")
  then Err (Errorf "operator namespace, Secret prefix, and cluster name are required")
  else
    let cfg := set_defaults cfg in
    match gc_mode (op_RegistrationGC cfg) with
    | None => Err (Errorf "registration GC mode must be %s, %s, or %s, got %q")
    | Some _ =>
        if op_CoreDNSNodeHostsEnabled cfg then
          if decide (op_CoreDNSNamespace cfg = "" ∨ op_CoreDNSConfigMapName cfg = "" ∨ op_CoreDNSNodeHostsKey cfg = "" ∨
                     op_CoreDNSRolloutName cfg = "")
          then Err (Errorf "CoreDNS namespace, ConfigMap name, NodeHosts key, and rollout workload name are required when NodeHosts sync is enabled")
          else if decide (op_CoreDNSRolloutKind cfg ≠ "deployment" ∧ op_CoreDNSRolloutKind cfg ≠ "daemonset")
          then Err (Errorf "CoreDNS rollout kind must be deployment or daemonset, got %q")
          else Ret cfg
        else Ret cfg
    end.

(** ** Kubernetes *)

Record OpNode := mkOpNode { on_node : Node; on_UID : string }.
Record OwnerReference := mkOwner { ow_APIVersion : string; ow_Kind : string; ow_Name : string; ow_UID : string }.
Record Secret := mkSecret {
  sec_Name : string;
  sec_Data : gmap string string;
  sec_Labels : option (gmap string string);
  sec_Owners : list OwnerReference
}.
Record ConfigMap := mkConfigMap { cm_Name : string; cm_Data : option (gmap string string) }.
(** A workload, of which only the annotations of the pod template are used. *)
Record Rollout := mkRollout { ro_Name : string; ro_Annotations : option (gmap string string) }.
Inductive RolloutKind := Deployment | DaemonSet.

#[global] Instance OwnerReference_eq_dec : EqDecision OwnerReference.
Proof. solve_decision. Defined.
#[global] Instance Secret_eq_dec : EqDecision Secret.
Proof. solve_decision. Defined.

(** The fixed namespaces of the configuration are not repeated in the calls. *)
Definition NotFound : error := Sentinel "NotFound".
Class OperatorKube (W : Type) := {
  ListNodes : string → M W (list OpNode);
  GetSecret : string → M W Secret;
  CreateSecret : Secret → M W unit;
  UpdateSecret : Secret → M W unit;
  GetConfigMap : string → M W ConfigMap;
  UpdateConfigMap : ConfigMap → M W unit;
  GetRollout : RolloutKind → string → M W Rollout;
  UpdateRollout : RolloutKind → Rollout → M W unit;
  (** [retry.RetryOnConflict(retry.DefaultRetry, f)] *)
  RetryOnConflict {A} : M W A → M W A
}.

(** Reading a Go map, and writing it after the check for nil. *)
Definition map_get (m : option (gmap string string)) (k : string) : string := default "" (m ≫= lookup k).
Definition map_set (m : option (gmap string string)) (k v : string) : option (gmap string string) := Some (<[k := v]> (default ∅ m)).

(** ** The parts of a reconciliation *)

(** A field of the lease data; the [errors.New] of an empty connector. *)
Definition LeaseData_field (d : LeaseData) (key raw : string) (v : json) : outcome LeaseData :=
  if field_name "connectorID" key then s ← decode_string (ld_ConnectorID d) v; Ret (mkLeaseData s (ld_MeshIP d))
  else if field_name "meshIP" key then s ← decode_string (ld_MeshIP d) v; Ret (mkLeaseData (ld_ConnectorID d) s)
  else Ret d.
Definition parseLeaseData (raw : string) : outcome LeaseData :=
  if decide (raw = "") then Err (Errorf "backend-data annotation is empty")
  else
    data ← Unmarshal (decode_struct LeaseData_field (mkLeaseData "" "")) raw;
    if decide (ld_ConnectorID data = "") then Err (Errorf "backend-data has no connectorID") else Ret data.

(** The first network that parses as an IPv4 one, as text. *)
Fixpoint first_ipv4 (cidrs : list string) : option string :=
  match cidrs with
  | [] => None
  | cidr :: cidrs =>
      match ParseCIDR cidr with
      | Some (ipAddress, network) => if decide (To4 ipAddress ≠ []) then Some (IPNet_String network) else first_ipv4 cidrs
      | None => first_ipv4 cidrs
      end
  end.
Definition nodeIPv4PodCIDR (node : Node) : outcome string :=
  let cidrs := PodCIDRs node in
  let cidrs := if decide (cidrs = [] ∧ PodCIDR node ≠ "") then [PodCIDR node] else cidrs in
  match first_ipv4 cidrs with
  | Some network => Ret network
  | None => Err (Errorf "node %s has no IPv4 PodCIDR")
  end.

Definition routeKey (connectorID network : string) : string := connectorID +:+ String (ascii_of 0) network.

Section operator.
Context {W : Type} `{OperatorKube W, MeshAPI W} (cfg : OpConfig).

(** The Secret that a node's connector is handed out in. *)
Definition desired_data (connector : ConnectorCredentials) : gmap string string :=
  {[SecretConnectorIDKey := cc_ID connector; SecretConnectorNameKey := cc_Name connector; SecretConnectorTokenKey := cc_Token connector]}.
Definition node_owner (node : OpNode) : OwnerReference := mkOwner "v1" "Node" (node_Name (on_node node)) (on_UID node).

Definition ensureBootstrapSecret (node : OpNode) (connector : ConnectorCredentials) : M W unit :=
  let name := NodeSecretName (op_SecretPrefix cfg) (node_Name (on_node node)) in
  let desiredData := desired_data connector in
  let owner := node_owner node in
  RetryOnConflict (
    r ← try (GetSecret name);
    match r with
    | inr e =>
        if decide (e = NotFound)
        then CreateSecret (mkSecret name desiredData (Some {[ManagedByLabel := ManagedByOperator]}) [owner])
        else throw e
    | inl secret =>
        if decide (sec_Data secret = desiredData ∧ map_get (sec_Labels secret) ManagedByLabel = ManagedByOperator ∧ sec_Owners secret = [owner])
        then mret tt
        else UpdateSecret (mkSecret (sec_Name secret) desiredData (map_set (sec_Labels secret) ManagedByLabel ManagedByOperator) [owner])
    end).

Definition ensureCoreDNSNodeHosts (desiredHosts : gmap string string) : M W string :=
  RetryOnConflict (
    configMap ← wrapping "get CoreDNS NodeHosts ConfigMap %s/%s: %w" (GetConfigMap (op_CoreDNSConfigMapName cfg));
    let current := map_get (cm_Data configMap) (op_CoreDNSNodeHostsKey cfg) in
    desired ← wrapping "merge CoreDNS NodeHosts: %w" (lift (mergeManagedNodeHosts current desiredHosts));
    if decide (current = desired) then mret desired
    else
      _ ← wrapping "update CoreDNS NodeHosts ConfigMap %s/%s: %w"
            (UpdateConfigMap (mkConfigMap (cm_Name configMap) (map_set (cm_Data configMap) (op_CoreDNSNodeHostsKey cfg) desired)));
      mret desired).

(** A workload is rolled out by a new hash in the annotations of its pods. *)
Definition reload (kind : RolloutKind) (fail hash : string) : M W unit :=
  RetryOnConflict (
    ro ← wrapping fail (GetRollout kind (op_CoreDNSRolloutName cfg));
    if decide (map_get (ro_Annotations ro) nodeHostsHashAnnotation = hash) then mret tt
    else UpdateRollout kind (mkRollout (ro_Name ro) (map_set (ro_Annotations ro) nodeHostsHashAnnotation hash))).
Definition ensureCoreDNSReload (nodeHosts : string) : M W unit :=
  let hash := sha256_hex nodeHosts in
  if decide (op_CoreDNSRolloutKind cfg = "deployment") then reload Deployment "get CoreDNS Deployment %s/%s: %w" hash
  else if decide (op_CoreDNSRolloutKind cfg = "daemonset") then reload DaemonSet "get CoreDNS DaemonSet %s/%s: %w" hash
  else throw (Errorf "unsupported CoreDNS rollout kind %q").

(** What the nodes claim, and the errors met: the local variables of [Reconcile]. *)
Record Desired := mkDesired {
  desiredRoutes : gset string;
  desiredConnectors : gset string;
  desiredNodeHosts : gmap string string;
  desiredMeshIPs : gset string;
  reconcileErrors : list error
}.
Definition add_error (e : error) (d : Desired) : Desired :=
  mkDesired (desiredRoutes d) (desiredConnectors d) (desiredNodeHosts d) (desiredMeshIPs d) (reconcileErrors d ++ [e]).
Definition claim_connector (id : string) (d : Desired) : Desired :=
  mkDesired (desiredRoutes d) ({[id]} ∪ desiredConnectors d) (desiredNodeHosts d) (desiredMeshIPs d) (reconcileErrors d).
Definition claim_ip (name ip : string) (d : Desired) : Desired :=
  mkDesired (desiredRoutes d) (desiredConnectors d)
    (if op_CoreDNSNodeHostsEnabled cfg then <[name +:+ op_CoreDNSHostnameSuffix cfg := ip]> (desiredNodeHosts d) else desiredNodeHosts d)
    ({[ip]} ∪ desiredMeshIPs d) (reconcileErrors d).
Definition claim_route (key : string) (d : Desired) : Desired :=
  mkDesired ({[key]} ∪ desiredRoutes d) (desiredConnectors d) (desiredNodeHosts d) (desiredMeshIPs d) (reconcileErrors d).

Definition node_annotation (node : Node) (name : string) : string := ann node (op_AnnotationPrefix cfg +:+ "/" +:+ name).

(** A node that runs the backend: its address, then its route. *)
Definition reconcile_mesh_node (d : Desired) (node : Node) (connector : ConnectorCredentials) (data : LeaseData) : M W Desired :=
  if decide (ld_ConnectorID data ≠ cc_ID connector)
  then mret (add_error (Errorf "node %s advertises connector %s, operator owns %s") d)
  else
    let meshIP := ParseIP (ld_MeshIP data) in
    if decide (meshIP = [] ∨ To4 meshIP = [])
    then mret (add_error (Errorf "node %s advertises invalid IPv4 Mesh IP %q") d)
    else
      let d := claim_ip (node_Name node) (IP_String meshIP) d in
      match nodeIPv4PodCIDR node with
      | Err e => mret (add_error e d)
      | Panic => panic
      | Ret network =>
          let comment := RouteComment (op_ClusterName cfg) (node_Name node) network in
          r ← try (EnsureRoute (cc_ID connector) network comment);
          match r with
          | inr e => mret (add_error (Wrapf "ensure route for node %s: %w" e) d)
          | inl route => mret (claim_route (routeKey (rt_TunnelID route) (rt_Network route)) d)
          end
      end.

(** The body of the loop over the nodes; every [continue] returns. *)
Definition reconcile_node (d : Desired) (opnode : OpNode) : M W Desired :=
  let node := on_node opnode in
  let connectorName := ConnectorName (op_ConnectorPrefix cfg) (op_ClusterName cfg) (node_Name node) in
  r ← try (EnsureConnector "" connectorName (op_ConnectorHA cfg));
  match r with
  | inr e => mret (add_error (Wrapf "ensure connector for node %s: %w" e) d)
  | inl connector =>
      let d := claim_connector (cc_ID connector) d in
      r ← try (ensureBootstrapSecret opnode connector);
      match r with
      | inr e => mret (add_error e d)
      | inl _ =>
          if decide (node_annotation node "backend-type" ≠ BackendName) then mret d
          else
            match parseLeaseData (node_annotation node "backend-data") with
            | Err e => mret (add_error (Wrapf "parse backend data for node %s: %w" e) d)
            | Panic => panic
            | Ret data => reconcile_mesh_node d node connector data
            end
      end
  end.
Fixpoint reconcile_nodes (d : Desired) (nodes : list OpNode) : M W Desired :=
  match nodes with
  | [] => mret d
  | node :: nodes => d ← reconcile_node d node; reconcile_nodes d nodes
  end.

(** The NodeHosts, when no node had an error. *)
Definition reconcile_hosts (d : Desired) : M W Desired :=
  if decide (reconcileErrors d = []) then
    if op_CoreDNSNodeHostsEnabled cfg then
      r ← try (ensureCoreDNSNodeHosts (desiredNodeHosts d));
      match r with
      | inr e => mret (add_error e d)
      | inl nodeHosts =>
          r ← try (ensureCoreDNSReload nodeHosts);
          match r with inr e => mret (add_error e d) | inl _ => mret d end
      end
    else mret d
  else mret d.

(** Deleting every element that is ours and unclaimed; the errors are collected. *)
Fixpoint collect_garbage {A} (ours : A → bool) (delete : A → M W unit) (l : list A) : M W (list error) :=
  match l with
  | [] => mret []
  | a :: l =>
      if ours a then
        r ← try (delete a);
        errs ← collect_garbage ours delete l;
        mret (match r with inl _ => errs | inr e => e :: errs end)
      else collect_garbage ours delete l
  end.

Definition stale_route (d : Desired) (route : ApiRoute) : bool :=
  HasPrefix (rt_Comment route) (RouteCommentPrefix (op_ClusterName cfg)) &&
  negb (bool_decide (routeKey (rt_TunnelID route) (rt_Network route) ∈ desiredRoutes d)).
Definition stale_connector (d : Desired) (connector : ConnectorCredentials) : bool :=
  HasPrefix (cc_Name connector) (ConnectorNamePrefix (op_ConnectorPrefix cfg) (op_ClusterName cfg)) &&
  negb (bool_decide (cc_ID connector ∈ desiredConnectors d)).

(** ** Registrations *)

(** A registration that is this cluster's, that no node uses, and that is not too young. *)
Definition abandoned (live : gset string) (cutoff : Z) (r : DeviceRegistration) : bool :=
  HasPrefix (dr_Name r) (ConnectorNamePrefix (op_ConnectorPrefix cfg) (op_ClusterName cfg)) &&
  negb (bool_decide (dr_VirtualIPv4 r ∈ live)) && negb (cutoff <? dr_CreatedAt r).

(** The operator between two reconciliations: when it sweeps next, and the world. *)
Record OpState := mkOpState { nextRegistrationGC : Z; op_host : W }.
Definition on_op_host {A} (m : M W A) : M OpState A := λ s,
  let '(r, w) := m (op_host s) in (r, mkOpState (nextRegistrationGC s) w).
Definition set_next (t : Z) (s : OpState) : OpState := mkOpState t (op_host s).

Definition join_errors {S} (errs : list error) : M S unit := match errors_Join errs with None => mret tt | Some e => throw e end.

(** The sweep at the time [now]. *)
Definition collectRegistrations (desiredMeshIPs : gset string) (now : Z) : M OpState unit :=
  let mode := gc_mode (op_RegistrationGC cfg) in
  if decide (mode = Some RegistrationGCOff) then mret tt
  else
    s ← get;
    if now <? nextRegistrationGC s then mret tt
    else
      _ ← modify (set_next (now + op_RegistrationGCPeriod cfg));
      registrations ← on_op_host (wrapping "list device registrations for garbage collection: %w" ListDeviceRegistrations);
      let cutoff := now - registrationGCGrace in
      errs ← on_op_host (collect_garbage (λ r, abandoned desiredMeshIPs cutoff r && negb (bool_decide (mode = Some RegistrationGCDryRun)))
                        (λ r, wrapping "delete orphaned registration %s: %w" (DeleteDeviceRegistration (dr_ID r))) registrations);
      join_errors errs.

(** ** [Reconcile] *)

Definition nothing_desired : Desired := mkDesired ∅ ∅ ∅ ∅ [].

Definition op_Reconcile (now : Z) : M OpState unit :=
  nodes ← on_op_host (wrapping "list Kubernetes nodes: %w" (ListNodes (op_NodeSelector cfg)));
  d ← on_op_host (reconcile_nodes nothing_desired nodes);
  d ← on_op_host (reconcile_hosts d);
  _ ← join_errors (reconcileErrors d);
  routes ← on_op_host (wrapping "list routes for garbage collection: %w" (ListRoutes ""));
  errs ← on_op_host (collect_garbage (stale_route d) (λ r, DeleteRoute (rt_ID r)) routes);
  _ ← join_errors errs;
  connectors ← on_op_host (wrapping "list connectors for garbage collection: %w" ListConnectors);
  errs ← on_op_host (collect_garbage (stale_connector d) (λ c, DeleteConnector (cc_ID c)) connectors);
  _ ← try (collectRegistrations (desiredMeshIPs d) now);
  join_errors errs.

(** [Run]: a reconciliation at once and at every tick; errors are logged. *)
Fixpoint op_Run (ticks : list Z) : M OpState unit :=
  match ticks with
  | [] => mret tt
  | now :: ticks => _ ← try (op_Reconcile now); op_Run ticks
  end.
End operator.
