(* ===== verification/OperatorFacts.v ===== *)
(** * The operator: what a reconciliation keeps, claims and removes

    Against [AccountLaws]: the account is connectors, routes and registrations by
    identifier; the calls of the interface [MeshAPI] change it as they say, and a call
    that fails may or may not have taken effect. *)

From Stdlib Require Import ZArith Lia Ascii.
From stdpp Require Import base strings list gmap numbers.
From S2P Require Import Prelude GoStrings GoJson GoHash GoTime GoNet Kube MeshApi NodeHosts Operator.

Local Open Scope Z_scope.

Record Account := mkAccount {
  ac_connectors : gmap string string;
  ac_routes : gmap string ApiRoute;
  ac_registrations : gmap string DeviceRegistration
}.

(** A connector with the name is there now, new or as it was. *)
Definition connector_put (a a' : Account) (id name : string) : Prop :=
  ac_connectors a' = <[id := name]> (ac_connectors a) ∧ (ac_connectors a !! id = None ∨ ac_connectors a !! id = Some name) ∧
  ac_routes a' = ac_routes a ∧ ac_registrations a' = ac_registrations a.
(** A route is there now, new or with another comment. *)
Definition rt_key (r : ApiRoute) : string := routeKey (rt_TunnelID r) (rt_Network r).
Definition route_put (a a' : Account) (r : ApiRoute) : Prop :=
  ac_routes a' = <[rt_ID r := r]> (ac_routes a) ∧
  (∀ r0, ac_routes a !! rt_ID r = Some r0 → rt_TunnelID r0 = rt_TunnelID r ∧ rt_Network r0 = rt_Network r) ∧
  ac_connectors a' = ac_connectors a ∧ ac_registrations a' = ac_registrations a.

Definition without_connector (id : string) (a : Account) : Account := mkAccount (delete id (ac_connectors a)) (ac_routes a) (ac_registrations a).
Definition without_route (id : string) (a : Account) : Account := mkAccount (ac_connectors a) (delete id (ac_routes a)) (ac_registrations a).
Definition without_registration (id : string) (a : Account) : Account :=
  mkAccount (ac_connectors a) (ac_routes a) (delete id (ac_registrations a)).

Class AccountLaws (W : Type) `{OperatorKube W, MeshAPI W} := {
  account : W → Account;
  law_ListNodes sel w : account (ListNodes sel w).2 = account w;
  law_GetSecret n w : account (GetSecret n w).2 = account w;
  law_CreateSecret s w : account (CreateSecret s w).2 = account w;
  law_UpdateSecret s w : account (UpdateSecret s w).2 = account w;
  law_GetConfigMap n w : account (GetConfigMap n w).2 = account w;
  law_UpdateConfigMap m w : account (UpdateConfigMap m w).2 = account w;
  law_GetRollout k n w : account (GetRollout k n w).2 = account w;
  law_UpdateRollout k r w : account (UpdateRollout k r w).2 = account w;
  (** what one attempt preserves, retrying preserves *)
  law_RetryOnConflict {A} (m : M W A) (P : W → Prop) w : (∀ w, P w → P (m w).2) → P w → P (RetryOnConflict m w).2;
  law_EnsureConnector name ha w :
    match EnsureConnector "" name ha w with
    | (Ret c, w') => connector_put (account w) (account w') (cc_ID c) name
    | (_, w') => account w' = account w ∨ ∃ id, connector_put (account w) (account w') id name
    end;
  law_EnsureRoute id network comment w :
    match EnsureRoute id network comment w with
    | (Ret r, w') => route_put (account w) (account w') r ∧ rt_TunnelID r = id ∧ rt_Network r = network
    | (_, w') => account w' = account w ∨
                 ∃ r, route_put (account w) (account w') r ∧ rt_TunnelID r = id ∧ rt_Network r = network
    end;
  law_ListConnectors w : account (ListConnectors w).2 = account w ∧
    ∀ l, (ListConnectors w).1 = Ret l → ∀ id name, ac_connectors (account w) !! id = Some name ↔ ∃ c, c ∈ l ∧ cc_ID c = id ∧ cc_Name c = name;
  law_ListRoutes w : account (ListRoutes "" w).2 = account w ∧
    ∀ l, (ListRoutes "" w).1 = Ret l → ∀ id r, ac_routes (account w) !! id = Some r ↔ r ∈ l ∧ rt_ID r = id;
  law_ListDeviceRegistrations w : account (ListDeviceRegistrations w).2 = account w ∧
    ∀ l, (ListDeviceRegistrations w).1 = Ret l → ∀ id r, ac_registrations (account w) !! id = Some r ↔ r ∈ l ∧ dr_ID r = id;
  law_DeleteConnector id w :
    match DeleteConnector id w with
    | (Ret _, w') => account w' = without_connector id (account w)
    | (_, w') => account w' = account w ∨ account w' = without_connector id (account w)
    end;
  law_DeleteRoute id w :
    match DeleteRoute id w with
    | (Ret _, w') => account w' = without_route id (account w)
    | (_, w') => account w' = account w ∨ account w' = without_route id (account w)
    end;
  law_DeleteDeviceRegistration id w :
    match DeleteDeviceRegistration id w with
    | (Ret _, w') => account w' = without_registration id (account w)
    | (_, w') => account w' = account w ∨ account w' = without_registration id (account w)
    end
}.

Section kube.
Context {W : Type} `{AccountLaws W} (cfg : OpConfig) (a0 : Account).
Abbreviation same := (λ w : W, account w = a0).

Lemma preserves_RetryOnConflict {A} (m : M W A) : preserves same m → preserves same (RetryOnConflict m).
Proof. intros Hm w Hw. apply (law_RetryOnConflict m same w); [|done]. intros w' Hw'. by apply Hm. Qed.

Lemma preserves_call {A} (m : M W A) : (∀ w, account (m w).2 = account w) → preserves same m.
Proof. intros Hm w Hw. by rewrite Hm. Qed.

Lemma secret_same node connector : preserves same (ensureBootstrapSecret cfg node connector).
Proof.
  apply preserves_RetryOnConflict, preserves_bind; [apply preserves_try, preserves_call, law_GetSecret|]. intros [s|e].
  - case_decide; [apply preserves_ret|apply preserves_call, law_UpdateSecret].
  - case_decide; [apply preserves_call, law_CreateSecret|apply preserves_throw].
Qed.

Lemma hosts_same hosts : preserves same (ensureCoreDNSNodeHosts cfg hosts).
Proof.
  apply preserves_RetryOnConflict, preserves_bind; [apply preserves_wrapping, preserves_call, law_GetConfigMap|]. intros cm.
  apply preserves_bind; [apply preserves_wrapping, preserves_lift|]. intros t. case_decide; [apply preserves_ret|].
  apply preserves_bind; [apply preserves_wrapping, preserves_call, law_UpdateConfigMap|]. intros _. apply preserves_ret.
Qed.

Lemma reload_same kind fail hash : preserves same (reload cfg kind fail hash).
Proof.
  apply preserves_RetryOnConflict, preserves_bind; [apply preserves_wrapping, preserves_call, law_GetRollout|]. intros ro.
  case_decide; [apply preserves_ret|apply preserves_call, law_UpdateRollout].
Qed.

Lemma reconcile_hosts_same d : preserves same (reconcile_hosts cfg d).
Proof.
  unfold reconcile_hosts. case_decide; [|apply preserves_ret]. destruct (op_CoreDNSNodeHostsEnabled cfg); [|apply preserves_ret].
  apply preserves_bind; [apply preserves_try, hosts_same|]. intros [t|e]; [|apply preserves_ret].
  apply preserves_bind; [|intros []; apply preserves_ret]. apply preserves_try. unfold ensureCoreDNSReload.
  case_decide; [apply reload_same|]. case_decide; [apply reload_same|apply preserves_throw].
Qed.
End kube.

(** ** The nodes *)

(** Nothing of the account is gone: a route may have another comment. *)
Record persists (a a' : Account) : Prop := mkPersists {
  kept_connectors id name : ac_connectors a !! id = Some name → ac_connectors a' !! id = Some name;
  kept_routes id r : ac_routes a !! id = Some r → ∃ r', ac_routes a' !! id = Some r' ∧ rt_TunnelID r' = rt_TunnelID r ∧ rt_Network r' = rt_Network r;
  kept_registrations : ac_registrations a' = ac_registrations a
}.

#[global] Instance persists_preorder : PreOrder persists.
Proof.
  split.
  - intros a. split; [done|intros id r Hr; by exists r|done].
  - intros a b c [C1 R1 G1] [C2 R2 G2]. split; [auto| |congruence].
    intros id r Hr. destruct (R1 id r Hr) as (r1 & Hr1 & ? & ?), (R2 id r1 Hr1) as (r2 & Hr2 & ? & ?). exists r2. split_and!; congruence.
Qed.

Lemma connector_put_persists a a' id name : connector_put a a' id name → persists a a'.
Proof.
  intros (Ec & Ho & Er & Eg). split; [|rewrite Er; intros i r Hr; by exists r|done]. intros i n Hi. rewrite Ec.
  destruct (decide (i = id)) as [->|]; [rewrite lookup_insert_eq; destruct Ho; congruence|by rewrite lookup_insert_ne].
Qed.

Lemma route_put_lookup a a' r id x : route_put a a' r → ac_routes a !! id = Some x →
  ∃ x', ac_routes a' !! id = Some x' ∧ rt_TunnelID x' = rt_TunnelID x ∧ rt_Network x' = rt_Network x ∧ (x' = x ∨ x' = r).
Proof.
  intros (Er & Ho & _ & _) Hx. rewrite Er. destruct (decide (id = rt_ID r)) as [->|].
  - rewrite lookup_insert_eq. destruct (Ho _ Hx). exists r. split_and!; [done..|by right].
  - rewrite lookup_insert_ne by done. exists x. split_and!; [done..|by left].
Qed.
Lemma route_put_persists a a' r : route_put a a' r → persists a a'.
Proof.
  intros Hp. pose proof Hp as (_ & _ & Ec & Eg). split; [by rewrite Ec| |done]. intros id x Hx.
  destruct (route_put_lookup a a' r id x Hp Hx) as (x' & ? & ? & ? & _). by exists x'.
Qed.

(** A route that is not as it was is claimed, unless there was an error. *)
Definition claimed_routes (a : Account) (a' : Account) (d' : Desired) : Prop :=
  ∀ id r r', ac_routes a !! id = Some r → ac_routes a' !! id = Some r' →
    r' = r ∨ rt_key r' ∈ desiredRoutes d' ∨ reconcileErrors d' ≠ [].

Record larger (d d' : Desired) : Prop := mkLarger {
  larger_routes : desiredRoutes d ⊆ desiredRoutes d';
  larger_connectors : desiredConnectors d ⊆ desiredConnectors d';
  larger_ips : desiredMeshIPs d ⊆ desiredMeshIPs d';
  larger_errors : reconcileErrors d ≠ [] → reconcileErrors d' ≠ []
}.
#[global] Instance larger_preorder : PreOrder larger.
Proof. split; [by intros d|]. intros d1 d2 d3 [] []. split; [set_solver..|auto]. Qed.

Lemma larger_error e d : larger d (add_error e d).
Proof. split; [done..|]. cbn. by destruct (reconcileErrors d). Qed.
Lemma has_error e d : reconcileErrors (add_error e d) ≠ [].
Proof. cbn. by destruct (reconcileErrors d). Qed.

Section nodes.
Context {W : Type} `{AccountLaws W} (cfg : OpConfig).
Implicit Types (d : Desired) (w : W).

Definition connector_name (node : OpNode) : string :=
  ConnectorName (op_ConnectorPrefix cfg) (op_ClusterName cfg) (node_Name (on_node node)).
Definition runs_mesh (node : OpNode) : Prop := node_annotation cfg (on_node node) "backend-type" = BackendName.

(** What a node that runs the backend claims: its connector, its network, its address. *)
Definition claims (node : OpNode) (id network ip : string) : Prop :=
  runs_mesh node ∧ nodeIPv4PodCIDR (on_node node) = Ret network ∧
  ∃ data, parseLeaseData (node_annotation cfg (on_node node) "backend-data") = Ret data ∧ ld_ConnectorID data = id ∧
          To4 (ParseIP (ld_MeshIP data)) ≠ [] ∧ ip = IP_String (ParseIP (ld_MeshIP data)).

(** The node has its connector and, when it runs the backend, its route. *)
Definition node_done (a : Account) d (node : OpNode) : Prop :=
  ∃ id, id ∈ desiredConnectors d ∧ ac_connectors a !! id = Some (connector_name node) ∧
    (runs_mesh node → ∃ network ip, claims node id network ip ∧ ip ∈ desiredMeshIPs d ∧ routeKey id network ∈ desiredRoutes d ∧
       ∃ rid r, ac_routes a !! rid = Some r ∧ rt_TunnelID r = id ∧ rt_Network r = network).

(** What is claimed is claimed by one of the nodes. *)
Definition claims_sound (a : Account) d (nodes : list OpNode) : Prop :=
  (∀ id, id ∈ desiredConnectors d → ∃ node, node ∈ nodes ∧ ac_connectors a !! id = Some (connector_name node)) ∧
  (∀ key, key ∈ desiredRoutes d → ∃ node id network ip, node ∈ nodes ∧ claims node id network ip ∧ key = routeKey id network) ∧
  (∀ ip, ip ∈ desiredMeshIPs d → ∃ node data, node ∈ nodes ∧ runs_mesh node ∧
     parseLeaseData (node_annotation cfg (on_node node) "backend-data") = Ret data ∧ ip = IP_String (ParseIP (ld_MeshIP data))).

Lemma node_done_mono a a' d d' node : persists a a' → larger d d' → node_done a d node → node_done a' d' node.
Proof.
  intros [Pc Pr _] [Lr Lc Li _] (id & Hid & Hc & Hm). exists id. split_and!; [set_solver|by apply Pc|].
  intros (network & ip & Hcl & Hip & Hk & rid & r & Hr & Et & En)%Hm. exists network, ip. split_and!; [done|set_solver..|].
  destruct (Pr rid r Hr) as (r' & Hr' & Et' & En'). exists rid, r'. split_and!; [done|congruence..].
Qed.

Lemma claims_sound_mono a a' d nodes nodes' : persists a a' → (∀ n, n ∈ nodes → n ∈ nodes') → claims_sound a d nodes → claims_sound a' d nodes'.
Proof.
  intros [Pc _ _] Hn (Sc & Sr & Si). split_and!.
  - intros id (node & Hnode & Hid)%Sc. exists node. split; [by apply Hn|by apply Pc].
  - intros key (node & id & network & ip & Hnode & ?)%Sr. exists node, id, network, ip. split; [by apply Hn|done].
  - intros ip (node & data & Hnode & ?)%Si. exists node, data. split; [by apply Hn|done].
Qed.

(** What one or more nodes do to the account and the claims. *)
Definition progress (w : W) d (nodes : list OpNode) (w' : W) d' : Prop :=
  persists (account w) (account w') ∧ larger d d' ∧ claimed_routes (account w) (account w') d' ∧
  (reconcileErrors d' = [] → (∀ node, node ∈ nodes → node_done (account w') d' node) ∧
     ∀ before, claims_sound (account w) d before → claims_sound (account w') d' (before ++ nodes)).

Definition progresses (d : Desired) (nodes : list OpNode) (m : M W Desired) : Prop := ∀ w,
  match m w with
  | (Ret d', w') => progress w d nodes w' d'
  | (_, w') => persists (account w) (account w')
  end.

(** An error ends a node: nothing more is claimed and nothing more is known. *)
Lemma progress_error w d nodes w' d' e : persists (account w) (account w') → larger d d' → progress w d nodes w' (add_error e d').
Proof.
  intros Hp Hl. split; [done|]. split; [etrans; [done|apply larger_error]|]. split; [right; right; apply has_error|].
  by intros F%has_error.
Qed.

(** The same for the rest of a node's turn, once its connector is claimed. *)
Definition node_progress (w : W) d (node : OpNode) (w' : W) d' : Prop :=
  persists (account w) (account w') ∧ larger d d' ∧ claimed_routes (account w) (account w') d' ∧
  (reconcileErrors d' = [] → node_done (account w') d' node ∧
     ∀ l, node ∈ l → claims_sound (account w) d l → claims_sound (account w') d' l).

Lemma node_progress_error w d node w' d' e : persists (account w) (account w') → larger d d' → node_progress w d node w' (add_error e d').
Proof.
  intros Hp Hl. destruct (progress_error w d [] w' d' e Hp Hl) as (Q1 & Q2 & Q3 & _). split_and!; [done..|]. by intros F%has_error.
Qed.

Lemma claimed_same a d : claimed_routes a a d.
Proof. intros id r r' Hr Hr'. left. congruence. Qed.

Lemma larger_ip name ip d : larger d (claim_ip cfg name ip d).
Proof. split; [done|done|cbn; set_solver|done]. Qed.
Lemma larger_route k d : larger d (claim_route k d).
Proof. split; [cbn; set_solver|done..]. Qed.
Lemma larger_connector id d : larger d (claim_connector id d).
Proof. split; [done|cbn; set_solver|done..]. Qed.

Lemma mesh_node_progress d node connector data w :
  cc_ID connector ∈ desiredConnectors d → ac_connectors (account w) !! cc_ID connector = Some (connector_name node) →
  runs_mesh node → parseLeaseData (node_annotation cfg (on_node node) "backend-data") = Ret data →
  match reconcile_mesh_node cfg d (on_node node) connector data w with
  | (Ret d', w') => node_progress w d node w' d'
  | (_, w') => persists (account w) (account w')
  end.
Proof.
  intros Hid Hname Hmesh Hdata. unfold reconcile_mesh_node. case_decide as Hown.
  { apply node_progress_error; done. }
  cbn zeta. case_decide as Hip. { apply node_progress_error; done. }
  destruct (nodeIPv4PodCIDR (on_node node)) as [network|e|] eqn:Enet.
  2:{ apply node_progress_error; [done|apply larger_ip]. }
  2:{ change (persists (account w) (account w)). done. }
  set (d1 := claim_ip cfg _ _ d). pose proof (larger_ip (node_Name (on_node node)) (IP_String (ParseIP (ld_MeshIP data))) d) as Hl1. fold d1 in Hl1.
  pose proof (law_EnsureRoute (cc_ID connector) network (RouteComment (op_ClusterName cfg) (node_Name (on_node node)) network) w) as Hlaw.
  cbn zeta. rewrite run_try_cases. destruct (EnsureRoute _ _ _ w) as [[r|e|] w'].
  - destruct Hlaw as (Hput & Et & En). pose proof (larger_route (routeKey (rt_TunnelID r) (rt_Network r)) d1) as Hl2.
    split_and!; [by eapply route_put_persists|by etrans|..].
    + intros id x x' Hx Hx'. destruct (route_put_lookup _ _ _ _ _ Hput Hx) as (y & Hy & _ & _ & [->| ->]); [left; congruence|].
      right; left. assert (x' = r) as -> by congruence. cbn. set_solver.
    + intros _. assert (claims node (cc_ID connector) network (IP_String (ParseIP (ld_MeshIP data)))) as Hcl.
      { split; [done|]. split; [done|]. exists data. split_and!; [done|done|tauto|done]. }
      assert (ac_connectors (account w') = ac_connectors (account w)) as Ec by apply Hput. split.
      * exists (cc_ID connector). split_and!; [done|by rewrite Ec|]. intros _. exists network, (IP_String (ParseIP (ld_MeshIP data))).
        split_and!; [done|cbn; set_solver|rewrite Et, En; cbn; set_solver|]. exists (rt_ID r), r. split_and!; [|done..].
        destruct Hput as (-> & _). apply lookup_insert_eq.
      * intros l Hnode (Sc & Sr & Si). split_and!; [by rewrite Ec| |].
        { intros key [->%elem_of_singleton|Hk]%elem_of_union; [|by apply Sr]. rewrite Et, En. by eexists node, _, _, _. }
        { intros ip [->%elem_of_singleton|Hk]%elem_of_union; [|by apply Si]. by exists node, data. }
  - apply node_progress_error; [|done]. destruct Hlaw as [->|(r & Hput & _)]; [done|by eapply route_put_persists].
  - destruct Hlaw as [->|(r & Hput & _)]; [done|by eapply route_put_persists].
Qed.

Lemma secret_account node connector w : account (ensureBootstrapSecret cfg node connector w).2 = account w.
Proof. by apply (secret_same cfg (account w)). Qed.

Lemma reconcile_node_progresses d node : progresses d [node] (reconcile_node cfg d node).
Proof.
  intros w. unfold reconcile_node. pose proof (law_EnsureConnector (connector_name node) (op_ConnectorHA cfg) w) as Hlaw.
  fold (connector_name node). rewrite run_try_cases. destruct (EnsureConnector _ _ _ w) as [[c|e|] w1].
  2:{ apply progress_error; [|done]. destruct Hlaw as [->|(id & Hp)]; [done|by eapply connector_put_persists]. }
  2:{ destruct Hlaw as [->|(id & Hp)]; [done|by eapply connector_put_persists]. }
  pose proof (connector_put_persists _ _ _ _ Hlaw) as Hp1. pose proof (larger_connector (cc_ID c) d) as Hl1.
  assert (ac_connectors (account w1) !! cc_ID c = Some (connector_name node)) as Hc by (destruct Hlaw as (-> & _); apply lookup_insert_eq).
  assert (∀ w2 d2, node_progress w1 (claim_connector (cc_ID c) d) node w2 d2 → progress w d [node] w2 d2) as Hcomb.
  { intros w2 d2 (Hp & Hl & Hcl & Hok). split_and!; [by etrans|by etrans| |].
    - intros id r r' Hr Hr'. apply (Hcl id r r'); [|done]. destruct Hlaw as (_ & _ & -> & _). done.
    - intros He. apply Hok in He as [Hdone Hsound]. split; [by intros x ->%list_elem_of_singleton|].
      intros before Hb. apply Hsound; [apply elem_of_app; right; by left|].
      apply (claims_sound_mono _ _ _ _ (before ++ [node]) Hp1) in Hb; [|intros n ?; apply elem_of_app; by left].
      destruct Hb as (Sc & Sr & Si). split_and!; [|done..]. intros id [->%elem_of_singleton|Hid]%elem_of_union; [|by apply Sc].
      exists node. split; [apply elem_of_app; right; by left|done]. }
  pose proof (secret_account node c w1) as Hsec. cbn zeta. rewrite run_try_cases.
  destruct (ensureBootstrapSecret cfg node c w1) as [[u|e|] w2]; cbn in Hsec.
  2:{ apply Hcomb, node_progress_error; [by rewrite Hsec|done]. }
  2:{ by rewrite Hsec. }
  assert (∀ w3 d3, node_progress w2 (claim_connector (cc_ID c) d) node w3 d3 → progress w d [node] w3 d3) as Hcomb2.
  { intros w3 d3. unfold node_progress. rewrite Hsec. apply Hcomb. }
  case_decide as Hmesh.
  - apply Hcomb2. split_and!; [done|done|apply claimed_same|]. intros _. split; [|done]. exists (cc_ID c).
    split_and!; [cbn; set_solver|by rewrite Hsec|]. intros F. by destruct Hmesh.
  - destruct (parseLeaseData _) as [data|e|] eqn:Edata.
    + pose proof (mesh_node_progress (claim_connector (cc_ID c) d) node c data w2) as Hn.
      destruct (reconcile_mesh_node _ _ _ _ _ w2) as [[d3|e|] w3].
      * apply Hcomb2, Hn; [cbn; set_solver|by rewrite Hsec|done..].
      * rewrite <- Hsec in Hp1. etrans; [exact Hp1|]. apply Hn; [cbn; set_solver|by rewrite Hsec|done..].
      * rewrite <- Hsec in Hp1. etrans; [exact Hp1|]. apply Hn; [cbn; set_solver|by rewrite Hsec|done..].
    + apply Hcomb2, node_progress_error; done.
    + change (persists (account w) (account w2)). by rewrite Hsec.
Qed.

Lemma claimed_trans a b c d d' : persists a b → larger d d' → claimed_routes a b d → claimed_routes b c d' → claimed_routes a c d'.
Proof.
  intros [_ Pr _] Hl C1 C2 id r r' Hr Hr'. destruct (Pr id r Hr) as (x & Hx & _). destruct (C2 id x r' Hx Hr') as [->|]; [|by right].
  destruct (C1 id r x Hr Hx) as [|[Hk|He]]; [by left|right; left; by apply (larger_routes _ _ Hl)|right; right; by apply (larger_errors _ _ Hl)].
Qed.

Lemma reconcile_nodes_progresses d nodes : progresses d nodes (reconcile_nodes cfg d nodes).
Proof.
  revert d. induction nodes as [|node nodes IH]; intros d w; cbn [reconcile_nodes].
  { split_and!; [done|done|apply claimed_same|]. intros _. split; [by intros ? ?%not_elem_of_nil|]. intros before Hb. by rewrite app_nil_r. }
  pose proof (reconcile_node_progresses d node w) as Hn. unfold mbind, M_bind. destruct (reconcile_node cfg d node w) as [[d1|e|] w1]; [|done..].
  destruct Hn as (Hp1 & Hl1 & Hc1 & Hok1). specialize (IH d1 w1). destruct (reconcile_nodes cfg d1 nodes w1) as [[d2|e|] w2]; [|by etrans..].
  destruct IH as (Hp2 & Hl2 & Hc2 & Hok2). split_and!; [by etrans|by etrans|by eapply claimed_trans|]. intros He2.
  assert (reconcileErrors d1 = []) as He1 by (destruct (decide (reconcileErrors d1 = [])) as [|F]; [done|by apply (larger_errors _ _ Hl2) in F]).
  destruct (Hok1 He1) as [Hd1 Hs1], (Hok2 He2) as [Hd2 Hs2]. split.
  - intros x [->|Hx]%elem_of_cons; [|by apply Hd2]. eapply node_done_mono; [done|done|]. apply Hd1. by left.
  - intros before Hb. rewrite cons_middle, (app_assoc before). by apply Hs2, Hs1.
Qed.
End nodes.

(** ** The removal of garbage *)

(** Only entries of [gone] have disappeared from a map. *)
Definition shrinks {B} (gone : string → B → Prop) (m m' : gmap string B) : Prop :=
  m' ⊆ m ∧ ∀ id b, m !! id = Some b → m' !! id = None → gone id b.

Lemma shrinks_refl {B} (gone : string → B → Prop) m : shrinks gone m m.
Proof. split; [done|]. congruence. Qed.
Lemma shrinks_trans {B} (gone : string → B → Prop) m1 m2 m3 : shrinks gone m1 m2 → shrinks gone m2 m3 → shrinks gone m1 m3.
Proof.
  intros [S1 G1] [S2 G2]. split; [by etrans|]. intros id b Hb Hn. destruct (m2 !! id) as [b'|] eqn:E; [|by apply G1].
  assert (b' = b) as -> by (pose proof (lookup_weaken _ _ _ _ E S1); congruence). by apply G2.
Qed.
Lemma shrinks_delete {B} (gone : string → B → Prop) m id : (∀ b, m !! id = Some b → gone id b) → shrinks gone m (delete id m).
Proof.
  intros Hg. split; [apply delete_subseteq|]. intros i b Hb Hn. destruct (decide (i = id)) as [->|]; [by apply Hg|].
  rewrite lookup_delete_ne in Hn by done. congruence.
Qed.
Lemma shrinks_mono {B} (gone gone' : string → B → Prop) m m' : (∀ id b, m !! id = Some b → gone id b → gone' id b) → shrinks gone m m' → shrinks gone' m m'.
Proof. intros Hi [Hs Hg]. split; [done|]. intros id b Hb Hn. by apply Hi, Hg. Qed.

Section garbage.
Context {W A B R : Type} (view : W → gmap string B) (rest : W → R) (id_of : A → string) (ours : A → bool) (del : A → M W unit).
Hypothesis del_law : ∀ a w,
  match del a w with
  | (Ret _, w') => view w' = delete (id_of a) (view w) ∧ rest w' = rest w
  | (_, w') => (view w' = view w ∨ view w' = delete (id_of a) (view w)) ∧ rest w' = rest w
  end.

Definition victim (l : list A) (id : string) (b : B) : Prop := ∃ a, a ∈ l ∧ ours a = true ∧ id_of a = id.

Lemma del_shrinks a l w : ours a = true → a ∈ l → shrinks (victim l) (view w) (view (del a w).2) ∧ rest (del a w).2 = rest w.
Proof.
  intros Ho Ha. pose proof (del_law a w) as Hl.
  assert (shrinks (victim l) (view w) (delete (id_of a) (view w))) as Hd by (apply shrinks_delete; intros b _; by exists a).
  destruct (del a w) as [[u|e|] w']; cbn; destruct Hl as [Hv Hr]; (split; [|done]); [by rewrite Hv|destruct Hv as [->| ->]; [apply shrinks_refl|done]..].
Qed.

(** What is collected is ours and of the list; without an error all of that is gone. *)
Lemma collect_garbage_spec l w :
  let '(r, w') := collect_garbage ours del l w in
  shrinks (victim l) (view w) (view w') ∧ rest w' = rest w ∧
  (r = Ret [] → ∀ a, a ∈ l → ours a = true → view w' !! id_of a = None).
Proof.
  assert (∀ l k w, (∀ a, a ∈ l → a ∈ k) → let '(r, w') := collect_garbage ours del l w in
    shrinks (victim k) (view w) (view w') ∧ rest w' = rest w ∧ (r = Ret [] → ∀ a, a ∈ l → ours a = true → view w' !! id_of a = None)) as Hgen;
    [|by apply (Hgen l l)].
  clear l w. induction l as [|a l IH]; intros k w Hk; cbn [collect_garbage].
  { split; [apply shrinks_refl|]. split; [done|]. by intros _ ? ?%not_elem_of_nil. }
  assert (∀ x, x ∈ l → x ∈ k) as Hl by (intros x Hx; apply Hk; by right).
  destruct (ours a) eqn:Ho.
  - pose proof (del_shrinks a k w Ho (Hk a (list_elem_of_here _ _))) as [Hs Hr]. pose proof (del_law a w) as Hd.
    rewrite run_try_cases. destruct (del a w) as [[u|e|] w1]; cbn in Hs, Hr.
    + specialize (IH k w1 Hl). unfold mbind, M_bind. destruct (collect_garbage ours del l w1) as [[errs|e|] w2]; destruct IH as (Hs2 & Hr2 & Hn).
      * split; [by eapply shrinks_trans|]. split; [congruence|]. intros [= ->] x [->|Hx]%elem_of_cons Hox; [|by apply Hn].
        destruct Hd as [Hd _]. destruct (view w2 !! id_of a) as [b|] eqn:E; [|done]. destruct Hs2 as [Hsub _].
        pose proof (lookup_weaken _ _ _ _ E Hsub) as F. rewrite Hd, lookup_delete_eq in F. done.
      * split; [by eapply shrinks_trans|]. split; [congruence|done].
      * split; [by eapply shrinks_trans|]. split; [congruence|done].
    + specialize (IH k w1 Hl). unfold mbind, M_bind. destruct (collect_garbage ours del l w1) as [[errs|e'|] w2]; destruct IH as (Hs2 & Hr2 & Hn);
        (split; [by eapply shrinks_trans|]); (split; [congruence|done]).
    + split; [done|]. split; [done|done].
  - specialize (IH k w Hl). destruct (collect_garbage ours del l w) as [r w2]. destruct IH as (Hs2 & Hr2 & Hn). split; [done|]. split; [done|].
    intros Er x [->|Hx]%elem_of_cons Hox; [congruence|by apply Hn].
Qed.
End garbage.

Section reconcile.
Context {W : Type} `{AccountLaws W} (cfg : OpConfig).
Implicit Types (d : Desired) (w : W).

(** Registrations that a sweep may delete. *)
Definition sweepable (live : gset string) (now next : Z) (reg : DeviceRegistration) : Prop :=
  gc_mode (op_RegistrationGC cfg) ≠ Some RegistrationGCOff ∧ gc_mode (op_RegistrationGC cfg) ≠ Some RegistrationGCDryRun ∧
  next <= now ∧ abandoned cfg live (now - registrationGCGrace) reg = true.

Record collected d (now next : Z) (a a' : Account) : Prop := mkCollected {
  col_routes : shrinks (λ _ r, stale_route cfg d r = true) (ac_routes a) (ac_routes a');
  col_connectors : shrinks (λ id name, stale_connector cfg d (mkConnector id name "") = true) (ac_connectors a) (ac_connectors a');
  col_registrations : shrinks (λ _ reg, sweepable (desiredMeshIPs d) now next reg) (ac_registrations a) (ac_registrations a')
}.
(** Nothing of the cluster is left that no node claims. *)
Definition tidy d (a : Account) : Prop :=
  (∀ id r, ac_routes a !! id = Some r → stale_route cfg d r = false) ∧
  (∀ id name, ac_connectors a !! id = Some name → stale_connector cfg d (mkConnector id name "") = false).

Lemma routes_garbage d w w0 routes r w' : ListRoutes "" w0 = (Ret routes, w) →
  collect_garbage (stale_route cfg d) (λ r, DeleteRoute (rt_ID r)) routes w = (r, w') →
  shrinks (λ _ r, stale_route cfg d r = true) (ac_routes (account w)) (ac_routes (account w')) ∧
  ac_connectors (account w') = ac_connectors (account w) ∧ ac_registrations (account w') = ac_registrations (account w) ∧
  (r = Ret [] → ∀ id r, ac_routes (account w') !! id = Some r → stale_route cfg d r = false).
Proof.
  intros Hlist Hrun. destruct (law_ListRoutes w0) as [Ea Hl]. rewrite Hlist in Ea, Hl. cbn in Ea, Hl. specialize (Hl routes eq_refl). rewrite <- Ea in Hl.
  pose proof (collect_garbage_spec (λ w, ac_routes (account w)) (λ w, (ac_connectors (account w), ac_registrations (account w))) rt_ID
    (stale_route cfg d) (λ r, DeleteRoute (rt_ID r))) as Hspec.
  assert (∀ a w, match DeleteRoute (rt_ID a) w with
    | (Ret _, w') => ac_routes (account w') = delete (rt_ID a) (ac_routes (account w)) ∧
        (ac_connectors (account w'), ac_registrations (account w')) = (ac_connectors (account w), ac_registrations (account w))
    | (_, w') => (ac_routes (account w') = ac_routes (account w) ∨ ac_routes (account w') = delete (rt_ID a) (ac_routes (account w))) ∧
        (ac_connectors (account w'), ac_registrations (account w')) = (ac_connectors (account w), ac_registrations (account w)) end) as Hdel.
  { intros a v. pose proof (law_DeleteRoute (rt_ID a) v) as Hd. destruct (DeleteRoute (rt_ID a) v) as [[u|e|] v'];
      [by rewrite Hd|by destruct Hd as [->| ->]; auto..]. }
  specialize (Hspec Hdel routes w). rewrite Hrun in Hspec. destruct Hspec as (Hs & [= Ec Eg] & Hn). split_and!; [|done..|].
  - eapply shrinks_mono; [|exact Hs]. intros id b Hb (x & Hx & Ho & Eid). apply Hl in Hb as [Hb Eb].
    assert (ac_routes (account w) !! id = Some x) as Hx' by (by apply Hl). assert (ac_routes (account w) !! id = Some b) as Hb' by (by apply Hl). congruence.
  - intros Er id x Hx. destruct (stale_route cfg d x) eqn:Est; [|done]. destruct Hs as [Hsub _]. pose proof (lookup_weaken _ _ _ _ Hx Hsub) as Hx0.
    apply Hl in Hx0 as [Hin Eid]. specialize (Hn Er x Hin Est). congruence.
Qed.

Lemma connectors_garbage d w w0 connectors r w' : ListConnectors w0 = (Ret connectors, w) →
  collect_garbage (stale_connector cfg d) (λ c, DeleteConnector (cc_ID c)) connectors w = (r, w') →
  shrinks (λ id name, stale_connector cfg d (mkConnector id name "") = true) (ac_connectors (account w)) (ac_connectors (account w')) ∧
  ac_routes (account w') = ac_routes (account w) ∧ ac_registrations (account w') = ac_registrations (account w) ∧
  (r = Ret [] → ∀ id name, ac_connectors (account w') !! id = Some name → stale_connector cfg d (mkConnector id name "") = false).
Proof.
  intros Hlist Hrun. destruct (law_ListConnectors w0) as [Ea Hl]. rewrite Hlist in Ea, Hl. cbn in Ea, Hl. specialize (Hl connectors eq_refl). rewrite <- Ea in Hl.
  pose proof (collect_garbage_spec (λ w, ac_connectors (account w)) (λ w, (ac_routes (account w), ac_registrations (account w))) cc_ID
    (stale_connector cfg d) (λ c, DeleteConnector (cc_ID c))) as Hspec.
  assert (∀ a w, match DeleteConnector (cc_ID a) w with
    | (Ret _, w') => ac_connectors (account w') = delete (cc_ID a) (ac_connectors (account w)) ∧
        (ac_routes (account w'), ac_registrations (account w')) = (ac_routes (account w), ac_registrations (account w))
    | (_, w') => (ac_connectors (account w') = ac_connectors (account w) ∨ ac_connectors (account w') = delete (cc_ID a) (ac_connectors (account w))) ∧
        (ac_routes (account w'), ac_registrations (account w')) = (ac_routes (account w), ac_registrations (account w)) end) as Hdel.
  { intros a v. pose proof (law_DeleteConnector (cc_ID a) v) as Hd. destruct (DeleteConnector (cc_ID a) v) as [[u|e|] v'];
      [by rewrite Hd|by destruct Hd as [->| ->]; auto..]. }
  specialize (Hspec Hdel connectors w). rewrite Hrun in Hspec. destruct Hspec as (Hs & [= Ec Eg] & Hn).
  assert (∀ x, stale_connector cfg d x = stale_connector cfg d (mkConnector (cc_ID x) (cc_Name x) "")) as Est by done. split_and!; [|done..|].
  - eapply shrinks_mono; [|exact Hs]. intros id b Hb (x & Hx & Ho & Eid). cbn beta.
    assert (ac_connectors (account w) !! id = Some (cc_Name x)) as Hx' by (apply Hl; by exists x). assert (b = cc_Name x) as -> by congruence.
    by rewrite <- Eid, <- Est.
  - intros Er id name Hx. destruct (stale_connector cfg d (mkConnector id name "")) eqn:E; [|done]. destruct Hs as [Hsub _].
    pose proof (lookup_weaken _ _ _ _ Hx Hsub) as Hx0. apply Hl in Hx0 as (x & Hin & <- & <-). rewrite <- Est in E.
    specialize (Hn Er x Hin E). cbn beta in Hn. congruence.
Qed.

Lemma sweep_spec live now s r s' : collectRegistrations cfg live now s = (r, s') →
  ac_connectors (account (op_host s')) = ac_connectors (account (op_host s)) ∧ ac_routes (account (op_host s')) = ac_routes (account (op_host s)) ∧
  shrinks (λ _ reg, sweepable live now (nextRegistrationGC s) reg) (ac_registrations (account (op_host s))) (ac_registrations (account (op_host s'))).
Proof.
  unfold collectRegistrations. cbn zeta. case_decide as Hoff. { intros [= <- <-]. split_and!; [done..|apply shrinks_refl]. }
  rewrite run_get. destruct (Z.ltb_spec now (nextRegistrationGC s)) as [|Hnext]. { intros [= <- <-]. split_and!; [done..|apply shrinks_refl]. }
  rewrite run_modify. set (s1 := set_next _ s). change (op_host s) with (op_host s1). generalize dependent s1. intros s1.
  unfold mbind at 1, M_bind at 1, on_op_host at 1. unfold wrapping at 1. rewrite run_try_cases.
  destruct (law_ListDeviceRegistrations (op_host s1)) as [Ea Hl]. destruct (ListDeviceRegistrations (op_host s1)) as [[regs|e|] w1] eqn:Elist; cbn in Ea, Hl.
  2,3: intros [= <- <-]; cbn; rewrite Ea; split_and!; [done..|apply shrinks_refl].
  specialize (Hl regs eq_refl). cbn [mret M_ret]. unfold mbind, M_bind, on_op_host. cbn [op_host].
  pose proof (collect_garbage_spec (λ w, ac_registrations (account w)) (λ w, (ac_connectors (account w), ac_routes (account w))) dr_ID
    (λ r, abandoned cfg live (now - registrationGCGrace) r && negb (bool_decide (gc_mode (op_RegistrationGC cfg) = Some RegistrationGCDryRun)))
    (λ r, wrapping "delete orphaned registration %s: %w" (DeleteDeviceRegistration (dr_ID r)))) as Hspec.
  assert (∀ a w, match wrapping "delete orphaned registration %s: %w" (DeleteDeviceRegistration (dr_ID a)) w with
    | (Ret _, w') => ac_registrations (account w') = delete (dr_ID a) (ac_registrations (account w)) ∧
        (ac_connectors (account w'), ac_routes (account w')) = (ac_connectors (account w), ac_routes (account w))
    | (_, w') => (ac_registrations (account w') = ac_registrations (account w) ∨ ac_registrations (account w') = delete (dr_ID a) (ac_registrations (account w))) ∧
        (ac_connectors (account w'), ac_routes (account w')) = (ac_connectors (account w), ac_routes (account w)) end) as Hdel.
  { intros a v. pose proof (law_DeleteDeviceRegistration (dr_ID a) v) as Hd. unfold wrapping. rewrite run_try_cases.
    destruct (DeleteDeviceRegistration (dr_ID a) v) as [[u|e|] v']; cbn; [by rewrite Hd|by destruct Hd as [->| ->]; auto..]. }
  specialize (Hspec Hdel regs w1). destruct (collect_garbage _ _ regs w1) as [r2 w2]. destruct Hspec as (Hs & [= Ec Er] & _).
  intros Hrun. assert (op_host s' = w2) as ->.
  { destruct r2 as [errs|e|]; [unfold join_errors in Hrun; destruct (errors_Join errs)|..]; by injection Hrun as <- <-. }
  rewrite Ec, Er, Ea. split_and!; [done..|]. rewrite <- Ea. eapply shrinks_mono; [|exact Hs]. cbn beta.
  intros id reg Hreg (x & Hx & Ho & Eid). rewrite <- Ea in Hl. assert (ac_registrations (account w1) !! id = Some x) as Hx' by (by apply Hl).
  assert (reg = x) as -> by congruence. apply andb_true_iff in Ho as [Hab Hdry]. apply negb_true_iff, bool_decide_eq_false in Hdry.
  split_and!; [done..|lia|done].
Qed.

Lemma run_on_op_host {A B} (m : M W A) (f : A → M OpState B) (s : OpState) :
  (x ← on_op_host m; f x) s =
  match m (op_host s) with
  | (Ret a, w) => f a (mkOpState (nextRegistrationGC s) w)
  | (Err e, w) => (Err e, mkOpState (nextRegistrationGC s) w)
  | (Panic, w) => (Panic, mkOpState (nextRegistrationGC s) w)
  end.
Proof. unfold mbind, M_bind, on_op_host. by destruct (m (op_host s)) as [[a|e|] w]. Qed.

Lemma wrapping_cases {A} f (m : M W A) w :
  wrapping f m w = match m w with (Ret a, w') => (Ret a, w') | (Err e, w') => (Err (Wrapf f e), w') | (Panic, w') => (Panic, w') end.
Proof. unfold wrapping. rewrite run_try_cases. by destruct (m w) as [[a|e|] w']. Qed.

Lemma run_join_errors {S B} errs (f : unit → M S B) (s : S) :
  (x ← join_errors errs; f x) s = match errors_Join errs with None => f tt s | Some e => (Err e, s) end.
Proof. unfold join_errors. by destruct (errors_Join errs). Qed.
Lemma errors_Join_none errs : errors_Join errs = None → errs = [].
Proof. by destruct errs. Qed.

Lemma hosts_unchanged d w d' w' : reconcile_hosts cfg d w = (Ret d', w') → reconcileErrors d' = [] → d' = d.
Proof.
  unfold reconcile_hosts. case_decide; [|by intros [= <- <-]]. destruct (op_CoreDNSNodeHostsEnabled cfg); [|by intros [= <- <-]].
  rewrite run_try_cases. destruct (ensureCoreDNSNodeHosts _ _ w) as [[t|e|] w1]; [|by intros [= <- <-] F%has_error|done].
  rewrite run_try_cases. destruct (ensureCoreDNSReload _ _ w1) as [[u|e|] w2]; [by intros [= <- <-]|by intros [= <- <-] F%has_error|done].
Qed.

(** A reconciliation stops before it has removed anything, or every node went through
    and only garbage is removed; all of it when there is no error. *)
Definition went_through now (s s' : OpState) (r : outcome unit) : Prop :=
  ∃ nodes d a1, (ListNodes (op_NodeSelector cfg) (op_host s)).1 = Ret nodes ∧ reconcileErrors d = [] ∧
    persists (account (op_host s)) a1 ∧ claimed_routes (account (op_host s)) a1 d ∧
    (∀ node, node ∈ nodes → node_done cfg a1 d node) ∧ claims_sound cfg a1 d nodes ∧
    collected d now (nextRegistrationGC s) a1 (account (op_host s')) ∧ (r = Ret tt → tidy d (account (op_host s'))).

Lemma nothing_sound a : claims_sound cfg a nothing_desired [].
Proof. split_and!; by intros ? ?%not_elem_of_empty. Qed.

Lemma op_Reconcile_phases now s r s' : op_Reconcile cfg now s = (r, s') →
  (persists (account (op_host s)) (account (op_host s')) ∧ r ≠ Ret tt) ∨ went_through now s s' r.
Proof.
  unfold op_Reconcile. rewrite run_on_op_host, wrapping_cases. pose proof (law_ListNodes (op_NodeSelector cfg) (op_host s)) as Ea0.
  destruct (ListNodes _ (op_host s)) as [[nodes|e|] w0] eqn:Enodes; cbn in Ea0.
  2,3: intros [= <- <-]; left; cbn; by rewrite Ea0.
  rewrite run_on_op_host. cbn [op_host nextRegistrationGC]. pose proof (reconcile_nodes_progresses cfg nothing_desired nodes w0) as Hn.
  destruct (reconcile_nodes cfg nothing_desired nodes w0) as [[d|e|] w1]; rewrite Ea0 in Hn || (unfold progress in Hn; rewrite Ea0 in Hn).
  2,3: intros [= <- <-]; by left.
  destruct Hn as (Hp & _ & Hcl & Hok). rewrite run_on_op_host. cbn [op_host nextRegistrationGC].
  pose proof (reconcile_hosts_same cfg (account w1) d w1 eq_refl) as Eh. pose proof (hosts_unchanged d w1) as Hh.
  destruct (reconcile_hosts cfg d w1) as [[d'|e|] w2]; cbn in Eh.
  2,3: intros [= <- <-]; left; cbn; by rewrite Eh.
  rewrite run_join_errors. destruct (errors_Join (reconcileErrors d')) as [e|] eqn:Ej.
  { intros [= <- <-]. left. cbn. by rewrite Eh. }
  apply errors_Join_none in Ej. specialize (Hh d' w2 eq_refl Ej) as ->. destruct (Hok Ej) as [Hdone Hsound].
  specialize (Hsound [] (nothing_sound _)). rewrite <- Eh in Hp, Hcl, Hdone, Hsound. clear Hok.
  intros Hrun. right. exists nodes, d, (account w2). split; [by rewrite Enodes|]. do 5 (split; [done|]). revert Hrun.
  assert (∀ a', ac_connectors (account w2) = ac_connectors a' → ac_routes (account w2) = ac_routes a' → ac_registrations (account w2) = ac_registrations a' →
    collected d now (nextRegistrationGC s) (account w2) a') as Hsame.
  { intros a' Ec Er Eg. split; [rewrite Er|rewrite Ec|rewrite Eg]; apply shrinks_refl. }
  rewrite run_on_op_host, wrapping_cases. cbn [op_host nextRegistrationGC]. destruct (law_ListRoutes w2) as [El _].
  destruct (ListRoutes "" w2) as [[routes|e|] w3] eqn:Elr; cbn in El.
  2,3: intros [= <- <-]; split; [|done]; cbn; rewrite El; by apply Hsame.
  rewrite run_on_op_host. cbn [op_host nextRegistrationGC].
  destruct (collect_garbage (stale_route cfg d) _ routes w3) as [r4 w4] eqn:Ecr.
  destruct (routes_garbage d w3 w2 routes r4 w4 Elr Ecr) as (Hs4 & Ec4 & Eg4 & Ht4). rewrite El in Hs4, Ec4, Eg4.
  assert (collected d now (nextRegistrationGC s) (account w2) (account w4)) as H4.
  { split; [done|rewrite Ec4; apply shrinks_refl|rewrite Eg4; apply shrinks_refl]. }
  destruct r4 as [errs|e|]; [|by intros [= <- <-]..]. rewrite run_join_errors.
  destruct (errors_Join errs) as [e|] eqn:Ej2; [by intros [= <- <-]|]. apply errors_Join_none in Ej2 as ->. specialize (Ht4 eq_refl).
  rewrite run_on_op_host, wrapping_cases. cbn [op_host nextRegistrationGC]. destruct (law_ListConnectors w4) as [El5 _].
  destruct (ListConnectors w4) as [[connectors|e|] w5] eqn:Elc; cbn in El5.
  2,3: intros [= <- <-]; split; [|done]; cbn; by rewrite El5.
  rewrite run_on_op_host. cbn [op_host nextRegistrationGC].
  destruct (collect_garbage (stale_connector cfg d) _ connectors w5) as [r6 w6] eqn:Ecc.
  destruct (connectors_garbage d w5 w4 connectors r6 w6 Elc Ecc) as (Hs6 & Er6 & Eg6 & Ht6). rewrite El5 in Hs6, Er6, Eg6.
  assert (collected d now (nextRegistrationGC s) (account w2) (account w6)) as H6.
  { split; [rewrite Er6; apply H4|rewrite <- Ec4; exact Hs6|rewrite Eg6; apply H4]. }
  destruct r6 as [errs|e|]; [|by intros [= <- <-]..]. rewrite run_try_cases.
  destruct (collectRegistrations cfg (desiredMeshIPs d) now _) as [r7 s7] eqn:Esw. apply sweep_spec in Esw as (Ec7 & Er7 & Hs7). cbn in Ec7, Er7, Hs7.
  assert (collected d now (nextRegistrationGC s) (account w2) (account (op_host s7))) as H7.
  { split; [rewrite Er7; apply H6|rewrite Ec7; apply H6|]. eapply shrinks_trans; [apply H6|done]. }
  assert (∀ errs, join_errors errs s7 = (r, s') → s' = s7 ∧ (r = Ret tt → errs = [])) as Hjoin.
  { intros l. unfold join_errors. destruct (errors_Join l) eqn:El'; intros [= <- <-]; [done|]. split; [done|]. intros _. by apply errors_Join_none. }
  destruct r7 as [u|e|]; [intros [-> Hr]%Hjoin|intros [-> Hr]%Hjoin|by intros [= <- <-]];
    (split; [done|]); intros ->; specialize (Hr eq_refl) as ->; (split; [rewrite Er7, Er6; exact Ht4|rewrite Ec7; by apply Ht6]).
Qed.

Lemma shrinks_kept {B} (gone : string → B → Prop) m m' id b : shrinks gone m m' → m !! id = Some b → ¬ gone id b → m' !! id = Some b.
Proof.
  intros [Hsub Hg] Hb Hn. destruct (m' !! id) as [b'|] eqn:E; [|by destruct Hn; apply Hg].
  pose proof (lookup_weaken _ _ _ _ E Hsub). congruence.
Qed.

Lemma not_stale_route d r : HasPrefix (rt_Comment r) (RouteCommentPrefix (op_ClusterName cfg)) = false ∨ rt_key r ∈ desiredRoutes d → stale_route cfg d r = false.
Proof. unfold stale_route. intros [->|Hk]; [done|]. rewrite bool_decide_true by done. apply andb_false_r. Qed.
Lemma stale_route_false d r : stale_route cfg d r = false → HasPrefix (rt_Comment r) (RouteCommentPrefix (op_ClusterName cfg)) = true → rt_key r ∈ desiredRoutes d.
Proof. unfold stale_route. intros Hs Hp. rewrite Hp in Hs. cbn in Hs. by apply negb_false_iff, bool_decide_eq_true in Hs. Qed.
Lemma not_stale_connector d id name :
  HasPrefix name (ConnectorNamePrefix (op_ConnectorPrefix cfg) (op_ClusterName cfg)) = false ∨ id ∈ desiredConnectors d →
  stale_connector cfg d (mkConnector id name "") = false.
Proof. unfold stale_connector. cbn [cc_Name cc_ID]. intros [->|Hk]; [done|]. rewrite bool_decide_true by done. apply andb_false_r. Qed.
Lemma stale_connector_false d id name : stale_connector cfg d (mkConnector id name "") = false →
  HasPrefix name (ConnectorNamePrefix (op_ConnectorPrefix cfg) (op_ClusterName cfg)) = true → id ∈ desiredConnectors d.
Proof.
  unfold stale_connector. cbn [cc_Name cc_ID]. intros Hs Hp. rewrite Hp in Hs. cbn in Hs. by apply negb_false_iff, bool_decide_eq_true in Hs.
Qed.

Lemma claims_ip node data id network ip : claims cfg node id network ip →
  parseLeaseData (node_annotation cfg (on_node node) "backend-data") = Ret data → ip = IP_String (ParseIP (ld_MeshIP data)).
Proof. intros (_ & _ & data' & Hd & _ & _ & ->) Hd'. congruence. Qed.

(** C23: A reconciliation, whatever it returns, leaves alone the connectors and the
    registrations whose names lack the cluster's prefix, and never removes a route whose
    comment lacks it. *)
Theorem reconcile_spares_foreign now s r s' : op_Reconcile cfg now s = (r, s') →
  let a := account (op_host s) in let a' := account (op_host s') in
  let prefix := ConnectorNamePrefix (op_ConnectorPrefix cfg) (op_ClusterName cfg) in
  (∀ id name, ac_connectors a !! id = Some name → HasPrefix name prefix = false → ac_connectors a' !! id = Some name) ∧
  (∀ id route, ac_routes a !! id = Some route → HasPrefix (rt_Comment route) (RouteCommentPrefix (op_ClusterName cfg)) = false →
     ∃ route', ac_routes a' !! id = Some route' ∧ rt_TunnelID route' = rt_TunnelID route ∧ rt_Network route' = rt_Network route) ∧
  (∀ id reg, ac_registrations a !! id = Some reg → HasPrefix (dr_Name reg) prefix = false → ac_registrations a' !! id = Some reg).
Proof.
  intros [[[Pc Pr Pg] _]|(nodes & d & a1 & _ & He & [Pc Pr Pg] & Hcl & _ & _ & [Sr Sc Sg] & _)]%op_Reconcile_phases; cbn zeta.
  { split_and!; [by intros id name ?%Pc|by intros id x (y & ?)%Pr _; exists y|by rewrite Pg]. }
  split_and!.
  - intros id name Hid%Pc Hf. apply (shrinks_kept _ _ _ _ _ Sc Hid). rewrite not_stale_connector; [done|by left].
  - intros id x Hx Hf. destruct (Pr id x Hx) as (y & Hy & Ht & En). exists y. split; [|done]. apply (shrinks_kept _ _ _ _ _ Sr Hy).
    rewrite not_stale_route; [done|]. destruct (Hcl id x y Hx Hy) as [->|[|]]; [by left|by right|done].
  - intros id reg Hreg Hf. rewrite <- Pg in Hreg. apply (shrinks_kept _ _ _ _ _ Sg Hreg). intros (_ & _ & _ & Hab).
    unfold abandoned in Hab. by rewrite Hf in Hab.
Qed.

(** C24: A reconciliation that succeeds has brought the account, whose listings are complete, to what the nodes claim:
    every node has its connector and, when it runs the backend, the route to its network;
    and every connector and route that carries the cluster's prefix is one a node claims. *)
Theorem reconcile_converges now s s' : op_Reconcile cfg now s = (Ret tt, s') →
  let a' := account (op_host s') in
  ∃ nodes, (ListNodes (op_NodeSelector cfg) (op_host s)).1 = Ret nodes ∧
  (∀ node, node ∈ nodes → ∃ id, ac_connectors a' !! id = Some (connector_name cfg node) ∧
     (runs_mesh cfg node → ∃ network ip rid route, claims cfg node id network ip ∧
        ac_routes a' !! rid = Some route ∧ rt_TunnelID route = id ∧ rt_Network route = network)) ∧
  (∀ id name, ac_connectors a' !! id = Some name → HasPrefix name (ConnectorNamePrefix (op_ConnectorPrefix cfg) (op_ClusterName cfg)) = true →
     ∃ node, node ∈ nodes ∧ name = connector_name cfg node) ∧
  (∀ rid route, ac_routes a' !! rid = Some route → HasPrefix (rt_Comment route) (RouteCommentPrefix (op_ClusterName cfg)) = true →
     ∃ node id network ip, node ∈ nodes ∧ claims cfg node id network ip ∧ rt_key route = routeKey id network).
Proof.
  intros [[_ F]|(nodes & d & a1 & Hn & _ & _ & _ & Hdone & (Nc & Nr & _) & [Sr Sc _] & Ht)]%op_Reconcile_phases; [done|].
  destruct (Ht eq_refl) as [Tr Tc]. cbn zeta. exists nodes. split; [done|]. split_and!.
  - intros node (id & Hid & Hc & Hm)%Hdone. exists id. split.
    + apply (shrinks_kept _ _ _ _ _ Sc Hc). rewrite not_stale_connector; [done|by right].
    + intros (network & ip & Hcl & _ & Hk & rid & x & Hx & Et & En)%Hm. exists network, ip, rid, x. split_and!; [done| |done..].
      apply (shrinks_kept _ _ _ _ _ Sr Hx). rewrite not_stale_route; [done|]. right. unfold rt_key. by rewrite Et, En.
  - intros id name Hid Hp. destruct (Nc id) as (node & Hnode & Hc); [by eapply stale_connector_false; [apply Tc|]|]. exists node. split; [done|].
    destruct Sc as [Hsub _]. pose proof (lookup_weaken _ _ _ _ Hid Hsub). congruence.
  - intros rid x Hx Hp. apply Nr. by eapply stale_route_false; [eapply Tr|].
Qed.

(** A registration that a reconciliation deletes was to be swept: the mode is neither
    off nor a dry run, the sweep was due, its name has the cluster's prefix, it is at
    least thirty minutes old, and no node of the cluster has its address. *)
Theorem sweep_spares now s r s' id reg : op_Reconcile cfg now s = (r, s') →
  ac_registrations (account (op_host s)) !! id = Some reg → ac_registrations (account (op_host s')) !! id = None →
  gc_mode (op_RegistrationGC cfg) ≠ Some RegistrationGCOff ∧ gc_mode (op_RegistrationGC cfg) ≠ Some RegistrationGCDryRun ∧
  nextRegistrationGC s <= now ∧ HasPrefix (dr_Name reg) (ConnectorNamePrefix (op_ConnectorPrefix cfg) (op_ClusterName cfg)) = true ∧
  dr_CreatedAt reg + registrationGCGrace <= now ∧
  ∃ nodes, (ListNodes (op_NodeSelector cfg) (op_host s)).1 = Ret nodes ∧
    ∀ node cid network ip, node ∈ nodes → claims cfg node cid network ip → dr_VirtualIPv4 reg ≠ ip.
Proof.
  intros Hrun Hreg Hgone. apply op_Reconcile_phases in Hrun as
    [[[_ _ Pg] _]|(nodes & d & a1 & Hn & _ & [_ _ Pg] & _ & Hdone & _ & [_ _ [_ Sg]] & _)]; [congruence|].
  rewrite <- Pg in Hreg. destruct (Sg id reg Hreg Hgone) as (Hoff & Hdry & Hnext & Hab). unfold abandoned in Hab.
  apply andb_true_iff in Hab as [[Hp Hlive]%andb_true_iff Hyoung]. apply negb_true_iff in Hlive, Hyoung. apply bool_decide_eq_false in Hlive.
  split_and!; [done..|lia|]. exists nodes. split; [done|]. intros node cid network ip Hnode Hcl Eip. apply Hlive. rewrite Eip.
  destruct (Hdone node Hnode) as (id' & _ & _ & Hm). destruct (Hm (proj1 Hcl)) as (network' & ip' & Hcl' & Hip & _).
  pose proof Hcl' as (_ & _ & data & Hd & _). rewrite (claims_ip _ _ _ _ _ Hcl Hd), <- (claims_ip _ _ _ _ _ Hcl' Hd). done.
Qed.

(** One node that runs the backend without publishing what it needs to (a connector, an
    IPv4 address, an IPv4 network) keeps the operator from removing anything at all: the
    reconciliation fails and everything of the account persists. *)
Theorem bad_node_stops now s r s' nodes node : op_Reconcile cfg now s = (r, s') →
  (ListNodes (op_NodeSelector cfg) (op_host s)).1 = Ret nodes → node ∈ nodes →
  runs_mesh cfg node → (∀ id network ip, ¬ claims cfg node id network ip) →
  r ≠ Ret tt ∧ persists (account (op_host s)) (account (op_host s')).
Proof.
  intros Hrun Hlist Hnode Hmesh Hno. apply op_Reconcile_phases in Hrun as [[? ?]|(nodes' & d & a1 & Hn & _ & _ & _ & Hdone & _)]; [done|].
  assert (nodes' = nodes) as -> by congruence. destruct (Hdone node Hnode) as (id & _ & _ & Hm). destruct (Hm Hmesh) as (network & ip & Hcl & _).
  by destruct (Hno _ _ _ Hcl).
Qed.
End reconcile.

(** ** An account in memory *)

Record MemCluster := mkMemCluster {
  mc_nodes : list OpNode;
  mc_secrets : gmap string Secret;
  mc_hosts : gmap string ConfigMap;
  mc_rollouts : gmap string Rollout;
  mc_account : Account
}.
Definition found {A} (o : option A) : outcome A := match o with Some a => Ret a | None => Err NotFound end.

#[export] Instance mem_kube : OperatorKube MemCluster := {|
  ListNodes sel w := (Ret (mc_nodes w), w);
  GetSecret n w := (found (mc_secrets w !! n), w);
  CreateSecret s w := (Ret tt, mkMemCluster (mc_nodes w) (<[sec_Name s := s]> (mc_secrets w)) (mc_hosts w) (mc_rollouts w) (mc_account w));
  UpdateSecret s w := (Ret tt, mkMemCluster (mc_nodes w) (<[sec_Name s := s]> (mc_secrets w)) (mc_hosts w) (mc_rollouts w) (mc_account w));
  GetConfigMap n w := (found (mc_hosts w !! n), w);
  UpdateConfigMap m w := (Ret tt, mkMemCluster (mc_nodes w) (mc_secrets w) (<[cm_Name m := m]> (mc_hosts w)) (mc_rollouts w) (mc_account w));
  GetRollout k n w := (found (mc_rollouts w !! n), w);
  UpdateRollout k r w := (Ret tt, mkMemCluster (mc_nodes w) (mc_secrets w) (mc_hosts w) (<[ro_Name r := r]> (mc_rollouts w)) (mc_account w));
  RetryOnConflict A m := m
|}.

Definition set_account (a : Account) (w : MemCluster) : MemCluster := mkMemCluster (mc_nodes w) (mc_secrets w) (mc_hosts w) (mc_rollouts w) a.

(** A connector has its name for identifier, a route its tunnel and network. *)
Definition mem_EnsureConnector (id name : string) (ha : bool) : M MemCluster ConnectorCredentials := λ w,
  let a := mc_account w in
  match ac_connectors a !! name with
  | Some name' => if decide (name' = name) then (Ret (mkConnector name name "token"), w) else (Err (Errorf "conflict"), w)
  | None => (Ret (mkConnector name name "token"),
             set_account (mkAccount (<[name := name]> (ac_connectors a)) (ac_routes a) (ac_registrations a)) w)
  end.
Definition mem_EnsureRoute (id network comment : string) : M MemCluster ApiRoute := λ w,
  let a := mc_account w in
  let r := mkApiRoute (routeKey id network) network id comment "" in
  let put := (Ret r, set_account (mkAccount (ac_connectors a) (<[rt_ID r := r]> (ac_routes a)) (ac_registrations a)) w) in
  match ac_routes a !! rt_ID r with
  | Some r' => if decide (rt_TunnelID r' = id ∧ rt_Network r' = network) then put else (Err (Errorf "conflict"), w)
  | None => put
  end.
(** The values of a map whose keys are their identifiers. *)
Definition listed {B} (id_of : B → string) (m : gmap string B) : outcome (list B) :=
  if decide (Forall (λ p, id_of p.2 = p.1) (map_to_list m)) then Ret (map_to_list m).*2 else Err (Errorf "inconsistent").

#[export] Instance mem_api : MeshAPI MemCluster := {|
  EnsureConnector := mem_EnsureConnector;
  ListConnectors w := (Ret ((λ p, mkConnector p.1 p.2 "") <$> map_to_list (ac_connectors (mc_account w))), w);
  DeleteConnector id w := (Ret tt, set_account (without_connector id (mc_account w)) w);
  EnsureRoute := mem_EnsureRoute;
  ListRoutes _ w := (listed rt_ID (ac_routes (mc_account w)), w);
  DeleteRoute id w := (Ret tt, set_account (without_route id (mc_account w)) w);
  ListDeviceRegistrations w := (listed dr_ID (ac_registrations (mc_account w)), w);
  DeleteDeviceRegistration id w := (Ret tt, set_account (without_registration id (mc_account w)) w)
|}.

Lemma listed_spec {B} (id_of : B → string) m l : listed id_of m = Ret l → ∀ id b, m !! id = Some b ↔ b ∈ l ∧ id_of b = id.
Proof.
  unfold listed. case_decide as Hall; [|done]. intros [= <-] id b. rewrite <- elem_of_map_to_list. rewrite Forall_forall in Hall. split.
  - intros Hin. split; [by apply (list_elem_of_fmap_2 snd _ (id, b))|apply (Hall (id, b)); by apply list_elem_of_In].
  - intros [([k b'] & -> & Hin)%list_elem_of_fmap <-]. cbn in *. assert (id_of b' = k) as -> by (apply (Hall (k, b')); by apply list_elem_of_In). done.
Qed.

#[export] Instance mem_account_laws : AccountLaws MemCluster.
Proof.
  unshelve econstructor; [exact mc_account|..]; try done.
  - intros A m P w Hm Hw. by apply Hm.
  - intros name ha w. cbn. unfold mem_EnsureConnector. destruct (ac_connectors (mc_account w) !! name) as [name'|] eqn:E.
    + case_decide as Hd; [subst|by left]. unfold connector_put. cbn. rewrite insert_id by done. auto.
    + unfold connector_put. cbn. auto.
  - intros id network comment w. cbn. unfold mem_EnsureRoute. cbn [rt_ID].
    destruct (ac_routes (mc_account w) !! routeKey id network) as [r'|] eqn:E.
    + case_decide as Hd; [|by left]. split; [|done]. split; [done|]. split; [|done]. cbn. intros r0 E0. rewrite E in E0. by injection E0 as <-.
    + split; [|done]. split; [done|]. split; [|done]. cbn. intros r0 E0. congruence.
  - intros w. split; [done|]. intros l [= <-] id name. rewrite <- elem_of_map_to_list. split.
    + intros Hin. exists (mkConnector id name ""). split_and!; [|done..]. by apply (list_elem_of_fmap_2 (λ p, mkConnector p.1 p.2 "") _ (id, name)).
    + intros (c & ([k n] & -> & Hin)%list_elem_of_fmap & <- & <-). done.
  - intros w. split; [done|]. intros l Hl. by apply listed_spec.
  - intros w. split; [done|]. intros l Hl. by apply listed_spec.
Defined.

(** ** A cluster *)

Definition prod_cfg (gc : string) : OpConfig :=
  mkOpConfig "kube-flannel" "mesh-" "prod" "flannel-" "f.io" "" 0 gc 0 false false "" "" "" "" "" "".
Definition lease_json (id ip : string) : string := body_of [("connectorID", json_string id); ("meshIP", json_string ip)].
Definition mesh_node (name id ip cidr : string) : OpNode :=
  mkOpNode (mkNode name (Some {["f.io/backend-type" := BackendName; "f.io/backend-data" := lease_json id ip]}) cidr [cidr]) name.
Definition old_registration (id ip name : string) : string * DeviceRegistration := (id, mkRegistration id ip 0 "" id name).
(** Two connectors, two routes and three registrations; of each, one is foreign. *)
Definition prod_account : Account := mkAccount
  {["gone" := "flannel-prod-n0"; "office" := "office-vpn"]}
  {["r0" := mkApiRoute "r0" "10.1.9.0/24" "gone" "flannel:prod:n0:10.1.9.0/24" "";
    "r1" := mkApiRoute "r1" "192.168.0.0/16" "office" "the office" ""]}
  (list_to_map [old_registration "d0" "100.96.0.9" "flannel-prod-n0"; old_registration "d1" "100.96.0.1" "flannel-prod-n1";
                old_registration "d2" "100.96.0.7" "laptop"]).
Definition prod_cluster (nodes : list OpNode) : @OpState MemCluster := mkOpState 0 (mkMemCluster nodes ∅ ∅ ∅ prod_account).
Definition n1 : OpNode := mesh_node "n1" "flannel-prod-n1" "100.96.0.1" "10.1.1.0/24".
Definition n2_bad : OpNode := mesh_node "n2" "flannel-prod-n2" "fe80::1" "10.1.2.0/24".
Definition noon : Z := 3600 * nanosecond_per_second.
Definition after_run (gc : string) (nodes : list OpNode) : outcome unit * @OpState MemCluster := op_Reconcile (prod_cfg gc) noon (prod_cluster nodes).

Lemma after_run_ok : (after_run "on" [n1]).1 = Ret tt.
Proof. vm_compute. reflexivity. Qed.
Lemma run_of {S A} (m : M S A) s a : (m s).1 = a → m s = (a, (m s).2).
Proof. destruct (m s). cbn. by intros ->. Qed.
Lemma prod_run : op_Reconcile (prod_cfg "on") noon (prod_cluster [n1]) = (Ret tt, (after_run "on" [n1]).2).
Proof. exact (run_of (op_Reconcile (prod_cfg "on") noon) _ _ after_run_ok). Qed.

Lemma reconcile_spares_foreign_witness :
  ac_connectors (account (op_host (after_run "on" [n1]).2)) !! "office" = Some "office-vpn".
Proof.
  apply (proj1 (reconcile_spares_foreign (prod_cfg "on") noon (prod_cluster [n1]) (Ret tt) _ prod_run)); reflexivity.
Defined.

Lemma reconcile_converges_witness :
  ∃ id, ac_connectors (account (op_host (after_run "on" [n1]).2)) !! id = Some "flannel-prod-n1".
Proof.
  destruct (reconcile_converges (prod_cfg "on") noon (prod_cluster [n1]) _ prod_run) as (nodes & Hn & Hall & _).
  assert (nodes = [n1]) as -> by (change (Ret [n1] = Ret nodes) in Hn; congruence).
  destruct (Hall n1 (list_elem_of_here _ _)) as (id & Hid & _). by exists id.
Defined.

Lemma sweep_spares_witness : 0 <= noon ∧ 0 + registrationGCGrace <= noon.
Proof.
  destruct (sweep_spares (prod_cfg "on") noon (prod_cluster [n1]) (Ret tt) _ "d0" (mkRegistration "d0" "100.96.0.9" 0 "" "d0" "flannel-prod-n0") prod_run)
    as (_ & _ & Hnext & _ & Hage & _); [vm_compute; reflexivity..|]. split; [exact Hnext|exact Hage].
Defined.

Lemma bad_node_stops_witness : persists prod_account (account (op_host (after_run "on" [n1; n2_bad]).2)).
Proof.
  refine (proj2 (bad_node_stops (prod_cfg "on") noon (prod_cluster [n1; n2_bad]) (after_run "on" [n1; n2_bad]).1 (after_run "on" [n1; n2_bad]).2
    [n1; n2_bad] n2_bad _ _ _ _ _)).
  - exact (run_of (op_Reconcile (prod_cfg "on") noon) _ _ eq_refl).
  - reflexivity.
  - right; left.
  - vm_compute. reflexivity.
  - intros id network ip (_ & _ & data & Hd & _ & Hip & _). assert (ld_MeshIP data = "fe80::1") as E.
    { assert (Ret data = Ret (mkLeaseData "flannel-prod-n2" "fe80::1")) as Hm by (rewrite <- Hd; vm_compute; reflexivity). by injection Hm as ->. }
    rewrite E in Hip. by vm_compute in Hip.
Defined.

(** The prefix of a cluster is also the prefix of a cluster whose name goes on with a
    dash: the operator of "prod" removes the connector of a node of "prod-eu". *)
Theorem cluster_prefix_ambiguous :
  let name := ConnectorName "flannel-" "prod-eu" "n1" in
  let s := mkOpState 0 (mkMemCluster [] ∅ ∅ ∅ (mkAccount {["c1" := name]} ∅ ∅)) in
  let '(r, s') := op_Reconcile (prod_cfg "off") noon s in r = Ret tt ∧ ac_connectors (account (op_host s')) !! "c1" = None.
Proof. vm_compute. done. Qed.
