(* ===== verification/OperatorMain.v ===== *)
(** * [cmd/cloudflare-mesh-operator/main.go]: the command of the operator

    From the flags to the reconciliations, alone or as the leader of the election, over what the process asks of its
    host and of client-go ([OperatorProcess]).  A run that fails has started nothing. *)

From Stdlib Require Import ZArith Lia Ascii.
From stdpp Require Import base strings list gmap numbers.
From S2P Require Import Prelude GoStrings GoJson GoTime GoNet GoHash Kube MeshApi NodeHosts Operator OperatorFacts.

Local Open Scope Z_scope.

(** ** The command line *)

Record op_options := mkOpOptions {
  oo_accountID : string;
  oo_apiTokenFile : string;
  oo_apiBaseURL : string;
  oo_kubeconfig : string;
  oo_namespace : string;
  oo_secretPrefix : string;
  oo_clusterName : string;
  oo_connectorPrefix : string;
  oo_annotationPrefix : string;
  oo_nodeSelector : string;
  oo_syncPeriod : Z;
  oo_registrationGC : string;
  oo_registrationGCPeriod : Z;
  oo_connectorHA : bool;
  oo_coreDNSNodeHostsEnabled : bool;
  oo_coreDNSNamespace : string;
  oo_coreDNSConfigMapName : string;
  oo_coreDNSNodeHostsKey : string;
  oo_coreDNSHostnameSuffix : string;
  oo_coreDNSRolloutKind : string;
  oo_coreDNSRolloutName : string;
  oo_leaderElect : bool;
  oo_leaseName : string;
  oo_leaseNamespace : string
}.

(** The values that the flags have when they are not given; [account_env] is [CLOUDFLARE_ACCOUNT_ID]. *)
Definition op_parseFlags (account_env : string) : op_options := mkOpOptions
  account_env "/var/run/secrets/cloudflare-mesh/api-token" "https://api.cloudflare.com/client/v4" "" "kube-flannel"
  "cloudflare-mesh-node-" "default" "flannel-" DefaultAnnotationPrefix "" (15 * nanosecond_per_second) "dryrun" (10 * minute) false false
  "kube-system" "coredns" "NodeHosts" "-mesh" "deployment" "coredns" true "cloudflare-mesh-operator" "kube-flannel".

Definition operator_config (opts : op_options) : OpConfig := mkOpConfig
  (oo_namespace opts) (oo_secretPrefix opts) (oo_clusterName opts) (oo_connectorPrefix opts) (oo_annotationPrefix opts)
  (oo_nodeSelector opts) (oo_syncPeriod opts) (oo_registrationGC opts) (oo_registrationGCPeriod opts) (oo_connectorHA opts)
  (oo_coreDNSNodeHostsEnabled opts) (oo_coreDNSNamespace opts) (oo_coreDNSConfigMapName opts) (oo_coreDNSNodeHostsKey opts)
  (oo_coreDNSHostnameSuffix opts) (oo_coreDNSRolloutKind opts) (oo_coreDNSRolloutName opts).

(** ** Leader election *)

Record LeaderElectionConfig := mkElection {
  le_LeaseName : string;
  le_LeaseNamespace : string;
  le_Identity : string;
  le_LeaseDuration : Z;
  le_RenewDeadline : Z;
  le_RetryPeriod : Z;
  le_ReleaseOnCancel : bool;
  le_Name : string
}.
Definition op_election (opts : op_options) (hostname uuid : string) : LeaderElectionConfig :=
  mkElection (oo_leaseName opts) (oo_leaseNamespace opts) (hostname +:+ "_" +:+ uuid)
    (30 * nanosecond_per_second) (20 * nanosecond_per_second) (5 * nanosecond_per_second) true "cloudflare-mesh-operator".

(** What client-go documents of an election: the periods are positive and decrease, the last with its jitter of 1.2, and
    the candidates have names. *)
Definition election_valid (le : LeaderElectionConfig) : bool :=
  (le_RenewDeadline le <? le_LeaseDuration le) && (12 * le_RetryPeriod le <? 10 * le_RenewDeadline le) &&
  (1 <=? le_LeaseDuration le) && (1 <=? le_RenewDeadline le) && (1 <=? le_RetryPeriod le) &&
  bool_decide (le_Identity le ≠ "").

(** ** The process *)

(** [operator_ticks] are the instant of the start and those of the ticker, up to the end of the context. *)
Class OperatorProcess (W : Type) := {
  oh_ReadFile : string → M W string;
  os_Hostname : M W string;
  NewUUID : M W string;
  operator_ticks : Z → M W (list Z);
  RunOrDie : LeaderElectionConfig → M W unit → M W unit
}.
(** The configuration of client-go is opaque; a Kubernetes client is what the operator is written against. *)
Class RestClient (W Rest : Type) := {
  BuildConfigFromFlags : string → string → M W Rest;
  InClusterConfig : M W Rest;
  NewForConfig : Rest → M W (OperatorKube W)
}.

Section command.
Context {W Rest : Type} `{OperatorProcess W, RestClient W Rest, Http W} (url_Parse : string → outcome URL).

Definition kubernetesConfig (kubeconfig : string) : M W Rest :=
  if decide (kubeconfig ≠ "") then wrapping "load kubeconfig: %w" (BuildConfigFromFlags "" kubeconfig)
  else wrapping "load in-cluster config: %w" InClusterConfig.

(** [operator.Run] of a new operator. *)
Definition as_new_operator (m : M (OpState (W := W)) unit) : M W unit := λ w, let '(r, s) := m (mkOpState 0 w) in (r, op_host s).
Definition operator_Run (kube : OperatorKube W) (api : MeshAPI W) (cfg : OpConfig) : M W unit :=
  ticks ← operator_ticks (op_SyncPeriod cfg);
  as_new_operator (op_Run cfg ticks).

(** Up to the choice between one operator and the election. *)
Definition op_prepare (opts : op_options) : M W (OperatorKube W * Client * OpConfig) :=
  _ ← check (bool_decide (oo_accountID opts = "")) (Errorf "--cloudflare-account-id is required");
  tokenBytes ← wrapping "read Cloudflare API token: %w" (oh_ReadFile (oo_apiTokenFile opts));
  let token := TrimSpace tokenBytes in
  _ ← check (bool_decide (token = "")) (Errorf "Cloudflare API token is empty");
  restConfig ← kubernetesConfig (oo_kubeconfig opts);
  kube ← wrapping "create Kubernetes client: %w" (NewForConfig restConfig);
  api ← lift (NewClient url_Parse (oo_apiBaseURL opts) (oo_accountID opts) token);
  cfg ← lift (op_New (operator_config opts));
  mret (kube, api, cfg).

Definition op_run (opts : op_options) : M W unit :=
  '(kube, api, cfg) ← op_prepare opts;
  if negb (oo_leaderElect opts) then operator_Run kube (Client_API api) cfg
  else
    hostname ← os_Hostname;
    uuid ← NewUUID;
    RunOrDie (op_election opts hostname uuid) (operator_Run kube (Client_API api) cfg).

(** ** What a run needs *)

(** The flags' defaults are those of [New]: it takes them as they are. *)
Lemma flag_defaults_accepted account_env :
  op_New (operator_config (op_parseFlags account_env)) = Ret (operator_config (op_parseFlags account_env)).
Proof. reflexivity. Qed.

(** The election of every run, whatever the flags, is as client-go documents it. *)
Lemma election_accepted opts hostname uuid : election_valid (op_election opts hostname uuid) = true.
Proof.
  unfold election_valid. apply andb_true_intro. split; [reflexivity|]. apply bool_decide_eq_true. cbn. by destruct hostname.
Qed.

(** [New] keeps what it gives: it is idempotent. *)
Lemma set_defaults_idempotent cfg :
  (op_CoreDNSNodeHostsEnabled cfg = true → ToLower (op_CoreDNSRolloutKind cfg) = "deployment" ∨ ToLower (op_CoreDNSRolloutKind cfg) = "daemonset") →
  set_defaults (set_defaults cfg) = set_defaults cfg.
Proof.
  destruct cfg as [ns sp cn cp ap sel per gc gcp ha [] dns cm key suf kind name]; unfold set_defaults; cbn; intros Hkind; f_equal;
    repeat first [case_decide | case_bool_decide | case_match]; try done; try lia; destruct Hkind as [->| ->]; done.
Qed.
Lemma op_New_idempotent cfg cfg' : op_New cfg = Ret cfg' → op_New cfg' = Ret cfg'.
Proof.
  unfold op_New. case_decide as Hempty; [done|]. cbn zeta. destruct (gc_mode _) as [m|] eqn:Em; [|done]. intros Hok.
  assert (cfg' = set_defaults cfg ∧ set_defaults cfg' = cfg') as [-> Hfix].
  { destruct (op_CoreDNSNodeHostsEnabled (set_defaults cfg)) eqn:Ed.
    - case_decide; [done|]. case_decide as Hk; [done|]. injection Hok as <-. split; [done|]. apply set_defaults_idempotent. cbn in Ed, Hk.
      rewrite Ed in Hk. intros _. destruct (decide (ToLower (op_CoreDNSRolloutKind cfg) = "deployment")); [by left|].
      right. destruct (decide (ToLower (op_CoreDNSRolloutKind cfg) = "daemonset")); [done|]. by destruct Hk.
    - injection Hok as <-. split; [done|]. apply set_defaults_idempotent. cbn in Ed. by rewrite Ed. }
  rewrite decide_False by (by unfold set_defaults). by rewrite Hfix, Em.
Qed.

Section failure.
Context (P : W → Prop).
Hypotheses
  (keep_ReadFile : ∀ f, preserves P (oh_ReadFile f))
  (keep_BuildConfig : ∀ m f, preserves P (BuildConfigFromFlags m f))
  (keep_InCluster : preserves P InClusterConfig)
  (keep_NewForConfig : ∀ r, preserves P (NewForConfig r))
  (keep_Hostname : preserves P os_Hostname).

Lemma prepare_keeps opts : preserves P (op_prepare opts).
Proof.
  assert (∀ c e, preserves P (check c e : M W unit)) as Hcheck by (intros [] e; [apply preserves_throw|apply preserves_ret]).
  apply preserves_bind; [apply Hcheck|]. intros _.
  apply preserves_bind; [by apply preserves_wrapping|]. intros text.
  apply preserves_bind; [apply Hcheck|]. intros _.
  apply preserves_bind; [unfold kubernetesConfig; case_decide; by apply preserves_wrapping|]. intros rest.
  apply preserves_bind; [by apply preserves_wrapping|]. intros kube.
  apply preserves_bind; [apply preserves_lift|]. intros api. apply preserves_bind; [apply preserves_lift|]. intros cfg. apply preserves_ret.
Qed.

(** A command that cannot be prepared, or that has no host name to stand for election with, fails before anything
    that the account or the cluster could see. *)
Theorem failed_command_starts_nothing opts w :
  P w →
  P (op_prepare opts w).2 ∧
  ((∀ k, (op_prepare opts w).1 ≠ Ret k) → op_run opts w = (match (op_prepare opts w).1 with Err e => Err e | _ => Panic end, (op_prepare opts w).2)) ∧
  (∀ k e, (op_prepare opts w).1 = Ret k → oo_leaderElect opts = true → (os_Hostname (op_prepare opts w).2).1 = Err e →
     (op_run opts w).1 = Err e ∧ P (op_run opts w).2).
Proof.
  intros Hw. pose proof (prepare_keeps opts w Hw) as Hp. split; [done|]. unfold op_run, mbind, M_bind.
  destruct (op_prepare opts w) as [[[[kube api] cfg]|e|] w1]; cbn in Hp |- *.
  - split. { intros Hno. by destruct (Hno (kube, api, cfg)). } intros k e _ -> He. cbn.
    pose proof (keep_Hostname w1 Hp) as Hh. destruct (os_Hostname w1) as [[h|e'|] w2]; cbn in *; try done. by simplify_eq.
  - split; [done|]. intros k e' Hk. done.
  - split; [done|]. intros k e' Hk. done.
Qed.
End failure.

(** What the preparation has checked. *)
Theorem prepared_command opts kube api cfg w w' :
  op_prepare opts w = (Ret (kube, api, cfg), w') →
  oo_accountID opts ≠ "" ∧ cl_accountID api = oo_accountID opts ∧ cl_token api ≠ "" ∧
  (∃ text w1, oh_ReadFile (oo_apiTokenFile opts) w = (Ret text, w1) ∧ cl_token api = TrimSpace text) ∧
  url_Parse (oo_apiBaseURL opts) = Ret (cl_baseURL api) ∧ (url_Scheme (cl_baseURL api) = "https" ∨ url_Scheme (cl_baseURL api) = "http") ∧
  op_New (operator_config opts) = Ret cfg.
Proof.
  intros Hp. apply M_bind_inv in Hp as ([] & w0 & Hc & Hp). apply check_inv in Hc as [Hid ->]. apply bool_decide_eq_false in Hid.
  apply M_bind_inv in Hp as (text & w1 & Hr & Hp). apply M_bind_inv in Hp as ([] & w2 & Hc & Hp).
  apply check_inv in Hc as [Htok ->]. apply bool_decide_eq_false in Htok.
  apply M_bind_inv in Hp as (rest & w3 & _ & Hp). apply M_bind_inv in Hp as (kube' & w4 & _ & Hp).
  apply M_bind_inv in Hp as (api' & w5 & Ha & Hp). apply lift_inv in Ha as [Ha ->].
  apply M_bind_inv in Hp as (cfg' & w6 & Hn & Hp). apply lift_inv in Hn as [Hn ->]. unfold mret, M_ret in Hp. simplify_eq.
  apply wrapping_inv in Hr. unfold NewClient in Ha. destruct (url_Parse (oo_apiBaseURL opts)) as [u|?|] eqn:Eu; try done.
  case_decide as Hs; [done|]. case_decide; [done|]. injection Ha as <-. cbn in *.
  split_and!; eauto. destruct (decide (url_Scheme u = "https")); [by left|]. right. destruct (decide (url_Scheme u = "http")); [done|]. by destruct Hs.
Qed.
End command.

(** ** A host in memory *)

Definition mem_url (s : string) : outcome URL := Ret (mkURL "https" "api.cloudflare.com" "/client/v4").

Section memory.
(** The file of the token; the account answers no request, and this process is the leader at once. *)
Context (token_file : option string).

#[local] Instance mem_process : OperatorProcess MemCluster := {|
  oh_ReadFile f w := (found token_file, w);
  os_Hostname w := (Ret "host-1", w);
  NewUUID w := (Ret "6ba7b810", w);
  operator_ticks period w := (Ret [0; period; 2 * period], w);
  RunOrDie le m w := if election_valid le then m w else (Panic, w)
|}.
#[local] Instance mem_rest : RestClient MemCluster string := {|
  BuildConfigFromFlags master path w := (Ret path, w);
  InClusterConfig w := (Err (Errorf "not in a cluster"), w);
  NewForConfig config w := (Ret mem_kube, w)
|}.
#[local] Instance no_http : Http MemCluster := {| http_Do rq w := (Err (Errorf "no route to host"), w) |}.

Definition mem_options (kubeconfig : string) : op_options := mkOpOptions
  "acc" "/token" "https://api.cloudflare.com/client/v4" kubeconfig "kube-flannel" "mesh-" "prod" "flannel-" "f.io" "" 0 "" 0 false false
  "" "" "" "" "" "" true "op" "kube-flannel".
Definition mem_command (kubeconfig : string) : outcome unit := (op_run mem_url (mem_options kubeconfig) (mkMemCluster [] ∅ ∅ ∅ prod_account)).1.
End memory.

(** The operator logs what a reconciliation fails with and goes on to the next. *)
Example command_runs : mem_command (Some (String (ascii_of 10) "secret ")) "/kubeconfig" = Ret tt.
Proof. vm_compute. reflexivity. Qed.
Example blank_token_refused : mem_command (Some "  ") "/kubeconfig" = Err (Errorf "Cloudflare API token is empty").
Proof. vm_compute. reflexivity. Qed.
Example no_token_file_refused : mem_command None "/kubeconfig" = Err (Wrapf "read Cloudflare API token: %w" NotFound).
Proof. vm_compute. reflexivity. Qed.
Example outside_a_cluster_refused : mem_command (Some "secret") "" = Err (Wrapf "load in-cluster config: %w" (Errorf "not in a cluster")).
Proof. vm_compute. reflexivity. Qed.
