(* ===== verification/MeshStartFacts.v ===== *)
(** * Joining the Mesh: no device is left behind, and the operator is understood

    What a failed start leaves on the host, and that the operator and the nodes agree: the
    Secret that hands out a connector, the lease that announces an address. *)

From Stdlib Require Import ZArith Lia Ascii.
From stdpp Require Import base strings list gmap numbers.
From S2P Require Import Prelude GoStrings GoJson GoJsonFacts GoTime GoDuration GoBase64 GoNet GoNetFacts Ip4 Ip6 Lease Config Backend Wireguard MeshApi MeshConfig MeshEnroll MeshEnrollFacts MeshRoutes MeshSetup MeshTransport MeshStart Kube NodeHosts Operator.

Local Open Scope Z_scope.

(** Take a call apart whose parts preserve something. *)
Ltac preserving :=
  repeat (cbn beta iota zeta; lazymatch goal with
    | |- preserves _ (mret _) => apply preserves_ret
    | |- preserves _ (throw _) => apply preserves_throw
    | |- preserves _ (lift _) => apply preserves_lift
    | |- preserves _ (wrapping _ _) => apply preserves_wrapping
    | |- preserves _ (try _) => apply preserves_try
    | |- preserves _ (check _ _) => unfold check
    | |- preserves _ (mbind _ _) => apply preserves_bind; [|intros ?]
    | |- preserves _ (match ?x with _ => _ end) => destruct x
    | |- _ => solve [eauto with preserves]
    end).

(** ** The devices of a host *)

(** [tuns]: the TUN devices that are open. *)
Class TunLaws (W : Type) `{NodeEnv W, DeviceHttp W, EcdsaKeys W, StateFiles W, Clock W, TunHost W, Supervisor W,
  BootstrapKube W, netlinkOps W, iptablesClient W, LeaseSource W, PprofServer W} := {
  tuns : W → gset string;
  law_water_New n w : match water_New n w with (Ret dev, w') => (dev ∉ tuns w) ∧ tuns w' = ({[dev]} ∪ tuns w) | (_, w') => tuns w' = tuns w end;
  (** a device is closed whatever is said of it *)
  law_tun_Close n w : tuns (tun_Close n w).2 = (tuns w ∖ {[n]});
  law_sup_cancel w : ∃ w', sup_cancel w = (Ret tt, w') ∧ tuns w' = tuns w;
  law_sup_done w : ∃ w', sup_done w = (Ret tt, w') ∧ tuns w' = tuns w;
  law_await n w : ∃ event w', await_ready n w = (Ret event, w') ∧ tuns w' = tuns w;
  has (T : gset string) (w : W) : Prop := tuns w = T;
  keep_Getenv k T : preserves (has T) (Getenv k);
  keep_Hostname T : preserves (has T) os_Hostname;
  keep_Do req T : preserves (has T) (device_Do req);
  keep_GenerateKey T : preserves (has T) GenerateKey;
  keep_Now T : preserves (has T) time_Now;
  keep_ReadFile p T : preserves (has T) (ReadFile p);
  keep_MkdirAll p m T : preserves (has T) (MkdirAll p m);
  keep_CreateTemp d p T : preserves (has T) (CreateTemp d p);
  keep_Chmod p m T : preserves (has T) (file_Chmod p m);
  keep_Write p s T : preserves (has T) (file_Write p s);
  keep_file_Close p T : preserves (has T) (file_Close p);
  keep_Rename p q T : preserves (has T) (file_Rename p q);
  keep_Remove p T : preserves (has T) (file_Remove p);
  keep_SetMTU l n T : preserves (has T) (LinkSetMTU l n);
  keep_AddrReplace l a T : preserves (has T) (AddrReplace l a);
  keep_SetUp l T : preserves (has T) (tun_LinkSetUp l);
  keep_Build k T : preserves (has T) (BuildConfigFromFlags k);
  keep_InCluster T : preserves (has T) InClusterConfig;
  keep_NewForConfig c T : preserves (has T) (NewForConfig c);
  keep_Secrets_Get c ns n T : preserves (has T) (Secrets_Get c ns n);
  keep_Poll {A} n (f : M W (option A)) T : preserves (has T) f → preserves (has T) (PollUntil n f);
  keep_LinkByName n T : preserves (has T) (LinkByName n);
  keep_RouteReplace r T : preserves (has T) (RouteReplace r);
  keep_RuleAdd r T : preserves (has T) (RuleAdd r);
  keep_ipt_New T : preserves (has T) ipt_NewWithProtocol;
  keep_AcquireLease a T : preserves (has T) (sm_AcquireLease a);
  keep_pprof a T : preserves (has T) (serve_pprof a)
}.
#[export] Hint Resolve keep_Getenv keep_Hostname keep_Do keep_GenerateKey keep_Now keep_ReadFile keep_MkdirAll keep_CreateTemp keep_Chmod
  keep_Write keep_file_Close keep_Rename keep_Remove keep_SetMTU keep_AddrReplace keep_SetUp keep_Build keep_InCluster
  keep_NewForConfig keep_Secrets_Get keep_Poll keep_LinkByName keep_RouteReplace keep_RuleAdd keep_ipt_New keep_AcquireLease keep_pprof : preserves.

Section tuns.
Context {W : Type} `{NodeEnv W, DeviceHttp W, EcdsaKeys W, StateFiles W, Clock W, TunHost W, Supervisor W,
  BootstrapKube W, netlinkOps W, iptablesClient W, LeaseSource W, PprofServer W, !TunLaws W}.
Implicit Types (w : W) (T : gset string).

Lemma keep_compat T : preserves (has T) compat.
Proof. unfold compat, envOrDefault. preserving. Qed.
Hint Resolve keep_compat : preserves.
Lemma keep_headers token T : preserves (has T) (deviceAPIHeaders token).
Proof. unfold deviceAPIHeaders. preserving. Qed.
Lemma keep_endpoint id T : preserves (has T) (reg_endpoint id).
Proof. unfold reg_endpoint. preserving. Qed.
Hint Resolve keep_headers keep_endpoint : preserves.
Lemma keep_report (t : nativeTransport PrivateKey) status kind T : preserves (has T) (reportDeviceState t status kind).
Proof. unfold reportDeviceState. preserving. Qed.
Lemma keep_refresh n r pub name T : preserves (has T) (refreshRegistration n r pub name).
Proof. unfold refreshRegistration. preserving. Qed.
Lemma keep_delete n r T : preserves (has T) (deleteRegistration n r).
Proof. unfold deleteRegistration, device_request. preserving. Qed.
Lemma keep_writeJSON p v T : preserves (has T) (writePrivateJSON p v).
Proof. unfold writePrivateJSON, deferring, write_and_rename, closing_on_error. preserving. Qed.
Hint Resolve keep_report keep_refresh keep_delete keep_writeJSON : preserves.
Lemma keep_enroll cfg c name T : preserves (has T) (enroll cfg c name).
Proof. unfold enroll, post_enrollment, enrollmentRejected. preserving. Qed.
Hint Resolve keep_enroll : preserves.
Lemma keep_loadOrEnroll cfg c T : preserves (has T) (loadOrEnroll cfg c).
Proof. unfold loadOrEnroll, resume. preserving. Qed.
Lemma keep_loadConfig raw T : preserves (has T) (loadConfig raw).
Proof. unfold loadConfig, node_name. preserving. Qed.
Lemma keep_overrides T : preserves (has T) logCompatOverrides.
Proof. unfold logCompatOverrides, envOrDefault. preserving. Qed.
Lemma keep_startPprof T : preserves (has T) startPprofIfRequested.
Proof. unfold startPprofIfRequested, envOrDefault. preserving. Qed.
Lemma keep_credentials cfg T : preserves (has T) (waitForOperatorCredentials cfg).
Proof.
  unfold waitForOperatorCredentials, operatorRESTConfig. preserving. apply keep_Poll. unfold poll_credentials. preserving.
Qed.
Lemma keep_routes cfg ip c l T : preserves (has T) (newLocalRouteManager cfg ip c l).
Proof. unfold newLocalRouteManager, ensureMeshRoute, returning, parsing. preserving. Qed.
Hint Resolve keep_loadOrEnroll keep_loadConfig keep_overrides keep_startPprof keep_credentials keep_routes : preserves.

(** [leaves T0 T m Q]: with the devices [T] open, [m] ends in [Q] when it returns and with
    the devices [T0] when it fails. *)
Definition leaves {A} (T0 T : gset string) (m : M W A) (Q : A → gset string → Prop) : Prop :=
  ∀ w, tuns w = T → match m w with (Ret a, w') => Q a (tuns w') | (Err _, w') => tuns w' = T0 | (Panic, _) => True end.
(** The devices stay, or become, [T]. *)
Definition opened {A} (T : gset string) (a : A) (T' : gset string) : Prop := T' = T.

Lemma leaves_bind {A B} T0 T (m : M W A) (f : A → M W B) Q R :
  leaves T0 T m Q → (∀ a T', Q a T' → leaves T0 T' (f a) R) → leaves T0 T (a ← m; f a) R.
Proof.
  intros Hm Hf w Hw. specialize (Hm w Hw). unfold mbind, M_bind. destruct (m w) as [[a|e|] w1]; [|done..]. by apply (Hf a (tuns w1)).
Qed.
Lemma leaves_then {A B} T0 T T1 (m : M W A) (f : A → M W B) R :
  leaves T0 T m (opened T1) → (∀ a, leaves T0 T1 (f a) R) → leaves T0 T (a ← m; f a) R.
Proof. intros Hm Hf. eapply leaves_bind; [done|]. by intros a T' ->. Qed.
Lemma leaves_keep {A} T (m : M W A) : preserves (has T) m → leaves T T m (opened T).
Proof. intros Hm w Hw. specialize (Hm w Hw). unfold has in Hm. by destruct (m w) as [[a|e|] w1]. Qed.
Lemma leaves_ret {A} T0 T (a : A) (Q : A → gset string → Prop) : Q a T → leaves T0 T (mret a) Q.
Proof. intros HQ w Hw. cbn. by rewrite Hw. Qed.
Lemma leaves_throw {A} T0 e (Q : A → gset string → Prop) : leaves T0 T0 (throw e) Q.
Proof. by intros w Hw. Qed.
Lemma leaves_try {A} T0 T (m : M W A) : preserves (has T) m → leaves T0 T (try m) (opened T).
Proof. intros Hm w Hw. specialize (Hm w Hw). unfold has in Hm. unfold try. by destruct (m w) as [[a|e|] w1]. Qed.
Lemma leaves_close T0 T dev : leaves T0 T (try (tun_Close dev)) (opened (T ∖ {[dev]})).
Proof.
  intros w Hw. pose proof (law_tun_Close dev w) as Hc. unfold try, opened. destruct (tun_Close dev w) as [[a|e|] w1]; cbn in *; congruence || done.
Qed.
Lemma leaves_cancel T0 T : leaves T0 T sup_cancel (opened T).
Proof. intros w Hw. destruct (law_sup_cancel w) as (w' & -> & F). unfold opened. congruence. Qed.
Lemma leaves_done T0 T : leaves T0 T sup_done (opened T).
Proof. intros w Hw. destruct (law_sup_done w) as (w' & -> & F). unfold opened. congruence. Qed.

(** Closing leaves what there was before the device. *)
Lemma Close_tuns (t : nativeTransport PrivateKey) T0 : nt_closed t = false → nt_iface t ∉ T0 →
  leaves T0 ({[nt_iface t]} ∪ T0) (Close t) (opened T0).
Proof.
  intros Hc Hn. unfold Close. rewrite Hc. apply (leaves_then _ _ T0).
  - apply (leaves_then _ _ ({[nt_iface t]} ∪ T0)); [destruct (nt_ready t); [|by apply leaves_ret]|intros _].
    { eapply leaves_then; [apply leaves_try, keep_report|intros _; by apply leaves_ret]. }
    eapply leaves_then; [apply leaves_cancel|intros _]. eapply leaves_then; [apply leaves_close|intros _].
    apply leaves_ret. unfold opened. set_solver.
  - intros _. eapply leaves_then; [apply leaves_done|intros _]. eapply leaves_then; [apply leaves_close|intros _].
    apply leaves_ret. unfold opened. set_solver.
Qed.

(** A step that is given up with the device closed. *)
Lemma or_close_tuns {A} dev fmt (m : M W A) T0 : dev ∉ T0 → preserves (has ({[dev]} ∪ T0)) m →
  leaves T0 ({[dev]} ∪ T0) (or_close dev fmt m) (opened ({[dev]} ∪ T0)).
Proof.
  intros Hn Hm. unfold or_close. eapply leaves_then; [by apply leaves_try|]. intros [a|e]; [by apply leaves_ret|].
  eapply leaves_then; [apply leaves_close|]. intros r. replace (({[dev]} ∪ T0) ∖ {[dev]}) with T0 by set_solver. apply leaves_throw.
Qed.
Lemma or_teardown_tuns {A} (t : nativeTransport PrivateKey) wrap (m : M W A) T0 : nt_closed t = false → nt_iface t ∉ T0 →
  preserves (has ({[nt_iface t]} ∪ T0)) m → leaves T0 ({[nt_iface t]} ∪ T0) (or_teardown t wrap m) (opened ({[nt_iface t]} ∪ T0)).
Proof.
  intros Hc Hn Hm. unfold or_teardown. eapply leaves_then; [by apply leaves_try|]. intros [a|e]; [by apply leaves_ret|].
  eapply leaves_then; [by apply Close_tuns|]. intros t'. apply leaves_throw.
Qed.

Lemma water_New_tuns T n fmt : leaves T T (wrapping fmt (water_New n)) (λ dev T', (dev ∉ T) ∧ T' = ({[dev]} ∪ T)).
Proof.
  intros w Hw. pose proof (law_water_New n w) as Hn. unfold wrapping. rewrite run_try_cases. rewrite Hw in Hn.
  by destruct (water_New n w) as [[dev|e|] w1].
Qed.

(** A transport that was started is the only new device. *)
Definition started (T0 : gset string) (t : nativeTransport PrivateKey) (T' : gset string) : Prop :=
  nt_closed t = false ∧ (nt_iface t ∉ T0) ∧ T' = ({[nt_iface t]} ∪ T0).
Lemma start_tuns cfg c T : leaves T T (startNativeTransport cfg c) (started T).
Proof.
  unfold startNativeTransport. eapply leaves_then; [apply leaves_keep, keep_loadOrEnroll|]. intros [state key].
  eapply leaves_then; [apply leaves_keep, preserves_lift|]. intros net. cbn zeta.
  eapply leaves_then; [apply leaves_keep; preserving|]. intros _.
  eapply leaves_bind; [apply water_New_tuns|]. intros dev T' [Hn ->].
  do 4 (eapply leaves_then; [apply or_close_tuns; [done|auto with preserves]|intros ?]). eapply (leaves_then _ _ ({[dev]} ∪ T)).
  - intros w Hw. destruct (law_await (rc_ConnectWait cfg) w) as (event & w' & -> & F). unfold opened. congruence.
  - intros [|ready e|ready]; [by apply leaves_ret|eapply leaves_then; [by apply (Close_tuns (mkTransport dev state key cfg ready false) T)|intros _; apply leaves_throw]..].
Qed.

Lemma FromIP_tuns T0 T ip : leaves T0 T (lift (FromIP ip)) (opened T).
Proof. intros w Hw. unfold lift, FromIP, FromBytes, opened. by repeat case_match. Qed.

(** C26: A node that fails to join leaves no device: whatever step fails, the TUN devices that
    are open are those that were; and a node that joins has opened exactly the one of its
    transport. *)
Theorem failed_start_leaves_no_device networkConfig w r w' : mesh_RegisterNetwork networkConfig w = (r, w') →
  match r with
  | Ret n => (nt_iface (jn_transport n) ∉ tuns w) ∧ tuns w' = ({[nt_iface (jn_transport n)]} ∪ tuns w)
  | Err _ => tuns w' = tuns w
  | Panic => True
  end.
Proof.
  intros E. set (T := tuns w).
  assert (leaves T T (mesh_RegisterNetwork networkConfig)
    (λ n T', (nt_iface (jn_transport n) ∉ T) ∧ T' = ({[nt_iface (jn_transport n)]} ∪ T))) as Hl.
  { unfold mesh_RegisterNetwork. do 5 (eapply leaves_then; [apply leaves_keep; preserving|intros ?]).
    eapply leaves_bind; [apply start_tuns|]. intros t T' (Hc & Hn & ->). cbn zeta.
    eapply leaves_then; [apply FromIP_tuns|intros ip].
    eapply leaves_then; [apply or_teardown_tuns; [done..|preserving]|intros l].
    eapply leaves_then; [apply or_teardown_tuns; [done..|preserving]|intros rm]. by apply leaves_ret. }
  specialize (Hl w eq_refl). rewrite E in Hl. by destruct r.
Qed.
End tuns.

(** ** The operator and its nodes *)

(** The text of a lease is what the operator reads. *)
Lemma lease_data_read d : ld_ConnectorID d ≠ "" → parseLeaseData (LeaseData_text d) = Ret d.
Proof.
  intros Hne. set (ms := [str_member "connectorID" (ld_ConnectorID d); str_member "meshIP" (ld_MeshIP d)]).
  assert (json_text (LeaseData_text d) (JObj ms)) as Ht.
  { change (LeaseData_text d) with (body_of (fst <$> ms)). subst ms.
    text_of; repeat (apply Forall_cons_2 || apply Forall_nil_2); (split; [reflexivity|]); apply json_any_string. }
  unfold parseLeaseData. rewrite decide_False by (intros E; pose proof (proj1 Ht) as (c & v & F & _); by rewrite E in F).
  unfold Unmarshal. rewrite (parse_json_text _ _ Ht). subst ms. unfold str_member. cbn [decode_struct decode_members]. unfold LeaseData_field. fields.
  cbn [decode_string mbind outcome_bind ld_ConnectorID ld_MeshIP]. rewrite decide_False by done. by destruct d.
Qed.

(** An address that an IPv4 network contains. *)
Lemma contained_v4 cidr d ip : parseCIDR cidr = Ret d → IPNet_Contains d ip = true → Forall is_byte ip →
  ∃ x, IP4_ok x ∧ To4 ip = octet_list x ∧ FromIP (To4 ip) = Ret x ∧ IPNet_Contains d (octet_list x) = true.
Proof.
  intros Hd Hc Hb. destruct (parseCIDR_denotes _ _ Hd) as (n & _ & Ei & En).
  assert (To4 ip ≠ []) as Hne.
  { intros E. unfold IPNet_Contains in Hc. rewrite E, decide_True, En in Hc by done. apply andb_true_iff in Hc as [Hl _].
    apply bool_decide_eq_true in Hl. rewrite length_octet_list in Hl. rewrite To4_4 in E by done. by rewrite E in Hl. }
  pose proof (To4_nonempty ip Hne) as Hl. pose proof (To4_bytes ip Hb) as Hb'. destruct (octets_of_bytes _ Hl Hb') as [Hok Ho].
  exists (be_val (To4 ip)). split; [done|]. split; [done|]. split.
  - rewrite FromIP_val; rewrite (To4_4 (To4 ip)) by done; done.
  - rewrite Ho. unfold IPNet_Contains in *. rewrite (To4_4 (To4 ip)), decide_False in * by done. done.
Qed.

Class PollLaws (W : Type) `{BootstrapKube W} := {
  (** what polling ends with is what one of the tries gave, and the first try counts *)
  law_Poll {A} n (f : M W (option A)) w a w' : PollUntil n f w = (Ret a, w') → ∃ w1 w2, f w1 = (Ret (Some a), w2);
  law_Poll_first {A} n (f : M W (option A)) w a w' : f w = (Ret (Some a), w') → PollUntil n f w = (Ret a, w')
}.

Section nodes.
Context {W : Type} `{NodeEnv W, DeviceHttp W, EcdsaKeys W, StateFiles W, Clock W, TunHost W, Supervisor W,
  BootstrapKube W, netlinkOps W, iptablesClient W, LeaseSource W, PprofServer W, !PollLaws W}.
Implicit Types (w : W).

Lemma credentials_nonempty cfg w c w' : waitForOperatorCredentials cfg w = (Ret c, w') → cc_ID c ≠ "" ∧ cc_Name c ≠ "" ∧ cc_Token c ≠ "".
Proof.
  unfold waitForOperatorCredentials. intros E. apply M_bind_inv in E as (k & w1 & _ & E). apply M_bind_inv in E as (cl & w2 & _ & E).
  cbn zeta in E. unfold wrapping in E. rewrite run_try_cases in E. destruct (PollUntil _ _ w2) as [[c'|e|] w3] eqn:Ep; [|done..].
  apply law_Poll in Ep as (w4 & w5 & Ep). run_inv. unfold poll_credentials in Ep. apply M_bind_inv in Ep as (r & w6 & _ & Ep).
  destruct r as [data|e]; [|by run_inv]. cbn zeta in Ep. case_decide as Hn; run_inv. cbn. tauto.
Qed.

Lemma start_address cfg c w t w' : startNativeTransport cfg c w = (Ret t, w') → nt_cfg t = cfg ∧
  ∃ d x, parseCIDR (mc_MeshCIDR (rc_config cfg)) = Ret d ∧ IP4_ok x ∧ nt_meshIP t = octet_list x ∧ FromIP (nt_meshIP t) = Ret x ∧
    IPNet_Contains d (octet_list x) = true.
Proof.
  unfold startNativeTransport. intros E. apply M_bind_inv in E as ([state key] & w1 & _ & E). apply M_bind_inv in E as (d & w2 & Hd & E).
  apply lift_inv in Hd as [Hd _]. cbn zeta in E. apply M_bind_inv in E as ([] & w3 & Hc & E). apply check_inv in Hc as [Hc _].
  apply orb_false_iff in Hc as [_ Hc]. apply negb_false_iff in Hc.
  assert (nt_registration t = state ∧ nt_cfg t = cfg) as [Hr Hcfg].
  { do 6 (apply M_bind_inv in E as (? & ? & _ & E)). match goal with E : (match ?x with _ => _ end) _ = _ |- _ => destruct x end.
    - run_inv. done.
    - apply M_bind_inv in E as (? & ? & _ & E). by run_inv.
    - apply M_bind_inv in E as (? & ? & _ & E). by run_inv. }
  split; [done|]. destruct (contained_v4 _ _ _ Hd Hc (ParseIP_bytes _)) as (x & Hx & Hto & Hf & Hin).
  exists d, x. unfold nt_meshIP. rewrite Hr. split_and!; done.
Qed.

(** What a routes manager was made with. *)
Lemma newLocalRouteManager_keeps cfg meshIP cluster local w m w' : newLocalRouteManager cfg meshIP cluster local w = (Ret m, w') →
  MeshIP m = meshIP ∧ rm_table m = cfg_RouteTable cfg.
Proof.
  unfold newLocalRouteManager. intros E. apply M_bind_inv in E as (link & w1 & _ & E). destruct link as [link|e]; [|done].
  do 9 (apply M_bind_inv in E as (? & ? & _ & E)). cbn zeta in E. do 2 (apply M_bind_inv in E as (? & ? & _ & E)). by run_inv.
Qed.

(** C30: A node that joins announces an IPv4 address inside the Mesh network, in a lease from which
    the operator reads the connector and that same address; the transport has that address, and the
    manager of the node's routes is made with it and with the routing table of the configuration. *)
Theorem lease_is_understood networkConfig w n w' : mesh_RegisterNetwork networkConfig w = (Ret n, w') →
  ∃ c cfg d x data w1 w2,
    waitForOperatorCredentials cfg w1 = (Ret c, w2) ∧ nt_cfg (jn_transport n) = cfg ∧
    parseCIDR (mc_MeshCIDR (rc_config cfg)) = Ret d ∧ IP4_ok x ∧ IPNet_Contains d (octet_list x) = true ∧
    nt_meshIP (jn_transport n) = octet_list x ∧
    MeshIP (jn_routes n) = octet_list x ∧ rm_table (jn_routes n) = mc_RouteTable (rc_config cfg) ∧
    (∃ w3 w4, sm_AcquireLease (mkLeaseAttrs x None BackendName (Some data) None) w3 = (Ret (jn_lease n), w4)) ∧
    parseLeaseData data = Ret (mkLeaseData (cc_ID c) (IP4_String x)) ∧
    ParseIP (IP4_String x) = IP4_ToIP x.
Proof.
  unfold mesh_RegisterNetwork. intros E. do 4 (apply M_bind_inv in E as (? & ? & _ & E)).
  apply M_bind_inv in E as (c & w2 & Ec & E). apply M_bind_inv in E as (t & w3 & Et & E). cbn zeta in E.
  apply M_bind_inv in E as (y & w4 & Ex & E). apply lift_inv in Ex as [Ex _].
  apply M_bind_inv in E as (l & w5 & El & E). apply M_bind_inv in E as (routes & w6 & Er & E). run_inv. cbn [jn_lease jn_transport jn_routes].
  assert (MeshIP routes = nt_meshIP t ∧ rm_table routes = mc_RouteTable (rc_config (nt_cfg t))) as [Hmr Htr].
  { unfold or_teardown in Er. rewrite run_try_cases in Er. destruct (newLocalRouteManager _ _ _ _ _) as [[r|e|] w7] eqn:En; [| |done].
    - run_inv. apply newLocalRouteManager_keeps in En as [Em Etb]. split; [done|]. rewrite Etb. by apply start_address in Et as [-> _].
    - apply M_bind_inv in Er as (? & ? & _ & Er). by run_inv. }
  apply start_address in Et as (Hcfg & d & x' & Hd & Hx & Hip & Hf & Hin). rewrite Hf in Ex. injection Ex as <-.
  unfold or_teardown in El. rewrite run_try_cases in El. destruct (sm_AcquireLease _ _) as [[l'|e|] w7] eqn:Ea; [| |done].
  2: { apply M_bind_inv in El as (? & ? & _ & El). by run_inv. }
  run_inv. pose proof (credentials_nonempty _ _ _ _ Ec) as (Hid & _ & _). rewrite Hip in Ea.
  eexists c, _, d, x', _, _, _. split; [exact Ec|]. split; [done|]. split; [done|]. split; [done|]. split; [done|]. split; [done|]. split; [congruence|]. split; [congruence|].
  split; [by eexists _, _|]. split; [|by apply ParseIP_IP4_String].
  rewrite IP_String_octets. apply lease_data_read. done.
Qed.

(** The connector that the operator hands out reaches its node: when the Secret of the
    node's name holds what the operator writes there, that connector is what the node
    starts with, and the device registers under the connector's name, by which the
    operator knows it for its own. *)
Theorem secret_reaches_node cfg connector k client w w1 w2 w3 :
  operatorRESTConfig (mc_Kubeconfig (rc_config cfg)) w = (Ret k, w1) → NewForConfig k w1 = (Ret client, w2) →
  Secrets_Get client (mc_OperatorNamespace (rc_config cfg)) (NodeSecretName (mc_OperatorSecretPrefix (rc_config cfg)) (mc_NodeName (rc_config cfg))) w2 =
    (Ret (desired_data connector), w3) →
  cc_ID connector ≠ "" → TrimSpace (cc_Name connector) ≠ "" → cc_Token connector ≠ "" →
  waitForOperatorCredentials cfg w = (Ret connector, w3) ∧ registrationName cfg (Some connector) = cc_Name connector.
Proof.
  intros E1 E2 E3 Hid Hname Htok. split; [|unfold registrationName; by rewrite decide_True].
  unfold waitForOperatorCredentials. rewrite (M_bind_Ret _ _ _ _ _ E1), (M_bind_Ret _ _ _ _ _ (wrapping_Ret _ _ _ _ _ E2)).
  apply wrapping_Ret, law_Poll_first. unfold poll_credentials. rewrite (run_try_Ret _ _ _ _ _ E3). cbn zeta.
  assert (desired_data connector !! SecretConnectorIDKey = Some (cc_ID connector) ∧
          desired_data connector !! SecretConnectorNameKey = Some (cc_Name connector) ∧
          desired_data connector !! SecretConnectorTokenKey = Some (cc_Token connector)) as (-> & -> & ->) by (by split_and!).
  cbn [default]. rewrite decide_False; [by destruct connector|]. intros [F|[F|F]]; cbn in F; [done| |done]. by rewrite F in Hname.
Qed.
End nodes.

(** ** A host whose store is its TUN devices *)

Definition joined_lease : Lease :=
  {| EnableIPv4 := true; EnableIPv6 := false; Subnet := mkIP4Net 167838208 24; IPv6Subnet := mkIP6Net None 0;
     Attrs := mkLeaseAttrs 0 None BackendName None None; Expiration := 0; Asof := 0 |}.
Abbreviation devices := (gset string).
#[global] Instance dev_env : NodeEnv devices := { Getenv _ := mret ""; os_Hostname := mret "node-1" }.
#[global] Instance dev_http : DeviceHttp devices := { NewRequest _ := Ret tt; device_Do req := mret (sample_response req) }.
#[global] Instance dev_keys : EcdsaKeys devices := byte_keys _.
#[global] Instance dev_files : StateFiles devices := {
  ReadFile _ := throw no_file; MkdirAll _ _ := mret tt; CreateTemp _ _ := mret "tmp"; file_Chmod _ _ := mret tt;
  file_Write _ _ := mret tt; file_Close _ := mret tt; file_Rename _ _ := mret tt; file_Remove _ := mret tt
}.
#[global] Instance dev_clock : Clock devices := { time_Now := mret 0 }.
#[global] Instance dev_tun : TunHost devices := {
  water_New n := w ← get; if decide (n ∈ (w : devices)) then throw (Errorf "device or resource busy") else (_ ← modify (union {[n]}); mret n);
  tun_Close n := modify (λ w, w ∖ {[n]});
  LinkSetMTU _ _ := mret tt; AddrReplace _ _ := mret tt; tun_LinkSetUp _ := mret tt
}.
#[global] Instance dev_supervisor : Supervisor devices := {
  await_ready _ := mret SessionReady; sup_cancel := mret tt; sup_done := mret tt; ctx_Err := mret true; ctx_wait _ := mret true
}.
#[global] Instance dev_kube : BootstrapKube devices := {
  RestConfig := unit; Clientset := unit;
  BuildConfigFromFlags _ := mret tt; InClusterConfig := mret tt; NewForConfig _ := mret tt;
  Secrets_Get _ _ _ := mret (desired_data sample_connector);
  PollUntil A _ f := r ← f; match r with Some a => mret a | None => throw (Errorf "timed out") end
}.
(** Routes of table 1 cannot be set. *)
#[global] Instance dev_netlink : netlinkOps devices := {
  LinkByName n := mret (mkLink n 7 1280); RouteReplace r := if mr_Table r =? 1 then throw (Errorf "netlink") else mret tt;
  MeshRouteList _ _ := mret ([], None); MeshRouteDel _ := mret tt; RuleAdd _ := mret tt; RuleList := mret ([], None); RuleDel _ := mret tt
}.
#[global] Instance dev_iptables : iptablesClient devices := {
  ipt_NewWithProtocol := mret tt; ipt_Exists _ _ _ := mret true; ipt_Insert _ _ _ _ := mret tt; ipt_Delete _ _ _ := mret tt;
  ipt_List _ _ := mret []; ipt_IsNotExist _ := false
}.
#[global] Instance dev_leases : LeaseSource devices := { sm_AcquireLease _ := mret joined_lease }.
#[global] Instance dev_pprof : PprofServer devices := { serve_pprof _ := mret tt }.
#[global, program] Instance dev_laws : TunLaws devices := { tuns := id }.
Next Obligation.
  intros n w. cbn. unfold mbind, M_bind, get. case_decide; [done|]. cbn. done.
Qed.
Next Obligation. done. Qed.
Next Obligation. intros w. by exists w. Qed.
Next Obligation. intros w. by exists w. Qed.
Next Obligation. intros n w. by exists SessionReady, w. Qed.
Solve Obligations with (try (intros; by intros ? ?)).
Next Obligation.
  intros A n f T Hf. cbn. apply preserves_bind; [done|]. intros [a|]; [apply preserves_ret|apply preserves_throw].
Qed.
Next Obligation. intros r T. cbn. destruct (_ =? _); [apply preserves_throw|apply preserves_ret]. Qed.
#[global] Instance dev_poll : PollLaws devices.
Proof.
  split; intros A n f w a w' E; cbn in *.
  - apply M_bind_inv in E as ([b|] & w1 & E1 & E2); [|done]. run_inv. by eexists _, _.
  - by rewrite (M_bind_Ret _ _ _ _ _ E).
Qed.

Definition sample_network (raw : string) : Config :=
  mkConfig true false false (mkIP4Net 167772160 8) (mkIP6Net None 0) 0 0 None None 24 0 BackendName raw.

(** The device was opened, and is gone again. *)
Lemma failed_start_leaves_no_device_witness :
  (mesh_RegisterNetwork (sample_network (body_of [("RouteTable", "1")])) ({["eth0"]} : devices)).1 =
    Err (Wrapf "ensure Mesh CIDR route %s in table %d: %w" (Errorf "netlink")) ∧
  (mesh_RegisterNetwork (sample_network (body_of [("RouteTable", "1")])) ({["eth0"]} : devices)).2 = ({["eth0"]} : devices).
Proof.
  assert ((mesh_RegisterNetwork (sample_network (body_of [("RouteTable", "1")])) ({["eth0"]} : devices)).1 =
    Err (Wrapf "ensure Mesh CIDR route %s in table %d: %w" (Errorf "netlink"))) as E by (by vm_compute).
  split; [exact E|].
  pose proof (failed_start_leaves_no_device (sample_network (body_of [("RouteTable", "1")])) ({["eth0"]} : devices) _ _ (surjective_pairing _)) as F.
  rewrite E in F. exact F.
Defined.

Lemma lease_is_understood_witness : ∃ n w', mesh_RegisterNetwork (sample_network "") (∅ : devices) = (Ret n, w') ∧
  ∃ x, nt_meshIP (jn_transport n) = octet_list x ∧ IP4_String x = "100.96.0.7".
Proof.
  assert (∃ n w', mesh_RegisterNetwork (sample_network "") (∅ : devices) = (Ret n, w') ∧ nt_meshIP (jn_transport n) = [100; 96; 0; 7]) as (n & w' & E & Hip)
    by (eexists _, _; split; [vm_compute; reflexivity|by vm_compute]).
  exists n, w'. split; [exact E|]. destruct (lease_is_understood _ _ _ _ E) as (c & cfg & d & x & data & w1 & w2 & _ & _ & _ & Hx & _ & Hm & _).
  exists x. split; [exact Hm|]. rewrite Hip in Hm. rewrite <- IP_String_octets, <- Hm. by vm_compute.
Defined.

Lemma secret_reaches_node_witness : waitForOperatorCredentials sample_cfg (∅ : devices) = (Ret sample_connector, ∅).
Proof. apply (secret_reaches_node sample_cfg sample_connector (tt : @RestConfig devices dev_kube) (tt : @Clientset devices dev_kube) (∅ : devices) ∅ ∅ ∅); by vm_compute. Defined.
