(* ===== verification/Ipsec.v ===== *)
(** * [pkg/backend/ipsec]: tunnels of IPsec policies and strongSwan connections

    [ipsec.go], [ipsec_network.go], [handle_xfrm.go] and [handle_charon.go], over the policies of
    the kernel ([Xfrm]) and the charon daemon with its VICI socket ([Charon]); the laws of both, and how the
    policies and the connections follow the leases.  The retry loops take fuel and say when they have not ended. *)

From Stdlib Require Import ZArith Lia Ascii.
From stdpp Require Import base strings list gmap numbers.
From S2P Require Import Prelude GoStrings GoJson GoNet GoNetFacts Ip4 Ip6 Lease Config Backend.

Local Open Scope Z_scope.

(** ** Policies of the kernel: [handle_xfrm.go] *)

Inductive XfrmDir := XFRM_DIR_IN | XFRM_DIR_OUT | XFRM_DIR_FWD.
#[global] Instance XfrmDir_eq_dec : EqDecision XfrmDir.
Proof. solve_decision. Defined.
#[global] Instance XfrmDir_countable : Countable XfrmDir.
Proof.
  refine (inj_countable' (λ d, match d with XFRM_DIR_IN => 0%nat | XFRM_DIR_OUT => 1%nat | XFRM_DIR_FWD => 2%nat end)
    (λ n, match n with 0%nat => XFRM_DIR_IN | 1%nat => XFRM_DIR_OUT | _ => XFRM_DIR_FWD end) _); by intros [].
Defined.

(** A template is an ESP tunnel. *)
Record XfrmPolicyTmpl := mkXfrmTmpl { tmpl_Src : IP; tmpl_Dst : IP; tmpl_Reqid : Z }.
Record XfrmPolicy := mkXfrmPolicy { pol_Src : IPNet; pol_Dst : IPNet; pol_Dir : XfrmDir; pol_Tmpls : list XfrmPolicyTmpl }.

Definition ENOENT : string := "ENOENT".

Class Xfrm (W : Type) := {
  XfrmPolicyGet : XfrmPolicy → M W XfrmPolicy;
  XfrmPolicyAdd : XfrmPolicy → M W unit;
  XfrmPolicyUpdate : XfrmPolicy → M W unit;
  XfrmPolicyDel : XfrmPolicy → M W unit
}.

(** ** The charon daemon: [handle_charon.go] *)

Record Uri := mkUri { uri_network : string; uri_address : string }.
Record CharonIKEDaemon := mkCharon { viciUri : Uri; espProposal : string }.

(** The messages of goStrongswanVici that this code builds. *)
Record ViciKey := mkViciKey { key_Typ : string; key_Data : string; key_Owners : list string }.
Record ChildSAConf := mkChildSAConf {
  Local_ts : list string; Remote_ts : list string; ESPProposals : list string; StartAction : string; CloseAction : string;
  DpdAction : string; child_Mode : string; ReqID : string; RekeyTime : string; InstallPolicy : string
}.
Record IKEConf := mkIKEConf {
  LocalAddrs : list string; RemoteAddrs : list string; Proposals : list string; ike_Version : string; KeyingTries : string;
  LocalAuthMethod : string; RemoteAuthMethod : string; Children : list (string * ChildSAConf); Encap : string
}.

Class Charon (W : Type) := {
  exec_LookPath : string → M W string;
  charon_Start : string → M W unit;
  charon_SIGTERM : M W unit;
  charon_Wait : M W unit;
  Dial : string → string → M W unit;
  (** whether the context of the daemon is done *)
  ctx_Done : M W bool;
  Sleep_second : M W unit;
  LoadShared : ViciKey → M W unit;
  LoadConn : string → IKEConf → M W unit;
  UnloadConn : string → M W unit;
  vici_Close : M W unit
}.

Definition charonPaths : list string :=
  ["charon"; "/usr/lib/strongswan/charon"; "/usr/lib/ipsec/charon"; "/usr/libexec/strongswan/charon"; "/usr/libexec/ipsec/charon"].

Definition formatConnectionName (localLease remoteLease : Lease) : string :=
  IP4_String (PublicIP (Attrs localLease)) +:+ "-" +:+ IP4Net_String (Subnet localLease) +:+ "-" +:+
  IP4Net_String (Subnet remoteLease) +:+ "-" +:+ IP4_String (PublicIP (Attrs remoteLease)).
Definition formatChildSAConfName (localLease remoteLease : Lease) : string :=
  IP4Net_String (Subnet localLease) +:+ "-" +:+ IP4Net_String (Subnet remoteLease).

(** The connection between two leases. *)
Definition ike_conf (charon : CharonIKEDaemon) (localLease remoteLease : Lease) (reqID encap : string) : IKEConf :=
  let childSAConf := mkChildSAConf [IP4Net_String (Subnet localLease)] [IP4Net_String (Subnet remoteLease)] [espProposal charon]
    "start" "trap" "restart" "tunnel" reqID "1h" "no" in
  mkIKEConf [IP4_String (PublicIP (Attrs localLease))] [IP4_String (PublicIP (Attrs remoteLease))] ["aes256-sha256-modp4096"] "2" "0"
    "psk" "psk" [(formatChildSAConfName localLease remoteLease, childSAConf)] encap.

Section charon.
Context {W : Type} `{Charon W}.

Fixpoint findExecPath (paths : list string) : M W string :=
  match paths with
  | [] => throw (Errorf "no valid charon executable found at paths %v")
  | path :: paths =>
      r ← try (exec_LookPath path);
      match r with inl path => mret path | inr _ => findExecPath paths end
  end.

Definition NewCharonIKEDaemon (proposal : string) : M W CharonIKEDaemon :=
  execPath ← findExecPath charonPaths;
  charon_Start execPath;;
  mret (mkCharon (mkUri "unix" "/var/run/charon.vici") proposal).

(** The goroutine that [NewCharonIKEDaemon] starts, once the context is done. *)
Definition charon_stop : M W unit := _ ← try charon_SIGTERM; _ ← try charon_Wait; mret tt.

(** A call that may wait for ever: [None] when it has not ended within its fuel. *)
Abbreviation waiting A := (M W (option A)).
Definition after {A B} (m : waiting A) (f : A → waiting B) : waiting B :=
  r ← m;
  match r with Some a => f a | None => mret None end.

Fixpoint getClient (charon : CharonIKEDaemon) (fuel : nat) (wait : bool) : waiting unit :=
  match fuel with
  | O => mret None
  | S fuel =>
      r ← try (Dial (uri_network (viciUri charon)) (uri_address (viciUri charon)));
      match r with
      | inl _ => mret (Some tt)
      | inr e =>
          if wait then
            ctx_done ← ctx_Done;
            if (ctx_done : bool) then throw e else Sleep_second;; getClient charon fuel wait
          else throw e
      end
  end.

(** [defer client.Close()]. *)
Definition closing {A} (m : waiting A) : waiting A :=
  r ← try m;
  match r with
  | inl None => mret None
  | inl (Some a) => _ ← try vici_Close; mret (Some a)
  | inr e => _ ← try vici_Close; throw e
  end.

Fixpoint load_shared (fuel : nat) (sharedKey : ViciKey) : waiting unit :=
  match fuel with
  | O => mret None
  | S fuel =>
      r ← try (LoadShared sharedKey);
      match r with
      | inl _ => mret (Some tt)
      | inr _ => Sleep_second;; load_shared fuel sharedKey
      end
  end.

Definition LoadSharedKey (charon : CharonIKEDaemon) (fuel : nat) (remotePublicIP password : string) : waiting unit :=
  after (getClient charon fuel true) (λ _, closing (load_shared fuel (mkViciKey "IKE" password [remotePublicIP]))).

Definition LoadConnection (charon : CharonIKEDaemon) (fuel : nat) (localLease remoteLease : Lease) (reqID encap : string) : waiting unit :=
  after (getClient charon fuel true) (λ _,
    closing (LoadConn (formatConnectionName localLease remoteLease) (ike_conf charon localLease remoteLease reqID encap);; mret (Some tt))).

Definition UnloadCharonConnection (charon : CharonIKEDaemon) (fuel : nat) (localLease remoteLease : Lease) : waiting unit :=
  after (getClient charon fuel false) (λ _, closing (UnloadConn (formatConnectionName localLease remoteLease);; mret (Some tt))).
End charon.

Section xfrm.
Context {W : Type} `{Xfrm W}.

Definition xfrm_policy (src dst : IPNet) (tunnelLeft tunnelRight : IP) (dir : XfrmDir) (reqID : Z) : XfrmPolicy :=
  mkXfrmPolicy src dst dir [mkXfrmTmpl tunnelLeft tunnelRight reqID].

Definition AddXFRMPolicy (myLease remoteLease : Lease) (dir : XfrmDir) (reqID : Z) : M W unit :=
  let policy := xfrm_policy (IP4Net_ToIPNet (Subnet myLease)) (IP4Net_ToIPNet (Subnet remoteLease))
    (IP4_ToIP (PublicIP (Attrs myLease))) (IP4_ToIP (PublicIP (Attrs remoteLease))) dir reqID in
  r ← try (XfrmPolicyGet policy);
  match r with
  | inr err =>
      if errors_Is err ENOENT then wrapping "error adding policy: %+v err: %v" (XfrmPolicyAdd policy)
      else throw (Wrapf "error getting policy: %+v err: %v" err)
  | inl _ => wrapping "error updating policy: %+v err: %v" (XfrmPolicyUpdate policy)
  end.

Definition DeleteXFRMPolicy (localSubnet remoteSubnet : IPNet) (localPublicIP remotePublicIP : IP) (dir : XfrmDir) (reqID : Z) : M W unit :=
  wrapping "error deleting policy: %+v err: %v" (XfrmPolicyDel (xfrm_policy localSubnet remoteSubnet localPublicIP remotePublicIP dir reqID)).
End xfrm.

(** ** The network: [ipsec_network.go] *)

Definition ipsecOverhead : Z := 77.
Definition udpEncapOverhead : Z := 8.
Definition defaultReqID : Z := 11.

Record ipsec_network := mkIpsecNetwork {
  in_SubnetLease : Lease;
  in_ExtIface : ExternalInterface;
  in_password : string;
  in_UDPEncap : bool;
  in_iked : CharonIKEDaemon
}.

Definition ipsec_newNetwork (extIface : ExternalInterface) (UDPEncap : bool) (password : string) (ikeDaemon : CharonIKEDaemon) (l : Lease) : ipsec_network :=
  mkIpsecNetwork l extIface password UDPEncap ikeDaemon.

Definition ipsec_MTU (n : ipsec_network) : Z :=
  let mtu := Iface_MTU (in_ExtIface n) - ipsecOverhead in
  if in_UDPEncap n then mtu - udpEncapOverhead else mtu.

Section network.
Context {W : Type} `{Xfrm W, Charon W}.

Definition AddIPSECPolicies (n : ipsec_network) (remoteLease : Lease) (reqID : Z) : M W unit :=
  wrapping "error adding ipsec out policy: %v" (AddXFRMPolicy (in_SubnetLease n) remoteLease XFRM_DIR_OUT reqID);;
  wrapping "error adding ipsec in policy: %v" (AddXFRMPolicy remoteLease (in_SubnetLease n) XFRM_DIR_IN reqID);;
  wrapping "error adding ipsec fwd policy: %v" (AddXFRMPolicy remoteLease (in_SubnetLease n) XFRM_DIR_FWD reqID).

Definition DeleteIPSECPolicies (localSubnet remoteSubnet : IPNet) (localPublicIP remotePublicIP : IP) (reqID : Z) : M W unit :=
  wrapping "error deleting ipsec out policy: %v" (DeleteXFRMPolicy localSubnet remoteSubnet localPublicIP remotePublicIP XFRM_DIR_OUT reqID);;
  wrapping "error deleting ipsec in policy: %v" (DeleteXFRMPolicy remoteSubnet localSubnet remotePublicIP localPublicIP XFRM_DIR_IN reqID);;
  wrapping "error deleting ipsec fwd policy: %v" (DeleteXFRMPolicy remoteSubnet localSubnet remotePublicIP localPublicIP XFRM_DIR_FWD reqID).

(** An error is logged; a call that has not ended holds the others up. *)
Definition then_logged {A} (m : M W (option A)) (k : M W (option unit)) : M W (option unit) :=
  r ← try m;
  match r with inl None => mret None | _ => k end.

Definition format_bool (b : bool) : string := if b then "true" else "false".

Definition ipsec_event (n : ipsec_network) (fuel : nat) (evt : Event) : M W (option unit) :=
  let l := Event_Lease evt in
  let own := in_SubnetLease n in
  if negb (bool_decide (BackendType (Attrs l) = "ipsec")) then mret (Some tt)
  else if IP4Net_Equal (Subnet l) (Subnet own) then mret (Some tt)
  else
    match Event_Type evt with
    | EventAdded =>
        _ ← try (AddIPSECPolicies n l defaultReqID);
        then_logged (LoadSharedKey (in_iked n) fuel (IP4_String (PublicIP (Attrs l))) (in_password n))
          (then_logged (LoadConnection (in_iked n) fuel own l (fmt_int defaultReqID) (format_bool (in_UDPEncap n))) (mret (Some tt)))
    | EventRemoved =>
        then_logged (UnloadCharonConnection (in_iked n) fuel own l)
          (_ ← try (DeleteIPSECPolicies (IP4Net_ToIPNet (Subnet own)) (IP4Net_ToIPNet (Subnet l))
                      (IP4_ToIP (PublicIP (Attrs own))) (IP4_ToIP (PublicIP (Attrs l))) defaultReqID);
           mret (Some tt))
    end.

Fixpoint ipsec_handleSubnetEvents (n : ipsec_network) (fuel : nat) (batch : list Event) : M W (option unit) :=
  match batch with
  | [] => mret (Some tt)
  | evt :: batch => after (ipsec_event n fuel evt) (λ _, ipsec_handleSubnetEvents n fuel batch)
  end.

(** The shared key of the node, then the batches until the channel is closed. *)
Definition ipsec_Run (n : ipsec_network) (fuel : nat) (batches : list (list Event)) : M W (option unit) :=
  r ← try (LoadSharedKey (in_iked n) fuel (IP_String (IP4_ToIP (PublicIP (Attrs (in_SubnetLease n))))) (in_password n));
  match r with
  | inl None => mret None
  | inr _ => mret (Some tt)
  | inl (Some _) => ipsec_handleSubnetEvents n fuel (concat batches)
  end.
End network.

(** ** Registration: [ipsec.go] *)

Definition defaultESPProposal : string := "aes128gcm16-sha256-prfsha256-ecp256".
Definition minPasswordLength : Z := 96.

Record IPSECConfig := mkIPSECConfig { ic_UDPEncap : bool; ic_ESPProposal : string; ic_PSK : string }.
Definition IPSECConfig_field (c : IPSECConfig) (key raw : string) (v : json) : outcome IPSECConfig :=
  let '(mkIPSECConfig encap proposal psk) := c in
  if field_name "UDPEncap" key then b ← decode_bool encap v; Ret (mkIPSECConfig b proposal psk)
  else if field_name "ESPProposal" key then s ← decode_string proposal v; Ret (mkIPSECConfig encap s psk)
  else if field_name "PSK" key then s ← decode_string psk v; Ret (mkIPSECConfig encap proposal s)
  else Ret c.

Definition ipsec_config (config : string) : outcome IPSECConfig :=
  let cfg := mkIPSECConfig false defaultESPProposal "" in
  if (0 <? String.length config)%nat then
    match Unmarshal_struct IPSECConfig_field config cfg with
    | Ret cfg => Ret cfg
    | Err e => Err (Wrapf "error decoding IPSEC backend config: %v" e)
    | Panic => Panic
    end
  else Ret cfg.

Definition ipsec_RegisterNetwork {W} `{Charon W, LeaseSource W} (extIface : ExternalInterface) (config : Config) : M W ipsec_network :=
  cfg ← lift (ipsec_config (cfg_Backend config));
  check (Z.of_nat (String.length (ic_PSK cfg)) <? minPasswordLength) (Errorf "config error, password is too short");;
  pub ← lift (FromIP (ExtAddr extIface));
  l ← acquire (mkLeaseAttrs pub None "ipsec" None None);
  ikeDaemon ← wrapping "error creating CharonIKEDaemon struct: %v" (NewCharonIKEDaemon (ic_ESPProposal cfg));
  mret (ipsec_newNetwork extIface (ic_UDPEncap cfg) (ic_PSK cfg) ikeDaemon l).
