(* ===== verification/IpsecFacts.v ===== *)
(** * Facts of [Ipsec.v]: policies and connections follow the leases

    The laws of the kernel's policies and of a charon daemon that answers ([IpsecLaws]); the
    state after any sequence of lease events; what a host that moves leaves behind; the loop that a shutdown does not end. *)

From Stdlib Require Import ZArith Lia Ascii.
From stdpp Require Import base strings list gmap numbers.
From S2P Require Import Prelude GoStrings GoJson GoNet GoNetFacts Ip4 Ip6 Lease Config Backend VxlanFacts MeshRoutesFacts Ipsec.

Local Open Scope Z_scope.

(** The policies by selector and direction, with the ends of their tunnel and its request; the connections by name;
    the shared keys by owner. *)
Record iview := mkIview {
  iv_policies : gmap (IP4Net * IP4Net * XfrmDir) (IP4 * IP4 * Z);
  iv_conns : gmap string IKEConf;
  iv_keys : gmap string string
}.
Definition on_policies f (v : iview) : iview := mkIview (f (iv_policies v)) (iv_conns v) (iv_keys v).
Definition on_conns f (v : iview) : iview := mkIview (iv_policies v) (f (iv_conns v)) (iv_keys v).
Definition on_keys f (v : iview) : iview := mkIview (iv_policies v) (iv_conns v) (f (iv_keys v)).

Definition policy4 (s d : IP4Net) (dir : XfrmDir) (t : IP4 * IP4 * Z) : XfrmPolicy :=
  xfrm_policy (IP4Net_ToIPNet s) (IP4Net_ToIPNet d) (IP4_ToIP t.1.1) (IP4_ToIP t.1.2) dir t.2.

Class IpsecLaws (W : Type) `{Xfrm W, Charon W} := {
  view_of : W → iview;
  (** charon runs and answers on its socket *)
  charon_up : W → Prop;
  law_Get s d dir t w : subnet_ok s → subnet_ok d → ∃ r, XfrmPolicyGet (policy4 s d dir t) w = (r, w) ∧
    match iv_policies (view_of w) !! (s, d, dir) with Some _ => is_ret r = true | None => ∃ e, r = Err e ∧ errors_Is e ENOENT = true end;
  law_Add s d dir t w : subnet_ok s → subnet_ok d → IP4_ok t.1.1 → IP4_ok t.1.2 → iv_policies (view_of w) !! (s, d, dir) = None →
    ∃ w', XfrmPolicyAdd (policy4 s d dir t) w = (Ret tt, w') ∧ view_of w' = on_policies (<[(s, d, dir) := t]>) (view_of w) ∧ (charon_up w → charon_up w');
  law_Update s d dir t w : subnet_ok s → subnet_ok d → IP4_ok t.1.1 → IP4_ok t.1.2 → is_Some (iv_policies (view_of w) !! (s, d, dir)) →
    ∃ w', XfrmPolicyUpdate (policy4 s d dir t) w = (Ret tt, w') ∧ view_of w' = on_policies (<[(s, d, dir) := t]>) (view_of w) ∧ (charon_up w → charon_up w');
  law_Del s d dir t w : subnet_ok s → subnet_ok d → is_Some (iv_policies (view_of w) !! (s, d, dir)) →
    ∃ w', XfrmPolicyDel (policy4 s d dir t) w = (Ret tt, w') ∧ view_of w' = on_policies (delete (s, d, dir)) (view_of w) ∧ (charon_up w → charon_up w');
  law_Dial w : charon_up w → Dial "unix" "/var/run/charon.vici" w = (Ret tt, w);
  law_LoadShared data owner w : charon_up w →
    ∃ w', LoadShared (mkViciKey "IKE" data [owner]) w = (Ret tt, w') ∧ view_of w' = on_keys (<[owner := data]>) (view_of w) ∧ charon_up w';
  law_LoadConn name c w : charon_up w →
    ∃ w', LoadConn name c w = (Ret tt, w') ∧ view_of w' = on_conns (<[name := c]>) (view_of w) ∧ charon_up w';
  law_UnloadConn name w : charon_up w → is_Some (iv_conns (view_of w) !! name) →
    ∃ w', UnloadConn name w = (Ret tt, w') ∧ view_of w' = on_conns (delete name) (view_of w) ∧ charon_up w';
  law_Close w : ∃ r w', vici_Close w = (r, w') ∧ r ≠ Panic ∧ view_of w' = view_of w ∧ (charon_up w → charon_up w')
}.

(** ** Names of connections *)

Lemma IP4_String_inj a b : IP4_ok a → IP4_ok b → IP4_String a = IP4_String b → a = b.
Proof. intros Ha Hb E. pose proof (ParseIP4_String a Ha) as Ea. rewrite E, ParseIP4_String in Ea by done. by injection Ea. Qed.

Lemma dash_pair_inj (a b c d : string) : lacks "-" a → lacks "-" c → a +:+ "-" +:+ b = c +:+ "-" +:+ d → a = c ∧ b = d.
Proof.
  intros Ha. revert c. induction a as [|x a IH]; intros [|y c] Hc E.
  - by injection E.
  - exfalso. injection E as <- _. unfold lacks in Hc. by cbn in Hc.
  - exfalso. injection E as -> _. unfold lacks in Ha. by cbn in Ha.
  - unfold lacks in *. cbn in Ha, Hc. apply andb_true_iff in Ha as [_ Ha], Hc as [_ Hc]. injection E as -> E. destruct (IH Ha c Hc E) as [-> ->]. done.
Qed.

Lemma connection_name_inj own l l' : IP4Net_ok (Subnet own) → IP4Net_ok (Subnet l) → IP4Net_ok (Subnet l') → IP4_ok (PublicIP (Attrs l)) → IP4_ok (PublicIP (Attrs l')) →
  IP4_ok (PublicIP (Attrs own)) → formatConnectionName own l = formatConnectionName own l' → Subnet l = Subnet l' ∧ PublicIP (Attrs l) = PublicIP (Attrs l').
Proof.
  intros Ho Hl Hl' Hp Hp' Hpo E. unfold formatConnectionName in E.
  assert (∀ n, IP4Net_ok n → lacks "-" (IP4Net_String n)) as Hn by (intros n Hok; by apply IP4Net_String_lacks).
  assert (∀ x, IP4_ok x → lacks "-" (IP4_String x)) as Hi by (intros x Hok; by apply IP4_String_lacks).
  apply dash_pair_inj in E as [_ E]; [|by apply Hi..]. apply dash_pair_inj in E as [_ E]; [|by apply Hn..]. apply dash_pair_inj in E as [En Ei]; [|by apply Hn..].
  split; [by apply IP4Net_String_inj|by apply IP4_String_inj].
Qed.

(** ** Calls on a host where charon is up *)

Section calls.
Context {W : Type} `{IpsecLaws W}.

(** From a view in [Pre], the call returns [a] and does [f] to the view. *)
Definition acts {A} (Pre : iview → Prop) (c : M W A) (a : A) (f : iview → iview) : Prop :=
  ∀ w, charon_up w → Pre (view_of w) → ∃ w', c w = (Ret a, w') ∧ charon_up w' ∧ view_of w' = f (view_of w).

Lemma acts_ret {A} Pre (a : A) : acts Pre (mret a) a id.
Proof. intros w Hw _. by exists w. Qed.
Lemma acts_bind {A B} Pre Pre' (c : M W A) (k : A → M W B) a b f g :
  acts Pre c a f → acts Pre' (k a) b g → (∀ v, Pre v → Pre' (f v)) → acts Pre (x ← c; k x) b (λ v, g (f v)).
Proof.
  intros Hc Hk Hp w Hw Hv. destruct (Hc w Hw Hv) as (w1 & E & U1 & V1). destruct (Hk w1 U1) as (w2 & E2 & U2 & V2); [rewrite V1; auto|].
  exists w2. rewrite (M_bind_Ret _ _ _ _ _ E), V2, V1. done.
Qed.
Lemma acts_try {A} Pre (c : M W A) a f : acts Pre c a f → acts Pre (try c) (inl a) f.
Proof. intros Hc w Hw Hv. destruct (Hc w Hw Hv) as (w1 & E & R). exists w1. unfold try. by rewrite E. Qed.
Lemma acts_wrapping {A} Pre fmt (c : M W A) a f : acts Pre c a f → acts Pre (wrapping fmt c) a f.
Proof. intros Hc w Hw Hv. destruct (Hc w Hw Hv) as (w1 & E & R). exists w1. by rewrite (wrapping_Ret _ _ _ _ _ E). Qed.
Lemma acts_weaken {A} (Pre Pre' : iview → Prop) (c : M W A) a f : acts Pre c a f → (∀ v, Pre' v → Pre v) → acts Pre' c a f.
Proof. intros Hc Hp w Hw Hv. apply Hc; auto. Qed.

Lemma acts_eq {A} Pre (c : M W A) a f g : acts Pre c a f → (∀ v, f v = g v) → acts Pre c a g.
Proof. intros Hc Hf w Hw Hv. destruct (Hc w Hw Hv) as (w1 & E & U1 & V1). exists w1. by rewrite <- Hf. Qed.

Lemma acts_run {A} Pre (c c' : M W A) a f : (∀ w, c w = c' w) → acts Pre c' a f → acts Pre c a f.
Proof. intros Hr Hc w Hw Hv. rewrite Hr. by apply Hc. Qed.

Lemma AddXFRMPolicy_acts a b dir req : subnet_ok (Subnet a) → subnet_ok (Subnet b) → IP4_ok (PublicIP (Attrs a)) → IP4_ok (PublicIP (Attrs b)) →
  acts (λ _, True) (AddXFRMPolicy a b dir req) tt (on_policies (<[(Subnet a, Subnet b, dir) := (PublicIP (Attrs a), PublicIP (Attrs b), req)]>)).
Proof.
  intros Ha Hb Hpa Hpb w Hw _. unfold AddXFRMPolicy. set (t := (PublicIP (Attrs a), PublicIP (Attrs b), req)).
  change (xfrm_policy _ _ _ _ _ _) with (policy4 (Subnet a) (Subnet b) dir t). rewrite run_try_cases.
  destruct (law_Get (Subnet a) (Subnet b) dir t w Ha Hb) as (r & -> & Hr). destruct (iv_policies (view_of w) !! _) eqn:E.
  - destruct r as [pol|e|]; try done. destruct (law_Update (Subnet a) (Subnet b) dir t w Ha Hb Hpa Hpb) as (w' & Eu & Hv & Hu); [by eexists|].
    exists w'. rewrite (wrapping_Ret _ _ _ _ _ Eu). auto.
  - destruct Hr as (e & -> & ->). destruct (law_Add (Subnet a) (Subnet b) dir t w Ha Hb Hpa Hpb E) as (w' & Eu & Hv & Hu).
    exists w'. rewrite (wrapping_Ret _ _ _ _ _ Eu). auto.
Qed.

Lemma DeleteXFRMPolicy_acts s d x y dir req : subnet_ok s → subnet_ok d →
  acts (λ v, is_Some (iv_policies v !! (s, d, dir))) (DeleteXFRMPolicy (IP4Net_ToIPNet s) (IP4Net_ToIPNet d) (IP4_ToIP x) (IP4_ToIP y) dir req) tt
    (on_policies (delete (s, d, dir))).
Proof.
  intros Hs Hd. apply acts_wrapping. intros w Hw Hv. destruct (law_Del s d dir (x, y, req) w Hs Hd Hv) as (w' & E & V & Hu). exists w'. auto.
Qed.

Lemma Dial_acts c : viciUri c = mkUri "unix" "/var/run/charon.vici" → ∀ fuel b, acts (λ _, True) (getClient c (S fuel) b) (Some tt) id.
Proof. intros Hc fuel b w Hw _. exists w. cbn [getClient]. rewrite Hc. cbn [uri_network uri_address]. by rewrite (run_try_Ret _ _ _ _ _ (law_Dial w Hw)). Qed.

Lemma closing_acts {A} Pre (m : M W (option A)) a f : acts Pre m (Some a) f → acts Pre (closing m) (Some a) f.
Proof.
  intros Hm w Hw Hv. destruct (Hm w Hw Hv) as (w1 & E & U1 & V1). unfold closing. rewrite (run_try_Ret _ _ _ _ _ E).
  destruct (law_Close w1) as (r & w2 & E2 & Hr & V2 & Hu). exists w2. rewrite run_try_cases, E2. destruct r; [..|done]; (split; [done|]); (split; [auto|congruence]).
Qed.
Lemma after_acts {A B} Pre (m : M W (option A)) (k : A → M W (option B)) a b f g :
  acts Pre m (Some a) f → acts (λ _, True) (k a) b g → acts Pre (after m k) b (λ v, g (f v)).
Proof. intros Hm Hk. eapply acts_bind; [exact Hm|exact Hk|done]. Qed.
Lemma after_acts_pre {A B} Pre Pre' (m : M W (option A)) (k : A → M W (option B)) a b f g :
  acts Pre m (Some a) f → acts Pre' (k a) b g → (∀ v, Pre v → Pre' (f v)) → acts Pre (after m k) b (λ v, g (f v)).
Proof. intros Hm Hk Hp. eapply acts_bind; [exact Hm|exact Hk|done]. Qed.
Lemma logged_acts {A} Pre Pre' (m : M W (option A)) k a b f g :
  acts Pre m (Some a) f → acts Pre' k b g → (∀ v, Pre v → Pre' (f v)) → acts Pre (then_logged m k) b (λ v, g (f v)).
Proof. intros Hm Hk Hp. eapply acts_bind; [by apply acts_try|exact Hk|done]. Qed.
End calls.

(** ** Following the leases *)

Abbreviation ip_hosts := (gmap IP4Net IP4).

Section tracking.
Context {W : Type} `{IpsecLaws W}.
Context (n : ipsec_network) (fuel : nat).
Abbreviation own := (in_SubnetLease n).
Abbreviation ownPub := (PublicIP (Attrs own)).

(** What stays fixed: the lease of the node and the socket of charon. *)
Definition ipsec_ready : Prop :=
  subnet_ok (Subnet own) ∧ IP4_ok ownPub ∧ viciUri (in_iked n) = mkUri "unix" "/var/run/charon.vici".

(** The leases that this network looks at. *)
Definition concerns (l : Lease) : bool := bool_decide (BackendType (Attrs l) = "ipsec") && negb (IP4Net_Equal (Subnet l) (Subnet own)).
Definition ip_apply (D : ip_hosts) (e : Event) : ip_hosts :=
  let l := Event_Lease e in
  if concerns l then
    match Event_Type e with EventAdded => <[Subnet l := PublicIP (Attrs l)]> D | EventRemoved => delete (Subnet l) D end
  else D.

(** A host is announced again, or removed, with the address that it has. *)
Definition steady (D : ip_hosts) (e : Event) : Prop :=
  let l := Event_Lease e in
  concerns l = true → subnet_ok (Subnet l) ∧ IP4_ok (PublicIP (Attrs l)) ∧
    match Event_Type e with
    | EventAdded => ∀ pub, D !! Subnet l = Some pub → pub = PublicIP (Attrs l)
    | EventRemoved => D !! Subnet l = Some (PublicIP (Attrs l))
    end.
Fixpoint all_steady (D : ip_hosts) (evts : list Event) : Prop :=
  match evts with [] => True | e :: evts => steady D e ∧ all_steady (ip_apply D e) evts end.

(** The lease of a host, of which the code uses the subnet and the address. *)
Definition host_lease (sn : IP4Net) (pub : IP4) : Lease := mkLease true false sn (mkIP6Net None 0) (mkLeaseAttrs pub None "ipsec" None None) 0 0.
Definition conn_name (sn : IP4Net) (pub : IP4) : string := formatConnectionName own (host_lease sn pub).
Definition conn_conf (sn : IP4Net) (pub : IP4) : IKEConf :=
  ike_conf (in_iked n) own (host_lease sn pub) (fmt_int defaultReqID) (format_bool (in_UDPEncap n)).

(** The policies between the subnet of the node and another, and those that the hosts call for. *)
Definition ours (k : IP4Net * IP4Net * XfrmDir) : option IP4Net :=
  match k with
  | (s, d, XFRM_DIR_OUT) => if decide (s = Subnet own) then Some d else None
  | (s, d, _) => if decide (d = Subnet own) then Some s else None
  end.
Definition tunnel (dir : XfrmDir) (pub : IP4) : IP4 * IP4 * Z :=
  match dir with XFRM_DIR_OUT => (ownPub, pub, defaultReqID) | _ => (pub, ownPub, defaultReqID) end.

Record reflects_ip (D : ip_hosts) (v : iview) : Prop := mkReflectsIp {
  ri_policies k sn : ours k = Some sn → iv_policies v !! k = tunnel k.2 <$> D !! sn;
  ri_conns sn pub : IP4Net_ok sn → IP4_ok pub → iv_conns v !! conn_name sn pub = if decide (D !! sn = Some pub) then Some (conn_conf sn pub) else None;
  ri_keys sn pub : D !! sn = Some pub → iv_keys v !! IP4_String pub = Some (in_password n);
  ri_hosts sn pub : D !! sn = Some pub → sn ≠ Subnet own
}.

Definition three (sn : IP4Net) (pub : IP4) f : iview → iview := λ v,
  on_policies (f (sn, Subnet own, XFRM_DIR_FWD) (tunnel XFRM_DIR_FWD pub))
    (on_policies (f (sn, Subnet own, XFRM_DIR_IN) (tunnel XFRM_DIR_IN pub)) (on_policies (f (Subnet own, sn, XFRM_DIR_OUT) (tunnel XFRM_DIR_OUT pub)) v)).
Definition put_policy (k : IP4Net * IP4Net * XfrmDir) (t : IP4 * IP4 * Z) (m : gmap (IP4Net * IP4Net * XfrmDir) (IP4 * IP4 * Z)) := <[k := t]> m.
Definition drop_policy (k : IP4Net * IP4Net * XfrmDir) (t : IP4 * IP4 * Z) (m : gmap (IP4Net * IP4Net * XfrmDir) (IP4 * IP4 * Z)) := delete k m.

Definition joined_ip (sn : IP4Net) (pub : IP4) (v : iview) : iview :=
  on_conns (<[conn_name sn pub := conn_conf sn pub]>) (on_keys (<[IP4_String pub := in_password n]>) (three sn pub put_policy v)).
Definition left_ip (sn : IP4Net) (pub : IP4) (v : iview) : iview := three sn pub drop_policy (on_conns (delete (conn_name sn pub)) v).

Lemma three_lookup f sn pub v k : (∀ k t m, f k t m !! k = f k t ∅ !! k) → (∀ k k' t m, k ≠ k' → f k t m !! k' = m !! k') →
  iv_policies (three sn pub f v) !! k = if decide (ours k = Some sn ∧ ours k ≠ None) then f k (tunnel k.2 pub) ∅ !! k else iv_policies v !! k.
Proof.
  intros Hs Ho. unfold three. cbn [iv_policies on_policies]. destruct k as [[s d] dir].
  destruct (decide (ours (s, d, dir) = Some sn ∧ _)) as [[E _]|E].
  - destruct dir; cbn in E |- *; case_decide; simplify_eq; rewrite ?Hs; try done.
    + rewrite Ho by done. by rewrite Hs.
    + rewrite Ho, Ho by done. by rewrite Hs.
  - assert (ours (s, d, dir) ≠ Some sn) as Hne by (intros F; apply E; by rewrite F).
    rewrite !Ho; [done|..]; intros [= <- <- <-]; apply Hne; cbn; by rewrite decide_True.
Qed.

Lemma join_reflects D l v : subnet_ok (Subnet own) → IP4_ok ownPub → subnet_ok (Subnet l) → IP4_ok (PublicIP (Attrs l)) → Subnet l ≠ Subnet own →
  (∀ pub, D !! Subnet l = Some pub → pub = PublicIP (Attrs l)) → reflects_ip D v →
  reflects_ip (<[Subnet l := PublicIP (Attrs l)]> D) (joined_ip (Subnet l) (PublicIP (Attrs l)) v).
Proof.
  intros [Hso _] Hpo [Hsl _] Hpl Hne Hst [Rp Rc Rk Rh]. split.
  - intros k sn Hk. change (iv_policies (joined_ip _ _ v)) with (iv_policies (three (Subnet l) (PublicIP (Attrs l)) put_policy v)).
    rewrite three_lookup by (intros; unfold put_policy; by rewrite ?lookup_insert_eq, ?lookup_insert_ne). rewrite Hk. case_decide as Hd.
    + destruct Hd as [[= ->] _]. unfold put_policy. by rewrite !lookup_insert_eq.
    + rewrite lookup_insert_ne by (intros <-; by apply Hd). by apply Rp.
  - intros sn pub Hsn Hpub. cbn [iv_conns joined_ip on_conns on_keys]. destruct (decide (sn = Subnet l ∧ pub = PublicIP (Attrs l))) as [[-> ->]|Hd].
    + rewrite lookup_insert_eq, decide_True; [done|]. by rewrite lookup_insert_eq.
    + rewrite lookup_insert_ne by (intros E; apply Hd; destruct (connection_name_inj own (host_lease (Subnet l) (PublicIP (Attrs l))) (host_lease sn pub)); done).
      change (iv_conns (three _ _ _ v)) with (iv_conns v). rewrite Rc by done. apply decide_ext. destruct (decide (sn = Subnet l)) as [->|Hs].
      * rewrite lookup_insert_eq. split; [intros E; destruct Hd; split; [done|by apply Hst]|intros [= <-]; by destruct Hd].
      * by rewrite lookup_insert_ne.
  - intros sn pub. cbn [iv_keys joined_ip on_conns on_keys]. intros [[<- <-]|[Hs Hl]]%lookup_insert_Some; [by rewrite lookup_insert_eq|].
    destruct (decide (IP4_String (PublicIP (Attrs l)) = IP4_String pub)) as [->|Hk]; [by rewrite lookup_insert_eq|]. rewrite lookup_insert_ne by done.
    by apply (Rk sn).
  - intros sn pub [[<- _]|[_ Hl]]%lookup_insert_Some; [done|by apply (Rh _ _ Hl)].
Qed.

Lemma leave_reflects D l v : subnet_ok (Subnet own) → IP4_ok ownPub → subnet_ok (Subnet l) → IP4_ok (PublicIP (Attrs l)) →
  D !! Subnet l = Some (PublicIP (Attrs l)) → reflects_ip D v → reflects_ip (delete (Subnet l) D) (left_ip (Subnet l) (PublicIP (Attrs l)) v).
Proof.
  intros [Hso _] Hpo [Hsl _] Hpl HD [Rp Rc Rk Rh]. split.
  - intros k sn Hk. unfold left_ip. rewrite three_lookup by (intros; unfold drop_policy; by rewrite ?lookup_delete_eq, ?lookup_delete_ne). rewrite Hk. case_decide as Hd.
    + destruct Hd as [[= ->] _]. unfold drop_policy. by rewrite !lookup_delete_eq.
    + rewrite lookup_delete_ne by (intros <-; by apply Hd). by apply Rp.
  - intros sn pub Hsn Hpub. change (iv_conns (left_ip _ _ v)) with (delete (conn_name (Subnet l) (PublicIP (Attrs l))) (iv_conns v)).
    destruct (decide (sn = Subnet l ∧ pub = PublicIP (Attrs l))) as [[-> ->]|Hd].
    + rewrite lookup_delete_eq, decide_False; [done|]. by rewrite lookup_delete_eq.
    + rewrite lookup_delete_ne by (intros E; apply Hd; destruct (connection_name_inj own (host_lease (Subnet l) (PublicIP (Attrs l))) (host_lease sn pub)); done).
      rewrite Rc by done. apply decide_ext. destruct (decide (sn = Subnet l)) as [->|Hs].
      * rewrite lookup_delete_eq, HD. split; [intros [= <-]; by destruct Hd|done].
      * by rewrite lookup_delete_ne.
  - intros sn pub [_ Hl]%lookup_delete_Some. by apply (Rk sn).
  - intros sn pub [_ Hl]%lookup_delete_Some. by apply (Rh _ _ Hl).
Qed.

Lemma AddIPSECPolicies_acts l : subnet_ok (Subnet own) → subnet_ok (Subnet l) → IP4_ok ownPub → IP4_ok (PublicIP (Attrs l)) →
  acts (λ _, True) (AddIPSECPolicies n l defaultReqID) tt (three (Subnet l) (PublicIP (Attrs l)) put_policy).
Proof.
  intros Ho Hl Hop Hlp. eapply acts_eq.
  { eapply (acts_bind _ (λ _, True)); [by apply acts_wrapping, AddXFRMPolicy_acts| |done].
    eapply (acts_bind _ (λ _, True)); [by apply acts_wrapping, AddXFRMPolicy_acts|by apply acts_wrapping, AddXFRMPolicy_acts|done]. }
  done.
Qed.

Lemma DeleteIPSECPolicies_acts l : subnet_ok (Subnet own) → subnet_ok (Subnet l) →
  acts (λ v, ∀ k, ours k = Some (Subnet l) → is_Some (iv_policies v !! k))
    (DeleteIPSECPolicies (IP4Net_ToIPNet (Subnet own)) (IP4Net_ToIPNet (Subnet l)) (IP4_ToIP ownPub) (IP4_ToIP (PublicIP (Attrs l))) defaultReqID) tt
    (three (Subnet l) (PublicIP (Attrs l)) drop_policy).
Proof.
  intros Ho Hl. set (sn := Subnet l). set (op := Subnet own). eapply acts_eq.
  { eapply (acts_bind _ (λ v, is_Some (iv_policies v !! (sn, op, XFRM_DIR_IN)) ∧ is_Some (iv_policies v !! (sn, op, XFRM_DIR_FWD)))).
    - apply acts_wrapping. eapply acts_weaken; [by apply DeleteXFRMPolicy_acts|]. intros v Hv. apply Hv. cbn. by rewrite decide_True.
    - eapply (acts_bind _ (λ v, is_Some (iv_policies v !! (sn, op, XFRM_DIR_FWD)))).
      + apply acts_wrapping. eapply acts_weaken; [by apply DeleteXFRMPolicy_acts|]. by intros v [? _].
      + apply acts_wrapping. by apply DeleteXFRMPolicy_acts.
      + intros v [_ Hf]. cbn [iv_policies on_policies]. by rewrite lookup_delete_ne.
    - intros v Hv. cbn [iv_policies on_policies]. rewrite !lookup_delete_ne by done. split; apply Hv; cbn; by rewrite decide_True. }
  done.
Qed.

Lemma LoadSharedKey_acts c owner password : viciUri c = mkUri "unix" "/var/run/charon.vici" →
  acts (λ _, True) (LoadSharedKey c (S fuel) owner password) (Some tt) (on_keys (<[owner := password]>)).
Proof.
  intros Hc. eapply acts_eq.
  { eapply after_acts; [by apply Dial_acts|]. apply (closing_acts _ _ tt (on_keys (<[owner := password]>))). intros w Hw _. cbn [load_shared].
    destruct (law_LoadShared password owner w Hw) as (w' & E & V & U). exists w'. by rewrite (run_try_Ret _ _ _ _ _ E). }
  done.
Qed.
Lemma LoadConnection_acts c o l req encap : viciUri c = mkUri "unix" "/var/run/charon.vici" →
  acts (λ _, True) (LoadConnection c (S fuel) o l req encap) (Some tt) (on_conns (<[formatConnectionName o l := ike_conf c o l req encap]>)).
Proof.
  intros Hc. eapply acts_eq.
  { eapply after_acts; [by apply Dial_acts|]. apply (closing_acts _ _ tt (on_conns (<[formatConnectionName o l := ike_conf c o l req encap]>))). intros w Hw _.
    destruct (law_LoadConn (formatConnectionName o l) (ike_conf c o l req encap) w Hw) as (w' & E & V & U). exists w'. by rewrite (M_bind_Ret _ _ _ _ _ E). }
  done.
Qed.
Lemma UnloadConnection_acts c o l : viciUri c = mkUri "unix" "/var/run/charon.vici" →
  acts (λ v, is_Some (iv_conns v !! formatConnectionName o l)) (UnloadCharonConnection c (S fuel) o l) (Some tt) (on_conns (delete (formatConnectionName o l))).
Proof.
  intros Hc. eapply acts_eq.
  { eapply (after_acts_pre _ (λ v, is_Some (iv_conns v !! formatConnectionName o l))); [eapply acts_weaken; [by apply Dial_acts|done]| |done].
    apply (closing_acts _ _ tt (on_conns (delete (formatConnectionName o l)))). intros w Hw Hv.
    destruct (law_UnloadConn _ w Hw Hv) as (w' & E & V & U). exists w'. by rewrite (M_bind_Ret _ _ _ _ _ E). }
  done.
Qed.

Lemma ipsec_event_run t l w : concerns l = true → ipsec_event n (S fuel) (mkEvent t l) w =
  match t with
  | EventAdded =>
      (_ ← try (AddIPSECPolicies n l defaultReqID);
       then_logged (LoadSharedKey (in_iked n) (S fuel) (IP4_String (PublicIP (Attrs l))) (in_password n))
         (then_logged (LoadConnection (in_iked n) (S fuel) own l (fmt_int defaultReqID) (format_bool (in_UDPEncap n))) (mret (Some tt)))) w
  | EventRemoved =>
      (then_logged (UnloadCharonConnection (in_iked n) (S fuel) own l)
         (_ ← try (DeleteIPSECPolicies (IP4Net_ToIPNet (Subnet own)) (IP4Net_ToIPNet (Subnet l)) (IP4_ToIP ownPub) (IP4_ToIP (PublicIP (Attrs l))) defaultReqID);
          mret (Some tt))) w
  end.
Proof.
  intros [Hb He]%andb_true_iff. unfold ipsec_event. cbn [Event_Lease Event_Type]. rewrite Hb. cbn [negb]. apply negb_true_iff in He. rewrite He. by destruct t.
Qed.

Lemma added_acts l : ipsec_ready → subnet_ok (Subnet l) → IP4_ok (PublicIP (Attrs l)) → concerns l = true →
  acts (λ _, True) (ipsec_event n (S fuel) (mkEvent EventAdded l)) (Some tt) (joined_ip (Subnet l) (PublicIP (Attrs l))).
Proof.
  intros (Ho & Hop & Hu) Hl Hlp Hc. eapply acts_eq.
  { eapply acts_run; [by intros w; apply ipsec_event_run|]. eapply (acts_bind _ (λ _, True)); [by apply acts_try, AddIPSECPolicies_acts| |done].
    eapply (logged_acts _ (λ _, True)); [by apply LoadSharedKey_acts| |done].
    eapply (logged_acts _ (λ _, True)); [by apply LoadConnection_acts|apply acts_ret|done]. }
  done.
Qed.

Lemma removed_acts l : ipsec_ready → subnet_ok (Subnet l) → concerns l = true →
  acts (λ v, is_Some (iv_conns v !! conn_name (Subnet l) (PublicIP (Attrs l))) ∧ ∀ k, ours k = Some (Subnet l) → is_Some (iv_policies v !! k))
    (ipsec_event n (S fuel) (mkEvent EventRemoved l)) (Some tt) (left_ip (Subnet l) (PublicIP (Attrs l))).
Proof.
  intros (Ho & _ & Hu) Hl Hc. eapply acts_eq.
  { eapply acts_run; [by intros w; apply ipsec_event_run|].
    eapply (logged_acts _ (λ v, ∀ k, ours k = Some (Subnet l) → is_Some (iv_policies v !! k)));
      [eapply acts_weaken; [by apply UnloadConnection_acts|by intros v [Hv _]]| |by intros v [_ Hv]].
    eapply (acts_bind _ (λ _, True)); [by apply acts_try, DeleteIPSECPolicies_acts|apply acts_ret|done]. }
  done.
Qed.

Lemma event_reflects D e w : ipsec_ready → steady D e → charon_up w → reflects_ip D (view_of w) →
  ∃ w', ipsec_event n (S fuel) e w = (Ret (Some tt), w') ∧ charon_up w' ∧ reflects_ip (ip_apply D e) (view_of w').
Proof.
  intros Hr Hst Hw Hv. destruct e as [t l]. unfold steady, ip_apply in *. cbn [Event_Lease Event_Type] in *.
  destruct (concerns l) eqn:Hc.
  - destruct (Hst eq_refl) as (Hl & Hp & Hd). pose proof Hr as (Ho & Hpo & _).
    assert (Subnet l ≠ Subnet own) as Hne.
    { apply andb_true_iff in Hc as [_ Hc]. intros F. rewrite F in Hc. unfold IP4Net_Equal in Hc. by rewrite !Z.eqb_refl in Hc. }
    destruct t.
    + destruct (added_acts l Hr Hl Hp Hc w Hw I) as (w' & E & U & V). exists w'. split; [done|]. split; [done|]. rewrite V. by apply join_reflects.
    + destruct (removed_acts l Hr Hl Hc w Hw) as (w' & E & U & V).
      * split; [|intros k Hk; rewrite (ri_policies _ _ Hv k _ Hk), Hd; by eexists]. rewrite (ri_conns _ _ Hv) by (done || apply Hl). rewrite decide_True by done. by eexists.
      * exists w'. split; [done|]. split; [done|]. rewrite V. by apply leave_reflects.
  - exists w. split; [|done]. unfold ipsec_event. cbn [Event_Lease Event_Type]. unfold concerns in Hc. destruct (bool_decide _); cbn [negb andb] in *; [|done].
    apply negb_false_iff in Hc. by rewrite Hc.
Qed.
End tracking.

(** C9: On a host where charon answers and that starts without policies and connections between the subnet of the
    node and others, after any sequence of lease events in which a host keeps its address, the
    policies between the subnet of the node and the others are exactly the three of every lease that is left, each
    through the tunnel to its address; the connections between them are exactly those of these leases; and every
    remote host has the shared key.  No call waits. *)
Theorem ipsec_tracks_leases W `{IpsecLaws W} n fuel evts (w : W) :
  ipsec_ready n → charon_up w → all_steady n ∅ evts → reflects_ip n ∅ (view_of w) →
  ∃ w', ipsec_handleSubnetEvents n (S fuel) evts w = (Ret (Some tt), w') ∧ charon_up w' ∧ reflects_ip n (foldl (ip_apply n) ∅ evts) (view_of w').
Proof.
  intros Hr. generalize (∅ : ip_hosts). revert w. induction evts as [|e evts IH]; intros w D Hw Hst Hv; [by exists w|].
  destruct Hst as [He Hst]. destruct (event_reflects n fuel D e w Hr He Hw Hv) as (w1 & E & U1 & V1).
  cbn [ipsec_handleSubnetEvents foldl]. unfold after at 1. rewrite (M_bind_Ret _ _ _ _ _ E). by apply IH.
Qed.

(** A host that is announced with another address leaves the connection to its old address behind: it is still
    loaded after the lease is removed, when no policy is left. *)
Theorem moved_host_leaves_connection W `{IpsecLaws W} n fuel l l' (w : W) :
  ipsec_ready n → charon_up w → reflects_ip n ∅ (view_of w) → concerns n l = true → concerns n l' = true →
  subnet_ok (Subnet l) → Subnet l' = Subnet l → IP4_ok (PublicIP (Attrs l)) → IP4_ok (PublicIP (Attrs l')) → PublicIP (Attrs l') ≠ PublicIP (Attrs l) →
  ∃ w', ipsec_handleSubnetEvents n (S fuel) [mkEvent EventAdded l; mkEvent EventAdded l'; mkEvent EventRemoved l'] w = (Ret (Some tt), w') ∧
    (∀ k, ours n k = Some (Subnet l) → iv_policies (view_of w') !! k = None) ∧
    iv_conns (view_of w') !! conn_name n (Subnet l) (PublicIP (Attrs l)) = Some (conn_conf n (Subnet l) (PublicIP (Attrs l))).
Proof.
  intros Hr Hw Hv Hc Hc' Hl Hs Hp Hp' Hne.
  assert (conn_name n (Subnet l) (PublicIP (Attrs l')) ≠ conn_name n (Subnet l) (PublicIP (Attrs l))) as Hnm.
  { intros E. destruct Hr as ([Ho _] & Hpo & _), Hl as [Hl _].
    by destruct (connection_name_inj (in_SubnetLease n) (host_lease (Subnet l) (PublicIP (Attrs l'))) (host_lease (Subnet l) (PublicIP (Attrs l)))). }
  destruct (added_acts n fuel l Hr Hl Hp Hc w Hw I) as (w1 & E1 & U1 & V1).
  destruct (added_acts n fuel l' Hr ltac:(by rewrite Hs) Hp' Hc' w1 U1 I) as (w2 & E2 & U2 & V2). rewrite Hs, V1 in V2.
  destruct (removed_acts n fuel l' Hr ltac:(by rewrite Hs) Hc' w2 U2) as (w3 & E3 & U3 & V3).
  { rewrite Hs, V2. split; [cbn [iv_conns joined_ip on_conns]; rewrite lookup_insert_eq; by eexists|]. intros k Hk.
    change (iv_policies (joined_ip _ _ _ ?v)) with (iv_policies (three n (Subnet l) (PublicIP (Attrs l')) put_policy v)).
    rewrite three_lookup by (intros; unfold put_policy; by rewrite ?lookup_insert_eq, ?lookup_insert_ne). rewrite decide_True by (by rewrite Hk).
    unfold put_policy. rewrite lookup_insert_eq. by eexists. }
  rewrite Hs, V2 in V3. exists w3. split; [|split].
  - cbn [ipsec_handleSubnetEvents]. unfold after. rewrite (M_bind_Ret _ _ _ _ _ E1), (M_bind_Ret _ _ _ _ _ E2). by rewrite (M_bind_Ret _ _ _ _ _ E3).
  - intros k Hk. rewrite V3. unfold left_ip. rewrite three_lookup by (intros; unfold drop_policy; by rewrite ?lookup_delete_eq, ?lookup_delete_ne).
    rewrite decide_True by (by rewrite Hk). unfold drop_policy. by rewrite lookup_delete_eq.
  - rewrite V3. change (iv_conns (left_ip _ _ _ ?v)) with (delete (conn_name n (Subnet l) (PublicIP (Attrs l'))) (iv_conns v)).
    rewrite lookup_delete_ne by done.
    change (iv_conns (joined_ip ?n ?s ?a ?v)) with (<[conn_name n s a := conn_conf n s a]> (iv_conns v)).
    rewrite lookup_insert_ne by done.
    change (iv_conns (joined_ip ?n ?s ?a ?v)) with (<[conn_name n s a := conn_conf n s a]> (iv_conns v)). by rewrite lookup_insert_eq.
Qed.

(** Loading a shared key does not look at the context: as long as charon takes connections and refuses the key, as it
    does when the process is being shut down, the call goes on for ever. *)
Theorem LoadSharedKey_outlives_shutdown W `{Charon W} charon (stuck : W → Prop) owner password fuel (w : W) :
  (∀ w, stuck w → ∃ w', Dial (uri_network (viciUri charon)) (uri_address (viciUri charon)) w = (Ret tt, w') ∧ stuck w') →
  (∀ k w, stuck w → ∃ e w', LoadShared k w = (Err e, w') ∧ stuck w') →
  (∀ w, stuck w → ∃ w', Sleep_second w = (Ret tt, w') ∧ stuck w') →
  stuck w → ∃ w', LoadSharedKey charon fuel owner password w = (Ret None, w') ∧ stuck w'.
Proof.
  intros Hd Hl Hs Hw. unfold LoadSharedKey, after. destruct fuel as [|fuel]; [by exists w|]. cbn [getClient].
  destruct (Hd w Hw) as (w1 & E1 & Hw1). rewrite run_bind, (run_try_Ret _ _ _ _ _ E1). run. unfold closing.
  assert (∀ f w, stuck w → ∃ w', load_shared f (mkViciKey "IKE" password [owner]) w = (Ret None, w') ∧ stuck w') as Hload.
  { clear - Hl Hs. induction f as [|f IH]; intros w Hw; [by exists w|]. cbn [load_shared].
    destruct (Hl (mkViciKey "IKE" password [owner]) w Hw) as (e & w1 & E1 & Hw1). destruct (Hs w1 Hw1) as (w2 & E2 & Hw2).
    rewrite run_try_cases, E1. rewrite (M_bind_Ret _ _ _ _ _ E2). by apply IH. }
  destruct (Hload (S fuel) w1 Hw1) as (w2 & E2 & Hw2). exists w2. by rewrite (run_try_Ret _ _ _ _ _ E2).
Qed.

(** ** In memory *)

(** Policies, connections and keys in memory, under a charon that answers. *)
Definition mem_key (p : XfrmPolicy) : option (IP4Net * IP4Net * XfrmDir) :=
  match FromIPNet (pol_Src p), FromIPNet (pol_Dst p) with Ret s, Ret d => Some (s, d, pol_Dir p) | _, _ => None end.
Definition mem_tunnel (p : XfrmPolicy) : option (IP4 * IP4 * Z) :=
  match pol_Tmpls p with
  | [t] => match FromIP (tmpl_Src t), FromIP (tmpl_Dst t) with Ret a, Ret b => Some (a, b, tmpl_Reqid t) | _, _ => None end
  | _ => None
  end.
Definition mem_put (fresh : bool) (p : XfrmPolicy) : M iview unit := λ v,
  match mem_key p, mem_tunnel p with
  | Some k, Some t =>
      if bool_decide (iv_policies v !! k = None) then if fresh then (Ret tt, on_policies (<[k := t]>) v) else (Err (Sentinel ENOENT), v)
      else if fresh then (Err (Errorf "file exists"), v) else (Ret tt, on_policies (<[k := t]>) v)
  | _, _ => (Err (Errorf "invalid argument"), v)
  end.

#[global] Instance mem_Xfrm : Xfrm iview := {
  XfrmPolicyGet p v :=
    match mem_key p with
    | Some k => match iv_policies v !! k with Some _ => (Ret p, v) | None => (Err (Sentinel ENOENT), v) end
    | None => (Err (Errorf "invalid argument"), v)
    end;
  XfrmPolicyAdd := mem_put true;
  XfrmPolicyUpdate := mem_put false;
  XfrmPolicyDel p v :=
    match mem_key p with
    | Some k => match iv_policies v !! k with Some _ => (Ret tt, on_policies (delete k) v) | None => (Err (Sentinel ENOENT), v) end
    | None => (Err (Errorf "invalid argument"), v)
    end
}.

#[global] Instance mem_Charon : Charon iview := {
  exec_LookPath path := mret path;
  charon_Start _ := mret tt;
  charon_SIGTERM := mret tt;
  charon_Wait := mret tt;
  Dial _ _ := mret tt;
  ctx_Done := mret false;
  Sleep_second := mret tt;
  LoadShared k v := (Ret tt, on_keys (λ m, foldr (λ owner, <[owner := key_Data k]>) m (key_Owners k)) v);
  LoadConn name c v := (Ret tt, on_conns (<[name := c]>) v);
  UnloadConn name v := (Ret tt, on_conns (delete name) v);
  vici_Close := mret tt
}.

Lemma FromIPNet_ToIPNet n : IP4Net_ok n → FromIPNet (IP4Net_ToIPNet n) = Ret n.
Proof.
  intros [Hip Hp]. unfold FromIPNet, IP4Net_ToIPNet. cbn [IPNet_Mask IPNet_IP]. rewrite CIDRMask_Size by (auto || lia). rewrite (FromIP_ToIP _ Hip). by destruct n.
Qed.

Lemma mem_key_policy s d dir t : subnet_ok s → subnet_ok d → mem_key (policy4 s d dir t) = Some (s, d, dir).
Proof. intros [Hs _] [Hd _]. unfold mem_key, policy4, xfrm_policy. cbn [pol_Src pol_Dst pol_Dir]. by rewrite !FromIPNet_ToIPNet. Qed.

Lemma mem_tunnel_policy s d dir t : IP4_ok t.1.1 → IP4_ok t.1.2 → mem_tunnel (policy4 s d dir t) = Some t.
Proof. intros Ha Hb. unfold mem_tunnel, policy4, xfrm_policy. cbn [pol_Tmpls tmpl_Src tmpl_Dst tmpl_Reqid]. rewrite !FromIP_ToIP by done. by destruct t as [[??]?]. Qed.

#[global, refine] Instance mem_IpsecLaws : IpsecLaws iview := { view_of v := v; charon_up _ := True }.
Proof.
  - intros s d dir t v Hs Hd. cbn [XfrmPolicyGet mem_Xfrm]. rewrite mem_key_policy by done.
    destruct (iv_policies v !! _); (eexists; split; [done|]); [done|]. exists (Sentinel ENOENT). done.
  - intros s d dir t v Hs Hd Ha Hb E. cbn [XfrmPolicyAdd mem_Xfrm]. unfold mem_put. rewrite mem_key_policy, mem_tunnel_policy by done.
    rewrite bool_decide_true by done. by eexists.
  - intros s d dir t v Hs Hd Ha Hb [x E]. cbn [XfrmPolicyUpdate mem_Xfrm]. unfold mem_put. rewrite mem_key_policy, mem_tunnel_policy by done.
    rewrite bool_decide_false by (by rewrite E). by eexists.
  - intros s d dir t v Hs Hd [x E]. cbn [XfrmPolicyDel mem_Xfrm]. rewrite mem_key_policy by done. rewrite E. by eexists.
  - done.
  - intros. by eexists.
  - intros. by eexists.
  - intros. by eexists.
  - intros v. exists (Ret tt), v. done.
Defined.

(** A node at 10.0.0.1 with 10.1.15.0/24, and two hosts. *)
Definition ipsec_host (sn pub : Z) : Lease := host_lease (mkIP4Net sn 24) pub.
Definition ipsec_node : ipsec_network :=
  mkIpsecNetwork (ipsec_host 167841536 167772161) (mkExternalInterface 1500 2 "eth0" [] [] (IP4_ToIP 167772161) []) "secret" false (mkCharon (mkUri "unix" "/var/run/charon.vici") defaultESPProposal).
Definition ipsec_events : list Event :=
  [mkEvent EventAdded (ipsec_host 167842048 167772162); mkEvent EventAdded (ipsec_host 167842304 167772163); mkEvent EventRemoved (ipsec_host 167842048 167772162)].
Definition no_tunnels : iview := mkIview ∅ ∅ ∅.

Lemma ipsec_node_ready : ipsec_ready ipsec_node.
Proof. repeat split; cbn; lia. Qed.

Lemma no_tunnels_reflects : reflects_ip ipsec_node ∅ no_tunnels.
Proof.
  split.
  - intros k sn _. unfold no_tunnels. cbn [iv_policies]. by rewrite !lookup_empty.
  - intros sn pub _ _. by rewrite decide_False.
  - done.
  - done.
Qed.

Lemma ipsec_tracks_leases_witness :
  ∃ w', ipsec_handleSubnetEvents ipsec_node 1 ipsec_events no_tunnels = (Ret (Some tt), w') ∧ charon_up w' ∧
    reflects_ip ipsec_node (foldl (ip_apply ipsec_node) ∅ ipsec_events) (view_of w').
Proof.
  apply (ipsec_tracks_leases iview ipsec_node 0 ipsec_events no_tunnels).
  - apply ipsec_node_ready.
  - exact I.
  - repeat split; cbn; try lia; try (intros pub E; vm_compute in E; congruence); vm_compute; reflexivity.
  - apply no_tunnels_reflects.
Defined.
