(* ===== verification/Extension.v ===== *)
(** * [pkg/backend/extension]: a backend made of the administrator's commands

    [extension.go] and [extension_network.go], over the processes that the daemon can start ([Commands]); the laws of
    a host that runs them, what the commands get, and what the daemon does with commands written as
    [Documentation/extension.md] shows them.  A write to the standard input of a command that has not been started
    yet waits for ever when the pipe is full: such a call returns [None]. *)

From Stdlib Require Import ZArith Lia Ascii.
From stdpp Require Import base strings list gmap numbers.
From S2P Require Import Prelude GoStrings GoJson GoJsonFacts GoNet GoNetFacts Ip4 Ip6 Lease Config IpTables Backend LeaseText MeshApi Ipsec.

Local Open Scope Z_scope.

(** ** References to variables: [os.Expand] *)

Definition isShellSpecialVar (c : ascii) : bool := existsb (Ascii.eqb c) ["*"; "#"; "$"; "@"; "!"; "?"; "-"]%char || is_digit c.
Definition isAlphaNum (c : ascii) : bool :=
  let n := char_code c in Ascii.eqb c "_" || is_digit c || ((97 <=? n) && (n <=? 122)) || ((65 <=? n) && (n <=? 90)).

(** The name after a dollar and how many characters it takes. *)
Definition braced_name (s : string) : string * nat :=
  let '(name, rest) := span (λ c, negb (Ascii.eqb c "}")) s in
  if decide (rest = "") then ("", 1%nat)
  else if decide (name = "") then ("", 2%nat)
  else (name, 2 + String.length name)%nat.
Definition getShellName (s : string) : string * nat :=
  match s with
  | String "{" s' =>
      match s' with
      | String c (String "}" _) => if isShellSpecialVar c then (String c "", 3%nat) else braced_name s'
      | _ => braced_name s'
      end
  | String c _ => if isShellSpecialVar c then (String c "", 1%nat) else let name := (span isAlphaNum s).1 in (name, String.length name)
  | EmptyString => ("", 0%nat)
  end.

(** [skip] counts the characters of a name that has been read. *)
Fixpoint expand_from (skip : nat) (mapping : string → string) (s : string) : string :=
  match s with
  | EmptyString => ""
  | String c rest =>
      match skip with
      | S skip => expand_from skip mapping rest
      | O =>
          if Ascii.eqb c "$" && negb (bool_decide (rest = "")) then
            let '(name, w) := getShellName rest in
            (if decide (name = "") then (if (0 <? w)%nat then "" else "$") else mapping name) +:+ expand_from w mapping rest
          else String c (expand_from 0 mapping rest)
      end
  end.
Definition Expand (s : string) (mapping : string → string) : string := expand_from 0 mapping s.

(** ** Commands: [extension.go] *)

(** [strings.Cut(e, "=")]. *)
Definition cut_variable (e : string) : string * string :=
  let '(k, rest) := span (λ c, negb (Ascii.eqb c "=")) e in
  (k, match rest with String _ v => v | EmptyString => "" end).

(** A command that is run: its environment, its name and arguments, its standard input. *)
Record command := mkCommand { cmd_Env : list string; cmd_Name : string; cmd_Args : list string; cmd_Stdin : string }.

Class Commands (W : Type) := {
  os_Environ : M W (list string);
  (** how many bytes a pipe takes before it is read *)
  pipe_capacity : nat;
  exec_StdinPipe : M W unit;
  CombinedOutput : command → M W (string * option error)
}.

Section commands.
Context {W : Type} `{Commands W}.

Definition env_map (l : list string) (m : gmap string string) : gmap string string :=
  foldl (λ m e, <[(cut_variable e).1 := (cut_variable e).2]> m) m l.
Definition buildEnvMap (env : list string) : M W (gmap string string) :=
  environ ← os_Environ; mret (env_map env (env_map environ ∅)).

Definition expandVars (envMap : gmap string string) (args : list string) : list string :=
  (λ a, Expand a (λ key, default "" (envMap !! key))) <$> args.

(** The output of a command, which may have failed; [None] when the input does not fit in the pipe. *)
Definition runCmd (env : list string) (stdin : string) (name : string) (arg : list string) : M W (option (string * option error)) :=
  envMap ← buildEnvMap env;
  match expandVars envMap (name :: arg) with
  | [] => panic
  | name :: arg =>
      environ ← os_Environ;
      r ← try exec_StdinPipe;
      match r with
      | inr err => mret (Some ("", Some err))
      | inl _ =>
          let input := stdin +:+ newline in
          if (String.length input <=? pipe_capacity)%nat then
            output ← CombinedOutput (mkCommand (environ ++ env) name arg input);
            mret (Some (TrimSpace output.1, output.2))
          else mret None
      end
  end.

(** [strings.Fields] and the call with [args[0], args[1:]...]. *)
Definition run_line (env : list string) (stdin line : string) : M W (option (string * option error)) :=
  match Fields line with
  | [] => panic
  | name :: arg => runCmd env stdin name arg
  end.

Definition run_or_fail (env : list string) (line : string) : M W (option string) :=
  after (run_line env "" line) (λ r,
    match r with
    | (_, Some err) => throw (Wrapf "failed to run command: %s Err: %v Output: %s" err)
    | (cmd_output, None) => mret (Some cmd_output)
    end).
End commands.

Record ExtensionConfig := mkExtensionConfig { PreStartupCommand : string; PostStartupCommand : string; SubnetAddCommand : string; SubnetRemoveCommand : string }.
Definition ExtensionConfig_field (c : ExtensionConfig) (key raw : string) (v : json) : outcome ExtensionConfig :=
  let '(mkExtensionConfig pre post add remove) := c in
  if field_name "PreStartupCommand" key then s ← decode_string pre v; Ret (mkExtensionConfig s post add remove)
  else if field_name "PostStartupCommand" key then s ← decode_string post v; Ret (mkExtensionConfig pre s add remove)
  else if field_name "SubnetAddCommand" key then s ← decode_string add v; Ret (mkExtensionConfig pre post s remove)
  else if field_name "SubnetRemoveCommand" key then s ← decode_string remove v; Ret (mkExtensionConfig pre post add s)
  else Ret c.

Definition extension_config (backend : string) : outcome ExtensionConfig :=
  let cfg := mkExtensionConfig "" "" "" "" in
  if (0 <? String.length backend)%nat then
    match Unmarshal_struct ExtensionConfig_field backend cfg with
    | Err err => Err (Wrapf "error decoding backend config: %v" err)
    | r => r
    end
  else Ret cfg.

(** [network] of [extension_network.go]; its commands are the configuration. *)
Record extension_network := mkExtensionNetwork { xn_extIface : ExternalInterface; xn_lease : Lease; xn_commands : ExtensionConfig }.

Definition extension_attrs (extIface : ExternalInterface) (data : string) : outcome LeaseAttrs :=
  pub ← (if decide (IfaceAddr extIface = []) then Ret 0 else FromIP (IfaceAddr extIface));
  pub6 ← (if decide (IfaceV6Addr extIface = []) then Ret None else FromIP6 (IfaceV6Addr extIface));
  Ret (mkLeaseAttrs pub pub6 "extension" (Some data) None).

(** [%s] of a [*ip.IP6]. *)
Definition Sprintf_IP6_ptr (p : option IP6) : string := match p with None => "<nil>" | Some v => Sprintf_s (IP6_String v) end.

(** The text that [json.Marshal] writes for a string: a byte that is not part of a UTF-8
    sequence is written as U+FFFD. *)
Definition in_bytes (lo hi : Z) (c : ascii) : bool := (lo <=? char_code c) && (char_code c <=? hi).
Definition utf8_pair (a b : ascii) : bool := in_bytes 194 223 a && in_bytes 128 191 b.
Definition utf8_triple (a b c : ascii) : bool :=
  in_bytes 224 239 a && in_bytes (if char_code a =? 224 then 160 else 128) (if char_code a =? 237 then 159 else 191) b && in_bytes 128 191 c.
Definition utf8_quad (a b c d : ascii) : bool :=
  in_bytes 240 244 a && in_bytes (if char_code a =? 240 then 144 else 128) (if char_code a =? 244 then 143 else 191) b &&
  in_bytes 128 191 c && in_bytes 128 191 d.
Fixpoint to_valid_utf8 (s : string) : string :=
  match s with
  | "" => ""
  | String a s1 =>
      let bad := utf8 65533 +:+ to_valid_utf8 s1 in
      if char_code a <? 128 then String a (to_valid_utf8 s1)
      else match s1 with
           | "" => bad
           | String b s2 =>
               if utf8_pair a b then String a (String b (to_valid_utf8 s2))
               else match s2 with
                    | "" => bad
                    | String c s3 =>
                        if utf8_triple a b c then String a (String b (String c (to_valid_utf8 s3)))
                        else match s3 with
                             | "" => bad
                             | String d s4 => if utf8_quad a b c d then String a (String b (String c (String d (to_valid_utf8 s4)))) else bad
                             end
                    end
           end
  end.
Definition Marshal_string (s : string) : string := json_string (to_valid_utf8 s).

Definition extension_RegisterNetwork {W} `{Commands W, LeaseSource W} (extIface : ExternalInterface) (config : Config) : M W (option extension_network) :=
  cfg ← lift (extension_config (cfg_Backend config));
  after (if decide (PreStartupCommand cfg = "") then mret (Some "")
         else after (run_or_fail [] (PreStartupCommand cfg)) (λ cmd_output, mret (Some (Marshal_string cmd_output)))) (λ data,
    attrs ← lift (extension_attrs extIface data);
    l ← acquire attrs;
    let n := mkExtensionNetwork extIface l cfg in
    if decide (PostStartupCommand cfg = "") then mret (Some n)
    else after (run_or_fail ["NETWORK=" +:+ IP4Net_String (cfg_Network config);
                             "SUBNET=" +:+ IP4Net_String (Subnet l);
                             "IPV6SUBNET=" +:+ Sprintf_s (IP6Net_String (IPv6Subnet l));
                             "PUBLIC_IP=" +:+ IP4_String (PublicIP attrs);
                             "PUBLIC_IPV6=" +:+ Sprintf_IP6_ptr (PublicIPv6 attrs)] (PostStartupCommand cfg)) (λ _, mret (Some n))).

(** ** Lease events: [extension_network.go] *)

Definition extension_MTU (n : extension_network) : Z := Iface_MTU (xn_extIface n).

Definition backend_data (raw : RawMessage) : outcome string :=
  match raw with
  | None | Some "" => Ret ""
  | Some data => Unmarshal (decode_string "") data
  end.

Definition event_line (cfg : ExtensionConfig) (t : EventType) : string :=
  match t with EventAdded => SubnetAddCommand cfg | EventRemoved => SubnetRemoveCommand cfg end.
Definition event_vars (l : Lease) : list string :=
  ["SUBNET=" +:+ IP4Net_String (Subnet l); "PUBLIC_IP=" +:+ IP4_String (PublicIP (Attrs l))].

Section events.
Context {W : Type} `{Commands W}.

Definition extension_event (n : extension_network) (evt : Event) : M W (option unit) :=
  let l := Event_Lease evt in
  let line := event_line (xn_commands n) (Event_Type evt) in
  if negb (bool_decide (BackendType (Attrs l) = "extension")) then mret (Some tt)
  else if decide (line = "") then mret (Some tt)
  else
    data ← try (lift (backend_data (BackendData (Attrs l))));
    match data with
    | inr _ => mret (Some tt)
    | inl stdin => after (run_line (event_vars l) stdin line) (λ _, mret (Some tt))
    end.

Fixpoint extension_handleSubnetEvents (n : extension_network) (batch : list Event) : M W (option unit) :=
  match batch with
  | [] => mret (Some tt)
  | evt :: batch => after (extension_event n evt) (λ _, extension_handleSubnetEvents n batch)
  end.

(** The batches until the channel is closed. *)
Definition extension_Run (n : extension_network) (batches : list (list Event)) : M W (option unit) :=
  extension_handleSubnetEvents n (concat batches).
End events.
