(* ===== verification/ExtensionFacts.v ===== *)
(** * Facts of [Extension.v]: what the commands get

    Expansion inserts values literally; the commands of the leases run in order, each with the subnet and the address of
    its host and with what that host's start-up command printed; and what becomes of commands written as the
    documentation shows them. *)

From Stdlib Require Import ZArith Lia Ascii.
From stdpp Require Import base strings list gmap numbers.
From S2P Require Import Prelude GoStrings GoJson GoJsonFacts GoNet GoNetFacts Ip4 Ip6 Lease Config IpTables Backend BackendFacts Registry LeaseText MeshApi Ipsec Extension.

Local Open Scope Z_scope.

(** ** The pieces of an argument *)

(** A character, a reference with its source, or a reference that cannot be read. *)
Inductive piece := Lit (c : ascii) | Var (name source : string) | Bad (source : string).
Definition piece_source (p : piece) : string := match p with Lit c => String c "" | Var _ s | Bad s => s end.
Definition piece_text (f : string → string) (p : piece) : string := match p with Lit c => String c "" | Var name _ => f name | Bad _ => "" end.
Definition join_pieces (l : list string) : string := foldr (λ a b, a +:+ b) "" l.

Fixpoint take_chars (n : nat) (s : string) : string :=
  match n, s with S n, String c s => String c (take_chars n s) | _, _ => "" end.
Fixpoint drop_chars (n : nat) (s : string) : string :=
  match n, s with S n, String _ s => drop_chars n s | _, _ => s end.
Lemma take_drop_chars n s : take_chars n s +:+ drop_chars n s = s.
Proof. revert s. induction n as [|n IH]; intros [|c s]; try done. cbn [take_chars drop_chars]. by rewrite str_app_cons, IH. Qed.

Fixpoint pieces (skip : nat) (s : string) : list piece :=
  match s with
  | EmptyString => []
  | String c rest =>
      match skip with
      | S skip => pieces skip rest
      | O =>
          if Ascii.eqb c "$" && negb (bool_decide (rest = "")) then
            let '(name, w) := getShellName rest in
            (if decide (name = "") then (if (0 <? w)%nat then Bad (String c (take_chars w rest)) else Lit c) else Var name (String c (take_chars w rest))) :: pieces w rest
          else Lit c :: pieces 0 rest
      end
  end.

Lemma join_pieces_cons a l : join_pieces (a :: l) = a +:+ join_pieces l.
Proof. done. Qed.

Lemma expand_pieces f s : ∀ skip, expand_from skip f s = join_pieces (piece_text f <$> pieces skip s).
Proof.
  induction s as [|c s IH]; intros [|skip]; try done; cbn [expand_from pieces]; [|apply IH].
  destruct (Ascii.eqb_spec c "$") as [->|Hc]; cbn [andb]; [case_bool_decide; cbn [negb]|]; [by rewrite fmap_cons, join_pieces_cons, IH| |by rewrite fmap_cons, join_pieces_cons, IH].
  destruct (getShellName s) as [name w]. rewrite fmap_cons, join_pieces_cons, IH. f_equal. case_decide; [|done]. by destruct (0 <? w)%nat.
Qed.

Lemma pieces_source s : ∀ skip, join_pieces (piece_source <$> pieces skip s) = drop_chars skip s.
Proof.
  induction s as [|c s IH]; intros [|skip]; try done; cbn [pieces]; [|apply IH].
  destruct (Ascii.eqb c "$" && _).
  - destruct (getShellName s) as [name w] eqn:E. rewrite fmap_cons, join_pieces_cons, IH.
    assert (∀ n, String c (take_chars n s) +:+ drop_chars n s = String c s) as Ht by (intros k; by rewrite str_app_cons, take_drop_chars).
    case_decide; [|by cbn [piece_source]]. destruct w as [|w]; [|by cbn [piece_source Nat.ltb Nat.leb]]. done.
  - by rewrite fmap_cons, join_pieces_cons, IH.
Qed.

(** An argument is cut into pieces before any value is known, and the pieces make up the argument: a value is inserted
    as it is, whatever references, blanks or quotes are in it. *)
Theorem Expand_literal s : ∃ ps, (∀ f, Expand s f = join_pieces (piece_text f <$> ps)) ∧ join_pieces (piece_source <$> ps) = s.
Proof. exists (pieces 0 s). split; [intros f; apply expand_pieces|apply pieces_source]. Qed.

(** ** The environment *)

Lemma cut_variable_app k v : str_all (λ c, negb (Ascii.eqb c "=")) k = true → cut_variable (k +:+ "=" +:+ v) = (k, v).
Proof.
  intros Hk. unfold cut_variable. assert (span (λ c, negb (Ascii.eqb c "=")) (k +:+ "=" +:+ v) = (k, "=" +:+ v)) as ->; [|done].
  induction k as [|c k IH]; [done|]. cbn in Hk. apply andb_true_iff in Hk as [Hc Hk]. rewrite str_app_cons. cbn [span]. by rewrite Hc, (IH Hk).
Qed.

Definition lookup_var (env : list string) (key : string) : string := default "" (env_map env ∅ !! key).

Lemma env_map_app a b m : env_map (a ++ b) m = env_map b (env_map a m).
Proof. apply foldl_app. Qed.

Lemma lookup_SUBNET env l : lookup_var (env ++ event_vars l) "SUBNET" = IP4Net_String (Subnet l).
Proof.
  unfold lookup_var, event_vars. rewrite env_map_app. cbn [env_map foldl]. change ("SUBNET=" +:+ ?x) with ("SUBNET" +:+ "=" +:+ x). change ("PUBLIC_IP=" +:+ ?x) with ("PUBLIC_IP" +:+ "=" +:+ x).
  rewrite !cut_variable_app by done. cbn [fst snd]. rewrite lookup_insert_ne by done. by rewrite lookup_insert_eq.
Qed.
Lemma lookup_PUBLIC_IP env l : lookup_var (env ++ event_vars l) "PUBLIC_IP" = IP4_String (PublicIP (Attrs l)).
Proof.
  unfold lookup_var, event_vars. rewrite env_map_app. cbn [env_map foldl]. change ("PUBLIC_IP=" +:+ ?x) with ("PUBLIC_IP" +:+ "=" +:+ x).
  rewrite (cut_variable_app "PUBLIC_IP") by done. cbn [fst snd]. by rewrite lookup_insert_eq.
Qed.
Lemma lookup_other env l key : key ≠ "SUBNET" → key ≠ "PUBLIC_IP" → lookup_var (env ++ event_vars l) key = lookup_var env key.
Proof.
  intros H1 H2. unfold lookup_var, event_vars. rewrite env_map_app. cbn [env_map foldl]. change ("SUBNET=" +:+ ?x) with ("SUBNET" +:+ "=" +:+ x). change ("PUBLIC_IP=" +:+ ?x) with ("PUBLIC_IP" +:+ "=" +:+ x).
  rewrite !cut_variable_app by done. cbn [fst snd]. by rewrite !lookup_insert_ne.
Qed.

(** ** A host that runs commands *)

Class CommandLaws (W : Type) `{Commands W} := {
  environ_of : W → list string;
  ran : W → list command;
  law_Environ w : os_Environ w = (Ret (environ_of w), w);
  law_StdinPipe w : exec_StdinPipe w = (Ret tt, w);
  law_capacity : (0 < pipe_capacity)%nat;
  (** a command runs, and succeeds or fails *)
  output_of : command → W → string * option error;
  law_CombinedOutput c w : ∃ w', CombinedOutput c w = (Ret (output_of c w), w') ∧ ran w' = ran w ++ [c] ∧ environ_of w' = environ_of w
}.

(** What an event has the node run. *)
Definition event_command (n : extension_network) (environ : list string) (e : Event) : option command :=
  let l := Event_Lease e in
  let env := environ ++ event_vars l in
  match bool_decide (BackendType (Attrs l) = "extension"), Fields (event_line (xn_commands n) (Event_Type e)), backend_data (BackendData (Attrs l)) with
  | true, name :: args, Ret stdin =>
      Some (mkCommand env (Expand name (lookup_var env)) ((λ a, Expand a (lookup_var env)) <$> args) (stdin +:+ newline))
  | _, _, _ => None
  end.

(** A command line that is empty or has a name. *)
Definition has_name (line : string) : Prop := line = "" ∨ Fields line ≠ [].
(** The data of the host fits in a pipe. *)
Definition data_fits (capacity : nat) (e : Event) : Prop := ∀ s, backend_data (BackendData (Attrs (Event_Lease e))) = Ret s → (String.length s < capacity)%nat.

Lemma backend_data_no_panic raw : backend_data raw ≠ Panic.
Proof. destruct raw as [[|c s]|]; try done. cbn. unfold Unmarshal. destruct (parse_json _) as [[r []]|]; done. Qed.

Section running.
Context {W : Type} `{CommandLaws W}.

Lemma run_line_runs env stdin line name args w : Fields line = name :: args → (String.length stdin < pipe_capacity)%nat →
  let look := lookup_var (environ_of w ++ env) in
  let c := mkCommand (environ_of w ++ env) (Expand name look) ((λ a, Expand a look) <$> args) (stdin +:+ newline) in
  ∃ w', run_line env stdin line w = (Ret (Some (TrimSpace (output_of c w).1, (output_of c w).2)), w') ∧ ran w' = ran w ++ [c] ∧ environ_of w' = environ_of w.
Proof.
  intros Hl Hs. cbn zeta. unfold run_line. rewrite Hl. unfold runCmd, buildEnvMap. rewrite run_bind, (M_bind_Ret _ _ _ _ _ (law_Environ w)). run.
  unfold expandVars. rewrite fmap_cons. rewrite (M_bind_Ret _ _ _ _ _ (law_Environ w)), (run_try_Ret _ _ _ _ _ (law_StdinPipe w)).
  rewrite (proj2 (Nat.leb_le _ _)) by (rewrite str_length_app; cbn; lia).
  rewrite <- env_map_app. fold (lookup_var (environ_of w ++ env)).
  destruct (law_CombinedOutput (mkCommand (environ_of w ++ env) (Expand name (lookup_var (environ_of w ++ env)))
    ((λ a, Expand a (lookup_var (environ_of w ++ env))) <$> args) (stdin +:+ newline)) w) as (w' & E & Hr & He).
  exists w'. rewrite (M_bind_Ret _ _ _ _ _ E). done.
Qed.

Lemma event_runs n e w : has_name (event_line (xn_commands n) (Event_Type e)) → data_fits pipe_capacity e →
  ∃ w', extension_event n e w = (Ret (Some tt), w') ∧ ran w' = ran w ++ option_list (event_command n (environ_of w) e) ∧ environ_of w' = environ_of w.
Proof.
  intros Hn Hf. unfold extension_event, event_command. destruct (bool_decide _); cbn [negb]; [|by exists w; rewrite app_nil_r].
  destruct (decide (event_line _ _ = "")) as [->|Hne]; [by exists w; cbn; rewrite app_nil_r|]. destruct Hn as [Hn|Hn]; [done|].
  destruct (Fields _) as [|name args] eqn:El; [done|]. rewrite run_try_cases. unfold lift.
  pose proof (backend_data_no_panic (BackendData (Attrs (Event_Lease e)))) as Hp.
  destruct (backend_data _) as [stdin|err|] eqn:Ed; [| |done].
  - destruct (run_line_runs (event_vars (Event_Lease e)) stdin _ name args w El (Hf _ Ed)) as (w' & E & R). exists w'. unfold after.
    rewrite (M_bind_Ret _ _ _ _ _ E). done.
  - exists w. by rewrite app_nil_r.
Qed.
End running.

(** The commands of a batch run in the order of its events, one for each event of this backend, each with the subnet and the
    address of its host in its environment and in its arguments, and with the data of its host as its input,
    whether the ones before it succeeded or not. *)
Theorem extension_runs_in_order W `{CommandLaws W} n evts (w : W) :
  has_name (SubnetAddCommand (xn_commands n)) → has_name (SubnetRemoveCommand (xn_commands n)) → Forall (data_fits pipe_capacity) evts →
  ∃ w', extension_handleSubnetEvents n evts w = (Ret (Some tt), w') ∧ ran w' = ran w ++ omap (event_command n (environ_of w)) evts ∧ environ_of w' = environ_of w.
Proof.
  intros Ha Hr. revert w. induction evts as [|e evts IH]; intros w Hf; [by exists w; rewrite app_nil_r|]. apply Forall_cons_1 in Hf as [He Hf].
  destruct (event_runs n e w) as (w1 & E1 & R1 & V1); [by destruct (Event_Type e)|done|]. destruct (IH w1 Hf) as (w2 & E2 & R2 & V2).
  exists w2. cbn [extension_handleSubnetEvents]. unfold after. rewrite (M_bind_Ret _ _ _ _ _ E1). split; [done|]. split; [|congruence].
  rewrite R2, R1, V1, <- app_assoc. f_equal. cbn [omap list_omap]. by destruct (event_command n (environ_of w) e).
Qed.

(** ** What a host announces *)

Lemma backend_data_string s : backend_data (Some (json_string s)) = Ret s.
Proof.
  unfold backend_data. destruct (json_string s) as [|c t] eqn:E; [done|]. rewrite <- E. unfold Unmarshal. by rewrite (parse_json_text _ _ (json_any_string s)).
Qed.

Lemma after_Some {W A B} (m : M W (option A)) (k : A → M W (option B)) w b w' :
  after m k w = (Ret (Some b), w') → ∃ a w1, m w = (Ret (Some a), w1) ∧ k a w1 = (Ret (Some b), w').
Proof. unfold after. intros E. apply M_bind_inv in E as (r & w1 & E1 & E). destruct r as [a|]; [by exists a, w1|done]. Qed.

Lemma extension_attrs_printable extIface out attrs : Forall is_byte (IfaceAddr extIface) → (∀ v, PublicIPv6 attrs = Some v → IP6_ok v ∧ IP6_plain v) →
  extension_attrs extIface (json_string out) = Ret attrs → attrs_printable attrs ∧ BackendType attrs = "extension" ∧ BackendData attrs = Some (json_string out).
Proof.
  intros Hb H6 E. unfold extension_attrs in E. apply bind_inv in E as (pub & Ep & E). apply bind_inv in E as (pub6 & E6 & [= <-]). split; [|done]. split; cbn.
  - destruct (decide (IfaceAddr extIface = [])); [by injection Ep as <-|]. by apply FromIP_ok in Ep.
  - done.
  - done.
  - intros d [= <-]. eexists. apply json_any_string.
  - done.
Qed.

(** A text of ASCII characters. *)
Definition ascii_text (s : string) : bool := str_all (λ c, char_code c <? 128) s.

Lemma to_valid_ascii s : ascii_text s = true → to_valid_utf8 s = s.
Proof.
  induction s as [|a s IH]; [done|]. unfold ascii_text. cbn [str_all]. intros [Ha Hs]%andb_true_iff.
  cbn [to_valid_utf8]. rewrite Ha. by rewrite IH.
Qed.

Lemma trim_left_all P cut s : str_all P s = true → str_all P (trim_left cut s) = true.
Proof.
  induction s as [|a s IH]; [done|]. intros Hs. cbn [trim_left]. destruct (cut a); [|done]. apply IH.
  cbn [str_all] in Hs. by apply andb_true_iff in Hs as [_ ?].
Qed.

Lemma TrimSpace_ascii s : ascii_text s = true → ascii_text (TrimSpace s) = true.
Proof. intros Hs. unfold ascii_text, TrimSpace, Trim in *. rewrite str_all_rev. apply trim_left_all. rewrite str_all_rev. by apply trim_left_all. Qed.

(** C31: What the start-up command of a node prints reaches the other nodes, when it is ASCII text: the lease that the node then
    registers is stored in etcd and read back (a public IPv6 address, if there is one, must not be one of ::100:0 to
    ::ffff:ffff, which print as IPv4), and when the output, without the white space around it, is shorter than the
    capacity of a pipe, the add command of every other node runs with that output as its input, and with the public
    address of the node.  Longer output never reaches the command: see [large_data_blocks]. *)
Theorem startup_output_reaches_nodes W `{CommandLaws W, LeaseSource W} extIface config cfg n name args (w w' : W) :
  (∀ attrs w l w', sm_AcquireLease attrs w = (Ret l, w') → Attrs l = attrs) →
  Forall is_byte (IfaceAddr extIface) → (∀ v, PublicIPv6 (Attrs (xn_lease n)) = Some v → IP6_ok v ∧ IP6_plain v) →
  extension_config (cfg_Backend config) = Ret cfg → Fields (PreStartupCommand cfg) = name :: args →
  extension_RegisterNetwork extIface config w = (Ret (Some n), w') →
  let look := lookup_var (environ_of w) in
  let printed := (output_of (mkCommand (environ_of w) (Expand name look) ((λ a, Expand a look) <$> args) newline) w).1 in
  let out := TrimSpace printed in
  ascii_text printed = true →
  ∃ s attrs', LeaseAttrs_Marshal (Attrs (xn_lease n)) = Ret s ∧ LeaseAttrs_Unmarshal s = Ret attrs' ∧
    ∀ other l (v : W), Attrs l = attrs' → Fields (SubnetAddCommand (xn_commands other)) ≠ [] → (String.length out < pipe_capacity)%nat →
      ∃ v' c, extension_event other (mkEvent EventAdded l) v = (Ret (Some tt), v') ∧ ran v' = ran v ++ [c] ∧
        cmd_Stdin c = out +:+ newline ∧ lookup_var (cmd_Env c) "PUBLIC_IP" = IP4_String (PublicIP (Attrs (xn_lease n))).
Proof.
  intros Hsm Hb H6 Hcfg Hpre E look printed0 out Hasc. unfold extension_RegisterNetwork in E. apply M_bind_inv in E as (cfg' & w1 & E1 & E).
  unfold lift in E1. rewrite Hcfg in E1. injection E1 as <- <-. rewrite decide_False in E by (intros F; by rewrite F in Hpre).
  apply after_Some in E as (data & w2 & Ed & E). apply after_Some in Ed as (printed & w3 & Er & [= <- <-]).
  assert (printed = out) as ->.
  { unfold run_or_fail in Er. apply after_Some in Er as (r & w4 & El & Er).
    destruct (run_line_runs [] "" _ name args w Hpre law_capacity) as (w5 & El' & _). rewrite app_nil_r in El'. rewrite El in El'. injection El' as -> ->.
    destruct (output_of _ w).2 in Er; [done|]. by injection Er as <-. }
  unfold Marshal_string in E. rewrite to_valid_ascii in E by (by apply TrimSpace_ascii).
  apply M_bind_inv in E as (attrs & w4 & Ea & E). unfold lift in Ea. injection Ea as Ea <-. apply M_bind_inv in E as (l & w5 & El & E).
  assert (xn_lease n = l) as Hn.
  { case_decide; [by injection E as <-|]. by apply after_Some in E as (? & ? & _ & [= <-]). }
  assert (Attrs l = attrs) as Hl.
  { unfold acquire in El. rewrite run_try_cases in El. destruct (sm_AcquireLease attrs w3) as [[l'|e|] w6] eqn:Es; [|by destruct (context_error e)|done].
    injection El as <- <-. by apply (Hsm _ _ _ _ Es). }
  rewrite Hn, Hl in *. destruct (extension_attrs_printable extIface out attrs Hb H6 Ea) as (Hpr & Ht & Hd).
  destruct (attrs_roundtrip attrs Hpr) as (s & Em & Eu). exists s, attrs. split; [done|]. split; [done|].
  intros other l' v Hl' Ha Hfit.
  destruct (event_runs other (mkEvent EventAdded l') v) as (v' & Ev & Rv & _); [by right| |].
  { intros t. cbn [Event_Lease]. rewrite Hl', Hd, backend_data_string. by intros [= <-]. }
  unfold event_command in Rv. cbn [Event_Lease Event_Type event_line] in Rv. rewrite Hl', Ht, Hd, backend_data_string, bool_decide_true in Rv by done.
  destruct (Fields (SubnetAddCommand _)) as [|name' args']; [done|]. cbn [option_list] in Rv.
  eexists v', _. split; [done|]. split; [exact Rv|]. split; [done|]. cbn [cmd_Env]. rewrite lookup_PUBLIC_IP. by rewrite Hl'.
Qed.

(** ** Commands as the documentation writes them *)

Definition quoted_ref (name : string) : string := String dquote ("$" +:+ name +:+ String dquote "").
(** [SubnetAddCommand] of the example for host-gw in [Documentation/extension.md]. *)
Definition hostgw_add : string := "ip route add " +:+ quoted_ref "SUBNET" +:+ " via " +:+ quoted_ref "PUBLIC_IP".

(** The documentation says that commands are run through the shell; they are not, so the quotes of its example become part of the
    arguments: the command is asked for a route to a subnet in quotes. *)
Theorem documented_quotes_are_kept extIface own environ l pre post remove : BackendType (Attrs l) = "extension" → BackendData (Attrs l) = None →
  event_command (mkExtensionNetwork extIface own (mkExtensionConfig pre post hostgw_add remove)) environ (mkEvent EventAdded l) =
  Some (mkCommand (environ ++ event_vars l) "ip"
    ["route"; "add"; String dquote (IP4Net_String (Subnet l) +:+ String dquote ""); "via"; String dquote (IP4_String (PublicIP (Attrs l)) +:+ String dquote "")] newline).
Proof.
  intros Ht Hd. unfold event_command. cbn [Event_Lease Event_Type xn_commands event_line SubnetAddCommand]. rewrite Ht, Hd, bool_decide_true by done.
  change (Fields hostgw_add) with ["ip"; "route"; "add"; quoted_ref "SUBNET"; "via"; quoted_ref "PUBLIC_IP"]. cbn [backend_data].
  f_equal. rewrite <- (lookup_SUBNET environ l), <- (lookup_PUBLIC_IP environ l). done.
Qed.

(** The documentation names [IPV6SUBNET] and [PUBLIC_IPV6] among the variables of the add and remove commands; they have the
    values of the daemon's own environment, whatever the lease. *)
Theorem ipv6_variables_not_set environ l key : key = "IPV6SUBNET" ∨ key = "PUBLIC_IPV6" → lookup_var (environ ++ event_vars l) key = lookup_var environ key.
Proof. intros [->| ->]; by apply lookup_other. Qed.

(** A command of white space makes the daemon panic at the first lease. *)
Theorem blank_command_panics W `{Commands W} n l (w : W) : BackendType (Attrs l) = "extension" → BackendData (Attrs l) = None →
  SubnetAddCommand (xn_commands n) ≠ "" → Fields (SubnetAddCommand (xn_commands n)) = [] → (extension_event n (mkEvent EventAdded l) w).1 = Panic.
Proof.
  intros Ht Hd Hne Hf. unfold extension_event. cbn [Event_Lease Event_Type event_line]. rewrite Ht, Hd, bool_decide_true, decide_False by done. cbn [negb backend_data].
  rewrite run_try_cases. unfold lift, after, run_line. by rewrite Hf.
Qed.

(** Data of a host that does not fit in a pipe stops the daemon for good: the input is written before the command that
    would read it is started. *)
Theorem large_data_blocks W `{CommandLaws W} n l data (w : W) : BackendType (Attrs l) = "extension" → BackendData (Attrs l) = Some (json_string data) →
  Fields (SubnetAddCommand (xn_commands n)) ≠ [] → (pipe_capacity <= String.length data)%nat → ∀ evts,
  extension_handleSubnetEvents n (mkEvent EventAdded l :: evts) w = (Ret None, w).
Proof.
  intros Ht Hd Hf Hc evts. cbn [extension_handleSubnetEvents]. unfold after at 1.
  assert (extension_event n (mkEvent EventAdded l) w = (Ret None, w)) as E; [|by rewrite (M_bind_Ret _ _ _ _ _ E)].
  unfold extension_event. cbn [Event_Lease Event_Type event_line]. rewrite Ht, Hd, bool_decide_true by done. cbn [negb]. rewrite decide_False by (intros F; by rewrite F in Hf).
  rewrite run_try_cases. unfold lift. rewrite backend_data_string. unfold after, run_line. destruct (Fields _) as [|name args]; [done|].
  unfold runCmd, buildEnvMap. rewrite run_bind, run_bind, (M_bind_Ret _ _ _ _ _ (law_Environ w)). run. unfold expandVars. rewrite fmap_cons.
  rewrite run_bind, (M_bind_Ret _ _ _ _ _ (law_Environ w)), run_bind, (run_try_Ret _ _ _ _ _ (law_StdinPipe w)).
  rewrite (proj2 (Nat.leb_gt _ _)) by (rewrite str_length_app; cbn; lia). done.
Qed.

(** ** In memory *)

(** A host on which every command prints the same line; it grants every lease. *)
Record shell := mkShell { sh_environ : list string; sh_ran : list command }.
#[global] Instance shell_Commands : Commands shell := {
  os_Environ w := (Ret (sh_environ w), w);
  pipe_capacity := 512;
  exec_StdinPipe := mret tt;
  CombinedOutput c w := (Ret (" 0e:a2:13:6c:22:01" +:+ newline, None), mkShell (sh_environ w) (sh_ran w ++ [c]))
}.
#[global, refine] Instance shell_CommandLaws : CommandLaws shell := { environ_of := sh_environ; ran := sh_ran; output_of _ _ := (" 0e:a2:13:6c:22:01" +:+ newline, None) }.
Proof.
  - done.
  - done.
  - cbn. lia.
  - intros c w. by eexists.
Defined.
#[global] Instance shell_LeaseSource : LeaseSource shell := {
  sm_AcquireLease attrs := mret (mkLease true false (mkIP4Net 168099840 24) (mkIP6Net None 0) attrs 0 0)
}.

Definition quote_char : string := String dquote "".
Definition extension_backend : string :=
  "{" +:+ quote_char +:+ "Type" +:+ quote_char +:+ ":" +:+ quote_char +:+ "extension" +:+ quote_char +:+ "," +:+
  quote_char +:+ "PreStartupCommand" +:+ quote_char +:+ ":" +:+ quote_char +:+ "cat /sys/class/net/${DEV}/address" +:+ quote_char +:+ "}".
Definition extension_node : extension_network :=
  mkExtensionNetwork sample_iface (mkLease true false (mkIP4Net 168099840 24) (mkIP6Net None 0) (mkLeaseAttrs 3232235777 None "extension" None None) 0 0)
    (mkExtensionConfig "" "" "ip route add $SUBNET via $PUBLIC_IP" "ip route del ${SUBNET}").
Definition extension_lease (sn pub : Z) : Lease := mkLease true false (mkIP4Net sn 24) (mkIP6Net None 0) (mkLeaseAttrs pub None "extension" None None) 0 0.
Definition idle_shell : shell := mkShell ["PATH=/bin"; "DEV=eth0"] [].

Lemma extension_runs_in_order_witness : ∃ w',
  extension_handleSubnetEvents extension_node [mkEvent EventAdded (extension_lease 168100096 3232235778); mkEvent EventRemoved (extension_lease 168100096 3232235778)] idle_shell =
    (Ret (Some tt), w') ∧
  ((λ c, cmd_Name c :: cmd_Args c) <$> sh_ran w') = [["ip"; "route"; "add"; "10.5.1.0/24"; "via"; "192.168.1.2"]; ["ip"; "route"; "del"; "10.5.1.0/24"]].
Proof.
  destruct (extension_runs_in_order shell extension_node
    [mkEvent EventAdded (extension_lease 168100096 3232235778); mkEvent EventRemoved (extension_lease 168100096 3232235778)] idle_shell) as (w' & E & R & _).
  - right. vm_compute. discriminate.
  - right. vm_compute. discriminate.
  - by repeat (apply list.Forall_cons; split); [intros s [= <-]; cbn; lia..|apply list.Forall_nil].
  - exists w'. split; [exact E|]. change (sh_ran w') with (ran w'). rewrite R. vm_compute. reflexivity.
Defined.

Lemma startup_output_reaches_nodes_witness : ∃ n w' s attrs', extension_RegisterNetwork sample_iface (set_Backend extension_backend zero_config) idle_shell = (Ret (Some n), w') ∧
  LeaseAttrs_Marshal (Attrs (xn_lease n)) = Ret s ∧ LeaseAttrs_Unmarshal s = Ret attrs' ∧
  ∃ v' c, extension_event extension_node (mkEvent EventAdded (mkLease true false (mkIP4Net 168099840 24) (mkIP6Net None 0) attrs' 0 0)) idle_shell = (Ret (Some tt), v') ∧
    sh_ran v' = [c] ∧ cmd_Stdin c = "0e:a2:13:6c:22:01" +:+ newline.
Proof.
  assert (∃ n w', extension_RegisterNetwork sample_iface (set_Backend extension_backend zero_config) idle_shell = (Ret (Some n), w') ∧ PublicIPv6 (Attrs (xn_lease n)) = None)
    as (n & w' & E & E6) by (eexists _, _; split; vm_compute; reflexivity).
  destruct (startup_output_reaches_nodes shell sample_iface (set_Backend extension_backend zero_config) (mkExtensionConfig "cat /sys/class/net/${DEV}/address" "" "" "")
    n "cat" ["/sys/class/net/${DEV}/address"] idle_shell w') as (s & attrs' & Em & Eu & Hrun).
  - intros attrs w l w1 [= <- _]. done.
  - apply ToIP_bytes. unfold IP4_ok. lia.
  - intros v Ev. rewrite E6 in Ev. discriminate Ev.
  - vm_compute. reflexivity.
  - vm_compute. reflexivity.
  - exact E.
  - vm_compute. reflexivity.
  - exists n, w', s, attrs'. split; [exact E|]. split; [exact Em|]. split; [exact Eu|].
    destruct (Hrun extension_node (mkLease true false (mkIP4Net 168099840 24) (mkIP6Net None 0) attrs' 0 0) idle_shell eq_refl) as (v' & c & Ev & Rv & Hc & _).
    + vm_compute. discriminate.
    + vm_compute. lia.
    + exists v', c. split; [exact Ev|]. split; [exact Rv|exact Hc].
Defined.
