(* ===== verification/Udp.v ===== *)
(** * [pkg/backend/udp]: packets in UDP, forwarded by a proxy in C

    The backend in Go ([udp_amd64.go], [udp_network_amd64.go], [cproxy_amd64.go]) over a host ([UdpHost]), and of
    the proxy that it runs ([proxy_amd64.c]) the table of routes, the commands it takes and the time to live of a
    packet.  Both run on amd64: words are stored with the low byte first. *)

From Stdlib Require Import ZArith Lia Ascii.
From stdpp Require Import base strings list gmap numbers.
From S2P Require Import Prelude GoStrings GoJson GoNet GoNetFacts Ip4 Ip6 Lease Config Backend Vxlan.

Local Open Scope Z_scope.

(** ** The proxy: [proxy_amd64.c] *)

(** [htonl] and [htons] on a machine with the low byte first. *)
Definition htonl (x : Z) : Z := IP4_NetworkOrder true x.
Definition htons (x : Z) : Z := Z.lor (Z.land (Z.shiftl x 8) 65280) (Z.land (Z.shiftr x 8) 255).

Record ip_net := mkIpNet { ipn_ip : Z; ipn_mask : Z }.
#[global] Instance ip_net_eq_dec : EqDecision ip_net.
Proof. solve_decision. Defined.

(** A next hop is an address and a port, in the order of the network. *)
Record route_entry := mkRouteEntry { re_dst : ip_net; next_hop : Z * Z }.

(** [routes] up to [routes_cnt], with [routes_alloc]. *)
Record route_array := mkRoutes { routes : list route_entry; routes_alloc : nat }.
Definition no_routes : route_array := mkRoutes [] 0.

Definition uint32_max : Z := 4294967295.
(** The shift of C has no meaning by the width of its operand or more. *)
Definition netmask (prefix_len : Z) : outcome Z :=
  if (0 <? prefix_len) && (prefix_len <=? 32) then Ret (htonl (wrap 32 (Z.shiftl uint32_max (32 - prefix_len)))) else Panic.

Definition net_contains (net : ip_net) (ip : Z) : bool := ipn_ip net =? Z.land ip (ipn_mask net).

Definition ENOMEM : Z := 12.
Definition ENOENT_errno : Z := 2.

Definition is_route_to (dst : ip_net) (e : route_entry) : Prop := re_dst e = dst.
#[global] Instance is_route_to_dec dst e : Decision (is_route_to dst e).
Proof. unfold is_route_to. apply _. Defined.
Definition routes_ip (ip : Z) (e : route_entry) : Prop := net_contains (re_dst e) ip = true.
#[global] Instance routes_ip_dec ip e : Decision (routes_ip ip e).
Proof. unfold routes_ip. apply _. Defined.

(** [grows n] says whether [realloc] finds room for [n] entries. *)
Definition set_route (grows : nat → bool) (dst : ip_net) (hop : Z * Z) (t : route_array) : Z * route_array :=
  match list_find (is_route_to dst) (routes t) with
  | Some (i, e) => (0, mkRoutes (<[i := mkRouteEntry (re_dst e) hop]> (routes t)) (routes_alloc t))
  | None =>
      let new_alloc := (if decide (routes_alloc t = 0) then 8 else 2 * routes_alloc t)%nat in
      if decide (routes_alloc t = length (routes t)) then
        if grows new_alloc then (0, mkRoutes (routes t ++ [mkRouteEntry dst hop]) new_alloc) else (ENOMEM, t)
      else (0, mkRoutes (routes t ++ [mkRouteEntry dst hop]) (routes_alloc t))
  end.

(** The last entry takes the place of the one that is deleted. *)
Definition del_route (dst : ip_net) (t : route_array) : Z * route_array :=
  match list_find (is_route_to dst) (routes t), list.last (routes t) with
  | Some (i, _), Some e => (0, mkRoutes (take (length (routes t) - 1) (<[i := e]> (routes t))) (routes_alloc t))
  | _, _ => (ENOENT_errno, t)
  end.

(** The entry that is found changes places with the first. *)
Definition proxy_find_route (dst : Z) (t : route_array) : option (Z * Z) * route_array :=
  match list_find (routes_ip dst) (routes t) with
  | Some (i, e) =>
      (Some (next_hop e),
       match routes t with
       | first :: _ => mkRoutes (<[0%nat := e]> (<[i := first]> (routes t))) (routes_alloc t)
       | [] => t
       end)
  | None => (None, t)
  end.

Definition CMD_SET_ROUTE : Z := 1.
Definition CMD_DEL_ROUTE : Z := 2.
Definition CMD_STOP : Z := 3.
Record proxy_command := mkProxyCommand { pc_cmd : Z; dest_net : Z; dest_net_len : Z; next_hop_ip : Z; next_hop_port : Z }.

Record proxy := mkProxy { px_routes : route_array; exit_flag : bool }.

Definition process_cmd (grows : nat → bool) (cmd : proxy_command) (p : proxy) : outcome proxy :=
  if pc_cmd cmd =? CMD_SET_ROUTE then
    mask ← netmask (dest_net_len cmd);
    let ipn := mkIpNet (Z.land (dest_net cmd) mask) mask in
    Ret (mkProxy (set_route grows ipn (next_hop_ip cmd, htons (next_hop_port cmd)) (px_routes p)).2 (exit_flag p))
  else if pc_cmd cmd =? CMD_DEL_ROUTE then
    mask ← netmask (dest_net_len cmd);
    Ret (mkProxy (del_route (mkIpNet (Z.land (dest_net cmd) mask) mask) (px_routes p)).2 (exit_flag p))
  else if pc_cmd cmd =? CMD_STOP then Ret (mkProxy (px_routes p) true)
  else Ret p.

(** What the loop of [run_proxy] meets: a command, or a packet of the tunnel to a destination. *)
Inductive proxy_input := Command (cmd : proxy_command) | Packet (daddr : Z).
Definition proxy_step (grows : nat → bool) (p : proxy) (i : proxy_input) : outcome proxy :=
  match i with
  | Command cmd => process_cmd grows cmd p
  | Packet daddr => Ret (mkProxy (proxy_find_route daddr (px_routes p)).2 (exit_flag p))
  end.
Fixpoint run_proxy (grows : nat → bool) (p : proxy) (inputs : list proxy_input) : outcome proxy :=
  match inputs with
  | [] => Ret p
  | i :: inputs => if exit_flag p then Ret p else p ← proxy_step grows p i; run_proxy grows p inputs
  end.

(** The time to live and the checksum of a header, as they are loaded; [None] when the packet is dropped. *)
Definition decrement_ttl (ttl check : Z) : option (Z * Z) :=
  let ttl := wrap 8 (ttl - 1) in
  if ttl =? 0 then None
  else Some (ttl, if htons (65535 - 256) <=? check then wrap 16 (check + (htons 256 + 1)) else wrap 16 (check + htons 256)).

(** ** Commands to the proxy: [cproxy_amd64.go] *)

(** Conversions to C's [short] and [int]. *)
Definition to_short (x : Z) : Z := let y := wrap 16 x in if y <? 2 ^ 15 then y else y - 2 ^ 16.
Definition to_int (x : Z) : Z := let y := wrap 32 x in if y <? 2 ^ 31 then y else y - 2 ^ 32.

Class UdpHost (W : Type) := {
  udp_OpenTun : string → M W string;
  udp_LinkByName : string → M W Z;
  udp_AddrAdd : Z → IPNet → M W unit;
  udp_LinkSetMTU : Z → Z → M W unit;
  udp_LinkSetUp : Z → M W unit;
  udp_RouteAdd : Z → IPNet → M W unit;
  udp_ListenUDP : IP → Z → M W unit;
  udp_Socketpair : M W unit;
  ctl_Write : proxy_command → M W unit;
  tun_Close : M W unit;
  conn_Close : M W unit;
  ctl_Close : M W unit;
  ctl2_Close : M W unit
}.

Section commands.
Context {W : Type} `{UdpHost W}.

Definition writeCommand (cmd : proxy_command) : M W unit := _ ← try (ctl_Write cmd); mret tt.

Definition set_command (dst : IP4Net) (nextHopIP : IP4) (nextHopPort : Z) : proxy_command :=
  mkProxyCommand CMD_SET_ROUTE (IP4_NetworkOrder true (IP4Net_IP dst)) (to_int (IP4Net_PrefixLen dst)) (IP4_NetworkOrder true nextHopIP) (to_short nextHopPort).
Definition remove_command (dst : IP4Net) : proxy_command :=
  mkProxyCommand CMD_DEL_ROUTE (IP4_NetworkOrder true (IP4Net_IP dst)) (to_int (IP4Net_PrefixLen dst)) 0 0.
Definition stop_command : proxy_command := mkProxyCommand CMD_STOP 0 0 0 0.

Definition setRoute (dst : IP4Net) (nextHopIP : IP4) (nextHopPort : Z) : M W unit := writeCommand (set_command dst nextHopIP nextHopPort).
Definition removeRoute (dst : IP4Net) : M W unit := writeCommand (remove_command dst).
Definition stopProxy : M W unit := writeCommand stop_command.
End commands.

(** ** The network: [udp_network_amd64.go] *)

Definition udp_encapOverhead : Z := 28.

Record udp_network := mkUdpNetwork { un_SubnetLease : Lease; un_ExtIface : ExternalInterface; un_port : Z; un_tunNet : IP4Net }.

Definition udp_MTU (n : udp_network) : Z := Iface_MTU (un_ExtIface n) - udp_encapOverhead.

Section network.
Context {W : Type} `{UdpHost W}.

Definition configureIface (ifname : string) (ipn : IP4Net) (mtu : Z) : M W unit :=
  r ← try (udp_LinkByName ifname);
  match r with
  | inr _ => throw (Errorf "failed to lookup interface %v")
  | inl iface =>
      wrapping "failed to add IP address %v to %v: %v" (udp_AddrAdd iface (IP4Net_ToIPNet (mkIP4Net (IP4Net_IP ipn) 32)));;
      wrapping "failed to set MTU for %v: %v" (udp_LinkSetMTU iface mtu);;
      wrapping "failed to set interface %v to UP state: %v" (udp_LinkSetUp iface);;
      added ← try (udp_RouteAdd iface (IP4Net_ToIPNet (IP4Net_Network ipn)));
      match added with
      | inr err => if bool_decide (err = EEXIST) then mret tt else throw (Wrapf "failed to add route (%v -> %v): %v" err)
      | inl _ => mret tt
      end
  end.

Definition initTun (n : udp_network) : M W unit :=
  tunName ← wrapping "failed to open TUN device: %v" (udp_OpenTun "flannel%d");
  configureIface tunName (un_tunNet n) (udp_MTU n).

Definition udp_newNetwork (extIface : ExternalInterface) (port : Z) (nw : IP4Net) (l : Lease) : M W udp_network :=
  let n := mkUdpNetwork l extIface port nw in
  initTun n;;
  wrapping "failed to start listening on UDP socket: %v" (udp_ListenUDP (IfaceAddr extIface) port);;
  wrapping "failed to create control socket: %v" udp_Socketpair;;
  mret n.

Fixpoint processSubnetEvents (n : udp_network) (batch : list Event) : M W unit :=
  match batch with
  | [] => mret tt
  | evt :: batch =>
      let l := Event_Lease evt in
      (match Event_Type evt with
       | EventAdded => setRoute (Subnet l) (PublicIP (Attrs l)) (un_port n)
       | EventRemoved => removeRoute (Subnet l)
       end);;
      processSubnetEvents n batch
  end.

(** The batches until the channel is closed, then the end of the proxy, for which [Run] waits, and of its files. *)
Definition udp_Run (n : udp_network) (batches : list (list Event)) : M W unit :=
  processSubnetEvents n (concat batches);;
  stopProxy;;
  _ ← try tun_Close;
  _ ← try conn_Close;
  _ ← try ctl_Close;
  _ ← try ctl2_Close;
  mret tt.
End network.

(** ** Registration: [udp_amd64.go] *)

Definition defaultPort : Z := 8285.
Definition udp_config_field (port : Z) (key raw : string) (v : json) : outcome Z :=
  if field_name "Port" key then decode_int 64 port v else Ret port.
Definition udp_config (backend : string) : outcome Z :=
  if (0 <? String.length backend)%nat then
    match Unmarshal_struct udp_config_field backend defaultPort with
    | Err err => Err (Wrapf "error decoding UDP backend config: %v" err)
    | r => r
    end
  else Ret defaultPort.

Definition udp_RegisterNetwork {W} `{UdpHost W, LeaseSource W} (extIface : ExternalInterface) (config : Config) : M W udp_network :=
  port ← lift (udp_config (cfg_Backend config));
  pub ← lift (FromIP (ExtAddr extIface));
  l ← acquire (mkLeaseAttrs pub None "" None None);
  udp_newNetwork extIface port (mkIP4Net (IP4Net_IP (Subnet l)) (IP4Net_PrefixLen (cfg_Network config))) l.
