(* ===== verification/UdpFacts.v ===== *)
(** * Facts of [Udp.v]: the table of the proxy follows the leases

    The proxy reorders its table with every packet and every deletion; up to that order it holds one entry
    for each lease, and a packet finds the lease that its destination is in. *)

From Stdlib Require Import ZArith Lia Ascii.
From stdpp Require Import base strings list gmap numbers.
From S2P Require Import Prelude GoStrings GoJson GoNet GoNetFacts Ip4 Ip6 Lease Config Backend BackendFacts Vxlan VxlanFacts Udp.

Local Open Scope Z_scope.

(** ** The order of the network *)

Lemma octet_bit x k j i : 0 <= k → 0 <= j → j + 8 <= 32 → 0 <= i →
  Z.testbit (shl 32 (u8 (Z.shiftr x k)) j) i = (j <=? i) && (i <? j + 8) && Z.testbit x (i - j + k).
Proof.
  intros Hk Hj Hj8 Hi. unfold shl. rewrite (proj2 (Z.ltb_lt j 32)) by lia. unfold wrap.
  destruct (Z.ltb_spec i 32) as [H32|H32]; [rewrite Z.mod_pow2_bits_low by lia|].
  - rewrite Z.shiftl_spec by lia. destruct (Z.leb_spec j i); cbn [andb]; [|by rewrite Z.testbit_neg_r by lia].
    destruct (Z.ltb_spec i (j + 8)); cbn [andb]; [rewrite Z.mod_pow2_bits_low by lia|by rewrite Z.mod_pow2_bits_high by lia].
    by rewrite Z.shiftr_spec by lia.
  - rewrite Z.mod_pow2_bits_high by lia. rewrite (proj2 (Z.ltb_ge i (j + 8))) by lia. by rewrite andb_false_r.
Qed.

(** The bit that comes to a place when the bytes are turned round. *)
Definition swapped (i : Z) : Z := if i <? 8 then i + 24 else if i <? 16 then i + 8 else if i <? 24 then i - 8 else i - 24.

Lemma htonl_bit x i : 0 <= i → Z.testbit (htonl x) i = if i <? 32 then Z.testbit x (swapped i) else false.
Proof.
  intros Hi. unfold htonl, IP4_NetworkOrder, IP4_Octets. rewrite !Z.lor_spec.
  assert (Z.testbit (u8 (Z.shiftr x 24)) i = (i <? 8) && Z.testbit x (i + 24)) as ->.
  { unfold wrap. destruct (Z.ltb_spec i 8); [rewrite Z.mod_pow2_bits_low by lia|by rewrite Z.mod_pow2_bits_high by lia]. by rewrite Z.shiftr_spec by lia. }
  rewrite (octet_bit x 16 8), (octet_bit x 8 16) by lia.
  pose proof (octet_bit x 0 24 i ltac:(lia) ltac:(lia) ltac:(lia) Hi) as E. rewrite Z.shiftr_0_r in E. rewrite E.
  unfold swapped. destruct (Z.ltb_spec i 8), (Z.leb_spec 8 i), (Z.ltb_spec i 16), (Z.ltb_spec i (8 + 8)), (Z.leb_spec 16 i), (Z.ltb_spec i (16 + 8)), (Z.leb_spec 24 i),
    (Z.ltb_spec i 24), (Z.ltb_spec i (24 + 8)), (Z.ltb_spec i 32); try lia; cbn [andb orb]; rewrite ?orb_false_r; try done; f_equal; lia.
Qed.

Lemma swapped_range i : 0 <= i < 32 → 0 <= swapped i < 32.
Proof. unfold swapped. destruct (Z.ltb_spec i 8), (Z.ltb_spec i 16), (Z.ltb_spec i 24); lia. Qed.
Lemma swapped_swapped i : 0 <= i < 32 → swapped (swapped i) = i.
Proof. unfold swapped. intros Hi. repeat match goal with |- context [?a <? ?b] => destruct (Z.ltb_spec a b) end; lia. Qed.

Lemma htonl_land x y : Z.land (htonl x) (htonl y) = htonl (Z.land x y).
Proof.
  apply Z.bits_inj'. intros i Hi. rewrite Z.land_spec, !htonl_bit, Z.land_spec by done. by destruct (i <? 32).
Qed.

Lemma htonl_inj x y : 0 <= x < 2 ^ 32 → 0 <= y < 2 ^ 32 → htonl x = htonl y → x = y.
Proof.
  intros Hx Hy E. apply Z.bits_inj'. intros i Hi. destruct (Z.ltb_spec i 32).
  - assert (Z.testbit (htonl x) (swapped i) = Z.testbit (htonl y) (swapped i)) as Eb by (by rewrite E).
    pose proof (swapped_range i ltac:(lia)). rewrite !htonl_bit in Eb by lia. rewrite (proj2 (Z.ltb_lt _ _)) in Eb by lia. by rewrite swapped_swapped in Eb by lia.
  - by rewrite !(testbit_above 32) by lia.
Qed.

Lemma htons_wrap x y : x mod 2 ^ 16 = y mod 2 ^ 16 → htons x = htons y.
Proof.
  intros E. assert (∀ i, 0 <= i < 16 → Z.testbit x i = Z.testbit y i) as Eb.
  { intros i Hi. rewrite <- (Z.mod_pow2_bits_low x 16 i), <- (Z.mod_pow2_bits_low y 16 i) by lia. by rewrite E. }
  unfold htons. f_equal; apply Z.bits_inj'; intros i Hi; rewrite !Z.land_spec, ?Z.shiftl_spec, ?Z.shiftr_spec by lia.
  - change 65280 with (Z.shiftl (Z.ones 8) 8). rewrite Z.shiftl_spec by lia. destruct (Z.ltb_spec i 8); [by rewrite !Z.testbit_neg_r by lia|].
    destruct (Z.ltb_spec i 16); [by rewrite Eb by lia|]. rewrite Z.ones_spec_high by lia. by rewrite !andb_false_r.
  - change 255 with (Z.ones 8). destruct (Z.ltb_spec i 8); [by rewrite Eb by lia|]. rewrite Z.ones_spec_high by lia. by rewrite !andb_false_r.
Qed.

Lemma to_short_port p : htons (to_short p) = htons p.
Proof.
  apply htons_wrap. unfold to_short, wrap. destruct (_ <? _); [by rewrite Z.mod_mod|].
  rewrite Zminus_mod, Z_mod_same_full, Z.sub_0_r, !Z.mod_mod by lia. done.
Qed.

(** ** One entry for each lease *)

(** A subnet that has a mask in C. *)
Definition routable (s : IP4Net) : Prop := subnet_ok s ∧ 0 < IP4Net_PrefixLen s.
Definition mask_of (s : IP4Net) : Z := htonl (IP4Net_Mask s).
Definition net_of (s : IP4Net) : ip_net := mkIpNet (Z.land (htonl (IP4Net_IP s)) (mask_of s)) (mask_of s).

Lemma routable_mask s : routable s → netmask (to_int (IP4Net_PrefixLen s)) = Ret (mask_of s).
Proof.
  intros [[Hs _] Hp]. pose proof Hs as [_ Hl]. assert (to_int (IP4Net_PrefixLen s) = IP4Net_PrefixLen s) as ->.
  { unfold to_int. rewrite wrap_small by lia. by rewrite (proj2 (Z.ltb_lt _ _)) by lia. }
  unfold netmask. rewrite (proj2 (Z.ltb_lt _ _)), (proj2 (Z.leb_le _ _)) by lia. cbn [andb].
  unfold mask_of, IP4Net_Mask. rewrite IP4Net_host_bits_ok by done. unfold shl. by rewrite (proj2 (Z.ltb_lt _ _)) by lia.
Qed.

Lemma IP4Net_Mask_range s : IP4Net_ok s → 0 <= IP4Net_Mask s < 2 ^ 32.
Proof. intros Hs. rewrite IP4Net_Mask_ok by done. apply high_ones_range. destruct Hs. lia. Qed.

Lemma net_of_inj s s' : routable s → routable s' → net_of s = net_of s' → s = s'.
Proof.
  intros [[Hs Ha] _] [[Hs' Ha'] _] E. pose proof (f_equal ipn_ip E) as E1. pose proof (f_equal ipn_mask E) as E2. clear E.
  unfold net_of, mask_of in E1, E2. cbn [ipn_ip ipn_mask] in E1, E2. apply htonl_inj in E2; [|by apply IP4Net_Mask_range..].
  rewrite !htonl_land in E1.
  assert (IP4Net_PrefixLen s = IP4Net_PrefixLen s') as El.
  { apply Z.le_antisymm; [apply (IP4Net_Mask_le s s')|apply (IP4Net_Mask_le s' s)]; by rewrite ?E2. }
  assert (∀ n, IP4Net_ok n → IP4Net_aligned n → Z.land (IP4Net_IP n) (IP4Net_Mask n) = IP4Net_IP n) as Hal.
  { intros n Hn Hal. rewrite IP4_land_Mask by (done || apply Hn). unfold IP4Net_aligned in Hal. pose proof (IP4Net_size_pos n Hn).
    pose proof (Z.div_mod (IP4Net_IP n) (IP4Net_size n)). nia. }
  assert (∀ a m, 0 <= a < 2 ^ 32 → 0 <= Z.land a m < 2 ^ 32) as Hrange.
  { intros a m Hra. rewrite <- (Z.mod_small a (2 ^ 32)) by lia. rewrite <- Z.land_ones, <- Z.land_assoc, (Z.land_comm _ m), Z.land_assoc, Z.land_ones by lia. apply Z.mod_pos_bound. lia. }
  apply htonl_inj in E1; [|by apply Hrange; apply Hs|by apply Hrange; apply Hs']. rewrite (Hal s Hs Ha), (Hal s' Hs' Ha') in E1.
  destruct s, s'. cbn in *. congruence.
Qed.

Lemma net_of_contains s a : IP4Net_ok s → IP4_ok a → net_contains (net_of s) (htonl a) = true ↔ IP4Net_addr s a.
Proof.
  intros Hs Ha. rewrite <- IP4Net_Contains_addr by done. unfold net_contains, net_of, mask_of, IP4Net_Contains. cbn [ipn_ip ipn_mask]. rewrite !htonl_land, !Z.eqb_eq.
  split; [|by intros ->]. apply htonl_inj.
  - rewrite IP4_land_Mask by (done || apply Hs). pose proof (IP4Net_size_pos s Hs). pose proof (Z.mul_div_le (IP4Net_IP s) (IP4Net_size s)).
    destruct Hs as [Hip _]. unfold IP4_ok in Hip. pose proof (Z.div_pos (IP4Net_IP s) (IP4Net_size s)). nia.
  - rewrite IP4_land_Mask by done. pose proof (IP4Net_size_pos s Hs). pose proof (Z.mul_div_le a (IP4Net_size s)).
    unfold IP4_ok in Ha. pose proof (Z.div_pos a (IP4Net_size s)). nia.
Qed.

(** ** Lists whose order does not matter *)

Lemma delete_replaced {A} (l : list A) i y : delete i (<[i := y]> l) = delete i l.
Proof. revert i. induction l as [|x l IH]; intros [|i]; try done. cbn. f_equal. apply IH. Qed.

Lemma replace_perm {A} (l : list A) i x y : l !! i = Some y → <[i := x]> l ≡ₚ x :: delete i l.
Proof.
  intros Hi. rewrite (delete_Permutation (<[i := x]> l) i x) by (apply list_lookup_insert_eq; by eapply lookup_lt_Some). by rewrite delete_replaced.
Qed.

Lemma exchange_perm {A} (l : list A) i x y : l !! 0%nat = Some y → l !! i = Some x → <[0%nat := x]> (<[i := y]> l) ≡ₚ l.
Proof.
  destruct l as [|z l]; [done|]. intros [= ->] Hi. destruct i as [|i]; [by injection Hi as <-|].
  change (x :: <[i := y]> l ≡ₚ y :: l). change (l !! i = Some x) in Hi.
  transitivity (y :: x :: delete i l); [rewrite (replace_perm l i y x Hi); apply Permutation_swap|by rewrite <- (delete_Permutation l i x Hi)].
Qed.

Lemma fill_hole_perm {A} (l : list A) i x z : l !! i = Some x → list.last l = Some z → take (length l - 1) (<[i := z]> l) ≡ₚ delete i l.
Proof.
  intros Hi [l0 ->]%last_Some. rewrite length_app. cbn [length]. replace (length l0 + 1 - 1)%nat with (length l0) by lia.
  pose proof (lookup_lt_Some _ _ _ Hi) as Hlt. rewrite length_app in Hlt. cbn in Hlt.
  destruct (decide (i = length l0)) as [->|Hne].
  - rewrite insert_app_r_alt, Nat.sub_diag by lia. cbn [list_insert insert]. rewrite take_app_length. rewrite delete_middle, app_nil_r. done.
  - rewrite insert_app_l by lia. rewrite take_app_length' by (by rewrite length_insert). rewrite lookup_app_l in Hi by lia.
    apply (Permutation_cons_inv (a := x)). transitivity (z :: x :: delete i l0).
    + rewrite (replace_perm l0 i z x Hi). apply Permutation_swap.
    + rewrite <- (delete_Permutation l0 i x Hi). rewrite Permutation_cons_append. apply delete_Permutation. by rewrite lookup_app_l by lia.
Qed.

(** ** The table *)

Abbreviation udp_hosts := (gmap IP4Net IP4).

Section table.
Context (port : Z).

Definition hop_of (pub : IP4) : Z * Z := (htonl pub, htons port).
Definition entry_of (h : IP4Net * IP4) : route_entry := mkRouteEntry (net_of h.1) (hop_of h.2).

(** One entry for each host, in some order. *)
Record table_holds (m : udp_hosts) (t : route_array) : Prop := mkHolds {
  table_holds_routable s pub : m !! s = Some pub → routable s;
  table_holds_routes : routes t ≡ₚ entry_of <$> map_to_list m
}.

Lemma table_holds_lookup m t i e : table_holds m t → routes t !! i = Some e → ∃ s pub, e = entry_of (s, pub) ∧ m !! s = Some pub.
Proof.
  intros [_ Hp] Hi. apply list_elem_of_lookup_2 in Hi. rewrite Hp in Hi. apply list_elem_of_fmap in Hi as ([s pub] & -> & Hin).
  exists s, pub. split; [done|]. by apply elem_of_map_to_list.
Qed.
Lemma table_holds_entry m t s pub : table_holds m t → m !! s = Some pub → entry_of (s, pub) ∈ routes t.
Proof. intros [_ Hp] Hs. rewrite Hp. apply list_elem_of_fmap_2. by apply elem_of_map_to_list. Qed.

Lemma table_holds_without m t i s pub : table_holds m t → routes t !! i = Some (entry_of (s, pub)) → m !! s = Some pub →
  delete i (routes t) ≡ₚ entry_of <$> map_to_list (delete s m).
Proof.
  intros [_ Hp] Hi Hs. apply (Permutation_cons_inv (a := entry_of (s, pub))). rewrite <- (delete_Permutation _ _ _ Hi), Hp.
  rewrite <- (insert_delete_id m s pub Hs) at 1. rewrite map_to_list_insert by apply lookup_delete_eq. by rewrite fmap_cons.
Qed.

Lemma find_dst m t s i e : table_holds m t → routable s → list_find (is_route_to (net_of s)) (routes t) = Some (i, e) →
  ∃ pub, routes t !! i = Some (entry_of (s, pub)) ∧ e = entry_of (s, pub) ∧ m !! s = Some pub.
Proof.
  intros Hm Hs (Hi & Hd & _)%list_find_Some. destruct (table_holds_lookup m t i e Hm Hi) as (s' & pub & -> & Hs').
  unfold is_route_to, entry_of in Hd. cbn [re_dst fst] in Hd. apply net_of_inj in Hd; [|by eapply table_holds_routable|done]. subst s'. by exists pub.
Qed.
Lemma find_no_dst m t s : table_holds m t → list_find (is_route_to (net_of s)) (routes t) = None → m !! s = None.
Proof.
  intros Hm Hn%list_find_None. apply eq_None_not_Some. intros [pub Hs]. apply (table_holds_entry _ _ _ _ Hm) in Hs.
  rewrite list.Forall_forall in Hn. by apply (Hn _ Hs).
Qed.

Lemma set_route_holds grows m t s pub : (∀ n, grows n = true) → routable s → table_holds m t →
  table_holds (<[s := pub]> m) (set_route grows (net_of s) (hop_of pub) t).2.
Proof.
  intros Hg Hs Hm. split; [intros s' pub' [[<- _]|[_ Hl]]%lookup_insert_Some; [done|by eapply table_holds_routable]|]. unfold set_route.
  destruct (list_find _ _) as [[i e]|] eqn:E.
  - destruct (find_dst m t s i e Hm Hs E) as (old & Hi & -> & Hold). cbn [snd routes].
    rewrite (replace_perm _ _ _ _ Hi), (table_holds_without m t i s old Hm Hi Hold).
    rewrite <- (insert_delete_eq m s pub), map_to_list_insert by apply lookup_delete_eq. by rewrite fmap_cons.
  - pose proof (find_no_dst m t s Hm E) as Hn. assert (routes t ++ [mkRouteEntry (net_of s) (hop_of pub)] ≡ₚ entry_of <$> map_to_list (<[s := pub]> m)) as Hp.
    { rewrite map_to_list_insert by done. rewrite fmap_cons, <- (table_holds_routes _ _ Hm). by rewrite <- Permutation_cons_append. }
    rewrite Hg. by destruct (decide _).
Qed.

Lemma del_route_holds m t s : routable s → table_holds m t → table_holds (delete s m) (del_route (net_of s) t).2.
Proof.
  intros Hs Hm. split; [intros s' pub' [_ Hl]%lookup_delete_Some; by eapply table_holds_routable|]. unfold del_route.
  destruct (list_find _ _) as [[i e]|] eqn:E.
  - destruct (find_dst m t s i e Hm Hs E) as (old & Hi & -> & Hold). destruct (list.last (routes t)) as [z|] eqn:El.
    + cbn [snd routes]. rewrite (fill_hole_perm _ _ _ _ Hi El). by apply table_holds_without with old.
    + exfalso. apply last_None in El. by rewrite El in Hi.
  - cbn [snd]. rewrite (delete_id m s); [apply Hm|]. by apply (find_no_dst m t).
Qed.

(** A packet moves an entry, and finds a host whose subnet has its destination. *)
Lemma find_route_holds m t a : IP4_ok a → table_holds m t →
  table_holds m (proxy_find_route (htonl a) t).2 ∧
  match (proxy_find_route (htonl a) t).1 with
  | Some hop => ∃ s pub, m !! s = Some pub ∧ IP4Net_addr s a ∧ hop = hop_of pub
  | None => ∀ s pub, m !! s = Some pub → ¬ IP4Net_addr s a
  end.
Proof.
  intros Ha Hm. unfold proxy_find_route. destruct (list_find _ _) as [[i e]|] eqn:E.
  - apply list_find_Some in E as (Hi & Hc & _). destruct (table_holds_lookup m t i e Hm Hi) as (s & pub & -> & Hs). cbn [fst snd]. split.
    + split; [apply Hm|]. destruct (routes t) as [|z l] eqn:El; [done|]. cbn [routes]. rewrite (exchange_perm (z :: l) i _ z) by done. rewrite <- El. apply Hm.
    + exists s, pub. split; [done|]. split; [|done]. apply net_of_contains; [apply (table_holds_routable _ _ Hm _ _ Hs)|done|exact Hc].
  - cbn [fst snd]. split; [done|]. apply list_find_None in E. rewrite list.Forall_forall in E. intros s pub Hs Hin.
    apply (E (entry_of (s, pub))); [by apply (table_holds_entry _ _ _ _ Hm)|]. apply net_of_contains; [apply (table_holds_routable _ _ Hm _ _ Hs)|done|done].
Qed.

(** ** Commands *)

Definition udp_apply (m : udp_hosts) (e : Event) : udp_hosts :=
  match Event_Type e with
  | EventAdded => <[Subnet (Event_Lease e) := PublicIP (Attrs (Event_Lease e))]> m
  | EventRemoved => delete (Subnet (Event_Lease e)) m
  end.
Definition event_message (e : Event) : proxy_command :=
  match Event_Type e with
  | EventAdded => set_command (Subnet (Event_Lease e)) (PublicIP (Attrs (Event_Lease e))) port
  | EventRemoved => remove_command (Subnet (Event_Lease e))
  end.
Definition command_of (i : proxy_input) : option proxy_command := match i with Command c => Some c | Packet _ => None end.
(** Packets carry an address. *)
Definition proxy_input_ok (i : proxy_input) : Prop := match i with Command _ => True | Packet d => ∃ a, IP4_ok a ∧ d = htonl a end.

Lemma process_event grows m p e : (∀ n, grows n = true) → routable (Subnet (Event_Lease e)) → table_holds m (px_routes p) →
  ∃ p', process_cmd grows (event_message e) p = Ret p' ∧ exit_flag p' = exit_flag p ∧ table_holds (udp_apply m e) (px_routes p').
Proof.
  intros Hg Hs Hm. unfold event_message, udp_apply. destruct (Event_Type e).
  - unfold process_cmd, set_command. cbn [pc_cmd dest_net_len dest_net next_hop_ip next_hop_port]. rewrite Z.eqb_refl, routable_mask by done. cbn [mbind outcome_bind].
    eexists. split; [done|]. split; [done|]. cbn [px_routes]. rewrite to_short_port. by apply set_route_holds.
  - unfold process_cmd, remove_command. cbn [pc_cmd dest_net_len dest_net]. change (CMD_DEL_ROUTE =? CMD_SET_ROUTE) with false. cbn iota.
    rewrite Z.eqb_refl, routable_mask by done. cbn [mbind outcome_bind]. eexists. split; [done|]. split; [done|]. by apply del_route_holds.
Qed.

Lemma run_holds grows inputs : (∀ n, grows n = true) → ∀ evts m p,
  Forall (λ e, routable (Subnet (Event_Lease e))) evts → Forall proxy_input_ok inputs → omap command_of inputs = event_message <$> evts →
  exit_flag p = false → table_holds m (px_routes p) →
  ∃ p', run_proxy grows p inputs = Ret p' ∧ exit_flag p' = false ∧ table_holds (foldl udp_apply m evts) (px_routes p').
Proof.
  intros Hg. induction inputs as [|i inputs IH]; intros evts m p He Hi Hc Hx Hm.
  - destruct evts; [|done]. by exists p.
  - apply Forall_cons_1 in Hi as [Hi Hi']. cbn [run_proxy]. rewrite Hx. destruct i as [c|d]; cbn [proxy_step].
    + destruct evts as [|e evts]; [done|]. cbn in Hc. injection Hc as -> Hc. apply Forall_cons_1 in He as [He He'].
      destruct (process_event grows m p e Hg He Hm) as (p1 & E1 & Hx1 & Hm1). rewrite E1. cbn [mbind outcome_bind].
      apply (IH evts (udp_apply m e) p1); [done|done|done|by rewrite Hx1|done].
    + destruct Hi as (a & Ha & ->). cbn [mbind outcome_bind]. apply IH; [done|done|done|done|]. by apply find_route_holds.
Qed.
End table.

(** ** From the lease events to the packets *)

Class UdpLaws (W : Type) `{UdpHost W} := {
  (** what was written to the control socket *)
  sent : W → list proxy_command;
  law_ctl_Write c w : ∃ w', ctl_Write c w = (Ret tt, w') ∧ sent w' = sent w ++ [c];
  law_closes w : ∃ r w', (_ ← try tun_Close; _ ← try conn_Close; _ ← try ctl_Close; _ ← try ctl2_Close; mret tt) w = (r, w') ∧ r = Ret tt ∧ sent w' = sent w
}.

Section messages.
Context {W : Type} `{UdpLaws W}.

Lemma writeCommand_sends c (w : W) : ∃ w', writeCommand c w = (Ret tt, w') ∧ sent w' = sent w ++ [c].
Proof. destruct (law_ctl_Write c w) as (w' & E & Hs). exists w'. split; [|done]. unfold writeCommand. by rewrite (run_try_Ret _ _ _ _ _ E). Qed.

Lemma process_sends n evts : ∀ w : W, ∃ w', processSubnetEvents n evts w = (Ret tt, w') ∧ sent w' = sent w ++ (event_message (un_port n) <$> evts).
Proof.
  induction evts as [|e evts IH]; intros w; [by exists w; rewrite app_nil_r|].
  destruct (writeCommand_sends (event_message (un_port n) e) w) as (w1 & E1 & S1). destruct (IH w1) as (w2 & E2 & S2). exists w2. split.
  - cbn [processSubnetEvents]. assert ((match Event_Type e with
       | EventAdded => setRoute (Subnet (Event_Lease e)) (PublicIP (Attrs (Event_Lease e))) (un_port n)
       | EventRemoved => removeRoute (Subnet (Event_Lease e))
       end) w = (Ret tt, w1)) as E; [|by rewrite (M_bind_Ret _ _ _ _ _ E)].
    rewrite <- E1. unfold event_message. by destruct (Event_Type e).
  - rewrite S2, S1, <- app_assoc. done.
Qed.
End messages.

(** C10: After any sequence of lease events, and whatever packets the proxy has forwarded in between, a packet is sent to
    the public address and the port of a host whose subnet its destination is in, and finds no route only when
    there is none. *)
Theorem udp_proxy_follows_leases W `{UdpLaws W} grows n evts (w : W) :
  (∀ k, grows k = true) → Forall (λ e, routable (Subnet (Event_Lease e))) evts → sent w = [] →
  ∃ w', processSubnetEvents n evts w = (Ret tt, w') ∧
    ∀ inputs, Forall proxy_input_ok inputs → omap command_of inputs = sent w' →
    ∃ p, run_proxy grows (mkProxy no_routes false) inputs = Ret p ∧ exit_flag p = false ∧
      ∀ a, IP4_ok a →
        match (proxy_find_route (htonl a) (px_routes p)).1 with
        | Some hop => ∃ s pub, foldl udp_apply ∅ evts !! s = Some pub ∧ IP4Net_addr s a ∧ hop = (htonl pub, htons (un_port n))
        | None => ∀ s pub, foldl udp_apply ∅ evts !! s = Some pub → ¬ IP4Net_addr s a
        end.
Proof.
  intros Hg He Hw. destruct (process_sends n evts w) as (w' & E & Hs). exists w'. split; [done|]. rewrite Hw in Hs. intros inputs Hi Hc. rewrite Hs in Hc.
  destruct (run_holds (un_port n) grows inputs Hg evts ∅ (mkProxy no_routes false) He Hi Hc eq_refl) as (p & Ep & Hx & Hm).
  { split; [done|]. by rewrite map_to_list_empty. }
  exists p. split; [done|]. split; [done|]. intros a Ha. by apply (find_route_holds (un_port n)).
Qed.

(** When the channel of events is closed, the last command is the one that ends the proxy. *)
Theorem udp_Run_stops_proxy W `{UdpLaws W} n batches (w : W) :
  ∃ w', udp_Run n batches w = (Ret tt, w') ∧ sent w' = sent w ++ (event_message (un_port n) <$> concat batches) ++ [stop_command] ∧
    ∀ grows p, exit_flag p = false → ∃ p', run_proxy grows p [Command stop_command] = Ret p' ∧ exit_flag p' = true ∧ px_routes p' = px_routes p.
Proof.
  destruct (process_sends n (concat batches) w) as (w1 & E1 & S1). destruct (writeCommand_sends stop_command w1) as (w2 & E2 & S2).
  destruct (law_closes w2) as (r & w3 & E3 & -> & S3). exists w3. split; [|split].
  - unfold udp_Run. rewrite (M_bind_Ret _ _ _ _ _ E1). unfold stopProxy. rewrite (M_bind_Ret _ _ _ _ _ E2). exact E3.
  - by rewrite S3, S2, S1, <- app_assoc.
  - intros grows p Hp. exists (mkProxy (px_routes p) true). cbn [run_proxy]. by rewrite Hp.
Qed.

(** ** The time to live *)

(** The sum of a header, of whose words [rest] are neither the checksum nor the one with the time to live. *)
Definition ones_add (a b : Z) : Z := if a + b <? 65536 then a + b else a + b - 65535.
Definition header_sum (rest : list Z) (protocol ttl check : Z) : Z := ones_add (ones_add (foldr ones_add 0 rest) (protocol * 256 + ttl)) check.
Definition is_word (x : Z) : Prop := 0 <= x < 65536.

Lemma ones_add_word a b : is_word a → is_word b → is_word (ones_add a b).
Proof. unfold is_word, ones_add. destruct (Z.ltb_spec (a + b) 65536); lia. Qed.
Lemma foldr_ones_add rest : Forall is_word rest → is_word (foldr ones_add 0 rest).
Proof. induction 1 as [|x l Hx _ IH]; [unfold is_word; cbn; lia|by apply ones_add_word]. Qed.

(** A packet whose header has a valid checksum is forwarded with one less to live and a valid checksum, or dropped when
    it had one left. *)
Theorem decrement_ttl_keeps_checksum rest protocol ttl check : Forall is_word rest → 0 <= protocol < 256 → 0 < ttl < 256 → is_word check →
  header_sum rest protocol ttl check = 65535 →
  match decrement_ttl ttl check with
  | Some (ttl', check') => ttl' = ttl - 1 ∧ is_word check' ∧ header_sum rest protocol ttl' check' = 65535
  | None => ttl = 1
  end.
Proof.
  intros Hr%foldr_ones_add Hp Ht Hc E. unfold header_sum in *. set (x := foldr ones_add 0 rest) in *. unfold is_word in *. unfold decrement_ttl.
  change (htons (65535 - 256)) with 65534. change (htons 256) with 1. rewrite (wrap_small 8) by lia. destruct (Z.eqb_spec (ttl - 1) 0); [lia|].
  unfold wrap. change (2 ^ 16) with 65536. unfold ones_add in *.
  destruct (Z.leb_spec 65534 check); cbn [fst snd];
    repeat match goal with H : context [if ?a <? ?b then _ else _] |- _ => destruct (Z.ltb_spec a b) | |- context [?a <? ?b] => destruct (Z.ltb_spec a b) end;
    Z.div_mod_to_equations; lia.
Qed.

(** A packet with no time left is forwarded with the longest. *)
Theorem ttl_zero_forwarded check : is_word check → ∃ check', decrement_ttl 0 check = Some (255, check').
Proof. intros _. by eexists. Qed.

(** ** In memory *)

#[global] Instance mem_UdpHost : UdpHost (list proxy_command) := {
  udp_OpenTun _ := mret "flannel0";
  udp_LinkByName _ := mret 2;
  udp_AddrAdd _ _ := mret tt;
  udp_LinkSetMTU _ _ := mret tt;
  udp_LinkSetUp _ := mret tt;
  udp_RouteAdd _ _ := mret tt;
  udp_ListenUDP _ _ := mret tt;
  udp_Socketpair := mret tt;
  ctl_Write c w := (Ret tt, w ++ [c]);
  tun_Close := mret tt;
  conn_Close := mret tt;
  ctl_Close := mret tt;
  ctl2_Close := mret tt
}.
#[global, refine] Instance mem_UdpLaws : UdpLaws (list proxy_command) := { sent w := w }.
Proof. - intros c w. by eexists. - intros w. by eexists _, _. Defined.

Definition udp_lease (sn pub : Z) : Lease := mkLease true false (mkIP4Net sn 24) (mkIP6Net None 0) (mkLeaseAttrs pub None "" None None) 0 0.
Definition udp_node : udp_network := mkUdpNetwork (udp_lease 168099840 3232235777) sample_iface 8285 (mkIP4Net 168099840 16).
Definition udp_events : list Event :=
  [mkEvent EventAdded (udp_lease 168100096 3232235778); mkEvent EventAdded (udp_lease 168100352 3232235779); mkEvent EventRemoved (udp_lease 168100096 3232235778)].

(** The proxy forwards a packet to 10.5.2.7 between the second and the third event. *)
Lemma udp_proxy_follows_leases_witness : ∃ w' p, processSubnetEvents udp_node udp_events [] = (Ret tt, w') ∧
  run_proxy (λ _, true) (mkProxy no_routes false) (take 2 (Command <$> w') ++ [Packet (htonl 168100359)] ++ drop 2 (Command <$> w')) = Ret p ∧
  (proxy_find_route (htonl 168100103) (px_routes p)).1 = None ∧ (proxy_find_route (htonl 168100359) (px_routes p)).1 = Some (htonl 3232235779, htons 8285).
Proof.
  destruct (udp_proxy_follows_leases (list proxy_command) (λ _, true) udp_node udp_events []) as (w' & E & Hrun).
  - done.
  - by repeat (apply list.Forall_cons; split); [repeat split; cbn; lia..|apply list.Forall_nil].
  - done.
  - exists w'. assert (w' = event_message 8285 <$> udp_events) as -> by (injection E as <-; reflexivity).
    destruct (Hrun (take 2 (Command <$> (event_message 8285 <$> udp_events)) ++ [Packet (htonl 168100359)] ++ drop 2 (Command <$> (event_message 8285 <$> udp_events)))) as (p & Ep & _).
    + assert (proxy_input_ok (Packet (htonl 168100359))) as Hp by (exists 168100359; split; [unfold IP4_ok; lia|reflexivity]).
      unfold udp_events. cbn [take drop app fmap list_fmap]. by repeat (apply list.Forall_cons; split); [exact I..|exact Hp|exact I|apply list.Forall_nil].
    + reflexivity.
    + exists p. split; [exact E|]. split; [exact Ep|]. vm_compute in Ep. injection Ep as <-. split; vm_compute; reflexivity.
Defined.

(** The header of a packet from 10.5.1.7 to 10.5.2.9. *)
Lemma decrement_ttl_keeps_checksum_witness : header_sum [17664; 84; 0; 0; 2565; 263; 2565; 521] 1 64 41553 = 65535 ∧ decrement_ttl 64 41553 = Some (63, 41554) ∧
  header_sum [17664; 84; 0; 0; 2565; 263; 2565; 521] 1 63 41554 = 65535.
Proof.
  split; [vm_compute; reflexivity|]. split; [vm_compute; reflexivity|].
  pose proof (decrement_ttl_keeps_checksum [17664; 84; 0; 0; 2565; 263; 2565; 521] 1 64 41553) as Hd. cbn [decrement_ttl] in Hd. apply Hd.
  - repeat (apply list.Forall_cons; split); try apply list.Forall_nil; unfold is_word; lia.
  - lia.
  - lia.
  - unfold is_word. lia.
  - vm_compute. reflexivity.
Defined.
