(* ===== verification/Ipip.v ===== *)
(** * [pkg/backend/ipip]: the route network over a tunnel of IP in IP

    [ipip.go]: the device, its registration and the route of a lease, over the links of a host ([IpipHost]); the laws of
    the links, what a registration leaves on the host, and the routes that follow the leases. *)

From Stdlib Require Import ZArith Lia Ascii.
From stdpp Require Import base strings list gmap numbers.
From S2P Require Import Prelude GoStrings GoJson GoNet GoNetFacts Ip4 Ip6 Lease Config Backend BackendFacts Iface Vxlan.

Local Open Scope Z_scope.

(** ** The device *)

Definition ipip_backendType : string := "ipip".
Definition tunnelName : string := "flannel.ipip".

(** The fields of a [netlink.Iptun] that this code sets or reads. *)
Record Iptun := mkIptun { tun_Name : string; tun_MTU : Z; tun_Index : Z; tun_Local : IP; tun_Remote : IP }.
(** What a lookup gives: the type of the link, and the device when it is an [*netlink.Iptun]. *)
Record IpipLink := mkIpipLink { il_Type : string; il_Index : Z; as_Iptun : option Iptun }.

Class IpipHost (W : Type) := {
  (** the index that these calls leave in their argument *)
  TunLinkAdd : Iptun → M W Z;
  TunLinkSetMTU : Iptun → Z → M W Z;
  TunLinkByName : string → M W IpipLink;
  TunLinkDel : IpipLink → M W unit;
  TunLinkSetUp : Iptun → M W unit
}.

Definition set_tun_Index (i : Z) (t : Iptun) : Iptun := mkIptun (tun_Name t) (tun_MTU t) i (tun_Local t) (tun_Remote t).
Definition set_tun_MTU (m : Z) (t : Iptun) : Iptun := mkIptun (tun_Name t) m (tun_Index t) (tun_Local t) (tun_Remote t).

(** A device that has to be made again. *)
Definition incompatible (ipip : Iptun) (local : IP) : bool :=
  bool_decide (tun_Local ipip = []) || negb (Equal (tun_Local ipip) local) ||
  (negb (bool_decide (tun_Remote ipip = [])) && negb (bool_decide (IP_String (tun_Remote ipip) = "0.0.0.0"))).

Section device.
Context {W : Type} `{IpipHost W, IfaceHost W}.

Definition make_tunnel (local : IP) (link : Iptun) : M W Iptun :=
  r ← try (TunLinkAdd link);
  match r with
  | inl index => mret (set_tun_Index index link)
  | inr err =>
      if negb (bool_decide (err = EEXIST)) then throw err
      else
        existing ← TunLinkByName tunnelName;
        check (negb (bool_decide (il_Type existing = "ipip"))) (Errorf "%v isn't an ipip mode device, please remove device and try again");;
        match as_Iptun existing with
        | None => throw (Errorf "%s isn't an iptun device (%#v), please remove device and try again")
        | Some ipip =>
            if incompatible ipip local then
              wrapping "failed to delete interface: %v" (TunLinkDel existing);;
              index ← wrapping "failed to create ipip interface: %v" (TunLinkAdd link);
              mret (set_tun_Index index link)
            else mret link
        end
  end.

Definition configureIPIPDevice (extIface : ExternalInterface) (l : Lease) (flannelnet : IP4Net) : M W Iptun :=
  link ← make_tunnel (IfaceAddr extIface) (mkIptun tunnelName 0 0 (IfaceAddr extIface) []);
  let expectMTU := Iface_MTU extIface - 20 in
  check (expectMTU <=? 0) (Errorf "MTU %d of iface %s is too small for ipip mode to work");;
  let oldMTU := tun_MTU link in
  link ← (if (expectMTU <? oldMTU) || (oldMTU =? 0) then
            index ← wrapping "failed to set %v MTU to %d: %v" (TunLinkSetMTU link expectMTU);
            mret (set_tun_MTU expectMTU (set_tun_Index index link))
          else mret link);
  wrapping "failed to ensure address of interface %s: %s" (EnsureV4AddressOnLink (mkIP4Net (IP4Net_IP (Subnet l)) 32) flannelnet (tun_Index link));;
  wrapping "failed to set %v UP: %v" (TunLinkSetUp link);;
  mret link.
End device.

(** ** The network *)

Definition ipip_config_field (dr : bool) (key raw : string) (v : json) : outcome bool :=
  if field_name "DirectRouting" key then decode_bool dr v else Ret dr.
Definition ipip_config (backend : string) : outcome bool :=
  if (0 <? String.length backend)%nat then
    match Unmarshal_struct ipip_config_field backend false with
    | Err err => Err (Wrapf "error decoding IPIP backend config: %v" err)
    | r => r
    end
  else Ret false.

(** A [backend.RouteNetwork] of this backend. *)
Record ipip_network := mkIpipNetwork { pn_SubnetLease : Lease; pn_ExtIface : ExternalInterface; pn_Mtu : Z; pn_LinkIndex : Z; pn_DirectRouting : bool }.

Definition FLAG_ONLINK : Z := 4.

(** [GetRoute], with the flags of the route. *)
Definition ipip_GetRoute {W} `{IfaceHost W} (n : ipip_network) (l : Lease) : M W (Route * Z) :=
  let route link := (mkRoute (Some (IP4Net_ToIPNet (Subnet l))) (IP4_ToIP (PublicIP (Attrs l))) link, FLAG_ONLINK) in
  if pn_DirectRouting n then
    r ← try (DirectRouting (IP4_ToIP (PublicIP (Attrs l))));
    mret (route (match r with inl true => Iface_Index (pn_ExtIface n) | _ => pn_LinkIndex n end))
  else mret (route (pn_LinkIndex n)).

Definition ipip_RegisterNetwork {W} `{IpipHost W, IfaceHost W, LeaseSource W} (extIface : ExternalInterface) (config : Config) : M W ipip_network :=
  directRouting ← lift (ipip_config (cfg_Backend config));
  pub ← lift (FromIP (ExtAddr extIface));
  l ← acquire (mkLeaseAttrs pub None ipip_backendType None None);
  link ← configureIPIPDevice extIface l (cfg_Network config);
  mret (mkIpipNetwork l extIface (tun_MTU link) (tun_Index link) directRouting).
