(* ===== verification/IpipFacts.v ===== *)
(** * Facts of [Ipip.v]: the tunnel that a registration leaves, and its routes *)

From Stdlib Require Import ZArith Lia Ascii.
From stdpp Require Import base strings list gmap numbers.
From S2P Require Import Prelude GoStrings GoJson GoNet GoNetFacts Ip4 Ip6 Lease Config Backend BackendFacts Iface IpMatch Vxlan Ipip.

Local Open Scope Z_scope.

(** What the host has under the name [flannel.ipip]. *)
Record device := mkTunDevice { td_Type : string; td_Index : Z; td_ends : option (IP * IP); td_MTU : Z; td_up : bool }.
Definition td_link (d : device) : IpipLink :=
  mkIpipLink (td_Type d) (td_Index d) ((λ e, mkIptun tunnelName (td_MTU d) (td_Index d) e.1 e.2) <$> td_ends d).

Class IpipLaws (W : Type) `{IpipHost W, IfaceLaws W} := {
  tunnel_device : W → option device;
  same_addrs (w w' : W) : Prop := ∀ i, v4addrs w' i = v4addrs w i;
  law_TunLinkAdd t w : tun_Name t = tunnelName →
    match tunnel_device w with
    | Some _ => TunLinkAdd t w = (Err EEXIST, w)
    | None => ∃ i m w', TunLinkAdd t w = (Ret i, w') ∧ tunnel_device w' = Some (mkTunDevice "ipip" i (Some (tun_Local t, tun_Remote t)) m false) ∧ (∀ j, j ≠ i → v4addrs w' j = v4addrs w j)
    end;
  law_TunLinkByName d w : tunnel_device w = Some d → TunLinkByName tunnelName w = (Ret (td_link d), w);
  law_TunLinkDel d w : tunnel_device w = Some d → ∃ w', TunLinkDel (td_link d) w = (Ret tt, w') ∧ tunnel_device w' = None ∧ (∀ j, j ≠ td_Index d → v4addrs w' j = v4addrs w j);
  law_TunLinkSetMTU t m d w : tun_Name t = tunnelName → tunnel_device w = Some d →
    ∃ w', TunLinkSetMTU t m w = (Ret (td_Index d), w') ∧ tunnel_device w' = Some (mkTunDevice (td_Type d) (td_Index d) (td_ends d) m (td_up d)) ∧ same_addrs w w';
  law_TunLinkSetUp t d w : tun_Name t = tunnelName → tunnel_device w = Some d →
    ∃ w', TunLinkSetUp t w = (Ret tt, w') ∧ tunnel_device w' = Some (mkTunDevice (td_Type d) (td_Index d) (td_ends d) (td_MTU d) true) ∧ same_addrs w w';
  law_AddrDel_tunnel link a w : tunnel_device (AddrDel link a w).2 = tunnel_device w;
  law_AddrAdd_tunnel link a w : tunnel_device (AddrAdd link a w).2 = tunnel_device w
}.

(** A device that this code does not take for its own. *)
Definition foreign_device (d : device) : Prop := td_Type d ≠ "ipip" ∨ td_ends d = None.
(** A tunnel from the address of the interface to any other. *)
Definition tunnel_from (local : IP) (d : device) : Prop :=
  td_Type d = "ipip" ∧ ∃ lo re, td_ends d = Some (lo, re) ∧ Equal lo local = true ∧ (re = [] ∨ IP_String re = "0.0.0.0").

Section device.
Context {W : Type} `{IpipLaws W}.
Implicit Types (w : W).

Lemma EnsureV4_keeps_tunnel ipa ipn link o : preserves (λ w, tunnel_device w = o) (EnsureV4AddressOnLink ipa ipn link).
Proof.
  unfold EnsureV4AddressOnLink. intros w Hw. destruct (law_AddrList link w) as (l & E & _ & _). rewrite (M_bind_Ret _ _ _ _ _ E). clear E.
  apply (preserves_bind (λ w, tunnel_device w = o)); [| |exact Hw].
  - generalize false. induction l as [|a l IH]; intros b; cbn [remove_others]; [apply preserves_ret|].
    assert (preserves (λ w, tunnel_device w = o) (AddrDel link a)) as Hd by (intros v Hv; by rewrite law_AddrDel_tunnel).
    destruct (Addr_Equal a _); [apply IH|]. apply preserves_bind; [apply preserves_lift|]. intros x. apply preserves_bind; [|intros _; apply IH].
    destruct (IP4Net_Contains ipn x); [|apply preserves_ret]. apply preserves_bind; [by apply preserves_try|]. intros [d|e]; [apply preserves_ret|apply preserves_throw].
  - intros has. assert (preserves (λ w, tunnel_device w = o) (AddrAdd link (mkNlAddr (IP4Net_ToIPNet ipa) 0))) as Ha by (intros v Hv; by rewrite law_AddrAdd_tunnel).
    destruct has; [apply preserves_ret|]. apply preserves_bind; [by apply preserves_try|]. intros [a|e]; [apply preserves_ret|apply preserves_throw].
Qed.

Lemma compatible_ends i lo local : Equal lo local = true → lo ≠ [] → ∀ re, (re = [] ∨ IP_String re = "0.0.0.0") → incompatible (mkIptun tunnelName 0 i lo re) local = false.
Proof.
  intros He Hl re Hr. unfold incompatible. cbn [tun_Local tun_Remote]. rewrite bool_decide_false, He by done. cbn [negb orb].
  destruct Hr as [-> | ->]; [done|]. by rewrite andb_false_r.
Qed.

(** The tunnel is made, or the one that is there is taken or made again. *)
(** The addresses of a link that is neither the tunnel nor the one that was there before. *)
Definition others_keep (w w' : W) (d : device) : Prop :=
  ∀ j, j ≠ td_Index d → (∀ d0, tunnel_device w = Some d0 → j ≠ td_Index d0) → v4addrs w' j = v4addrs w j.

Lemma make_tunnel_run local w : local ≠ [] → (∀ d, tunnel_device w = Some d → ¬ foreign_device d) →
  ∃ link w' d, make_tunnel local (mkIptun tunnelName 0 0 local []) w = (Ret link, w') ∧ tun_Name link = tunnelName ∧ tun_MTU link = 0 ∧
    tunnel_device w' = Some d ∧ tunnel_from local d ∧ others_keep w w' d.
Proof.
  intros Hl Hf. pose proof (Equal_refl local) as He. unfold make_tunnel. rewrite run_try_cases. pose proof (law_TunLinkAdd (mkIptun tunnelName 0 0 local []) w eq_refl) as Ha.
  destruct (tunnel_device w) as [d|] eqn:Ed.
  - rewrite Ha. rewrite bool_decide_true by done. cbn [negb]. rewrite (M_bind_Ret _ _ _ _ _ (law_TunLinkByName d w Ed)).
    specialize (Hf d eq_refl). destruct d as [ty i ends m up]. unfold foreign_device in Hf. cbn [td_Type td_ends] in Hf.
    assert (ty = "ipip") as -> by (destruct (decide (ty = "ipip")); [done|exfalso; auto]). destruct ends as [[lo re]|]; [|exfalso; auto].
    cbn [td_link il_Type td_Type as_Iptun td_ends fmap option_fmap option_map fst snd]. run. destruct (incompatible _ local) eqn:Ei.
    + destruct (law_TunLinkDel _ w Ed) as (w1 & E1 & N1 & S1). rewrite (M_bind_Ret _ _ _ _ _ (wrapping_Ret _ _ _ _ _ E1)).
      pose proof (law_TunLinkAdd (mkIptun tunnelName 0 0 local []) w1 eq_refl) as Ha1. rewrite N1 in Ha1. destruct Ha1 as (i1 & m1 & w2 & E2 & N2 & S2).
      rewrite (M_bind_Ret _ _ _ _ _ (wrapping_Ret _ _ _ _ _ E2)). eexists _, w2, _. split; [done|]. split; [done|]. split; [done|]. split; [exact N2|]. split.
      * split; [done|]. exists local, []. cbn. auto.
      * intros j Hj Hj0. cbn in Hj. rewrite S2 by done. apply S1. by apply (Hj0 _ Ed).
    + eexists _, w, _. split; [done|]. split; [done|]. split; [done|]. split; [exact Ed|]. split; [|done]. split; [done|]. exists lo, re. split; [done|].
      unfold incompatible in Ei. cbn [tun_Local tun_Remote] in Ei. apply orb_false_iff in Ei as [Ei Er]. apply orb_false_iff in Ei as [_ Eq].
      split; [by destruct (Equal lo local)|]. apply andb_false_iff in Er as [Er|Er]; apply negb_false_iff, bool_decide_eq_true in Er; auto.
  - destruct Ha as (i & m & w' & E & N & S). rewrite E. eexists _, w', _. split; [done|]. split; [done|]. split; [done|]. split; [exact N|]. split; [|by intros j Hj _; apply S].
    split; [done|]. exists local, []. cbn. auto.
Qed.
End device.

(** Registration leaves on the host a tunnel of IP in IP from the address of the interface, twenty bytes smaller than it, up, and
    with the address of the node's subnet as its only one in the network, whatever tunnel was there before; the addresses of the
    other links stay.  A device of that name that is not such a tunnel is left as it is, and is an error. *)
Theorem ipip_device_ready W `{IpipLaws W} extIface l flannelnet (w : W) :
  IfaceAddr extIface ≠ [] → 20 < Iface_MTU extIface → IP4Net_ok (Subnet l) → IP4Net_ok flannelnet →
  (∀ d, tunnel_device w = Some d → foreign_device d → ∃ e, configureIPIPDevice extIface l flannelnet w = (Err e, w)) ∧
  ((∀ d, tunnel_device w = Some d → ¬ foreign_device d) → ∃ link w' d, configureIPIPDevice extIface l flannelnet w = (Ret link, w') ∧
    tunnel_device w' = Some d ∧ tunnel_from (IfaceAddr extIface) d ∧ td_MTU d = Iface_MTU extIface - 20 ∧ td_up d = true ∧
    tun_MTU link = td_MTU d ∧ tun_Index link = td_Index d ∧ mkIP4Net (IP4Net_IP (Subnet l)) 32 ∈ v4addrs w' (td_Index d) ∧
    (∀ x, x ∈ v4addrs w' (td_Index d) → x ≠ mkIP4Net (IP4Net_IP (Subnet l)) 32 → ¬ IP4Net_addr flannelnet (IP4Net_IP x)) ∧ others_keep w w' d).
Proof.
  intros Hl Hm Hs Hn. split.
  - intros d Ed Hf. unfold configureIPIPDevice, make_tunnel. pose proof (law_TunLinkAdd (mkIptun tunnelName 0 0 (IfaceAddr extIface) []) w eq_refl) as Ha. rewrite Ed in Ha.
    rewrite run_bind, run_try_cases, Ha. rewrite bool_decide_true by done. cbn [negb]. rewrite run_bind, (M_bind_Ret _ _ _ _ _ (law_TunLinkByName d w Ed)).
    unfold td_link. cbn [il_Type as_Iptun]. destruct (decide (td_Type d = "ipip")) as [Et|Et].
    + destruct Hf as [Hf|Hf]; [done|]. rewrite Et, Hf. by eexists.
    + rewrite bool_decide_false by done. by eexists.
  - intros Hf. destruct (make_tunnel_run (IfaceAddr extIface) w Hl Hf) as (link & w1 & d & E1 & Hnm & Hz & Ed & Ht & S1).
    unfold configureIPIPDevice. rewrite (M_bind_Ret _ _ _ _ _ E1). rewrite (proj2 (Z.leb_gt _ _)) by lia. run. rewrite Hz. rewrite orb_true_r. cbn iota.
    destruct (law_TunLinkSetMTU link (Iface_MTU extIface - 20) d w1 Hnm Ed) as (w2 & E2 & Ed2 & S2).
    rewrite (M_bind_Ret _ _ _ _ _ (wrapping_Ret _ _ _ _ _ E2)). run.
    set (lk := set_tun_MTU _ _). assert (tun_Name lk = tunnelName) as Hlk by exact Hnm. assert (tun_Index lk = td_Index d) as Hix by done. rewrite Hix.
    assert (IP4Net_ok (mkIP4Net (IP4Net_IP (Subnet l)) 32)) as Hip by (split; [apply Hs|cbn; lia]).
    destruct (EnsureV4_run (mkIP4Net (IP4Net_IP (Subnet l)) 32) flannelnet (td_Index d) Hip Hn w2) as (w3 & E3 & A3 & O3 & _).
    pose proof (EnsureV4_keeps_tunnel (mkIP4Net (IP4Net_IP (Subnet l)) 32) flannelnet (td_Index d) _ w2 Ed2) as Ed3. rewrite E3 in Ed3. cbn [snd] in Ed3.
    rewrite (M_bind_Ret _ _ _ _ _ (wrapping_Ret _ _ _ _ _ E3)).
    destruct (law_TunLinkSetUp lk _ w3 Hlk Ed3) as (w4 & E4 & Ed4 & S4). rewrite (M_bind_Ret _ _ _ _ _ (wrapping_Ret _ _ _ _ _ E4)).
    eexists lk, w4, _. split; [done|]. split; [exact Ed4|]. cbn [td_MTU td_up td_Index td_ends td_Type]. split; [exact Ht|]. do 4 (split; [done|]).
    split; [by rewrite S4, A3; left|]. split.
    + intros x. rewrite S4, A3. by intros [->|[_ Hx]].
    + intros j Hj Hj0. rewrite S4, O3, S2 by done. by apply S1.
Qed.

(** ** The routes *)

(** What the route network of this backend runs with, the flags of its routes aside. *)
Definition ipip_route_config (n : ipip_network) : RouteConfig :=
  mkRouteConfig ipip_backendType (Some (hostgw_route (pn_LinkIndex n))) None (pn_Mtu n) (pn_LinkIndex n).

(** Without direct routing, the kernel's routes through the tunnel follow the leases of this backend, as those of host-gw follow theirs. *)
Theorem ipip_tracks_leases W `{NetlinkLaws W, IfaceHost W} n es m (s : RouteNetwork W) :
  pn_DirectRouting n = false → Forall (event_ok (pn_LinkIndex n) "ipip") es → keeps (pn_LinkIndex n) m s →
  (∀ l (w : W), ipip_GetRoute n l w = (r ← hostgw_route (pn_LinkIndex n) l; Ret (r, FLAG_ONLINK), w)) ∧
  ∃ s', handleSubnetEvents (ipip_route_config n) es s = (Ret tt, s') ∧ keeps (pn_LinkIndex n) (foldl (wanted "ipip") m es) s' ∧
    kroutes (rn_host s') = foldl (kernel_step (pn_LinkIndex n) "ipip") (kroutes (rn_host s)) es.
Proof.
  intros Hd He Hk. split.
  - intros l w. unfold ipip_GetRoute. by rewrite Hd.
  - by apply (events_run (pn_LinkIndex n) "ipip" (ipip_route_config n)).
Qed.

(** ** In memory *)

Record ipip_box := mkIpipBox { ib_if : ifview; ib_device : option device }.
Definition ib_on_if {A} (c : M ifview A) : M ipip_box A := λ w, let (r, i) := c (ib_if w) in (r, mkIpipBox i (ib_device w)).

#[global] Instance ibox_IfaceHost : IfaceHost ipip_box := {
  AddrList link fam := ib_on_if (AddrList link fam);
  AddrAdd link a := ib_on_if (AddrAdd link a);
  AddrDel link a := ib_on_if (AddrDel link a);
  Addr_Equal := @Addr_Equal ifview _;
  RouteGet ip := ib_on_if (RouteGet ip);
  AllRoutes fam := ib_on_if (AllRoutes fam);
  InterfaceByIndex i := ib_on_if (InterfaceByIndex i);
  InterfaceByName n := ib_on_if (InterfaceByName n);
  Interfaces := ib_on_if Interfaces;
  BlackholeList fam dst := ib_on_if (BlackholeList fam dst);
  BlackholeAdd fam dst := ib_on_if (BlackholeAdd fam dst)
}.
(** A new tunnel gets the index 8; deleting it leaves its addresses behind. *)
Definition on_tunnel {A} (name : string) (a : device → A) (f : device → device) : M ipip_box A := λ w,
  match ib_device w with
  | Some d => if bool_decide (name = tunnelName) then (Ret (a d), mkIpipBox (ib_if w) (Some (f d))) else (Err (Errorf "no such device"), w)
  | None => (Err (Errorf "no such device"), w)
  end.
#[global] Instance ibox_IpipHost : IpipHost ipip_box := {
  TunLinkAdd t w :=
    match ib_device w with
    | Some _ => (Err EEXIST, w)
    | None => (Ret 8, mkIpipBox (ib_if w) (Some (mkTunDevice "ipip" 8 (Some (tun_Local t, tun_Remote t)) 1480 false)))
    end;
  TunLinkSetMTU t m := on_tunnel (tun_Name t) td_Index (λ d, mkTunDevice (td_Type d) (td_Index d) (td_ends d) m (td_up d));
  TunLinkByName name := on_tunnel name td_link id;
  TunLinkDel _ w := (Ret tt, mkIpipBox (ib_if w) None);
  TunLinkSetUp t := on_tunnel (tun_Name t) (λ _, tt) (λ d, mkTunDevice (td_Type d) (td_Index d) (td_ends d) (td_MTU d) true)
}.

Lemma ib_on_if_run {A} (c : M ifview A) w r i : c (ib_if w) = (r, i) → ib_on_if c w = (r, mkIpipBox i (ib_device w)).
Proof. intros E. unfold ib_on_if. by rewrite E. Qed.
Lemma on_tunnel_run {A} name (a : device → A) f w d : name = tunnelName → ib_device w = Some d → on_tunnel name a f w = (Ret (a d), mkIpipBox (ib_if w) (Some (f d))).
Proof. intros -> E. unfold on_tunnel. by rewrite E, bool_decide_true. Qed.

#[global, refine] Instance ibox_IfaceLaws : IfaceLaws ipip_box := { v4addrs w := v4addrs (ib_if w); v6addrs w := v6addrs (ib_if w) }.
Proof.
  - apply (law_Addr_Equal (W := ifview)).
  - apply (law_Addr_Equal_refl (W := ifview)).
  - intros link w. destruct (law_AddrList link (ib_if w)) as (l & E & Hl). exists l. split; [|done].
    cbn [AddrList ibox_IfaceHost]. rewrite (ib_on_if_run _ _ _ _ E). by destruct w.
  - intros link w. cbn [AddrList ibox_IfaceHost]. rewrite (ib_on_if_run _ _ _ _ (law_AddrList6 link (ib_if w))). by destruct w.
  - intros link a n w Ha Hn. destruct (law_AddrDel link a n (ib_if w) Ha Hn) as (i & E & Hi). eexists. split; [by apply ib_on_if_run|done].
  - intros link a n w Ha Hn. destruct (law_AddrAdd link a n (ib_if w) Ha Hn) as (i & E & Hi). eexists. split; [by apply ib_on_if_run|done].
Defined.

#[global, refine] Instance ibox_IpipLaws : IpipLaws ipip_box := { tunnel_device := ib_device }.
Proof.
  - intros t w Ht. destruct (ib_device w) eqn:E; cbn [TunLinkAdd ibox_IpipHost]; rewrite E; [done|]. by eexists 8, 1480, _.
  - intros d w E. cbn [TunLinkByName ibox_IpipHost]. rewrite (on_tunnel_run _ _ _ _ d eq_refl E). destruct w as [v o]. cbn in E |- *. by rewrite E.
  - intros d w E. by eexists.
  - intros t m d w Ht E. eexists. split; [by apply on_tunnel_run|done].
  - intros t d w Ht E. eexists. split; [by apply (on_tunnel_run _ _ _ _ d)|done].
  - intros link a w. cbn [AddrDel ibox_IfaceHost]. unfold ib_on_if. by destruct (AddrDel link a (ib_if w)).
  - intros link a w. cbn [AddrAdd ibox_IfaceHost]. unfold ib_on_if. by destruct (AddrAdd link a (ib_if w)).
Defined.

(** A tunnel from an address that the host no longer has. *)
Definition stale_tunnel : ipip_box := mkIpipBox sample_ifaces (Some (mkTunDevice "ipip" 7 (Some (IP4_ToIP 3232235999, [])) 1400 false)).
Definition ipip_lease : Lease := mkLease true false sample_subnet (mkIP6Net None 0) (mkLeaseAttrs 3232235777 None "ipip" None None) 0 0.

Lemma ipip_device_ready_witness : ∃ link w' d, configureIPIPDevice sample_iface ipip_lease flannel_net stale_tunnel = (Ret link, w') ∧
  ib_device w' = Some d ∧ td_MTU d = 1480 ∧ td_up d = true ∧ mkIP4Net (IP4Net_IP sample_subnet) 32 ∈ v4addrs w' (td_Index d).
Proof.
  destruct (ipip_device_ready ipip_box sample_iface ipip_lease flannel_net stale_tunnel) as [_ Hr].
  - vm_compute. discriminate.
  - vm_compute. reflexivity.
  - repeat split; cbn; lia.
  - repeat split; cbn; lia.
  - destruct Hr as (link & w' & d & E & Ed & _ & Em & Eu & _ & _ & Ha & _).
    + intros d [= <-] [Hf|Hf]; [by apply Hf|discriminate Hf].
    + exists link, w', d. split; [exact E|]. split; [exact Ed|]. split; [exact Em|]. split; [exact Eu|].
      exact Ha.
Defined.
