(* ===== verification/Tencent.v ===== *)
(** * [pkg/backend/tencentvpc]: a route in the cloud for the node's subnet

    [tencentvpc.go] over the metadata service and the API of the cloud ([TencentCloud]); the laws of the route tables and
    what a registration leaves in them. *)

From Stdlib Require Import ZArith Lia Ascii.
From stdpp Require Import base strings list gmap numbers.
From S2P Require Import Prelude GoStrings GoJson GoNet GoNetFacts Ip4 Ip6 Lease Config Backend BackendFacts MeshConfig.

Local Open Scope Z_scope.

(** ** The cloud *)

(** A route as the SDK gives it: every field is a pointer. *)
Record VpcRoute := mkVpcRoute {
  vr_DestinationCidrBlock : option string;
  vr_GatewayId : option string;
  vr_GatewayType : option string;
  vr_RouteType : option string;
  vr_Enabled : option bool;
  vr_RouteId : option Z
}.
Record RouteTable := mkRouteTable { rt_RouteTableId : option string; rt_RouteSet : list VpcRoute }.
(** The credentials of a client and its region. *)
Record vpc_client := mkVpcClient { vpc_secretId : string; vpc_secretKey : string; vpc_region : string }.

Class TencentCloud (W : Type) := {
  (** a GET: the status and the body *)
  tc_Get : string → M W (Z * string);
  DescribeRouteTables : vpc_client → string → M W (list RouteTable);
  DeleteRoutes : vpc_client → option string → list (option Z) → M W unit;
  CreateRoutes : vpc_client → option string → list VpcRoute → M W unit;
  (** whether an error is the SDK's own *)
  TencentCloudSDKError : error → bool
}.

Record vpc_cfg := mkVpcCfg { AccessKeyID : string; AccessKeySecret : string }.
Definition vpc_cfg_field (c : vpc_cfg) (key raw : string) (v : json) : outcome vpc_cfg :=
  if field_name "AccessKeyID" key then s ← decode_string (AccessKeyID c) v; Ret (mkVpcCfg s (AccessKeySecret c))
  else if field_name "AccessKeySecret" key then s ← decode_string (AccessKeySecret c) v; Ret (mkVpcCfg (AccessKeyID c) s)
  else Ret c.
Definition vpc_config (backend : string) : outcome vpc_cfg :=
  if (0 <? String.length backend)%nat then
    match Unmarshal_struct vpc_cfg_field backend (mkVpcCfg "" "") with
    | Err err => Err (Wrapf "error decoding VPC backend config: %v" err)
    | r => r
    end
  else Ret (mkVpcCfg "" "").

Definition incomplete (c : vpc_cfg) : bool := bool_decide (AccessKeyID c = "") || bool_decide (AccessKeySecret c = "").

Definition gatewayType : string := "NORMAL_CVM".
Definition routeType : string := "USER".

Section tencent.
Context {W : Type} `{TencentCloud W, NodeEnv W, LeaseSource W}.

Definition get_vm_metadata (url : string) : M W string :=
  r ← try (tc_Get url);
  match r with
  | inl (status, body) => if status =? 200 then mret body else throw (Errorf "get vm region error: %v")
  | inr err => throw (Wrapf "get vm region error: %v" err)
  end.
Definition get_vm_region : M W string := get_vm_metadata "http://metadata.tencentyun.com/latest/meta-data/placement/region".
Definition get_vm_vpcid : M W string :=
  mac ← wrapping "get vm mac error: %v" (get_vm_metadata "http://metadata.tencentyun.com/latest/meta-data/mac");
  wrapping "get vm vpcid error: %v"
    (get_vm_metadata ("http://metadata.tencentyun.com/latest/meta-data/network/interfaces/macs/" +:+ mac +:+ "/vpc-id")).

(** The keys of the configuration, or those of the environment. *)
Definition vpc_keys (cfg : vpc_cfg) : M W vpc_cfg :=
  if incomplete cfg then
    id ← Getenv "ACCESS_KEY_ID";
    secret ← Getenv "ACCESS_KEY_SECRET";
    check (incomplete (mkVpcCfg id secret)) (Errorf "ACCESS_KEY_ID and ACCESS_KEY_SECRET must be provided! ");;
    mret (mkVpcCfg id secret)
  else mret cfg.

(** [*p == s]; what follows [&&] is looked at only when this holds. *)
Definition also (p : option string) (s : string) (k : outcome bool) : outcome bool := v ← deref p; if decide (v = s) then k else Ret false.
Definition is_own_route (subnet gateway : string) (route : VpcRoute) : outcome bool :=
  also (vr_DestinationCidrBlock route) subnet (also (vr_GatewayId route) gateway
    (also (vr_GatewayType route) gatewayType (also (vr_RouteType route) routeType (Ret true)))).

(** The walk over the routes: whether the route is there; one that is disabled is deleted. *)
Fixpoint check_routes (c : vpc_client) (table : option string) (subnet gateway : string) (exists_ : bool) (l : list VpcRoute) : M W bool :=
  match l with
  | [] => mret exists_
  | route :: l =>
      own ← lift (is_own_route subnet gateway route);
      if (own : bool) then
        enabled ← lift (deref (vr_Enabled route));
        if (enabled : bool) then check_routes c table subnet gateway true l
        else DeleteRoutes c table [vr_RouteId route];; check_routes c table subnet gateway exists_ l
      else check_routes c table subnet gateway exists_ l
  end.

Definition ensure_route (c : vpc_client) (routeTable : RouteTable) (subnet gateway : string) : M W unit :=
  found ← check_routes c (rt_RouteTableId routeTable) subnet gateway false (rt_RouteSet routeTable);
  if (found : bool) then mret tt
  else CreateRoutes c (rt_RouteTableId routeTable) [mkVpcRoute (Some subnet) (Some gateway) (Some gatewayType) None (Some true) None].

Definition vpc_RegisterNetwork (extIface : ExternalInterface) (config : Config) : M W SimpleNetwork :=
  cfg ← lift (vpc_config (cfg_Backend config));
  pub ← lift (FromIP (ExtAddr extIface));
  l ← acquire (mkLeaseAttrs pub None "" None None);
  cfg ← vpc_keys cfg;
  region ← get_vm_region;
  vpcid ← get_vm_vpcid;
  let c := mkVpcClient (AccessKeyID cfg) (AccessKeySecret cfg) region in
  r ← try (DescribeRouteTables c vpcid);
  match r with
  | inr err => throw (if TencentCloudSDKError err then Errorf "describe route table error: %v" else err)
  | inl [] => throw (Errorf "no suitable routing table found")
  | inl (routeTable :: _) =>
      ensure_route c routeTable (IP4Net_String (Subnet l)) (IP_String (ExtAddr extIface));;
      mret (mkSimpleNetwork (Some l) extIface)
  end.
End tencent.
