(* ===== verification/TencentFacts.v ===== *)
(** * Facts of [Tencent.v]: the routes that a registration leaves *)

From Stdlib Require Import ZArith Lia Ascii.
From stdpp Require Import base strings list gmap numbers.
From S2P Require Import Prelude GoStrings GoJson GoNet GoNetFacts Ip4 Ip6 Lease Config Backend BackendFacts MeshConfig Tencent.

Local Open Scope Z_scope.

(** The API fills in every field. *)
Definition complete_route (r : VpcRoute) : Prop :=
  is_Some (vr_DestinationCidrBlock r) ∧ is_Some (vr_GatewayId r) ∧ is_Some (vr_GatewayType r) ∧ is_Some (vr_RouteType r) ∧ is_Some (vr_Enabled r) ∧ is_Some (vr_RouteId r).
#[global] Instance complete_route_dec r : Decision (complete_route r).
Proof. apply _. Defined.

(** A route of the node for its subnet. *)
Definition own_route (subnet gateway : string) (r : VpcRoute) : Prop :=
  vr_DestinationCidrBlock r = Some subnet ∧ vr_GatewayId r = Some gateway ∧ vr_GatewayType r = Some gatewayType ∧ vr_RouteType r = Some routeType.
#[global] Instance own_route_dec s g r : Decision (own_route s g r).
Proof. apply _. Defined.
Definition disabled (subnet gateway : string) (r : VpcRoute) : Prop := own_route subnet gateway r ∧ vr_Enabled r = Some false.
#[global] Instance disabled_dec s g r : Decision (disabled s g r).
Proof. apply _. Defined.
Definition working (subnet gateway : string) (r : VpcRoute) : Prop := own_route subnet gateway r ∧ vr_Enabled r = Some true.
#[global] Instance working_dec s g r : Decision (working s g r).
Proof. apply _. Defined.

Class VpcLaws (W : Type) `{TencentCloud W} := {
  table_routes : W → option string → list VpcRoute;
  law_DeleteRoutes c t id w : id ∈ (vr_RouteId <$> table_routes w t) →
    ∃ w', DeleteRoutes c t [id] w = (Ret tt, w') ∧ table_routes w' t = filter (λ r, vr_RouteId r ≠ id) (table_routes w t) ∧ (∀ t', t' ≠ t → table_routes w' t' = table_routes w t');
  (** a route to a destination that has none is made by the user and gets an identifier of its own *)
  law_CreateRoutes c t d g gt e w : d ∉ (vr_DestinationCidrBlock <$> table_routes w t) →
    ∃ id w', CreateRoutes c t [mkVpcRoute d g gt None e None] w = (Ret tt, w') ∧ (Some id ∉ (vr_RouteId <$> table_routes w t)) ∧
      table_routes w' t = table_routes w t ++ [mkVpcRoute d g gt (Some "USER") e (Some id)] ∧ (∀ t', t' ≠ t → table_routes w' t' = table_routes w t')
}.

Lemma is_own_route_own s g r : complete_route r → is_own_route s g r = Ret (bool_decide (own_route s g r)).
Proof.
  destruct r as [d gw gt rt en id]. intros Hc. unfold complete_route in Hc. cbn in Hc. destruct Hc as ([d' ->] & [gw' ->] & [gt' ->] & [rt' ->] & _). unfold is_own_route, also, own_route. cbn [vr_DestinationCidrBlock vr_GatewayId vr_GatewayType vr_RouteType deref mbind outcome_bind].
  repeat case_decide; f_equal; symmetry; first [apply bool_decide_eq_true; naive_solver|apply bool_decide_eq_false; naive_solver].
Qed.

Section routes.
Context {W : Type} `{VpcLaws W} (c : vpc_client) (t : option string) (subnet gateway : string).


Lemma filter_keeps (P : VpcRoute → Prop) `{∀ r, Decision (P r)} l : Forall P l → filter P l = l.
Proof. induction 1 as [|r l Hr _ IH]; [done|]. by rewrite filter_cons_True, IH. Qed.

Lemma without_head kept l r : NoDup (vr_RouteId <$> (kept ++ r :: l)) → filter (λ x, vr_RouteId x ≠ vr_RouteId r) (kept ++ r :: l) = kept ++ l.
Proof.
  rewrite fmap_app, fmap_cons. intros (_ & Hd & [Hr _]%list.NoDup_cons)%list.NoDup_app. rewrite list.filter_app, filter_cons_False by auto.
  f_equal; apply filter_keeps, list.Forall_forall; intros x Hx E.
  - apply (Hd (vr_RouteId x)); [by apply list_elem_of_fmap_2|]. rewrite E. by left.
  - apply Hr. rewrite <- E. by apply list_elem_of_fmap_2.
Qed.

(** The walk deletes the node's routes that are disabled, and finds whether one works. *)
Lemma check_routes_run l : ∀ kept found w, table_routes w t = kept ++ l → NoDup (vr_RouteId <$> (kept ++ l)) → Forall complete_route l →
  ∃ w', check_routes c t subnet gateway found l w = (Ret (found || bool_decide (Exists (working subnet gateway) l)), w') ∧
    table_routes w' t = kept ++ filter (λ r, ¬ disabled subnet gateway r) l ∧ (∀ t', t' ≠ t → table_routes w' t' = table_routes w t') ∧
    (Forall (λ r, ¬ disabled subnet gateway r) l → w' = w).
Proof.
  induction l as [|r l IH]; intros kept found w Et Hnd Hc.
  { exists w. rewrite bool_decide_false, orb_false_r by (by intros F; inversion F). done. }
  apply Forall_cons_1 in Hc as [Hr Hc]. cbn [check_routes]. rewrite (is_own_route_own _ _ _ Hr). run.
  assert (∀ b, bool_decide (working subnet gateway r) = b → bool_decide (Exists (working subnet gateway) (r :: l)) = b || bool_decide (Exists (working subnet gateway) l)) as Hex.
  { intros b <-. rewrite <- bool_decide_or. apply bool_decide_ext. apply Exists_cons. }
  assert (table_routes w t = (kept ++ [r]) ++ l) as Et' by (by rewrite <- app_assoc).
  assert (NoDup (vr_RouteId <$> ((kept ++ [r]) ++ l))) as Hnd' by (by rewrite <- app_assoc).
  destruct (bool_decide_reflect (own_route subnet gateway r)) as [Ho|Ho]; cbn iota.
  - pose proof Hr as (_ & _ & _ & _ & [e He] & _). rewrite He. cbn [deref]. run. destruct e; cbn iota.
    + destruct (IH (kept ++ [r]) true w Et' Hnd' Hc) as (w' & E & T & O & K). exists w'. rewrite E, (Hex true), orb_true_r by (by apply bool_decide_eq_true).
      split; [done|]. rewrite filter_cons_True, T, <- app_assoc by (intros [_ F]; congruence). split; [done|]. split; [done|]. by intros [_ F]%Forall_cons_1; apply K.
    + assert (vr_RouteId r ∈ (vr_RouteId <$> table_routes w t)) as Hin by (rewrite Et; apply list_elem_of_fmap_2; apply elem_of_app; right; by left).
      destruct (law_DeleteRoutes c t (vr_RouteId r) w Hin) as (w1 & E1 & T1 & O1). rewrite (M_bind_Ret _ _ _ _ _ E1). rewrite Et, without_head in T1 by done.
      destruct (IH kept found w1 T1) as (w' & E & T & O & K).
      { rewrite fmap_app, fmap_cons in Hnd. rewrite fmap_app. apply list.NoDup_app in Hnd as (N1 & N2 & [_ N3]%list.NoDup_cons). apply list.NoDup_app. split; [done|]. split; [|done].
        intros x Hx Hx'. apply (N2 x Hx). by right. }
      { done. }
      exists w'. rewrite E, (Hex false) by (apply bool_decide_eq_false; intros [_ F]; congruence). split; [done|].
      rewrite filter_cons_False by (intros F; by apply F). split; [done|]. split; [by intros t' Ht'; rewrite O, O1|]. intros [F _]%Forall_cons_1. by destruct F.
  - destruct (IH (kept ++ [r]) found w Et' Hnd' Hc) as (w' & E & T & O & K). exists w'. rewrite E, (Hex false) by (apply bool_decide_eq_false; by intros [F _]).
    split; [done|]. rewrite filter_cons_True, T, <- app_assoc by (by intros [F _]). split; [done|]. split; [done|]. by intros [_ F]%Forall_cons_1; apply K.
Qed.
End routes.

(** When the subnet has no route through others, registration leaves in the first route table exactly one kind of route of the
    node for its subnet, enabled and at least one; all others of the table, and the other tables, stay; and when the
    node already had one and none that is disabled, as after a restart, nothing changes. *)
Theorem vpc_route_ensured W `{VpcLaws W} c t subnet gateway (w : W) :
  let rs := table_routes w t in
  Forall complete_route rs → NoDup (vr_RouteId <$> rs) →
  (∀ r, r ∈ rs → vr_DestinationCidrBlock r = Some subnet → own_route subnet gateway r) →
  ∃ w', ensure_route c (mkRouteTable t rs) subnet gateway w = (Ret tt, w') ∧
    Exists (working subnet gateway) (table_routes w' t) ∧ Forall (λ r, ¬ disabled subnet gateway r) (table_routes w' t) ∧
    filter (λ r, ¬ own_route subnet gateway r) (table_routes w' t) = filter (λ r, ¬ own_route subnet gateway r) rs ∧
    (∀ t', t' ≠ t → table_routes w' t' = table_routes w t') ∧
    (Exists (working subnet gateway) rs → Forall (λ r, ¬ disabled subnet gateway r) rs → w' = w).
Proof.
  intros rs Hc Hnd Hown. destruct (check_routes_run c t subnet gateway rs [] false w eq_refl Hnd Hc) as (w1 & E1 & T1 & O1 & K1). cbn [app orb] in *.
  assert (∀ l : list VpcRoute, filter (λ r, ¬ own_route subnet gateway r) (filter (λ r, ¬ disabled subnet gateway r) l) = filter (λ r, ¬ own_route subnet gateway r) l) as Hff.
  { intros l. rewrite list_filter_filter. apply list_filter_iff. intros r. unfold disabled. tauto. }
  unfold ensure_route. cbn [rt_RouteTableId rt_RouteSet]. rewrite (M_bind_Ret _ _ _ _ _ E1). case_bool_decide as Hw.
  - exists w1. split; [done|]. rewrite T1. split; [|split; [|split; [apply Hff|split; [done|by intros _ F; apply K1]]]].
    + apply list.Exists_exists in Hw as (r & Hr & Hwr). apply list.Exists_exists. exists r. split; [|done]. apply list_elem_of_filter. split; [|done]. intros [_ F]. destruct Hwr. congruence.
    + apply list.Forall_forall. intros r [Hr _]%list_elem_of_filter. done.
  - destruct (law_CreateRoutes c t (Some subnet) (Some gateway) (Some gatewayType) (Some true) w1) as (id & w2 & E2 & _ & T2 & O2).
    { rewrite T1. intros (r & Ed & [Hnd1 Hr]%list_elem_of_filter)%list_elem_of_fmap. assert (own_route subnet gateway r) as Ho by auto.
      apply Hw, list.Exists_exists. exists r. split; [done|]. split; [done|]. rewrite list.Forall_forall in Hc. destruct (Hc r Hr) as (_ & _ & _ & _ & [[] Hen] & _); [done|]. by destruct Hnd1. }
    exists w2. split; [done|]. rewrite T2, T1. split; [|split; [|split; [|split]]].
    + apply list.Exists_app. right. apply Exists_cons. left. done.
    + apply list.Forall_app. split; [apply list.Forall_forall; by intros r [Hr _]%list_elem_of_filter|]. apply list.Forall_cons. split; [by intros [_ F]|by apply list.Forall_nil].
    + rewrite list.filter_app, Hff, filter_cons_False, app_nil_r; [done|]. intros F. by apply F.
    + intros t' Ht'. by rewrite O2, O1.
    + by intros Hex.
Qed.

(** ** In memory *)

(** The routes of every table. *)
Abbreviation cloud := (option string → list VpcRoute).
Definition with_routes (t : option string) (l : list VpcRoute) (w : cloud) : cloud := λ t', if decide (t' = t) then l else w t'.
Definition next_route_id (l : list VpcRoute) : Z := 1 + foldr Z.max 0 (omap vr_RouteId l).
Definition accepted (l : list VpcRoute) (r : VpcRoute) : VpcRoute :=
  mkVpcRoute (vr_DestinationCidrBlock r) (vr_GatewayId r) (vr_GatewayType r) (Some "USER") (vr_Enabled r) (Some (next_route_id l)).
#[global] Instance cloud_TencentCloud : TencentCloud cloud := {
  tc_Get _ := mret (200, "vpc-1");
  DescribeRouteTables _ _ w := (Ret [mkRouteTable (Some "rtb-1") (w (Some "rtb-1"))], w);
  DeleteRoutes _ t ids w := (Ret tt, with_routes t (filter (λ r, vr_RouteId r ∉ ids) (w t)) w);
  CreateRoutes _ t rs w := (Ret tt, with_routes t (w t ++ (accepted (w t) <$> rs)) w);
  TencentCloudSDKError _ := false
}.

Lemma next_route_id_new l : Some (next_route_id l) ∉ (vr_RouteId <$> l).
Proof.
  intros Hin. assert (∀ i, Some i ∈ (vr_RouteId <$> l) → i <= foldr Z.max 0 (omap vr_RouteId l)) as Hle; [|specialize (Hle _ Hin); unfold next_route_id in Hle; lia].
  clear Hin. intros i. induction l as [|r l IH]; [by intros ?%not_elem_of_nil|]. rewrite fmap_cons. intros [E|Hi]%elem_of_cons; cbn [omap list_omap].
  - rewrite <- E. cbn [foldr]. lia.
  - specialize (IH Hi). destruct (vr_RouteId r); cbn [foldr]; lia.
Qed.

#[global, refine] Instance cloud_VpcLaws : VpcLaws cloud := { table_routes w := w }.
Proof.
  - intros c t id w _. eexists. split; [done|]. unfold with_routes. rewrite decide_True by done. split; [|intros t' Ht; by rewrite decide_False].
    apply list_filter_iff. intros r. by rewrite list_elem_of_singleton.
  - intros c t d g gt e w _. exists (next_route_id (w t)). eexists. split; [done|]. split; [apply next_route_id_new|]. unfold with_routes. rewrite decide_True by done.
    split; [done|]. intros t' Ht. by rewrite decide_False.
Defined.

Definition cloud_route (d g : string) (e : bool) (id : Z) : VpcRoute := mkVpcRoute (Some d) (Some g) (Some gatewayType) (Some routeType) (Some e) (Some id).
Definition sample_cloud : cloud := λ _, [cloud_route "0.0.0.0/0" "10.0.0.1" true 1; cloud_route "10.5.1.0/24" "192.168.1.1" false 2].

Lemma vpc_route_ensured_witness : ∃ w',
  ensure_route (mkVpcClient "id" "key" "region") (mkRouteTable (Some "rtb-1") (sample_cloud (Some "rtb-1"))) "10.5.1.0/24" "192.168.1.1" sample_cloud = (Ret tt, w') ∧
  Exists (working "10.5.1.0/24" "192.168.1.1") (w' (Some "rtb-1")).
Proof.
  destruct (vpc_route_ensured cloud (mkVpcClient "id" "key" "region") (Some "rtb-1") "10.5.1.0/24" "192.168.1.1" sample_cloud) as (w' & E & Hw & _).
  - apply (bool_decide_unpack _). vm_compute. exact I.
  - apply (bool_decide_unpack _). vm_compute. exact I.
  - intros r [->|[->|[]%not_elem_of_nil]%elem_of_cons]%elem_of_cons Hd; [discriminate Hd|]. repeat split.
  - exists w'. split; [exact E|exact Hw].
Defined.
