(* ===== verification/Main.v ===== *)
(** * [main.go]: the life of the daemon

    What [main] does from the command line to the exit code, over the real traffic
    managers, with the subnet manager and the backends behind their interfaces.  The store is the host, the
    two traffic managers of the process, its readiness, and a trace of what the process does to itself. *)

From Stdlib Require Import ZArith Lia Ascii.
From stdpp Require Import base strings list gmap numbers.
From S2P Require Import Prelude GoStrings GoNet Ip4 Ip6 Lease Config LocalManager IpTables NfTables Backend Iface IpMatch Kube Daemon MeshConfig.

Local Open Scope Z_scope.

(** ** The command line *)

Record CmdLineOpts := mkCmdLineOpts {
  etcdEndpoints : string;
  etcdPrefix : string;
  etcdKeyfile : string;
  etcdCertfile : string;
  etcdCAFile : string;
  etcdUsername : string;
  etcdPassword : string;
  opt_version : bool;
  kubeSubnetMgr : bool;
  kubeApiUrl : string;
  kubeAnnotationPrefix : string;
  kubeConfigFile : string;
  ifaceOpts : IfaceOpts;
  opt_ipMasq : bool;
  ipMasqRandomFullyDisable : bool;
  subnetFile : string;
  subnetLeaseRenewMargin : Z;
  healthzIP : string;
  healthzPort : Z;
  iptablesResyncSeconds : Z;
  iptablesForwardRules : bool;
  blackholeRoute : bool;
  netConfPath : string;
  opt_setNodeNetworkUnavailable : bool
}.

(** The values that [init] gives the flags. *)
Definition default_opts : CmdLineOpts := mkCmdLineOpts
  "http://127.0.0.1:4001,http://127.0.0.1:2379" "/coreos.com/network" "" "" "" "" "" false false "" "flannel.alpha.coreos.com" ""
  (mkIfaceOpts [] [] "" "" "") false false "/run/flannel/subnet.env" 60 "0.0.0.0" 0 5 true false
  "/etc/kube-flannel/net-conf.json" true.

(** ** What [main] is written against *)

(** A [subnet.Manager]; [sub_CompleteLease] says whether the call has returned. *)
Record SubnetManager (W : Type) := mkSubnetManager {
  sub_GetNetworkConfig : M W (option Config);
  sub_GetStoredPublicIP : M W (string * string);
  sub_HandleSubnetFile : string → Config → bool → IP4Net → IP6Net → Z → M W unit;
  sub_CompleteLease : Lease → M W bool
}.
Arguments mkSubnetManager {W}.
Arguments sub_GetNetworkConfig {W}.
Arguments sub_GetStoredPublicIP {W}.
Arguments sub_HandleSubnetFile {W}.
Arguments sub_CompleteLease {W}.

(** A [backend.Network]: its lease and its MTU; it runs in a goroutine of its own.  Where the lease is nil, [main] panics. *)
Record Network := mkNetwork { bn_Lease : option Lease; bn_MTU : Z }.

Record EtcdConfig := mkEtcdConfig {
  ec_Endpoints : list string;
  ec_Keyfile : string;
  ec_Certfile : string;
  ec_CAFile : string;
  ec_Prefix : string;
  ec_Username : string;
  ec_Password : string
}.

(** A Go call that returns a value and an error, each of which may be nil. *)
Abbreviation pair_result A := (option A * option error)%type.

(** ** The process *)

Inductive goroutine := GoShutdownHandler | GoHealthzServer | GoHealthzStop | GoBlackhole (fam : IpFamily) | GoBackendRun.

(** What the process does to itself: it starts goroutines, cancels its context, waits for its goroutines,
    says that it is ready, exits.  [Blocked] is a run that has not ended. *)
Inductive event := Spawned (g : goroutine) | Cancelled | Waited | Ready | Notified | Exited (code : Z) | Blocked.
#[global] Instance IpFamily_eq_dec : EqDecision IpFamily.
Proof. solve_decision. Defined.
#[global] Instance goroutine_eq_dec : EqDecision goroutine.
Proof. solve_decision. Defined.
#[global] Instance event_eq_dec : EqDecision event.
Proof. solve_decision. Defined.

Record Process (W : Type) := mkProcess {
  p_node : W;
  p_iptables : list IPTablesRule * list IPTablesRule * list resync;
  p_nftables : option nft_Interface * option nft_Interface;
  isReady : bool;
  trace : list event
}.
Arguments mkProcess {W}.
Arguments p_node {W}.
Arguments p_iptables {W}.
Arguments p_nftables {W}.
Arguments isReady {W}.
Arguments trace {W}.

(** What main receives while it waits for the network configuration: the second that passes, or a signal. *)
Inductive wake := Timer | Signal.

(** [net.JoinHostPort]. *)
Definition JoinHostPort (host port : string) : string :=
  if negb (str_all (λ c, negb (Ascii.eqb c ":")) host) then "[" +:+ host +:+ "]:" +:+ port else host +:+ ":" +:+ port.

Definition StatusOK : Z := 200.
Definition StatusServiceUnavailable : Z := 503.
Definition healthz : Z * string := (StatusOK, "flanneld is running").
Definition readyz (ready : bool) : Z * string :=
  if ready then (StatusOK, "flanneld is ready") else (StatusServiceUnavailable, "flanneld is not ready yet").

(** The text of an error made without arguments. *)
Definition error_text (e : error) : string :=
  match e with Sentinel s | Errorf s | Wrapf s _ => s | Joined _ _ => "" end.

(** The flags that the environment sets ([flagutil.SetFlagsFromEnv]), and the constructors of the two subnet managers. *)
Class DaemonEnv (W : Type) := {
  SetFlagsFromEnv : string → CmdLineOpts → M W CmdLineOpts;
  kube_NewSubnetManager : string → string → string → string → bool → M W (pair_result (SubnetManager W));
  etcd_NewLocalManager : EtcdConfig → IP4Net → IP6Net → Z → M W (pair_result (SubnetManager W))
}.

Section process.
Context {W : Type} `{IfaceHost W, AddrSort, Netfilter W, Knftables W, EnvFiles W, NodeEnv W, DaemonEnv W}.
Context (Compile : string → outcome (string → bool)).
(** The registered backends: a constructor gives what registers a network. *)
Context (constructors : SubnetManager W → ExternalInterface → gmap string (M W (Config → M W Network))).
Abbreviation P := (M (Process W)).

Definition on_node {A} (m : M W A) : P A := λ s,
  let '(r, w) := m (p_node s) in (r, mkProcess w (p_iptables s) (p_nftables s) (isReady s) (trace s)).
Definition on_iptables {A} (m : M (IPTablesManager W) A) : P A := λ s,
  let '(v4, v6, rs) := p_iptables s in
  let '(r, i) := m (mkIPTablesManager v4 v6 rs (p_node s)) in
  (r, mkProcess (host i) (ipv4Rules i, ipv6Rules i, resyncs i) (p_nftables s) (isReady s) (trace s)).
Definition on_nftables {A} (m : M (NFTablesManager W) A) : P A := λ s,
  let '(r, n) := m (mkNFTablesManager (p_nftables s).1 (p_nftables s).2 (p_node s)) in
  (r, mkProcess (nft_host n) (p_iptables s) (nftv4 n, nftv6 n) (isReady s) (trace s)).

Definition emit (e : event) : P unit := modify (λ s, mkProcess (p_node s) (p_iptables s) (p_nftables s) (isReady s) (trace s ++ [e])).
Definition set_ready : P unit := modify (λ s, mkProcess (p_node s) (p_iptables s) (p_nftables s) true (trace s ++ [Ready])).
Definition go (g : goroutine) : P unit := emit (Spawned g).
Definition cancel : P unit := emit Cancelled.

(** [os.Exit] ends the process; [wg.Wait] returns when the goroutines of the group have, which they do once
    the context is cancelled. *)
Definition os_Exit {A} (code : Z) : P A := emit (Exited code);; throw (Sentinel "os.Exit").
Definition wg_Wait : P unit := emit Waited.
Definition hangs {A} : P A := emit Blocked;; throw (Sentinel "blocked").

(** The end of a start that failed once there is a backend. *)
Definition abandon_start {A} : P A := cancel;; wg_Wait;; os_Exit 1.
Definition or_abandon {A} (m : P A) : P A :=
  r ← try m;
  match r with inl a => mret a | inr _ => abandon_start end.
Definition or_exit {A} (m : P A) : P A :=
  r ← try m;
  match r with inl a => mret a | inr _ => os_Exit 1 end.

(** ** The traffic managers *)

Inductive TrafficManager := IPTables | NFTables.

Definition newTrafficManager (useNftables : bool) : P TrafficManager := λ s,
  if useNftables then (Ret NFTables, mkProcess (p_node s) (p_iptables s) (None, None) (isReady s) (trace s))
  else (Ret IPTables, mkProcess (p_node s) ([], [], []) (p_nftables s) (isReady s) (trace s)).
Definition tm_Init (t : TrafficManager) : P unit :=
  match t with IPTables => on_iptables IPTablesManager_Init | NFTables => on_nftables NFTablesManager_Init end.
Definition tm_CleanUp (t : TrafficManager) : P unit :=
  match t with IPTables => on_iptables IPTablesManager_CleanUp | NFTables => on_nftables NFTablesManager_CleanUp end.
Definition tm_SetupAndEnsureForwardRules (t : TrafficManager) (n4 : IP4Net) (n6 : IP6Net) : P unit :=
  match t with
  | IPTables => on_iptables (SetupAndEnsureForwardRules n4 n6)
  | NFTables => on_nftables (nft_SetupAndEnsureForwardRules n4 n6)
  end.
Definition tm_SetupAndEnsureMasqRules (t : TrafficManager) (n4 prevSubnet prevNetwork : IP4Net) (n6 prevIPv6Subnet prevIPv6Network : IP6Net)
    (l : Lease) (disable : bool) : P unit :=
  match t with
  | IPTables => on_iptables (SetupAndEnsureMasqRules n4 prevSubnet prevNetwork n6 prevIPv6Subnet prevIPv6Network l disable)
  | NFTables => on_nftables (nft_SetupAndEnsureMasqRules n4 n6 l disable)
  end.

(** ** The subnet manager and the network configuration *)

Definition newSubnetManager (opts : CmdLineOpts) : M W (pair_result (SubnetManager W)) :=
  if kubeSubnetMgr opts then
    kube_NewSubnetManager (kubeApiUrl opts) (kubeConfigFile opts) (kubeAnnotationPrefix opts) (netConfPath opts) (opt_setNodeNetworkUnavailable opts)
  else
    let cfg := mkEtcdConfig (split_char "," (etcdEndpoints opts)) (etcdKeyfile opts) (etcdCertfile opts) (etcdCAFile opts) (etcdPrefix opts)
                 (etcdUsername opts) (etcdPassword opts) in
    prevSubnet ← ReadCIDRFromSubnetFile (subnetFile opts) "FLANNEL_SUBNET";
    prevIPv6Subnet ← ReadIP6CIDRFromSubnetFile (subnetFile opts) "FLANNEL_IPV6_SUBNET";
    etcd_NewLocalManager cfg prevSubnet prevIPv6Subnet (subnetLeaseRenewMargin opts).

(** Go on without a synchronised node cache when the environment says so. *)
Definition start_manager (opts : CmdLineOpts) : P (SubnetManager W) :=
  r ← on_node (newSubnetManager opts);
  (match r.2 with
   | None => mret tt
   | Some e =>
       contCacheNotReady ← on_node (Getenv "CONT_WHEN_CACHE_NOT_READY");
       if decide (contCacheNotReady = "true" ∧ errors_Is e "context deadline exceeded" = true) then mret tt else os_Exit 1
   end);;
  lift (deref r.1).

(** The goroutine, when a signal comes first. *)
Definition shutdownHandler : P unit := cancel.

(** Every second until there is a configuration; [None] is [errCanceled]. *)
Fixpoint getConfig (sm : SubnetManager W) (wakes : list wake) : P (option Config) :=
  r ← try (on_node (sub_GetNetworkConfig sm));
  match r with
  | inl (Some config) => mret (Some config)
  | _ =>
      match wakes with
      | [] => hangs
      | Timer :: wakes => getConfig sm wakes
      | Signal :: _ => shutdownHandler;; mret None
      end
  end.

Definition mustRunHealthz (opts : CmdLineOpts) : P string :=
  let address := JoinHostPort (healthzIP opts) (fmt_int (healthzPort opts)) in
  go GoHealthzServer;; go GoHealthzStop;; mret address.

(** The address stack, and the kernel module that the iptables rules need. *)
Definition br_netfilter_missing (path : string) : P bool :=
  r ← try (on_node (Stat path));
  mret (match r with inr e => bool_decide (e = ErrNotExist) | inl _ => false end).
Definition preflight (config : Config) : P IpStack :=
  ipStack ← or_exit (lift (GetIPFamily (cfg_EnableIPv4 config) (cfg_EnableIPv6 config)));
  (if cfg_EnableNFTables config then mret tt
   else
     (if cfg_EnableIPv4 config then
        missing ← br_netfilter_missing "/proc/sys/net/bridge/bridge-nf-call-iptables"; if (missing : bool) then os_Exit 1 else mret tt
      else mret tt);;
     (if cfg_EnableIPv6 config then
        missing ← br_netfilter_missing "/proc/sys/net/bridge/bridge-nf-call-ip6tables"; if (missing : bool) then os_Exit 1 else mret tt
      else mret tt));;
  mret ipStack.

(** ** The backend and the rules *)

Definition get_backend (sm : SubnetManager W) (extIface : ExternalInterface) (backendType : string) : M W (Config → M W Network) := λ w,
  let '(r, bm) := GetBackend (constructors sm extIface) backendType (mkManager ∅ w) in (r, manager_store bm).

Definition register_network (sm : SubnetManager W) (extIface : ExternalInterface) (config : Config) : P Network :=
  be ← or_abandon (on_node (get_backend sm extIface (cfg_BackendType config)));
  or_abandon (on_node (be config)).

(** The rules of the manager that is not used go away before the other starts. *)
Definition start_traffic (config : Config) : P TrafficManager :=
  cleanupMngr ← newTrafficManager (negb (cfg_EnableNFTables config));
  or_abandon (tm_CleanUp cleanupMngr);;
  trafficMngr ← newTrafficManager (cfg_EnableNFTables config);
  or_abandon (tm_Init trafficMngr);;
  mret trafficMngr.

Definition setup_rules (opts : CmdLineOpts) (config : Config) (bn : Network) (trafficMngr : TrafficManager) : P unit :=
  (if opt_ipMasq opts then
     prevNetwork ← on_node (ReadCIDRFromSubnetFile (subnetFile opts) "FLANNEL_NETWORK");
     prevSubnet ← on_node (ReadCIDRFromSubnetFile (subnetFile opts) "FLANNEL_SUBNET");
     prevIPv6Network ← on_node (ReadIP6CIDRFromSubnetFile (subnetFile opts) "FLANNEL_IPV6_NETWORK");
     prevIPv6Subnet ← on_node (ReadIP6CIDRFromSubnetFile (subnetFile opts) "FLANNEL_IPV6_SUBNET");
     l ← lift (deref (bn_Lease bn));
     or_abandon (tm_SetupAndEnsureMasqRules trafficMngr (cfg_Network config) prevSubnet prevNetwork (cfg_IPv6Network config) prevIPv6Subnet
       prevIPv6Network l (ipMasqRandomFullyDisable opts))
   else mret tt);;
  if iptablesForwardRules opts
  then tm_SetupAndEnsureForwardRules trafficMngr (cfg_Network config) (cfg_IPv6Network config)
  else mret tt.

(** The goroutines that add the blackhole routes, and what one of them does every
    [iptablesResyncSeconds]. *)
Definition start_blackhole (opts : CmdLineOpts) (config : Config) : P unit :=
  if blackholeRoute opts then
    (if cfg_EnableIPv4 config then go (GoBlackhole FAMILY_V4) else mret tt);;
    (if cfg_EnableIPv6 config then go (GoBlackhole FAMILY_V6) else mret tt)
  else mret tt.
Definition blackhole_tick (fam : IpFamily) (bn : Network) : P unit :=
  l ← lift (deref (bn_Lease bn));
  r ← try (on_node (match fam with
                    | FAMILY_V4 => AddBlackholeV4Route (IP4Net_ToIPNet (Subnet l))
                    | FAMILY_V6 => n ← lift (IP6Net_ToIPNet (IPv6Subnet l)); AddBlackholeV6Route n
                    end));
  mret tt.

(** Readiness is the subnet file. *)
Definition publish (sm : SubnetManager W) (opts : CmdLineOpts) (config : Config) (bn : Network) : P unit :=
  l ← lift (deref (bn_Lease bn));
  r ← try (on_node (sub_HandleSubnetFile sm (subnetFile opts) config (opt_ipMasq opts) (Subnet l) (IPv6Subnet l) (bn_MTU bn)));
  match r with inl _ => set_ready | inr _ => mret tt end.

(** The network runs until the lease or the process ends. *)
Definition is_interrupted (e : error) : bool := bool_decide (ToLower (error_text e) = "interrupted").
Definition serve (sm : SubnetManager W) (bn : Network) : P unit :=
  go GoBackendRun;;
  emit Notified;;
  l ← lift (deref (bn_Lease bn));
  r ← try (on_node (sub_CompleteLease sm l));
  (match r with
   | inr e => if is_interrupted e then cancel else mret tt
   | inl true => mret tt
   | inl false => hangs
   end);;
  wg_Wait;;
  os_Exit 0.

(** ** [main] *)

Definition bring_up (sm : SubnetManager W) (opts : CmdLineOpts) (config : Config) : P Network :=
  ipStack ← preflight config;
  annotated ← on_node (sub_GetStoredPublicIP sm);
  extIface ← or_exit (on_node (external_interface Compile (ifaceOpts opts) annotated ipStack));
  bn ← register_network sm extIface config;
  trafficMngr ← start_traffic config;
  setup_rules opts config bn trafficMngr;;
  start_blackhole opts config;;
  publish sm opts config bn;;
  mret bn.

Definition main (flags : CmdLineOpts) (wakes : list wake) : P unit :=
  (if opt_version flags then os_Exit 0 else mret tt);;
  opts ← on_node (SetFlagsFromEnv "FLANNELD" flags);
  (if decide (24 * 60 <= subnetLeaseRenewMargin opts ∨ subnetLeaseRenewMargin opts <= 0) then os_Exit 1 else mret tt);;
  sm ← start_manager opts;
  go GoShutdownHandler;;
  (if decide (0 < healthzPort opts) then mustRunHealthz opts;; mret tt else mret tt);;
  config ← getConfig sm wakes;
  match config with
  | None => wg_Wait;; os_Exit 0
  | Some config => bn ← bring_up sm opts config; serve sm bn
  end.
End process.

(** ** The two subnet managers *)

(** The etcd manager, with what [CompleteLease] receives, and the Kubernetes manager. *)
Definition etcd_GetStoredPublicIP {W} : M W (string * string) := mret ("", "").
Definition etcd_manager {W} `{EnvFiles W, Registry W} (m : LocalManager) (now : Z) (inputs : list complete_input) : SubnetManager W :=
  mkSubnetManager
    (c ← GetNetworkConfig; mret (Some c))
    etcd_GetStoredPublicIP
    etcd_HandleSubnetFile
    (λ l, r ← CompleteLease m l now inputs;
          match r with inl _ => mret false | inr e => throw e end).

Definition kube_GetNetworkConfig {W} (ksm : kubeSubnetManager) : M W (option Config) := mret (Some (subnetConf ksm)).
Definition kube_manager {W} `{EnvFiles W, KubeClient W} (ksm : kubeSubnetManager) : SubnetManager W :=
  mkSubnetManager
    (kube_GetNetworkConfig ksm)
    (kube_GetStoredPublicIP ksm)
    (λ path config ipMasq sn sn6 mtu w, let '(r, s) := kube_HandleSubnetFile path config ipMasq sn sn6 mtu (None, w) in (r, s.2))
    (λ _, kube_CompleteLease ksm;; mret true).
