(* ===== verification/MainFacts.v ===== *)
(** * Facts of [Main.v]: the order of the daemon's life

    The traces that a run can leave, from which the order of its steps follows; what holds on the
    host when it becomes ready; the end of a revoked lease. *)

From Stdlib Require Import ZArith Lia Ascii.
From stdpp Require Import base strings list gmap numbers.
From S2P Require Import Prelude GoStrings GoNet Ip4 Ip6 Lease Config LocalManager IpTables IpTablesFacts NfTables Backend Iface IpMatch Kube Daemon MeshConfig Main.

Local Open Scope Z_scope.

(** ** Calls and the trace *)

Section traces.
Context {W : Type} `{IfaceHost W, AddrSort, Netfilter W, Knftables W, EnvFiles W, NodeEnv W, DaemonEnv W}.
Context (Compile : string → outcome (string → bool)).
Context (constructors : SubnetManager W → ExternalInterface → gmap string (M W (Config → M W Network))).
Abbreviation P := (M (Process W)).

(** The process is ready when it has said so. *)
Definition honest (s : Process W) : Prop := isReady s = bool_decide (Ready ∈ trace s).

(** A call that starts with the trace [t]: the trace it leaves when it returns, and when it does not. *)
Definition ends {A} (t : list event) (m : P A) (Q : A → list event → Prop) (E : list event → Prop) : Prop :=
  triple (λ s, trace s = t ∧ honest s) m (λ a s, Q a (trace s) ∧ honest s) (λ s, E (trace s) ∧ honest s).

(** A call that leaves the trace alone. *)
Definition silent {A} (m : P A) : Prop := ∀ s, trace (m s).2 = trace s ∧ isReady (m s).2 = isReady s.

Lemma silent_ret {A} (a : A) : silent (mret a).
Proof. by intros s. Qed.
Lemma silent_lift {A} (o : outcome A) : silent (lift o).
Proof. by intros s. Qed.
Lemma silent_bind {A B} (m : P A) (f : A → P B) : silent m → (∀ a, silent (f a)) → silent (x ← m; f x).
Proof.
  intros Hm Hf s. destruct (Hm s) as [Ht Hr]. unfold mbind, M_bind. destruct (m s) as [[a|e|] s1]; [|done..].
  destruct (Hf a s1) as [Ht1 Hr1]. cbn in *. split; congruence.
Qed.
Lemma silent_try {A} (m : P A) : silent m → silent (try m).
Proof. intros Hm s. destruct (Hm s). unfold try. by destruct (m s) as [[a|e|] s1]. Qed.
Lemma silent_on_node {A} (m : M W A) : silent (on_node m).
Proof. intros s. unfold on_node. by destruct (m (p_node s)). Qed.
Lemma silent_on_iptables {A} (m : M (IPTablesManager W) A) : silent (on_iptables m).
Proof. intros s. unfold on_iptables. destruct (p_iptables s) as [[v4 v6] rs]. by destruct (m _). Qed.
Lemma silent_on_nftables {A} (m : M (NFTablesManager W) A) : silent (on_nftables m).
Proof. intros s. unfold on_nftables. by destruct (m _). Qed.
Lemma silent_newTrafficManager b : silent (newTrafficManager b).
Proof. intros s. by destruct b. Qed.
Lemma silent_tm_Init t : silent (tm_Init t).
Proof. destruct t; [apply silent_on_iptables|apply silent_on_nftables]. Qed.
Lemma silent_tm_CleanUp t : silent (tm_CleanUp t).
Proof. destruct t; [apply silent_on_iptables|apply silent_on_nftables]. Qed.
Lemma silent_tm_Forward t n4 n6 : silent (tm_SetupAndEnsureForwardRules t n4 n6).
Proof. destruct t; [apply silent_on_iptables|apply silent_on_nftables]. Qed.
Lemma silent_tm_Masq t n4 ps pn n6 ps6 pn6 l d : silent (tm_SetupAndEnsureMasqRules t n4 ps pn n6 ps6 pn6 l d).
Proof. destruct t; [apply silent_on_iptables|apply silent_on_nftables]. Qed.

Lemma ends_ret {A} t (a : A) (Q : A → list event → Prop) E : Q a t → ends t (mret a) Q E.
Proof. intros HQ. apply triple_ret. by intros s [-> Hs]. Qed.
Lemma ends_bind {A B} t (m : P A) (f : A → P B) R Q E : ends t m R E → (∀ a t', R a t' → ends t' (f a) Q E) → ends t (x ← m; f x) Q E.
Proof.
  intros Hm Hf. eapply triple_bind; [exact Hm|]. intros a s [HR Hs]. apply (Hf a (trace s) HR). done.
Qed.
Lemma ends_silent {A} t (m : P A) (Q : A → list event → Prop) E : silent m → (∀ a, Q a t) → E t → ends t m Q E.
Proof.
  intros Hm HQ HE s [Ht Hs]. destruct (Hm s) as [Et Er]. unfold honest in *. rewrite <- Er, <- Et in Hs. rewrite Ht in Et.
  destruct (m s) as [[a|e|] s1]; cbn in *; (split; [rewrite Et; auto|done]).
Qed.
Lemma ends_weaken {A} t (m : P A) (Q Q' : A → list event → Prop) (E E' : list event → Prop) :
  ends t m Q E → (∀ a t', Q a t' → Q' a t') → (∀ t', E t' → E' t') → ends t m Q' E'.
Proof.
  intros Hm HQ HE. apply (triple_weaken _ _ _ _ _ _ _ Hm); [done|intros a s [? ?]; auto|intros s [? ?]; auto].
Qed.
Lemma ends_emit t e Q E : e ≠ Ready → Q tt (t ++ [e]) → ends t (emit (W := W) e) Q E.
Proof.
  intros He HQ s [<- Hs]. cbn. split; [done|]. unfold honest in *. cbn. rewrite Hs. apply bool_decide_ext.
  rewrite elem_of_app, list_elem_of_singleton. split; [by left|]. intros [?|E1]; [done|by subst].
Qed.
Lemma ends_ready t Q E : Q tt (t ++ [Ready]) → ends t (set_ready (W := W)) Q E.
Proof. intros HQ s [<- Hs]. cbn. split; [done|]. unfold honest. cbn. rewrite bool_decide_eq_true_2; [done|]. apply elem_of_app. right. by left. Qed.

(** One event, then the rest. *)
Lemma ends_step {B} t e (m : P B) (Q : B → list event → Prop) E : e ≠ Ready → ends (t ++ [e]) m Q E → ends t (emit e;; m) Q E.
Proof. intros He Hm. apply (ends_bind _ _ _ (λ _ t', t' = t ++ [e])); [by apply ends_emit|]. by intros [] t' ->. Qed.
Lemma ends_quiet {A B} t (m : P A) (f : A → P B) Q E : silent m → E t → (∀ a, ends t (f a) Q E) → ends t (x ← m; f x) Q E.
Proof. intros Hm HE Hf. apply (ends_bind _ _ _ (λ _ t', t' = t)); [by apply ends_silent|]. by intros a t' ->. Qed.

Lemma ends_throw {A} t e (Q : A → list event → Prop) (E : list event → Prop) : E t → ends t (throw e) Q E.
Proof. intros HE. apply triple_throw. by intros s [-> Hs]. Qed.
Lemma ends_exit {A} t c (Q : A → list event → Prop) (E : list event → Prop) : E (t ++ [Exited c]) → ends t (os_Exit c) Q E.
Proof. intros HE. unfold os_Exit. apply ends_step; [done|]. by apply ends_throw. Qed.
Lemma ends_block {A} t (Q : A → list event → Prop) (E : list event → Prop) : E (t ++ [Blocked]) → ends t hangs Q E.
Proof. intros HE. unfold hangs. apply ends_step; [done|]. by apply ends_throw. Qed.
Lemma ends_stop {A} t c (Q : A → list event → Prop) (E : list event → Prop) :
  E (t ++ [Waited; Exited c]) → ends t (wg_Wait;; os_Exit c) Q E.
Proof. intros HE. apply ends_step; [done|]. apply ends_exit. by rewrite <- app_assoc. Qed.

Lemma ends_handled {A} t (m : P A) (h : P A) (Q : A → list event → Prop) E : silent m → E t → ends t h Q E → (∀ a, Q a t) →
  ends t (r ← try m; match r with inl a => mret a | inr _ => h end) Q E.
Proof. intros Hm HE Hh HQ. apply ends_quiet; [by apply silent_try|done|]. intros [a|e]; [by apply ends_ret|done]. Qed.
Lemma ends_or_exit {A} t (m : P A) (Q : A → list event → Prop) (E : list event → Prop) : silent m → E t → E (t ++ [Exited 1]) →
  (∀ a, Q a t) → ends t (or_exit m) Q E.
Proof. intros. apply ends_handled; [done..| |done]. by apply ends_exit. Qed.
Lemma ends_or_give_up {A} t (m : P A) (Q : A → list event → Prop) (E : list event → Prop) : silent m → E t →
  E (t ++ [Cancelled; Waited; Exited 1]) → (∀ a, Q a t) → ends t (or_abandon m) Q E.
Proof.
  intros. apply ends_handled; [done..| |done]. unfold abandon_start. apply ends_step; [done|]. apply ends_stop. by rewrite <- app_assoc.
Qed.

(** ** The traces of a run *)

Definition boots : list (list event) := [[Spawned GoShutdownHandler]; [Spawned GoShutdownHandler; Spawned GoHealthzServer; Spawned GoHealthzStop]].
Definition blackholes : list (list event) := [[]; [Spawned (GoBlackhole FAMILY_V4)]; [Spawned (GoBlackhole FAMILY_V6)];
  [Spawned (GoBlackhole FAMILY_V4); Spawned (GoBlackhole FAMILY_V6)]].
Definition failures : list (list event) := [[]; [Exited 1]; [Cancelled; Waited; Exited 1]].
Definition services : list (list event) :=
  (app [Spawned GoBackendRun; Notified]) <$> [[]; [Blocked]; [Waited; Exited 0]; [Cancelled; Waited; Exited 0]].
Definition appends (xs ys : list (list event)) : list (list event) := x ← xs; (app x) <$> ys.
Definition lives : list (list event) :=
  [[]; [Exited 0]; [Exited 1]] ++
  appends boots ([[Blocked]; [Cancelled; Waited; Exited 0]] ++ failures ++ appends blackholes ([[]] ++ appends [[]; [Ready]] ([[]] ++ services))).

Lemma in_appends x y xs ys : x ∈ xs → y ∈ ys → x ++ y ∈ appends xs ys.
Proof. intros Hx Hy. apply list_elem_of_bind. exists x. split; [|done]. apply list_elem_of_fmap. by exists y. Qed.
Lemma in_lives b y : b ∈ boots → y ∈ [[Blocked]; [Cancelled; Waited; Exited 0]] ++ failures → b ++ y ∈ lives.
Proof. intros Hb Hy. unfold lives. apply elem_of_app. right. apply in_appends; [done|]. rewrite app_assoc. apply elem_of_app. by left. Qed.
Lemma in_lives_up b h y : b ∈ boots → h ∈ blackholes → y ∈ [[]] ++ appends [[]; [Ready]] ([[]] ++ services) → (b ++ h) ++ y ∈ lives.
Proof.
  intros Hb Hh Hy. unfold lives. apply elem_of_app. right. rewrite <- app_assoc. apply in_appends; [done|].
  apply elem_of_app. right. apply elem_of_app. right. by apply in_appends.
Qed.
Ltac listed := rewrite ?elem_of_app, ?list_elem_of_singleton; set_solver.

(** How far a start has come: the goroutines of the process, the blackhole routes, readiness. *)
Definition booted (t : list event) : Prop := t ∈ boots.
Definition raised (t : list event) : Prop := ∃ b h r, b ∈ boots ∧ h ∈ blackholes ∧ r ∈ [[]; [Ready]] ∧ t = (b ++ h) ++ r.
Abbreviation alive := (λ t, t ∈ lives).

Lemma lives_booted t y : booted t → y ∈ [[Blocked]; [Cancelled; Waited; Exited 0]] ++ failures → t ++ y ∈ lives.
Proof. apply in_lives. Qed.
Lemma lives_now t : booted t → t ∈ lives.
Proof. intros Ht. rewrite <- (app_nil_r t). apply lives_booted; [done|]. set_solver. Qed.

(** A call that leaves the trace where it is, or ends a run. *)
Definition stays {A} (t : list event) (m : P A) : Prop := ends t m (λ _ t', t' = t) alive.

Lemma stays_bind {A B} t (m : P A) (f : A → P B) Q : stays t m → (∀ a, ends t (f a) Q alive) → ends t (x ← m; f x) Q alive.
Proof. intros Hm Hf. apply (ends_bind _ _ _ _ _ _ Hm). by intros a t' ->. Qed.
Lemma stays_silent {A} t (m : P A) : booted t → silent m → stays t m.
Proof. intros Ht Hm. apply ends_silent; [done..|]. by apply lives_now. Qed.
Lemma stays_ret {A} t (a : A) : stays t (mret a).
Proof. by apply ends_ret. Qed.
Lemma stays_exit {A} t : booted t → stays t (os_Exit (A := A) 1).
Proof. intros Ht. apply ends_exit, lives_booted; [done|]. set_solver. Qed.
Lemma stays_or_exit {A} t (m : P A) : booted t → silent m → stays t (or_exit m).
Proof. intros Ht Hm. apply ends_or_exit; [done|by apply lives_now| |done]. apply lives_booted; [done|]. set_solver. Qed.
Lemma stays_or_give_up {A} t (m : P A) : booted t → silent m → stays t (or_abandon m).
Proof. intros Ht Hm. apply ends_or_give_up; [done|by apply lives_now| |done]. apply lives_booted; [done|]. set_solver. Qed.

Lemma silent_br path : silent (br_netfilter_missing path).
Proof. apply silent_bind; [apply silent_try, silent_on_node|]. intros []; apply silent_ret. Qed.

Lemma preflight_stays t c : booted t → stays t (preflight c).
Proof.
  intros Ht. apply stays_bind; [apply stays_or_exit; [done|apply silent_lift]|]. intros stack.
  assert (∀ (b : bool) path, stays t (if b then missing ← br_netfilter_missing path; if (missing : bool) then os_Exit 1 else mret tt else mret tt)) as Hbr.
  { intros [] path; [|apply stays_ret]. apply stays_bind; [by apply stays_silent, silent_br|]. intros []; [by apply stays_exit|apply stays_ret]. }
  apply stays_bind; [|intros; apply stays_ret].
  destruct (cfg_EnableNFTables c); [apply stays_ret|]. apply stays_bind; [apply Hbr|intros; apply Hbr].
Qed.
Lemma register_stays t sm x c : booted t → stays t (register_network constructors sm x c).
Proof. intros Ht. apply stays_bind; [by apply stays_or_give_up, silent_on_node|]. intros be. by apply stays_or_give_up, silent_on_node. Qed.
Lemma start_traffic_stays t c : booted t → stays t (start_traffic c).
Proof.
  intros Ht. apply stays_bind; [by apply stays_silent, silent_newTrafficManager|intros cl].
  apply stays_bind; [by apply stays_or_give_up, silent_tm_CleanUp|intros _].
  apply stays_bind; [by apply stays_silent, silent_newTrafficManager|intros tm].
  apply stays_bind; [by apply stays_or_give_up, silent_tm_Init|intros; apply stays_ret].
Qed.
Lemma setup_rules_stays t opts c bn tm : booted t → stays t (setup_rules opts c bn tm).
Proof.
  intros Ht. apply stays_bind.
  - destruct (opt_ipMasq opts); [|apply stays_ret]. do 4 (apply stays_bind; [by apply stays_silent, silent_on_node|intros ?]).
    apply stays_bind; [by apply stays_silent, silent_lift|intros l]. by apply stays_or_give_up, silent_tm_Masq.
  - intros _. destruct (iptablesForwardRules opts); [|apply stays_ret]. by apply stays_silent, silent_tm_Forward.
Qed.

Lemma start_blackhole_ends t opts c : booted t → ends t (start_blackhole (W := W) opts c) (λ _ t', ∃ h, h ∈ blackholes ∧ t' = t ++ h) alive.
Proof.
  intros Ht. unfold start_blackhole. destruct (blackholeRoute opts).
  2: { apply ends_ret. exists []. split; [set_solver|by rewrite app_nil_r]. }
  destruct (cfg_EnableIPv4 c), (cfg_EnableIPv6 c).
  - apply ends_step; [done|]. apply ends_emit; [done|]. eexists. split; [|by rewrite <- app_assoc]. set_solver.
  - apply ends_step; [done|]. apply ends_ret. eexists. split; [|done]. set_solver.
  - apply stays_bind; [apply stays_ret|intros _]. apply ends_emit; [done|]. eexists. split; [|done]. set_solver.
  - apply stays_bind; [apply stays_ret|intros _]. apply ends_ret. exists []. split; [set_solver|by rewrite app_nil_r].
Qed.

Lemma lives_raised t y : raised t → y ∈ [[]] ++ services → t ++ y ∈ lives.
Proof.
  intros (b & h & r & Hb & Hh & Hr & ->) Hy. rewrite <- app_assoc. apply in_lives_up; [done..|].
  apply elem_of_app. right. by apply in_appends.
Qed.

Lemma publish_ends b h sm opts c bn : b ∈ boots → h ∈ blackholes → ends (b ++ h) (publish sm opts c bn) (λ _ t', raised t') alive.
Proof.
  intros Hb Hh. assert (b ++ h ∈ lives) as Hn by (rewrite <- (app_nil_r (b ++ h)); apply in_lives_up; [done..|set_solver]).
  apply ends_quiet; [apply silent_lift|done|intros l]. apply ends_quiet; [apply silent_try, silent_on_node|done|].
  intros [u|e].
  - apply ends_ready. exists b, h, [Ready]. split_and!; [done..|set_solver|done].
  - apply ends_ret. exists b, h, []. split_and!; [done..|set_solver|by rewrite app_nil_r].
Qed.

Lemma bring_up_ends t sm opts c : booted t → ends t (bring_up Compile constructors sm opts c) (λ _ t', raised t') alive.
Proof.
  intros Ht. apply stays_bind; [by apply preflight_stays|intros stack]. apply stays_bind; [by apply stays_silent, silent_on_node|intros an].
  apply stays_bind; [by apply stays_or_exit, silent_on_node|intros x]. apply stays_bind; [by apply register_stays|intros bn].
  apply stays_bind; [by apply start_traffic_stays|intros tm]. apply stays_bind; [by apply setup_rules_stays|intros _].
  eapply ends_bind; [by apply start_blackhole_ends|]. intros _ t' (h & Hh & ->).
  eapply ends_bind; [by apply publish_ends|]. intros ? t' Ht'. by apply ends_ret.
Qed.

Lemma serve_ends t sm bn : raised t → ends t (serve sm bn) (λ _, alive) alive.
Proof.
  intros Ht. assert (∀ y, y ∈ services → t ++ y ∈ lives) as Hl by (intros y Hy; apply lives_raised; [done|set_solver]).
  apply ends_step; [done|]. apply ends_step; [done|]. rewrite <- app_assoc. set (t' := t ++ _).
  assert (∀ y, y ∈ [[]; [Blocked]; [Waited; Exited 0]; [Cancelled; Waited; Exited 0]] → t' ++ y ∈ lives) as Hs.
  { intros y Hy. unfold t'. rewrite <- app_assoc. apply Hl. unfold services. apply list_elem_of_fmap. by exists y. }
  assert (t' ∈ lives) as Hn by (rewrite <- (app_nil_r t'); apply Hs; set_solver).
  apply ends_quiet; [apply silent_lift|done|intros l]. apply ends_quiet; [apply silent_try, silent_on_node|done|].
  assert (ends t' (wg_Wait;; os_Exit (A := unit) 0) (λ _, alive) alive) as Hw by (apply ends_stop, Hs; set_solver).
  intros [[]|e].
  - apply stays_bind; [apply stays_ret|done].
  - apply (ends_bind _ _ _ (λ _ _, False)); [|done]. apply ends_block, Hs. set_solver.
  - destruct (is_interrupted e); [|apply stays_bind; [apply stays_ret|done]].
    apply ends_step; [done|]. apply ends_stop. rewrite <- app_assoc. apply Hs. set_solver.
Qed.

Lemma getConfig_ends t sm wakes : booted t → ends t (getConfig sm wakes) (λ o t', t' = t ++ match o with Some _ => [] | None => [Cancelled] end) alive.
Proof.
  intros Ht. pose proof (lives_now t Ht) as Hn.
  assert (∀ c, ends t (mret (Some c) : P (option Config)) (λ o t', t' = t ++ match o with Some _ => [] | None => [Cancelled] end) alive) as Hok.
  { intros c. apply ends_ret. by rewrite app_nil_r. }
  assert (ends t (shutdownHandler;; mret None : P (option Config)) (λ o t', t' = t ++ match o with Some _ => [] | None => [Cancelled] end) alive) as Hsig.
  { apply ends_step; [done|]. by apply ends_ret. }
  induction wakes as [|[] wakes IH]; cbn [getConfig]; (apply ends_quiet; [apply silent_try, silent_on_node|done|]); intros [[c|]|e]; auto.
  all: apply ends_block, lives_booted; [done|set_solver].
Qed.

Lemma start_manager_ends opts : ends [] (start_manager opts) (λ _ t', t' = []) alive.
Proof.
  apply ends_quiet; [apply silent_on_node|set_solver|intros r]. apply (ends_bind _ _ _ (λ _ t', t' = [])).
  - destruct r.2; [|by apply ends_ret]. apply ends_quiet; [apply silent_on_node|set_solver|intros v].
    destruct (decide _); [by apply ends_ret|]. apply ends_exit. set_solver.
  - intros _ t' ->. apply ends_silent; [apply silent_lift|done|set_solver].
Qed.

Lemma main_ends flags wakes : ends [] (main Compile constructors flags wakes) (λ _, alive) alive.
Proof.
  assert (∀ (b : Prop) `{Decision b} c, c ∈ [0; 1] → ends [] (if decide b then os_Exit c else mret tt : P unit) (λ _ t', t' = []) alive) as Hx.
  { intros b ? c Hc. destruct (decide b); [|by apply ends_ret]. apply ends_exit. set_solver. }
  apply stays_bind; [destruct (opt_version flags); [apply ends_exit; set_solver|by apply ends_ret]|intros _].
  apply ends_quiet; [apply silent_on_node|set_solver|intros opts]. apply stays_bind; [apply Hx; set_solver|intros _].
  apply stays_bind; [apply start_manager_ends|intros sm]. apply ends_step; [done|]. apply (ends_bind _ _ _ (λ _, booted)).
  { destruct (decide _); [|apply ends_ret; unfold booted, boots; set_solver].
    unfold mustRunHealthz. eapply ends_bind; [|intros ? t' Ht'; apply ends_ret, Ht'].
    do 2 (apply ends_step; [done|]). apply ends_ret. unfold booted, boots. set_solver. }
  intros _ t Ht. eapply ends_bind; [by apply getConfig_ends|]. intros [c|] t' ->.
  - rewrite app_nil_r. eapply ends_bind; [by apply bring_up_ends|]. intros bn t' Ht'. by apply serve_ends.
  - apply ends_stop. rewrite <- app_assoc. apply lives_booted; [done|]. set_solver.
Qed.
End traces.

(** ** What holds when the daemon is ready *)

(** The calls on files leave the rules of both kinds alone, and nftables those of iptables. *)
Class NodeLaws (W : Type) `{NetfilterLaws W, KnftablesLaws W, EnvFileLaws W} := {
  same_rules (w w' : W) : Prop := chains w' = chains w ∧ tables w' = tables w;
  law_Mkdir_rules path w : same_rules w (MkdirAll_Dir path w).2;
  law_write_rules path data w : same_rules w (writeFile path data w).2;
  law_Read_rules path w : same_rules w (env_Read path w).2;
  law_Run_chains i ops w : chains (nft_Run i ops w).2 = chains w
}.

Section ready.
Context {W : Type} `{NodeLaws W, IfaceHost W, AddrSort, NodeEnv W, DaemonEnv W}.
Implicit Types (n : NFTablesManager W) (s : Process W).

Definition table4 : nft_Interface := mkNft IPv4Family ipv4Table.
Definition table6 : nft_Interface := mkNft IPv6Family ipv6Table.

(** No masquerade rule of iptables is left, and the tables of nftables are there. *)
Definition cleaned (w : W) : Prop := ∀ p, emptied (chains w) (p, "nat", "FLANNEL-POSTRTG").
Definition started n : Prop := nftv4 n = Some table4 ∧ nftv6 n = Some table6 ∧ cleaned (nft_host n).

(** The chain of a family holds the rules of a network and a subnet. *)
Definition masqueraded (f : Family) (i : nft_Interface) (d : bool) (cluster pod : outcome string) (w : W) : Prop :=
  ∃ c p m, cluster = Ret c ∧ pod = Ret p ∧ masq_text d m ∧ nft_chain w i = Some (nft_masq_rules m c p f).
Definition masquerades (c : Config) (l : Lease) (d : bool) (w : W) : Prop :=
  (IP4Net_Empty (cfg_Network c) = false →
     masqueraded IPv4Family table4 d (Ret (IP4Net_String (cfg_Network c))) (Ret (IP4Net_String (Subnet l))) w) ∧
  (IP6Net_Empty (cfg_IPv6Network c) = false →
     masqueraded IPv6Family table6 d (IP6Net_String (cfg_IPv6Network c)) (IP6Net_String (IPv6Subnet l)) w).

Abbreviation always := (λ _, True).

Lemma cleaned_same (w w' : W) : chains w' = chains w → cleaned w → cleaned w'.
Proof. unfold cleaned. by intros ->. Qed.

Lemma New_state f t (w : W) : (knftables_New f t w).2 = w ∧ ∀ i, (knftables_New f t w).1 = Ret i → i = mkNft f t.
Proof. destruct (law_nft_New f t w) as [->|[e ->]]; (split; [done|]); cbn; congruence. Qed.

Lemma initTable_ok f t n i n' : initTable f t n = (Ret i, n') →
  i = mkNft f t ∧ nftv4 n' = nftv4 n ∧ nftv6 n' = nftv6 n ∧ chains (nft_host n') = chains (nft_host n).
Proof.
  unfold initTable, nft_wrapping. intros E. apply M_bind_inv in E as (j & n1 & E1 & E). apply M_bind_inv in E as (u & n2 & E2 & E).
  rewrite run_try_cases in E1. rewrite run_try_cases in E2. unfold nft_on_host in E1. destruct (New_state f t (nft_host n)) as [Hw Hi]. destruct (knftables_New f t _) as [[j'|e|] w1]; run_inv.
  unfold nft_on_host in E2. cbn in E2.
  match type of E2 with context [nft_Run ?j ?o ?w] => pose proof (law_Run_chains j o w) as Hc; destruct (nft_Run j o w) as [[u'|e|] w2] end; run_inv.
  split; [by apply Hi|]. cbn in *. subst. done.
Qed.

Lemma init_family_ok f t n u n' : init_family f t n = (Ret u, n') →
  chains (nft_host n') = chains (nft_host n) ∧ iface_in n' f = Some (mkNft f t) ∧ ∀ g, g ≠ f → iface_in n' g = iface_in n g.
Proof.
  unfold init_family. intros E. rewrite run_try_cases in E. destruct (initTable f t n) as [[i|e|] n1] eqn:Ei; run_inv.
  apply initTable_ok in Ei as (-> & N4 & N6 & Hc). destruct f; (split; [done|split; [done|]]); intros [] ?; done.
Qed.

Lemma Init_starts : triple (λ n, cleaned (nft_host n)) NFTablesManager_Init (λ _, started) always.
Proof.
  intros n Hn. destruct (NFTablesManager_Init n) as [[u|e|] n'] eqn:E; [|done..]. unfold NFTablesManager_Init in E.
  apply M_bind_inv in E as (u1 & n1 & E4 & E6). apply init_family_ok in E4 as (C4 & I4 & _), E6 as (C6 & I6 & O6).
  pose proof (O6 IPv4Family ltac:(done)) as O4. cbn in *. split_and!; [by rewrite O4|done|]. apply (cleaned_same (nft_host n)); [congruence|done].
Qed.

(** No call of the nftables manager touches a chain of iptables. *)
Definition keeps {A} (m : M (NFTablesManager W) A) : Prop := ∀ C, preserves (λ n, chains (nft_host n) = C) m.
Lemma keeps_iface f : keeps (iface_of f).
Proof. by intros C n. Qed.
Lemma keeps_Run i ops : keeps (nft_on_host (nft_Run i ops)).
Proof. intros C n Hn. unfold nft_on_host. pose proof (law_Run_chains i ops (nft_host n)). destruct (nft_Run i ops _). cbn in *. congruence. Qed.
Lemma keeps_Check i ops : keeps (nft_on_host (nft_Check i ops)).
Proof. intros C n Hn. unfold nft_on_host. by destruct (law_Check i ops (nft_host n)) as [->|[e ->]]. Qed.
Lemma keeps_masq_family f c pod d : keeps (masq_family f c pod d).
Proof.
  intros C. apply preserves_bind; [apply keeps_iface|intros i]. apply preserves_bind; [|intros tx; apply preserves_wrapping, keeps_Run].
  apply preserves_wrapping, preserves_bind; [|intros b; apply preserves_ret]. apply preserves_bind; [apply keeps_iface|intros j].
  apply preserves_bind; [apply preserves_try, keeps_Check|]. intros []; apply preserves_ret.
Qed.

Definition table_of (f : Family) : nft_Interface := match f with IPv4Family => table4 | IPv6Family => table6 end.
Lemma started_iface f n : started n → iface_in n f = Some (table_of f).
Proof. intros (N4 & N6 & _). by destruct f. Qed.

Lemma masq_family_ok f c pod d n u n' : started n → masq_family f c pod d n = (Ret u, n') →
  started n' ∧ masqueraded f (table_of f) d (Ret c) (Ret pod) (nft_host n') ∧
  ∀ g, g ≠ f → nft_chain (nft_host n') (table_of g) = nft_chain (nft_host n) (table_of g).
Proof.
  intros Hs E. pose proof (keeps_masq_family f c pod d _ n eq_refl) as Hch. rewrite E in Hch. cbn in Hch. pose proof Hs as (N4 & N6 & Hc).
  destruct (nft_family_effect f c pod d n table4 (table_of f)) as (r & w & E' & _ & Hu & Hm); [done|by apply started_iface|].
  rewrite E in E'. injection E' as <- ->. cbn [is_ret] in Hm. destruct Hm as (m & Hm & Hi). split_and!.
  - split_and!; [done..|]. by apply (cleaned_same (nft_host n)).
  - by exists c, pod, m.
  - intros g Hg. unfold nft_chain. apply Hu. right. destruct f, g; set_solver.
Qed.

Lemma Masq_installs c l d : triple started (nft_SetupAndEnsureMasqRules (cfg_Network c) (cfg_IPv6Network c) l d)
  (λ _ n, started n ∧ masquerades c l d (nft_host n)) always.
Proof.
  intros n Hn. destruct (nft_SetupAndEnsureMasqRules _ _ l d n) as [[u|e|] n'] eqn:E; [|done..]. unfold nft_SetupAndEnsureMasqRules in E.
  apply M_bind_inv in E as (u1 & n1 & E4 & E6).
  assert (started n1 ∧ (IP4Net_Empty (cfg_Network c) = false →
    masqueraded IPv4Family table4 d (Ret (IP4Net_String (cfg_Network c))) (Ret (IP4Net_String (Subnet l))) (nft_host n1))) as [Hn1 H41].
  { destruct (IP4Net_Empty (cfg_Network c)); cbn [negb] in E4; [run_inv; done|]. apply masq_family_ok in E4 as (? & ? & _); done. }
  destruct (IP6Net_Empty (cfg_IPv6Network c)) eqn:Em; cbn [negb] in E6; [run_inv; split; [done|split; [done|congruence]]|].
  apply M_bind_inv in E6 as (c6 & n2 & Ec & E6). apply lift_inv in Ec as [Ec ->].
  apply M_bind_inv in E6 as (p6 & n3 & Ep & E6). apply lift_inv in Ep as [Ep ->].
  apply masq_family_ok in E6 as (Hs & Hm & Ho); [|done]. split; [done|]. split.
  - intros He. destruct (H41 He) as (c4 & p4 & m & ? & ? & ? & Hch). exists c4, p4, m. split_and!; [done..|]. rewrite <- Hch. by apply (Ho IPv4Family).
  - intros _. by rewrite Ec, Ep.
Qed.

(** The forward rules are in a chain of their own. *)
Lemma forward_tx_apply f net t t' : tx_apply (forward_tx f net) t = Some t' →
  (t ≫= lookup postrtgChain) = (t' ≫= lookup (M := gmap string (list string)) postrtgChain).
Proof.
  destruct t as [t|]; [|done]. unfold forward_tx. cbn [tx_apply tx_step mbind option_bind Chain_Name].
  set (t1 := if decide _ then t else _). assert (∃ l, t1 !! forwardChain = Some l ∧ t1 !! postrtgChain = t !! postrtgChain) as (l & Hl & Hp).
  { unfold t1. destruct (decide _) as [[l Hl]|]; [by exists l|]. exists []. by rewrite lookup_insert_eq, lookup_insert_ne. }
  rewrite Hl. cbn [mbind option_bind]. rewrite lookup_insert_eq. cbn [mbind option_bind]. rewrite lookup_insert_eq. cbn [mbind option_bind].
  intros [= <-]. cbn. by rewrite !lookup_insert_ne.
Qed.

Definition settled c l d n : Prop := started n ∧ masquerades c l d (nft_host n).
(** What a call leaves alone, the rules of a ready daemon survive. *)
Lemma settled_same c l d n n' : started n' → (∀ f, nft_chain (nft_host n') (table_of f) = nft_chain (nft_host n) (table_of f)) →
  settled c l d n → settled c l d n'.
Proof.
  intros Hs Hch (_ & M4 & M6). split; [done|].
  split; intros He; [destruct (M4 He) as (x & y & m & ? & ? & ? & E)|destruct (M6 He) as (x & y & m & ? & ? & ? & E)]; exists x, y, m; (split_and!; [done..|]);
    rewrite <- E; [apply (Hch IPv4Family)|apply (Hch IPv6Family)].
Qed.

Lemma forward_family_keeps f net c l d : preserves (settled c l d) (forward_family f net).
Proof.
  intros n Hn. pose proof Hn as [Hs _]. unfold forward_family. pose proof (started_iface f n Hs) as Hi.
  assert (iface_of f n = (Ret (table_of f), n)) as Hif.
  { unfold iface_of. run. unfold lift. destruct f; cbn in Hi |- *; by rewrite Hi. }
  rewrite (M_bind_Ret _ _ _ _ _ Hif). rewrite run_try_cases. unfold nft_on_host.
  pose proof (law_Run_chains (table_of f) (forward_tx (family_text f) net) (nft_host n)) as Hch.
  destruct (law_Run (table_of f) (forward_tx (family_text f) net) (nft_host n)) as [(t & w & Ht & E & Hw)|(e & w & E & Hw)]; rewrite E in Hch |- *; cbn in Hch |- *.
  all: apply (settled_same _ _ _ n); [|intros g|done].
  1, 3: destruct Hs as (? & ? & ?); split_and!; [done..|]; by apply (cleaned_same (nft_host n)).
  - unfold nft_chain. cbn. rewrite Hw. apply forward_tx_apply in Ht.
    destruct (decide (g = f)) as [->|Hg]; [|destruct t; cbn [set_table]; by rewrite ?lookup_insert_ne, ?lookup_delete_ne by (destruct f, g; done)].
    unfold mbind in Ht |- *. destruct t; cbn [set_table]; by rewrite ?lookup_insert_eq, ?lookup_delete_eq.
  - unfold nft_chain. cbn. by rewrite Hw.
Qed.

Lemma Forward_keeps (n4 : IP4Net) (n6 : IP6Net) c l d : preserves (settled c l d) (nft_SetupAndEnsureForwardRules n4 n6).
Proof.
  apply preserves_bind.
  - destruct (IP4Net_Empty n4); [apply preserves_ret|apply forward_family_keeps].
  - intros _. destruct (IP6Net_Empty n6); [apply preserves_ret|]. apply preserves_bind; [apply preserves_lift|intros; apply forward_family_keeps].
Qed.

(** The calls on files. *)
Definition file_call {A} (m : M W A) : Prop := ∀ C T, preserves (λ w, chains w = C ∧ tables w = T) m.
Lemma file_same {A} (m : M W A) : (∀ w, same_rules w (m w).2) → file_call m.
Proof. intros Hm C T w [<- <-]. apply Hm. Qed.
Lemma file_Stat path : file_call (Stat path).
Proof. apply file_same. intros w. rewrite law_Stat. done. Qed.
Lemma file_read {A} (from : IPNet → outcome A) path key : file_call (read_CIDRs from path key).
Proof.
  intros C T. apply preserves_bind; [apply preserves_try, file_Stat|intros r]. destruct (decide _); [apply preserves_ret|].
  apply preserves_bind; [apply preserves_try, (file_same _ (law_Read_rules path))|]. intros [vs|e]; [|apply preserves_ret].
  destruct (vs !! key); [apply preserves_lift|apply preserves_ret].
Qed.
Lemma file_read4 path key : file_call (ReadCIDRFromSubnetFile path key).
Proof. intros C T. apply preserves_bind; [apply file_read|intros; apply preserves_ret]. Qed.
Lemma file_read6 path key : file_call (ReadIP6CIDRFromSubnetFile path key).
Proof. intros C T. apply preserves_bind; [apply file_read|intros; apply preserves_ret]. Qed.

(** The nftables manager of the process. *)
Definition nft_of s : NFTablesManager W := mkNFTablesManager (p_nftables s).1 (p_nftables s).2 (p_node s).

Lemma on_nftables_triple {A} (Pn : NFTablesManager W → Prop) (m : M (NFTablesManager W) A) Q E : triple Pn m Q E →
  triple (λ s, Pn (nft_of s)) (on_nftables m) (λ a s, Q a (nft_of s)) (λ s, E (nft_of s)).
Proof.
  intros Hm s Hs. specialize (Hm _ Hs). unfold on_nftables. fold (nft_of s).
  destruct (m (nft_of s)) as [[a|e|] [v4 v6 w]]; exact Hm.
Qed.
Lemma on_node_started {A} (m : M W A) : file_call m → preserves (λ s, started (nft_of s)) (on_node m).
Proof.
  intros Hm s (N4 & N6 & Hc). destruct (Hm _ _ (p_node s) (conj eq_refl eq_refl)) as [Ec _]. unfold on_node. destruct (m (p_node s)) as [r w].
  split_and!; [done..|]. by apply (cleaned_same (p_node s)).
Qed.
Lemma on_node_settled {A} (m : M W A) c l d : file_call m → preserves (λ s, settled c l d (nft_of s)) (on_node m).
Proof.
  intros Hm s Hs. pose proof (on_node_started m Hm s (proj1 Hs)) as Hst. apply (settled_same _ _ _ (nft_of s)); [done| |done].
  intros f. destruct (Hm _ _ (p_node s) (conj eq_refl eq_refl)) as [_ Et]. unfold nft_chain, on_node in *. destruct (m (p_node s)) as [r w]. cbn in *. by rewrite Et.
Qed.

Lemma file_write path c ipMasq sn sn6 mtu : file_call (WriteSubnetFile path c ipMasq sn sn6 mtu).
Proof.
  intros C T. apply preserves_bind; [apply (file_same _ (law_Mkdir_rules path))|intros _]. apply preserves_bind; [|intros b; apply (file_same _ (law_write_rules path _))].
  destruct (cfg_EnableIPv6 c); [|apply preserves_ret]. apply preserves_bind; [apply preserves_lift|intros; apply preserves_ret].
Qed.

(** ** The phases of a start in nftables mode *)

Definition ok {A} (Pre : Process W → Prop) (m : M (Process W) A) (Q : A → Process W → Prop) : Prop := triple Pre m Q always.

Lemma ok_bind {A B} Pre (m : M (Process W) A) (f : A → M (Process W) B) R Q : ok Pre m R → (∀ a, ok (R a) (f a) Q) → ok Pre (x ← m; f x) Q.
Proof. apply triple_bind. Qed.
Lemma ok_ret {A} (a : A) (Q : A → Process W → Prop) : ok (Q a) (mret a) Q.
Proof. by apply triple_ret. Qed.
Lemma ok_keep {A} (R : Process W → Prop) (m : M (Process W) A) : preserves R m → ok R m (λ _, R).
Proof. intros Hm s Hs. specialize (Hm s Hs). by destruct (m s) as [[a|e|] s1]. Qed.
Lemma ok_give_up {A} Pre (m : M (Process W) A) Q : ok Pre m Q → ok Pre (or_abandon m) Q.
Proof.
  intros Hm s Hs. specialize (Hm s Hs). unfold or_abandon. rewrite run_try_cases. by destruct (m s) as [[a|e|] s1].
Qed.
Lemma ok_nftables Pn (m : M (NFTablesManager W) unit) Q : triple Pn m Q always → ok (λ s, Pn (nft_of s)) (on_nftables m) (λ u s, Q u (nft_of s)).
Proof. apply on_nftables_triple. Qed.

Lemma start_traffic_ok c : cfg_EnableNFTables c = true → ok always (start_traffic c) (λ tm s, tm = NFTables ∧ started (nft_of s)).
Proof.
  intros Hc. unfold start_traffic. rewrite Hc. cbn [negb]. eapply (ok_bind _ _ _ (λ tm _, tm = IPTables)); [by intros s _|].
  intros cl. apply (triple_weaken (λ _, cl = IPTables) _ _ (λ tm s, tm = NFTables ∧ started (nft_of s)) _ always); [|done..].
  eapply (ok_bind _ _ _ (λ _ s, cleaned (p_node s))).
  - apply ok_give_up. intros s ->. cbn [tm_CleanUp]. unfold on_iptables. destruct (p_iptables s) as [[v4 v6] rs].
    destruct (CleanUp_leaves_forward W (mkIPTablesManager v4 v6 rs (p_node s))) as (w & E & He & _). rewrite E. exact He.
  - intros _. eapply (ok_bind _ _ _ (λ tm s, tm = NFTables ∧ cleaned (p_node s))); [by intros s Hs|].
    intros tm. apply (triple_pure (tm = NFTables)). intros ->. eapply (ok_bind _ _ _ (λ _ s, started (nft_of s))).
    + apply ok_give_up. cbn [tm_Init]. apply (ok_nftables (λ n, cleaned (nft_host n))), Init_starts.
    + intros _. eapply triple_weaken; [apply (ok_ret NFTables (λ tm s, tm = NFTables ∧ started (nft_of s)))|done..].
Qed.

Lemma setup_rules_ok opts c bn l : opt_ipMasq opts = true → bn_Lease bn = Some l →
  ok (λ s, started (nft_of s)) (setup_rules opts c bn NFTables) (λ _ s, settled c l (ipMasqRandomFullyDisable opts) (nft_of s)).
Proof.
  intros Ho Hl. unfold setup_rules. rewrite Ho, Hl. eapply (ok_bind _ _ _ (λ _ s, settled c l (ipMasqRandomFullyDisable opts) (nft_of s))).
  - do 2 (eapply ok_bind; [apply ok_keep, on_node_started, file_read4|cbv beta; intros ?]).
    do 2 (eapply ok_bind; [apply ok_keep, on_node_started, file_read6|cbv beta; intros ?]).
    cbn [deref]. eapply (ok_bind _ _ _ (λ l' s, l' = l ∧ started (nft_of s))); [by intros s Hs|]. intros l'. apply triple_pure. intros ->.
    apply ok_give_up. cbn [tm_SetupAndEnsureMasqRules]. apply (ok_nftables started _ (λ _, settled c l (ipMasqRandomFullyDisable opts))), Masq_installs.
  - intros _. destruct (iptablesForwardRules opts); [|by apply triple_ret].
    cbn [tm_SetupAndEnsureForwardRules]. apply (ok_nftables (settled c l (ipMasqRandomFullyDisable opts)) _ (λ _, settled c l (ipMasqRandomFullyDisable opts))).
    intros n Hn. pose proof (Forward_keeps (cfg_Network c) (cfg_IPv6Network c) c l (ipMasqRandomFullyDisable opts) n Hn) as Hk.
    by destruct (nft_SetupAndEnsureForwardRules _ _ n) as [[u|e|] n'].
Qed.

(** A network without a lease does not get here. *)
Lemma setup_rules_nil opts c bn tm : opt_ipMasq opts = true → bn_Lease bn = None → ok always (setup_rules opts c bn tm) (λ _ _, False).
Proof.
  intros Ho Hl. unfold setup_rules. rewrite Ho, Hl. eapply (ok_bind _ _ _ (λ _ _, False)); [|by intros _ s F].
  do 4 (eapply (ok_bind _ _ _ (λ _ _, True)); [apply (ok_keep (λ _, True)); by intros s _|intros ?]). by intros s _.
Qed.

(** Nothing before the subnet file makes the process ready. *)
Definition unready {A} (m : M (Process W) A) : Prop := preserves (λ s, isReady s = false) m.
Lemma unready_silent {A} (m : M (Process W) A) : silent m → unready m.
Proof. intros Hm s Hs. destruct (Hm s) as [_ ->]. done. Qed.
Lemma unready_emit e : unready (emit e).
Proof. by intros s Hs. Qed.
Lemma unready_exit {A} c : unready (os_Exit (A := A) c).
Proof. apply preserves_bind; [apply unready_emit|intros; apply preserves_throw]. Qed.
Lemma unready_abandon {A} (m : M (Process W) A) : silent m → unready (or_abandon m).
Proof.
  intros Hm. apply preserves_bind; [by apply preserves_try, unready_silent|]. intros [a|e]; [apply preserves_ret|].
  apply preserves_bind; [apply unready_emit|intros _]. apply preserves_bind; [apply unready_emit|intros _; apply unready_exit].
Qed.

Lemma unready_preflight c : unready (preflight c).
Proof.
  assert (∀ (b : bool) path, unready (if b then missing ← br_netfilter_missing path; if (missing : bool) then os_Exit 1 else mret tt else mret tt)) as Hbr.
  { intros [] path; [|apply preserves_ret]. apply preserves_bind; [apply unready_silent, silent_br|]. intros []; [apply unready_exit|apply preserves_ret]. }
  apply preserves_bind.
  { apply preserves_bind; [apply preserves_try, preserves_lift|]. intros []; [apply preserves_ret|apply unready_exit]. }
  intros st. apply preserves_bind; [|intros; apply preserves_ret]. destruct (cfg_EnableNFTables c); [apply preserves_ret|].
  apply preserves_bind; [apply Hbr|intros; apply Hbr].
Qed.
Lemma unready_traffic c : unready (start_traffic c).
Proof.
  apply preserves_bind; [apply unready_silent, silent_newTrafficManager|intros cl]. apply preserves_bind; [apply unready_abandon, silent_tm_CleanUp|intros _].
  apply preserves_bind; [apply unready_silent, silent_newTrafficManager|intros tm].
  apply preserves_bind; [apply unready_abandon, silent_tm_Init|intros; apply preserves_ret].
Qed.
Lemma unready_rules opts c bn tm : unready (setup_rules opts c bn tm).
Proof.
  apply preserves_bind.
  - destruct (opt_ipMasq opts); [|apply preserves_ret]. do 4 (apply preserves_bind; [apply unready_silent, silent_on_node|intros ?]).
    apply preserves_bind; [apply preserves_lift|intros l]. apply unready_abandon, silent_tm_Masq.
  - intros _. destruct (iptablesForwardRules opts); [apply unready_silent, silent_tm_Forward|apply preserves_ret].
Qed.
Lemma blackhole_nft (R : NFTablesManager W → Prop) opts c : preserves (λ s, isReady s = false ∧ R (nft_of s)) (start_blackhole opts c).
Proof.
  unfold start_blackhole. destruct (blackholeRoute opts); [|apply preserves_ret].
  apply preserves_bind; [destruct (cfg_EnableIPv4 c); [by intros s Hs|apply preserves_ret]|intros _].
  destruct (cfg_EnableIPv6 c); [by intros s Hs|apply preserves_ret].
Qed.
Lemma ok_unready {A} Pre (m : M (Process W) A) Q : unready m → ok Pre m Q → ok (λ s, isReady s = false ∧ Pre s) m (λ a s, isReady s = false ∧ Q a s).
Proof. intros Hu Hm s [Hr Hs]. specialize (Hu s Hr). specialize (Hm s Hs). destruct (m s) as [[a|e|] s1]; [|done..]. by split. Qed.

(** Ready, the process has written the subnet file. *)
Definition writes_file (sm : SubnetManager W) : Prop :=
  ∀ path c ipMasq sn sn6 mtu, sub_HandleSubnetFile sm path c ipMasq sn sn6 mtu = WriteSubnetFile path c ipMasq sn sn6 mtu.
Definition published (opts : CmdLineOpts) (c : Config) (bn : Network) (l : Lease) s : Prop :=
  settled c l (ipMasqRandomFullyDisable opts) (nft_of s) ∧
  (isReady s = true → ∃ w, WriteSubnetFile (subnetFile opts) c (opt_ipMasq opts) (Subnet l) (IPv6Subnet l) (bn_MTU bn) w = (Ret tt, p_node s)).

Lemma publish_ok sm opts c bn l : writes_file sm → bn_Lease bn = Some l →
  ok (λ s, isReady s = false ∧ settled c l (ipMasqRandomFullyDisable opts) (nft_of s)) (publish sm opts c bn) (λ _, published opts c bn l).
Proof.
  intros Hw Hl s [Hr Hs]. unfold publish. rewrite Hl. cbn [deref]. run. rewrite run_try_cases, Hw.
  pose proof (on_node_settled _ c l (ipMasqRandomFullyDisable opts) (file_write (subnetFile opts) c (opt_ipMasq opts) (Subnet l) (IPv6Subnet l) (bn_MTU bn)) s Hs) as Hk.
  unfold on_node in *. destruct (WriteSubnetFile _ _ _ _ _ _ (p_node s)) as [[[]|e|] w] eqn:E; [|by split; [|cbn in *; congruence]|done].
  split; [exact Hk|]. intros _. by exists (p_node s).
Qed.

Section bring_up.
Context (Compile : string → outcome (string → bool)).
Context (constructors : SubnetManager W → ExternalInterface → gmap string (M W (Config → M W Network))).

Lemma bring_up_ok sm opts c : writes_file sm → cfg_EnableNFTables c = true → opt_ipMasq opts = true →
  ok (λ s, isReady s = false) (bring_up Compile constructors sm opts c) (λ bn s, ∃ l, bn_Lease bn = Some l ∧ published opts c bn l s).
Proof.
  intros Hw Hn Hm. unfold bring_up. eapply ok_bind; [apply ok_keep, unready_preflight|cbv beta; intros st].
  eapply ok_bind; [apply ok_keep, unready_silent, silent_on_node|cbv beta; intros an].
  eapply ok_bind; [apply ok_keep|cbv beta; intros x].
  { apply preserves_bind; [apply preserves_try, unready_silent, silent_on_node|]. intros []; [apply preserves_ret|apply unready_exit]. }
  eapply ok_bind; [apply ok_keep|cbv beta; intros bn].
  { apply preserves_bind; [apply unready_abandon, silent_on_node|intros; apply unready_abandon, silent_on_node]. }
  apply (triple_weaken (λ s, isReady s = false ∧ True) _ _ (λ bn s, ∃ l, bn_Lease bn = Some l ∧ published opts c bn l s) _ always); [|done..].
  eapply ok_bind; [apply ok_unready; [apply unready_traffic|by apply start_traffic_ok]|cbv beta; intros tm].
  intros s (Hr & -> & Hs). revert s Hr Hs.
  enough (ok (λ s, isReady s = false ∧ started (nft_of s))
    (setup_rules opts c bn NFTables;; start_blackhole opts c;; publish sm opts c bn;; mret bn) (λ bn s, ∃ l, bn_Lease bn = Some l ∧ published opts c bn l s)) as Hok by (intros s Hr Hs; by apply Hok).
  destruct (bn_Lease bn) as [l|] eqn:El.
  - eapply ok_bind; [apply ok_unready; [apply unready_rules|by apply setup_rules_ok]|cbv beta; intros _].
    eapply ok_bind; [apply ok_keep, blackhole_nft|cbv beta; intros _]. eapply ok_bind; [by apply publish_ok|cbv beta; intros _].
    apply triple_ret. intros s Hs. by exists l.
  - eapply ok_bind; [eapply triple_weaken; [by apply (setup_rules_nil opts c bn NFTables)|done..]|]. cbv beta. by intros _ s F.
Qed.
End bring_up.
End ready.

(** ** The life of the daemon *)

Definition fresh {W} (w : W) : Process W := mkProcess w ([], [], []) (None, None) false [].

(** The order that every trace has: it ends with an exit; the process waits for its goroutines only once something
    stops them, or while it serves; it does not fail once it is ready; nothing is served before. *)
Definition exits_last (t : list event) : Prop := ∀ i c, t !! i = Some (Exited c) → length t = S i.
Definition waits_stopped (t : list event) : Prop :=
  ∀ i, t !! i = Some Waited → Cancelled ∈ take i t ∨ Spawned GoBackendRun ∈ take i t.
Definition fails_unready (t : list event) : Prop := Exited 1 ∈ t → (Ready ∉ t) ∧ (Spawned GoBackendRun ∉ t).
Definition ready_first (t : list event) : Prop := ∀ i, t !! i = Some Ready → (Spawned GoBackendRun ∉ take i t) ∧ (Cancelled ∉ take i t).
Definition in_order (t : list event) : Prop := exits_last t ∧ waits_stopped t ∧ fails_unready t ∧ ready_first t.

Definition in_order_at (t : list event) (i : nat) : bool :=
  match t !! i with
  | Some (Exited _) => bool_decide (length t = S i)
  | Some Waited => bool_decide (Cancelled ∈ take i t ∨ Spawned GoBackendRun ∈ take i t)
  | Some Ready => bool_decide ((Spawned GoBackendRun ∉ take i t) ∧ (Cancelled ∉ take i t))
  | _ => true
  end.
Definition in_orderb (t : list event) : bool :=
  forallb (in_order_at t) (seq 0 (length t)) && bool_decide ((Exited 1 ∉ t) ∨ ((Ready ∉ t) ∧ (Spawned GoBackendRun ∉ t))).

Lemma in_orderb_ok t : in_orderb t = true → in_order t.
Proof.
  intros [Hf Hx%bool_decide_eq_true]%andb_true_iff.
  assert (∀ i x, t !! i = Some x → in_order_at t i = true) as Hat.
  { intros i x Hi. apply (proj1 (forallb_forall _ _) Hf). apply in_seq. apply lookup_lt_Some in Hi. lia. }
  split_and!.
  - intros i c Hi. specialize (Hat i _ Hi). unfold in_order_at in Hat. rewrite Hi in Hat. by apply bool_decide_eq_true in Hat.
  - intros i Hi. specialize (Hat i _ Hi). unfold in_order_at in Hat. rewrite Hi in Hat. by apply bool_decide_eq_true in Hat.
  - intros H1. tauto.
  - intros i Hi. specialize (Hat i _ Hi). unfold in_order_at in Hat. rewrite Hi in Hat. by apply bool_decide_eq_true in Hat.
Qed.

Lemma lives_in_order t : t ∈ lives → in_order t.
Proof.
  intros Ht. apply in_orderb_ok. assert (forallb in_orderb lives = true) as Hall by (by vm_compute).
  apply (proj1 (forallb_forall _ _) Hall). by apply list_elem_of_In.
Qed.

(** C7: A run of the daemon, whatever its flags, the host, the managers and the backends do, and wherever it stops,
    is in order: it exits once and last; it waits for its goroutines only when it has cancelled them or
    serves, so a failed start never hangs; a process that was ready, or has started its network, never exits with a
    failure; and it answers that it is ready only when it said so. *)
Theorem main_in_order W `{IfaceHost W, AddrSort, Netfilter W, Knftables W, EnvFiles W, NodeEnv W, DaemonEnv W} Compile constructors flags wakes (w : W) :
  let s := (main Compile constructors flags wakes (fresh w)).2 in
  in_order (trace s) ∧ ((readyz (isReady s)).1 = StatusOK ↔ Ready ∈ trace s).
Proof.
  pose proof (main_ends Compile constructors flags wakes (fresh w) (conj eq_refl eq_refl)) as Hm. cbn zeta.
  set (r := main _ _ _ _ _) in *. assert (trace r.2 ∈ lives ∧ honest r.2) as [Hl Hh] by (destruct r as [[u|e|] s]; exact Hm).
  split; [by apply lives_in_order|]. rewrite Hh. unfold readyz. case_bool_decide; cbn; (split; [|done]); done.
Qed.

(** C8: When the start of the daemon in nftables mode with masquerading makes it ready, then whatever the
    host held before: no masquerade rule of iptables is left; the chains of nftables hold the rules of the configured
    networks and of the subnets of the lease; and a restarted daemon reads these subnets back from the subnet file. *)
Theorem ready_is_set_up W `{NodeLaws W, IfaceHost W, AddrSort} Compile constructors sm opts c bn l (s s' : Process W) :
  writes_file sm → cfg_EnableNFTables c = true → opt_ipMasq opts = true → isReady s = false →
  bring_up Compile constructors sm opts c s = (Ret bn, s') → isReady s' = true → bn_Lease bn = Some l → file_ok c (Subnet l) (IPv6Subnet l) →
  cleaned (p_node s') ∧ masquerades c l (ipMasqRandomFullyDisable opts) (p_node s') ∧
  ReadCIDRFromSubnetFile (subnetFile opts) "FLANNEL_SUBNET" (p_node s') =
    (Ret (if cfg_EnableIPv4 c then Subnet l else mkIP4Net 0 0), p_node s') ∧
  ReadIP6CIDRFromSubnetFile (subnetFile opts) "FLANNEL_IPV6_SUBNET" (p_node s') =
    (Ret (if cfg_EnableIPv6 c then IPv6Subnet l else mkIP6Net (Some 0) 0), p_node s').
Proof.
  intros Hw Hn Hm Hs E Hr Hl Hf. pose proof (bring_up_ok Compile constructors sm opts c Hw Hn Hm s Hs) as Hb. rewrite E in Hb.
  destruct Hb as (l' & El & ((_ & _ & Hc) & Hq) & Hp). rewrite Hl in El. injection El as <-. destruct (Hp Hr) as [w Ew].
  destruct (read_back _ _ _ _ _ _ _ _ Hf Ew) as (_ & R4 & _ & R6). by split_and!.
Qed.

(** What the etcd manager receives before [CompleteLease] returns. *)
Definition terminal (i : complete_input) : Prop :=
  match i with EvtsClosed => True | EvtReceived ev _ => Event_Type ev = EventRemoved | TimerFires _ => False end.

Lemma complete_goes_on {W} `{Registry W} m inputs : ∀ st (w : W) st' w', complete_loop m st inputs w = (Ret (inl st'), w') →
  ∀ i, i ∈ inputs → ¬ terminal i.
Proof.
  induction inputs as [|i inputs IH]; intros st w st' w' E j Hj; [by apply not_elem_of_nil in Hj|].
  cbn [complete_loop] in E. apply M_bind_inv in E as ([st1|e] & w1 & E1 & E); [|by run_inv].
  apply elem_of_cons in Hj as [->|Hj]; [|by eapply IH]. unfold complete_step in E1. destruct i as [now| |ev now]; cbn; [tauto|by run_inv|].
  intros Ht. rewrite Ht in E1. by run_inv.
Qed.

Lemma complete_no_error {W} `{Registry W} m inputs : ∀ st (w : W) e w', complete_loop m st inputs w ≠ (Err e, w').
Proof.
  induction inputs as [|i inputs IH]; intros st w e w' E; [done|]. cbn [complete_loop] in E. unfold mbind at 1, M_bind at 1 in E.
  destruct (complete_step m st i w) as [[[st1|e1]|e1|] w1] eqn:E1; [by apply IH in E|done| |done]. unfold complete_step in E1.
  destruct i as [now| |ev now]; [|done|by destruct (Event_Type ev)]. rewrite run_try_cases in E1. by destruct (RenewLease _ w) as [[]].
Qed.

(** Renewing with the subnet and the attributes of a lease is all that the loop does to the host. *)
Lemma complete_no_panic {W} `{Registry W} m l inputs : (∀ w : W, (updateSubnet (Subnet l) (IPv6Subnet l) (Attrs l) subnetTTL 0 w).1 ≠ Panic) →
  ∀ st (w w' : W), Subnet (myLease st) = Subnet l → IPv6Subnet (myLease st) = IPv6Subnet l → Attrs (myLease st) = Attrs l →
  complete_loop m st inputs w ≠ (Panic, w').
Proof.
  intros Hu. induction inputs as [|i inputs IH]; intros st w w' H4 H6 Ha E; [done|]. cbn [complete_loop] in E. unfold mbind at 1, M_bind at 1 in E.
  destruct (complete_step m st i w) as [[[st1|e1]|e1|] w1] eqn:E1; [|done..|].
  - assert (Subnet (myLease st1) = Subnet l ∧ IPv6Subnet (myLease st1) = IPv6Subnet l ∧ Attrs (myLease st1) = Attrs l) as (? & ? & ?).
    { unfold complete_step in E1. destruct i as [now| |ev now]; [|by run_inv|destruct (Event_Type ev); by run_inv].
      rewrite run_try_cases in E1. unfold RenewLease, mbind, M_bind in E1.
      destruct (updateSubnet _ _ _ _ _ w) as [[x|e|] w2]; cbn in E1; [by injection E1 as <- _..|done]. }
    by apply IH in E.
  - unfold complete_step in E1. destruct i as [now| |ev now]; [|done|by destruct (Event_Type ev)].
    rewrite run_try_cases in E1. unfold RenewLease in E1. rewrite H4, H6, Ha in E1. specialize (Hu w). unfold mbind, M_bind in E1.
    by destruct (updateSubnet _ _ _ _ _ w) as [[]].
Qed.


(** ** A node in memory *)

Record box := mkBox { bx_ifaces : ifview; bx_chains : chainmap; bx_tables : nft_tables; bx_files : envfs; bx_vars : gmap string string }.

Definition in_ifaces {A} (m : M ifview A) : M box A := λ b,
  let '(r, x) := m (bx_ifaces b) in (r, mkBox x (bx_chains b) (bx_tables b) (bx_files b) (bx_vars b)).
Definition in_chains {A} (m : M chainmap A) : M box A := λ b,
  let '(r, x) := m (bx_chains b) in (r, mkBox (bx_ifaces b) x (bx_tables b) (bx_files b) (bx_vars b)).
Definition in_tables {A} (m : M nft_tables A) : M box A := λ b,
  let '(r, x) := m (bx_tables b) in (r, mkBox (bx_ifaces b) (bx_chains b) x (bx_files b) (bx_vars b)).
Definition in_files {A} (m : M envfs A) : M box A := λ b,
  let '(r, x) := m (bx_files b) in (r, mkBox (bx_ifaces b) (bx_chains b) (bx_tables b) x (bx_vars b)).

#[global] Instance box_IfaceHost : IfaceHost box := {
  AddrList link fam := in_ifaces (AddrList link fam);
  AddrAdd link a := in_ifaces (AddrAdd link a);
  AddrDel link a := in_ifaces (AddrDel link a);
  Addr_Equal := @Addr_Equal ifview _;
  RouteGet ip := in_ifaces (RouteGet ip);
  AllRoutes fam := in_ifaces (AllRoutes fam);
  InterfaceByIndex i := in_ifaces (InterfaceByIndex i);
  InterfaceByName name := in_ifaces (InterfaceByName name);
  Interfaces := in_ifaces Interfaces;
  BlackholeList fam dst := in_ifaces (BlackholeList fam dst);
  BlackholeAdd fam dst := in_ifaces (BlackholeAdd fam dst)
}.
#[global] Instance box_Netfilter : Netfilter box := {
  iptables_New p := in_chains (iptables_New p);
  ChainExists ipt t c := in_chains (ChainExists ipt t c);
  ClearChain ipt t c := in_chains (ClearChain ipt t c);
  ClearAndDeleteChain ipt t c := in_chains (ClearAndDeleteChain ipt t c);
  Exists ipt t c spec := in_chains (Exists ipt t c spec);
  LookPath c := in_chains (LookPath c);
  cmd_Run path args stdin := in_chains (cmd_Run path args stdin);
  range_rules := @range_rules chainmap _
}.
#[global] Instance box_Knftables : Knftables box := {
  knftables_New f t := in_tables (knftables_New f t);
  nft_Run i ops := in_tables (nft_Run i ops);
  nft_Check i ops := in_tables (nft_Check i ops)
}.
#[global] Instance box_EnvFiles : EnvFiles box := {
  MkdirAll_Dir path := in_files (MkdirAll_Dir path);
  writeFile path data := in_files (writeFile path data);
  Stat path := in_files (Stat path);
  env_Read path := in_files (env_Read path)
}.
#[global, refine] Instance box_NetfilterLaws : NetfilterLaws box := {
  chains b := bx_chains b;
  random_fully := random_fully (W := chainmap);
  cmd_path := cmd_path (W := chainmap);
  version_text := version_text (W := chainmap)
}.
Proof.
  - intros p [? cs ? ? ?]. done.
  - intros p c [? cs ? ? ?] Hc. cbn. done.
  - intros p [? cs ? ? ?]. done.
  - intros p. apply (law_version_ok (W := chainmap)).
  - intros ipt t c [? cs ? ? ?] Ht. done.
  - intros ipt t c [i cs ts fs vs] Ht. destruct (law_ClearChain ipt t c cs Ht) as (cs' & E & Ecs). eexists.
    change (ClearChain ipt t c (mkBox i cs ts fs vs)) with (in_chains (ClearChain ipt t c) (mkBox i cs ts fs vs)). unfold in_chains. cbn [bx_chains].
    rewrite E. split; [done|]. exact Ecs.
  - intros ipt t c [i cs ts fs vs] Ht. destruct (law_ClearAndDeleteChain ipt t c cs Ht) as (r & cs' & E & Hr & Ecs). eexists r, _.
    change (ClearAndDeleteChain ipt t c (mkBox i cs ts fs vs)) with (in_chains (ClearAndDeleteChain ipt t c) (mkBox i cs ts fs vs)). unfold in_chains. cbn [bx_chains].
    rewrite E. split; [done|]. split; [done|exact Ecs].
  - intros ipt t c spec [i cs ts fs vs] l Ht Hl Hok. cbn [bx_chains] in *.
    change (Exists ipt t c spec (mkBox i cs ts fs vs)) with (in_chains (Exists ipt t c spec) (mkBox i cs ts fs vs)). unfold in_chains. cbn [bx_chains].
    assert (Exists ipt t c spec cs = (Ret (bool_decide (spec ∈ l)), cs)) as -> by (apply (law_Exists (W := chainmap)); [exact Ht|exact Hl|exact Hok]). done.
  - intros p args payload [i cs ts fs vs] trs cs1 Ha Hp Hr. assert (restore_apply p (chains cs) trs = Some cs1) as Hr1 by exact Hr. destruct (law_restore (W := chainmap) p args payload cs trs cs1 Ha Hp Hr1) as (out & cs' & E & Ecs). eexists out, _.
    change (cmd_Run (cmd_path (getIptablesRestoreCommand p)) args payload (mkBox i cs ts fs vs)) with
      (in_chains (cmd_Run (cmd_path (W := chainmap) (getIptablesRestoreCommand p)) args payload) (mkBox i cs ts fs vs)). unfold in_chains. cbn [bx_chains].
    rewrite E. split; [done|exact Ecs].
  - intros m. apply (law_range (W := chainmap)).
Defined.
#[global, refine] Instance box_KnftablesLaws : KnftablesLaws box := { tables b := bx_tables b }.
Proof.
  - intros f t [i cs ts fs vs]. by left.
  - intros j ops [i cs ts fs vs]. cbn [bx_tables]. change (nft_Run j ops (mkBox i cs ts fs vs)) with (in_tables (nft_Run j ops) (mkBox i cs ts fs vs)).
    unfold in_tables. cbn [bx_tables]. destruct (law_Run j ops ts) as [(t & w & Ht & E & Hw)|(e & w & E & Hw)]; rewrite E.
    + left. by eexists t, _.
    + right. by eexists e, _.
  - intros j ops [i cs ts fs vs]. by left.
Defined.
#[global, refine] Instance box_EnvFileLaws : EnvFileLaws box := { file b path := bx_files b !! path }.
Proof.
  - done.
  - intros path data w. cbn. by rewrite lookup_insert_eq.
  - intros path [i cs ts fs vs]. done.
  - intros path kvs [i cs ts fs vs] Hf Hok Hnd. cbn [bx_files] in Hf. change (env_Read path (mkBox i cs ts fs vs)) with (in_files (env_Read path) (mkBox i cs ts fs vs)).
    unfold in_files. cbn [bx_files]. assert (env_Read path fs = (Ret (list_to_map kvs), fs)) as -> by (apply (law_env_Read (W := envfs)); [exact Hf|exact Hok|exact Hnd]). done.
Defined.
#[global, refine] Instance box_NodeLaws : NodeLaws box := {}.
Proof.
  - done.
  - done.
  - intros path [i cs ts fs vs]. unfold env_Read, box_EnvFiles, in_files. cbn [bx_files]. by destruct (env_Read path fs).
  - intros j ops [i cs ts fs vs]. unfold nft_Run, box_Knftables, in_tables. cbn [bx_tables]. by destruct (nft_Run j ops ts).
Defined.

(** A first start in nftables mode, on a host that ran in iptables mode before. *)
Definition nft_conf : Config :=
  mkConfig true false true (mkIP4Net 168099840 16) (mkIP6Net None 0) 0 0 None None 24 0 "host-gw" "".
Definition nft_opts : CmdLineOpts := mkCmdLineOpts
  "" "" "" "" "" "" "" false false "" "" "" (mkIfaceOpts ["eth10"] [] "" "" "") true false "/run/flannel/subnet.env" 60 "0.0.0.0" 8080 5 true true "" true.
Definition file_manager : SubnetManager box :=
  mkSubnetManager (mret (Some nft_conf)) (mret ("", "")) WriteSubnetFile (λ _, mret true).
Definition one_backend (sm : SubnetManager box) (x : ExternalInterface) : gmap string (M box (Config → M box Network)) :=
  {[ "host-gw" := mret (λ _, mret (mkNetwork (Some sample_lease) (Iface_MTU x))) ]}.
Definition old_box : box := mkBox two_ifaces
  {[ (ProtocolIPv4, "nat", "POSTROUTING") := [masq_jump]; (ProtocolIPv4, "nat", "FLANNEL-POSTRTG") := [["-j"; "MASQUERADE"]] ]} ∅ ∅ ∅.
Definition started_box : Process box := (bring_up compile_literal one_backend file_manager nft_opts nft_conf (fresh old_box)).2.

Lemma ready_is_set_up_witness :
  bring_up compile_literal one_backend file_manager nft_opts nft_conf (fresh old_box) = (Ret (mkNetwork (Some sample_lease) 9000), started_box) ∧
  masquerades nft_conf sample_lease false (p_node started_box) ∧ cleaned (p_node started_box) ∧
  ReadCIDRFromSubnetFile "/run/flannel/subnet.env" "FLANNEL_SUBNET" (p_node started_box) = (Ret (Subnet sample_lease), p_node started_box).
Proof.
  assert ((bring_up compile_literal one_backend file_manager nft_opts nft_conf (fresh old_box)).1 = Ret (mkNetwork (Some sample_lease) 9000)) as E1 by (by vm_compute).
  pose proof (run_to _ _ _ E1) as E. fold started_box in E.
  assert (file_ok nft_conf (Subnet sample_lease) (IPv6Subnet sample_lease)) as Hf.
  { constructor; [| |by intros F|by intros F]; intros _; repeat split; cbn; lia. }
  assert (isReady started_box = true) as Hr by (by vm_compute).
  pose proof (ready_is_set_up box compile_literal one_backend file_manager nft_opts nft_conf (mkNetwork (Some sample_lease) 9000) sample_lease
    (fresh old_box) started_box (λ _ _ _ _ _ _, eq_refl) eq_refl eq_refl eq_refl E Hr eq_refl Hf) as (Hc & Hm & R4 & _).
  split; [exact E|]. split; [exact Hm|]. split; [exact Hc|exact R4].
Defined.

(** A registry on a node whose disk is read-only. *)
#[local] Instance diskless : EnvFiles MemRegistry := {
  MkdirAll_Dir _ := mret tt;
  writeFile _ _ := throw (Errorf "read-only file system");
  Stat _ := throw ErrNotExist;
  env_Read _ := throw ErrNotExist
}.
