(* ===== verification/EtcdStart.v ===== *)
(** * [pkg/subnet/etcd/registry.go], [mock_registry.go], [mock_subnet.go]: how a registry is made, and the one of the tests

    The client of etcd and its TLS are parameters ([EtcdDial]).  [MockSubnetRegistry] is the registry that the tests of the
    manager run on; for IPv4 it does what [RegistryLaws] asks of a registry, until an event has nowhere to go. *)

From Stdlib Require Import ZArith Lia Ascii.
From stdpp Require Import base strings list gmap numbers.
From S2P Require Import Prelude GoStrings GoNet Ip4 Ip6 Lease Config LocalManager Main.

Local Open Scope Z_scope.

(** ** The client *)

(** The parts of a [tls.Config] that are set. *)
Record tls_Config (Cert Pool : Type) := mkTls { tls_MinVersion : Z; tls_Certificates : list Cert; tls_RootCAs : option Pool }.
Arguments mkTls {Cert Pool}.
Definition VersionTLS12 : Z := 771.

(** The configuration of the client library. *)
Record dial_config (Cert Pool : Type) := mkDial {
  dial_Endpoints : list string;
  dial_Username : string;
  dial_Password : string;
  dial_TLS : option (tls_Config Cert Pool)
}.
Arguments mkDial {Cert Pool}.
Arguments dial_TLS {Cert Pool}.

(** [NewCert] may give a nil certificate without an error. *)
Class EtcdDial (W Cert Pool Cli KV : Type) := {
  NewCert : string → string → M W (option Cert);
  NewCertPool : list string → M W Pool;
  clientv3_New : dial_config Cert Pool → M W Cli;
  clientv3_NewKV : Cli → KV;
  (** the goroutine that closes the client when the context is done *)
  close_at_end : Cli → M W unit
}.

Record etcdSubnetRegistry (Cli KV : Type) := mkEtcdRegistry { esr_cli : Cli; esr_kvApi : KV; esr_etcdCfg : EtcdConfig }.
Arguments mkEtcdRegistry {Cli KV}.

Section client.
Context {W Cert Pool Cli KV : Type} `{EtcdDial W Cert Pool Cli KV}.

Definition newTlsConfig (c : EtcdConfig) : M W (option (tls_Config Cert Pool)) :=
  if decide (ec_Keyfile c = "" ∨ ec_Certfile c = "") then mret None
  else
    cert ← NewCert (ec_Certfile c) (ec_Keyfile c);
    let certificates := match cert with Some cert => [cert] | None => [] end in
    if decide (ec_CAFile c ≠ "") then
      pool ← NewCertPool [ec_CAFile c];
      mret (Some (mkTls VersionTLS12 certificates (Some pool)))
    else mret (Some (mkTls VersionTLS12 certificates None)).

Definition newEtcdClient (c : EtcdConfig) : M W (Cli * KV) :=
  tlscfg ← newTlsConfig c;
  cli ← clientv3_New (mkDial (ec_Endpoints c) (ec_Username c) (ec_Password c) tlscfg);
  let kv := clientv3_NewKV cli in
  _ ← close_at_end cli;
  mret (cli, kv).

(** [compiles] says of a text whether it is a regular expression; the one that is compiled is not used. *)
Definition newEtcdSubnetRegistry (compiles : string → bool) (config : EtcdConfig) (cliNewFunc : option (EtcdConfig → M W (Cli * KV)))
    : M W (etcdSubnetRegistry Cli KV) :=
  if negb (compiles (ec_Prefix config +:+ "/([^/]*)(/|/config)?$")) then panic
  else
    '(cli, kv) ← (match cliNewFunc with Some f => f | None => newEtcdClient end) config;
    mret (mkEtcdRegistry cli kv config).

(** Without a certificate and its key the client is told of no authority: one that is given alone is not used. *)
Theorem authority_alone_not_used c : ec_Keyfile c = "" ∨ ec_Certfile c = "" →
  newEtcdClient c = newEtcdClient (mkEtcdConfig (ec_Endpoints c) "" "" "" (ec_Prefix c) (ec_Username c) (ec_Password c)).
Proof. intros Hc. unfold newEtcdClient, newTlsConfig. rewrite decide_True by done. by rewrite decide_True by (by left). Qed.

(** With both, and calls that succeed, the client authenticates the server by the authority that was given. *)
Theorem client_uses_authority c cert pool cli (w w1 w2 w3 w4 : W) :
  ec_Keyfile c ≠ "" → ec_Certfile c ≠ "" → ec_CAFile c ≠ "" →
  NewCert (ec_Certfile c) (ec_Keyfile c) w = (Ret (Some cert), w1) → NewCertPool [ec_CAFile c] w1 = (Ret pool, w2) →
  clientv3_New (mkDial (ec_Endpoints c) (ec_Username c) (ec_Password c) (Some (mkTls VersionTLS12 [cert] (Some pool)))) w2 = (Ret cli, w3) →
  close_at_end cli w3 = (Ret tt, w4) →
  newEtcdClient c w = (Ret (cli, clientv3_NewKV cli), w4).
Proof.
  intros Hk Hc Ha Hcert Hpool Hcli Hclose. unfold newEtcdClient.
  assert (newTlsConfig c w = (Ret (Some (mkTls VersionTLS12 [cert] (Some pool))), w2)) as Htls.
  { unfold newTlsConfig. rewrite decide_False by (by intros [?|?]). rewrite (M_bind_Ret _ _ _ _ _ Hcert). cbn zeta.
    rewrite decide_True by done. by rewrite (M_bind_Ret _ _ _ _ _ Hpool). }
  rewrite (M_bind_Ret _ _ _ _ _ Htls), (M_bind_Ret _ _ _ _ _ Hcli). cbn zeta. by rewrite (M_bind_Ret _ _ _ _ _ Hclose).
Qed.

(** A prefix that is no regular expression, for the pattern that nothing matches with, ends the daemon. *)
Theorem odd_prefix_panics compiles config f (w : W) : compiles (ec_Prefix config +:+ "/([^/]*)(/|/config)?$") = false →
  newEtcdSubnetRegistry compiles config f w = (Panic, w).
Proof. intros Hc. unfold newEtcdSubnetRegistry. by rewrite Hc. Qed.
End client.

(** ** The registry of the tests *)

Record mock_event := mkMockEvent { me_evt : Event; me_index : Z }.
(** The channels hold what was sent; those of the subnets have no receiver.  [ms_now] is the clock. *)
Record MockSubnetRegistry := mkMock {
  ms_config : string;
  ms_subnets : list Lease;
  ms_subnetsEvents : list mock_event;
  ms_subnetEvents : gmap IP4Net (list mock_event);
  ms_index : Z;
  ms_now : Z
}.
Definition NewMockRegistry (config : string) (initialSubnets : list Lease) (now : Z) : MockSubnetRegistry :=
  mkMock config initialSubnets [] ∅ 1000 now.

Definition ErrKeyNotFound : error := Sentinel "etcdserver: key not found".
(** A call whose send finds a full channel does not return; it holds the lock of the registry. *)
Definition mock_blocked : error := Errorf "blocked".

Definition with_subnets (f : list Lease → list Lease) (s : MockSubnetRegistry) : MockSubnetRegistry :=
  mkMock (ms_config s) (f (ms_subnets s)) (ms_subnetsEvents s) (ms_subnetEvents s) (ms_index s) (ms_now s).
Definition next_index (s : MockSubnetRegistry) : MockSubnetRegistry :=
  mkMock (ms_config s) (ms_subnets s) (ms_subnetsEvents s) (ms_subnetEvents s) (ms_index s + 1) (ms_now s).

Definition sendSubnetEvent (sn : IP4Net) (e : mock_event) : M MockSubnetRegistry unit := λ s,
  if (1000 <=? length (ms_subnetsEvents s))%nat then (Err mock_blocked, s)
  else
    let events := ms_subnetsEvents s ++ [e] in
    let c := default [] (ms_subnetEvents s !! sn) in
    if (10 <=? length c)%nat
    then (Err mock_blocked, mkMock (ms_config s) (ms_subnets s) events (<[sn := c]> (ms_subnetEvents s)) (ms_index s) (ms_now s))
    else (Ret tt, mkMock (ms_config s) (ms_subnets s) events (<[sn := c ++ [e]]> (ms_subnetEvents s)) (ms_index s) (ms_now s)).

(** The index of the first lease of the subnet, and the lease. *)
Definition findSubnet (sn : IP4Net) (l : list Lease) : option (nat * Lease) := list_find (λ l, IP4Net_Equal (Subnet l) sn = true) l.
Definition mock_expiration (now ttl : Z) : Z := if ttl =? 0 then zero_time else now + ttl.

Definition setConfig (config : string) : M MockSubnetRegistry unit :=
  modify (λ s, mkMock config (ms_subnets s) (ms_subnetsEvents s) (ms_subnetEvents s) (ms_index s) (ms_now s)).
Definition mock_getSubnets : M MockSubnetRegistry (list Lease * Z) := λ s, (Ret (ms_subnets s, ms_index s), s).
Definition mock_getSubnet (sn : IP4Net) (sn6 : IP6Net) : M MockSubnetRegistry (Lease * Z) := λ s,
  match findSubnet sn (ms_subnets s) with
  | Some (_, l) => (Ret (l, ms_index s), s)
  | None => (Err (Errorf "subnet %s not found"), s)
  end.

Definition mock_createSubnet (sn : IP4Net) (sn6 : IP6Net) (attrs : LeaseAttrs) (ttl : Z) : M MockSubnetRegistry Z :=
  s ← get;
  match findSubnet sn (ms_subnets s) with
  | Some _ => throw ErrKeyNotFound
  | None =>
      _ ← modify next_index;
      s ← get;
      let exp := mock_expiration (ms_now s) ttl in
      let l := mkLease false false sn (mkIP6Net None 0) attrs exp (ms_index s) in
      _ ← modify (with_subnets (λ ls, ls ++ [l]));
      _ ← sendSubnetEvent sn (mkMockEvent (mkEvent EventAdded l) (ms_index s));
      mret exp
  end.

Definition mock_updateSubnet (sn : IP4Net) (sn6 : IP6Net) (attrs : LeaseAttrs) (ttl asof : Z) : M MockSubnetRegistry Z :=
  _ ← modify next_index;
  s ← get;
  let exp := mock_expiration (ms_now s) ttl in
  match findSubnet sn (ms_subnets s) with
  | None => throw (Errorf "subnet not found")
  | Some (i, sub) =>
      let sub := mkLease (EnableIPv4 sub) (EnableIPv6 sub) (Subnet sub) (IPv6Subnet sub) attrs exp (ms_index s) in
      _ ← modify (with_subnets (<[i := sub]>));
      _ ← sendSubnetEvent sn (mkMockEvent (mkEvent EventAdded sub) (ms_index s));
      mret exp
  end.

(** The last takes the place of the one that goes. *)
Definition swap_remove (i : nat) (l : list Lease) : list Lease :=
  match list.last l with
  | Some x => take (length l - 1) (<[i := x]> l)
  | None => l
  end.
Definition mock_deleteSubnet (sn : IP4Net) (sn6 : IP6Net) : M MockSubnetRegistry unit :=
  _ ← modify next_index;
  s ← get;
  match findSubnet sn (ms_subnets s) with
  | None => throw (Errorf "subnet not found")
  | Some (i, sub) =>
      _ ← modify (with_subnets (swap_remove i));
      let sub := mkLease (EnableIPv4 sub) (EnableIPv6 sub) (Subnet sub) (IPv6Subnet sub) (Attrs sub) (Expiration sub) (ms_index s) in
      sendSubnetEvent sn (mkMockEvent (mkEvent EventRemoved sub) (ms_index s))
  end.

#[global] Instance mock_Registry : Registry MockSubnetRegistry := {
  getNetworkConfig := λ s, (Ret (ms_config s), s);
  getSubnets := mock_getSubnets;
  getSubnet := mock_getSubnet;
  createSubnet := mock_createSubnet;
  updateSubnet := mock_updateSubnet;
  deleteSubnet := mock_deleteSubnet
}.

(** One turn of [watchSubnets] that the context does not end: it waits while there is no event. *)
Inductive mock_turn := TurnCompacted | TurnWaits | TurnSkips | TurnSends (wr : list Event * Z).
Definition watch_turn (since : Z) : M MockSubnetRegistry mock_turn := λ s,
  if since <? ms_index s then (Ret TurnCompacted, s)
  else
    match ms_subnetsEvents s with
    | [] => (Ret TurnWaits, s)
    | e :: es =>
        (Ret (if since <? me_index e then TurnSends ([me_evt e], me_index e) else TurnSkips),
         mkMock (ms_config s) (ms_subnets s) es (ms_subnetEvents s) (ms_index s) (ms_now s))
    end.
Definition mock_leasesWatchReset : M MockSubnetRegistry (list Lease * Z) := mock_getSubnets.

Definition NewMockManager : LocalManager := mkLocalManager (mkIP4Net 0 0) (mkIP6Net None 0) 60.
Definition NewMockManagerWithSubnet (sn : IP4Net) (sn6 : IP6Net) : LocalManager := mkLocalManager sn sn6 60.

(** ** The registry of the tests keeps the leases by their IPv4 subnets *)

Definition holds_leases (l : list Lease) (m : gmap IP4Net LeaseAttrs) : Prop :=
  NoDup (Subnet <$> l) ∧ ∀ sn a, m !! sn = Some a ↔ ∃ x, x ∈ l ∧ Subnet x = sn ∧ Attrs x = a.

Lemma IP4Net_Equal_spec a b : IP4Net_Equal a b = true ↔ a = b.
Proof.
  unfold IP4Net_Equal. rewrite andb_true_iff, !Z.eqb_eq. destruct a, b. cbn. split; [by intros [-> ->]|by intros [= -> ->]].
Qed.

Lemma findSubnet_None sn l m : holds_leases l m → findSubnet sn l = None ↔ m !! sn = None.
Proof.
  intros [_ Hm]. unfold findSubnet. rewrite list_find_None, list.Forall_forall, eq_None_not_Some. split.
  - intros Hall [a (x & Hx & Hsn & _)%Hm]. by apply (Hall x Hx), IP4Net_Equal_spec.
  - intros Hno x Hx E%IP4Net_Equal_spec. apply Hno. exists (Attrs x). apply Hm. by exists x.
Qed.
Lemma findSubnet_Some sn (l : list Lease) (i : nat) x : findSubnet sn l = Some (i, x) → l !! i = Some x ∧ Subnet x = sn.
Proof. unfold findSubnet. intros (Hi & E%IP4Net_Equal_spec & _)%list_find_Some. done. Qed.

Lemma holds_perm l l' m : l ≡ₚ l' → holds_leases l m → holds_leases l' m.
Proof.
  intros Hp [Hnd Hm]. split; [by rewrite <- Hp|]. intros sn a. rewrite Hm. split; intros (x & Hx & ?); exists x; [by rewrite <- Hp|by rewrite Hp].
Qed.

Lemma holds_cons x l m : holds_leases (x :: l) m ↔ holds_leases l (delete (Subnet x) m) ∧ m !! Subnet x = Some (Attrs x).
Proof.
  unfold holds_leases. rewrite fmap_cons, list.NoDup_cons. split.
  - intros [[Hnot Hnd] Hm]. split; [split; [done|]|apply Hm; exists x; split; [by left|done]].
    intros sn a. rewrite lookup_delete_Some, Hm. split.
    + intros [Hne (y & Hy & Hsn & Ha)]. apply elem_of_cons in Hy as [->|Hy]; [done|]. by exists y.
    + intros (y & Hy & Hsn & Ha). split; [|exists y; split; [by right|done]]. intros E. apply Hnot. rewrite E, <- Hsn. by apply list_elem_of_fmap_2.
  - intros [[Hnd Hm] Hx]. split; [split; [|done]|].
    + intros Hin. apply list_elem_of_fmap in Hin as (y & E & Hy). assert (delete (Subnet x) m !! Subnet y = Some (Attrs y)) as Hd by (apply Hm; by exists y).
      rewrite E in Hd. by rewrite lookup_delete_eq in Hd.
    + intros sn a. specialize (Hm sn a). rewrite lookup_delete_Some in Hm. split.
      * intros Hs. destruct (decide (Subnet x = sn)) as [<-|Hne]; [exists x; split; [by left|]; split; [done|congruence]|].
        destruct (proj1 Hm (conj Hne Hs)) as (y & Hy & ?). exists y. split; [by right|done].
      * intros (y & Hy & Hsn & Ha). apply elem_of_cons in Hy as [->|Hy]; [by subst|]. apply Hm. by exists y.
Qed.

Lemma take_out (l : list Lease) (i : nat) (x : Lease) : l !! i = Some x → l ≡ₚ x :: delete i l.
Proof. intros Hi. by apply delete_Permutation. Qed.

Lemma swap_remove_perm (i : nat) (l : list Lease) (x : Lease) : l !! i = Some x → swap_remove i l ≡ₚ delete i l.
Proof.
  intros Hi. unfold swap_remove. destruct l as [|y l _] using rev_ind; [done|]. rewrite last_snoc, length_app. cbn [length].
  replace (length l + 1 - 1)%nat with (length l) by lia. destruct (decide (i = length l)) as [->|Hne].
  - rewrite insert_app_r_alt, Nat.sub_diag by lia. cbn. rewrite take_app_length.
    rewrite delete_take_drop, take_app_length, drop_ge by (rewrite length_app; cbn; lia). by rewrite app_nil_r.
  - assert (i < length l)%nat as Hlt by (apply lookup_lt_Some in Hi; rewrite length_app in Hi; cbn in Hi; lia).
    rewrite insert_app_l, take_app_length' by (done || by rewrite length_insert).
    rewrite (insert_take_drop l i y Hlt), delete_take_drop, take_app_le, drop_app_le by lia.
    rewrite <- Permutation_middle, app_assoc. by rewrite <- Permutation_cons_append.
Qed.

Lemma sent_or_blocked sn e (s : MockSubnetRegistry) : ∃ r s', sendSubnetEvent sn e s = (r, s') ∧ ms_subnets s' = ms_subnets s ∧
  (r = Ret tt ∨ r = Err mock_blocked).
Proof. unfold sendSubnetEvent. destruct (_ <=? _)%nat; [eexists _, _; by auto|]. destruct (_ <=? _)%nat; eexists _, _; by auto. Qed.

(** What the calls make of the leases; a call that blocks has changed them. *)
Definition mock_result {A} (r : outcome A) (l' : list Lease) (before after : gmap IP4Net LeaseAttrs) (refused : error → Prop) : Prop :=
  match r with
  | Ret _ => holds_leases l' after
  | Err e => (e = mock_blocked ∧ holds_leases l' after) ∨ (refused e ∧ holds_leases l' before)
  | Panic => False
  end.

Lemma finish_send {A} sn e (a : A) (s : MockSubnetRegistry) before after refused : holds_leases (ms_subnets s) after →
  let '(r, s') := (_ ← sendSubnetEvent sn e; mret a) s in mock_result r (ms_subnets s') before after refused.
Proof.
  intros Hl. destruct (sent_or_blocked sn e s) as (r & s' & Hs & El & Hr). unfold mbind, M_bind. rewrite Hs.
  destruct Hr as [-> | ->]; cbn; rewrite El; [done|by left].
Qed.

(** A registry in memory: a subnet is created once, with the wrong error the second time; an update and a removal ask for
    a subnet that is there. *)
Theorem mock_keeps_leases sn sn6 a ttl asof (s : MockSubnetRegistry) m : holds_leases (ms_subnets s) m →
  (let '(r, s') := createSubnet sn sn6 a ttl s in
   mock_result r (ms_subnets s') m (<[sn := a]> m) (λ e, e = ErrKeyNotFound ∧ is_Some (m !! sn)) ∧
   (∀ t, r = Ret t → m !! sn = None)) ∧
  (let '(r, s') := updateSubnet sn sn6 a ttl asof s in
   mock_result r (ms_subnets s') m (<[sn := a]> m) (λ e, m !! sn = None)) ∧
  (let '(r, s') := deleteSubnet sn sn6 s in
   mock_result r (ms_subnets s') m (delete sn m) (λ e, m !! sn = None)).
Proof.
  intros Hl. split_and!; cbn [createSubnet updateSubnet deleteSubnet mock_Registry].
  - unfold mock_createSubnet. rewrite run_get. destruct (findSubnet sn (ms_subnets s)) as [[i x]|] eqn:E.
    + cbn. split; [|done]. right. split; [split; [done|]|done]. apply not_eq_None_Some. by rewrite <- (findSubnet_None sn _ _ Hl), E.
    + apply (findSubnet_None sn _ _ Hl) in E. run. set (x := mkLease _ _ _ _ _ _ _). set (s2 := with_subnets _ _).
      assert (holds_leases (ms_subnets s2) (<[sn := a]> m)) as H2.
      { apply (holds_perm (x :: ms_subnets s)); [cbn; apply Permutation_cons_append|]. apply holds_cons. cbn [Subnet Attrs x].
        rewrite delete_insert_eq, lookup_insert_eq, delete_id by done. done. }
      pose proof (finish_send sn (mkMockEvent (mkEvent EventAdded x) (ms_index (next_index s))) (mock_expiration (ms_now (next_index s)) ttl) s2 m
        (<[sn := a]> m) (λ e, e = ErrKeyNotFound ∧ is_Some (m !! sn)) H2) as Hf.
      destruct ((_ ← sendSubnetEvent sn _; mret _) s2) as [r s']. by split.
  - unfold mock_updateSubnet. run. change (ms_subnets (next_index s)) with (ms_subnets s).
    destruct (findSubnet sn (ms_subnets s)) as [[i x]|] eqn:E; [|cbn; right; split; [by apply (findSubnet_None sn _ _ Hl)|done]].
    apply findSubnet_Some in E as [Hi Hsn]. run. apply finish_send. cbn [ms_subnets with_subnets next_index].
    apply (holds_perm (mkLease (EnableIPv4 x) (EnableIPv6 x) (Subnet x) (IPv6Subnet x) a (mock_expiration (ms_now (next_index s)) ttl) (ms_index (next_index s)) :: delete i (ms_subnets s))).
    { symmetry. etrans; [apply (take_out _ i)|]; [apply list_lookup_insert_eq; by eapply lookup_lt_Some|]. by rewrite !delete_take_drop, take_insert_ge, drop_insert_lt by lia. }
    apply (holds_perm _ _ _ (take_out _ _ _ Hi)) in Hl. apply holds_cons in Hl as [Hl _]. apply holds_cons. cbn [Subnet Attrs]. rewrite Hsn in *.
    rewrite delete_insert_eq, lookup_insert_eq. done.
  - unfold mock_deleteSubnet. run. change (ms_subnets (next_index s)) with (ms_subnets s).
    destruct (findSubnet sn (ms_subnets s)) as [[i x]|] eqn:E; [|cbn; right; split; [by apply (findSubnet_None sn _ _ Hl)|done]].
    apply findSubnet_Some in E as [Hi Hsn]. run. set (s2 := with_subnets _ _).
    assert (holds_leases (ms_subnets s2) (delete sn m)) as H2.
    { eapply holds_perm; [symmetry; by eapply swap_remove_perm|]. apply (holds_perm _ _ _ (take_out _ _ _ Hi)) in Hl.
      apply holds_cons in Hl as [Hl _]. by rewrite Hsn in Hl. }
    match goal with |- context [sendSubnetEvent sn ?e s2] => destruct (sent_or_blocked sn e s2) as (r & s' & Hs & El & Hr) end.
    rewrite Hs. destruct Hr as [-> | ->]; cbn; rewrite El; [done|by left].
Qed.

(** Nothing receives from the channel of a subnet: the call that would send an eleventh event to it does not return. *)
Theorem eleventh_event_blocks sn sn6 a ttl asof (s : MockSubnetRegistry) m c : holds_leases (ms_subnets s) m → is_Some (m !! sn) →
  ms_subnetEvents s !! sn = Some c → (10 <= length c)%nat → (updateSubnet sn sn6 a ttl asof s).1 = Err mock_blocked.
Proof.
  intros Hl Hm Hc Hlen. cbn [updateSubnet mock_Registry]. unfold mock_updateSubnet. run. change (ms_subnets (next_index s)) with (ms_subnets s).
  destruct (findSubnet sn (ms_subnets s)) as [[i x]|] eqn:E; [|apply (findSubnet_None sn _ _ Hl) in E; rewrite E in Hm; by destruct Hm].
  run. unfold mbind, M_bind, sendSubnetEvent. cbn [ms_subnetsEvents ms_subnetEvents with_subnets next_index]. rewrite Hc.
  destruct (_ <=? _)%nat; [done|]. cbn [default]. by rewrite (proj2 (Nat.leb_le _ _)).
Qed.

(** The error of the registry of the tests for a subnet that is taken is not one that the manager tries again after. *)
Example mock_conflict_not_retried : isErrEtcdNodeExist ErrKeyNotFound = false.
Proof. reflexivity. Qed.

(** A manager on the registry of the tests takes the free subnet. *)
Example mock_acquired :
  match acquire_loop NewMockManager 3 [(5, 0)%nat] raceRetries small_config small_attrs
          (NewMockRegistry "" [mkLease true false (mkIP4Net 167772164 30) (mkIP6Net None 0) (mkLeaseAttrs 1 None "vxlan" None None) 0 0] 0) with
  | (Ret l, s) => bool_decide (Subnet l ∈ Subnet <$> ms_subnets s) && (length (ms_subnets s) =? 2)%nat
  | _ => false
  end = true.
Proof. vm_compute. reflexivity. Qed.
