(* ===== verification/KubeStart.v ===== *)
(** * [pkg/subnet/kube/kube.go]: how the manager is made, and its queue of events

    [NewSubnetManager] and the rest of [newKubeSubnetManager], the handlers that the informer calls, and the queue
    between the informer and the backend with the goroutines that wait for room in it, as a step
    relation; what the start returns, and which orders of events the queue allows. *)

From Stdlib Require Import ZArith Lia Ascii.
From stdpp Require Import base strings list gmap numbers.
From S2P Require Import Prelude GoStrings GoJson GoNet Ip4 Ip6 Lease Config LocalManager Backend Kube Daemon MeshConfig Main.

Local Open Scope Z_scope.

(** ** The start *)

(** The depth of the channel of events: [EVENT_QUEUE_DEPTH] when it is a positive number, or 5000. *)
Definition queue_depth (scaleStr : string) : outcome Z :=
  let scale := 5000 in
  if decide (scaleStr = "") then Ret scale
  else
    match ParseInt scaleStr 64 with
    | None => Err (Wrapf "env EVENT_QUEUE_DEPTH=%s format error: %v" (Errorf "strconv.Atoi: parsing"))
    | Some n => Ret (if 0 <? n then n else scale)
    end.

(** One look at the controller: whether it has synced, a context that is done, or no answer within a second. *)
Inductive sync_check := CheckSynced (synced : bool) | CheckDone (err : error) | CheckSlow.
Definition DeadlineExceeded : string := "context deadline exceeded".

(** [wait.PollUntilContextTimeout]: a look now and one every second, until the time is over. *)
Fixpoint poll_sync (checks : list sync_check) : option error :=
  match checks with
  | [] => Some (Sentinel DeadlineExceeded)
  | CheckSynced true :: _ => None
  | CheckDone err :: _ => Some err
  | _ :: checks => poll_sync checks
  end.

Class KubeStart (W : Type) := {
  BuildConfigFromFlags : string → string → M W unit;
  NewForConfig : M W unit;
  (** [Spec.NodeName] of a pod *)
  get_pod_node : string → string → M W string;
  os_ReadFile : string → M W string;
  controller_checks : M W (list sync_check)
}.

Section start.
Context {W : Type} `{KubeStart W, NodeEnv W}.

Definition kube_node_name : M W string :=
  nodeName ← Getenv "NODE_NAME";
  if decide (nodeName = "") then
    podName ← Getenv "POD_NAME";
    podNamespace ← Getenv "POD_NAMESPACE";
    check (bool_decide (podName = "") || bool_decide (podNamespace = "")) (Errorf "env variables POD_NAME and POD_NAMESPACE must be set");;
    nodeName ← wrapping "error retrieving pod spec for '%s/%s': %v" (get_pod_node podNamespace podName);
    check (bool_decide (nodeName = "")) (Errorf "node name not present in pod spec '%s/%s'");;
    mret nodeName
  else mret nodeName.

(** The manager and the depth of its channel. *)
Definition new_kube (sc : Config) (name prefix : string) : M W (kubeSubnetManager * Z) :=
  ksm ← lift (newKubeSubnetManager sc name prefix);
  scaleStr ← Getenv "EVENT_QUEUE_DEPTH";
  depth ← lift (queue_depth scaleStr);
  mret (ksm, depth).

Definition with_unavailable (b : bool) (ksm : kubeSubnetManager) : kubeSubnetManager :=
  mkKube (enableIPv4 ksm) (enableIPv6 ksm) (ksm_annotations ksm) (annotationPrefix ksm) (nodeName ksm) (subnetConf ksm) (disableNodeInformer ksm) b.

(** What can fail before there is a manager. *)
Definition kube_make (apiUrl kubeconfig prefix netConfPath : string) (unavailable : bool) : M W (kubeSubnetManager * Z) :=
  wrapping "fail to create kubernetes config: %v" (BuildConfigFromFlags apiUrl kubeconfig);;
  wrapping "unable to initialize client: %v" NewForConfig;;
  name ← kube_node_name;
  netConf ← wrapping "failed to read net conf: %v" (os_ReadFile netConfPath);
  sc ← wrapping "error parsing subnet config: %s" (lift (ParseConfig netConf));
  sm ← wrapping "error creating network manager: %s" (new_kube sc name prefix);
  mret (with_unavailable unavailable sm.1, sm.2).

(** A manager and an error, each of which may be nil. *)
Definition NewSubnetManager (apiUrl kubeconfig prefix netConfPath : string) (unavailable : bool) : M W (pair_result (kubeSubnetManager * Z)) :=
  r ← try (kube_make apiUrl kubeconfig prefix netConfPath unavailable);
  match r with
  | inr err => mret (None, Some err)
  | inl sm =>
      if disableNodeInformer sm.1 then mret (Some sm, None)
      else
        checks ← controller_checks;
        match poll_sync checks with
        | Some err => mret (Some sm, Some (Wrapf "error waiting for nodeController to sync state: %w" err))
        | None => mret (Some sm, None)
        end
  end.
End start.

(** ** The handlers *)

(** What the informer hands over: a node, the last known state of one that it missed the deletion of, or another object. *)
Inductive informer_object := ObjNode (n : Node) | ObjFinalState (o : option Node) | ObjOther.
Definition informer_node (obj : informer_object) : option Node :=
  match obj with ObjNode n => Some n | ObjFinalState o => o | ObjOther => None end.
Definition delete_handler (ksm : kubeSubnetManager) (obj : informer_object) : outcome (option Event) :=
  match informer_node obj with None => Ret None | Some n => handleAddLeaseEvent ksm EventRemoved n end.

(** ** The queue *)

(** What can happen to it: the informer hands over an event, the backend receives one, a goroutine
    that waits takes a turn, the context is cancelled. *)
Inductive queue_action := Hand (e : Event) (r : acquire_result) | Receive | Retry (i : nat) (c : select_case) | Cancel.

(** The queue after an action and what was received; [None] when the action has to wait or cannot happen. *)
Definition queue_step (q : event_queue) (a : queue_action) : option (event_queue * option Event) :=
  match a with
  | Hand e r => (λ q', (q', None)) <$> enqueueLeaseEvent q r e
  | Receive =>
      match q_events q with
      | e :: l => Some (mkQueue l (q_depth q) (q_waiting q) (q_done q) (q_dropped q), Some e)
      | [] => None
      end
  | Retry i c => (λ q', (q', None)) <$> retryLeaseEvent q i c
  | Cancel => Some (mkQueue (q_events q) (q_depth q) (q_waiting q) true (q_dropped q), None)
  end.

Definition empty_queue (depth : nat) : event_queue := mkQueue [] depth [] false [].
Definition handed (a : queue_action) : option Event := match a with Hand e _ => Some e | _ => None end.

(** The queue, what was handed over and what was received, from the start. *)
Inductive queue_reaches (depth : nat) : event_queue → list Event → list Event → Prop :=
| reaches_start : queue_reaches depth (empty_queue depth) [] []
| reaches_step q given received a q' r : queue_reaches depth q given received → queue_step q a = Some (q', r) →
    queue_reaches depth q' (given ++ option_list (handed a)) (received ++ option_list r).
