(* ===== verification/KubeStartFacts.v ===== *)
(** * Facts of [KubeStart.v]: what the start returns, and what the queue keeps *)

From Stdlib Require Import ZArith Lia Ascii.
From stdpp Require Import base strings list gmap numbers.
From S2P Require Import Prelude GoStrings GoJson GoNet Ip4 Ip6 Lease Config LocalManager IpTables NfTables Backend Iface IpMatch Kube Daemon MeshConfig Main KubeStart.

Local Open Scope Z_scope.

(** ** The start *)

(** A call none of whose errors is [t]. *)
Definition masks {S A} (t : string) (m : M S A) : Prop := ∀ s e s', m s = (Err e, s') → errors_Is e t = false.

Section masks.
Context {S : Type} (t : string).
Lemma masks_ret {A} (a : A) : masks t (mret a : M S A).
Proof. by intros s e s' E. Qed.
Lemma masks_bind {A B} (m : M S A) (f : A → M S B) : masks t m → (∀ a, masks t (f a)) → masks t (x ← m; f x).
Proof.
  intros Hm Hf s e s' E. unfold mbind, M_bind in E. destruct (m s) as [[a|e1|] s1] eqn:E1; [by apply (Hf _ _ _ _ E)| |done].
  injection E as <- <-. by apply (Hm _ _ _ E1).
Qed.
Lemma masks_wrapping {A} fmt (m : M S A) : wraps fmt = false → masks t (wrapping fmt m).
Proof.
  intros Hf s e s' E. unfold wrapping in E. rewrite run_try_cases in E. destruct (m s) as [[a|e1|] s1]; [done| |done].
  injection E as <- <-. cbn. by rewrite Hf.
Qed.
Lemma masks_check b f : masks t (check b (Errorf f) : M S unit).
Proof. intros s e s' E. unfold check in E. destruct b; [by injection E as <- _|done]. Qed.
End masks.

Lemma poll_sync_done checks : poll_sync checks = None → CheckSynced true ∈ checks.
Proof. induction checks as [|[[]|err|] checks IH]; cbn; intros E; [done|by left|right; auto|done|right; auto]. Qed.

Section start.
Context {W : Type} `{KubeStart W, NodeEnv W}.
Hypothesis Getenv_total : ∀ k (w : W), ∃ v w', Getenv k w = (Ret v, w').

Lemma masks_Getenv t k : masks (S := W) t (Getenv k).
Proof. intros w e w' E. destruct (Getenv_total k w) as (v & w1 & E1). congruence. Qed.

Lemma kube_make_masks t a k p n u : masks (S := W) t (kube_make a k p n u).
Proof.
  unfold kube_make. apply masks_bind; [by apply masks_wrapping|intros _]. apply masks_bind; [by apply masks_wrapping|intros _].
  apply masks_bind; [|intros name]; [|apply masks_bind; [by apply masks_wrapping|intros conf]; apply masks_bind; [by apply masks_wrapping|intros sc];
    apply masks_bind; [by apply masks_wrapping|intros sm; apply masks_ret]].
  unfold kube_node_name. apply masks_bind; [apply masks_Getenv|intros v]. case_decide; [|apply masks_ret].
  apply masks_bind; [apply masks_Getenv|intros pod]. apply masks_bind; [apply masks_Getenv|intros ns]. apply masks_bind; [apply masks_check|intros _].
  apply masks_bind; [by apply masks_wrapping|intros v']. apply masks_bind; [apply masks_check|intros _]. apply masks_ret.
Qed.

(** The start returns a manager whose cache has synchronised (or that needs none), a manager with an error because it has not, or
    an error alone, which is never taken for the end of a deadline. *)
Lemma NewSubnetManager_cases a k p n u (w : W) r w' : NewSubnetManager a k p n u w = (Ret r, w') →
  match r with
  | (Some sm, None) => disableNodeInformer sm.1 = true ∨ ∃ checks w1, controller_checks w1 = (Ret checks, w') ∧ CheckSynced true ∈ checks
  | (Some sm, Some _) => disableNodeInformer sm.1 = false
  | (None, Some err) => errors_Is err DeadlineExceeded = false
  | (None, None) => False
  end.
Proof.
  unfold NewSubnetManager. rewrite run_try_cases. destruct (kube_make a k p n u w) as [[sm|err|] w1] eqn:E; [| |done].
  - destruct (disableNodeInformer sm.1) eqn:Ed; [by intros [= <- <-]; left|]. intros E2. apply M_bind_inv in E2 as (checks & w2 & E2 & E3).
    destruct (poll_sync checks) as [err|] eqn:Ep; injection E3 as <- <-; [done|]. right. exists checks, w1. split; [done|]. by apply poll_sync_done.
  - intros [= <- <-]. by apply (kube_make_masks DeadlineExceeded a k p n u w err w1).
Qed.
End start.

(** The start of the daemon with this manager. *)
Definition kube_daemon {W} `{KubeStart W, NodeEnv W, EnvFiles W, KubeClient W} (flags : string → CmdLineOpts → M W CmdLineOpts)
  (etcd : EtcdConfig → IP4Net → IP6Net → Z → M W (pair_result (SubnetManager W))) : DaemonEnv W := {|
  SetFlagsFromEnv := flags;
  kube_NewSubnetManager a k p n u := r ← NewSubnetManager a k p n u; mret ((λ sm, kube_manager sm.1) <$> r.1, r.2);
  etcd_NewLocalManager := etcd
|}.

(** The daemon goes on with the manager that was made, also when it is told to go on without a synchronised cache; it exits
    when there is none, and never uses a nil manager. *)
Theorem kube_daemon_has_manager W `{KubeStart W, NodeEnv W, EnvFiles W, KubeClient W} flags etcd opts (s s' : Process W) r :
  (∀ k (w : W), ∃ v w', Getenv k w = (Ret v, w')) → (∀ w : W, ∃ checks w', controller_checks w = (Ret checks, w')) → kubeSubnetMgr opts = true →
  (∀ w, (kube_make (kubeApiUrl opts) (kubeConfigFile opts) (kubeAnnotationPrefix opts) (netConfPath opts) (opt_setNodeNetworkUnavailable opts) w).1 ≠ Panic) →
  @start_manager W _ _ (kube_daemon flags etcd) opts s = (r, s') →
  (∃ ksm : kubeSubnetManager, r = Ret (kube_manager ksm) ∧ trace s' = trace s) ∨ (∃ e, r = Err e ∧ trace s' = trace s ++ [Exited 1]).
Proof.
  intros Hg Hck Hk Hnp E. unfold start_manager in E. unfold mbind at 1, M_bind at 1 in E. unfold on_node at 1, newSubnetManager in E. rewrite Hk in E.
  cbn [kube_NewSubnetManager kube_daemon] in E.
  destruct (NewSubnetManager (kubeApiUrl opts) (kubeConfigFile opts) (kubeAnnotationPrefix opts) (netConfPath opts) (opt_setNodeNetworkUnavailable opts) (p_node s)) as [[[m e]|e|] w1] eqn:En.
  - pose proof (NewSubnetManager_cases Hg _ _ _ _ _ _ _ _ En) as Hc. rewrite (M_bind_Ret _ _ _ _ _ En) in E. cbn [fst snd] in E. unfold mret, M_ret in E.
    destruct e as [e|].
    + destruct (Hg "CONT_WHEN_CACHE_NOT_READY" w1) as (v & w2 & Ev). unfold mbind, M_bind, on_node in E. cbn [p_node fst snd] in E. rewrite Ev in E. destruct (decide _) as [[Hv He]|Hn].
      * destruct m as [sm|]; [|unfold DeadlineExceeded in Hc; congruence]. cbn in E. injection E as <- <-. left. by exists sm.1.
      * cbn in E. injection E as <- <-. right. by eexists.
    + destruct m as [sm|]; [|done]. cbn in E. injection E as <- <-. left. by exists sm.1.
  - exfalso. unfold NewSubnetManager in En. rewrite run_try_cases in En. destruct (kube_make _ _ _ _ _ (p_node s)) as [[sm|err|] w2] eqn:Em; [|done|done].
    destruct (disableNodeInformer sm.1); [done|]. destruct (Hck w2) as (c & w3 & Ec). rewrite (M_bind_Ret _ _ _ _ _ Ec) in En. by destruct (poll_sync c).
  - exfalso. unfold NewSubnetManager in En. rewrite run_try_cases in En. specialize (Hnp (p_node s)). destruct (kube_make _ _ _ _ _ (p_node s)) as [[sm|err|] w2] eqn:Em; [|done|done].
    destruct (disableNodeInformer sm.1); [done|]. destruct (Hck w2) as (c & w3 & Ec). rewrite (M_bind_Ret _ _ _ _ _ Ec) in En. by destruct (poll_sync c).
Qed.

(** ** The queue *)

(** The channel has room for at least one event, whatever the environment says. *)
Lemma queue_depth_positive s d : queue_depth s = Ret d → 1 <= d.
Proof.
  unfold queue_depth. case_decide; [by intros [= <-]|]. destruct (ParseInt s 64) as [n|]; [|done]. destruct (Z.ltb_spec 0 n); intros [= <-]; lia.
Qed.

(** The events that were handed over and not received. *)
Definition outstanding (q : event_queue) : list Event := q_events q ++ q_waiting q ++ q_dropped q.

(** The bounds, and that nothing is given up before the context is done. *)
Definition queue_ok (depth : nat) (q : event_queue) : Prop :=
  q_depth q = depth ∧ (length (q_events q) <= depth)%nat ∧ (length (q_waiting q) <= max_waiting)%nat ∧
  (q_done q = false → q_dropped q = []).

Lemma enqueue_conserves depth q r e q' : queue_ok depth q → enqueueLeaseEvent q r e = Some q' →
  outstanding q' ≡ₚ outstanding q ++ [e] ∧ queue_ok depth q'.
Proof.
  unfold queue_ok, outstanding, enqueueLeaseEvent, has_room. intros (Hd & He & Hw & Hn) E.
  destruct (Nat.ltb_spec (length (q_events q)) (q_depth q)); [|destruct r; cbn [acquire_can] in E].
  - injection E as <-. cbn [q_events q_waiting q_dropped q_depth q_done]. rewrite length_app. cbn. split; [|split_and!; lia || done].
    rewrite <- !app_assoc. apply Permutation_app_head. rewrite (app_assoc (q_waiting q) (q_dropped q) [e]). apply (Permutation_app_comm [e]).
  - destruct (Nat.ltb_spec (length (q_waiting q)) max_waiting); [|done]. injection E as <-. cbn [q_events q_waiting q_dropped q_depth q_done].
    rewrite length_app. cbn [length]. split; [|split_and!; lia || done]. rewrite <- !app_assoc. do 2 apply Permutation_app_head. apply Permutation_app_comm.
  - destruct (q_done q) eqn:Eq; [|done]. injection E as <-. cbn [q_events q_waiting q_dropped q_depth q_done]. split; [by rewrite !app_assoc|done].
Qed.

Lemma retry_conserves depth q i c q' : queue_ok depth q → retryLeaseEvent q i c = Some q' →
  outstanding q' ≡ₚ outstanding q ∧ queue_ok depth q'.
Proof.
  unfold queue_ok, outstanding, retryLeaseEvent, has_room. intros (Hd & He & Hw & Hn) E.
  destruct (q_waiting q !! i) as [e|] eqn:Ei; [|done]. pose proof (delete_Permutation _ _ _ Ei) as Hp.
  assert (length (delete i (q_waiting q)) <= max_waiting)%nat as Hl by (rewrite length_delete by done; lia). destruct c.
  - destruct (q_done q) eqn:Eq; [|done]. injection E as <-. cbn [q_events q_waiting q_dropped q_depth q_done]. split; [|done].
    apply Permutation_app_head. rewrite Hp at 2. cbn. by rewrite app_assoc, <- Permutation_cons_append.
  - destruct (Nat.ltb_spec (length (q_events q)) (q_depth q)); [|done]. injection E as <-. cbn [q_events q_waiting q_dropped q_depth q_done].
    rewrite length_app. cbn [length]. split; [|split_and!; lia || done]. rewrite <- app_assoc. apply Permutation_app_head. by rewrite Hp at 2.
  - destruct (_ || _); [done|]. by injection E as <-.
Qed.

(** C29: every event that the informer hands over has been received once, or is in the channel, or waits
    for room in it, or was dropped, and none is dropped unless the context of the handlers is done, when
    the semaphore refuses an event and goroutines that wait may end without sending; the
    channel and the goroutines that wait are bounded. *)
Theorem queue_conserves depth q given received : queue_reaches depth q given received →
  received ++ q_events q ++ q_waiting q ++ q_dropped q ≡ₚ given ∧ (q_done q = false → q_dropped q = []) ∧
  q_depth q = depth ∧ (length (q_events q) <= depth)%nat ∧ (length (q_waiting q) <= max_waiting)%nat.
Proof.
  intros Hr. assert (received ++ outstanding q ≡ₚ given ∧ queue_ok depth q) as (Hp & ? & ? & ? & ?); [|done].
  induction Hr as [|q given received a q' r _ [Hp Hok] Hs].
  { split; [done|]. unfold queue_ok. cbn. split_and!; lia || done. }
  destruct a as [e c| |i c|]; cbn [queue_step handed option_list] in *; rewrite ?app_nil_r.
  - destruct (enqueueLeaseEvent q c e) as [q1|] eqn:E; [|done]. injection Hs as <- <-.
    apply (enqueue_conserves depth) in E as [E ?]; [|done]. split; [|done]. by rewrite app_nil_r, E, app_assoc, Hp.
  - destruct Hok as (Hd & He & Hw & Hn). destruct (q_events q) as [|e l] eqn:El; [done|]. injection Hs as <- <-. split; [|unfold queue_ok; cbn in *; split_and!; lia || done].
    rewrite <- Hp. unfold outstanding. rewrite El. cbn [option_list q_events q_waiting q_dropped]. by rewrite <- app_assoc.
  - destruct (retryLeaseEvent q i c) as [q1|] eqn:E; [|done]. injection Hs as <- <-.
    apply (retry_conserves depth) in E as [E ?]; [|done]. split; [|done]. by rewrite app_nil_r, E.
  - injection Hs as <- <-. rewrite app_nil_r. split; [done|]. by destruct Hok as (? & ? & ? & _).
Qed.

(** What is received along a list of actions. *)
Definition queue_run (depth : nat) (actions : list queue_action) : option (event_queue * list Event) :=
  foldl (λ o a, match o with Some (q, l) => (λ p : event_queue * option Event, (p.1, l ++ option_list p.2)) <$> queue_step q a | None => None end)
    (Some (empty_queue depth, [])) actions.

(** When nothing had to wait and nothing was dropped, the events arrive in the order in which they were handed over. *)
Theorem queue_in_order depth actions : ∀ q received,
  queue_run depth actions = Some (q, received) → Forall (λ a, ∀ i c, a ≠ Retry i c) actions → q_waiting q = [] → q_dropped q = [] →
  omap handed actions = received ++ q_events q.
Proof.
  unfold queue_run. induction actions as [|a actions IH] using rev_ind; intros q received.
  { cbn. by intros [= <- <-] _. }
  rewrite foldl_app. cbn [foldl]. destruct (foldl _ _ actions) as [[q1 l1]|]; [|done].
  destruct (queue_step q1 a) as [[q2 r]|] eqn:Es; [|done]. intros [= <- <-] Ha Hw Hdr. rewrite omap_app.
  apply list.Forall_app in Ha as [Ha Hb]. apply Forall_cons_1 in Hb as [Hb _].
  assert (q_waiting q1 = [] ∧ q_dropped q1 = []) as [Hw1 Hd1].
  { destruct a as [e c| |i c|]; cbn [queue_step] in Es; [| |by destruct (Hb i c)|by injection Es as <- <-].
    - unfold enqueueLeaseEvent in Es. destruct (has_room q1); [by injection Es as <- <-|]. destruct (negb _); [done|].
      destruct c; injection Es as <- <-; cbn in *; [by destruct (q_waiting q1)|by destruct (q_dropped q1)].
    - destruct (q_events q1); [done|]. by injection Es as <- <-. }
  rewrite (IH q1 l1 eq_refl Ha Hw1 Hd1). destruct a as [e c| |i c|]; cbn [queue_step omap list_omap handed] in *; [| |by destruct (Hb i c)|].
  - unfold enqueueLeaseEvent in Es. destruct (has_room q1).
    + injection Es as <- <-. cbn [option_list q_events]. by rewrite app_nil_r, <- app_assoc.
    + destruct (negb _); [done|]. destruct c; injection Es as <- <-; cbn in *; [by destruct (q_waiting q1)|by destruct (q_dropped q1)].
  - destruct (q_events q1) as [|e l] eqn:El; [done|]. injection Es as <- <-. cbn [option_list q_events]. by rewrite app_nil_r, <- app_assoc.
  - injection Es as <- <-. cbn [option_list q_events]. by rewrite !app_nil_r.
Qed.

(** An event that had to wait can be overtaken by a later one: a lease that was added while the channel was full and then removed is
    received as removed first and as added last. *)
Theorem waiting_event_overtaken depth x l : (0 < depth)%nat → ∃ q,
  queue_reaches depth q (replicate depth x ++ [mkEvent EventAdded l; mkEvent EventRemoved l]) (replicate depth x ++ [mkEvent EventRemoved l; mkEvent EventAdded l]).
Proof.
  intros Hd. exists (empty_queue depth).
  assert (∀ k, (k <= depth)%nat → queue_reaches depth (mkQueue (replicate k x) depth [] false []) (replicate k x) []) as H1.
  { induction k as [|k IH]; intros Hk; [apply reaches_start|]. replace (S k) with (k + 1)%nat by lia. rewrite replicate_add. cbn [replicate].
    pose proof (reaches_step depth _ _ _ (Hand x Acquired) (mkQueue (replicate k x ++ [x]) depth [] false []) None (IH ltac:(lia))) as Hr. rewrite app_nil_r in Hr. apply Hr.
    cbn [queue_step q_events q_depth q_waiting]. unfold enqueueLeaseEvent, has_room. cbn [q_events q_depth q_waiting]. rewrite length_replicate, (proj2 (Nat.ltb_lt k depth)) by lia. done. }
  assert (queue_reaches depth (mkQueue (replicate depth x) depth [mkEvent EventAdded l] false []) (replicate depth x ++ [mkEvent EventAdded l]) []) as H2.
  { pose proof (reaches_step depth _ _ _ (Hand (mkEvent EventAdded l) Acquired) (mkQueue (replicate depth x) depth [mkEvent EventAdded l] false []) None (H1 depth ltac:(lia))) as Hr.
    rewrite app_nil_r in Hr. apply Hr. cbn [queue_step q_events q_depth q_waiting]. unfold enqueueLeaseEvent, has_room. cbn [q_events q_depth q_waiting]. by rewrite length_replicate, Nat.ltb_irrefl. }
  assert (∀ k, (k <= depth)%nat → queue_reaches depth (mkQueue (replicate (depth - k) x) depth [mkEvent EventAdded l] false []) (replicate depth x ++ [mkEvent EventAdded l]) (replicate k x)) as H3.
  { induction k as [|k IH]; intros Hk; [by rewrite Nat.sub_0_r|]. replace (S k) with (k + 1)%nat at 2 by lia. rewrite replicate_add.
    pose proof (reaches_step depth _ _ _ Receive (mkQueue (replicate (depth - S k) x) depth [mkEvent EventAdded l] false []) (Some x) (IH ltac:(lia))) as Hr. rewrite app_nil_r in Hr. apply Hr.
    cbn [queue_step q_events q_depth q_waiting]. by replace (depth - k)%nat with (S (depth - S k)) by lia. }
  specialize (H3 depth ltac:(lia)). rewrite Nat.sub_diag in H3. cbn [replicate] in H3.
  assert (queue_reaches depth (mkQueue [mkEvent EventRemoved l] depth [mkEvent EventAdded l] false []) (replicate depth x ++ [mkEvent EventAdded l; mkEvent EventRemoved l]) (replicate depth x)) as H4.
  { pose proof (reaches_step depth _ _ _ (Hand (mkEvent EventRemoved l) Acquired) (mkQueue [mkEvent EventRemoved l] depth [mkEvent EventAdded l] false []) None H3) as Hr.
    rewrite app_nil_r, <- app_assoc in Hr. apply Hr. cbn [queue_step q_events q_depth q_waiting]. unfold enqueueLeaseEvent, has_room. cbn [q_events q_depth q_waiting length].
    by rewrite (proj2 (Nat.ltb_lt 0 depth)) by lia. }
  pose proof (reaches_step depth _ _ _ Receive (mkQueue [] depth [mkEvent EventAdded l] false []) (Some (mkEvent EventRemoved l)) H4 eq_refl) as H5. rewrite app_nil_r in H5.
  pose proof (reaches_step depth _ _ _ (Retry 0 CaseSend) (mkQueue [mkEvent EventAdded l] depth [] false []) None H5) as H6. rewrite !app_nil_r in H6.
  specialize (H6 ltac:(cbn [queue_step]; unfold retryLeaseEvent, has_room; cbn [q_events q_depth q_waiting length lookup list_lookup]; by rewrite (proj2 (Nat.ltb_lt 0 depth)) by lia)).
  pose proof (reaches_step depth _ _ _ Receive (mkQueue [] depth [] false []) (Some (mkEvent EventAdded l)) H6 eq_refl) as H7. rewrite app_nil_r, <- app_assoc in H7. exact H7.
Qed.

Lemma queue_conserves_witness :
  let added := mkEvent EventAdded zero_lease in let removed := mkEvent EventRemoved zero_lease in
  ∃ q, queue_reaches 1 q [added; removed; added] [added] ∧ q_dropped q = [removed; added] ∧
    [added] ++ q_events q ++ q_waiting q ++ q_dropped q ≡ₚ [added; removed; added].
Proof.
  set (added := mkEvent EventAdded zero_lease). set (removed := mkEvent EventRemoved zero_lease).
  assert (queue_reaches 1 (mkQueue [] 1 [] true [removed; added]) [added; removed; added] [added]) as Hr.
  { pose proof (reaches_step 1 _ _ _ (Hand added Acquired) (mkQueue [added] 1 [] false []) None (reaches_start 1) eq_refl) as H1.
    pose proof (reaches_step 1 _ _ _ (Hand removed Acquired) (mkQueue [added] 1 [removed] false []) None H1 eq_refl) as H2.
    pose proof (reaches_step 1 _ _ _ Cancel (mkQueue [added] 1 [removed] true []) None H2 eq_refl) as H3.
    pose proof (reaches_step 1 _ _ _ (Retry 0 CaseDone) (mkQueue [added] 1 [] true [removed]) None H3 eq_refl) as H4.
    pose proof (reaches_step 1 _ _ _ (Hand added AcquireFails) (mkQueue [added] 1 [] true [removed; added]) None H4 eq_refl) as H5.
    exact (reaches_step 1 _ _ _ Receive (mkQueue [] 1 [] true [removed; added]) (Some added) H5 eq_refl). }
  eexists. split; [exact Hr|]. split; [reflexivity|]. apply (queue_conserves 1 _ _ _ Hr).
Defined.
