(* ===== verification/WinRoutes.v ===== *)
(** * Windows: PowerShell, the router and the network of routes

    [pkg/powershell], [pkg/routing], [pkg/ip/iface_windows.go] and [pkg/backend/route_network_windows.go].  The commands
    run in a [PowerShell]; the network of routes is written against the interface [Router], which [RouterWindows]
    implements by such commands. *)

From Stdlib Require Import ZArith Lia Ascii.
From stdpp Require Import base strings list gmap numbers.
From S2P Require Import Prelude GoStrings GoJson GoNet GoNetFacts Ip4 Ip6 Lease Config Backend Iface MeshApi.

Local Open Scope Z_scope.

(** ** [powershell.go] *)

(** [cmd.Output] of a PowerShell that is given a command: what it wrote, and the error with the exit code of the
    process (-1 where it did not start). *)
Class PowerShell (W : Type) := { ps_Output : string → M W (string * option (error * Z)) }.

(** The text with its verb replaced; no command of this code holds a verb of its own. *)
Definition commandWrapper (command : string) : string :=
  "$ErrorActionPreference=" +:+ String dquote ("Stop" +:+ String dquote (";try { " +:+ command +:+ " } catch { Write-Host $_; os.Exit(-1) }")).

Section powershell.
Context {W : Type} `{PowerShell W}.

Definition RunCommand (command : string) : M W string :=
  '(stdout, failed) ← ps_Output (commandWrapper command);
  match failed with
  | None => mret stdout
  | Some (err, code) => if negb (code =? 0) then throw (Errorf "error: %v while running the command: %v. Command output: %s") else throw err
  end.

Definition RunCommandWithJsonResult {A} (command : string) (decode : json → outcome A) : M W A :=
  let wrappedCommand := commandWrapper ("ConvertTo-Json (" +:+ command +:+ ")") in
  stdout ← wrapping "error while executing command: %w" (RunCommand wrappedCommand);
  wrapping "error while unmarshalling stdout: %w" (lift (Unmarshal decode stdout)).
End powershell.

(** ** [router.go] *)

(** The destination is a pointer that is never nil: it comes from a parser or from a subnet. *)
Record win_Route := mkWinRoute { InterfaceIndex : Z; DestinationSubnet : IPNet; GatewayAddress : IP }.

(** The interface is not compared. *)
Definition win_Route_Equal (r other : win_Route) : bool :=
  Equal (IPNet_IP (DestinationSubnet r)) (IPNet_IP (DestinationSubnet other)) &&
  bool_decide (IPNet_Mask (DestinationSubnet r) = IPNet_Mask (DestinationSubnet other)) &&
  Equal (GatewayAddress r) (GatewayAddress other).

Class Router (W : Type) := {
  GetAllRoutes : M W (list win_Route);
  GetRoutesFromInterfaceToSubnet : Z → IPNet → M W (list win_Route);
  CreateRoute : Z → IPNet → IP → M W unit;
  router_DeleteRoute : Z → IPNet → IP → M W unit
}.

(** ** [router_windows.go] *)

Record winNetRoute := mkWinNetRoute { IfIndex : Z; DestinationPrefix : string; NextHop : string }.
Definition winNetRoute_field (r : winNetRoute) (key raw : string) (v : json) : outcome winNetRoute :=
  if field_name "IfIndex" key then n ← decode_int 64 (IfIndex r) v; Ret (mkWinNetRoute n (DestinationPrefix r) (NextHop r))
  else if field_name "DestinationPrefix" key then s ← decode_string (DestinationPrefix r) v; Ret (mkWinNetRoute (IfIndex r) s (NextHop r))
  else if field_name "NextHop" key then s ← decode_string (NextHop r) v; Ret (mkWinNetRoute (IfIndex r) (DestinationPrefix r) s)
  else Ret r.
Definition decode_winNetRoutes : json → outcome (list winNetRoute) :=
  decode_slice (decode_struct winNetRoute_field (mkWinNetRoute 0 "" "")).

(** A route whose destination or next hop does not parse is skipped. *)
Definition parse_net_route (r : winNetRoute) : option win_Route :=
  '(_, destinationSubnet) ← ParseCIDR (DestinationPrefix r);
  let gatewayAddress := ParseIP (NextHop r) in
  if decide (gatewayAddress = []) then None else Some (mkWinRoute (IfIndex r) destinationSubnet gatewayAddress).

Section router_windows.
Context {W : Type} `{PowerShell W}.

Definition parseNetRoutes (cmd : string) : M W (list win_Route) :=
  l ← RunCommandWithJsonResult cmd decode_winNetRoutes;
  mret (omap parse_net_route l).

Definition route_properties : string := " | Select-Object -Property IfIndex,DestinationPrefix,NextHop)".
Definition win_GetAllRoutes : M W (list win_Route) := parseNetRoutes ("@(Get-NetRoute" +:+ route_properties).
Definition win_GetRoutesFromInterfaceToSubnet (interfaceIndex : Z) (destinationSubnet : IPNet) : M W (list win_Route) :=
  parseNetRoutes ("@(Get-NetRoute -InterfaceIndex " +:+ fmt_int interfaceIndex +:+ " -DestinationPrefix " +:+
                  IPNet_String destinationSubnet +:+ route_properties).
Definition win_CreateRoute (interfaceIndex : Z) (destinationSubnet : IPNet) (gatewayAddress : IP) : M W unit :=
  _ ← RunCommand ("New-NetRoute -InterfaceIndex " +:+ fmt_int interfaceIndex +:+ " -DestinationPrefix " +:+
                  IPNet_String destinationSubnet +:+ " -NextHop  " +:+ IP_String gatewayAddress);
  mret tt.
Definition win_DeleteRoute (interfaceIndex : Z) (destinationSubnet : IPNet) (gatewayAddress : IP) : M W unit :=
  _ ← RunCommand ("Remove-NetRoute -InterfaceIndex " +:+ fmt_int interfaceIndex +:+ " -DestinationPrefix " +:+
                  IPNet_String destinationSubnet +:+ " -NextHop " +:+ IP_String gatewayAddress +:+ " -Verbose -Confirm:$false");
  mret tt.

Definition RouterWindows : Router W := {|
  GetAllRoutes := win_GetAllRoutes;
  GetRoutesFromInterfaceToSubnet := win_GetRoutesFromInterfaceToSubnet;
  CreateRoute := win_CreateRoute;
  router_DeleteRoute := win_DeleteRoute
|}.
End router_windows.

(** ** [iface_windows.go] *)

(** An address of an interface: the IP of a [net.IPNet] or a [net.IPAddr], nil for any other. *)
Class WinIfaces (W : Type) := {
  win_Interfaces : M W (list Interface);
  Iface_Addrs : Interface → M W (list IP);
  win_InterfaceByIndex : Z → M W Interface
}.

Definition decode_field {A} (name : string) (decode : A → json → outcome A) (a : A) : json → outcome A :=
  decode_struct (λ a key _ v, if field_name name key then decode a v else Ret a) a.

Section iface_windows.
Context {W : Type} `{WinIfaces W, PowerShell W}.

Definition win_GetInterfaceIP4Addrs (iface : Interface) : M W (list IP) :=
  addrs ← Iface_Addrs iface;
  let ipAddrs := filter (λ ip, ip ≠ [] ∧ To4 ip ≠ []) addrs in
  if decide (ipAddrs ≠ []) then mret ipAddrs else throw (Errorf "no IPv4 address found for given interface").

Definition getDefaultGatewayInterfaceIndex : M W Z :=
  index ← RunCommandWithJsonResult "Get-NetRoute | Where { $_.DestinationPrefix -eq '0.0.0.0/0' } | Select-Object -Property ifIndex"
            (decode_field "ifIndex" (decode_int 64) (-1));
  if index <? 0 then throw (Errorf "unable to find default gateway interface index") else mret index.
Definition win_GetDefaultGatewayInterface : M W Interface :=
  index ← getDefaultGatewayInterfaceIndex;
  win_InterfaceByIndex index.

Definition has_ip (search : IP) (addrs : list IP) : bool := existsb (λ ip, bool_decide (ip ≠ []) && Equal ip search) addrs.
Fixpoint find_interface (search : IP) (ifaces : list Interface) : M W Interface :=
  match ifaces with
  | [] => throw (Errorf "no interface with given IP found")
  | i :: ifaces =>
      addrs ← Iface_Addrs i;
      if has_ip search addrs then mret i else find_interface search ifaces
  end.
Definition win_GetInterfaceByIP (search : IP) : M W Interface :=
  ifaces ← win_Interfaces;
  find_interface search ifaces.

Definition setForwardingForInterface (iface : Interface) (forwarding : bool) : M W unit :=
  let value := if negb forwarding then "Disabled" else "Enabled" in
  _ ← RunCommand ("Set-NetIPInterface -ifIndex " +:+ fmt_int (if_Index iface) +:+ " -AddressFamily IPv4 -Forwarding " +:+ value);
  mret tt.
Definition EnableForwardingForInterface (iface : Interface) : M W unit := setForwardingForInterface iface true.
Definition DisableForwardingForInterface (iface : Interface) : M W unit := setForwardingForInterface iface false.

Definition IsForwardingEnabledForInterface (iface : Interface) : M W bool :=
  forwarding ← RunCommandWithJsonResult ("Get-NetIPInterface -ifIndex " +:+ fmt_int (if_Index iface) +:+
                                         " -AddressFamily IPv4 | Select-Object -Property Forwarding")
                 (decode_field "Forwarding" (decode_int 64) 0);
  mret (forwarding =? 1).
End iface_windows.

(** ** [route_network_windows.go] *)

Record win_RouteConfig := mkWinRouteConfig {
  wn_BackendType : string;
  wn_GetRoute : Lease → win_Route;
  wn_Mtu : Z
}.
Record win_RouteNetwork (W : Type) := mkWinRouteNetwork { wn_routes : list win_Route; wn_host : W }.
Arguments mkWinRouteNetwork {W}.
Arguments wn_routes {W}.
Arguments wn_host {W}.

Definition win_RouteNetwork_MTU (c : win_RouteConfig) : Z := wn_Mtu c.

(** [strings.EqualFold] with a text that is ASCII. *)
Definition EqualFold (s t : string) : bool := bool_decide (ToLower s = ToLower t).

Definition win_add_route (newRoute : win_Route) (routes : list win_Route) : list win_Route :=
  if existsb (λ route, win_Route_Equal route newRoute) routes then routes else routes ++ [newRoute].
(** The first that is equal. *)
Fixpoint win_remove_route (oldRoute : win_Route) (routes : list win_Route) : list win_Route :=
  match routes with
  | [] => []
  | route :: routes => if win_Route_Equal route oldRoute then routes else route :: win_remove_route oldRoute routes
  end.

Section win_network.
Context {W : Type} `{Router W}.
Abbreviation WinNet := (M (win_RouteNetwork W)).

Definition wn_on_host {A} (m : M W A) : WinNet A := λ s,
  let '(r, w) := m (wn_host s) in (r, mkWinRouteNetwork (wn_routes s) w).
Definition win_update (f : list win_Route → list win_Route) : WinNet unit :=
  modify (λ s, mkWinRouteNetwork (f (wn_routes s)) (wn_host s)).

(** The existing routes to a destination; an error is taken for none. *)
Definition win_existing (r : win_Route) : WinNet (list win_Route) :=
  l ← try (wn_on_host (GetRoutesFromInterfaceToSubnet (InterfaceIndex r) (DestinationSubnet r)));
  mret (match l with inl l => l | inr _ => [] end).
Definition win_delete (r : win_Route) : WinNet unit :=
  wn_on_host (router_DeleteRoute (InterfaceIndex r) (DestinationSubnet r) (GatewayAddress r)).
Definition win_create (r : win_Route) : WinNet unit :=
  wn_on_host (CreateRoute (InterfaceIndex r) (DestinationSubnet r) (GatewayAddress r)).

(** The end of the case of an added subnet, once what was there is out of the way. *)
Definition win_finish_add (expectedRoute : win_Route) : WinNet unit :=
  c ← try (win_create expectedRoute);
  match c with
  | inr _ => mret tt
  | inl _ => win_update (win_add_route expectedRoute)
  end.

Definition win_added (expectedRoute : win_Route) : WinNet unit :=
  existingRoutes ← win_existing expectedRoute;
  match existingRoutes with
  | existingRoute :: _ =>
      if win_Route_Equal existingRoute expectedRoute then mret tt
      else
        d ← try (win_delete existingRoute);
        match d with
        | inr _ => mret tt
        | inl _ => win_finish_add expectedRoute
        end
  | [] => win_finish_add expectedRoute
  end.

Definition win_removed (expectedRoute : win_Route) : WinNet unit :=
  existingRoutes ← win_existing expectedRoute;
  _ ← match existingRoutes with
      | existingRoute :: _ =>
          if win_Route_Equal existingRoute expectedRoute then _ ← try (win_delete existingRoute); mret tt else mret tt
      | [] => mret tt
      end;
  win_update (win_remove_route expectedRoute).

Definition win_handle_event (c : win_RouteConfig) (evt : Event) : WinNet unit :=
  if negb (EqualFold (BackendType (Attrs (Event_Lease evt))) (wn_BackendType c)) then mret tt
  else
    let expectedRoute := wn_GetRoute c (Event_Lease evt) in
    match Event_Type evt with
    | EventAdded => win_added expectedRoute
    | EventRemoved => win_removed expectedRoute
    end.
Fixpoint win_handleSubnetEvents (c : win_RouteConfig) (batch : list Event) : WinNet unit :=
  match batch with
  | [] => mret tt
  | evt :: batch => _ ← win_handle_event c evt; win_handleSubnetEvents c batch
  end.

Fixpoint win_recover (existingRoutes routes : list win_Route) : WinNet unit :=
  match routes with
  | [] => mret tt
  | expectedRoute :: routes =>
      _ ← (if existsb (win_Route_Equal expectedRoute) existingRoutes then mret tt
           else _ ← try (win_create expectedRoute); mret tt);
      win_recover existingRoutes routes
  end.
Definition win_checkSubnetExistInRoutes : WinNet unit :=
  l ← try (wn_on_host GetAllRoutes);
  match l with
  | inr _ => mret tt
  | inl existingRoutes => s ← get; win_recover existingRoutes (wn_routes s)
  end.

(** What [Run] receives: batches of events, and the timer of [routeCheck]. *)
Fixpoint win_run_inputs (c : win_RouteConfig) (inputs : list rn_input) : WinNet unit :=
  match inputs with
  | [] => mret tt
  | Batch evts :: inputs => _ ← win_handleSubnetEvents c evts; win_run_inputs c inputs
  | CheckRoutes :: inputs => _ ← win_checkSubnetExistInRoutes; win_run_inputs c inputs
  end.
Definition win_RouteNetwork_Run (c : win_RouteConfig) (inputs : list rn_input) : WinNet unit :=
  _ ← win_update (λ _, []);
  win_run_inputs c inputs.
End win_network.
