(* ===== verification/WinRoutesFacts.v ===== *)
(** * Windows: how the network of routes follows the leases

    What is documented of the routing table is the class [RouterLaws].  The table follows the events exactly; the list
    that the periodic check restores from does not, which two theorems show. *)

From Stdlib Require Import ZArith Lia Ascii.
From stdpp Require Import base strings list gmap numbers.
From S2P Require Import Prelude GoStrings GoNet GoNetFacts Ip4 Ip6 Lease Config Backend BackendFacts Iface WinRoutes.

Local Open Scope Z_scope.

(** The route that stands for a subnet, a gateway and a link, as on Linux. *)
Definition as_kernel_route (r : win_Route) : Route := mkRoute (Some (DestinationSubnet r)) (GatewayAddress r) (InterfaceIndex r).
Definition win_to (r : win_Route) (n : IP4Net) (g : IP4) (i : Z) : Prop := route_to (as_kernel_route r) n g i.

(** A table may have several routes to a subnet; to look for routes where there are none is an error of the command. *)
Class RouterLaws (W : Type) `{Router W} := {
  wroutes : W → gset (IP4Net * (IP4 * Z));
  law_GetRoutes i n w : IP4Net_ok n →
    match GetRoutesFromInterfaceToSubnet i (IP4Net_ToIPNet n) w with
    | (Ret l, w') => w' = w ∧ l ≠ [] ∧ ∀ r, r ∈ l → ∃ g, win_to r n g i ∧ (n, (g, i)) ∈ wroutes w
    | (Err _, w') => w' = w ∧ ∀ g, (n, (g, i)) ∉ wroutes w
    | (Panic, _) => False
    end;
  law_GetAll w : ∃ l, GetAllRoutes w = (Ret l, w) ∧
    (∀ r n g i, r ∈ l → win_to r n g i → (n, (g, i)) ∈ wroutes w) ∧
    (∀ n g i, (n, (g, i)) ∈ wroutes w → ∃ r, r ∈ l ∧ win_to r n g i);
  law_CreateRoute r n g i w : win_to r n g i →
    if decide ((n, (g, i)) ∈ wroutes w)
    then ∃ e, CreateRoute (InterfaceIndex r) (DestinationSubnet r) (GatewayAddress r) w = (Err e, w)
    else ∃ w', CreateRoute (InterfaceIndex r) (DestinationSubnet r) (GatewayAddress r) w = (Ret tt, w') ∧
           wroutes w' = {[(n, (g, i))]} ∪ wroutes w;
  law_DeleteRoute r n g i w : win_to r n g i →
    if decide ((n, (g, i)) ∈ wroutes w)
    then ∃ w', router_DeleteRoute (InterfaceIndex r) (DestinationSubnet r) (GatewayAddress r) w = (Ret tt, w') ∧
           wroutes w' = wroutes w ∖ {[(n, (g, i))]}
    else ∃ e, router_DeleteRoute (InterfaceIndex r) (DestinationSubnet r) (GatewayAddress r) w = (Err e, w)
}.

Lemma win_Equal_to r n g i r' n' g' i' : win_to r n g i → win_to r' n' g' i' →
  win_Route_Equal r r' = bool_decide ((n, g) = (n', g')).
Proof.
  intros Hr Hr'. pose proof Hr as (_ & _ & Hi & _). pose proof Hr' as (_ & _ & Hi' & _).
  (* both on one link, so that the comparison of links says nothing *)
  assert (win_to (mkWinRoute i' (DestinationSubnet r) (GatewayAddress r)) n g i') as Hr0.
  { destruct Hr as (H1 & H2 & _ & H3). exact (conj H1 (conj H2 (conj eq_refl H3))). }
  pose proof (routeEqual_to _ _ _ _ _ _ _ _ Hr0 Hr') as E. cbn in E, Hi'. injection E as E.
  rewrite Hi', Z.eqb_refl, andb_true_r in E. unfold win_Route_Equal. rewrite <- andb_assoc, (andb_comm (bool_decide _)), andb_assoc, E.
  apply bool_decide_ext. split; intros [= -> ->]; done.
Qed.

Lemma Equal_same_To4 x y : Equal x y = true → To4 x = To4 y.
Proof.
  unfold Equal, To4. intros E. repeat case_decide; try discriminate; try (exfalso; lia);
    apply bool_decide_eq_true in E; naive_solver.
Qed.

Section network.
Context {W : Type} `{RouterLaws W} (link : Z).
Implicit Types (s : win_RouteNetwork W) (w : W) (m : gmap IP4Net IP4) (tr : list (IP4Net * IP4)).

(** The table has these routes on the link and no other. *)
Definition table_is m w : Prop := ∀ n g, (n, (g, link)) ∈ wroutes w ↔ m !! n = Some g.
(** The list of the network, as subnets and gateways. *)
Definition list_is tr (l : list win_Route) : Prop := Forall2 (λ r e, win_to r e.1 e.2 link) l tr.

Lemma list_has tr l r n g : list_is tr l → win_to r n g link → existsb (λ x, win_Route_Equal x r) l = bool_decide ((n, g) ∈ tr).
Proof.
  intros Hl Hr. induction Hl as [|x [n' g'] l tr Hx _ IH]; [done|]. cbn [existsb fst snd] in *.
  rewrite IH, (win_Equal_to _ _ _ _ _ _ _ _ Hx Hr). apply Bool.eq_iff_eq_true.
  rewrite orb_true_iff, !bool_decide_eq_true, elem_of_cons. naive_solver.
Qed.

Lemma list_add tr l r n g : list_is tr l → win_to r n g link → list_is (tr_add (n, g) tr) (win_add_route r l).
Proof.
  intros Hl Hr. unfold win_add_route, tr_add. rewrite (list_has _ _ _ _ _ Hl Hr).
  destruct (decide ((n, g) ∈ tr)) as [Hin|Hin]; [by rewrite bool_decide_eq_true_2|].
  rewrite bool_decide_eq_false_2 by done. apply Forall2_app; [done|]. by constructor.
Qed.

Lemma list_remove tr l r n g : list_is tr l → win_to r n g link → NoDup tr →
  list_is (filter (λ e, e ≠ (n, g)) tr) (win_remove_route r l).
Proof.
  intros Hl Hr. induction Hl as [|x [n' g'] l tr Hx Hl IH]; intros Hnd; [constructor|]. cbn [win_remove_route fst snd] in *.
  apply list.NoDup_cons in Hnd as [Hnot Hnd]. rewrite (win_Equal_to _ _ _ _ _ _ _ _ Hx Hr). case_bool_decide as E.
  - rewrite filter_cons_False by (intros Hno; by apply Hno). rewrite filter_all; [done|]. apply list.Forall_forall. intros e He ->. by rewrite E in Hnot.
  - rewrite filter_cons_True by done. constructor; [done|by apply IH].
Qed.

Lemma existing_run m r n g s : win_to r n g link → DestinationSubnet r = IP4Net_ToIPNet n → table_is m (wn_host s) →
  ∃ l, win_existing r s = (Ret l, s) ∧
    match l with
    | [] => m !! n = None
    | x :: _ => ∃ g0, m !! n = Some g0 ∧ win_to x n g0 link
    end.
Proof.
  intros Hr Hd Hm. pose proof Hr as (Hn & _ & Hi & _). cbn in Hi. pose proof (law_GetRoutes link n (wn_host s) Hn) as Hget.
  unfold win_existing, mbind, M_bind, try, wn_on_host. rewrite Hi, Hd.
  destruct (GetRoutesFromInterfaceToSubnet link (IP4Net_ToIPNet n) (wn_host s)) as [[l|e|] w]; [| |done].
  - destruct Hget as (-> & Hne & Hall). destruct s as [routes w]. exists l. split; [done|]. destruct l as [|x l]; [done|].
    destruct (Hall x) as (g0 & Hx & Hin); [by left|]. exists g0. split; [by apply Hm|done].
  - destruct Hget as (-> & Hno). destruct s as [routes w]. exists []. split; [done|]. apply eq_None_not_Some. intros [g0 Hg]. by apply (Hno g0), Hm.
Qed.

Lemma create_run m r n g s : win_to r n g link → table_is m (wn_host s) → m !! n = None →
  ∃ w, win_create r s = (Ret tt, mkWinRouteNetwork (wn_routes s) w) ∧ table_is (<[n := g]> m) w.
Proof.
  intros Hr Hm Hn. pose proof (law_CreateRoute r n g link (wn_host s) Hr) as Hc. rewrite decide_False in Hc by (rewrite (Hm n g); congruence).
  destruct Hc as (w & Hc & Ht). exists w. unfold win_create, wn_on_host. rewrite Hc. split; [done|].
  intros n' g'. rewrite Ht, elem_of_union, elem_of_singleton, (Hm n' g'), lookup_insert_Some. split.
  - intros [E|E]; [simplify_eq; by left|]. right. split; [congruence|done].
  - intros [[-> ->]|[_ E]]; [by left|by right].
Qed.

Lemma delete_run m r n g s : win_to r n g link → table_is m (wn_host s) → m !! n = Some g →
  ∃ w, win_delete r s = (Ret tt, mkWinRouteNetwork (wn_routes s) w) ∧ table_is (delete n m) w.
Proof.
  intros Hr Hm Hn. pose proof (law_DeleteRoute r n g link (wn_host s) Hr) as Hc. rewrite decide_True in Hc by (by apply Hm).
  destruct Hc as (w & Hc & Ht). exists w. unfold win_delete, wn_on_host. rewrite Hc. split; [done|].
  intros n' g'. rewrite Ht, elem_of_difference, elem_of_singleton, (Hm n' g'), lookup_delete_Some. split.
  - intros [E Hne]. split; [|done]. intros <-. rewrite Hn in E. by simplify_eq.
  - intros [Hne E]. split; [done|]. by intros [=].
Qed.

(** What the two cases make of the list. *)
Definition added_list (m : gmap IP4Net IP4) (n : IP4Net) (g : IP4) tr := if decide (m !! n = Some g) then tr else tr_add (n, g) tr.

Lemma finish_run m tr r n g s : win_to r n g link → table_is m (wn_host s) → m !! n = None → list_is tr (wn_routes s) →
  ∃ s', win_finish_add r s = (Ret tt, s') ∧ table_is (<[n := g]> m) (wn_host s') ∧ list_is (tr_add (n, g) tr) (wn_routes s').
Proof.
  intros Hr Hm Hn Hl. destruct (create_run m r n g s Hr Hm Hn) as (w & Hc & Ht).
  unfold win_finish_add. rewrite (run_try_Ret _ _ _ _ _ Hc). eexists. split; [done|]. split; [done|]. by apply list_add.
Qed.

Lemma win_added_run m tr r n g s : win_to r n g link → DestinationSubnet r = IP4Net_ToIPNet n →
  table_is m (wn_host s) → list_is tr (wn_routes s) →
  ∃ s', win_added r s = (Ret tt, s') ∧ table_is (<[n := g]> m) (wn_host s') ∧ list_is (added_list m n g tr) (wn_routes s').
Proof.
  intros Hr Hd Hm Hl. destruct (existing_run m r n g s Hr Hd Hm) as (l & Hl0 & Hex). unfold win_added, added_list.
  rewrite (M_bind_Ret _ _ _ _ _ Hl0). destruct l as [|x l].
  - rewrite decide_False by congruence. by apply finish_run.
  - destruct Hex as (g0 & Hg0 & Hx). rewrite (win_Equal_to _ _ _ _ _ _ _ _ Hx Hr). case_bool_decide as E.
    + injection E as ->. rewrite decide_True by done. exists s. split; [done|]. by rewrite insert_id.
    + destruct (delete_run m x n g0 s Hx Hm Hg0) as (w & Hdel & Ht). rewrite (run_try_Ret _ _ _ _ _ Hdel).
      rewrite decide_False by congruence. rewrite <- insert_delete_eq. apply finish_run; [done|done|by rewrite lookup_delete_eq|done].
Qed.

Lemma win_removed_run m tr r n g s : win_to r n g link → DestinationSubnet r = IP4Net_ToIPNet n →
  table_is m (wn_host s) → list_is tr (wn_routes s) → NoDup tr →
  ∃ s', win_removed r s = (Ret tt, s') ∧ table_is (if decide (m !! n = Some g) then delete n m else m) (wn_host s') ∧
    list_is (filter (λ e, e ≠ (n, g)) tr) (wn_routes s').
Proof.
  intros Hr Hd Hm Hl Hnd. destruct (existing_run m r n g s Hr Hd Hm) as (l & Hl0 & Hex). unfold win_removed.
  rewrite (M_bind_Ret _ _ _ _ _ Hl0).
  assert (∀ w, ∃ s', win_update (win_remove_route r) (mkWinRouteNetwork (wn_routes s) w) = (Ret tt, s') ∧ wn_host s' = w ∧
    list_is (filter (λ e, e ≠ (n, g)) tr) (wn_routes s')) as Hup.
  { intros w. eexists. split; [done|]. split; [done|]. by apply list_remove. }
  destruct l as [|x l].
  - rewrite decide_False by congruence. run. destruct s as [rs w]. destruct (Hup w) as (s' & Hs' & Eh & ?). exists s'. cbn [wn_host] in *. by rewrite Eh.
  - destruct Hex as (g0 & Hg0 & Hx). rewrite (win_Equal_to _ _ _ _ _ _ _ _ Hx Hr). case_bool_decide as E.
    + injection E as ->. rewrite decide_True by done. destruct (delete_run m x n g s Hx Hm Hg0) as (w & Hdel & Ht).
      destruct (Hup w) as (s' & Hs' & Eh & ?). exists s'. unfold mbind, M_bind, try. rewrite Hdel. cbn. rewrite Eh. by split_and!.
    + rewrite decide_False by congruence. run. destruct s as [rs w]. destruct (Hup w) as (s' & Hs' & Eh & ?). exists s'. cbn [wn_host] in *. by rewrite Eh.
Qed.

(** ** Events *)

Variable c : win_RouteConfig.
(** The routes of the host-gw backend. *)
Hypothesis Hroute : ∀ l, wn_GetRoute c l = mkWinRoute link (IP4Net_ToIPNet (Subnet l)) (IP4_ToIP (PublicIP (Attrs l))).

Definition win_wanted m (e : Event) : gmap IP4Net IP4 :=
  let n := Subnet (Event_Lease e) in
  let g := PublicIP (Attrs (Event_Lease e)) in
  if EqualFold (BackendType (Attrs (Event_Lease e))) (wn_BackendType c) then
    match Event_Type e with
    | EventAdded => <[n := g]> m
    | EventRemoved => if decide (m !! n = Some g) then delete n m else m
    end
  else m.
(** What the list becomes: a route that was there is not added, an older gateway is not dropped. *)
Definition win_listed (m : gmap IP4Net IP4) tr (e : Event) : list (IP4Net * IP4) :=
  let n := Subnet (Event_Lease e) in
  let g := PublicIP (Attrs (Event_Lease e)) in
  if EqualFold (BackendType (Attrs (Event_Lease e))) (wn_BackendType c) then
    match Event_Type e with
    | EventAdded => added_list m n g tr
    | EventRemoved => filter (λ x, x ≠ (n, g)) tr
    end
  else tr.
Definition win_event_ok (e : Event) : Prop := IP4Net_ok (Subnet (Event_Lease e)) ∧ IP4_ok (PublicIP (Attrs (Event_Lease e))).

Lemma wanted_route l : IP4Net_ok (Subnet l) → IP4_ok (PublicIP (Attrs l)) → win_to (wn_GetRoute c l) (Subnet l) (PublicIP (Attrs l)) link.
Proof. intros Hn Hg. rewrite Hroute. split_and!; [apply Hn..|apply Hg|done|apply To4_ToIP|]. eexists. split; [done|]. split; [apply To4_ToIP|done]. Qed.

Lemma win_event_run m tr e s : win_event_ok e → table_is m (wn_host s) → list_is tr (wn_routes s) → NoDup tr →
  ∃ s', win_handle_event c e s = (Ret tt, s') ∧ table_is (win_wanted m e) (wn_host s') ∧
    list_is (win_listed m tr e) (wn_routes s') ∧ NoDup (win_listed m tr e).
Proof.
  intros [Hn Hg] Hm Hl Hnd. unfold win_handle_event, win_wanted, win_listed. destruct (EqualFold _ _); cbn [negb]; [|by exists s].
  pose proof (wanted_route _ Hn Hg) as Hr. assert (DestinationSubnet (wn_GetRoute c (Event_Lease e)) = IP4Net_ToIPNet (Subnet (Event_Lease e))) as Hd by (by rewrite Hroute).
  destruct (Event_Type e).
  - destruct (win_added_run m tr _ _ _ s Hr Hd Hm Hl) as (s' & ? & ? & ?). exists s'. split_and!; [done..|].
    unfold added_list. case_decide; [done|]. by apply tr_add_NoDup.
  - destruct (win_removed_run m tr _ _ _ s Hr Hd Hm Hl Hnd) as (s' & ? & ? & ?). exists s'. split_and!; [done..|]. by apply list.NoDup_filter.
Qed.

(** The routes of the link follow the leases exactly, whatever was there: one route per leased subnet, through the public
    address of the node that has it last, and no other route is touched. *)
Theorem win_events_tracked es : ∀ m tr s, Forall win_event_ok es → table_is m (wn_host s) → list_is tr (wn_routes s) → NoDup tr →
  ∃ s' tr', win_handleSubnetEvents c es s = (Ret tt, s') ∧ table_is (foldl win_wanted m es) (wn_host s') ∧
    list_is tr' (wn_routes s') ∧ NoDup tr'.
Proof.
  induction es as [|e es IH]; intros m tr s Hok Hm Hl Hnd; [by exists s, tr|]. apply list.Forall_cons in Hok as [He Hok].
  destruct (win_event_run m tr e s He Hm Hl Hnd) as (s1 & Hrun & Hm1 & Hl1 & Hnd1). cbn [win_handleSubnetEvents foldl].
  rewrite (M_bind_Ret _ _ _ _ _ Hrun). by apply (IH _ (win_listed m tr e)).
Qed.

(** ** The periodic check *)

(** The subnets and gateways that the table has a route for, on any link. *)
Definition win_present w : gset (IP4Net * IP4) := set_map (λ x, (x.1, x.2.1)) (wroutes w).
Definition on_link (e : IP4Net * IP4) : IP4Net * (IP4 * Z) := (e.1, (e.2, link)).

Lemma elem_of_win_present w n g : (n, g) ∈ win_present w ↔ ∃ i, (n, (g, i)) ∈ wroutes w.
Proof.
  unfold win_present. rewrite elem_of_map. split.
  - intros ([n' [g' i]] & [= -> ->] & Hin). by exists i.
  - intros [i Hin]. by exists (n, (g, i)).
Qed.

Lemma same_route_to x r n g : win_to x n g link → win_Route_Equal x r = true → win_to r n g (InterfaceIndex r).
Proof.
  intros (Hn & Hg & _ & Egw & d & Ed & Eip & Em) E. cbn in *. injection Ed as <-. unfold win_Route_Equal in E.
  apply andb_true_iff in E as [E E3]. apply andb_true_iff in E as [E1 E2]. apply bool_decide_eq_true in E2.
  split_and!; [apply Hn..|apply Hg|done|cbn; by rewrite <- (Equal_same_To4 _ _ E3)|].
  eexists. split; [done|]. split; [by rewrite <- (Equal_same_To4 _ _ E1)|by rewrite <- E2].
Qed.

Lemma win_listed_present w l r n g : GetAllRoutes w = (Ret l, w) → win_to r n g link →
  existsb (win_Route_Equal r) l = bool_decide ((n, g) ∈ win_present w).
Proof.
  intros Hl Hr. destruct (law_GetAll w) as (l' & Hl' & Hsound & Hcomp). rewrite Hl in Hl'. injection Hl' as <-.
  apply Bool.eq_iff_eq_true. rewrite existsb_exists, bool_decide_eq_true, elem_of_win_present. split.
  - intros (x & Hx & Heq). exists (InterfaceIndex x). eapply Hsound; [by apply list_elem_of_In|by eapply same_route_to].
  - intros [i Hin]. destruct (Hcomp _ _ _ Hin) as (x & Hx & Hto). exists x. split; [by apply list_elem_of_In|].
    rewrite (win_Equal_to _ _ _ _ _ _ _ _ Hr Hto). by apply bool_decide_eq_true.
Qed.

(** What the check adds: the routes of the list that the table has on no link. *)
Definition missing w tr : gset (IP4Net * (IP4 * Z)) := list_to_set (on_link <$> filter (λ e, e ∉ win_present w) tr).

Lemma win_recover_run w0 l : GetAllRoutes w0 = (Ret l, w0) → ∀ routes tr, list_is tr routes → ∀ s, wroutes w0 ⊆ wroutes (wn_host s) →
  ∃ w, win_recover l routes s = (Ret tt, mkWinRouteNetwork (wn_routes s) w) ∧ wroutes w = wroutes (wn_host s) ∪ missing w0 tr.
Proof.
  intros Hl routes tr Hrs. induction Hrs as [|r [n g] routes tr Hr _ IH]; intros s Hs.
  { exists (wn_host s). split; [by destruct s|]. unfold missing. rewrite filter_nil. cbn. set_solver. }
  cbn [fst snd win_recover] in *. rewrite (win_listed_present w0 l r n g Hl Hr). case_bool_decide as Hp.
  - destruct (IH s Hs) as (w & Hrun & Hw). exists w. run. split; [exact Hrun|]. rewrite Hw. unfold missing.
    rewrite filter_cons_False by (intros Hno; by apply Hno). done.
  - assert (∃ w1, (_ ← try (win_create r); mret tt) s = (Ret tt, mkWinRouteNetwork (wn_routes s) w1) ∧
      wroutes w1 = {[on_link (n, g)]} ∪ wroutes (wn_host s)) as (w1 & Hc & Hw1).
    { pose proof (law_CreateRoute r n g link (wn_host s) Hr) as Hc. unfold mbind, M_bind, try, win_create, wn_on_host. case_decide as Hin.
      - destruct Hc as [e ->]. exists (wn_host s). split; [done|]. unfold on_link. cbn. set_solver.
      - destruct Hc as (w1 & -> & Ht). by exists w1. }
    rewrite (M_bind_Ret _ _ _ _ _ Hc). destruct (IH (mkWinRouteNetwork (wn_routes s) w1)) as (w & Hrun & Hw); [cbn; set_solver|].
    exists w. split; [exact Hrun|]. rewrite Hw. cbn [wn_host]. rewrite Hw1. unfold missing.
    rewrite filter_cons_True by done. rewrite fmap_cons, list_to_set_cons. set_solver.
Qed.

(** A check adds to the table the routes of the list that the table does not have, and changes nothing else.  A route
    that is there on another link counts as there. *)
Theorem win_check_recovers tr s : list_is tr (wn_routes s) →
  ∃ w, win_checkSubnetExistInRoutes s = (Ret tt, mkWinRouteNetwork (wn_routes s) w) ∧
    wroutes w = wroutes (wn_host s) ∪ missing (wn_host s) tr.
Proof.
  intros Hl. destruct (law_GetAll (wn_host s)) as (l & Hall & _). unfold win_checkSubnetExistInRoutes.
  assert (wn_on_host GetAllRoutes s = (Ret l, s)) as Hrun by (unfold wn_on_host; rewrite Hall; by destruct s).
  rewrite (run_try_Ret _ _ _ _ _ Hrun). run. by apply (win_recover_run (wn_host s) l Hall).
Qed.

(** A route that is there when its lease is announced, as after a restart, is not put on the list: when the table loses
    it, no check brings it back. *)
Theorem existing_route_not_restored m e s : win_event_ok e → table_is m (wn_host s) → wn_routes s = [] →
  EqualFold (BackendType (Attrs (Event_Lease e))) (wn_BackendType c) = true → Event_Type e = EventAdded →
  m !! Subnet (Event_Lease e) = Some (PublicIP (Attrs (Event_Lease e))) →
  ∃ s', win_handle_event c e s = (Ret tt, s') ∧ table_is m (wn_host s') ∧
    ∀ w, ∃ w', win_checkSubnetExistInRoutes (mkWinRouteNetwork (wn_routes s') w) = (Ret tt, mkWinRouteNetwork [] w') ∧ wroutes w' = wroutes w.
Proof.
  intros He Hm Hl Ht Ha Hn. destruct (win_event_run m [] e s He Hm) as (s' & Hrun & Hm' & Hl' & _); [rewrite Hl; constructor|constructor|].
  unfold win_wanted, win_listed in *. rewrite Ht, Ha in *. rewrite insert_id in Hm' by done. unfold added_list in Hl'. rewrite decide_True in Hl' by done.
  exists s'. split_and!; [done..|]. intros w. inversion Hl' as [E|]. destruct (win_check_recovers [] (mkWinRouteNetwork [] w)) as (w' & Hc & Hw); [constructor|].
  exists w'. split; [exact Hc|]. rewrite Hw. unfold missing. rewrite filter_nil. cbn. set_solver.
Qed.

(** When a node comes back with another address, the route through the old one is replaced in the table but stays on the
    list: the next check puts it back, beside the new one. *)
Theorem old_gateway_restored m e g0 s : win_event_ok e → table_is m (wn_host s) →
  EqualFold (BackendType (Attrs (Event_Lease e))) (wn_BackendType c) = true → Event_Type e = EventAdded →
  list_is [(Subnet (Event_Lease e), g0)] (wn_routes s) →
  m !! Subnet (Event_Lease e) = Some g0 → g0 ≠ PublicIP (Attrs (Event_Lease e)) →
  ∃ s', win_handle_event c e s = (Ret tt, s') ∧ table_is (<[Subnet (Event_Lease e) := PublicIP (Attrs (Event_Lease e))]> m) (wn_host s') ∧
    ((Subnet (Event_Lease e), g0) ∉ win_present (wn_host s') →
     ∃ w, win_checkSubnetExistInRoutes s' = (Ret tt, mkWinRouteNetwork (wn_routes s') w) ∧
       (Subnet (Event_Lease e), (g0, link)) ∈ wroutes w ∧ (Subnet (Event_Lease e), (PublicIP (Attrs (Event_Lease e)), link)) ∈ wroutes w).
Proof.
  intros He Hm Ht Ha Hl Hn Hne. destruct (win_event_run m _ e s He Hm Hl) as (s' & Hrun & Hm' & Hl' & _); [apply NoDup_singleton|].
  unfold win_wanted, win_listed in *. rewrite Ht, Ha in *. unfold added_list in Hl'. rewrite decide_False in Hl' by congruence.
  unfold tr_add in Hl'. rewrite decide_False in Hl' by (intros Hin%list_elem_of_singleton; congruence).
  exists s'. split_and!; [done..|]. intros Hp. destruct (win_check_recovers _ s' Hl') as (w & Hc & Hw). exists w. split; [done|].
  rewrite Hw. split.
  - apply elem_of_union_r. unfold missing. rewrite elem_of_list_to_set, list_elem_of_fmap. exists (Subnet (Event_Lease e), g0).
    split; [done|]. rewrite list_elem_of_filter. split; [done|]. by left.
  - apply elem_of_union_l, Hm'. by rewrite lookup_insert_eq.
Qed.
End network.

(** ** A routing table in memory *)

Definition mem_win_route (x : IP4Net * (IP4 * Z)) : win_Route := mkWinRoute x.2.2 (IP4Net_ToIPNet x.1) (IP4_ToIP x.2.1).
Abbreviation win_table := (gset (IP4Net * (IP4 * Z))).
(** The entries that are routes. *)
Definition mem_win_routes (w : win_table) : win_table := filter entry_ok w.
(** The entry that a call names. *)
Definition mem_entry (i : Z) (d : IPNet) (gw : IP) : option (IP4Net * (IP4 * Z)) :=
  n ← mem_dst (Some d);
  g ← mem_gw (mkRoute (Some d) gw i);
  Some (n, (g, i)).
Definition mem_find (i : Z) (d : IPNet) (w : win_table) : list (IP4Net * (IP4 * Z)) :=
  match mem_dst (Some d) with
  | Some n => filter (λ x, x.1 = n ∧ x.2.2 = i) (elements (mem_win_routes w))
  | None => []
  end.

#[global] Instance mem_Router : Router win_table := {
  GetAllRoutes w := (Ret (mem_win_route <$> elements (mem_win_routes w)), w);
  GetRoutesFromInterfaceToSubnet i d w :=
    (match mem_find i d w with [] => Err (Errorf "no matching object") | l => Ret (mem_win_route <$> l) end, w);
  CreateRoute i d gw w :=
    match mem_entry i d gw with
    | Some x => if decide (x ∈ mem_win_routes w) then (Err (Errorf "already exists"), w) else (Ret tt, {[x]} ∪ w)
    | None => (Err (Errorf "invalid parameter"), w)
    end;
  router_DeleteRoute i d gw w :=
    match mem_entry i d gw with
    | Some x => if decide (x ∈ mem_win_routes w) then (Ret tt, w ∖ {[x]}) else (Err (Errorf "not found"), w)
    | None => (Err (Errorf "invalid parameter"), w)
    end
}.

Lemma mem_win_to x : entry_ok x → win_to (mem_win_route x) x.1 x.2.1 x.2.2.
Proof. destruct x as [n [g i]]. intros [Hn Hg]. by apply mem_route_ok. Qed.

Lemma mem_entry_to r n g i : win_to r n g i → mem_entry (InterfaceIndex r) (DestinationSubnet r) (GatewayAddress r) = Some (n, (g, i)).
Proof.
  intros Hr. destruct (mem_route_to _ _ _ _ Hr) as (E1 & E2 & E3). unfold mem_entry. cbn [as_kernel_route Route_Dst Route_LinkIndex] in *.
  rewrite E1. cbn [mbind option_bind]. subst i. unfold as_kernel_route in E2. by rewrite E2.
Qed.

Lemma win_to_unique r n g i n' g' i' : win_to r n g i → win_to r n' g' i' → (n, (g, i)) = (n', (g', i')).
Proof. intros E%mem_entry_to E'%mem_entry_to. congruence. Qed.

Lemma mem_win_elem x w : x ∈ elements (mem_win_routes w) ↔ entry_ok x ∧ x ∈ w.
Proof. unfold mem_win_routes. by rewrite elem_of_elements, elem_of_filter. Qed.

#[global, refine] Instance mem_RouterLaws : RouterLaws win_table := { wroutes := mem_win_routes }.
Proof.
  - intros i n w Hn. cbn. unfold mem_find. destruct (mem_route_to (mem_route (n, (0, 0))) n 0 0) as (E & _); [by apply mem_route_ok|].
    cbn [Route_Dst mem_route fst] in E. rewrite E.
    assert (∀ x, x ∈ filter (λ x, x.1 = n ∧ x.2.2 = i) (elements (mem_win_routes w)) ↔ (x.1 = n ∧ x.2.2 = i) ∧ x ∈ mem_win_routes w) as Hin.
    { intros x. by rewrite list_elem_of_filter, elem_of_elements. }
    destruct (filter _ _) as [|x l] eqn:El.
    + split; [done|]. intros g Hg. assert ((n, (g, i)) ∈ ([] : list (IP4Net * (IP4 * Z)))) as []%not_elem_of_nil. by apply Hin.
    + split; [done|]. split; [done|]. intros r Hr. change (r ∈ mem_win_route <$> (x :: l)) in Hr. apply list_elem_of_fmap in Hr as ([n' [g' i']] & -> & Hx).
      apply Hin in Hx as [[E1 E2] Hx]. cbn in E1, E2. subst n' i'. exists g'. split; [|done].
      apply (mem_win_to (n, (g', i))). by apply elem_of_filter in Hx as [? _].
  - intros w. eexists. split; [done|]. split.
    + intros r n g i ([n' [g' i']] & -> & Hin)%list_elem_of_fmap Hto. apply elem_of_elements in Hin.
      pose proof Hin as [Hok _]%elem_of_filter. pose proof (win_to_unique _ _ _ _ _ _ _ Hto (mem_win_to _ Hok)) as E. cbn in E. by rewrite E.
    + intros n g i Hin. exists (mem_win_route (n, (g, i))). split; [apply list_elem_of_fmap_2; by apply elem_of_elements|].
      apply elem_of_filter in Hin as [Hok _]. by apply (mem_win_to _ Hok).
  - intros r n g i w Hr. cbn -[mem_entry]. rewrite (mem_entry_to _ _ _ _ Hr). destruct (decide _); [by eexists|]. eexists. split; [done|].
    unfold mem_win_routes. destruct Hr as (Hn & Hg & _). apply set_eq. intros x.
    rewrite elem_of_union, !elem_of_filter, elem_of_union, elem_of_singleton. split; [tauto|]. intros [->|?]; [|tauto]. split; [by split|by left].
  - intros r n g i w Hr. cbn -[mem_entry]. rewrite (mem_entry_to _ _ _ _ Hr). destruct (decide _); [|by eexists]. eexists. split; [done|].
    unfold mem_win_routes. set_solver.
Defined.

(** A node that moves, on an empty table: the table follows, and the check then sends its subnet to both addresses. *)
Definition win_sample_config : win_RouteConfig :=
  mkWinRouteConfig "host-gw" (λ l, mkWinRoute 2 (IP4Net_ToIPNet (Subnet l)) (IP4_ToIP (PublicIP (Attrs l)))) 1500.
Definition win_gateways (inputs : list rn_input) : list IP4 :=
  match win_RouteNetwork_Run win_sample_config inputs (mkWinRouteNetwork [] (∅ : win_table)) with
  | (Ret _, s) => (λ x, x.2.1) <$> elements (wn_host s)
  | _ => []
  end.
Example moved_node_replaced : win_gateways [Batch [added_event 3232235778]; Batch [added_event 3232235779]] = [3232235779].
Proof. vm_compute. reflexivity. Qed.
Example moved_node_doubled :
  Permutation (win_gateways [Batch [added_event 3232235778]; Batch [added_event 3232235779]; CheckRoutes]) [3232235778; 3232235779].
Proof. vm_compute. first [reflexivity | apply perm_swap]. Qed.
