(* ===== verification/WinHostgw.v ===== *)
(** * Windows: the host-gw backend

    [pkg/backend/hostgw/hostgw_windows.go] over the Host Networking Service, which the code reaches through a library
    ([HNS]): the network of the node's pods, the endpoint of the host on it, and the interface that routes go through.
    The theorems say what a registration leaves in the service and that a second one changes nothing. *)

From Stdlib Require Import ZArith Lia Ascii.
From stdpp Require Import base strings list gmap numbers.
From S2P Require Import Prelude GoStrings GoJson GoTime GoNet GoNetFacts Ip4 Ip6 Lease Config Backend BackendFacts Iface WinRoutes WinRoutesFacts.

Local Open Scope Z_scope.

(** ** The Host Networking Service *)

Record HNSSubnet := mkHNSSubnet { hs_AddressPrefix : string; hs_GatewayAddress : string }.
(** The fields of the library's structs that the code uses. *)
Record HNSNetwork := mkHNSNetwork {
  hn_Id : string;
  hn_Name : string;
  hn_Type : string;
  hn_DNSServerList : string;
  hn_Subnets : list HNSSubnet;
  hn_ManagementIP : string
}.
Record HNSEndpoint := mkHNSEndpoint { he_Name : string; he_IPAddress : IP; he_VirtualNetwork : string }.
Record win_hostgw_cfg := mkWinHostgwCfg { wh_Name : string; wh_DNSServerList : string }.

(** A poll is a first check and [poll_more] others, by its interval, before its time is over. *)
Class PollClock := { poll_more : Z → Z → nat }.
(** A call that fails gives no object.  [HNSNetwork_Marshal] and [Unmarshal_hostgw] are the JSON of libraries. *)
Class HNS (W : Type) := {
  Unmarshal_hostgw : string → outcome win_hostgw_cfg;
  GetHNSNetworkByName : string → M W HNSNetwork;
  HNSNetwork_Delete : HNSNetwork → M W unit;
  HNSNetwork_Marshal : HNSNetwork → outcome string;
  HNSNetworkRequest : string → string → string → M W HNSNetwork;
  GetHNSEndpointByName : string → M W HNSEndpoint;
  HNSEndpoint_Delete : HNSEndpoint → M W unit;
  HNSEndpoint_Create : HNSEndpoint → M W HNSEndpoint;
  HNSEndpoint_HostAttach : HNSEndpoint → Z → M W unit;
  Error_text : error → string
}.

Definition millisecond : Z := nanosecond_per_second / 1000.

(** [wait.PollUntilContextTimeout], at once and then after each interval: what the condition gives when it holds, else
    the error it met last. *)
Fixpoint poll_until {W A} (checks : nat) (condition : M W (A + option error)) : M W (A + option error) :=
  r ← condition;
  match r, checks with
  | inl _, _ | _, O => mret r
  | inr _, S checks => poll_until checks condition
  end.

Definition poll_deadline : error := Sentinel "context.DeadlineExceeded".

Section hostgw.
Context {W : Type} `{PollClock, HNS W, WinIfaces W, PowerShell W, LeaseSource W}.

Definition win_hostgw_New (extIface : ExternalInterface) : outcome ExternalInterface :=
  if negb (Equal (ExtAddr extIface) (IfaceAddr extIface))
  then Err (Errorf "your PublicIP differs from interface IP, meaning that probably you're on a NAT, which is not supported by host-gw backend")
  else Ret extIface.

Definition win_hostgw_config (backend : string) : outcome win_hostgw_cfg :=
  cfg ← (if (0 <? String.length backend)%nat then
           match Unmarshal_hostgw backend with
           | Err err => Err (Wrapf "error decoding windows host-gw backend config: %w" err)
           | r => r
           end
         else Ret (mkWinHostgwCfg "" ""));
  Ret (if decide (wh_Name cfg = "") then mkWinHostgwCfg "cbr0" (wh_DNSServerList cfg) else cfg).

Definition win_acquire (attrs : LeaseAttrs) : M W Lease :=
  r ← try (sm_AcquireLease attrs);
  match r with
  | inl l => mret l
  | inr err => throw (if context_error err then err else Wrapf "failed to acquire lease: %w" err)
  end.

Definition has_subnet (prefix gateway : string) (n : HNSNetwork) : bool :=
  existsb (λ s, bool_decide (hs_AddressPrefix s = prefix ∧ hs_GatewayAddress s = gateway)) (hn_Subnets n).

(** The checks of the two waits for a new network. *)
Definition management_ip_there (id : string) : M W (HNSNetwork + option error) :=
  r ← try (HNSNetworkRequest "GET" id "");
  mret (match r with
        | inl n => if decide (hn_ManagementIP n ≠ "") then inl n else inr None
        | inr e => inr (Some e)
        end).
Definition interface_there (ip : IP) : M W (unit + option error) :=
  r ← try (win_GetInterfaceByIP ip);
  mret (match r with inl _ => inl tt | inr e => inr (Some e) end).

Definition create_hns_network (existing : option HNSNetwork) (wanted : HNSNetwork) : M W HNSNetwork :=
  _ ← match existing with
      | Some n => wrapping "failed to delete existing HNSNetwork %s: %w" (HNSNetwork_Delete n)
      | None => mret tt
      end;
  jsonRequest ← wrapping "failed to marshal %+v: %w" (lift (HNSNetwork_Marshal wanted));
  newNetwork ← wrapping "failed to create HNSNetwork %s: %w" (HNSNetworkRequest "POST" "" jsonRequest);
  r ← poll_until (poll_more (500 * millisecond) (5 * nanosecond_per_second)) (management_ip_there (hn_Id newNetwork));
  match r with
  | inr lastErr => throw (Wrapf "timeout, failed to get management IP from HNSNetwork %s: %w" (default poll_deadline lastErr))
  | inl newNetwork =>
      managementIP ← wrapping "Failed to parse management ip (%s): %w" (lift (ParseIP4 (hn_ManagementIP newNetwork)));
      r ← poll_until (poll_more (500 * millisecond) (5 * nanosecond_per_second)) (interface_there (IP4_ToIP managementIP));
      match r with
      | inr lastErr => throw (Wrapf "timeout, failed to get net interface for HNSNetwork %s (%s): %w" (default poll_deadline lastErr))
      | inl _ => mret newNetwork
      end
  end.

(** Steps 3 and 4: the network, which is kept when it has the node's subnet. *)
Definition ensure_hns_network (cfg : win_hostgw_cfg) (prefix gateway : string) : M W HNSNetwork :=
  existing ← try (GetHNSNetworkByName (wh_Name cfg));
  let wanted := mkHNSNetwork "" (wh_Name cfg) "L2Bridge" (wh_DNSServerList cfg) [mkHNSSubnet prefix gateway] "" in
  match existing with
  | inl n => if has_subnet prefix gateway n then mret n else create_hns_network (Some n) wanted
  | inr _ => create_hns_network None wanted
  end.

(** Steps 5 and 6: the endpoint of the host on the network. *)
Definition ensure_hns_endpoint (network : HNSNetwork) (name : string) (podGateway : IP4) : M W HNSEndpoint :=
  existing ← try (GetHNSEndpointByName name);
  let create :=
    wrapping "failed to create bridge HNSEndpoint %s: %w" (HNSEndpoint_Create (mkHNSEndpoint name (IP4_ToIP podGateway) (hn_Id network))) in
  match existing with
  | inl e =>
      if decide (IP_String (he_IPAddress e) = IP4_String podGateway) then mret e
      else _ ← wrapping "failed to delete existing bridge HNSEndpoint %s: %w" (HNSEndpoint_Delete e); create
  | inr _ => create
  end.

Definition endpoint_attached (e : HNSEndpoint) : M W (unit + option error) :=
  r ← try (HNSEndpoint_HostAttach e 1);
  mret (match r with
        | inl _ => inl tt
        | inr err => if Contains (Error_text err) "This endpoint is already attached to the switch." then inl tt else inr (Some err)
        end).
Definition attach_endpoint (e : HNSEndpoint) : M W unit :=
  r ← poll_until (poll_more (500 * millisecond) (5 * nanosecond_per_second)) (endpoint_attached e);
  match r with
  | inl _ => mret tt
  | inr lastErr => throw (Wrapf "failed to hot attach bridge HNSEndpoint %s to host compartment: %w" (default poll_deadline lastErr))
  end.

(** Step 7: forwarding on the two interfaces; the one with the management IP is what routes go through. *)
Fixpoint enable_forwarding (managementIP : string) (ips : list string) (link : Z * string) : M W (Z * string) :=
  match ips with
  | [] => mret link
  | interfaceIpAddress :: ips =>
      ipv4 ← wrapping "Failed to parse expected net interface ip (%s): %w" (lift (ParseIP4 interfaceIpAddress));
      netInterface ← wrapping "failed to find interface for IP Address %s: %w" (win_GetInterfaceByIP (IP4_ToIP ipv4));
      let link := if decide (managementIP = IP4_String ipv4) then (if_Index netInterface, if_Name netInterface) else link in
      _ ← wrapping "failed to enable forwarding on %s index %d: %w" (EnableForwardingForInterface netInterface);
      enable_forwarding managementIP ips link
  end.

Definition win_hostgw_route (linkIndex : Z) (l : Lease) : win_Route :=
  mkWinRoute linkIndex (IP4Net_ToIPNet (Subnet l)) (IP4_ToIP (PublicIP (Attrs l))).

(** The network: its configuration, its lease and the name of its interface. *)
Record win_hostgw_network := mkWinHostgwNetwork { whn_config : win_RouteConfig; whn_SubnetLease : Lease; whn_Name : string }.

Definition subnet_gateway (sn : IP4Net) : IP4 := (IP4Net_IP sn + 1) mod 2 ^ 32.
Definition pod_gateway (sn : IP4Net) : IP4 := (IP4Net_IP sn + 2) mod 2 ^ 32.

Definition win_hostgw_RegisterNetwork (be : ExternalInterface) (config : Config) : M W win_hostgw_network :=
  cfg ← lift (win_hostgw_config (cfg_Backend config));
  pub ← lift (FromIP (ExtAddr be));
  l ← win_acquire (mkLeaseAttrs pub None "host-gw" None None);
  let expectedSubnet := Subnet l in
  let podGateway := pod_gateway expectedSubnet in
  network ← ensure_hns_network cfg (IP4Net_String expectedSubnet) (IP4_String (subnet_gateway expectedSubnet));
  endpoint ← ensure_hns_endpoint network (wh_Name cfg +:+ "_ep") podGateway;
  _ ← attach_endpoint endpoint;
  link ← enable_forwarding (hn_ManagementIP network) [hn_ManagementIP network; IP_String (he_IPAddress endpoint)] (Iface_Index be, "");
  mret (mkWinHostgwNetwork (mkWinRouteConfig "host-gw" (win_hostgw_route link.1) (Iface_MTU be)) l link.2).
End hostgw.

(** ** The addresses of the gateways *)

Lemma aligned_block n k : IP4Net_ok n → IP4Net_aligned n → 0 <= k < IP4Net_size n →
  IP4_ok (IP4Net_IP n + k) ∧ IP4Net_addr n (IP4Net_IP n + k).
Proof.
  intros Hn Ha Hk. pose proof (IP4Net_size_pos n Hn) as Hpos. unfold IP4Net_aligned, IP4Net_addr, IP4Net_first in *.
  apply Z.div_exact in Ha; [|lia]. destruct Hn as [[Hlo Hhi] Hp].
  assert (2 ^ 32 = 2 ^ IP4Net_PrefixLen n * IP4Net_size n) as Hs by (unfold IP4Net_size; rewrite <- Z.pow_add_r by lia; f_equal; lia).
  unfold IP4_ok. set (q := IP4Net_IP n / IP4Net_size n) in *. assert (q < 2 ^ IP4Net_PrefixLen n) by nia. split; nia.
Qed.

(** The two gateways of a subnet of at most thirty bits are distinct addresses of it, neither the first nor the last. *)
Theorem gateways_in_subnet sn : IP4Net_ok sn → IP4Net_aligned sn → IP4Net_PrefixLen sn <= 30 →
  IP4Net_Contains sn (subnet_gateway sn) = true ∧ IP4Net_Contains sn (pod_gateway sn) = true ∧
  IP4Net_IP sn < subnet_gateway sn < pod_gateway sn ∧ pod_gateway sn < IP4Net_IP sn + IP4Net_size sn - 1.
Proof.
  intros Hn Ha Hp. assert (4 <= IP4Net_size sn) as Hs.
  { unfold IP4Net_size. change 4 with (2 ^ 2). apply Z.pow_le_mono_r; lia. }
  destruct (aligned_block sn 1 Hn Ha) as [H1 A1]; [lia|]. destruct (aligned_block sn 2 Hn Ha) as [H2 A2]; [lia|].
  unfold subnet_gateway, pod_gateway. rewrite !Z.mod_small by done. rewrite !IP4Net_Contains_addr by done. split_and!; done || lia.
Qed.

Section theorems.
Context {W : Type} `{PollClock, HNS W, WinIfaces W, PowerShell W, LeaseSource W}.

(** A network of the service that has the node's subnet is kept, and so is the endpoint with the gateway of the pods:
    what a registration finds of an earlier one it does not touch. *)
Theorem existing_hns_kept cfg prefix gateway name podGateway network endpoint (w : W) :
  GetHNSNetworkByName (wh_Name cfg) w = (Ret network, w) → has_subnet prefix gateway network = true →
  GetHNSEndpointByName name w = (Ret endpoint, w) → IP_String (he_IPAddress endpoint) = IP4_String podGateway →
  ensure_hns_network cfg prefix gateway w = (Ret network, w) ∧ ensure_hns_endpoint network name podGateway w = (Ret endpoint, w).
Proof.
  intros Hn Hs He Hip. unfold ensure_hns_network, ensure_hns_endpoint. rewrite (run_try_Ret _ _ _ _ _ Hn), (run_try_Ret _ _ _ _ _ He), Hs.
  by rewrite decide_True.
Qed.

(** A poll ends, with what its condition gave last. *)
Lemma poll_until_cases {A} (P : A → Prop) n (m : M W (A + option error)) (w : W) :
  (∀ w a w', m w = (Ret (inl a), w') → P a) → ∀ a w', poll_until n m w = (Ret (inl a), w') → P a.
Proof.
  intros Hm. revert w. induction n as [|n IH]; intros w a w' Hp; cbn [poll_until] in Hp; apply M_bind_inv in Hp as (r & w1 & Hr & Hp).
  - destruct r; unfold mret, M_ret in Hp; simplify_eq. by eapply Hm.
  - destruct r as [a'|e]; [unfold mret, M_ret in Hp; simplify_eq; by eapply Hm|by eapply IH].
Qed.

(** A network that is made has a management address that parses, or the registration fails. *)
Theorem created_network_has_address existing wanted (w : W) n w' :
  create_hns_network existing wanted w = (Ret n, w') → hn_ManagementIP n ≠ "" ∧ ∃ ip, ParseIP4 (hn_ManagementIP n) = Ret ip.
Proof.
  intros Hc. unfold create_hns_network in Hc. apply M_bind_inv in Hc as ([] & w1 & _ & Hc).
  apply M_bind_inv in Hc as (json & w2 & _ & Hc). apply M_bind_inv in Hc as (new & w3 & _ & Hc).
  apply M_bind_inv in Hc as ([n'|e] & w4 & Hp & Hc); [|done].
  assert (hn_ManagementIP n' ≠ "") as Hne.
  { eapply (poll_until_cases (λ n, hn_ManagementIP n ≠ "")); [|exact Hp]. intros v a v' Hm. unfold management_ip_there in Hm.
    apply M_bind_inv in Hm as ([x|e] & v1 & _ & Hm); unfold mret, M_ret in Hm; [|done]. case_decide; by simplify_eq. }
  apply M_bind_inv in Hc as (ip & w5 & Hip & Hc). apply M_bind_inv in Hc as ([[]|e] & w6 & _ & Hc); [|done].
  unfold mret, M_ret in Hc. simplify_eq. split; [done|]. exists ip. unfold wrapping, try, lift, mbind, M_bind in Hip.
  destruct (ParseIP4 (hn_ManagementIP n)); unfold mret, M_ret, throw in Hip; by simplify_eq.
Qed.

(** What is registered routes each lease through one interface. *)
Lemma registered_routes be config (w : W) n w' : win_hostgw_RegisterNetwork be config w = (Ret n, w') →
  wn_BackendType (whn_config n) = "host-gw" ∧ ∃ link, ∀ l, wn_GetRoute (whn_config n) l = win_hostgw_route link l.
Proof.
  intros Hreg. unfold win_hostgw_RegisterNetwork in Hreg. repeat (apply M_bind_inv in Hreg as (? & ? & _ & Hreg)).
  unfold mret, M_ret in Hreg. simplify_eq. split; [done|]. eexists. intros l. reflexivity.
Qed.

(** From a registration to the routes: on the interface that the registration settles on, the table follows the leases. *)
Theorem win_hostgw_tracks {T} `{RouterLaws T} be config (w : W) n w' es m tr (s : win_RouteNetwork T) :
  win_hostgw_RegisterNetwork be config w = (Ret n, w') → Forall win_event_ok es →
  ∃ link, table_is link m (wn_host s) → list_is link tr (wn_routes s) → NoDup tr →
    ∃ s', win_handleSubnetEvents (whn_config n) es s = (Ret tt, s') ∧
      table_is link (foldl (win_wanted (whn_config n)) m es) (wn_host s').
Proof.
  intros Hreg Hes. destruct (registered_routes _ _ _ _ _ Hreg) as [_ [link Hl]]. exists link. intros Hm Hlist Hnd.
  destruct (win_events_tracked link (whn_config n) Hl es m tr s Hes Hm Hlist Hnd) as (s' & tr' & Hrun & Ht & _). by exists s'.
Qed.
End theorems.
