(* ===== verification/WinVxlan.v ===== *)
(** * Windows: the VXLAN backend

    [pkg/backend/vxlan/vxlan_windows.go], [device_windows.go] and [vxlan_network_windows.go] over the Host Compute Network
    ([HCN]), the library that the overlay network and its policies are reached through. *)

From Stdlib Require Import ZArith Lia Ascii.
From stdpp Require Import base strings list gmap numbers.
From S2P Require Import Prelude GoStrings GoJson GoTime GoNet GoNetFacts Ip4 Ip6 Lease Config Backend Iface Vxlan WinRoutes WinHostgw.

Local Open Scope Z_scope.

(** ** The Host Compute Network *)

Inductive PolicyType := ProviderAddress | HostRoute | RemoteSubnetRoute | DrMacAddress | NetAdapterName | OtherPolicy (name : string).
#[global] Instance PolicyType_eq_dec : EqDecision PolicyType.
Proof. solve_decision. Defined.
Record NetworkPolicy := mkNetworkPolicy { np_Type : PolicyType; np_Settings : string }.
#[global] Instance NetworkPolicy_eq_dec : EqDecision NetworkPolicy.
Proof. solve_decision. Defined.

(** A subnet: its routes are next hops and destinations, its policies texts. *)
Record HcnSubnet := mkHcnSubnet { su_IpAddressPrefix : string; su_Routes : list (string * string); su_Policies : list string }.
Record Ipam := mkIpam { im_Type : string; im_Subnets : list HcnSubnet }.
Record HostComputeNetwork := mkHcn {
  hc_Id : string;
  hc_Name : string;
  hc_Type : string;
  hc_Ipams : list Ipam;
  hc_Policies : list NetworkPolicy;
  hc_NonPersistent : bool;
  hc_SchemaVersion : Z * Z
}.
(** The settings of a route to a remote subnet. *)
Record RemoteRoute := mkRemoteRoute {
  rr_IsolationId : Z;
  rr_DistributedRouterMacAddress : string;
  rr_ProviderAddress : string;
  rr_DestinationPrefix : string
}.
#[global] Instance RemoteRoute_eq_dec : EqDecision RemoteRoute.
Proof. solve_decision. Defined.

(** The JSON of the library's settings; that of a remote route may be read in part, with an error. *)
Class HcnJson := {
  Marshal_Vsid : Z → outcome string;
  Marshal_SubnetPolicy : string → outcome string;
  Marshal_RemoteRoute : RemoteRoute → string;
  Unmarshal_RemoteRoute : string → RemoteRoute * option error;
  Unmarshal_ProviderAddress : string → outcome string;
  Unmarshal_DrMac : string → outcome string
}.
(** A call that fails gives no object. *)
Class HCN (W : Type) := {
  RemoteSubnetSupported : M W unit;
  hcn_GetNetworkByName : string → M W HostComputeNetwork;
  hcn_GetNetworkByID : string → M W HostComputeNetwork;
  hcn_Create : HostComputeNetwork → M W HostComputeNetwork;
  hcn_Delete : HostComputeNetwork → M W unit;
  hcn_AddPolicy : HostComputeNetwork → list NetworkPolicy → M W unit;
  hcn_RemovePolicy : HostComputeNetwork → list NetworkPolicy → M W unit
}.

(** ** [device_windows.go] *)

Record win_vxlanDeviceAttrs := mkWinDeviceAttrs {
  wd_vni : Z;
  wd_name : string;
  wd_gbp : bool;
  wd_addressPrefix : IP4Net;
  wd_interfaceName : string
}.
(** The link is a pointer, which may be nil. *)
Record win_vxlanDevice := mkWinDevice { wdev_link : option HostComputeNetwork; wdev_macPrefix : string; wdev_directRouting : bool }.

Section device.
Context {W : Type} `{PollClock, HcnJson, HCN W, WinIfaces W}.

Definition createSubnet (AddressPrefix NextHop DestPrefix : string) : HcnSubnet := mkHcnSubnet AddressPrefix [(NextHop, DestPrefix)] [].

Definition add_policy (p : NetworkPolicy) (n : HostComputeNetwork) : HostComputeNetwork :=
  mkHcn (hc_Id n) (hc_Name n) (hc_Type n) (hc_Ipams n) (hc_Policies n ++ [p]) (hc_NonPersistent n) (hc_SchemaVersion n).
(** A struct of a text: it can be marshalled. *)
Definition addNetAdapterName (netAdapterName : string) : HostComputeNetwork → HostComputeNetwork :=
  add_policy (mkNetworkPolicy NetAdapterName (json_object [member "NetworkAdapterName" (json_string netAdapterName)])).

(** The first policy with the address decides. *)
Fixpoint provider_address (policies : list NetworkPolicy) : string :=
  match policies with
  | [] => ""
  | p :: policies =>
      if decide (np_Type p = ProviderAddress) then match Unmarshal_ProviderAddress (np_Settings p) with Ret s => s | _ => "" end
      else provider_address policies
  end.
Definition getManagementIP (n : HostComputeNetwork) : string := provider_address (hc_Policies n).

(** The last error is a variable of the check alone: it is lost. *)
Definition checkHostNetworkReady (n : HostComputeNetwork) : M W unit :=
  managementIPv4 ← wrapping "Failed to parse management ip (%s): %w" (lift (ParseIP4 (getManagementIP n)));
  r ← poll_until (poll_more (5 * nanosecond_per_second) (45 * nanosecond_per_second)) (interface_there (IP4_ToIP managementIPv4));
  match r with
  | inl _ => mret tt
  | inr _ => throw (Wrapf "timeout, failed to get net interface for HostComputeNetwork %s (%s): %w" poll_deadline)
  end.

Definition provider_there (id : string) : M W (HostComputeNetwork + option error) :=
  r ← try (hcn_GetNetworkByID id);
  mret (match r with
        | inl n => if decide (getManagementIP n ≠ "") then inl n else inr None
        | inr e => inr (Some e)
        end).

(** The address prefix of [Ipams[0].Subnets[0]]. *)
Definition first_prefix (n : HostComputeNetwork) : outcome string :=
  ipam ← deref (head (hc_Ipams n));
  subnet ← deref (head (im_Subnets ipam));
  Ret (su_IpAddressPrefix subnet).

(** [None] is a nil network without an error: [errors.Wrapf] of the last error gives nil when there was none. *)
Definition create_hcn_network (existing : option HostComputeNetwork) (expectedNetwork : HostComputeNetwork) : M W (option HostComputeNetwork) :=
  _ ← match existing with
      | Some n => wrapping "failed to delete existing HostComputeNetwork %s: %w" (hcn_Delete n)
      | None => mret tt
      end;
  newNetwork ← wrapping "failed to create HostComputeNetwork %s: %w" (hcn_Create expectedNetwork);
  r ← poll_until (poll_more (500 * millisecond) (5 * nanosecond_per_second)) (provider_there (hc_Id newNetwork));
  match r with
  | inr (Some lastErr) => throw (Wrapf "timeout, failed to get management IP from HostComputeNetwork %s: %w" lastErr)
  | inr None => mret None
  | inl newNetwork =>
      _ ← wrapping "Interface bound to %s took too long to get ready. Please check your network host configuration: %w"
            (checkHostNetworkReady newNetwork);
      mret (Some newNetwork)
  end.

(** The policy for local pods; older systems refuse it, which is only logged. *)
Definition ensure_host_route (n : HostComputeNetwork) : M W unit :=
  if existsb (λ p, bool_decide (np_Type p = HostRoute)) (hc_Policies n) then mret tt
  else _ ← try (hcn_AddPolicy n [mkNetworkPolicy HostRoute "{}"]); mret tt.

Definition ensureNetwork (expectedNetwork : HostComputeNetwork) (expectedAddressPrefix : string) : M W (option HostComputeNetwork) :=
  existing ← try (hcn_GetNetworkByName (hc_Name expectedNetwork));
  network ← match existing with
            | inl n =>
                same ← (if decide (hc_Type n = hc_Type expectedNetwork) then
                          prefix ← lift (first_prefix n); mret (bool_decide (prefix = expectedAddressPrefix))
                        else mret false);
                if (same : bool) then mret (Some n) else create_hcn_network (Some n) expectedNetwork
            | inr _ => create_hcn_network None expectedNetwork
            end;
  match network with
  | None => mret None
  | Some n => _ ← ensure_host_route n; mret (Some n)
  end.

Definition win_newVXLANDevice (devAttrs : win_vxlanDeviceAttrs) : M W win_vxlanDevice :=
  let prefix := IP4Net_String (wd_addressPrefix devAttrs) in
  let subnet := createSubnet prefix (IP4_String (subnet_gateway (wd_addressPrefix devAttrs))) "0.0.0.0/0" in
  vsidJson ← lift (Marshal_Vsid (wd_vni devAttrs));
  spJson ← lift (Marshal_SubnetPolicy vsidJson);
  let subnet := mkHcnSubnet (su_IpAddressPrefix subnet) (su_Routes subnet) [spJson] in
  let network := mkHcn "" (wd_name devAttrs) "Overlay" [mkIpam "Static" [subnet]] [] true (2, 0) in
  let network := if decide (wd_interfaceName devAttrs ≠ "") then addNetAdapterName (wd_interfaceName devAttrs) network else network in
  hnsNetwork ← ensureNetwork network prefix;
  mret (mkWinDevice hnsNetwork "" false).
End device.

(** ** [vxlan_windows.go] *)

Record win_vxlan_cfg := mkWinVxlanCfg {
  wv_Name : string;
  wv_MacPrefix : string;
  wv_VNI : Z;
  wv_Port : Z;
  wv_GBP : bool;
  wv_DirectRouting : bool
}.
Definition win_defaultVNI : Z := 4096.
Definition win_vxlanPort : Z := 4789.

Definition win_vxlan_cfg_field (c : win_vxlan_cfg) (key raw : string) (v : json) : outcome win_vxlan_cfg :=
  let '(mkWinVxlanCfg name mac vni port gbp direct) := c in
  if field_name "Name" key then s ← decode_string name v; Ret (mkWinVxlanCfg s mac vni port gbp direct)
  else if field_name "MacPrefix" key then s ← decode_string mac v; Ret (mkWinVxlanCfg name s vni port gbp direct)
  else if field_name "VNI" key then n ← decode_int 64 vni v; Ret (mkWinVxlanCfg name mac n port gbp direct)
  else if field_name "Port" key then n ← decode_int 64 port v; Ret (mkWinVxlanCfg name mac vni n gbp direct)
  else if field_name "GBP" key then b ← decode_bool gbp v; Ret (mkWinVxlanCfg name mac vni port b direct)
  else if field_name "DirectRouting" key then b ← decode_bool direct v; Ret (mkWinVxlanCfg name mac vni port gbp b)
  else Ret c.
Definition win_vxlan_parse (backend : string) : outcome win_vxlan_cfg :=
  let cfg := mkWinVxlanCfg "" "0E-2A" win_defaultVNI win_vxlanPort false false in
  if (0 <? String.length backend)%nat then
    match Unmarshal_struct win_vxlan_cfg_field backend cfg with
    | Err err => Err (Wrapf "error decoding VXLAN backend config: %v" err)
    | r => r
    end
  else Ret cfg.

Definition win_vxlan_verify (cfg : win_vxlan_cfg) : outcome win_vxlan_cfg :=
  if wv_VNI cfg <? win_defaultVNI then Err (Errorf "invalid VXLAN backend config. VNI [%v] must be greater than or equal to %v on Windows")
  else if negb (wv_Port cfg =? win_vxlanPort)
  then Err (Errorf "invalid VXLAN backend config. Port [%v] is not supported on Windows. Omit the setting to default to port %v")
  else if wv_DirectRouting cfg then Err (Errorf "invalid VXLAN backend config. DirectRouting is not supported on Windows")
  else if wv_GBP cfg then Err (Errorf "invalid VXLAN backend config. GBP is not supported on Windows")
  else if negb (String.length (wv_MacPrefix cfg) =? 5)%nat || negb (bool_decide (String.get 2 (wv_MacPrefix cfg) = Some "-"%char))
  then Err (Errorf "invalid VXLAN backend config.MacPrefix [%v] is invalid, prefix must be of the format xx-xx e.g. 0E-2A")
  else if decide (wv_Name cfg = "")
  then Ret (mkWinVxlanCfg ("flannel." +:+ fmt_int (wv_VNI cfg)) (wv_MacPrefix cfg) (wv_VNI cfg) (wv_Port cfg) (wv_GBP cfg) (wv_DirectRouting cfg))
  else Ret cfg.

(** The identifier is a [uint16]. *)
Definition win_newSubnetAttrs (publicIP : IP) (vnid : Z) (mac : HardwareAddr) : outcome LeaseAttrs :=
  pub ← FromIP publicIP;
  Ret (mkLeaseAttrs pub None "vxlan" (Some (vxlanLeaseAttrs_Marshal (mkVxlanAttrs vnid mac))) None).

Record win_vxlan_network := mkWinVxlanNetwork { wvn_SubnetLease : Lease; wvn_ExtIface : ExternalInterface; wvn_dev : win_vxlanDevice }.

Section register.
Context {W : Type} `{PollClock, HcnJson, HCN W, WinIfaces W, LeaseSource W}.

(** The last policy with the address decides. *)
Fixpoint dr_mac (policies : list NetworkPolicy) (newDrMac : string) : outcome string :=
  match policies with
  | [] => Ret newDrMac
  | p :: policies =>
      if decide (np_Type p = DrMacAddress) then
        match Unmarshal_DrMac (np_Settings p) with
        | Ret s => dr_mac policies s
        | Err _ => Err (Errorf "failed to unmarshal settings")
        | Panic => Panic
        end
      else dr_mac policies newDrMac
  end.

Definition win_vxlan_acquire (attrs : LeaseAttrs) : M W Lease :=
  r ← try (sm_AcquireLease attrs);
  match r with
  | inl l => mret l
  | inr err => throw (if context_error err then err else Wrapf "failed to acquire lease: %v" err)
  end.

Definition win_vxlan_RegisterNetwork (extIface : ExternalInterface) (config : Config) : M W win_vxlan_network :=
  cfg ← lift (win_vxlan_parse (cfg_Backend config));
  cfg ← lift (win_vxlan_verify cfg);
  _ ← RemoteSubnetSupported;
  subnetAttrs ← lift (win_newSubnetAttrs (ExtAddr extIface) (wv_VNI cfg mod 2 ^ 16) []);
  l ← win_vxlan_acquire subnetAttrs;
  dev ← wrapping "failed to create VXLAN network: %w"
          (win_newVXLANDevice (mkWinDeviceAttrs (wv_VNI cfg mod 2 ^ 32) (wv_Name cfg) false (Subnet l) (IfaceName extIface)));
  let dev := mkWinDevice (wdev_link dev) (wv_MacPrefix cfg) (wv_DirectRouting cfg) in
  hcnNetwork ← wrapping "failed to get HNS network: %w" (hcn_GetNetworkByName (wv_Name cfg));
  newDrMac ← lift (dr_mac (hc_Policies hcnNetwork) "");
  mac ← match ParseMAC newDrMac with
        | Some mac => mret mac
        | None => throw (Errorf "cannot parse DR MAC %v: %+v")
        end;
  subnetAttrs ← lift (win_newSubnetAttrs (ExtAddr extIface) (wv_VNI cfg mod 2 ^ 16) mac);
  ready ← try (checkHostNetworkReady hcnNetwork);
  match ready with
  | inr _ => throw (Errorf "interface bound to %s took too long to get ready. Please check your network host configuration")
  | inl _ =>
      l ← wrapping "failed to acquire lease: %w" (sm_AcquireLease subnetAttrs);
      mret (mkWinVxlanNetwork l extIface dev)
  end.
End register.

(** ** [vxlan_network_windows.go] *)

(** The lease data, whose identifier is a [uint16] here. *)
Definition win_lease_attrs_field (a : vxlanLeaseAttrs) (key raw : string) (v : json) : outcome vxlanLeaseAttrs :=
  if field_name "VNI" key then n ← decode_uint 16 (va_VNI a) v; Ret (mkVxlanAttrs n (va_VtepMAC a))
  else if field_name "VtepMAC" key then hw ← hardwareAddr_UnmarshalJSON raw; Ret (mkVxlanAttrs (va_VNI a) hw)
  else Ret a.
Definition win_lease_attrs (data : RawMessage) : outcome vxlanLeaseAttrs :=
  Unmarshal_struct win_lease_attrs_field (default "" data) zero_vxlan_attrs.

Definition win_vxlan_MTU (nw : win_vxlan_network) : Z := Iface_MTU (wvn_ExtIface nw) - encapOverhead.

(** The remote route that a lease asks for, of a lease that is not ignored. *)
Definition lease_route (l : Lease) : option RemoteRoute :=
  if negb (EqualFold (BackendType (Attrs l)) "vxlan") then None
  else match win_lease_attrs (BackendData (Attrs l)) with
       | Ret a =>
           if va_VNI a <? 4096 then None
           else Some (mkRemoteRoute (va_VNI a) (HardwareAddr_String (va_VtepMAC a)) (IP4_String (PublicIP (Attrs l))) (IP4Net_String (Subnet l)))
       | _ => None
       end.

Section network.
Context {W : Type} `{HcnJson, HCN W}.

Definition remote_policy (r : RemoteRoute) : NetworkPolicy := mkNetworkPolicy RemoteSubnetRoute (Marshal_RemoteRoute r).
(** Whether a policy is a remote route to the destination, and its settings. *)
Definition route_for (destination : string) (p : NetworkPolicy) : option RemoteRoute :=
  if decide (np_Type p = RemoteSubnetRoute) then
    let existing := (Unmarshal_RemoteRoute (np_Settings p)).1 in
    if decide (rr_DestinationPrefix existing = destination) then Some existing else None
  else None.

(** The results of the calls are not looked at. *)
Fixpoint remove_routes_to (hnsnetwork : HostComputeNetwork) (destination : string) (policies : list NetworkPolicy) : M W unit :=
  match policies with
  | [] => mret tt
  | p :: policies =>
      _ ← match route_for destination p with
          | Some existing => _ ← try (hcn_RemovePolicy hnsnetwork [remote_policy existing]); mret tt
          | None => mret tt
          end;
      remove_routes_to hnsnetwork destination policies
  end.

Definition win_vxlan_event (nw : win_vxlan_network) (evt : Event) : M W unit :=
  match lease_route (Event_Lease evt) with
  | None => mret tt
  | Some r =>
      link ← lift (deref (wdev_link (wvn_dev nw)));
      found ← try (hcn_GetNetworkByName (hc_Name link));
      match found with
      | inr _ => mret tt
      | inl hnsnetwork =>
          match Event_Type evt with
          | EventAdded =>
              _ ← remove_routes_to hnsnetwork (rr_DestinationPrefix r) (hc_Policies hnsnetwork);
              if decide (rr_DistributedRouterMacAddress r ≠ "") then _ ← try (hcn_AddPolicy hnsnetwork [remote_policy r]); mret tt
              else mret tt
          | EventRemoved =>
              if decide (rr_DistributedRouterMacAddress r ≠ "") then _ ← try (hcn_RemovePolicy hnsnetwork [remote_policy r]); mret tt
              else mret tt
          end
      end
  end.
Fixpoint win_vxlan_handleSubnetEvents (nw : win_vxlan_network) (batch : list Event) : M W unit :=
  match batch with
  | [] => mret tt
  | evt :: batch => _ ← win_vxlan_event nw evt; win_vxlan_handleSubnetEvents nw batch
  end.
End network.
