(* ===== verification/WinVxlanFacts.v ===== *)
(** * Windows: what the overlay network knows of the leases

    What is documented of the policies of a network is the class [HcnLaws]; the remote routes follow the leases.  Two
    theorems show where the backend goes wrong: a network that gets no address, and an identifier that is too large. *)

From Stdlib Require Import ZArith Lia Ascii.
From stdpp Require Import base strings list gmap numbers.
From S2P Require Import Prelude GoStrings GoJson GoJsonFacts GoTime GoNet GoNetFacts Ip4 Ip6 Lease Config Backend Iface Vxlan VxlanFacts WinRoutes WinHostgw WinVxlan.

Local Open Scope Z_scope.

Section settings.
Context `{HcnJson}.

(** Two policies that say the same. *)
Definition same_policy (p q : NetworkPolicy) : Prop :=
  np_Type p = np_Type q ∧
  (if decide (np_Type p = RemoteSubnetRoute) then (Unmarshal_RemoteRoute (np_Settings p)).1 = (Unmarshal_RemoteRoute (np_Settings q)).1
   else np_Settings p = np_Settings q).
#[global] Instance same_policy_dec p q : Decision (same_policy p q).
Proof. unfold same_policy. case_decide; apply _. Defined.

Definition without (ps qs : list NetworkPolicy) : list NetworkPolicy := filter (λ p, Forall (λ q, ¬ same_policy p q) qs) ps.

(** The remote routes among policies. *)
Definition remote_route (p : NetworkPolicy) : option RemoteRoute :=
  if decide (np_Type p = RemoteSubnetRoute) then Some (Unmarshal_RemoteRoute (np_Settings p)).1 else None.
Definition remote_routes (ps : list NetworkPolicy) : list RemoteRoute := omap remote_route ps.
End settings.

(** Networks by name; to remove policies removes those that say the same. *)
Class HcnLaws (W : Type) `{HcnJson, HCN W} := {
  policies : string → W → option (list NetworkPolicy);
  law_Marshal r : Unmarshal_RemoteRoute (Marshal_RemoteRoute r) = (r, None);
  law_GetNetworkByName name w :
    match policies name w with
    | Some ps => ∃ n, hcn_GetNetworkByName name w = (Ret n, w) ∧ hc_Name n = name ∧ hc_Policies n = ps
    | None => ∃ e, hcn_GetNetworkByName name w = (Err e, w)
    end;
  law_AddPolicy n qs w ps : policies (hc_Name n) w = Some ps →
    ∃ w', hcn_AddPolicy n qs w = (Ret tt, w') ∧ policies (hc_Name n) w' = Some (ps ++ qs) ∧
      ∀ name, name ≠ hc_Name n → policies name w' = policies name w;
  law_RemovePolicy n qs w ps : policies (hc_Name n) w = Some ps →
    ∃ w', hcn_RemovePolicy n qs w = (Ret tt, w') ∧ policies (hc_Name n) w' = Some (without ps qs) ∧
      ∀ name, name ≠ hc_Name n → policies name w' = policies name w
}.

Section laws.
Context {W : Type} `{HcnLaws W}.
Implicit Types (w : W) (ps : list NetworkPolicy) (r : RemoteRoute).

Lemma route_for_remote d p : route_for d p = (r ← remote_route p; if decide (rr_DestinationPrefix r = d) then Some r else None).
Proof. unfold route_for, remote_route. by case_decide. Qed.

Lemma remote_policy_route r : remote_route (remote_policy r) = Some r.
Proof. unfold remote_route, remote_policy. cbn. by rewrite law_Marshal. Qed.

Lemma same_remote p r : same_policy p (remote_policy r) ↔ remote_route p = Some r.
Proof.
  unfold same_policy, remote_policy, remote_route. cbn. rewrite law_Marshal. cbn. case_decide as E; [|naive_solver].
  split; [by intros [_ ->]|by intros [= ->]].
Qed.

Lemma without_one ps r : remote_routes (without ps [remote_policy r]) = filter (λ x, x ≠ r) (remote_routes ps).
Proof.
  unfold without, remote_routes. induction ps as [|p ps IH]; [done|]. destruct (decide (same_policy p (remote_policy r))) as [E|E].
  - rewrite filter_cons_False; [|by intros [Hno _]%list.Forall_cons]. apply same_remote in E. cbn [omap list_omap]. rewrite E.
    rewrite (filter_cons_False (λ x, x ≠ r)); [done|]. intros Hno. by apply Hno.
  - rewrite filter_cons_True by (by apply list.Forall_singleton). cbn [omap list_omap]. rewrite same_remote in E.
    destruct (remote_route p) as [x|] eqn:Ex; [|exact IH]. rewrite (filter_cons_True (λ x, x ≠ r)) by congruence. by rewrite IH.
Qed.

(** After the loop there is no route to the destination; the loop runs over the policies as they were. *)
Lemma remove_routes_run n d qs : ∀ w ps, policies (hc_Name n) w = Some ps →
  ∃ w' ps', remove_routes_to n d qs w = (Ret tt, w') ∧ policies (hc_Name n) w' = Some ps' ∧
    remote_routes ps' = filter (λ x, ¬ (rr_DestinationPrefix x = d ∧ x ∈ remote_routes qs)) (remote_routes ps) ∧
    ∀ name, name ≠ hc_Name n → policies name w' = policies name w.
Proof.
  induction qs as [|q qs IH]; intros w ps Hps; cbn [remove_routes_to].
  { exists w, ps. split_and!; [done|done| |done]. rewrite filter_all; [done|]. apply list.Forall_forall. intros x _ [_ []%not_elem_of_nil]. }
  rewrite route_for_remote. destruct (remote_route q) as [r|] eqn:Er; cbn [mbind option_bind].
  - case_decide as Hd.
    + destruct (law_RemovePolicy n [remote_policy r] w ps Hps) as (w1 & Hr & Hp1 & Ho1).
      assert ((_ ← try (hcn_RemovePolicy n [remote_policy r]); mret tt) w = (Ret tt, w1)) as Hstep.
      { unfold mbind, M_bind, try. by rewrite Hr. }
      rewrite (M_bind_Ret _ _ _ _ _ Hstep). destruct (IH w1 _ Hp1) as (w2 & ps2 & Hrun & Hp2 & Hrs & Ho2).
      exists w2, ps2. split_and!; [done|done| |intros name Hne; by rewrite Ho2, Ho1].
      rewrite Hrs, without_one, list_filter_filter. apply list_filter_iff. intros x. cbn [remote_routes omap list_omap]. rewrite Er, elem_of_cons.
      fold (remote_routes qs). naive_solver.
    + run. destruct (IH w ps Hps) as (w2 & ps2 & Hrun & Hp2 & Hrs & Ho2). exists w2, ps2. split_and!; [done|done| |done].
      rewrite Hrs. apply list_filter_iff. intros x. cbn [remote_routes omap list_omap]. rewrite Er, elem_of_cons. fold (remote_routes qs). naive_solver.
  - run. destruct (IH w ps Hps) as (w2 & ps2 & Hrun & Hp2 & Hrs & Ho2). exists w2, ps2. split_and!; [done|done| |done].
    rewrite Hrs. apply list_filter_iff. intros x. cbn [remote_routes omap list_omap]. rewrite Er. done.
Qed.

(** ** Events *)

(** What an event makes of the remote routes: a lease without an address of its router gets no route. *)
Definition routes_after (rs : list RemoteRoute) (e : Event) : list RemoteRoute :=
  match lease_route (Event_Lease e) with
  | None => rs
  | Some r =>
      let usable := bool_decide (rr_DistributedRouterMacAddress r ≠ "") in
      match Event_Type e with
      | EventAdded => filter (λ x, rr_DestinationPrefix x ≠ rr_DestinationPrefix r) rs ++ (if usable then [r] else [])
      | EventRemoved => if usable then filter (λ x, x ≠ r) rs else rs
      end
  end.

Variable nw : win_vxlan_network.
Variable link : HostComputeNetwork.
Hypothesis Hlink : wdev_link (wvn_dev nw) = Some link.

(** The network has these remote routes, and the other networks of the host their policies. *)
Definition has_routes (rs : list RemoteRoute) w : Prop := ∃ ps, policies (hc_Name link) w = Some ps ∧ remote_routes ps = rs.
Definition others_same w w' : Prop := ∀ name, name ≠ hc_Name link → policies name w' = policies name w.

Lemma try_add n r w ps : policies (hc_Name n) w = Some ps →
  ∃ w', (_ ← try (hcn_AddPolicy n [remote_policy r]); mret tt) w = (Ret tt, w') ∧ policies (hc_Name n) w' = Some (ps ++ [remote_policy r]) ∧
    ∀ name, name ≠ hc_Name n → policies name w' = policies name w.
Proof. intros Hps. destruct (law_AddPolicy n [remote_policy r] w ps Hps) as (w' & Hr & ?). exists w'. unfold mbind, M_bind, try. by rewrite Hr. Qed.
Lemma try_remove n r w ps : policies (hc_Name n) w = Some ps →
  ∃ w', (_ ← try (hcn_RemovePolicy n [remote_policy r]); mret tt) w = (Ret tt, w') ∧ policies (hc_Name n) w' = Some (without ps [remote_policy r]) ∧
    ∀ name, name ≠ hc_Name n → policies name w' = policies name w.
Proof. intros Hps. destruct (law_RemovePolicy n [remote_policy r] w ps Hps) as (w' & Hr & ?). exists w'. unfold mbind, M_bind, try. by rewrite Hr. Qed.

Lemma remote_routes_snoc ps r : remote_routes (ps ++ [remote_policy r]) = remote_routes ps ++ [r].
Proof. unfold remote_routes. rewrite omap_app. f_equal. cbn [omap list_omap]. by rewrite remote_policy_route. Qed.

Lemma win_vxlan_event_run e rs w : has_routes rs w →
  ∃ w', win_vxlan_event nw e w = (Ret tt, w') ∧ has_routes (routes_after rs e) w' ∧ others_same w w'.
Proof.
  intros (ps & Hps & <-). unfold win_vxlan_event, routes_after. destruct (lease_route (Event_Lease e)) as [r|]; [|by exists w; split_and!; [|exists ps|]].
  rewrite Hlink. cbn [deref]. run. pose proof (law_GetNetworkByName (hc_Name link) w) as Hget. rewrite Hps in Hget.
  destruct Hget as (n & Hget & Hname & Hpol). rewrite (run_try_Ret _ _ _ _ _ Hget). rewrite <- Hname in Hps. unfold has_routes, others_same. rewrite <- Hname.
  destruct (Event_Type e).
  - destruct (remove_routes_run n (rr_DestinationPrefix r) (hc_Policies n) w ps Hps) as (w1 & ps1 & Hrun & Hp1 & Hrs & Ho1).
    rewrite (M_bind_Ret _ _ _ _ _ Hrun). rewrite Hpol in Hrs.
    assert (remote_routes ps1 = filter (λ x, rr_DestinationPrefix x ≠ rr_DestinationPrefix r) (remote_routes ps)) as E1.
    { rewrite Hrs. apply filter_ext. intros x Hx. naive_solver. }
    case_decide as Hm.
    + rewrite bool_decide_eq_true_2 by done. destruct (try_add n r w1 ps1 Hp1) as (w2 & Hr2 & Hp2 & Ho2).
      exists w2. split_and!; [done| |intros name Hne; by rewrite Ho2, Ho1]. exists (ps1 ++ [remote_policy r]). by rewrite remote_routes_snoc, E1.
    + rewrite bool_decide_eq_false_2 by (by intros Hno; apply Hno in Hm || destruct (Hm Hno)). exists w1. split_and!; [done| |done]. exists ps1. by rewrite app_nil_r.
  - case_decide as Hm.
    + rewrite bool_decide_eq_true_2 by done. destruct (try_remove n r w ps Hps) as (w2 & Hr2 & Hp2 & Ho2).
      exists w2. split_and!; [done| |done]. exists (without ps [remote_policy r]). by rewrite without_one.
    + rewrite bool_decide_eq_false_2 by (by intros Hno; apply Hno in Hm || destruct (Hm Hno)). exists w. split_and!; [done|by exists ps|done].
Qed.

(** The remote routes follow the leases: after a batch the network has, of each lease announced last, the route that its
    data asks for, and none for a destination that was announced before with other data. *)
Theorem win_vxlan_routes_tracked es : ∀ rs w, has_routes rs w →
  ∃ w', win_vxlan_handleSubnetEvents nw es w = (Ret tt, w') ∧ has_routes (foldl routes_after rs es) w' ∧ others_same w w'.
Proof.
  induction es as [|e es IH]; intros rs w Hrs; [by exists w|]. destruct (win_vxlan_event_run e rs w Hrs) as (w1 & Hrun & Hr1 & Ho1).
  cbn [win_vxlan_handleSubnetEvents foldl]. rewrite (M_bind_Ret _ _ _ _ _ Hrun). destruct (IH _ w1 Hr1) as (w2 & Hrun2 & Hr2 & Ho2).
  exists w2. split_and!; [done..|]. intros name Hne. by rewrite Ho2, Ho1.
Qed.
End laws.

(** At most one route to a destination, whatever the events. *)
Definition one_per_destination (rs : list RemoteRoute) : Prop := NoDup (rr_DestinationPrefix <$> rs).

Lemma filter_destinations rs (P : RemoteRoute → Prop) `{∀ r, Decision (P r)} : one_per_destination rs → one_per_destination (filter P rs).
Proof.
  unfold one_per_destination. induction rs as [|r rs IH]; [done|]. rewrite fmap_cons, list.NoDup_cons. intros [Hnot Hnd].
  destruct (decide (P r)); [rewrite filter_cons_True by done|rewrite filter_cons_False by done; by apply IH].
  rewrite fmap_cons, list.NoDup_cons. split; [|by apply IH]. intros Hin. apply Hnot. apply list_elem_of_fmap in Hin as (x & -> & Hx).
  apply list_elem_of_filter in Hx as [_ Hx]. by apply list_elem_of_fmap_2.
Qed.

Theorem one_route_per_destination es : ∀ rs, one_per_destination rs → one_per_destination (foldl routes_after rs es).
Proof.
  induction es as [|e es IH]; intros rs Hrs; [done|]. apply IH. unfold routes_after. destruct (lease_route _) as [r|]; [|done].
  destruct (Event_Type e); [|case_bool_decide; [by apply filter_destinations|done]].
  pose proof (filter_destinations rs (λ x, rr_DestinationPrefix x ≠ rr_DestinationPrefix r) Hrs) as Hf. case_bool_decide; [|by rewrite app_nil_r].
  unfold one_per_destination in *. rewrite fmap_app. apply list.NoDup_app. split_and!; [done| |apply NoDup_singleton].
  intros x Hx%list_elem_of_fmap Hin%list_elem_of_singleton. destruct Hx as (y & -> & Hy). apply list_elem_of_filter in Hy as [Hne _]. by subst.
Qed.

(** ** Where it goes wrong *)

Section wrong.
Context {W : Type} `{PollClock, HcnJson, HCN W, WinIfaces W}.

(** A network that answers without an address until the time is over gives a device without a link, and no error; the
    first lease that the backend would use then is a nil dereference. *)
Theorem timeout_gives_nil_link existing expected (w w1 w2 : W) n :
  (match existing with Some x => wrapping "failed to delete existing HostComputeNetwork %s: %w" (hcn_Delete x) | None => mret tt end) w = (Ret tt, w1) →
  hcn_Create expected w1 = (Ret n, w2) →
  (∀ v, ∃ x v', hcn_GetNetworkByID (hc_Id n) v = (Ret x, v') ∧ getManagementIP x = "") →
  ∃ w3, create_hcn_network existing expected w = (Ret None, w3) ∧
    ∀ nw e r, wdev_link (wvn_dev nw) = None → lease_route (Event_Lease e) = Some r → win_vxlan_event nw e w3 = (Panic, w3).
Proof.
  intros Hdel Hcreate Hno. unfold create_hcn_network. rewrite (M_bind_Ret _ _ _ _ _ Hdel).
  rewrite (M_bind_Ret _ _ _ _ _ (wrapping_Ret _ _ _ _ _ Hcreate)).
  assert (∀ k v, ∃ v', poll_until k (provider_there (hc_Id n)) v = (Ret (inr None), v')) as Hpoll.
  { assert (∀ v, ∃ v', provider_there (hc_Id n) v = (Ret (inr None), v')) as Hone.
    { intros v. destruct (Hno v) as (x & v' & Hx & Hip). exists v'. unfold provider_there. rewrite (run_try_Ret _ _ _ _ _ Hx).
      by rewrite Hip. }
    intros k. induction k as [|k IH]; intros v; destruct (Hone v) as [v' Hv]; cbn [poll_until]; rewrite (M_bind_Ret _ _ _ _ _ Hv); [by exists v'|apply IH]. }
  destruct (Hpoll (poll_more (500 * millisecond) (5 * nanosecond_per_second)) w2) as [w3 Hw3]. rewrite (M_bind_Ret _ _ _ _ _ Hw3).
  exists w3. split; [done|]. intros nw e r Hnil Hr. unfold win_vxlan_event. by rewrite Hr, Hnil.
Qed.
End wrong.

(** The identifiers go up to 2^24 and the configuration is only checked from below; the lease carries sixteen bits.
    With the identifier 65536 a node announces 0, which every other node ignores. *)
Definition large_vni : win_vxlan_cfg := mkWinVxlanCfg "" "0E-2A" 65536 4789 false false.
Theorem large_VNI_ignored : ∃ cfg attrs, win_vxlan_verify large_vni = Ret cfg ∧
  win_newSubnetAttrs (IP4_ToIP 3232235777) (wv_VNI cfg mod 2 ^ 16) [0; 21; 93; 1; 2; 3] = Ret attrs ∧
  lease_route (mkLease true false (mkIP4Net 168099840 24) (mkIP6Net None 0) attrs 0 0) = None.
Proof. eexists _, _. split_and!; [reflexivity|reflexivity|]. vm_compute. reflexivity. Qed.
(** With the default it is used. *)
Example default_VNI_used :
  (attrs ← win_newSubnetAttrs (IP4_ToIP 3232235777) (win_defaultVNI mod 2 ^ 16) [0; 21; 93; 1; 2; 3];
   Ret (lease_route (mkLease true false (mkIP4Net 168099840 24) (mkIP6Net None 0) attrs 0 0))) =
  Ret (Some (mkRemoteRoute 4096 "00:15:5d:01:02:03" "192.168.1.1" "10.5.0.0/24")).
Proof. vm_compute. reflexivity. Qed.
(** The lease that a registration starts with, which has no address yet, is not one that other nodes can read. *)
Example first_lease_ignored :
  (attrs ← win_newSubnetAttrs (IP4_ToIP 3232235777) (win_defaultVNI mod 2 ^ 16) [];
   Ret (lease_route (mkLease true false (mkIP4Net 168099840 24) (mkIP6Net None 0) attrs 0 0))) = Ret None.
Proof. vm_compute. reflexivity. Qed.

(** ** Networks in memory *)

(** Settings as texts: any encoding that can be read back. *)
Definition route_fields (r : RemoteRoute) : Z * string * string * string :=
  (rr_IsolationId r, rr_DistributedRouterMacAddress r, rr_ProviderAddress r, rr_DestinationPrefix r).
#[global] Instance RemoteRoute_countable : Countable RemoteRoute.
Proof. apply (inj_countable' route_fields (λ p, mkRemoteRoute p.1.1.1 p.1.1.2 p.1.2 p.2)). by intros []. Defined.
Fixpoint tally (n : nat) : string := match n with O => "" | S n => String "|" (tally n) end.
Lemma tally_length n : String.length (tally n) = n.
Proof. induction n as [|n IH]; [done|]. cbn. by rewrite IH. Qed.

#[local] Instance mem_HcnJson : HcnJson := {|
  Marshal_Vsid vni := Ret (fmt_int vni);
  Marshal_SubnetPolicy s := Ret s;
  Marshal_RemoteRoute r := tally (encode_nat r);
  Unmarshal_RemoteRoute s :=
    match decode_nat (String.length s) with Some r => (r, None) | None => (mkRemoteRoute 0 "" "" "", Some (Errorf "bad settings")) end;
  Unmarshal_ProviderAddress s := Ret s;
  Unmarshal_DrMac s := Ret s
|}.
Abbreviation hcn_table := (gmap string (list NetworkPolicy)).
Definition mem_network (name : string) (ps : list NetworkPolicy) : HostComputeNetwork := mkHcn name name "Overlay" [] ps true (2, 0).
#[local] Instance mem_HCN : HCN hcn_table := {|
  RemoteSubnetSupported w := (Ret tt, w);
  hcn_GetNetworkByName name w := (match w !! name with Some ps => Ret (mem_network name ps) | None => Err (Errorf "not found") end, w);
  hcn_GetNetworkByID name w := (match w !! name with Some ps => Ret (mem_network name ps) | None => Err (Errorf "not found") end, w);
  hcn_Create n w := (Ret (mem_network (hc_Name n) (hc_Policies n)), <[hc_Name n := hc_Policies n]> w);
  hcn_Delete n w := (Ret tt, delete (hc_Name n) w);
  hcn_AddPolicy n qs w := (Ret tt, alter (λ ps, ps ++ qs) (hc_Name n) w);
  hcn_RemovePolicy n qs w := (Ret tt, alter (λ ps, without ps qs) (hc_Name n) w)
|}.
#[local, refine] Instance mem_HcnLaws : HcnLaws hcn_table := {| policies name w := w !! name |}.
Proof.
  - intros r. cbn. by rewrite tally_length, decode_encode_nat.
  - intros name w. cbn. destruct (w !! name) as [ps|]; [|by eexists]. by exists (mem_network name ps).
  - intros n qs w ps Hps. eexists. split; [done|]. cbn. rewrite lookup_alter_eq, Hps. split; [done|]. intros name Hne. by rewrite lookup_alter_ne.
  - intros n qs w ps Hps. eexists. split; [done|]. cbn. rewrite lookup_alter_eq, Hps. split; [done|]. intros name Hne. by rewrite lookup_alter_ne.
Defined.

(** A lease that is announced on an overlay without policies is the one remote route. *)
Definition sample_win_network : win_vxlan_network :=
  mkWinVxlanNetwork (mkLease true false (mkIP4Net 168099840 24) (mkIP6Net None 0) (mkLeaseAttrs 0 None "vxlan" None None) 0 0)
    (mkExternalInterface 1500 2 "eth0" [] [] [] []) (mkWinDevice (Some (mem_network "flannel.4096" [])) "0E-2A" false).
Definition sample_lease_data : RawMessage := Some (vxlanLeaseAttrs_Marshal (mkVxlanAttrs 4096 [0; 21; 93; 1; 2; 3])).
Definition sample_win_event : Event :=
  mkEvent EventAdded (mkLease true false (mkIP4Net 168100096 24) (mkIP6Net None 0) (mkLeaseAttrs 3232235777 None "VXLAN" sample_lease_data None) 0 0).
Lemma sample_route_tracked : ∃ w', win_vxlan_handleSubnetEvents sample_win_network [sample_win_event] {["flannel.4096" := []]} = (Ret tt, w') ∧
  has_routes (mem_network "flannel.4096" []) [mkRemoteRoute 4096 "00:15:5d:01:02:03" "192.168.1.1" "10.5.1.0/24"] w'.
Proof.
  destruct (win_vxlan_routes_tracked sample_win_network (mem_network "flannel.4096" []) eq_refl [sample_win_event] [] {["flannel.4096" := []]})
    as (w' & Hrun & Hrs & _).
  - exists []. split; [|done]. by apply lookup_singleton_Some.
  - exists w'. split; [exact Hrun|]. assert (foldl routes_after [] [sample_win_event] = [mkRemoteRoute 4096 "00:15:5d:01:02:03" "192.168.1.1" "10.5.1.0/24"]) as E
      by (vm_compute; reflexivity). by rewrite <- E.
Qed.
