(* ===== verification/InstallConf.v ===== *)
(** * [cmd/install_conf] and [pkg/utils]: installing a file in one step

    [CopyFileAtomic] copies to a temporary file beside the destination and renames it.  The destination is the old file or
    the new one, whole; the temporary file is not always removed. *)

From Stdlib Require Import ZArith Lia Ascii.
From stdpp Require Import base strings list gmap numbers.
From S2P Require Import Prelude GoStrings GoNet Ip4 Ip6 Lease Registry MeshConfig MeshApi MeshEnroll MeshEnrollFacts.

Local Open Scope Z_scope.

(** The calls on files beside those of [StateFiles]: the mode of a file, opening it, the copy between two files. *)
Class CopyFiles (W : Type) := {
  fs_Stat : string → M W Z;
  fs_Open : string → M W unit;
  io_Copy : string → string → M W unit;
  fs_Sync : string → M W unit;
  fs_CloseSource : string → M W unit;
  IsNotExist : error → bool
}.

Section copy.
Context {W : Type} `{StateFiles W, CopyFiles W}.

(** Once the temporary file [f] is filled: nothing of this changes what is in files. *)
Definition seal_temp (srcFilePath f destFilePath : string) : M W unit :=
  _ ← wrapping "cannot flush temp file %q: %v" (fs_Sync f);
  _ ← wrapping "cannot close temp file %q: %v" (file_Close f);
  dest ← try (fs_Stat destFilePath);
  _ ← match dest with
      | inr err => if IsNotExist err then mret tt else throw err
      | inl _ => mret tt
      end;
  mode ← fs_Stat srcFilePath;
  wrapping "cannot set stat on temp file %q: %v" (file_Chmod f mode).

Definition copy_and_replace (srcFilePath f tempFilePath destFilePath : string) : M W unit :=
  c ← try (io_Copy srcFilePath f);
  match c with
  | inr err =>
      _ ← try (file_Close f);
      _ ← try (file_Remove tempFilePath);
      throw (Wrapf "cannot write data to temp file %q: %v" err)
  | inl _ =>
      _ ← seal_temp srcFilePath f destFilePath;
      wrapping "cannot replace %q with temp file %q: %v" (file_Rename f destFilePath)
  end.

(** A file with the name of the pattern is removed. *)
Definition remove_old (tempFilePath : string) : M W unit :=
  old ← try (fs_Stat tempFilePath);
  match old with
  | inl _ => wrapping "cannot remove old temp file %q: %v" (file_Remove tempFilePath)
  | inr _ => mret tt
  end.

Definition CopyFileAtomic (srcFilePath destDir tempFileName destFileName : string) : M W unit :=
  let tempFilePath := path_Join [destDir; tempFileName] in
  _ ← remove_old tempFilePath;
  f ← wrapping "cannot create temp file %q in %q: %v" (CreateTemp destDir tempFileName);
  deferring (file_Close f) (
    _ ← wrapping "cannot open file %q: %v" (fs_Open srcFilePath);
    deferring (fs_CloseSource srcFilePath)
      (copy_and_replace srcFilePath f tempFilePath (path_Join [destDir; destFileName]))).

(** [filepath.Base]. *)
Definition file_Base (path : string) : string :=
  if decide (path = "") then "."
  else default "/" (list.last (filter (λ c, c ≠ "") (split_char "/" path))).

(** The exit code of the command, of its arguments with its name first. *)
Definition install_main (args : list string) : M W Z :=
  match args with
  | [_; src; dest] =>
      let destFileName := file_Base dest in
      r ← try (CopyFileAtomic src (Dir dest) ("." +:+ destFileName +:+ ".tmp") destFileName);
      mret (match r with inl _ => 0 | inr _ => 1 end)
  | _ => mret 1
  end.
End copy.

(** ** What is documented of the files *)

(** A temporary file is new and its name is longer than the pattern. *)
Class CopyLaws (W : Type) `{StateFiles W, CopyFiles W} := {
  cfiles : W → gmap string string;
  law_fs_Stat p w : cfiles (fs_Stat p w).2 = cfiles w;
  law_fs_Open p w : cfiles (fs_Open p w).2 = cfiles w;
  law_fs_Sync p w : cfiles (fs_Sync p w).2 = cfiles w;
  law_fs_Close p w : cfiles (file_Close p w).2 = cfiles w ∧ (file_Close p w).1 ≠ Panic;
  law_fs_CloseSource p w : cfiles (fs_CloseSource p w).2 = cfiles w ∧ (fs_CloseSource p w).1 ≠ Panic;
  law_fs_Chmod p mode w : cfiles (file_Chmod p mode w).2 = cfiles w;
  law_fs_Remove p w : ∀ q, q ≠ p → cfiles (file_Remove p w).2 !! q = cfiles w !! q;
  law_fs_CreateTemp dir pattern w :
    match CreateTemp dir pattern w with
    | (Ret name, w') => name ≠ path_Join [dir; pattern] ∧ HasPrefix name (temp_prefix dir pattern) = true ∧
        cfiles w !! name = None ∧ cfiles w' = <[name := ""]> (cfiles w)
    | (_, w') => cfiles w' = cfiles w
    end;
  (** what the copy leaves of a file that it fails to fill *)
  law_io_Copy p q w c : cfiles w !! q = Some "" → cfiles w !! p = Some c → p ≠ q →
    match io_Copy p q w with
    | (Ret _, w') => cfiles w' = <[q := c]> (cfiles w)
    | (_, w') => ∃ part, cfiles w' = <[q := part]> (cfiles w)
    end;
  law_fs_Rename p q w c : cfiles w !! p = Some c →
    match file_Rename p q w with
    | (Ret _, w') => cfiles w' = <[q := c]> (delete p (cfiles w))
    | (_, w') => cfiles w' = cfiles w
    end
}.

Section theorems.
Context {W : Type} `{CopyLaws W}.
Implicit Types (w : W) (p q src f dest : string).

(** The files outside of a set are as they were. *)
Definition only_changes (ps : list string) w w' : Prop := ∀ q, q ∉ ps → cfiles w' !! q = cfiles w !! q.

Lemma seal_temp_keeps src f dest m : preserves (λ v, cfiles v = m) (seal_temp src f dest).
Proof.
  assert (∀ A (c : M W A), (∀ v, cfiles (c v).2 = cfiles v) → preserves (λ v, cfiles v = m) c) as Hcall by (intros A c Hc v Hv; by rewrite Hc).
  apply preserves_bind; [apply preserves_wrapping, Hcall; intros v; apply law_fs_Sync|]. intros _.
  apply preserves_bind; [apply preserves_wrapping, Hcall; intros v; apply law_fs_Close|]. intros _.
  apply preserves_bind; [apply preserves_try, Hcall; intros v; apply law_fs_Stat|]. intros d.
  apply preserves_bind; [destruct d as [d|err]; [apply preserves_ret|destruct (IsNotExist err); [apply preserves_ret|apply preserves_throw]]|]. intros _.
  apply preserves_bind; [apply Hcall; intros v; apply law_fs_Stat|]. intros mode. apply preserves_wrapping, Hcall. intros v. apply law_fs_Chmod.
Qed.

Lemma clean_up_keeps f temp (e : error) w : ∃ r w', (_ ← try (file_Close f); _ ← try (file_Remove temp); throw e : M W unit) w = (r, w') ∧
  (∀ b, r ≠ Ret b) ∧ ∀ q, q ≠ temp → cfiles w' !! q = cfiles w !! q.
Proof.
  unfold mbind, M_bind, try. pose proof (law_fs_Close f w) as [Hc _]. destruct (file_Close f w) as [[[]|e1|] w1]; cbn in Hc;
    [| |by exists Panic, w1; rewrite <- Hc];
    (pose proof (law_fs_Remove temp w1) as Hr; destruct (file_Remove temp w1) as [[[]|e2|] w2]; cbn in Hr; rewrite <- Hc; eexists _, _; by split_and!).
Qed.

(** From the copy on: the destination gets the whole source, or nothing but the temporary files changes; where the copy
    fails, the file that was made stays, for it is another that is removed. *)
Lemma copy_and_replace_spec src f temp dest c w r w' :
  cfiles w !! f = Some "" → cfiles w !! src = Some c → src ≠ f → f ≠ temp →
  copy_and_replace src f temp dest w = (r, w') →
  match r with
  | Ret _ => cfiles w' = <[dest := c]> (delete f (cfiles w))
  | _ => only_changes [f; temp] w w' ∧ (f ≠ dest → is_Some (cfiles w' !! f))
  end.
Proof.
  intros Hf Hsrc Hne Hft Hrun. unfold copy_and_replace in Hrun. pose proof (law_io_Copy src f w c Hf Hsrc Hne) as Hcopy.
  assert (∀ x v, cfiles v = <[f := x]> (cfiles w) → only_changes [f; temp] w v ∧ (f ≠ dest → is_Some (cfiles v !! f))) as Hpart.
  { intros x v Hv. split; [intros q Hq; rewrite Hv, lookup_insert_ne; set_solver|]. rewrite Hv, lookup_insert_eq. by eexists. }
  unfold mbind at 1, M_bind at 1, try at 1 in Hrun. destruct (io_Copy src f w) as [[[]|e|] w1].
  - pose proof (seal_temp_keeps src f dest _ w1 Hcopy) as Hseal. unfold mbind, M_bind in Hrun.
    destruct (seal_temp src f dest w1) as [[[]|e|] w2]; cbn in Hseal; [|injection Hrun as <- <-; by eapply Hpart..].
    assert (cfiles w2 !! f = Some c) as Hf2 by (by rewrite Hseal, lookup_insert_eq).
    pose proof (law_fs_Rename f dest w2 c Hf2) as Hren. unfold wrapping, mbind, M_bind, try in Hrun.
    destruct (file_Rename f dest w2) as [[[]|e|] w3]; cbn in Hrun; injection Hrun as <- <-.
    + by rewrite Hren, Hseal, delete_insert_eq.
    + eapply Hpart. by rewrite Hren.
    + eapply Hpart. by rewrite Hren.
  - destruct Hcopy as [part Hcopy]. destruct (clean_up_keeps f temp (Wrapf "cannot write data to temp file %q: %v" e) w1) as (r1 & w2 & Hcl & Hno & Hk).
    rewrite Hcl in Hrun. injection Hrun as <- <-. destruct (Hpart _ _ Hcopy) as [Ho Hs].
    assert (only_changes [f; temp] w w2 ∧ (f ≠ dest → is_Some (cfiles w2 !! f))) as Hres.
    { split; [intros q Hq; rewrite Hk by set_solver; by apply Ho|]. rewrite Hk by done. done. }
    destruct r1; [by destruct (Hno a)|done..].
  - destruct Hcopy as [part Hcopy]. injection Hrun as <- <-. by eapply Hpart.
Qed.

Lemma remove_old_keeps temp w0 : preserves (only_changes [temp] w0) (remove_old temp).
Proof.
  apply preserves_bind; [apply preserves_try; intros v Hv q Hq; rewrite law_fs_Stat; by apply Hv|]. intros [z|e]; [|apply preserves_ret].
  apply preserves_wrapping. intros v Hv q Hq. rewrite law_fs_Remove by set_solver. by apply Hv.
Qed.

Lemma deferring_run {A} (d : M W unit) (m : M W A) w r w' :
  (∀ v, cfiles (d v).2 = cfiles v ∧ (d v).1 ≠ Panic) → deferring d m w = (r, w') →
  ∃ w1, m w = (r, w1) ∧ cfiles w' = cfiles w1.
Proof.
  intros Hd Hrun. unfold deferring, mbind, M_bind, try in Hrun. destruct (m w) as [[a|e|] w1]; [| |by injection Hrun as <- <-; exists w1];
    (destruct (Hd w1) as [Hf Hp]; destruct (d w1) as [[[]|e1|] w2]; cbn in *; [..|done]; injection Hrun as <- <-; by exists w1).
Qed.

(** [CopyFileAtomic] replaces the destination by the whole source when it succeeds, and leaves it as it was when it does
    not; of the other files only temporary ones of the destination can change. *)
Theorem CopyFileAtomic_atomic src destDir tempName destName c w r w' :
  let dest := path_Join [destDir; destName] in
  let temp := path_Join [destDir; tempName] in
  cfiles w !! src = Some c → src ≠ temp → dest ≠ temp → HasPrefix dest (temp_prefix destDir tempName) = false →
  CopyFileAtomic src destDir tempName destName w = (r, w') →
  cfiles w' !! dest = match r with Ret _ => Some c | _ => cfiles w !! dest end ∧
  ∀ q, q ≠ dest → q ≠ temp → HasPrefix q (temp_prefix destDir tempName) = false → cfiles w' !! q = cfiles w !! q.
Proof.
  intros dest temp Hsrc Hst Hdt Hpre Hrun. unfold CopyFileAtomic in Hrun. fold temp dest in Hrun.
  assert (∀ (r : outcome unit) v, only_changes [temp] w v → (∀ b, r ≠ Ret b) →
    cfiles v !! dest = match r with Ret _ => Some c | _ => cfiles w !! dest end ∧
    ∀ q, q ≠ dest → q ≠ temp → HasPrefix q (temp_prefix destDir tempName) = false → cfiles v !! q = cfiles w !! q) as Hfail.
  { intros r0 v Hv Hno. split; [|intros q _ Hq _; apply Hv; set_solver]. destruct r0; [by destruct (Hno a)|apply Hv; set_solver..]. }
  unfold mbind at 1, M_bind at 1 in Hrun. assert (only_changes [temp] w (remove_old temp w).2) as Hold by (by apply remove_old_keeps).
  destruct (remove_old temp w) as [[[]|e|] w1]; cbn in Hold; [|injection Hrun as Er <-; apply (Hfail r); [done|by rewrite <- Er]..].
  unfold mbind at 1, M_bind at 1 in Hrun. unfold wrapping at 1, try at 1, mbind at 1, M_bind at 1 in Hrun. pose proof (law_fs_CreateTemp destDir tempName w1) as Hcreate. fold temp in Hcreate.
  destruct (CreateTemp destDir tempName w1) as [[f|e|] w2]; cbn in Hrun;
    [|injection Hrun as Er <-; apply (Hfail r); [intros q Hq; rewrite Hcreate; by apply Hold|by rewrite <- Er]..].
  destruct Hcreate as (Hft & Hfp & Hnew & Hw2). apply deferring_run in Hrun as (w3 & Hrun & E3); [|intros v; apply law_fs_Close].
  assert (cfiles w1 !! src = Some c) as Hsrc1 by (rewrite Hold; [done|set_solver]).
  assert (src ≠ f) as Hsf by congruence. assert (f ≠ dest) as Hfd by congruence.
  assert (∀ v, only_changes [f; temp] w2 v → ∀ q, q ≠ f → q ≠ temp → cfiles v !! q = cfiles w !! q) as Hothers.
  { intros v Hv q Hqf Hqt. rewrite Hv, Hw2, lookup_insert_ne by set_solver. apply Hold. set_solver. }
  rewrite E3. unfold mbind at 1, M_bind at 1 in Hrun. unfold wrapping at 1, try at 1, mbind at 1, M_bind at 1 in Hrun. pose proof (law_fs_Open src w2) as Hopen.
  destruct (fs_Open src w2) as [[[]|e|] w4]; cbn in Hopen, Hrun;
    [|injection Hrun as <- <-; assert (only_changes [f; temp] w2 w4) as Ho by (intros q _; by rewrite Hopen);
      split; [by apply Hothers|intros q _ Hqt Hqp; apply Hothers; congruence]..].
  apply deferring_run in Hrun as (w5 & Hrun & E5); [|intros v; apply law_fs_CloseSource]. rewrite E5.
  apply (copy_and_replace_spec src f temp dest c) in Hrun; [|by rewrite Hopen, Hw2, lookup_insert_eq|by rewrite Hopen, Hw2, lookup_insert_ne|done|done].
  assert (∀ v, only_changes [f; temp] w4 v → only_changes [f; temp] w2 v) as Htrans by (intros v Hv q Hq; by rewrite Hv, Hopen).
  destruct r as [[]|e|].
  - rewrite Hrun. split; [by rewrite lookup_insert_eq|]. intros q Hqd Hqt Hqp.
    rewrite lookup_insert_ne, lookup_delete_ne, Hopen, Hw2, lookup_insert_ne by congruence. apply Hold. set_solver.
  - destruct Hrun as [Ho _]. pose proof (Hothers _ (Htrans _ Ho)) as Hv. split; [by apply Hv|]. intros q _ Hqt Hqp. apply Hv; congruence.
  - destruct Hrun as [Ho _]. pose proof (Hothers _ (Htrans _ Ho)) as Hv. split; [by apply Hv|]. intros q _ Hqt Hqp. apply Hv; congruence.
Qed.
End theorems.

(** ** Files in memory *)

(** The files, and whether a copy breaks off. *)
Record MemFiles := mkMemFiles { mf_files : gmap string string; mf_full : bool }.
Definition on_files (f : gmap string string → gmap string string) (w : MemFiles) : MemFiles := mkMemFiles (f (mf_files w)) (mf_full w).
Definition no_such_file : error := Sentinel "no such file or directory".
Definition have_file (p : string) (w : MemFiles) : outcome string := match mf_files w !! p with Some c => Ret c | None => Err no_such_file end.

#[local] Instance mem_StateFiles : StateFiles MemFiles := {|
  ReadFile p w := (have_file p w, w);
  MkdirAll p mode w := (Ret tt, w);
  CreateTemp dir pattern w :=
    let name := temp_prefix dir pattern +:+ "1" in
    if decide (name ≠ path_Join [dir; pattern] ∧ mf_files w !! name = None) then (Ret name, on_files <[name := ""]> w)
    else (Err (Errorf "file exists"), w);
  file_Chmod p mode w := (Ret tt, w);
  file_Write p s w := (Ret tt, on_files (alter (λ c, c +:+ s) p) w);
  file_Close p w := (Ret tt, w);
  file_Rename p q w :=
    match mf_files w !! p with Some c => (Ret tt, on_files (λ fs, <[q := c]> (delete p fs)) w) | None => (Err no_such_file, w) end;
  file_Remove p w := (Ret tt, on_files (delete p) w)
|}.
#[local] Instance mem_CopyFiles : CopyFiles MemFiles := {|
  fs_Stat p w := (c ← have_file p w; Ret 420, w);
  fs_Open p w := (c ← have_file p w; Ret tt, w);
  io_Copy p q w :=
    match mf_files w !! p with
    | Some c => if mf_full w then (Err (Errorf "no space left on device"), on_files <[q := ""]> w) else (Ret tt, on_files <[q := c]> w)
    | None => (Err no_such_file, w)
    end;
  fs_Sync p w := (Ret tt, w);
  fs_CloseSource p w := (Ret tt, w);
  IsNotExist e := bool_decide (e = no_such_file)
|}.
#[local, refine] Instance mem_CopyLaws : CopyLaws MemFiles := {| cfiles := mf_files |}.
Proof.
  all: try done.
  - intros p w q Hq. cbn. by rewrite lookup_delete_ne.
  - intros dir pattern w. cbn. case_decide as Hd; [|done]. destruct Hd as [Hne Hnew]. split_and!; [done|by apply HasPrefix_app|done|done].
  - intros p q w c Hq Hp Hne. cbn. rewrite Hp. destruct (mf_full w); [by exists ""|done].
  - intros p q w c Hp. cbn. by rewrite Hp.
Defined.

(** The command replaces a file; a copy that breaks off leaves the destination and a file in its directory. *)
Definition installed (full : bool) : outcome Z * list (string * string) :=
  let '(r, w) := install_main ["install"; "/src/net.conf"; "/etc/cni/net.conf"]
                   (mkMemFiles {["/src/net.conf" := "new"; "/etc/cni/net.conf" := "old"]} full) in
  (r, (λ p, (p, default "none" (mf_files w !! p))) <$> ["/etc/cni/net.conf"; "/etc/cni/.net.conf.tmp1"]).
Example install_replaces : installed false = (Ret 0, [("/etc/cni/net.conf", "new"); ("/etc/cni/.net.conf.tmp1", "none")]).
Proof. vm_compute. reflexivity. Qed.
Example broken_copy_left : installed true = (Ret 1, [("/etc/cni/net.conf", "old"); ("/etc/cni/.net.conf.tmp1", "")]).
Proof. vm_compute. reflexivity. Qed.
